(* ===== verification/_CoqProject ===== *)
-Q . S2P
Prelude.v
Bytes.v
Machine.v
Demo.v
Cstring.v
Spinlock.v
Consout.v
Kbd.v
Kalloc.v
Hw.v
Rtc.v
Sleep.v
Ide.v
Disk.v
Bio.v
Cache.v
Log.v
Fs.v
Blocks.v
Filedata.v
Directory.v
Vm.v
Pagetable.v
Uvm.v
Freevm.v
Pipe.v
File.v
Proc.v
Lottery.v
Fork.v
Exit.v
Console.v
Syscall.v
Sysproc.v
Exec.v
Sysfile.v
Trap.v
Keeps.v
Stable.v
Locks.v
Main.v
Types.v
Typed.v
Image.v
User.v
Umalloc.v
Tools.v
Usertests.v
Grep.v
Shell.v
Mkfs.v
Boot.v
