(* ===== verification/Prelude.v ===== *)
(** * A verification development for the xv6 kernel of this repository

    ** The program

    src/ is a teaching kernel for the x86: a boot loader, a kernel with processes,
    virtual memory, a logging file system and device drivers, and the programs
    that run on it.  It differs from its model, xv6, in two features: the
    scheduler draws lots (proc.c), and every process counts its system calls
    (sysproc.c, [sys_count]).

    A trap (trap.c) comes from a device or from a process; a system call is
    dispatched by syscall.c to sysproc.c or sysfile.c, which check their arguments
    and call the layers below: processes (proc.c) over page tables (vm.c) over
    the page allocator (kalloc.c); open files (file.c) over pipes (pipe.c),
    devices (console.c) and inodes (fs.c), these over the log (log.c), the
    buffer cache (bio.c) and a disk driver (ide.c or memide.c).  All of them
    lock with spinlock.c and wait with [sleep] and [wakeup] of proc.c.

    ** How it is modelled

    A C function becomes a Rocq function of the same name with the same
    branches, early returns and order of effects.  Functions without effects are
    plain functions.  The others are computations of the monad [M S A] (this
    file) over a state: they return a value ([Ok]), call [panic] with the
    message of the source ([Panic]), or wait for something that never happens
    ([Hang]).  The state of the kernel, [kernel] in Machine.v, has one field per
    global variable of the source, the memory, and the devices' registers.
    Integers are [Z] with their wrap-around written out (Bytes.v).

    What other processors, interrupt handlers and devices do is a schedule, a list
    of state transformers: where a function gives the processor away ([sched]),
    spins on a lock, or polls a device, the next entry is applied to the state.
    Theorems quantify over the schedule, so over every interleaving at these
    points.  A loop that waits for its schedule ends in [Hang] when the schedule
    is used up; the other loops run over a list, or with a bound that is shown to
    be enough where a theorem is about them.

    Programs of the user side are computations over a state that the class [OS]
    (User.v) equips with one operation per system call; the classes [Streams]
    and [Umalloc.Break] state what the theorems rely on, with instances that
    are run in the examples.  The disk driver below the buffer cache is the
    class [DiskDriver] (Disk.v), with memide.c as an instance, the devices of
    file.h are the class [Devsw] (Fs.v).  What theorems about all system calls need
    of a driver and of the devices are the classes [FramedDriver], [FramedDevices]
    (Keeps.v), [BalancedDriver], [BalancedDevices] (Locks.v), [TypedDriver] and
    [TypedDevices] (Typed.v), with memide.c and the console as instances.  The
    loads and stores of usertests.c's [sbrktest] and the assembly of its
    [validatetest] are parameters.

    ** The files

    - Prelude.v: the monad, its equations, a weakest precondition, loops, and
      lemmas on lists.  Bytes.v: machine integers and byte strings.  Machine.v:
      the constants and structures of the headers and the state of the kernel.
      Demo.v: a small machine for the examples.
    - Cstring.v: string.c.  Spinlock.v: spinlock.c; its module [Smp] has one step per
      memory access, for several processors.  Consout.v: console.c and uart.c,
      output.  Kbd.v: kbd.c.  Console.v: console.c, uart.c, kbd.c, input.
    - Kalloc.v: kalloc.c.  Hw.v: picirq.c, ioapic.c, timer.c, lapic.c, mp.c.  Rtc.v:
      [cmostime] of lapic.c.
    - Sleep.v: [sched], [sleep], [wakeup], [kill] of proc.c.  Proc.v: the rest of it,
      with the lottery.  Lottery.v: the random numbers over many rounds.  Fork.v:
      [fork] and [wait].  Exit.v: [exit].
    - Ide.v: ide.c.  Disk.v: the driver interface and memide.c.  Bio.v: bio.c.
      Cache.v: the contract of the buffer cache.  Log.v: log.c.  Fs.v: fs.c; over
      it, and over the contracts of the cache and the log, Blocks.v (the map of
      free blocks), Filedata.v (the bytes of files) and Directory.v.
    - Vm.v: vm.c.  Pagetable.v: what it does to the translation of addresses.  Uvm.v:
      [setupkvm] and [copyuvm].  Freevm.v: [deallocuvm] and [freevm].
    - Pipe.v: pipe.c.  File.v: file.c.  Exec.v: exec.c.  Syscall.v, Trap.v: syscall.c and
      trap.c.  Sysproc.v: sysproc.c.  Sysfile.v: sysfile.c.  Main.v: main.c.
    - Over all of these, Keeps.v: the parts of the state that no function below the
      process table changes, as a class.  Image.v: what [exec] replaces.  Stable.v:
      what every system call leaves alone, and what it counts.  Locks.v: the locks that every function takes and gives back.
      Types.v, Typed.v: the sizes and ranges of the kernel's data, which every
      function keeps.
    - User.v: ulib.c, printf.c.  Umalloc.v: umalloc.c.  Tools.v, Grep.v, Shell.v: the
      programs.  Usertests.v: usertests.c.  Mkfs.v: mkfs.c.  Boot.v: bootmain.c.

    ** What is shown

    - Crash safety.  A transaction of the log is atomic: whichever of its disk
      writes a crash cuts off, recovery yields the disk before it or after it,
      and recovery may itself be interrupted (Log.v, over the contract of the
      buffer cache, over the driver interface).
    - Concurrency.  A spin lock excludes in every interleaving of memory accesses;
      a trap that returns has given back every lock it took (Locks.v);
      [sleep] loses no wakeup; [wakeup] wakes exactly the sleepers on its channel;
      a pipe is a first-in first-out queue under every interleaving of its
      readers and writers and across the wrap of its counters.
    - The lottery.  It runs a runnable process, with a chance in proportion to its
      tickets, when the array of candidates is clean, and no runnable process
      starves, because the generator goes through all numbers of 32 bits; but
      the array is not cleaned between rounds, so that a sleeping process can be
      run.
    - Types.  From the boot loader on, in every state of a machine whose processors,
      traps, programs and devices are interleaved where the kernel waits, every
      table has its size, every pointer leads into its table, and every byte and
      integer has a value of its type (Typed.v).
    - Processes.  [allocproc] hands out a slot with a kernel stack from which the
      process starts in [forkret]; the slot keeps its old count of system calls.
      [fork] makes a runnable child with its parent's memory, files and directory,
      or changes nothing that matters; [exit] leaves a zombie without files, whose
      children the first process has; [wait] returns its number and frees its slot
      and its pages; a child that is waited for has cost no page (Fork.v, Exit.v).
      [exec] gives the process the whole new image or leaves it the old one (Image.v).
      A timer interrupt takes the processor away (Trap.v).
    - Memory.  The page allocator implements a list of free pages; [mappages] and
      [allocuvm] change exactly the translations asked for; [copyuvm] gives a
      child the bytes of its parent, and [freevm] gives every page back, so that
      a copy that ends leaves the allocator as it was; the programs' [malloc]
      and [free] implement a set of free bytes.
    - Files.  In a transaction, [balloc] takes a free block and [bfree] gives it back
      (Blocks.v), what [writei] writes over a file's bytes [readi] reads, through
      direct and indirect blocks (Filedata.v), and what [dirlink] links
      [dirlookup] finds (Directory.v); these leave all other blocks alone.
      Inodes on the disk read back as written; the inode cache has no
      duplicates; path names are cut at their slashes; references to open files
      are counted; mkfs lays out the disk the kernel expects; the boot loader
      loads the bytes of the kernel's image.
    - System calls.  Arguments are checked before they are used, with one gap:
      negative sizes.  Each one but [dup] is counted once, in the caller's slot, and
      [count] returns how many there were (Stable.v).
    - Texts.  [cprintf] prints what its format says and stays on the screen; the
      console's input is a line editor; the shell's parser ends on every line
      and its words are words of the line; grep's matcher decides what its
      patterns mean.

    Theorems that show a defect say so in their comments.

    ** Bounds

    Tables have the sizes of param.h.  [loop_fuel] takes a bound, which is the
    number of things the loop can visit and a small constant for its last test:
    the blocks of the disk in [balloc], the inodes in [ialloc], the blocks of
    the range in [readi] and [writei], the entries of the directory in
    [dirlookup], [dirlink] and [isdirempty], the characters of the path in
    [namex], the pages of the range in vm.c, the buffers in [bget], the bytes of
    the table in [mpinit], the sectors in [readseg].  The shell's parser goes
    down at most as often as the line has characters, and two times more.  The
    allocator of the programs has any bound beyond twice the number of free
    blocks.  Programs with an unbounded loop ([cat], [wc], [grep], [init], [sh]) take the bound as their first
    argument, and the theorems say how large it has to be.

    ** Not modelled

    - Assembly (bootasm.S, entry.S, entryother.S, swtch.S, trapasm.S, initcode.S,
      usys.S) and the table that vectors.pl generates.  [swtch] is a step of the
      schedule; a trap enters at [trap].
    - The registers of a process apart from the fields of its trap frame and context
      that the kernel reads or writes, and the instructions of user programs:
      they are the schedule's.
    - The time between two steps that do not give the processor away: the kernel
      model has one processor, on which interrupts are taken at the points
      above.  Only Spinlock.v's [Smp] has a finer interleaving. *)

From Stdlib Require Export ZArith Lia.
From stdpp Require Export base numbers strings gmap list.

#[global] Open Scope Z_scope.

#[global] Arguments Z.ltb : simpl never.
#[global] Arguments Z.leb : simpl never.
#[global] Arguments Z.eqb : simpl never.
#[global] Arguments Z.add : simpl never.
#[global] Arguments Z.sub : simpl never.
#[global] Arguments Z.mul : simpl never.
#[global] Arguments Z.opp : simpl never.
#[global] Arguments Z.div : simpl never.
#[global] Arguments Z.modulo : simpl never.
#[global] Arguments Z.pow : simpl never.
#[global] Arguments Z.land : simpl never.
#[global] Arguments Z.lor : simpl never.
#[global] Arguments Z.lxor : simpl never.
#[global] Arguments Z.shiftl : simpl never.
#[global] Arguments Z.shiftr : simpl never.
#[global] Arguments Z.to_nat : simpl never.
#[global] Arguments Z.of_nat : simpl never.

(** ** The kernel monad

    A C function of the kernel becomes a computation [M S A] over the state
    [S].  It either returns ([Ok]), calls [panic] ([Panic], with the message
    of the source), or waits for an event that never comes ([Hang]).

    The first argument is the schedule: the list of the state changes that
    the rest of the machine (other processes, interrupts) makes, one entry
    for each time this thread of control gives the processor away.  It is
    consumed by [interfere] only, which the model calls where the source
    switches to another thread or spins on something that another processor
    changes. *)

Definition schedule (S : Type) := list (S -> S).

Inductive outcome (S A : Type) : Type :=
| Ok (a : A) (e : schedule S) (s : S)
| Panic (msg : string) (s : S)
| Hang (s : S).

Arguments Ok {S A} _ _ _.
Arguments Panic {S A} _ _.
Arguments Hang {S A} _.

Definition M (S A : Type) : Type := schedule S -> S -> outcome S A.

Section monad.
Context {S : Type}.

Definition ret {A} (a : A) : M S A := fun e s => Ok a e s.

Definition bind {A B} (m : M S A) (f : A -> M S B) : M S B := fun e s =>
  match m e s with
  | Ok a e' s' => f a e' s'
  | Panic msg s' => Panic msg s'
  | Hang s' => Hang s'
  end.

Definition gets {A} (f : S -> A) : M S A := fun e s => Ok (f s) e s.

Definition modify (f : S -> S) : M S unit := fun e s => Ok tt e (f s).

Definition panic {A} (msg : string) : M S A := fun _ s => Panic msg s.

Definition hang {A} : M S A := fun _ s => Hang s.

(** The behaviour of the C program is undefined (an access outside of an
    array). *)
Definition undefined {A} : M S A := panic "undefined behaviour".

(** Give the processor away once: the next entry of the schedule runs. *)
Definition interfere : M S unit := fun e s =>
  match e with
  | [] => Hang s
  | f :: e' => Ok tt e' (f s)
  end.

(** Extensional equality of computations. *)
Definition meq {A} (m1 m2 : M S A) : Prop := forall e s, m1 e s = m2 e s.

End monad.

Declare Scope xv6_scope.
Delimit Scope xv6_scope with xv6.
#[global] Open Scope xv6_scope.

Notation "x <- m ;; k" := (bind m (fun x => k))
  (at level 100, m at next level, k at level 200, right associativity) : xv6_scope.
Notation "' p <- m ;; k" := (bind m (fun x => match x with p => k end))
  (at level 100, p pattern, m at next level, k at level 200,
   right associativity) : xv6_scope.
Notation "m ;; k" := (bind m (fun _ => k))
  (at level 100, k at level 200, right associativity) : xv6_scope.
Infix "≡m" := meq (at level 70) : xv6_scope.

Section loops.
Context {S : Type}.

(** [if(c) m;] *)
Definition when (c : bool) (m : M S unit) : M S unit :=
  if c then m else ret tt.

(** A [for] loop over the values [l] of its variable.  The body returns
    [Some r] to leave the loop ([break] or [return]) and [None] to go on. *)
Fixpoint for_each {I R} (l : list I) (body : I -> M S (option R))
  : M S (option R) :=
  match l with
  | [] => ret None
  | i :: l' =>
      r <- body i ;;
      match r with
      | Some x => ret (Some x)
      | None => for_each l' body
      end
  end.

(** A [for] loop without an early exit. *)
Fixpoint for_all {I} (l : list I) (body : I -> M S unit) : M S unit :=
  match l with
  | [] => ret tt
  | i :: l' => body i ;; for_all l' body
  end.

(** [for(i = first; cond; i++) body], with the condition evaluated before every
    iteration; [n] bounds the number of iterations, and the loop hangs when
    the bound is reached. *)
Fixpoint for_while (n : nat) (i : nat) (cond : nat -> M S bool) (body : nat -> M S unit)
  : M S unit :=
  match n with
  | O => hang
  | Datatypes.S n' =>
      c <- cond i ;;
      if c then body i ;; for_while n' (Datatypes.S i) cond body else ret tt
  end.

(** A loop with an explicit bound on its iterations; it hangs when the bound
    is reached.  The body returns [inl a] to go on with [a]. *)
Fixpoint loop_fuel {A R} (n : nat) (body : A -> M S (A + R)) (a : A) : M S R :=
  match n with
  | O => hang
  | Datatypes.S n' =>
      r <- body a ;;
      match r with
      | inl a' => loop_fuel n' body a'
      | inr x => ret x
      end
  end.

(** A loop whose every further iteration gives the processor away first.  The
    schedule bounds it: it can go on at most once per entry. *)
Definition loop_sched {A R} (body : A -> M S (A + R)) (a : A) : M S R :=
  fun e s => loop_fuel (Datatypes.S (length e)) body a e s.

End loops.

(** ** Reasoning about computations *)

(** Total correctness: the computation returns, and [Q] holds of what it
    returns. *)
Definition wp {S A} (m : M S A) (Q : A -> schedule S -> S -> Prop)
    (e : schedule S) (s : S) : Prop :=
  match m e s with
  | Ok a e' s' => Q a e' s'
  | _ => False
  end.

Section wp.
Context {S : Type}.

Lemma wp_ret {A} (a : A) (Q : A -> schedule S -> S -> Prop) e s :
  Q a e s -> wp (ret a) Q e s.
Proof. done. Qed.

Lemma wp_bind {A B} (m : M S A) (f : A -> M S B) Q e s :
  wp m (fun a => wp (f a) Q) e s -> wp (bind m f) Q e s.
Proof. unfold wp, bind. by destruct (m e s). Qed.

Lemma wp_gets {A} (f : S -> A) (Q : A -> schedule S -> S -> Prop) e s :
  Q (f s) e s -> wp (gets f) Q e s.
Proof. done. Qed.

Lemma wp_modify (f : S -> S) (Q : unit -> schedule S -> S -> Prop) e s :
  Q tt e (f s) -> wp (modify f) Q e s.
Proof. done. Qed.

Lemma wp_mono {A} (m : M S A) (Q Q' : A -> schedule S -> S -> Prop) e s :
  wp m Q e s -> (forall a e' s', Q a e' s' -> Q' a e' s') -> wp m Q' e s.
Proof. unfold wp. destruct (m e s); naive_solver. Qed.

Lemma wp_Ok {A} (m : M S A) (Q : A -> schedule S -> S -> Prop) e s :
  wp m Q e s <-> exists a e' s', m e s = Ok a e' s' /\ Q a e' s'.
Proof.
  unfold wp. split.
  - destruct (m e s) as [a e' s'| |]; naive_solver.
  - intros (a & e' & s' & -> & H). done.
Qed.

Lemma wp_step {A B} (m : M S A) (f : A -> M S B) Q e s a e' s' :
  m e s = Ok a e' s' -> wp (f a) Q e' s' -> wp (bind m f) Q e s.
Proof. intros H1 H2. unfold wp, bind in *. by rewrite H1. Qed.

Lemma bind_Ok {A B} (m : M S A) (f : A -> M S B) e s a e' s' :
  m e s = Ok a e' s' -> bind m f e s = f a e' s'.
Proof. intros H. unfold bind. by rewrite H. Qed.

Lemma bind_Panic {A B} (m : M S A) (f : A -> M S B) e s msg s' :
  m e s = Panic msg s' -> bind m f e s = Panic msg s'.
Proof. intros H. unfold bind. by rewrite H. Qed.

Lemma bind_inv {A B} (m : M S A) (f : A -> M S B) e s b e'' s'' :
  bind m f e s = Ok b e'' s'' ->
  exists a e' s', m e s = Ok a e' s' /\ f a e' s' = Ok b e'' s''.
Proof. unfold bind. destruct (m e s) as [a e' s'| |] eqn:E; naive_solver. Qed.

#[export] Instance meq_equivalence {A} : Equivalence (@meq S A).
Proof.
  split.
  - by intros m e s.
  - by intros m1 m2 H e s.
  - intros m1 m2 m3 H1 H2 e s. by rewrite (H1 e s).
Qed.

#[export] Instance bind_proper {A B} :
  Proper (meq ==> pointwise_relation A meq ==> meq) (@bind S A B).
Proof.
  intros m1 m2 Hm f1 f2 Hf e s. unfold bind. rewrite (Hm e s).
  destruct (m2 e s); [apply Hf|done|done].
Qed.

#[export] Instance wp_proper {A} :
  Proper (meq ==> eq ==> eq ==> eq ==> iff) (@wp S A).
Proof. intros m1 m2 Hm Q ? <- e ? <- s ? <-. unfold wp. by rewrite (Hm e s). Qed.

Lemma bind_ret_l {A B} (a : A) (f : A -> M S B) : bind (ret a) f ≡m f a.
Proof. done. Qed.

Lemma bind_ret_r {A} (m : M S A) : bind m ret ≡m m.
Proof. intros e s. unfold bind, ret. by destruct (m e s). Qed.

Lemma bind_assoc {A B C} (m : M S A) (f : A -> M S B) (g : B -> M S C) :
  bind (bind m f) g ≡m bind m (fun a => bind (f a) g).
Proof. intros e s. unfold bind. by destruct (m e s). Qed.

Lemma bind_assoc3 {A B C D} (m1 : M S A) (m2 : M S B) (f : B -> M S C) (g : C -> M S D) e s :
  bind (bind m1 (fun _ => bind m2 f)) g e s =
  bind m1 (fun _ => bind m2 (fun b => bind (f b) g)) e s.
Proof.
  unfold bind. destruct (m1 e s) as [a e1 s1| |]; [|done|done].
  by destruct (m2 e1 s1).
Qed.

Lemma for_all_app {X} (l1 l2 : list X) (body : X -> M S unit) e s :
  for_all (l1 ++ l2) body e s = (for_all l1 body ;; for_all l2 body) e s.
Proof.
  revert e s. induction l1 as [|x l1 IH]; intros e s; [done|].
  simpl. unfold bind at 1 2 3. destruct (body x e s); [|done|done].
  rewrite IH. done.
Qed.

(** The rule for a [for] loop without an early exit: the invariant [I] is
    indexed by the part of the list that is done. *)
Lemma wp_for_all {X} (body : X -> M S unit)
    (I : list X -> schedule S -> S -> Prop) l e s :
  I [] e s ->
  (forall done x rest e s, l = done ++ x :: rest -> I done e s ->
     wp (body x) (fun _ e' s' => I (done ++ [x]) e' s') e s) ->
  wp (for_all l body) (fun _ e' s' => I l e' s') e s.
Proof.
  intros H0 Hstep.
  assert (forall rest done e s, l = done ++ rest -> I done e s ->
    wp (for_all rest body) (fun _ e' s' => I l e' s') e s) as Hgen.
  { induction rest as [|x rest IH]; intros d e0 s0 Hl Hd; simpl.
    - apply wp_ret. rewrite app_nil_r in Hl. by subst.
    - apply wp_bind. eapply wp_mono; [by eapply Hstep|].
      intros [] e1 s1 H1. apply (IH (d ++ [x])); [|done].
      by rewrite <- app_assoc. }
  by apply (Hgen l []).
Qed.

(** The rule for [for_while] when the condition is [i < n]. *)
Lemma wp_for_while (cond : nat -> M S bool) (body : nat -> M S unit)
    (I : nat -> schedule S -> S -> Prop) fuel i n e s :
  (forall j e s, I j e s -> (j <= n)%nat -> cond j e s = Ok (j <? n)%nat e s) ->
  (forall j e s, I j e s -> (i <= j < n)%nat ->
     wp (body j) (fun _ e' s' => I (Datatypes.S j) e' s') e s) ->
  (i <= n)%nat -> (n - i < fuel)%nat -> I i e s ->
  wp (for_while fuel i cond body) (fun _ e' s' => I n e' s') e s.
Proof.
  intros Hcond. revert i e s. induction fuel as [|fuel IH]; intros i e s Hbody Hi Hf HI; [lia|].
  cbn [for_while]. eapply wp_step; [by apply Hcond|].
  destruct (Nat.ltb_spec i n) as [Hlt|Hge].
  - apply wp_bind. eapply wp_mono; [apply Hbody; [done|lia]|]. intros [] e1 s1 H1.
    apply IH; [|lia|lia|done]. intros j e2 s2 H2 Hj. apply Hbody; [done|lia].
  - assert (i = n) as -> by lia. by apply wp_ret.
Qed.

(** The rule for a [for] loop with an early exit. *)
Lemma wp_for_each {X R} (body : X -> M S (option R))
    (I : list X -> schedule S -> S -> Prop) (Q : option R -> schedule S -> S -> Prop)
    l e s :
  I [] e s ->
  (forall done x rest e s, l = done ++ x :: rest -> I done e s ->
     wp (body x) (fun r e' s' =>
       match r with
       | Some v => Q (Some v) e' s'
       | None => I (done ++ [x]) e' s'
       end) e s) ->
  (forall e s, I l e s -> Q None e s) ->
  wp (for_each l body) Q e s.
Proof.
  intros H0 Hstep Hend.
  assert (forall rest done e s, l = done ++ rest -> I done e s ->
    wp (for_each rest body) Q e s) as Hgen.
  { induction rest as [|x rest IH]; intros d e0 s0 Hl Hd; simpl.
    - apply wp_ret, Hend. rewrite app_nil_r in Hl. by subst.
    - apply wp_bind. eapply wp_mono; [by eapply Hstep|].
      intros [v|] e1 s1 H1; simpl in *; [done|].
      apply (IH (d ++ [x])); [|done]. by rewrite <- app_assoc. }
  by apply (Hgen l []).
Qed.

(** A [for] loop whose body does nothing on the values before the one it stops
    at. *)
Lemma for_each_none {I R} (l : list I) (body : I -> M S (option R)) e s :
  (forall x, x ∈ l -> body x e s = Ok None e s) -> for_each l body e s = Ok None e s.
Proof.
  induction l as [|x l IH]; intros H; [done|]. cbn [for_each].
  rewrite (bind_Ok _ _ _ _ _ _ _ (H x ltac:(left))). apply IH. intros y Hy. apply H. by right.
Qed.

Lemma for_each_hit {I R} (l1 l2 : list I) x (body : I -> M S (option R)) e s r e' s' :
  (forall y, y ∈ l1 -> body y e s = Ok None e s) -> body x e s = Ok (Some r) e' s' ->
  for_each (l1 ++ x :: l2) body e s = Ok (Some r) e' s'.
Proof.
  intros H Hx. induction l1 as [|y l1 IH]; cbn [for_each app].
  - by rewrite (bind_Ok _ _ _ _ _ _ _ Hx).
  - rewrite (bind_Ok _ _ _ _ _ _ _ (H y ltac:(left))). apply IH. intros z Hz. apply H. by right.
Qed.

End wp.

(** ** Lists *)

Lemma seq_split_at i n : (i < n)%nat -> seq 0 n = seq 0 i ++ i :: seq (S i) (n - S i).
Proof.
  intros Hi. replace n with (i + S (n - S i))%nat at 1 by lia. by rewrite seq_app.
Qed.

Lemma alter_as_insert {A} (f : A -> A) i (l : list A) x :
  l !! i = Some x -> alter f i l = <[i := f x]> l.
Proof.
  intros H. apply list_eq. intros j. destruct (decide (i = j)) as [<-|Hne].
  - rewrite list_lookup_alter_eq, list_lookup_insert_eq, H; [done|].
    by eapply lookup_lt_Some.
  - by rewrite list_lookup_alter_ne, list_lookup_insert_ne.
Qed.

Lemma list_alter_insert {A} (f : A -> A) i x (l : list A) : (i < length l)%nat -> alter f i (<[i := x]> l) = <[i := f x]> l.
Proof. intros Hi. by rewrite (alter_as_insert _ _ _ x), list_insert_insert_eq by (by apply list_lookup_insert_eq). Qed.

Lemma fmap_eq_inv {A B} (f g : A -> B) (l : list A) x : f <$> l = g <$> l -> x ∈ l -> f x = g x.
Proof. intros H Hx. induction Hx as [y l|y l x Hx IH]; injection H; auto. Qed.

(** An entry that is read before it is changed. *)
Lemma alter_default {A} (d : A) (f : A -> A -> A) i (l : list A) :
  alter (f (default d (l !! i))) i l = alter (fun x => f x x) i l.
Proof.
  apply list_eq. intros j. destruct (decide (i = j)) as [->|Hne].
  - rewrite !list_lookup_alter_eq. by destruct (l !! j).
  - by rewrite !list_lookup_alter_ne.
Qed.

Lemma alter_comm {A} (f g : A -> A) i j (l : list A) :
  (forall x, f (g x) = g (f x)) ->
  alter f i (alter g j l) = alter g j (alter f i l).
Proof.
  intros H. apply list_eq. intros n.
  destruct (decide (i = n)) as [->|Hi], (decide (j = n)) as [->|Hj];
    rewrite ?list_lookup_alter_eq, ?list_lookup_alter_ne, ?list_lookup_alter_eq,
      ?list_lookup_alter_ne by done; try done.
  destruct (l !! n); simpl; by rewrite ?H.
Qed.

(** An assignment whose value was read from the entry it changes. *)
Lemma alter_read {A B} (f : B -> A -> A) (g : A -> B) i (l : list A) d :
  alter (f (g (default d (l !! i)))) i l = alter (fun x => f (g x) x) i l.
Proof.
  apply list_eq. intros j. destruct (decide (i = j)) as [<-|Hj].
  - rewrite !list_lookup_alter_eq. by destruct (l !! i).
  - by rewrite !list_lookup_alter_ne.
Qed.

Lemma alter_alter {A} (f g : A -> A) i (l : list A) :
  alter f i (alter g i l) = alter (fun x => f (g x)) i l.
Proof.
  apply list_eq. intros j. destruct (decide (i = j)) as [<-|Hj].
  - rewrite !list_lookup_alter_eq. by destruct (l !! i).
  - by rewrite !list_lookup_alter_ne.
Qed.

(** A [for] loop over the entries of a table, up to the first one with [P]. *)
Lemma for_each_find {S A R B} (t : list A) (P : A -> Prop) `{!forall x, Decision (P x)}
    (body : nat -> M S (option R)) (g : option R -> M S B) e s :
  (forall i x, t !! i = Some x -> ~ P x -> body i e s = Ok None e s) ->
  bind (for_each (seq 0 (length t)) body) g e s =
    match list_find P t with
    | None => g None e s
    | Some (i, _) =>
        (r <- body i ;;
         match r with
         | Some v => g (Some v)
         | None => x <- for_each (seq (Datatypes.S i) (length t - Datatypes.S i)) body ;; g x
         end) e s
    end.
Proof.
  intros Hb. destruct (list_find P t) as [[i x]|] eqn:E.
  - apply list_find_Some in E as (Hi & _ & Hbefore).
    pose proof (lookup_lt_Some _ _ _ Hi) as Hlt. rewrite (seq_split_at i) by done.
    assert (forall j l, (forall y, y ∈ l -> (y < i)%nat) ->
      bind (for_each (l ++ j) body) g e s = bind (for_each j body) g e s) as Hskip.
    { intros j l. induction l as [|y l IH]; intros Hl; [done|].
      destruct (lookup_lt_is_Some_2 t y) as [z Hz]; [specialize (Hl y ltac:(left)); lia|].
      rewrite <- IH by (intros u Hu; apply Hl; by right).
      assert (for_each ((y :: l) ++ j) body e s = for_each (l ++ j) body e s) as Hy; [|unfold bind; by rewrite Hy].
      cbn [app for_each].
      by rewrite (bind_Ok _ _ _ _ _ _ _ (Hb y z Hz (Hbefore y z Hz ltac:(apply Hl; left)))). }
    rewrite Hskip by (intros y Hy; apply elem_of_seq in Hy; lia). cbn [for_each].
    unfold bind. destruct (body i e s) as [[v|] e' s'| |]; done.
  - apply list_find_None in E. rewrite Forall_lookup in E.
    erewrite bind_Ok; [done|]. apply for_each_none.
    intros j Hj. apply elem_of_seq in Hj. destruct (lookup_lt_is_Some_2 t j) as [z Hz]; [lia|].
    by eapply Hb, E.
Qed.

Lemma elem_of_rev {A} (x : A) l : x ∈ rev l <-> x ∈ l.
Proof. rewrite rev_alt. apply elem_of_reverse. Qed.

Lemma NoDup_rev' {A} (l : list A) : NoDup (rev l) <-> NoDup l.
Proof.
  rewrite rev_alt. change (rev_append l []) with (reverse l).
  by rewrite (reverse_Permutation l).
Qed.

Create HintDb xv6.
#[export] Hint Resolve wp_ret wp_gets wp_modify : xv6.

(** Symbolic execution of the leading primitive steps under [wp]. *)
Ltac wp_norm :=
  repeat first
    [ apply wp_bind
    | apply wp_gets
    | apply wp_modify
    | apply wp_ret ].

(** Turn boolean tests in the hypotheses into propositions. *)
Ltac bool_to_prop :=
  repeat match goal with
  | H : (_ =? _) = true |- _ => apply Z.eqb_eq in H
  | H : (_ =? _) = false |- _ => apply Z.eqb_neq in H
  | H : (_ <? _) = true |- _ => apply Z.ltb_lt in H
  | H : (_ <? _) = false |- _ => apply Z.ltb_ge in H
  | H : (_ <=? _) = true |- _ => apply Z.leb_le in H
  | H : (_ <=? _) = false |- _ => apply Z.leb_gt in H
  | H : (_ =? _)%nat = true |- _ => apply Nat.eqb_eq in H
  | H : (_ =? _)%nat = false |- _ => apply Nat.eqb_neq in H
  | H : (_ <? _)%nat = true |- _ => apply Nat.ltb_lt in H
  | H : (_ <? _)%nat = false |- _ => apply Nat.ltb_ge in H
  | H : (_ <=? _)%nat = true |- _ => apply Nat.leb_le in H
  | H : (_ <=? _)%nat = false |- _ => apply Nat.leb_gt in H
  | H : negb _ = true |- _ => apply negb_true_iff in H
  | H : negb _ = false |- _ => apply negb_false_iff in H
  | H : _ && _ = true |- _ => apply andb_true_iff in H; destruct H
  | H : _ || _ = false |- _ => apply orb_false_iff in H; destruct H
  end.

(** ** Filters *)

(** [omap] and pointwise changes of its function. *)
Lemma omap_ext_in {A B} (f g : A -> option B) (l : list A) : (forall x, x ∈ l -> f x = g x) -> omap f l = omap g l.
Proof.
  induction l as [|x l IH]; intros Hl; [done|]. cbn. rewrite (Hl x) by left.
  destruct (g x); [f_equal|]; apply IH; intros y Hy; apply Hl; by right.
Qed.

Lemma length_omap_le {A B} (f : A -> option B) (l : list A) : (length (omap f l) <= length l)%nat.
Proof. induction l as [|x l IH]; [done|]. cbn. destruct (f x); cbn; lia. Qed.

Lemma NoDup_omap {A B} (f : A -> option B) (l : list A) :
  NoDup l -> (forall x y z, x ∈ l -> y ∈ l -> f x = Some z -> f y = Some z -> x = y) -> NoDup (omap f l).
Proof.
  intros Hnd Hinj. induction Hnd as [|x l Hx Hnd IH]; [constructor|]. cbn.
  assert (NoDup (omap f l)) as Hl by (apply IH; intros y y' z Hy Hy'; apply Hinj; by right).
  destruct (f x) as [z|] eqn:E; [|done]. constructor; [|done].
  intros (y & Hy & Ey)%list_elem_of_omap. apply Hx. rewrite (Hinj x y z); [done|left|by right|done|done].
Qed.

Lemma omap_insert {A B} (f f' : A -> option B) j r (l : list A) :
  NoDup l -> j ∈ l -> f j = None -> f' j = Some r -> (forall x, x ∈ l -> x <> j -> f' x = f x) ->
  omap f' l ≡ₚ r :: omap f l.
Proof.
  intros Hnd Hj Hn Hs Hne. induction Hnd as [|x l Hx Hnd IH]; [by apply not_elem_of_nil in Hj|].
  apply elem_of_cons in Hj as [->|Hj]; cbn.
  - rewrite Hn, Hs. f_equiv. rewrite (omap_ext_in f' f); [done|].
    intros y Hy. apply Hne; [by right|]. by intros ->.
  - assert (x <> j) as Hxj by (by intros ->). rewrite (Hne x) by (done || left).
    assert (omap f' l ≡ₚ r :: omap f l) as E by (apply IH; [done|intros y Hy; apply Hne; by right]).
    destruct (f x) as [z|]; [|done]. rewrite E. apply Permutation_swap.
Qed.

Lemma filter_none {A} (P : A -> Prop) `{forall x, Decision (P x)} l :
  Forall (fun x => ~ P x) l -> filter P l = [].
Proof. induction 1; [done|]. by rewrite filter_cons_False. Qed.

Lemma filter_all {A} (P : A -> Prop) `{forall x, Decision (P x)} l : Forall P l -> filter P l = l.
Proof. induction 1; [done|]. rewrite filter_cons_True by done. by f_equal. Qed.

(** The numbers of [1..n] between [a] and [b]. *)
Lemma length_filter_seqZ (P : Z -> Prop) `{forall x, Decision (P x)} n a b :
  0 <= a -> a <= b -> b <= n -> (forall x, 1 <= x <= n -> P x <-> a < x <= b) ->
  length (filter P (seqZ 1 n)) = Z.to_nat (b - a).
Proof.
  intros Ha Hab Hbn HP.
  replace (seqZ 1 n) with (seqZ 1 a ++ seqZ (1 + a) (b - a) ++ seqZ (1 + b) (n - b)).
  2:{ replace n with (a + ((b - a) + (n - b))) at 2 by lia.
      rewrite !seqZ_app by lia. do 3 f_equal; lia. }
  rewrite !filter_app, !length_app.
  rewrite (filter_none P (seqZ 1 a)), (filter_none P (seqZ (1 + b) _)), (filter_all P (seqZ (1 + a) _)).
  - rewrite length_seqZ. cbn. lia.
  - apply Forall_forall. intros x Hin. apply elem_of_seqZ in Hin. rewrite HP; lia.
  - apply Forall_forall. intros x Hin. apply elem_of_seqZ in Hin. rewrite HP; lia.
  - apply Forall_forall. intros x Hin. apply elem_of_seqZ in Hin. rewrite HP; lia.
Qed.
