(* ===== verification/Bytes.v ===== *)
(** Machine integers and byte strings: the wrap-around of the C integer types
    of [types.h], little-endian encodings of structure fields, and reading and
    overwriting a range of a byte array. *)

From S2P Require Import Prelude.

(** ** The integer types of types.h (and C's [int], [short], [char]) *)

Definition u8 (z : Z) : Z := z mod 256.
Definition u16 (z : Z) : Z := z mod 65536.
Definition u32 (z : Z) : Z := z mod 4294967296.

Definition s16 (z : Z) : Z :=
  let u := u16 z in if u <? 32768 then u else u - 65536.
Definition s32 (z : Z) : Z :=
  let u := u32 z in if u <? 2147483648 then u else u - 4294967296.
Definition s8 (z : Z) : Z :=
  let u := u8 z in if u <? 128 then u else u - 256.

(** The truth value of a C integer. *)
Definition nz (z : Z) : bool := negb (z =? 0).

Lemma u32_range z : 0 <= u32 z < 4294967296.
Proof. apply Z.mod_pos_bound. lia. Qed.

Lemma u16_range z : 0 <= u16 z < 65536.
Proof. apply Z.mod_pos_bound. lia. Qed.

Lemma u8_range z : 0 <= u8 z < 256.
Proof. apply Z.mod_pos_bound. lia. Qed.

Lemma u32_small z : 0 <= z < 4294967296 -> u32 z = z.
Proof. apply Z.mod_small. Qed.

Lemma u16_small z : 0 <= z < 65536 -> u16 z = z.
Proof. apply Z.mod_small. Qed.

Lemma u8_small z : 0 <= z < 256 -> u8 z = z.
Proof. apply Z.mod_small. Qed.

Lemma s32_range z : -2147483648 <= s32 z < 2147483648.
Proof.
  unfold s32. pose proof (u32_range z).
  destruct (u32 z <? 2147483648) eqn:E; bool_to_prop; lia.
Qed.

Lemma s32_small z : -2147483648 <= z < 2147483648 -> s32 z = z.
Proof.
  intros H. unfold s32, u32.
  destruct (decide (0 <= z)) as [Hz|Hz].
  - rewrite Z.mod_small by lia. destruct (z <? _) eqn:E; bool_to_prop; lia.
  - assert (z mod 4294967296 = z + 4294967296) as ->.
    { symmetry. apply Zmod_unique with (-1); lia. }
    destruct (_ <? _) eqn:E; bool_to_prop; lia.
Qed.

Lemma s16_small z : -32768 <= z < 32768 -> s16 z = z.
Proof.
  intros H. unfold s16, u16.
  destruct (decide (0 <= z)) as [Hz|Hz].
  - rewrite Z.mod_small by lia. destruct (z <? _) eqn:E; bool_to_prop; lia.
  - assert (z mod 65536 = z + 65536) as ->.
    { symmetry. apply Zmod_unique with (-1); lia. }
    destruct (_ <? _) eqn:E; bool_to_prop; lia.
Qed.

Lemma s16_range z : -32768 <= s16 z < 32768.
Proof. unfold s16. pose proof (u16_range z). cbv zeta. destruct (Z.ltb_spec (u16 z) 32768); lia. Qed.
Lemma u32_nonneg z : 0 <= u32 z.
Proof. apply u32_range. Qed.

Lemma u16_s16 z : u16 (s16 z) = u16 z.
Proof.
  unfold s16. pose proof (u16_range z) as Hr.
  destruct (u16 z <? 32768) eqn:E; bool_to_prop.
  - by apply u16_small.
  - unfold u16 at 1. symmetry. apply Zmod_unique with (-1); lia.
Qed.

Lemma s16_u16 z : s16 (u16 z) = s16 z.
Proof. unfold s16. by rewrite (u16_small (u16 z)) by apply u16_range. Qed.

Lemma s32_add_s32 x y : s32 (s32 x + y) = s32 (x + y).
Proof.
  assert (u32 (s32 x + y) = u32 (x + y)) as E; [|unfold s32 at 1 3; by rewrite E].
  unfold s32, u32. destruct (_ <? _).
  - by rewrite Zplus_mod_idemp_l.
  - replace (x mod 4294967296 - 4294967296 + y) with (x mod 4294967296 + y + (-1) * 4294967296) by lia.
    by rewrite Z_mod_plus_full, Zplus_mod_idemp_l.
Qed.

Lemma s32_u32 z : s32 (u32 z) = s32 z.
Proof. unfold s32. by rewrite (u32_small (u32 z)) by apply u32_range. Qed.

Lemma nz_true z : nz z = true <-> z <> 0.
Proof. unfold nz. rewrite negb_true_iff, Z.eqb_neq. done. Qed.

Lemma nz_false z : nz z = false <-> z = 0.
Proof. unfold nz. rewrite negb_false_iff, Z.eqb_eq. done. Qed.

(** ** Little-endian encodings *)

Fixpoint le_bytes (n : nat) (v : Z) : list Z :=
  match n with
  | O => []
  | S n' => v mod 256 :: le_bytes n' (v / 256)
  end.

Fixpoint le_val (bs : list Z) : Z :=
  match bs with
  | [] => 0
  | b :: bs' => b + 256 * le_val bs'
  end.

Definition bytes_ok (l : list Z) : Prop := Forall (fun b => 0 <= b < 256) l.

Lemma length_le_bytes n v : length (le_bytes n v) = n.
Proof. revert v. induction n; simpl; auto. Qed.

Lemma le_bytes_ok n v : bytes_ok (le_bytes n v).
Proof.
  revert v. induction n as [|n IH]; intros v; constructor; [|apply IH].
  apply Z.mod_pos_bound. lia.
Qed.

Lemma le_val_bytes n v : le_val (le_bytes n v) = v mod 256 ^ Z.of_nat n.
Proof.
  revert v. induction n as [|n IH]; intros v.
  - simpl. by rewrite Z.mod_1_r.
  - cbn [le_bytes le_val]. rewrite IH.
    rewrite Nat2Z.inj_succ, Z.pow_succ_r by lia.
    rewrite Z.rem_mul_r by lia. done.
Qed.

Lemma le_val_range l : bytes_ok l -> 0 <= le_val l < 256 ^ Z.of_nat (length l).
Proof.
  induction 1 as [|b l Hb Hl IH]; cbn [le_val length].
  - simpl. lia.
  - rewrite Nat2Z.inj_succ, Z.pow_succ_r by lia. lia.
Qed.

Lemma le_bytes_val l : bytes_ok l -> le_bytes (length l) (le_val l) = l.
Proof.
  induction 1 as [|b l Hb Hl IH]; [done|]. cbn [le_val length le_bytes].
  f_equal.
  - rewrite (Z.mul_comm 256), Z.mod_add by lia. apply Z.mod_small. lia.
  - rewrite (Z.mul_comm 256), Z.div_add, Z.div_small by lia. by rewrite Z.add_0_l.
Qed.

Lemma le_bytes_mod n v : le_bytes n (v mod 256 ^ Z.of_nat n) = le_bytes n v.
Proof.
  rewrite <- le_val_bytes.
  rewrite <- (length_le_bytes n v) at 1. apply le_bytes_val, le_bytes_ok.
Qed.

Lemma le_val_4 v : 0 <= v < 4294967296 -> le_val (le_bytes 4 v) = v.
Proof. intros. rewrite le_val_bytes. by apply Z.mod_small. Qed.

Lemma le_val_2 v : 0 <= v < 65536 -> le_val (le_bytes 2 v) = v.
Proof. intros. rewrite le_val_bytes. by apply Z.mod_small. Qed.

(** ** Ranges of arrays *)

(** [n] elements of [l] from index [off]. *)
Definition slice {A} (off n : nat) (l : list A) : list A := take n (drop off l).

(** [l] with [new] written over it from index [off] ([memmove] into an
    array). *)
Definition splice {A} (off : nat) (new l : list A) : list A :=
  take off l ++ new ++ drop (off + length new) l.

Section ranges.
Context {A : Type}.
Implicit Types l new : list A.

Lemma length_splice off new l :
  (off + length new <= length l)%nat -> length (splice off new l) = length l.
Proof. intros H. unfold splice. rewrite !length_app, length_take, length_drop. lia. Qed.

Lemma length_slice off n l :
  (off + n <= length l)%nat -> length (slice off n l) = n.
Proof. intros H. unfold slice. rewrite length_take, length_drop. lia. Qed.

Lemma lookup_slice off n l i :
  slice off n l !! i = if decide (i < n)%nat then l !! (off + i)%nat else None.
Proof.
  unfold slice. case_decide.
  - by rewrite lookup_take_lt, lookup_drop.
  - by rewrite lookup_take_ge by lia.
Qed.

Lemma lookup_splice off new l i :
  (off + length new <= length l)%nat ->
  splice off new l !! i =
    if decide (off <= i < off + length new)%nat then new !! (i - off)%nat
    else l !! i.
Proof.
  intros H. unfold splice. case_decide as Hi.
  - rewrite lookup_app_r by (rewrite length_take; lia).
    rewrite length_take_le by lia. rewrite lookup_app_l by lia. done.
  - destruct (decide (i < off)%nat).
    + rewrite lookup_app_l by (rewrite length_take; lia).
      by rewrite lookup_take_lt.
    + rewrite lookup_app_r by (rewrite length_take; lia).
      rewrite length_take_le by lia.
      rewrite lookup_app_r by lia. rewrite lookup_drop. f_equal. lia.
Qed.

Lemma slice_splice_same off new l :
  (off + length new <= length l)%nat ->
  slice off (length new) (splice off new l) = new.
Proof.
  intros H. apply list_eq. intros i.
  rewrite lookup_slice, lookup_splice by done.
  case_decide as H1.
  - rewrite decide_True by lia. f_equal. lia.
  - symmetry. apply lookup_ge_None. lia.
Qed.

Lemma slice_splice_other off new l off' n' :
  (off + length new <= length l)%nat ->
  (off' + n' <= off \/ off + length new <= off')%nat ->
  slice off' n' (splice off new l) = slice off' n' l.
Proof.
  intros H Hd. apply list_eq. intros i. rewrite !lookup_slice.
  case_decide; [|done]. rewrite lookup_splice by done.
  by rewrite decide_False by lia.
Qed.

Lemma splice_slice_id off n l :
  (off + n <= length l)%nat -> splice off (slice off n l) l = l.
Proof.
  intros H. apply list_eq. intros i.
  rewrite lookup_splice by (rewrite length_slice; lia).
  rewrite length_slice by lia. case_decide; [|done].
  rewrite lookup_slice, decide_True by lia. f_equal. lia.
Qed.

Lemma splice_all new l : length new = length l -> splice 0 new l = new.
Proof.
  intros H. unfold splice. simpl. rewrite drop_ge by lia.
  apply app_nil_r.
Qed.

Lemma slice_all l : slice 0 (length l) l = l.
Proof. unfold slice. rewrite drop_0. by apply take_ge. Qed.

Lemma slice_slice off n off' n' l :
  (off' + n' <= n)%nat ->
  slice off' n' (slice off n l) = slice (off + off') n' l.
Proof.
  intros H. apply list_eq. intros i. rewrite !lookup_slice.
  case_decide; [|done]. rewrite decide_True by lia. f_equal. lia.
Qed.

Lemma slice_app_l off n l1 l2 :
  (off + n <= length l1)%nat -> slice off n (l1 ++ l2) = slice off n l1.
Proof.
  intros H. apply list_eq. intros i. rewrite !lookup_slice.
  case_decide; [|done]. by rewrite lookup_app_l by lia.
Qed.

Lemma slice_app_r off n l1 l2 :
  (length l1 <= off)%nat -> slice off n (l1 ++ l2) = slice (off - length l1) n l2.
Proof.
  intros H. apply list_eq. intros i. rewrite !lookup_slice.
  case_decide; [|done]. rewrite lookup_app_r by lia. f_equal. lia.
Qed.

Lemma slice_split off n m l :
  slice off (n + m) l = slice off n l ++ slice (off + n) m l.
Proof. unfold slice. rewrite <- drop_drop, take_take_drop. done. Qed.

(** Two writes that follow each other are one. *)
Lemma splice_splice_next off a b l :
  (off + length a + length b <= length l)%nat ->
  splice (off + length a) b (splice off a l) = splice off (a ++ b) l.
Proof.
  intros H. apply list_eq. intros i.
  rewrite !lookup_splice by (rewrite ?length_app, ?length_splice by lia; lia).
  rewrite length_app. repeat case_decide; try lia; try done.
  - rewrite lookup_app_r by lia. f_equal. lia.
  - by rewrite lookup_app_l by lia.
Qed.

End ranges.

Lemma splice_bytes_ok off new l :
  bytes_ok new -> bytes_ok l -> bytes_ok (splice off new l).
Proof.
  intros Hn Hl. unfold splice, bytes_ok in *.
  rewrite !Forall_app. auto using Forall_take, Forall_drop.
Qed.

Lemma slice_bytes_ok off n l : bytes_ok l -> bytes_ok (slice off n l).
Proof. intros H. by apply Forall_take, Forall_drop. Qed.

Lemma take_bytes n l : bytes_ok l -> bytes_ok (take n l).
Proof. apply Forall_take. Qed.
Lemma drop_bytes n l : bytes_ok l -> bytes_ok (drop n l).
Proof. apply Forall_drop. Qed.
Lemma app_bytes l l' : bytes_ok l -> bytes_ok l' -> bytes_ok (l ++ l').
Proof. intros. by apply Forall_app. Qed.
Lemma nil_bytes : bytes_ok [].
Proof. constructor. Qed.
Lemma cons_bytes c l : 0 <= c < 256 -> bytes_ok l -> bytes_ok (c :: l).
Proof. by constructor. Qed.
Lemma replicate_bytes n : bytes_ok (replicate n 0).
Proof. apply Forall_replicate. lia. Qed.
Lemma elem_byte c l : c ∈ l -> bytes_ok l -> 0 <= c < 256.
Proof. intros Hc Hl. by apply (proj1 (Forall_forall _ _) Hl). Qed.
Lemma lor_byte a b : 0 <= a < 256 -> 0 <= b < 256 -> 0 <= Z.lor a b < 256.
Proof.
  intros Ha Hb. replace (Z.lor a b) with (Z.land (Z.lor a b) (Z.ones 8)).
  - rewrite Z.land_ones by lia. apply Z.mod_pos_bound. lia.
  - by rewrite Z.land_lor_distr_l, !Z.land_ones, !Z.mod_small by lia.
Qed.
Lemma land_byte a b : 0 <= a < 256 -> 0 <= Z.land a b < 256.
Proof.
  intros Ha. replace (Z.land a b) with (Z.land (Z.land a b) (Z.ones 8)).
  - rewrite Z.land_ones by lia. apply Z.mod_pos_bound. lia.
  - rewrite <- Z.land_assoc, (Z.land_comm b), Z.land_assoc, Z.land_ones by lia. by rewrite Z.mod_small.
Qed.

(** ** Fields of structures inside byte arrays *)

Definition get32 (off : nat) (l : list Z) : Z := le_val (slice off 4 l).
Definition put32 (off : nat) (v : Z) (l : list Z) : list Z :=
  splice off (le_bytes 4 v) l.
Definition get16 (off : nat) (l : list Z) : Z := le_val (slice off 2 l).
Definition put16 (off : nat) (v : Z) (l : list Z) : list Z :=
  splice off (le_bytes 2 v) l.

Lemma get32_put32 off v l :
  (off + 4 <= length l)%nat -> get32 off (put32 off v l) = u32 v.
Proof.
  intros H. unfold get32, put32.
  pose proof (slice_splice_same off (le_bytes 4 v) l) as Hs.
  rewrite length_le_bytes in Hs. rewrite Hs by done.
  by rewrite le_val_bytes.
Qed.

Lemma get16_put16 off v l :
  (off + 2 <= length l)%nat -> get16 off (put16 off v l) = u16 v.
Proof.
  intros H. unfold get16, put16.
  pose proof (slice_splice_same off (le_bytes 2 v) l) as Hs.
  rewrite length_le_bytes in Hs. rewrite Hs by done.
  by rewrite le_val_bytes.
Qed.

Lemma get32_range off l : bytes_ok l -> 0 <= get32 off l < 4294967296.
Proof.
  intros H. unfold get32.
  pose proof (le_val_range _ (slice_bytes_ok off 4 l H)) as Hr.
  assert (256 ^ Z.of_nat (length (slice off 4 l)) <= 4294967296); [|lia].
  change 4294967296 with (256 ^ 4). apply Z.pow_le_mono_r; [lia|].
  unfold slice. rewrite length_take. lia.
Qed.

Lemma get16_range off l : bytes_ok l -> 0 <= get16 off l < 65536.
Proof.
  intros H. unfold get16.
  pose proof (le_val_range _ (slice_bytes_ok off 2 l H)) as Hr.
  assert (256 ^ Z.of_nat (length (slice off 2 l)) <= 65536); [|lia].
  change 65536 with (256 ^ 2). apply Z.pow_le_mono_r; [lia|].
  unfold slice. rewrite length_take. lia.
Qed.

Lemma length_put32 off v l :
  (off + 4 <= length l)%nat -> length (put32 off v l) = length l.
Proof. intros. apply length_splice. by rewrite length_le_bytes. Qed.

Lemma length_put16 off v l :
  (off + 2 <= length l)%nat -> length (put16 off v l) = length l.
Proof. intros. apply length_splice. by rewrite length_le_bytes. Qed.

(** A field keeps its value when another one is assigned. *)
Lemma get32_put32_ne off off' v l :
  (off + 4 <= length l)%nat -> (off' + 4 <= off \/ off + 4 <= off')%nat ->
  get32 off' (put32 off v l) = get32 off' l.
Proof.
  intros H Hd. unfold get32, put32.
  rewrite slice_splice_other; rewrite ?length_le_bytes; [done|lia|lia].
Qed.

Lemma get16_put16_ne off off' v l :
  (off + 2 <= length l)%nat -> (off' + 2 <= off \/ off + 2 <= off')%nat ->
  get16 off' (put16 off v l) = get16 off' l.
Proof.
  intros H Hd. unfold get16, put16.
  rewrite slice_splice_other; rewrite ?length_le_bytes; [done|lia|lia].
Qed.

#[export] Hint Rewrite length_le_bytes : xv6.
