(* ===== verification/Machine.v ===== *)
(** The data of the kernel: the constants of [param.h], [memlayout.h],
    [mmu.h], [fs.h], [buf.h], [file.h], the structures the headers declare,
    and the record of all the kernel's global variables.

    Every structure is a record with the fields of the source in their order
    (the prefix names the structure), followed by one functional update
    [set_<field>] per field.  A pointer into a static table is the index of the
    entry, [None] for a null pointer; a pointer to allocated memory is its
    address, 0 for a null pointer. *)

From S2P Require Import Prelude Bytes.

(** ** Constants *)

(** param.h *)
Definition NPROC : nat := 64.
Definition KSTACKSIZE : Z := 4096.
Definition NCPU : Z := 8.
Definition NOFILE : nat := 16.
Definition NFILE : nat := 100.
Definition NINODE : nat := 50.
Definition NDEV : Z := 10.
Definition ROOTDEV : Z := 1.
Definition MAXARG : Z := 32.
Definition MAXOPBLOCKS : Z := 10.
Definition LOGSIZE : Z := MAXOPBLOCKS * 3.
Definition NBUF : nat := 30.
Definition FSSIZE : Z := 1000.

(** memlayout.h *)
Definition EXTMEM : Z := 0x100000.
Definition PHYSTOP : Z := 0xE000000.
Definition DEVSPACE : Z := 0xFE000000.
Definition KERNBASE : Z := 0x80000000.
Definition KERNLINK : Z := KERNBASE + EXTMEM.

Definition v2p (a : Z) : Z := u32 (a - KERNBASE).
Definition p2v (a : Z) : Z := u32 (a + KERNBASE).

(** mmu.h *)
Definition FL_IF : Z := 0x200.
Definition PGSIZE : Z := 4096.
Definition NPDENTRIES : Z := 1024.
Definition NPTENTRIES : Z := 1024.
Definition PTXSHIFT : Z := 12.
Definition PDXSHIFT : Z := 22.
Definition PTE_P : Z := 1.
Definition PTE_W : Z := 2.
Definition PTE_U : Z := 4.
Definition PDX (va : Z) : Z := Z.land (Z.shiftr (u32 va) PDXSHIFT) 0x3FF.
Definition PTX (va : Z) : Z := Z.land (Z.shiftr (u32 va) PTXSHIFT) 0x3FF.
Definition PGROUNDUP (sz : Z) : Z :=
  Z.land (u32 (sz + PGSIZE - 1)) (Z.lxor 0xFFFFFFFF (PGSIZE - 1)).
Definition PGROUNDDOWN (a : Z) : Z :=
  Z.land (u32 a) (Z.lxor 0xFFFFFFFF (PGSIZE - 1)).
Definition PTE_ADDR (pte : Z) : Z := Z.land (u32 pte) (Z.lxor 0xFFFFFFFF 0xFFF).
Definition PTE_FLAGS (pte : Z) : Z := Z.land (u32 pte) 0xFFF.
Definition SEG_KCODE : Z := 1.
Definition SEG_KDATA : Z := 2.
Definition SEG_KCPU : Z := 3.
Definition SEG_UCODE : Z := 4.
Definition SEG_UDATA : Z := 5.
Definition SEG_TSS : Z := 6.
Definition DPL_USER : Z := 3.

(** fs.h *)
Definition ROOTINO : Z := 1.
Definition BSIZE : Z := 512.
Definition NDIRECT : Z := 12.
Definition NINDIRECT : Z := BSIZE / 4.
Definition MAXFILE : Z := NDIRECT + NINDIRECT.
Definition DIRSIZ : Z := 14.
Definition sizeof_dinode : Z := 64.
Definition sizeof_dirent : Z := 16.
Definition IPB : Z := BSIZE / sizeof_dinode.
Definition BPB : Z := BSIZE * 8.

(** buf.h *)
Definition B_BUSY : Z := 1.
Definition B_VALID : Z := 2.
Definition B_DIRTY : Z := 4.

(** file.h *)
Definition I_BUSY : Z := 1.
Definition I_VALID : Z := 2.
Definition CONSOLE : Z := 1.

(** stat.h *)
Definition T_DIR : Z := 1.
Definition T_FILE : Z := 2.
Definition T_DEV : Z := 3.

(** fcntl.h *)
Definition O_RDONLY : Z := 0.
Definition O_WRONLY : Z := 1.
Definition O_RDWR : Z := 2.
Definition O_CREATE : Z := 0x200.

(** The test [flags & bit] of the source. *)
Definition has (flags bit : Z) : bool := nz (Z.land flags bit).

(** ** Names of the kernel's locks and sleep channels

    A lock or a channel is an address in the source; the model names the
    object at that address. *)

Inductive lockid :=
| L_ptable | L_kmem | L_bcache | L_ide | L_icache | L_log | L_ftable
| L_cons | L_ticks | L_pipe (p : Z).

#[export] Instance lockid_eq_dec : EqDecision lockid.
Proof. solve_decision. Defined.

Definition lockid_code (l : lockid) : nat * Z :=
  match l with
  | L_ptable => (0%nat, 0) | L_kmem => (1%nat, 0) | L_bcache => (2%nat, 0)
  | L_ide => (3%nat, 0) | L_icache => (4%nat, 0) | L_log => (5%nat, 0)
  | L_ftable => (6%nat, 0) | L_cons => (7%nat, 0) | L_ticks => (8%nat, 0)
  | L_pipe p => (9%nat, p)
  end.

Definition lockid_decode (c : nat * Z) : option lockid :=
  match c with
  | (0%nat, _) => Some L_ptable | (1%nat, _) => Some L_kmem
  | (2%nat, _) => Some L_bcache | (3%nat, _) => Some L_ide
  | (4%nat, _) => Some L_icache | (5%nat, _) => Some L_log
  | (6%nat, _) => Some L_ftable | (7%nat, _) => Some L_cons
  | (8%nat, _) => Some L_ticks | (9%nat, p) => Some (L_pipe p)
  | _ => None
  end.

#[export] Instance lockid_countable : Countable lockid.
Proof. refine (inj_countable lockid_code lockid_decode _). by intros []. Defined.

Inductive chan :=
| Ch_proc (i : nat) | Ch_buf (i : nat) | Ch_inode (i : nat) | Ch_log
| Ch_ticks | Ch_input | Ch_nread (p : Z) | Ch_nwrite (p : Z).

#[export] Instance chan_eq_dec : EqDecision chan.
Proof. solve_decision. Defined.

(** ** Structures *)

(** spinlock.h, without the debugging field [pcs] *)
Record spinlock : Type := mkSpinlock {
  lk_locked : Z;
  lk_name : string;
  lk_cpu : option Z
}.

Definition set_lk_locked (v : Z) (r : spinlock) : spinlock :=
  mkSpinlock v (lk_name r) (lk_cpu r).
Definition set_lk_name (v : string) (r : spinlock) : spinlock :=
  mkSpinlock (lk_locked r) v (lk_cpu r).
Definition set_lk_cpu (v : option Z) (r : spinlock) : spinlock :=
  mkSpinlock (lk_locked r) (lk_name r) v.

(** mmu.h, [struct segdesc], one field per bit field *)
Record segdesc : Type := mkSegdesc {
  sd_lim_15_0 : Z;
  sd_base_15_0 : Z;
  sd_base_23_16 : Z;
  sd_type : Z;
  sd_s : Z;
  sd_dpl : Z;
  sd_p : Z;
  sd_lim_19_16 : Z;
  sd_avl : Z;
  sd_rsv1 : Z;
  sd_db : Z;
  sd_g : Z;
  sd_base_31_24 : Z
}.

Definition set_sd_lim_15_0 (v : Z) (r : segdesc) : segdesc :=
  mkSegdesc v (sd_base_15_0 r) (sd_base_23_16 r) (sd_type r) (sd_s r)
    (sd_dpl r) (sd_p r) (sd_lim_19_16 r) (sd_avl r) (sd_rsv1 r) (sd_db r)
    (sd_g r) (sd_base_31_24 r).
Definition set_sd_base_15_0 (v : Z) (r : segdesc) : segdesc :=
  mkSegdesc (sd_lim_15_0 r) v (sd_base_23_16 r) (sd_type r) (sd_s r)
    (sd_dpl r) (sd_p r) (sd_lim_19_16 r) (sd_avl r) (sd_rsv1 r) (sd_db r)
    (sd_g r) (sd_base_31_24 r).
Definition set_sd_base_23_16 (v : Z) (r : segdesc) : segdesc :=
  mkSegdesc (sd_lim_15_0 r) (sd_base_15_0 r) v (sd_type r) (sd_s r) (sd_dpl r)
    (sd_p r) (sd_lim_19_16 r) (sd_avl r) (sd_rsv1 r) (sd_db r) (sd_g r)
    (sd_base_31_24 r).
Definition set_sd_type (v : Z) (r : segdesc) : segdesc :=
  mkSegdesc (sd_lim_15_0 r) (sd_base_15_0 r) (sd_base_23_16 r) v (sd_s r)
    (sd_dpl r) (sd_p r) (sd_lim_19_16 r) (sd_avl r) (sd_rsv1 r) (sd_db r)
    (sd_g r) (sd_base_31_24 r).
Definition set_sd_s (v : Z) (r : segdesc) : segdesc :=
  mkSegdesc (sd_lim_15_0 r) (sd_base_15_0 r) (sd_base_23_16 r) (sd_type r) v
    (sd_dpl r) (sd_p r) (sd_lim_19_16 r) (sd_avl r) (sd_rsv1 r) (sd_db r)
    (sd_g r) (sd_base_31_24 r).
Definition set_sd_dpl (v : Z) (r : segdesc) : segdesc :=
  mkSegdesc (sd_lim_15_0 r) (sd_base_15_0 r) (sd_base_23_16 r) (sd_type r)
    (sd_s r) v (sd_p r) (sd_lim_19_16 r) (sd_avl r) (sd_rsv1 r) (sd_db r)
    (sd_g r) (sd_base_31_24 r).
Definition set_sd_p (v : Z) (r : segdesc) : segdesc :=
  mkSegdesc (sd_lim_15_0 r) (sd_base_15_0 r) (sd_base_23_16 r) (sd_type r)
    (sd_s r) (sd_dpl r) v (sd_lim_19_16 r) (sd_avl r) (sd_rsv1 r) (sd_db r)
    (sd_g r) (sd_base_31_24 r).
Definition set_sd_lim_19_16 (v : Z) (r : segdesc) : segdesc :=
  mkSegdesc (sd_lim_15_0 r) (sd_base_15_0 r) (sd_base_23_16 r) (sd_type r)
    (sd_s r) (sd_dpl r) (sd_p r) v (sd_avl r) (sd_rsv1 r) (sd_db r) (sd_g r)
    (sd_base_31_24 r).
Definition set_sd_avl (v : Z) (r : segdesc) : segdesc :=
  mkSegdesc (sd_lim_15_0 r) (sd_base_15_0 r) (sd_base_23_16 r) (sd_type r)
    (sd_s r) (sd_dpl r) (sd_p r) (sd_lim_19_16 r) v (sd_rsv1 r) (sd_db r)
    (sd_g r) (sd_base_31_24 r).
Definition set_sd_rsv1 (v : Z) (r : segdesc) : segdesc :=
  mkSegdesc (sd_lim_15_0 r) (sd_base_15_0 r) (sd_base_23_16 r) (sd_type r)
    (sd_s r) (sd_dpl r) (sd_p r) (sd_lim_19_16 r) (sd_avl r) v (sd_db r)
    (sd_g r) (sd_base_31_24 r).
Definition set_sd_db (v : Z) (r : segdesc) : segdesc :=
  mkSegdesc (sd_lim_15_0 r) (sd_base_15_0 r) (sd_base_23_16 r) (sd_type r)
    (sd_s r) (sd_dpl r) (sd_p r) (sd_lim_19_16 r) (sd_avl r) (sd_rsv1 r) v
    (sd_g r) (sd_base_31_24 r).
Definition set_sd_g (v : Z) (r : segdesc) : segdesc :=
  mkSegdesc (sd_lim_15_0 r) (sd_base_15_0 r) (sd_base_23_16 r) (sd_type r)
    (sd_s r) (sd_dpl r) (sd_p r) (sd_lim_19_16 r) (sd_avl r) (sd_rsv1 r)
    (sd_db r) v (sd_base_31_24 r).
Definition set_sd_base_31_24 (v : Z) (r : segdesc) : segdesc :=
  mkSegdesc (sd_lim_15_0 r) (sd_base_15_0 r) (sd_base_23_16 r) (sd_type r)
    (sd_s r) (sd_dpl r) (sd_p r) (sd_lim_19_16 r) (sd_avl r) (sd_rsv1 r)
    (sd_db r) (sd_g r) v.

(** proc.h, [struct cpu], with the interrupt flag of the processor's [eflags] and the registers the kernel loads *)
Record cpu : Type := mkCpu {
  c_id : Z;
  c_started : Z;
  c_ncli : Z;
  c_intena : bool;
  c_if : bool;
  c_proc : option nat;
  c_esp0 : Z;
  c_ss0 : Z;
  c_gdt : list segdesc;
  c_tr : Z;
  c_cr2 : Z;
  c_cr3 : Z;
  c_idt_loaded : bool
}.

Definition set_c_id (v : Z) (r : cpu) : cpu :=
  mkCpu v (c_started r) (c_ncli r) (c_intena r) (c_if r) (c_proc r) (c_esp0 r)
    (c_ss0 r) (c_gdt r) (c_tr r) (c_cr2 r) (c_cr3 r) (c_idt_loaded r).
Definition set_c_started (v : Z) (r : cpu) : cpu :=
  mkCpu (c_id r) v (c_ncli r) (c_intena r) (c_if r) (c_proc r) (c_esp0 r)
    (c_ss0 r) (c_gdt r) (c_tr r) (c_cr2 r) (c_cr3 r) (c_idt_loaded r).
Definition set_c_ncli (v : Z) (r : cpu) : cpu :=
  mkCpu (c_id r) (c_started r) v (c_intena r) (c_if r) (c_proc r) (c_esp0 r)
    (c_ss0 r) (c_gdt r) (c_tr r) (c_cr2 r) (c_cr3 r) (c_idt_loaded r).
Definition set_c_intena (v : bool) (r : cpu) : cpu :=
  mkCpu (c_id r) (c_started r) (c_ncli r) v (c_if r) (c_proc r) (c_esp0 r)
    (c_ss0 r) (c_gdt r) (c_tr r) (c_cr2 r) (c_cr3 r) (c_idt_loaded r).
Definition set_c_if (v : bool) (r : cpu) : cpu :=
  mkCpu (c_id r) (c_started r) (c_ncli r) (c_intena r) v (c_proc r) (c_esp0 r)
    (c_ss0 r) (c_gdt r) (c_tr r) (c_cr2 r) (c_cr3 r) (c_idt_loaded r).
Definition set_c_proc (v : option nat) (r : cpu) : cpu :=
  mkCpu (c_id r) (c_started r) (c_ncli r) (c_intena r) (c_if r) v (c_esp0 r)
    (c_ss0 r) (c_gdt r) (c_tr r) (c_cr2 r) (c_cr3 r) (c_idt_loaded r).
Definition set_c_esp0 (v : Z) (r : cpu) : cpu :=
  mkCpu (c_id r) (c_started r) (c_ncli r) (c_intena r) (c_if r) (c_proc r) v
    (c_ss0 r) (c_gdt r) (c_tr r) (c_cr2 r) (c_cr3 r) (c_idt_loaded r).
Definition set_c_ss0 (v : Z) (r : cpu) : cpu :=
  mkCpu (c_id r) (c_started r) (c_ncli r) (c_intena r) (c_if r) (c_proc r)
    (c_esp0 r) v (c_gdt r) (c_tr r) (c_cr2 r) (c_cr3 r) (c_idt_loaded r).
Definition set_c_gdt (v : list segdesc) (r : cpu) : cpu :=
  mkCpu (c_id r) (c_started r) (c_ncli r) (c_intena r) (c_if r) (c_proc r)
    (c_esp0 r) (c_ss0 r) v (c_tr r) (c_cr2 r) (c_cr3 r) (c_idt_loaded r).
Definition set_c_tr (v : Z) (r : cpu) : cpu :=
  mkCpu (c_id r) (c_started r) (c_ncli r) (c_intena r) (c_if r) (c_proc r)
    (c_esp0 r) (c_ss0 r) (c_gdt r) v (c_cr2 r) (c_cr3 r) (c_idt_loaded r).
Definition set_c_cr2 (v : Z) (r : cpu) : cpu :=
  mkCpu (c_id r) (c_started r) (c_ncli r) (c_intena r) (c_if r) (c_proc r)
    (c_esp0 r) (c_ss0 r) (c_gdt r) (c_tr r) v (c_cr3 r) (c_idt_loaded r).
Definition set_c_cr3 (v : Z) (r : cpu) : cpu :=
  mkCpu (c_id r) (c_started r) (c_ncli r) (c_intena r) (c_if r) (c_proc r)
    (c_esp0 r) (c_ss0 r) (c_gdt r) (c_tr r) (c_cr2 r) v (c_idt_loaded r).
Definition set_c_idt_loaded (v : bool) (r : cpu) : cpu :=
  mkCpu (c_id r) (c_started r) (c_ncli r) (c_intena r) (c_if r) (c_proc r)
    (c_esp0 r) (c_ss0 r) (c_gdt r) (c_tr r) (c_cr2 r) (c_cr3 r) v.

(** mmu.h, [struct gatedesc], one field per bit field *)
Record gatedesc : Type := mkGate {
  gd_off_15_0 : Z;
  gd_cs : Z;
  gd_args : Z;
  gd_rsv1 : Z;
  gd_type : Z;
  gd_s : Z;
  gd_dpl : Z;
  gd_p : Z;
  gd_off_31_16 : Z
}.

Definition set_gd_off_15_0 (v : Z) (r : gatedesc) : gatedesc :=
  mkGate v (gd_cs r) (gd_args r) (gd_rsv1 r) (gd_type r) (gd_s r) (gd_dpl r)
    (gd_p r) (gd_off_31_16 r).
Definition set_gd_cs (v : Z) (r : gatedesc) : gatedesc :=
  mkGate (gd_off_15_0 r) v (gd_args r) (gd_rsv1 r) (gd_type r) (gd_s r)
    (gd_dpl r) (gd_p r) (gd_off_31_16 r).
Definition set_gd_args (v : Z) (r : gatedesc) : gatedesc :=
  mkGate (gd_off_15_0 r) (gd_cs r) v (gd_rsv1 r) (gd_type r) (gd_s r)
    (gd_dpl r) (gd_p r) (gd_off_31_16 r).
Definition set_gd_rsv1 (v : Z) (r : gatedesc) : gatedesc :=
  mkGate (gd_off_15_0 r) (gd_cs r) (gd_args r) v (gd_type r) (gd_s r)
    (gd_dpl r) (gd_p r) (gd_off_31_16 r).
Definition set_gd_type (v : Z) (r : gatedesc) : gatedesc :=
  mkGate (gd_off_15_0 r) (gd_cs r) (gd_args r) (gd_rsv1 r) v (gd_s r)
    (gd_dpl r) (gd_p r) (gd_off_31_16 r).
Definition set_gd_s (v : Z) (r : gatedesc) : gatedesc :=
  mkGate (gd_off_15_0 r) (gd_cs r) (gd_args r) (gd_rsv1 r) (gd_type r) v
    (gd_dpl r) (gd_p r) (gd_off_31_16 r).
Definition set_gd_dpl (v : Z) (r : gatedesc) : gatedesc :=
  mkGate (gd_off_15_0 r) (gd_cs r) (gd_args r) (gd_rsv1 r) (gd_type r)
    (gd_s r) v (gd_p r) (gd_off_31_16 r).
Definition set_gd_p (v : Z) (r : gatedesc) : gatedesc :=
  mkGate (gd_off_15_0 r) (gd_cs r) (gd_args r) (gd_rsv1 r) (gd_type r)
    (gd_s r) (gd_dpl r) v (gd_off_31_16 r).
Definition set_gd_off_31_16 (v : Z) (r : gatedesc) : gatedesc :=
  mkGate (gd_off_15_0 r) (gd_cs r) (gd_args r) (gd_rsv1 r) (gd_type r)
    (gd_s r) (gd_dpl r) (gd_p r) v.

Inductive procstate := UNUSED | EMBRYO | SLEEPING | RUNNABLE | RUNNING | ZOMBIE.

#[export] Instance procstate_eq_dec : EqDecision procstate.
Proof. solve_decision. Defined.

(** proc.h, [struct proc] *)
Record proc : Type := mkProc {
  p_sz : Z;
  p_pgdir : Z;
  p_kstack : Z;
  p_state : procstate;
  p_pid : Z;
  p_parent : option nat;
  p_tf : Z;
  p_context : Z;
  p_chan : option chan;
  p_killed : Z;
  p_ofile : list (option nat);
  p_cwd : option nat;
  p_name : list Z;
  p_scount : Z;
  p_ticket : Z
}.

Definition set_p_sz (v : Z) (r : proc) : proc :=
  mkProc v (p_pgdir r) (p_kstack r) (p_state r) (p_pid r) (p_parent r)
    (p_tf r) (p_context r) (p_chan r) (p_killed r) (p_ofile r) (p_cwd r)
    (p_name r) (p_scount r) (p_ticket r).
Definition set_p_pgdir (v : Z) (r : proc) : proc :=
  mkProc (p_sz r) v (p_kstack r) (p_state r) (p_pid r) (p_parent r) (p_tf r)
    (p_context r) (p_chan r) (p_killed r) (p_ofile r) (p_cwd r) (p_name r)
    (p_scount r) (p_ticket r).
Definition set_p_kstack (v : Z) (r : proc) : proc :=
  mkProc (p_sz r) (p_pgdir r) v (p_state r) (p_pid r) (p_parent r) (p_tf r)
    (p_context r) (p_chan r) (p_killed r) (p_ofile r) (p_cwd r) (p_name r)
    (p_scount r) (p_ticket r).
Definition set_p_state (v : procstate) (r : proc) : proc :=
  mkProc (p_sz r) (p_pgdir r) (p_kstack r) v (p_pid r) (p_parent r) (p_tf r)
    (p_context r) (p_chan r) (p_killed r) (p_ofile r) (p_cwd r) (p_name r)
    (p_scount r) (p_ticket r).
Definition set_p_pid (v : Z) (r : proc) : proc :=
  mkProc (p_sz r) (p_pgdir r) (p_kstack r) (p_state r) v (p_parent r) (p_tf r)
    (p_context r) (p_chan r) (p_killed r) (p_ofile r) (p_cwd r) (p_name r)
    (p_scount r) (p_ticket r).
Definition set_p_parent (v : option nat) (r : proc) : proc :=
  mkProc (p_sz r) (p_pgdir r) (p_kstack r) (p_state r) (p_pid r) v (p_tf r)
    (p_context r) (p_chan r) (p_killed r) (p_ofile r) (p_cwd r) (p_name r)
    (p_scount r) (p_ticket r).
Definition set_p_tf (v : Z) (r : proc) : proc :=
  mkProc (p_sz r) (p_pgdir r) (p_kstack r) (p_state r) (p_pid r) (p_parent r)
    v (p_context r) (p_chan r) (p_killed r) (p_ofile r) (p_cwd r) (p_name r)
    (p_scount r) (p_ticket r).
Definition set_p_context (v : Z) (r : proc) : proc :=
  mkProc (p_sz r) (p_pgdir r) (p_kstack r) (p_state r) (p_pid r) (p_parent r)
    (p_tf r) v (p_chan r) (p_killed r) (p_ofile r) (p_cwd r) (p_name r)
    (p_scount r) (p_ticket r).
Definition set_p_chan (v : option chan) (r : proc) : proc :=
  mkProc (p_sz r) (p_pgdir r) (p_kstack r) (p_state r) (p_pid r) (p_parent r)
    (p_tf r) (p_context r) v (p_killed r) (p_ofile r) (p_cwd r) (p_name r)
    (p_scount r) (p_ticket r).
Definition set_p_killed (v : Z) (r : proc) : proc :=
  mkProc (p_sz r) (p_pgdir r) (p_kstack r) (p_state r) (p_pid r) (p_parent r)
    (p_tf r) (p_context r) (p_chan r) v (p_ofile r) (p_cwd r) (p_name r)
    (p_scount r) (p_ticket r).
Definition set_p_ofile (v : list (option nat)) (r : proc) : proc :=
  mkProc (p_sz r) (p_pgdir r) (p_kstack r) (p_state r) (p_pid r) (p_parent r)
    (p_tf r) (p_context r) (p_chan r) (p_killed r) v (p_cwd r) (p_name r)
    (p_scount r) (p_ticket r).
Definition set_p_cwd (v : option nat) (r : proc) : proc :=
  mkProc (p_sz r) (p_pgdir r) (p_kstack r) (p_state r) (p_pid r) (p_parent r)
    (p_tf r) (p_context r) (p_chan r) (p_killed r) (p_ofile r) v (p_name r)
    (p_scount r) (p_ticket r).
Definition set_p_name (v : list Z) (r : proc) : proc :=
  mkProc (p_sz r) (p_pgdir r) (p_kstack r) (p_state r) (p_pid r) (p_parent r)
    (p_tf r) (p_context r) (p_chan r) (p_killed r) (p_ofile r) (p_cwd r) v
    (p_scount r) (p_ticket r).
Definition set_p_scount (v : Z) (r : proc) : proc :=
  mkProc (p_sz r) (p_pgdir r) (p_kstack r) (p_state r) (p_pid r) (p_parent r)
    (p_tf r) (p_context r) (p_chan r) (p_killed r) (p_ofile r) (p_cwd r)
    (p_name r) v (p_ticket r).
Definition set_p_ticket (v : Z) (r : proc) : proc :=
  mkProc (p_sz r) (p_pgdir r) (p_kstack r) (p_state r) (p_pid r) (p_parent r)
    (p_tf r) (p_context r) (p_chan r) (p_killed r) (p_ofile r) (p_cwd r)
    (p_name r) (p_scount r) v.

(** buf.h, [struct buf]; the index NBUF stands for [bcache.head] *)
Record buf : Type := mkBuf {
  b_flags : Z;
  b_dev : Z;
  b_blockno : Z;
  b_prev : nat;
  b_next : nat;
  b_qnext : option nat;
  b_data : list Z
}.

Definition set_b_flags (v : Z) (r : buf) : buf :=
  mkBuf v (b_dev r) (b_blockno r) (b_prev r) (b_next r) (b_qnext r) (b_data r).
Definition set_b_dev (v : Z) (r : buf) : buf :=
  mkBuf (b_flags r) v (b_blockno r) (b_prev r) (b_next r) (b_qnext r)
    (b_data r).
Definition set_b_blockno (v : Z) (r : buf) : buf :=
  mkBuf (b_flags r) (b_dev r) v (b_prev r) (b_next r) (b_qnext r) (b_data r).
Definition set_b_prev (v : nat) (r : buf) : buf :=
  mkBuf (b_flags r) (b_dev r) (b_blockno r) v (b_next r) (b_qnext r)
    (b_data r).
Definition set_b_next (v : nat) (r : buf) : buf :=
  mkBuf (b_flags r) (b_dev r) (b_blockno r) (b_prev r) v (b_qnext r)
    (b_data r).
Definition set_b_qnext (v : option nat) (r : buf) : buf :=
  mkBuf (b_flags r) (b_dev r) (b_blockno r) (b_prev r) (b_next r) v (b_data r).
Definition set_b_data (v : list Z) (r : buf) : buf :=
  mkBuf (b_flags r) (b_dev r) (b_blockno r) (b_prev r) (b_next r) (b_qnext r)
    v.

(** fs.h, [struct superblock] *)
Record superblock : Type := mkSuperblock {
  sb_size : Z;
  sb_nblocks : Z;
  sb_ninodes : Z;
  sb_nlog : Z;
  sb_logstart : Z;
  sb_inodestart : Z;
  sb_bmapstart : Z
}.

Definition set_sb_size (v : Z) (r : superblock) : superblock :=
  mkSuperblock v (sb_nblocks r) (sb_ninodes r) (sb_nlog r) (sb_logstart r)
    (sb_inodestart r) (sb_bmapstart r).
Definition set_sb_nblocks (v : Z) (r : superblock) : superblock :=
  mkSuperblock (sb_size r) v (sb_ninodes r) (sb_nlog r) (sb_logstart r)
    (sb_inodestart r) (sb_bmapstart r).
Definition set_sb_ninodes (v : Z) (r : superblock) : superblock :=
  mkSuperblock (sb_size r) (sb_nblocks r) v (sb_nlog r) (sb_logstart r)
    (sb_inodestart r) (sb_bmapstart r).
Definition set_sb_nlog (v : Z) (r : superblock) : superblock :=
  mkSuperblock (sb_size r) (sb_nblocks r) (sb_ninodes r) v (sb_logstart r)
    (sb_inodestart r) (sb_bmapstart r).
Definition set_sb_logstart (v : Z) (r : superblock) : superblock :=
  mkSuperblock (sb_size r) (sb_nblocks r) (sb_ninodes r) (sb_nlog r) v
    (sb_inodestart r) (sb_bmapstart r).
Definition set_sb_inodestart (v : Z) (r : superblock) : superblock :=
  mkSuperblock (sb_size r) (sb_nblocks r) (sb_ninodes r) (sb_nlog r)
    (sb_logstart r) v (sb_bmapstart r).
Definition set_sb_bmapstart (v : Z) (r : superblock) : superblock :=
  mkSuperblock (sb_size r) (sb_nblocks r) (sb_ninodes r) (sb_nlog r)
    (sb_logstart r) (sb_inodestart r) v.

(** file.h, [struct inode] *)
Record inode : Type := mkInode {
  i_dev : Z;
  i_inum : Z;
  i_ref : Z;
  i_flags : Z;
  i_type : Z;
  i_major : Z;
  i_minor : Z;
  i_nlink : Z;
  i_size : Z;
  i_addrs : list Z
}.

Definition set_i_dev (v : Z) (r : inode) : inode :=
  mkInode v (i_inum r) (i_ref r) (i_flags r) (i_type r) (i_major r)
    (i_minor r) (i_nlink r) (i_size r) (i_addrs r).
Definition set_i_inum (v : Z) (r : inode) : inode :=
  mkInode (i_dev r) v (i_ref r) (i_flags r) (i_type r) (i_major r) (i_minor r)
    (i_nlink r) (i_size r) (i_addrs r).
Definition set_i_ref (v : Z) (r : inode) : inode :=
  mkInode (i_dev r) (i_inum r) v (i_flags r) (i_type r) (i_major r)
    (i_minor r) (i_nlink r) (i_size r) (i_addrs r).
Definition set_i_flags (v : Z) (r : inode) : inode :=
  mkInode (i_dev r) (i_inum r) (i_ref r) v (i_type r) (i_major r) (i_minor r)
    (i_nlink r) (i_size r) (i_addrs r).
Definition set_i_type (v : Z) (r : inode) : inode :=
  mkInode (i_dev r) (i_inum r) (i_ref r) (i_flags r) v (i_major r) (i_minor r)
    (i_nlink r) (i_size r) (i_addrs r).
Definition set_i_major (v : Z) (r : inode) : inode :=
  mkInode (i_dev r) (i_inum r) (i_ref r) (i_flags r) (i_type r) v (i_minor r)
    (i_nlink r) (i_size r) (i_addrs r).
Definition set_i_minor (v : Z) (r : inode) : inode :=
  mkInode (i_dev r) (i_inum r) (i_ref r) (i_flags r) (i_type r) (i_major r) v
    (i_nlink r) (i_size r) (i_addrs r).
Definition set_i_nlink (v : Z) (r : inode) : inode :=
  mkInode (i_dev r) (i_inum r) (i_ref r) (i_flags r) (i_type r) (i_major r)
    (i_minor r) v (i_size r) (i_addrs r).
Definition set_i_size (v : Z) (r : inode) : inode :=
  mkInode (i_dev r) (i_inum r) (i_ref r) (i_flags r) (i_type r) (i_major r)
    (i_minor r) (i_nlink r) v (i_addrs r).
Definition set_i_addrs (v : list Z) (r : inode) : inode :=
  mkInode (i_dev r) (i_inum r) (i_ref r) (i_flags r) (i_type r) (i_major r)
    (i_minor r) (i_nlink r) (i_size r) v.

Inductive ftype := FD_NONE | FD_PIPE | FD_INODE.

#[export] Instance ftype_eq_dec : EqDecision ftype.
Proof. solve_decision. Defined.

(** file.h, [struct file] *)
Record file : Type := mkFile {
  f_type : ftype;
  f_ref : Z;
  f_readable : bool;
  f_writable : bool;
  f_pipe : Z;
  f_ip : option nat;
  f_off : Z
}.

Definition set_f_type (v : ftype) (r : file) : file :=
  mkFile v (f_ref r) (f_readable r) (f_writable r) (f_pipe r) (f_ip r)
    (f_off r).
Definition set_f_ref (v : Z) (r : file) : file :=
  mkFile (f_type r) v (f_readable r) (f_writable r) (f_pipe r) (f_ip r)
    (f_off r).
Definition set_f_readable (v : bool) (r : file) : file :=
  mkFile (f_type r) (f_ref r) v (f_writable r) (f_pipe r) (f_ip r) (f_off r).
Definition set_f_writable (v : bool) (r : file) : file :=
  mkFile (f_type r) (f_ref r) (f_readable r) v (f_pipe r) (f_ip r) (f_off r).
Definition set_f_pipe (v : Z) (r : file) : file :=
  mkFile (f_type r) (f_ref r) (f_readable r) (f_writable r) v (f_ip r)
    (f_off r).
Definition set_f_ip (v : option nat) (r : file) : file :=
  mkFile (f_type r) (f_ref r) (f_readable r) (f_writable r) (f_pipe r) v
    (f_off r).
Definition set_f_off (v : Z) (r : file) : file :=
  mkFile (f_type r) (f_ref r) (f_readable r) (f_writable r) (f_pipe r)
    (f_ip r) v.

(** pipe.c, [struct pipe] (its lock is [L_pipe] of its address) *)
Record pipe : Type := mkPipe {
  pp_data : list Z;
  pp_nread : Z;
  pp_nwrite : Z;
  pp_readopen : bool;
  pp_writeopen : bool
}.

Definition set_pp_data (v : list Z) (r : pipe) : pipe :=
  mkPipe v (pp_nread r) (pp_nwrite r) (pp_readopen r) (pp_writeopen r).
Definition set_pp_nread (v : Z) (r : pipe) : pipe :=
  mkPipe (pp_data r) v (pp_nwrite r) (pp_readopen r) (pp_writeopen r).
Definition set_pp_nwrite (v : Z) (r : pipe) : pipe :=
  mkPipe (pp_data r) (pp_nread r) v (pp_readopen r) (pp_writeopen r).
Definition set_pp_readopen (v : bool) (r : pipe) : pipe :=
  mkPipe (pp_data r) (pp_nread r) (pp_nwrite r) v (pp_writeopen r).
Definition set_pp_writeopen (v : bool) (r : pipe) : pipe :=
  mkPipe (pp_data r) (pp_nread r) (pp_nwrite r) (pp_readopen r) v.

(** log.c, [struct log] with its [struct logheader] *)
Record logstate : Type := mkLog {
  lg_start : Z;
  lg_size : Z;
  lg_outstanding : Z;
  lg_committing : bool;
  lg_dev : Z;
  lg_n : Z;
  lg_block : list Z
}.

Definition set_lg_start (v : Z) (r : logstate) : logstate :=
  mkLog v (lg_size r) (lg_outstanding r) (lg_committing r) (lg_dev r) (lg_n r)
    (lg_block r).
Definition set_lg_size (v : Z) (r : logstate) : logstate :=
  mkLog (lg_start r) v (lg_outstanding r) (lg_committing r) (lg_dev r)
    (lg_n r) (lg_block r).
Definition set_lg_outstanding (v : Z) (r : logstate) : logstate :=
  mkLog (lg_start r) (lg_size r) v (lg_committing r) (lg_dev r) (lg_n r)
    (lg_block r).
Definition set_lg_committing (v : bool) (r : logstate) : logstate :=
  mkLog (lg_start r) (lg_size r) (lg_outstanding r) v (lg_dev r) (lg_n r)
    (lg_block r).
Definition set_lg_dev (v : Z) (r : logstate) : logstate :=
  mkLog (lg_start r) (lg_size r) (lg_outstanding r) (lg_committing r) v
    (lg_n r) (lg_block r).
Definition set_lg_n (v : Z) (r : logstate) : logstate :=
  mkLog (lg_start r) (lg_size r) (lg_outstanding r) (lg_committing r)
    (lg_dev r) v (lg_block r).
Definition set_lg_block (v : list Z) (r : logstate) : logstate :=
  mkLog (lg_start r) (lg_size r) (lg_outstanding r) (lg_committing r)
    (lg_dev r) (lg_n r) v.

(** console.c: [cons.locking], [panicked], the CGA cursor and text memory; uart.c: [uart], the characters sent and those received but not read; kbd.c: [shift] and the scan codes in the keyboard controller; [input] of console.c *)
Record consstate : Type := mkCons {
  cs_locking : bool;
  cs_panicked : bool;
  cs_pos : Z;
  cs_crt : list Z;
  cs_uart : bool;
  cs_uart_out : list Z;
  cs_uart_in : list Z;
  cs_shift : Z;
  cs_kbd : list Z;
  cs_buf : list Z;
  cs_r : Z;
  cs_w : Z;
  cs_e : Z
}.

Definition set_cs_locking (v : bool) (r : consstate) : consstate :=
  mkCons v (cs_panicked r) (cs_pos r) (cs_crt r) (cs_uart r) (cs_uart_out r)
    (cs_uart_in r) (cs_shift r) (cs_kbd r) (cs_buf r) (cs_r r) (cs_w r)
    (cs_e r).
Definition set_cs_panicked (v : bool) (r : consstate) : consstate :=
  mkCons (cs_locking r) v (cs_pos r) (cs_crt r) (cs_uart r) (cs_uart_out r)
    (cs_uart_in r) (cs_shift r) (cs_kbd r) (cs_buf r) (cs_r r) (cs_w r)
    (cs_e r).
Definition set_cs_pos (v : Z) (r : consstate) : consstate :=
  mkCons (cs_locking r) (cs_panicked r) v (cs_crt r) (cs_uart r)
    (cs_uart_out r) (cs_uart_in r) (cs_shift r) (cs_kbd r) (cs_buf r) (cs_r r)
    (cs_w r) (cs_e r).
Definition set_cs_crt (v : list Z) (r : consstate) : consstate :=
  mkCons (cs_locking r) (cs_panicked r) (cs_pos r) v (cs_uart r)
    (cs_uart_out r) (cs_uart_in r) (cs_shift r) (cs_kbd r) (cs_buf r) (cs_r r)
    (cs_w r) (cs_e r).
Definition set_cs_uart (v : bool) (r : consstate) : consstate :=
  mkCons (cs_locking r) (cs_panicked r) (cs_pos r) (cs_crt r) v
    (cs_uart_out r) (cs_uart_in r) (cs_shift r) (cs_kbd r) (cs_buf r) (cs_r r)
    (cs_w r) (cs_e r).
Definition set_cs_uart_out (v : list Z) (r : consstate) : consstate :=
  mkCons (cs_locking r) (cs_panicked r) (cs_pos r) (cs_crt r) (cs_uart r) v
    (cs_uart_in r) (cs_shift r) (cs_kbd r) (cs_buf r) (cs_r r) (cs_w r)
    (cs_e r).
Definition set_cs_uart_in (v : list Z) (r : consstate) : consstate :=
  mkCons (cs_locking r) (cs_panicked r) (cs_pos r) (cs_crt r) (cs_uart r)
    (cs_uart_out r) v (cs_shift r) (cs_kbd r) (cs_buf r) (cs_r r) (cs_w r)
    (cs_e r).
Definition set_cs_shift (v : Z) (r : consstate) : consstate :=
  mkCons (cs_locking r) (cs_panicked r) (cs_pos r) (cs_crt r) (cs_uart r)
    (cs_uart_out r) (cs_uart_in r) v (cs_kbd r) (cs_buf r) (cs_r r) (cs_w r)
    (cs_e r).
Definition set_cs_kbd (v : list Z) (r : consstate) : consstate :=
  mkCons (cs_locking r) (cs_panicked r) (cs_pos r) (cs_crt r) (cs_uart r)
    (cs_uart_out r) (cs_uart_in r) (cs_shift r) v (cs_buf r) (cs_r r) (cs_w r)
    (cs_e r).
Definition set_cs_buf (v : list Z) (r : consstate) : consstate :=
  mkCons (cs_locking r) (cs_panicked r) (cs_pos r) (cs_crt r) (cs_uart r)
    (cs_uart_out r) (cs_uart_in r) (cs_shift r) (cs_kbd r) v (cs_r r) (cs_w r)
    (cs_e r).
Definition set_cs_r (v : Z) (r : consstate) : consstate :=
  mkCons (cs_locking r) (cs_panicked r) (cs_pos r) (cs_crt r) (cs_uart r)
    (cs_uart_out r) (cs_uart_in r) (cs_shift r) (cs_kbd r) (cs_buf r) v
    (cs_w r) (cs_e r).
Definition set_cs_w (v : Z) (r : consstate) : consstate :=
  mkCons (cs_locking r) (cs_panicked r) (cs_pos r) (cs_crt r) (cs_uart r)
    (cs_uart_out r) (cs_uart_in r) (cs_shift r) (cs_kbd r) (cs_buf r) (cs_r r)
    v (cs_e r).
Definition set_cs_e (v : Z) (r : consstate) : consstate :=
  mkCons (cs_locking r) (cs_panicked r) (cs_pos r) (cs_crt r) (cs_uart r)
    (cs_uart_out r) (cs_uart_in r) (cs_shift r) (cs_kbd r) (cs_buf r) (cs_r r)
    (cs_w r) v.

(** ide.c: [idequeue], [havedisk1], and the controller: the last value written to each port, the data register's words, the status register *)
Record idestate : Type := mkIde {
  id_queue : option nat;
  id_havedisk1 : bool;
  id_ports : gmap Z Z;
  id_fifo : list Z;
  id_status : Z
}.

Definition set_id_queue (v : option nat) (r : idestate) : idestate :=
  mkIde v (id_havedisk1 r) (id_ports r) (id_fifo r) (id_status r).
Definition set_id_havedisk1 (v : bool) (r : idestate) : idestate :=
  mkIde (id_queue r) v (id_ports r) (id_fifo r) (id_status r).
Definition set_id_ports (v : gmap Z Z) (r : idestate) : idestate :=
  mkIde (id_queue r) (id_havedisk1 r) v (id_fifo r) (id_status r).
Definition set_id_fifo (v : list Z) (r : idestate) : idestate :=
  mkIde (id_queue r) (id_havedisk1 r) (id_ports r) v (id_status r).
Definition set_id_status (v : Z) (r : idestate) : idestate :=
  mkIde (id_queue r) (id_havedisk1 r) (id_ports r) (id_fifo r) v.

(** The other devices: the port writes (newest first), [irqmask] of picirq.c, the registers of the I/O APIC, [lapic] of lapic.c with the registers of the local APIC, and [ismp], [ncpu], [bcpu], [ioapicid] and the fields [id] and [started] of [cpus] of mp.c *)
Record hwstate : Type := mkHw {
  hw_out : list (Z * Z);
  hw_irqmask : Z;
  hw_ioapic : gmap Z Z;
  hw_lapic : Z;
  hw_lapicreg : gmap Z Z;
  hw_ismp : bool;
  hw_ncpu : Z;
  hw_bcpu : Z;
  hw_ioapicid : Z;
  hw_cpu_ids : list Z;
  hw_started : list bool;
  hw_imcr : Z
}.

Definition set_hw_out (v : list (Z * Z)) (r : hwstate) : hwstate :=
  mkHw v (hw_irqmask r) (hw_ioapic r) (hw_lapic r) (hw_lapicreg r) (hw_ismp r)
    (hw_ncpu r) (hw_bcpu r) (hw_ioapicid r) (hw_cpu_ids r) (hw_started r)
    (hw_imcr r).
Definition set_hw_irqmask (v : Z) (r : hwstate) : hwstate :=
  mkHw (hw_out r) v (hw_ioapic r) (hw_lapic r) (hw_lapicreg r) (hw_ismp r)
    (hw_ncpu r) (hw_bcpu r) (hw_ioapicid r) (hw_cpu_ids r) (hw_started r)
    (hw_imcr r).
Definition set_hw_ioapic (v : gmap Z Z) (r : hwstate) : hwstate :=
  mkHw (hw_out r) (hw_irqmask r) v (hw_lapic r) (hw_lapicreg r) (hw_ismp r)
    (hw_ncpu r) (hw_bcpu r) (hw_ioapicid r) (hw_cpu_ids r) (hw_started r)
    (hw_imcr r).
Definition set_hw_lapic (v : Z) (r : hwstate) : hwstate :=
  mkHw (hw_out r) (hw_irqmask r) (hw_ioapic r) v (hw_lapicreg r) (hw_ismp r)
    (hw_ncpu r) (hw_bcpu r) (hw_ioapicid r) (hw_cpu_ids r) (hw_started r)
    (hw_imcr r).
Definition set_hw_lapicreg (v : gmap Z Z) (r : hwstate) : hwstate :=
  mkHw (hw_out r) (hw_irqmask r) (hw_ioapic r) (hw_lapic r) v (hw_ismp r)
    (hw_ncpu r) (hw_bcpu r) (hw_ioapicid r) (hw_cpu_ids r) (hw_started r)
    (hw_imcr r).
Definition set_hw_ismp (v : bool) (r : hwstate) : hwstate :=
  mkHw (hw_out r) (hw_irqmask r) (hw_ioapic r) (hw_lapic r) (hw_lapicreg r) v
    (hw_ncpu r) (hw_bcpu r) (hw_ioapicid r) (hw_cpu_ids r) (hw_started r)
    (hw_imcr r).
Definition set_hw_ncpu (v : Z) (r : hwstate) : hwstate :=
  mkHw (hw_out r) (hw_irqmask r) (hw_ioapic r) (hw_lapic r) (hw_lapicreg r)
    (hw_ismp r) v (hw_bcpu r) (hw_ioapicid r) (hw_cpu_ids r) (hw_started r)
    (hw_imcr r).
Definition set_hw_bcpu (v : Z) (r : hwstate) : hwstate :=
  mkHw (hw_out r) (hw_irqmask r) (hw_ioapic r) (hw_lapic r) (hw_lapicreg r)
    (hw_ismp r) (hw_ncpu r) v (hw_ioapicid r) (hw_cpu_ids r) (hw_started r)
    (hw_imcr r).
Definition set_hw_ioapicid (v : Z) (r : hwstate) : hwstate :=
  mkHw (hw_out r) (hw_irqmask r) (hw_ioapic r) (hw_lapic r) (hw_lapicreg r)
    (hw_ismp r) (hw_ncpu r) (hw_bcpu r) v (hw_cpu_ids r) (hw_started r)
    (hw_imcr r).
Definition set_hw_cpu_ids (v : list Z) (r : hwstate) : hwstate :=
  mkHw (hw_out r) (hw_irqmask r) (hw_ioapic r) (hw_lapic r) (hw_lapicreg r)
    (hw_ismp r) (hw_ncpu r) (hw_bcpu r) (hw_ioapicid r) v (hw_started r)
    (hw_imcr r).
Definition set_hw_started (v : list bool) (r : hwstate) : hwstate :=
  mkHw (hw_out r) (hw_irqmask r) (hw_ioapic r) (hw_lapic r) (hw_lapicreg r)
    (hw_ismp r) (hw_ncpu r) (hw_bcpu r) (hw_ioapicid r) (hw_cpu_ids r) v
    (hw_imcr r).
Definition set_hw_imcr (v : Z) (r : hwstate) : hwstate :=
  mkHw (hw_out r) (hw_irqmask r) (hw_ioapic r) (hw_lapic r) (hw_lapicreg r)
    (hw_ismp r) (hw_ncpu r) (hw_bcpu r) (hw_ioapicid r) (hw_cpu_ids r)
    (hw_started r) v.

(** Addresses and data the linker provides ([end], [data], [cpus], [trapret], [forkret], [vectors], [mpenter], [entrypgdir], [_binary_entryother_start], [_binary_initcode_start], [_binary_fs_img_start]) *)
Record linkmap : Type := mkLink {
  ld_end : Z;
  ld_data : Z;
  ld_cpus : Z;
  ld_trapret : Z;
  ld_forkret : Z;
  ld_vectors : list Z;
  ld_mpenter : Z;
  ld_entrypgdir : Z;
  ld_entryother : list Z;
  ld_initcode : list Z;
  ld_fs_img : list Z
}.

Definition set_ld_end (v : Z) (r : linkmap) : linkmap :=
  mkLink v (ld_data r) (ld_cpus r) (ld_trapret r) (ld_forkret r)
    (ld_vectors r) (ld_mpenter r) (ld_entrypgdir r) (ld_entryother r)
    (ld_initcode r) (ld_fs_img r).
Definition set_ld_data (v : Z) (r : linkmap) : linkmap :=
  mkLink (ld_end r) v (ld_cpus r) (ld_trapret r) (ld_forkret r) (ld_vectors r)
    (ld_mpenter r) (ld_entrypgdir r) (ld_entryother r) (ld_initcode r)
    (ld_fs_img r).
Definition set_ld_cpus (v : Z) (r : linkmap) : linkmap :=
  mkLink (ld_end r) (ld_data r) v (ld_trapret r) (ld_forkret r) (ld_vectors r)
    (ld_mpenter r) (ld_entrypgdir r) (ld_entryother r) (ld_initcode r)
    (ld_fs_img r).
Definition set_ld_trapret (v : Z) (r : linkmap) : linkmap :=
  mkLink (ld_end r) (ld_data r) (ld_cpus r) v (ld_forkret r) (ld_vectors r)
    (ld_mpenter r) (ld_entrypgdir r) (ld_entryother r) (ld_initcode r)
    (ld_fs_img r).
Definition set_ld_forkret (v : Z) (r : linkmap) : linkmap :=
  mkLink (ld_end r) (ld_data r) (ld_cpus r) (ld_trapret r) v (ld_vectors r)
    (ld_mpenter r) (ld_entrypgdir r) (ld_entryother r) (ld_initcode r)
    (ld_fs_img r).
Definition set_ld_vectors (v : list Z) (r : linkmap) : linkmap :=
  mkLink (ld_end r) (ld_data r) (ld_cpus r) (ld_trapret r) (ld_forkret r) v
    (ld_mpenter r) (ld_entrypgdir r) (ld_entryother r) (ld_initcode r)
    (ld_fs_img r).
Definition set_ld_mpenter (v : Z) (r : linkmap) : linkmap :=
  mkLink (ld_end r) (ld_data r) (ld_cpus r) (ld_trapret r) (ld_forkret r)
    (ld_vectors r) v (ld_entrypgdir r) (ld_entryother r) (ld_initcode r)
    (ld_fs_img r).
Definition set_ld_entrypgdir (v : Z) (r : linkmap) : linkmap :=
  mkLink (ld_end r) (ld_data r) (ld_cpus r) (ld_trapret r) (ld_forkret r)
    (ld_vectors r) (ld_mpenter r) v (ld_entryother r) (ld_initcode r)
    (ld_fs_img r).
Definition set_ld_entryother (v : list Z) (r : linkmap) : linkmap :=
  mkLink (ld_end r) (ld_data r) (ld_cpus r) (ld_trapret r) (ld_forkret r)
    (ld_vectors r) (ld_mpenter r) (ld_entrypgdir r) v (ld_initcode r)
    (ld_fs_img r).
Definition set_ld_initcode (v : list Z) (r : linkmap) : linkmap :=
  mkLink (ld_end r) (ld_data r) (ld_cpus r) (ld_trapret r) (ld_forkret r)
    (ld_vectors r) (ld_mpenter r) (ld_entrypgdir r) (ld_entryother r) v
    (ld_fs_img r).
Definition set_ld_fs_img (v : list Z) (r : linkmap) : linkmap :=
  mkLink (ld_end r) (ld_data r) (ld_cpus r) (ld_trapret r) (ld_forkret r)
    (ld_vectors r) (ld_mpenter r) (ld_entrypgdir r) (ld_entryother r)
    (ld_initcode r) v.

(** ** The kernel's global variables

    [k_mem] is physical memory, byte by byte, at the addresses at which the
    kernel maps it (from KERNBASE on); [k_disk] the contents of the
    disks, block by block, under the disk's number and the block's; [k_writes]
    the disk writes made so far, newest first. *)

(** All of them, as one record *)
Record kernel : Type := mkKernel {
  k_link : linkmap;
  k_cpu : cpu;
  k_idt : list gatedesc;
  k_locks : gmap lockid spinlock;
  k_mem : Z -> Z;
  k_use_lock : bool;
  k_freelist : Z;
  k_kpgdir : Z;
  k_ptable : list proc;
  k_initproc : option nat;
  k_nextpid : Z;
  k_randstate : Z;
  k_tickets_base : Z;
  k_p_win : Z;
  k_c_win : Z;
  k_first : bool;
  k_ticks : Z;
  k_cons : consstate;
  k_bcache : list buf;
  k_disk : gmap (Z * Z) (list Z);
  k_writes : list (Z * Z * list Z);
  k_disksize : Z;
  k_ide : idestate;
  k_hw : hwstate;
  k_log : logstate;
  k_sb : superblock;
  k_icache : list inode;
  k_ftable : list file;
  k_pipes : gmap Z pipe
}.

Definition set_k_link (v : linkmap) (r : kernel) : kernel :=
  mkKernel v (k_cpu r) (k_idt r) (k_locks r) (k_mem r) (k_use_lock r)
    (k_freelist r) (k_kpgdir r) (k_ptable r) (k_initproc r) (k_nextpid r)
    (k_randstate r) (k_tickets_base r) (k_p_win r) (k_c_win r) (k_first r)
    (k_ticks r) (k_cons r) (k_bcache r) (k_disk r) (k_writes r) (k_disksize r)
    (k_ide r) (k_hw r) (k_log r) (k_sb r) (k_icache r) (k_ftable r)
    (k_pipes r).
Definition set_k_cpu (v : cpu) (r : kernel) : kernel :=
  mkKernel (k_link r) v (k_idt r) (k_locks r) (k_mem r) (k_use_lock r)
    (k_freelist r) (k_kpgdir r) (k_ptable r) (k_initproc r) (k_nextpid r)
    (k_randstate r) (k_tickets_base r) (k_p_win r) (k_c_win r) (k_first r)
    (k_ticks r) (k_cons r) (k_bcache r) (k_disk r) (k_writes r) (k_disksize r)
    (k_ide r) (k_hw r) (k_log r) (k_sb r) (k_icache r) (k_ftable r)
    (k_pipes r).
Definition set_k_idt (v : list gatedesc) (r : kernel) : kernel :=
  mkKernel (k_link r) (k_cpu r) v (k_locks r) (k_mem r) (k_use_lock r)
    (k_freelist r) (k_kpgdir r) (k_ptable r) (k_initproc r) (k_nextpid r)
    (k_randstate r) (k_tickets_base r) (k_p_win r) (k_c_win r) (k_first r)
    (k_ticks r) (k_cons r) (k_bcache r) (k_disk r) (k_writes r) (k_disksize r)
    (k_ide r) (k_hw r) (k_log r) (k_sb r) (k_icache r) (k_ftable r)
    (k_pipes r).
Definition set_k_locks (v : gmap lockid spinlock) (r : kernel) : kernel :=
  mkKernel (k_link r) (k_cpu r) (k_idt r) v (k_mem r) (k_use_lock r)
    (k_freelist r) (k_kpgdir r) (k_ptable r) (k_initproc r) (k_nextpid r)
    (k_randstate r) (k_tickets_base r) (k_p_win r) (k_c_win r) (k_first r)
    (k_ticks r) (k_cons r) (k_bcache r) (k_disk r) (k_writes r) (k_disksize r)
    (k_ide r) (k_hw r) (k_log r) (k_sb r) (k_icache r) (k_ftable r)
    (k_pipes r).
Definition set_k_mem (v : Z -> Z) (r : kernel) : kernel :=
  mkKernel (k_link r) (k_cpu r) (k_idt r) (k_locks r) v (k_use_lock r)
    (k_freelist r) (k_kpgdir r) (k_ptable r) (k_initproc r) (k_nextpid r)
    (k_randstate r) (k_tickets_base r) (k_p_win r) (k_c_win r) (k_first r)
    (k_ticks r) (k_cons r) (k_bcache r) (k_disk r) (k_writes r) (k_disksize r)
    (k_ide r) (k_hw r) (k_log r) (k_sb r) (k_icache r) (k_ftable r)
    (k_pipes r).
Definition set_k_use_lock (v : bool) (r : kernel) : kernel :=
  mkKernel (k_link r) (k_cpu r) (k_idt r) (k_locks r) (k_mem r) v
    (k_freelist r) (k_kpgdir r) (k_ptable r) (k_initproc r) (k_nextpid r)
    (k_randstate r) (k_tickets_base r) (k_p_win r) (k_c_win r) (k_first r)
    (k_ticks r) (k_cons r) (k_bcache r) (k_disk r) (k_writes r) (k_disksize r)
    (k_ide r) (k_hw r) (k_log r) (k_sb r) (k_icache r) (k_ftable r)
    (k_pipes r).
Definition set_k_freelist (v : Z) (r : kernel) : kernel :=
  mkKernel (k_link r) (k_cpu r) (k_idt r) (k_locks r) (k_mem r) (k_use_lock r)
    v (k_kpgdir r) (k_ptable r) (k_initproc r) (k_nextpid r) (k_randstate r)
    (k_tickets_base r) (k_p_win r) (k_c_win r) (k_first r) (k_ticks r)
    (k_cons r) (k_bcache r) (k_disk r) (k_writes r) (k_disksize r) (k_ide r)
    (k_hw r) (k_log r) (k_sb r) (k_icache r) (k_ftable r) (k_pipes r).
Definition set_k_kpgdir (v : Z) (r : kernel) : kernel :=
  mkKernel (k_link r) (k_cpu r) (k_idt r) (k_locks r) (k_mem r) (k_use_lock r)
    (k_freelist r) v (k_ptable r) (k_initproc r) (k_nextpid r) (k_randstate r)
    (k_tickets_base r) (k_p_win r) (k_c_win r) (k_first r) (k_ticks r)
    (k_cons r) (k_bcache r) (k_disk r) (k_writes r) (k_disksize r) (k_ide r)
    (k_hw r) (k_log r) (k_sb r) (k_icache r) (k_ftable r) (k_pipes r).
Definition set_k_ptable (v : list proc) (r : kernel) : kernel :=
  mkKernel (k_link r) (k_cpu r) (k_idt r) (k_locks r) (k_mem r) (k_use_lock r)
    (k_freelist r) (k_kpgdir r) v (k_initproc r) (k_nextpid r) (k_randstate r)
    (k_tickets_base r) (k_p_win r) (k_c_win r) (k_first r) (k_ticks r)
    (k_cons r) (k_bcache r) (k_disk r) (k_writes r) (k_disksize r) (k_ide r)
    (k_hw r) (k_log r) (k_sb r) (k_icache r) (k_ftable r) (k_pipes r).
Definition set_k_initproc (v : option nat) (r : kernel) : kernel :=
  mkKernel (k_link r) (k_cpu r) (k_idt r) (k_locks r) (k_mem r) (k_use_lock r)
    (k_freelist r) (k_kpgdir r) (k_ptable r) v (k_nextpid r) (k_randstate r)
    (k_tickets_base r) (k_p_win r) (k_c_win r) (k_first r) (k_ticks r)
    (k_cons r) (k_bcache r) (k_disk r) (k_writes r) (k_disksize r) (k_ide r)
    (k_hw r) (k_log r) (k_sb r) (k_icache r) (k_ftable r) (k_pipes r).
Definition set_k_nextpid (v : Z) (r : kernel) : kernel :=
  mkKernel (k_link r) (k_cpu r) (k_idt r) (k_locks r) (k_mem r) (k_use_lock r)
    (k_freelist r) (k_kpgdir r) (k_ptable r) (k_initproc r) v (k_randstate r)
    (k_tickets_base r) (k_p_win r) (k_c_win r) (k_first r) (k_ticks r)
    (k_cons r) (k_bcache r) (k_disk r) (k_writes r) (k_disksize r) (k_ide r)
    (k_hw r) (k_log r) (k_sb r) (k_icache r) (k_ftable r) (k_pipes r).
Definition set_k_randstate (v : Z) (r : kernel) : kernel :=
  mkKernel (k_link r) (k_cpu r) (k_idt r) (k_locks r) (k_mem r) (k_use_lock r)
    (k_freelist r) (k_kpgdir r) (k_ptable r) (k_initproc r) (k_nextpid r) v
    (k_tickets_base r) (k_p_win r) (k_c_win r) (k_first r) (k_ticks r)
    (k_cons r) (k_bcache r) (k_disk r) (k_writes r) (k_disksize r) (k_ide r)
    (k_hw r) (k_log r) (k_sb r) (k_icache r) (k_ftable r) (k_pipes r).
Definition set_k_tickets_base (v : Z) (r : kernel) : kernel :=
  mkKernel (k_link r) (k_cpu r) (k_idt r) (k_locks r) (k_mem r) (k_use_lock r)
    (k_freelist r) (k_kpgdir r) (k_ptable r) (k_initproc r) (k_nextpid r)
    (k_randstate r) v (k_p_win r) (k_c_win r) (k_first r) (k_ticks r)
    (k_cons r) (k_bcache r) (k_disk r) (k_writes r) (k_disksize r) (k_ide r)
    (k_hw r) (k_log r) (k_sb r) (k_icache r) (k_ftable r) (k_pipes r).
Definition set_k_p_win (v : Z) (r : kernel) : kernel :=
  mkKernel (k_link r) (k_cpu r) (k_idt r) (k_locks r) (k_mem r) (k_use_lock r)
    (k_freelist r) (k_kpgdir r) (k_ptable r) (k_initproc r) (k_nextpid r)
    (k_randstate r) (k_tickets_base r) v (k_c_win r) (k_first r) (k_ticks r)
    (k_cons r) (k_bcache r) (k_disk r) (k_writes r) (k_disksize r) (k_ide r)
    (k_hw r) (k_log r) (k_sb r) (k_icache r) (k_ftable r) (k_pipes r).
Definition set_k_c_win (v : Z) (r : kernel) : kernel :=
  mkKernel (k_link r) (k_cpu r) (k_idt r) (k_locks r) (k_mem r) (k_use_lock r)
    (k_freelist r) (k_kpgdir r) (k_ptable r) (k_initproc r) (k_nextpid r)
    (k_randstate r) (k_tickets_base r) (k_p_win r) v (k_first r) (k_ticks r)
    (k_cons r) (k_bcache r) (k_disk r) (k_writes r) (k_disksize r) (k_ide r)
    (k_hw r) (k_log r) (k_sb r) (k_icache r) (k_ftable r) (k_pipes r).
Definition set_k_first (v : bool) (r : kernel) : kernel :=
  mkKernel (k_link r) (k_cpu r) (k_idt r) (k_locks r) (k_mem r) (k_use_lock r)
    (k_freelist r) (k_kpgdir r) (k_ptable r) (k_initproc r) (k_nextpid r)
    (k_randstate r) (k_tickets_base r) (k_p_win r) (k_c_win r) v (k_ticks r)
    (k_cons r) (k_bcache r) (k_disk r) (k_writes r) (k_disksize r) (k_ide r)
    (k_hw r) (k_log r) (k_sb r) (k_icache r) (k_ftable r) (k_pipes r).
Definition set_k_ticks (v : Z) (r : kernel) : kernel :=
  mkKernel (k_link r) (k_cpu r) (k_idt r) (k_locks r) (k_mem r) (k_use_lock r)
    (k_freelist r) (k_kpgdir r) (k_ptable r) (k_initproc r) (k_nextpid r)
    (k_randstate r) (k_tickets_base r) (k_p_win r) (k_c_win r) (k_first r) v
    (k_cons r) (k_bcache r) (k_disk r) (k_writes r) (k_disksize r) (k_ide r)
    (k_hw r) (k_log r) (k_sb r) (k_icache r) (k_ftable r) (k_pipes r).
Definition set_k_cons (v : consstate) (r : kernel) : kernel :=
  mkKernel (k_link r) (k_cpu r) (k_idt r) (k_locks r) (k_mem r) (k_use_lock r)
    (k_freelist r) (k_kpgdir r) (k_ptable r) (k_initproc r) (k_nextpid r)
    (k_randstate r) (k_tickets_base r) (k_p_win r) (k_c_win r) (k_first r)
    (k_ticks r) v (k_bcache r) (k_disk r) (k_writes r) (k_disksize r)
    (k_ide r) (k_hw r) (k_log r) (k_sb r) (k_icache r) (k_ftable r)
    (k_pipes r).
Definition set_k_bcache (v : list buf) (r : kernel) : kernel :=
  mkKernel (k_link r) (k_cpu r) (k_idt r) (k_locks r) (k_mem r) (k_use_lock r)
    (k_freelist r) (k_kpgdir r) (k_ptable r) (k_initproc r) (k_nextpid r)
    (k_randstate r) (k_tickets_base r) (k_p_win r) (k_c_win r) (k_first r)
    (k_ticks r) (k_cons r) v (k_disk r) (k_writes r) (k_disksize r) (k_ide r)
    (k_hw r) (k_log r) (k_sb r) (k_icache r) (k_ftable r) (k_pipes r).
Definition set_k_disk (v : gmap (Z * Z) (list Z)) (r : kernel) : kernel :=
  mkKernel (k_link r) (k_cpu r) (k_idt r) (k_locks r) (k_mem r) (k_use_lock r)
    (k_freelist r) (k_kpgdir r) (k_ptable r) (k_initproc r) (k_nextpid r)
    (k_randstate r) (k_tickets_base r) (k_p_win r) (k_c_win r) (k_first r)
    (k_ticks r) (k_cons r) (k_bcache r) v (k_writes r) (k_disksize r)
    (k_ide r) (k_hw r) (k_log r) (k_sb r) (k_icache r) (k_ftable r)
    (k_pipes r).
Definition set_k_writes (v : list (Z * Z * list Z)) (r : kernel) : kernel :=
  mkKernel (k_link r) (k_cpu r) (k_idt r) (k_locks r) (k_mem r) (k_use_lock r)
    (k_freelist r) (k_kpgdir r) (k_ptable r) (k_initproc r) (k_nextpid r)
    (k_randstate r) (k_tickets_base r) (k_p_win r) (k_c_win r) (k_first r)
    (k_ticks r) (k_cons r) (k_bcache r) (k_disk r) v (k_disksize r) (k_ide r)
    (k_hw r) (k_log r) (k_sb r) (k_icache r) (k_ftable r) (k_pipes r).
Definition set_k_disksize (v : Z) (r : kernel) : kernel :=
  mkKernel (k_link r) (k_cpu r) (k_idt r) (k_locks r) (k_mem r) (k_use_lock r)
    (k_freelist r) (k_kpgdir r) (k_ptable r) (k_initproc r) (k_nextpid r)
    (k_randstate r) (k_tickets_base r) (k_p_win r) (k_c_win r) (k_first r)
    (k_ticks r) (k_cons r) (k_bcache r) (k_disk r) (k_writes r) v (k_ide r)
    (k_hw r) (k_log r) (k_sb r) (k_icache r) (k_ftable r) (k_pipes r).
Definition set_k_ide (v : idestate) (r : kernel) : kernel :=
  mkKernel (k_link r) (k_cpu r) (k_idt r) (k_locks r) (k_mem r) (k_use_lock r)
    (k_freelist r) (k_kpgdir r) (k_ptable r) (k_initproc r) (k_nextpid r)
    (k_randstate r) (k_tickets_base r) (k_p_win r) (k_c_win r) (k_first r)
    (k_ticks r) (k_cons r) (k_bcache r) (k_disk r) (k_writes r) (k_disksize r)
    v (k_hw r) (k_log r) (k_sb r) (k_icache r) (k_ftable r) (k_pipes r).
Definition set_k_hw (v : hwstate) (r : kernel) : kernel :=
  mkKernel (k_link r) (k_cpu r) (k_idt r) (k_locks r) (k_mem r) (k_use_lock r)
    (k_freelist r) (k_kpgdir r) (k_ptable r) (k_initproc r) (k_nextpid r)
    (k_randstate r) (k_tickets_base r) (k_p_win r) (k_c_win r) (k_first r)
    (k_ticks r) (k_cons r) (k_bcache r) (k_disk r) (k_writes r) (k_disksize r)
    (k_ide r) v (k_log r) (k_sb r) (k_icache r) (k_ftable r) (k_pipes r).
Definition set_k_log (v : logstate) (r : kernel) : kernel :=
  mkKernel (k_link r) (k_cpu r) (k_idt r) (k_locks r) (k_mem r) (k_use_lock r)
    (k_freelist r) (k_kpgdir r) (k_ptable r) (k_initproc r) (k_nextpid r)
    (k_randstate r) (k_tickets_base r) (k_p_win r) (k_c_win r) (k_first r)
    (k_ticks r) (k_cons r) (k_bcache r) (k_disk r) (k_writes r) (k_disksize r)
    (k_ide r) (k_hw r) v (k_sb r) (k_icache r) (k_ftable r) (k_pipes r).
Definition set_k_sb (v : superblock) (r : kernel) : kernel :=
  mkKernel (k_link r) (k_cpu r) (k_idt r) (k_locks r) (k_mem r) (k_use_lock r)
    (k_freelist r) (k_kpgdir r) (k_ptable r) (k_initproc r) (k_nextpid r)
    (k_randstate r) (k_tickets_base r) (k_p_win r) (k_c_win r) (k_first r)
    (k_ticks r) (k_cons r) (k_bcache r) (k_disk r) (k_writes r) (k_disksize r)
    (k_ide r) (k_hw r) (k_log r) v (k_icache r) (k_ftable r) (k_pipes r).
Definition set_k_icache (v : list inode) (r : kernel) : kernel :=
  mkKernel (k_link r) (k_cpu r) (k_idt r) (k_locks r) (k_mem r) (k_use_lock r)
    (k_freelist r) (k_kpgdir r) (k_ptable r) (k_initproc r) (k_nextpid r)
    (k_randstate r) (k_tickets_base r) (k_p_win r) (k_c_win r) (k_first r)
    (k_ticks r) (k_cons r) (k_bcache r) (k_disk r) (k_writes r) (k_disksize r)
    (k_ide r) (k_hw r) (k_log r) (k_sb r) v (k_ftable r) (k_pipes r).
Definition set_k_ftable (v : list file) (r : kernel) : kernel :=
  mkKernel (k_link r) (k_cpu r) (k_idt r) (k_locks r) (k_mem r) (k_use_lock r)
    (k_freelist r) (k_kpgdir r) (k_ptable r) (k_initproc r) (k_nextpid r)
    (k_randstate r) (k_tickets_base r) (k_p_win r) (k_c_win r) (k_first r)
    (k_ticks r) (k_cons r) (k_bcache r) (k_disk r) (k_writes r) (k_disksize r)
    (k_ide r) (k_hw r) (k_log r) (k_sb r) (k_icache r) v (k_pipes r).
Definition set_k_pipes (v : gmap Z pipe) (r : kernel) : kernel :=
  mkKernel (k_link r) (k_cpu r) (k_idt r) (k_locks r) (k_mem r) (k_use_lock r)
    (k_freelist r) (k_kpgdir r) (k_ptable r) (k_initproc r) (k_nextpid r)
    (k_randstate r) (k_tickets_base r) (k_p_win r) (k_c_win r) (k_first r)
    (k_ticks r) (k_cons r) (k_bcache r) (k_disk r) (k_writes r) (k_disksize r)
    (k_ide r) (k_hw r) (k_log r) (k_sb r) (k_icache r) (k_ftable r) v.

(** The monad of the kernel. *)
Notation K := (M kernel).

(** ** Access to the tables *)

Definition proc0 : proc :=
  mkProc 0 0 0 UNUSED 0 None 0 0 None 0 (replicate NOFILE None) None
    (replicate 16 0) 0 0.
Definition buf0 : buf := mkBuf 0 0 0 0 0 None (replicate 512 0).
Definition inode0 : inode := mkInode 0 0 0 0 0 0 0 0 0 (replicate 13 0).
Definition file0 : file := mkFile FD_NONE 0 false false 0 None 0.
Definition gate0 : gatedesc := mkGate 0 0 0 0 0 0 0 0 0.
Definition pipe0 : pipe := mkPipe (replicate 512 0) 0 0 false false.
Definition spinlock0 : spinlock := mkSpinlock 0 EmptyString None.

Definition proc_at (k : kernel) (i : nat) : proc := default proc0 (k_ptable k !! i).
Definition buf_at (k : kernel) (i : nat) : buf := default buf0 (k_bcache k !! i).
Definition inode_at (k : kernel) (i : nat) : inode := default inode0 (k_icache k !! i).
Definition file_at (k : kernel) (i : nat) : file := default file0 (k_ftable k !! i).
Definition pipe_at (k : kernel) (p : Z) : pipe := default pipe0 (k_pipes k !! p).
Definition lock_at (k : kernel) (l : lockid) : spinlock := default spinlock0 (k_locks k !! l).

Definition get_proc (i : nat) : K proc := gets (fun k => proc_at k i).
Definition get_buf (i : nat) : K buf := gets (fun k => buf_at k i).
Definition get_inode (i : nat) : K inode := gets (fun k => inode_at k i).
Definition get_file (i : nat) : K file := gets (fun k => file_at k i).
Definition get_pipe (p : Z) : K pipe := gets (fun k => pipe_at k p).

(** Assignments to fields of a table's entry. *)
Definition upd_proc (i : nat) (f : proc -> proc) : K unit :=
  modify (fun k => set_k_ptable (alter f i (k_ptable k)) k).
Definition upd_buf (i : nat) (f : buf -> buf) : K unit :=
  modify (fun k => set_k_bcache (alter f i (k_bcache k)) k).
Definition upd_inode (i : nat) (f : inode -> inode) : K unit :=
  modify (fun k => set_k_icache (alter f i (k_icache k)) k).
Definition upd_file (i : nat) (f : file -> file) : K unit :=
  modify (fun k => set_k_ftable (alter f i (k_ftable k)) k).
Definition upd_pipe (p : Z) (f : pipe -> pipe) : K unit :=
  modify (fun k => set_k_pipes (alter f p (k_pipes k)) k).
Definition upd_log (f : logstate -> logstate) : K unit :=
  modify (fun k => set_k_log (f (k_log k)) k).
Definition upd_cpu (f : cpu -> cpu) : K unit :=
  modify (fun k => set_k_cpu (f (k_cpu k)) k).
Definition upd_ide (f : idestate -> idestate) : K unit :=
  modify (fun k => set_k_ide (f (k_ide k)) k).
Definition upd_hw (f : hwstate -> hwstate) : K unit :=
  modify (fun k => set_k_hw (f (k_hw k)) k).
Definition upd_cons (f : consstate -> consstate) : K unit :=
  modify (fun k => set_k_cons (f (k_cons k)) k).

(** The current process, [proc] of proc.h.  Without one (the scheduler, on the
    kernel's page table) a dereference of the null pointer faults, and [trap]
    panics. *)
Definition curproc : K nat :=
  p <- gets (fun k => c_proc (k_cpu k)) ;;
  match p with
  | Some i => ret i
  | None => panic "trap"
  end.

Lemma proc_at_lookup k i p : k_ptable k !! i = Some p -> proc_at k i = p.
Proof. intros H. unfold proc_at. by rewrite H. Qed.

Lemma buf_at_lookup k i b : k_bcache k !! i = Some b -> buf_at k i = b.
Proof. intros H. unfold buf_at. by rewrite H. Qed.

Lemma inode_at_lookup k i ip : k_icache k !! i = Some ip -> inode_at k i = ip.
Proof. intros H. unfold inode_at. by rewrite H. Qed.

Lemma file_at_lookup k i f : k_ftable k !! i = Some f -> file_at k i = f.
Proof. intros H. unfold file_at. by rewrite H. Qed.

(** ** Page arithmetic *)

Lemma land_page_mask a : 0 <= a < 4294967296 -> Z.land a (Z.lxor 0xFFFFFFFF 0xFFF) = a - a mod 4096.
Proof.
  intros Ha. change (Z.lxor 0xFFFFFFFF 0xFFF) with (Z.shiftl (Z.ones 20) 12).
  assert (a - a mod 4096 = Z.shiftl (Z.shiftr a 12) 12) as ->.
  { rewrite Z.shiftl_mul_pow2, Z.shiftr_div_pow2 by lia. change (2 ^ 12) with 4096.
    pose proof (Z.div_mod a 4096). lia. }
  apply Z.bits_inj'. intros n Hn. rewrite Z.land_spec, !Z.shiftl_spec by lia.
  destruct (decide (n < 12)).
  - rewrite !(Z.testbit_neg_r _ (n - 12)) by lia. apply andb_false_r.
  - rewrite Z.shiftr_spec by lia. replace (n - 12 + 12) with n by lia.
    destruct (decide (n < 32)).
    + rewrite Z.ones_spec_low by lia. apply andb_true_r.
    + rewrite (Z.bits_above_log2 a n); [done|lia|].
      destruct (decide (a = 0)) as [->|]; [simpl; lia|].
      apply Z.log2_lt_pow2; [lia|]. eapply Z.lt_le_trans; [apply Ha|].
      change 4294967296 with (2 ^ 32). apply Z.pow_le_mono_r; lia.
Qed.

Lemma PGROUNDDOWN_eq a : 0 <= a < 4294967296 -> PGROUNDDOWN a = a - a mod 4096.
Proof. intros Ha. unfold PGROUNDDOWN. rewrite u32_small by done. by apply land_page_mask. Qed.

Lemma PGROUNDUP_eq a :
  0 <= a <= 4294967296 - 4096 -> PGROUNDUP a = (a + 4095) - (a + 4095) mod 4096.
Proof.
  intros Ha. unfold PGROUNDUP, PGSIZE. replace (a + 4096 - 1) with (a + 4095) by lia.
  rewrite u32_small by lia. apply land_page_mask. lia.
Qed.

(** ** Flag words *)

Lemma has_lor f a b : has (Z.lor f a) b = has f b || has a b.
Proof.
  unfold has. rewrite Z.land_lor_distr_l.
  destruct (nz (Z.land f b)) eqn:E1, (nz (Z.land a b)) eqn:E2;
    rewrite ?nz_true, ?nz_false in *; simpl; rewrite ?Z.lor_eq_0_iff; tauto.
Qed.

Lemma has_clear f a b : has (Z.land f (Z.lnot a)) b = has f (Z.land (Z.lnot a) b).
Proof. unfold has. by rewrite Z.land_assoc. Qed.

Lemma has_0_l b : has 0 b = false.
Proof. unfold has. by rewrite Z.land_0_l. Qed.

Lemma has_0_r f : has f 0 = false.
Proof. unfold has. by rewrite Z.land_0_r. Qed.

Lemma valid_clean f :
  (Z.land f (Z.lor B_VALID B_DIRTY) =? B_VALID) = has f B_VALID && negb (has f B_DIRTY).
Proof.
  assert (forall c, 0 <= c < 8 -> Z.land f c = Z.land (f mod 8) c) as Hm.
  { intros c Hc. change 8 with (2 ^ 3). rewrite <- Z.land_ones by lia.
    rewrite <- Z.land_assoc. f_equal. rewrite Z.land_comm.
    rewrite Z.land_ones by lia. symmetry. apply Z.mod_small. lia. }
  unfold has, B_VALID, B_DIRTY. change (Z.lor 2 4) with 6.
  rewrite (Hm 6), (Hm 2), (Hm 4) by lia.
  pose proof (Z.mod_pos_bound f 8 ltac:(lia)) as Hr.
  remember (f mod 8) as x eqn:Ex. clear Ex Hm.
  assert (x = 0 \/ x = 1 \/ x = 2 \/ x = 3 \/ x = 4 \/ x = 5 \/ x = 6 \/ x = 7) as Hx by lia.
  destruct Hx as [->|[->|[->|[->|[->|[->|[->| ->]]]]]]]; reflexivity.
Qed.

(** Simplify tests of flags that were just set or cleared. *)
Ltac flag_simp :=
  repeat first
    [ rewrite has_lor | rewrite has_clear | rewrite has_0_l | rewrite has_0_r ];
  change (has B_BUSY B_BUSY) with true; change (has B_BUSY B_VALID) with false;
  change (has B_BUSY B_DIRTY) with false; change (has B_VALID B_BUSY) with false;
  change (has B_VALID B_VALID) with true; change (has B_VALID B_DIRTY) with false;
  change (has B_DIRTY B_BUSY) with false; change (has B_DIRTY B_VALID) with false;
  change (has B_DIRTY B_DIRTY) with true;
  change (Z.land (Z.lnot B_BUSY) B_BUSY) with 0;
  change (Z.land (Z.lnot B_BUSY) B_VALID) with B_VALID;
  change (Z.land (Z.lnot B_BUSY) B_DIRTY) with B_DIRTY;
  change (Z.land (Z.lnot B_DIRTY) B_BUSY) with B_BUSY;
  change (Z.land (Z.lnot B_DIRTY) B_VALID) with B_VALID;
  change (Z.land (Z.lnot B_DIRTY) B_DIRTY) with 0;
  rewrite ?has_0_r, ?orb_true_r, ?orb_false_r.

(** ** Successive updates of one variable *)

Lemma set_set_k_bcache a b k : set_k_bcache a (set_k_bcache b k) = set_k_bcache a k.
Proof. reflexivity. Qed.
Lemma set_set_k_ptable a b k : set_k_ptable a (set_k_ptable b k) = set_k_ptable a k.
Proof. reflexivity. Qed.
Lemma set_set_k_log a b k : set_k_log a (set_k_log b k) = set_k_log a k.
Proof. reflexivity. Qed.
Lemma set_set_k_icache a b k : set_k_icache a (set_k_icache b k) = set_k_icache a k.
Proof. reflexivity. Qed.
Lemma set_set_k_ftable a b k : set_k_ftable a (set_k_ftable b k) = set_k_ftable a k.
Proof. reflexivity. Qed.
Lemma set_set_k_pipes a b k : set_k_pipes a (set_k_pipes b k) = set_k_pipes a k.
Proof. reflexivity. Qed.
Lemma set_set_k_mem a b k : set_k_mem a (set_k_mem b k) = set_k_mem a k.
Proof. reflexivity. Qed.
Lemma set_set_k_cpu a b k : set_k_cpu a (set_k_cpu b k) = set_k_cpu a k.
Proof. reflexivity. Qed.
Lemma set_set_k_cons a b k : set_k_cons a (set_k_cons b k) = set_k_cons a k.
Proof. reflexivity. Qed.
Lemma set_set_k_ide a b k : set_k_ide a (set_k_ide b k) = set_k_ide a k.
Proof. reflexivity. Qed.

Lemma set_k_bcache_id k : set_k_bcache (k_bcache k) k = k.
Proof. by destruct k. Qed.
Lemma set_k_ptable_id k : set_k_ptable (k_ptable k) k = k.
Proof. by destruct k. Qed.
Lemma set_k_log_id k : set_k_log (k_log k) k = k.
Proof. by destruct k. Qed.
Lemma set_k_icache_id k : set_k_icache (k_icache k) k = k.
Proof. by destruct k. Qed.
Lemma set_k_mem_id k : set_k_mem (k_mem k) k = k.
Proof. by destruct k. Qed.

#[export] Hint Rewrite set_set_k_bcache set_set_k_ptable set_set_k_log
  set_set_k_icache set_set_k_ftable set_set_k_pipes set_set_k_mem set_set_k_cpu
  set_set_k_cons set_set_k_ide set_k_bcache_id set_k_ptable_id set_k_log_id
  set_k_icache_id set_k_mem_id : kset.

(** One step of execution: rewrite with the equation of the first call. *)
Tactic Notation "step" uconstr(H) := erewrite bind_Ok; [cbv beta | eapply H].

(** The equations of the primitive steps, for rewriting an execution forward. *)
Lemma gets_eq {A B} (f : kernel -> A) (g : A -> K B) e k : bind (gets f) g e k = g (f k) e k.
Proof. reflexivity. Qed.
Lemma modify_eq {B} f (g : unit -> K B) e k : bind (modify f) g e k = g tt e (f k).
Proof. reflexivity. Qed.
Lemma ret_eq {A B} (a : A) (g : A -> K B) e k : bind (ret a) g e k = g a e k.
Proof. reflexivity. Qed.
Lemma panic_eq {A B} msg (g : A -> K B) e k : bind (panic msg) g e k = Panic msg k.
Proof. reflexivity. Qed.
Lemma bind_bind_eq {A B C} (m : K A) (f : A -> K B) (g : B -> K C) e k :
  bind (bind m f) g e k = bind m (fun a => bind (f a) g) e k.
Proof. unfold bind. by destruct (m e k). Qed.
Lemma get_proc_eq {B} (i : nat) (g : proc -> K B) e k : bind (get_proc i) g e k = g (proc_at k i) e k.
Proof. reflexivity. Qed.
Lemma upd_proc_eq {B} (i : nat) f (g : unit -> K B) e k :
  bind (upd_proc i f) g e k = g tt e (set_k_ptable (alter f i (k_ptable k)) k).
Proof. reflexivity. Qed.
Lemma get_buf_eq {B} (i : nat) (g : buf -> K B) e k : bind (get_buf i) g e k = g (buf_at k i) e k.
Proof. reflexivity. Qed.
Lemma upd_buf_eq {B} (i : nat) f (g : unit -> K B) e k :
  bind (upd_buf i f) g e k = g tt e (set_k_bcache (alter f i (k_bcache k)) k).
Proof. reflexivity. Qed.
Lemma get_inode_eq {B} (i : nat) (g : inode -> K B) e k : bind (get_inode i) g e k = g (inode_at k i) e k.
Proof. reflexivity. Qed.
Lemma upd_inode_eq {B} (i : nat) f (g : unit -> K B) e k :
  bind (upd_inode i f) g e k = g tt e (set_k_icache (alter f i (k_icache k)) k).
Proof. reflexivity. Qed.
Lemma get_file_eq {B} (i : nat) (g : file -> K B) e k : bind (get_file i) g e k = g (file_at k i) e k.
Proof. reflexivity. Qed.
Lemma upd_file_eq {B} (i : nat) f (g : unit -> K B) e k :
  bind (upd_file i f) g e k = g tt e (set_k_ftable (alter f i (k_ftable k)) k).
Proof. reflexivity. Qed.
Lemma get_pipe_eq {B} (p : Z) (g : pipe -> K B) e k : bind (get_pipe p) g e k = g (pipe_at k p) e k.
Proof. reflexivity. Qed.
Lemma upd_pipe_eq {B} (p : Z) f (g : unit -> K B) e k :
  bind (upd_pipe p f) g e k = g tt e (set_k_pipes (alter f p (k_pipes k)) k).
Proof. reflexivity. Qed.
Lemma upd_log_eq {B} f (g : unit -> K B) e k :
  bind (upd_log f) g e k = g tt e (set_k_log (f (k_log k)) k).
Proof. reflexivity. Qed.
Lemma upd_cpu_eq {B} f (g : unit -> K B) e k :
  bind (upd_cpu f) g e k = g tt e (set_k_cpu (f (k_cpu k)) k).
Proof. reflexivity. Qed.
Lemma upd_ide_eq {B} f (g : unit -> K B) e k :
  bind (upd_ide f) g e k = g tt e (set_k_ide (f (k_ide k)) k).
Proof. reflexivity. Qed.
Lemma upd_hw_eq {B} f (g : unit -> K B) e k :
  bind (upd_hw f) g e k = g tt e (set_k_hw (f (k_hw k)) k).
Proof. reflexivity. Qed.
Lemma upd_cons_eq {B} f (g : unit -> K B) e k :
  bind (upd_cons f) g e k = g tt e (set_k_cons (f (k_cons k)) k).
Proof. reflexivity. Qed.

#[export] Hint Rewrite @gets_eq @modify_eq @ret_eq @panic_eq @bind_bind_eq @get_proc_eq @upd_proc_eq
  @get_buf_eq @upd_buf_eq @get_inode_eq @upd_inode_eq @get_file_eq @upd_file_eq
  @get_pipe_eq @upd_pipe_eq @upd_log_eq @upd_cpu_eq @upd_ide_eq @upd_hw_eq
  @upd_cons_eq : kstep.

(** Run the primitive steps at the head of an execution. *)
Ltac ksteps := autorewrite with kstep; cbv beta.
