(* ===== verification/Demo.v ===== *)
(** A small machine on which the operations can be run: one processor, empty
    tables, every lock free, and a disk of forty blocks whose superblock puts
    a log of thirty blocks at block 2.  The examples of the other files
    evaluate the model on it. *)

From S2P Require Import Prelude Bytes Machine.

Module Demo.

Definition link0 : linkmap :=
  mkLink 0x80120000 0x80108000 0x80112000 0x80105000 0x80103000 [] 0x80103100 0x8010b000 [] [] [].

Definition cpu0 : cpu := mkCpu 0 1 0 true true (Some 0%nat) 0 0 [] 0 0 0 true.

Definition lock0 (name : string) : spinlock := mkSpinlock 0 name None.

Definition locks0 : gmap lockid spinlock :=
  list_to_map
    [(L_ptable, lock0 "ptable"); (L_kmem, lock0 "kmem"); (L_bcache, lock0 "bcache");
     (L_ide, lock0 "ide"); (L_icache, lock0 "icache"); (L_log, lock0 "log");
     (L_ftable, lock0 "ftable"); (L_cons, lock0 "console"); (L_ticks, lock0 "time")].

Definition blank : list Z := replicate 512 0.

Definition sb_block : list Z :=
  put32 24 34 (put32 20 33 (put32 16 2 (put32 12 30 (put32 8 8 (put32 4 5 (put32 0 40 blank)))))).

Definition disk0 : gmap (Z * Z) (list Z) :=
  list_to_map ((fun i => ((1, Z.of_nat i), if (i =? 1)%nat then sb_block else blank)) <$> seq 0 40).

Definition log0 : logstate := mkLog 0 0 0 false 0 0 (replicate (Z.to_nat LOGSIZE) 0).
Definition cons0 : consstate := mkCons true false 0 (replicate 2000 0) false [] [] 0 [] (replicate 128 0) 0 0 0.
Definition ide0 : idestate := mkIde None true ∅ [] 0x40.
Definition hw0 : hwstate := mkHw [] 0xFFFB ∅ 0 ∅ false 0 0 0 (replicate 8 0) (replicate 8 false) 0.
Definition sb0 : superblock := mkSuperblock 0 0 0 0 0 0 0.

Definition machine : kernel :=
  mkKernel link0 cpu0 (replicate 256 gate0) locks0 (fun _ => 0) true 0 0 (replicate NPROC proc0) None 1 1 0 0 0
    true 0 cons0 (replicate (S NBUF) buf0) disk0 [] 40 ide0 hw0 log0 sb0
    (replicate NINODE inode0) (replicate NFILE file0) ∅.

(** The state a computation ends in. *)
Definition final {A} (o : outcome kernel A) : kernel :=
  match o with
  | Ok _ _ k => k
  | Panic _ k => k
  | Hang k => k
  end.

Lemma wp_final {A} (m : K A) Q e k :
  wp m Q e k -> exists a e', m e k = Ok a e' (final (m e k)) /\ Q a e' (final (m e k)).
Proof. unfold wp, final. destruct (m e k) as [a e' k'| |]; [eauto|done|done]. Qed.

End Demo.
