(* ===== verification/Cstring.v ===== *)
(** string.c: the memory and string routines of the kernel.

    [memset], [memcmp] and [memmove] work on memory, a function from addresses
    to bytes; pointers do not wrap around.  The string routines work on the
    list of the bytes at a pointer, which ends where the terminating NUL is:
    the bytes after the end of the list read as 0. *)

From S2P Require Import Prelude Bytes.

Module Cstring.

Definition memory := Z -> Z.

(** Store one byte. *)
Definition store (m : memory) (a v : Z) : memory :=
  fun x => if x =? a then v else m x.

(** [stosb] and [stosl] of x86.h: [rep stosb], [rep stosl]. *)
Fixpoint stosb (m : memory) (addr data : Z) (cnt : nat) : memory :=
  match cnt with
  | O => m
  | S cnt' => stosb (store m addr (u8 data)) (addr + 1) data cnt'
  end.

Definition store32 (m : memory) (a v : Z) : memory :=
  store (store (store (store m a (u8 v)) (a + 1) (u8 (Z.shiftr v 8)))
    (a + 2) (u8 (Z.shiftr v 16))) (a + 3) (u8 (Z.shiftr v 24)).

Definition load32 (m : memory) (a : Z) : Z :=
  le_val [m a; m (a + 1); m (a + 2); m (a + 3)].

Fixpoint stosl (m : memory) (addr data : Z) (cnt : nat) : memory :=
  match cnt with
  | O => m
  | S cnt' => stosl (store32 m addr data) (addr + 4) data cnt'
  end.

Definition memset (m : memory) (dst c : Z) (n : nat) : memory :=
  if (dst mod 4 =? 0) && (Z.of_nat n mod 4 =? 0) then
    let c := Z.land c 0xFF in
    stosl m dst
      (Z.lor (Z.lor (Z.lor (Z.shiftl c 24) (Z.shiftl c 16)) (Z.shiftl c 8)) c)
      (n / 4)
  else stosb m dst c n.

Fixpoint memcmp (m : memory) (s1 s2 : Z) (n : nat) : Z :=
  match n with
  | O => 0
  | S n' =>
      if negb (m s1 =? m s2) then m s1 - m s2 else memcmp m (s1 + 1) (s2 + 1) n'
  end.

(** [while(n-- > 0) *--d = *--s;] *)
Fixpoint copy_down (m : memory) (d s : Z) (n : nat) : memory :=
  match n with
  | O => m
  | S n' => copy_down (store m (d - 1) (m (s - 1))) (d - 1) (s - 1) n'
  end.

(** [while(n-- > 0) *d++ = *s++;] *)
Fixpoint copy_up (m : memory) (d s : Z) (n : nat) : memory :=
  match n with
  | O => m
  | S n' => copy_up (store m d (m s)) (d + 1) (s + 1) n'
  end.

Definition memmove (m : memory) (dst src : Z) (n : nat) : memory :=
  if (src <? dst) && (dst <? src + Z.of_nat n)
  then copy_down m (dst + Z.of_nat n) (src + Z.of_nat n) n
  else copy_up m dst src n.

Definition memcpy (m : memory) (dst src : Z) (n : nat) : memory := memmove m dst src n.

Fixpoint strncmp (p q : list Z) (n : nat) : Z :=
  match n with
  | O => 0
  | S n' =>
      if nz (hd 0 p) && (hd 0 p =? hd 0 q) then strncmp (tl p) (tl q) n'
      else hd 0 p - hd 0 q
  end.

(** The first loop of [strncpy]: the bytes it writes and how many of the [n]
    are left. *)
Fixpoint strncpy_copy (t : list Z) (n : nat) : list Z * nat :=
  match n with
  | O => ([], 0%nat)
  | S n' =>
      let c := hd 0 t in
      if nz c then let '(w, r) := strncpy_copy (tl t) n' in (c :: w, r)
      else ([c], n')
  end.

(** The bytes [strncpy] writes at [s]. *)
Definition strncpy_bytes (t : list Z) (n : nat) : list Z :=
  let '(w, r) := strncpy_copy t n in w ++ replicate r 0.

Definition strncpy (s t : list Z) (n : nat) : list Z := splice 0 (strncpy_bytes t n) s.

(** The bytes [safestrcpy] writes at [s]: at most [n - 1] bytes of [t], up to and
    with its NUL, then a NUL. *)
Fixpoint safestrcpy_bytes (t : list Z) (n : nat) : list Z :=
  match n with
  | O => []
  | S O => [0]
  | S n' =>
      let c := hd 0 t in
      if nz c then c :: safestrcpy_bytes (tl t) n' else [c; 0]
  end.

Definition safestrcpy (s t : list Z) (n : nat) : list Z :=
  splice 0 (safestrcpy_bytes t n) s.

(** [strlen]: the loop [for(n = 0; s[n]; n++)]; it stops at the end of the list
    at the latest. *)
Fixpoint strlen (s : list Z) : Z :=
  match s with
  | [] => 0
  | c :: s' => if nz c then strlen s' + 1 else 0
  end.

(** The string at a pointer: the bytes before the first NUL. *)
Fixpoint cstr (s : list Z) : list Z :=
  match s with
  | [] => []
  | c :: s' => if nz c then c :: cstr s' else []
  end.

(** ** Copies *)

Lemma store_eq m a v : store m a v a = v.
Proof. unfold store. by rewrite Z.eqb_refl. Qed.

Lemma store_ne m a v x : x <> a -> store m a v x = m x.
Proof. intros H. unfold store. apply Z.eqb_neq in H. by rewrite H. Qed.

Lemma copy_up_spec n m d s a :
  (d <= s \/ s + Z.of_nat n <= d) ->
  copy_up m d s n a =
    if (d <=? a) && (a <? d + Z.of_nat n) then m (s + (a - d)) else m a.
Proof.
  revert m d s. induction n as [|n IH]; intros m d s Hds; cbn [copy_up].
  - destruct (_ && _) eqn:E; [|done]. bool_to_prop. lia.
  - rewrite IH by lia.
    destruct (decide (a = d)) as [->|Hne].
    + replace (d + 1 <=? d) with false by (symmetry; apply Z.leb_gt; lia).
      rewrite Z.leb_refl. replace (d <? d + Z.of_nat (S n)) with true
        by (symmetry; apply Z.ltb_lt; lia).
      simpl. rewrite store_eq. f_equal. lia.
    + destruct ((d <=? a) && (a <? d + Z.of_nat (S n))) eqn:E1;
        destruct ((d + 1 <=? a) && (a <? d + 1 + Z.of_nat n)) eqn:E2;
        rewrite ?andb_false_iff in *; bool_to_prop.
      * rewrite store_ne by lia. f_equal. lia.
      * destruct E2; bool_to_prop; lia.
      * destruct E1; bool_to_prop; lia.
      * by apply store_ne.
Qed.

Lemma copy_down_spec n m d s a :
  s <= d ->
  copy_down m d s n a =
    if (d - Z.of_nat n <=? a) && (a <? d) then m (s + (a - d)) else m a.
Proof.
  revert m d s. induction n as [|n IH]; intros m d s Hds; cbn [copy_down].
  - destruct (_ && _) eqn:E; [|done]. bool_to_prop. lia.
  - rewrite IH by lia.
    destruct (decide (a = d - 1)) as [->|Hne].
    + rewrite Z.ltb_irrefl, andb_false_r. rewrite store_eq.
      replace (d - 1 <? d) with true by (symmetry; apply Z.ltb_lt; lia).
      replace (d - Z.of_nat (S n) <=? d - 1) with true by (symmetry; apply Z.leb_le; lia).
      simpl. f_equal. lia.
    + destruct ((d - Z.of_nat (S n) <=? a) && (a <? d)) eqn:E1;
        destruct ((d - 1 - Z.of_nat n <=? a) && (a <? d - 1)) eqn:E2;
        rewrite ?andb_false_iff in *; bool_to_prop.
      * rewrite store_ne by lia. f_equal. lia.
      * destruct E2; bool_to_prop; lia.
      * destruct E1; bool_to_prop; lia.
      * by apply store_ne.
Qed.

Lemma memmove_spec m dst src n a :
  memmove m dst src n a =
    if (dst <=? a) && (a <? dst + Z.of_nat n) then m (src + (a - dst)) else m a.
Proof.
  unfold memmove. destruct (_ && _) eqn:E.
  - bool_to_prop. rewrite copy_down_spec by lia.
    replace (dst + Z.of_nat n - Z.of_nat n) with dst by lia.
    destruct (_ && _); [f_equal; lia|done].
  - apply copy_up_spec. apply andb_false_iff in E as [E|E]; bool_to_prop; lia.
Qed.

Lemma stosb_spec n m dst c a :
  stosb m dst c n a =
    if (dst <=? a) && (a <? dst + Z.of_nat n) then u8 c else m a.
Proof.
  revert m dst. induction n as [|n IH]; intros m dst; cbn [stosb].
  - destruct (_ && _) eqn:E; [|done]. bool_to_prop. lia.
  - rewrite IH. unfold store.
    destruct ((dst + 1 <=? a) && _) eqn:E1; destruct ((dst <=? a) && _) eqn:E2;
      rewrite ?andb_false_iff in *; bool_to_prop; try done.
    + destruct E2; bool_to_prop; lia.
    + destruct (a =? dst) eqn:E3; [done|]. destruct E1; bool_to_prop; lia.
    + destruct (a =? dst) eqn:E3; [|done]. destruct E2; bool_to_prop; lia.
Qed.

Lemma byte_of_fill c i :
  0 <= i < 4 ->
  u8 (Z.shiftr
    (Z.lor (Z.lor (Z.lor (Z.shiftl (Z.land c 0xFF) 24) (Z.shiftl (Z.land c 0xFF) 16))
      (Z.shiftl (Z.land c 0xFF) 8)) (Z.land c 0xFF)) (8 * i)) = u8 c.
Proof.
  intros Hi. unfold u8. change 256 with (2 ^ 8). rewrite <- !Z.land_ones by lia.
  change 255 with (Z.ones 8). apply Z.bits_inj'. intros n Hn.
  rewrite !Z.land_spec, Z.shiftr_spec, !Z.lor_spec by lia.
  destruct (decide (n < 8)) as [Hlt|Hge].
  - rewrite (Z.ones_spec_low 8 n) by lia. rewrite !andb_true_r.
    assert (forall j, 0 <= j -> Z.testbit (Z.shiftl (Z.land c (Z.ones 8)) (8 * j)) (n + 8 * i) =
      if decide (j = i) then Z.testbit c n else false) as Hb.
    { intros j Hj. case_decide as Hji.
      - subst j. rewrite Z.shiftl_spec by lia.
        replace (n + 8 * i - 8 * i) with n by lia.
        rewrite Z.land_spec, Z.ones_spec_low by lia. apply andb_true_r.
      - destruct (decide (j < i)).
        + rewrite Z.shiftl_spec, Z.land_spec, Z.ones_spec_high by lia. apply andb_false_r.
        + rewrite Z.shiftl_spec_low by lia. done. }
    pose proof (Hb 3 ltac:(lia)) as H3. pose proof (Hb 2 ltac:(lia)) as H2.
    pose proof (Hb 1 ltac:(lia)) as H1.
    change (8 * 3) with 24 in H3. change (8 * 2) with 16 in H2.
    change (8 * 1) with 8 in H1. rewrite H3, H2, H1.
    assert (Z.testbit (Z.land c (Z.ones 8)) (n + 8 * i) =
      if decide (0 = i) then Z.testbit c n else false) as ->.
    { rewrite <- (Hb 0) by lia. done. }
    repeat case_decide; try lia; by rewrite ?orb_false_r.
  - rewrite (Z.ones_spec_high 8 n) by lia. by rewrite !andb_false_r.
Qed.

Lemma stosl_spec n m dst c a :
  stosl m dst
    (Z.lor (Z.lor (Z.lor (Z.shiftl (Z.land c 0xFF) 24) (Z.shiftl (Z.land c 0xFF) 16))
      (Z.shiftl (Z.land c 0xFF) 8)) (Z.land c 0xFF)) n a =
    if (dst <=? a) && (a <? dst + 4 * Z.of_nat n) then u8 c else m a.
Proof.
  set (v := Z.lor _ _). revert m dst. induction n as [|n IH]; intros m dst; cbn [stosl].
  - destruct (_ && _) eqn:E; [|done]. bool_to_prop. lia.
  - rewrite IH. unfold store32, store.
    pose proof (byte_of_fill c 0 ltac:(lia)) as B0.
    pose proof (byte_of_fill c 1 ltac:(lia)) as B1.
    pose proof (byte_of_fill c 2 ltac:(lia)) as B2.
    pose proof (byte_of_fill c 3 ltac:(lia)) as B3.
    fold v in B0, B1, B2, B3. simpl in B0, B1, B2, B3.
    change (8 * 0) with 0 in B0. change (8 * 1) with 8 in B1.
    change (8 * 2) with 16 in B2. change (8 * 3) with 24 in B3.
    rewrite Z.shiftr_0_r in B0. rewrite B0, B1, B2, B3.
    destruct ((dst + 4 <=? a) && _) eqn:E1; destruct ((dst <=? a) && _) eqn:E2;
      rewrite ?andb_false_iff in *; bool_to_prop; try done.
    + destruct E2; bool_to_prop; lia.
    + destruct (a =? dst + 3) eqn:?; [done|]. destruct (a =? dst + 2) eqn:?; [done|].
      destruct (a =? dst + 1) eqn:?; [done|]. destruct (a =? dst) eqn:?; [done|].
      destruct E1; bool_to_prop; lia.
    + destruct (a =? dst + 3) eqn:?; [destruct E2; bool_to_prop; lia|].
      destruct (a =? dst + 2) eqn:?; [destruct E2; bool_to_prop; lia|].
      destruct (a =? dst + 1) eqn:?; [destruct E2; bool_to_prop; lia|].
      destruct (a =? dst) eqn:?; [destruct E2; bool_to_prop; lia|]. done.
Qed.

Lemma memset_spec m dst c n a :
  memset m dst c n a =
    if (dst <=? a) && (a <? dst + Z.of_nat n) then u8 c else m a.
Proof.
  unfold memset. destruct (_ && _) eqn:E; [|apply stosb_spec].
  cbv zeta. rewrite stosl_spec. bool_to_prop.
  assert (4 * Z.of_nat (n / 4) = Z.of_nat n) as ->.
  { rewrite Nat2Z.inj_div. pose proof (Z.div_mod (Z.of_nat n) 4). lia. }
  done.
Qed.

(** ** Words *)

Lemma store32_spec m a v x :
  store32 m a v x =
    if (a <=? x) && (x <? a + 4) then nth (Z.to_nat (x - a)) (le_bytes 4 v) 0 else m x.
Proof.
  unfold store32, store. cbn [le_bytes].
  assert (forall w n, 0 <= n -> u8 (Z.shiftr w n) = w / 2 ^ n mod 256) as Hs
    by (intros; unfold u8; by rewrite Z.shiftr_div_pow2).
  rewrite !Hs by lia. change (2 ^ 8) with 256. change (2 ^ 16) with (256 * 256).
  change (2 ^ 24) with (256 * 256 * 256). rewrite <- !Z.div_div by lia. unfold u8.
  destruct (Z.leb_spec a x), (Z.ltb_spec x (a + 4)); cbn [andb].
  - assert (x = a \/ x = a + 1 \/ x = a + 2 \/ x = a + 3) as [->|[->|[->| ->]]] by lia.
    all: repeat match goal with |- context [?u =? ?w] =>
      destruct (Z.eqb_spec u w); try lia end.
    + replace (a - a) with 0 by lia. done.
    + replace (a + 1 - a) with 1 by lia. done.
    + replace (a + 2 - a) with 2 by lia. done.
    + replace (a + 3 - a) with 3 by lia. done.
  - repeat match goal with |- context [?u =? ?w] => destruct (Z.eqb_spec u w); try lia end.
  - repeat match goal with |- context [?u =? ?w] => destruct (Z.eqb_spec u w); try lia end.
  - lia.
Qed.

Lemma load32_store32 m a v : load32 (store32 m a v) a = u32 v.
Proof.
  unfold load32. rewrite !store32_spec.
  rewrite Z.leb_refl. rewrite !(proj2 (Z.leb_le _ _)) by lia. rewrite !(proj2 (Z.ltb_lt _ _)) by lia.
  cbn [andb]. replace (a - a) with 0 by lia. replace (a + 1 - a) with 1 by lia.
  replace (a + 2 - a) with 2 by lia. replace (a + 3 - a) with 3 by lia.
  change [nth (Z.to_nat 0) (le_bytes 4 v) 0; nth (Z.to_nat 1) (le_bytes 4 v) 0;
    nth (Z.to_nat 2) (le_bytes 4 v) 0; nth (Z.to_nat 3) (le_bytes 4 v) 0] with (le_bytes 4 v).
  apply le_val_bytes.
Qed.

Lemma store32_ne m a v x : x < a \/ a + 4 <= x -> store32 m a v x = m x.
Proof.
  intros Hx. rewrite store32_spec.
  destruct (Z.leb_spec a x), (Z.ltb_spec x (a + 4)); cbn [andb]; done || lia.
Qed.

Lemma load32_ext m m' a : (forall i, 0 <= i < 4 -> m (a + i) = m' (a + i)) -> load32 m a = load32 m' a.
Proof.
  intros Hm. unfold load32. pose proof (Hm 0 ltac:(lia)) as H0. rewrite Z.add_0_r in H0.
  by rewrite H0, !Hm by lia.
Qed.

Lemma load32_store32_ne m a b v : b + 4 <= a \/ a + 4 <= b -> load32 (store32 m a v) b = load32 m b.
Proof. intros Hd. apply load32_ext. intros i Hi. apply store32_ne. lia. Qed.

Lemma memset_ne m dst c n x : x < dst \/ dst + Z.of_nat n <= x -> memset m dst c n x = m x.
Proof.
  intros Hx. rewrite memset_spec.
  destruct (Z.leb_spec dst x), (Z.ltb_spec x (dst + Z.of_nat n)); cbn [andb]; done || lia.
Qed.

(** [memmove] is right for every pair of regions, overlapping or not: each of the
    [n] bytes at [dst] becomes the byte that was at the same place of the
    source before the call, and no other byte changes. *)
Theorem memmove_correct m dst src n :
  (forall i, 0 <= i < Z.of_nat n -> memmove m dst src n (dst + i) = m (src + i)) /\
  (forall a, a < dst \/ dst + Z.of_nat n <= a -> memmove m dst src n a = m a).
Proof.
  split; intros i Hi; rewrite memmove_spec.
  - rewrite (proj2 (Z.leb_le _ _)), (proj2 (Z.ltb_lt _ _)) by lia. simpl. f_equal. lia.
  - destruct (Z.leb_spec dst i), (Z.ltb_spec i (dst + Z.of_nat n)); simpl; lia || done.
Qed.

(** ** Strings *)

Lemma cstr_cons c s : cstr (c :: s) = if c =? 0 then [] else c :: cstr s.
Proof. simpl. unfold nz. by destruct (c =? 0). Qed.
Lemma hd_cstr s : hd 0 (cstr s) = hd 0 s.
Proof. destruct s as [|c s]; [done|]. rewrite cstr_cons. destruct (Z.eqb_spec c 0); subst; done. Qed.
Lemma cstr_step s : cstr s = if nz (hd 0 s) then hd 0 s :: cstr (tl s) else [].
Proof. destruct s as [|c s]; [done|]. rewrite cstr_cons. simpl. unfold nz. by destruct (c =? 0). Qed.
(** [strncmp] compares the strings, up to their first [n] bytes. *)
Lemma strncmp_zero n p q : strncmp p q n = 0 <-> take n (cstr p) = take n (cstr q).
Proof.
  revert p q. induction n as [|n IH]; intros p q; [done|]. cbn [strncmp].
  rewrite (cstr_step p), (cstr_step q).
  destruct (nz (hd 0 p)) eqn:Ep, (nz (hd 0 q)) eqn:Eq; cbn [andb take];
    rewrite ?nz_true, ?nz_false in *.
  - destruct (Z.eqb_spec (hd 0 p) (hd 0 q)) as [->|Hne].
    + rewrite IH. split; congruence.
    + split; [lia|congruence].
  - destruct (Z.eqb_spec (hd 0 p) (hd 0 q)) as [He|Hne]; [congruence|]. split; [lia|done].
  - split; [lia|done].
  - split; [done|lia].
Qed.
Lemma strncpy_copy_spec n t :
  exists z, fst (strncpy_copy t n) ++ replicate (snd (strncpy_copy t n)) 0 = take n (cstr t) ++ replicate z 0 /\
    (z + length (take n (cstr t)) = n)%nat.
Proof.
  revert t. induction n as [|n IH]; intros t; [by exists 0%nat|].
  cbn [strncpy_copy]. rewrite (cstr_step t). destruct (nz (hd 0 t)) eqn:E.
  - destruct (IH (tl t)) as (z & Hz & Hl). destruct (strncpy_copy (tl t) n) as [w r]. simpl in *.
    exists z. rewrite Hz. split; [done|]. lia.
  - rewrite nz_false in E. simpl. exists (S n). rewrite E. simpl. split; [done|lia].
Qed.
Lemma strncpy_bytes_spec n t :
  strncpy_bytes t n = take n (cstr t) ++ replicate (n - length (take n (cstr t))) 0.
Proof.
  unfold strncpy_bytes. destruct (strncpy_copy_spec n t) as (z & Hz & Hl).
  destruct (strncpy_copy t n) as [w r]. simpl in *. rewrite Hz. do 2 f_equal. lia.
Qed.
Lemma cstr_no_nul t : Forall (fun c => c <> 0) (cstr t).
Proof. induction t as [|c t IH]; [constructor|]. rewrite cstr_cons. destruct (Z.eqb_spec c 0); by constructor. Qed.
Lemma cstr_app l z : Forall (fun c => c <> 0) l -> cstr (l ++ replicate z 0) = l.
Proof.
  induction 1 as [|c l Hc _ IH]; [by destruct z|]. cbn [app]. rewrite cstr_cons, IH.
  by destruct (Z.eqb_spec c 0).
Qed.
Lemma cstr_strncpy n t : cstr (strncpy_bytes t n) = take n (cstr t).
Proof. rewrite strncpy_bytes_spec. apply cstr_app. apply Forall_take, cstr_no_nul. Qed.

Lemma safestrcpy_bytes_spec n t :
  cstr (safestrcpy_bytes t (S n)) = take n (cstr t) /\
  (length (safestrcpy_bytes t (S n)) <= S n)%nat /\
  last (safestrcpy_bytes t (S n)) = Some 0.
Proof.
  revert t. induction n as [|n IH]; intros t; [done|].
  change (safestrcpy_bytes t (S (S n))) with
    (if nz (hd 0 t) then hd 0 t :: safestrcpy_bytes (tl t) (S n) else [hd 0 t; 0]).
  rewrite (cstr_step t). destruct (nz (hd 0 t)) eqn:E.
  - destruct (IH (tl t)) as (H1 & H2 & H3). split_and!.
    + cbn [cstr take]. by rewrite E, H1.
    + cbn [length]. lia.
    + rewrite last_cons, H3. done.
  - rewrite nz_false in E. rewrite E. simpl. split_and!; [done|lia|done].
Qed.

(** [safestrcpy] with a buffer of [n + 1] bytes writes at most [n + 1] bytes, the
    last of them a NUL, and the string in the buffer is then the source cut off
    after [n] characters. *)
Theorem safestrcpy_terminates s t n :
  length s = S n ->
  length (safestrcpy s t (S n)) = S n /\ cstr (safestrcpy s t (S n)) = take n (cstr t).
Proof.
  intros Hs. destruct (safestrcpy_bytes_spec n t) as (H1 & H2 & H3).
  unfold safestrcpy. split; [by rewrite length_splice by lia|].
  unfold splice. rewrite take_0, app_nil_l. generalize (drop (0 + length (safestrcpy_bytes t (S n))) s).
  intros r. revert H1 H2 H3. generalize (safestrcpy_bytes t (S n)). intros w H1 H2 H3.
  rewrite <- H1. apply last_Some in H3 as [w' ->]. clear H1 H2.
  rewrite <- app_assoc. induction w' as [|c w' IH]; [done|].
  change (cstr (c :: (w' ++ [0] ++ r)) = cstr (c :: (w' ++ [0]))).
  by rewrite !cstr_cons, IH.
Qed.

Lemma safestrcpy_terminates_witness :
  length (safestrcpy [7; 7; 7; 7] [97; 98; 99; 100; 101] 4) = 4%nat /\
  cstr (safestrcpy [7; 7; 7; 7] [97; 98; 99; 100; 101] 4) = [97; 98; 99].
Proof. apply (safestrcpy_terminates [7; 7; 7; 7] [97; 98; 99; 100; 101] 3). reflexivity. Defined.

End Cstring.
