(* ===== verification/Spinlock.v ===== *)
(** spinlock.c: the spin locks, [pushcli]/[popcli], and the proof that a lock
    excludes the other processors. *)

From S2P Require Import Prelude Bytes Machine Demo.

(** ** The operations *)

Module Spinlock.

Definition initlock (l : lockid) (name : string) : K unit :=
  modify (fun k => set_k_locks (<[l := mkSpinlock 0 name None]> (k_locks k)) k).

Definition holding (l : lockid) : K bool :=
  gets (fun k =>
    nz (lk_locked (lock_at k l)) &&
    bool_decide (lk_cpu (lock_at k l) = Some (c_id (k_cpu k)))).

(** [readeflags() & FL_IF], [cli] and [sti] of x86.h. *)
Definition readeflags_if : K bool := gets (fun k => c_if (k_cpu k)).
Definition cli : K unit := upd_cpu (set_c_if false).
Definition sti : K unit := upd_cpu (set_c_if true).

Definition pushcli : K unit :=
  eflags <- readeflags_if ;;
  cli ;;
  ncli <- gets (fun k => c_ncli (k_cpu k)) ;;
  upd_cpu (set_c_ncli (ncli + 1)) ;;
  when (ncli =? 0) (upd_cpu (set_c_intena eflags)).

Definition popcli : K unit :=
  eflags <- readeflags_if ;;
  if eflags then panic "popcli - interruptible" else
  ncli <- gets (fun k => c_ncli (k_cpu k) - 1) ;;
  upd_cpu (set_c_ncli ncli) ;;
  if ncli <? 0 then panic "popcli" else
  intena <- gets (fun k => c_intena (k_cpu k)) ;;
  when ((ncli =? 0) && intena) sti.

(** [xchg(&lk->locked, v)] of x86.h. *)
Definition xchg_locked (l : lockid) (v : Z) : K Z :=
  old <- gets (fun k => lk_locked (lock_at k l)) ;;
  modify (fun k =>
    set_k_locks (<[l := set_lk_locked v (lock_at k l)]> (k_locks k)) k) ;;
  ret old.

Definition set_lock_cpu (l : lockid) (c : option Z) : K unit :=
  modify (fun k =>
    set_k_locks (<[l := set_lk_cpu c (lock_at k l)]> (k_locks k)) k).

(** While the lock is taken the processor spins, and another one changes the
    state. *)
Definition acquire (l : lockid) : K unit :=
  pushcli ;;
  h <- holding l ;;
  if h then panic "acquire" else
  loop_sched (fun _ : unit =>
    old <- xchg_locked l 1 ;;
    if nz old then interfere ;; ret (inl tt) else ret (inr tt)) tt ;;
  me <- gets (fun k => c_id (k_cpu k)) ;;
  set_lock_cpu l (Some me).

Definition release (l : lockid) : K unit :=
  h <- holding l ;;
  if negb h then panic "release" else
  set_lock_cpu l None ;;
  xchg_locked l 0 ;;
  popcli.

(** [getcallerpcs] follows the chain of saved frame pointers from [v - 2]
    (in words) through memory and stops at one outside the kernel; the rest of
    the ten entries is 0. *)
Fixpoint getcallerpcs_loop (mem : Z -> Z) (ebp : Z) (i : nat) : list Z :=
  match i with
  | O => []
  | S i' =>
      if (ebp =? 0) || (ebp <? KERNBASE) || (ebp =? 0xffffffff)
      then replicate i 0
      else mem (u32 (ebp + 4)) :: getcallerpcs_loop mem (mem ebp) i'
  end.

Definition getcallerpcs (mem : Z -> Z) (v : Z) : list Z :=
  getcallerpcs_loop mem (u32 (v - 8)) 10.

(** ** The state of a lock and of the processor's interrupt flag *)

Definition lock_free (l : lockid) (k : kernel) : Prop :=
  exists name, k_locks k !! l = Some (mkSpinlock 0 name None).

(** Interrupts are off inside [pushcli], and outside of it [intena] is up to
    date (as it is after any lock operation). *)
Definition cpu_ok (k : kernel) : Prop :=
  let c := k_cpu k in
  0 <= c_ncli c /\ (c_ncli c = 0 -> c_intena c = c_if c) /\
  (0 < c_ncli c -> c_if c = false).

(** The state after taking lock [l] in state [k]. *)
Definition lock_taken (l : lockid) (k : kernel) : kernel :=
  set_k_locks
    (<[l := mkSpinlock 1 (lk_name (lock_at k l)) (Some (c_id (k_cpu k)))]>
       (k_locks k))
    (set_k_cpu (set_c_ncli (c_ncli (k_cpu k) + 1) (set_c_if false (k_cpu k))) k).

(** State [k] with the locks and the processor as in [k0]. *)
Definition unlock_to (k0 k : kernel) : kernel :=
  set_k_locks (k_locks k0) (set_k_cpu (k_cpu k0) k).

(** State [k] is inside the critical section of [l] entered in state [k0]. *)
Definition inside (l : lockid) (k0 k : kernel) : Prop :=
  lock_free l k0 /\ cpu_ok k0 /\
  k_locks k = k_locks (lock_taken l k0) /\ k_cpu k = k_cpu (lock_taken l k0).

Lemma lock_taken_cpu_ok l k : cpu_ok k -> cpu_ok (lock_taken l k).
Proof. unfold cpu_ok, lock_taken; simpl. intuition lia. Qed.

Lemma lock_free_other l l' k :
  l <> l' -> lock_free l k -> lock_free l (lock_taken l' k).
Proof.
  intros Hne [name H]. exists name. unfold lock_taken; simpl.
  by rewrite lookup_insert_ne.
Qed.

Lemma pushcli_ok e k :
  cpu_ok k ->
  pushcli e k =
    Ok tt e (set_k_cpu (set_c_ncli (c_ncli (k_cpu k) + 1)
                          (set_c_if false (k_cpu k))) k).
Proof.
  intros (H0 & H1 & H2). unfold pushcli, when, bind, cli, readeflags_if, upd_cpu.
  simpl. destruct (c_ncli (k_cpu k) =? 0) eqn:E; [|done].
  bool_to_prop. rewrite <- (H1 E). reflexivity.
Qed.

Lemma acquire_ok l e k :
  lock_free l k -> cpu_ok k -> acquire l e k = Ok tt e (lock_taken l k).
Proof.
  intros [name Hl] Hc. unfold acquire. rewrite (bind_Ok _ _ _ _ _ _ _ (pushcli_ok e k Hc)).
  unfold bind, holding, gets, lock_at. simpl. rewrite Hl. simpl.
  unfold loop_sched, loop_fuel. simpl.
  unfold bind, xchg_locked, bind, gets, modify, ret, lock_at; simpl. rewrite Hl; simpl.
  unfold set_lock_cpu, modify, lock_at; simpl.
  rewrite lookup_insert_eq; simpl. rewrite insert_insert_eq.
  unfold lock_taken, lock_at; simpl. by rewrite Hl.
Qed.

Lemma release_ok l e k0 k :
  inside l k0 k -> release l e k = Ok tt e (unlock_to k0 k).
Proof.
  intros ([name Hl] & (H0 & H1 & H2) & Hlk & Hcpu).
  unfold lock_taken, lock_at in Hlk, Hcpu; simpl in *. rewrite Hl in Hlk; simpl in Hlk.
  unfold release, bind, holding, gets, lock_at. rewrite Hlk, lookup_insert_eq; simpl.
  rewrite Hcpu; simpl. rewrite bool_decide_eq_true_2 by done. simpl.
  unfold set_lock_cpu, xchg_locked, bind, gets, modify, ret, lock_at; simpl.
  rewrite Hlk, insert_insert_eq, !lookup_insert_eq; simpl.
  rewrite insert_insert_eq.
  unfold popcli, bind, readeflags_if, gets, upd_cpu, modify; simpl.
  repeat (rewrite Hcpu; simpl).
  replace (c_ncli (k_cpu k0) + 1 - 1) with (c_ncli (k_cpu k0)) by lia.
  assert (c_ncli (k_cpu k0) <? 0 = false) as -> by (apply Z.ltb_ge; lia).
  unfold set_lk_locked, set_lk_cpu; simpl. rewrite (insert_id (k_locks k0) l) by done.
  unfold unlock_to.
  assert (forall b, c_if (k_cpu k0) = b ->
    mkCpu (c_id (k_cpu k0)) (c_started (k_cpu k0)) (c_ncli (k_cpu k0))
      (c_intena (k_cpu k0)) b (c_proc (k_cpu k0)) (c_esp0 (k_cpu k0))
      (c_ss0 (k_cpu k0)) (c_gdt (k_cpu k0)) (c_tr (k_cpu k0)) (c_cr2 (k_cpu k0))
      (c_cr3 (k_cpu k0)) (c_idt_loaded (k_cpu k0)) = k_cpu k0) as Heta.
  { intros b <-. by destruct (k_cpu k0). }
  destruct (c_ncli (k_cpu k0) =? 0) eqn:E; bool_to_prop; simpl.
  - rewrite H1 by done. unfold when, sti, upd_cpu, modify, ret.
    destruct (c_if (k_cpu k0)) eqn:Eif; simpl; do 2 f_equal;
      unfold set_c_ncli, set_c_if, set_k_cpu, set_k_locks; simpl; by rewrite Heta.
  - unfold when, ret. do 2 f_equal.
    unfold set_c_ncli, set_c_if, set_k_cpu, set_k_locks; simpl.
    rewrite Heta by (apply H2; lia). done.
Qed.

Lemma inside_taken l k : lock_free l k -> cpu_ok k -> inside l k (lock_taken l k).
Proof. done. Qed.

Lemma wp_acquire l Q e k :
  lock_free l k -> cpu_ok k -> Q tt e (lock_taken l k) -> wp (acquire l) Q e k.
Proof. intros H1 H2 H3. unfold wp. by rewrite acquire_ok. Qed.

Lemma wp_release l k0 Q e k :
  inside l k0 k -> Q tt e (unlock_to k0 k) -> wp (release l) Q e k.
Proof. intros H1 H2. unfold wp. by rewrite (release_ok l e k0 k H1). Qed.

(** A critical section that leaves the locks and the processor alone. *)
Lemma critical_section {A} l (body : K A) e k a e' k' :
  lock_free l k -> cpu_ok k ->
  body e (lock_taken l k) = Ok a e' k' ->
  k_locks k' = k_locks (lock_taken l k) -> k_cpu k' = k_cpu (lock_taken l k) ->
  (acquire l ;; x <- body ;; release l ;; ret x) e k = Ok a e' (unlock_to k k').
Proof.
  intros Hl Hc Hb Hlk Hcpu.
  rewrite (bind_Ok _ _ _ _ _ _ _ (acquire_ok l e k Hl Hc)).
  rewrite (bind_Ok _ _ _ _ _ _ _ Hb).
  assert (inside l k k') as Hin by done.
  by rewrite (bind_Ok _ _ _ _ _ _ _ (release_ok l e' k k' Hin)).
Qed.

(** Taking a free lock turns interrupts off; releasing it restores the
    locks and the processor's interrupt state exactly, whatever the nesting of
    [pushcli]; taking it a second time panics, and so does releasing a lock that
    is not held. *)
Theorem acquire_release l e k :
  lock_free l k -> cpu_ok k ->
  (exists k1, acquire l e k = Ok tt e k1 /\ c_if (k_cpu k1) = false /\
     c_ncli (k_cpu k1) = c_ncli (k_cpu k) + 1 /\
     lk_locked (lock_at k1 l) = 1 /\
     release l e k1 = Ok tt e k /\
     exists k2, acquire l e k1 = Panic "acquire" k2) /\
  exists k3, release l e k = Panic "release" k3.
Proof.
  intros Hl Hc. split.
  - exists (lock_taken l k). split; [by apply acquire_ok|].
    split; [done|]. split; [done|].
    unfold lock_at, lock_taken at 1; simpl. rewrite lookup_insert_eq. split; [done|]. split.
    + rewrite (release_ok l e k) by (by apply inside_taken).
      unfold unlock_to. f_equal. by destruct k.
    + unfold acquire. erewrite bind_Ok by (apply pushcli_ok; by apply lock_taken_cpu_ok).
      unfold bind, holding, gets, lock_at. simpl. rewrite lookup_insert_eq. simpl.
      rewrite bool_decide_eq_true_2 by done. simpl. by eexists.
  - destruct Hl as [name Hl]. unfold release, bind, holding, gets, lock_at. rewrite Hl; simpl.
    by eexists.
Qed.

Lemma acquire_release_witness :
  (exists k1, acquire L_log [] Demo.machine = Ok tt [] k1 /\ c_if (k_cpu k1) = false /\
     c_ncli (k_cpu k1) = 0 + 1 /\
     lk_locked (lock_at k1 L_log) = 1 /\
     release L_log [] k1 = Ok tt [] Demo.machine /\
     exists k2, acquire L_log [] k1 = Panic "acquire" k2) /\
  exists k3, release L_log [] Demo.machine = Panic "release" k3.
Proof.
  apply (acquire_release L_log [] Demo.machine).
  - exists "log"%string. reflexivity.
  - unfold cpu_ok. simpl. split; [lia|]. split; [done|lia].
Defined.

End Spinlock.

(** ** Several processors

    The same two functions, one memory access at a time, for any number of
    processors that share one lock.  Each constructor of [lstep] is one access
    of [acquire], [release] or [holding]; a processor that calls [panic] is in
    [Panicked]. *)

Module Smp.

Inductive pc :=
| Out                                  (* not in acquire or release *)
| Test_locked | Test_cpu               (* acquire: if(holding(lk)) *)
| Spin                                 (* acquire: while(xchg(&lk->locked, 1) != 0) *)
| Got                                  (* acquire: lk->cpu = cpu *)
| Critical                             (* between acquire and release *)
| Rel_locked | Rel_cpu                 (* release: if(!holding(lk)) *)
| Clear                                (* release: lk->cpu = 0 *)
| Unlock                               (* release: xchg(&lk->locked, 0) *)
| Panicked.

Record lstate : Type := mkLstate {
  s_locked : Z;
  s_cpu : option nat;
  s_pc : nat -> pc
}.

Definition goto (c : nat) (p : pc) (s : lstate) : lstate :=
  mkLstate (s_locked s) (s_cpu s) (fun d => if decide (d = c) then p else s_pc s d).

Definition put_locked (v : Z) (s : lstate) : lstate := mkLstate v (s_cpu s) (s_pc s).
Definition put_cpu (v : option nat) (s : lstate) : lstate := mkLstate (s_locked s) v (s_pc s).

Inductive lstep : lstate -> lstate -> Prop :=
| step_call s c :
    s_pc s c = Out -> lstep s (goto c Test_locked s)
| step_test_locked s c :
    s_pc s c = Test_locked ->
    lstep s (goto c (if nz (s_locked s) then Test_cpu else Spin) s)
| step_test_cpu s c :
    s_pc s c = Test_cpu ->
    lstep s (goto c (if decide (s_cpu s = Some c) then Panicked else Spin) s)
| step_xchg s c :
    s_pc s c = Spin ->
    lstep s (goto c (if nz (s_locked s) then Spin else Got) (put_locked 1 s))
| step_record s c :
    s_pc s c = Got -> lstep s (goto c Critical (put_cpu (Some c) s))
| step_release s c :
    s_pc s c = Critical -> lstep s (goto c Rel_locked s)
| step_rel_locked s c :
    s_pc s c = Rel_locked ->
    lstep s (goto c (if nz (s_locked s) then Rel_cpu else Panicked) s)
| step_rel_cpu s c :
    s_pc s c = Rel_cpu ->
    lstep s (goto c (if decide (s_cpu s = Some c) then Clear else Panicked) s)
| step_clear s c :
    s_pc s c = Clear -> lstep s (goto c Unlock (put_cpu None s))
| step_unlock s c :
    s_pc s c = Unlock -> lstep s (goto c Out (put_locked 0 s)).

(** After [initlock], with every processor outside of the lock's functions. *)
Definition linit : lstate := mkLstate 0 None (fun _ => Out).

(** The processor owns the lock: its [xchg] returned 0 and it has not
    unlocked yet. *)
Definition owns (p : pc) : bool :=
  match p with
  | Got | Critical | Rel_locked | Rel_cpu | Clear | Unlock => true
  | _ => false
  end.

(** The processor's number is in [lk->cpu]. *)
Definition recorded (p : pc) : bool :=
  match p with
  | Critical | Rel_locked | Rel_cpu | Clear => true
  | _ => false
  end.

Definition linv (s : lstate) : Prop :=
  (forall c, owns (s_pc s c) = true -> s_locked s <> 0) /\
  (forall c d, owns (s_pc s c) = true -> owns (s_pc s d) = true -> c = d) /\
  (forall c, recorded (s_pc s c) = true <-> s_cpu s = Some c) /\
  (forall c, s_pc s c <> Panicked).

Lemma recorded_owns p : recorded p = true -> owns p = true.
Proof. by destruct p. Qed.

Lemma linv_init : linv linit.
Proof. unfold linv, linit; simpl. naive_solver. Qed.

Lemma linv_step s s' : linv s -> lstep s s' -> linv s'.
Proof.
  intros (Hlk & Hun & Hrec & Hpan) Hstep.
  assert (forall c, s_cpu s = Some c -> owns (s_pc s c) = true) as Hro.
  { intros c Hc. apply recorded_owns. by apply Hrec. }
  destruct Hstep as [s c Hc|s c Hc|s c Hc|s c Hc|s c Hc|s c Hc|s c Hc|s c Hc|s c Hc|s c Hc];
    unfold linv, goto, put_locked, put_cpu; simpl.
  all: pose proof (f_equal owns Hc) as Ho; pose proof (f_equal recorded Hc) as Hr;
    simpl in Ho, Hr.
  all: assert (forall d, recorded (s_pc s d) = true -> owns (s_pc s d) = true) as Hro'
    by eauto using recorded_owns.
  all: repeat match goal with |- context [nz ?z] =>
         destruct (nz z) eqn:?; [rewrite nz_true in *|rewrite nz_false in *] end.
  all: repeat case_decide.
  all: split_and!.
  all: intros; repeat case_decide; subst; simpl in *; try done.
  all: try solve [eauto | symmetry; eauto | rewrite <- Hrec, Hr; done].
  all: try solve [exfalso; eapply Hlk; eauto].
  - apply Hro in H. congruence.
  - split; [|naive_solver]. intros Hx. exfalso. eauto.
  - apply Hrec in Hr. done.
  - split; [|done]. intros Hx. exfalso. eauto.
Qed.

Lemma linv_reachable s : rtc lstep linit s -> linv s.
Proof.
  intros H. pose proof linv_init as Hi.
  induction H as [s|s s' s'' Hs _ IH]; [done|].
  apply IH. by eapply linv_step.
Qed.

(** C3: In every execution at most one processor is between a successful [xchg]
    of [acquire] and the unlocking [xchg] of [release], and no processor ever
    fails the [holding] tests of [acquire] and [release]. *)
Theorem spinlock_mutual_exclusion s c d :
  rtc lstep linit s ->
  (owns (s_pc s c) = true -> owns (s_pc s d) = true -> c = d) /\
  s_pc s c <> Panicked.
Proof. intros H. destruct (linv_reachable s H) as (_ & Hun & _ & Hp). eauto. Qed.

(** Processor 0 in its critical section. *)
Lemma spinlock_mutual_exclusion_witness :
  exists s, rtc lstep linit s /\ s_pc s 0 = Critical /\
    (owns (s_pc s 0) = true -> owns (s_pc s 1) = true -> 0%nat = 1%nat) /\ s_pc s 0 <> Panicked.
Proof.
  set (s1 := goto 0 Test_locked linit). set (s2 := goto 0 Spin s1).
  set (s3 := goto 0 Got (put_locked 1 s2)). set (s4 := goto 0 Critical (put_cpu (Some 0%nat) s3)).
  assert (rtc lstep linit s4) as Hr.
  { eapply rtc_l; [apply (step_call _ 0%nat); reflexivity|].
    eapply rtc_l; [apply (step_test_locked s1 0%nat); reflexivity|].
    eapply rtc_l; [apply (step_xchg s2 0%nat); reflexivity|].
    eapply rtc_l; [apply (step_record s3 0%nat); reflexivity|].
    apply rtc_refl. }
  exists s4. split; [exact Hr|]. split; [reflexivity|].
  apply (spinlock_mutual_exclusion s4 0 1 Hr).
Defined.

End Smp.
