(* ===== verification/Consout.v ===== *)
(** console.c and uart.c, the output side: [uartputc], [cgaputc], [consputc],
    [printint] and [cprintf]. *)

From S2P Require Import Prelude Bytes Machine Demo Spinlock.
Import Spinlock.

(** The bytes of a C string literal, without the terminating NUL. *)
Fixpoint chars (s : string) : list Z :=
  match s with
  | EmptyString => []
  | String c s' => Z.of_N (Strings.Ascii.N_of_ascii c) :: chars s'
  end.

Module Consout.

(** ** The operations *)

Definition BACKSPACE : Z := 0x100.

Definition uartputc (c : Z) : K unit :=
  cs <- gets k_cons ;;
  if negb (cs_uart cs) then ret tt else
  upd_cons (set_cs_uart_out (cs_uart_out cs ++ [u8 c])).

(** The cursor position is in the 16-bit register of the CRT controller; the
    cells of the screen are [cs_crt]. *)
Definition cgaputc (c : Z) : K unit :=
  pos <- gets (fun k => cs_pos (k_cons k)) ;;
  pos <-
    (if c =? 10 then ret (pos + (80 - pos mod 80))
     else if c =? BACKSPACE then ret (if 0 <? pos then pos - 1 else pos)
     else
       cs <- gets k_cons ;;
       upd_cons (set_cs_crt
         (<[Z.to_nat pos := Z.lor (Z.land c 0xff) 0x0700]> (cs_crt cs))) ;;
       ret (pos + 1)) ;;
  if (pos <? 0) || (25 * 80 <? pos) then panic "pos under/overflow" else
  pos <-
    (if 24 <=? pos / 80 then
       cs <- gets k_cons ;;
       upd_cons (set_cs_crt (splice 0 (slice 80 (23 * 80) (cs_crt cs)) (cs_crt cs))) ;;
       pos <- ret (pos - 80) ;;
       cs <- gets k_cons ;;
       upd_cons (set_cs_crt
         (splice (Z.to_nat pos) (replicate (Z.to_nat (24 * 80 - pos)) 0) (cs_crt cs))) ;;
       ret pos
     else ret pos) ;;
  upd_cons (set_cs_pos (u16 pos)) ;;
  cs <- gets k_cons ;;
  upd_cons (set_cs_crt (<[Z.to_nat pos := Z.lor 32 0x0700]> (cs_crt cs))).

Definition consputc (c : Z) : K unit :=
  cs <- gets k_cons ;;
  if cs_panicked cs then cli ;; hang else
  (if c =? BACKSPACE then uartputc 8 ;; uartputc 32 ;; uartputc 8
   else uartputc c) ;;
  cgaputc c.

(** [digits[d]] *)
Definition digit (d : Z) : Z := nth (Z.to_nat d) (chars "0123456789abcdef") 0.

(** The do-while loop of [printint], the last digit first. *)
Fixpoint int_digits (fuel : nat) (x base : Z) : list Z :=
  match fuel with
  | O => []
  | S fuel' =>
      digit (x mod base) ::
      (if x / base =? 0 then [] else int_digits fuel' (x / base) base)
  end.

(** The characters [printint] prints, in their order.  A number of 32 bits has
    at most 32 digits. *)
Definition printint_chars (xx base : Z) (sign : bool) : list Z :=
  let neg := sign && (xx <? 0) in
  let x := if neg then u32 (- xx) else u32 xx in
  rev (int_digits 32 x base ++ if neg then [45] else []).

Definition printint (xx base : Z) (sign : bool) : K unit :=
  for_all (printint_chars xx base sign) consputc.

(** An argument of [cprintf]: an integer or a string (a null pointer is
    [None]). *)
Inductive carg := AInt (x : Z) | AStr (s : option (list Z)).

Definition next_int (args : list carg) : Z :=
  match args with AInt x :: _ => x | _ => 0 end.
Definition next_str (args : list carg) : list Z :=
  match args with AStr (Some s) :: _ => s | _ => chars "(null)" end.

(** The loop over the format. *)
Fixpoint format (fmt : list Z) (args : list carg) : K unit :=
  match fmt with
  | [] => ret tt
  | c :: fmt' =>
      if Z.land c 0xff =? 0 then ret tt else
      if negb (Z.land c 0xff =? 37) then consputc (Z.land c 0xff) ;; format fmt' args else
      match fmt' with
      | [] => ret tt
      | c2 :: fmt'' =>
          let c2 := Z.land c2 0xff in
          if c2 =? 0 then ret tt
          else if c2 =? 100 then
            printint (s32 (next_int args)) 10 true ;; format fmt'' (tail args)
          else if (c2 =? 120) || (c2 =? 112) then
            printint (s32 (next_int args)) 16 false ;; format fmt'' (tail args)
          else if c2 =? 115 then
            for_all (next_str args) consputc ;; format fmt'' (tail args)
          else if c2 =? 37 then consputc 37 ;; format fmt'' args
          else consputc 37 ;; consputc c2 ;; format fmt'' args
      end
  end.

Definition cprintf (fmt : string) (args : list carg) : K unit :=
  locking <- gets (fun k => cs_locking (k_cons k)) ;;
  when locking (acquire L_cons) ;;
  format (chars fmt) args ;;
  when locking (release L_cons).

(** ** The screen *)

(** The cursor is on the first 24 lines, and there are 25 lines of cells. *)
Definition screen_ok (cs : consstate) : Prop :=
  0 <= cs_pos cs < 24 * 80 /\ length (cs_crt cs) = 2000%nat.

(** The console's state changes only by output. *)
Record cons_frame (cs cs' : consstate) : Prop := {
  cf_locking : cs_locking cs' = cs_locking cs;
  cf_panicked : cs_panicked cs' = cs_panicked cs;
  cf_uart : cs_uart cs' = cs_uart cs;
  cf_uart_in : cs_uart_in cs' = cs_uart_in cs;
  cf_shift : cs_shift cs' = cs_shift cs;
  cf_kbd : cs_kbd cs' = cs_kbd cs;
  cf_buf : cs_buf cs' = cs_buf cs;
  cf_r : cs_r cs' = cs_r cs;
  cf_w : cs_w cs' = cs_w cs;
  cf_e : cs_e cs' = cs_e cs
}.

#[export] Instance cons_frame_preorder : PreOrder cons_frame.
Proof.
  split.
  - by intros cs.
  - intros cs1 cs2 cs3 H1 H2. destruct H1, H2. constructor; congruence.
Qed.

(** The position after the switch of [cgaputc]. *)
Definition next_pos (c pos : Z) : Z :=
  if c =? 10 then pos + (80 - pos mod 80)
  else if c =? BACKSPACE then (if 0 <? pos then pos - 1 else pos)
  else pos + 1.

Lemma next_pos_range c pos : 0 <= pos < 24 * 80 -> 0 <= next_pos c pos <= 24 * 80.
Proof.
  intros Hp. unfold next_pos. destruct (c =? 10).
  - pose proof (Z.div_mod pos 80 ltac:(lia)). pose proof (Z.mod_pos_bound pos 80 ltac:(lia)).
    assert (pos / 80 <= 23) by (apply Z.lt_succ_r, Z.div_lt_upper_bound; lia). lia.
  - destruct (c =? BACKSPACE); [|lia]. destruct (Z.ltb_spec 0 pos); lia.
Qed.


(** The cells after the switch of [cgaputc], and after the scrolling. *)
Definition put_cell (c pos : Z) (crt : list Z) : list Z :=
  if (c =? 10) || (c =? BACKSPACE) then crt
  else <[Z.to_nat pos := Z.lor (Z.land c 0xff) 0x0700]> crt.
Definition scroll (crt : list Z) (pos : Z) : list Z :=
  splice (Z.to_nat pos) (replicate (Z.to_nat (24 * 80 - pos)) 0)
    (splice 0 (slice 80 (23 * 80) crt) crt).

Lemma length_put_cell c pos crt : length (put_cell c pos crt) = length crt.
Proof. unfold put_cell. destruct (_ || _); [done|]. apply length_insert. Qed.

Lemma length_scroll crt pos :
  length crt = 2000%nat -> 0 <= pos <= 24 * 80 -> length (scroll crt pos) = 2000%nat.
Proof.
  intros Hl Hp. unfold scroll.
  assert (length (splice 0 (slice 80 (23 * 80) crt) crt) = 2000%nat) as H1.
  { rewrite length_splice; [done|]. rewrite length_slice by lia. lia. }
  rewrite length_splice; [done|]. rewrite length_replicate, H1. lia.
Qed.

(** The state of the console after [cgaputc]. *)
Definition cga_effect (c : Z) (cs : consstate) : consstate :=
  let pos := next_pos c (cs_pos cs) in
  let crt := put_cell c (cs_pos cs) (cs_crt cs) in
  let pos' := if 24 <=? pos / 80 then pos - 80 else pos in
  let crt' := if 24 <=? pos / 80 then scroll crt (pos - 80) else crt in
  set_cs_crt (<[Z.to_nat pos' := Z.lor 32 0x0700]> crt') (set_cs_pos (u16 pos') cs).

Lemma cgaputc_eq c e k :
  screen_ok (k_cons k) -> cgaputc c e k = Ok tt e (set_k_cons (cga_effect c (k_cons k)) k).
Proof.
  intros [Hp Hl]. pose proof (next_pos_range c _ Hp) as Hn.
  set (cs1 := set_cs_crt (put_cell c (cs_pos (k_cons k)) (cs_crt (k_cons k))) (k_cons k)).
  set (pos := next_pos c (cs_pos (k_cons k))) in *.
  assert ((if c =? 10 then ret (cs_pos (k_cons k) + (80 - cs_pos (k_cons k) mod 80))
     else if c =? BACKSPACE
     then ret (if 0 <? cs_pos (k_cons k) then cs_pos (k_cons k) - 1 else cs_pos (k_cons k))
     else
       cs <- gets k_cons ;;
       upd_cons (set_cs_crt
         (<[Z.to_nat (cs_pos (k_cons k)) := Z.lor (Z.land c 0xff) 0x0700]> (cs_crt cs))) ;;
       ret (cs_pos (k_cons k) + 1)) e k = Ok pos e (set_k_cons cs1 k)) as H1.
  { assert (set_k_cons (set_cs_crt (cs_crt (k_cons k)) (k_cons k)) k = k) as Hid.
    { destruct k as []. simpl. match goal with |- context [set_cs_crt _ ?c] => by destruct c end. }
    unfold pos, cs1, next_pos, put_cell.
    destruct (c =? 10); [simpl; by rewrite Hid|]. destruct (c =? BACKSPACE); simpl; by rewrite ?Hid. }
  unfold cgaputc. rewrite gets_eq. erewrite bind_Ok by apply H1. clear H1.
  rewrite (proj2 (Z.ltb_ge _ _)), (proj2 (Z.ltb_ge _ _)) by lia. cbn [orb].
  unfold cga_effect. fold pos. change (cs_crt cs1) with (cs_crt cs1).
  destruct (24 <=? pos / 80); reflexivity.
Qed.

Lemma cga_effect_ok c cs :
  screen_ok cs ->
  screen_ok (cga_effect c cs) /\ cons_frame cs (cga_effect c cs) /\
  cs_uart_out (cga_effect c cs) = cs_uart_out cs /\
  cs_crt (cga_effect c cs) !! Z.to_nat (cs_pos (cga_effect c cs)) = Some 0x720.
Proof.
  intros [Hp Hl]. pose proof (next_pos_range c _ Hp) as Hn. unfold cga_effect.
  set (pos := next_pos c (cs_pos cs)) in *.
  assert (0 <= pos < 1920 /\ pos / 80 < 24 \/ pos = 1920 /\ pos / 80 = 24) as Hpos.
  { destruct (decide (pos = 1920)) as [->|]; [by right|]. left. split; [lia|].
    apply Z.div_lt_upper_bound; lia. }
  assert (forall p crt, 0 <= p < 1920 -> length crt = 2000%nat ->
    screen_ok (set_cs_crt (<[Z.to_nat p := Z.lor 32 0x0700]> crt) (set_cs_pos (u16 p) cs)) /\
    cons_frame cs (set_cs_crt (<[Z.to_nat p := Z.lor 32 0x0700]> crt) (set_cs_pos (u16 p) cs)) /\
    cs_uart_out cs = cs_uart_out cs /\
    <[Z.to_nat p := Z.lor 32 0x0700]> crt !! Z.to_nat (u16 p) = Some 0x720) as Hgen.
  { intros p crt Hpp Hcrt. rewrite u16_small by lia.
    split; [unfold screen_ok; simpl; rewrite length_insert; lia|].
    split; [done|]. split; [done|]. rewrite list_lookup_insert_eq by lia. done. }
  destruct Hpos as [[H1 H2]|[H1 H2]].
  - rewrite (proj2 (Z.leb_gt _ _)) by lia. apply Hgen; [lia|]. by rewrite length_put_cell.
  - rewrite (proj2 (Z.leb_le _ _)) by lia. apply Hgen; [lia|].
    apply length_scroll; [by rewrite length_put_cell|lia].
Qed.

(** ** Printing *)

(** [m] prints the characters [l]: it returns, changes only the console, keeps
    the screen well-formed, and sends [l] to the serial port if there is one. *)
Definition prints (m : K unit) (l : list Z) : Prop :=
  forall e k, screen_ok (k_cons k) -> cs_panicked (k_cons k) = false ->
  exists cs', m e k = Ok tt e (set_k_cons cs' k) /\ screen_ok cs' /\
    cons_frame (k_cons k) cs' /\
    cs_uart_out cs' = cs_uart_out (k_cons k) ++ (if cs_uart (k_cons k) then l else []).

Lemma prints_ret : prints (ret tt) [].
Proof.
  intros e k Hs _. exists (k_cons k). split; [by destruct k|].
  split; [done|]. split; [done|]. destruct (cs_uart _); by rewrite app_nil_r.
Qed.

Lemma prints_bind m1 m2 l1 l2 :
  prints m1 l1 -> prints m2 l2 -> prints (m1 ;; m2) (l1 ++ l2).
Proof.
  intros H1 H2 e k Hs Hp. destruct (H1 e k Hs Hp) as (c1 & E1 & S1 & F1 & O1).
  destruct (H2 e (set_k_cons c1 k)) as (c2 & E2 & S2 & F2 & O2);
    [done|cbn; by rewrite (cf_panicked _ _ F1)|].
  exists c2. rewrite (bind_Ok _ _ _ _ _ _ _ E1), E2. cbn in *.
  split; [done|]. split; [done|]. split; [by etrans|].
  rewrite O2, O1, (cf_uart _ _ F1), <- app_assoc. by destruct (cs_uart _).
Qed.

Lemma prints_consputc c : c <> BACKSPACE -> prints (consputc c) [u8 c].
Proof.
  intros Hc e k Hs Hp. unfold consputc. rewrite gets_eq, Hp.
  rewrite (proj2 (Z.eqb_neq _ _)) by done. unfold uartputc. rewrite bind_bind_eq, gets_eq.
  destruct (cs_uart (k_cons k)) eqn:Eu; cbn [negb].
  - rewrite upd_cons_eq, cgaputc_eq by done.
    eexists. split; [reflexivity|]. cbn [k_cons set_k_cons].
    edestruct (cga_effect_ok c) as (S1 & F1 & O1 & _); [|split; [exact S1|split]].
    + exact Hs.
    + etrans; [|exact F1]. done.
    + rewrite O1. done.
  - rewrite ret_eq, cgaputc_eq by done.
    eexists. split; [reflexivity|].
    edestruct (cga_effect_ok c) as (S1 & F1 & O1 & _); [|split; [exact S1|split; [exact F1|]]].
    + exact Hs.
    + rewrite O1. by rewrite app_nil_r.
Qed.

Lemma prints_for_all l :
  Forall (fun c => c <> BACKSPACE) l -> prints (for_all l consputc) (u8 <$> l).
Proof.
  induction 1 as [|c l Hc _ IH]; [apply prints_ret|].
  cbn [for_all fmap list_fmap]. change (u8 c :: (u8 <$> l)) with ([u8 c] ++ (u8 <$> l)).
  apply prints_bind; [by apply prints_consputc|done].
Qed.

(** Every character is a byte. *)
Definition is_text (l : list Z) : Prop := Forall (fun c => 0 <= c < 256) l.

Lemma is_text_prints l : is_text l -> prints (for_all l consputc) l.
Proof.
  intros H. replace l with (u8 <$> l) at 2.
  - apply prints_for_all. eapply Forall_impl; [exact H|]. cbn. unfold BACKSPACE. lia.
  - induction H as [|c l Hc _ IH]; [done|]. cbn. rewrite u8_small by lia. by f_equal.
Qed.

Lemma chars_text s : is_text (chars s).
Proof.
  induction s as [|c s IH]; constructor; [|done].
  pose proof (Strings.Ascii.N_ascii_bounded c). lia.
Qed.

Lemma digit_text d : 0 <= digit d < 256.
Proof.
  unfold digit. destruct (nth_in_or_default (Z.to_nat d) (chars "0123456789abcdef") 0) as [H| ->];
    [|lia]. pose proof (chars_text "0123456789abcdef") as Ht.
  unfold is_text in Ht. rewrite List.Forall_forall in Ht. by apply Ht.
Qed.

Lemma int_digits_text n x base : is_text (int_digits n x base).
Proof.
  revert x. induction n as [|n IH]; intros x; [constructor|]. cbn [int_digits].
  constructor; [apply digit_text|]. destruct (_ =? _); [constructor|apply IH].
Qed.

Lemma printint_text xx base sign : is_text (printint_chars xx base sign).
Proof.
  unfold printint_chars. unfold is_text. apply List.Forall_rev, Forall_app. split; [apply int_digits_text|].
  destruct (_ && _); [|constructor]. constructor; [lia|constructor].
Qed.

(** The text of a format with its arguments. *)
Fixpoint text (fmt : list Z) (args : list carg) : list Z :=
  match fmt with
  | [] => []
  | c :: fmt' =>
      if c =? 0 then [] else
      if negb (c =? 37) then c :: text fmt' args else
      match fmt' with
      | [] => []
      | c2 :: fmt'' =>
          if c2 =? 0 then []
          else if c2 =? 100 then printint_chars (s32 (next_int args)) 10 true ++ text fmt'' (tail args)
          else if (c2 =? 120) || (c2 =? 112) then
            printint_chars (s32 (next_int args)) 16 false ++ text fmt'' (tail args)
          else if c2 =? 115 then next_str args ++ text fmt'' (tail args)
          else if c2 =? 37 then 37 :: text fmt'' args
          else 37 :: c2 :: text fmt'' args
      end
  end.

(** The strings among the arguments are bytes. *)
Definition args_ok (args : list carg) : Prop :=
  Forall (fun a => match a with AStr (Some s) => is_text s | _ => True end) args.

Lemma next_str_text args : args_ok args -> is_text (next_str args).
Proof.
  intros H. destruct H as [|a args Ha _]; [apply (chars_text "(null)")|].
  destruct a as [|[s|]]; [apply (chars_text "(null)")|done|apply (chars_text "(null)")].
Qed.

Lemma args_ok_tail args : args_ok args -> args_ok (tail args).
Proof. destruct 1; [constructor|done]. Qed.

Lemma prints_char c m l : 0 <= c < 256 -> prints m l -> prints (consputc c ;; m) (c :: l).
Proof.
  intros Hc Hm. change (c :: l) with ([c] ++ l).
  rewrite <- (u8_small c) at 2 by lia. apply prints_bind; [|done].
  apply prints_consputc. unfold BACKSPACE. lia.
Qed.

Lemma land_ff c : 0 <= c < 256 -> Z.land c 0xff = c.
Proof.
  intros Hc. change 0xff with (Z.ones 8). rewrite Z.land_ones by lia. apply Z.mod_small. lia.
Qed.

Lemma prints_format n fmt args :
  (length fmt <= n)%nat -> is_text fmt -> args_ok args -> prints (format fmt args) (text fmt args).
Proof.
  revert fmt args. induction n as [|n IH]; intros fmt args Hn Hf Ha.
  { destruct fmt; [apply prints_ret|cbn in Hn; lia]. }
  destruct Hf as [|c fmt Hc Hf]; [apply prints_ret|].
  assert (prints (format fmt args) (text fmt args)) as IH1 by (apply IH; [cbn in Hn; lia|done|done]).
  cbn [format text]. rewrite (land_ff c) by done.
  destruct (c =? 0); [apply prints_ret|].
  destruct (c =? 37); cbn [negb]; [|by apply prints_char].
  destruct Hf as [|c2 fmt Hc2 Hf]; [apply prints_ret|].
  cbv zeta. rewrite (land_ff c2) by done.
  assert (forall args, args_ok args -> prints (format fmt args) (text fmt args)) as IH2
    by (intros; apply IH; [cbn in Hn; lia|done|done]).
  pose proof (IH2 _ (args_ok_tail _ Ha)) as IH3. pose proof (IH2 _ Ha) as IH4.
  destruct (c2 =? 0); [apply prints_ret|].
  destruct (c2 =? 100); [apply prints_bind; [apply is_text_prints, printint_text|done]|].
  destruct (_ || _); [apply prints_bind; [apply is_text_prints, printint_text|done]|].
  destruct (c2 =? 115); [apply prints_bind; [by apply is_text_prints, next_str_text|done]|].
  destruct (c2 =? 37); [apply prints_char; [lia|done]|].
  apply prints_char; [lia|]. by apply prints_char.
Qed.

(** The state in which the console can be used. *)
Definition cons_ready (k : kernel) : Prop :=
  screen_ok (k_cons k) /\ cs_panicked (k_cons k) = false /\
  (cs_locking (k_cons k) = true -> lock_free L_cons k) /\ cpu_ok k.

Lemma cprintf_ok fmt args e k :
  cons_ready k -> args_ok args ->
  exists cs', cprintf fmt args e k = Ok tt e (set_k_cons cs' k) /\ screen_ok cs' /\
    cons_frame (k_cons k) cs' /\
    cs_uart_out cs' = cs_uart_out (k_cons k) ++
      (if cs_uart (k_cons k) then text (chars fmt) args else []).
Proof.
  intros (Hs & Hp & Hl & Hc) Ha.
  assert (prints (format (chars fmt) args) (text (chars fmt) args)) as Hf
    by (eapply prints_format; [reflexivity|apply chars_text|done]).
  unfold cprintf. rewrite gets_eq. unfold when.
  destruct (cs_locking (k_cons k)) eqn:El.
  - erewrite bind_Ok by (by apply acquire_ok; [apply Hl|]).
    destruct (Hf e (lock_taken L_cons k)) as (cs' & E & S & F & O); [done|done|].
    exists cs'. erewrite bind_Ok by exact E. split; [|done].
    erewrite release_ok; [|split; [by apply Hl|done]]. by destruct k.
  - rewrite ret_eq. destruct (Hf e k) as (cs' & E & S & F & O); [done|done|].
    exists cs'. erewrite bind_Ok by exact E. split; [|done].
    by destruct k.
Qed.



(** ** Numbers *)

(** The value of a digit, of digits with the least significant one first, and of
    a number as it is printed. *)
Definition undigit (c : Z) : Z := if c <=? 57 then c - 48 else c - 87.
Fixpoint digits_value (base : Z) (l : list Z) : Z :=
  match l with
  | [] => 0
  | c :: l' => undigit c + base * digits_value base l'
  end.
Definition read_int (base : Z) (l : list Z) : Z :=
  match l with
  | 45 :: l' => - digits_value base (rev l')
  | _ => digits_value base (rev l)
  end.

Lemma undigit_digit d : 0 <= d < 16 -> undigit (digit d) = d.
Proof.
  intros Hd. assert (d = 0 \/ d = 1 \/ d = 2 \/ d = 3 \/ d = 4 \/ d = 5 \/ d = 6 \/ d = 7 \/ d = 8 \/
    d = 9 \/ d = 10 \/ d = 11 \/ d = 12 \/ d = 13 \/ d = 14 \/ d = 15) as H by lia.
  repeat (destruct H as [->|H]; [reflexivity|]). by rewrite H.
Qed.

Lemma digits_value_int n x base :
  2 <= base <= 16 -> 0 <= x < base ^ Z.of_nat (S n) ->
  digits_value base (int_digits (S n) x base) = x.
Proof.
  intros Hb. revert x. induction n as [|n IH]; intros x Hx.
  - cbn [int_digits]. change (Z.of_nat 1) with 1 in Hx. rewrite Z.pow_1_r in Hx.
    rewrite Z.mod_small, Z.div_small by lia.
    change (0 =? 0) with true. cbn [digits_value]. rewrite undigit_digit by lia. lia.
  - change (int_digits (S (S n)) x base) with (digit (x mod base) ::
      (if x / base =? 0 then [] else int_digits (S n) (x / base) base)).
    pose proof (Z.mod_pos_bound x base ltac:(lia)). pose proof (Z.div_mod x base ltac:(lia)).
    destruct (Z.eqb_spec (x / base) 0) as [E|E]; cbn [digits_value];
      rewrite undigit_digit by lia; [lia|].
    rewrite IH; [lia|]. split; [apply Z.div_pos; lia|].
    apply Z.div_lt_upper_bound; [lia|]. replace (Z.of_nat (S (S n))) with (1 + Z.of_nat (S n)) in Hx by lia.
    rewrite Z.pow_add_r, Z.pow_1_r in Hx by lia. lia.
Qed.

Lemma digit_not_minus d : digit d <> 45.
Proof.
  unfold digit. destruct (nth_in_or_default (Z.to_nat d) (chars "0123456789abcdef") 0) as [H|H].
  - assert (forallb (fun c => negb (c =? 45)) (chars "0123456789abcdef") = true) as Hf by reflexivity.
    rewrite forallb_forall in Hf. apply Hf in H. by apply negb_true_iff, Z.eqb_neq in H.
  - rewrite H. done.
Qed.

Lemma int_digits_not_minus n x base : ~ In 45 (int_digits n x base).
Proof.
  revert x. induction n as [|n IH]; intros x; [intros []|]. cbn [int_digits]. intros [H|H].
  - by apply digit_not_minus in H.
  - destruct (_ =? _); [destruct H|]. by eapply IH.
Qed.

Lemma read_int_digits base l : ~ In 45 l -> read_int base (rev l) = digits_value base l.
Proof.
  intros Hl. unfold read_int. rewrite rev_involutive.
  assert (~ In 45 (rev l)) as Hr by (by rewrite <- in_rev).
  destruct (rev l) as [|c r]; [done|]. destruct c as [|p|p]; try done.
  do 6 (destruct p as [p|p|]; try done). exfalso. apply Hr. by left.
Qed.

(** What [printint] prints is the number: read back in base 10 it is every signed
    32-bit number, INT_MIN included, and in base 16 the number's unsigned
    value. *)
Theorem printint_roundtrip x :
  (-2147483648 <= x < 2147483648 -> read_int 10 (printint_chars x 10 true) = x) /\
  read_int 16 (printint_chars x 16 false) = u32 x.
Proof.
  assert (forall base y, 2 <= base <= 16 -> 0 <= y < 4294967296 ->
    digits_value base (int_digits 32 y base) = y) as Hv.
  { intros base y Hb Hy. apply (digits_value_int 31); [done|].
    split; [lia|]. eapply Z.lt_le_trans; [apply Hy|].
    change 4294967296 with (2 ^ Z.of_nat 32). apply Z.pow_le_mono_l. lia. }
  unfold printint_chars. cbn [andb]. split.
  - intros Hx. destruct (Z.ltb_spec x 0).
    + rewrite rev_app_distr. cbn [rev app read_int]. rewrite rev_involutive.
      rewrite u32_small by lia. rewrite Hv by lia. lia.
    + rewrite app_nil_r, read_int_digits by apply int_digits_not_minus.
      rewrite u32_small by lia. apply Hv; lia.
  - rewrite app_nil_r, read_int_digits by apply int_digits_not_minus.
    apply Hv; [lia|]. apply Z.mod_pos_bound. lia.
Qed.

End Consout.
