(* ===== verification/Kbd.v ===== *)
(** kbd.h and kbd.c: the keyboard.

    [kbd_step] is the translation of one scan code, [kbdgetc] reads a scan code
    from the controller (the list [cs_kbd]: the status port's KBS_DIB says
    whether it is empty). *)

From S2P Require Import Prelude Bytes Machine Demo Consout.

Module Kbd.

Definition SHIFT : Z := 1.
Definition CTL : Z := 2.
Definition ALT : Z := 4.
Definition CAPSLOCK : Z := 8.
Definition NUMLOCK : Z := 16.
Definition SCROLLLOCK : Z := 32.
Definition E0ESC : Z := 64.
Definition NO : Z := 0.

(** [C(x)] of kbd.h *)
Definition C (x : Z) : Z := x - 64.

(** An initializer [[i] v]. *)
Definition designated (l : list (Z * Z)) (data : Z) : Z :=
  default 0 (snd <$> list_find (fun p => p.1 = data) l ≫= fun r => Some r.2).

Definition shiftcode (data : Z) : Z :=
  designated [(0x1D, CTL); (0x2A, SHIFT); (0x36, SHIFT); (0x38, ALT); (0x9D, CTL); (0xB8, ALT)] data.

Definition togglecode (data : Z) : Z :=
  designated [(0x3A, CAPSLOCK); (0x45, NUMLOCK); (0x46, SCROLLLOCK)] data.

(** KEY_HOME to KEY_DEL, at the scan codes the three maps share. *)
Definition special_keys : list (Z * Z) :=
  [ (0xC8, 0xE2); (0xD0, 0xE3); (0xC9, 0xE6); (0xD1, 0xE7); (0xCB, 0xE4); (0xCD, 0xE5);
    (0x97, 0xE0); (0xCF, 0xE1); (0xD2, 0xE8); (0xD3, 0xE9) ].

(** A table: its first entries in order, then the designated ones. *)
Definition table (first : list Z) (rest : list (Z * Z)) (data : Z) : Z :=
  match first !! Z.to_nat data with
  | Some c => c
  | None => designated rest data
  end.

Definition normal_first : list Z :=
  [NO; 0x1B] ++ chars "1234567890-=" ++ [8; 9] ++
  chars "qwertyuiop[]" ++ [10; NO] ++ chars "asdfghjkl;'`" ++ [NO; 92] ++
  chars "zxcvbnm,./" ++ [NO; 42; NO; 32; NO; NO; NO; NO; NO; NO; NO; NO; NO; NO; NO; NO; NO] ++
  chars "789-456+1230." ++ [NO; NO; NO; NO].

Definition normalmap : Z -> Z := table normal_first ([(0x9C, 10); (0xB5, 47)] ++ special_keys).

Definition shift_first : list Z :=
  [NO; 27] ++ chars "!@#$%^&*()_+" ++ [8; 9] ++
  chars "QWERTYUIOP{}" ++ [10; NO] ++ chars "ASDFGHJKL:" ++ [34; 126; NO; 124] ++
  chars "ZXCVBNM<>?" ++ [NO; 42; NO; 32; NO; NO; NO; NO; NO; NO; NO; NO; NO; NO; NO; NO; NO] ++
  chars "789-456+1230." ++ [NO; NO; NO; NO].

Definition shiftmap : Z -> Z := table shift_first ([(0x9C, 10); (0xB5, 47)] ++ special_keys).

Definition ctl_first : list Z :=
  replicate 16 NO ++ (C <$> chars "QWERTYUIOP") ++ [NO; NO; 13; NO] ++
  (C <$> chars "ASDFGHJKL") ++ [NO; NO; NO; NO; C 92] ++ (C <$> chars "ZXCVBNM") ++
  [NO; NO; u8 (C 47); NO; NO].

Definition ctlmap : Z -> Z := table ctl_first ([(0x9C, 13); (0xB5, u8 (C 47))] ++ special_keys).

(** [charcode[shift & (CTL | SHIFT)]] *)
Definition charcode (s : Z) : Z -> Z :=
  if s =? 0 then normalmap else if s =? SHIFT then shiftmap else ctlmap.

(** [shift & ~x] on a 32-bit word *)
Definition clear_bits (s x : Z) : Z := Z.land s (Z.lxor 0xFFFFFFFF x).

(** The body of [kbdgetc] from the scan code on: the new [shift] and the
    result. *)
Definition kbd_step (shift data : Z) : Z * Z :=
  if data =? 0xE0 then (Z.lor shift E0ESC, 0)
  else if has data 0x80 then
    let data := if has shift E0ESC then data else Z.land data 0x7F in
    (clear_bits shift (Z.lor (shiftcode data) E0ESC), 0)
  else
    let '(data, shift) :=
      if has shift E0ESC then (Z.lor data 0x80, clear_bits shift E0ESC) else (data, shift) in
    let shift := Z.lor shift (shiftcode data) in
    let shift := Z.lxor shift (togglecode data) in
    let c := charcode (Z.land shift (Z.lor CTL SHIFT)) data in
    let c :=
      if has shift CAPSLOCK then
        if (97 <=? c) && (c <=? 122) then c - 32
        else if (65 <=? c) && (c <=? 90) then c + 32 else c
      else c in
    (shift, c).

Definition kbdgetc : K Z :=
  cs <- gets k_cons ;;
  match cs_kbd cs with
  | [] => ret (-1)
  | data :: rest =>
      let '(shift, c) := kbd_step (cs_shift cs) data in
      upd_cons (set_cs_kbd rest) ;;
      upd_cons (set_cs_shift shift) ;;
      ret c
  end.

(** ** What the translation does *)

(** The values below [n]. *)
Definition below (n : nat) : list Z := Z.of_nat <$> seq 0 n.

Lemma forallb_below n (f : Z -> bool) x :
  forallb f (below n) = true -> 0 <= x < Z.of_nat n -> f x = true.
Proof.
  intros H Hx. rewrite forallb_forall in H. apply H. apply list_elem_of_In, list_elem_of_fmap.
  exists (Z.to_nat x). split; [lia|]. apply elem_of_seq. lia.
Qed.

Definition in_range (lo x hi : Z) : bool := (lo <=? x) && (x <? hi).

Definition step_ok (s data : Z) : bool :=
  let '(s', c) := kbd_step s data in
  in_range 0 s' 128 && in_range 0 c 256 && (negb (has data 0x80) || (c =? 0)).

(** For every scan code and every state of the modifier keys the result is a
    character code from 0 to 255 (never the -1 that ends the loop of
    [consoleintr]), the modifier word keeps to its seven bits, and releasing a
    key types nothing. *)
Theorem kbd_step_total s data :
  0 <= s < 128 -> 0 <= data < 256 ->
  0 <= fst (kbd_step s data) < 128 /\ 0 <= snd (kbd_step s data) < 256 /\
  (has data 0x80 = true -> snd (kbd_step s data) = 0).
Proof.
  intros Hs Hd.
  assert (forallb (fun s => forallb (step_ok s) (below 256)) (below 128) = true) as H
    by (vm_compute; reflexivity).
  apply (forallb_below 128 _ s) in H; [|lia]. apply (forallb_below 256 _ data) in H; [|lia].
  unfold step_ok, in_range in H. destruct (kbd_step s data) as [s' c]. cbn [fst snd].
  apply andb_true_iff in H as [H H3]. bool_to_prop. split; [lia|]. split; [lia|].
  intros Hh. rewrite Hh in H3. by apply Z.eqb_eq.
Qed.

Lemma kbd_step_total_witness :
  0 <= fst (kbd_step SHIFT 0x1E) < 128 /\ 0 <= snd (kbd_step SHIFT 0x1E) < 256 /\
  (has 0x1E 0x80 = true -> snd (kbd_step SHIFT 0x1E) = 0).
Proof. apply (kbd_step_total SHIFT 0x1E); unfold SHIFT; lia. Defined.

Definition letter_ok (data : Z) : bool :=
  let c := normalmap data in
  negb (in_range 97 c 123) ||
  (bool_decide (kbd_step 0 data = (0, c)) &&
   bool_decide (kbd_step SHIFT data = (SHIFT, c - 32)) &&
   bool_decide (kbd_step CAPSLOCK data = (CAPSLOCK, c - 32)) &&
   bool_decide (kbd_step (Z.lor CAPSLOCK SHIFT) data = (Z.lor CAPSLOCK SHIFT, c)) &&
   bool_decide (kbd_step CTL data = (CTL, c - 96))).

(** The keys of the letters: plain, with Shift, with Caps Lock (each gives the
    other case), with both (lower case again), and with Control (the control
    character). *)
Theorem kbd_letters data c :
  0 <= data < 128 -> normalmap data = c -> 97 <= c < 123 ->
  kbd_step 0 data = (0, c) /\ kbd_step SHIFT data = (SHIFT, c - 32) /\
  kbd_step CAPSLOCK data = (CAPSLOCK, c - 32) /\
  kbd_step (Z.lor CAPSLOCK SHIFT) data = (Z.lor CAPSLOCK SHIFT, c) /\
  kbd_step CTL data = (CTL, c - 96).
Proof.
  intros Hd <- Hc.
  assert (forallb letter_ok (below 128) = true) as H by (vm_compute; reflexivity).
  apply (forallb_below 128 _ data) in H; [|lia]. unfold letter_ok, in_range in H.
  rewrite (proj2 (Z.leb_le _ _)), (proj2 (Z.ltb_lt _ _)) in H by lia. cbn [andb negb orb] in H.
  repeat (apply andb_true_iff in H as [H ?]).
  repeat match goal with E : bool_decide _ = true |- _ => apply bool_decide_eq_true in E end.
  done.
Qed.

Lemma kbd_letters_witness :
  kbd_step 0 0x1E = (0, 97) /\ kbd_step SHIFT 0x1E = (SHIFT, 97 - 32) /\
  kbd_step CAPSLOCK 0x1E = (CAPSLOCK, 97 - 32) /\
  kbd_step (Z.lor CAPSLOCK SHIFT) 0x1E = (Z.lor CAPSLOCK SHIFT, 97) /\
  kbd_step CTL 0x1E = (CTL, 97 - 96).
Proof. apply (kbd_letters 0x1E 97); [lia|reflexivity|lia]. Defined.

End Kbd.
