(* ===== verification/Kalloc.v ===== *)
(** kalloc.c: the allocator of physical pages.

    The free list is kept as in the source, in the first word of every free
    page; [free_pages] says which pages are on it. *)

From S2P Require Import Prelude Bytes Machine Demo Cstring Spinlock.
Import Cstring Spinlock.

Module Kalloc.

(** ** The operations *)

(** Words and bytes of the kernel's memory. *)
Definition ld32 (a : Z) : K Z := gets (fun k => load32 (k_mem k) a).
Definition st32 (a v : Z) : K unit := modify (fun k => set_k_mem (store32 (k_mem k) a v) k).
Definition mem_set (a c : Z) (n : nat) : K unit :=
  modify (fun k => set_k_mem (memset (k_mem k) a c n) k).

Definition kfree (v : Z) : K unit :=
  end_ <- gets (fun k => ld_end (k_link k)) ;;
  if nz (v mod PGSIZE) || (v <? end_) || (PHYSTOP <=? v2p v) then panic "kfree" else
  mem_set v 1 (Z.to_nat PGSIZE) ;;
  use_lock <- gets k_use_lock ;;
  when use_lock (acquire L_kmem) ;;
  next <- gets k_freelist ;;
  st32 v next ;;
  modify (set_k_freelist v) ;;
  use_lock <- gets k_use_lock ;;
  when use_lock (release L_kmem).

Definition kalloc : K Z :=
  use_lock <- gets k_use_lock ;;
  when use_lock (acquire L_kmem) ;;
  r <- gets k_freelist ;;
  when (nz r)
    (next <- ld32 r ;;
     modify (set_k_freelist next)) ;;
  use_lock <- gets k_use_lock ;;
  when use_lock (release L_kmem) ;;
  ret r.

Definition freerange (vstart vend : Z) : K unit :=
  loop_fuel (S (Z.to_nat (vend / PGSIZE))) (fun p =>
    if negb (p + PGSIZE <=? vend) then ret (inr tt) else
    kfree p ;;
    ret (inl (p + PGSIZE))) (PGROUNDUP vstart).

Definition kinit1 (vstart vend : Z) : K unit :=
  initlock L_kmem "kmem" ;;
  modify (set_k_use_lock false) ;;
  freerange vstart vend.

Definition kinit2 (vstart vend : Z) : K unit :=
  freerange vstart vend ;;
  modify (set_k_use_lock true).

(** ** The free pages *)

(** A page the allocator may own. *)
Definition page_ok (k : kernel) (p : Z) : Prop :=
  p mod PGSIZE = 0 /\ ld_end (k_link k) <= p /\ KERNBASE <= p /\ p < KERNBASE + PHYSTOP.

(** The list of the pages that start at [p] in memory [m]. *)
Fixpoint run_list (m : memory) (p : Z) (pages : list Z) : Prop :=
  match pages with
  | [] => p = 0
  | x :: xs => p = x /\ run_list m (load32 m x) xs
  end.

Record free_pages (k : kernel) (pages : list Z) : Prop := {
  fp_list : run_list (k_mem k) (k_freelist k) pages;
  fp_ok : Forall (page_ok k) pages;
  fp_nodup : NoDup pages
}.

(** The allocator can run: its lock is free if it is used. *)
Definition kmem_ready (k : kernel) : Prop :=
  (k_use_lock k = true -> lock_free L_kmem k) /\ cpu_ok k.

Lemma page_ok_facts k p : page_ok k p -> p <> 0 /\ 0 <= p < 4294967296 - 4096 /\ v2p p < PHYSTOP.
Proof.
  unfold page_ok, v2p, KERNBASE, PHYSTOP. intros (_ & _ & H1 & H2).
  split; [lia|]. split; [lia|]. rewrite u32_small; lia.
Qed.

(** Different pages do not overlap. *)
Lemma pages_disjoint k p q : page_ok k p -> page_ok k q -> p <> q -> p + 4096 <= q \/ q + 4096 <= p.
Proof.
  intros (Hp & _) (Hq & _) Hne. unfold PGSIZE in *.
  pose proof (Z.div_mod p 4096 ltac:(lia)). pose proof (Z.div_mod q 4096 ltac:(lia)).
  destruct (Z.lt_trichotomy (p / 4096) (q / 4096)) as [Hl|[He|Hg]]; lia.
Qed.

(** A change of memory outside of the first words of the pages. *)
Lemma run_list_ext m m' p pages :
  (forall q, q ∈ pages -> load32 m' q = load32 m q) -> run_list m p pages -> run_list m' p pages.
Proof.
  revert p. induction pages as [|x xs IH]; intros p Hm; [done|].
  cbn [run_list]. intros [-> Hr]. split; [done|]. rewrite Hm by left.
  apply IH; [|done]. intros q Hq. apply Hm. by right.
Qed.

Lemma free_pages_mem k m free :
  (forall q, q ∈ free -> load32 m q = load32 (k_mem k) q) -> free_pages k free ->
  free_pages (set_k_mem m k) free.
Proof. intros Hm [H1 H2 H3]. split; [|done|done]. by eapply run_list_ext. Qed.

(** The state after [acquire] and [release] of the allocator's lock, or
    neither. *)
Lemma kmem_section k e {B} (g : unit -> K B) :
  kmem_ready k ->
  exists k1, bind (when (k_use_lock k) (acquire L_kmem)) g e k = g tt e k1 /\
    k_mem k1 = k_mem k /\ k_freelist k1 = k_freelist k /\ k_use_lock k1 = k_use_lock k /\
    forall fl m e',
      when (k_use_lock k) (release L_kmem) e' (set_k_freelist fl (set_k_mem m k1)) =
      Ok tt e' (set_k_freelist fl (set_k_mem m k)).
Proof.
  intros [Hl Hc]. destruct (k_use_lock k) eqn:E; cbn [when].
  - exists (lock_taken L_kmem k).
    rewrite (bind_Ok _ _ _ _ _ _ _ (acquire_ok L_kmem e k (Hl eq_refl) Hc)).
    split; [done|]. do 3 (split; [done|]). intros fl m e'.
    rewrite (release_ok L_kmem e' k); [done|]. split; [by apply Hl|done].
  - exists k. done.
Qed.

Lemma set_mem_freelist k : set_k_freelist (k_freelist k) (set_k_mem (k_mem k) k) = k.
Proof. by destruct k. Qed.

Lemma kalloc_eq k e :
  kmem_ready k ->
  kalloc e k = Ok (k_freelist k) e
    (if nz (k_freelist k) then set_k_freelist (load32 (k_mem k) (k_freelist k)) k else k).
Proof.
  intros Hk. unfold kalloc. unfold bind at 1, gets at 1. cbv beta iota.
  destruct (kmem_section k e (fun _ =>
    r <- gets k_freelist ;;
    when (nz r) (next <- ld32 r ;; modify (set_k_freelist next)) ;;
    use_lock <- gets k_use_lock ;; when use_lock (release L_kmem) ;; ret r) Hk)
    as (k1 & -> & Hm & Hf & Hu & Hrel).
  unfold bind at 1, gets at 1. cbv beta iota. rewrite Hf.
  assert (forall fl, set_k_freelist fl (set_k_mem (k_mem k) k1) = set_k_freelist fl k1) as Hset.
  { intros fl. rewrite <- Hm. by destruct k1. }
  destruct (nz (k_freelist k)) eqn:E; cbn [when].
  - unfold ld32, bind, gets, modify, ret. rewrite Hm. cbn [k_use_lock set_k_freelist]. rewrite Hu.
    rewrite <- Hset, Hrel. by destruct k.
  - unfold bind, gets, ret. rewrite Hu.
    assert (k1 = set_k_freelist (k_freelist k) (set_k_mem (k_mem k) k1)) as Hk1
      by (rewrite <- Hf, <- Hm; by destruct k1).
    rewrite Hk1, Hrel. by rewrite set_mem_freelist.
Qed.

(** [kalloc] takes the first page of the list, or returns 0 if there is none. *)
Lemma kalloc_ok k e pages :
  kmem_ready k -> free_pages k pages ->
  match pages with
  | [] => kalloc e k = Ok 0 e k
  | p :: rest => exists fl,
      kalloc e k = Ok p e (set_k_freelist fl k) /\ free_pages (set_k_freelist fl k) rest
  end.
Proof.
  intros Hk [Hl Hok Hnd]. rewrite kalloc_eq by done. destruct pages as [|p rest].
  - cbn in Hl. rewrite Hl. done.
  - destruct Hl as [-> Hl]. apply Forall_cons in Hok as [Hp Hok]. apply NoDup_cons in Hnd as [Hnp Hnd].
    assert (nz p = true) as -> by (apply nz_true; by apply page_ok_facts in Hp as []).
    eexists. split; [reflexivity|]. by split.
Qed.

Lemma kfree_eq k e v :
  kmem_ready k -> page_ok k v ->
  kfree v e k = Ok tt e (set_k_freelist v
    (set_k_mem (store32 (memset (k_mem k) v 1 4096) v (k_freelist k)) k)).
Proof.
  intros Hk Hv. pose proof (page_ok_facts k v Hv) as (_ & _ & Hp).
  destruct Hv as (H1 & H2 & _). unfold kfree. unfold bind at 1, gets at 1. cbv beta iota.
  assert (nz (v mod PGSIZE) = false) as -> by (by apply nz_false).
  assert (v <? ld_end (k_link k) = false) as -> by (apply Z.ltb_ge; lia).
  assert (PHYSTOP <=? v2p v = false) as -> by (apply Z.leb_gt; lia). cbn [orb].
  unfold mem_set. unfold bind at 1, modify at 1. cbv beta iota.
  change (Z.to_nat PGSIZE) with 4096%nat. set (m := memset (k_mem k) v 1 4096).
  unfold bind at 1, gets at 1. cbv beta iota.
  destruct (kmem_section (set_k_mem m k) e (fun _ =>
    next <- gets k_freelist ;; st32 v next ;; modify (set_k_freelist v) ;;
    use_lock <- gets k_use_lock ;; when use_lock (release L_kmem)) Hk)
    as (k1 & -> & Hm & Hf & Hu & Hrel).
  unfold st32, bind, gets, modify. cbn [k_use_lock set_k_freelist set_k_mem].
  rewrite Hu, Hf, Hm. cbn [k_mem set_k_mem k_freelist]. rewrite Hrel. done.
Qed.

(** [kfree] of a page that is not free puts it at the front of the list, and
    changes no memory outside of this page. *)
Lemma kfree_ok k e v pages :
  kmem_ready k -> free_pages k pages -> page_ok k v -> v ∉ pages ->
  exists m, kfree v e k = Ok tt e (set_k_freelist v (set_k_mem m k)) /\
    free_pages (set_k_freelist v (set_k_mem m k)) (v :: pages) /\
    forall a, a < v \/ v + 4096 <= a -> m a = k_mem k a.
Proof.
  intros Hk [Hl Hok Hnd] Hv Hnv. eexists. split; [by apply kfree_eq|].
  set (m := store32 _ _ _).
  assert (forall a, a < v \/ v + 4096 <= a -> m a = k_mem k a) as Hm.
  { intros a Ha. unfold m. rewrite store32_ne by lia. by apply memset_ne. }
  split; [|exact Hm]. split; [|by constructor|by constructor].
  cbn [k_freelist k_mem set_k_freelist set_k_mem run_list]. split; [done|].
  assert (load32 m v = k_freelist k) as ->.
  { unfold m. rewrite load32_store32. apply u32_small. destruct pages as [|x xs].
    - cbn in Hl. lia.
    - destruct Hl as [-> _]. apply Forall_cons in Hok as [Hx _].
      apply page_ok_facts in Hx as (_ & Hx & _). lia. }
  apply (run_list_ext (k_mem k)); [|done]. intros q Hq. rewrite Forall_forall in Hok.
  apply load32_ext. intros i Hi. apply Hm.
  destruct (pages_disjoint k v q Hv (Hok q Hq)); [set_solver|lia|lia].
Qed.

(** The pages [freerange] frees. *)
Definition range_pages (p : Z) (n : nat) : list Z := (fun i => p + 4096 * Z.of_nat i) <$> seq 0 n.

Lemma range_pages_S p n : range_pages p (S n) = p :: range_pages (p + 4096) n.
Proof.
  unfold range_pages. cbn [seq fmap list_fmap]. f_equal; [lia|].
  rewrite <- fmap_S_seq, <- list_fmap_compose. apply list_fmap_ext. intros i x _. cbn. lia.
Qed.

Lemma range_pages_snoc p n n' : n = S n' -> range_pages p n = range_pages p n' ++ [p + 4096 * Z.of_nat n'].
Proof. intros ->. unfold range_pages. by rewrite seq_S, fmap_app. Qed.

Lemma freerange_loop n fuel p vend k e pages :
  kmem_ready k -> free_pages k pages -> (n < fuel)%nat ->
  p + 4096 * Z.of_nat n <= vend < p + 4096 * (Z.of_nat n + 1) ->
  Forall (page_ok k) (range_pages p n) -> (forall q, q ∈ range_pages p n -> q ∉ pages) ->
  exists fl m,
    loop_fuel fuel (fun p =>
      if negb (p + PGSIZE <=? vend) then ret (inr tt) else
      kfree p ;; ret (inl (p + PGSIZE))) p e k = Ok tt e (set_k_freelist fl (set_k_mem m k)) /\
    free_pages (set_k_freelist fl (set_k_mem m k)) (rev (range_pages p n) ++ pages) /\
    forall a, a < p \/ p + 4096 * Z.of_nat n <= a -> m a = k_mem k a.
Proof.
  revert fuel p k pages. induction n as [|n IH]; intros fuel p k pages Hk Hfp Hfuel Hvend Hok Hnew;
    (destruct fuel as [|fuel]; [lia|]); cbn [loop_fuel]; unfold bind at 1; unfold PGSIZE.
  - assert (p + 4096 <=? vend = false) as -> by (apply Z.leb_gt; lia).
    exists (k_freelist k), (k_mem k). rewrite set_mem_freelist. done.
  - assert (p + 4096 <=? vend = true) as -> by (apply Z.leb_le; lia). cbn [negb].
    rewrite range_pages_S in *. apply Forall_cons in Hok as [Hp Hok].
    destruct (kfree_ok k e p pages Hk Hfp Hp ltac:(apply Hnew; left)) as (m & Heq & Hfp' & Hm).
    unfold bind at 1. rewrite Heq. unfold ret at 1.
    set (k1 := set_k_freelist p (set_k_mem m k)).
    destruct (IH fuel (p + 4096) k1 (p :: pages)) as (fl & m' & Heq' & Hfp'' & Hm'); try done; try lia.
    { intros q Hq [->|Hin]%elem_of_cons.
      - unfold range_pages in Hq. apply list_elem_of_fmap in Hq as (i & Hi & _). lia.
      - apply (Hnew q); [by right|done]. }
    exists fl, m'. split; [exact Heq'|]. cbn [rev]. rewrite <- app_assoc. split; [exact Hfp''|].
    intros a Ha. rewrite Hm' by lia. apply Hm. lia.
Qed.

(** [freerange] on an empty list frees exactly the whole pages of the range, each
    once, and touches no other memory. *)
Lemma freerange_ok k e vstart vend n :
  kmem_ready k -> k_freelist k = 0 -> 0 <= vstart <= 4294967296 - 4096 ->
  let p := PGROUNDUP vstart in
  p + 4096 * Z.of_nat n <= vend < p + 4096 * (Z.of_nat n + 1) ->
  Forall (page_ok k) (range_pages p n) ->
  exists fl m, freerange vstart vend e k = Ok tt e (set_k_freelist fl (set_k_mem m k)) /\
    free_pages (set_k_freelist fl (set_k_mem m k)) (rev (range_pages p n)) /\
    forall a, a < p \/ p + 4096 * Z.of_nat n <= a -> m a = k_mem k a.
Proof.
  intros Hk Hfl Hvs p Hvend Hok.
  assert (0 <= p) as Hp0.
  { unfold p. rewrite PGROUNDUP_eq by done. pose proof (Z.mod_le (vstart + 4095) 4096). lia. }
  destruct (freerange_loop n (S (Z.to_nat (vend / PGSIZE))) p vend k e []) as (fl & m & Heq & Hfp & Hm).
  - done.
  - split; [done|constructor|constructor].
  - unfold PGSIZE. assert (Z.of_nat n <= vend / 4096); [|lia]. apply Z.div_le_lower_bound; lia.
  - done.
  - done.
  - intros q _. apply not_elem_of_nil.
  - exists fl, m. split; [exact Heq|]. by rewrite app_nil_r in Hfp.
Qed.

Lemma kinit1_ok k e vstart vend n :
  cpu_ok k -> k_freelist k = 0 -> 0 <= vstart <= 4294967296 - 4096 ->
  let p := PGROUNDUP vstart in
  p + 4096 * Z.of_nat n <= vend < p + 4096 * (Z.of_nat n + 1) ->
  Forall (page_ok k) (range_pages p n) ->
  exists k', kinit1 vstart vend e k = Ok tt e k' /\ free_pages k' (rev (range_pages p n)).
Proof.
  intros Hc Hfl Hvs p Hvend Hok. unfold kinit1.
  set (k1 := set_k_use_lock false
    (set_k_locks (<[L_kmem := mkSpinlock 0 "kmem" None]> (k_locks k)) k)).
  unfold initlock. unfold bind at 1, modify at 1. unfold bind at 1, modify at 1. fold k1.
  destruct (freerange_ok k1 e vstart vend n) as (fl & m & Heq & Hfp & _); [by split|done..|]. eauto.
Qed.

(** ** The allocator as a list of free pages *)

(** The allocator implements a list of free pages.  [kalloc] returns 0 and changes
    nothing when there is none; otherwise it returns the first one, a
    page-aligned address between the kernel's end and PHYSTOP that is no longer
    in the list, and it changes no memory. *)
Theorem kalloc_takes_page k e pages :
  kmem_ready k -> free_pages k pages ->
  match pages with
  | [] => kalloc e k = Ok 0 e k
  | p :: rest => exists k',
      kalloc e k = Ok p e k' /\ free_pages k' rest /\ kmem_ready k' /\
      p <> 0 /\ page_ok k p /\ p ∉ rest /\ k_mem k' = k_mem k
  end.
Proof.
  intros Hk Hf. pose proof (kalloc_ok k e pages Hk Hf) as H. destruct pages as [|p rest]; [done|].
  destruct H as (fl & H1 & H2). destruct Hf as [_ Hok Hnd].
  apply Forall_cons in Hok as [Hp _]. apply NoDup_cons in Hnd as [Hnp _].
  exists (set_k_freelist fl k). split_and!; try done. by apply page_ok_facts in Hp as [].
Qed.

(** One free page, whose first word is 0. *)
Definition one_page : kernel := set_k_freelist 0x80200000 Demo.machine.

Lemma one_page_free : kmem_ready one_page /\ free_pages one_page [0x80200000].
Proof.
  split.
  - split; [intros _; exists "kmem"%string; reflexivity|].
    split; [cbn; lia|]. split; [done|cbn; lia].
  - split; [split; reflexivity|constructor; [|constructor]|apply NoDup_singleton].
    split; [reflexivity|]. split; [cbn; lia|]. unfold KERNBASE, PHYSTOP. lia.
Qed.

Lemma kalloc_takes_page_witness :
  exists k', kalloc [] one_page = Ok 0x80200000 [] k' /\ free_pages k' [] /\ kmem_ready k' /\
    0x80200000 <> 0 /\ page_ok one_page 0x80200000 /\ 0x80200000 ∉ ([] : list Z) /\
    k_mem k' = k_mem one_page.
Proof.
  apply (kalloc_takes_page one_page [] [0x80200000]); apply one_page_free.
Defined.

(** [kfree] of a page that is not free adds it to the list, overwrites the rest of
    the page with 1s, and changes no other memory; an address that is not a
    page of the allocator's range makes it panic. *)
Theorem kfree_gives_page k e v pages :
  kmem_ready k -> free_pages k pages ->
  (page_ok k v -> v ∉ pages ->
   exists k', kfree v e k = Ok tt e k' /\ free_pages k' (v :: pages) /\ kmem_ready k' /\
     (forall a, v + 4 <= a < v + 4096 -> k_mem k' a = 1) /\
     (forall a, a < v \/ v + 4096 <= a -> k_mem k' a = k_mem k a)) /\
  (v mod PGSIZE <> 0 \/ v < ld_end (k_link k) \/ PHYSTOP <= v2p v -> kfree v e k = Panic "kfree" k).
Proof.
  intros Hk Hf. split.
  - intros Hv Hn. destruct (kfree_ok k e v pages Hk Hf Hv Hn) as (m & Heq & Hf' & Hm).
    eexists. split; [exact Heq|]. split; [done|]. split; [done|]. split; [|done].
    intros a Ha. cbn [k_mem set_k_freelist set_k_mem].
    rewrite kfree_eq in Heq by done. injection Heq as Heq. rewrite <- Heq.
    rewrite store32_ne by lia. rewrite memset_spec.
    rewrite (proj2 (Z.leb_le _ _)), (proj2 (Z.ltb_lt _ _)) by lia. reflexivity.
  - intros Hg. unfold kfree. rewrite gets_eq.
    assert (nz (v mod PGSIZE) || (v <? ld_end (k_link k)) || (PHYSTOP <=? v2p v) = true) as ->; [|done].
    destruct Hg as [Hg|[Hg|Hg]].
    + apply nz_true in Hg. by rewrite Hg.
    + apply Z.ltb_lt in Hg. by rewrite Hg, orb_true_r.
    + apply Z.leb_le in Hg. by rewrite Hg, orb_true_r.
Qed.

Lemma kfree_gives_page_witness :
  (page_ok one_page 0x80300000 -> 0x80300000 ∉ [0x80200000] ->
   exists k', kfree 0x80300000 [] one_page = Ok tt [] k' /\
     free_pages k' [0x80300000; 0x80200000] /\ kmem_ready k' /\
     (forall a, 0x80300000 + 4 <= a < 0x80300000 + 4096 -> k_mem k' a = 1) /\
     (forall a, a < 0x80300000 \/ 0x80300000 + 4096 <= a -> k_mem k' a = k_mem one_page a)) /\
  (0x80300000 mod PGSIZE <> 0 \/ 0x80300000 < ld_end (k_link one_page) \/ PHYSTOP <= v2p 0x80300000 ->
   kfree 0x80300000 [] one_page = Panic "kfree" one_page).
Proof. apply (kfree_gives_page one_page [] 0x80300000 [0x80200000]); apply one_page_free. Defined.

(** [kinit1] on an empty list makes exactly the whole pages of the range free, each
    of them once. *)
Theorem kinit1_frees_range k e vstart vend n :
  cpu_ok k -> k_freelist k = 0 -> 0 <= vstart <= 4294967296 - 4096 ->
  let p := PGROUNDUP vstart in
  p + 4096 * Z.of_nat n <= vend < p + 4096 * (Z.of_nat n + 1) ->
  Forall (page_ok k) (range_pages p n) ->
  exists k', kinit1 vstart vend e k = Ok tt e k' /\ free_pages k' (rev (range_pages p n)).
Proof. apply kinit1_ok. Qed.

Lemma kinit1_frees_range_witness :
  exists k', kinit1 0x80200001 0x80204000 [] Demo.machine = Ok tt [] k' /\
    free_pages k' [0x80203000; 0x80202000; 0x80201000].
Proof.
  apply (kinit1_frees_range Demo.machine [] 0x80200001 0x80204000 3).
  - split; [cbn; lia|]. split; [done|cbn; lia].
  - reflexivity.
  - lia.
  - change (PGROUNDUP 0x80200001) with 0x80201000. lia.
  - change (range_pages (PGROUNDUP 0x80200001) 3) with [0x80201000; 0x80202000; 0x80203000].
    repeat constructor; cbn; unfold KERNBASE, PHYSTOP; lia.
Defined.

End Kalloc.
