(* ===== verification/Hw.v ===== *)
(** picirq.c, ioapic.c, timer.c, lapic.c and mp.c: the interrupt controllers and
    the search for the other processors.

    A write to a device is an entry of [hw_out] (ports) or of the map of the
    device's registers; a register that is read gives the value written last,
    unless the schedule changes it. *)

From S2P Require Import Prelude Bytes Machine Demo Cstring Spinlock Consout Kalloc.
Import Cstring Spinlock Consout Kalloc.

Module Hw.

(** [outb] of x86.h *)
Definition outb (port data : Z) : K unit :=
  upd_hw (fun h => set_hw_out ((port, u8 data) :: hw_out h) h).

(** traps.h *)
Definition T_SYSCALL : Z := 64.
Definition T_IRQ0 : Z := 32.
Definition IRQ_TIMER : Z := 0.
Definition IRQ_KBD : Z := 1.
Definition IRQ_COM1 : Z := 4.
Definition IRQ_IDE : Z := 14.
Definition IRQ_ERROR : Z := 19.
Definition IRQ_SPURIOUS : Z := 31.

(** ** picirq.c *)

Definition IO_PIC1 : Z := 0x20.
Definition IO_PIC2 : Z := 0xA0.
Definition IRQ_SLAVE : Z := 2.

Definition picsetmask (mask : Z) : K unit :=
  upd_hw (set_hw_irqmask mask) ;;
  outb (IO_PIC1 + 1) mask ;;
  outb (IO_PIC2 + 1) (Z.shiftr mask 8).

Definition picenable (irq : Z) : K unit :=
  m <- gets (fun k => hw_irqmask (k_hw k)) ;;
  picsetmask (u16 (Z.land m (Z.lnot (Z.shiftl 1 irq)))).

Definition picinit : K unit :=
  for_all
    [ (IO_PIC1 + 1, 0xFF); (IO_PIC2 + 1, 0xFF);
      (IO_PIC1, 0x11); (IO_PIC1 + 1, T_IRQ0); (IO_PIC1 + 1, Z.shiftl 1 IRQ_SLAVE); (IO_PIC1 + 1, 0x3);
      (IO_PIC2, 0x11); (IO_PIC2 + 1, T_IRQ0 + 8); (IO_PIC2 + 1, IRQ_SLAVE); (IO_PIC2 + 1, 0x3);
      (IO_PIC1, 0x68); (IO_PIC1, 0x0a); (IO_PIC2, 0x68); (IO_PIC2, 0x0a) ]
    (fun '(port, data) => outb port data) ;;
  m <- gets (fun k => hw_irqmask (k_hw k)) ;;
  when (negb (m =? 0xFFFF)) (picsetmask m).

(** ** ioapic.c *)

Definition REG_ID : Z := 0x00.
Definition REG_VER : Z := 0x01.
Definition REG_TABLE : Z := 0x10.
Definition INT_DISABLED : Z := 0x00010000.

Definition ioapicread (reg : Z) : K Z :=
  gets (fun k => default 0 (hw_ioapic (k_hw k) !! reg)).
Definition ioapicwrite (reg data : Z) : K unit :=
  upd_hw (fun h => set_hw_ioapic (<[reg := u32 data]> (hw_ioapic h)) h).

Definition ioapicinit : K unit :=
  ismp <- gets (fun k => hw_ismp (k_hw k)) ;;
  if negb ismp then ret tt else
  ver <- ioapicread REG_VER ;;
  let maxintr := Z.land (Z.shiftr ver 16) 0xFF in
  r <- ioapicread REG_ID ;;
  let id := Z.shiftr r 24 in
  ioapicid <- gets (fun k => hw_ioapicid (k_hw k)) ;;
  when (negb (id =? ioapicid))
    (cprintf "ioapicinit: id isn't equal to ioapicid; not a MP
" []) ;;
  for_all (seq 0 (S (Z.to_nat maxintr))) (fun i =>
    let i := Z.of_nat i in
    ioapicwrite (REG_TABLE + 2 * i) (Z.lor INT_DISABLED (T_IRQ0 + i)) ;;
    ioapicwrite (REG_TABLE + 2 * i + 1) 0).

Definition ioapicenable (irq cpunum : Z) : K unit :=
  ismp <- gets (fun k => hw_ismp (k_hw k)) ;;
  if negb ismp then ret tt else
  ioapicwrite (REG_TABLE + 2 * irq) (T_IRQ0 + irq) ;;
  ioapicwrite (REG_TABLE + 2 * irq + 1) (Z.shiftl cpunum 24).

(** ** timer.c *)

Definition IO_TIMER1 : Z := 0x040.
Definition TIMER_FREQ : Z := 1193182.
Definition TIMER_DIV (x : Z) : Z := (TIMER_FREQ + x / 2) / x.

Definition timerinit : K unit :=
  outb (IO_TIMER1 + 3) (Z.lor (Z.lor 0x00 0x04) 0x30) ;;
  outb IO_TIMER1 (TIMER_DIV 100 mod 256) ;;
  outb IO_TIMER1 (TIMER_DIV 100 / 256) ;;
  picenable IRQ_TIMER.

(** ** lapic.c *)

Definition LAPIC_ID : Z := 0x0020 / 4.
Definition LAPIC_VER : Z := 0x0030 / 4.
Definition LAPIC_TPR : Z := 0x0080 / 4.
Definition LAPIC_EOI : Z := 0x00B0 / 4.
Definition LAPIC_SVR : Z := 0x00F0 / 4.
Definition LAPIC_ESR : Z := 0x0280 / 4.
Definition LAPIC_ICRLO : Z := 0x0300 / 4.
Definition LAPIC_ICRHI : Z := 0x0310 / 4.
Definition LAPIC_TIMER : Z := 0x0320 / 4.
Definition LAPIC_PCINT : Z := 0x0340 / 4.
Definition LAPIC_LINT0 : Z := 0x0350 / 4.
Definition LAPIC_LINT1 : Z := 0x0360 / 4.
Definition LAPIC_ERROR : Z := 0x0370 / 4.
Definition LAPIC_TICR : Z := 0x0380 / 4.
Definition LAPIC_TDCR : Z := 0x03E0 / 4.
Definition MASKED : Z := 0x00010000.
Definition LEVEL : Z := 0x00008000.
Definition ASSERT : Z := 0x00004000.
Definition INIT : Z := 0x00000500.
Definition STARTUP : Z := 0x00000600.
Definition DELIVS : Z := 0x00001000.
Definition BCAST : Z := 0x00080000.

Definition lapicr (index : Z) : K Z :=
  gets (fun k => default 0 (hw_lapicreg (k_hw k) !! index)).
Definition lapicw (index value : Z) : K unit :=
  upd_hw (fun h => set_hw_lapicreg (<[index := u32 value]> (hw_lapicreg h)) h).

Definition lapicinit : K unit :=
  lapic <- gets (fun k => hw_lapic (k_hw k)) ;;
  if lapic =? 0 then ret tt else
  lapicw LAPIC_SVR (Z.lor 0x100 (T_IRQ0 + IRQ_SPURIOUS)) ;;
  lapicw LAPIC_TDCR 0x0000000B ;;
  lapicw LAPIC_TIMER (Z.lor 0x00020000 (T_IRQ0 + IRQ_TIMER)) ;;
  lapicw LAPIC_TICR 10000000 ;;
  lapicw LAPIC_LINT0 MASKED ;;
  lapicw LAPIC_LINT1 MASKED ;;
  ver <- lapicr LAPIC_VER ;;
  when (4 <=? Z.land (Z.shiftr ver 16) 0xFF) (lapicw LAPIC_PCINT MASKED) ;;
  lapicw LAPIC_ERROR (T_IRQ0 + IRQ_ERROR) ;;
  lapicw LAPIC_ESR 0 ;;
  lapicw LAPIC_ESR 0 ;;
  lapicw LAPIC_EOI 0 ;;
  lapicw LAPIC_ICRHI 0 ;;
  lapicw LAPIC_ICRLO (Z.lor (Z.lor BCAST INIT) LEVEL) ;;
  loop_sched (fun _ : unit =>
    v <- lapicr LAPIC_ICRLO ;;
    if nz (Z.land v DELIVS) then interfere ;; ret (inl tt) else ret (inr tt)) tt ;;
  lapicw LAPIC_TPR 0.

Definition lapiceoi : K unit :=
  lapic <- gets (fun k => hw_lapic (k_hw k)) ;;
  if lapic =? 0 then ret tt else lapicw LAPIC_EOI 0.

Definition CMOS_PORT : Z := 0x70.

Definition lapicstartap (apicid addr : Z) : K unit :=
  outb CMOS_PORT 0xF ;;
  outb (CMOS_PORT + 1) 0x0A ;;
  let wrv := p2v (Z.lor (Z.shiftl 0x40 4) 0x67) in
  modify (fun k => set_k_mem (store (store (k_mem k) wrv 0) (wrv + 1) 0) k) ;;
  modify (fun k => set_k_mem (store (store (k_mem k) (wrv + 2) (u8 (Z.shiftr addr 4)))
    (wrv + 3) (u8 (Z.shiftr addr 12))) k) ;;
  lapicw LAPIC_ICRHI (Z.shiftl apicid 24) ;;
  lapicw LAPIC_ICRLO (Z.lor (Z.lor INIT LEVEL) ASSERT) ;;
  lapicw LAPIC_ICRLO (Z.lor INIT LEVEL) ;;
  for_all (seq 0 2) (fun _ =>
    lapicw LAPIC_ICRHI (Z.shiftl apicid 24) ;;
    lapicw LAPIC_ICRLO (Z.lor STARTUP (Z.shiftr addr 12))).

(** ** mp.c *)

(** The bytes of memory from address [a] on. *)
Definition mem_bytes (m : memory) (a : Z) (n : nat) : list Z :=
  (fun i => m (a + Z.of_nat i)) <$> seq 0 n.

Definition sum (m : memory) (addr : Z) (len : nat) : Z :=
  u8 (foldr Z.add 0 (mem_bytes m addr len)).

Definition sizeof_mp : Z := 16.
Definition sizeof_mpconf : Z := 44.
Definition sizeof_mpproc : Z := 20.
Definition sizeof_mpioapic : Z := 8.

Definition has_signature (m : memory) (a : Z) (s : string) : bool :=
  bool_decide (mem_bytes m a 4 = chars s).

(** The addresses [addr], [addr + 16], ... below [addr + len] are tried in
    order; 0 if there is no structure. *)
Fixpoint mpsearch_from (n : nat) (m : memory) (p : Z) : Z :=
  match n with
  | O => 0
  | S n' =>
      if has_signature m p "_MP_" && (sum m p 16 =? 0) then p
      else mpsearch_from n' m (p + sizeof_mp)
  end.

Definition mpsearch1 (m : memory) (a len : Z) : Z :=
  mpsearch_from (Z.to_nat ((len + sizeof_mp - 1) / sizeof_mp)) m (p2v a).

Definition mpsearch (m : memory) : Z :=
  let bda := p2v 0x400 in
  let p := Z.shiftl (Z.lor (Z.shiftl (m (bda + 0x0F)) 8) (m (bda + 0x0E))) 4 in
  let mp :=
    if negb (p =? 0) then mpsearch1 m p 1024
    else mpsearch1 m (Z.lor (Z.shiftl (m (bda + 0x14)) 8) (m (bda + 0x13)) * 1024 - 1024) 1024 in
  if negb (mp =? 0) then mp else mpsearch1 m 0xF0000 0x10000.

Definition load16 (m : memory) (a : Z) : Z := le_val [m a; m (a + 1)].

(** The addresses of the structure and of the table. *)
Definition mpconfig (m : memory) : option (Z * Z) :=
  let mp := mpsearch m in
  if (mp =? 0) || (load32 m (mp + 4) =? 0) then None else
  let conf := p2v (load32 m (mp + 4)) in
  if negb (has_signature m conf "PCMP") then None else
  if negb (m (conf + 6) =? 1) && negb (m (conf + 6) =? 4) then None else
  if negb (sum m conf (Z.to_nat (load16 m (conf + 4))) =? 0) then None else
  Some (mp, conf).

Definition MPBOOT : Z := 2.

(** One entry of the table; the address of the next one.  An entry of an
    unknown type is not passed over. *)
Definition mp_entry (p : Z) : K Z :=
  m <- gets k_mem ;;
  let type := m p in
  if type =? 0 then
    h <- gets k_hw ;;
    let ncpu := hw_ncpu h in
    when (negb (ncpu =? m (p + 1)))
      (cprintf "mpinit: ncpu=%d apicid=%d
" [AInt ncpu; AInt (m (p + 1))] ;;
       upd_hw (set_hw_ismp false)) ;;
    when (has (m (p + 3)) MPBOOT) (upd_hw (set_hw_bcpu ncpu)) ;;
    if negb (ncpu <? NCPU) then undefined else
    upd_hw (fun h => set_hw_cpu_ids (<[Z.to_nat ncpu := u8 ncpu]> (hw_cpu_ids h)) h) ;;
    upd_hw (set_hw_ncpu (ncpu + 1)) ;;
    ret (p + sizeof_mpproc)
  else if type =? 2 then
    upd_hw (set_hw_ioapicid (m (p + 1))) ;;
    ret (p + sizeof_mpioapic)
  else if (type =? 1) || (type =? 3) || (type =? 4) then ret (p + 8)
  else
    cprintf "mpinit: unknown config type %x
" [AInt type] ;;
    upd_hw (set_hw_ismp false) ;;
    ret p.

Definition mpinit : K unit :=
  upd_hw (set_hw_bcpu 0) ;;
  m <- gets k_mem ;;
  match mpconfig m with
  | None => ret tt
  | Some (mp, conf) =>
      upd_hw (set_hw_ismp true) ;;
      upd_hw (set_hw_lapic (load32 m (conf + 36))) ;;
      let e := conf + load16 m (conf + 4) in
      loop_fuel (S (Z.to_nat (load16 m (conf + 4)))) (fun p =>
        if negb (p <? e) then ret (inr tt) else
        p' <- mp_entry p ;;
        ret (inl p')) (conf + sizeof_mpconf) ;;
      ismp <- gets (fun k => hw_ismp (k_hw k)) ;;
      if negb ismp then
        upd_hw (set_hw_ncpu 1) ;;
        upd_hw (set_hw_lapic 0) ;;
        upd_hw (set_hw_ioapicid 0)
      else
        when (nz (m (mp + 12)))
          (outb 0x22 0x70 ;;
           v <- gets (fun k => hw_imcr (k_hw k)) ;;
           upd_hw (set_hw_imcr (Z.lor v 1)) ;;
           outb 0x23 (Z.lor v 1))
  end.

End Hw.
