(* ===== verification/Rtc.v ===== *)
(** lapic.c, [cmostime]: the time of day from the battery-backed clock.

    The state is the clock's registers; the schedule changes them between two
    reads, as a running clock does. *)

From S2P Require Import Prelude Bytes.

Module Rtc.

Definition clock : Type := Z -> Z.

Definition CMOS_STATA : Z := 0x0a.
Definition CMOS_STATB : Z := 0x0b.
Definition CMOS_UIP : Z := Z.shiftl 1 7.
Definition SECS : Z := 0x00.
Definition MINS : Z := 0x02.
Definition HOURS : Z := 0x04.
Definition DAY : Z := 0x07.
Definition MONTH : Z := 0x08.
Definition YEAR : Z := 0x09.

(** date.h *)
Record rtcdate : Type := mkDate { second : Z; minute : Z; hour : Z; day : Z; month : Z; year : Z }.

#[export] Instance rtcdate_eq : EqDecision rtcdate.
Proof. solve_decision. Defined.

(** Selects the register, then reads the data port. *)
Definition cmos_read (r : Z) : M clock Z :=
  interfere ;;
  gets (fun c => u8 (c r)).

Definition fill_rtcdate : M clock rtcdate :=
  s <- cmos_read SECS ;;
  mi <- cmos_read MINS ;;
  h <- cmos_read HOURS ;;
  d <- cmos_read DAY ;;
  mo <- cmos_read MONTH ;;
  y <- cmos_read YEAR ;;
  ret (mkDate s mi h d mo y).

(** [CONV]: two decimal digits of four bits each. *)
Definition CONV (x : Z) : Z := Z.shiftr x 4 * 10 + Z.land x 0xf.

Definition conv (bcd : bool) (t : rtcdate) : rtcdate :=
  if bcd then mkDate (CONV (second t)) (CONV (minute t)) (CONV (hour t)) (CONV (day t)) (CONV (month t)) (CONV (year t))
  else t.

(** The body of the loop. *)
Definition attempt (_ : unit) : M clock (unit + rtcdate) :=
  t1 <- fill_rtcdate ;;
  sa <- cmos_read CMOS_STATA ;;
  if negb (Z.land sa CMOS_UIP =? 0) then ret (inl tt) else
  t2 <- fill_rtcdate ;;
  if decide (t1 = t2) then ret (inr t1) else ret (inl tt).

Definition cmostime : M clock rtcdate :=
  sb <- cmos_read CMOS_STATB ;;
  let bcd := Z.land sb (Z.shiftl 1 2) =? 0 in
  t1 <- loop_sched attempt tt ;;
  let t := conv bcd t1 in
  ret (mkDate (second t) (minute t) (hour t) (day t) (month t) (year t + 2000)).

(** ** Two digits *)

Lemma CONV_digits n : 0 <= n < 100 -> CONV (16 * (n / 10) + n mod 10) = n.
Proof.
  intros Hn. assert (Forall (fun n => CONV (16 * (n / 10) + n mod 10) = n) (seqZ 0 100)) as H
    by (apply (bool_decide_unpack _); vm_compute; exact I).
  rewrite Forall_forall in H. apply H, elem_of_seqZ. lia.
Qed.

(** The clock's registers at a date, in decimal digits. *)
Definition shows (t : rtcdate) : clock := fun r =>
  let bcd x := 16 * (x / 10) + x mod 10 in
  if r =? SECS then bcd (second t) else if r =? MINS then bcd (minute t) else
  if r =? HOURS then bcd (hour t) else if r =? DAY then bcd (day t) else
  if r =? MONTH then bcd (month t) else if r =? YEAR then bcd (year t - 2000) else 0.

Definition valid (t : rtcdate) : Prop :=
  0 <= second t < 60 /\ 0 <= minute t < 60 /\ 0 <= hour t < 24 /\ 1 <= day t <= 31 /\ 1 <= month t <= 12 /\
  2000 <= year t < 2100.

(** The registers as [fill_rtcdate] reads them. *)
Definition raw (c : clock) : rtcdate := mkDate (u8 (c SECS)) (u8 (c MINS)) (u8 (c HOURS)) (u8 (c DAY)) (u8 (c MONTH)) (u8 (c YEAR)).

Definition result (t : rtcdate) : rtcdate :=
  let t := conv true t in mkDate (second t) (minute t) (hour t) (day t) (month t) (year t + 2000).

Lemma result_shows t : valid t -> result (raw (shows t)) = t.
Proof.
  assert (forall x, 0 <= x < 100 -> CONV (u8 (16 * (x / 10) + x mod 10)) = x) as Hc.
  { intros x Hx. unfold u8. rewrite Z.mod_small; [by apply CONV_digits|].
    pose proof (Z.div_mod x 10 ltac:(lia)). pose proof (Z.mod_pos_bound x 10 ltac:(lia)). lia. }
  intros (Hs & Hmi & Hh & Hd & Hmo & Hy). unfold result, conv, raw. cbn [second minute hour day month year].
  change (shows t SECS) with (16 * (second t / 10) + second t mod 10).
  change (shows t MINS) with (16 * (minute t / 10) + minute t mod 10).
  change (shows t HOURS) with (16 * (hour t / 10) + hour t mod 10).
  change (shows t DAY) with (16 * (day t / 10) + day t mod 10).
  change (shows t MONTH) with (16 * (month t / 10) + month t mod 10).
  change (shows t YEAR) with (16 * ((year t - 2000) / 10) + (year t - 2000) mod 10).
  rewrite !Hc by lia. destruct t. cbn. f_equal. lia.
Qed.

(** A reading of a clock that stands still, and of one that ticks once. *)
Lemma read_still r c e : cmos_read r (id :: e) c = Ok (u8 (c r)) e c.
Proof. reflexivity. Qed.

Lemma read_tick r c c' e : cmos_read r ((fun _ => c') :: e) c = Ok (u8 (c' r)) e c'.
Proof. reflexivity. Qed.

Lemma fill_still c e : fill_rtcdate (replicate 6 id ++ e) c = Ok (raw c) e c.
Proof. reflexivity. Qed.

Lemma fill_tick c c' j e :
  (j < 6)%nat -> exists m, fill_rtcdate (replicate j id ++ (fun _ => c') :: replicate (5 - j) id ++ e) c = Ok m e c'.
Proof.
  intros Hj. do 5 (destruct j as [|j]; [eexists; reflexivity|]). destruct j; [eexists; reflexivity|lia].
Qed.

Lemma calm_bits : negb (Z.land 0 CMOS_UIP =? 0) = false.
Proof. reflexivity. Qed.

Section torn.
Context (c c' : clock) (calm : u8 (c CMOS_STATA) = 0) (calm' : u8 (c' CMOS_STATA) = 0).

Lemma attempt_still e : attempt tt (replicate 13 id ++ e) c' = Ok (inr (raw c')) e c'.
Proof.
  unfold attempt, bind. change (replicate 13 id ++ e) with (replicate 6 id ++ id :: replicate 6 id ++ e).
  rewrite fill_still, read_still, calm'. rewrite calm_bits. rewrite fill_still, decide_True by done. done.
Qed.

Lemma attempt_tick i e :
  (i < 13)%nat -> exists r, attempt tt (replicate i id ++ (fun _ => c') :: replicate (12 - i) id ++ e) c = Ok r e c' /\
    (r = inl tt \/ r = inr (raw c) \/ r = inr (raw c')).
Proof.
  intros Hi. unfold attempt, bind. destruct (decide (i < 6)%nat) as [H1|H1].
  - replace (12 - i)%nat with ((5 - i) + 7)%nat by lia. rewrite replicate_add, <- app_assoc.
    destruct (fill_tick c c' i (replicate 7 id ++ e) H1) as [m ->].
    change (replicate 7 id ++ e) with (id :: replicate 6 id ++ e).
    rewrite read_still, calm'. rewrite calm_bits. rewrite fill_still.
    destruct (decide (m = raw c')) as [->|]; eexists; (split; [reflexivity|]); auto.
  - assert (replicate i (@id clock) = replicate 6 id ++ replicate (i - 6) id) as -> by (rewrite <- replicate_add; f_equal; lia).
    rewrite <- app_assoc, fill_still.
    destruct (i - 6)%nat as [|j] eqn:Ej.
    + cbn [replicate app]. rewrite read_tick, calm'. rewrite calm_bits.
      replace (12 - i)%nat with 6%nat by lia. rewrite fill_still.
      destruct (decide (raw c = raw c')); eexists; (split; [reflexivity|]); auto.
    + cbn [replicate app]. rewrite read_still, calm. rewrite calm_bits.
      destruct (fill_tick c c' j e) as [m E]; [lia|]. replace (12 - i)%nat with (5 - j)%nat by lia. rewrite E.
      destruct (decide (raw c = m)); eexists; (split; [reflexivity|]); auto.
Qed.
End torn.

(** No reading is torn: when the clock ticks once, from [t] to [t'], at whatever
    point of the reading, [cmostime] returns one of the two. *)
Theorem cmostime_not_torn t t' i e :
  valid t -> valid t' -> (i < 13)%nat ->
  exists r e', cmostime (id :: replicate i id ++ (fun _ => shows t') :: replicate (12 - i) id ++ replicate 13 id ++ e)
      (shows t) = Ok r e' (shows t') /\ (r = t \/ r = t').
Proof.
  intros Ht Ht' Hi. unfold cmostime, bind. rewrite read_still. change (u8 (shows t CMOS_STATB)) with 0.
  destruct (attempt_tick (shows t) (shows t') eq_refl eq_refl i (replicate 13 id ++ e) Hi) as (r & E & Hr).
  unfold loop_sched. rewrite length_app. cbn [length]. rewrite Nat.add_succ_r. cbn [loop_fuel].
  unfold bind at 1. rewrite E.
  pose proof (result_shows t Ht) as R. pose proof (result_shows t' Ht') as R'.
  destruct Hr as [-> | [-> | ->]].
  - unfold bind at 1. rewrite attempt_still by done.
    eexists _, e. split; [reflexivity|]. right. exact R'.
  - eexists _, _. split; [reflexivity|]. left. exact R.
  - eexists _, _. split; [reflexivity|]. right. exact R'.
Qed.

End Rtc.
