(* ===== verification/Sleep.v ===== *)
(** proc.c, the part every other component waits with: [sched], [yield],
    [sleep], [wakeup] and [kill]. *)

From S2P Require Import Prelude Bytes Machine Demo Spinlock.
Import Spinlock.

Module Sleep.

(** ** The operations *)

(** [swtch] gives the processor to the scheduler; the schedule says what the
    rest of the machine does until this process runs again. *)
Definition swtch : K unit := interfere.

Definition sched : K unit :=
  h <- holding L_ptable ;;
  if negb h then panic "sched ptable.lock" else
  ncli <- gets (fun k => c_ncli (k_cpu k)) ;;
  if negb (ncli =? 1) then panic "sched locks" else
  me <- curproc ;;
  p <- get_proc me ;;
  if decide (p_state p = RUNNING) then panic "sched running" else
  eflags <- readeflags_if ;;
  if eflags then panic "sched interruptible" else
  intena <- gets (fun k => c_intena (k_cpu k)) ;;
  swtch ;;
  upd_cpu (set_c_intena intena).

Definition yield : K unit :=
  acquire L_ptable ;;
  me <- curproc ;;
  upd_proc me (set_p_state RUNNABLE) ;;
  sched ;;
  release L_ptable.

Definition sleep (ch : chan) (lk : option lockid) : K unit :=
  cur <- gets (fun k => c_proc (k_cpu k)) ;;
  match cur with
  | None => panic "sleep"
  | Some me =>
      match lk with
      | None => panic "sleep without lk"
      | Some lk =>
          when (negb (bool_decide (lk = L_ptable)))
            (acquire L_ptable ;; release lk) ;;
          upd_proc me (set_p_chan (Some ch)) ;;
          upd_proc me (set_p_state SLEEPING) ;;
          sched ;;
          me <- curproc ;;
          upd_proc me (set_p_chan None) ;;
          when (negb (bool_decide (lk = L_ptable)))
            (release L_ptable ;; acquire lk)
      end
  end.

(** [for(p = ptable.proc; p < &ptable.proc[NPROC]; p++)] *)
Definition all_procs : list nat := seq 0 NPROC.

Definition wakeup1 (ch : chan) : K unit :=
  for_all all_procs (fun i =>
    p <- get_proc i ;;
    when (bool_decide (p_state p = SLEEPING) && bool_decide (p_chan p = Some ch))
      (upd_proc i (set_p_state RUNNABLE))).

Definition wakeup (ch : chan) : K unit :=
  acquire L_ptable ;;
  wakeup1 ch ;;
  release L_ptable.

Definition kill (pid : Z) : K Z :=
  acquire L_ptable ;;
  r <- for_each all_procs (fun i =>
    p <- get_proc i ;;
    if p_pid p =? pid then
      upd_proc i (set_p_killed 1) ;;
      when (bool_decide (p_state p = SLEEPING)) (upd_proc i (set_p_state RUNNABLE)) ;;
      release L_ptable ;;
      ret (Some 0)
    else ret None) ;;
  match r with
  | Some v => ret v
  | None => release L_ptable ;; ret (-1)
  end.

(** ** What they do *)

(** The effect of [wakeup1] on one process. *)
Definition wake (ch : chan) (p : proc) : proc :=
  if bool_decide (p_state p = SLEEPING) && bool_decide (p_chan p = Some ch)
  then set_p_state RUNNABLE p else p.

(** Table [t'] is [t] with some of its sleeping processes made runnable. *)
Definition woken (t t' : list proc) : Prop :=
  Forall2 (fun p p' =>
    p' = p \/ (p_state p = SLEEPING /\ p' = set_p_state RUNNABLE p)) t t'.

#[export] Instance woken_preorder : PreOrder woken.
Proof.
  split.
  - intros t. apply Forall2_same_length_lookup_2; naive_solver.
  - intros t1 t2 t3 H12 H23. unfold woken in *.
    revert t3 H23. induction H12 as [|p q t1 t2 Hpq H12 IH]; intros t3 H23;
      inversion H23 as [|? r ? ? Hqr Hrest]; subst; constructor; [|by apply IH].
    destruct Hpq as [->|[Hs ->]]; [done|].
    destruct Hqr as [->|[Hs' _]]; [by right|]. simpl in Hs'. done.
Qed.

Lemma wake_woken ch t : woken t (wake ch <$> t).
Proof.
  unfold woken. induction t as [|p t IH]; constructor; [|done].
  unfold wake. destruct (_ && _) eqn:E; [|by left].
  apply andb_true_iff in E as [E _]. apply bool_decide_eq_true in E. by right.
Qed.

Lemma woken_length t t' : woken t t' -> length t' = length t.
Proof. intros H. symmetry. by eapply Forall2_length. Qed.

Lemma wakeup1_from ch e k n :
  (n <= length (k_ptable k))%nat ->
  for_all (seq (length (k_ptable k) - n) n) (fun i =>
    p <- get_proc i ;;
    when (bool_decide (p_state p = SLEEPING) && bool_decide (p_chan p = Some ch))
      (upd_proc i (set_p_state RUNNABLE))) e k =
  Ok tt e (set_k_ptable (take (length (k_ptable k) - n) (k_ptable k) ++
    (wake ch <$> drop (length (k_ptable k) - n) (k_ptable k))) k).
Proof.
  revert k. induction n as [|n IH]; intros k Hn.
  - simpl. rewrite Nat.sub_0_r, take_ge, drop_ge by lia. simpl. rewrite app_nil_r.
    by destruct k.
  - set (j := (length (k_ptable k) - S n)%nat).
    assert (seq j (S n) = j :: seq (S j) n) as -> by done.
    assert (is_Some (k_ptable k !! j)) as [p Hp] by (apply lookup_lt_is_Some; lia).
    set (k1 := set_k_ptable (<[j:=wake ch p]> (k_ptable k)) k).
    assert ((p <- get_proc j ;;
        when (bool_decide (p_state p = SLEEPING) && bool_decide (p_chan p = Some ch))
          (upd_proc j (set_p_state RUNNABLE))) e k = Ok tt e k1) as Hb.
    { unfold bind, get_proc, gets. rewrite (proc_at_lookup _ _ _ Hp).
      unfold k1, wake, when. destruct (_ && _).
      - unfold upd_proc, modify. by rewrite (alter_as_insert _ _ _ _ Hp).
      - rewrite list_insert_id by done. by destruct k. }
    cbn [for_all]. rewrite (bind_Ok _ _ _ _ _ _ _ Hb).
    assert (length (k_ptable k1) = length (k_ptable k)) as Hl1
      by (simpl; apply length_insert).
    specialize (IH k1). rewrite Hl1 in IH.
    replace (length (k_ptable k) - n)%nat with (S j) in IH by lia.
    rewrite IH by lia. f_equal. unfold k1; simpl.
    rewrite (drop_S _ _ _ Hp). simpl.
    unfold set_k_ptable; simpl. f_equal.
    rewrite drop_insert_lt by lia.
    rewrite (take_S_r _ _ (wake ch p)) by (rewrite list_lookup_insert_eq; [done|lia]).
    rewrite take_insert_ge by lia. by rewrite <- app_assoc.
Qed.

Lemma wakeup1_ok ch e k :
  length (k_ptable k) = NPROC ->
  wakeup1 ch e k = Ok tt e (set_k_ptable (wake ch <$> k_ptable k) k).
Proof.
  intros Hn. pose proof (wakeup1_from ch e k NPROC ltac:(lia)) as H.
  rewrite Hn in H. rewrite Nat.sub_diag in H. unfold wakeup1, all_procs.
  rewrite H. by rewrite drop_0.
Qed.

Lemma wakeup_ok ch e k :
  length (k_ptable k) = NPROC -> lock_free L_ptable k -> cpu_ok k ->
  wakeup ch e k = Ok tt e (set_k_ptable (wake ch <$> k_ptable k) k).
Proof.
  intros Hn Hl Hc. unfold wakeup.
  rewrite (bind_Ok _ _ _ _ _ _ _ (acquire_ok L_ptable e k Hl Hc)).
  rewrite (bind_Ok _ _ _ _ _ _ _ (wakeup1_ok ch e (lock_taken L_ptable k) Hn)).
  by rewrite (release_ok L_ptable e k).
Qed.

Lemma curproc_eq {B} me (g : nat -> K B) e k :
  c_proc (k_cpu k) = Some me -> bind curproc g e k = g me e k.
Proof. intros H. unfold curproc, bind, gets, ret. by rewrite H. Qed.

Lemma holding_taken l (g : bool -> K unit) e k0 k :
  inside l k0 k -> bind (holding l) g e k = g true e k.
Proof.
  intros (_ & _ & Hl & Hc). unfold holding, bind, gets, lock_at. rewrite Hl, Hc.
  unfold lock_taken; cbn. rewrite lookup_insert_eq. cbn. by rewrite bool_decide_eq_true_2.
Qed.

(** [sched] gives the processor away once and restores [intena]; without a schedule the
    process does not run again. *)
Lemma sched_eq e k0 k me :
  inside L_ptable k0 k -> c_ncli (k_cpu k0) = 0 -> c_proc (k_cpu k) = Some me ->
  p_state (proc_at k me) <> RUNNING ->
  sched e k = (swtch ;; upd_cpu (set_c_intena (c_intena (k_cpu k)))) e k.
Proof.
  intros Hin Hn Hp Hs. unfold sched. rewrite (holding_taken _ _ _ _ _ Hin). cbn [negb].
  destruct Hin as (_ & _ & _ & Hc). rewrite gets_eq, Hc. cbn [k_cpu lock_taken set_k_cpu set_k_locks c_ncli set_c_ncli].
  rewrite Hn. change (negb (0 + 1 =? 1)) with false. cbv iota.
  rewrite (curproc_eq me) by done. rewrite get_proc_eq, decide_False by done.
  unfold readeflags_if. rewrite gets_eq, Hc. cbn [k_cpu lock_taken set_k_cpu set_k_locks c_if set_c_if set_c_ncli].
  rewrite gets_eq. by rewrite Hc.
Qed.

Lemma sched_ok f e k0 k me :
  inside L_ptable k0 k -> c_ncli (k_cpu k0) = 0 -> c_proc (k_cpu k) = Some me ->
  p_state (proc_at k me) <> RUNNING ->
  sched (f :: e) k = Ok tt e
    (set_k_cpu (set_c_intena (c_intena (k_cpu k)) (k_cpu (f k))) (f k)).
Proof. intros Hin Hn Hp Hs. by rewrite (sched_eq _ k0 k me). Qed.

(** The state in which a process that sleeps on [ch] gives the processor away:
    only the lock of the process table is held, and the process is marked. *)
Definition asleep (me : nat) (ch : chan) (k0 k : kernel) : kernel :=
  set_k_ptable (alter (fun p => set_p_state SLEEPING (set_p_chan (Some ch) p)) me (k_ptable k))
    (unlock_to (lock_taken L_ptable k0) k).

(** The state when [sleep] returns, if the process runs again in state [k]. *)
Definition awake (me : nat) (lk : lockid) (k0 k : kernel) : kernel :=
  lock_taken lk (unlock_to k0 (set_k_ptable (alter (set_p_chan None) me (k_ptable k)) k)).

Lemma unlock_to_twice k0 k1 k : unlock_to k0 (unlock_to k1 k) = unlock_to k0 k.
Proof. reflexivity. Qed.

(** Releasing the outer one of two locks. *)
Lemma inside_swap l l' k0 k :
  l <> l' -> lock_free l' k0 -> inside l k0 k -> c_ncli (k_cpu k0) = 0 ->
  inside l (lock_taken l' k0) (lock_taken l' k).
Proof.
  intros Hne Hf (Hl & Hc & Elk & Ecpu) Hn. split; [by apply lock_free_other|].
  split; [by apply lock_taken_cpu_ok|]. unfold lock_taken, lock_at in *. cbn in *.
  rewrite Elk, Ecpu. cbn. rewrite !lookup_insert_ne by done. split; [|done].
  by rewrite insert_insert_ne.
Qed.

Lemma sleep_ok me ch lk f e k0 k :
  lk <> L_ptable -> inside lk k0 k -> c_ncli (k_cpu k0) = 0 -> lock_free L_ptable k0 ->
  c_proc (k_cpu k0) = Some me -> (me < length (k_ptable k))%nat ->
  k_locks (f (asleep me ch k0 k)) = k_locks (asleep me ch k0 k) ->
  k_cpu (f (asleep me ch k0 k)) = k_cpu (asleep me ch k0 k) ->
  sleep ch (Some lk) (f :: e) k = Ok tt e (awake me lk k0 (f (asleep me ch k0 k))).
Proof.
  intros Hlk Hin Hn Hfree Hp Hme HfL HfC. pose proof Hin as (Hl & Hc & Elk & Ecpu).
  assert (lock_free L_ptable k) as Hpf.
  { destruct Hfree as [name Hf]. exists name. rewrite Elk. cbn. by rewrite lookup_insert_ne. }
  assert (cpu_ok k) as Hck.
  { unfold cpu_ok. rewrite Ecpu. apply (lock_taken_cpu_ok lk k0 Hc). }
  unfold sleep. rewrite gets_eq, Ecpu. cbn [k_cpu lock_taken set_k_locks set_k_cpu c_proc set_c_ncli set_c_if].
  rewrite Hp. rewrite bool_decide_eq_false_2 by done. cbn [negb when].
  rewrite bind_bind_eq. erewrite bind_Ok by (by apply acquire_ok).
  erewrite bind_Ok by (apply release_ok, inside_swap; [done|exact Hfree|exact Hin|done]).
  rewrite !upd_proc_eq. cbn [k_ptable set_k_ptable unlock_to set_k_locks set_k_cpu lock_taken].
  rewrite alter_alter, set_set_k_ptable.
  change (set_k_ptable _ (unlock_to _ (lock_taken L_ptable k))) with (asleep me ch k0 k).
  erewrite bind_Ok.
  2:{ eapply (sched_ok f e k0); [by split|done|done|].
      unfold proc_at, asleep. cbn. rewrite list_lookup_alter_eq.
      destruct (lookup_lt_is_Some_2 _ _ Hme) as [p ->]. done. }
  set (kf := f (asleep me ch k0 k)) in *.
  assert (set_k_cpu (set_c_intena (c_intena (k_cpu (asleep me ch k0 k))) (k_cpu kf)) kf = kf) as ->.
  { rewrite <- HfC. assert (forall c, set_c_intena (c_intena c) c = c) as -> by (by intros []).
    by destruct kf. }
  rewrite (curproc_eq me) by (by rewrite HfC). rewrite upd_proc_eq.
  erewrite bind_Ok.
  2:{ apply (release_ok L_ptable e k0). split; [done|]. split; [done|]. split; [exact HfL|exact HfC]. }
  unfold awake. apply acquire_ok; [done|done].
Qed.

(** [sleep] with the lock of the process table as the condition lock. *)
Lemma sleep_table me ch f e k0 k :
  inside L_ptable k0 k -> c_ncli (k_cpu k0) = 0 -> c_proc (k_cpu k) = Some me -> (me < length (k_ptable k))%nat ->
  let ks := set_k_ptable (alter (fun p => set_p_state SLEEPING (set_p_chan (Some ch) p)) me (k_ptable k)) k in
  k_cpu (f ks) = k_cpu ks ->
  sleep ch (Some L_ptable) (f :: e) k =
    Ok tt e (set_k_ptable (alter (set_p_chan None) me (k_ptable (f ks))) (f ks)).
Proof.
  intros Hin Hn Hp Hme ks HC. unfold sleep. rewrite gets_eq, Hp, bool_decide_eq_true_2 by done. cbn [negb when].
  rewrite ret_eq, !upd_proc_eq. cbn [k_ptable set_k_ptable]. rewrite alter_alter, set_set_k_ptable. fold ks.
  destruct (lookup_lt_is_Some_2 _ _ Hme) as [p Hpp].
  erewrite bind_Ok.
  2:{ apply (sched_ok f e k0 ks me); [done|done|done|]. unfold proc_at, ks. cbn. by rewrite list_lookup_alter_eq, Hpp. }
  assert (set_k_cpu (set_c_intena (c_intena (k_cpu ks)) (k_cpu (f ks))) (f ks) = f ks) as ->.
  { rewrite <- HC. assert (forall c, set_c_intena (c_intena c) c = c) as -> by (by intros []). by destruct (f ks). }
  rewrite (curproc_eq me) by (by rewrite HC). by rewrite upd_proc_eq.
Qed.

(** ** Sleeping and waking *)

(** [wakeup] makes runnable exactly the processes that sleep on its channel, and
    changes nothing else. *)
Theorem wakeup_exact ch e k :
  length (k_ptable k) = NPROC -> lock_free L_ptable k -> cpu_ok k ->
  exists k', wakeup ch e k = Ok tt e k' /\ k' = set_k_ptable (k_ptable k') k /\
    forall i p, k_ptable k !! i = Some p ->
      k_ptable k' !! i =
        Some (if decide (p_state p = SLEEPING /\ p_chan p = Some ch) then set_p_state RUNNABLE p else p).
Proof.
  intros Hn Hl Hc. eexists. split; [by apply wakeup_ok|]. split; [done|].
  intros i p Hp. cbn. rewrite list_lookup_fmap, Hp. cbn. f_equal. unfold wake.
  case_decide as H.
  - destruct H. by rewrite !bool_decide_eq_true_2.
  - destruct (decide (p_state p = SLEEPING)); [|by rewrite bool_decide_eq_false_2].
    rewrite (bool_decide_eq_false_2 (p_chan p = Some ch)) by naive_solver. by rewrite andb_false_r.
Qed.

(** The demo machine with process 0 running and process 1 asleep on the log. *)
Definition two_procs : kernel :=
  set_k_ptable (<[0%nat := set_p_state RUNNING (set_p_pid 1 proc0)]>
    (<[1%nat := set_p_state SLEEPING (set_p_pid 2 (set_p_chan (Some Ch_log) proc0))]>
      (k_ptable Demo.machine))) Demo.machine.

Lemma two_procs_ok : lock_free L_ptable two_procs /\ cpu_ok two_procs.
Proof.
  split; [exists "ptable"%string; reflexivity|]. split; [cbn; lia|]. split; [done|cbn; lia].
Qed.

Lemma wakeup_exact_witness :
  exists k', wakeup Ch_log [] two_procs = Ok tt [] k' /\ k' = set_k_ptable (k_ptable k') two_procs /\
    forall i p, k_ptable two_procs !! i = Some p ->
      k_ptable k' !! i =
        Some (if decide (p_state p = SLEEPING /\ p_chan p = Some Ch_log)
              then set_p_state RUNNABLE p else p).
Proof. apply (wakeup_exact Ch_log [] two_procs); [reflexivity|apply two_procs_ok..]. Defined.



(** What [kill] does to the process it finds. *)
Definition killed_proc (p : proc) : proc :=
  if decide (p_state p = SLEEPING) then set_p_state RUNNABLE (set_p_killed 1 p) else set_p_killed 1 p.

(** [kill] marks the first process of the table with the given identifier as
    killed and, if it sleeps, makes it runnable so that it notices; without such
    a process it returns -1 and changes nothing. *)
Theorem kill_marks pid e k :
  length (k_ptable k) = NPROC -> lock_free L_ptable k -> cpu_ok k ->
  kill pid e k =
    match list_find (fun p => p_pid p = pid) (k_ptable k) with
    | Some (i, p) => Ok 0 e (set_k_ptable (<[i := killed_proc p]> (k_ptable k)) k)
    | None => Ok (-1) e k
    end.
Proof.
  intros Hn Hl Hc. unfold kill. erewrite bind_Ok by (by apply acquire_ok).
  set (k1 := lock_taken L_ptable k). unfold all_procs. rewrite <- Hn.
  rewrite (for_each_find (k_ptable k) (fun p => p_pid p = pid)).
  2:{ intros i p Hi Hp. rewrite get_proc_eq. change (proc_at k1 i) with (proc_at k i).
      rewrite (proc_at_lookup _ _ _ Hi), (proj2 (Z.eqb_neq _ _) Hp). done. }
  destruct (list_find _ _) as [[i p]|] eqn:E.
  - apply list_find_Some in E as (Hi & Hpid & _). pose proof (lookup_lt_Some _ _ _ Hi) as Hlt.
    rewrite bind_bind_eq, get_proc_eq. change (proc_at k1 i) with (proc_at k i).
    rewrite (proc_at_lookup _ _ _ Hi), (proj2 (Z.eqb_eq _ _) Hpid), bind_bind_eq, upd_proc_eq.
    rewrite (alter_as_insert _ _ _ _ Hi), bind_bind_eq.
    erewrite bind_Ok.
    2:{ instantiate (1 := set_k_ptable (<[i := killed_proc p]> (k_ptable k)) k1).
        unfold killed_proc, when. destruct (decide (p_state p = SLEEPING)) as [Hs|Hs].
        - rewrite bool_decide_eq_true_2 by done. unfold upd_proc, modify. cbn.
          rewrite (alter_as_insert _ _ _ (set_p_killed 1 p)) by (by apply list_lookup_insert_eq).
          by rewrite list_insert_insert_eq.
        - by rewrite bool_decide_eq_false_2. }
    rewrite bind_bind_eq. erewrite bind_Ok by (apply (release_ok L_ptable e k); done).
    by destruct k.
  - erewrite bind_Ok by (apply (release_ok L_ptable e k); by apply inside_taken).
    by destruct k.
Qed.

Lemma kill_marks_witness :
  kill 2 [] two_procs =
    match list_find (fun p => p_pid p = 2) (k_ptable two_procs) with
    | Some (i, p) => Ok 0 [] (set_k_ptable (<[i := killed_proc p]> (k_ptable two_procs)) two_procs)
    | None => Ok (-1) [] two_procs
    end.
Proof. apply (kill_marks 2 [] two_procs); [reflexivity|apply two_procs_ok..]. Defined.

End Sleep.
