(* ===== verification/Ide.v ===== *)
(** ide.c: the driver of a real disk, by programmed input and output.

    The controller is the state [k_ide]: the last value written to each of its
    ports, the bytes of its data register, and its status register, which the
    schedule changes. *)

From S2P Require Import Prelude Bytes Machine Demo Cstring Spinlock Consout Kalloc Hw Sleep.
Import Spinlock Hw Sleep.

Module Ide.

(** ** The operations *)

Definition IDE_BSY : Z := 0x80.
Definition IDE_DRDY : Z := 0x40.
Definition IDE_DF : Z := 0x20.
Definition IDE_ERR : Z := 0x01.
Definition IDE_CMD_READ : Z := 0x20.
Definition IDE_CMD_WRITE : Z := 0x30.
Definition SECTOR_SIZE : Z := 512.

(** [inb(0x1f7)], [outb], [outsl] and [insl] on the ports of the controller. *)
Definition status : K Z := gets (fun k => id_status (k_ide k)).
Definition ide_outb (port data : Z) : K unit :=
  upd_ide (fun i => set_id_ports (<[port := u8 data]> (id_ports i)) i).
Definition outsl (data : list Z) : K unit := upd_ide (set_id_fifo data).
Definition insl (n : nat) : K (list Z) :=
  d <- gets (fun k => take n (id_fifo (k_ide k))) ;;
  upd_ide (fun i => set_id_fifo (drop n (id_fifo i)) i) ;;
  ret d.

Definition idewait (checkerr : bool) : K Z :=
  loop_sched (fun _ : unit =>
    r <- status ;;
    if negb (Z.land r (Z.lor IDE_BSY IDE_DRDY) =? IDE_DRDY) then interfere ;; ret (inl tt)
    else ret (inr (if checkerr && nz (Z.land r (Z.lor IDE_DF IDE_ERR)) then -1 else 0))) tt.

Definition ideinit : K unit :=
  initlock L_ide "ide" ;;
  picenable IRQ_IDE ;;
  ncpu <- gets (fun k => hw_ncpu (k_hw k)) ;;
  ioapicenable IRQ_IDE (ncpu - 1) ;;
  idewait false ;;
  ide_outb 0x1f6 (Z.lor 0xe0 (Z.shiftl 1 4)) ;;
  for_each (seq 0 1000) (fun _ =>
    r <- status ;;
    if nz r then upd_ide (set_id_havedisk1 true) ;; ret (Some tt) else ret None) ;;
  ide_outb 0x1f6 (Z.lor 0xe0 (Z.shiftl 0 4)).

(** The sector's number is computed as an [int]. *)
Definition idestart (b : option nat) : K unit :=
  match b with
  | None => panic "idestart"
  | Some b =>
      bf <- get_buf b ;;
      if FSSIZE <=? b_blockno bf then panic "incorrect blockno" else
      let sector_per_block := BSIZE / SECTOR_SIZE in
      let sector := s32 (b_blockno bf * sector_per_block) in
      if 7 <? sector_per_block then panic "idestart" else
      idewait false ;;
      ide_outb 0x3f6 0 ;;
      ide_outb 0x1f2 sector_per_block ;;
      ide_outb 0x1f3 (Z.land sector 0xff) ;;
      ide_outb 0x1f4 (Z.land (Z.shiftr sector 8) 0xff) ;;
      ide_outb 0x1f5 (Z.land (Z.shiftr sector 16) 0xff) ;;
      ide_outb 0x1f6 (Z.lor (Z.lor 0xe0 (Z.shiftl (Z.land (b_dev bf) 1) 4))
        (Z.land (Z.shiftr sector 24) 0x0f)) ;;
      if has (b_flags bf) B_DIRTY then
        ide_outb 0x1f7 IDE_CMD_WRITE ;;
        outsl (b_data bf)
      else ide_outb 0x1f7 IDE_CMD_READ
  end.

Definition ideintr : K unit :=
  acquire L_ide ;;
  q <- gets (fun k => id_queue (k_ide k)) ;;
  match q with
  | None => release L_ide
  | Some b =>
      bf <- get_buf b ;;
      upd_ide (set_id_queue (b_qnext bf)) ;;
      when (negb (has (b_flags bf) B_DIRTY))
        (r <- idewait true ;;
         when (0 <=? r) (d <- insl 512 ;; upd_buf b (set_b_data d))) ;;
      bf <- get_buf b ;;
      upd_buf b (set_b_flags (Z.lor (b_flags bf) B_VALID)) ;;
      bf <- get_buf b ;;
      upd_buf b (set_b_flags (Z.land (b_flags bf) (Z.lnot B_DIRTY))) ;;
      wakeup (Ch_buf b) ;;
      q <- gets (fun k => id_queue (k_ide k)) ;;
      when (bool_decide (q <> None)) (idestart q) ;;
      release L_ide
  end.

(** [for(pp=&idequeue; *pp; pp=&( *pp)->qnext)]: the last buffer of the queue
    that starts with [b]. *)
Fixpoint queue_last (n : nat) (b : nat) (k : kernel) : option nat :=
  match n with
  | O => None
  | S n' =>
      match b_qnext (buf_at k b) with
      | None => Some b
      | Some b' => queue_last n' b' k
      end
  end.

(** Append [b] to the queue.  The queue has each buffer at most once; a cycle
    would make the loop run for ever. *)
Definition enqueue (b : nat) : K unit :=
  upd_buf b (set_b_qnext None) ;;
  q <- gets (fun k => id_queue (k_ide k)) ;;
  match q with
  | None => upd_ide (set_id_queue (Some b))
  | Some q =>
      last <- gets (queue_last (S NBUF) q) ;;
      match last with
      | Some l => upd_buf l (set_b_qnext (Some b))
      | None => hang
      end
  end.

Definition ide_rw (b : nat) : K unit :=
  bf <- get_buf b ;;
  if negb (has (b_flags bf) B_BUSY) then panic "iderw: buf not busy" else
  if Z.land (b_flags bf) (Z.lor B_VALID B_DIRTY) =? B_VALID
  then panic "iderw: nothing to do" else
  havedisk1 <- gets (fun k => id_havedisk1 (k_ide k)) ;;
  if negb (b_dev bf =? 0) && negb havedisk1 then panic "iderw: ide disk 1 not present" else
  acquire L_ide ;;
  enqueue b ;;
  q <- gets (fun k => id_queue (k_ide k)) ;;
  when (bool_decide (q = Some b)) (idestart (Some b)) ;;
  loop_sched (fun _ : unit =>
    bf <- get_buf b ;;
    if negb (Z.land (b_flags bf) (Z.lor B_VALID B_DIRTY) =? B_VALID) then
      sleep (Ch_buf b) (Some L_ide) ;; ret (inl tt)
    else ret (inr tt)) tt ;;
  release L_ide.

(** ** The queue *)

(** The buffers from [q] on, by their [qnext] pointers. *)
Fixpoint qchain (nx : nat -> option nat) (q : option nat) (l : list nat) : Prop :=
  match l with
  | [] => q = None
  | b :: l' => q = Some b /\ qchain nx (nx b) l'
  end.

Definition qnext_of (k : kernel) (b : nat) : option nat := b_qnext (buf_at k b).

(** The driver's queue is [l]; the first buffer is the one the disk works on. *)
Definition queue_is (k : kernel) (l : list nat) : Prop :=
  qchain (qnext_of k) (id_queue (k_ide k)) l /\ NoDup l /\
  Forall (fun b => (b < length (k_bcache k))%nat) l.

Lemma qchain_ext nx nx' q l :
  (forall b, b ∈ l -> nx' b = nx b) -> qchain nx q l -> qchain nx' q l.
Proof.
  revert q. induction l as [|x l IH]; intros q Hn; [done|]. cbn. intros [-> H].
  split; [done|]. rewrite Hn by left. apply IH; [|done]. intros b Hb. apply Hn. by right.
Qed.

Lemma buf_at_alter k i f j :
  (i < length (k_bcache k))%nat ->
  buf_at (set_k_bcache (alter f i (k_bcache k)) k) j =
    if decide (j = i) then f (buf_at k i) else buf_at k j.
Proof.
  intros Hi. unfold buf_at. cbn. destruct (lookup_lt_is_Some_2 _ _ Hi) as [x Hx].
  case_decide as E.
  - subst. by rewrite list_lookup_alter_eq, Hx.
  - by rewrite list_lookup_alter_ne.
Qed.

(** The loop of [iderw] finds the last buffer. *)
Lemma queue_last_ok k b l n :
  qchain (qnext_of k) (Some b) l -> (length l <= n)%nat -> queue_last n b k = last l.
Proof.
  revert b n. induction l as [|x l IH]; intros b n; [done|]. cbn [qchain].
  intros [[= ->] H] Hn. destruct n as [|n]; [cbn in Hn; lia|]. cbn [queue_last].
  unfold qnext_of in H. destruct l as [|y l].
  - cbn in H. by rewrite H.
  - pose proof H as [E _]. rewrite E in H |- *. rewrite (IH y n H); [done|cbn in *; lia].
Qed.

(** Linking [b] behind the last buffer. *)
Lemma qchain_snoc nx q l x b :
  NoDup l -> last l = Some x -> b ∉ l -> qchain nx q l -> nx b = None ->
  qchain (fun i => if decide (i = x) then Some b else nx i) q (l ++ [b]).
Proof.
  revert q. induction l as [|y l IH]; intros q Hnd Hl Hb; [done|]. cbn [qchain app].
  intros [-> H] Hnb. split; [done|]. apply NoDup_cons in Hnd as [Hy Hnd].
  apply not_elem_of_cons in Hb as [Hby Hb]. destruct l as [|z l].
  - cbn in Hl. injection Hl as ->. rewrite decide_True by done. cbn.
    split; [done|]. by rewrite decide_False.
  - assert (last (z :: l) = Some x) as Hl' by exact Hl.
    assert (x ∈ z :: l) as Hx by (apply last_Some in Hl' as [l' ->]; set_solver).
    rewrite decide_False by set_solver. apply IH; try done.
Qed.

Lemma enqueue_ok b e k l :
  queue_is k l -> b ∉ l -> (b < length (k_bcache k))%nat -> (length l <= NBUF)%nat ->
  exists k', enqueue b e k = Ok tt e k' /\ queue_is k' (l ++ [b]) /\
    (forall i, b_flags (buf_at k' i) = b_flags (buf_at k i)) /\
    (forall i, b_data (buf_at k' i) = b_data (buf_at k i)).
Proof.
  intros (Hc & Hnd & Hlt) Hb Hbl Hlen. unfold enqueue. rewrite upd_buf_eq, gets_eq.
  set (k1 := set_k_bcache (alter (set_b_qnext None) b (k_bcache k)) k).
  change (k_ide k1) with (k_ide k).
  assert (forall i, qnext_of k1 i = if decide (i = b) then None else qnext_of k i) as Hn1.
  { intros i. unfold qnext_of, k1. rewrite buf_at_alter by done. by case_decide. }
  assert (qchain (qnext_of k1) (id_queue (k_ide k)) l) as Hc1.
  { eapply qchain_ext; [|exact Hc]. intros i Hi. rewrite Hn1, decide_False by set_solver. done. }
  assert (NoDup (l ++ [b])) as Hnd'.
  { apply NoDup_app. split; [done|]. split; [set_solver|apply NoDup_singleton]. }
  destruct (id_queue (k_ide k)) as [q|] eqn:Eq.
  - rewrite gets_eq, (queue_last_ok k1 q l) by (done || lia).
    destruct (last l) as [x|] eqn:El; [|by apply last_None in El as ->].
    assert (x ∈ l) as Hx by (apply last_Some in El as [l' ->]; set_solver).
    assert (x < length (k_bcache k1))%nat as Hxl.
    { cbn. rewrite length_alter. rewrite Forall_forall in Hlt. by apply Hlt. }
    eexists. split; [reflexivity|].
    assert (forall i, buf_at (set_k_bcache (alter (set_b_qnext (Some b)) x (k_bcache k1)) k1) i =
      if decide (i = x) then set_b_qnext (Some b) (buf_at k1 x) else buf_at k1 i) as Hat
      by (intros i; by apply buf_at_alter).
    split; [split; [|split; [done|]]|split].
    + cbn [k_ide set_k_bcache k1]. rewrite Eq. eapply qchain_ext; [|eapply qchain_snoc; [exact Hnd|exact El|exact Hb|exact Hc1|]].
      * intros i _. unfold qnext_of. rewrite Hat. by case_decide.
      * rewrite Hn1. by rewrite decide_True.
    + cbn. rewrite !length_alter. apply Forall_app; split; [done|by constructor].
    + intros i. rewrite Hat. unfold k1. rewrite !buf_at_alter by done. repeat case_decide; by subst.
    + intros i. rewrite Hat. unfold k1. rewrite !buf_at_alter by done. repeat case_decide; by subst.
  - destruct l as [|y l]; [|by destruct Hc]. eexists. split; [reflexivity|].
    split; [split; [|split; [done|]]|split].
    + cbn. split; [done|]. change (qnext_of _ b) with (qnext_of k1 b). by rewrite Hn1, decide_True.
    + cbn. rewrite length_alter. by constructor.
    + intros i. change (buf_at _ i) with (buf_at k1 i) at 1. unfold k1. rewrite buf_at_alter by done. by case_decide; subst.
    + intros i. change (buf_at _ i) with (buf_at k1 i) at 1. unfold k1. rewrite buf_at_alter by done. by case_decide; subst.
Qed.

(** [iderw] appends its buffer to the driver's queue: requests are served first
    come first served, and no buffer already in the queue is lost. *)
Theorem ide_queue_fifo b e k l :
  queue_is k l -> b ∉ l -> (b < length (k_bcache k))%nat -> (length l <= NBUF)%nat ->
  exists k', enqueue b e k = Ok tt e k' /\ queue_is k' (l ++ [b]) /\
    (forall i, b_flags (buf_at k' i) = b_flags (buf_at k i)) /\
    (forall i, b_data (buf_at k' i) = b_data (buf_at k i)).
Proof. apply enqueue_ok. Qed.

(** A machine whose queue is buffer 3, then buffer 5. *)
Definition queued : kernel :=
  set_k_ide (set_id_queue (Some 3%nat) (k_ide Demo.machine))
    (set_k_bcache (alter (set_b_qnext (Some 5%nat)) 3%nat (k_bcache Demo.machine)) Demo.machine).

Lemma ide_queue_fifo_witness :
  exists k', enqueue 7 [] queued = Ok tt [] k' /\ queue_is k' ([3; 5] ++ [7])%nat /\
    (forall i, b_flags (buf_at k' i) = b_flags (buf_at queued i)) /\
    (forall i, b_data (buf_at k' i) = b_data (buf_at queued i)).
Proof.
  apply (ide_queue_fifo 7 [] queued [3; 5]%nat).
  - split; [split; [reflexivity|split; [reflexivity|reflexivity]]|]. split.
    + repeat constructor; set_solver.
    + repeat constructor; cbn; lia.
  - set_solver.
  - cbn. lia.
  - unfold NBUF. cbn. lia.
Defined.

(** ** The controller *)

(** The controller is ready. *)
Definition ide_ready (k : kernel) : Prop :=
  Z.land (id_status (k_ide k)) (Z.lor IDE_BSY IDE_DRDY) = IDE_DRDY.

Lemma idewait_ready e k : ide_ready k -> idewait false e k = Ok 0 e k.
Proof.
  intros H. unfold idewait, loop_sched. cbn [loop_fuel]. unfold status. rewrite bind_bind_eq, gets_eq.
  unfold ide_ready in H. by rewrite H.
Qed.

(** What the disk reads from the ports: the sector number and the drive. *)
Definition port (k : kernel) (p : Z) : Z := default 0 (id_ports (k_ide k) !! p).
Definition port_sector (k : kernel) : Z :=
  port k 0x1f3 + 256 * port k 0x1f4 + 65536 * port k 0x1f5 + 16777216 * Z.land (port k 0x1f6) 0xf.
Definition port_drive (k : kernel) : Z := Z.land (Z.shiftr (port k 0x1f6) 4) 1.

Definition sector_ok (n : Z) : bool :=
  let s := s32 (n * (BSIZE / SECTOR_SIZE)) in
  forallb (fun d =>
    let p6 := u8 (Z.lor (Z.lor 0xe0 (Z.shiftl d 4)) (Z.land (Z.shiftr s 24) 0x0f)) in
    (u8 (Z.land s 0xff) + 256 * u8 (Z.land (Z.shiftr s 8) 0xff) +
     65536 * u8 (Z.land (Z.shiftr s 16) 0xff) + 16777216 * Z.land p6 0xf =? n) &&
    (Z.land (Z.shiftr p6 4) 1 =? d)) [0; 1].

Lemma sector_ok_all n : 0 <= n < 1000 -> sector_ok n = true.
Proof.
  intros Hn. assert (forallb sector_ok (Z.of_nat <$> seq 0 1000) = true) as H by (vm_compute; reflexivity).
  rewrite forallb_forall in H. apply H. apply list_elem_of_In, list_elem_of_fmap.
  exists (Z.to_nat n). split; [lia|]. apply elem_of_seq. lia.
Qed.

(** [idestart] programs the disk controller with the request of the buffer: one
    sector, whose number, read back from the four address ports, is the block
    number, on the drive of the buffer's device, with the write command and
    the data if the buffer is dirty and the read command otherwise.  A block
    number beyond FSSIZE panics before the controller is touched. *)
Theorem idestart_programs b bf e k :
  k_bcache k !! b = Some bf -> 0 <= b_blockno bf -> ide_ready k ->
  if FSSIZE <=? b_blockno bf then idestart (Some b) e k = Panic "incorrect blockno" k else
  exists k', idestart (Some b) e k = Ok tt e k' /\ k' = set_k_ide (k_ide k') k /\
    port k' 0x1f2 = 1 /\ port_sector k' = b_blockno bf /\
    port_drive k' = Z.land (b_dev bf) 1 /\
    (if has (b_flags bf) B_DIRTY
     then port k' 0x1f7 = IDE_CMD_WRITE /\ id_fifo (k_ide k') = b_data bf
     else port k' 0x1f7 = IDE_CMD_READ).
Proof.
  intros Hb H0 Hr. unfold idestart. rewrite get_buf_eq, (buf_at_lookup _ _ _ Hb).
  destruct (Z.leb_spec FSSIZE (b_blockno bf)) as [Hf|Hf]; [done|].
  change (7 <? BSIZE / SECTOR_SIZE) with false. cbv iota.
  erewrite bind_Ok by (by apply idewait_ready).
  pose proof (sector_ok_all (b_blockno bf) ltac:(unfold FSSIZE in Hf; lia)) as Hs.
  unfold sector_ok in Hs. set (s := s32 (b_blockno bf * (BSIZE / SECTOR_SIZE))) in *.
  assert (Z.land (b_dev bf) 1 = 0 \/ Z.land (b_dev bf) 1 = 1) as Hd.
  { change (Z.land (b_dev bf) 1) with (Z.land (b_dev bf) (Z.ones 1)). rewrite Z.land_ones by lia.
    change (2 ^ 1) with 2. pose proof (Z.mod_pos_bound (b_dev bf) 2 ltac:(lia)). lia. }
  cbn [forallb] in Hs. apply andb_true_iff in Hs as [Hs0 Hs]. apply andb_true_iff in Hs as [Hs1 _].
  unfold ide_outb, outsl. rewrite !upd_ide_eq.
  set (d := Z.land (b_dev bf) 1) in *.
  destruct (has (b_flags bf) B_DIRTY); (eexists; split; [reflexivity|]; split; [reflexivity|]);
    unfold port_sector, port_drive, port; cbn [k_ide set_k_ide set_id_fifo set_id_ports id_ports id_fifo];
    repeat (rewrite lookup_insert_eq || rewrite lookup_insert_ne by done); cbn [default];
    (split; [reflexivity|]); destruct Hd as [-> | ->]; bool_to_prop; done.
Qed.

Lemma idestart_programs_witness :
  if FSSIZE <=? 777 then
    idestart (Some 3%nat) [] (set_k_bcache (alter (set_b_blockno 777) 3%nat (k_bcache queued)) queued) =
    Panic "incorrect blockno" (set_k_bcache (alter (set_b_blockno 777) 3%nat (k_bcache queued)) queued)
  else
  exists k',
    idestart (Some 3%nat) [] (set_k_bcache (alter (set_b_blockno 777) 3%nat (k_bcache queued)) queued) =
      Ok tt [] k' /\
    k' = set_k_ide (k_ide k') (set_k_bcache (alter (set_b_blockno 777) 3%nat (k_bcache queued)) queued) /\
    port k' 0x1f2 = 1 /\ port_sector k' = 777 /\ port_drive k' = Z.land 0 1 /\
    (if has 0 B_DIRTY
     then port k' 0x1f7 = IDE_CMD_WRITE /\ id_fifo (k_ide k') = b_data buf0
     else port k' 0x1f7 = IDE_CMD_READ).
Proof.
  apply (idestart_programs 3 (set_b_blockno 777 (set_b_qnext (Some 5%nat) buf0)) []); [reflexivity|cbn; lia|reflexivity].
Defined.

End Ide.
