(* ===== verification/Disk.v ===== *)
(** The disk driver as the buffer cache sees it, and memide.c, the driver that
    keeps the disk in memory. *)

From S2P Require Import Prelude Bytes Machine Spinlock Sleep.
Import Spinlock Sleep.

(** ** The interface

    [iderw] of the comment in ide.c and memide.c: "If B_DIRTY is set, write buf
    to disk, clear B_DIRTY, set B_VALID.  Else if B_VALID is not set, read buf
    from disk, set B_VALID." *)

Definition disk_block (k : kernel) (dev bno : Z) : list Z :=
  default [] (k_disk k !! (dev, bno)).

(** The disk holds [k_disksize] whole blocks of device 1. *)
Definition disk_ok (k : kernel) : Prop :=
  forall bno, 0 <= bno < k_disksize k ->
    exists d, k_disk k !! (1, bno) = Some d /\ length d = 512%nat.

(** What the callers of [iderw] have to establish. *)
Definition rw_pre (b : nat) (k : kernel) : Prop :=
  exists bf, k_bcache k !! b = Some bf /\ (b < NBUF)%nat /\
    has (b_flags bf) B_BUSY = true /\
    (has (b_flags bf) B_VALID = false \/ has (b_flags bf) B_DIRTY = true) /\
    b_dev bf = 1 /\ 0 <= b_blockno bf < k_disksize k /\
    length (b_data bf) = 512%nat /\ disk_ok k.

(** What [iderw] does to the buffer and to the disk. *)
Definition rw_effect (b : nat) (k : kernel) : kernel :=
  let bf := buf_at k b in
  if has (b_flags bf) B_DIRTY then
    set_k_bcache (<[b := set_b_flags
        (Z.lor (Z.land (b_flags bf) (Z.lnot B_DIRTY)) B_VALID) bf]> (k_bcache k))
      (set_k_disk (<[(b_dev bf, b_blockno bf) := b_data bf]> (k_disk k))
        (set_k_writes ((b_dev bf, b_blockno bf, b_data bf) :: k_writes k) k))
  else
    set_k_bcache (<[b := set_b_flags (Z.lor (b_flags bf) B_VALID)
        (set_b_data (disk_block k (b_dev bf) (b_blockno bf)) bf)]> (k_bcache k)) k.

(** A driver: its [iderw], the states in which it works ([drv_ok], which
    depends on the driver's own state, the locks and the processor), and the
    promise that [iderw] then has the effect above, changes nothing else but
    the driver's state, and wakes no process but those that sleep. *)
Class DiskDriver := {
  iderw : nat -> K unit;
  drv_ok : kernel -> Prop;
  drv_ok_frame k k' :
    drv_ok k -> k_ide k' = k_ide k ->
    k_locks k' !! L_ide = k_locks k !! L_ide ->
    k_locks k' !! L_ptable = k_locks k !! L_ptable ->
    k_cpu k' = k_cpu k -> woken (k_ptable k) (k_ptable k') -> drv_ok k';
  iderw_ok b e k :
    drv_ok k -> rw_pre b k ->
    exists ide pt,
      woken (k_ptable k) pt /\
      iderw b e k = Ok tt e (set_k_ide ide (set_k_ptable pt (rw_effect b k))) /\
      drv_ok (set_k_ide ide (set_k_ptable pt (rw_effect b k)))
}.

(** ** memide.c *)

Module Memide.

(** The image as blocks of BSIZE bytes. *)
Fixpoint blocks_of (n : nat) (bno : Z) (img : list Z) : list (Z * Z * list Z) :=
  match n with
  | O => []
  | S n' => ((1, bno), take 512 img) :: blocks_of n' (bno + 1) (drop 512 img)
  end.

Definition ideinit : K unit :=
  modify (fun k =>
    let img := ld_fs_img (k_link k) in
    let size := (length img / 512)%nat in
    set_k_disk (list_to_map (blocks_of size 0 img))
      (set_k_disksize (Z.of_nat size) k)).

Definition ideintr : K unit := ret tt.

Definition memide_rw (b : nat) : K unit :=
  bf <- get_buf b ;;
  if negb (has (b_flags bf) B_BUSY) then panic "iderw: buf not busy" else
  if Z.land (b_flags bf) (Z.lor B_VALID B_DIRTY) =? B_VALID
  then panic "iderw: nothing to do" else
  if negb (b_dev bf =? 1) then panic "iderw: request not for disk 1" else
  size <- gets k_disksize ;;
  if size <=? b_blockno bf then panic "iderw: block out of range" else
  (if has (b_flags bf) B_DIRTY then
    upd_buf b (set_b_flags (Z.land (b_flags bf) (Z.lnot B_DIRTY))) ;;
    modify (fun k =>
      set_k_disk (<[(1, b_blockno bf) := b_data bf]> (k_disk k))
        (set_k_writes ((1, b_blockno bf, b_data bf) :: k_writes k) k))
  else
    d <- gets (fun k => disk_block k 1 (b_blockno bf)) ;;
    upd_buf b (set_b_data d)) ;;
  bf <- get_buf b ;;
  upd_buf b (set_b_flags (Z.lor (b_flags bf) B_VALID)).

Lemma memide_rw_ok b e k :
  rw_pre b k -> memide_rw b e k = Ok tt e (rw_effect b k).
Proof.
  intros (bf & Hb & _ & Hbusy & Hvd & Hdev & Hbno & _ & _).
  pose proof (lookup_lt_Some _ _ _ Hb) as Hlt.
  unfold memide_rw, bind, get_buf, gets. rewrite (buf_at_lookup _ _ _ Hb).
  rewrite Hbusy, valid_clean, Hdev; simpl.
  assert (has (b_flags bf) B_VALID && negb (has (b_flags bf) B_DIRTY) = false) as ->.
  { destruct Hvd as [-> | ->]; [done|]. apply andb_false_r. }
  assert (k_disksize k <=? b_blockno bf = false) as -> by (apply Z.leb_gt; lia).
  unfold rw_effect. rewrite (buf_at_lookup _ _ _ Hb).
  destruct (has (b_flags bf) B_DIRTY) eqn:Ed; unfold upd_buf, modify; simpl.
  - unfold buf_at; simpl. rewrite (alter_as_insert _ _ _ _ Hb).
    rewrite list_lookup_insert_eq by done. simpl.
    rewrite (alter_as_insert _ _ _ _ (list_lookup_insert_eq _ _ _ Hlt)).
    rewrite list_insert_insert_eq, Hdev. done.
  - unfold buf_at; simpl. rewrite (alter_as_insert _ _ _ _ Hb).
    rewrite list_lookup_insert_eq by done. simpl.
    rewrite (alter_as_insert _ _ _ _ (list_lookup_insert_eq _ _ _ Hlt)).
    rewrite list_insert_insert_eq, Hdev. done.
Qed.

#[export] Program Instance memide_driver : DiskDriver := {|
  iderw := memide_rw;
  drv_ok := fun _ => True
|}.
Next Obligation. done. Qed.
Next Obligation.
  intros b e k _ H. exists (k_ide k), (k_ptable k). split; [done|]. split; [|done].
  rewrite memide_rw_ok by done. f_equal.
  assert (k_ide (rw_effect b k) = k_ide k /\ k_ptable (rw_effect b k) = k_ptable k) as [H1 H2].
  { unfold rw_effect. by destruct (has _ _). }
  rewrite <- H1, <- H2. by destruct (rw_effect b k).
Qed.

End Memide.
