(* ===== verification/Bio.v ===== *)
(** bio.c: the buffer cache.

    The doubly linked list of the buffers is kept as in the source, with one
    [prev] and one [next] per buffer and the list head in the last entry of the
    table; [Ring] proves that it is always a ring through all the buffers. *)

From S2P Require Import Prelude Bytes Machine Spinlock Sleep Disk.
Import Spinlock Sleep.

Module Bio.

(** ** The operations *)

Definition head : nat := NBUF.

Definition binit : K unit :=
  initlock L_bcache "bcache" ;;
  upd_buf head (set_b_prev head) ;;
  upd_buf head (set_b_next head) ;;
  for_all (seq 0 NBUF) (fun b =>
    h <- get_buf head ;;
    upd_buf b (set_b_next (b_next h)) ;;
    upd_buf b (set_b_prev head) ;;
    upd_buf b (set_b_dev (u32 (-1))) ;;
    h <- get_buf head ;;
    upd_buf (b_next h) (set_b_prev b) ;;
    upd_buf head (set_b_next b)).

(** [for(b = bcache.head.next; b != &bcache.head; b = b->next)], up to the first
    buffer that satisfies [test]. *)
Definition scan_next (test : buf -> bool) : K (option nat) :=
  h <- get_buf head ;;
  loop_fuel (S NBUF) (fun b =>
    if (b =? head)%nat then ret (inr None) else
    bf <- get_buf b ;;
    if test bf then ret (inr (Some b)) else ret (inl (b_next bf))) (b_next h).

(** [for(b = bcache.head.prev; b != &bcache.head; b = b->prev)] *)
Definition scan_prev (test : buf -> bool) : K (option nat) :=
  h <- get_buf head ;;
  loop_fuel (S NBUF) (fun b =>
    if (b =? head)%nat then ret (inr None) else
    bf <- get_buf b ;;
    if test bf then ret (inr (Some b)) else ret (inl (b_prev bf))) (b_prev h).

(** The test of the first loop of [bget] and of the second. *)
Definition is_block (dev blockno : Z) (bf : buf) : bool :=
  (b_dev bf =? dev) && (b_blockno bf =? blockno).
Definition recyclable (bf : buf) : bool :=
  negb (has (b_flags bf) B_BUSY) && negb (has (b_flags bf) B_DIRTY).

Definition bget (dev blockno : Z) : K nat :=
  acquire L_bcache ;;
  loop_sched (fun _ : unit =>
    r <- scan_next (is_block dev blockno) ;;
    match r with
    | Some b =>
        bf <- get_buf b ;;
        if negb (has (b_flags bf) B_BUSY) then
          upd_buf b (set_b_flags (Z.lor (b_flags bf) B_BUSY)) ;;
          release L_bcache ;;
          ret (inr b)
        else
          sleep (Ch_buf b) (Some L_bcache) ;;
          ret (inl tt)
    | None =>
        r <- scan_prev recyclable ;;
        match r with
        | Some b =>
            upd_buf b (set_b_dev dev) ;;
            upd_buf b (set_b_blockno blockno) ;;
            upd_buf b (set_b_flags B_BUSY) ;;
            release L_bcache ;;
            ret (inr b)
        | None => panic "bget: no buffers"
        end
    end) tt.

Definition brelse (b : nat) : K unit :=
  bf <- get_buf b ;;
  if negb (has (b_flags bf) B_BUSY) then panic "brelse" else
  acquire L_bcache ;;
  bf <- get_buf b ;;
  upd_buf (b_next bf) (set_b_prev (b_prev bf)) ;;
  bf <- get_buf b ;;
  upd_buf (b_prev bf) (set_b_next (b_next bf)) ;;
  h <- get_buf head ;;
  upd_buf b (set_b_next (b_next h)) ;;
  upd_buf b (set_b_prev head) ;;
  h <- get_buf head ;;
  upd_buf (b_next h) (set_b_prev b) ;;
  upd_buf head (set_b_next b) ;;
  bf <- get_buf b ;;
  upd_buf b (set_b_flags (Z.land (b_flags bf) (Z.lnot B_BUSY))) ;;
  wakeup (Ch_buf b) ;;
  release L_bcache.

Section driver.
Context `{DiskDriver}.

Definition bread (dev blockno : Z) : K nat :=
  b <- bget dev blockno ;;
  bf <- get_buf b ;;
  when (negb (has (b_flags bf) B_VALID)) (iderw b) ;;
  ret b.

Definition bwrite (b : nat) : K unit :=
  bf <- get_buf b ;;
  if negb (has (b_flags bf) B_BUSY) then panic "bwrite" else
  upd_buf b (set_b_flags (Z.lor (b_flags bf) B_DIRTY)) ;;
  iderw b.

End driver.

(** ** The ring *)

Module Ring.

(** [f] leads from [x] along [xs]. *)
Fixpoint chain (f : nat -> nat) (x : nat) (xs : list nat) : Prop :=
  match xs with
  | [] => True
  | y :: ys => f x = y /\ chain f y ys
  end.

Definition fupd (f : nat -> nat) (i v : nat) : nat -> nat :=
  fun j => if decide (j = i) then v else f j.

Lemma chain_ext f g x xs :
  (forall y, y ∈ x :: xs -> f y = g y) -> chain f x xs -> chain g x xs.
Proof.
  revert x. induction xs as [|y ys IH]; intros x He Hc; [done|].
  destruct Hc as [Hx Hc]. split.
  - rewrite <- He; [done|left].
  - apply IH; [|done]. intros z Hz. apply He. by right.
Qed.

Lemma chain_app f x xs y ys :
  chain f x (xs ++ y :: ys) <-> chain f x (xs ++ [y]) /\ chain f y ys.
Proof.
  revert x. induction xs as [|z zs IH]; intros x; simpl; [naive_solver|].
  rewrite IH. naive_solver.
Qed.

Lemma chain_fupd f x xs y i v :
  i ∉ x :: xs -> chain f x (xs ++ [y]) -> chain (fupd f i v) x (xs ++ [y]).
Proof.
  revert x. induction xs as [|z zs IH]; intros x Hi Hc; simpl in *.
  - unfold fupd. destruct Hc as [Hx _]. rewrite decide_False; [done|]. set_solver.
  - destruct Hc as [Hx Hc]. split.
    + unfold fupd. rewrite decide_False; [done|]. set_solver.
    + apply IH; [set_solver|done].
Qed.

(** The element before the end of [x :: xs]. *)
Fixpoint last_of (x : nat) (xs : list nat) : nat :=
  match xs with
  | [] => x
  | y :: ys => last_of y ys
  end.

Lemma last_of_in x xs : last_of x xs ∈ x :: xs.
Proof.
  revert x. induction xs as [|y ys IH]; intros x; simpl; [left|].
  right. apply IH.
Qed.

Lemma last_of_snoc x xs y : last_of x (xs ++ [y]) = y.
Proof. revert x. induction xs as [|z zs IH]; intros x; simpl; [done|apply IH]. Qed.

Lemma chain_last f x xs y : chain f x (xs ++ [y]) -> f (last_of x xs) = y.
Proof.
  revert x. induction xs as [|z zs IH]; intros x; simpl; [naive_solver|].
  intros [_ Hc]. by apply IH.
Qed.

(** Redirect the end of a chain. *)
Lemma chain_redirect f x xs y y' :
  NoDup (x :: xs) -> chain f x (xs ++ [y]) ->
  chain (fupd f (last_of x xs) y') x (xs ++ [y']).
Proof.
  revert x. induction xs as [|z zs IH]; intros x Hnd Hc; simpl in *.
  - unfold fupd. by rewrite decide_True.
  - destruct Hc as [Hx Hc]. apply NoDup_cons in Hnd as [Hx' Hnd]. split.
    + unfold fupd. rewrite decide_False; [done|]. intros ->.
      apply Hx'. apply last_of_in.
    + by apply IH.
Qed.

Lemma removelast_cons_snoc (y : nat) l h : removelast (y :: l ++ [h]) = y :: l.
Proof. rewrite app_comm_cons, removelast_app by done. simpl. by rewrite app_nil_r. Qed.

(** Take [b] out of a chain. *)
Lemma chain_remove f x l1 b y l2 :
  NoDup (x :: l1 ++ b :: removelast (y :: l2)) ->
  chain f x (l1 ++ b :: y :: l2) ->
  f b = y /\ chain (fupd f (last_of x l1) y) x (l1 ++ y :: l2).
Proof.
  intros Hnd Hc. apply chain_app in Hc as [H1 [Hb H2]]. split; [done|].
  assert (NoDup (x :: l1)) as Hnd1.
  { rewrite app_comm_cons in Hnd. by apply NoDup_app in Hnd as [? _]. }
  apply chain_app. split; [by eapply chain_redirect|].
  destruct l2 as [|z l2]; [done|].
  destruct (exists_last (l := z :: l2)) as (m & w & Hw); [done|].
  rewrite Hw in *. apply chain_fupd; [|done].
  rewrite removelast_cons_snoc, app_comm_cons in Hnd.
  apply NoDup_app in Hnd as (_ & Hdis & _).
  intros Hin. apply (Hdis (last_of x l1)); [apply last_of_in|]. by right.
Qed.

(** Put [b] first in a chain. *)
Lemma chain_cons f x xs y b :
  NoDup (x :: xs) -> b ∉ x :: xs -> chain f x (xs ++ [y]) ->
  chain (fupd (fupd f b (f x)) x b) x (b :: xs ++ [y]).
Proof.
  intros Hnd Hb Hc. split; [unfold fupd; by rewrite decide_True|].
  destruct xs as [|z zs]; simpl.
  - destruct Hc as [Hx _]. unfold fupd. rewrite decide_False by set_solver.
    by rewrite decide_True.
  - destruct Hc as [Hx Hc]. apply NoDup_cons in Hnd as [Hxz Hnd]. split.
    + unfold fupd. rewrite decide_False by set_solver. by rewrite decide_True.
    + apply chain_fupd; [done|]. apply chain_fupd; [set_solver|done].
Qed.

(** Put [b] last in a chain. *)
Lemma chain_snoc f x xs y b :
  NoDup (x :: xs) -> b ∉ x :: xs -> chain f x (xs ++ [y]) ->
  chain (fupd (fupd f b y) (last_of x xs) b) x (xs ++ [b; y]).
Proof.
  intros Hnd Hb Hc. apply chain_app. split.
  - apply (chain_redirect _ _ _ y); [done|]. by apply chain_fupd.
  - simpl. split; [|done]. unfold fupd.
    pose proof (last_of_in x xs) as Hl.
    rewrite decide_False by (intros ->; done). by rewrite decide_True.
Qed.

(** The links of a table of buffers. *)
Definition nx (bs : list buf) (i : nat) : nat := b_next (default buf0 (bs !! i)).
Definition pv (bs : list buf) (i : nat) : nat := b_prev (default buf0 (bs !! i)).

Lemma nx_set_next bs i v :
  (i < length bs)%nat ->
  forall j, nx (alter (set_b_next v) i bs) j = fupd (nx bs) i v j.
Proof.
  intros Hi j. unfold nx, fupd. case_decide as Hj.
  - subst j. rewrite list_lookup_alter_eq.
    destruct (lookup_lt_is_Some_2 bs i Hi) as [b ->]. done.
  - by rewrite list_lookup_alter_ne.
Qed.

Lemma pv_set_prev bs i v :
  (i < length bs)%nat ->
  forall j, pv (alter (set_b_prev v) i bs) j = fupd (pv bs) i v j.
Proof.
  intros Hi j. unfold pv, fupd. case_decide as Hj.
  - subst j. rewrite list_lookup_alter_eq.
    destruct (lookup_lt_is_Some_2 bs i Hi) as [b ->]. done.
  - by rewrite list_lookup_alter_ne.
Qed.

(** An update that keeps the [next] (the [prev]) of every buffer. *)
Lemma nx_alter (g : buf -> buf) bs i j :
  (forall b, b_next (g b) = b_next b) -> nx (alter g i bs) j = nx bs j.
Proof.
  intros Hg. unfold nx. destruct (decide (i = j)) as [<-|Hne].
  - rewrite list_lookup_alter_eq. destruct (bs !! i); simpl; auto.
  - by rewrite list_lookup_alter_ne.
Qed.

Lemma pv_alter (g : buf -> buf) bs i j :
  (forall b, b_prev (g b) = b_prev b) -> pv (alter g i bs) j = pv bs j.
Proof.
  intros Hg. unfold pv. destruct (decide (i = j)) as [<-|Hne].
  - rewrite list_lookup_alter_eq. destruct (bs !! i); simpl; auto.
  - by rewrite list_lookup_alter_ne.
Qed.

(** The buffers [l], in this order, form the ring of the list head. *)
Definition ring (bs : list buf) (l : list nat) : Prop :=
  length bs = S NBUF /\ NoDup l /\ Forall (fun i => (i < NBUF)%nat) l /\
  chain (nx bs) head (l ++ [head]) /\ chain (pv bs) head (rev l ++ [head]).

Lemma head_notin l : Forall (fun i => (i < NBUF)%nat) l -> head ∉ l.
Proof.
  intros Hf Hin. rewrite Forall_forall in Hf. specialize (Hf _ Hin).
  unfold head in Hf. lia.
Qed.

(** The first four assignments of [brelse] to the links of its neighbours. *)
Definition unlink (b : nat) (bs : list buf) : list buf :=
  let bs1 := alter (set_b_prev (pv bs b)) (nx bs b) bs in
  alter (set_b_next (nx bs1 b)) (pv bs1 b) bs1.

(** The assignments that put [b] at the front ([brelse] and [binit]). *)
Definition push_front (b : nat) (bs : list buf) : list buf :=
  let bs1 := alter (set_b_prev head) b (alter (set_b_next (nx bs head)) b bs) in
  alter (set_b_next b) head (alter (set_b_prev b) (nx bs1 head) bs1).

Lemma length_unlink b bs : length (unlink b bs) = length bs.
Proof. unfold unlink. by rewrite !length_alter. Qed.

Lemma length_push_front b bs : length (push_front b bs) = length bs.
Proof. unfold push_front. by rewrite !length_alter. Qed.

Lemma last_of_rev x l : last_of x (rev l) = default x (hd_error l).
Proof. destruct l as [|y l]; [done|]. simpl. by rewrite last_of_snoc. Qed.

Lemma chain_hd f x xs y : chain f x (xs ++ [y]) -> f x = default y (hd_error xs).
Proof. by destruct xs as [|z zs]; intros [? _]. Qed.

Lemma last_of_lt l : Forall (fun i => (i < NBUF)%nat) l -> (last_of head l < S NBUF)%nat.
Proof.
  intros Hf. pose proof (last_of_in head l) as Hin.
  apply elem_of_cons in Hin as [->|Hin]; [unfold head; lia|].
  rewrite Forall_forall in Hf. specialize (Hf _ Hin). simpl in Hf. lia.
Qed.

Lemma hd_lt l : Forall (fun i => (i < NBUF)%nat) l -> (default head (hd_error l) < S NBUF)%nat.
Proof. intros Hf. destruct Hf; simpl; unfold head; lia. Qed.

Lemma unlink_links b bs l1 l2 :
  ring bs (l1 ++ b :: l2) ->
  nx bs b = default head (hd_error l2) /\ pv bs b = last_of head l1 /\
  (forall j, nx (unlink b bs) j = fupd (nx bs) (last_of head l1) (default head (hd_error l2)) j) /\
  (forall j, pv (unlink b bs) j = fupd (pv bs) (default head (hd_error l2)) (last_of head l1) j).
Proof.
  intros (Hlen & Hnd & Hf & Hn & Hp).
  apply Forall_app in Hf as [Hf1 Hf2]. apply Forall_cons in Hf2 as [Hfb Hf2].
  assert (nx bs b = default head (hd_error l2)) as Hnb.
  { rewrite <- app_assoc in Hn. simpl in Hn. apply chain_app in Hn as [_ Hn].
    by apply chain_hd in Hn. }
  assert (pv bs b = last_of head l1) as Hpb.
  { rewrite rev_app_distr in Hp. simpl in Hp. rewrite <- !app_assoc in Hp. simpl in Hp.
    apply chain_app in Hp as [_ Hp]. apply chain_hd in Hp. rewrite Hp.
    rewrite <- (rev_involutive l1) at 2. by rewrite last_of_rev. }
  assert (nx bs b ≠ b) as Hne.
  { rewrite Hnb. destruct l2 as [|z l2]; simpl; [unfold head; lia|]. intros ->.
    apply NoDup_app in Hnd as (_ & _ & Hnd). apply NoDup_cons in Hnd as [Hnd _]. set_solver. }
  assert (pv (alter (set_b_prev (pv bs b)) (nx bs b) bs) b = pv bs b) as Hpb1.
  { rewrite pv_set_prev by (rewrite Hnb, Hlen; by apply hd_lt).
    unfold fupd. by rewrite decide_False by congruence. }
  split; [done|]. split; [done|]. split; intros j; unfold unlink.
  - cbv zeta. rewrite Hpb1, nx_set_next
      by (rewrite length_alter, Hlen, Hpb; by apply last_of_lt).
    unfold fupd. by rewrite !nx_alter, Hpb, Hnb.
  - cbv zeta. rewrite pv_alter, pv_set_prev by (rewrite ?Hnb, ?Hlen; done || by apply hd_lt).
    by rewrite Hnb, Hpb.
Qed.

Lemma ring_unlink b bs l1 l2 :
  ring bs (l1 ++ b :: l2) -> ring (unlink b bs) (l1 ++ l2).
Proof.
  intros Hr. destruct (unlink_links b bs l1 l2 Hr) as (Hnb & Hpb & Hn' & Hp').
  destruct Hr as (Hlen & Hnd & Hf & Hn & Hp).
  pose proof (head_notin _ Hf) as Hh.
  apply Forall_app in Hf as [Hf1 Hf2]. apply Forall_cons in Hf2 as [Hfb Hf2].
  assert (NoDup (head :: l1 ++ b :: l2)) as Hnd' by (by constructor).
  split; [by rewrite length_unlink|]. split; [|split; [by apply Forall_app|split]].
  - apply NoDup_app in Hnd as (H1 & H2 & H3). apply NoDup_cons in H3 as [H3 H4].
    apply NoDup_app. split_and!; [done| |done]. intros x Hx Hx2. apply (H2 x Hx). by right.
  - eapply chain_ext; [intros j _; symmetry; apply Hn'|].
    rewrite <- !app_assoc in *. simpl in Hn.
    destruct l2 as [|y l2]; simpl in *.
    + eapply chain_remove in Hn as [_ Hn]; [done|]. simpl. done.
    + eapply chain_remove in Hn as [_ Hn]; [done|].
      by rewrite removelast_cons_snoc.
  - eapply chain_ext; [intros j _; symmetry; apply Hp'|].
    rewrite rev_app_distr in *. simpl in Hp. rewrite <- !app_assoc in *. simpl in Hp.
    rewrite <- (last_of_rev head l2).
    assert (NoDup (head :: rev l2 ++ b :: rev l1)) as Hndr.
    { assert (head :: rev l2 ++ b :: rev l1 ≡ₚ head :: l1 ++ b :: l2) as ->; [|done].
      rewrite <- !Permutation_rev. solve_Permutation. }
    assert (last_of head l1 = default head (hd_error (rev l1))) as ->.
    { rewrite <- (rev_involutive l1) at 1. by rewrite last_of_rev. }
    destruct (rev l1) as [|y m]; simpl in *.
    + eapply chain_remove in Hp as [_ Hp]; [done|]. simpl. done.
    + eapply chain_remove in Hp as [_ Hp]; [done|].
      by rewrite removelast_cons_snoc.
Qed.

Lemma ring_push_front b bs l :
  ring bs l -> (b < NBUF)%nat -> b ∉ l -> ring (push_front b bs) (b :: l).
Proof.
  intros (Hlen & Hnd & Hf & Hn & Hp) Hb Hbl.
  pose proof (head_notin _ Hf) as Hh.
  assert (b <> head) as Hbh by (unfold head; lia).
  assert (b ∉ head :: l) as Hbl' by set_solver.
  assert (NoDup (head :: l)) as Hnd' by (by constructor).
  pose proof (chain_hd _ _ _ _ Hn) as Hy.
  set (y := default head (hd_error l)) in *.
  assert (y < S NBUF)%nat as Hylt by (by apply hd_lt).
  set (bs1 := alter (set_b_prev head) b (alter (set_b_next (nx bs head)) b bs)).
  assert (forall j, nx bs1 j = fupd (nx bs) b (nx bs head) j) as Hn1.
  { intros j. unfold bs1. rewrite nx_alter by done. apply nx_set_next. lia. }
  assert (forall j, pv bs1 j = fupd (pv bs) b head j) as Hp1.
  { intros j. unfold bs1. rewrite pv_set_prev by (rewrite length_alter; lia).
    unfold fupd. case_decide; [done|]. by apply pv_alter. }
  assert (nx bs1 head = y) as Hy1.
  { rewrite Hn1. unfold fupd. by rewrite decide_False. }
  assert (length bs1 = S NBUF) as Hlen1 by (unfold bs1; by rewrite !length_alter).
  split; [by rewrite length_push_front|].
  split; [by constructor|]. split; [by constructor|]. unfold push_front. fold bs1. split.
  - eapply chain_ext; [|apply chain_cons; [done| |exact Hn]; done].
    intros j _. cbv beta zeta.
    rewrite nx_set_next by (rewrite length_alter, Hlen1; unfold head; lia).
    unfold fupd at 3. unfold fupd at 1. case_decide; [done|].
    rewrite nx_alter by done. by rewrite Hn1.
  - assert (rev (b :: l) ++ [head] = rev l ++ [b; head]) as ->
      by (simpl; by rewrite <- app_assoc).
    eapply chain_ext; [|apply (chain_snoc (pv bs) head (rev l) head b)]; cycle 1.
    + constructor; [by rewrite elem_of_rev|by apply NoDup_rev'].
    + intros Hin. apply Hbl'. apply elem_of_cons in Hin as [->|Hin]; [left|right].
      by rewrite elem_of_rev in Hin.
    + done.
    + intros j _. cbv beta zeta. rewrite pv_alter by done.
      rewrite pv_set_prev by (rewrite Hy1, Hlen1; lia).
      rewrite Hy1, last_of_rev. fold y. unfold fupd at 3. unfold fupd at 1.
      case_decide; [done|]. by rewrite Hp1.
Qed.

(** Assignments to the other fields keep the ring. *)
Lemma ring_alter (g : buf -> buf) b bs l :
  (forall x, b_next (g x) = b_next x /\ b_prev (g x) = b_prev x) ->
  ring bs l -> ring (alter g b bs) l.
Proof.
  intros Hg (Hlen & Hnd & Hf & Hn & Hp).
  split; [by rewrite length_alter|]. do 2 (split; [done|]). split.
  - eapply chain_ext; [|exact Hn]. intros j _. symmetry. apply nx_alter. apply Hg.
  - eapply chain_ext; [|exact Hp]. intros j _. symmetry. apply pv_alter. apply Hg.
Qed.

Lemma ring_insert b bf bf' bs l :
  bs !! b = Some bf -> b_next bf' = b_next bf -> b_prev bf' = b_prev bf ->
  ring bs l -> ring (<[b:=bf']> bs) l.
Proof.
  intros Hb Hn Hp (Hlen & Hnd & Hf & Hcn & Hcp).
  pose proof (lookup_lt_Some _ _ _ Hb) as Hlt.
  split; [by rewrite length_insert|]. do 2 (split; [done|]). split.
  - eapply chain_ext; [|exact Hcn]. intros j _. unfold nx. destruct (decide (b = j)) as [<-|].
    + by rewrite list_lookup_insert_eq, Hb.
    + by rewrite list_lookup_insert_ne.
  - eapply chain_ext; [|exact Hcp]. intros j _. unfold pv. destruct (decide (b = j)) as [<-|].
    + by rewrite list_lookup_insert_eq, Hb.
    + by rewrite list_lookup_insert_ne.
Qed.

(** The two scans of [bget] visit the buffers of the ring in its order and in
    the reverse order. *)
Lemma scan_loop (step : buf -> nat) (test : buf -> bool) k e x xs n :
  chain (fun i => step (buf_at k i)) x (xs ++ [head]) ->
  head ∉ xs -> (length xs < n)%nat ->
  loop_fuel n (fun b =>
    if (b =? head)%nat then ret (inr None) else
    bf <- get_buf b ;;
    if test bf then ret (inr (Some b)) else ret (inl (step bf)))
    (step (buf_at k x)) e k =
  Ok (find (fun i => test (buf_at k i)) xs) e k.
Proof.
  revert x n. induction xs as [|y ys IH]; intros x n Hc Hh Hn;
    (destruct n as [|n]; [simpl in *; lia|]); cbn [loop_fuel].
  - destruct Hc as [Hx _]. rewrite Hx. unfold bind. by rewrite Nat.eqb_refl.
  - destruct Hc as [Hx Hc]. rewrite Hx. unfold bind at 1.
    assert ((y =? head)%nat = false) as -> by (apply Nat.eqb_neq; set_solver).
    unfold bind at 1, get_buf, gets. cbn [find].
    destruct (test (buf_at k y)); [done|]. unfold ret at 1.
    apply IH; [done|set_solver|simpl in Hn; lia].
Qed.

Lemma ring_length bs l : ring bs l -> (length l <= NBUF)%nat.
Proof.
  intros (_ & Hnd & Hf & _).
  replace NBUF with (length (seq 0 NBUF)) by apply length_seq.
  apply submseteq_length, NoDup_submseteq; [done|].
  intros x Hx. rewrite Forall_forall in Hf. apply elem_of_seq. specialize (Hf _ Hx).
  simpl in Hf. lia.
Qed.

Lemma scan_next_ok test l e k :
  ring (k_bcache k) l ->
  scan_next test e k = Ok (find (fun i => test (buf_at k i)) l) e k.
Proof.
  intros Hr. pose proof (ring_length _ _ Hr) as Hlen.
  destruct Hr as (_ & _ & Hf & Hn & _).
  unfold scan_next, bind at 1, get_buf at 1, gets.
  apply (scan_loop b_next); [done|by apply head_notin|lia].
Qed.

Lemma scan_prev_ok test l e k :
  ring (k_bcache k) l ->
  scan_prev test e k = Ok (find (fun i => test (buf_at k i)) (rev l)) e k.
Proof.
  intros Hr. pose proof (ring_length _ _ Hr) as Hlen.
  destruct Hr as (_ & _ & Hf & _ & Hp).
  unfold scan_prev, bind at 1, get_buf at 1, gets.
  apply (scan_loop b_prev); [done| |rewrite length_rev; lia].
  rewrite elem_of_rev. by apply head_notin.
Qed.

(** The state after [binit]'s loop body for buffer [b]. *)
Lemma binit_body b e k :
  (h <- get_buf head ;;
   upd_buf b (set_b_next (b_next h)) ;;
   upd_buf b (set_b_prev head) ;;
   upd_buf b (set_b_dev (u32 (-1))) ;;
   h <- get_buf head ;;
   upd_buf (b_next h) (set_b_prev b) ;;
   upd_buf head (set_b_next b)) e k =
  Ok tt e (set_k_bcache
    (alter (set_b_dev (u32 (-1))) b (push_front b (k_bcache k))) k).
Proof.
  rewrite get_buf_eq, !upd_buf_eq, get_buf_eq, upd_buf_eq. unfold upd_buf, modify.
  autorewrite with kset. do 2 f_equal.
  unfold push_front, buf_at. cbn [k_bcache set_k_bcache].
  fold (nx (k_bcache k) head).
  set (bs1 := alter (set_b_prev head) b (alter (set_b_next (nx (k_bcache k) head)) b (k_bcache k))).
  assert (b_next (default buf0 (alter (set_b_dev (u32 (-1))) b bs1 !! head)) = nx bs1 head) as ->
    by (by apply nx_alter).
  by rewrite !(alter_comm (set_b_dev (u32 (-1)))) by done.
Qed.

(** The table after the first [n] iterations. *)
Definition binit_table (n : nat) (bs : list buf) : list buf :=
  foldl (fun t b => alter (set_b_dev (u32 (-1))) b (push_front b t))
    (alter (set_b_next head) head (alter (set_b_prev head) head bs)) (seq 0 n).

Lemma binit_table_S n bs :
  binit_table (S n) bs =
  alter (set_b_dev (u32 (-1))) n (push_front n (binit_table n bs)).
Proof. unfold binit_table. rewrite seq_S, foldl_app. done. Qed.

Lemma binit_loop e l k T :
  for_all l (fun b =>
    h <- get_buf head ;;
    upd_buf b (set_b_next (b_next h)) ;;
    upd_buf b (set_b_prev head) ;;
    upd_buf b (set_b_dev (u32 (-1))) ;;
    h <- get_buf head ;;
    upd_buf (b_next h) (set_b_prev b) ;;
    upd_buf head (set_b_next b)) e (set_k_bcache T k) =
  Ok tt e (set_k_bcache
    (foldl (fun t b => alter (set_b_dev (u32 (-1))) b (push_front b t)) T l) k).
Proof.
  revert T. induction l as [|b l IH]; intros T; [done|]. cbn [for_all foldl].
  rewrite (bind_Ok _ _ _ _ _ _ _ (binit_body b e _)). rewrite set_set_k_bcache. apply IH.
Qed.

Lemma binit_eq e k :
  binit e k = Ok tt e (set_k_bcache (binit_table NBUF (k_bcache k))
    (set_k_locks (<[L_bcache := mkSpinlock 0 "bcache" None]> (k_locks k)) k)).
Proof.
  unfold binit, binit_table. generalize (seq 0 NBUF). intros l.
  set (k0 := set_k_locks (<[L_bcache := mkSpinlock 0 "bcache" None]> (k_locks k)) k).
  rewrite (bind_Ok (initlock L_bcache "bcache") _ e k tt e k0) by done.
  rewrite !upd_buf_eq, !set_set_k_bcache. apply binit_loop.
Qed.

(** [binit] links all the buffers, the last one first. *)
Lemma binit_ring n bs :
  length bs = S NBUF -> (n <= NBUF)%nat -> ring (binit_table n bs) (rev (seq 0 n)).
Proof.
  intros Hlen. induction n as [|n IH]; intros Hn.
  - unfold binit_table. cbn [seq foldl rev app].
    split; [by rewrite !length_alter|]. split; [constructor|]. split; [constructor|].
    assert (head < length bs)%nat as Hh by (rewrite Hlen; unfold head; lia).
    cbn [chain rev app]. split; split; try done.
    + rewrite nx_set_next by (by rewrite length_alter). unfold fupd. by rewrite decide_True.
    + rewrite pv_alter by done. rewrite pv_set_prev by done. unfold fupd. by rewrite decide_True.
  - rewrite binit_table_S, seq_S, rev_app_distr. simpl. apply ring_alter; [done|].
    apply ring_push_front; [by apply IH; lia|lia|].
    rewrite elem_of_rev, elem_of_seq. lia.
Qed.

End Ring.

(** ** [bget] *)

Definition take_busy (bf : buf) : buf := set_b_flags (Z.lor (b_flags bf) B_BUSY) bf.
Definition recycle (dev blockno : Z) (bf : buf) : buf :=
  set_b_flags B_BUSY (set_b_blockno blockno (set_b_dev dev bf)).

Lemma bget_hit l b dev blockno e k :
  Ring.ring (k_bcache k) l -> lock_free L_bcache k -> cpu_ok k ->
  find (fun i => is_block dev blockno (buf_at k i)) l = Some b ->
  has (b_flags (buf_at k b)) B_BUSY = false ->
  bget dev blockno e k = Ok b e (set_k_bcache (alter take_busy b (k_bcache k)) k).
Proof.
  intros Hr Hl Hc Hf Hb. unfold bget. step (acquire_ok L_bcache e k Hl Hc).
  unfold loop_sched. cbn [loop_fuel].
  rewrite (bind_Ok _ _ e (lock_taken L_bcache k) (inr b) e
    (set_k_bcache (alter take_busy b (k_bcache k)) k)); [done|].
  step (Ring.scan_next_ok (is_block dev blockno) l e (lock_taken L_bcache k) Hr).
  change (fun i => is_block dev blockno (buf_at (lock_taken L_bcache k) i))
    with (fun i => is_block dev blockno (buf_at k i)).
  rewrite Hf. rewrite get_buf_eq. change (buf_at (lock_taken L_bcache k) b) with (buf_at k b).
  rewrite Hb. cbn [negb]. rewrite upd_buf_eq. unfold buf_at.
  rewrite (alter_read set_b_flags (fun bf => Z.lor (b_flags bf) B_BUSY)). fold take_busy.
  step (release_ok L_bcache e k); [|done]. reflexivity.
Qed.

Lemma bget_miss l b dev blockno e k :
  Ring.ring (k_bcache k) l -> lock_free L_bcache k -> cpu_ok k ->
  find (fun i => is_block dev blockno (buf_at k i)) l = None ->
  find (fun i => recyclable (buf_at k i)) (rev l) = Some b ->
  bget dev blockno e k =
    Ok b e (set_k_bcache (alter (recycle dev blockno) b (k_bcache k)) k).
Proof.
  intros Hr Hl Hc Hf Hb. unfold bget. step (acquire_ok L_bcache e k Hl Hc).
  unfold loop_sched. cbn [loop_fuel].
  rewrite (bind_Ok _ _ e (lock_taken L_bcache k) (inr b) e
    (set_k_bcache (alter (recycle dev blockno) b (k_bcache k)) k)); [done|].
  step (Ring.scan_next_ok (is_block dev blockno) l e (lock_taken L_bcache k) Hr).
  change (fun i => is_block dev blockno (buf_at (lock_taken L_bcache k) i))
    with (fun i => is_block dev blockno (buf_at k i)).
  rewrite Hf.
  step (Ring.scan_prev_ok recyclable l e (lock_taken L_bcache k) Hr).
  change (fun i => recyclable (buf_at (lock_taken L_bcache k) i))
    with (fun i => recyclable (buf_at k i)).
  rewrite Hb. rewrite !upd_buf_eq. autorewrite with kset. cbn [k_bcache set_k_bcache].
  rewrite !alter_alter.
  step (release_ok L_bcache e k); [|done]. reflexivity.
Qed.

(** ** [brelse] *)

Definition clear_busy (bf : buf) : buf :=
  set_b_flags (Z.land (b_flags bf) (Z.lnot B_BUSY)) bf.

Lemma brelse_eq b e k :
  has (b_flags (buf_at k b)) B_BUSY = true ->
  lock_free L_bcache k -> lock_free L_ptable k -> cpu_ok k ->
  length (k_ptable k) = NPROC ->
  brelse b e k =
    Ok tt e (set_k_ptable (wake (Ch_buf b) <$> k_ptable k)
      (set_k_bcache (alter clear_busy b (Ring.push_front b (Ring.unlink b (k_bcache k)))) k)).
Proof.
  intros Hbusy Hl Hlp Hc Hn. unfold brelse. rewrite get_buf_eq, Hbusy. cbn [negb].
  step (acquire_ok L_bcache e k Hl Hc).
  set (k1 := lock_taken L_bcache k).
  rewrite get_buf_eq, upd_buf_eq, get_buf_eq, upd_buf_eq, get_buf_eq, !upd_buf_eq,
    get_buf_eq, !upd_buf_eq, get_buf_eq, upd_buf_eq.
  autorewrite with kset. unfold buf_at. cbn [k_bcache set_k_bcache].
  rewrite (alter_read set_b_flags (fun bf => Z.land (b_flags bf) (Z.lnot B_BUSY))).
  fold (Ring.unlink b (k_bcache k1)). fold clear_busy.
  change (k_bcache k1) with (k_bcache k).
  fold (Ring.push_front b (Ring.unlink b (k_bcache k))).
  set (bs := alter clear_busy b _).
  step (wakeup_ok (Ch_buf b) e (set_k_bcache bs k1));
    [|done|by apply lock_free_other|by apply lock_taken_cpu_ok].
  rewrite (release_ok L_bcache e k); [|done]. reflexivity.
Qed.

End Bio.
