(* ===== verification/Cache.v ===== *)
(** The contract of the buffer cache, and the proof that bio.c keeps it.

    A client sees three things: the contents [V] of the blocks as a read
    returns them, the set [D] of the blocks that are newer in the cache than on
    the disk (pinned by [B_DIRTY]), and the buffers [B] it holds.  [brep]
    relates them to the table of buffers and to the disk; the theorems say what
    [bread], [bwrite] and [brelse] do to the three. *)

From S2P Require Import Prelude Bytes Machine Spinlock Sleep Disk Bio.
Import Spinlock Sleep Bio.

Module Cache.

(** ** The relation *)

(** What a buffer of the table stands for. *)
Definition buf_rep (V : gmap Z (list Z)) (D : gset Z) (B : gmap Z nat)
    (i : nat) (bf : buf) : Prop :=
  length (b_data bf) = 512%nat /\
  (b_dev bf = 1 /\
   has (b_flags bf) B_VALID = true /\
   V !! b_blockno bf = Some (b_data bf) /\
   (has (b_flags bf) B_BUSY = true <-> B !! b_blockno bf = Some i) /\
   (has (b_flags bf) B_DIRTY = true <-> b_blockno bf ∈ D)
   \/ b_dev bf = u32 (-1) /\ has (b_flags bf) B_BUSY = false /\
      has (b_flags bf) B_DIRTY = false).

(** Buffer [i] caches block [bno]. *)
Definition caches (T : list buf) (i : nat) (bno : Z) : Prop :=
  (i < NBUF)%nat /\ exists bf, T !! i = Some bf /\ b_dev bf = 1 /\ b_blockno bf = bno.

Record table_rep (T : list buf) (V : gmap Z (list Z)) (D : gset Z) (B : gmap Z nat)
    (disk : gmap (Z * Z) (list Z)) (size : Z) : Prop := {
  tr_len : length T = S NBUF;
  tr_buf i bf : (i < NBUF)%nat -> T !! i = Some bf -> buf_rep V D B i bf;
  tr_uniq i j bno : caches T i bno -> caches T j bno -> i = j;
  tr_busy bno i : B !! bno = Some i -> caches T i bno;
  tr_dirty bno : bno ∈ D -> exists i, caches T i bno;
  tr_dom bno : is_Some (V !! bno) <-> 0 <= bno < size;
  tr_clean bno d : V !! bno = Some d -> bno ∉ D -> B !! bno = None ->
    disk !! (1, bno) = Some d;
  tr_len_V bno d : V !! bno = Some d -> length d = 512%nat;
  tr_disk bno : 0 <= bno < size ->
    exists d, disk !! (1, bno) = Some d /\ length d = 512%nat
}.

Section driver.
Context `{DiskDriver}.

(** The locks [bio.c] takes are free, the driver works. *)
Definition benv (k : kernel) : Prop :=
  lock_free L_bcache k /\ lock_free L_ptable k /\ cpu_ok k /\
  length (k_ptable k) = NPROC /\ drv_ok k.

Definition brep (k : kernel) (V : gmap Z (list Z)) (D : gset Z) (B : gmap Z nat) : Prop :=
  benv k /\
  (exists l, Ring.ring (k_bcache k) l /\ l ≡ₚ seq 0 NBUF) /\
  table_rep (k_bcache k) V D B (k_disk k) (k_disksize k).

(** What the buffer cache may change of the kernel's state. *)
Definition bframe (k k' : kernel) : Prop :=
  exists bc dk ws ide pt,
    woken (k_ptable k) pt /\
    k' = set_k_bcache bc (set_k_disk dk (set_k_writes ws
           (set_k_ide ide (set_k_ptable pt k)))).

#[export] Instance bframe_preorder : PreOrder bframe.
Proof.
  split.
  - intros k. exists (k_bcache k), (k_disk k), (k_writes k), (k_ide k), (k_ptable k).
    split; [done|]. by destruct k.
  - intros k1 k2 k3 (bc & dk & ws & ide & pt & Hw & ->) (bc' & dk' & ws' & ide' & pt' & Hw' & ->).
    exists bc', dk', ws', ide', pt'. split; [|done]. simpl in Hw'. by transitivity pt.
Qed.

(** The locks of the cache and its driver. *)
Definition same_locks (k k' : kernel) : Prop :=
  forall l, l = L_bcache \/ l = L_ptable \/ l = L_ide -> k_locks k' !! l = k_locks k !! l.

Lemma benv_frame k k' :
  benv k -> drv_ok k' -> same_locks k k' -> k_cpu k' = k_cpu k ->
  woken (k_ptable k) (k_ptable k') -> benv k'.
Proof.
  intros (H1 & H2 & H3 & H4 & _) Hd Hl Hc Hw. unfold benv, lock_free, cpu_ok.
  rewrite Hc, (woken_length _ _ Hw), !Hl by auto. done.
Qed.

(** The relation only looks at the cache, the disk and the environment. *)
Lemma brep_ext k k' V D B :
  brep k V D B -> k_bcache k' = k_bcache k -> k_disk k' = k_disk k ->
  k_disksize k' = k_disksize k -> k_ide k' = k_ide k -> same_locks k k' ->
  k_cpu k' = k_cpu k -> woken (k_ptable k) (k_ptable k') -> brep k' V D B.
Proof.
  intros (He & Hr & Ht) Hbc Hdk Hs Hi Hl Hc Hp. split; [|by rewrite Hbc, Hdk, Hs].
  eapply benv_frame; [done| |done..]. destruct He as (_ & _ & _ & _ & Hd).
  eapply drv_ok_frame; eauto; apply Hl; auto.
Qed.

End driver.

(** ** Tables *)

(** Everything of a buffer but the links of the ring and of the disk queue. *)
Definition content (bf : buf) : Z * Z * Z * list Z :=
  (b_flags bf, b_dev bf, b_blockno bf, b_data bf).

Definition same_content (T T' : list buf) : Prop :=
  length T = length T' /\
  forall i, (i < NBUF)%nat -> content <$> T !! i = content <$> T' !! i.

#[export] Instance same_content_equiv : Equivalence same_content.
Proof.
  split.
  - done.
  - intros T T' [H1 H2]. split; [done|]. intros i Hi. by rewrite H2.
  - intros T1 T2 T3 [H1 H2] [H3 H4]. split; [congruence|].
    intros i Hi. by rewrite H2, H4.
Qed.

Lemma same_content_alter (g : buf -> buf) i T :
  (forall bf, content (g bf) = content bf) -> same_content (alter g i T) T.
Proof.
  intros Hg. split; [apply length_alter|]. intros j _.
  destruct (decide (i = j)) as [<-|Hj].
  - rewrite list_lookup_alter_eq. destruct (T !! i); simpl; [by rewrite Hg|done].
  - by rewrite list_lookup_alter_ne.
Qed.

#[export] Instance alter_content_proper g i :
  (forall bf bf', content bf = content bf' -> content (g bf) = content (g bf')) ->
  Proper (same_content ==> same_content) (alter g i).
Proof.
  intros Hg T T' [H1 H2]. split; [by rewrite !length_alter|]. intros j Hj.
  destruct (decide (i = j)) as [<-|Hne].
  - rewrite !list_lookup_alter_eq. specialize (H2 i Hj).
    destruct (T !! i), (T' !! i); simpl in *; try done.
    f_equal. apply Hg. congruence.
  - rewrite !list_lookup_alter_ne by done. by apply H2.
Qed.

Lemma same_content_links b T :
  same_content (Ring.push_front b (Ring.unlink b T)) T.
Proof.
  unfold Ring.push_front, Ring.unlink. cbv zeta.
  repeat (rewrite same_content_alter by done). done.
Qed.

Lemma content_eq bf bf' :
  content bf = content bf' ->
  b_flags bf = b_flags bf' /\ b_dev bf = b_dev bf' /\ b_blockno bf = b_blockno bf' /\
  b_data bf = b_data bf'.
Proof. unfold content. naive_solver. Qed.

Lemma same_content_lookup T T' i bf :
  same_content T T' -> (i < NBUF)%nat -> T' !! i = Some bf ->
  exists bf', T !! i = Some bf' /\ content bf' = content bf.
Proof.
  intros [_ H] Hi Hb. specialize (H i Hi). rewrite Hb in H. simpl in H.
  destruct (T !! i) as [bf'|]; simpl in *; [|done].
  exists bf'. split; [done|congruence].
Qed.

Lemma caches_content T T' i bno : same_content T T' -> caches T i bno -> caches T' i bno.
Proof.
  intros HT [Hi (bf & Hb & Hdev & Hbno)]. split; [done|].
  destruct (same_content_lookup T' T i bf (symmetry HT) Hi Hb) as (bf' & Hb' & Hc).
  apply content_eq in Hc as (_ & H1 & H2 & _). exists bf'. split; [done|]. by rewrite H1, H2.
Qed.

Lemma buf_rep_content V D B i bf bf' :
  content bf' = content bf -> buf_rep V D B i bf -> buf_rep V D B i bf'.
Proof.
  intros Hc. apply content_eq in Hc as (H1 & H2 & H3 & H4).
  unfold buf_rep. by rewrite H1, H2, H3, H4.
Qed.

Lemma table_rep_content T T' V D B disk size :
  same_content T T' -> table_rep T V D B disk size -> table_rep T' V D B disk size.
Proof.
  intros HT [H1 H2 H3 H4 H5 H6 H7 H8 H9]. pose proof (symmetry HT) as HT'. constructor; try done.
  - destruct HT. congruence.
  - intros i bf Hi Hb. destruct (same_content_lookup _ _ _ _ HT Hi Hb) as (bf' & Hb' & Hc).
    eapply buf_rep_content; [symmetry; exact Hc|]. by apply H2.
  - intros i j bno Hi Hj. eapply H3; by eapply caches_content.
  - intros bno i HB. eapply caches_content; [done|]. by apply H4.
  - intros bno HD. destruct (H5 bno HD) as [i Hi]. exists i. by eapply caches_content.
Qed.

Lemma caches_insert T i bf bf' j bno :
  T !! i = Some bf -> b_dev bf' = b_dev bf -> b_blockno bf' = b_blockno bf ->
  caches (<[i:=bf']> T) j bno <-> caches T j bno.
Proof.
  intros Hb Hd Hn. unfold caches. destruct (decide (i = j)) as [<-|Hj].
  - rewrite list_lookup_insert_eq by (by eapply lookup_lt_Some). rewrite Hb.
    split; intros [Hi (x & [= <-] & H1 & H2)]; (split; [done|]);
      eexists; (split; [reflexivity|]); by rewrite <- ?Hd, <- ?Hn, ?H1, ?H2 in *.
  - by rewrite list_lookup_insert_ne.
Qed.

(** A change of the buffer that caches block [bno], which changes what is said
    of this block only. *)
Lemma table_rep_entry T V D B disk size i bf bf' bno V' D' B' disk' :
  table_rep T V D B disk size ->
  (i < NBUF)%nat -> T !! i = Some bf -> b_dev bf = 1 -> b_blockno bf = bno ->
  b_dev bf' = 1 -> b_blockno bf' = bno ->
  buf_rep V' D' B' i bf' ->
  (forall c, c <> bno -> V' !! c = V !! c /\ (c ∈ D' <-> c ∈ D) /\ B' !! c = B !! c /\
     disk' !! (1, c) = disk !! (1, c)) ->
  (B' !! bno = None \/ B' !! bno = Some i) ->
  (bno ∉ D' -> B' !! bno = None -> disk' !! (1, bno) = V' !! bno) ->
  (exists d, disk' !! (1, bno) = Some d /\ length d = 512%nat) ->
  table_rep (<[i:=bf']> T) V' D' B' disk' size.
Proof.
  intros [H1 H2 H3 H4 H5 H6 H7 H8 H9] Hi Hb Hdev Hbno Hdev' Hbno' Hrep Hoff HB Hclean Hdisk.
  assert (caches T i bno) as Hci by (split; [done|]; by exists bf).
  pose proof (H2 i bf Hi Hb) as [Hlen _].
  assert (forall j c, caches (<[i:=bf']> T) j c <-> caches T j c) as Hca.
  { intros j c. apply (caches_insert _ _ bf); congruence. }
  assert (V' !! bno = Some (b_data bf') /\ length (b_data bf') = 512%nat) as [HV' Hlen'].
  { destruct Hrep as [? [(_ & _ & HV' & _)|(Hx & _)]]; [by rewrite <- Hbno'|].
    rewrite Hdev' in Hx. done. }
  assert (is_Some (V !! bno)) as HVb.
  { pose proof (H2 i bf Hi Hb) as [_ [(_ & _ & Hv & _)|(Hx & _)]];
      [rewrite <- Hbno; eauto|rewrite Hdev in Hx; done]. }
  constructor.
  - by rewrite length_insert.
  - intros j bj Hj Hbj. destruct (decide (i = j)) as [<-|Hne].
    { rewrite list_lookup_insert_eq in Hbj by (by eapply lookup_lt_Some). by simplify_eq. }
    rewrite list_lookup_insert_ne in Hbj by done.
    destruct (H2 j bj Hj Hbj) as [Hl [(Hd & Hv & HV & HBj & HDj)|Hx]]; [|by split; [|right]].
    split; [done|left]. destruct (decide (b_blockno bj = bno)) as [He|Hne'].
    { exfalso. apply Hne, (H3 i j bno); [done|]. split; [done|]. by exists bj. }
    destruct (Hoff _ Hne') as (-> & -> & -> & _). done.
  - intros j j' c. rewrite !Hca. apply H3.
  - intros c j Hc. rewrite Hca. destruct (decide (c = bno)) as [->|Hne].
    { destruct HB as [HB|HB]; congruence. }
    apply H4. by rewrite <- (proj1 (proj2 (proj2 (Hoff c Hne)))).
  - intros c Hc. destruct (decide (c = bno)) as [->|Hne]; [exists i; by apply Hca|].
    apply Hoff in Hc; [|done]. destruct (H5 c Hc) as [j Hj]. exists j. by apply Hca.
  - intros c. rewrite <- H6. destruct (decide (c = bno)) as [->|Hne].
    { rewrite HV'. naive_solver. }
    by rewrite (proj1 (Hoff c Hne)).
  - intros c d HVc HDc HBc. destruct (decide (c = bno)) as [->|Hne].
    { rewrite Hclean by done. done. }
    destruct (Hoff _ Hne) as (E1 & E2 & E3 & ->). rewrite E1, E2, E3 in *. by apply H7.
  - intros c d HVc. destruct (decide (c = bno)) as [->|Hne]; [congruence|].
    rewrite (proj1 (Hoff c Hne)) in HVc. by eapply H8.
  - intros c Hc. destruct (decide (c = bno)) as [->|Hne]; [done|].
    destruct (Hoff _ Hne) as (_ & _ & _ & ->). by apply H9.
Qed.

(** A buffer that is neither busy nor dirty is taken for another block. *)
Lemma table_rep_recycle T V D B disk size i bf bf' bno d :
  table_rep T V D B disk size ->
  (i < NBUF)%nat -> T !! i = Some bf -> recyclable bf = true ->
  (forall j, ~ caches T j bno) -> 0 <= bno < size -> disk !! (1, bno) = Some d ->
  b_dev bf' = 1 -> b_blockno bf' = bno -> b_data bf' = d ->
  has (b_flags bf') B_VALID = true -> has (b_flags bf') B_BUSY = true ->
  has (b_flags bf') B_DIRTY = false ->
  table_rep (<[i:=bf']> T) V D (<[bno:=i]> B) disk size /\ V !! bno = Some d.
Proof.
  intros [H1 H2 H3 H4 H5 H6 H7 H8 H9] Hi Hb Hrec Hnc Hbno Hd Hdev' Hbno' Hdata' Hv' Hb' Hd'.
  unfold recyclable in Hrec. bool_to_prop.
  assert (bno ∉ D) as HnD by (intros HD; destruct (H5 _ HD) as [j Hj]; by eapply Hnc).
  assert (B !! bno = None) as HnB.
  { destruct (B !! bno) as [j|] eqn:E; [|done]. destruct (Hnc j). by apply H4. }
  assert (V !! bno = Some d) as HV.
  { apply H6 in Hbno as [d' HV]. rewrite HV. f_equal. apply (H7 bno) in HV; [congruence|done|done]. }
  pose proof (lookup_lt_Some _ _ _ Hb) as Hlt.
  assert (forall j c, caches (<[i:=bf']> T) j c <-> j = i /\ c = bno \/ j <> i /\ caches T j c) as Hca.
  { intros j c. unfold caches. destruct (decide (i = j)) as [<-|Hj].
    - rewrite list_lookup_insert_eq by done. naive_solver.
    - rewrite list_lookup_insert_ne by done. naive_solver. }
  assert (forall c, caches T i c -> c ∉ D /\ B !! c <> Some i) as Hold.
  { intros c (_ & x & Hx & Hxd & Hxc). simplify_eq.
    destruct (H2 i bf Hi Hb) as [_ [(_ & _ & _ & HB & HD)|(Hx & _)]].
    - rewrite <- HD, <- HB. split; congruence.
    - rewrite Hxd in Hx. done. }
  split; [|done]. constructor; try done.
  - by rewrite length_insert.
  - intros j bj Hj Hbj. destruct (decide (i = j)) as [<-|Hne].
    + rewrite list_lookup_insert_eq in Hbj by done. simplify_eq.
      split; [by eapply H8|left]. rewrite lookup_insert_eq.
      split_and!; try done. rewrite Hd'. done.
    + rewrite list_lookup_insert_ne in Hbj by done.
      destruct (H2 j bj Hj Hbj) as [Hl [(Hd1 & Hv & HV1 & HBj & HDj)|Hx]]; [|by split; [|right]].
      split; [done|left]. rewrite lookup_insert_ne; [done|].
      intros Heq. apply (Hnc j). split; [done|]. exists bj. by rewrite Heq.
  - intros j j' c. rewrite !Hca. intros [[-> ->]|[Hj Hc]] [[-> Hc']|[Hj' Hc']]; try done.
    + by destruct (Hnc j').
    + subst c. by destruct (Hnc j).
    + by eapply H3.
  - intros c j Hc. rewrite Hca. destruct (decide (c = bno)) as [->|Hne].
    + rewrite lookup_insert_eq in Hc. simplify_eq. by left.
    + rewrite lookup_insert_ne in Hc by done. right. pose proof (H4 _ _ Hc) as Hcj.
      split; [|done]. intros ->. by destruct (Hold c Hcj).
  - intros c Hc. destruct (H5 c Hc) as [j Hj]. exists j. rewrite Hca. right.
    split; [|done]. intros ->. by destruct (Hold c Hj).
  - intros c d' HVc HDc HBc. apply H7; [done|done|].
    destruct (decide (c = bno)) as [->|Hne]; [done|]. by rewrite lookup_insert_ne in HBc.
Qed.

(** There is a buffer to recycle as long as the blocks that are dirty or held
    do not take all the buffers. *)
Lemma recyclable_exists T V D B disk sz :
  table_rep T V D B disk sz -> (size (D ∪ dom B) < NBUF)%nat ->
  exists i bf, (i < NBUF)%nat /\ T !! i = Some bf /\ recyclable bf = true.
Proof.
  intros HT Hsz.
  destruct (decide (Exists (fun i => recyclable (default buf0 (T !! i)) = true) (seq 0 NBUF)))
    as [Hex|Hno].
  - apply Exists_exists in Hex as (i & Hi & Hr). apply elem_of_seq in Hi.
    assert (is_Some (T !! i)) as [bf Hb].
    { apply lookup_lt_is_Some. rewrite (tr_len _ _ _ _ _ _ HT). lia. }
    exists i, bf. rewrite Hb in Hr. split; [lia|done].
  - exfalso. set (f := fun i => b_blockno (default buf0 (T !! i))).
    assert (forall i, (i < NBUF)%nat -> caches T i (f i) /\ f i ∈ D ∪ dom B) as Hf.
    { intros i Hi. assert (is_Some (T !! i)) as [bf Hb].
      { apply lookup_lt_is_Some. rewrite (tr_len _ _ _ _ _ _ HT). lia. }
      assert (recyclable bf = false) as Hr.
      { apply not_true_is_false. intros Hr. apply Hno, Exists_exists. exists i.
        rewrite elem_of_seq, Hb. split; [lia|done]. }
      unfold recyclable in Hr. apply andb_false_iff in Hr. rewrite !negb_false_iff in Hr.
      destruct (tr_buf _ _ _ _ _ _ HT i bf Hi Hb) as [_ [(Hd & _ & _ & HB & HD)|(_ & H1 & H2)]].
      - unfold f. rewrite Hb. simpl. split; [split; [done|]; by exists bf|].
        apply elem_of_union. destruct Hr as [Hr|Hr]; [right|left; tauto].
        apply elem_of_dom. rewrite (proj1 HB Hr). done.
      - destruct Hr; congruence. }
    assert (NoDup (f <$> seq 0 NBUF)) as Hnd.
    { apply NoDup_fmap_2_strong; [|apply NoDup_seq]. intros i j Hi Hj Heq.
      apply elem_of_seq in Hi, Hj. destruct (Hf i ltac:(lia)) as [Hc _], (Hf j ltac:(lia)) as [Hc' _].
      rewrite <- Heq in Hc'. by eapply (tr_uniq _ _ _ _ _ _ HT). }
    assert (list_to_set (f <$> seq 0 NBUF) ⊆ D ∪ dom B) as Hsub.
    { intros c Hc. apply elem_of_list_to_set, list_elem_of_fmap in Hc as (i & -> & Hi).
      apply elem_of_seq in Hi. apply Hf. lia. }
    apply subseteq_size in Hsub. rewrite size_list_to_set in Hsub by done.
    rewrite length_fmap, length_seq in Hsub. lia.
Qed.

(** ** The operations *)

Section operations.
Context `{DiskDriver}.

(** A held buffer has the contents of its block. *)
Lemma brep_held k V D B bno b :
  brep k V D B -> B !! bno = Some b ->
  exists bf, k_bcache k !! b = Some bf /\ (b < NBUF)%nat /\
    b_dev bf = 1 /\ b_blockno bf = bno /\ V !! bno = Some (b_data bf) /\
    has (b_flags bf) B_VALID = true /\ has (b_flags bf) B_BUSY = true /\
    (has (b_flags bf) B_DIRTY = true <-> bno ∈ D) /\ length (b_data bf) = 512%nat.
Proof.
  intros (_ & _ & HT) HB. destruct (tr_busy _ _ _ _ _ _ HT _ _ HB) as (Hb & bf & Hbf & Hd & Hn).
  exists bf. destruct (tr_buf _ _ _ _ _ _ HT _ _ Hb Hbf) as [Hl [(_ & Hv & HV & HBu & HD)|(Hx & _)]].
  - rewrite Hn in *. by rewrite HBu.
  - rewrite Hd in Hx. done.
Qed.

Lemma find_perm_None (f : nat -> bool) l n i :
  l ≡ₚ seq 0 n -> find f l = None -> (i < n)%nat -> f i = false.
Proof.
  intros Hp Hf Hi. apply (find_none f l Hf). apply list_elem_of_In.
  rewrite Hp. apply elem_of_seq. lia.
Qed.

Lemma find_perm_Some (f : nat -> bool) l n i :
  l ≡ₚ seq 0 n -> find f l = Some i -> (i < n)%nat /\ f i = true.
Proof.
  intros Hp Hf. apply find_some in Hf as [Hin Hfi]. apply list_elem_of_In in Hin.
  rewrite Hp in Hin. apply elem_of_seq in Hin. split; [lia|done].
Qed.

Lemma brep_bcache k T V D B :
  brep k V D B -> (exists l, Ring.ring T l /\ l ≡ₚ seq 0 NBUF) ->
  forall V' D' B', table_rep T V' D' B' (k_disk k) (k_disksize k) ->
  brep (set_k_bcache T k) V' D' B'.
Proof.
  intros (He & _ & _) Hr V' D' B' HT. split; [|done].
  destruct He as (? & ? & ? & ? & Hd). repeat (split; [done|]). by eapply drv_ok_frame.
Qed.

Lemma bframe_bcache T k : bframe k (set_k_bcache T k).
Proof.
  exists T, (k_disk k), (k_writes k), (k_ide k), (k_ptable k). split; [done|].
  by destruct k.
Qed.

(** [bget] finds the block in the cache. *)
Lemma bread_hit k V D B bno b l e :
  brep k V D B -> B !! bno = None ->
  Ring.ring (k_bcache k) l -> l ≡ₚ seq 0 NBUF ->
  find (fun i => is_block 1 bno (buf_at k i)) l = Some b ->
  bread 1 bno e k = Ok b e (set_k_bcache (alter take_busy b (k_bcache k)) k) /\
  brep (set_k_bcache (alter take_busy b (k_bcache k)) k) V D (<[bno:=b]> B).
Proof.
  intros Hrep HB Hr Hp Hfind. pose proof Hrep as ((Hl & Hlp & Hc & Hn & Hdrv) & _ & HT).
  destruct (find_perm_Some _ _ _ _ Hp Hfind) as [Hb Hblk].
  unfold is_block in Hblk. bool_to_prop.
  assert (is_Some (k_bcache k !! b)) as [bf Hbf].
  { apply lookup_lt_is_Some. rewrite (tr_len _ _ _ _ _ _ HT). lia. }
  rewrite (buf_at_lookup _ _ _ Hbf) in *.
  destruct (tr_buf _ _ _ _ _ _ HT _ _ Hb Hbf) as [Hlen [(Hd & Hv & HV & HBu & HD)|(Hx & _)]];
    [|by rewrite Hx in *].
  assert (has (b_flags bf) B_BUSY = false) as Hnb.
  { apply not_true_is_false. rewrite HBu. congruence. }
  split.
  - unfold bread. step (bget_hit l b 1 bno e k); try done; [|by rewrite (buf_at_lookup _ _ _ Hbf)].
    rewrite get_buf_eq. unfold buf_at. cbn [k_bcache set_k_bcache].
    rewrite list_lookup_alter_eq, Hbf. cbn. flag_simp. by rewrite Hv.
  - apply (brep_bcache _ _ _ _ _ Hrep).
    + exists l. split; [by apply Ring.ring_alter|done].
    + rewrite (alter_as_insert _ _ _ _ Hbf).
      apply (table_rep_entry _ V D B (k_disk k) _ b bf _ bno); try done.
      * split; [done|left]. cbn. flag_simp. subst bno. rewrite lookup_insert_eq.
        rewrite Hv. by rewrite HD.
      * intros c Hc'. by rewrite lookup_insert_ne.
      * rewrite lookup_insert_eq. by right.
      * by rewrite lookup_insert_eq.
      * apply (tr_disk _ _ _ _ _ _ HT). apply (tr_dom _ _ _ _ _ _ HT). subst bno. eauto.
Qed.

(** What the driver did, seen from the cache. *)
Lemma brep_driver k V D B ide pt T dk ws :
  brep k V D B -> woken (k_ptable k) pt ->
  forall k', k' = set_k_ide ide (set_k_ptable pt (set_k_bcache T (set_k_disk dk (set_k_writes ws k)))) ->
  drv_ok k' ->
  (exists l, Ring.ring T l /\ l ≡ₚ seq 0 NBUF) ->
  forall V' D' B', table_rep T V' D' B' dk (k_disksize k) ->
  brep k' V' D' B' /\ bframe k k'.
Proof.
  intros (He & _ & _) Hw k' -> Hd Hr V' D' B' HT. split.
  - split; [|done]. by eapply benv_frame.
  - by exists T, dk, ws, ide, pt.
Qed.

(** [bget] recycles a buffer, and the driver reads the block. *)
Lemma bread_miss k V D B bno l e :
  brep k V D B -> 0 <= bno < k_disksize k -> (size (D ∪ dom B) < NBUF)%nat ->
  Ring.ring (k_bcache k) l -> l ≡ₚ seq 0 NBUF ->
  find (fun i => is_block 1 bno (buf_at k i)) l = None ->
  exists b k', bread 1 bno e k = Ok b e k' /\ bframe k k' /\
    brep k' V D (<[bno:=b]> B) /\ k_disk k' = k_disk k /\ k_writes k' = k_writes k.
Proof.
  intros Hrep Hbno Hsz Hr Hp Hfind. pose proof Hrep as ((Hl & Hlp & Hc & Hn & Hdrv) & _ & HT).
  pose proof (tr_len _ _ _ _ _ _ HT) as Hlen.
  destruct (find (fun i => recyclable (buf_at k i)) (rev l)) as [b|] eqn:Hrc; last first.
  { destruct (recyclable_exists _ _ _ _ _ _ HT Hsz) as (i & bf & Hi & Hb & Hrec).
    assert (rev l ≡ₚ seq 0 NBUF) as Hp' by (by rewrite <- Hp, <- Permutation_rev).
    pose proof (find_perm_None _ _ _ i Hp' Hrc Hi) as Hx. simpl in Hx.
    rewrite (buf_at_lookup _ _ _ Hb) in Hx. congruence. }
  assert (rev l ≡ₚ seq 0 NBUF) as Hp' by (by rewrite <- Hp, <- Permutation_rev).
  destruct (find_perm_Some _ _ _ _ Hp' Hrc) as [Hb Hrec].
  assert (is_Some (k_bcache k !! b)) as [bf Hbf] by (apply lookup_lt_is_Some; lia).
  rewrite (buf_at_lookup _ _ _ Hbf) in Hrec.
  assert (forall j, ~ caches (k_bcache k) j bno) as Hnc.
  { intros j (Hj & bj & Hbj & Hd1 & Hn1).
    pose proof (find_perm_None _ _ _ j Hp Hfind Hj) as Hx. simpl in Hx.
    rewrite (buf_at_lookup _ _ _ Hbj) in Hx. unfold is_block in Hx.
    rewrite Hd1, Hn1, !Z.eqb_refl in Hx. done. }
  destruct (tr_disk _ _ _ _ _ _ HT _ Hbno) as (d & Hd & Hdl).
  set (k1 := set_k_bcache (alter (recycle 1 bno) b (k_bcache k)) k).
  set (bf1 := recycle 1 bno bf).
  assert (k_bcache k1 !! b = Some bf1) as Hbf1.
  { unfold k1. simpl. by rewrite list_lookup_alter_eq, Hbf. }
  assert (drv_ok k1) as Hdrv1 by (by eapply drv_ok_frame).
  destruct (tr_buf _ _ _ _ _ _ HT _ _ Hb Hbf) as [Hlb _].
  destruct (iderw_ok b e k1) as (ide & pt & Hw & Hrw & Hdrv2); [done| |].
  { exists bf1. split_and!; try done; try (cbn; lia); [by left|].
    intros c Hc'. by apply (tr_disk _ _ _ _ _ _ HT). }
  set (bf2 := set_b_flags (Z.lor B_BUSY B_VALID) (set_b_data d bf1)).
  assert (rw_effect b k1 = set_k_bcache (<[b:=bf2]> (k_bcache k)) k) as Heff.
  { unfold rw_effect. rewrite (buf_at_lookup _ _ _ Hbf1).
    change (has (b_flags bf1) B_DIRTY) with false. cbn iota.
    unfold disk_block. change (k_disk k1) with (k_disk k). cbn. rewrite Hd.
    rewrite (alter_as_insert _ _ _ _ Hbf), list_insert_insert_eq. reflexivity. }
  rewrite Heff in *.
  destruct (table_rep_recycle _ _ _ _ _ _ b bf bf2 bno d HT) as [HT' _]; try done.
  destruct (brep_driver k V D B ide pt (<[b:=bf2]> (k_bcache k)) (k_disk k) (k_writes k) Hrep Hw
    _ eq_refl) with (V' := V) (D' := D) (B' := <[bno:=b]> B) as [Hrep' Hfr'].
  { exact Hdrv2. }
  { exists l. split; [|done]. by eapply Ring.ring_insert. }
  { done. }
  exists b. eexists. split_and!; [|exact Hfr'|exact Hrep'|done|done].
  unfold bread. step (bget_miss l b 1 bno e k); try done. fold k1.
  rewrite get_buf_eq, (buf_at_lookup _ _ _ Hbf1).
  change (has (b_flags bf1) B_VALID) with false. cbn [negb when].
  step Hrw. reflexivity.
Qed.

(** [bread] of a block that is not held returns a buffer with the block's
    current contents, and changes neither the contents of any block nor the
    disk.  It needs a buffer that can be recycled, unless the block is dirty
    and therefore in the cache. *)
Lemma bread_ok k V D B bno e :
  brep k V D B -> B !! bno = None -> 0 <= bno < k_disksize k ->
  (bno ∈ D \/ (size (D ∪ dom B) < NBUF)%nat) ->
  exists b k', bread 1 bno e k = Ok b e k' /\ bframe k k' /\
    brep k' V D (<[bno:=b]> B) /\ k_disk k' = k_disk k /\ k_writes k' = k_writes k.
Proof.
  intros Hrep HB Hbno Hsz. pose proof Hrep as (_ & (l & Hr & Hp) & HT).
  destruct (find (fun i => is_block 1 bno (buf_at k i)) l) as [b|] eqn:Hf.
  - destruct (bread_hit k V D B bno b l e Hrep HB Hr Hp Hf) as [H1 H2].
    exists b. eexists. split; [exact H1|]. split; [apply bframe_bcache|done].
  - destruct Hsz as [HD|Hsz]; [|by eapply bread_miss].
    destruct (tr_dirty _ _ _ _ _ _ HT _ HD) as (i & Hi & bf & Hb & Hd & Hn).
    pose proof (find_perm_None _ _ _ i Hp Hf Hi) as Hx. simpl in Hx.
    rewrite (buf_at_lookup _ _ _ Hb) in Hx. unfold is_block in Hx.
    rewrite Hd, Hn, !Z.eqb_refl in Hx. done.
Qed.

(** The client changes the data of a buffer it holds. *)
Lemma brep_set_data k V D B bno b d :
  brep k V D B -> B !! bno = Some b -> length d = 512%nat ->
  brep (set_k_bcache (alter (set_b_data d) b (k_bcache k)) k) (<[bno:=d]> V) D B.
Proof.
  intros Hrep HB Hlen. pose proof Hrep as (_ & (l & Hr & Hp) & HT).
  destruct (brep_held _ _ _ _ _ _ Hrep HB) as (bf & Hbf & Hb & Hd & Hn & HV & Hv & Hbu & HD & Hl).
  apply (brep_bcache _ _ _ _ _ Hrep); [exists l; split; [by apply Ring.ring_alter|done]|].
  rewrite (alter_as_insert _ _ _ _ Hbf).
  apply (table_rep_entry _ V D B (k_disk k) _ b bf _ bno); try done.
  - split; [done|left]. cbn. subst bno. rewrite lookup_insert_eq. by rewrite Hv, Hbu, HB, HD.
  - intros c Hc. by rewrite lookup_insert_ne.
  - by right.
  - congruence.
  - apply (tr_disk _ _ _ _ _ _ HT). apply (tr_dom _ _ _ _ _ _ HT). eauto.
Qed.

(** The client marks a buffer it holds as dirty ([log_write]). *)
Lemma brep_set_dirty k V D B bno b :
  brep k V D B -> B !! bno = Some b ->
  brep (set_k_bcache (alter (fun bf => set_b_flags (Z.lor (b_flags bf) B_DIRTY) bf) b
    (k_bcache k)) k) V ({[bno]} ∪ D) B.
Proof.
  intros Hrep HB. pose proof Hrep as (_ & (l & Hr & Hp) & HT).
  destruct (brep_held _ _ _ _ _ _ Hrep HB) as (bf & Hbf & Hb & Hd & Hn & HV & Hv & Hbu & HD & Hl).
  apply (brep_bcache _ _ _ _ _ Hrep); [exists l; split; [by apply Ring.ring_alter|done]|].
  rewrite (alter_as_insert _ _ _ _ Hbf).
  apply (table_rep_entry _ V D B (k_disk k) _ b bf _ bno); try done.
  - split; [done|left]. cbn. flag_simp. subst bno. rewrite Hv, Hbu, HB. set_solver.
  - intros c Hc. set_solver.
  - by right.
  - congruence.
  - apply (tr_disk _ _ _ _ _ _ HT). apply (tr_dom _ _ _ _ _ _ HT). eauto.
Qed.

(** [bwrite] of a held buffer makes exactly one disk write, of the block's
    current contents, after which the block is not newer than the disk. *)
Lemma bwrite_ok k V D B bno b d e :
  brep k V D B -> B !! bno = Some b -> V !! bno = Some d ->
  exists k', bwrite b e k = Ok tt e k' /\ bframe k k' /\ brep k' V (D ∖ {[bno]}) B /\
    k_disk k' = <[(1, bno) := d]> (k_disk k) /\ k_writes k' = (1, bno, d) :: k_writes k.
Proof.
  intros Hrep HB HVd. pose proof Hrep as ((_ & _ & _ & _ & Hdrv) & (l & Hr & Hp) & HT).
  destruct (brep_held _ _ _ _ _ _ Hrep HB) as (bf & Hbf & Hb & Hd & Hn & HV & Hv & Hbu & HD & Hl).
  set (bf1 := set_b_flags (Z.lor (b_flags bf) B_DIRTY) bf).
  set (k1 := set_k_bcache (<[b:=bf1]> (k_bcache k)) k).
  assert (drv_ok k1) as Hdrv1 by (by eapply drv_ok_frame).
  pose proof (lookup_lt_Some _ _ _ Hbf) as Hlt.
  assert (k_bcache k1 !! b = Some bf1) as Hbf1 by (simpl; by rewrite list_lookup_insert_eq).
  assert (0 <= bno < k_disksize k) as Hbno by (apply (tr_dom _ _ _ _ _ _ HT); eauto).
  destruct (iderw_ok b e k1) as (ide & pt & Hw & Hrw & Hdrv2); [done| |].
  { exists bf1. unfold bf1. cbn. rewrite Hd, Hn. split_and!; try done; try lia.
    - flag_simp. by rewrite Hbu.
    - right. by flag_simp.
    - intros c Hc. by apply (tr_disk _ _ _ _ _ _ HT). }
  set (bf2 := set_b_flags (Z.lor (Z.land (b_flags bf1) (Z.lnot B_DIRTY)) B_VALID) bf1).
  set (dk := <[(1, bno) := d]> (k_disk k)).
  set (ws := (1, bno, d) :: k_writes k).
  assert (rw_effect b k1 =
    set_k_bcache (<[b:=bf2]> (k_bcache k)) (set_k_disk dk (set_k_writes ws k))) as Heff.
  { unfold rw_effect. rewrite (buf_at_lookup _ _ _ Hbf1).
    assert (has (b_flags bf1) B_DIRTY = true) as -> by (unfold bf1; cbn; by flag_simp).
    unfold dk, ws. change (b_data bf1) with (b_data bf). change (b_dev bf1) with (b_dev bf).
    change (b_blockno bf1) with (b_blockno bf). rewrite Hd, Hn.
    replace d with (b_data bf) by congruence.
    unfold k1. cbn [k_bcache set_k_bcache]. rewrite list_insert_insert_eq. reflexivity. }
  rewrite Heff in *.
  destruct (brep_driver k V D B ide pt (<[b:=bf2]> (k_bcache k)) dk ws Hrep Hw
    _ eq_refl Hdrv2) with (V' := V) (D' := D ∖ {[bno]}) (B' := B) as [Hrep' Hfr'].
  { exists l. split; [|done]. by eapply Ring.ring_insert. }
  { apply (table_rep_entry _ V D B (k_disk k) _ b bf _ bno); try done.
    - split; [done|left]. unfold bf2, bf1. cbn. flag_simp. rewrite Hn, HV, Hbu, HB.
      split_and!; try done. set_solver.
    - intros c Hc. unfold dk. rewrite lookup_insert_ne by congruence. set_solver.
    - by right.
    - congruence.
    - exists d. unfold dk. rewrite lookup_insert_eq. split; [done|congruence]. }
  eexists. split_and!; [|exact Hfr'|exact Hrep'|done|done].
  unfold bwrite. rewrite get_buf_eq, (buf_at_lookup _ _ _ Hbf), Hbu. cbn [negb].
  rewrite upd_buf_eq, (alter_as_insert _ _ _ _ Hbf). exact Hrw.
Qed.

(** [brelse] gives a held buffer back.  The block must be pinned by [B_DIRTY]
    or agree with the disk. *)
Lemma brelse_ok k V D B bno b e :
  brep k V D B -> B !! bno = Some b ->
  (bno ∈ D \/ k_disk k !! (1, bno) = V !! bno) ->
  exists k', brelse b e k = Ok tt e k' /\ bframe k k' /\ brep k' V D (delete bno B) /\
    k_disk k' = k_disk k /\ k_writes k' = k_writes k.
Proof.
  intros Hrep HB Hclean. pose proof Hrep as ((Hl & Hlp & Hc & Hn & Hdrv) & (l & Hr & Hp) & HT).
  destruct (brep_held _ _ _ _ _ _ Hrep HB) as (bf & Hbf & Hb & Hd & Hnb & HV & Hv & Hbu & HD & Hlen).
  pose proof (same_content_links b (k_bcache k)) as Hsame.
  set (T := Ring.push_front b (Ring.unlink b (k_bcache k))) in *.
  eexists. split.
  { apply brelse_eq; try done. by rewrite (buf_at_lookup _ _ _ Hbf). }
  fold T. set (k' := set_k_ptable _ _).
  assert (drv_ok k') as Hdrv' by (eapply drv_ok_frame; try done; apply wake_woken).
  destruct (same_content_lookup _ _ _ _ Hsame Hb Hbf) as (bf' & Hbf' & Hcont).
  apply content_eq in Hcont as (C1 & C2 & C3 & C4).
  destruct (brep_driver k V D B (k_ide k) (wake (Ch_buf b) <$> k_ptable k)
    (alter clear_busy b T) (k_disk k) (k_writes k) Hrep (wake_woken _ _) k') with
    (V' := V) (D' := D) (B' := delete bno B) as [H1 H2]; try done.
  - assert (b ∈ l) as Hin by (rewrite Hp; apply elem_of_seq; lia).
    apply list_elem_of_split in Hin as (l1 & l2 & ->). exists (b :: l1 ++ l2).
    split; [|by rewrite <- Hp, Permutation_middle].
    apply Ring.ring_alter; [done|]. apply Ring.ring_push_front; [by apply Ring.ring_unlink|done|].
    destruct Hr as (_ & Hnd & _). apply NoDup_app in Hnd as (_ & H1 & H2).
    apply NoDup_cons in H2 as [H2 _]. intros [Hx|Hx]%elem_of_app; [|done].
    apply (H1 _ Hx). by left.
  - rewrite (alter_as_insert _ _ _ _ Hbf').
    assert (table_rep T V D B (k_disk k) (k_disksize k)) as HT'
      by (eapply table_rep_content; [symmetry; exact Hsame|done]).
    apply (table_rep_entry T V D B (k_disk k) _ b bf' _ bno); try (cbn; congruence); try done.
    + split; [cbn; congruence|left]. cbn. flag_simp.
      rewrite C1, C3, C4, Hnb, lookup_delete_eq, HV, HD. by rewrite C2, Hd.
    + intros c Hc'. by rewrite lookup_delete_ne.
    + rewrite lookup_delete_eq. by left.
    + intros HnD _. by destruct Hclean.
    + apply (tr_disk _ _ _ _ _ _ HT). apply (tr_dom _ _ _ _ _ _ HT). eauto.
Qed.

(** ** The same, as rules *)

Lemma wp_bread k V D B bno e (Q : nat -> schedule kernel -> kernel -> Prop) :
  brep k V D B -> B !! bno = None -> 0 <= bno < k_disksize k ->
  (bno ∈ D \/ (size (D ∪ dom B) < NBUF)%nat) ->
  (forall b k', bframe k k' -> brep k' V D (<[bno:=b]> B) -> k_disk k' = k_disk k ->
     k_writes k' = k_writes k -> Q b e k') ->
  wp (bread 1 bno) Q e k.
Proof.
  intros H1 H2 H3 H4 HQ. destruct (bread_ok k V D B bno e H1 H2 H3 H4) as (b & k' & Hb & ? & ? & ? & ?).
  unfold wp. rewrite Hb. by apply HQ.
Qed.

Lemma wp_bwrite k V D B bno b d e (Q : unit -> schedule kernel -> kernel -> Prop) :
  brep k V D B -> B !! bno = Some b -> V !! bno = Some d ->
  (forall k', bframe k k' -> brep k' V (D ∖ {[bno]}) B ->
     k_disk k' = <[(1, bno) := d]> (k_disk k) -> k_writes k' = (1, bno, d) :: k_writes k ->
     Q tt e k') ->
  wp (bwrite b) Q e k.
Proof.
  intros H1 H2 H3 HQ. destruct (bwrite_ok k V D B bno b d e H1 H2 H3) as (k' & Hb & ? & ? & ? & ?).
  unfold wp. rewrite Hb. by apply HQ.
Qed.

Lemma wp_brelse k V D B bno b e (Q : unit -> schedule kernel -> kernel -> Prop) :
  brep k V D B -> B !! bno = Some b -> (bno ∈ D \/ k_disk k !! (1, bno) = V !! bno) ->
  (forall k', bframe k k' -> brep k' V D (delete bno B) -> k_disk k' = k_disk k ->
     k_writes k' = k_writes k -> Q tt e k') ->
  wp (brelse b) Q e k.
Proof.
  intros H1 H2 H3 HQ. destruct (brelse_ok k V D B bno b e H1 H2 H3) as (k' & Hb & ? & ? & ? & ?).
  unfold wp. rewrite Hb. by apply HQ.
Qed.

(** Block contents outside of the held and dirty blocks are on the disk. *)
Lemma brep_disk k V D B bno :
  brep k V D B -> bno ∉ D -> B !! bno = None -> 0 <= bno < k_disksize k ->
  k_disk k !! (1, bno) = V !! bno.
Proof.
  intros (_ & _ & HT) HD HB Hb. apply (tr_dom _ _ _ _ _ _ HT) in Hb as [d Hd].
  rewrite Hd. by apply (tr_clean _ _ _ _ _ _ HT).
Qed.

Lemma brep_block k V D B bno :
  brep k V D B -> 0 <= bno < k_disksize k ->
  exists d, V !! bno = Some d /\ length d = 512%nat.
Proof.
  intros (_ & _ & HT) Hb. apply (tr_dom _ _ _ _ _ _ HT) in Hb as [d Hd].
  exists d. split; [done|]. by eapply (tr_len_V _ _ _ _ _ _ HT).
Qed.

Lemma brep_dom k V D B bno d : brep k V D B -> V !! bno = Some d -> 0 <= bno < k_disksize k.
Proof. intros (_ & _ & HT) Hd. apply (tr_dom _ _ _ _ _ _ HT). eauto. Qed.

(** ** Crashes

    The disk after the writes [ws], newest first. *)
Definition disk_after (dk : gmap (Z * Z) (list Z)) (ws : list (Z * Z * list Z)) :=
  foldr (fun w dk => <[w.1 := w.2]> dk) dk ws.

(** Between states [k0] and [k], [P] holds of the disk after every number of the
    disk writes that were made: a crash at any time finds a disk with [P]. *)
Definition crash_safe (P : gmap (Z * Z) (list Z) -> Prop) (k0 k : kernel) : Prop :=
  exists ws, k_writes k = ws ++ k_writes k0 /\ k_disk k = disk_after (k_disk k0) ws /\
    forall ws1 ws2, ws = ws1 ++ ws2 -> P (disk_after (k_disk k0) ws2).

Lemma crash_safe_refl (P : gmap (Z * Z) (list Z) -> Prop) k :
  P (k_disk k) -> crash_safe P k k.
Proof.
  intros HP. exists []. split; [done|]. split; [done|].
  intros ws1 ws2 Heq. symmetry in Heq. apply app_eq_nil in Heq as [_ ->]. done.
Qed.

Lemma crash_safe_now (P : gmap (Z * Z) (list Z) -> Prop) k0 k :
  crash_safe P k0 k -> P (k_disk k).
Proof. intros (ws & _ & -> & HP). by apply (HP []). Qed.

Lemma crash_safe_same (P : gmap (Z * Z) (list Z) -> Prop) k0 k k' :
  crash_safe P k0 k -> k_disk k' = k_disk k -> k_writes k' = k_writes k -> crash_safe P k0 k'.
Proof. intros (ws & H1 & H2 & H3) Hd Hw. exists ws. by rewrite Hd, Hw. Qed.

Lemma crash_safe_write (P : gmap (Z * Z) (list Z) -> Prop) k0 k k' bno d :
  crash_safe P k0 k -> k_disk k' = <[(1, bno) := d]> (k_disk k) ->
  k_writes k' = (1, bno, d) :: k_writes k -> P (k_disk k') -> crash_safe P k0 k'.
Proof.
  intros (ws & H1 & H2 & H3) Hd Hw HP. exists ((1, bno, d) :: ws).
  split; [by rewrite Hw, H1|]. split; [simpl; by rewrite Hd, H2|].
  intros ws1 ws2 Heq. destruct ws1 as [|w ws1]; simplify_eq/=.
  - by rewrite <- H2, <- Hd.
  - by eapply H3.
Qed.

Lemma crash_safe_mono (P Q : gmap (Z * Z) (list Z) -> Prop) k0 k :
  (forall dk, P dk -> Q dk) -> crash_safe P k0 k -> crash_safe Q k0 k.
Proof. intros HPQ (ws & H1 & H2 & H3). exists ws. eauto 10. Qed.

(** ** The state after [binit] *)

Definition disk_view (k : kernel) : gmap Z (list Z) :=
  list_to_map ((fun i => (Z.of_nat i, disk_block k 1 (Z.of_nat i))) <$> seq 0 (Z.to_nat (k_disksize k))).

Lemma disk_view_lookup k bno :
  disk_view k !! bno =
  if bool_decide (0 <= bno < k_disksize k) then Some (disk_block k 1 bno) else None.
Proof.
  unfold disk_view. case_bool_decide as Hb.
  - apply elem_of_list_to_map_1.
    + rewrite <- list_fmap_compose. apply NoDup_fmap_2; [|apply NoDup_seq].
      intros x y. simpl. lia.
    + apply list_elem_of_fmap. exists (Z.to_nat bno). rewrite elem_of_seq.
      rewrite Z2Nat.id by lia. split; [done|lia].
  - apply not_elem_of_list_to_map_1. rewrite <- list_fmap_compose.
    intros (i & Heq & Hi)%list_elem_of_fmap. apply elem_of_seq in Hi. simpl in Heq. lia.
Qed.

Lemma binit_content n T i bf :
  length T = S NBUF -> (n <= NBUF)%nat -> (i < NBUF)%nat ->
  Ring.binit_table n T !! i = Some bf ->
  exists bf0, T !! i = Some bf0 /\
    content bf = content (if (i <? n)%nat then set_b_dev (u32 (-1)) bf0 else bf0).
Proof.
  intros Hlen. revert bf. induction n as [|n IH]; intros bf Hn Hi Hb.
  - unfold Ring.binit_table in Hb. cbn [seq foldl] in Hb.
    rewrite !list_lookup_alter_ne in Hb by (unfold head; lia). exists bf. done.
  - rewrite Ring.binit_table_S in Hb.
    assert (same_content (Ring.push_front n (Ring.binit_table n T)) (Ring.binit_table n T)) as Hs.
    { unfold Ring.push_front. cbv zeta. repeat (rewrite same_content_alter by done). done. }
    destruct (decide (n = i)) as [<-|Hne].
    + rewrite list_lookup_alter_eq in Hb.
      destruct (Ring.push_front n (Ring.binit_table n T) !! n) as [b1|] eqn:E; [|done].
      simpl in Hb. simplify_eq.
      destruct (same_content_lookup _ _ _ _ (symmetry Hs) Hi E) as (b2 & Hb2 & Hc).
      destruct (IH b2) as (b0 & Hb0 & Hc0); [lia|done|done|]. exists b0. split; [done|].
      rewrite Nat.ltb_irrefl in Hc0. assert ((n <? S n)%nat = true) as -> by (apply Nat.ltb_lt; lia).
      rewrite Hc0 in Hc. unfold content in *. cbn. congruence.
    + rewrite list_lookup_alter_ne in Hb by done.
      destruct (same_content_lookup _ _ _ _ (symmetry Hs) Hi Hb) as (b2 & Hb2 & Hc).
      destruct (IH b2) as (b0 & Hb0 & Hc0); [lia|done|done|]. exists b0. split; [done|].
      rewrite <- Hc, Hc0. assert ((i <? S n)%nat = (i <? n)%nat) as ->; [|done].
      destruct (Nat.ltb_spec i n), (Nat.ltb_spec i (S n)); lia.
Qed.

(** After [binit] nothing is cached, and a read returns what is on the disk. *)
Lemma binit_ok e k :
  k_bcache k = replicate (S NBUF) buf0 -> lock_free L_ptable k -> cpu_ok k ->
  length (k_ptable k) = NPROC ->
  drv_ok (set_k_locks (<[L_bcache := mkSpinlock 0 "bcache" None]> (k_locks k)) k) -> disk_ok k ->
  exists k', binit e k = Ok tt e k' /\ brep k' (disk_view k) ∅ ∅ /\
    k_disk k' = k_disk k /\ k_disksize k' = k_disksize k /\ k_writes k' = k_writes k.
Proof.
  intros Hbc Hlp Hc Hn Hdrv Hdk. eexists. split; [apply Ring.binit_eq|].
  assert (length (k_bcache k) = S NBUF) as Hlen by (by rewrite Hbc, length_replicate).
  split; [|done]. split; [|split].
  - split; [exists "bcache"; simpl; apply lookup_insert_eq|].
    split; [destruct Hlp as [name Hlp]; exists name; simpl; by rewrite lookup_insert_ne|].
    repeat (split; [done|]). by eapply drv_ok_frame.
  - exists (rev (seq 0 NBUF)). split; [by apply Ring.binit_ring|].
    by rewrite <- Permutation_rev.
  - assert (forall i bf, (i < NBUF)%nat -> Ring.binit_table NBUF (k_bcache k) !! i = Some bf ->
      b_dev bf = u32 (-1) /\ b_flags bf = 0 /\ length (b_data bf) = 512%nat) as Hbf.
    { intros i bf Hi Hb. destruct (binit_content _ _ _ _ Hlen (le_n _) Hi Hb) as (b0 & Hb0 & Hc0).
      rewrite Hbc in Hb0. apply lookup_replicate in Hb0 as [-> _].
      assert ((i <? NBUF)%nat = true) as E by (by apply Nat.ltb_lt). rewrite E in Hc0.
      apply content_eq in Hc0 as (-> & -> & _ & ->). done. }
    assert (forall i bno, ~ caches (Ring.binit_table NBUF (k_bcache k)) i bno) as Hnc.
    { intros i bno (Hi & bf & Hb & Hd & _). destruct (Hbf i bf Hi Hb) as [Hx _].
      rewrite Hd in Hx. done. }
    simpl. constructor; try done.
    + by destruct (Ring.binit_ring NBUF (k_bcache k) Hlen (le_n _)).
    + intros i bf Hi Hb. destruct (Hbf i bf Hi Hb) as (H1 & H2 & H3).
      split; [done|right]. by rewrite H1, H2, !has_0_l.
    + intros i j bno Hx. by destruct (Hnc i bno).
    + intros bno. rewrite disk_view_lookup. by case_bool_decide; split.
    + intros bno d HV _ _. rewrite disk_view_lookup in HV. case_bool_decide as Hb; simplify_eq.
      destruct (Hdk bno Hb) as (d & Hd & _). unfold disk_block. by rewrite Hd.
    + intros bno d HV. rewrite disk_view_lookup in HV. case_bool_decide as Hb; simplify_eq.
      destruct (Hdk bno Hb) as (d & Hd & Hl). unfold disk_block. by rewrite Hd.
Qed.

End operations.
End Cache.
