(* ===== verification/Log.v ===== *)
(** log.c: the write-ahead log.

    [Log] translates the functions; [LogSpec] proves that a transaction is
    atomic with respect to crashes: whatever number of the disk writes of
    [commit] were made, recovery restores either all the blocks as they were
    before the transaction or all of them as the transaction left them. *)

From S2P Require Import Prelude Bytes Machine Demo Spinlock Sleep Disk Bio Cache.
Import Spinlock Sleep Bio Cache.

Module Log.

(** ** The operations *)

(** fs.c, [readsb]. *)
Definition sb_of (d : list Z) : superblock :=
  mkSuperblock (get32 0 d) (get32 4 d) (get32 8 d) (get32 12 d) (get32 16 d)
    (get32 20 d) (get32 24 d).

Section driver.
Context `{DiskDriver}.

Definition readsb (dev : Z) : K superblock :=
  bp <- bread dev 1 ;;
  bf <- get_buf bp ;;
  brelse bp ;;
  ret (sb_of (b_data bf)).

Definition get_log : K logstate := gets k_log.

(** [log.lh.block[i]] *)
Definition get_block (i : nat) : K Z :=
  lg <- get_log ;;
  match lg_block lg !! i with
  | Some b => ret b
  | None => undefined
  end.

Definition put_block (i : nat) (b : Z) : K unit :=
  lg <- get_log ;;
  if (i <? length (lg_block lg))%nat then upd_log (set_lg_block (<[i := b]> (lg_block lg)))
  else undefined.

(** [for(i = 0; i < log.lh.n; i++)]; past LOGSIZE iterations the bodies access
    [log.lh.block] outside of its bounds. *)
Definition for_lh (body : nat -> K unit) : K unit :=
  for_while (S (S (Z.to_nat LOGSIZE))) 0
    (fun i => gets (fun k => Z.of_nat i <? lg_n (k_log k))) body.

Definition install_trans : K unit :=
  for_lh (fun tail =>
    lg <- get_log ;;
    lbuf <- bread (lg_dev lg) (u32 (lg_start lg + Z.of_nat tail + 1)) ;;
    dst <- get_block tail ;;
    dbuf <- bread (lg_dev lg) (u32 dst) ;;
    lb <- get_buf lbuf ;;
    upd_buf dbuf (set_b_data (b_data lb)) ;;
    bwrite dbuf ;;
    brelse lbuf ;;
    brelse dbuf).

Definition read_head : K unit :=
  lg <- get_log ;;
  b <- bread (lg_dev lg) (u32 (lg_start lg)) ;;
  bf <- get_buf b ;;
  upd_log (set_lg_n (s32 (get32 0 (b_data bf)))) ;;
  for_lh (fun i =>
    bf <- get_buf b ;;
    put_block i (s32 (get32 (4 + 4 * i) (b_data bf)))) ;;
  brelse b.

Definition write_head : K unit :=
  lg <- get_log ;;
  b <- bread (lg_dev lg) (u32 (lg_start lg)) ;;
  lg <- get_log ;;
  bf <- get_buf b ;;
  upd_buf b (set_b_data (put32 0 (lg_n lg) (b_data bf))) ;;
  for_lh (fun i =>
    bi <- get_block i ;;
    bf <- get_buf b ;;
    upd_buf b (set_b_data (put32 (4 + 4 * i) bi (b_data bf)))) ;;
  bwrite b ;;
  brelse b.

Definition recover_from_log : K unit :=
  read_head ;;
  install_trans ;;
  upd_log (set_lg_n 0) ;;
  write_head.

Definition sizeof_logheader : Z := 4 + 4 * LOGSIZE.

Definition initlog (dev : Z) : K unit :=
  if BSIZE <=? sizeof_logheader then panic "initlog: too big logheader" else
  initlock L_log "log" ;;
  sb <- readsb (u32 dev) ;;
  upd_log (set_lg_start (s32 (sb_logstart sb))) ;;
  upd_log (set_lg_size (s32 (sb_nlog sb))) ;;
  upd_log (set_lg_dev dev) ;;
  recover_from_log.

Definition write_log : K unit :=
  for_lh (fun tail =>
    lg <- get_log ;;
    to <- bread (lg_dev lg) (u32 (lg_start lg + Z.of_nat tail + 1)) ;;
    src <- get_block tail ;;
    from <- bread (lg_dev lg) (u32 src) ;;
    fb <- get_buf from ;;
    upd_buf to (set_b_data (b_data fb)) ;;
    bwrite to ;;
    brelse from ;;
    brelse to).

Definition commit : K unit :=
  lg <- get_log ;;
  when (0 <? lg_n lg)
    (write_log ;;
     write_head ;;
     install_trans ;;
     upd_log (set_lg_n 0) ;;
     write_head).

End driver.

Definition begin_op : K unit :=
  acquire L_log ;;
  loop_sched (fun _ : unit =>
    lg <- get_log ;;
    if lg_committing lg then
      sleep Ch_log (Some L_log) ;; ret (inl tt)
    else if LOGSIZE <? lg_n lg + (lg_outstanding lg + 1) * MAXOPBLOCKS then
      sleep Ch_log (Some L_log) ;; ret (inl tt)
    else
      upd_log (set_lg_outstanding (lg_outstanding lg + 1)) ;;
      release L_log ;;
      ret (inr tt)) tt.

Definition end_op `{DiskDriver} : K unit :=
  acquire L_log ;;
  lg <- get_log ;;
  upd_log (set_lg_outstanding (lg_outstanding lg - 1)) ;;
  lg <- get_log ;;
  if lg_committing lg then panic "log.committing" else
  do_commit <-
    (if lg_outstanding lg =? 0 then
       upd_log (set_lg_committing true) ;; ret true
     else wakeup Ch_log ;; ret false) ;;
  release L_log ;;
  when do_commit
    (commit ;;
     acquire L_log ;;
     upd_log (set_lg_committing false) ;;
     wakeup Ch_log ;;
     release L_log).

(** The absorption loop of [log_write]: the first index whose entry is
    [blockno], or [n]. *)
Fixpoint absorb (blocks : list Z) (n : nat) (blockno : Z) : nat :=
  match n, blocks with
  | S n', b :: bs => if u32 b =? blockno then O else S (absorb bs n' blockno)
  | _, _ => O
  end.

Definition log_write (b : nat) : K unit :=
  lg <- get_log ;;
  if (LOGSIZE <=? lg_n lg) || (lg_size lg - 1 <=? lg_n lg)
  then panic "too big a transaction" else
  if lg_outstanding lg <? 1 then panic "log_write outside of trans" else
  acquire L_log ;;
  lg <- get_log ;;
  bf <- get_buf b ;;
  i <- ret (absorb (lg_block lg) (Z.to_nat (lg_n lg)) (b_blockno bf)) ;;
  put_block i (s32 (b_blockno bf)) ;;
  lg <- get_log ;;
  when (Z.of_nat i =? lg_n lg) (upd_log (set_lg_n (lg_n lg + 1))) ;;
  bf <- get_buf b ;;
  upd_buf b (set_b_flags (Z.lor (b_flags bf) B_DIRTY)) ;;
  release L_log.

End Log.

Module LogSpec.
Import Log.

(** ** The log on the disk *)

Definition hdr_n (h : list Z) : Z := s32 (get32 0 h).
Definition hdr_block (h : list Z) (i : nat) : Z := s32 (get32 (4 + 4 * i) h).

Definition dblock (dk : gmap (Z * Z) (list Z)) (bno : Z) : list Z :=
  default [] (dk !! (1, bno)).

(** The blocks that the log of disk [dk] says to install: home block and
    contents. *)
Definition logged (LS : Z) (dk : gmap (Z * Z) (list Z)) : list (Z * list Z) :=
  (fun i => (hdr_block (dblock dk LS) i, dblock dk (LS + 1 + Z.of_nat i))) <$>
    seq 0 (Z.to_nat (hdr_n (dblock dk LS))).

Definition install {K} `{Countable K} (m : gmap K (list Z)) (ds : list (K * list Z)) :
    gmap K (list Z) :=
  list_to_map (reverse ds) ∪ m.

Definition on_disk (ds : list (Z * list Z)) : list (Z * Z * list Z) :=
  (fun bd => ((1, bd.1), bd.2)) <$> ds.

(** The disk as recovery will find and leave it. *)
Definition recovered (LS : Z) (dk : gmap (Z * Z) (list Z)) : gmap (Z * Z) (list Z) :=
  install dk (on_disk (logged LS dk)).

(** Outside of the log, the disk [dk] has the blocks [V]. *)
Definition in_log (LS NL bno : Z) : Prop := LS <= bno < LS + NL.
Definition fs_is (LS NL size : Z) (dk : gmap (Z * Z) (list Z)) (V : gmap Z (list Z)) : Prop :=
  forall c, 0 <= c < size -> ~ in_log LS NL c -> dk !! (1, c) = V !! c.

(** Every block of the disk is there. *)
Definition disk_wf (size : Z) (dk : gmap (Z * Z) (list Z)) : Prop :=
  forall c, 0 <= c < size -> exists d, dk !! (1, c) = Some d /\ length d = 512%nat.

(** A block that a transaction may contain. *)
Definition home_ok (LS NL size b : Z) : Prop :=
  0 <= b < size /\ ~ in_log LS NL b /\ b <> 1.

(** The log of the disk can be recovered. *)
Definition log_wf (LS NL size : Z) (dk : gmap (Z * Z) (list Z)) : Prop :=
  0 <= hdr_n (dblock dk LS) <= NL - 1 /\
  forall b, b ∈ (logged LS dk).*1 -> home_ok LS NL size b.

(** Where the log is. *)
Record geometry (LS NL : Z) (k : kernel) : Prop := {
  g_dev : lg_dev (k_log k) = 1;
  g_start : lg_start (k_log k) = LS;
  g_size : lg_size (k_log k) = NL;
  g_blocks : length (lg_block (k_log k)) = Z.to_nat LOGSIZE;
  g_LS : 2 <= LS;
  g_NL : 1 <= NL <= LOGSIZE;
  g_end : LS + NL <= k_disksize k;
  g_max : k_disksize k < 2147483648
}.

(** The header in memory lists the blocks [bl]. *)
Definition header (bl : list Z) (k : kernel) : Prop :=
  lg_n (k_log k) = Z.of_nat (length bl) /\
  (length bl <= Z.to_nat LOGSIZE)%nat /\
  forall i b, bl !! i = Some b -> lg_block (k_log k) !! i = Some b.

Section maps.
Context {K} `{Countable K}.

Lemma install_nil (m : gmap K (list Z)) : install m [] = m.
Proof. unfold install. simpl. by rewrite map_empty_union. Qed.

Lemma install_snoc (m : gmap K (list Z)) ds b d :
  install m (ds ++ [(b, d)]) = <[b := d]> (install m ds).
Proof. unfold install. rewrite reverse_snoc. simpl. by rewrite insert_union_l. Qed.

Lemma install_notin (m : gmap K (list Z)) ds b :
  b ∉ ds.*1 -> install m ds !! b = m !! b.
Proof.
  intros Hb. unfold install. rewrite lookup_union_r; [done|].
  apply not_elem_of_list_to_map_1. rewrite fmap_reverse. by rewrite elem_of_reverse.
Qed.

Lemma install_in (m1 m2 : gmap K (list Z)) ds b :
  b ∈ ds.*1 -> install m1 ds !! b = install m2 ds !! b.
Proof.
  intros Hb. unfold install.
  assert (is_Some ((list_to_map (reverse ds) : gmap K (list Z)) !! b)) as [d Hd].
  { destruct (_ !! b) eqn:E; [done|]. apply not_elem_of_list_to_map in E.
    rewrite fmap_reverse, elem_of_reverse in E. done. }
  by rewrite !(lookup_union_Some_l _ _ _ _ Hd).
Qed.

(** Installing again what was installed in part. *)
Lemma install_again (m : gmap K (list Z)) ds1 ds :
  (forall b, b ∈ ds1.*1 -> b ∈ ds.*1) -> install (install m ds1) ds = install m ds.
Proof.
  intros Hsub. apply map_eq. intros b. destruct (decide (b ∈ ds.*1)) as [Hb|Hb].
  - by apply install_in.
  - rewrite !install_notin; [done|done| |done]. intros Hx. by apply Hb, Hsub.
Qed.

(** Installing what is already there. *)
Lemma install_id (m : gmap K (list Z)) ds :
  (forall b d, (b, d) ∈ ds -> m !! b = Some d) -> install m ds = m.
Proof.
  induction ds as [|[b d] ds IH] using rev_ind; intros Hds; [apply install_nil|].
  rewrite install_snoc, IH by set_solver. apply insert_id. apply Hds. set_solver.
Qed.

End maps.

Section spec.
Context `{DiskDriver}.
Context (LS NL : Z).

Lemma geometry_frame k k' : geometry LS NL k -> bframe k k' -> geometry LS NL k'.
Proof. intros [] (bc & dk & ws & ide & pt & _ & ->). by constructor. Qed.

Lemma header_frame bl k k' : header bl k -> bframe k k' -> header bl k'.
Proof. intros Hh (bc & dk & ws & ide & pt & _ & ->). done. Qed.

Lemma brep_disk_wf k V D B : brep k V D B -> disk_wf (k_disksize k) (k_disk k).
Proof. intros (_ & _ & HT) c Hc. by apply (tr_disk _ _ _ _ _ _ HT). Qed.

Lemma bframe_log k k' : bframe k k' -> k_log k' = k_log k /\ k_disksize k' = k_disksize k.
Proof. by intros (bc & dk & ws & ide & pt & _ & ->). Qed.

(** The rule for the loops over the header. *)
Lemma wp_for_lh (bl : list Z) (body : nat -> K unit) (I : nat -> schedule kernel -> kernel -> Prop) e k :
  (length bl <= Z.to_nat LOGSIZE)%nat ->
  (forall j e k, I j e k -> lg_n (k_log k) = Z.of_nat (length bl)) ->
  (forall j b e k, I j e k -> bl !! j = Some b ->
     wp (body j) (fun _ e' k' => I (S j) e' k') e k) ->
  I O e k ->
  wp (for_lh body) (fun _ e' k' => I (length bl) e' k') e k.
Proof.
  intros Hlen Hn Hbody HI. unfold for_lh. apply wp_for_while; try done; try lia.
  - intros j e1 k1 H1 Hj. unfold gets. rewrite (Hn _ _ _ H1). f_equal.
    destruct (Nat.ltb_spec j (length bl)), (Z.ltb_spec (Z.of_nat j) (Z.of_nat (length bl))); lia.
  - intros j e1 k1 H1 Hj. destruct (lookup_lt_is_Some_2 bl j) as [b Hb]; [lia|].
    by eapply Hbody.
Qed.

Lemma wp_get_block (bl : list Z) j b (Q : Z -> schedule kernel -> kernel -> Prop) e k :
  header bl k -> bl !! j = Some b -> Q b e k -> wp (get_block j) Q e k.
Proof.
  intros (_ & _ & Hb) Hj HQ. unfold get_block, get_log. wp_norm.
  by rewrite (Hb _ _ Hj).
Qed.

Lemma upd_buf_data_eq b d e k :
  upd_buf b (set_b_data d) e k = Ok tt e (set_k_bcache (alter (set_b_data d) b (k_bcache k)) k).
Proof. done. Qed.

Lemma wp_set_data k V D B bno b d e (Q : unit -> schedule kernel -> kernel -> Prop) :
  brep k V D B -> B !! bno = Some b -> length d = 512%nat ->
  (forall k', bframe k k' -> brep k' (<[bno:=d]> V) D B -> k_disk k' = k_disk k ->
     k_writes k' = k_writes k -> Q tt e k') ->
  wp (upd_buf b (set_b_data d)) Q e k.
Proof.
  intros H1 H2 H3 HQ. unfold wp. rewrite upd_buf_data_eq.
  apply HQ; [apply bframe_bcache|by apply brep_set_data|done|done].
Qed.

(** The contents of a held buffer. *)
Lemma wp_get_held k V D B bno b d e (Q : buf -> schedule kernel -> kernel -> Prop) :
  brep k V D B -> B !! bno = Some b -> V !! bno = Some d ->
  (forall bf, b_data bf = d -> b_blockno bf = bno -> length d = 512%nat -> Q bf e k) ->
  wp (get_buf b) Q e k.
Proof.
  intros H1 H2 H3 HQ. apply wp_gets.
  destruct (brep_held _ _ _ _ _ _ H1 H2) as (bf & Hbf & _ & _ & Hn & HV & _ & _ & _ & Hl).
  rewrite (buf_at_lookup _ _ _ Hbf). assert (b_data bf = d) as Hd by congruence.
  apply HQ; [done|done|congruence].
Qed.

Lemma delete_held (x y : Z) (i j : nat) :
  delete y (delete x (<[x:=i]> (<[y:=j]> ∅))) = (∅ : gmap Z nat).
Proof.
  apply map_eq. intros c. rewrite lookup_empty.
  destruct (decide (c = y)) as [->|]; [by rewrite lookup_delete_eq|].
  rewrite lookup_delete_ne by done. destruct (decide (c = x)) as [->|]; [by rewrite lookup_delete_eq|].
  rewrite lookup_delete_ne, !lookup_insert_ne by done. apply lookup_empty.
Qed.

(** The copy of a block to another that [write_log] and [install_trans] make
    once they have both buffers. *)
Lemma wp_copy k V D src dst bs bd d e (Q : unit -> schedule kernel -> kernel -> Prop) :
  brep k V D (<[src:=bs]> (<[dst:=bd]> ∅)) -> src <> dst -> V !! src = Some d ->
  (src ∈ D \/ k_disk k !! (1, src) = Some d) ->
  (forall k', bframe k k' -> brep k' (<[dst:=d]> V) (D ∖ {[dst]}) ∅ ->
     k_disk k' = <[(1, dst) := d]> (k_disk k) -> k_writes k' = (1, dst, d) :: k_writes k ->
     Q tt e k') ->
  wp (fb <- get_buf bs ;; upd_buf bd (set_b_data (b_data fb)) ;;
      bwrite bd ;; brelse bs ;; brelse bd) Q e k.
Proof.
  intros Hrep Hne Hd Hsrc HQ. apply wp_bind.
  eapply (wp_get_held _ _ _ _ src); [done|by rewrite lookup_insert_eq|done|].
  intros bf -> _ Hdl. apply wp_bind.
  eapply (wp_set_data _ _ _ _ dst); [done|by rewrite lookup_insert_ne, lookup_insert_eq|done|].
  intros k4 Hf4 Hrep4 Hd4 Hw4. apply wp_bind.
  eapply (wp_bwrite _ _ _ _ dst _ d); [done|by rewrite lookup_insert_ne, lookup_insert_eq| |].
  { by rewrite lookup_insert_eq. }
  intros k5 Hf5 Hrep5 Hd5 Hw5. apply wp_bind.
  eapply (wp_brelse _ _ _ _ src); [done|by rewrite lookup_insert_eq| |].
  { destruct Hsrc as [Hsrc|Hsrc]; [left; set_solver|right].
    rewrite Hd5, Hd4, !lookup_insert_ne by congruence. by rewrite Hsrc. }
  intros k6 Hf6 Hrep6 Hd6 Hw6.
  eapply (wp_brelse _ _ _ _ dst);
    [done|by rewrite lookup_delete_ne, lookup_insert_ne, lookup_insert_eq|right|].
  { rewrite Hd6, Hd5. by rewrite !lookup_insert_eq. }
  intros k7 Hf7 Hrep7 Hd7 Hw7. rewrite delete_held in Hrep7.
  apply HQ; [|done|congruence|congruence].
  etransitivity; [exact Hf4|]. etransitivity; [exact Hf5|]. by etransitivity.
Qed.

(** ** [write_log] *)

(** After [j] blocks, as seen through the cache. *)
Definition log_copied (bl : list Z) (V V' : gmap Z (list Z)) (j : nat) : Prop :=
  (forall i b, (i < j)%nat -> bl !! i = Some b -> V' !! (LS + 1 + Z.of_nat i) = V !! b) /\
  (forall c, ~ (LS + 1 <= c < LS + 1 + Z.of_nat j) -> V' !! c = V !! c).

Lemma log_copied_S bl V V' j b d :
  log_copied bl V V' j -> bl !! j = Some b -> V !! b = Some d ->
  log_copied bl V (<[LS + 1 + Z.of_nat j := d]> V') (S j).
Proof.
  intros [H1 H2] Hb Hd. split.
  - intros i b' Hi Hb'. destruct (decide (i = j)) as [->|Hne].
    + rewrite lookup_insert_eq. congruence.
    + rewrite lookup_insert_ne by lia. apply H1; [lia|done].
  - intros c Hc. rewrite lookup_insert_ne by lia. apply H2. lia.
Qed.

Lemma home_copied bl V V' j size b :
  log_copied bl V V' j -> Z.of_nat j <= NL - 1 -> home_ok LS NL size b -> V' !! b = V !! b.
Proof. intros [_ H2] Hj (_ & Hb & _). apply H2. unfold in_log in Hb. lia. Qed.

Lemma write_log_ok (bl : list Z) (V : gmap Z (list Z)) (D : gset Z) (k0 k : kernel)
    (e : schedule kernel) (P : gmap (Z * Z) (list Z) -> Prop) :
  brep k V D ∅ -> geometry LS NL k -> header bl k ->
  Z.of_nat (length bl) <= NL - 1 -> (size D < NBUF)%nat ->
  (forall b, b ∈ bl -> b ∈ D /\ home_ok LS NL (k_disksize k) b) ->
  (forall b, b ∈ D -> ~ in_log LS NL b) ->
  crash_safe P k0 k ->
  (forall dk, disk_wf (k_disksize k) dk ->
     (forall c, ~ (LS + 1 <= c < LS + NL) -> dk !! (1, c) = k_disk k !! (1, c)) -> P dk) ->
  wp write_log (fun _ e' k' => e' = e /\ bframe k k' /\ crash_safe P k0 k' /\
    exists V', brep k' V' D ∅ /\ log_copied bl V V' (length bl) /\
      forall c, ~ (LS + 1 <= c < LS + NL) -> k_disk k' !! (1, c) = k_disk k !! (1, c)) e k.
Proof.
  intros Hrep Hg Hh Hn Hsz Hbl HD Hcs HP. pose proof Hg as [G1 G2 G3 G4 G5 G6 G7 G8].
  unfold write_log.
  apply (wp_for_lh bl) with (I := fun j e' k' => (e' = e /\ bframe k k' /\ crash_safe P k0 k' /\
    exists V', brep k' V' D ∅ /\ log_copied bl V V' j /\
      forall c, ~ (LS + 1 <= c < LS + NL) -> k_disk k' !! (1, c) = k_disk k !! (1, c))).
  - apply Hh.
  - intros j e1 k1 (_ & Hf & _). rewrite (proj1 (bframe_log _ _ Hf)). apply Hh.
  - intros j b e1 k1 (-> & Hf & Hc1 & V1 & Hrep1 & Hv1 & Hdk1) Hb.
    pose proof (lookup_lt_Some _ _ _ Hb) as Hj.
    destruct (Hbl b) as [HbD Hbh]; [by eapply list_elem_of_lookup_2|].
    destruct (bframe_log _ _ Hf) as [Hlg Hsize]. rewrite <- Hsize in *.
    set (to := LS + 1 + Z.of_nat j).
    assert (b <> to) as Hbto by (destruct Hbh as (_ & Hx & _); unfold in_log, to in *; lia).
    assert (to ∉ D) as HtoD by (intros Hx; apply HD in Hx; unfold in_log, to in *; lia).
    destruct (brep_block _ _ _ _ b Hrep1) as (d & Hd & Hdl); [apply Hbh|].
    pose proof (home_copied _ _ _ _ _ b Hv1 ltac:(lia) Hbh) as HVb.
    apply wp_bind, wp_gets. rewrite Hlg, G1, G2.
    assert (u32 (LS + Z.of_nat j + 1) = to) as -> by (unfold to; rewrite u32_small; lia).
    apply wp_bind. eapply (wp_bread k1 V1 D ∅ to); [done|done|unfold to; lia|right|].
    { by rewrite dom_empty_L, union_empty_r_L. }
    intros bto k2 Hf2 Hrep2 Hd2 Hw2. apply wp_bind.
    eapply (wp_get_block bl); [|exact Hb|].
    { eapply header_frame; [|exact Hf2]. by eapply header_frame. }
    assert (u32 b = b) as -> by (rewrite u32_small; destruct Hbh; lia).
    destruct (bframe_log _ _ Hf2) as [_ Hsize2].
    apply wp_bind. eapply (wp_bread k2 V1 D (<[to:=bto]> ∅) b); [done| | |by left|].
    { by rewrite lookup_insert_ne. }
    { rewrite Hsize2. apply Hbh. }
    intros bfrom k3 Hf3 Hrep3 Hd3 Hw3.
    eapply (wp_copy k3 V1 D b to); [done|done|done|by left|].
    intros k7 Hf7 Hrep7 Hd7 Hw7. rewrite difference_disjoint_L in Hrep7 by set_solver.
    assert (forall c, ~ (LS + 1 <= c < LS + NL) -> k_disk k7 !! (1, c) = k_disk k !! (1, c)) as Hdk7.
    { intros c Hc. rewrite Hd7, lookup_insert_ne, Hd3, Hd2; [by apply Hdk1|].
      unfold to. intros [=]. lia. }
    split; [done|]. split.
    { etransitivity; [exact Hf|]. etransitivity; [exact Hf2|]. by etransitivity. }
    split.
    { eapply (crash_safe_write P k0 k3 k7); [|done|done|].
      2: { apply HP; [|done]. destruct (bframe_log _ _ Hf3) as [_ E3], (bframe_log _ _ Hf7) as [_ E7].
           rewrite <- Hsize2, <- E3, <- E7. by eapply brep_disk_wf. }
      eapply crash_safe_same; [exact Hc1|congruence|congruence]. }
    exists (<[to:=d]> V1). split; [done|]. split; [|done].
    eapply log_copied_S; [done|done|]. by rewrite <- HVb.
  - split; [done|]. split; [done|]. split; [done|]. exists V. split; [done|].
    split; [|done]. split; [intros; lia|done].
Qed.

(** ** [write_head] *)

(** The header block [hd] lists the first [j] blocks of [bl]. *)
Definition hdr_upto (bl : list Z) (hd : list Z) (j : nat) : Prop :=
  length hd = 512%nat /\ get32 0 hd = u32 (Z.of_nat (length bl)) /\
  forall i b, (i < j)%nat -> bl !! i = Some b -> get32 (4 + 4 * i) hd = u32 b.

(** The header block [hd] says to install the blocks [bl]. *)
Definition hdr_is (bl : list Z) (hd : list Z) : Prop :=
  length hd = 512%nat /\ hdr_n hd = Z.of_nat (length bl) /\
  forall i b, bl !! i = Some b -> hdr_block hd i = b.

Lemma hdr_upto_S bl hd j b :
  hdr_upto bl hd j -> bl !! j = Some b -> (length bl <= Z.to_nat LOGSIZE)%nat ->
  hdr_upto bl (put32 (4 + 4 * j) b hd) (S j).
Proof.
  intros (H1 & H2 & H3) Hb Hlen. pose proof (lookup_lt_Some _ _ _ Hb) as Hj.
  change (Z.to_nat LOGSIZE) with 30%nat in Hlen.
  split; [by rewrite length_put32 by lia|].
  split; [by rewrite get32_put32_ne by lia|].
  intros i b' Hi Hb'. destruct (decide (i = j)) as [->|Hne].
  - rewrite get32_put32 by lia. congruence.
  - rewrite get32_put32_ne by lia. apply H3; [lia|done].
Qed.

Lemma hdr_upto_is bl hd :
  hdr_upto bl hd (length bl) -> (length bl <= Z.to_nat LOGSIZE)%nat ->
  (forall b, b ∈ bl -> 0 <= b < 2147483648) -> hdr_is bl hd.
Proof.
  intros (H1 & H2 & H3) Hlen Hbl. change (Z.to_nat LOGSIZE) with 30%nat in Hlen.
  split; [done|]. split.
  - unfold hdr_n. rewrite H2, s32_u32, s32_small; lia.
  - intros i b Hb. unfold hdr_block. rewrite (H3 i b); [|by eapply lookup_lt_Some|done].
    rewrite s32_u32, s32_small; [done|].
    pose proof (Hbl b (list_elem_of_lookup_2 _ _ _ Hb)). lia.
Qed.

Lemma write_head_ok (bl : list Z) V D k e :
  brep k V D ∅ -> geometry LS NL k -> header bl k -> (size D < NBUF)%nat -> LS ∉ D ->
  (forall b, b ∈ bl -> 0 <= b < 2147483648) ->
  wp write_head (fun _ e' k' => e' = e /\ bframe k k' /\
    exists hd, hdr_is bl hd /\ brep k' (<[LS:=hd]> V) D ∅ /\
      k_disk k' = <[(1, LS) := hd]> (k_disk k) /\
      k_writes k' = (1, LS, hd) :: k_writes k) e k.
Proof.
  intros Hrep Hg Hh Hsz HD Hbl. pose proof Hg as [G1 G2 G3 G4 G5 G6 G7 G8].
  unfold write_head. apply wp_bind, wp_gets. rewrite G1, G2, u32_small by lia. apply wp_bind.
  eapply wp_bread; [done|done|lia|right; by rewrite dom_empty_L, union_empty_r_L|].
  intros b k1 Hf1 Hrep1 Hd1 Hw1. apply wp_bind, wp_gets. apply wp_bind.
  destruct (brep_block _ _ _ _ LS Hrep1) as (d & Hd & Hdl).
  { rewrite (proj2 (bframe_log _ _ Hf1)). lia. }
  eapply (wp_get_held _ _ _ _ LS); [done|by rewrite lookup_insert_eq|done|].
  intros bf -> _ _. apply wp_bind.
  eapply (wp_set_data _ _ _ _ LS); [done|by rewrite lookup_insert_eq|by rewrite length_put32; lia|].
  intros k2 Hf2 Hrep2 Hd2 Hw2. apply wp_bind.
  assert (header bl k2) as Hh2 by (eapply header_frame; [|exact Hf2]; by eapply header_frame).
  assert (k_log k1 = k_log k) as Hlg by apply (bframe_log _ _ Hf1).
  eapply wp_mono.
  { apply (wp_for_lh bl) with (I := fun j e' k' => e' = e /\ bframe k2 k' /\
      k_disk k' = k_disk k2 /\ k_writes k' = k_writes k2 /\
      exists hd, hdr_upto bl hd j /\ brep k' (<[LS:=hd]> V) D (<[LS:=b]> ∅)).
    - apply Hh.
    - intros j e' k' (_ & Hf & _). rewrite (proj1 (bframe_log _ _ Hf)). apply Hh2.
    - intros j bj e' k' (-> & Hf & Hdk & Hw & hd & Hhd & Hrep') Hj. apply wp_bind.
      eapply wp_get_block; [by eapply header_frame|done|]. apply wp_bind.
      eapply (wp_get_held _ _ _ _ LS); [done|by rewrite lookup_insert_eq|by rewrite lookup_insert_eq|].
      intros bf' -> _ _. pose proof (hdr_upto_S _ _ _ _ Hhd Hj ltac:(apply Hh)) as Hhd'.
      eapply (wp_set_data _ _ _ _ LS); [done|by rewrite lookup_insert_eq|apply Hhd'|].
      intros k3 Hf3 Hrep3 Hd3 Hw3. rewrite insert_insert_eq in Hrep3.
      split; [done|]. split; [by etransitivity|]. split; [congruence|]. split; [congruence|eauto].
    - do 4 (split; [done|]). exists (put32 0 (lg_n (k_log k1)) d).
      split; [|done]. rewrite Hlg, (proj1 Hh). split; [by rewrite length_put32 by lia|].
      split; [by rewrite get32_put32 by lia|]. intros; lia. }
  intros [] e3 k3 (-> & Hf3 & Hd3 & Hw3 & hd & Hhd & Hrep3). apply wp_bind.
  eapply wp_bwrite; [done|by rewrite lookup_insert_eq|by rewrite lookup_insert_eq|].
  intros k4 Hf4 Hrep4 Hd4 Hw4. rewrite difference_disjoint_L in Hrep4 by set_solver.
  eapply wp_brelse; [done|by rewrite lookup_insert_eq| |].
  { right. by rewrite Hd4, !lookup_insert_eq. }
  intros k5 Hf5 Hrep5 Hd5 Hw5. rewrite delete_insert_eq in Hrep5. rewrite delete_empty in Hrep5.
  split; [done|]. split.
  { etransitivity; [exact Hf1|]. etransitivity; [exact Hf2|]. etransitivity; [exact Hf3|].
    by etransitivity. }
  exists hd. split; [apply hdr_upto_is; [done|apply Hh|done]|]. split; [done|].
  split; congruence.
Qed.

(** ** [install_trans] *)

(** The blocks [bl] with the contents the log has for them in [V]. *)
Definition log_data (V : gmap Z (list Z)) (bl : list Z) (ds : list (Z * list Z)) : Prop :=
  ds.*1 = bl /\
  forall i b d, ds !! i = Some (b, d) -> V !! (LS + 1 + Z.of_nat i) = Some d.

Lemma log_data_lookup V bl ds i b :
  log_data V bl ds -> bl !! i = Some b ->
  exists d, ds !! i = Some (b, d) /\ V !! (LS + 1 + Z.of_nat i) = Some d.
Proof.
  intros [<- H2] Hi. rewrite list_lookup_fmap in Hi.
  destruct (ds !! i) as [[b' d]|] eqn:E; simplify_eq/=. eauto.
Qed.

Lemma install_take_S {K0} `{Countable K0} (m : gmap K0 (list Z)) ds j b d :
  ds !! j = Some (b, d) -> install m (take (S j) ds) = <[b := d]> (install m (take j ds)).
Proof. intros Hj. by rewrite (take_S_r _ _ _ Hj), install_snoc. Qed.

Lemma on_disk_take ds j : on_disk (take j ds) = take j (on_disk ds).
Proof. apply fmap_take. Qed.

Lemma on_disk_lookup ds j b d : ds !! j = Some (b, d) -> on_disk ds !! j = Some ((1, b), d).
Proof. intros Hj. unfold on_disk. by rewrite list_lookup_fmap, Hj. Qed.

Lemma install_trans_ok (bl : list Z) (V : gmap Z (list Z)) (D : gset Z) (ds : list (Z * list Z))
    (k0 k : kernel) (e : schedule kernel) (P : gmap (Z * Z) (list Z) -> Prop) :
  brep k V D ∅ -> geometry LS NL k -> header bl k ->
  Z.of_nat (length bl) <= NL - 1 -> (size D < NBUF)%nat ->
  (forall b, b ∈ bl -> home_ok LS NL (k_disksize k) b) ->
  (forall b, b ∈ D -> ~ in_log LS NL b) ->
  log_data V bl ds ->
  (forall j b, bl !! j = Some b -> b ∈ D ∖ list_to_set (take j bl) \/ (size D < NBUF - 1)%nat) ->
  crash_safe P k0 k ->
  (forall j, disk_wf (k_disksize k) (install (k_disk k) (on_disk (take j ds))) ->
     P (install (k_disk k) (on_disk (take j ds)))) ->
  wp install_trans (fun _ e' k' => e' = e /\ bframe k k' /\ crash_safe P k0 k' /\
    brep k' (install V ds) (D ∖ list_to_set bl) ∅ /\
    k_disk k' = install (k_disk k) (on_disk ds)) e k.
Proof.
  intros Hrep Hg Hh Hn Hsz Hbl HD Hds Hbuf Hcs HP. pose proof Hg as [G1 G2 G3 G4 G5 G6 G7 G8].
  unfold install_trans. eapply wp_mono.
  { apply (wp_for_lh bl) with (I := fun j e' k' => e' = e /\ bframe k k' /\ crash_safe P k0 k' /\
      brep k' (install V (take j ds)) (D ∖ list_to_set (take j bl)) ∅ /\
      k_disk k' = install (k_disk k) (on_disk (take j ds))).
    - apply Hh.
    - intros j e1 k1 (_ & Hf & _). rewrite (proj1 (bframe_log _ _ Hf)). apply Hh.
    - intros j b e1 k1 (-> & Hf & Hc1 & Hrep1 & Hdk1) Hb.
      pose proof (lookup_lt_Some _ _ _ Hb) as Hj.
      pose proof (Hbl b (list_elem_of_lookup_2 _ _ _ Hb)) as (Hb1 & Hb2 & _).
      destruct (log_data_lookup _ _ _ _ _ Hds Hb) as (d & Hdj & HVj).
      destruct (bframe_log _ _ Hf) as [Hlg Hsize].
      set (from := LS + 1 + Z.of_nat j) in *.
      assert (in_log LS NL from) as Hfl by (unfold in_log, from; lia).
      assert (b <> from) as Hbf by (intros ->; done).
      assert (from ∉ D) as HfD by (intros Hx; by apply HD in Hx).
      assert (install V (take j ds) !! from = Some d) as HV1.
      { rewrite install_notin; [done|]. rewrite fmap_take, (proj1 Hds). intros Hx.
        destruct (Hbl from) as (_ & Hy & _); [|done]. by eapply elem_of_take in Hx as (i & Hi & _); eapply list_elem_of_lookup_2. }
      assert (size (D ∖ list_to_set (take j bl)) <= size D)%nat as Hsz1 by (apply subseteq_size; set_solver).
      unfold get_log. apply wp_bind, wp_gets. rewrite Hlg, G1, G2.
      assert (u32 (LS + Z.of_nat j + 1) = from) as -> by (unfold from; rewrite u32_small; lia).
      apply wp_bind. eapply (wp_bread k1); [done|done|unfold from; lia|right|].
      { rewrite dom_empty_L, union_empty_r_L. lia. }
      intros bfrom k2 Hf2 Hrep2 Hd2 Hw2. apply wp_bind.
      eapply (wp_get_block bl); [|exact Hb|].
      { eapply header_frame; [|exact Hf2]. by eapply header_frame. }
      assert (u32 b = b) as -> by (rewrite u32_small; lia).
      apply wp_bind. eapply (wp_bread k2 _ _ _ b); [done|by rewrite lookup_insert_ne| | |].
      { rewrite (proj2 (bframe_log _ _ Hf2)), Hsize. done. }
      { destruct (Hbuf j b Hb) as [Hx|Hx]; [by left|right].
        rewrite dom_insert_L, dom_empty_L, union_empty_r_L. rewrite size_union_alt.
        assert (size ({[from]} ∖ (D ∖ list_to_set (take j bl)) : gset Z) <= 1)%nat; [|lia].
        rewrite <- (size_singleton (C := gset Z) from). apply subseteq_size. set_solver. }
      intros bto k3 Hf3 Hrep3 Hd3 Hw3. rewrite insert_insert_ne in Hrep3 by done.
      eapply (wp_copy k3 _ _ from b); [done|done|exact HV1| |].
      { right. rewrite Hd3, Hd2. rewrite (brep_disk _ _ _ _ from Hrep1); [done|set_solver|done|].
        unfold from. lia. }
      intros k7 Hf7 Hrep7 Hd7 Hw7.
      assert (k_disk k7 = install (k_disk k) (on_disk (take (S j) ds))) as Hd7'.
      { rewrite Hd7, Hd3, Hd2, Hdk1, !on_disk_take.
        by rewrite (install_take_S _ _ _ _ _ (on_disk_lookup _ _ _ _ Hdj)). }
      split; [done|]. split.
      { etransitivity; [exact Hf|]. etransitivity; [exact Hf2|]. by etransitivity. }
      split.
      { eapply (crash_safe_write P k0 k3 k7); [|done|done|].
        2: { rewrite Hd7'. apply HP. rewrite <- Hd7'.
             destruct (bframe_log _ _ Hf2) as [_ E2], (bframe_log _ _ Hf3) as [_ E3],
               (bframe_log _ _ Hf7) as [_ E7].
             rewrite <- Hsize, <- E2, <- E3, <- E7. by eapply brep_disk_wf. }
        eapply crash_safe_same; [exact Hc1|congruence|congruence]. }
      split; [|done].
      rewrite (install_take_S _ _ _ _ _ Hdj), (take_S_r _ _ _ Hb), list_to_set_app_L.
      replace (D ∖ (list_to_set (take j bl) ∪ list_to_set [b])) with
        (D ∖ list_to_set (take j bl) ∖ {[b]}) by set_solver. done.
    - split; [done|]. split; [done|]. split; [done|]. rewrite !take_0. cbn [list_to_set on_disk fmap list_fmap].
      rewrite !install_nil, difference_empty_L. done. }
  intros [] e' k' (-> & H1 & H2 & H3 & H4).
  assert (length ds = length bl) as Hlen by (rewrite <- (proj1 Hds); by rewrite length_fmap).
  rewrite (take_ge ds), (take_ge bl) in * by lia. done.
Qed.

(** ** What recovery makes of a disk *)

Lemma dblock_lookup dk bno d : dk !! (1, bno) = Some d -> dblock dk bno = d.
Proof. intros Hd. unfold dblock. by rewrite Hd. Qed.

Lemma recovered_clean dk : hdr_n (dblock dk LS) = 0 -> recovered LS dk = dk.
Proof. intros Hn. unfold recovered, logged. rewrite Hn. apply install_nil. Qed.

(** The log of a disk with header [hd]. *)
Lemma logged_eq dk bl hd ds :
  dk !! (1, LS) = Some hd -> hdr_is bl hd -> ds.*1 = bl ->
  (forall i b d, ds !! i = Some (b, d) -> dk !! (1, LS + 1 + Z.of_nat i) = Some d) ->
  logged LS dk = ds.
Proof.
  intros Hhd (_ & Hn & Hb) <- Hds. unfold logged.
  rewrite (dblock_lookup _ _ _ Hhd), Hn, Nat2Z.id, length_fmap.
  apply list_eq. intros i. rewrite list_lookup_fmap.
  destruct (ds !! i) as [[b d]|] eqn:E.
  - rewrite lookup_seq_lt by (by eapply lookup_lt_Some). simpl.
    rewrite (Hb i b) by (by rewrite list_lookup_fmap, E).
    by rewrite (dblock_lookup _ _ _ (Hds i b d E)).
  - rewrite lookup_seq_ge; [done|]. by apply lookup_ge_None.
Qed.

Lemma elem_on_disk_keys ds a b : (a, b) ∈ (on_disk ds).*1 <-> a = 1 /\ b ∈ ds.*1.
Proof.
  unfold on_disk. rewrite <- list_fmap_compose. split.
  - intros (x & [= -> ->] & Hx)%list_elem_of_fmap. split; [done|]. by apply list_elem_of_fmap_2.
  - intros [-> (x & -> & Hx)%list_elem_of_fmap]. apply list_elem_of_fmap. by exists x.
Qed.

Lemma log_wf_clean size dk : hdr_n (dblock dk LS) = 0 -> 1 <= NL -> log_wf LS NL size dk.
Proof.
  intros Hn HNL. split; [lia|]. unfold logged. rewrite Hn. intros b Hb.
  by apply not_elem_of_nil in Hb.
Qed.

(** Installing a part of the log does not change the log. *)
Lemma logged_again dk j :
  (forall b, b ∈ (logged LS dk).*1 -> ~ in_log LS NL b) ->
  Z.of_nat (length (logged LS dk)) <= NL - 1 -> 1 <= NL ->
  let dk' := install dk (on_disk (take j (logged LS dk))) in
  logged LS dk' = logged LS dk /\ dblock dk' LS = dblock dk LS.
Proof.
  intros Hout Hlen HNL dk'.
  assert (forall c, in_log LS NL c -> dk' !! (1, c) = dk !! (1, c)) as Hsame.
  { intros c Hc. apply install_notin. rewrite elem_on_disk_keys. intros [_ Hx].
    eapply Hout; [|exact Hc]. rewrite fmap_take in Hx.
    apply elem_of_take in Hx as (i & Hi & _). by eapply list_elem_of_lookup_2. }
  unfold logged, dblock in *. rewrite (Hsame LS) by (unfold in_log; lia). split; [|done].
  apply list_fmap_ext. intros i x Hx. apply lookup_seq in Hx as [-> Hx]. simpl.
  rewrite Hsame; [done|]. rewrite length_fmap, length_seq in Hlen. unfold in_log. lia.
Qed.

(** A disk on which a part of the log was installed recovers to the same. *)
Lemma recovered_again dk j :
  (forall b, b ∈ (logged LS dk).*1 -> ~ in_log LS NL b) ->
  Z.of_nat (length (logged LS dk)) <= NL - 1 -> 1 <= NL ->
  recovered LS (install dk (on_disk (take j (logged LS dk)))) = recovered LS dk.
Proof.
  intros Hout Hlen HNL. destruct (logged_again dk j Hout Hlen HNL) as [Hlog _].
  unfold recovered. rewrite Hlog. apply install_again.
  intros b Hb. rewrite on_disk_take, fmap_take in Hb.
  apply elem_of_take in Hb as (i & Hi & _). by eapply list_elem_of_lookup_2.
Qed.

(** A disk whose log has all the blocks that differ from [V] recovers to [V]. *)
Lemma recovered_new dk V size (ds : list (Z * list Z)) :
  logged LS dk = ds -> NoDup ds.*1 ->
  (forall b d, (b, d) ∈ ds -> V !! b = Some d) ->
  (forall c, 0 <= c < size -> ~ in_log LS NL c -> c ∉ ds.*1 -> dk !! (1, c) = V !! c) ->
  fs_is LS NL size (recovered LS dk) V.
Proof.
  intros Hlog Hnd Hin Hout c Hc Hl. unfold recovered. rewrite Hlog.
  destruct (decide (c ∈ ds.*1)) as [Hx|Hx].
  - apply list_elem_of_fmap in Hx as ([b d] & -> & Hx). simpl in *. rewrite (Hin _ _ Hx).
    unfold install. apply lookup_union_Some_l. apply elem_of_list_to_map_1.
    + rewrite fmap_reverse, reverse_Permutation. unfold on_disk. rewrite <- list_fmap_compose.
      change (fst ∘ (fun bd : Z * list Z => (1, bd.1, bd.2))) with ((pair 1) ∘ (@fst Z (list Z))).
      rewrite list_fmap_compose. apply NoDup_fmap_2; [|done]. by intros ? ? [=].
    + rewrite elem_of_reverse. unfold on_disk. apply list_elem_of_fmap. by exists (b, d).
  - rewrite install_notin; [by apply Hout|]. rewrite elem_on_disk_keys. tauto.
Qed.

(** ** [commit] *)

(** What the log may change: the cache and the disk, and its own state. *)
Definition lframe (k k' : kernel) : Prop := exists lg, bframe (set_k_log lg k) k'.

#[export] Instance lframe_preorder : PreOrder lframe.
Proof.
  split.
  - intros k. exists (k_log k). by rewrite set_k_log_id.
  - intros k1 k2 k3 [lg Hf] [lg' Hf']. exists lg'.
    destruct Hf as (bc & dk & ws & ide & pt & Hw & ->).
    destruct Hf' as (bc' & dk' & ws' & ide' & pt' & Hw' & ->).
    exists bc', dk', ws', ide', pt'. split; [|done]. by transitivity pt.
Qed.

Lemma bframe_lframe k k' : bframe k k' -> lframe k k'.
Proof. intros Hf. exists (k_log k). by rewrite set_k_log_id. Qed.

Lemma set_log_lframe lg k : lframe k (set_k_log lg k).
Proof. by exists lg. Qed.

(** The disk can be recovered, to the blocks before the transaction or to those after
    it. *)
Definition atomic (size : Z) (Vold Vnew : gmap Z (list Z)) (dk : gmap (Z * Z) (list Z)) : Prop :=
  disk_wf size dk /\ log_wf LS NL size dk /\
  (fs_is LS NL size (recovered LS dk) Vold \/
   fs_is LS NL size (recovered LS dk) Vnew).

(** The log of the disk is empty and the blocks [bl] are in the transaction. *)
Record ready (k : kernel) (V : gmap Z (list Z)) (bl : list Z) : Prop := {
  rd_rep : brep k V (list_to_set bl) ∅;
  rd_geom : geometry LS NL k;
  rd_header : header bl k;
  rd_nodup : NoDup bl;
  rd_len : Z.of_nat (length bl) <= NL - 1;
  rd_home b : b ∈ bl -> home_ok LS NL (k_disksize k) b;
  rd_empty : hdr_n (dblock (k_disk k) LS) = 0
}.

Lemma ready_size k V bl : ready k V bl -> (size (list_to_set bl : gset Z) < NBUF)%nat.
Proof.
  intros [_ [_ _ _ _ _ G6 _ _] _ Hnd Hlen _ _]. rewrite size_list_to_set by done.
  unfold LOGSIZE, MAXOPBLOCKS in G6. unfold NBUF. lia.
Qed.

Lemma fs_is_brep k V D B : brep k V D B -> D = ∅ -> B = ∅ -> fs_is LS NL (k_disksize k) (k_disk k) V.
Proof. intros Hrep -> -> c Hc _. by apply (brep_disk _ _ _ _ c Hrep). Qed.

(** The log data of the transaction after [write_log]. *)
Lemma copied_data (bl : list Z) (V V' : gmap Z (list Z)) size :
  (forall b, b ∈ bl -> is_Some (V !! b)) -> (forall b, b ∈ bl -> home_ok LS NL size b) ->
  log_copied bl V V' (length bl) -> Z.of_nat (length bl) <= NL - 1 ->
  exists ds, log_data V' bl ds /\ (forall b d, (b, d) ∈ ds -> V !! b = Some d /\ V' !! b = Some d).
Proof.
  intros HV Hh Hc Hlen. exists ((fun b => (b, default [] (V !! b))) <$> bl). split; [split|].
  - rewrite <- list_fmap_compose. apply list_fmap_id.
  - intros i b d Hi. rewrite list_lookup_fmap in Hi.
    destruct (bl !! i) as [b'|] eqn:E; simplify_eq/=.
    destruct (HV b) as [d Hd]; [by eapply list_elem_of_lookup_2|]. rewrite Hd. simpl.
    rewrite <- Hd. apply Hc; [by eapply lookup_lt_Some|done].
  - intros b d (b' & [= -> ->] & Hb)%list_elem_of_fmap. destruct (HV b' Hb) as [d Hd].
    rewrite (home_copied _ _ _ _ size b' Hc) by auto. by rewrite Hd.
Qed.

(** The number of operations and the commit flag are unchanged. *)
Definition same_ops (k k' : kernel) : Prop :=
  lg_outstanding (k_log k') = lg_outstanding (k_log k) /\
  lg_committing (k_log k') = lg_committing (k_log k).

Lemma bframe_ops k k' : bframe k k' -> same_ops k k'.
Proof. intros Hf. unfold same_ops. by rewrite (proj1 (bframe_log _ _ Hf)). Qed.

Lemma lframe_locks k k' :
  lframe k k' -> k_locks k' = k_locks k /\ k_cpu k' = k_cpu k.
Proof. by intros (lg & bc & dk & ws & ide & pt & _ & ->). Qed.

(** The end of [commit] and of [recover_from_log]: the log is cleared. *)
Lemma clear_log_ok (k : kernel) (V : gmap Z (list Z)) (k0 : kernel)
    (P : gmap (Z * Z) (list Z) -> Prop) (e : schedule kernel) :
  brep k V ∅ ∅ -> geometry LS NL k -> crash_safe P k0 k ->
  (forall hd, hdr_n hd = 0 -> disk_wf (k_disksize k) (<[(1, LS) := hd]> (k_disk k)) ->
     P (<[(1, LS) := hd]> (k_disk k))) ->
  wp (upd_log (set_lg_n 0) ;; write_head) (fun _ e' k' => e' = e /\ lframe k k' /\
    same_ops k k' /\ crash_safe P k0 k' /\
    exists hd, ready k' (<[LS := hd]> V) [] /\ k_disk k' = <[(1, LS) := hd]> (k_disk k)) e k.
Proof.
  intros Hrep Hg Hcs HP. apply wp_bind, wp_modify.
  set (k1 := set_k_log (set_lg_n 0 (k_log k)) k).
  assert (brep k1 V ∅ ∅) as Hrep1 by (by eapply brep_ext).
  assert (geometry LS NL k1) as Hg1 by (by destruct Hg).
  assert (header [] k1) as Hh1 by (split; [done|]; split; [simpl; lia|done]).
  eapply wp_mono.
  { apply (write_head_ok [] V ∅ k1); try done; [|set_solver].
    rewrite size_empty. unfold NBUF. lia. }
  intros [] e' k' (-> & Hf & hd & Hhd & Hrep' & Hd & Hw).
  pose proof Hhd as (_ & Hhn & _).
  split; [done|]. split; [by exists (set_lg_n 0 (k_log k))|].
  split; [apply (bframe_ops _ _ Hf)|]. split.
  { eapply (crash_safe_write P k0 k1 k'); [|done|done|].
    2: { rewrite Hd. apply HP; [done|]. change (k_disk k) with (k_disk k1).
         change (k_disksize k) with (k_disksize k1). rewrite <- Hd, <- (proj2 (bframe_log _ _ Hf)).
         by eapply brep_disk_wf. }
    by eapply crash_safe_same. }
  exists hd. split; [|done]. split; try done.
  - by eapply geometry_frame.
  - by eapply header_frame.
  - constructor.
  - destruct Hg. simpl. lia.
  - intros b Hb. by apply not_elem_of_nil in Hb.
  - rewrite Hd. unfold dblock. by rewrite lookup_insert_eq.
Qed.

(** The part of [commit] up to the installation: [write_log] makes the log's
    copies while the disk still recovers to [Vold]; once [write_head] has
    written the header it recovers to [V]. *)
Lemma commit_point_ok (k : kernel) (V Vold : gmap Z (list Z)) (bl : list Z)
    (e : schedule kernel) :
  ready k V bl -> fs_is LS NL (k_disksize k) (k_disk k) Vold ->
  wp (write_log ;; write_head) (fun _ e' k' => e' = e /\ bframe k k' /\
    crash_safe (atomic (k_disksize k) Vold V) k k' /\
    exists V' ds, brep k' V' (list_to_set bl) ∅ /\ log_data V' bl ds /\
      (forall c, ~ in_log LS NL c -> V' !! c = V !! c) /\
      (forall b d, (b, d) ∈ ds -> V' !! b = Some d) /\
      logged LS (k_disk k') = ds /\
      fs_is LS NL (k_disksize k) (recovered LS (k_disk k')) V) e k.
Proof.
  intros Hrd Hold. pose proof (ready_size _ _ _ Hrd) as Hsz.
  pose proof Hrd as [Hrep Hg Hh Hnd Hlen Hhome Hempty].
  pose proof Hg as [G1 G2 G3 G4 G5 G6 G7 G8].
  assert (forall b, b ∈ (list_to_set bl : gset Z) -> ~ in_log LS NL b) as HD.
  { intros b Hb%elem_of_list_to_set. by apply Hhome. }
  assert (LS ∉ (list_to_set bl : gset Z)) as HLS by (intros Hx; apply HD in Hx; unfold in_log in *; lia).
  apply wp_bind. eapply wp_mono.
  { apply (write_log_ok bl V (list_to_set bl) k k e (atomic (k_disksize k) Vold V)); try done.
    - intros b Hb. rewrite elem_of_list_to_set. auto.
    - apply crash_safe_refl. split; [by eapply brep_disk_wf|].
      split; [by apply log_wf_clean; [|lia]|]. left. by rewrite recovered_clean.
    - intros dk Hwf Hdk. assert (hdr_n (dblock dk LS) = 0) as Hn
        by (unfold dblock; by rewrite Hdk by lia).
      split; [done|]. split; [by apply log_wf_clean; [|lia]|]. left. rewrite recovered_clean by done.
      intros c Hc Hl. rewrite Hdk by (unfold in_log in Hl; lia). by apply Hold. }
  intros [] e1 k1 (-> & Hf1 & Hc1 & V1 & Hrep1 & Hcp & Hd1).
  destruct (copied_data bl V V1 (k_disksize k)) as (ds & Hds & HdsV); [|done|done|done|].
  { intros b Hb. destruct (brep_block _ _ _ _ b Hrep) as (d & -> & _); [by apply Hhome|done]. }
  eapply wp_mono.
  { apply (write_head_ok bl V1 (list_to_set bl) k1); try done.
    - by eapply geometry_frame.
    - by eapply header_frame.
    - intros b Hb. destruct (Hhome b Hb). lia. }
  intros [] e2 k2 (-> & Hf2 & hd & Hhd & Hrep2 & Hd2 & Hw2).
  assert (logged LS (k_disk k2) = ds) as Hlog.
  { apply (logged_eq _ bl hd); [by rewrite Hd2, lookup_insert_eq|done|apply Hds|].
    intros i b d Hi. rewrite Hd2, lookup_insert_ne by (intros [=]; lia).
    assert (i < length bl)%nat as Hil.
    { rewrite <- (proj1 Hds), length_fmap. by eapply lookup_lt_Some. }
    rewrite (brep_disk _ _ _ _ _ Hrep1).
    - by eapply Hds.
    - intros Hx. apply HD in Hx. unfold in_log in Hx. lia.
    - done.
    - rewrite (proj2 (bframe_log _ _ Hf1)). lia. }
  assert (fs_is LS NL (k_disksize k) (recovered LS (k_disk k2)) V) as Hnew.
  { apply (recovered_new _ _ _ ds); [done|by rewrite (proj1 Hds)|apply HdsV|].
    intros c Hc Hl Hx. rewrite Hd2, lookup_insert_ne by (unfold in_log in Hl; intros [=]; lia).
    rewrite Hd1 by (unfold in_log in Hl; lia). apply (brep_disk _ _ _ _ _ Hrep); [|done|done].
    by rewrite elem_of_list_to_set, <- (proj1 Hds). }
  split; [done|]. split; [by etransitivity|]. split.
  { eapply (crash_safe_write _ k k1 k2); [done|done|done|]. split; [|split; [|by right]].
    - rewrite <- (proj2 (bframe_log _ _ Hf1)), <- (proj2 (bframe_log _ _ Hf2)). by eapply brep_disk_wf.
    - split; [|rewrite Hlog, (proj1 Hds); done].
      rewrite (dblock_lookup _ _ hd) by (by rewrite Hd2, lookup_insert_eq).
      rewrite (proj1 (proj2 Hhd)). lia. }
  exists (<[LS:=hd]> V1), ds. split; [done|]. split_and!.
  - split; [apply Hds|]. intros i b d Hi. rewrite lookup_insert_ne by lia. by eapply Hds.
  - intros c Hc. rewrite lookup_insert_ne by (unfold in_log in Hc; lia).
    apply Hcp. unfold in_log in Hc. lia.
  - intros b d Hb. rewrite lookup_insert_ne; [by apply HdsV|].
    intros ->. apply HLS. rewrite elem_of_list_to_set, <- (proj1 Hds).
    apply list_elem_of_fmap. by exists (b, d).
  - done.
  - done.
Qed.

Lemma fs_is_header dk V size hd :
  fs_is LS NL size dk V -> hdr_n hd = 0 -> 1 <= NL ->
  fs_is LS NL size (recovered LS (<[(1, LS) := hd]> dk)) V.
Proof.
  intros Hfs Hhd HNL. rewrite recovered_clean.
  - intros c Hc Hl. rewrite lookup_insert_ne; [by apply Hfs|].
    intros [= <-]. apply Hl. unfold in_log. lia.
  - unfold dblock. by rewrite lookup_insert_eq.
Qed.

Lemma commit_ok (k : kernel) (V Vold : gmap Z (list Z)) (bl : list Z) (e : schedule kernel) :
  ready k V bl -> fs_is LS NL (k_disksize k) (k_disk k) Vold ->
  wp commit (fun _ e' k' => e' = e /\ lframe k k' /\ same_ops k k' /\
    crash_safe (atomic (k_disksize k) Vold V) k k' /\
    exists V', ready k' V' [] /\ forall c, ~ in_log LS NL c -> V' !! c = V !! c) e k.
Proof.
  intros Hrd Hold. pose proof (ready_size _ _ _ Hrd) as Hsz.
  pose proof Hrd as [Hrep Hg Hh Hnd Hlen Hhome Hempty].
  unfold commit. apply wp_bind, wp_gets.
  destruct (Z.ltb_spec 0 (lg_n (k_log k))) as [Hn|Hn]; cbn [when]; last first.
  { assert (bl = []) as -> by (apply nil_length_inv; destruct Hh; lia).
    apply wp_ret. split; [done|]. split; [reflexivity|]. split; [done|].
    split; [|by exists V]. apply crash_safe_refl. split; [by eapply brep_disk_wf|].
    split; [apply log_wf_clean; destruct Hg; [done|lia]|]. left. by rewrite recovered_clean. }
  eapply wp_proper; [rewrite <- bind_assoc; reflexivity|done..|].
  apply wp_bind. eapply wp_mono; [by apply (commit_point_ok k V Vold bl)|].
  intros [] e1 k1 (-> & Hf1 & Hc1 & V1 & ds & Hrep1 & Hds & HV1 & HdsV & Hlog & Hnew).
  pose proof (geometry_frame _ _ Hg Hf1) as Hg1.
  pose proof (bframe_log _ _ Hf1) as [_ Hsize].
  assert (NL >= 1) as HNL by (destruct Hg; lia).
  assert (Z.of_nat (length ds) <= NL - 1) as Hdl by (rewrite <- (length_fmap fst), (proj1 Hds); done).
  assert (forall b, b ∈ ds.*1 -> ~ in_log LS NL b) as Hout.
  { intros b Hb. rewrite (proj1 Hds) in Hb. by apply Hhome. }
  destruct (crash_safe_now _ _ _ Hc1) as (_ & [Hlw1 Hlw1'] & _). rewrite Hlog in Hlw1'.
  apply wp_bind. eapply wp_mono.
  { apply (install_trans_ok bl V1 (list_to_set bl) ds k k1 e (atomic (k_disksize k) Vold V)); try done.
    - by eapply header_frame.
    - by rewrite Hsize.
    - intros b Hb%elem_of_list_to_set. by apply Hhome.
    - intros j b Hb. left. apply elem_of_difference. split.
      + apply elem_of_list_to_set. by eapply list_elem_of_lookup_2.
      + rewrite elem_of_list_to_set. intros (i & Hi & Hij)%elem_of_take.
        pose proof (NoDup_lookup _ _ _ _ Hnd Hi Hb). lia.
    - intros j Hwf. rewrite Hsize in Hwf. split; [done|].
      destruct (logged_again (k_disk k1) j) as [Hla Hha]; rewrite ?Hlog in *; [done|done|lia|].
      split; [split; [by rewrite Hha; apply Hlw1|rewrite Hla; apply Hlw1']|].
      right. rewrite <- Hlog, recovered_again; rewrite ?Hlog; [done|done|done|lia]. }
  intros [] e2 k2 (-> & Hf2 & Hc2 & Hrep2 & Hd2).
  rewrite install_id in Hrep2 by done. rewrite difference_diag_L in Hrep2.
  eapply wp_mono.
  { apply (clear_log_ok k2 V1 k (atomic (k_disksize k) Vold V)); [done|by eapply geometry_frame|done|].
    intros hd Hhd Hwf. rewrite (proj2 (bframe_log _ _ Hf2)), Hsize in Hwf. split; [done|].
    split; [apply log_wf_clean; [unfold dblock; by rewrite lookup_insert_eq|lia]|].
    right. rewrite Hd2. apply fs_is_header; [|done|lia].
    unfold recovered in Hnew. by rewrite Hlog in Hnew. }
  intros [] e3 k3 (-> & Hf3 & Ho3 & Hc3 & hd & Hrd3 & Hd3).
  split; [done|]. split.
  { etransitivity; [by apply bframe_lframe|]. etransitivity; [by apply bframe_lframe|done]. }
  split.
  { destruct Ho3, (bframe_ops _ _ Hf1), (bframe_ops _ _ Hf2). split; congruence. }
  split; [done|]. exists (<[LS:=hd]> V1). split; [done|].
  intros c Hc. rewrite lookup_insert_ne; [by apply HV1|].
  intros ->. apply Hc. unfold in_log. lia.
Qed.

(** ** Recovery *)

Lemma brep_set_log lg k V D B : brep k V D B -> brep (set_k_log lg k) V D B.
Proof. intros Hrep. by eapply brep_ext. Qed.

Lemma lframe_disksize k k' : lframe k k' -> k_disksize k' = k_disksize k.
Proof. intros [lg Hf]. apply (bframe_log _ _ Hf). Qed.

Lemma put_block_eq i v e k :
  (i < length (lg_block (k_log k)))%nat ->
  put_block i v e k =
    Ok tt e (set_k_log (set_lg_block (<[i:=v]> (lg_block (k_log k))) (k_log k)) k).
Proof.
  intros Hi. unfold put_block, get_log, bind, gets.
  by rewrite (proj2 (Nat.ltb_lt _ _) Hi).
Qed.

(** The loop of [read_head] that copies the block numbers. *)
Lemma read_blocks_ok k V b hd n e :
  brep k V ∅ (<[LS:=b]> ∅) -> V !! LS = Some hd ->
  length (lg_block (k_log k)) = Z.to_nat LOGSIZE -> lg_n (k_log k) = Z.of_nat n ->
  (n <= Z.to_nat LOGSIZE)%nat ->
  wp (for_lh (fun i => bf <- get_buf b ;; put_block i (s32 (get32 (4 + 4 * i) (b_data bf)))))
    (fun _ e' k' => e' = e /\ exists blks,
       k' = set_k_log (set_lg_block blks (k_log k)) k /\ length blks = Z.to_nat LOGSIZE /\
       forall i, (i < n)%nat -> blks !! i = Some (hdr_block hd i)) e k.
Proof.
  intros Hrep Hhd Hlen Hn Hmax.
  set (bl := hdr_block hd <$> seq 0 n).
  assert (length bl = n) as Hbl by (unfold bl; by rewrite length_fmap, length_seq).
  eapply wp_mono.
  { apply (wp_for_lh bl) with (I := fun j e' k' => e' = e /\ exists blks,
       k' = set_k_log (set_lg_block blks (k_log k)) k /\ length blks = Z.to_nat LOGSIZE /\
       forall i, (i < j)%nat -> blks !! i = Some (hdr_block hd i)).
    - lia.
    - intros j e' k' (_ & blks & -> & _). rewrite Hbl, <- Hn. done.
    - intros j v e' k' (-> & blks & -> & Hl & Hi) Hj. apply lookup_lt_Some in Hj.
      apply wp_bind. eapply (wp_get_held _ V ∅ _ LS); [|by rewrite lookup_insert_eq|done|].
      { by apply brep_set_log. }
      intros bf -> _ _. unfold wp. rewrite put_block_eq by (cbn; lia).
      split; [done|]. eexists. split; [reflexivity|]. cbn. rewrite length_insert.
      split; [done|]. intros i Hij. destruct (decide (i = j)) as [->|Hne].
      + rewrite list_lookup_insert_eq by lia. done.
      + rewrite list_lookup_insert_ne by done. apply Hi. lia.
    - split; [done|]. exists (lg_block (k_log k)). split; [|split; [done|intros; lia]].
      replace (set_lg_block _ _) with (k_log k) by (by destruct (k_log k)).
      by rewrite set_k_log_id. }
  rewrite Hbl. done.
Qed.

Lemma read_head_ok k V hd e :
  brep k V ∅ ∅ -> geometry LS NL k -> V !! LS = Some hd ->
  0 <= hdr_n hd <= NL - 1 ->
  wp read_head (fun _ e' k' => e' = e /\ lframe k k' /\ same_ops k k' /\ brep k' V ∅ ∅ /\
    geometry LS NL k' /\ header (hdr_block hd <$> seq 0 (Z.to_nat (hdr_n hd))) k' /\
    k_disk k' = k_disk k /\ k_writes k' = k_writes k) e k.
Proof.
  intros Hrep Hg Hhd Hn. pose proof Hg as [G1 G2 G3 G4 G5 G6 G7 G8].
  unfold read_head, get_log. apply wp_bind, wp_gets. rewrite G1, G2, u32_small by lia. apply wp_bind.
  eapply wp_bread; [done|done|lia| |].
  { right. rewrite dom_empty_L, union_empty_r_L, size_empty. unfold NBUF. lia. }
  intros b k1 Hf1 Hrep1 Hd1 Hw1. apply wp_bind.
  eapply (wp_get_held _ _ _ _ LS); [done|by rewrite lookup_insert_eq|done|].
  intros bf -> _ _. apply wp_bind, wp_modify. fold (hdr_n hd).
  set (k2 := set_k_log (set_lg_n (hdr_n hd) (k_log k1)) k1).
  destruct (bframe_log _ _ Hf1) as [Hlg1 Hs1].
  apply wp_bind. eapply wp_mono.
  { apply (read_blocks_ok k2 V b hd (Z.to_nat (hdr_n hd))); try done.
    - by apply brep_set_log.
    - cbn. by rewrite Hlg1.
    - cbn. lia.
    - lia. }
  intros [] e3 k3 (-> & blks & Hk3 & Hl3 & Hi3).
  assert (brep k3 V ∅ (<[LS:=b]> ∅)) as Hrep3 by (rewrite Hk3; by do 2 apply brep_set_log).
  eapply (wp_brelse k3 V ∅ _ LS); [done|by rewrite lookup_insert_eq| |].
  { right. rewrite Hk3. cbn. rewrite Hd1.
    apply (brep_disk _ _ _ _ _ Hrep); [set_solver|done|lia]. }
  intros k4 Hf4 Hrep4 Hd4 Hw4. rewrite delete_insert_eq, delete_empty in Hrep4.
  split; [done|]. split_and!.
  - etransitivity; [apply bframe_lframe, Hf1|]. etransitivity; [apply (set_log_lframe (k_log k3))|].
    apply bframe_lframe. rewrite Hk3 in *. exact Hf4.
  - unfold same_ops. rewrite (proj1 (bframe_log _ _ Hf4)), Hk3. cbn. by rewrite Hlg1.
  - done.
  - eapply geometry_frame; [|exact Hf4]. rewrite Hk3. constructor; cbn; rewrite ?Hlg1; try done; lia.
  - eapply header_frame; [|exact Hf4]. rewrite Hk3. split; [|split].
    + rewrite length_fmap, length_seq. by rewrite Z2Nat.id by lia.
    + rewrite length_fmap, length_seq. lia.
    + intros i x Hx. apply list_lookup_fmap_Some in Hx as (y & -> & Hy).
      apply lookup_seq in Hy as [-> Hy]. by apply Hi3.
  - rewrite Hd4, Hk3. done.
  - rewrite Hw4, Hk3. done.
Qed.

Lemma logged_keys dk :
  (logged LS dk).*1 = hdr_block (dblock dk LS) <$> seq 0 (Z.to_nat (hdr_n (dblock dk LS))).
Proof. unfold logged. by rewrite <- list_fmap_compose. Qed.

(** With nothing cached, the log data of the cache are those of the disk. *)
Lemma log_data_disk k V :
  brep k V ∅ ∅ -> geometry LS NL k -> log_wf LS NL (k_disksize k) (k_disk k) ->
  log_data V (hdr_block (dblock (k_disk k) LS) <$> seq 0 (Z.to_nat (hdr_n (dblock (k_disk k) LS))))
    (logged LS (k_disk k)).
Proof.
  intros Hrep [] Hwf. split; [apply logged_keys|].
  intros i b d Hi. unfold logged in Hi. apply list_lookup_fmap_Some in Hi as (y & [= -> ->] & Hy).
  apply lookup_seq in Hy as [-> Hy]. destruct Hwf as [Hn _].
  destruct (brep_block _ _ _ _ (LS + 1 + Z.of_nat i) Hrep) as (d & Hd & _); [lia|].
  simpl. rewrite Hd. f_equal. symmetry. apply dblock_lookup. rewrite <- Hd.
  apply (brep_disk _ _ _ _ _ Hrep); [set_solver|done|lia].
Qed.

Lemma recover_ok k V R e :
  brep k V ∅ ∅ -> geometry LS NL k -> log_wf LS NL (k_disksize k) (k_disk k) ->
  fs_is LS NL (k_disksize k) (recovered LS (k_disk k)) R ->
  wp recover_from_log (fun _ e' k' => e' = e /\ lframe k k' /\ same_ops k k' /\
    crash_safe (atomic (k_disksize k) R R) k k' /\
    exists V', ready k' V' [] /\
      forall c, 0 <= c < k_disksize k -> ~ in_log LS NL c -> V' !! c = R !! c) e k.
Proof.
  intros Hrep Hg Hwf HR. pose proof Hg as [G1 G2 G3 G4 G5 G6 G7 G8].
  pose proof (log_data_disk _ _ Hrep Hg Hwf) as Hds. pose proof Hwf as [Hn Hhome].
  destruct (brep_block _ _ _ _ LS Hrep) as (hd & Hhd & _); [lia|].
  assert (k_disk k !! (1, LS) = V !! LS) as Hdk by (apply (brep_disk _ _ _ _ _ Hrep); [set_solver|done|lia]).
  rewrite Hhd in Hdk. rewrite (dblock_lookup _ _ _ Hdk) in *.
  assert (length (logged LS (k_disk k)) = Z.to_nat (hdr_n hd)) as Hlen.
  { unfold logged. by rewrite length_fmap, length_seq, (dblock_lookup _ _ _ Hdk). }
  set (bl := hdr_block hd <$> seq 0 (Z.to_nat (hdr_n hd))) in *.
  unfold recover_from_log. apply wp_bind.
  eapply wp_mono; [by apply (read_head_ok k V hd)|].
  intros [] e1 k1 (-> & Hf1 & Ho1 & Hrep1 & Hg1 & Hh1 & Hd1 & Hw1). fold bl in Hh1.
  pose proof (lframe_disksize _ _ Hf1) as Hs1.
  assert (forall j, let dk := install (k_disk k) (on_disk (take j (logged LS (k_disk k)))) in
    disk_wf (k_disksize k) dk -> atomic (k_disksize k) R R dk) as HP.
  { intros j dk Hdkwf.
    assert (forall b, b ∈ (logged LS (k_disk k)).*1 -> ~ in_log LS NL b) as Hout by (intros b Hb; by apply Hhome).
    destruct (logged_again (k_disk k) j) as [Hla Hha]; [done|lia|lia|].
    split; [done|]. split.
    - split; [unfold dk; by rewrite Hha, (dblock_lookup _ _ _ Hdk)|unfold dk; by rewrite Hla].
    - left. unfold dk. by rewrite recovered_again by (try done; lia). }
  apply wp_bind. eapply wp_mono.
  { apply (install_trans_ok bl V ∅ (logged LS (k_disk k)) k k1 e (atomic (k_disksize k) R R)); try done.
    - unfold bl. rewrite length_fmap, length_seq. lia.
    - rewrite size_empty. unfold NBUF. lia.
    - rewrite Hs1. intros b Hb. apply Hhome. by rewrite (proj1 Hds).
    - intros j b _. right. rewrite size_empty. unfold NBUF. lia.
    - apply (crash_safe_same _ k k); [|done|done]. apply crash_safe_refl.
      pose proof (HP O) as HP0. rewrite take_0 in HP0. cbn [on_disk fmap list_fmap] in HP0.
      rewrite install_nil in HP0. apply HP0. by eapply brep_disk_wf.
    - rewrite Hd1, Hs1. exact HP. }
  intros [] e2 k2 (-> & Hf2 & Hc2 & Hrep2 & Hd2). rewrite Hd1 in Hd2.
  replace (∅ ∖ list_to_set bl) with (∅ : gset Z) in Hrep2 by set_solver.
  eapply wp_mono.
  { apply (clear_log_ok k2 (install V (logged LS (k_disk k))) k (atomic (k_disksize k) R R));
      [done|by eapply geometry_frame|done|].
    intros h Hh0 Hwf2. rewrite (proj2 (bframe_log _ _ Hf2)), Hs1 in Hwf2. split; [done|].
    split; [apply log_wf_clean; [unfold dblock; by rewrite lookup_insert_eq|lia]|].
    left. rewrite Hd2. apply fs_is_header; [done|done|lia]. }
  intros [] e3 k3 (-> & Hf3 & Ho3 & Hc3 & h & Hrd3 & Hd3). split; [done|]. split.
  { etransitivity; [exact Hf1|]. etransitivity; [by apply bframe_lframe|done]. }
  split.
  { destruct Ho1, Ho3, (bframe_ops _ _ Hf2). split; congruence. }
  split; [done|]. eexists. split; [exact Hrd3|]. intros c Hc Hl.
  rewrite <- (HR c Hc Hl). rewrite lookup_insert_ne by (intros ->; apply Hl; unfold in_log; lia).
  rewrite <- (brep_disk _ _ _ _ c Hrep2); [|set_solver|done|].
  - by rewrite Hd2.
  - by rewrite (proj2 (bframe_log _ _ Hf2)), Hs1.
Qed.

(** ** Transactions *)

(** Inside a transaction that has logged the blocks [bl], holding the buffers
    [B]. *)
Record txn (k : kernel) (V : gmap Z (list Z)) (bl : list Z) (B : gmap Z nat) : Prop := {
  tx_rep : brep k V (list_to_set bl) B;
  tx_geom : geometry LS NL k;
  tx_header : header bl k;
  tx_nodup : NoDup bl;
  tx_len : Z.of_nat (length bl) <= NL - 1;
  tx_home b : b ∈ bl -> home_ok LS NL (k_disksize k) b;
  tx_empty : hdr_n (dblock (k_disk k) LS) = 0;
  tx_lock : lock_free L_log k;
  tx_out : 1 <= lg_outstanding (k_log k);
  tx_comm : lg_committing (k_log k) = false
}.

(** Between transactions. *)
Record quiet (k : kernel) (V : gmap Z (list Z)) : Prop := {
  qu_ready : ready k V [];
  qu_lock : lock_free L_log k;
  qu_out : lg_outstanding (k_log k) = 0;
  qu_comm : lg_committing (k_log k) = false
}.

Lemma absorb_ok (bl blocks : list Z) bno :
  (forall i b, bl !! i = Some b -> blocks !! i = Some b) ->
  (forall b, b ∈ bl -> u32 b = b) ->
  if decide (bno ∈ bl) then bl !! absorb blocks (length bl) bno = Some bno
  else absorb blocks (length bl) bno = length bl.
Proof.
  revert blocks. induction bl as [|b bl IH]; intros blocks Hpre Hu.
  - rewrite decide_False by apply not_elem_of_nil. by destruct blocks.
  - destruct blocks as [|b' blocks]; [by specialize (Hpre O b eq_refl)|].
    assert (b' = b) as -> by (specialize (Hpre O b eq_refl); by simplify_eq/=).
    cbn [length absorb]. rewrite Hu by left.
    specialize (IH blocks). destruct (Z.eqb_spec b bno) as [->|Hne].
    + rewrite decide_True by left. done.
    + assert (if decide (bno ∈ bl) then bl !! absorb blocks (length bl) bno = Some bno
        else absorb blocks (length bl) bno = length bl) as IH'.
      { apply IH; [|by intros; apply Hu; right]. intros i x Hi. by apply (Hpre (S i)). }
      repeat case_decide; try done.
      * exfalso. set_solver.
      * exfalso. set_solver.
      * by rewrite IH'.
Qed.

(** The blocks of the transaction after [bno] was logged. *)
Definition log_add (bno : Z) (bl : list Z) : list Z :=
  if decide (bno ∈ bl) then bl else bl ++ [bno].

Lemma log_add_set bno bl : (list_to_set (log_add bno bl) : gset Z) = {[bno]} ∪ list_to_set bl.
Proof. unfold log_add. case_decide; set_solver. Qed.

(** The change of the header in memory. *)
Lemma log_header_ok bl bno k e :
  header bl k -> 0 <= bno < 2147483648 -> (forall b, b ∈ bl -> 0 <= b < 2147483648) ->
  (length bl < Z.to_nat LOGSIZE)%nat -> length (lg_block (k_log k)) = Z.to_nat LOGSIZE ->
  let i := absorb (lg_block (k_log k)) (Z.to_nat (lg_n (k_log k))) bno in
  exists blks, length blks = Z.to_nat LOGSIZE /\
    (put_block i (s32 bno) ;; lg <- get_log ;;
     when (Z.of_nat i =? lg_n lg) (upd_log (set_lg_n (lg_n lg + 1)))) e k =
    Ok tt e (set_k_log (set_lg_n (Z.of_nat (length (log_add bno bl)))
      (set_lg_block blks (k_log k))) k) /\
    (forall j b, log_add bno bl !! j = Some b -> blks !! j = Some b).
Proof.
  intros (Hn & Hmax & Hpre) Hbno Hbl Hlt Hlen i.
  pose proof (absorb_ok bl (lg_block (k_log k)) bno Hpre
    ltac:(intros b Hb; apply u32_small; specialize (Hbl b Hb); lia)) as Habs.
  assert (i = absorb (lg_block (k_log k)) (length bl) bno) as Hi by (unfold i; by rewrite Hn, Nat2Z.id).
  rewrite <- Hi in Habs. unfold log_add. exists (<[i:=bno]> (lg_block (k_log k))).
  rewrite length_insert. split; [done|].
  assert (i < length (lg_block (k_log k)))%nat as Hil.
  { case_decide; [apply lookup_lt_Some in Habs|]; lia. }
  split.
  - rewrite (bind_Ok _ _ _ _ _ _ _ (put_block_eq i (s32 bno) e k Hil)).
    rewrite s32_small by lia. unfold get_log, bind, gets. cbn [k_log set_k_log lg_n set_lg_block].
    case_decide as Hin.
    + apply lookup_lt_Some in Habs.
      assert (Z.of_nat i =? lg_n (k_log k) = false) as -> by (apply Z.eqb_neq; lia).
      cbn [when]. unfold ret. do 2 f_equal. rewrite <- Hn. by destruct (k_log k).
    + assert (Z.of_nat i =? lg_n (k_log k) = true) as -> by (apply Z.eqb_eq; lia).
      cbn [when]. unfold upd_log, modify. rewrite set_set_k_log, length_app. cbn.
      do 3 f_equal. lia.
  - intros j b Hj. destruct (decide (i = j)) as [<-|Hne].
    + rewrite list_lookup_insert_eq by done. case_decide; [congruence|].
      rewrite lookup_app_r, Habs, Nat.sub_diag in Hj by lia. done.
    + rewrite list_lookup_insert_ne by done. apply Hpre. case_decide; [done|].
      rewrite lookup_app_l in Hj; [done|]. apply lookup_lt_Some in Hj.
      rewrite length_app in Hj. simpl in Hj. lia.
Qed.

(** The kernel's state after [log_write]. *)
Lemma log_write_eq bl bno b k e bf :
  header bl k -> 0 <= bno < 2147483648 -> (forall c, c ∈ bl -> 0 <= c < 2147483648) ->
  length (lg_block (k_log k)) = Z.to_nat LOGSIZE -> lg_size (k_log k) <= LOGSIZE ->
  Z.of_nat (length bl) < lg_size (k_log k) - 1 -> 1 <= lg_outstanding (k_log k) ->
  lock_free L_log k -> cpu_ok k ->
  k_bcache k !! b = Some bf -> b_blockno bf = bno ->
  exists blks, length blks = Z.to_nat LOGSIZE /\
    (forall j c, log_add bno bl !! j = Some c -> blks !! j = Some c) /\
    log_write b e k = Ok tt e
      (set_k_bcache (alter (fun bf => set_b_flags (Z.lor (b_flags bf) B_DIRTY) bf) b (k_bcache k))
        (set_k_log (set_lg_n (Z.of_nat (length (log_add bno bl))) (set_lg_block blks (k_log k))) k)).
Proof.
  intros Hh Hbno Hbl Hlen Hsize Hlt Hout Hlock Hcpu Hbf Hbn. pose proof Hh as (Hn & Hmax & Hpre).
  set (k1 := lock_taken L_log k).
  destruct (log_header_ok bl bno k1 e) as (blks & Hl & Heq & Hblk); try done; [lia|].
  exists blks. split; [done|]. split; [done|].
  unfold log_write, get_log. unfold bind at 1, gets at 1. rewrite Hn.
  assert (LOGSIZE <=? Z.of_nat (length bl) = false) as -> by (apply Z.leb_gt; lia).
  assert (lg_size (k_log k) - 1 <=? Z.of_nat (length bl) = false) as -> by (apply Z.leb_gt; lia).
  assert (lg_outstanding (k_log k) <? 1 = false) as -> by (apply Z.ltb_ge; lia).
  cbn [orb]. step (acquire_ok L_log e k Hlock Hcpu). fold k1.
  unfold bind at 1, gets at 1. rewrite get_buf_eq.
  assert (buf_at k1 b = bf) as -> by (by apply buf_at_lookup). rewrite Hbn.
  unfold bind at 1, ret at 1. cbv beta iota.
  rewrite <- (bind_assoc3 (put_block _ _) (gets k_log)
    (fun lg => when (Z.of_nat (absorb (lg_block (k_log k1)) (Z.to_nat (lg_n (k_log k1))) bno) =? lg_n lg)
                 (upd_log (set_lg_n (lg_n lg + 1))))).
  rewrite (bind_Ok _ _ _ _ _ _ _ Heq). rewrite get_buf_eq, upd_buf_eq. unfold buf_at.
  rewrite (alter_read set_b_flags (fun bf => Z.lor (b_flags bf) B_DIRTY)).
  rewrite (release_ok L_log e k); [|done]. reflexivity.
Qed.

Lemma log_write_ok k V bl B bno b e :
  txn k V bl B -> B !! bno = Some b -> home_ok LS NL (k_disksize k) bno ->
  Z.of_nat (length bl) < NL - 1 ->
  exists k', log_write b e k = Ok tt e k' /\ lframe k k' /\ txn k' V (log_add bno bl) B /\
    k_disk k' = k_disk k /\ k_writes k' = k_writes k /\ lg_outstanding (k_log k') = lg_outstanding (k_log k).
Proof.
  intros [Hrep Hg Hh Hnd Hlen Hhome Hempty Hlock Hout Hcomm] HB Hok Hlt.
  pose proof Hg as [G1 G2 G3 G4 G5 G6 G7 G8].
  destruct (brep_held _ _ _ _ _ _ Hrep HB) as (bf & Hbf & _ & _ & Hbn & _).
  destruct (log_write_eq bl bno b k e bf) as (blks & Hbl & Hblk & Heq); try done; try lia.
  { destruct Hok. lia. }
  { intros c Hc. destruct (Hhome c Hc). lia. }
  { apply Hrep. }
  eexists. split; [exact Heq|]. split.
  { eexists. apply bframe_bcache. }
  assert (length (log_add bno bl) <= S (length bl))%nat as Hla.
  { unfold log_add. case_decide; [lia|]. rewrite length_app. simpl. lia. }
  split; [|done]. split; try done.
  - rewrite log_add_set. apply (brep_set_dirty (set_k_log _ k)); [by apply brep_set_log|done].
  - split; [done|]. split; [lia|done].
  - unfold log_add. case_decide; [done|]. apply NoDup_app. split; [done|].
    split; [set_solver|apply NoDup_singleton].
  - lia.
  - intros c Hc. cbn. unfold log_add in Hc. case_decide; [by apply Hhome|].
    apply elem_of_app in Hc as [Hc|Hc]; [by apply Hhome|]. apply list_elem_of_singleton in Hc. by subst.
Qed.

Lemma begin_op_eq k e :
  lock_free L_log k -> cpu_ok k -> lg_committing (k_log k) = false ->
  lg_n (k_log k) + (lg_outstanding (k_log k) + 1) * MAXOPBLOCKS <= LOGSIZE ->
  begin_op e k =
    Ok tt e (set_k_log (set_lg_outstanding (lg_outstanding (k_log k) + 1) (k_log k)) k).
Proof.
  intros Hl Hc Hcomm Hn. unfold begin_op. step (acquire_ok L_log e k Hl Hc).
  unfold loop_sched. cbn [loop_fuel].
  rewrite (bind_Ok _ _ e (lock_taken L_log k) (inr tt) e
    (set_k_log (set_lg_outstanding (lg_outstanding (k_log k) + 1) (k_log k)) k)); [done|].
  unfold get_log, bind at 1, gets at 1. change (k_log (lock_taken L_log k)) with (k_log k).
  rewrite Hcomm.
  assert (LOGSIZE <? lg_n (k_log k) + (lg_outstanding (k_log k) + 1) * MAXOPBLOCKS = false) as ->
    by (apply Z.ltb_ge; lia).
  unfold upd_log, bind at 1, modify at 1.
  step (release_ok L_log e k); [|done]. reflexivity.
Qed.

(** [begin_op] between transactions starts one at once. *)
Lemma begin_op_ok k V e :
  quiet k V ->
  exists k', begin_op e k = Ok tt e k' /\ lframe k k' /\ txn k' V [] ∅ /\
    lg_outstanding (k_log k') = 1 /\ k_disk k' = k_disk k /\ k_writes k' = k_writes k.
Proof.
  intros [[Hrep Hg Hh Hnd Hlen Hhome Hempty] Hl Hout Hcomm]. eexists. split.
  { apply begin_op_eq; [done|apply Hrep|done|]. rewrite Hout, (proj1 Hh). done. }
  rewrite Hout. split; [apply set_log_lframe|]. split; [|done].
  split; try done; [by apply brep_set_log|by destruct Hg].
Qed.

(** [end_op] of the last outstanding operation. *)
Lemma end_op_ok (k : kernel) (V Vold : gmap Z (list Z)) (bl : list Z) (e : schedule kernel) :
  txn k V bl ∅ -> lg_outstanding (k_log k) = 1 ->
  fs_is LS NL (k_disksize k) (k_disk k) Vold ->
  wp end_op (fun _ e' k' => e' = e /\ lframe k k' /\
    crash_safe (atomic (k_disksize k) Vold V) k k' /\
    exists V', quiet k' V' /\ forall c, ~ in_log LS NL c -> V' !! c = V !! c) e k.
Proof.
  intros [Hrep Hg Hh Hnd Hlen Hhome Hempty Hlock Hout Hcomm] Hout1 Hold.
  assert (cpu_ok k) as Hcpu by apply Hrep.
  unfold end_op, get_log. apply wp_bind, wp_acquire; [done|done|].
  apply wp_bind, wp_gets. apply wp_bind, wp_modify. apply wp_bind, wp_gets.
  cbn [k_log set_k_log lg_committing set_lg_outstanding lg_outstanding lock_taken set_k_locks set_k_cpu].
  rewrite Hcomm, Hout1. change (1 - 1 =? 0) with true. cbn iota.
  apply wp_bind, wp_bind, wp_modify, wp_ret. apply wp_bind. eapply (wp_release L_log k); [done|].
  cbn [when]. rewrite set_set_k_log.
  set (lg := set_lg_committing true (set_lg_outstanding 0 (k_log k))).
  change (unlock_to k _) with (set_k_log lg k). set (k1 := set_k_log lg k).
  assert (ready k1 V bl) as Hrd1.
  { split; try done; [by apply brep_set_log|by destruct Hg]. }
  apply wp_bind. eapply wp_mono; [by apply (commit_ok k1 V Vold bl)|].
  intros [] e2 k2 (-> & Hf2 & [Ho2 _] & Hc2 & V2 & Hrd2 & HV2).
  destruct (lframe_locks _ _ Hf2) as [Hl2 Hcpu2].
  assert (lock_free L_log k2) as Hlock2 by (unfold lock_free; by rewrite Hl2).
  assert (cpu_ok k2) as Hcok2 by (unfold cpu_ok; by rewrite Hcpu2).
  pose proof Hrd2 as [Hrep2 Hg2 Hh2 Hnd2 Hlen2 Hhome2 Hempty2].
  pose proof Hrep2 as ((_ & Hlp2 & _ & Hn2 & _) & _).
  apply wp_bind, wp_acquire; [done|done|]. apply wp_bind, wp_modify. apply wp_bind.
  set (k3 := set_k_log (set_lg_committing false (k_log (lock_taken L_log k2))) (lock_taken L_log k2)).
  unfold wp at 1. rewrite (wakeup_ok Ch_log e k3);
    [|done|by apply lock_free_other|by apply lock_taken_cpu_ok].
  eapply (wp_release L_log k2); [done|].
  set (pt := wake Ch_log <$> k_ptable k3).
  set (k4 := set_k_ptable pt (set_k_log (set_lg_committing false (k_log k2)) k2)).
  change (unlock_to k2 _) with k4.
  split; [done|]. split.
  { etransitivity; [apply (set_log_lframe lg)|]. etransitivity; [exact Hf2|].
    exists (set_lg_committing false (k_log k2)), (k_bcache k2), (k_disk k2), (k_writes k2), (k_ide k2), pt.
    split; [apply wake_woken|]. by destruct k2. }
  split; [by eapply crash_safe_same|]. exists V2. split; [|done].
  split; [|done|done|done]. split; try done; [|by destruct Hg2].
  eapply brep_ext; [exact Hrep2|done..|apply wake_woken].
Qed.

(** ** Rules for the body of a transaction *)

(** What the body of a transaction changes: the cache and the log's header in
    memory, but not the disk. *)
Definition tframe (k k' : kernel) : Prop :=
  lframe k k' /\ k_disk k' = k_disk k /\ k_writes k' = k_writes k /\
  lg_outstanding (k_log k') = lg_outstanding (k_log k).

#[export] Instance tframe_preorder : PreOrder tframe.
Proof.
  split.
  - intros k. by split.
  - intros k1 k2 k3 (H1 & H2 & H3 & H4) (H5 & H6 & H7 & H8).
    split; [by etransitivity|]. split_and!; congruence.
Qed.

Lemma tframe_disksize k k' : tframe k k' -> k_disksize k' = k_disksize k.
Proof. intros [Hf _]. by apply lframe_disksize. Qed.

Lemma bframe_tframe k k' :
  bframe k k' -> k_disk k' = k_disk k -> k_writes k' = k_writes k -> tframe k k'.
Proof.
  intros Hf Hd Hw. split; [by apply bframe_lframe|]. split; [done|]. split; [done|].
  by apply (bframe_ops _ _ Hf).
Qed.

Lemma bframe_locks k k' : bframe k k' -> k_locks k' = k_locks k /\ k_cpu k' = k_cpu k.
Proof. by intros (bc & dk & ws & ide & pt & _ & ->). Qed.

Lemma txn_frame k k' V V' bl B B' :
  txn k V bl B -> bframe k k' -> k_disk k' = k_disk k ->
  brep k' V' (list_to_set bl) B' -> txn k' V' bl B'.
Proof.
  intros [] Hf Hd Hrep'. destruct (bframe_log _ _ Hf) as [Hlg Hs].
  split; rewrite ?Hs, ?Hd, ?Hlg; try done.
  - by eapply geometry_frame.
  - by eapply header_frame.
  - unfold lock_free. by rewrite (proj1 (bframe_locks _ _ Hf)).
Qed.

(** The blocks that cannot be evicted: those of the transaction and those held. *)
Definition pinned (bl : list Z) (B : gmap Z nat) : nat :=
  size ((list_to_set bl : gset Z) ∪ dom B).

Lemma txn_bread k V bl B bno e (Q : nat -> schedule kernel -> kernel -> Prop) :
  txn k V bl B -> B !! bno = None -> 0 <= bno < k_disksize k ->
  (bno ∈ bl \/ (pinned bl B < NBUF)%nat) ->
  (forall b k', tframe k k' -> txn k' V bl (<[bno:=b]> B) -> Q b e k') ->
  wp (bread 1 bno) Q e k.
Proof.
  intros Htx HB Hbno Hpin HQ. eapply wp_bread; [apply Htx|done|done| |].
  { destruct Hpin as [Hx|Hx]; [left; by rewrite elem_of_list_to_set|by right]. }
  intros b k' Hf Hrep Hd Hw. apply HQ; [by apply bframe_tframe|]. by eapply txn_frame.
Qed.

Lemma txn_get k V bl B bno b d e (Q : buf -> schedule kernel -> kernel -> Prop) :
  txn k V bl B -> B !! bno = Some b -> V !! bno = Some d ->
  (forall bf, b_data bf = d -> b_blockno bf = bno -> length d = 512%nat -> Q bf e k) ->
  wp (get_buf b) Q e k.
Proof. intros Htx. eapply wp_get_held, Htx. Qed.

Lemma txn_set_data k V bl B bno b d e (Q : unit -> schedule kernel -> kernel -> Prop) :
  txn k V bl B -> B !! bno = Some b -> length d = 512%nat ->
  (forall k', tframe k k' -> txn k' (<[bno:=d]> V) bl B -> Q tt e k') ->
  wp (upd_buf b (set_b_data d)) Q e k.
Proof.
  intros Htx HB Hl HQ. eapply wp_set_data; [apply Htx|done|done|].
  intros k' Hf Hrep Hd Hw. apply HQ; [by apply bframe_tframe|]. by eapply txn_frame.
Qed.

Lemma txn_log_write k V bl B bno b e (Q : unit -> schedule kernel -> kernel -> Prop) :
  txn k V bl B -> B !! bno = Some b -> home_ok LS NL (k_disksize k) bno ->
  Z.of_nat (length bl) < NL - 1 ->
  (forall k', tframe k k' -> txn k' V (log_add bno bl) B -> Q tt e k') ->
  wp (log_write b) Q e k.
Proof.
  intros Htx HB Hok Hlt HQ.
  destruct (log_write_ok k V bl B bno b e Htx HB Hok Hlt) as (k' & Heq & Hf & Htx' & Hd & Hw & Ho).
  unfold wp. rewrite Heq. by apply HQ.
Qed.

(** A block may be released when it was logged or is unchanged. *)
Lemma txn_brelse k V bl B bno b e (Q : unit -> schedule kernel -> kernel -> Prop) :
  txn k V bl B -> B !! bno = Some b ->
  (bno ∈ bl \/ k_disk k !! (1, bno) = V !! bno) ->
  (forall k', tframe k k' -> txn k' V bl (delete bno B) -> Q tt e k') ->
  wp (brelse b) Q e k.
Proof.
  intros Htx HB Hc HQ. eapply wp_brelse; [apply Htx|done| |].
  { destruct Hc as [Hx|Hx]; [left; by rewrite elem_of_list_to_set|by right]. }
  intros k' Hf Hrep Hd Hw. apply HQ; [by apply bframe_tframe|]. by eapply txn_frame.
Qed.

(** ** The start of the system *)

(** The superblock in block 1 says where the log is. *)
Definition superblock_is (sbd : list Z) : Prop :=
  sb_logstart (sb_of sbd) = LS /\ sb_nlog (sb_of sbd) = NL.

Definition layout (size : Z) : Prop :=
  2 <= LS /\ 1 <= NL <= LOGSIZE /\ LS + NL <= size < 2147483648.

Lemma wp_readsb k V sbd e (Q : superblock -> schedule kernel -> kernel -> Prop) :
  brep k V ∅ ∅ -> V !! 1 = Some sbd -> 1 < k_disksize k ->
  (forall k', bframe k k' -> brep k' V ∅ ∅ -> k_disk k' = k_disk k -> k_writes k' = k_writes k ->
     Q (sb_of sbd) e k') ->
  wp (readsb 1) Q e k.
Proof.
  intros Hrep Hsb Hsize HQ. unfold readsb. apply wp_bind.
  eapply wp_bread; [done|done|lia| |].
  { right. rewrite dom_empty_L, union_empty_r_L, size_empty. unfold NBUF. lia. }
  intros b k1 Hf1 Hrep1 Hd1 Hw1. apply wp_bind.
  eapply (wp_get_held _ _ _ _ 1); [done|by rewrite lookup_insert_eq|done|].
  intros bf -> _ _. apply wp_bind.
  eapply wp_brelse; [done|by rewrite lookup_insert_eq| |].
  { right. rewrite Hd1. apply (brep_disk _ _ _ _ _ Hrep); [set_solver|done|lia]. }
  intros k2 Hf2 Hrep2 Hd2 Hw2. rewrite delete_insert_eq, delete_empty in Hrep2.
  apply wp_ret, HQ; [by etransitivity|done|congruence|congruence].
Qed.

Lemma initlog_ok k V sbd R e :
  brep k V ∅ ∅ -> V !! 1 = Some sbd -> superblock_is sbd -> layout (k_disksize k) ->
  length (lg_block (k_log k)) = Z.to_nat LOGSIZE ->
  lg_outstanding (k_log k) = 0 -> lg_committing (k_log k) = false ->
  log_wf LS NL (k_disksize k) (k_disk k) ->
  fs_is LS NL (k_disksize k) (recovered LS (k_disk k)) R ->
  wp (initlog 1) (fun _ e' k' => e' = e /\ k_disksize k' = k_disksize k /\
    crash_safe (atomic (k_disksize k) R R) k k' /\
    exists V', quiet k' V' /\
      forall c, 0 <= c < k_disksize k -> ~ in_log LS NL c -> V' !! c = R !! c) e k.
Proof.
  intros Hrep Hsb [Hls Hnl] (L1 & L2 & L3) Hlen Hout Hcomm Hwf HR. unfold initlog.
  change (BSIZE <=? sizeof_logheader) with false. cbn iota. apply wp_bind, wp_modify.
  set (k1 := set_k_locks (<[L_log := mkSpinlock 0 "log" None]> (k_locks k)) k).
  assert (brep k1 V ∅ ∅) as Hrep1.
  { eapply brep_ext; [exact Hrep|done..| |done|done].
    intros l Hl. cbn. rewrite lookup_insert_ne; [done|]. by destruct Hl as [->|[->| ->]]. }
  apply wp_bind. change (u32 1) with 1. eapply wp_readsb; [exact Hrep1|done|cbn; lia|].
  intros k2 Hf2 Hrep2 Hd2 Hw2. rewrite Hls, Hnl, !s32_small by (unfold LOGSIZE, MAXOPBLOCKS in *; lia).
  apply wp_bind, wp_modify, wp_bind, wp_modify, wp_bind, wp_modify.
  autorewrite with kset. cbn [k_log set_k_log].
  destruct (bframe_log _ _ Hf2) as [Hlg2 Hs2].
  set (k3 := set_k_log _ k2).
  assert (k_disk k3 = k_disk k) as Hd3 by exact Hd2.
  assert (k_disksize k3 = k_disksize k) as Hs3 by exact Hs2.
  eapply wp_mono.
  { apply (recover_ok k3 V R).
    - by apply brep_set_log.
    - constructor; cbn; rewrite ?Hlg2, ?Hs2; try done; cbn; lia.
    - by rewrite Hs3, Hd3.
    - by rewrite Hs3, Hd3. }
  intros [] e4 k4 (-> & Hf4 & [Ho4 Ho4'] & Hc4 & V4 & Hrd4 & HV4). rewrite Hs3 in *.
  split; [done|]. split; [by rewrite (lframe_disksize _ _ Hf4)|]. split.
  { destruct Hc4 as (ws & W1 & W2 & W3). exists ws. rewrite Hd3 in *.
    split; [|done]. rewrite W1. change (k_writes k3) with (k_writes k2). by rewrite Hw2. }
  exists V4. split; [|done]. split; [done| | |].
  - exists "log". rewrite (proj1 (lframe_locks _ _ Hf4)).
    destruct Hf2 as (? & ? & ? & ? & ? & _ & ->). apply lookup_insert_eq.
  - rewrite Ho4. cbn. by rewrite Hlg2.
  - rewrite Ho4'. cbn. by rewrite Hlg2.
Qed.

(** A machine that has just been started, with the disk [dk]: the variables of
    the kernel are zero, and the process table and the driver are set up. *)
Record booted (size : Z) (dk : gmap (Z * Z) (list Z)) (k : kernel) : Prop := {
  bt_disk : k_disk k = dk;
  bt_size : k_disksize k = size;
  bt_bcache : k_bcache k = replicate (S NBUF) buf0;
  bt_ptable : lock_free L_ptable k;
  bt_cpu : cpu_ok k;
  bt_procs : length (k_ptable k) = NPROC;
  bt_drv : drv_ok k;
  bt_log : lg_block (k_log k) = replicate (Z.to_nat LOGSIZE) 0;
  bt_out : lg_outstanding (k_log k) = 0;
  bt_comm : lg_committing (k_log k) = false
}.

Lemma boot_safe size dk k sbd R e :
  booted size dk k -> layout size -> disk_wf size dk -> dk !! (1, 1) = Some sbd ->
  superblock_is sbd -> log_wf LS NL size dk -> fs_is LS NL size (recovered LS dk) R ->
  wp (binit ;; initlog 1) (fun _ e' k' => e' = e /\ crash_safe (atomic size R R) k k' /\
    exists V', quiet k' V' /\ k_disksize k' = size /\
    forall c, 0 <= c < size -> ~ in_log LS NL c -> V' !! c = R !! c) e k.
Proof.
  intros [<- <- Hbc Hlp Hc Hn Hdrv Hlg Hout Hcomm] Hlay Hwf Hsb Hsbi Hlwf HR.
  assert (drv_ok (set_k_locks (<[L_bcache := mkSpinlock 0 "bcache" None]> (k_locks k)) k)) as Hdrv1.
  { eapply drv_ok_frame; try done; cbn; by rewrite lookup_insert_ne. }
  destruct (binit_ok e k Hbc Hlp Hc Hn Hdrv1 Hwf) as (k1 & Hb1 & Hrep1 & Hd1 & Hs1 & Hw1).
  eapply wp_step; [exact Hb1|].
  assert (k_log k1 = k_log k) as Hlg1.
  { rewrite Ring.binit_eq in Hb1. injection Hb1 as <-. reflexivity. }
  clear Hb1.
  eapply wp_mono.
  { apply (initlog_ok k1 (disk_view k) sbd R); rewrite ?Hs1, ?Hd1, ?Hlg1;
      [exact Hrep1| |exact Hsbi|exact Hlay| |exact Hout|exact Hcomm|exact Hlwf|exact HR].
    - rewrite disk_view_lookup, bool_decide_eq_true_2 by (destruct Hlay; lia).
      unfold disk_block. by rewrite Hsb.
    - by rewrite Hlg, length_replicate. }
  intros [] e2 k2 (-> & Hs2 & Hcs & V' & Hq & HV'). rewrite Hs1 in *.
  split; [done|]. split; [|eauto]. destruct Hcs as (ws & W1 & W2 & W3).
  exists ws. rewrite Hd1, Hw1 in *. done.
Qed.

Lemma boot_ok size dk k sbd R e :
  booted size dk k -> layout size -> disk_wf size dk -> dk !! (1, 1) = Some sbd ->
  superblock_is sbd -> log_wf LS NL size dk -> fs_is LS NL size (recovered LS dk) R ->
  wp (binit ;; initlog 1) (fun _ e' k' => e' = e /\ exists V', quiet k' V' /\ k_disksize k' = size /\
    forall c, 0 <= c < size -> ~ in_log LS NL c -> V' !! c = R !! c) e k.
Proof.
  intros. eapply wp_mono; [by eapply boot_safe|]. by intros [] e' k' (-> & _ & HV).
Qed.

(** ** Atomicity *)

(** C1: A file-system transaction is atomic with respect to crashes.  When
    [end_op] of the last outstanding operation returns, consider a crash after
    any number of the disk writes it made: a machine started from that disk
    returns from [binit] and [initlog], and then either every block outside of
    the log has the contents it had before the transaction, or every such
    block has the contents the transaction gave it. *)
Theorem transaction_atomic k V Vold bl sbd e :
  txn k V bl ∅ -> lg_outstanding (k_log k) = 1 ->
  fs_is LS NL (k_disksize k) (k_disk k) Vold -> Vold !! 1 = Some sbd -> superblock_is sbd ->
  exists k', end_op e k = Ok tt e k' /\
    forall ws1 ws2, k_writes k' = ws1 ++ ws2 ++ k_writes k ->
    forall kb eb, booted (k_disksize k) (disk_after (k_disk k) ws2) kb ->
    exists kr V', (binit ;; initlog 1) eb kb = Ok tt eb kr /\ quiet kr V' /\
      ((forall c, 0 <= c < k_disksize k -> ~ in_log LS NL c -> V' !! c = Vold !! c) \/
       (forall c, 0 <= c < k_disksize k -> ~ in_log LS NL c -> V' !! c = V !! c)).
Proof.
  intros Htx Hout Hold Hsb Hsbi.
  pose proof (end_op_ok k V Vold bl e Htx Hout Hold) as Hend.
  apply (proj1 (wp_Ok _ _ _ _)) in Hend as ([] & e' & k' & Heq & -> & _ & (ws & W1 & W2 & W3) & _).
  exists k'. split; [exact Heq|]. clear Heq. intros ws1 ws2 Hws kb eb Hboot.
  rewrite W1, app_assoc in Hws. apply app_inv_tail in Hws.
  destruct (W3 ws1 ws2 Hws) as (Hwf & Hlwf & Hcase).
  destruct Htx as [Hrep Hg _ _ _ Hhome _ _ _ _]. pose proof Hg as [_ _ _ _ G5 G6 G7 G8].
  assert (~ in_log LS NL 1) as H1l by (unfold in_log; lia).
  assert (V !! 1 = Some sbd) as HV1.
  { rewrite <- Hsb, <- (Hold 1) by (done || lia). symmetry.
    apply (brep_disk _ _ _ _ _ Hrep); [|done|lia].
    intros Hx%elem_of_list_to_set. by destruct (Hhome 1 Hx) as (_ & _ & Hx1). }
  assert (forall R, R !! 1 = Some sbd ->
    fs_is LS NL (k_disksize k) (recovered LS (disk_after (k_disk k) ws2)) R ->
    exists kr V', (binit ;; initlog 1) eb kb = Ok tt eb kr /\ quiet kr V' /\
      (forall c, 0 <= c < k_disksize k -> ~ in_log LS NL c -> V' !! c = R !! c)) as Hrec.
  { intros R HR1 HR. assert (disk_after (k_disk k) ws2 !! (1, 1) = Some sbd) as Hd1.
    { rewrite <- HR1, <- (HR 1) by (done || lia). unfold recovered. symmetry. apply install_notin.
      rewrite elem_on_disk_keys. intros [_ Hx]. destruct (proj2 Hlwf 1 Hx) as (_ & _ & Hx1). done. }
    pose proof (boot_ok _ _ kb sbd R eb Hboot ltac:(unfold layout; lia) Hwf Hd1 Hsbi Hlwf HR) as Hb.
    apply (proj1 (wp_Ok _ _ _ _)) in Hb as ([] & e2 & kr & Hr & -> & V' & Hq & _ & HV'). exact (ex_intro _ kr (ex_intro _ V' (conj Hr (conj Hq HV')))). }
  destruct Hcase as [HR|HR].
  - destruct (Hrec Vold Hsb HR) as (kr & V' & H1 & H2 & H3). exists kr, V'. auto.
  - destruct (Hrec V HV1 HR) as (kr & V' & H1 & H2 & H3). exists kr, V'. auto.
Qed.

(** C2: Recovery can be interrupted and repeated.  A machine started from a
    disk with a well-formed log returns from [binit] and [initlog] with the
    committed blocks [R]; if it crashes after any number of the disk writes
    of [initlog] and is started again, it returns with the same blocks. *)
Theorem recovery_restartable size dk k sbd R e :
  booted size dk k -> layout size -> disk_wf size dk -> dk !! (1, 1) = Some sbd ->
  superblock_is sbd -> log_wf LS NL size dk -> fs_is LS NL size (recovered LS dk) R ->
  exists k', (binit ;; initlog 1) e k = Ok tt e k' /\
    forall ws1 ws2, k_writes k' = ws1 ++ ws2 ++ k_writes k ->
    forall kb eb, booted size (disk_after dk ws2) kb ->
    exists kr V', (binit ;; initlog 1) eb kb = Ok tt eb kr /\ quiet kr V' /\
      forall c, 0 <= c < size -> ~ in_log LS NL c -> V' !! c = R !! c.
Proof.
  intros Hbt Hlay Hwf Hsb Hsbi Hlwf HR.
  pose proof (boot_safe size dk k sbd R e Hbt Hlay Hwf Hsb Hsbi Hlwf HR) as Hb.
  apply (proj1 (wp_Ok _ _ _ _)) in Hb as ([] & e' & k' & Heq & -> & (ws & W1 & W2 & W3) & _).
  exists k'. split; [exact Heq|]. clear Heq. intros ws1 ws2 Hws kb eb Hboot.
  rewrite W1, app_assoc in Hws. apply app_inv_tail in Hws.
  destruct (W3 ws1 ws2 Hws) as (Hwf' & Hlwf' & Hcase). rewrite (bt_disk _ _ _ Hbt) in *.
  assert (fs_is LS NL size (recovered LS (disk_after dk ws2)) R) as HR' by (by destruct Hcase).
  assert (forall d, log_wf LS NL size d -> recovered LS d !! (1, 1) = d !! (1, 1)) as H1.
  { intros d Hd. unfold recovered. apply install_notin. rewrite elem_on_disk_keys.
    intros [_ Hx]. by destruct (proj2 Hd 1 Hx) as (_ & _ & Hx1). }
  assert (disk_after dk ws2 !! (1, 1) = Some sbd) as Hd1.
  { rewrite <- H1 by done. destruct Hlay as (L1 & L2 & L3).
    rewrite HR', <- (HR 1), H1 by (done || unfold in_log; lia). done. }
  pose proof (boot_ok _ _ kb sbd R eb Hboot Hlay Hwf' Hd1 Hsbi Hlwf' HR') as Hb2.
  apply (proj1 (wp_Ok _ _ _ _)) in Hb2 as ([] & e2 & kr & Hr & -> & V' & Hq & _ & HV'). exact (ex_intro _ kr (ex_intro _ V' (conj Hr (conj Hq HV')))).
Qed.

End spec.

(** ** An example transaction on the machine of [Demo] *)

Section example.
Import Demo Memide.

Definition example : K unit :=
  (binit ;; initlog 1) ;;
  begin_op ;;
  b <- bread 1 35 ;;
  upd_buf b (set_b_data (replicate 512 7)) ;;
  log_write b ;;
  brelse b.

Definition example_state : kernel := final (example [] machine).

Lemma disk0_lookup c :
  0 <= c < 40 -> disk0 !! (1, c) = Some (if c =? 1 then sb_block else blank).
Proof.
  intros Hc. unfold disk0. apply elem_of_list_to_map_1.
  - rewrite <- list_fmap_compose. apply NoDup_fmap_2; [|apply NoDup_seq].
    intros x y. cbn. intros [=]. lia.
  - apply list_elem_of_fmap. exists (Z.to_nat c). rewrite elem_of_seq, Z2Nat.id by lia.
    split; [|lia]. f_equal. destruct (Nat.eqb_spec (Z.to_nat c) 1), (Z.eqb_spec c 1); done || lia.
Qed.

Lemma disk0_wf : disk_wf 40 disk0.
Proof.
  intros c Hc. rewrite disk0_lookup by done. eexists. split; [reflexivity|].
  by destruct (c =? 1).
Qed.

Lemma machine_booted : booted 40 disk0 machine.
Proof.
  split; try reflexivity.
  - exists "ptable". reflexivity.
  - unfold cpu_ok. cbn. lia.
Qed.

Lemma disk0_clean : hdr_n (dblock disk0 2) = 0.
Proof. unfold dblock. rewrite disk0_lookup by lia. reflexivity. Qed.

Lemma sb_block_is : superblock_is 2 30 sb_block.
Proof. split; reflexivity. Qed.

(** The blocks of the disk, as a map. *)
Lemma disk0_fs : fs_is 2 30 40 disk0 (disk_view machine).
Proof.
  intros c Hc _. rewrite disk_view_lookup, bool_decide_eq_true_2 by exact Hc.
  unfold disk_block. change (k_disk machine) with disk0. by rewrite disk0_lookup.
Qed.

Lemma example_ok :
  exists V, txn 2 30 example_state V [35] ∅ /\ lg_outstanding (k_log example_state) = 1 /\
    k_disksize example_state = 40 /\
    fs_is 2 30 40 (k_disk example_state) (disk_view machine).
Proof.
  assert (wp example (fun _ _ k => exists V, txn 2 30 k V [35] ∅ /\
    lg_outstanding (k_log k) = 1 /\ k_disksize k = 40 /\
    fs_is 2 30 40 (k_disk k) (disk_view machine)) [] machine) as Hwp.
  { unfold example. apply wp_bind. eapply wp_mono.
    { eapply (boot_ok 2 30 40 disk0 machine sb_block (disk_view machine));
        [exact machine_booted|unfold layout, LOGSIZE, MAXOPBLOCKS; lia|exact disk0_wf|by rewrite disk0_lookup by lia|
         exact sb_block_is|apply log_wf_clean; [exact disk0_clean|lia]|].
      rewrite recovered_clean by exact disk0_clean. exact disk0_fs. }
    intros [] e1 k1 (-> & V1 & Hq & Hs1 & HV1). apply wp_bind.
    pose proof Hq as [[Hrep1 _ _ _ _ _ _] _ _ _].
    destruct (begin_op_ok 2 30 k1 V1 [] Hq) as (k2 & Heq & Hf2 & Htx2 & Ho2 & Hd2 & Hw2).
    unfold wp at 1. rewrite Heq. clear Heq.
    pose proof (lframe_disksize _ _ Hf2) as Hs2. apply wp_bind.
    eapply (txn_bread 2 30); [exact Htx2|done|lia|right; vm_compute; lia|].
    intros b k3 Hf3 Htx3. apply wp_bind.
    eapply (txn_set_data 2 30); [exact Htx3|apply lookup_insert_eq|apply length_replicate|].
    intros k4 Hf4 Htx4. apply wp_bind.
    pose proof (tframe_disksize _ _ Hf3) as Hs3. pose proof (tframe_disksize _ _ Hf4) as Hs4.
    eapply (txn_log_write 2 30); [exact Htx4|apply lookup_insert_eq| |simpl; lia|].
    { unfold home_ok, in_log. lia. }
    intros k5 Hf5 Htx5. pose proof (tframe_disksize _ _ Hf5) as Hs5.
    eapply (txn_brelse 2 30); [exact Htx5|apply lookup_insert_eq|left; set_solver|].
    intros k6 Hf6 Htx6. pose proof (tframe_disksize _ _ Hf6) as Hs6.
    rewrite delete_insert_eq, delete_empty in Htx6. eexists. split; [exact Htx6|].
    destruct Hf3 as (_ & D3 & _ & O3), Hf4 as (_ & D4 & _ & O4), Hf5 as (_ & D5 & _ & O5),
      Hf6 as (_ & D6 & _ & O6).
    split; [congruence|]. split; [congruence|]. intros c Hc Hl. rewrite D6, D5, D4, D3, Hd2.
    rewrite <- HV1 by done. apply (brep_disk _ _ _ _ _ Hrep1); [set_solver|done|lia]. }
  apply wp_final in Hwp as ([] & e' & _ & HQ). exact HQ.
Qed.

Lemma transaction_atomic_witness :
  exists V k', txn 2 30 example_state V [35] ∅ /\ end_op [] example_state = Ok tt [] k' /\
    forall ws1 ws2, k_writes k' = ws1 ++ ws2 ++ k_writes example_state ->
    forall kb eb, booted 40 (disk_after (k_disk example_state) ws2) kb ->
    exists kr V', (binit ;; initlog 1) eb kb = Ok tt eb kr /\ quiet 2 30 kr V' /\
      ((forall c, 0 <= c < 40 -> ~ in_log 2 30 c -> V' !! c = disk_view machine !! c) \/
       (forall c, 0 <= c < 40 -> ~ in_log 2 30 c -> V' !! c = V !! c)).
Proof.
  destruct example_ok as (V & Htx & Ho & Hs & Hfs).
  pose proof (transaction_atomic 2 30 example_state V (disk_view machine) [35] sb_block []) as Hat.
  rewrite Hs in Hat. destruct Hat as (k' & H1 & H2);
    [exact Htx|exact Ho|exact Hfs| |exact sb_block_is|].
  { rewrite <- disk0_fs by (unfold in_log; lia). by rewrite disk0_lookup by lia. }
  exists V, k'. exact (conj Htx (conj H1 H2)).
Defined.

Lemma recovery_restartable_witness :
  exists k', (binit ;; initlog 1) [] machine = Ok tt [] k' /\
    forall ws1 ws2, k_writes k' = ws1 ++ ws2 ++ k_writes machine ->
    forall kb eb, booted 40 (disk_after disk0 ws2) kb ->
    exists kr V', (binit ;; initlog 1) eb kb = Ok tt eb kr /\ quiet 2 30 kr V' /\
      forall c, 0 <= c < 40 -> ~ in_log 2 30 c -> V' !! c = disk_view machine !! c.
Proof.
  apply (recovery_restartable 2 30 40 disk0 machine sb_block (disk_view machine) []);
    [exact machine_booted|unfold layout, LOGSIZE, MAXOPBLOCKS; lia|exact disk0_wf|
     by rewrite disk0_lookup by lia|exact sb_block_is|apply log_wf_clean; [exact disk0_clean|lia]|].
  rewrite recovered_clean by exact disk0_clean. exact disk0_fs.
Defined.

End example.
End LogSpec.
