(* ===== verification/Fs.v ===== *)
(** fs.c: block allocation, inodes, directories and path names. *)

From S2P Require Import Prelude Bytes Machine Demo Cstring Spinlock Consout Sleep Disk Bio Log.
Import Cstring Spinlock Consout Sleep Bio Log.

(** ** Devices

    [devsw] of file.h: for a major number, the functions a device driver has
    registered, if any.  A read returns the bytes it stored at the destination
    and its result. *)

Class Devsw := {
  dev_read : Z -> option (nat -> Z -> K (list Z * Z));
  dev_write : Z -> option (nat -> list Z -> Z -> K Z)
}.

Module Fs.

(** stat.h *)
Record stat : Type := mkStat {
  st_type : Z;
  st_dev : Z;
  st_ino : Z;
  st_nlink : Z;
  st_size : Z
}.

(** fs.h, [IBLOCK] and [BBLOCK] *)
Definition IBLOCK (i : Z) (sb : superblock) : Z := u32 (i / IPB + sb_inodestart sb).
Definition BBLOCK (b : Z) (sb : superblock) : Z := u32 (b / BPB + sb_bmapstart sb).

(** The bit of block [bi] in a block of the free map. *)
Definition bit_mask (bi : Z) : Z := Z.shiftl 1 (bi mod 8).
Definition bit_byte (d : list Z) (bi : Z) : Z := nth (Z.to_nat (bi / 8)) d 0.
Definition bit_used (d : list Z) (bi : Z) : bool := nz (Z.land (bit_byte d bi) (bit_mask bi)).
Definition mark_used (d : list Z) (bi : Z) : list Z :=
  <[Z.to_nat (bi / 8) := Z.lor (bit_byte d bi) (bit_mask bi)]> d.
Definition mark_free (d : list Z) (bi : Z) : list Z :=
  <[Z.to_nat (bi / 8) := Z.land (bit_byte d bi) (u8 (Z.lnot (bit_mask bi)))]> d.

(** The inner loop of [balloc]: the first free bit from [bi] on. *)
Fixpoint scan_bits (n : nat) (bi b size : Z) (d : list Z) : option Z :=
  match n with
  | O => None
  | S n' =>
      if negb (b + bi <? size) then None
      else if negb (bit_used d bi) then Some bi
      else scan_bits n' (bi + 1) b size d
  end.

(** On-disk inodes: [struct dinode] at byte [off] of a block. *)
Definition di_off (inum : Z) : nat := Z.to_nat (inum mod IPB * sizeof_dinode).
Definition di_type (off : nat) (d : list Z) : Z := s16 (get16 off d).
Definition di_addrs (off : nat) (d : list Z) : list Z :=
  (fun i => get32 (off + 12 + 4 * i) d) <$> seq 0 13.

(** The assignments of [ilock] to the fields that are copies of the disk's. *)
Definition load_dinode (off : nat) (d : list Z) (ip : inode) : inode :=
  mkInode (i_dev ip) (i_inum ip) (i_ref ip) (i_flags ip) (di_type off d)
    (s16 (get16 (off + 2) d)) (s16 (get16 (off + 4) d)) (s16 (get16 (off + 6) d))
    (get32 (off + 8) d) (di_addrs off d).

(** The assignments of [iupdate]. *)
Definition store_dinode (off : nat) (ip : inode) (d : list Z) : list Z :=
  let d := put16 off (i_type ip) d in
  let d := put16 (off + 2) (i_major ip) d in
  let d := put16 (off + 4) (i_minor ip) d in
  let d := put16 (off + 6) (i_nlink ip) d in
  let d := put32 (off + 8) (i_size ip) d in
  splice (off + 12) (concat (le_bytes 4 <$> i_addrs ip)) d.

Section fs.
Context `{DiskDriver} `{Devsw}.

(** ** Blocks *)

Definition bzero (dev bno : Z) : K unit :=
  bp <- bread dev (u32 bno) ;;
  upd_buf bp (set_b_data (replicate 512 0)) ;;
  log_write bp ;;
  brelse bp.

Definition balloc (dev : Z) : K Z :=
  sb <- gets k_sb ;;
  loop_fuel (S (S (Z.to_nat (sb_size sb / BPB)))) (fun b =>
    sb <- gets k_sb ;;
    if negb (b <? sb_size sb) then panic "balloc: out of blocks" else
    bp <- bread dev (BBLOCK b sb) ;;
    bf <- get_buf bp ;;
    match scan_bits (Z.to_nat BPB) 0 b (sb_size sb) (b_data bf) with
    | Some bi =>
        upd_buf bp (set_b_data (mark_used (b_data bf) bi)) ;;
        log_write bp ;;
        brelse bp ;;
        bzero dev (b + bi) ;;
        ret (inr (b + bi))
    | None =>
        brelse bp ;;
        ret (inl (b + BPB))
    end) 0.

Definition bfree (dev b : Z) : K unit :=
  sb <- readsb dev ;;
  modify (set_k_sb sb) ;;
  bp <- bread dev (BBLOCK b sb) ;;
  bf <- get_buf bp ;;
  if negb (bit_used (b_data bf) (b mod BPB)) then panic "freeing free block" else
  upd_buf bp (set_b_data (mark_free (b_data bf) (b mod BPB))) ;;
  log_write bp ;;
  brelse bp.

(** ** Inodes *)

Definition iinit (dev : Z) : K unit :=
  initlock L_icache "icache" ;;
  sb <- readsb dev ;;
  modify (set_k_sb sb) ;;
  cprintf "sb: size %d nblocks %d ninodes %d nlog %d logstart %d inodestart %d bmap start %d
"
    [AInt (sb_size sb); AInt (sb_nblocks sb); AInt (sb_ninodes sb); AInt (sb_nlog sb);
     AInt (sb_logstart sb); AInt (sb_inodestart sb); AInt (sb_bmapstart sb)].

(** The loop of [iget]: the entry of the inode, or the first unused entry. *)
Fixpoint iget_scan (l : list nat) (dev inum : Z) (empty : option nat) (k : kernel)
  : nat + option nat :=
  match l with
  | [] => inr empty
  | i :: l' =>
      let ip := inode_at k i in
      if (0 <? i_ref ip) && (i_dev ip =? dev) && (i_inum ip =? inum) then inl i
      else iget_scan l' dev inum
        (match empty with
         | Some _ => empty
         | None => if i_ref ip =? 0 then Some i else None
         end) k
  end.

Definition iget (dev inum : Z) : K nat :=
  acquire L_icache ;;
  r <- gets (iget_scan (seq 0 NINODE) dev inum None) ;;
  match r with
  | inl i =>
      ip <- get_inode i ;;
      upd_inode i (set_i_ref (i_ref ip + 1)) ;;
      release L_icache ;;
      ret i
  | inr None => panic "iget: no inodes"
  | inr (Some i) =>
      upd_inode i (set_i_dev dev) ;;
      upd_inode i (set_i_inum inum) ;;
      upd_inode i (set_i_ref 1) ;;
      upd_inode i (set_i_flags 0) ;;
      release L_icache ;;
      ret i
  end.

Definition ialloc (dev type : Z) : K nat :=
  sb <- gets k_sb ;;
  loop_fuel (S (Z.to_nat (sb_ninodes sb))) (fun inum =>
    sb <- gets k_sb ;;
    if negb (inum <? sb_ninodes sb) then panic "ialloc: no inodes" else
    bp <- bread dev (IBLOCK inum sb) ;;
    bf <- get_buf bp ;;
    if di_type (di_off inum) (b_data bf) =? 0 then
      upd_buf bp (set_b_data (splice (di_off inum) (replicate 64 0) (b_data bf))) ;;
      bf <- get_buf bp ;;
      upd_buf bp (set_b_data (put16 (di_off inum) type (b_data bf))) ;;
      log_write bp ;;
      brelse bp ;;
      i <- iget dev inum ;;
      ret (inr i)
    else
      brelse bp ;;
      ret (inl (inum + 1))) 1.

Definition iupdate (i : nat) : K unit :=
  ip <- get_inode i ;;
  sb <- gets k_sb ;;
  bp <- bread (i_dev ip) (IBLOCK (i_inum ip) sb) ;;
  bf <- get_buf bp ;;
  ip <- get_inode i ;;
  upd_buf bp (set_b_data (store_dinode (di_off (i_inum ip)) ip (b_data bf))) ;;
  log_write bp ;;
  brelse bp.

Definition idup (i : nat) : K nat :=
  acquire L_icache ;;
  ip <- get_inode i ;;
  upd_inode i (set_i_ref (i_ref ip + 1)) ;;
  release L_icache ;;
  ret i.

(** The argument is a pointer, which may be null. *)
Definition ilock (p : option nat) : K unit :=
  match p with
  | None => panic "ilock"
  | Some i =>
      ip <- get_inode i ;;
      if i_ref ip <? 1 then panic "ilock" else
      acquire L_icache ;;
      loop_sched (fun _ : unit =>
        ip <- get_inode i ;;
        if has (i_flags ip) I_BUSY then
          sleep (Ch_inode i) (Some L_icache) ;; ret (inl tt)
        else ret (inr tt)) tt ;;
      ip <- get_inode i ;;
      upd_inode i (set_i_flags (Z.lor (i_flags ip) I_BUSY)) ;;
      release L_icache ;;
      ip <- get_inode i ;;
      if has (i_flags ip) I_VALID then ret tt else
      sb <- gets k_sb ;;
      bp <- bread (i_dev ip) (IBLOCK (i_inum ip) sb) ;;
      bf <- get_buf bp ;;
      ip <- get_inode i ;;
      upd_inode i (load_dinode (di_off (i_inum ip)) (b_data bf)) ;;
      brelse bp ;;
      ip <- get_inode i ;;
      upd_inode i (set_i_flags (Z.lor (i_flags ip) I_VALID)) ;;
      if i_type ip =? 0 then panic "ilock: no type" else ret tt
  end.

Definition iunlock (p : option nat) : K unit :=
  match p with
  | None => panic "iunlock"
  | Some i =>
      ip <- get_inode i ;;
      if negb (has (i_flags ip) I_BUSY) || (i_ref ip <? 1) then panic "iunlock" else
      acquire L_icache ;;
      ip <- get_inode i ;;
      upd_inode i (set_i_flags (Z.land (i_flags ip) (Z.lnot I_BUSY))) ;;
      wakeup (Ch_inode i) ;;
      release L_icache
  end.

(** ** Inode contents *)

Definition addr_of (i : nat) (n : nat) : K Z :=
  ip <- get_inode i ;;
  match i_addrs ip !! n with
  | Some a => ret a
  | None => undefined
  end.

Definition set_addr (i : nat) (n : nat) (a : Z) : K unit :=
  ip <- get_inode i ;;
  upd_inode i (set_i_addrs (<[n := a]> (i_addrs ip))).

Definition bmap (i : nat) (bn : Z) : K Z :=
  ip <- get_inode i ;;
  if bn <? NDIRECT then
    addr <- addr_of i (Z.to_nat bn) ;;
    if addr =? 0 then
      addr <- balloc (i_dev ip) ;;
      set_addr i (Z.to_nat bn) addr ;;
      ret addr
    else ret addr
  else
  let bn := bn - NDIRECT in
  if bn <? NINDIRECT then
    addr <- addr_of i (Z.to_nat NDIRECT) ;;
    addr <-
      (if addr =? 0 then
         addr <- balloc (i_dev ip) ;;
         set_addr i (Z.to_nat NDIRECT) addr ;;
         ret addr
       else ret addr) ;;
    bp <- bread (i_dev ip) addr ;;
    bf <- get_buf bp ;;
    let addr := get32 (4 * Z.to_nat bn) (b_data bf) in
    addr <-
      (if addr =? 0 then
         addr <- balloc (i_dev ip) ;;
         bf <- get_buf bp ;;
         upd_buf bp (set_b_data (put32 (4 * Z.to_nat bn) addr (b_data bf))) ;;
         log_write bp ;;
         ret addr
       else ret addr) ;;
    brelse bp ;;
    ret addr
  else panic "bmap: out of range".

Definition itrunc (i : nat) : K unit :=
  for_all (seq 0 (Z.to_nat NDIRECT)) (fun n =>
    ip <- get_inode i ;;
    a <- addr_of i n ;;
    when (nz a) (bfree (i_dev ip) a ;; set_addr i n 0)) ;;
  ip <- get_inode i ;;
  a <- addr_of i (Z.to_nat NDIRECT) ;;
  when (nz a)
    (bp <- bread (i_dev ip) a ;;
     for_all (seq 0 (Z.to_nat NINDIRECT)) (fun j =>
       bf <- get_buf bp ;;
       when (nz (get32 (4 * j) (b_data bf)))
         (bfree (i_dev ip) (get32 (4 * j) (b_data bf)))) ;;
     brelse bp ;;
     a <- addr_of i (Z.to_nat NDIRECT) ;;
     bfree (i_dev ip) a ;;
     set_addr i (Z.to_nat NDIRECT) 0) ;;
  upd_inode i (set_i_size 0) ;;
  iupdate i.

Definition iput (i : nat) : K unit :=
  acquire L_icache ;;
  ip <- get_inode i ;;
  when ((i_ref ip =? 1) && has (i_flags ip) I_VALID && (i_nlink ip =? 0))
    (if has (i_flags ip) I_BUSY then panic "iput busy" else
     upd_inode i (set_i_flags (Z.lor (i_flags ip) I_BUSY)) ;;
     release L_icache ;;
     itrunc i ;;
     upd_inode i (set_i_type 0) ;;
     iupdate i ;;
     acquire L_icache ;;
     upd_inode i (set_i_flags 0) ;;
     wakeup (Ch_inode i)) ;;
  ip <- get_inode i ;;
  upd_inode i (set_i_ref (i_ref ip - 1)) ;;
  release L_icache.

Definition iunlockput (i : nat) : K unit :=
  iunlock (Some i) ;; iput i.

Definition stati (i : nat) : K stat :=
  ip <- get_inode i ;;
  ret (mkStat (i_type ip) (i_dev ip) (i_inum ip) (i_nlink ip) (i_size ip)).

(** [readi] returns the bytes it stored at [dst] and its result.  Every
    iteration but the first starts at a block boundary, so there are at most
    [n / BSIZE + 2] of them. *)
Definition readi (i : nat) (off n : Z) : K (list Z * Z) :=
  ip <- get_inode i ;;
  if i_type ip =? T_DEV then
    match (if (i_major ip <? 0) || (NDEV <=? i_major ip) then None
           else dev_read (i_major ip)) with
    | None => ret ([], -1)
    | Some f => f i (s32 n)
    end
  else
  if (i_size ip <? off) || (u32 (off + n) <? off) then ret ([], -1) else
  let n := if i_size ip <? u32 (off + n) then i_size ip - off else n in
  loop_fuel (S (S (S (Z.to_nat (n / BSIZE))))) (fun '(tot, off, dst) =>
    if negb (tot <? n) then ret (inr (dst, s32 n)) else
    addr <- bmap i (off / BSIZE) ;;
    ip <- get_inode i ;;
    bp <- bread (i_dev ip) addr ;;
    let m := Z.min (n - tot) (BSIZE - off mod BSIZE) in
    bf <- get_buf bp ;;
    let bytes := slice (Z.to_nat (off mod BSIZE)) (Z.to_nat m) (b_data bf) in
    brelse bp ;;
    ret (inl (tot + m, off + m, dst ++ bytes))) (0, off, []).

Definition writei (i : nat) (src : list Z) (off n : Z) : K Z :=
  ip <- get_inode i ;;
  if i_type ip =? T_DEV then
    match (if (i_major ip <? 0) || (NDEV <=? i_major ip) then None
           else dev_write (i_major ip)) with
    | None => ret (-1)
    | Some f => f i src (s32 n)
    end
  else
  if (i_size ip <? off) || (u32 (off + n) <? off) then ret (-1) else
  if MAXFILE * BSIZE <? u32 (off + n) then ret (-1) else
  off <- loop_fuel (S (S (S (Z.to_nat (n / BSIZE))))) (fun '(tot, off, src) =>
    if negb (tot <? n) then ret (inr off) else
    addr <- bmap i (off / BSIZE) ;;
    ip <- get_inode i ;;
    bp <- bread (i_dev ip) addr ;;
    let m := Z.min (n - tot) (BSIZE - off mod BSIZE) in
    bf <- get_buf bp ;;
    upd_buf bp (set_b_data
      (splice (Z.to_nat (off mod BSIZE)) (take (Z.to_nat m) src) (b_data bf))) ;;
    log_write bp ;;
    brelse bp ;;
    ret (inl (tot + m, off + m, drop (Z.to_nat m) src))) (0, off, src) ;;
  ip <- get_inode i ;;
  when ((0 <? n) && (i_size ip <? off)) (upd_inode i (set_i_size off) ;; iupdate i) ;;
  ret (s32 n).

(** ** Directories *)

Definition namecmp (s t : list Z) : Z := strncmp s t (Z.to_nat DIRSIZ).

(** The fields of a [struct dirent]. *)
Definition de_inum (de : list Z) : Z := get16 0 de.
Definition de_name (de : list Z) : list Z := slice 2 (Z.to_nat DIRSIZ) de.

(** The entry's inode and its offset. *)
Definition dirlookup (dp : nat) (name : list Z) : K (option (nat * Z)) :=
  ip <- get_inode dp ;;
  if negb (i_type ip =? T_DIR) then panic "dirlookup not DIR" else
  loop_fuel (S (S (Z.to_nat (i_size ip / sizeof_dirent)))) (fun off =>
    ip <- get_inode dp ;;
    if negb (off <? i_size ip) then ret (inr None) else
    ' (de, r) <- readi dp off sizeof_dirent ;;
    if negb (r =? sizeof_dirent) then panic "dirlink read" else
    if de_inum de =? 0 then ret (inl (off + sizeof_dirent)) else
    if namecmp name (de_name de) =? 0 then
      ip <- get_inode dp ;;
      i <- iget (i_dev ip) (de_inum de) ;;
      ret (inr (Some (i, off)))
    else ret (inl (off + sizeof_dirent))) 0.

Definition dirlink (dp : nat) (name : list Z) (inum : Z) : K Z :=
  r <- dirlookup dp name ;;
  match r with
  | Some (i, _) => iput i ;; ret (-1)
  | None =>
      ip <- get_inode dp ;;
      off <- loop_fuel (S (S (Z.to_nat (i_size ip / sizeof_dirent)))) (fun off =>
        ip <- get_inode dp ;;
        if negb (off <? i_size ip) then ret (inr off) else
        ' (de, r) <- readi dp off sizeof_dirent ;;
        if negb (r =? sizeof_dirent) then panic "dirlink read" else
        if de_inum de =? 0 then ret (inr off)
        else ret (inl (off + sizeof_dirent))) 0 ;;
      let de := le_bytes 2 inum ++ strncpy_bytes name (Z.to_nat DIRSIZ) in
      r <- writei dp de off sizeof_dirent ;;
      if negb (r =? sizeof_dirent) then panic "dirlink" else ret 0
  end.

(** ** Paths

    A path is a list of bytes; its end is the terminating NUL. *)

Definition slash : Z := 47.

(** [while( *path == '/') path++;] *)
Fixpoint skip_slashes (path : list Z) : list Z :=
  match path with
  | c :: p => if c =? slash then skip_slashes p else path
  | [] => []
  end.

(** [while( *path != '/' && *path != 0) path++;]: the characters passed over and
    the rest. *)
Fixpoint take_elem (path : list Z) : list Z * list Z :=
  match path with
  | c :: p =>
      if (c =? slash) || (c =? 0) then ([], path)
      else let (s, r) := take_elem p in (c :: s, r)
  | [] => ([], [])
  end.

(** [path]'s first character is NUL. *)
Definition at_end (path : list Z) : bool :=
  match path with
  | [] => true
  | c :: _ => c =? 0
  end.

(** The rest of the path and the new contents of [name], or [None] when there
    is no element. *)
Definition skipelem (path name : list Z) : option (list Z * list Z) :=
  let path := skip_slashes path in
  if at_end path then None else
  let (s, rest) := take_elem path in
  let name :=
    if DIRSIZ <=? Z.of_nat (length s) then splice 0 (take (Z.to_nat DIRSIZ) s) name
    else splice 0 (s ++ [0]) name in
  Some (skip_slashes rest, name).

(** The inode, if any, and the contents of [name]. *)
Definition namex (path : list Z) (nameiparent : bool) (name : list Z)
  : K (option nat * list Z) :=
  ip <-
    (if match path with c :: _ => c =? slash | [] => false end
     then iget ROOTDEV ROOTINO
     else
       me <- curproc ;;
       p <- get_proc me ;;
       match p_cwd p with
       | Some i => idup i
       | None => undefined
       end) ;;
  loop_fuel (S (length path)) (fun '(ip, path, name) =>
    match skipelem path name with
    | None =>
        if nameiparent then iput ip ;; ret (inr (None, name))
        else ret (inr (Some ip, name))
    | Some (path, name) =>
        ilock (Some ip) ;;
        n <- get_inode ip ;;
        if negb (i_type n =? T_DIR) then iunlockput ip ;; ret (inr (None, name)) else
        if nameiparent && at_end path then
          iunlock (Some ip) ;; ret (inr (Some ip, name))
        else
        r <- dirlookup ip name ;;
        match r with
        | None => iunlockput ip ;; ret (inr (None, name))
        | Some (next, _) => iunlockput ip ;; ret (inl (next, path, name))
        end
    end) (ip, path, name).

Definition namei (path : list Z) : K (option nat) :=
  ' (r, _) <- namex path false (replicate 14 0) ;; ret r.

Definition nameiparent (path name : list Z) : K (option nat * list Z) :=
  namex path true name.

End fs.

(** ** Inodes on the disk *)

(** The 64 bytes of a [struct dinode]. *)
Definition dinode_bytes (ip : inode) : list Z :=
  (((le_bytes 2 (i_type ip) ++ le_bytes 2 (i_major ip)) ++ le_bytes 2 (i_minor ip)) ++
    le_bytes 2 (i_nlink ip)) ++ le_bytes 4 (i_size ip) ++ concat (le_bytes 4 <$> i_addrs ip).

(** The fields of an inode that are on the disk, with the values they can
    have. *)
Definition dinode_fields (ip : inode) : Z * Z * Z * Z * Z * list Z :=
  (i_type ip, i_major ip, i_minor ip, i_nlink ip, i_size ip, i_addrs ip).
Definition dinode_ok (ip : inode) : Prop :=
  Forall (fun v => -32768 <= v < 32768) [i_type ip; i_major ip; i_minor ip; i_nlink ip] /\
  0 <= i_size ip < 4294967296 /\ length (i_addrs ip) = 13%nat /\
  Forall (fun a => 0 <= a < 4294967296) (i_addrs ip).

Lemma length_concat_le n l : length (concat (le_bytes n <$> l)) = (n * length l)%nat.
Proof.
  induction l as [|x l IH]; [cbn; lia|]. cbn [fmap list_fmap concat length].
  rewrite length_app, length_le_bytes. rewrite IH. lia.
Qed.

Lemma store_dinode_splice off ip d :
  (off + 64 <= length d)%nat -> length (i_addrs ip) = 13%nat ->
  store_dinode off ip d = splice off (dinode_bytes ip) d /\ length (dinode_bytes ip) = 64%nat.
Proof.
  intros Hd Ha. unfold store_dinode, dinode_bytes, put16, put32.
  pose proof (length_concat_le 4 (i_addrs ip)) as Hc. rewrite Ha in Hc.
  set (A := concat _) in *.
  assert (forall n v, length (le_bytes n v) = n) as Hl by apply length_le_bytes. split.
  - pose proof (splice_splice_next off (le_bytes 2 (i_type ip)) (le_bytes 2 (i_major ip)) d) as H1.
    rewrite !Hl in H1. rewrite H1 by lia.
    pose proof (splice_splice_next off (le_bytes 2 (i_type ip) ++ le_bytes 2 (i_major ip))
      (le_bytes 2 (i_minor ip)) d) as H2.
    rewrite !length_app, !Hl in H2. change (off + (2 + 2))%nat with (off + 4)%nat in H2. rewrite H2 by lia.
    pose proof (splice_splice_next off ((le_bytes 2 (i_type ip) ++ le_bytes 2 (i_major ip)) ++
      le_bytes 2 (i_minor ip)) (le_bytes 2 (i_nlink ip)) d) as H3.
    rewrite !length_app, !Hl in H3. change (off + (2 + 2 + 2))%nat with (off + 6)%nat in H3.
    rewrite H3 by lia.
    set (B := ((le_bytes 2 (i_type ip) ++ le_bytes 2 (i_major ip)) ++
      le_bytes 2 (i_minor ip)) ++ le_bytes 2 (i_nlink ip)).
    assert (length B = 8%nat) as HB by (unfold B; by rewrite !length_app, !Hl).
    pose proof (splice_splice_next off B (le_bytes 4 (i_size ip)) d) as H4.
    rewrite HB, Hl in H4. rewrite H4 by lia.
    pose proof (splice_splice_next off (B ++ le_bytes 4 (i_size ip)) A d) as H5.
    rewrite length_app, HB, Hl in H5. change (off + (8 + 4))%nat with (off + 12)%nat in H5.
    rewrite H5 by lia. by rewrite <- app_assoc.
  - rewrite !length_app, !Hl, Hc. done.
Qed.

(** The fields depend only on the inode's 64 bytes. *)
Lemma load_dinode_slice off d ip :
  load_dinode off d ip = load_dinode 0 (slice off 64 d) ip.
Proof.
  unfold load_dinode, di_type, di_addrs, get16, get32.
  rewrite !slice_slice by lia. rewrite !Nat.add_0_r.
  f_equal. apply list_fmap_ext. intros i x Hx. apply lookup_seq in Hx as [-> Hx].
  rewrite slice_slice by lia. do 2 f_equal. lia.
Qed.

Lemma s16_le v : -32768 <= v < 32768 -> s16 (le_val (le_bytes 2 v)) = v.
Proof.
  intros Hv. rewrite le_val_bytes. change (256 ^ Z.of_nat 2) with 65536. fold (u16 v).
  rewrite s16_u16. by apply s16_small.
Qed.

Lemma load_dinode_bytes ip ip0 :
  dinode_ok ip ->
  dinode_fields (load_dinode 0 (dinode_bytes ip) ip0) = dinode_fields ip.
Proof.
  intros (Hs & Hz & Hl & Ha).
  apply Forall_cons in Hs as [H1 Hs]. apply Forall_cons in Hs as [H2 Hs].
  apply Forall_cons in Hs as [H3 Hs]. apply Forall_cons in Hs as [H4 _].
  unfold dinode_fields. cbn [load_dinode i_type i_major i_minor i_nlink i_size i_addrs].
  assert (forall v, -32768 <= v < 32768 -> s16 (le_val [v mod 256; v / 256 mod 256]) = v) as E2
    by (intros v Hv; by apply (s16_le v)).
  assert (forall v, 0 <= v < 4294967296 -> le_val [v mod 256; v / 256 mod 256; v / 256 / 256 mod 256;
    v / 256 / 256 / 256 mod 256] = v) as E4 by (intros; by rewrite <- (le_val_4 v) at 5 by done).
  destruct ip as [dev inum ref flags type major minor nlink size addrs]. cbn in *.
  do 13 (destruct addrs as [|? addrs]; [done|]). destruct addrs; [|done].
  repeat (apply Forall_cons in Ha as [? Ha]).
  unfold di_type, di_addrs, get16, get32, slice, dinode_bytes. cbn.
  rewrite !E2 by done. rewrite !E4 by done. done.
Qed.

(** An inode written by [iupdate] is read back by [ilock]: every field has the
    value it had, and the other inodes of the block are untouched. *)
Theorem dinode_roundtrip off ip d :
  (off + 64 <= length d)%nat -> dinode_ok ip ->
  (forall ip0, dinode_fields (load_dinode off (store_dinode off ip d) ip0) = dinode_fields ip) /\
  (forall off' ip0, (off' + 64 <= off \/ off + 64 <= off')%nat ->
     load_dinode off' (store_dinode off ip d) ip0 = load_dinode off' d ip0) /\
  length (store_dinode off ip d) = length d.
Proof.
  intros Hd Hok. destruct (store_dinode_splice off ip d Hd) as [-> Hl]; [apply Hok|].
  split; [|split].
  - intros ip0. rewrite load_dinode_slice, <- Hl, slice_splice_same by lia.
    by apply load_dinode_bytes.
  - intros off' ip0 Hoff. rewrite !(load_dinode_slice off').
    rewrite slice_splice_other by lia. done.
  - apply length_splice. lia.
Qed.

Definition example_inode : inode :=
  mkInode 1 7 1 2 2 0 0 (-3) 70000 (Z.of_nat <$> seq 100 13).

Lemma dinode_roundtrip_witness :
  (forall ip0, dinode_fields (load_dinode 64 (store_dinode 64 example_inode (replicate 512 0)) ip0) =
     dinode_fields example_inode) /\
  (forall off' ip0, (off' + 64 <= 64 \/ 64 + 64 <= off')%nat ->
     load_dinode off' (store_dinode 64 example_inode (replicate 512 0)) ip0 =
     load_dinode off' (replicate 512 0) ip0) /\
  length (store_dinode 64 example_inode (replicate 512 0)) = length (replicate 512 0).
Proof.
  apply (dinode_roundtrip 64 example_inode (replicate 512 0)).
  - rewrite length_replicate. lia.
  - split; [repeat (apply Forall_cons; split; [cbn; lia|]); by apply Forall_nil|].
    split; [cbn; lia|]. split; [reflexivity|].
    repeat (apply Forall_cons; split; [cbn; lia|]); by apply Forall_nil.
Defined.

(** ** The free map *)

Lemma land_bit x n : 0 <= n -> nz (Z.land x (Z.shiftl 1 n)) = Z.testbit x n.
Proof.
  intros Hn. rewrite Z.shiftl_1_l.
  destruct (Z.testbit x n) eqn:E.
  - apply nz_true. intros H0. assert (Z.testbit (Z.land x (2 ^ n)) n = false) as Hb by (by rewrite H0, Z.testbit_0_l).
    rewrite Z.land_spec, E, Z.pow2_bits_true in Hb by done. done.
  - apply nz_false. apply Z.bits_inj'. intros m Hm. rewrite Z.land_spec, Z.testbit_0_l.
    destruct (decide (m = n)) as [->|Hne]; [by rewrite E|].
    rewrite Z.pow2_bits_false by lia. apply andb_false_r.
Qed.

Lemma bit_used_testbit d bi : bit_used d bi = Z.testbit (bit_byte d bi) (bi mod 8).
Proof. unfold bit_used, bit_mask. apply land_bit. apply Z.mod_pos_bound. lia. Qed.

Lemma bit_byte_insert d bi v bj :
  0 <= bi -> 0 <= bj -> (Z.to_nat (bi / 8) < length d)%nat ->
  bit_byte (<[Z.to_nat (bi / 8) := v]> d) bj = if bi / 8 =? bj / 8 then v else bit_byte d bj.
Proof.
  intros Hi Hj Hl. unfold bit_byte. rewrite !nth_lookup.
  pose proof (Z.div_pos bi 8 Hi ltac:(lia)). pose proof (Z.div_pos bj 8 Hj ltac:(lia)).
  destruct (Z.eqb_spec (bi / 8) (bj / 8)) as [E|E].
  - rewrite <- E, list_lookup_insert_eq by done. done.
  - rewrite list_lookup_insert_ne by lia. done.
Qed.

Lemma bit_index bi bj : bi / 8 = bj / 8 -> bi mod 8 = bj mod 8 -> bi = bj.
Proof. intros H1 H2. rewrite (Z.div_mod bi 8), (Z.div_mod bj 8) by lia. lia. Qed.

Lemma length_mark_used d bi : length (mark_used d bi) = length d.
Proof. apply length_insert. Qed.

(** Marking a block as used or free in the map changes the bit of this block and
    of no other. *)
Lemma bitmap_update d bi bj :
  length d = 512%nat -> 0 <= bi < BPB -> 0 <= bj < BPB ->
  bit_used (mark_used d bi) bj = ((bj =? bi) || bit_used d bj) /\
  bit_used (mark_free d bi) bj = (negb (bj =? bi) && bit_used d bj).
Proof.
  intros Hd Hi Hj. unfold BPB, BSIZE in *.
  assert (Z.to_nat (bi / 8) < length d)%nat as Hlt.
  { rewrite Hd. assert (bi / 8 < 512) by (apply Z.div_lt_upper_bound; lia).
    pose proof (Z.div_pos bi 8 ltac:(lia) ltac:(lia)). lia. }
  assert (bi / 8 = bj / 8 -> (bj =? bi) = (bi mod 8 =? bj mod 8)) as He.
  { intros E. destruct (Z.eqb_spec bj bi) as [->|Hne]; [by rewrite Z.eqb_refl|].
    symmetry. apply Z.eqb_neq. intros E'. apply Hne. symmetry. by apply bit_index. }
  assert (bi / 8 <> bj / 8 -> (bj =? bi) = false) as Hn by (intros; apply Z.eqb_neq; congruence).
  pose proof (Z.mod_pos_bound bi 8 ltac:(lia)). pose proof (Z.mod_pos_bound bj 8 ltac:(lia)).
  unfold mark_used, mark_free. rewrite !bit_used_testbit, !bit_byte_insert by (lia || done).
  unfold bit_mask. destruct (Z.eqb_spec (bi / 8) (bj / 8)) as [E|E].
  - rewrite (He E). assert (bit_byte d bi = bit_byte d bj) as -> by (unfold bit_byte; by rewrite E).
    rewrite Z.lor_spec, Z.shiftl_1_l, Z.pow2_bits_eqb by lia. split; [apply orb_comm|].
    rewrite Z.land_spec. unfold u8. change 256 with (2 ^ 8).
    rewrite Z.mod_pow2_bits_low, Z.lnot_spec, Z.pow2_bits_eqb by lia. apply andb_comm.
  - rewrite (Hn E). done.
Qed.

Lemma scan_bits_spec n bi b size d :
  match scan_bits n bi b size d with
  | Some r => bi <= r < bi + Z.of_nat n /\ b + r < size /\ bit_used d r = false /\
      forall j, bi <= j < r -> bit_used d j = true
  | None => forall j, bi <= j < bi + Z.of_nat n -> b + j < size -> bit_used d j = true
  end.
Proof.
  revert bi. induction n as [|n IH]; intros bi; cbn [scan_bits]; [lia|].
  destruct (Z.ltb_spec (b + bi) size) as [Hs|Hs]; cbn [negb]; [|lia].
  destruct (bit_used d bi) eqn:E; cbn [negb]; [|split_and!; try done; lia].
  specialize (IH (bi + 1)). destruct (scan_bits n (bi + 1) b size d) as [r|].
  - destruct IH as (H1 & H2 & H3 & H4). split_and!; try done; try lia.
    intros j Hj. destruct (decide (j = bi)) as [->|]; [done|]. apply H4. lia.
  - intros j Hj Hjs. destruct (decide (j = bi)) as [->|]; [done|]. apply IH; lia.
Qed.

(** The search of [balloc] in a block of the map finds the first free block: the
    block it returns is free and below the size of the file system, every
    earlier one is in use, and it fails only when all of them are. *)
Theorem balloc_first_free b size d :
  match scan_bits (Z.to_nat BPB) 0 b size d with
  | Some r => 0 <= r < BPB /\ b + r < size /\ bit_used d r = false /\
      forall j, 0 <= j < r -> bit_used d j = true
  | None => forall j, 0 <= j < BPB -> b + j < size -> bit_used d j = true
  end.
Proof. apply (scan_bits_spec (Z.to_nat BPB) 0 b size d). Qed.

(** ** Names in directories *)

(** The name [dirlink] stores is the one [dirlookup] finds: a directory entry
    written for [name] matches exactly the names with the same first DIRSIZ
    characters, and holds the inode number. *)
Theorem dirent_matches name name' inum :
  let de := le_bytes 2 inum ++ strncpy_bytes name (Z.to_nat DIRSIZ) in
  length de = 16%nat /\ de_inum de = u16 inum /\
  (namecmp name' (de_name de) = 0 <-> take 14 (cstr name') = take 14 (cstr name)).
Proof.
  intros de. assert (length (strncpy_bytes name 14) = 14%nat) as Hl.
  { rewrite strncpy_bytes_spec, length_app, length_replicate, length_take. lia. }
  change (Z.to_nat DIRSIZ) with 14%nat in *.
  assert (de_name de = strncpy_bytes name 14) as Hn.
  { unfold de_name, de. rewrite slice_app_r by (rewrite length_le_bytes; lia).
    rewrite length_le_bytes. cbn [Nat.sub]. unfold slice. rewrite drop_0.
    apply take_ge. change (Z.to_nat DIRSIZ) with 14%nat. lia. }
  split; [unfold de; by rewrite length_app, length_le_bytes, Hl|]. split.
  - unfold de_inum, get16, de. rewrite slice_app_l by (rewrite length_le_bytes; lia).
    unfold slice. rewrite drop_0, take_ge by (by rewrite length_le_bytes). apply le_val_bytes.
  - unfold namecmp. rewrite Hn. change (Z.to_nat DIRSIZ) with 14%nat.
    rewrite strncmp_zero, cstr_strncpy. rewrite take_take. done.
Qed.

(** ** Path names *)

(** The elements of a path, by cutting it at the slashes: [cur] is the element
    being read, last character first. *)
Definition emit (cur : list Z) (l : list (list Z)) : list (list Z) :=
  match cur with [] => l | _ => rev cur :: l end.
Fixpoint split_path (cur : list Z) (path : list Z) : list (list Z) :=
  match path with
  | [] => emit cur []
  | c :: p =>
      if c =? 0 then emit cur []
      else if c =? slash then emit cur (split_path [] p)
      else split_path (c :: cur) p
  end.
Definition elements (path : list Z) : list (list Z) := split_path [] path.

Lemma elements_skip path : elements (skip_slashes path) = elements path.
Proof.
  induction path as [|c p IH]; [done|]. cbn [skip_slashes].
  destruct (Z.eqb_spec c slash) as [->|]; [|done]. rewrite IH. reflexivity.
Qed.

Lemma split_path_take cur path :
  split_path cur path = emit (rev (fst (take_elem path)) ++ cur) (elements (snd (take_elem path))).
Proof.
  revert cur. induction path as [|c p IH]; intros cur; [done|]. cbn [split_path take_elem].
  destruct (Z.eqb_spec c 0) as [->|Hc]; [by rewrite orb_true_r|]. rewrite orb_false_r.
  destruct (Z.eqb_spec c slash) as [->|Hs]; [done|].
  rewrite IH. destruct (take_elem p) as [s r]. cbn [fst snd rev]. by rewrite <- app_assoc.
Qed.

Lemma take_elem_length path : (length (snd (take_elem path)) <= length path)%nat.
Proof.
  induction path as [|c p IH]; [done|]. cbn [take_elem]. destruct (_ || _); [done|].
  destruct (take_elem p) as [s r]. cbn in *. lia.
Qed.

Lemma skip_slashes_length path : (length (skip_slashes path) <= length path)%nat.
Proof. induction path as [|c p IH]; [done|]. cbn. destruct (_ =? _); cbn; lia. Qed.

Lemma take_elem_no_nul path : Forall (fun c => c <> 0) (fst (take_elem path)).
Proof.
  induction path as [|c p IH]; [constructor|]. cbn [take_elem].
  destruct (c =? slash); cbn [orb]; [constructor|].
  destruct (Z.eqb_spec c 0); [constructor|].
  destruct (take_elem p) as [s r]. by constructor.
Qed.

(** Past the slashes, the path is at its end or an element starts. *)
Lemma skip_slashes_cases path :
  (at_end (skip_slashes path) = true /\ elements path = []) \/
  (at_end (skip_slashes path) = false /\ fst (take_elem (skip_slashes path)) <> [] /\
   (length (snd (take_elem (skip_slashes path))) < length path)%nat).
Proof.
  induction path as [|c p IH]; [by left|]. cbn [skip_slashes].
  destruct (Z.eqb_spec c slash) as [->|Hs].
  - destruct IH as [[H1 H2]|(H1 & H2 & H3)]; [left; done|right]. split_and!; try done. cbn. lia.
  - cbn [at_end take_elem]. unfold elements. cbn [split_path].
    destruct (Z.eqb_spec c 0) as [->|Hc]; [by left|]. right.
    rewrite (proj2 (Z.eqb_neq c slash)) by done. cbn [orb].
    pose proof (take_elem_length p). destruct (take_elem p) as [s r]. cbn in *. split_and!; try done. lia.
Qed.

(** The name buffer after the copy of [skipelem]. *)
Lemma skipelem_name s name :
  Forall (fun c => c <> 0) s -> length name = 14%nat ->
  let name' := if DIRSIZ <=? Z.of_nat (length s) then splice 0 (take (Z.to_nat DIRSIZ) s) name
    else splice 0 (s ++ [0]) name in
  length name' = 14%nat /\ cstr name' = take 14 s.
Proof.
  intros Hs Hn. unfold DIRSIZ. change (Z.to_nat 14) with 14%nat. cbv zeta.
  destruct (Z.leb_spec 14 (Z.of_nat (length s))).
  - rewrite splice_all by (rewrite length_take; lia). split; [rewrite length_take; lia|].
    rewrite <- (app_nil_r (take 14 s)) at 1. apply (cstr_app _ 0). by apply Forall_take.
  - rewrite length_splice by (rewrite length_app; cbn; lia). split; [done|].
    rewrite (take_ge s) by lia. unfold splice. rewrite take_0, app_nil_l.
    rewrite <- app_assoc. generalize (drop (0 + length (s ++ [0])) name). intros r.
    clear -Hs. induction Hs as [|c s Hc _ IH]; [done|].
    change (cstr (c :: (s ++ [0] ++ r)) = c :: s). rewrite cstr_cons, IH.
    by rewrite (proj2 (Z.eqb_neq _ _) Hc).
Qed.

(** [skipelem] takes a path apart as its comment says.  It returns 0 exactly when the
    path has no more elements; otherwise [name] becomes the first element, cut
    off after DIRSIZ characters, what is left has the remaining elements, and
    it is shorter, so that the loop of [namex] ends. *)
Theorem skipelem_elements path name :
  length name = 14%nat ->
  match elements path with
  | [] => skipelem path name = None
  | x :: xs => exists rest name', skipelem path name = Some (rest, name') /\
      elements rest = xs /\ cstr name' = take 14 x /\ length name' = 14%nat /\
      (length rest < length path)%nat
  end.
Proof.
  intros Hn. unfold skipelem. destruct (skip_slashes_cases path) as [[H1 H2]|(H1 & H2 & H3)];
    rewrite H1; [by rewrite H2|].
  assert (elements path = fst (take_elem (skip_slashes path)) ::
    elements (snd (take_elem (skip_slashes path)))) as ->.
  { rewrite <- elements_skip. unfold elements at 1. rewrite split_path_take, app_nil_r.
    unfold emit. destruct (rev (fst (take_elem (skip_slashes path)))) eqn:E.
    - apply (f_equal (@rev Z)) in E. by rewrite rev_involutive in E.
    - by rewrite <- E, rev_involutive. }
  pose proof (take_elem_no_nul (skip_slashes path)) as Hs.
  destruct (take_elem (skip_slashes path)) as [s r]. cbn [fst snd] in *.
  destruct (skipelem_name s name Hs Hn) as [Hl Hc].
  do 2 eexists. split; [reflexivity|]. split; [apply elements_skip|]. split; [done|]. split; [done|].
  pose proof (skip_slashes_length r). lia.
Qed.

(** skipelem("///a//bb", name): the rest is "bb" and name is "a". *)
Lemma skipelem_elements_witness :
  match elements (chars "///a//bb") with
  | [] => skipelem (chars "///a//bb") (replicate 14 1) = None
  | x :: xs => exists rest name', skipelem (chars "///a//bb") (replicate 14 1) = Some (rest, name') /\
      elements rest = xs /\ cstr name' = take 14 x /\ length name' = 14%nat /\
      (length rest < length (chars "///a//bb"))%nat
  end.
Proof. apply (skipelem_elements (chars "///a//bb") (replicate 14 1)). reflexivity. Defined.

(** ** The inode cache *)

(** The entry is in use for inode [inum] of [dev]. *)
Definition is_inode (dev inum : Z) (ip : inode) : Prop :=
  0 < i_ref ip /\ i_dev ip = dev /\ i_inum ip = inum.

#[export] Instance is_inode_dec dev inum ip : Decision (is_inode dev inum ip).
Proof. unfold is_inode. apply _. Defined.

(** No inode is in the cache twice. *)
Definition icache_ok (k : kernel) : Prop :=
  length (k_icache k) = NINODE /\
  (forall i ip, k_icache k !! i = Some ip -> 0 <= i_ref ip) /\
  (forall i j dev inum ip jp, k_icache k !! i = Some ip -> k_icache k !! j = Some jp ->
     is_inode dev inum ip -> is_inode dev inum jp -> i = j).

Lemma is_inode_test dev inum ip :
  (0 <? i_ref ip) && (i_dev ip =? dev) && (i_inum ip =? inum) = bool_decide (is_inode dev inum ip).
Proof.
  unfold is_inode. destruct (Z.ltb_spec 0 (i_ref ip)), (Z.eqb_spec (i_dev ip) dev),
    (Z.eqb_spec (i_inum ip) inum); cbn; symmetry;
    (apply bool_decide_eq_true_2; tauto) || (apply bool_decide_eq_false_2; lia).
Qed.

(** The loop of [iget] from entry [j] on. *)
Lemma iget_scan_spec t j dev inum empty k :
  (forall i ip, t !! i = Some ip -> inode_at k (j + i) = ip) ->
  iget_scan (seq j (length t)) dev inum empty k =
    match list_find (is_inode dev inum) t with
    | Some (i, _) => inl (j + i)%nat
    | None => inr (match empty with
                   | Some _ => empty
                   | None => (fun p => (j + p.1)%nat) <$> list_find (fun ip => i_ref ip = 0) t
                   end)
    end.
Proof.
  revert j empty. induction t as [|ip t IH]; intros j empty Ht; [by destruct empty|].
  pose proof (Ht 0%nat ip eq_refl) as H0. rewrite Nat.add_0_r in H0.
  cbn [length seq iget_scan list_find]. rewrite H0, is_inode_test.
  destruct (decide (is_inode dev inum ip)) as [Hi|Hi].
  - rewrite bool_decide_eq_true_2 by done. by rewrite Nat.add_0_r.
  - rewrite bool_decide_eq_false_2 by done. rewrite IH.
    2:{ intros i x Hx. specialize (Ht (S i) x Hx). by rewrite Nat.add_succ_r in Ht. }
    destruct (list_find (is_inode dev inum) t) as [[i x]|]; cbn [prod_map fmap option_fmap option_map].
    { f_equal. cbn. lia. }
    f_equal. destruct empty as [m|]; [done|].
    destruct (decide (i_ref ip = 0)) as [Hr|Hr].
    + rewrite Hr. cbn. by rewrite Nat.add_0_r.
    + rewrite (proj2 (Z.eqb_neq _ _) Hr).
      destruct (list_find (fun ip => i_ref ip = 0) t) as [[i x]|]; cbn; [f_equal; lia|done].
Qed.

(** What [iget] does to the cache: it adds a reference to the inode's entry, or
    takes the first unused one. *)
Definition iget_effect (dev inum : Z) (t : list inode) : option (nat * inode) :=
  match list_find (is_inode dev inum) t with
  | Some (i, ip) => Some (i, set_i_ref (i_ref ip + 1) ip)
  | None =>
      match list_find (fun ip => i_ref ip = 0) t with
      | Some (i, ip) => Some (i, set_i_flags 0 (set_i_ref 1 (set_i_inum inum (set_i_dev dev ip))))
      | None => None
      end
  end.

Lemma iget_ok dev inum e k :
  length (k_icache k) = NINODE -> lock_free L_icache k -> cpu_ok k ->
  iget dev inum e k =
    match iget_effect dev inum (k_icache k) with
    | Some (i, ip) => Ok i e (set_k_icache (<[i := ip]> (k_icache k)) k)
    | None => Panic "iget: no inodes" (lock_taken L_icache k)
    end.
Proof.
  intros Hn Hl Hc. unfold iget, iget_effect. erewrite bind_Ok by (by apply acquire_ok).
  pose proof (inside_taken _ _ Hl Hc) as Hin. set (k1 := lock_taken L_icache k) in *. rewrite gets_eq, <- Hn.
  rewrite (iget_scan_spec (k_icache k)) by (intros i ip Hi; by apply inode_at_lookup).
  destruct (list_find (is_inode dev inum) (k_icache k)) as [[i ip]|] eqn:E.
  - apply list_find_Some in E as (Hi & _). cbn [Nat.add]. rewrite get_inode_eq.
    change (inode_at k1 i) with (inode_at k i). rewrite (inode_at_lookup _ _ _ Hi), upd_inode_eq.
    change (k_icache k1) with (k_icache k). rewrite (alter_as_insert _ _ _ _ Hi).
    erewrite bind_Ok by (apply (release_ok L_icache e k); done). by destruct k.
  - destruct (list_find (fun ip => i_ref ip = 0) (k_icache k)) as [[i ip]|] eqn:E'; [|done].
    apply list_find_Some in E' as (Hi & _). cbn [fmap option_fmap option_map Nat.add fst].
    rewrite !upd_inode_eq. cbn [k_icache set_k_icache]. rewrite !alter_alter, !set_set_k_icache.
    change (k_icache k1) with (k_icache k). rewrite (alter_as_insert _ _ _ _ Hi).
    erewrite bind_Ok by (apply (release_ok L_icache e k); done). by destruct k.
Qed.

Lemma iget_effect_ok dev inum k i ip :
  icache_ok k -> iget_effect dev inum (k_icache k) = Some (i, ip) ->
  (i < NINODE)%nat /\ is_inode dev inum ip /\ icache_ok (set_k_icache (<[i := ip]> (k_icache k)) k).
Proof.
  intros (Hn & Hpos & Hun) H. unfold iget_effect in H.
  assert ((i < NINODE)%nat /\ is_inode dev inum ip /\
    (forall j jp, j <> i -> k_icache k !! j = Some jp -> ~ is_inode dev inum jp)) as (H1 & H2 & H3).
  { destruct (list_find (is_inode dev inum) (k_icache k)) as [[j jp]|] eqn:E.
    - injection H as <- <-. apply list_find_Some in E as (Hj & Hm & _). rewrite <- Hn.
      split; [by eapply lookup_lt_Some|]. split; [unfold is_inode in *; cbn; lia|].
      intros i' ip' Hne Hi' Hm'. apply Hne. by eapply Hun.
    - destruct (list_find (fun ip => i_ref ip = 0) (k_icache k)) as [[j jp]|] eqn:E'; [|done]. injection H as <- <-.
      apply list_find_Some in E' as (Hj & _). rewrite <- Hn. split; [by eapply lookup_lt_Some|].
      split; [unfold is_inode; cbn; lia|]. apply list_find_None in E. rewrite Forall_lookup in E.
      intros i' ip' _ Hi'. by eapply E. }
  split; [done|]. split; [done|]. unfold icache_ok. cbn. rewrite length_insert. split; [done|].
  assert (forall j jp, <[i := ip]> (k_icache k) !! j = Some jp ->
    (j = i /\ jp = ip) \/ (j <> i /\ k_icache k !! j = Some jp)) as Hcase.
  { intros j jp Hj. destruct (decide (j = i)) as [->|Hne].
    - rewrite list_lookup_insert_eq in Hj by lia. injection Hj as <-. by left.
    - rewrite list_lookup_insert_ne in Hj by done. by right. }
  split.
  - intros j jp Hj. destruct (Hcase j jp Hj) as [[-> ->]|[_ Hj']]; [unfold is_inode in H2; lia|by eapply Hpos].
  - intros j j' d n jp jp' Hj Hj' Hm Hm'.
    destruct (Hcase j jp Hj) as [[-> ->]|[Hne Hjk]], (Hcase j' jp' Hj') as [[-> ->]|[Hne' Hjk']]; try done.
    + exfalso. assert (d = dev /\ n = inum) as [-> ->] by (unfold is_inode in *; lia).
      by apply (H3 j' jp').
    + exfalso. assert (d = dev /\ n = inum) as [-> ->] by (unfold is_inode in *; lia).
      by apply (H3 j jp).
    + by eapply Hun.
Qed.

(** The cache is full only when every entry is in use. *)
Lemma iget_effect_none dev inum k :
  icache_ok k -> iget_effect dev inum (k_icache k) = None ->
  forall i ip, k_icache k !! i = Some ip -> 0 < i_ref ip.
Proof.
  intros Hok E. unfold iget_effect in E.
  destruct (list_find (is_inode dev inum) _) as [[? ?]|]; [done|].
  destruct (list_find _ _) as [[? ?]|] eqn:E'; [done|]. apply list_find_None in E'.
  rewrite Forall_lookup in E'. intros i ip Hip. specialize (E' i ip Hip).
  destruct Hok as (_ & Hpos & _). specialize (Hpos i ip Hip). cbn in E'. lia.
Qed.

(** C28: The inode cache never has two entries for one inode.  [iget] returns the entry
    of the inode with one more reference, or, when it is not in the cache, the
    first unused entry, marked as not valid; it changes no other entry, keeps
    the cache free of duplicates, and panics only when every entry is in use. *)
Theorem iget_unique dev inum e k :
  icache_ok k -> lock_free L_icache k -> cpu_ok k ->
  match iget_effect dev inum (k_icache k) with
  | Some (i, ip) =>
      iget dev inum e k = Ok i e (set_k_icache (<[i := ip]> (k_icache k)) k) /\
      is_inode dev inum ip /\ icache_ok (set_k_icache (<[i := ip]> (k_icache k)) k)
  | None =>
      iget dev inum e k = Panic "iget: no inodes" (lock_taken L_icache k) /\
      forall i ip, k_icache k !! i = Some ip -> 0 < i_ref ip
  end.
Proof.
  intros Hok Hl Hc. pose proof (iget_ok dev inum e k (proj1 Hok) Hl Hc) as Hi.
  destruct (iget_effect dev inum (k_icache k)) as [[i ip]|] eqn:E.
  - split; [done|]. by eapply (iget_effect_ok dev inum k i ip).
  - split; [done|]. by eapply iget_effect_none.
Qed.

(** Two opens of the root directory on the demo machine. *)
Lemma iget_unique_witness :
  match iget_effect 1 1 (k_icache Demo.machine) with
  | Some (i, ip) =>
      iget 1 1 [] Demo.machine = Ok i [] (set_k_icache (<[i := ip]> (k_icache Demo.machine)) Demo.machine) /\
      is_inode 1 1 ip /\ icache_ok (set_k_icache (<[i := ip]> (k_icache Demo.machine)) Demo.machine)
  | None =>
      iget 1 1 [] Demo.machine = Panic "iget: no inodes" (lock_taken L_icache Demo.machine) /\
      forall i ip, k_icache Demo.machine !! i = Some ip -> 0 < i_ref ip
  end.
Proof.
  apply (iget_unique 1 1 [] Demo.machine).
  - split; [reflexivity|]. split.
    + intros i ip Hi. apply lookup_replicate in Hi as [-> _]. cbn. lia.
    + intros i j dev inum ip jp Hi _ [Hr _]. apply lookup_replicate in Hi as [-> _]. cbn in Hr. lia.
  - exists "icache"%string. reflexivity.
  - split; [cbn; lia|]. split; [done|cbn; lia].
Defined.

End Fs.
