(* ===== verification/Blocks.v ===== *)
(** The free map: what [balloc] and [bfree] of fs.c do to the blocks of the disk,
    inside of a transaction of the log. *)

From S2P Require Import Prelude Bytes Machine Demo Cstring Spinlock Consout Sleep Disk Bio Cache Log Fs.
Import Sleep Bio Cache Log LogSpec Fs.

Module Blocks.

Definition blk (V : gmap Z (list Z)) (b : Z) : list Z := default [] (V !! b).

Lemma blk_insert V b d : blk (<[b := d]> V) b = d.
Proof. unfold blk. by rewrite lookup_insert_eq. Qed.

(** Block [b] is marked in the map. *)
Definition used (V : gmap Z (list Z)) (sb : superblock) (b : Z) : bool :=
  bit_used (blk V (BBLOCK b sb)) (b mod BPB).

(** ** Computations that may panic *)

(** The computation returns with [Q], or panics with a message of [P]. *)
Definition wpp {A} (m : K A) (Q : A -> schedule kernel -> kernel -> Prop) (P : string -> Prop)
    (e : schedule kernel) (k : kernel) : Prop :=
  match m e k with
  | Ok a e' k' => Q a e' k'
  | Panic msg _ => P msg
  | Hang _ => False
  end.

Lemma wpp_bind {A B} (m : K A) (f : A -> K B) Q P e k :
  wp m (fun a e' k' => wpp (f a) Q P e' k') e k -> wpp (bind m f) Q P e k.
Proof. unfold wp, wpp, bind. by destruct (m e k). Qed.

Lemma wpp_wp {A} (m : K A) Q P e k : wp m Q e k -> wpp m Q P e k.
Proof. unfold wp, wpp. by destruct (m e k). Qed.

Lemma wpp_mono {A} (m : K A) (Q Q' : A -> schedule kernel -> kernel -> Prop) (P P' : string -> Prop) e k :
  wpp m Q P e k -> (forall a e' k', Q a e' k' -> Q' a e' k') -> (forall msg, P msg -> P' msg) -> wpp m Q' P' e k.
Proof. unfold wpp. destruct (m e k); naive_solver. Qed.

Lemma wpp_loop {A R} n (body : A -> K (A + R)) a Q P e k :
  wpp (body a) (fun x e' k' =>
    match x with inl a' => wpp (loop_fuel n body a') Q P e' k' | inr r => Q r e' k' end) P e k ->
  wpp (loop_fuel (S n) body a) Q P e k.
Proof.
  cbn [loop_fuel]. unfold wpp, bind. destruct (body a e k) as [x e' k'| |]; [|done..]. by destruct x.
Qed.

(** ** Blocks in a transaction *)

Section blocks.
Context `{DiskDriver} `{Devsw} (LS NL : Z).
#[local] Notation txn := (txn LS NL).

Lemma txn_room k V bl B : txn k V bl B -> (size (list_to_set bl : gset Z) < NBUF)%nat.
Proof.
  intros [_ Hg _ Hnd Hlen _ _ _ _ _]. rewrite size_list_to_set by done.
  destruct Hg as [_ _ _ _ _ HNL _ _]. unfold NBUF, LOGSIZE, MAXOPBLOCKS in *. lia.
Qed.

(** A block is read; [d] is what it holds. *)
Lemma txn_take k V bl bno e (Q : nat -> schedule kernel -> kernel -> Prop) :
  txn k V bl ∅ -> 0 <= bno < k_disksize k ->
  (forall b k' d, tframe k k' -> txn k' V bl {[bno := b]} -> V !! bno = Some d -> length d = 512%nat ->
     k_disk k' !! (1, bno) = V !! bno \/ bno ∈ bl -> Q b e k') ->
  wp (bread 1 bno) Q e k.
Proof.
  intros Htx Hb HQ. destruct (brep_block _ _ _ _ _ (tx_rep _ _ _ _ _ _ Htx) Hb) as (d & Hd & Hl).
  eapply txn_bread; [exact Htx|apply lookup_empty|done| |].
  { right. unfold pinned. rewrite dom_empty_L, union_empty_r_L. by eapply txn_room. }
  intros b k' Hf Htx'. rewrite insert_empty in Htx'. apply (HQ b k' d); try done.
  destruct (decide (bno ∈ bl)) as [|Hn]; [by right|left]. destruct Hf as (_ & -> & _).
  eapply brep_disk; [exact (tx_rep _ _ _ _ _ _ Htx)|by rewrite elem_of_list_to_set|done|done].
Qed.

(** It is given back as it was. *)
Lemma txn_drop k V bl bno b e (Q : unit -> schedule kernel -> kernel -> Prop) :
  txn k V bl {[bno := b]} -> k_disk k !! (1, bno) = V !! bno \/ bno ∈ bl ->
  (forall k', tframe k k' -> txn k' V bl ∅ -> Q tt e k') -> wp (brelse b) Q e k.
Proof.
  intros Htx Hd HQ. eapply txn_brelse; [exact Htx|apply lookup_singleton_eq|tauto|].
  intros k' Hf Htx'. rewrite delete_singleton_eq in Htx'. by apply HQ.
Qed.

(** It is changed, logged and given back. *)
Lemma txn_put {A} (rest : K A) k V bl bno b d e (Q : A -> schedule kernel -> kernel -> Prop) :
  txn k V bl {[bno := b]} -> length d = 512%nat -> home_ok LS NL (k_disksize k) bno ->
  Z.of_nat (length bl) < NL - 1 ->
  (forall k', tframe k k' -> txn k' (<[bno := d]> V) (log_add bno bl) ∅ -> wp rest Q e k') ->
  wp (upd_buf b (set_b_data d) ;; log_write b ;; brelse b ;; rest) Q e k.
Proof.
  intros Htx Hl Hhome Hlen HQ. apply wp_bind.
  eapply txn_set_data; [exact Htx|apply lookup_singleton_eq|done|]. intros k2 Hf2 Htx2. apply wp_bind.
  eapply txn_log_write; [exact Htx2|apply lookup_singleton_eq|by rewrite (tframe_disksize _ _ Hf2)|done|].
  intros k3 Hf3 Htx3. apply wp_bind. eapply txn_brelse; [exact Htx3|apply lookup_singleton_eq| |].
  { left. assert (bno ∈ (list_to_set (log_add bno bl) : gset Z)) as Hin by (rewrite log_add_set; set_solver).
    by apply elem_of_list_to_set in Hin. }
  intros k4 Hf4 Htx4. rewrite delete_singleton_eq in Htx4. apply HQ; [|done].
  by repeat (etransitivity; [eassumption|]).
Qed.

Lemma wp_ret_tt (m1 m2 m3 : K unit) (Q : unit -> schedule kernel -> kernel -> Prop) e k :
  wp (m1 ;; m2 ;; m3 ;; ret tt) Q e k -> wp (m1 ;; m2 ;; m3) Q e k.
Proof.
  unfold wp, bind, ret. destruct (m1 e k) as [? e1 s1| |]; [|done..].
  destruct (m2 e1 s1) as [? e2 s2| |]; [|done..]. by destruct (m3 e2 s2) as [[] | |].
Qed.

Lemma log_add_length bno bl : (length (log_add bno bl) <= S (length bl))%nat.
Proof. unfold log_add. case_decide; rewrite ?length_app; cbn; lia. Qed.

Lemma tframe_sb k k' : tframe k k' -> k_sb k' = k_sb k.
Proof. by intros [[lg (bc & dk & ws & ide & pt & _ & ->)] _]. Qed.

Lemma txn_bzero k V bl bno e (Q : unit -> schedule kernel -> kernel -> Prop) :
  txn k V bl ∅ -> home_ok LS NL (k_disksize k) bno -> Z.of_nat (length bl) < NL - 1 ->
  (forall k', tframe k k' -> txn k' (<[bno := replicate 512 0]> V) (log_add bno bl) ∅ -> Q tt e k') ->
  wp (bzero 1 bno) Q e k.
Proof.
  intros Htx Hhome Hlen HQ. unfold bzero. pose proof (tx_geom _ _ _ _ _ _ Htx) as [].
  rewrite u32_small by (destruct Hhome; lia). apply wp_bind.
  eapply txn_take; [exact Htx|apply Hhome|]. intros b k1 d Hf1 Htx1 Hd Hl _.
  apply wp_ret_tt. eapply txn_put; [exact Htx1|apply length_replicate|by rewrite (tframe_disksize _ _ Hf1)|done|].
  intros k2 Hf2 Htx2. apply wp_ret, HQ; [by etransitivity|done].
Qed.

(** ** The map *)

(** The map's blocks may be logged, and so may the free blocks, which are not
    part of the map. *)
Record map_ok (size : Z) (sb : superblock) (V : gmap Z (list Z)) : Prop := {
  mo_size : 0 <= sb_size sb <= size;
  mo_map b : 0 <= b < sb_size sb -> home_ok LS NL size (BBLOCK b sb);
  mo_free b b' : 0 <= b < sb_size sb -> used V sb b = false -> 0 <= b' < sb_size sb ->
    home_ok LS NL size b /\ b <> BBLOCK b' sb
}.

(** Block [b] becomes a block of zeros and is marked. *)
Definition allocated (sb : superblock) (b : Z) (V : gmap Z (list Z)) : gmap Z (list Z) :=
  <[b := replicate 512 0]> (<[BBLOCK b sb := mark_used (blk V (BBLOCK b sb)) (b mod BPB)]> V).

Lemma txn_balloc_loop fuel k V bl sb b e :
  let first c := 0 <= c < sb_size sb /\ used V sb c = false /\ forall c', 0 <= c' < c -> used V sb c' = true in
  txn k V bl ∅ -> k_sb k = sb -> map_ok (k_disksize k) sb V -> Z.of_nat (length bl) + 2 <= NL - 1 ->
  0 <= b -> b mod BPB = 0 -> (forall c, 0 <= c < b -> c < sb_size sb -> used V sb c = true) ->
  sb_size sb <= b + BPB * Z.of_nat fuel ->
  wpp (loop_fuel (S fuel) (fun b =>
    sb <- gets k_sb ;;
    if negb (b <? sb_size sb) then panic "balloc: out of blocks" else
    bp <- bread 1 (BBLOCK b sb) ;;
    bf <- get_buf bp ;;
    match scan_bits (Z.to_nat BPB) 0 b (sb_size sb) (b_data bf) with
    | Some bi =>
        upd_buf bp (set_b_data (mark_used (b_data bf) bi)) ;;
        log_write bp ;;
        brelse bp ;;
        bzero 1 (b + bi) ;;
        ret (inr (b + bi))
    | None =>
        brelse bp ;;
        ret (inl (b + BPB))
    end) b)
    (fun c e' k' => e' = e /\ first c /\ tframe k k' /\ exists bl', txn k' (allocated sb c V) bl' ∅ /\
       (length bl' <= length bl + 2)%nat)
    (fun msg => msg = "balloc: out of blocks" /\ forall c, 0 <= c < sb_size sb -> used V sb c = true) e k.
Proof.
  intros first. revert k b. induction fuel as [|fuel IH]; intros k b Htx Hsb Hok Hlen Hb Hmod Hused Hfuel;
    apply wpp_loop, wpp_bind, wp_gets; rewrite Hsb.
  { rewrite (proj2 (Z.ltb_ge _ _)) by lia. cbn [negb]. split; [done|]. intros c Hc. apply Hused; lia. }
  destruct (Z.ltb_spec b (sb_size sb)) as [Hlt|Hge]; cbn [negb].
  2:{ split; [done|]. intros c Hc. apply Hused; lia. }
  pose proof (mo_map _ _ _ Hok b ltac:(lia)) as Hhome.
  apply wpp_bind. eapply txn_take; [exact Htx|apply Hhome|]. intros p k1 d Hf1 Htx1 Hd Hl Hclean.
  apply wpp_bind. eapply txn_get; [exact Htx1|apply lookup_singleton_eq|exact Hd|]. intros bf Hbf _ _. rewrite Hbf.
  pose proof (scan_bits_spec (Z.to_nat BPB) 0 b (sb_size sb) d) as Hscan.
  rewrite Z2Nat.id in Hscan by done. rewrite Z.add_0_l in Hscan.
  assert (forall r, 0 <= r < BPB -> BBLOCK (b + r) sb = BBLOCK b sb /\ (b + r) mod BPB = r) as Hgroup.
  { intros r Hr. unfold BBLOCK. change BPB with 4096 in *. pose proof (Z.div_mod b 4096 ltac:(lia)).
    rewrite <- (Z.div_unique (b + r) 4096 (b / 4096) r) by lia.
    by rewrite <- (Z.mod_unique (b + r) 4096 (b / 4096) r) by lia. }
  assert (forall r, 0 <= r < BPB -> used V sb (b + r) = bit_used d r) as Hin.
  { intros r Hr. unfold used, blk. destruct (Hgroup r Hr) as [-> ->]. by rewrite Hd. }
  destruct (scan_bits _ _ _ _ d) as [r|].
  - destruct Hscan as (Hr & Hsz & Hfree & Hbefore). destruct (Hgroup r ltac:(lia)) as [HB Hm].
    assert (first (b + r)) as Hfirst.
    { split; [lia|]. rewrite Hin by lia. split; [done|]. intros c Hc. destruct (decide (c < b)); [apply Hused; lia|].
      replace c with (b + (c - b)) by lia. rewrite Hin by lia. apply Hbefore. lia. }
    destruct (mo_free _ _ _ Hok (b + r) b) as [Hhome' Hne]; [lia|apply Hfirst|lia|].
    pose proof (log_add_length (BBLOCK b sb) bl). apply wpp_wp.
    eapply txn_put; [exact Htx1|by rewrite length_mark_used|by rewrite (tframe_disksize _ _ Hf1)|lia|].
    intros k2 Hf2 Htx2. apply wp_bind.
    eapply txn_bzero; [exact Htx2|by rewrite (tframe_disksize _ _ Hf2), (tframe_disksize _ _ Hf1)|lia|].
    intros k3 Hf3 Htx3. apply wp_ret. split; [done|]. split; [exact Hfirst|].
    split; [by repeat (etransitivity; [eassumption|])|]. exists (log_add (b + r) (log_add (BBLOCK b sb) bl)).
    unfold allocated, blk. rewrite HB, Hm, Hd. split; [exact Htx3|].
    pose proof (log_add_length (b + r) (log_add (BBLOCK b sb) bl)). lia.
  - apply wpp_bind. eapply txn_drop; [exact Htx1|done|]. intros k2 Hf2 Htx2.
    assert (tframe k k2) as Hf by (by etransitivity). unfold wpp at 1, ret at 1.
    eapply wpp_mono; [apply (IH k2 (b + BPB))|..].
    + exact Htx2.
    + by rewrite (tframe_sb _ _ Hf).
    + by rewrite (tframe_disksize _ _ Hf).
    + done.
    + change BPB with 4096. lia.
    + change BPB with 4096 in *. rewrite <- Zplus_mod_idemp_r. change (4096 mod 4096) with 0. by rewrite Z.add_0_r.
    + intros c Hc Hcs. destruct (decide (c < b)); [apply Hused; lia|].
      replace c with (b + (c - b)) by lia. rewrite Hin by lia. apply Hscan; lia.
    + lia.
    + intros c e' k' (-> & Hc & Hf' & Hex). split; [done|]. split; [done|]. split; [by etransitivity|done].
    + done.
Qed.

Lemma BBLOCK_inj size sb b c :
  size < 2 ^ 31 -> 0 <= b < size -> 0 <= c < size -> BBLOCK b sb = BBLOCK c sb -> b mod BPB = c mod BPB -> b = c.
Proof.
  unfold BBLOCK, u32. change BPB with 4096. intros Hs Hb Hc HB Hm.
  pose proof (Z.div_mod b 4096 ltac:(lia)). pose proof (Z.div_mod c 4096 ltac:(lia)).
  pose proof (Z.mod_pos_bound b 4096 ltac:(lia)). pose proof (Z.mod_pos_bound c 4096 ltac:(lia)).
  pose proof (Z.div_mod (b / 4096 + sb_bmapstart sb) 4294967296 ltac:(lia)).
  pose proof (Z.div_mod (c / 4096 + sb_bmapstart sb) 4294967296 ltac:(lia)). nia.
Qed.

(** Rewriting the map's block of [b] with [f] for the bit of [b]. *)
Lemma used_update size sb V b c f d :
  size < 2 ^ 31 -> 0 <= b < size -> 0 <= c < size -> V !! BBLOCK b sb = Some d ->
  (forall bj, 0 <= bj < BPB -> bit_used (f d) bj = if bj =? b mod BPB then bit_used (f d) (b mod BPB) else bit_used d bj) ->
  used (<[BBLOCK b sb := f d]> V) sb c = if c =? b then bit_used (f d) (b mod BPB) else used V sb c.
Proof.
  intros Hs Hb Hc Hd Hf. unfold used, blk. destruct (decide (BBLOCK b sb = BBLOCK c sb)) as [E|Hne].
  - rewrite <- E, lookup_insert_eq, Hd. cbn [default from_option id]. rewrite Hf by (apply Z.mod_pos_bound; done).
    destruct (Z.eqb_spec c b) as [->|Hcb]; [by rewrite Z.eqb_refl|].
    rewrite (proj2 (Z.eqb_neq _ _)); [done|]. intros Hm. apply Hcb. by eapply BBLOCK_inj.
  - rewrite lookup_insert_ne by done. rewrite (proj2 (Z.eqb_neq _ _)); [done|]. congruence.
Qed.

Lemma used_allocated size sb V b c d :
  size < 2 ^ 31 -> sb_size sb <= size -> map_ok size sb V -> 0 <= b < sb_size sb -> used V sb b = false ->
  0 <= c < sb_size sb -> V !! BBLOCK b sb = Some d -> length d = 512%nat ->
  used (allocated sb b V) sb c = used V sb c || (c =? b).
Proof.
  intros Hs Hsz Hok Hb Hfree Hc Hd Hl. unfold allocated. destruct (mo_free _ _ _ Hok b c Hb Hfree Hc) as [_ Hne].
  unfold used at 1, blk at 1. rewrite lookup_insert_ne by done. unfold blk. rewrite Hd. cbn [default from_option id].
  assert (0 <= b mod BPB < BPB) by (apply Z.mod_pos_bound; done).
  pose proof (used_update size sb V b c (fun d => mark_used d (b mod BPB)) d Hs ltac:(lia) ltac:(lia) Hd) as Hu.
  cbv beta in Hu. unfold used, blk in Hu |- *. rewrite Hu.
  - rewrite (proj1 (bitmap_update d (b mod BPB) (b mod BPB) Hl ltac:(lia) ltac:(lia))), Z.eqb_refl. cbn [orb].
    destruct (c =? b); [by rewrite orb_true_r|by rewrite orb_false_r].
  - intros bj Hbj. rewrite (proj1 (bitmap_update d (b mod BPB) bj Hl ltac:(lia) ltac:(lia))).
    rewrite (proj1 (bitmap_update d (b mod BPB) (b mod BPB) Hl ltac:(lia) ltac:(lia))), Z.eqb_refl.
    by destruct (bj =? b mod BPB).
Qed.

Lemma used_freed size sb V b c d :
  size < 2 ^ 31 -> 0 <= b < size -> 0 <= c < size -> V !! BBLOCK b sb = Some d -> length d = 512%nat ->
  used (<[BBLOCK b sb := mark_free d (b mod BPB)]> V) sb c = used V sb c && negb (c =? b).
Proof.
  intros Hs Hb Hc Hd Hl. assert (0 <= b mod BPB < BPB) by (apply Z.mod_pos_bound; done).
  rewrite (used_update size sb V b c (fun d => mark_free d (b mod BPB)) d Hs Hb Hc Hd).
  - rewrite (proj2 (bitmap_update d (b mod BPB) (b mod BPB) Hl ltac:(lia) ltac:(lia))), Z.eqb_refl. cbn [negb andb].
    destruct (c =? b); [by rewrite andb_false_r|by rewrite andb_true_r].
  - intros bj Hbj. rewrite (proj2 (bitmap_update d (b mod BPB) bj Hl ltac:(lia) ltac:(lia))).
    rewrite (proj2 (bitmap_update d (b mod BPB) (b mod BPB) Hl ltac:(lia) ltac:(lia))), Z.eqb_refl.
    by destruct (bj =? b mod BPB).
Qed.

Lemma txn_readsb k V bl sbd e (Q : superblock -> schedule kernel -> kernel -> Prop) :
  txn k V bl ∅ -> V !! 1 = Some sbd ->
  (forall k', tframe k k' -> txn k' V bl ∅ -> Q (sb_of sbd) e k') -> wp (readsb 1) Q e k.
Proof.
  intros Htx Hsb HQ. pose proof (tx_geom _ _ _ _ _ _ Htx) as []. unfold readsb. apply wp_bind.
  eapply txn_take; [exact Htx|lia|]. intros p k1 d Hf1 Htx1 Hd Hl Hclean. apply wp_bind.
  eapply txn_get; [exact Htx1|apply lookup_singleton_eq|exact Hd|]. intros bf Hbf _ _. apply wp_bind.
  eapply txn_drop; [exact Htx1|done|]. intros k2 Hf2 Htx2. apply wp_ret. rewrite Hbf.
  replace d with sbd by congruence. apply HQ; [by etransitivity|done].
Qed.

Lemma length_mark_free d bi : length (mark_free d bi) = length d.
Proof. apply length_insert. Qed.

Lemma set_k_sb_id k : set_k_sb (k_sb k) k = k.
Proof. by destruct k. Qed.

Lemma txn_bfree k V bl sbd b d e (Q : unit -> schedule kernel -> kernel -> Prop) :
  let sb := sb_of sbd in
  txn k V bl ∅ -> k_sb k = sb -> V !! 1 = Some sbd -> home_ok LS NL (k_disksize k) (BBLOCK b sb) ->
  V !! BBLOCK b sb = Some d -> bit_used d (b mod BPB) = true -> Z.of_nat (length bl) < NL - 1 ->
  (forall k', tframe k k' -> txn k' (<[BBLOCK b sb := mark_free d (b mod BPB)]> V) (log_add (BBLOCK b sb) bl) ∅ -> Q tt e k') ->
  wp (bfree 1 b) Q e k.
Proof.
  intros sb Htx Hsb HV Hhome Hd Hbit Hlen HQ. unfold bfree. apply wp_bind.
  eapply txn_readsb; [exact Htx|exact HV|]. intros k1 Hf1 Htx1. fold sb. apply wp_bind, wp_modify.
  assert (set_k_sb sb k1 = k1) as ->.
  { transitivity (set_k_sb (k_sb k1) k1); [by rewrite (tframe_sb _ _ Hf1), Hsb|apply set_k_sb_id]. }
  apply wp_bind.
  eapply txn_take; [exact Htx1|rewrite (tframe_disksize _ _ Hf1); apply Hhome|].
  intros p k2 d' Hf2 Htx2 Hd' Hl _. replace d' with d in * by congruence. apply wp_bind.
  eapply txn_get; [exact Htx2|apply lookup_singleton_eq|exact Hd|]. intros bf Hbf _ _. rewrite Hbf, Hbit. cbn [negb].
  apply wp_ret_tt. eapply txn_put; [exact Htx2|by rewrite length_mark_free| |done|].
  { by rewrite (tframe_disksize _ _ Hf2), (tframe_disksize _ _ Hf1). }
  intros k3 Hf3 Htx3. apply wp_ret, HQ; [by repeat (etransitivity; [eassumption|])|done].
Qed.

(** C7: Blocks are allocated once.  In a transaction, [balloc] returns the first block
    that is free in the map, which is then marked and holds zeros, while no other
    block changes but the one of the map; it panics only when every block of
    the file system is in use.  Freeing the block again restores the map. *)
Theorem balloc_bfree k V bl sbd e :
  let sb := sb_of sbd in
  txn k V bl ∅ -> k_sb k = sb -> V !! 1 = Some sbd -> map_ok (k_disksize k) sb V -> Z.of_nat (length bl) + 3 <= NL - 1 ->
  match balloc 1 e k with
  | Ok b e' k1 =>
      e' = e /\ 0 <= b < sb_size sb /\ used V sb b = false /\ (forall c, 0 <= c < b -> used V sb c = true) /\
      exists V1 bl1, txn k1 V1 bl1 ∅ /\ V1 !! b = Some (replicate 512 0) /\
        (forall c, 0 <= c < sb_size sb -> used V1 sb c = used V sb c || (c =? b)) /\
        (forall c, c <> b -> c <> BBLOCK b sb -> V1 !! c = V !! c) /\
        exists k2 V2 bl2, bfree 1 b e k1 = Ok tt e k2 /\ txn k2 V2 bl2 ∅ /\
          forall c, 0 <= c < sb_size sb -> used V2 sb c = used V sb c
  | Panic msg _ => msg = "balloc: out of blocks" /\ forall c, 0 <= c < sb_size sb -> used V sb c = true
  | Hang _ => False
  end.
Proof.
  intros sb Htx Hsb HV Hok Hlen. pose proof (tx_geom _ _ _ _ _ _ Htx) as [_ _ _ _ _ _ _ Hmax].
  pose proof (mo_size _ _ _ Hok) as Hsize.
  assert (0 <= sb_size sb / BPB) by (apply Z.div_pos; [lia|done]).
  pose proof (txn_balloc_loop (S (Z.to_nat (sb_size sb / BPB))) k V bl sb 0 e Htx Hsb Hok ltac:(lia) ltac:(lia) eq_refl
    ltac:(intros; lia)) as Hloop.
  unfold balloc. unfold bind at 1, gets at 1. rewrite Hsb. unfold wpp in Hloop.
  assert (sb_size sb <= 0 + BPB * Z.of_nat (S (Z.to_nat (sb_size sb / BPB)))) as Hfuel.
  { change BPB with 4096 in *. pose proof (Z.div_mod (sb_size sb) 4096 ltac:(lia)).
    pose proof (Z.mod_pos_bound (sb_size sb) 4096 ltac:(lia)). lia. }
  specialize (Hloop Hfuel). destruct (loop_fuel _ _ 0 e k) as [b e' k1|msg k1|k1]; [|exact Hloop|exact Hloop].
  destruct Hloop as (-> & (Hb & Hfree & Hbefore) & Hf & bl1 & Htx1 & Hlen1).
  split; [done|]. do 3 (split; [done|]). destruct (mo_free _ _ _ Hok b b Hb Hfree Hb) as [Hhome Hne].
  pose proof (mo_map _ _ _ Hok b Hb) as HhomeB.
  destruct (brep_block _ _ _ _ _ (tx_rep _ _ _ _ _ _ Htx) (proj1 HhomeB)) as (d & Hd & Hl).
  assert (forall c, 0 <= c < sb_size sb -> used (allocated sb b V) sb c = used V sb c || (c =? b)) as Hu1.
  { intros c Hc. apply (used_allocated (k_disksize k) sb V b c d); done || lia. }
  exists (allocated sb b V), bl1. split; [exact Htx1|]. unfold allocated at 1. rewrite lookup_insert_eq.
  split; [done|]. split; [exact Hu1|]. split; [intros c ? ?; unfold allocated; by rewrite !lookup_insert_ne|].
  set (d1 := mark_used d (b mod BPB)).
  assert (allocated sb b V !! BBLOCK b sb = Some d1) as Hd1.
  { unfold allocated, blk. rewrite lookup_insert_ne by done. by rewrite lookup_insert_eq, Hd. }
  assert (wp (bfree 1 b) (fun _ e' k2 => e' = e /\ exists bl2,
    txn k2 (<[BBLOCK b sb := mark_free d1 (b mod BPB)]> (allocated sb b V)) bl2 ∅) e k1) as Hwp.
  { eapply (txn_bfree k1 (allocated sb b V) bl1 sbd b d1); fold sb; [exact Htx1|by rewrite (tframe_sb _ _ Hf)|..].
    - unfold allocated. rewrite !lookup_insert_ne; [done| |]; [apply HhomeB|apply Hhome].
    - by rewrite (tframe_disksize _ _ Hf).
    - exact Hd1.
    - specialize (Hu1 b Hb). unfold used, blk in Hu1. rewrite Hd1, Z.eqb_refl, orb_true_r in Hu1. exact Hu1.
    - lia.
    - intros k2 _ Htx2. split; [done|]. by eexists. }
  apply wp_Ok in Hwp as ([] & e2 & k2 & -> & -> & bl2 & Htx2). eexists k2, _, bl2. split; [done|]. split; [exact Htx2|].
  intros c Hc. rewrite (used_freed (k_disksize k) sb _ b c d1); try done; try lia.
  - rewrite Hu1 by done. destruct (Z.eqb_spec c b) as [->|]; [by rewrite Hfree|by rewrite orb_false_r, andb_true_r].
  - unfold d1. by rewrite length_mark_used.
Qed.
End blocks.


(** ** An example: the machine of [Demo], with a map in which five blocks are free *)

Section example.
Import Memide.
#[local] Existing Instance memide_driver.
#[local] Instance no_devices : Devsw := { dev_read := fun _ => None; dev_write := fun _ => None }.

Definition map35 : list Z := foldl mark_used Demo.blank (seqZ 0 35).
Definition sb40 : superblock := sb_of Demo.sb_block.

Definition write_block (bno : Z) (d : list Z) : K unit :=
  b <- bread 1 bno ;;
  upd_buf b (set_b_data d) ;;
  log_write b ;;
  brelse b ;;
  ret tt.

Definition map_state : kernel := set_k_sb sb40 (Demo.final (write_block 34 map35 [] example_state)).

Lemma txn_sb LS NL k V bl B sb : txn LS NL k V bl B -> txn LS NL (set_k_sb sb k) V bl B.
Proof. intros [Hrep [] Hh ? ? ? ? ? ? ?]. split; try done. Qed.

Lemma sb_set sb k : k_sb (set_k_sb sb k) = sb /\ k_disksize (set_k_sb sb k) = k_disksize k.
Proof. done. Qed.

Lemma sb40_size : sb_size sb40 = 40.
Proof. vm_compute. reflexivity. Qed.

Lemma map35_length : length map35 = 512%nat.
Proof. vm_compute. reflexivity. Qed.

Lemma map35_bits b : 0 <= b < 40 -> BBLOCK b sb40 = 34 /\ bit_used map35 (b mod BPB) = (b <? 35).
Proof.
  intros Hb. assert (Forall (fun b => BBLOCK b sb40 = 34 /\ bit_used map35 (b mod BPB) = (b <? 35)) (seqZ 0 40)) as HF
    by (apply (bool_decide_unpack _); vm_compute; exact I).
  rewrite Forall_forall in HF. apply HF, elem_of_seqZ. lia.
Qed.

Lemma example_sb V :
  txn 2 30 example_state V [35] ∅ -> k_disksize example_state = 40 ->
  fs_is 2 30 40 (k_disk example_state) (disk_view Demo.machine) -> V !! 1 = Some Demo.sb_block.
Proof.
  intros Htx Hs Hfs. pose proof (brep_disk _ _ _ _ 1 (tx_rep _ _ _ _ _ _ Htx)) as E. rewrite Hs in E.
  rewrite <- E; [|by rewrite elem_of_list_to_set, list_elem_of_singleton|apply lookup_empty|lia].
  rewrite Hfs by (unfold in_log; lia). rewrite <- disk0_fs by (unfold in_log; lia). by rewrite disk0_lookup by lia.
Qed.

Lemma write_block_ok k V bno d :
  txn 2 30 k V [35] ∅ -> k_disksize k = 40 -> 34 <= bno < 40 -> length d = 512%nat ->
  wp (write_block bno d) (fun _ _ k' => exists bl, txn 2 30 k' (<[bno := d]> V) bl ∅ /\ k_disksize k' = 40 /\
    (length bl <= 2)%nat) [] k.
Proof.
  intros Htx Hs Hb Hd. assert (home_ok 2 30 40 bno) as Hh by (unfold home_ok, in_log; lia).
  unfold write_block. apply wp_bind. eapply (txn_take 2 30); [exact Htx|rewrite Hs; lia|].
  intros b k1 d' Hf1 Htx1 _ _ _. pose proof (tframe_disksize _ _ Hf1) as Hd1.
  eapply (txn_put 2 30); [exact Htx1|exact Hd|by rewrite Hd1, Hs|cbn; lia|].
  intros k2 Hf2 Htx2. apply wp_ret. eexists. split; [exact Htx2|].
  rewrite (tframe_disksize _ _ Hf2), Hd1, Hs. split; [done|]. apply log_add_length.
Qed.

Lemma map35_ok V : map_ok 2 30 40 sb40 (<[34 := map35]> V).
Proof.
  split; rewrite sb40_size; [lia| |].
  - intros b Hb. rewrite (proj1 (map35_bits b Hb)). unfold home_ok, in_log. lia.
  - intros b b' Hb Hfree Hb'. unfold used in Hfree. destruct (map35_bits b Hb) as [E Hbit].
    rewrite E, blk_insert, Hbit in Hfree.
    apply Z.ltb_ge in Hfree. rewrite (proj1 (map35_bits b' Hb')). unfold home_ok, in_log. lia.
Qed.

Lemma map_state_ok :
  exists V bl, txn 2 30 map_state V bl ∅ /\ k_disksize map_state = 40 /\ V !! 1 = Some Demo.sb_block /\
    map_ok 2 30 40 sb40 V /\ (length bl <= 2)%nat.
Proof.
  destruct example_ok as (V & Htx & _ & Hs & Hfs). pose proof (example_sb V Htx Hs Hfs) as H1.
  pose proof (write_block_ok example_state V 34 map35 Htx Hs ltac:(lia) map35_length) as Hwp.
  apply Demo.wp_final in Hwp as (_ & _ & _ & bl & Htx2 & Hs2 & Hlen).
  exists (<[34 := map35]> V), bl. unfold map_state. rewrite (proj2 (sb_set _ _)). split; [by apply txn_sb|].
  split; [exact Hs2|]. split; [by rewrite lookup_insert_ne|]. split; [apply map35_ok|exact Hlen].
Qed.

Lemma balloc_bfree_witness :
  exists V bl, txn 2 30 map_state V bl ∅ /\
  match balloc 1 [] map_state with
  | Ok b e' k1 =>
      e' = [] /\ 0 <= b < sb_size sb40 /\ used V sb40 b = false /\ (forall c, 0 <= c < b -> used V sb40 c = true) /\
      exists V1 bl1, txn 2 30 k1 V1 bl1 ∅ /\ V1 !! b = Some (replicate 512 0) /\
        (forall c, 0 <= c < sb_size sb40 -> used V1 sb40 c = used V sb40 c || (c =? b)) /\
        (forall c, c <> b -> c <> BBLOCK b sb40 -> V1 !! c = V !! c) /\
        exists k2 V2 bl2, bfree 1 b [] k1 = Ok tt [] k2 /\ txn 2 30 k2 V2 bl2 ∅ /\
          forall c, 0 <= c < sb_size sb40 -> used V2 sb40 c = used V sb40 c
  | Panic msg _ => msg = "balloc: out of blocks" /\ forall c, 0 <= c < sb_size sb40 -> used V sb40 c = true
  | Hang _ => False
  end.
Proof.
  destruct map_state_ok as (V & bl & Htx & Hs & H1 & Hok & Hlen). exists V, bl. split; [exact Htx|].
  apply (balloc_bfree 2 30 map_state V bl Demo.sb_block []).
  - exact Htx.
  - unfold map_state. by rewrite (proj1 (sb_set _ _)).
  - exact H1.
  - rewrite Hs. exact Hok.
  - lia.
Defined.
End example.

End Blocks.
