(* ===== verification/Filedata.v ===== *)
(** The contents of files: what [bmap], [readi] and [writei] of fs.c do to the
    bytes of a file, over the contract of the buffer cache and, for writing,
    inside of a transaction of the log. *)

From S2P Require Import Prelude Bytes Machine Demo Cstring Spinlock Consout Sleep Disk Bio Cache Log Fs Blocks.
Import Sleep Bio Cache Log LogSpec Fs Blocks.

Module Filedata.

(** ** The bytes of a file *)

(** The block with the numbers of the blocks from the thirteenth on. *)
Definition indirect (ip : inode) : Z := nth (Z.to_nat NDIRECT) (i_addrs ip) 0.

(** The number of block [bn] of the file. *)
Definition block_of (V : gmap Z (list Z)) (ip : inode) (bn : Z) : Z :=
  if bn <? NDIRECT then nth (Z.to_nat bn) (i_addrs ip) 0
  else get32 (4 * Z.to_nat (bn - NDIRECT)) (blk V (indirect ip)).

Definition file_byte (V : gmap Z (list Z)) (ip : inode) (x : Z) : Z :=
  nth (Z.to_nat (x mod BSIZE)) (blk V (block_of V ip (x / BSIZE))) 0.

Definition file_bytes (V : gmap Z (list Z)) (ip : inode) (off n : Z) : list Z :=
  (fun j => file_byte V ip (off + j)) <$> seqZ 0 n.

(** A file whose blocks are all there. *)
Record file_ok (size : Z) (V : gmap Z (list Z)) (ip : inode) : Prop := {
  fo_dev : i_dev ip = 1;
  fo_type : i_type ip <> T_DEV;
  fo_addrs : length (i_addrs ip) = 13%nat;
  fo_size : 0 <= i_size ip <= MAXFILE * BSIZE;
  fo_block bn : 0 <= bn -> BSIZE * bn < i_size ip -> 0 < block_of V ip bn < size;
  fo_ind : BSIZE * NDIRECT < i_size ip -> 0 < indirect ip < size
}.

Lemma file_bytes_app V ip off n m :
  0 <= n -> 0 <= m -> file_bytes V ip off (n + m) = file_bytes V ip off n ++ file_bytes V ip (off + n) m.
Proof.
  intros Hn Hm. unfold file_bytes. rewrite seqZ_app by done. rewrite fmap_app. f_equal.
  apply list_eq. intros j. rewrite !list_lookup_fmap, Z.add_0_l.
  destruct (decide (Z.of_nat j < m)).
  - rewrite !lookup_seqZ_lt by lia. cbn. do 2 f_equal. lia.
  - rewrite !lookup_seqZ_ge by lia. done.
Qed.

(** The part of a block that [readi] copies. *)
Lemma file_bytes_block V ip off m d :
  0 <= off -> 0 <= m -> off mod BSIZE + m <= BSIZE ->
  V !! block_of V ip (off / BSIZE) = Some d -> length d = 512%nat ->
  slice (Z.to_nat (off mod BSIZE)) (Z.to_nat m) d = file_bytes V ip off m.
Proof.
  intros Hoff Hm Hle HV Hd. unfold BSIZE in *. apply list_eq. intros j.
  rewrite lookup_slice. unfold file_bytes. rewrite list_lookup_fmap.
  pose proof (Z.div_mod off 512 ltac:(lia)). pose proof (Z.mod_pos_bound off 512 ltac:(lia)).
  case_decide as Hj; [|by rewrite lookup_seqZ_ge by lia].
  rewrite lookup_seqZ_lt by lia. cbn [fmap option_fmap option_map]. unfold file_byte, BSIZE.
  rewrite <- (Z.div_unique (off + (0 + Z.of_nat j)) 512 (off / 512) (off mod 512 + Z.of_nat j)) by lia.
  rewrite <- (Z.mod_unique (off + (0 + Z.of_nat j)) 512 (off / 512) (off mod 512 + Z.of_nat j)) by lia.
  unfold blk. rewrite HV. cbn [default from_option id].
  replace (Z.to_nat (off mod 512 + Z.of_nat j)) with (Z.to_nat (off mod 512) + j)%nat by lia.
  rewrite nth_lookup. destruct (lookup_lt_is_Some_2 d (Z.to_nat (off mod 512) + j)) as [x ->]; [lia|done].
Qed.

Section filedata.
Context `{DiskDriver} `{Devsw}.

(** What reading may change: the cache, but neither the disk nor the inodes. *)
Definition rframe (k k' : kernel) : Prop :=
  bframe k k' /\ k_disk k' = k_disk k /\ k_writes k' = k_writes k.

#[export] Instance rframe_preorder : PreOrder rframe.
Proof.
  split.
  - intros k. by split.
  - intros k1 k2 k3 (H1 & H2 & H3) (H4 & H5 & H6). split; [by etransitivity|]. split; congruence.
Qed.

Lemma rframe_icache k k' : rframe k k' -> k_icache k' = k_icache k /\ k_disksize k' = k_disksize k.
Proof. by intros [(bc & dk & ws & ide & pt & _ & ->) _]. Qed.

(** A block that is read and given back. *)
Lemma wp_block k V D bno e (Q : nat -> schedule kernel -> kernel -> Prop) :
  brep k V D ∅ -> (size D < NBUF)%nat -> 0 <= bno < k_disksize k ->
  (forall b k' d, rframe k k' -> brep k' V D {[bno := b]} -> V !! bno = Some d -> length d = 512%nat ->
     (forall Q' : unit -> schedule kernel -> kernel -> Prop,
        (forall k'', rframe k k'' -> brep k'' V D ∅ -> Q' tt e k'') -> wp (brelse b) Q' e k') -> Q b e k') ->
  wp (bread 1 bno) Q e k.
Proof.
  intros Hrep HD Hbno HQ. destruct (brep_block _ _ _ _ _ Hrep Hbno) as (d & Hd & Hl).
  eapply wp_bread; [exact Hrep|apply lookup_empty|done|right; by rewrite dom_empty_L, union_empty_r_L|].
  intros b k' Hf Hrep' Hdk Hw. rewrite insert_empty in Hrep'. apply (HQ b k' d); try done.
  intros Q' HQ'. eapply wp_brelse; [exact Hrep'|apply lookup_singleton_eq| |].
  - destruct (decide (bno ∈ D)); [by left|right]. rewrite Hdk. by eapply brep_disk.
  - intros k'' Hf' Hrep'' Hdk' Hw'. apply HQ'; [|by rewrite delete_singleton_eq in Hrep''].
    split; [by etransitivity|]. split; congruence.
Qed.

Lemma wp_bmap k V D i ip bn e (Q : Z -> schedule kernel -> kernel -> Prop) :
  brep k V D ∅ -> (size D < NBUF)%nat -> k_icache k !! i = Some ip -> file_ok (k_disksize k) V ip ->
  0 <= bn -> BSIZE * bn < i_size ip ->
  (forall k', rframe k k' -> brep k' V D ∅ -> Q (block_of V ip bn) e k') ->
  wp (bmap i bn) Q e k.
Proof.
  intros Hrep HD Hi Hok Hbn Hsz HQ. pose proof Hok as [Hdev _ Hlen Hsize Hblk Hind].
  specialize (Hblk bn Hbn Hsz). unfold bmap. apply wp_bind, wp_gets. rewrite (inode_at_lookup _ _ _ Hi).
  unfold block_of in *. destruct (Z.ltb_spec bn NDIRECT) as [Hlt|Hge].
  - unfold NDIRECT in Hlt. apply wp_bind. unfold addr_of. apply wp_bind, wp_gets. rewrite (inode_at_lookup _ _ _ Hi).
    destruct (lookup_lt_is_Some_2 (i_addrs ip) (Z.to_nat bn)) as [a Ha]; [lia|].
    rewrite nth_lookup, Ha in Hblk, HQ. cbn in Hblk, HQ. rewrite Ha. apply wp_ret.
    rewrite (proj2 (Z.eqb_neq _ _)) by lia. apply wp_ret. by apply HQ.
  - assert (bn - NDIRECT < NINDIRECT) as Hn by (unfold MAXFILE, NDIRECT, NINDIRECT, BSIZE in *; lia).
    rewrite (proj2 (Z.ltb_lt _ _)) by done. specialize (Hind ltac:(unfold BSIZE in *; lia)).
    apply wp_bind. unfold addr_of. apply wp_bind, wp_gets. rewrite (inode_at_lookup _ _ _ Hi).
    unfold indirect in Hind. destruct (lookup_lt_is_Some_2 (i_addrs ip) (Z.to_nat NDIRECT)) as [a Ha];
      [rewrite Hlen; vm_compute; lia|]. rewrite Ha. apply wp_ret. unfold indirect in *. rewrite nth_lookup, Ha in Hind, Hblk, HQ.
    cbn [default from_option id] in Hind, Hblk, HQ. apply wp_bind. rewrite (proj2 (Z.eqb_neq _ _)) by lia.
    apply wp_ret. apply wp_bind. rewrite Hdev. eapply wp_block; [exact Hrep|done|lia|].
    intros b k' d Hf Hrep' Hd Hl Hrel. apply wp_bind.
    eapply wp_get_held; [exact Hrep'|apply lookup_singleton_eq|exact Hd|]. intros bf Hbf _ _. rewrite Hbf.
    unfold blk in Hblk, HQ. rewrite Hd in Hblk, HQ. cbn [default from_option id] in Hblk, HQ.
    apply wp_bind. rewrite (proj2 (Z.eqb_neq _ _)) by lia. apply wp_ret. apply wp_bind. apply Hrel.
    intros k'' Hf' Hrep''. apply wp_ret. by apply HQ.
Qed.
(** The rounds of the loops for [n] bytes from [off] on. *)
Definition rounds (off n : Z) : Z := if n <=? 0 then 0 else (off + n + 511) / BSIZE - off / BSIZE.

Lemma rounds_step off n :
  0 <= off -> 0 < n -> rounds (off + Z.min n (BSIZE - off mod BSIZE)) (n - Z.min n (BSIZE - off mod BSIZE)) < rounds off n.
Proof.
  intros Hoff Hn. unfold rounds, BSIZE.
  pose proof (Z.div_mod off 512 ltac:(lia)) as Hdm. pose proof (Z.mod_pos_bound off 512 ltac:(lia)) as Hmod.
  rewrite (proj2 (Z.leb_gt n 0)) by lia. destruct (Z.le_gt_cases n (512 - off mod 512)) as [Hc|Hc].
  - rewrite Z.min_l by lia. rewrite (proj2 (Z.leb_le _ _)) by lia.
    assert (off / 512 + 1 <= (off + n + 511) / 512) by (apply Z.div_le_lower_bound; lia). lia.
  - rewrite Z.min_r by lia. rewrite (proj2 (Z.leb_gt _ _)) by lia.
    assert ((off + (512 - off mod 512)) / 512 = off / 512 + 1) as ->
      by (symmetry; apply (Z.div_unique _ _ _ 0); lia).
    replace (off + (512 - off mod 512) + (n - (512 - off mod 512)) + 511) with (off + n + 511) by lia. lia.
Qed.

Lemma rounds_bound off n : 0 <= off -> 0 <= n -> 0 <= rounds off n < n / BSIZE + 3.
Proof.
  intros Hoff Hn. unfold rounds, BSIZE. pose proof (Z.div_pos n 512 ltac:(lia) ltac:(lia)).
  destruct (Z.leb_spec n 0); [lia|].
  pose proof (Z.div_mod off 512 ltac:(lia)). pose proof (Z.mod_pos_bound off 512 ltac:(lia)).
  pose proof (Z.div_mod n 512 ltac:(lia)). pose proof (Z.mod_pos_bound n 512 ltac:(lia)).
  pose proof (Z.div_le_mono off (off + n + 511) 512 ltac:(lia) ltac:(lia)).
  assert ((off + n + 511) / 512 < off / 512 + n / 512 + 3); [|lia]. apply Z.div_lt_upper_bound; lia.
Qed.

(** The loop of [readi], from byte [off] on with [n - tot] bytes to go. *)
Lemma wp_readi_loop i ip n fuel V D k tot off dst e (Q : list Z * Z -> schedule kernel -> kernel -> Prop) :
  brep k V D ∅ -> (size D < NBUF)%nat -> k_icache k !! i = Some ip -> file_ok (k_disksize k) V ip ->
  tot <= n -> 0 <= off -> off + (n - tot) <= i_size ip ->
  rounds off (n - tot) < Z.of_nat fuel ->
  (forall k', rframe k k' -> brep k' V D ∅ -> Q (dst ++ file_bytes V ip off (n - tot), s32 n) e k') ->
  wp (loop_fuel fuel (fun '(tot, off, dst) =>
    if negb (tot <? n) then ret (inr (dst, s32 n)) else
    addr <- bmap i (off / BSIZE) ;;
    ip <- get_inode i ;;
    bp <- bread (i_dev ip) addr ;;
    let m := Z.min (n - tot) (BSIZE - off mod BSIZE) in
    bf <- get_buf bp ;;
    let bytes := slice (Z.to_nat (off mod BSIZE)) (Z.to_nat m) (b_data bf) in
    brelse bp ;;
    ret (inl (tot + m, off + m, dst ++ bytes))) (tot, off, dst)) Q e k.
Proof.
  revert k tot off dst. induction fuel as [|fuel IH]; intros k tot off dst Hrep HD Hi Hok Htot Hoff Hend Hfuel HQ.
  { exfalso. destruct (rounds_bound off (n - tot)); lia. }
  cbn [loop_fuel]. apply wp_bind. destruct (Z.ltb_spec tot n) as [Hlt|Hge]; cbn [negb].
  2:{ apply wp_ret, wp_ret. replace (n - tot) with 0 in HQ by lia. unfold file_bytes in HQ. cbn in HQ.
      rewrite app_nil_r in HQ. by apply HQ. }
  set (m := Z.min (n - tot) (BSIZE - off mod BSIZE)).
  pose proof (Z.div_mod off 512 ltac:(lia)) as Hdm. pose proof (Z.mod_pos_bound off 512 ltac:(lia)) as Hmod.
  assert (0 < m <= n - tot /\ off mod 512 + m <= 512) as [Hm Hm'] by (unfold m, BSIZE; lia).
  assert (0 <= off / BSIZE /\ BSIZE * (off / BSIZE) < i_size ip) as [Hb0 Hb1]
    by (unfold BSIZE; split; [apply Z.div_pos; lia|lia]).
  apply wp_bind. eapply wp_bmap; [exact Hrep|done|exact Hi|exact Hok|done|done|].
  intros k1 Hf1 Hrep1. destruct (rframe_icache _ _ Hf1) as [Hic1 Hds1].
  apply wp_bind, wp_gets. rewrite (inode_at_lookup _ _ ip) by by rewrite Hic1. rewrite (fo_dev _ _ _ Hok).
  pose proof (fo_block _ _ _ Hok _ Hb0 Hb1) as Hblk.
  apply wp_bind. eapply wp_block; [exact Hrep1|done|lia|]. intros b k2 d Hf2 Hrep2 Hd Hl Hrel. cbv zeta.
  apply wp_bind. eapply wp_get_held; [exact Hrep2|apply lookup_singleton_eq|exact Hd|]. intros bf Hbf _ _. rewrite Hbf.
  apply wp_bind, Hrel. intros k3 Hf3 Hrep3. apply wp_ret.
  assert (rframe k k3) as Hf by (by etransitivity). destruct (rframe_icache _ _ Hf) as [Hic3 Hds3].
  fold m. rewrite (file_bytes_block V ip off m d) by (try done; unfold BSIZE; lia).
  apply IH; rewrite ?Hic3, ?Hds3; try done; try lia.
  - pose proof (rounds_step off (n - tot) Hoff ltac:(lia)) as Hr. fold m in Hr.
    replace (n - (tot + m)) with (n - tot - m) by lia. lia.
  - intros k' Hf' Hrep'. specialize (HQ k' (transitivity Hf Hf') Hrep').
    rewrite <- app_assoc, <- (file_bytes_app V ip off m) by lia. by replace (m + (n - (tot + m))) with (n - tot) by lia.
Qed.

Lemma wp_readi i ip V D k off n e (Q : list Z * Z -> schedule kernel -> kernel -> Prop) :
  brep k V D ∅ -> (size D < NBUF)%nat -> k_icache k !! i = Some ip -> file_ok (k_disksize k) V ip ->
  0 <= off <= i_size ip -> 0 <= n -> off + n < 2 ^ 32 ->
  let n' := Z.min n (i_size ip - off) in
  (forall k', rframe k k' -> brep k' V D ∅ -> Q (file_bytes V ip off n', n') e k') ->
  wp (readi i off n) Q e k.
Proof.
  intros Hrep HD Hi Hok Hoff Hn Hlim n' HQ. pose proof (fo_size _ _ _ Hok) as Hsz.
  assert (i_size ip < 2 ^ 31) by (change (MAXFILE * BSIZE) with 71680 in Hsz; lia).
  unfold readi. apply wp_bind, wp_gets. rewrite (inode_at_lookup _ _ _ Hi).
  rewrite (proj2 (Z.eqb_neq _ _)) by apply (fo_type _ _ _ Hok). rewrite u32_small by lia.
  rewrite (proj2 (Z.ltb_ge _ _)) by lia. rewrite (proj2 (Z.ltb_ge (off + n) off)) by lia. cbn [orb]. cbv zeta.
  assert ((if i_size ip <? off + n then i_size ip - off else n) = n') as ->.
  { unfold n'. destruct (Z.ltb_spec (i_size ip) (off + n)); lia. }
  assert (0 <= n' <= n /\ off + n' <= i_size ip) as [Hn1 Hn2] by (unfold n'; lia). clearbody n'.
  pose proof (rounds_bound off n' ltac:(lia) ltac:(lia)).
  eapply wp_readi_loop; [exact Hrep|done|exact Hi|exact Hok|lia|lia|lia| |]; rewrite Z.sub_0_r.
  - assert (0 <= n' / BSIZE) by (apply Z.div_pos; unfold BSIZE; lia). lia.
  - intros k' Hf Hrep'. rewrite app_nil_l, s32_small by lia. by apply HQ.
Qed.
(** ** Writing in place *)

(** No block of the file is used twice. *)
Record distinct (V : gmap Z (list Z)) (ip : inode) : Prop := {
  di_inj bn bn' : 0 <= bn -> BSIZE * bn < i_size ip -> 0 <= bn' -> BSIZE * bn' < i_size ip ->
    block_of V ip bn = block_of V ip bn' -> bn = bn';
  di_ind bn : 0 <= bn -> BSIZE * bn < i_size ip -> block_of V ip bn <> indirect ip
}.

(** Block [b] of the disk belongs to the file. *)
Definition of_file (V : gmap Z (list Z)) (ip : inode) (b : Z) : Prop :=
  exists bn, 0 <= bn /\ BSIZE * bn < i_size ip /\ b = block_of V ip bn.

Lemma block_of_update V ip b d : b <> indirect ip -> forall bn, block_of (<[b:=d]> V) ip bn = block_of V ip bn.
Proof. intros Hb bn. unfold block_of, blk. by rewrite lookup_insert_ne. Qed.

Lemma file_ok_update size V ip b d : b <> indirect ip -> file_ok size V ip -> file_ok size (<[b:=d]> V) ip.
Proof. intros Hb [? ? ? ? Hblk ?]. split; try done. intros bn. rewrite block_of_update by done. apply Hblk. Qed.

Lemma distinct_update V ip b d : b <> indirect ip -> distinct V ip -> distinct (<[b:=d]> V) ip.
Proof.
  intros Hb [Hinj Hind]. split; [intros bn bn'|intros bn]; rewrite !block_of_update by done; [apply Hinj|apply Hind].
Qed.

(** One block of the file is written, from byte [off] on. *)
Lemma file_byte_update size V ip off d new x :
  file_ok size V ip -> distinct V ip -> 0 <= off -> off < i_size ip -> 0 <= x < i_size ip ->
  V !! block_of V ip (off / BSIZE) = Some d -> length d = 512%nat ->
  off mod BSIZE + Z.of_nat (length new) <= BSIZE ->
  file_byte (<[block_of V ip (off / BSIZE) := splice (Z.to_nat (off mod BSIZE)) new d]> V) ip x =
    if decide (off <= x < off + Z.of_nat (length new)) then nth (Z.to_nat (x - off)) new 0 else file_byte V ip x.
Proof.
  intros Hok [Hinj Hind] Hoff Hlt Hx Hd Hl Hle. unfold file_byte, BSIZE in *.
  pose proof (Z.div_mod off 512 ltac:(lia)). pose proof (Z.mod_pos_bound off 512 ltac:(lia)).
  pose proof (Z.div_mod x 512 ltac:(lia)). pose proof (Z.mod_pos_bound x 512 ltac:(lia)).
  pose proof (Z.div_pos off 512 ltac:(lia) ltac:(lia)). pose proof (Z.div_pos x 512 ltac:(lia) ltac:(lia)).
  rewrite block_of_update by (apply Hind; lia). unfold blk.
  destruct (decide (x / 512 = off / 512)) as [He|Hne].
  - rewrite He, lookup_insert_eq, Hd. cbn [default from_option id]. rewrite !nth_lookup, lookup_splice by lia.
    destruct (decide (off <= x < off + Z.of_nat (length new))).
    + rewrite decide_True by lia. do 2 f_equal. lia.
    + rewrite decide_False by lia. done.
  - rewrite lookup_insert_ne, decide_False; [done|nia|]. intros Heq. apply Hne. symmetry. apply Hinj; lia || done.
Qed.

Section writing.
Context (LS NL : Z).
#[local] Notation txn := (txn LS NL).

Lemma tframe_icache k k' : tframe k k' -> k_icache k' = k_icache k.
Proof. by intros [[lg (bc & dk & ws & ide & pt & _ & ->)] _]. Qed.

Lemma txn_bmap k V bl i ip bn e (Q : Z -> schedule kernel -> kernel -> Prop) :
  txn k V bl ∅ -> k_icache k !! i = Some ip -> file_ok (k_disksize k) V ip -> 0 <= bn -> BSIZE * bn < i_size ip ->
  (forall k', tframe k k' -> txn k' V bl ∅ -> Q (block_of V ip bn) e k') -> wp (bmap i bn) Q e k.
Proof.
  intros Htx Hi Hok Hbn Hsz HQ.
  eapply wp_bmap; [exact (tx_rep _ _ _ _ _ _ Htx)|by eapply txn_room|exact Hi|exact Hok|done|done|].
  intros k' (Hf & Hd & Hw) Hrep. apply HQ; [by apply bframe_tframe|]. by eapply txn_frame.
Qed.
(** One round of the loop of [writei]: [new] over the bytes of a block. *)
Lemma txn_write_block {A} k V bl bno new off e (r : A) (Q : A -> schedule kernel -> kernel -> Prop) d :
  txn k V bl ∅ -> V !! bno = Some d -> length d = 512%nat -> home_ok LS NL (k_disksize k) bno ->
  (off + length new <= 512)%nat -> Z.of_nat (length bl) < NL - 1 ->
  (forall k', tframe k k' -> txn k' (<[bno := splice off new d]> V) (log_add bno bl) ∅ -> Q r e k') ->
  wp (bp <- bread 1 bno ;;
      bf <- get_buf bp ;;
      upd_buf bp (set_b_data (splice off new (b_data bf))) ;;
      log_write bp ;;
      brelse bp ;;
      ret r) Q e k.
Proof.
  intros Htx Hd Hl Hhome Hoff Hlen HQ. apply wp_bind.
  eapply txn_take; [exact Htx|apply Hhome|]. intros b k1 d' Hf1 Htx1 Hd' _ _. apply wp_bind.
  eapply txn_get; [exact Htx1|apply lookup_singleton_eq|exact Hd|]. intros bf Hbf _ _. rewrite Hbf.
  eapply txn_put; [exact Htx1|by rewrite length_splice; lia|by rewrite (tframe_disksize _ _ Hf1)|done|].
  intros k2 Hf2 Htx2. apply wp_ret, HQ; [by etransitivity|done].
Qed.

(** What [writei] makes of the contents. *)
Definition written (V V' : gmap Z (list Z)) (ip : inode) (off : Z) (src : list Z) : Prop :=
  (forall x, 0 <= x < i_size ip -> file_byte V' ip x =
     if decide (off <= x < off + Z.of_nat (length src)) then nth (Z.to_nat (x - off)) src 0 else file_byte V ip x) /\
  (forall b, ~ of_file V ip b -> V' !! b = V !! b) /\ (forall bn, block_of V' ip bn = block_of V ip bn).

Lemma written_nil V ip off : written V V ip off [].
Proof. split; [|by split]. intros x Hx. rewrite decide_False by (cbn; lia). done. Qed.

Lemma written_step size V V' ip off d src m :
  file_ok size V ip -> distinct V ip -> 0 <= off -> off < i_size ip ->
  V !! block_of V ip (off / BSIZE) = Some d -> length d = 512%nat ->
  off mod BSIZE + Z.of_nat m <= BSIZE -> (m <= length src)%nat ->
  written (<[block_of V ip (off / BSIZE) := splice (Z.to_nat (off mod BSIZE)) (take m src) d]> V) V' ip
    (off + Z.of_nat m) (drop m src) ->
  written V V' ip off src.
Proof.
  intros Hok Hdis Hoff Hlt Hd Hl Hle Hm (Hx & Hb & Hbl).
  assert (BSIZE * (off / BSIZE) < i_size ip /\ 0 <= off / BSIZE) as [H1 H2].
  { unfold BSIZE. pose proof (Z.div_mod off 512 ltac:(lia)). pose proof (Z.mod_pos_bound off 512 ltac:(lia)).
    pose proof (Z.div_pos off 512 ltac:(lia) ltac:(lia)). lia. }
  pose proof (di_ind _ _ Hdis _ H2 H1) as Hind. split; [|split].
  - intros x Hxr. rewrite Hx by done. erewrite file_byte_update; try done; rewrite length_take; [|lia].
    rewrite length_drop. repeat case_decide; try lia.
    + rewrite nth_lookup, lookup_drop, <- nth_lookup. f_equal. lia.
    + rewrite !nth_lookup, lookup_take_lt by lia. done.
  - intros b Hnb. rewrite Hb.
    + apply lookup_insert_ne. intros <-. apply Hnb. by exists (off / BSIZE).
    + intros (bn & Hbn & Hbs & ->). apply Hnb. exists bn. by rewrite block_of_update.
  - intros bn. by rewrite Hbl, block_of_update.
Qed.

Lemma txn_writei_loop i ip n fuel k V bl tot off src e (Q : Z -> schedule kernel -> kernel -> Prop) :
  txn k V bl ∅ -> k_icache k !! i = Some ip -> file_ok (k_disksize k) V ip -> distinct V ip ->
  (forall b, of_file V ip b -> home_ok LS NL (k_disksize k) b) ->
  tot <= n -> 0 <= off -> off + (n - tot) <= i_size ip -> Z.of_nat (length src) = n - tot ->
  rounds off (n - tot) < Z.of_nat fuel -> Z.of_nat (length bl) + rounds off (n - tot) <= NL - 1 ->
  (forall k' V' bl', tframe k k' -> txn k' V' bl' ∅ -> written V V' ip off src -> Q (off + (n - tot)) e k') ->
  wp (loop_fuel fuel (fun '(tot, off, src) =>
    if negb (tot <? n) then ret (inr off) else
    addr <- bmap i (off / BSIZE) ;;
    ip <- get_inode i ;;
    bp <- bread (i_dev ip) addr ;;
    let m := Z.min (n - tot) (BSIZE - off mod BSIZE) in
    bf <- get_buf bp ;;
    upd_buf bp (set_b_data
      (splice (Z.to_nat (off mod BSIZE)) (take (Z.to_nat m) src) (b_data bf))) ;;
    log_write bp ;;
    brelse bp ;;
    ret (inl (tot + m, off + m, drop (Z.to_nat m) src))) (tot, off, src)) Q e k.
Proof.
  revert k V bl tot off src.
  induction fuel as [|fuel IH]; intros k V bl tot off src Htx Hi Hok Hdis Hhome Htot Hoff Hend Hsrc Hfuel Hlog HQ.
  { exfalso. destruct (rounds_bound off (n - tot)); lia. }
  cbn [loop_fuel]. apply wp_bind. destruct (Z.ltb_spec tot n) as [Hlt|Hge]; cbn [negb].
  2:{ apply wp_ret, wp_ret. destruct src; [|cbn in Hsrc; lia]. replace (n - tot) with 0 in HQ by lia.
      rewrite Z.add_0_r in HQ. by eapply HQ; [|exact Htx|apply written_nil]. }
  pose proof (rounds_step off (n - tot) Hoff ltac:(lia)) as Hr. set (m := Z.min (n - tot) (BSIZE - off mod BSIZE)) in *.
  pose proof (Z.div_mod off 512 ltac:(lia)) as Hdm. pose proof (Z.mod_pos_bound off 512 ltac:(lia)) as Hmod.
  assert (0 < m <= n - tot /\ off mod 512 + m <= 512) as [Hm Hm'] by (unfold m, BSIZE; lia).
  assert (0 <= off / BSIZE /\ BSIZE * (off / BSIZE) < i_size ip) as [Hb0 Hb1]
    by (unfold BSIZE; split; [apply Z.div_pos; lia|lia]).
  destruct (rounds_bound (off + m) (n - tot - m)) as [Hr0 _]; [lia|lia|].
  apply wp_bind. eapply txn_bmap; [exact Htx|exact Hi|exact Hok|done|done|].
  intros k1 Hf1 Htx1. pose proof (tframe_icache _ _ Hf1) as Hic1. pose proof (tframe_disksize _ _ Hf1) as Hds1.
  apply wp_bind, wp_gets. rewrite (inode_at_lookup _ _ ip) by by rewrite Hic1. rewrite (fo_dev _ _ _ Hok). cbv zeta.
  pose proof (fo_block _ _ _ Hok _ Hb0 Hb1) as Hblk.
  destruct (brep_block _ _ _ _ _ (tx_rep _ _ _ _ _ _ Htx) ltac:(split; [|exact (proj2 Hblk)]; lia)) as (d & Hd & Hl).
  eapply txn_write_block; [exact Htx1|exact Hd|exact Hl| | | |].
  { rewrite Hds1. apply Hhome. by exists (off / BSIZE). }
  { rewrite length_take. unfold BSIZE. lia. }
  { lia. }
  intros k2 Hf2 Htx2. assert (tframe k k2) as Hf by (by etransitivity).
  pose proof (tframe_icache _ _ Hf) as Hic2. pose proof (tframe_disksize _ _ Hf) as Hds2.
  pose proof (di_ind _ _ Hdis _ Hb0 Hb1) as Hind.
  eapply IH; rewrite ?Hic2, ?Hds2; [exact Htx2|done|by apply file_ok_update|by apply distinct_update|..]; try lia.
  - intros b (bn & Hbn & Hbs & ->). rewrite block_of_update by done. apply Hhome. by exists bn.
  - rewrite length_drop. lia.
  - replace (n - (tot + m)) with (n - tot - m) by lia. lia.
  - replace (n - (tot + m)) with (n - tot - m) by lia.
    assert (length (log_add (block_of V ip (off / BSIZE)) bl) <= S (length bl))%nat
      by (unfold log_add; case_decide; rewrite ?length_app; cbn; lia). lia.
  - intros k' V' bl' Hf' Htx' Hw. replace (off + m + (n - (tot + m))) with (off + (n - tot)) by lia.
    apply (HQ k' V' bl' (transitivity Hf Hf') Htx').
    eapply (written_step _ _ _ _ _ _ _ (Z.to_nat m)); [exact Hok|done|done|lia|exact Hd|done| | |].
    + unfold BSIZE. lia.
    + lia.
    + by rewrite Z2Nat.id by lia.
Qed.

Lemma txn_writei i ip k V bl src off n e (Q : Z -> schedule kernel -> kernel -> Prop) :
  txn k V bl ∅ -> k_icache k !! i = Some ip -> file_ok (k_disksize k) V ip -> distinct V ip ->
  (forall b, of_file V ip b -> home_ok LS NL (k_disksize k) b) ->
  0 <= off -> Z.of_nat (length src) = n -> off + n <= i_size ip -> Z.of_nat (length bl) + rounds off n <= NL - 1 ->
  (forall k' V' bl', tframe k k' -> txn k' V' bl' ∅ -> written V V' ip off src -> Q n e k') ->
  wp (writei i src off n) Q e k.
Proof.
  intros Htx Hi Hok Hdis Hhome Hoff Hsrc Hend Hlog HQ. pose proof (fo_size _ _ _ Hok) as Hsz.
  assert (i_size ip <= 71680) by (change (MAXFILE * BSIZE) with 71680 in Hsz; lia).
  unfold writei. apply wp_bind, wp_gets. rewrite (inode_at_lookup _ _ _ Hi).
  rewrite (proj2 (Z.eqb_neq _ _)) by apply (fo_type _ _ _ Hok). rewrite u32_small by lia.
  rewrite (proj2 (Z.ltb_ge _ _)) by lia. rewrite (proj2 (Z.ltb_ge (off + n) off)) by lia. cbn [orb].
  rewrite (proj2 (Z.ltb_ge _ _)) by lia. apply wp_bind.
  pose proof (rounds_bound off n ltac:(lia) ltac:(lia)).
  assert (0 <= n / BSIZE) by (apply Z.div_pos; unfold BSIZE; lia).
  eapply txn_writei_loop; [exact Htx|exact Hi|exact Hok|done|done|lia|lia|lia|lia|rewrite Z.sub_0_r; lia|rewrite Z.sub_0_r; lia|].
  intros k' V' bl' Hf Htx' Hw. rewrite Z.sub_0_r. apply wp_bind, wp_gets.
  rewrite (inode_at_lookup _ _ ip) by by rewrite (tframe_icache _ _ Hf).
  rewrite (proj2 (Z.ltb_ge (i_size ip) _)) by lia. rewrite andb_false_r. cbn [when].
  apply wp_bind, wp_ret, wp_ret. rewrite s32_small by lia. by eapply HQ.
Qed.

(** C6: Files hold what was written to them.  In a transaction, with every block of a file
    allocated and none used twice, [writei] over existing bytes returns the
    number of bytes; afterwards every [readi], at whatever offset and across
    blocks and the indirect block, returns the new bytes where they were written
    and the old ones elsewhere, cut at the end of the file; no block of another
    file has changed, and the transaction goes on. *)
Theorem writei_readi i ip k V bl src off n e :
  txn k V bl ∅ -> k_icache k !! i = Some ip -> file_ok (k_disksize k) V ip -> distinct V ip ->
  (forall b, of_file V ip b -> home_ok LS NL (k_disksize k) b) ->
  0 <= off -> Z.of_nat (length src) = n -> off + n <= i_size ip -> Z.of_nat (length bl) + rounds off n <= NL - 1 ->
  exists k' V' bl', writei i src off n e k = Ok n e k' /\ txn k' V' bl' ∅ /\ k_icache k' = k_icache k /\
    (forall b, ~ of_file V ip b -> V' !! b = V !! b) /\
    forall off' n', 0 <= off' <= i_size ip -> 0 <= n' -> off' + n' < 2 ^ 32 ->
      let m := Z.min n' (i_size ip - off') in
      exists k'', readi i off' n' e k' =
        Ok ((fun x => if decide (off <= x < off + n) then nth (Z.to_nat (x - off)) src 0 else file_byte V ip x)
              <$> seqZ off' m, m) e k''.
Proof.
  intros Htx Hi Hok Hdis Hhome Hoff Hsrc Hend Hlog.
  assert (wp (writei i src off n) (fun r e' k' => r = n /\ e' = e /\ exists V' bl', tframe k k' /\ txn k' V' bl' ∅ /\
    written V V' ip off src) e k) as Hwp by (eapply txn_writei; eauto 10).
  apply wp_Ok in Hwp as (r & e' & k' & E & -> & -> & V' & bl' & Hf & Htx' & Hx & Hb & Hbl).
  pose proof (tframe_icache _ _ Hf) as Hic. exists k', V', bl'. do 4 (split; [done|]).
  intros off' n' Hoff' Hn' Hlim m.
  assert (file_ok (k_disksize k') V' ip) as Hok'.
  { rewrite (tframe_disksize _ _ Hf). destruct Hok as [? ? ? ? Hblk ?]. split; try done.
    intros bn. rewrite Hbl. apply Hblk. }
  assert (wp (readi i off' n') (fun r e' _ => r = (file_bytes V' ip off' m, m) /\ e' = e) e k') as Hwp.
  { eapply wp_readi; [exact (tx_rep _ _ _ _ _ _ Htx')|by eapply txn_room|by rewrite Hic|exact Hok'|done|done|done|done]. }
  apply wp_Ok in Hwp as (r & e' & k'' & -> & -> & ->). exists k''. do 2 f_equal.
  assert (seqZ off' m = Z.add off' <$> seqZ 0 m) as -> by (by rewrite fmap_add_seqZ, Z.add_0_r).
  unfold file_bytes. rewrite <- list_fmap_compose.
  apply list_fmap_ext. intros j x Hj%lookup_seqZ. cbn. rewrite Hx, Hsrc by (unfold m in *; lia). done.
Qed.
End writing.
End filedata.


(** ** An example: a file of 100 bytes in block 35 of the machine of [Demo], in the
    middle of a transaction *)

Section example.
Import Memide.
#[local] Existing Instance memide_driver.
#[local] Instance no_devices : Devsw := { dev_read := fun _ => None; dev_write := fun _ => None }.

Definition small_file : inode := mkInode 1 5 1 I_VALID T_FILE 0 0 1 100 (35 :: replicate 12 0).
Definition file_state : kernel := set_k_icache [small_file] example_state.

Lemma txn_icache LS NL k V bl B c : txn LS NL k V bl B -> txn LS NL (set_k_icache c k) V bl B.
Proof.
  intros [Hrep [] Hh ? ? ? ? ? ? ?]. split; try done.
Qed.

Lemma icache_set c k : k_icache (set_k_icache c k) = c /\ k_disksize (set_k_icache c k) = k_disksize k.
Proof. done. Qed.

Lemma small_file_blocks V b : of_file V small_file b -> b = 35.
Proof.
  intros (bn & Hbn & Hs & ->). cbn [i_size small_file] in Hs. assert (bn = 0) as -> by (unfold BSIZE in Hs; lia).
  reflexivity.
Qed.

Lemma small_file_ok V : file_ok 40 V small_file.
Proof.
  split.
  - reflexivity.
  - discriminate.
  - reflexivity.
  - change (MAXFILE * BSIZE) with 71680. cbn. lia.
  - intros bn Hbn Hs. rewrite (small_file_blocks V (block_of V small_file bn)) by by exists bn. lia.
  - cbn. unfold BSIZE, NDIRECT. lia.
Qed.

Lemma small_file_distinct V : distinct V small_file.
Proof.
  split.
  - intros bn bn' H1 H2 H3 H4 _. cbn [i_size small_file] in *. unfold BSIZE in *. lia.
  - intros bn H1 H2. rewrite (small_file_blocks V (block_of V small_file bn)) by by exists bn. discriminate.
Qed.

Lemma writei_readi_witness :
  exists V k' V' bl', writei 0 [1; 2; 3] 10 3 [] file_state = Ok 3 [] k' /\ txn 2 30 k' V' bl' ∅ /\
    k_icache k' = k_icache file_state /\ (forall b, ~ of_file V small_file b -> V' !! b = V !! b) /\
    forall off' n', 0 <= off' <= 100 -> 0 <= n' -> off' + n' < 2 ^ 32 ->
      let m := Z.min n' (100 - off') in
      exists k'', readi 0 off' n' [] k' =
        Ok ((fun x => if decide (10 <= x < 10 + 3) then nth (Z.to_nat (x - 10)) [1; 2; 3] 0 else file_byte V small_file x)
              <$> seqZ off' m, m) [] k''.
Proof.
  destruct example_ok as (V & Htx & _ & Hs & _). exists V.
  apply (writei_readi 2 30 0 small_file file_state V [35] [1; 2; 3] 10 3 []).
  - by apply txn_icache.
  - unfold file_state. by rewrite (proj1 (icache_set _ _)).
  - unfold file_state. rewrite (proj2 (icache_set _ _)), Hs. apply small_file_ok.
  - apply small_file_distinct.
  - intros b Hb. apply small_file_blocks in Hb as ->. unfold file_state. rewrite (proj2 (icache_set _ _)), Hs.
    unfold home_ok, in_log. lia.
  - lia.
  - reflexivity.
  - cbn. lia.
  - vm_compute. discriminate.
Defined.
End example.

End Filedata.
