(* ===== verification/Directory.v ===== *)
(** Directories: [dirlookup] and [dirlink] of fs.c against a directory as a list
    of entries, over the contents of files. *)

From S2P Require Import Prelude Bytes Machine Demo Cstring Spinlock Consout Sleep Disk Bio Cache Log Fs Blocks Filedata.
Import Spinlock Sleep Bio Cache Log LogSpec Cstring Fs Blocks Filedata.

Module Directory.

(** ** A directory as a list of entries *)

Definition entry (V : gmap Z (list Z)) (ip : inode) (j : Z) : list Z :=
  file_bytes V ip (sizeof_dirent * j) sizeof_dirent.

Definition dirents (V : gmap Z (list Z)) (ip : inode) : list (list Z) :=
  entry V ip <$> seqZ 0 (i_size ip / sizeof_dirent).

(** The entry is in use and has this name, as far as names are compared. *)
Definition entry_for (name de : list Z) : Prop :=
  de_inum de <> 0 /\ take (Z.to_nat DIRSIZ) (cstr name) = take (Z.to_nat DIRSIZ) (cstr (de_name de)).

#[export] Instance entry_for_dec name de : Decision (entry_for name de).
Proof. unfold entry_for. apply _. Defined.

(** The entry that stands for [name]: its position and its bytes. *)
Definition dir_find (V : gmap Z (list Z)) (ip : inode) (name : list Z) : option (nat * list Z) :=
  list_find (entry_for name) (dirents V ip).

(** A directory whose blocks are all there. *)
Record dir_ok (size : Z) (V : gmap Z (list Z)) (ip : inode) : Prop := {
  do_file : file_ok size V ip;
  do_type : i_type ip = T_DIR;
  do_size : (sizeof_dirent | i_size ip)
}.

Lemma entries_size ip :
  (sizeof_dirent | i_size ip) -> i_size ip = sizeof_dirent * (i_size ip / sizeof_dirent).
Proof. intros [q ->]. rewrite Z.div_mul by done. lia. Qed.

Lemma entry_lookup V ip j :
  Z.of_nat j < i_size ip / sizeof_dirent -> dirents V ip !! j = Some (entry V ip (Z.of_nat j)).
Proof. intros Hj. unfold dirents. by rewrite list_lookup_fmap, lookup_seqZ_lt by lia. Qed.

Lemma length_dirents V ip : length (dirents V ip) = Z.to_nat (i_size ip / sizeof_dirent).
Proof. unfold dirents. by rewrite length_fmap, length_seqZ. Qed.

Lemma entry_test name de :
  (de_inum de =? 0) = false -> (namecmp name (de_name de) =? 0) = bool_decide (entry_for name de).
Proof.
  intros Hi%Z.eqb_neq. unfold entry_for. pose proof (strncmp_zero (Z.to_nat DIRSIZ) name (de_name de)) as Hs.
  fold (namecmp name (de_name de)) in Hs. case_bool_decide as Hd.
  - apply Z.eqb_eq, Hs, Hd.
  - apply Z.eqb_neq. intros Hz. apply Hd. split; [done|]. by apply Hs.
Qed.

(** ** A new entry *)

Definition same_name (name name' : list Z) : Prop :=
  take (Z.to_nat DIRSIZ) (cstr name) = take (Z.to_nat DIRSIZ) (cstr name').

#[export] Instance same_name_dec name name' : Decision (same_name name name').
Proof. unfold same_name. apply _. Defined.

Definition new_dirent (name : list Z) (inum : Z) : list Z :=
  le_bytes 2 inum ++ strncpy_bytes name (Z.to_nat DIRSIZ).

Lemma length_new_dirent name inum : length (new_dirent name inum) = 16%nat.
Proof. apply (dirent_matches name name inum). Qed.

Lemma new_dirent_for name name' inum :
  0 < inum < 2 ^ 16 -> entry_for name' (new_dirent name inum) <-> same_name name' name.
Proof.
  intros Hi. destruct (dirent_matches name name' inum) as (_ & Hn & Hm). fold (new_dirent name inum) in *.
  unfold entry_for. rewrite Hn, u16_small by lia. unfold namecmp in Hm. rewrite strncmp_zero in Hm.
  unfold same_name. change (Z.to_nat DIRSIZ) with 14%nat in *. rewrite Hm. intuition lia.
Qed.

Lemma entry_for_same name name' de : same_name name name' -> entry_for name de <-> entry_for name' de.
Proof. unfold same_name, entry_for. by intros ->. Qed.

(** Replacing an element that was not looked for. *)
Lemma list_find_insert {A} (P : A -> Prop) `{!forall x, Decision (P x)} l n x y :
  l !! n = Some y -> ~ P y ->
  list_find P (<[n := x]> l) =
    if decide (P x) then match list_find P (take n l) with Some r => Some r | None => Some (n, x) end
    else list_find P l.
Proof.
  intros Hl HPy. revert n Hl. induction l as [|z l IH]; intros [|n] Hl; try done; cbn in Hl.
  - injection Hl as ->. cbn [insert list_insert list_find take]. rewrite (decide_False (P := P y)) by done. by destruct (decide (P x)).
  - change (<[S n := x]> (z :: l)) with (z :: <[n := x]> l). cbn [list_find take].
    destruct (decide (P z)); [by destruct (decide (P x))|]. rewrite (IH n Hl). destruct (decide (P x)); [|done]. by destruct (list_find P (take n l)).
Qed.

Lemma dir_find_insert name name' inum l n y :
  0 < inum < 2 ^ 16 -> l !! n = Some y -> de_inum y = 0 -> list_find (entry_for name) l = None ->
  list_find (entry_for name') (<[n := new_dirent name inum]> l) =
    if decide (same_name name' name) then Some (n, new_dirent name inum) else list_find (entry_for name') l.
Proof.
  intros Hi Hl Hy Hnone. rewrite (list_find_insert _ _ _ _ y) by (done || by intros [? _]).
  destruct (decide (same_name name' name)) as [Hs|Hs].
  - rewrite decide_True by by apply new_dirent_for.
    assert (list_find (entry_for name') (take n l) = None) as ->; [|done].
    apply list_find_None. apply list_find_None in Hnone. apply Forall_take.
    eapply Forall_impl; [exact Hnone|]. intros de Hde. by rewrite (entry_for_same _ _ _ Hs).
  - rewrite decide_False; [done|]. by rewrite new_dirent_for.
Qed.

Lemma rounds_entry j : 0 <= j -> rounds (sizeof_dirent * j) sizeof_dirent = 1.
Proof.
  intros Hj. unfold rounds, sizeof_dirent, BSIZE. change (16 <=? 0) with false. cbv iota.
  Z.div_mod_to_equations. lia.
Qed.

(** Writing an entry replaces that entry of the list. *)
Lemma entries_written size V V' ip n de :
  dir_ok size V ip -> Z.of_nat n < i_size ip / sizeof_dirent -> length de = 16%nat ->
  written V V' ip (sizeof_dirent * Z.of_nat n) de -> dirents V' ip = <[n := de]> (dirents V ip).
Proof.
  intros Hdir Hn Hlen [Hw _]. pose proof (entries_size _ (do_size _ _ _ Hdir)) as Hsz. rewrite Hlen in Hw.
  unfold sizeof_dirent in *. apply list_eq. intros j.
  destruct (decide (Z.of_nat j < i_size ip / 16)) as [Hj|Hj]; cycle 1.
  { transitivity (@None (list Z)); [|symmetry]; apply lookup_ge_None_2;
      rewrite ?length_insert, length_dirents; unfold sizeof_dirent; lia. }
  rewrite entry_lookup by done.
  assert (forall x, 0 <= x < 16 -> file_byte V' ip (16 * Z.of_nat j + x) =
    if decide (j = n) then nth (Z.to_nat x) de 0 else file_byte V ip (16 * Z.of_nat j + x)) as Hb.
  { intros x Hx. rewrite Hw by lia. case_decide; case_decide; try lia. subst. do 2 f_equal. lia. }
  destruct (decide (j = n)) as [->|Hne].
  - rewrite list_lookup_insert_eq by (rewrite length_dirents; unfold sizeof_dirent; lia). f_equal.
    unfold entry, file_bytes, sizeof_dirent. apply list_eq. intros x. rewrite list_lookup_fmap.
    destruct (decide (x < 16)%nat).
    + rewrite lookup_seqZ_lt by lia. cbn [fmap option_fmap option_map]. rewrite Hb by lia.
      rewrite nth_lookup. destruct (lookup_lt_is_Some_2 de (Z.to_nat (0 + Z.of_nat x))) as [y Hy]; [lia|].
      rewrite Hy. cbn. rewrite <- Hy. f_equal. lia.
    + rewrite lookup_seqZ_ge by lia. symmetry. apply lookup_ge_None_2. lia.
  - rewrite list_lookup_insert_ne by done. rewrite entry_lookup by done. f_equal.
    unfold entry, file_bytes, sizeof_dirent. apply list_fmap_ext. intros x y Hy%lookup_seqZ. apply Hb. lia.
Qed.

Section directory.
Context `{DiskDriver} `{Devsw}.

Section lookup.
Context (dp : nat) (ip : inode) (name : list Z) (V : gmap Z (list Z)) (D : gset Z).

(** One round of [dirlookup]'s loop. *)
Lemma dirent_read j e k :
  brep k V D ∅ -> (size D < NBUF)%nat -> k_icache k !! dp = Some ip -> dir_ok (k_disksize k) V ip ->
  0 <= j < i_size ip / sizeof_dirent ->
  exists k', rframe k k' /\ brep k' V D ∅ /\
    readi dp (sizeof_dirent * j) sizeof_dirent e k = Ok (entry V ip j, sizeof_dirent) e k'.
Proof.
  intros Hrep HD Hi [Hok Hty Hdiv] Hj. pose proof (fo_size _ _ _ Hok) as Hsz.
  change (MAXFILE * BSIZE) with 71680 in Hsz. pose proof (entries_size _ Hdiv). unfold sizeof_dirent in *.
  assert (Z.min 16 (i_size ip - 16 * j) = 16) as Hmin by lia.
  assert (wp (readi dp (16 * j) 16) (fun r e' k' => r = (entry V ip j, 16) /\ e' = e /\ rframe k k' /\ brep k' V D ∅) e k) as Hwp.
  { eapply wp_readi; [exact Hrep|done|exact Hi|exact Hok|lia|lia|lia|].
    intros k' Hf Hrep'. rewrite Hmin. done. }
  apply wp_Ok in Hwp as (r & e' & k' & -> & -> & -> & Hf & Hrep'). by exists k'.
Qed.

Lemma drop_entries j :
  0 <= j < i_size ip / sizeof_dirent ->
  drop (Z.to_nat j) (dirents V ip) = entry V ip j :: drop (Z.to_nat (j + 1)) (dirents V ip).
Proof.
  intros Hj. replace (Z.to_nat (j + 1)) with (S (Z.to_nat j)) by lia.
  apply drop_S. rewrite entry_lookup by lia. do 2 f_equal. lia.
Qed.

(** The loop finds the first entry that is in use and has the name. *)
Lemma dirlookup_loop fuel j e k :
  brep k V D ∅ -> (size D < NBUF)%nat -> k_icache k !! dp = Some ip -> dir_ok (k_disksize k) V ip ->
  0 <= j <= i_size ip / sizeof_dirent -> i_size ip / sizeof_dirent - j < Z.of_nat fuel ->
  exists k', rframe k k' /\ brep k' V D ∅ /\
    loop_fuel fuel (fun off =>
      ip <- get_inode dp ;;
      if negb (off <? i_size ip) then ret (inr None) else
      ' (de, r) <- readi dp off sizeof_dirent ;;
      if negb (r =? sizeof_dirent) then panic "dirlink read" else
      if de_inum de =? 0 then ret (inl (off + sizeof_dirent)) else
      if namecmp name (de_name de) =? 0 then
        ip <- get_inode dp ;;
        i <- iget (i_dev ip) (de_inum de) ;;
        ret (inr (Some (i, off)))
      else ret (inl (off + sizeof_dirent))) (sizeof_dirent * j) e k =
    match list_find (entry_for name) (drop (Z.to_nat j) (dirents V ip)) with
    | None => Ok None e k'
    | Some (n, de) => (i <- iget 1 (de_inum de) ;; ret (Some (i, sizeof_dirent * (j + Z.of_nat n)))) e k'
    end.
Proof.
  intros Hrep HD Hi Hdir. revert j k Hrep Hi Hdir.
  induction fuel as [|fuel IH]; intros j k Hrep Hi Hdir Hj Hfuel; [lia|].
  pose proof (entries_size _ (do_size _ _ _ Hdir)) as Hsz. cbn [loop_fuel].
  rewrite bind_bind_eq. unfold get_inode at 1. rewrite gets_eq, (inode_at_lookup _ _ _ Hi).
  destruct (Z.ltb_spec (sizeof_dirent * j) (i_size ip)) as [Hlt|Hge]; cbn [negb]; cycle 1.
  { exists k. do 2 (split; [done|]). rewrite drop_ge by (rewrite length_dirents; unfold sizeof_dirent in *; lia). done. }
  destruct (dirent_read j e k) as (k1 & Hf & Hrep1 & Hrd); [done..|unfold sizeof_dirent in *; lia|].
  rewrite bind_bind_eq. erewrite bind_Ok by exact Hrd. cbv beta iota. rewrite Z.eqb_refl. cbn [negb].
  rewrite drop_entries by (unfold sizeof_dirent in *; lia). cbn [list_find].
  destruct (rframe_icache _ _ Hf) as [Hic Hds].
  destruct (decide (entry_for name (entry V ip j))) as [Hyes|Hno].
  - exists k1. do 2 (split; [done|]). rewrite (proj2 (Z.eqb_neq _ _) (proj1 Hyes)).
    rewrite entry_test, bool_decide_eq_true_2 by (done || apply Z.eqb_neq, Hyes).
    rewrite bind_bind_eq. unfold get_inode. rewrite gets_eq, (inode_at_lookup _ _ ip) by by rewrite Hic.
    rewrite (fo_dev _ _ _ (do_file _ _ _ Hdir)), bind_bind_eq. cbn [Z.of_nat]. by rewrite Z.add_0_r.
  - destruct (IH (j + 1) k1) as (k2 & Hf2 & Hrep2 & E); [done|by rewrite Hic|by rewrite Hds|unfold sizeof_dirent in *; lia|lia|].
    exists k2. split; [by etransitivity|]. split; [done|].
    transitivity (match list_find (entry_for name) (drop (Z.to_nat (j + 1)) (dirents V ip)) with
      | None => Ok None e k2
      | Some (n, de) => (i <- iget 1 (de_inum de) ;; ret (Some (i, sizeof_dirent * (j + 1 + Z.of_nat n)))) e k2
      end).
    + rewrite <- E, Z.mul_add_distr_l, Z.mul_1_r. destruct (de_inum (entry V ip j) =? 0) eqn:Ez; [done|].
      by rewrite (entry_test _ _ Ez), bool_decide_eq_false_2 by done.
    + destruct (list_find _ _) as [[n de]|]; [|done]. cbn. by replace (j + 1 + Z.of_nat n) with (j + Z.of_nat (S n)) by lia.
Qed.

(** [dirlookup] looks for the name, and then opens the inode of the entry. *)
Lemma dirlookup_eq e k :
  brep k V D ∅ -> (size D < NBUF)%nat -> k_icache k !! dp = Some ip -> dir_ok (k_disksize k) V ip ->
  exists k', rframe k k' /\ brep k' V D ∅ /\
    dirlookup dp name e k =
    match dir_find V ip name with
    | None => Ok None e k'
    | Some (n, de) => (i <- iget 1 (de_inum de) ;; ret (Some (i, sizeof_dirent * Z.of_nat n))) e k'
    end.
Proof.
  intros Hrep HD Hi Hdir. pose proof (fo_size _ _ _ (do_file _ _ _ Hdir)).
  assert (0 <= i_size ip / sizeof_dirent) by (apply Z.div_pos; [lia|done]).
  destruct (dirlookup_loop (S (S (Z.to_nat (i_size ip / sizeof_dirent)))) 0 e k) as (k' & Hf & Hrep' & E); [done..|lia|lia|].
  exists k'. do 2 (split; [done|]). unfold dirlookup. unfold get_inode at 1.
  rewrite gets_eq, (inode_at_lookup _ _ _ Hi), (do_type _ _ _ Hdir), Z.eqb_refl. exact E.
Qed.

(** The loop of [dirlink] finds the first entry that is not in use, or the end. *)
Lemma dirlink_loop fuel j e k :
  brep k V D ∅ -> (size D < NBUF)%nat -> k_icache k !! dp = Some ip -> dir_ok (k_disksize k) V ip ->
  0 <= j <= i_size ip / sizeof_dirent -> i_size ip / sizeof_dirent - j < Z.of_nat fuel ->
  exists k', rframe k k' /\ brep k' V D ∅ /\
    loop_fuel fuel (fun off =>
      ip <- get_inode dp ;;
      if negb (off <? i_size ip) then ret (inr off) else
      ' (de, r) <- readi dp off sizeof_dirent ;;
      if negb (r =? sizeof_dirent) then panic "dirlink read" else
      if de_inum de =? 0 then ret (inr off)
      else ret (inl (off + sizeof_dirent))) (sizeof_dirent * j) e k =
    Ok match list_find (fun de => de_inum de = 0) (drop (Z.to_nat j) (dirents V ip)) with
       | Some (n, _) => sizeof_dirent * (j + Z.of_nat n)
       | None => i_size ip
       end e k'.
Proof.
  intros Hrep HD Hi Hdir. revert j k Hrep Hi Hdir.
  induction fuel as [|fuel IH]; intros j k Hrep Hi Hdir Hj Hfuel; [lia|].
  pose proof (entries_size _ (do_size _ _ _ Hdir)) as Hsz. cbn [loop_fuel].
  rewrite bind_bind_eq. unfold get_inode at 1. rewrite gets_eq, (inode_at_lookup _ _ _ Hi).
  destruct (Z.ltb_spec (sizeof_dirent * j) (i_size ip)) as [Hlt|Hge]; cbn [negb]; cycle 1.
  { exists k. do 2 (split; [done|]). rewrite drop_ge by (rewrite length_dirents; unfold sizeof_dirent in *; lia).
    cbn. unfold ret. f_equal. unfold sizeof_dirent in *. lia. }
  destruct (dirent_read j e k) as (k1 & Hf & Hrep1 & Hrd); [done..|unfold sizeof_dirent in *; lia|].
  rewrite bind_bind_eq. erewrite bind_Ok by exact Hrd. cbv beta iota. rewrite Z.eqb_refl. cbn [negb].
  rewrite drop_entries by (unfold sizeof_dirent in *; lia). cbn [list_find].
  destruct (rframe_icache _ _ Hf) as [Hic Hds].
  destruct (Z.eqb_spec (de_inum (entry V ip j)) 0) as [Hz|Hnz].
  - exists k1. do 2 (split; [done|]). rewrite decide_True by done. cbn. by rewrite Z.add_0_r.
  - destruct (IH (j + 1) k1) as (k2 & Hf2 & Hrep2 & E); [done|by rewrite Hic|by rewrite Hds|unfold sizeof_dirent in *; lia|lia|].
    exists k2. split; [by etransitivity|]. split; [done|]. rewrite decide_False by done.
    erewrite bind_Ok by reflexivity. cbv iota. rewrite Z.mul_add_distr_l, Z.mul_1_r in E. rewrite E.
    destruct (list_find _ _) as [[n de]|]; [|done]. cbn. by replace (j + 1 + Z.of_nat n) with (j + Z.of_nat (S n)) by lia.
Qed.
End lookup.

(** [dirlookup] returns for every directory and name.  It finds the first entry
    that is in use and whose name agrees with the one asked for in the
    characters that are compared, across the blocks of the directory, and
    reports its offset; the inode it returns is one for the entry's number, in a
    cache that still has no duplicates.  Without such an entry it returns
    nothing, and the only panic is that of a full inode cache. *)
Theorem dirlookup_finds dp ip name V D e k :
  brep k V D ∅ -> (size D < NBUF)%nat -> icache_ok k -> lock_free L_icache k ->
  k_icache k !! dp = Some ip -> dir_ok (k_disksize k) V ip ->
  match dir_find V ip name with
  | None => exists k', dirlookup dp name e k = Ok None e k' /\ rframe k k' /\ brep k' V D ∅
  | Some (n, de) =>
      (exists i k', dirlookup dp name e k = Ok (Some (i, sizeof_dirent * Z.of_nat n)) e k' /\
         is_inode 1 (de_inum de) (inode_at k' i) /\ icache_ok k') \/
      (exists k', dirlookup dp name e k = Panic "iget: no inodes" k' /\
         forall i jp, k_icache k !! i = Some jp -> 0 < i_ref jp)
  end.
Proof.
  intros Hrep HD Hic Hl Hi Hdir. destruct (dirlookup_eq dp ip name V D e k) as (k1 & Hf & Hrep1 & ->); [done..|].
  destruct (dir_find V ip name) as [[n de]|]; [|by exists k1].
  destruct (rframe_icache _ _ Hf) as [Hc _], (bframe_locks _ _ (proj1 Hf)) as [Hlk _].
  assert (icache_ok k1) as Hic1 by (unfold icache_ok; by rewrite Hc).
  assert (lock_free L_icache k1) as Hl1 by (unfold lock_free; by rewrite Hlk).
  destruct Hrep1 as [(_ & _ & Hcpu & _) _].
  pose proof (iget_ok 1 (de_inum de) e k1 (proj1 Hic1) Hl1 Hcpu) as Hg.
  destruct (iget_effect 1 (de_inum de) (k_icache k1)) as [[i jp]|] eqn:E.
  - left. exists i. eexists. split; [by erewrite bind_Ok by exact Hg|].
    destruct (iget_effect_ok _ _ _ _ _ Hic1 E) as (Hlt & Hin & Hok). split; [|exact Hok].
    rewrite (inode_at_lookup _ _ jp); [done|]. cbn. apply list_lookup_insert_eq. by rewrite (proj1 Hic1).
  - right. eexists. split; [by erewrite bind_Panic by exact Hg|]. rewrite <- Hc. by apply (iget_effect_none 1 (de_inum de)).
Qed.

Section linking.
Context (LS NL : Z).
Notation txn := (txn LS NL).

Lemma rframe_txn k k' V bl :
  txn k V bl ∅ -> rframe k k' -> brep k' V (list_to_set bl) ∅ -> txn k' V bl ∅ /\ tframe k k'.
Proof.
  intros Htx (Hf & Hd & Hw) Hrep. split; [by eapply txn_frame|by apply bframe_tframe].
Qed.

Lemma dirlink_txn dp ip name inum n y k V bl e :
  txn k V bl ∅ -> k_icache k !! dp = Some ip -> dir_ok (k_disksize k) V ip -> distinct V ip ->
  (forall b, of_file V ip b -> home_ok LS NL (k_disksize k) b) -> Z.of_nat (length bl) < NL - 1 ->
  dir_find V ip name = None -> list_find (fun de => de_inum de = 0) (dirents V ip) = Some (n, y) ->
  exists k' V' bl', dirlink dp name inum e k = Ok 0 e k' /\ tframe k k' /\ txn k' V' bl' ∅ /\
    written V V' ip (sizeof_dirent * Z.of_nat n) (new_dirent name inum).
Proof.
  intros Htx Hi Hdir Hdis Hhome Hlog Hnone Hslot.
  pose proof (proj1 (list_find_Some _ _ _ _) Hslot) as (Hy & _ & _). apply lookup_lt_Some in Hy. rewrite length_dirents in Hy.
  pose proof (entries_size _ (do_size _ _ _ Hdir)) as Hsz.
  destruct (dirlookup_eq dp ip name V (list_to_set bl) e k) as (k1 & Hf1 & Hrep1 & E1);
    [apply Htx|by eapply txn_room|done|done|]. rewrite Hnone in E1.
  destruct (rframe_txn _ _ _ _ Htx Hf1 Hrep1) as [Htx1 Ht1], (rframe_icache _ _ Hf1) as [Hic1 Hds1].
  assert (k_icache k1 !! dp = Some ip) as Hi1 by by rewrite Hic1.
  destruct (dirlink_loop dp ip V (list_to_set bl) (S (S (Z.to_nat (i_size ip / sizeof_dirent)))) 0 e k1)
    as (k2 & Hf2 & Hrep2 & E2); [done|by eapply txn_room|done|by rewrite Hds1|lia|lia|].
  change (Z.to_nat 0) with 0%nat in E2. rewrite drop_0, Hslot, Z.add_0_l in E2.
  destruct (rframe_txn _ _ _ _ Htx1 Hf2 Hrep2) as [Htx2 Ht2], (rframe_icache _ _ Hf2) as [Hic2 Hds2].
  assert (wp (writei dp (new_dirent name inum) (sizeof_dirent * Z.of_nat n) sizeof_dirent) (fun r e' k' =>
    r = sizeof_dirent /\ e' = e /\ exists V' bl', tframe k2 k' /\ txn k' V' bl' ∅ /\
    written V V' ip (sizeof_dirent * Z.of_nat n) (new_dirent name inum)) e k2) as Hwp.
  { eapply txn_writei; [exact Htx2|by rewrite Hic2|rewrite Hds2, Hds1; apply Hdir|done|by rewrite Hds2, Hds1|..].
    - unfold sizeof_dirent. lia.
    - by rewrite length_new_dirent.
    - unfold sizeof_dirent in *. lia.
    - rewrite rounds_entry by lia. lia.
    - eauto 10. }
  apply wp_Ok in Hwp as (r & e' & k' & E3 & -> & -> & V' & bl' & Ht3 & Htx3 & Hw).
  exists k', V', bl'. split; [|split; [by do 2 (etransitivity; [eassumption|])|done]].
  unfold dirlink. erewrite bind_Ok by exact E1. cbv iota. unfold get_inode at 1.
  rewrite gets_eq, (inode_at_lookup _ _ _ Hi1). erewrite bind_Ok by exact E2. cbv zeta.
  erewrite bind_Ok by exact E3. done.
Qed.

(** C8: What [dirlink] links, [dirlookup] finds.  In a transaction, for a name that the
    directory does not have and with an entry that is not in use, [dirlink]
    returns 0 and puts the name and the number in the first such entry and
    nowhere else; afterwards [dirlookup] of that name opens the inode with that
    number, every name that differs from it in the characters that are
    compared means what it meant before, no block of another file has
    changed, and the transaction goes on. *)
Theorem dirlink_dirlookup dp ip name inum n y k V bl e :
  txn k V bl ∅ -> k_icache k !! dp = Some ip -> dir_ok (k_disksize k) V ip -> distinct V ip ->
  (forall b, of_file V ip b -> home_ok LS NL (k_disksize k) b) -> Z.of_nat (length bl) < NL - 1 ->
  0 < inum < 2 ^ 16 -> dir_find V ip name = None ->
  list_find (fun de => de_inum de = 0) (dirents V ip) = Some (n, y) ->
  exists k' V' bl', dirlink dp name inum e k = Ok 0 e k' /\ txn k' V' bl' ∅ /\ k_icache k' = k_icache k /\
    dirents V' ip = <[n := new_dirent name inum]> (dirents V ip) /\
    (forall b, ~ of_file V ip b -> V' !! b = V !! b) /\
    (exists k'', dirlookup dp name e k' = (i <- iget 1 inum ;; ret (Some (i, sizeof_dirent * Z.of_nat n))) e k'') /\
    (forall name', ~ same_name name' name -> dir_find V' ip name' = dir_find V ip name').
Proof.
  intros Htx Hi Hdir Hdis Hhome Hlog Hinum Hnone Hslot.
  destruct (dirlink_txn dp ip name inum n y k V bl e) as (k' & V' & bl' & E & Hf & Htx' & Hw); [done..|].
  pose proof (proj1 (list_find_Some _ _ _ _) Hslot) as (Hy & Hy0 & _).
  pose proof (lookup_lt_Some _ _ _ Hy) as Hn. rewrite length_dirents in Hn.
  assert (Z.of_nat n < i_size ip / sizeof_dirent) as Hn' by lia.
  pose proof (entries_written _ _ _ _ _ _ Hdir Hn' (length_new_dirent _ _) Hw) as He.
  pose proof (tframe_icache _ _ Hf) as Hic.
  assert (forall name', dir_find V' ip name' =
    if decide (same_name name' name) then Some (n, new_dirent name inum) else dir_find V ip name') as Hfind.
  { intros name'. unfold dir_find. rewrite He. by eapply dir_find_insert. }
  exists k', V', bl'. do 4 (split; [done|]). split; [apply Hw|]. split.
  - destruct (dirlookup_eq dp ip name V' (list_to_set bl') e k') as (k'' & _ & _ & ->).
    + apply Htx'.
    + by eapply txn_room.
    + by rewrite Hic.
    + rewrite (tframe_disksize _ _ Hf). destruct Hdir as [[? ? ? ? Hblk ?] ? ?]. do 2 (split; try done).
      intros bn. rewrite (proj2 (proj2 Hw)). apply Hblk.
    + exists k''. rewrite Hfind, decide_True by done.
      destruct (dirent_matches name name inum) as (_ & Hd & _). fold (new_dirent name inum) in Hd.
      by rewrite Hd, u16_small by lia.
  - intros name' Hne. by rewrite Hfind, decide_False.
Qed.
End linking.

End directory.
(** ** An example: a directory of three entries in block 36 of the machine of [Demo], with
    one name, in the middle of a transaction *)

Section example.
Import Memide.
#[local] Existing Instance memide_driver.
#[local] Instance no_devices : Devsw := { dev_read := fun _ => None; dev_write := fun _ => None }.

Definition dir36 : list Z := new_dirent [97] 5 ++ replicate 496 0.
Definition small_dir : inode := mkInode 1 7 1 I_VALID T_DIR 0 0 1 48 (36 :: replicate 12 0).
Definition dir_cache : list inode := small_dir :: replicate 49 inode0.
Definition dir_state : kernel := set_k_icache dir_cache (Demo.final (write_block 36 dir36 [] example_state)).

Lemma small_dir_blocks V b : of_file V small_dir b -> b = 36.
Proof.
  intros (bn & Hbn & Hs & ->). cbn [i_size small_dir] in Hs. assert (bn = 0) as -> by (unfold BSIZE in Hs; lia).
  reflexivity.
Qed.

Lemma small_dir_ok V : dir_ok 40 V small_dir.
Proof.
  split; [split| |].
  - reflexivity.
  - discriminate.
  - reflexivity.
  - change (MAXFILE * BSIZE) with 71680. cbn. lia.
  - intros bn Hbn Hs. rewrite (small_dir_blocks V (block_of V small_dir bn)) by by exists bn. lia.
  - cbn. unfold BSIZE, NDIRECT. lia.
  - reflexivity.
  - by exists 3.
Qed.

Lemma small_dir_distinct V : distinct V small_dir.
Proof.
  split.
  - intros bn bn' H1 H2 H3 H4 _. cbn [i_size small_dir] in *. unfold BSIZE in *. lia.
  - intros bn H1 H2. rewrite (small_dir_blocks V (block_of V small_dir bn)) by by exists bn. discriminate.
Qed.

Lemma small_dir_byte V x : 0 <= x < 48 -> file_byte (<[36 := dir36]> V) small_dir x = nth (Z.to_nat x) dir36 0.
Proof.
  intros Hx. unfold file_byte, BSIZE. rewrite Z.mod_small, (Z.div_small x) by lia.
  change (block_of (<[36 := dir36]> V) small_dir 0) with 36. by rewrite blk_insert.
Qed.

Lemma small_dir_entries V :
  dirents (<[36 := dir36]> V) small_dir = [new_dirent [97] 5; replicate 16 0; replicate 16 0].
Proof.
  transitivity ((fun j => (fun x => nth (Z.to_nat (16 * j + x)) dir36 0) <$> seqZ 0 16) <$> seqZ 0 3);
    [|vm_compute; reflexivity].
  apply list_fmap_ext. intros i j Hj%lookup_seqZ. apply list_fmap_ext. intros i' x Hx%lookup_seqZ.
  apply small_dir_byte. unfold sizeof_dirent. lia.
Qed.

Lemma dir_cache_ok k : k_icache k = dir_cache -> icache_ok k.
Proof.
  intros E. unfold icache_ok. rewrite E. split; [reflexivity|].
  assert (forall i ip, dir_cache !! i = Some ip -> (i = 0%nat /\ ip = small_dir) \/ ip = inode0) as Hc.
  { intros [|i] ip Hi; [left; by injection Hi as <-|right].
    change (replicate 49 inode0 !! i = Some ip) in Hi. by apply lookup_replicate in Hi as [-> _]. }
  split.
  - intros i ip [[_ ->] | ->]%Hc; cbn; lia.
  - intros i j dev inum ip jp [[-> ->] | ->]%Hc [[-> ->] | ->]%Hc [H1 _] [H2 _]; cbn in *; lia.
Qed.

Lemma dir_state_locks : k_locks dir_state !! L_icache = Some (mkSpinlock 0 "icache" None).
Proof. vm_compute. reflexivity. Qed.

Lemma dir_state_ok :
  exists V bl, txn 2 30 dir_state V bl ∅ /\ k_disksize dir_state = 40 /\ k_icache dir_state = dir_cache /\
    dirents V small_dir = [new_dirent [97] 5; replicate 16 0; replicate 16 0] /\ (length bl <= 2)%nat.
Proof.
  destruct example_ok as (V & Htx & _ & Hs & _).
  pose proof (write_block_ok example_state V 36 dir36 Htx Hs ltac:(lia) eq_refl) as Hwp.
  apply Demo.wp_final in Hwp as (_ & _ & _ & bl & Htx2 & Hs2 & Hlen).
  exists (<[36 := dir36]> V), bl. unfold dir_state. split; [by apply txn_icache|].
  rewrite (proj2 (icache_set _ _)), (proj1 (icache_set _ _)).
  split; [exact Hs2|]. split; [reflexivity|]. split; [apply small_dir_entries|exact Hlen].
Qed.

Lemma dirlookup_finds_witness :
  exists V, dir_find V small_dir [97] = Some (0%nat, new_dirent [97] 5) /\
    ((exists i k', dirlookup 0 [97] [] dir_state = Ok (Some (i, 0)) [] k' /\
        is_inode 1 5 (inode_at k' i) /\ icache_ok k') \/
     (exists k', dirlookup 0 [97] [] dir_state = Panic "iget: no inodes" k' /\
        forall i jp, k_icache dir_state !! i = Some jp -> 0 < i_ref jp)).
Proof.
  destruct dir_state_ok as (V & bl & Htx & Hs & Hc & He & Hlen). exists V.
  assert (dir_find V small_dir [97] = Some (0%nat, new_dirent [97] 5)) as Hfind.
  { unfold dir_find. rewrite He. vm_compute. reflexivity. }
  split; [exact Hfind|].
  pose proof (dirlookup_finds 0 small_dir [97] V (list_to_set bl) [] dir_state) as Hl.
  rewrite Hfind in Hl. apply Hl.
  - apply Htx.
  - by eapply txn_room.
  - by apply dir_cache_ok.
  - eexists. exact dir_state_locks.
  - by rewrite Hc.
  - rewrite Hs. apply small_dir_ok.
Defined.

Lemma dirlink_dirlookup_witness :
  exists V k' V' bl', dirlink 0 [98] 6 [] dir_state = Ok 0 [] k' /\ txn 2 30 k' V' bl' ∅ /\
    k_icache k' = k_icache dir_state /\
    dirents V' small_dir = <[1%nat := new_dirent [98] 6]> (dirents V small_dir) /\
    (forall b, ~ of_file V small_dir b -> V' !! b = V !! b) /\
    (exists k'', dirlookup 0 [98] [] k' = (i <- iget 1 6 ;; ret (Some (i, 16))) [] k'') /\
    (forall name', ~ same_name name' [98] -> dir_find V' small_dir name' = dir_find V small_dir name').
Proof.
  destruct dir_state_ok as (V & bl & Htx & Hs & Hc & He & Hlen). exists V.
  apply (dirlink_dirlookup 2 30 0 small_dir [98] 6 1 (replicate 16 0) dir_state V bl []).
  - exact Htx.
  - by rewrite Hc.
  - rewrite Hs. apply small_dir_ok.
  - apply small_dir_distinct.
  - intros b Hb. apply small_dir_blocks in Hb as ->. rewrite Hs. unfold home_ok, in_log. lia.
  - lia.
  - lia.
  - unfold dir_find. rewrite He. vm_compute. reflexivity.
  - rewrite He. vm_compute. reflexivity.
Defined.
End example.

End Directory.
