(* ===== verification/Vm.v ===== *)
(** vm.c: page tables.

    A page table is in the kernel's memory, where the hardware walks it: the
    page directory at address [pgdir] has 1024 words, each of them points to a
    page of 1024 words. *)

From S2P Require Import Prelude Bytes Machine Cstring Spinlock Consout Kalloc Sleep Disk Fs.
Import Cstring Spinlock Consout Kalloc Fs.

Module Vm.

(** ** Segments *)

Definition STA_X : Z := 8.
Definition STA_W : Z := 2.
Definition STA_R : Z := 2.
Definition STS_T32A : Z := 9.

(** mmu.h, [SEG] and [SEG16] *)
Definition SEG (type base lim dpl : Z) : segdesc :=
  mkSegdesc (Z.land (Z.shiftr lim 12) 0xffff) (Z.land base 0xffff)
    (Z.land (Z.shiftr base 16) 0xff) type 1 dpl 1 (Z.land (Z.shiftr lim 28) 0xf) 0 0 1 1
    (Z.land (Z.shiftr base 24) 0xff).
Definition SEG16 (type base lim dpl : Z) : segdesc :=
  mkSegdesc (Z.land lim 0xffff) (Z.land base 0xffff)
    (Z.land (Z.shiftr base 16) 0xff) type 1 dpl 1 (Z.land (Z.shiftr lim 16) 0xf) 0 0 1 0
    (Z.land (Z.shiftr base 24) 0xff).

(** Where the fields of a [struct cpu] are. *)
Definition sizeof_cpu : Z := 188.
Definition sizeof_taskstate : Z := 104.
Definition cpu_addr (l : linkmap) (c : cpu) : Z := ld_cpus l + sizeof_cpu * c_id c.
Definition cpu_ts (l : linkmap) (c : cpu) : Z := cpu_addr l c + 8.
Definition cpu_cpu (l : linkmap) (c : cpu) : Z := cpu_addr l c + 180.

Definition set_gdt (n : Z) (d : segdesc) : K unit :=
  upd_cpu (fun c => set_c_gdt (<[Z.to_nat n := d]> (c_gdt c)) c).

(** [lgdt] and [loadgs] make the table and the cpu-local segment current. *)
Definition seginit : K unit :=
  l <- gets k_link ;;
  c <- gets k_cpu ;;
  set_gdt SEG_KCODE (SEG (Z.lor STA_X STA_R) 0 0xffffffff 0) ;;
  set_gdt SEG_KDATA (SEG STA_W 0 0xffffffff 0) ;;
  set_gdt SEG_UCODE (SEG (Z.lor STA_X STA_R) 0 0xffffffff DPL_USER) ;;
  set_gdt SEG_UDATA (SEG STA_W 0 0xffffffff DPL_USER) ;;
  set_gdt SEG_KCPU (SEG STA_W (cpu_cpu l c) 8 0) ;;
  upd_cpu (set_c_proc None).

(** ** Page tables *)

(** [walkpgdir] returns the address of the entry, 0 if there is none. *)
Definition walkpgdir (pgdir va : Z) (alloc : bool) : K Z :=
  let pde := pgdir + 4 * PDX va in
  v <- ld32 pde ;;
  if nz (Z.land v PTE_P) then ret (p2v (PTE_ADDR v) + 4 * PTX va) else
  if negb alloc then ret 0 else
  pgtab <- kalloc ;;
  if pgtab =? 0 then ret 0 else
  mem_set pgtab 0 (Z.to_nat PGSIZE) ;;
  st32 pde (Z.lor (Z.lor (Z.lor (v2p pgtab) PTE_P) PTE_W) PTE_U) ;;
  ret (pgtab + 4 * PTX va).

(** [a] runs from the first page to the last one, modulo the address space. *)
Definition mappages (pgdir va size pa perm : Z) : K Z :=
  let a := PGROUNDDOWN va in
  let last := PGROUNDDOWN (u32 (va + size - 1)) in
  loop_fuel (S (Z.to_nat (u32 (last - a) / PGSIZE))) (fun '(a, pa) =>
    pte <- walkpgdir pgdir a true ;;
    if pte =? 0 then ret (inr (-1)) else
    v <- ld32 pte ;;
    if nz (Z.land v PTE_P) then panic "remap" else
    st32 pte (Z.lor (Z.lor pa perm) PTE_P) ;;
    if a =? last then ret (inr 0) else
    ret (inl (u32 (a + PGSIZE), u32 (pa + PGSIZE)))) (a, pa).

(** The table of the kernel's mappings: virtual address, start and end of the
    physical range, permissions. *)
Definition kmap (l : linkmap) : list (Z * Z * Z * Z) :=
  [ (KERNBASE, 0, EXTMEM, PTE_W);
    (KERNLINK, v2p KERNLINK, v2p (ld_data l), 0);
    (ld_data l, v2p (ld_data l), PHYSTOP, PTE_W);
    (DEVSPACE, DEVSPACE, 0, PTE_W) ].

Definition setupkvm : K Z :=
  pgdir <- kalloc ;;
  if pgdir =? 0 then ret 0 else
  mem_set pgdir 0 (Z.to_nat PGSIZE) ;;
  if DEVSPACE <? p2v PHYSTOP then panic "PHYSTOP too high" else
  l <- gets k_link ;;
  r <- for_each (kmap l) (fun '(virt, phys_start, phys_end, perm) =>
    r <- mappages pgdir virt (u32 (phys_end - phys_start)) phys_start perm ;;
    if r <? 0 then ret (Some 0) else ret None) ;;
  match r with
  | Some v => ret v
  | None => ret pgdir
  end.

(** [lcr3] of x86.h loads the page table register. *)
Definition lcr3 (v : Z) : K unit := upd_cpu (set_c_cr3 v).

Definition switchkvm : K unit :=
  kpgdir <- gets k_kpgdir ;;
  lcr3 (v2p kpgdir).

Definition kvmalloc : K unit :=
  p <- setupkvm ;;
  modify (set_k_kpgdir p) ;;
  switchkvm.

Definition switchuvm (p : nat) : K unit :=
  pushcli ;;
  l <- gets k_link ;;
  c <- gets k_cpu ;;
  set_gdt SEG_TSS (SEG16 STS_T32A (cpu_ts l c) (sizeof_taskstate - 1) 0) ;;
  c <- gets k_cpu ;;
  set_gdt SEG_TSS (set_sd_s 0 (nth (Z.to_nat SEG_TSS) (c_gdt c) (SEG 0 0 0 0))) ;;
  upd_cpu (set_c_ss0 (Z.shiftl SEG_KDATA 3)) ;;
  me <- curproc ;;
  cur <- get_proc me ;;
  upd_cpu (set_c_esp0 (u32 (p_kstack cur + KSTACKSIZE))) ;;
  upd_cpu (set_c_tr (Z.shiftl SEG_TSS 3)) ;;
  pr <- get_proc p ;;
  if p_pgdir pr =? 0 then panic "switchuvm: no pgdir" else
  lcr3 (v2p (p_pgdir pr)) ;;
  popcli.

(** Copy bytes into memory ([memmove] from a kernel buffer). *)
Fixpoint store_bytes (m : memory) (a : Z) (l : list Z) : memory :=
  match l with
  | [] => m
  | b :: l' => store_bytes (store m a b) (a + 1) l'
  end.

Definition put_bytes (a : Z) (l : list Z) : K unit :=
  modify (fun k => set_k_mem (store_bytes (k_mem k) a l) k).

Definition mem_move (dst src : Z) (n : nat) : K unit :=
  modify (fun k => set_k_mem (memmove (k_mem k) dst src n) k).

Definition inituvm (pgdir : Z) (init : list Z) (sz : Z) : K unit :=
  if PGSIZE <=? sz then panic "inituvm: more than a page" else
  mem <- kalloc ;;
  if mem =? 0 then undefined else
  mem_set mem 0 (Z.to_nat PGSIZE) ;;
  mappages pgdir 0 PGSIZE (v2p mem) (Z.lor PTE_W PTE_U) ;;
  put_bytes mem (take (Z.to_nat sz) init).

(** The number of iterations of a loop over the pages below [sz]. *)
Definition pages_below (sz : Z) : nat := S (S (Z.to_nat (sz / PGSIZE))).

Definition loaduvm `{DiskDriver} `{Devsw} (pgdir addr : Z) (ip : nat) (offset sz : Z) : K Z :=
  if nz (addr mod PGSIZE) then panic "loaduvm: addr must be page aligned" else
  loop_fuel (pages_below sz) (fun i =>
    if negb (i <? sz) then ret (inr 0) else
    pte <- walkpgdir pgdir (u32 (addr + i)) false ;;
    if pte =? 0 then panic "loaduvm: address should exist" else
    v <- ld32 pte ;;
    let pa := PTE_ADDR v in
    let n := if sz - i <? PGSIZE then sz - i else PGSIZE in
    ' (bytes, r) <- readi ip (u32 (offset + i)) n ;;
    put_bytes (p2v pa) bytes ;;
    if negb (r =? n) then ret (inr (-1)) else
    ret (inl (i + PGSIZE))) 0.

Definition deallocuvm (pgdir oldsz newsz : Z) : K Z :=
  if oldsz <=? newsz then ret oldsz else
  loop_fuel (pages_below oldsz) (fun a =>
    if negb (a <? oldsz) then ret (inr newsz) else
    pte <- walkpgdir pgdir a false ;;
    if pte =? 0 then ret (inl (u32 (u32 (a + (NPTENTRIES - 1) * PGSIZE) + PGSIZE))) else
    v <- ld32 pte ;;
    when (nz (Z.land v PTE_P))
      (let pa := PTE_ADDR v in
       if pa =? 0 then panic "kfree" else
       kfree (p2v pa) ;;
       st32 pte 0) ;;
    ret (inl (u32 (a + PGSIZE)))) (PGROUNDUP newsz).

Definition allocuvm (pgdir oldsz newsz : Z) : K Z :=
  if KERNBASE <=? newsz then ret 0 else
  if newsz <? oldsz then ret oldsz else
  loop_fuel (pages_below newsz) (fun a =>
    if negb (a <? newsz) then ret (inr newsz) else
    mem <- kalloc ;;
    if mem =? 0 then
      cprintf "allocuvm out of memory
" [] ;;
      deallocuvm pgdir newsz oldsz ;;
      ret (inr 0)
    else
      mem_set mem 0 (Z.to_nat PGSIZE) ;;
      mappages pgdir a PGSIZE (v2p mem) (Z.lor PTE_W PTE_U) ;;
      ret (inl (a + PGSIZE))) (PGROUNDUP oldsz).

Definition freevm (pgdir : Z) : K unit :=
  if pgdir =? 0 then panic "freevm: no pgdir" else
  deallocuvm pgdir KERNBASE 0 ;;
  for_all (seq 0 (Z.to_nat NPDENTRIES)) (fun i =>
    v <- ld32 (pgdir + 4 * Z.of_nat i) ;;
    when (nz (Z.land v PTE_P)) (kfree (p2v (PTE_ADDR v)))) ;;
  kfree pgdir.

Definition clearpteu (pgdir uva : Z) : K unit :=
  pte <- walkpgdir pgdir uva false ;;
  if pte =? 0 then panic "clearpteu" else
  v <- ld32 pte ;;
  st32 pte (Z.land v (Z.lxor 0xFFFFFFFF PTE_U)).

Definition copyuvm (pgdir sz : Z) : K Z :=
  d <- setupkvm ;;
  if d =? 0 then ret 0 else
  ok <- loop_fuel (pages_below sz) (fun i =>
    if negb (i <? sz) then ret (inr true) else
    pte <- walkpgdir pgdir i false ;;
    if pte =? 0 then panic "copyuvm: pte should exist" else
    v <- ld32 pte ;;
    if negb (nz (Z.land v PTE_P)) then panic "copyuvm: page not present" else
    let pa := PTE_ADDR v in
    let flags := PTE_FLAGS v in
    mem <- kalloc ;;
    if mem =? 0 then ret (inr false) else
    mem_move mem (p2v pa) (Z.to_nat PGSIZE) ;;
    r <- mappages d i PGSIZE (v2p mem) flags ;;
    if r <? 0 then ret (inr false) else
    ret (inl (i + PGSIZE))) 0 ;;
  if ok : bool then ret d else
  freevm d ;;
  ret 0.

(** The entry that [walkpgdir] does not find is dereferenced all the same. *)
Definition uva2ka (pgdir uva : Z) : K Z :=
  pte <- walkpgdir pgdir uva false ;;
  if pte =? 0 then undefined else
  v <- ld32 pte ;;
  if negb (nz (Z.land v PTE_P)) then ret 0 else
  if negb (nz (Z.land v PTE_U)) then ret 0 else
  ret (p2v (PTE_ADDR v)).

Definition copyout (pgdir va : Z) (p : list Z) (len : Z) : K Z :=
  loop_fuel (S (S (S (Z.to_nat (len / PGSIZE))))) (fun '(va, buf, len) =>
    if negb (0 <? len) then ret (inr 0) else
    let va0 := PGROUNDDOWN va in
    pa0 <- uva2ka pgdir va0 ;;
    if pa0 =? 0 then ret (inr (-1)) else
    let n := PGSIZE - (va - va0) in
    let n := if len <? n then len else n in
    put_bytes (pa0 + (va - va0)) (take (Z.to_nat n) buf) ;;
    ret (inl (u32 (va0 + PGSIZE), drop (Z.to_nat n) buf, len - n))) (va, p, len).

End Vm.
