(* ===== verification/Pagetable.v ===== *)
(** Page tables as the hardware sees them: what the operations of vm.c do to the
    translation of addresses. *)

From S2P Require Import Prelude Bytes Machine Demo Cstring Spinlock Consout Kalloc Sleep Disk Fs Vm.
Import Cstring Spinlock Consout Kalloc Vm.

Module Pagetable.

(** ** The arithmetic of mmu.h *)

Definition present (v : Z) : bool := nz (Z.land v PTE_P).

(** The number of the page of an address. *)
Definition vpn (va : Z) : Z := u32 va / 4096.

Lemma land_low v : Z.land (u32 v) 0xFFF = u32 v mod 4096.
Proof. change 0xFFF with (Z.ones 12). by rewrite Z.land_ones by lia. Qed.

Lemma land_high v : Z.land (u32 v) (Z.lxor 0xFFFFFFFF 0xFFF) = 4096 * vpn v.
Proof.
  change (Z.lxor 0xFFFFFFFF 0xFFF) with (Z.shiftl (Z.ones 20) 12).
  pose proof (u32_range v). unfold vpn. set (w := u32 v) in *.
  replace (4096 * (w / 4096)) with (Z.shiftl (Z.shiftr w 12) 12)
    by (rewrite Z.shiftl_mul_pow2, Z.shiftr_div_pow2 by lia; change (2 ^ 12) with 4096; lia).
  apply Z.bits_inj'. intros n Hn. rewrite Z.land_spec.
  destruct (decide (n < 12)) as [Hl|Hl].
  - rewrite !Z.shiftl_spec_low by lia. by rewrite andb_false_r.
  - rewrite !Z.shiftl_spec, Z.shiftr_spec by lia. replace (n - 12 + 12) with n by lia.
    rewrite Z.testbit_ones by lia. destruct (decide (n < 32)).
    + rewrite (proj2 (Z.leb_le _ _)), (proj2 (Z.ltb_lt _ _)) by lia. by rewrite andb_true_r.
    + assert (Z.testbit w n = false) as ->; [|done].
      apply Z.bits_above_log2; [lia|]. destruct (decide (w = 0)) as [->|]; [done || (cbn; lia)|].
      apply Z.log2_lt_pow2; [lia|]. eapply Z.lt_le_trans with (2 ^ 32); [lia|].
      apply Z.pow_le_mono_r; lia.
Qed.

Lemma PTE_ADDR_eq v : PTE_ADDR v = 4096 * vpn v.
Proof. apply land_high. Qed.
Lemma PGROUNDDOWN_vpn a : PGROUNDDOWN a = 4096 * vpn a.
Proof. apply land_high. Qed.
Lemma PTE_FLAGS_eq v : PTE_FLAGS v = u32 v mod 4096.
Proof. apply land_low. Qed.

Lemma PDX_eq va : PDX va = vpn va / 1024.
Proof.
  unfold PDX, vpn, PDXSHIFT. change 0x3FF with (Z.ones 10).
  rewrite Z.land_ones, Z.shiftr_div_pow2 by lia. pose proof (u32_range va).
  change (2 ^ 22) with (4096 * 1024). rewrite <- Z.div_div by lia. apply Z.mod_small.
  assert (u32 va / 4096 < 1048576) by (apply Z.div_lt_upper_bound; lia).
  assert (0 <= u32 va / 4096) by (apply Z.div_pos; lia).
  split; [apply Z.div_pos; lia|apply Z.div_lt_upper_bound; change (2 ^ 10) with 1024; lia].
Qed.

Lemma PTX_eq va : PTX va = vpn va mod 1024.
Proof.
  unfold PTX, vpn, PTXSHIFT. change 0x3FF with (Z.ones 10).
  by rewrite Z.land_ones, Z.shiftr_div_pow2 by lia.
Qed.

Lemma vpn_range va : 0 <= vpn va < 1048576.
Proof.
  unfold vpn. pose proof (u32_range va).
  split; [apply Z.div_pos; lia|apply Z.div_lt_upper_bound; lia].
Qed.

Lemma PDX_range va : 0 <= PDX va < 1024.
Proof.
  rewrite PDX_eq. pose proof (vpn_range va).
  split; [apply Z.div_pos; lia|apply Z.div_lt_upper_bound; lia].
Qed.

Lemma PTX_range va : 0 <= PTX va < 1024.
Proof. rewrite PTX_eq. apply Z.mod_pos_bound. lia. Qed.

Lemma vpn_split va : vpn va = 1024 * PDX va + PTX va.
Proof. rewrite PDX_eq, PTX_eq. apply Z.div_mod. lia. Qed.

Lemma vpn_page n : 0 <= n < 1048576 -> vpn (4096 * n) = n.
Proof. intros Hn. unfold vpn. rewrite u32_small by lia. rewrite Z.mul_comm. apply Z.div_mul. lia. Qed.

Lemma present_odd v : present v = Z.odd v.
Proof.
  unfold present, PTE_P, nz. change 1 with (Z.ones 1). rewrite Z.land_ones by lia.
  change (2 ^ 1) with 2. rewrite Zmod_odd. by destruct (Z.odd v).
Qed.

(** ** The translation *)

(** The page table that entry [i] of the directory points to. *)
Definition table (m : memory) (pgdir i : Z) : option Z :=
  let v := load32 m (pgdir + 4 * i) in
  if present v then Some (p2v (PTE_ADDR v)) else None.

(** The entry that the processor finds for an address. *)
Definition translation (m : memory) (pgdir va : Z) : option Z :=
  t ← table m pgdir (PDX va);
  let v := load32 m (t + 4 * PTX va) in
  if present v then Some v else None.

(** The pages of the tables of a directory; sealed, so that no proof unfolds the
    list of 1024 entries. *)
Definition tables_def (m : memory) (pgdir : Z) : list Z := omap (table m pgdir) (seqZ 0 1024).
Definition tables_aux : seal tables_def.
Proof. by eexists. Qed.
Definition tables : memory -> Z -> list Z := tables_aux.(unseal).
Lemma tables_eq m pgdir : tables m pgdir = omap (table m pgdir) (seqZ 0 1024).
Proof. unfold tables. by rewrite tables_aux.(seal_eq). Qed.

Lemma elem_of_tables m pgdir t : t ∈ tables m pgdir <-> exists i, 0 <= i < 1024 /\ table m pgdir i = Some t.
Proof.
  rewrite tables_eq, list_elem_of_omap. apply exist_proper. intros i. rewrite elem_of_seqZ. split; intros [? ?]; (split; [lia|done]).
Qed.

Lemma tables_ext m m' pgdir :
  (forall i, 0 <= i < 1024 -> table m' pgdir i = table m pgdir i) -> tables m' pgdir = tables m pgdir.
Proof.
  intros Ht. rewrite !tables_eq. apply omap_ext_in. intros i Hi. apply elem_of_seqZ in Hi. apply Ht. lia.
Qed.

Lemma tables_seq m pgdir : omap (fun i => table m pgdir (Z.of_nat i)) (seq 0 (Z.to_nat 1024)) = tables m pgdir.
Proof.
  rewrite tables_eq. unfold seqZ. generalize (seq 0 (Z.to_nat 1024)). intros l.
  induction l as [|i l IH]; [done|]. cbn. rewrite Z.add_0_r. destruct (table m pgdir (Z.of_nat i)); [f_equal|]; exact IH.
Qed.

(** A new table. *)
Lemma tables_new m m' pgdir j r :
  0 <= j < 1024 -> table m pgdir j = None ->
  (forall i, 0 <= i < 1024 -> table m' pgdir i = if decide (i = j) then Some r else table m pgdir i) ->
  tables m' pgdir ≡ₚ r :: tables m pgdir.
Proof.
  intros Hj Hn Ht. rewrite !tables_eq. apply (omap_insert _ _ j); [apply NoDup_seqZ|apply elem_of_seqZ; lia|done|..].
  - by rewrite Ht, decide_True.
  - intros i Hi Hne. apply elem_of_seqZ in Hi. by rewrite Ht, decide_False by lia.
Qed.

Lemma tables_none m d : (forall i, 0 <= i < 1024 -> table m d i = None) -> tables m d = [].
Proof.
  intros Ht. destruct (tables m d) as [|t l] eqn:E; [done|].
  assert (t ∈ tables m d) as Hin by (rewrite E; left). apply elem_of_tables in Hin as (i & Hi & Hit).
  by rewrite Ht in Hit.
Qed.

Lemma length_tables m d : (length (tables m d) <= 1024)%nat.
Proof.
  rewrite tables_eq. etransitivity; [apply length_omap_le|]. rewrite length_seqZ. lia.
Qed.

(** A page of memory that the kernel can address. *)
Definition kpage (p : Z) : Prop := p mod 4096 = 0 /\ KERNBASE <= p < KERNBASE + PHYSTOP.

(** The directory and its tables are different pages, none of them free. *)
Record pt_ok (m : memory) (pgdir : Z) (free : list Z) : Prop := {
  pt_dir : kpage pgdir;
  pt_tab : forall i t, 0 <= i < 1024 -> table m pgdir i = Some t -> kpage t /\ t <> pgdir;
  pt_inj : forall i j t, 0 <= i < 1024 -> 0 <= j < 1024 ->
    table m pgdir i = Some t -> table m pgdir j = Some t -> i = j;
  pt_free : forall q, q ∈ free ->
    kpage q /\ q <> pgdir /\ forall i, 0 <= i < 1024 -> table m pgdir i <> Some q
}.

(** An address outside of the directory and its tables. *)
Definition outside (m : memory) (pgdir x : Z) : Prop :=
  (x < pgdir \/ pgdir + 4096 <= x) /\
  forall i t, 0 <= i < 1024 -> table m pgdir i = Some t -> x < t \/ t + 4096 <= x.

Lemma kpages_apart p q : kpage p -> kpage q -> p <> q -> p + 4096 <= q \/ q + 4096 <= p.
Proof.
  intros [Hp _] [Hq _] Hne.
  pose proof (Z.div_mod p 4096 ltac:(lia)). pose proof (Z.div_mod q 4096 ltac:(lia)).
  destruct (Z.lt_trichotomy (p / 4096) (q / 4096)) as [Hl|[He|Hg]]; lia.
Qed.

Lemma kpage_p2v p : kpage p -> p2v (v2p p) = p.
Proof.
  intros [_ H]. unfold p2v, v2p, KERNBASE, PHYSTOP in *. rewrite (u32_small (p - _)) by lia.
  rewrite u32_small by lia. lia.
Qed.

Lemma kpage_v2p p : kpage p -> 0 <= v2p p < 4294967296 /\ v2p p mod 4096 = 0.
Proof.
  intros [Ha H]. unfold v2p, KERNBASE, PHYSTOP in *. rewrite u32_small by lia. split; [lia|].
  rewrite Zminus_mod, Ha. done.
Qed.

Lemma land_page_flags n flags : 0 <= flags < 4096 -> Z.land (4096 * n) flags = 0.
Proof.
  intros Hf. apply Z.bits_inj'. intros i Hi. rewrite Z.bits_0, Z.land_spec.
  replace (4096 * n) with (Z.shiftl n 12)
    by (rewrite Z.shiftl_mul_pow2 by lia; change (2 ^ 12) with 4096; lia).
  destruct (decide (i < 12)); [by rewrite Z.shiftl_spec_low by lia|].
  assert (Z.testbit flags i = false) as ->; [|by rewrite andb_false_r].
  destruct (decide (flags = 0)) as [->|]; [apply Z.testbit_0_l|].
  apply Z.bits_above_log2; [lia|]. apply Z.log2_lt_pow2; [lia|].
  eapply Z.lt_le_trans with (2 ^ 12); [lia|]. apply Z.pow_le_mono_r; lia.
Qed.

(** The entry for a page and its flags. *)
Lemma entry_fields pa flags :
  pa mod 4096 = 0 -> 0 <= pa < 4294967296 -> 0 <= flags < 4096 ->
  Z.lor pa flags = pa + flags /\ PTE_ADDR (pa + flags) = pa /\ PTE_FLAGS (pa + flags) = flags /\
  u32 (pa + flags) = pa + flags.
Proof.
  intros Ha Hp Hf. pose proof (Z.div_mod pa 4096 ltac:(lia)) as Hd. rewrite Ha, Z.add_0_r in Hd.
  set (n := pa / 4096) in *. assert (n < 1048576) by lia.
  assert (u32 (pa + flags) = pa + flags) as Hu by (apply u32_small; lia).
  assert (Z.land pa flags = 0) as Hz by (rewrite Hd; by apply land_page_flags).
  split; [|split; [|split; [|done]]].
  - rewrite <- Z.lxor_lor by done. symmetry. by apply Z.add_nocarry_lxor.
  - rewrite PTE_ADDR_eq. unfold vpn. rewrite Hu, Hd. replace (4096 * n + flags) with (flags + n * 4096) by lia.
    rewrite Z.div_add, Z.div_small by lia. lia.
  - rewrite PTE_FLAGS_eq, Hu, Hd. replace (4096 * n + flags) with (flags + n * 4096) by lia.
    rewrite Z.mod_add, Z.mod_small by lia. done.
Qed.

(** The flags of an entry that is present. *)
Lemma flags_present perm : 0 <= perm < 4096 -> 0 <= Z.lor perm PTE_P < 4096 /\ Z.odd (Z.lor perm PTE_P) = true.
Proof.
  intros Hp. unfold PTE_P. assert (0 <= Z.lor perm 1) by (apply Z.lor_nonneg; lia). split.
  - split; [done|]. destruct (decide (Z.lor perm 1 = 0)); [lia|].
    change 4096 with (2 ^ 12). apply Z.log2_lt_pow2; [lia|]. rewrite Z.log2_lor by lia.
    apply Z.max_lub_lt; [|cbn; lia]. destruct (decide (perm = 0)) as [->|]; [cbn; lia|].
    apply Z.log2_lt_pow2; [lia|]. change (2 ^ 12) with 4096. lia.
  - rewrite <- Z.bit0_odd, Z.lor_spec. apply orb_true_r.
Qed.

(** ** One page *)

Section tables.
Context (m : memory) (pgdir : Z) (free : list Z).
Context (Hpt : pt_ok m pgdir free).

(** Directory entries depend on the directory's page only. *)
Lemma table_ext m' i :
  0 <= i < 1024 -> (forall x, pgdir <= x < pgdir + 4096 -> m' x = m x) -> table m' pgdir i = table m pgdir i.
Proof.
  intros Hi Hm. unfold table. rewrite (load32_ext m' m); [done|]. intros j Hj. apply Hm. lia.
Qed.

(** A store to a table's slot changes one translation. *)
Lemma table_store t va v i :
  table m pgdir (PDX va) = Some t -> 0 <= i < 1024 ->
  table (store32 m (t + 4 * PTX va) v) pgdir i = table m pgdir i.
Proof.
  intros Ht Hi. pose proof (PTX_range va). pose proof (PDX_range va).
  destruct (pt_tab _ _ _ Hpt _ _ (PDX_range va) Ht) as [Hk Hne].
  pose proof (kpages_apart _ _ Hk (pt_dir _ _ _ Hpt) Hne).
  apply table_ext; [done|]. intros x Hx. apply store32_ne. lia.
Qed.

Lemma translation_store t va v x :
  table m pgdir (PDX va) = Some t ->
  translation (store32 m (t + 4 * PTX va) v) pgdir x =
    if decide (vpn x = vpn va) then (if present (u32 v) then Some (u32 v) else None)
    else translation m pgdir x.
Proof.
  intros Ht. unfold translation at 1. rewrite table_store by (done || apply PDX_range).
  pose proof (PTX_range va). pose proof (PTX_range x).
  destruct (decide (vpn x = vpn va)) as [He|Hne].
  - assert (PDX x = PDX va /\ PTX x = PTX va) as [-> ->] by (rewrite !PDX_eq, !PTX_eq, He; done).
    rewrite Ht. cbn [mbind option_bind]. cbv zeta. by rewrite load32_store32.
  - unfold translation. destruct (table m pgdir (PDX x)) as [s|] eqn:Es; [|done].
    cbn [mbind option_bind]. cbv zeta. rewrite load32_store32_ne; [done|].
    destruct (decide (PDX x = PDX va)) as [Hd|Hd].
    + rewrite Hd, Ht in Es. injection Es as <-. rewrite !vpn_split, Hd in Hne. lia.
    + destruct (pt_tab _ _ _ Hpt _ _ (PDX_range va) Ht) as [Hk _].
      destruct (pt_tab _ _ _ Hpt _ _ (PDX_range x) Es) as [Hk' _].
      destruct (kpages_apart t s Hk Hk'); [|lia|lia].
      intros ->. apply Hd. by eapply pt_inj; eauto using PDX_range.
Qed.

Lemma pt_ok_ext m' free' :
  (forall i, 0 <= i < 1024 -> table m' pgdir i = table m pgdir i) -> (forall q, q ∈ free' -> q ∈ free) ->
  pt_ok m' pgdir free'.
Proof.
  intros Hm Hf. destruct Hpt as [H1 H2 H3 H4]. split; [done|..].
  - intros i t Hi. rewrite Hm by done. by apply H2.
  - intros i j t Hi Hj. rewrite !Hm by done. by apply H3.
  - intros q Hq. destruct (H4 q (Hf q Hq)) as (? & ? & H5). split_and!; [done|done|].
    intros i Hi. rewrite Hm by done. by apply H5.
Qed.

End tables.

(** The directory entry of a new table. *)
Lemma new_entry r :
  kpage r ->
  let v := Z.lor (Z.lor (Z.lor (v2p r) PTE_P) PTE_W) PTE_U in
  present (u32 v) = true /\ p2v (PTE_ADDR (u32 v)) = r.
Proof.
  intros Hr v. destruct (kpage_v2p r Hr) as [Hp Ha].
  assert (v = v2p r + 7) as ->.
  { unfold v, PTE_P, PTE_W, PTE_U. rewrite <- !Z.lor_assoc. by apply entry_fields. }
  destruct (entry_fields (v2p r) 7) as (_ & HA & _ & HU); [done|done|lia|]. rewrite HU, HA. split.
  - rewrite present_odd, Z.odd_add. pose proof (Z.div_mod (v2p r) 4096 ltac:(lia)) as Hd.
    rewrite Ha in Hd. replace (v2p r) with (2 * (2048 * (v2p r / 4096))) by lia. by rewrite Z.odd_mul.
  - by apply kpage_p2v.
Qed.

Lemma load32_zero m r j : 0 <= j < 1024 -> load32 (memset m r 0 (Z.to_nat 4096)) (r + 4 * j) = 0.
Proof.
  intros Hj. rewrite (load32_ext _ (fun _ => 0)); [reflexivity|]. intros i Hi. rewrite memset_spec.
  rewrite (proj2 (Z.leb_le _ _)), (proj2 (Z.ltb_lt _ _)) by lia. done.
Qed.

Section new_table.
Context (m : memory) (pgdir r va : Z) (free : list Z).
Context (Hpt : pt_ok m pgdir (r :: free)) (Hnd : r ∉ free).
Context (Hnone : table m pgdir (PDX va) = None).

Let m' : memory :=
  store32 (memset m r 0 (Z.to_nat 4096)) (pgdir + 4 * PDX va)
    (Z.lor (Z.lor (Z.lor (v2p r) PTE_P) PTE_W) PTE_U).

Lemma new_page : kpage r /\ r <> pgdir /\ (forall i, 0 <= i < 1024 -> table m pgdir i <> Some r) /\
  (r + 4096 <= pgdir \/ pgdir + 4096 <= r).
Proof.
  destruct (pt_free _ _ _ Hpt r) as (Hk & Hne & Hr); [by left|]. split_and!; try done.
  by apply kpages_apart; [..|apply (pt_dir _ _ _ Hpt)|].
Qed.

Lemma new_table_mem x :
  (x < r \/ r + 4096 <= x) -> (x < pgdir + 4 * PDX va \/ pgdir + 4 * PDX va + 4 <= x) -> m' x = m x.
Proof. intros H1 H2. unfold m'. rewrite store32_ne by lia. apply memset_ne; lia. Qed.

Lemma new_table_table i :
  0 <= i < 1024 -> table m' pgdir i = if decide (i = PDX va) then Some r else table m pgdir i.
Proof.
  intros Hi. destruct new_page as (Hk & Hne & Hr & Hd). unfold table.
  destruct (decide (i = PDX va)) as [->|Hi'].
  - unfold m'. rewrite load32_store32. destruct (new_entry r Hk) as [-> ->]. done.
  - rewrite (load32_ext m' m); [done|]. intros j Hj. apply new_table_mem; lia.
Qed.

Lemma new_table_ok : pt_ok m' pgdir free.
Proof.
  destruct new_page as (Hk & Hne & Hr & Hd). split.
  - apply (pt_dir _ _ _ Hpt).
  - intros i t Hi. rewrite new_table_table by done. case_decide; [by intros [= <-]|].
    by apply (pt_tab _ _ _ Hpt).
  - intros i j t Hi Hj. rewrite !new_table_table by done. repeat case_decide; subst; try done.
    + intros [= <-] H'. by destruct (Hr j Hj).
    + intros H' [= <-]. by destruct (Hr i Hi).
    + by apply (pt_inj _ _ _ Hpt).
  - intros q Hq. destruct (pt_free _ _ _ Hpt q) as (? & ? & Hq'); [by right|].
    split_and!; try done. intros i Hi. rewrite new_table_table by done.
    case_decide; [intros [= ->]; done|by apply Hq'].
Qed.

Lemma new_table_translation x : translation m' pgdir x = translation m pgdir x.
Proof.
  destruct new_page as (Hk & Hne & Hr & Hd). pose proof (PDX_range va). pose proof (PTX_range x).
  unfold translation. rewrite new_table_table by apply PDX_range. case_decide as Hx.
  - rewrite Hx, Hnone. cbn [mbind option_bind]. cbv zeta. unfold m'.
    rewrite load32_store32_ne by lia. by rewrite load32_zero.
  - destruct (table m pgdir (PDX x)) as [t|] eqn:Et; [|done]. cbn [mbind option_bind]. cbv zeta.
    destruct (pt_tab _ _ _ Hpt _ _ (PDX_range x) Et) as [Hk' Hne'].
    assert (t <> r) as Htr by (intros ->; by destruct (Hr _ (PDX_range x))).
    pose proof (kpages_apart _ _ Hk' Hk Htr). pose proof (kpages_apart _ _ Hk' (pt_dir _ _ _ Hpt) Hne').
    rewrite (load32_ext m' m); [done|]. intros j Hj. apply new_table_mem; lia.
Qed.

Lemma new_table_frame x : outside m' pgdir x -> m' x = m x.
Proof.
  intros [H1 H2]. pose proof (PDX_range va). apply new_table_mem; [|lia].
  apply (H2 (PDX va)); [done|]. rewrite new_table_table by done. by rewrite decide_True.
Qed.

(** The free pages keep their links. *)
Lemma new_table_free q : q ∈ free -> load32 m' q = load32 m q.
Proof.
  intros Hq. destruct new_page as (Hk & _ & _ & _). pose proof (PDX_range va).
  destruct (pt_free _ _ _ Hpt q) as (Hkq & Hqd & _); [by right|].
  assert (q <> r) as Hqr by (by intros ->).
  pose proof (kpages_apart _ _ Hkq Hk Hqr). pose proof (kpages_apart _ _ Hkq (pt_dir _ _ _ Hpt) Hqd).
  apply load32_ext. intros j Hj. apply new_table_mem; lia.
Qed.

End new_table.

(** ** The operations *)

Section data.

(** Pages in use, for other things than this page table. *)
Context (data : list Z).

(** The allocator and the page table are in order. *)
Record vm_ready (k : kernel) (pgdir : Z) (free : list Z) : Prop := {
  vr_kmem : kmem_ready k;
  vr_free : free_pages k free;
  vr_pt : pt_ok (k_mem k) pgdir (free ++ data);
  vr_nodup : NoDup (free ++ data)
}.

(** Tables are added, and nothing else of the machine but their memory and the
    list of free pages changes. *)
Record grows (pgdir : Z) (k k' : kernel) : Prop := {
  gr_frame : k' = set_k_mem (k_mem k') (set_k_freelist (k_freelist k') k);
  gr_tables : forall i t, 0 <= i < 1024 ->
    table (k_mem k) pgdir i = Some t -> table (k_mem k') pgdir i = Some t;
  gr_mem : forall x, outside (k_mem k') pgdir x -> k_mem k' x = k_mem k x
}.

#[export] Instance grows_preorder pgdir : PreOrder (grows pgdir).
Proof.
  split.
  - intros k. by split; [destruct k|..].
  - intros k1 k2 k3 [F12 T12 M12] [F23 T23 M23]. split.
    + rewrite F23, F12. by destruct k1.
    + intros i t Hi Ht. auto.
    + intros x Hx. rewrite M23, M12; [done| |done]. destruct Hx as [H1 H2]. split; [done|].
      intros i t Hi Ht. by apply (H2 i), T23.
Qed.

Lemma walkpgdir_eq pgdir va alloc e k :
  walkpgdir pgdir va alloc e k =
    match table (k_mem k) pgdir (PDX va) with
    | Some t => Ok (t + 4 * PTX va) e k
    | None =>
        if alloc then
          (pgtab <- kalloc ;;
           if pgtab =? 0 then ret 0 else
           mem_set pgtab 0 (Z.to_nat PGSIZE) ;;
           st32 (pgdir + 4 * PDX va) (Z.lor (Z.lor (Z.lor (v2p pgtab) PTE_P) PTE_W) PTE_U) ;;
           ret (pgtab + 4 * PTX va)) e k
        else Ok 0 e k
    end.
Proof.
  unfold walkpgdir. cbv zeta. unfold ld32 at 1. rewrite gets_eq. cbv beta. unfold table. cbv zeta.
  unfold present. destruct (nz _); [done|]. by destruct alloc.
Qed.

(** At most [n] pages were taken from [free]. *)
Definition taken (n : Z) (free free' : list Z) : Prop :=
  free' `suffix_of` free /\ Z.of_nat (length free) <= Z.of_nat (length free') + n.

Lemma taken_refl n free : 0 <= n -> taken n free free.
Proof. split; [done|lia]. Qed.

Lemma taken_trans n1 n2 free1 free2 free3 :
  taken n1 free1 free2 -> taken n2 free2 free3 -> taken (n1 + n2) free1 free3.
Proof. intros [H1 H2] [H3 H4]. split; [by etrans|lia]. Qed.

(** The pages that left the list of free pages became tables. *)
Definition kept (pgdir : Z) (k k' : kernel) (free free' : list Z) : Prop :=
  free ++ tables (k_mem k) pgdir ≡ₚ free' ++ tables (k_mem k') pgdir.

Lemma kept_refl pgdir k free : kept pgdir k k free free.
Proof. unfold kept. reflexivity. Qed.

Lemma kept_trans pgdir k1 k2 k3 free1 free2 free3 :
  kept pgdir k1 k2 free1 free2 -> kept pgdir k2 k3 free2 free3 -> kept pgdir k1 k3 free1 free3.
Proof. unfold kept. by etrans. Qed.

(** Only tables for the pages [lo] to [hi] may be new. *)
Definition within (pgdir lo hi : Z) (k k' : kernel) : Prop :=
  forall i, 0 <= i < 1024 -> i < lo / 1024 \/ hi / 1024 < i -> table (k_mem k') pgdir i = table (k_mem k) pgdir i.

Lemma within_mono pgdir lo hi lo1 hi1 k k' :
  within pgdir lo1 hi1 k k' -> lo <= lo1 -> hi1 <= hi -> within pgdir lo hi k k'.
Proof.
  intros H Hl Hh i Hi Ho. apply (Z.div_le_mono _ _ 1024) in Hl, Hh; [|lia..]. apply H; lia.
Qed.

Lemma within_trans pgdir lo hi lo1 hi1 lo2 hi2 k1 k2 k3 :
  within pgdir lo1 hi1 k1 k2 -> within pgdir lo2 hi2 k2 k3 ->
  lo <= lo1 -> lo <= lo2 -> hi1 <= hi -> hi2 <= hi -> within pgdir lo hi k1 k3.
Proof.
  intros H1 H2 Hl1 Hl2 Hh1 Hh2 i Hi Ho.
  apply (Z.div_le_mono _ _ 1024) in Hl1, Hl2, Hh1, Hh2; [|lia..]. rewrite H2, H1 by lia. done.
Qed.

(** [walkpgdir] with [alloc]: it fails only without free pages, and it changes no
    translation. *)
Lemma walk_alloc pgdir va k e free :
  vm_ready k pgdir free ->
  (walkpgdir pgdir va true e k = Ok 0 e k /\ free = []) \/
  exists t k' free', walkpgdir pgdir va true e k = Ok (t + 4 * PTX va) e k' /\
    table (k_mem k') pgdir (PDX va) = Some t /\ vm_ready k' pgdir free' /\ grows pgdir k k' /\
    taken 1 free free' /\ kept pgdir k k' free free' /\ within pgdir (vpn va) (vpn va) k k' /\
    forall x, translation (k_mem k') pgdir x = translation (k_mem k) pgdir x.
Proof.
  intros [Hk Hf Hp Hnd]. rewrite walkpgdir_eq.
  destruct (table (k_mem k) pgdir (PDX va)) as [t|] eqn:Et.
  { right. exists t, k, free. split_and!; try done; [by apply taken_refl|apply kept_refl]. }
  pose proof (kalloc_ok k e free Hk Hf) as Ha. destruct free as [|r rest].
  { left. rewrite (bind_Ok _ _ _ _ _ _ _ Ha). done. }
  right. destruct Ha as (fl & Ha & Hf'). rewrite (bind_Ok _ _ _ _ _ _ _ Ha).
  destruct (pt_free _ _ _ Hp r) as (Hkr & Hrd & _); [by left|].
  assert (r =? 0 = false) as -> by (apply Z.eqb_neq; destruct Hkr; unfold KERNBASE in *; lia).
  pose proof (NoDup_cons_1_1 _ _ Hnd) as Hnr. pose proof (NoDup_cons_1_2 _ _ Hnd) as Hnd'. unfold mem_set, st32. rewrite modify_eq, modify_eq. cbn [k_mem set_k_mem].
  eexists r, _, rest. split; [reflexivity|]. cbn [k_mem set_k_mem set_k_freelist].
  change (Z.to_nat PGSIZE) with (Z.to_nat 4096). split_and!.
  - rewrite (new_table_table _ _ _ _ (rest ++ data)) by (done || apply PDX_range). by rewrite decide_True.
  - split; [done| |by apply new_table_ok|done].
    apply (free_pages_mem (set_k_freelist fl k)); [|done]. intros q Hq. eapply (new_table_free _ _ _ _ (rest ++ data)); [done|done|].
    apply elem_of_app. by left.
  - split; [by destruct k| |].
    + intros i t Hi Ht. cbn. rewrite (new_table_table _ _ _ _ (rest ++ data)) by done.
      case_decide; [|done]. subst. congruence.
    + intros x Hx. cbn in *. by eapply new_table_frame.
  - split; [by exists [r]|cbn; lia].
  - unfold kept. cbn [k_mem set_k_mem set_k_freelist app]. symmetry. rewrite (Permutation_middle rest). f_equiv.
    apply (tables_new _ _ _ (PDX va)); [apply PDX_range|done|].
    intros i Hi. by apply (new_table_table _ _ _ _ (rest ++ data)).
  - intros i Hi Ho. cbn [k_mem set_k_mem set_k_freelist]. rewrite <- PDX_eq in Ho.
    rewrite (new_table_table _ _ _ _ (rest ++ data)) by done. by rewrite decide_False by lia.
  - intros x. by eapply new_table_translation.
Qed.

Lemma pte_store k pgdir free t va v :
  vm_ready k pgdir free -> table (k_mem k) pgdir (PDX va) = Some t ->
  let k' := set_k_mem (store32 (k_mem k) (t + 4 * PTX va) v) k in
  vm_ready k' pgdir free /\ grows pgdir k k' /\
  forall i, 0 <= i < 1024 -> table (k_mem k') pgdir i = table (k_mem k) pgdir i.
Proof.
  intros [Hk Hf Hp Hnd] Ht k'. pose proof (PTX_range va). pose proof (PDX_range va).
  destruct (pt_tab _ _ _ Hp _ _ (PDX_range va) Ht) as [Hkt _].
  assert (forall i, 0 <= i < 1024 -> table (k_mem k') pgdir i = table (k_mem k) pgdir i) as Htab
    by (intros i Hi; by eapply table_store).
  split; [|split; [|done]].
  - split; [done| |by eapply pt_ok_ext|done].
    apply free_pages_mem; [|done]. intros q Hq.
    destruct (pt_free _ _ _ Hp q) as (Hkq & _ & Hqt); [apply elem_of_app; by left|].
    assert (q <> t) as Hne by (intros ->; by eapply Hqt).
    pose proof (kpages_apart _ _ Hkq Hkt Hne). apply load32_store32_ne. lia.
  - split; [by destruct k| |].
    + intros i t' Hi Ht'. by rewrite Htab.
    + intros x [_ Hx]. cbn. apply store32_ne. specialize (Hx (PDX va) t).
      rewrite Htab in Hx by done. specialize (Hx (PDX_range va) Ht). lia.
Qed.

(** The entry [mappages] writes for page [i] of its range. *)
Definition map_entry (pa perm i : Z) : Z := pa + 4096 * i + Z.lor perm PTE_P.

Lemma bind_step {A B} (m m' : K A) (f : A -> K B) e k k' : m e k = m' e k' -> bind m f e k = bind m' f e k'.
Proof. intros H. unfold bind. by rewrite H. Qed.

(** One iteration of [mappages] for a page that is not mapped. *)
Lemma map_one {B} pgdir a pa perm k e free (fail : B) (g : K B) :
  vm_ready k pgdir free -> translation (k_mem k) pgdir a = None ->
  pa mod 4096 = 0 -> 0 <= pa < 4294967296 -> 0 <= perm < 4096 ->
  let body :=
    (pte <- walkpgdir pgdir a true ;;
     if pte =? 0 then ret fail else
     v <- ld32 pte ;;
     if nz (Z.land v PTE_P) then panic "remap" else
     st32 pte (Z.lor (Z.lor pa perm) PTE_P) ;;
     g) in
  (body e k = Ok fail e k /\ free = []) \/
  exists k' free', body e k = g e k' /\ vm_ready k' pgdir free' /\ taken 1 free free' /\ grows pgdir k k' /\
    kept pgdir k k' free free' /\ within pgdir (vpn a) (vpn a) k k' /\
    forall x, translation (k_mem k') pgdir x =
      if decide (vpn x = vpn a) then Some (map_entry pa perm 0) else translation (k_mem k) pgdir x.
Proof.
  intros Hr Hun Ha Hp Hperm body. unfold body.
  destruct (walk_alloc pgdir a k e free Hr) as [[Hw ->]|(t & k1 & free1 & Hw & Ht & Hr1 & Hg1 & Hs1 & Hkp1 & Hwi1 & Htr1)].
  { left. by rewrite (bind_Ok _ _ _ _ _ _ _ Hw). }
  right. rewrite (bind_Ok _ _ _ _ _ _ _ Hw).
  destruct (pt_tab _ _ _ (vr_pt _ _ _ Hr1) _ _ (PDX_range a) Ht) as [[_ Hkt] _].
  pose proof (PTX_range a). unfold KERNBASE in Hkt. rewrite (proj2 (Z.eqb_neq _ _)) by lia.
  unfold ld32, st32. rewrite gets_eq. cbv beta. rewrite <- Htr1 in Hun. unfold translation in Hun.
  rewrite Ht in Hun. cbn [mbind option_bind] in Hun. cbv zeta in Hun. unfold present in Hun.
  destruct (nz _); [done|]. rewrite modify_eq.
  destruct (flags_present perm Hperm) as [Hfl Hodd].
  destruct (entry_fields pa (Z.lor perm PTE_P) Ha Hp Hfl) as (Hlor & _ & _ & Hu).
  destruct (pte_store k1 pgdir free1 t a (Z.lor (Z.lor pa perm) PTE_P) Hr1 Ht) as (Hr2 & Hg2 & Htb2).
  eexists _, free1. split; [reflexivity|]. split; [exact Hr2|]. split; [done|]. split; [by etrans|].
  split; [unfold kept in *; by rewrite (tables_ext _ _ _ Htb2)|].
  split; [intros i Hi Ho; by rewrite Htb2, Hwi1|].
  intros x. cbn [k_mem set_k_mem]. rewrite (translation_store _ _ _ (vr_pt _ _ _ Hr1)) by done.
  rewrite <- Z.lor_assoc, Hlor, Hu, present_odd, Z.odd_add, Hodd, Htr1.
  replace (Z.odd pa) with false.
  2:{ pose proof (Z.div_mod pa 4096 ltac:(lia)) as Hd. rewrite Ha in Hd.
      replace pa with (2 * (2048 * (pa / 4096))) by lia. by rewrite Z.odd_mul. }
  cbn [xorb]. unfold map_entry. by replace (pa + 4096 * 0) with pa by lia.
Qed.

(** The loop of [mappages] at page [n], with [c] pages behind it. *)
Lemma mappages_loop c fuel pgdir n pa perm k e free :
  (c < fuel)%nat -> vm_ready k pgdir free -> 0 <= n -> n + Z.of_nat c < 1048576 ->
  pa mod 4096 = 0 -> 0 <= pa -> pa + 4096 * Z.of_nat c < 4294967296 -> 0 <= perm < 4096 ->
  (forall x, n <= vpn x <= n + Z.of_nat c -> translation (k_mem k) pgdir x = None) ->
  exists r k' free' done, loop_fuel fuel (fun '(a, pa) =>
      pte <- walkpgdir pgdir a true ;;
      if pte =? 0 then ret (inr (-1)) else
      v <- ld32 pte ;;
      if nz (Z.land v PTE_P) then panic "remap" else
      st32 pte (Z.lor (Z.lor pa perm) PTE_P) ;;
      if a =? 4096 * (n + Z.of_nat c) then ret (inr 0) else
      ret (inl (u32 (a + PGSIZE), u32 (pa + PGSIZE)))) (4096 * n, pa) e k = Ok r e k' /\
    ((r = 0 /\ done = Z.of_nat c + 1) \/ (r = -1 /\ 0 <= done <= Z.of_nat c /\ free' = [])) /\
    vm_ready k' pgdir free' /\ taken done free free' /\ grows pgdir k k' /\ kept pgdir k k' free free' /\
    within pgdir n (n + Z.of_nat c) k k' /\
    forall x, translation (k_mem k') pgdir x =
      if decide (n <= vpn x < n + done) then Some (map_entry pa perm (vpn x - n))
      else translation (k_mem k) pgdir x.
Proof.
  revert c n pa k free. induction fuel as [|fuel IH]; intros c n pa k free Hfuel Hr Hn Hc Ha Hp Hpc Hperm Hun; [lia|].
  cbn [loop_fuel]. assert (vpn (4096 * n) = n) as Hvn by (apply vpn_page; lia).
  destruct (map_one pgdir (4096 * n) pa perm k e free (inr (-1))
    (if 4096 * n =? 4096 * (n + Z.of_nat c) then ret (inr 0)
     else ret (inl (u32 (4096 * n + PGSIZE), u32 (pa + PGSIZE))))) as
    [[E ->]|(k1 & free1 & E & Hr1 & Hs1 & Hg1 & Hkp1 & Hwi1 & Htr1)]; [done|apply Hun; lia|done|lia|done|..].
  { exists (-1), k, [], 0. rewrite (bind_Ok _ _ _ _ _ _ _ E). split; [done|]. split; [right; split_and!; done || lia|].
    split_and!; [done|by apply taken_refl|done|apply kept_refl|done|]. intros x. by rewrite decide_False by lia. }
  rewrite Hvn in Htr1, Hwi1. rewrite (bind_step _ _ _ _ _ _ E). destruct c as [|c].
  - rewrite Z.add_0_r, Z.eqb_refl, ret_eq. exists 0, k1, free1, 1.
    split; [done|]. split; [by left|]. do 5 (split; [done|]). intros x. rewrite Htr1.
    destruct (decide (vpn x = n)) as [Hx|Hx]; [|by rewrite decide_False by lia].
    rewrite decide_True by lia. by replace (vpn x - n) with 0 by lia.
  - rewrite (proj2 (Z.eqb_neq _ _)), ret_eq by lia. cbn beta iota.
    unfold PGSIZE. rewrite !u32_small by lia.
    replace (4096 * n + 4096) with (4096 * (n + 1)) by lia.
    replace (n + Z.of_nat (S c)) with ((n + 1) + Z.of_nat c) by lia.
    destruct (IH c (n + 1) (pa + 4096) k1 free1) as (r & k2 & free2 & d & E2 & Hd & Hr2 & Hs2 & Hg2 & Hkp2 & Hwi2 & Htr2); try lia; try done.
    { rewrite <- Z.add_mod_idemp_r by lia. change (4096 mod 4096) with 0. by rewrite Z.add_0_r. }
    { intros x Hx. rewrite Htr1, decide_False by lia. apply Hun. lia. }
    exists r, k2, free2, (d + 1). split; [exact E2|]. split; [destruct Hd as [[? ?]|(? & ? & ?)]; [left|right]; split_and!; done || lia|].
    split; [done|]. split; [rewrite Z.add_comm; by eapply taken_trans|]. split; [by etrans|]. split; [by eapply kept_trans|].
    split; [eapply (within_trans _ _ _ _ _ _ _ _ _ _ Hwi1 Hwi2); lia|].
    intros x. rewrite Htr2, Htr1. destruct (decide (vpn x = n)) as [Hx|Hx].
    + rewrite decide_False, decide_True by lia. by replace (vpn x - n) with 0 by lia.
    + destruct (decide (n + 1 <= vpn x < n + 1 + d)) as [Hl|Hl].
      * rewrite decide_True by lia. f_equal. unfold map_entry. lia.
      * by rewrite decide_False by lia.
Qed.

Lemma mappages_ok pgdir va size pa perm k e free :
  vm_ready k pgdir free -> 0 <= va -> 0 < size -> va + size <= 2 ^ 32 ->
  pa mod 4096 = 0 -> 0 <= pa -> pa + 4096 * (vpn (va + size - 1) - vpn va) < 2 ^ 32 -> 0 <= perm < 4096 ->
  (forall x, vpn va <= vpn x <= vpn (va + size - 1) -> translation (k_mem k) pgdir x = None) ->
  exists r k' free' n, mappages pgdir va size pa perm e k = Ok r e k' /\
    ((r = 0 /\ n = vpn (va + size - 1) - vpn va + 1) \/
     (r = -1 /\ 0 <= n <= vpn (va + size - 1) - vpn va /\ free' = [])) /\
    vm_ready k' pgdir free' /\ taken n free free' /\ grows pgdir k k' /\ kept pgdir k k' free free' /\
    within pgdir (vpn va) (vpn (va + size - 1)) k k' /\
    forall x, translation (k_mem k') pgdir x =
      if decide (vpn va <= vpn x < vpn va + n) then Some (map_entry pa perm (vpn x - vpn va))
      else translation (k_mem k) pgdir x.
Proof.
  intros Hr Hva Hsz Hend Ha Hp Hpe Hperm Hun. unfold mappages. cbv zeta.
  rewrite !PGROUNDDOWN_vpn, (u32_small (va + size - 1)) by lia.
  pose proof (vpn_range va). pose proof (vpn_range (va + size - 1)).
  assert (vpn va <= vpn (va + size - 1)) as Hle
    by (unfold vpn; rewrite !u32_small by lia; apply Z.div_le_mono; lia).
  set (c := Z.to_nat (vpn (va + size - 1) - vpn va)).
  replace (vpn (va + size - 1)) with (vpn va + Z.of_nat c) in * by lia.
  replace (u32 _ / PGSIZE) with (Z.of_nat c).
  2:{ rewrite u32_small by lia. unfold PGSIZE. apply Z.div_unique_exact; lia. }
  destruct (mappages_loop c (S (Z.to_nat (Z.of_nat c))) pgdir (vpn va) pa perm k e free) as
    (r & k' & free' & n & E & Hd & H'); try lia; try done.
  exists r, k', free', n. split; [exact E|]. split; [|done].
  destruct Hd as [[? ?]|(? & ? & ?)]; [left|right]; split_and!; done || lia.
Qed.

(** C20: [mappages] maps exactly the pages of its range.  For pages that were not mapped, it
    returns; on success each page of the range is translated to the next
    physical page with the permissions asked for, and the failure, -1, happens
    only when the allocator has no page left, with a part of the range mapped.
    Either way every other address keeps its translation, memory outside of the
    page table keeps its contents, and every page that left the list of free
    pages is a table. *)
Theorem mappages_maps pgdir va size pa perm k e free :
  vm_ready k pgdir free -> 0 <= va -> 0 < size -> va + size <= 2 ^ 32 ->
  pa mod 4096 = 0 -> 0 <= pa -> pa + 4096 * (vpn (va + size - 1) - vpn va) < 2 ^ 32 -> 0 <= perm < 4096 ->
  (forall x, vpn va <= vpn x <= vpn (va + size - 1) -> translation (k_mem k) pgdir x = None) ->
  exists r k' free' n, mappages pgdir va size pa perm e k = Ok r e k' /\
    ((r = 0 /\ n = vpn (va + size - 1) - vpn va + 1) \/
     (r = -1 /\ 0 <= n <= vpn (va + size - 1) - vpn va /\ free' = [])) /\
    vm_ready k' pgdir free' /\ taken n free free' /\ grows pgdir k k' /\ kept pgdir k k' free free' /\
    within pgdir (vpn va) (vpn (va + size - 1)) k k' /\
    forall x, translation (k_mem k') pgdir x =
      if decide (vpn va <= vpn x < vpn va + n) then Some (map_entry pa perm (vpn x - vpn va))
      else translation (k_mem k) pgdir x.
Proof. apply mappages_ok. Qed.

End data.

(** ** An example: an empty directory and two free pages *)

Definition vm_machine : kernel :=
  set_k_freelist 0x80301000
    (set_k_mem (store32 (fun _ => 0) 0x80301000 0x80302000) Demo.machine).

Lemma vm_machine_empty i : 0 <= i < 1024 -> table (k_mem vm_machine) 0x80300000 i = None.
Proof.
  intros Hi. unfold table. cbn [vm_machine k_mem set_k_mem set_k_freelist].
  by rewrite load32_store32_ne by lia.
Qed.

Lemma vm_machine_ready : vm_ready [] vm_machine 0x80300000 [0x80301000; 0x80302000].
Proof.
  assert (NoDup [0x80301000; 0x80302000]) as Hnd
    by (constructor; [intros Hin%list_elem_of_singleton; lia|apply NoDup_singleton]).
  split; [..|done].
  - split; [intros _; exists "kmem"%string; reflexivity|]. split; [cbn; lia|]. split; [done|cbn; lia].
  - split; [by vm_compute|by repeat constructor|done].
  - split.
    + by vm_compute.
    + intros i t Hi. by rewrite vm_machine_empty.
    + intros i j t Hi _. by rewrite vm_machine_empty.
    + intros q Hq. split_and!; [..|intros i Hi; by rewrite vm_machine_empty];
        (apply elem_of_cons in Hq as [->|Hq%list_elem_of_singleton]; [|subst q]); by vm_compute.
Qed.

Lemma mappages_maps_witness :
  exists r k' free' n, mappages 0x80300000 0x1000 8192 0x5000 6 [] vm_machine = Ok r [] k' /\
    ((r = 0 /\ n = 2) \/ (r = -1 /\ 0 <= n <= 1 /\ free' = [])) /\
    vm_ready [] k' 0x80300000 free' /\ taken n [0x80301000; 0x80302000] free' /\
    grows 0x80300000 vm_machine k' /\ kept 0x80300000 vm_machine k' [0x80301000; 0x80302000] free' /\
    within 0x80300000 1 2 vm_machine k' /\
    forall x, translation (k_mem k') 0x80300000 x =
      if decide (1 <= vpn x < 1 + n) then Some (map_entry 0x5000 6 (vpn x - 1))
      else translation (k_mem vm_machine) 0x80300000 x.
Proof.
  apply (mappages_maps [] 0x80300000 0x1000 8192 0x5000 6 vm_machine [] [0x80301000; 0x80302000]).
  - apply vm_machine_ready.
  - lia.
  - lia.
  - lia.
  - reflexivity.
  - lia.
  - vm_compute. reflexivity.
  - lia.
  - intros x _. unfold translation. by rewrite vm_machine_empty by apply PDX_range.
Defined.

(** ** Growing a process *)

(** A change of a page that is not part of the page table. *)
Lemma page_store m m' pgdir free p :
  pt_ok m pgdir free -> p ∈ free -> (forall x, x < p \/ p + 4096 <= x -> m' x = m x) ->
  (forall i, 0 <= i < 1024 -> table m' pgdir i = table m pgdir i) /\
  (forall x, translation m' pgdir x = translation m pgdir x).
Proof.
  intros Hpt Hp Hm. destruct (pt_free _ _ _ Hpt p Hp) as (Hk & Hne & Hnt).
  pose proof (kpages_apart _ _ Hk (pt_dir _ _ _ Hpt) Hne) as Hd.
  assert (forall i, 0 <= i < 1024 -> table m' pgdir i = table m pgdir i) as Htab.
  { intros i Hi. apply table_ext; [done|]. intros x Hx. apply Hm. lia. }
  split; [done|]. intros x. unfold translation. rewrite Htab by apply PDX_range.
  destruct (table m pgdir (PDX x)) as [t|] eqn:Et; [|done]. cbn [mbind option_bind]. cbv zeta.
  destruct (pt_tab _ _ _ Hpt _ _ (PDX_range x) Et) as [Hkt _]. pose proof (PTX_range x).
  assert (t <> p) as Htp by (intros ->; by apply (Hnt _ (PDX_range x))).
  pose proof (kpages_apart _ _ Hkt Hk Htp).
  rewrite (load32_ext m' m); [done|]. intros i Hi. apply Hm. lia.
Qed.

(** A page that is not part of the page table is outside of it. *)
Lemma page_outside m pgdir free p i :
  pt_ok m pgdir free -> p ∈ free -> 0 <= i < 4096 -> outside m pgdir (p + i).
Proof.
  intros Hpt Hp Hi. destruct (pt_free _ _ _ Hpt p Hp) as (Hk & Hne & Hnt).
  pose proof (kpages_apart _ _ Hk (pt_dir _ _ _ Hpt) Hne). split; [lia|].
  intros j t Hj Ht. destruct (pt_tab _ _ _ Hpt _ _ Hj Ht) as [Hkt _].
  assert (p <> t) as Hpt' by (intros ->; by apply (Hnt j)). pose proof (kpages_apart _ _ Hk Hkt Hpt'). lia.
Qed.

Lemma outside_before pgdir k k' x : grows pgdir k k' -> outside (k_mem k') pgdir x -> outside (k_mem k) pgdir x.
Proof. intros [_ Ht _] [H1 H2]. split; [done|]. intros i t Hi Hi'. by eapply H2, Ht. Qed.

Definition zero_page (p : Z) (k : kernel) : kernel := set_k_mem (memset (k_mem k) p 0 (Z.to_nat 4096)) k.

(** The first free page, taken for other use and written to. *)
Lemma use_page data k e pgdir p rest m :
  vm_ready data k pgdir (p :: rest) -> (forall x, x < p \/ p + 4096 <= x -> m x = k_mem k x) ->
  exists fl, kalloc e k = Ok p e (set_k_freelist fl k) /\ kpage p /\
    vm_ready (p :: data) (set_k_mem m (set_k_freelist fl k)) pgdir rest /\
    (forall i, 0 <= i < 1024 -> table m pgdir i = table (k_mem k) pgdir i) /\
    (forall x, translation m pgdir x = translation (k_mem k) pgdir x).
Proof.
  intros [Hk Hf Hp Hnd] Hm. destruct (kalloc_ok k e (p :: rest) Hk Hf) as (fl & Ha & Hf').
  destruct (page_store _ _ _ _ p Hp ltac:(by left) Hm) as [Htab Htr].
  destruct (pt_free _ _ _ Hp p ltac:(by left)) as (Hkp & _ & _).
  exists fl. split_and!; try done.
  split; [done|..].
  - apply (free_pages_mem (set_k_freelist fl k)); [|done]. intros q Hq. cbn.
    destruct (pt_free _ _ _ Hp q) as (Hkq & _); [right; apply elem_of_app; by left|].
    assert (q <> p) as Hqp
      by (intros ->; apply (NoDup_cons_1_1 _ _ Hnd), elem_of_app; by left).
    pose proof (kpages_apart _ _ Hkq Hkp Hqp). apply load32_ext. intros i Hi. apply Hm. lia.
  - eapply pt_ok_ext; [exact Hp|done|]. intros q. rewrite <- Permutation_middle. done.
  - rewrite <- Permutation_middle. done.
Qed.

Lemma perms_entry p : map_entry (v2p p) (Z.lor PTE_W PTE_U) 0 = v2p p + 7.
Proof. unfold map_entry. change (Z.lor (Z.lor PTE_W PTE_U) PTE_P) with 7. lia. Qed.

(** From [k] to [k'], the pages [new] were taken, cleared and mapped at page [j] on. *)
Record mapped_new (pgdir j : Z) (new : list Z) (k k' : kernel) : Prop := {
  mn_frame : k' = set_k_mem (k_mem k') (set_k_freelist (k_freelist k') k);
  mn_tables : forall i t, 0 <= i < 1024 ->
    table (k_mem k) pgdir i = Some t -> table (k_mem k') pgdir i = Some t;
  mn_mem : forall x, outside (k_mem k') pgdir x -> Forall (fun p => x < p \/ p + 4096 <= x) new ->
    k_mem k' x = k_mem k x;
  mn_zero : forall p i, p ∈ new -> 0 <= i < 4096 -> k_mem k' (p + i) = 0;
  mn_map : forall x, translation (k_mem k') pgdir x =
    match (if decide (j <= vpn x) then new !! Z.to_nat (vpn x - j) else None) with
    | Some p => Some (v2p p + 7)
    | None => translation (k_mem k) pgdir x
    end
}.

(** One page more, in front. *)
Lemma mapped_new_cons data pgdir j p new fl k k2 k' free' :
  let k1 := zero_page p (set_k_freelist fl k) in
  vm_ready (reverse (p :: new) ++ data) k' pgdir free' ->
  (forall i, 0 <= i < 1024 -> table (k_mem k1) pgdir i = table (k_mem k) pgdir i) ->
  (forall x, translation (k_mem k1) pgdir x = translation (k_mem k) pgdir x) ->
  grows pgdir k1 k2 ->
  (forall x, translation (k_mem k2) pgdir x =
     if decide (vpn x = j) then Some (v2p p + 7) else translation (k_mem k1) pgdir x) ->
  mapped_new pgdir (j + 1) new k2 k' -> mapped_new pgdir j (p :: new) k k'.
Proof.
  intros k1 Hr Htab1 Htr1 Hg2 Htr2 [Hfr Htabs Hmem Hz Hmap].
  assert (forall x, outside (k_mem k') pgdir x -> outside (k_mem k2) pgdir x) as Hout.
  { intros x [H1 H2]. split; [done|]. intros i t Hi Hi'. by eapply H2, Htabs. }
  assert (forall x, outside (k_mem k') pgdir x -> Forall (fun p => x < p \/ p + 4096 <= x) new ->
    k_mem k' x = k_mem k1 x) as Hmem'.
  { intros x Hx Hnew. rewrite Hmem, (gr_mem _ _ _ Hg2) by auto. done. }
  destruct Hr as [_ _ Hp Hnd]. rewrite reverse_cons, <- app_assoc in Hp, Hnd. split.
  - rewrite Hfr, (gr_frame _ _ _ Hg2). by destruct k.
  - intros i t Hi Ht. apply Htabs, (gr_tables _ _ _ Hg2); [done..|]. by rewrite Htab1.
  - intros x Hx [Hxp Hnew]%Forall_cons. rewrite Hmem' by done. unfold k1. cbn. apply memset_ne; lia.
  - intros q i [->|Hq]%elem_of_cons Hi; [|by apply Hz].
    assert (p ∈ free' ++ reverse new ++ [p] ++ data) as Hpin
      by (rewrite !elem_of_app, list_elem_of_singleton; tauto).
    rewrite Hmem'.
    + unfold k1. cbn. rewrite memset_spec, (proj2 (Z.leb_le _ _)), (proj2 (Z.ltb_lt _ _)) by lia. done.
    + by eapply page_outside.
    + apply Forall_forall. intros q Hq.
      destruct (pt_free _ _ _ Hp q) as (Hkq & _); [rewrite !elem_of_app, elem_of_reverse; tauto|].
      destruct (pt_free _ _ _ Hp p Hpin) as (Hkp & _).
      assert (q <> p) as Hne.
      { intros ->. apply NoDup_app in Hnd as (_ & _ & Hnd). apply NoDup_app in Hnd as (_ & Hnd & _).
        apply (Hnd p); [by apply elem_of_reverse|by left]. }
      pose proof (kpages_apart _ _ Hkq Hkp Hne). lia.
  - intros x. rewrite Hmap, Htr2, Htr1. destruct (decide (vpn x = j)) as [Hx|Hx].
    + rewrite decide_False, decide_True by lia. replace (vpn x - j) with 0 by lia. done.
    + destruct (decide (j <= vpn x)) as [Hl|Hl].
      * rewrite decide_True by lia. by replace (Z.to_nat (vpn x - j)) with (S (Z.to_nat (vpn x - (j + 1)))) by lia.
      * by rewrite decide_False by lia.
Qed.

(** The loop of [allocuvm] at page [j], with [c] pages to come. *)
Lemma allocuvm_loop c fuel pgdir newsz oldsz j k e free data :
  (c < fuel)%nat -> vm_ready data k pgdir free -> (2 * c <= length free)%nat ->
  0 <= j -> 4096 * (j + Z.of_nat c - 1) < newsz <= 4096 * (j + Z.of_nat c) -> newsz < KERNBASE ->
  (forall x, j <= vpn x < j + Z.of_nat c -> translation (k_mem k) pgdir x = None) ->
  exists k' free' new, loop_fuel fuel (fun a =>
      if negb (a <? newsz) then ret (inr newsz) else
      mem <- kalloc ;;
      if mem =? 0 then
        cprintf "allocuvm out of memory
" [] ;;
        deallocuvm pgdir newsz oldsz ;;
        ret (inr 0)
      else
        mem_set mem 0 (Z.to_nat PGSIZE) ;;
        mappages pgdir a PGSIZE (v2p mem) (Z.lor PTE_W PTE_U) ;;
        ret (inl (a + PGSIZE))) (4096 * j) e k = Ok newsz e k' /\
    length new = c /\ vm_ready (reverse new ++ data) k' pgdir free' /\ mapped_new pgdir j new k k'.
Proof.
  revert fuel j k free data. induction c as [|c IH]; intros fuel j k free data Hfuel Hr Hlen Hj Hsz Hkb Hun;
    (destruct fuel as [|fuel]; [lia|]); cbn [loop_fuel].
  { rewrite (proj2 (Z.ltb_ge _ _)) by lia. cbn [negb]. rewrite ret_eq. exists k, free, [].
    split_and!; try done. split; try done; [by destruct k|by intros ? ? ?%not_elem_of_nil|]. intros x. by case_decide. }
  rewrite (proj2 (Z.ltb_lt _ _)) by lia. cbn [negb]. destruct free as [|p rest]; [cbn in Hlen; lia|].
  destruct (use_page data k e pgdir p rest (memset (k_mem k) p 0 (Z.to_nat 4096)) Hr) as (fl & Ha & Hkp & Hr1 & Htab1 & Htr1).
  { intros x Hx. apply memset_ne. lia. }
  rewrite bind_bind_eq, (bind_Ok _ _ _ _ _ _ _ Ha).
  assert (p =? 0 = false) as -> by (apply Z.eqb_neq; destruct Hkp; unfold KERNBASE in *; lia).
  unfold mem_set at 1. rewrite bind_bind_eq, modify_eq. change (Z.to_nat PGSIZE) with (Z.to_nat 4096).
  change (set_k_mem (memset _ _ _ _) (set_k_freelist fl k)) with (zero_page p (set_k_freelist fl k)) in *.
  set (k1 := zero_page p (set_k_freelist fl k)) in *.
  unfold KERNBASE in Hkb. assert (vpn (4096 * j) = j) as Hvj by (apply vpn_page; lia).
  assert (vpn (4096 * j + PGSIZE - 1) = j) as Hvj'.
  { unfold vpn, PGSIZE. rewrite u32_small by lia. symmetry. apply (Z.div_unique _ _ _ 4095); lia. }
  destruct (kpage_v2p p Hkp) as [Hv2p Hv2p'].
  destruct (mappages_ok (p :: data) pgdir (4096 * j) PGSIZE (v2p p) (Z.lor PTE_W PTE_U) k1 e rest) as
    (r & k2 & free2 & n & E2 & Hn & Hr2 & Htk & Hg2 & _ & _ & Htr2);
    rewrite ?Hvj', ?Hvj; unfold PGSIZE; try (cbn; lia); try done.
  { intros x Hx. unfold k1. cbn. rewrite Htr1. apply Hun. lia. }
  rewrite bind_bind_eq, (bind_Ok _ _ _ _ _ _ _ E2), ret_eq. rewrite Hvj', Hvj in *.
  assert (n = 1) as ->. { destruct Hn as [[_ ?]|(_ & ? & ->)]; [lia|]. destruct Htk as [_ Htk]. cbn in Htk, Hlen. lia. }
  unfold PGSIZE. replace (4096 * j + 4096) with (4096 * (j + 1)) by lia.
  destruct (IH fuel (j + 1) k2 free2 (p :: data)) as
    (k' & free' & new & E & Hl & Hr' & Hnew); try lia; try done.
  { destruct Htk as [_ Htk]. cbn in Hlen. lia. }
  { intros x Hx. rewrite Htr2, decide_False by lia. unfold k1. cbn. rewrite Htr1. apply Hun. lia. }
  exists k', free', (p :: new). split; [exact E|]. rewrite reverse_cons, <- app_assoc. cbn [length].
  split; [lia|]. split; [done|].
  eapply (mapped_new_cons data pgdir j p new fl k k2); try done.
  - by rewrite reverse_cons, <- app_assoc.
  - intros x. rewrite Htr2, <- perms_entry. destruct (decide (vpn x = j)) as [Hx|Hx].
    + rewrite decide_True by lia. by replace (vpn x - j) with 0 by lia.
    + by rewrite decide_False by lia.
Qed.

Lemma PGROUNDUP_vpn sz : PGROUNDUP sz = 4096 * vpn (sz + 4095).
Proof. unfold PGROUNDUP, PGSIZE. replace (sz + 4096 - 1) with (sz + 4095) by lia. apply land_high. Qed.

(** C21: [allocuvm] grows a process by fresh zeroed memory.  With enough free pages (one for
    each new page and at most one for a table each) it returns the new size;
    each page between the old and the new size is translated to a page of its
    own from the allocator, writable and open to the user, filled with zeros;
    every other address keeps its translation, and other memory its contents. *)
Theorem allocuvm_maps data pgdir oldsz newsz k e free :
  vm_ready data k pgdir free -> 0 <= oldsz <= newsz -> newsz < KERNBASE ->
  let first := vpn (oldsz + 4095) in
  let c := Z.to_nat (vpn (newsz + 4095) - first) in
  (2 * c <= length free)%nat ->
  (forall x, first <= vpn x < vpn (newsz + 4095) -> translation (k_mem k) pgdir x = None) ->
  exists k' free' new, allocuvm pgdir oldsz newsz e k = Ok newsz e k' /\
    length new = c /\ vm_ready (reverse new ++ data) k' pgdir free' /\ mapped_new pgdir first new k k'.
Proof.
  intros Hr Hsz Hkb first c Hlen Hun. unfold KERNBASE in Hkb. unfold allocuvm.
  rewrite (proj2 (Z.leb_gt _ _)), (proj2 (Z.ltb_ge _ _)) by (unfold KERNBASE; lia).
  rewrite PGROUNDUP_vpn. fold first.
  assert (first <= vpn (newsz + 4095)) as Hle
    by (unfold first, vpn; rewrite !u32_small by lia; apply Z.div_le_mono; lia).
  assert (4096 * (vpn (newsz + 4095) - 1) < newsz <= 4096 * vpn (newsz + 4095)) as Hn.
  { unfold vpn. rewrite u32_small by lia. pose proof (Z.div_mod (newsz + 4095) 4096 ltac:(lia)).
    pose proof (Z.mod_pos_bound (newsz + 4095) 4096). lia. }
  apply (allocuvm_loop c _ _ _ _ _ _ _ free); try done.
  - unfold c, pages_below, PGSIZE. pose proof (vpn_range (oldsz + 4095)). fold first in H.
    pose proof (Z.div_mod newsz 4096 ltac:(lia)). pose proof (Z.mod_pos_bound newsz 4096). lia.
  - apply vpn_range.
  - unfold c. rewrite Z2Nat.id by lia. replace (first + (vpn (newsz + 4095) - first)) with (vpn (newsz + 4095)) by lia. done.
  - intros x Hx. apply Hun. unfold c in Hx. lia.
Qed.

Lemma allocuvm_maps_witness :
  exists k' free' new, allocuvm 0x80300000 0 4096 [] vm_machine = Ok 4096 [] k' /\
    length new = 1%nat /\ vm_ready (reverse new ++ []) k' 0x80300000 free' /\
    mapped_new 0x80300000 0 new vm_machine k'.
Proof.
  apply (allocuvm_maps [] 0x80300000 0 4096 vm_machine [] [0x80301000; 0x80302000]).
  - apply vm_machine_ready.
  - lia.
  - unfold KERNBASE. lia.
  - vm_compute. lia.
  - intros x _. unfold translation. by rewrite vm_machine_empty by apply PDX_range.
Defined.


End Pagetable.
