(* ===== verification/Uvm.v ===== *)
(** Address spaces: what [setupkvm], [copyuvm], [deallocuvm] and [freevm] of vm.c
    make of page tables and of the list of free pages. *)

From S2P Require Import Prelude Bytes Machine Demo Cstring Spinlock Consout Kalloc Sleep Disk Fs Vm Pagetable.
Import Cstring Spinlock Consout Kalloc Vm Pagetable.

Module Uvm.

(** ** The kernel's mappings *)

(** The entry that a list of mappings like [kmap] has for an address. *)
Fixpoint entry_of (ms : list (Z * Z * Z * Z)) (x : Z) : option Z :=
  match ms with
  | [] => None
  | (virt, phys_start, phys_end, perm) :: ms =>
      if decide (vpn virt <= vpn x <= vpn (virt + u32 (phys_end - phys_start) - 1))
      then Some (map_entry phys_start perm (vpn x - vpn virt))
      else entry_of ms x
  end.

(** Mappings of whole pages, in the order of their addresses from page [lo] on. *)
Fixpoint segs_ok (lo : Z) (ms : list (Z * Z * Z * Z)) : Prop :=
  match ms with
  | [] => True
  | (virt, phys_start, phys_end, perm) :: ms =>
      let size := u32 (phys_end - phys_start) in
      let last := vpn (virt + size - 1) in
      lo <= vpn virt /\ 0 <= virt /\ 0 < size /\ virt + size <= 2 ^ 32 /\
      phys_start mod 4096 = 0 /\ 0 <= phys_start /\ phys_start + 4096 * (last - vpn virt) < 2 ^ 32 /\
      0 <= perm < 4096 /\ segs_ok (last + 1) ms
  end.

Lemma entry_of_below lo ms x : segs_ok lo ms -> vpn x < lo -> entry_of ms x = None.
Proof.
  revert lo. induction ms as [|[[[virt ps] pe] perm] ms IH]; intros lo; [done|]. cbn [segs_ok entry_of]. cbv zeta.
  intros (Hlo & Hv & Hsz & Hend & _ & _ & _ & _ & Hms) Hx. rewrite decide_False by lia.
  eapply IH; [exact Hms|]. enough (vpn virt <= vpn (virt + u32 (pe - ps) - 1)) by lia.
  unfold vpn. rewrite !u32_small by lia. apply Z.div_le_mono; lia.
Qed.

Section data.
Context (data : list Z).
Notation vm_ready := (vm_ready data).

(** The loop of [setupkvm]. *)
Lemma map_segs ms lo pgdir k e free :
  segs_ok lo ms -> vm_ready k pgdir free -> (forall x, lo <= vpn x -> translation (k_mem k) pgdir x = None) ->
  exists r k' free', for_each ms (fun '(virt, phys_start, phys_end, perm) =>
      r <- mappages pgdir virt (u32 (phys_end - phys_start)) phys_start perm ;;
      if r <? 0 then ret (Some 0) else ret None) e k = Ok r e k' /\
    vm_ready k' pgdir free' /\ grows pgdir k k' /\ kept pgdir k k' free free' /\ within pgdir lo 1048575 k k' /\
    ((r = Some 0 /\ free' = []) \/
     (r = None /\ forall x, translation (k_mem k') pgdir x =
        match entry_of ms x with Some v => Some v | None => translation (k_mem k) pgdir x end)).
Proof.
  revert lo k free. induction ms as [|[[[virt ps] pe] perm] ms IH]; intros lo k free Hok Hr Hun; cbn [for_each].
  { exists None, k, free. split; [done|]. split; [done|]. split; [done|]. split; [apply kept_refl|]. split; [done|]. by right. }
  cbn [segs_ok] in Hok. destruct Hok as (Hlo & Hv & Hsz & Hend & Ha & Hp & Hpe & Hperm & Hms).
  destruct (mappages_ok data pgdir virt (u32 (pe - ps)) ps perm k e free) as
    (r & k1 & free1 & n & E & Hn & Hr1 & _ & Hg1 & Hk1 & Hw1 & Htr1); try done.
  { intros x Hx. apply Hun. lia. }
  assert (vpn virt <= vpn (virt + u32 (pe - ps) - 1)) as Hle
    by (unfold vpn; rewrite !u32_small by lia; apply Z.div_le_mono; lia).
  pose proof (vpn_range (virt + u32 (pe - ps) - 1)) as Hvr.
  rewrite bind_bind_eq, (bind_Ok _ _ _ _ _ _ _ E). destruct Hn as [[-> ->]|(-> & _ & ->)].
  - change (0 <? 0) with false. cbv iota. rewrite ret_eq.
    destruct (IH _ k1 free1 Hms Hr1) as (r & k2 & free2 & E2 & Hr2 & Hg2 & Hk2 & Hw2 & Hcase).
    { intros x Hx. rewrite Htr1, decide_False by lia. apply Hun. lia. }
    exists r, k2, free2. split; [exact E2|]. split; [done|]. split; [by etrans|]. split; [by eapply kept_trans|].
    split; [eapply (within_trans _ _ _ _ _ _ _ _ _ _ Hw1 Hw2); lia|].
    destruct Hcase as [[-> ->]|[-> Htr2]]; [by left|right]. split; [done|]. intros x. cbn [entry_of].
    rewrite Htr2, Htr1. destruct (decide (vpn virt <= vpn x <= vpn (virt + u32 (pe - ps) - 1))) as [Hx|Hx].
    + rewrite (entry_of_below (vpn (virt + u32 (pe - ps) - 1) + 1)) by (done || lia). by rewrite decide_True by lia.
    + destruct (entry_of ms x); [done|]. by rewrite decide_False by lia.
  - exists (Some 0), k1, []. do 4 (split; [done|]).
    split; [eapply (within_mono _ _ _ _ _ _ _ Hw1); lia|]. by left.
Qed.
End data.

(** What the linker script promises of [data]. *)
Definition link_ok (l : linkmap) : Prop :=
  ld_data l mod 4096 = 0 /\ KERNLINK < ld_data l < KERNBASE + PHYSTOP /\ KERNBASE < ld_end l.

Lemma vpn_exact a : 0 <= a < 2 ^ 32 -> vpn a = a / 4096.
Proof. intros Ha. unfold vpn. by rewrite u32_small. Qed.

Lemma kmap_ok l : link_ok l -> segs_ok 524288 (kmap l).
Proof.
  intros (Hal & Hd & _). unfold KERNLINK, KERNBASE, PHYSTOP, EXTMEM in Hd.
  pose proof (Z.div_mod (ld_data l) 4096 ltac:(lia)) as Hdm. rewrite Hal in Hdm. set (q := ld_data l / 4096) in *.
  unfold kmap, segs_ok, KERNLINK, KERNBASE, PHYSTOP, EXTMEM, DEVSPACE, v2p, KERNBASE.
  change (u32 (0x80000000 + 0x100000 - 0x80000000)) with 0x100000.
  rewrite (u32_small (ld_data l - 0x80000000)) by lia.
  change (u32 (0 - 0xFE000000)) with 0x2000000. change (u32 (0x100000 - 0)) with 0x100000.
  rewrite (u32_small (ld_data l - 0x80000000 - 0x100000)), (u32_small (0xE000000 - (ld_data l - 0x80000000))) by lia.
  rewrite !vpn_exact by lia. unfold PTE_W. clear Hal. clearbody q. subst.
  split_and!; try done; Z.div_mod_to_equations; lia.
Qed.

(** ** A new address space *)

(** The allocator's pages, and pages [data] in use for something else. *)
Record alloc_ready (data : list Z) (k : kernel) (free : list Z) : Prop := {
  ar_kmem : kmem_ready k;
  ar_free : free_pages k free;
  ar_data : Forall kpage data;
  ar_nodup : NoDup (free ++ data)
}.

Lemma page_ok_kpage k p : page_ok k p -> kpage p.
Proof. intros (H1 & _ & H2 & H3). by repeat split. Qed.

Lemma free_kpages k free : free_pages k free -> Forall kpage free.
Proof. intros [_ Hok _]. eapply Forall_impl; [exact Hok|]. apply page_ok_kpage. Qed.

Lemma kpages_unequal p q x : kpage p -> kpage q -> p <> q -> 0 <= x < 4096 -> p + x < q \/ q + 4096 <= p + x.
Proof. intros Hp Hq Hne Hx. destruct (kpages_apart p q Hp Hq Hne); lia. Qed.

(** A page of zeros is a directory without tables. *)
Lemma empty_dir data k d rest fl :
  alloc_ready data k (d :: rest) -> free_pages (set_k_freelist fl k) rest ->
  let k1 := zero_page d (set_k_freelist fl k) in
  vm_ready data k1 d rest /\ (forall i, 0 <= i < 1024 -> table (k_mem k1) d i = None).
Proof.
  intros [Hk Hf Hd Hnd] Hrest k1. pose proof (free_kpages _ _ Hf) as Hkf. apply Forall_cons in Hkf as [Hkd Hkr].
  apply NoDup_cons in Hnd as [Hdn Hnd].
  assert (forall i, 0 <= i < 1024 -> table (k_mem k1) d i = None) as Ht.
  { intros i Hi. unfold table, k1, zero_page. cbn [k_mem set_k_mem set_k_freelist]. by rewrite load32_zero. }
  assert (forall q, q ∈ rest ++ data -> kpage q) as Hkq
    by (intros q [Hq|Hq]%elem_of_app; [by eapply Forall_forall in Hkr|by eapply Forall_forall in Hd]).
  split; [|done]. split; [done| | |done].
  - apply (free_pages_mem (set_k_freelist fl k)); [|done]. intros q Hq. cbn. apply load32_ext. intros i Hi.
    apply memset_ne. destruct (kpages_apart q d) as [?|?]; [apply Hkq, elem_of_app; by left|done| |lia|lia].
    intros ->. apply Hdn, elem_of_app. by left.
  - split; [done|..].
    + intros i t Hi. by rewrite Ht.
    + intros i j t Hi _. by rewrite Ht.
    + intros q Hq. split; [by apply Hkq|]. split; [by intros ->|]. intros i Hi. by rewrite Ht.
Qed.

(** What a new directory leaves alone. *)
Definition data_kept (data : list Z) (k k' : kernel) : Prop :=
  k' = set_k_mem (k_mem k') (set_k_freelist (k_freelist k') k) /\
  forall q i, q ∈ data -> 0 <= i < 4096 -> k_mem k' (q + i) = k_mem k (q + i).

#[export] Instance data_kept_preorder data : PreOrder (data_kept data).
Proof.
  split.
  - intros k. split; [by destruct k|done].
  - intros k1 k2 k3 [F1 M1] [F2 M2]. split.
    + rewrite F2, F1. by destruct k1.
    + intros q i Hq Hi. by rewrite M2, M1.
Qed.

Lemma grows_kept data pgdir k k' free :
  vm_ready data k' pgdir free -> grows pgdir k k' -> data_kept data k k'.
Proof.
  intros [_ _ Hp _] [Hf _ Hm]. split; [done|]. intros q i Hq Hi. apply Hm.
  eapply page_outside; [exact Hp| |done]. apply elem_of_app. by right.
Qed.

Lemma zero_kept data k d rest fl :
  alloc_ready data k (d :: rest) -> data_kept data k (zero_page d (set_k_freelist fl k)).
Proof.
  intros [Hk Hf Hd Hnd]. pose proof (free_kpages _ _ Hf) as Hkf. apply Forall_cons in Hkf as [Hkd Hkr].
  apply NoDup_cons in Hnd as [Hdn Hnd]. split; [by destruct k|]. intros q i Hq Hi. cbn. apply memset_ne.
  rewrite Forall_forall in Hd. assert (q <> d) as Hne by (intros ->; apply Hdn, elem_of_app; by right).
  pose proof (kpages_unequal q d i (Hd q Hq) Hkd Hne Hi). lia.
Qed.

Lemma setupkvm_ok data k e free :
  alloc_ready data k free -> link_ok (k_link k) ->
  exists d k' free', setupkvm e k = Ok d e k' /\ data_kept data k k' /\
    ((d = 0 /\ (length free <= 1025)%nat) \/
     (vm_ready data k' d free' /\ free ≡ₚ d :: free' ++ tables (k_mem k') d /\
      (forall i, 0 <= i < 512 -> table (k_mem k') d i = None) /\
      forall x, translation (k_mem k') d x = entry_of (kmap (k_link k)) x)).
Proof.
  intros Har Hlink. pose proof Har as [Hk Hf Hd Hnd]. unfold setupkvm.
  pose proof (kalloc_ok k e free Hk Hf) as Ha. destruct free as [|d rest].
  { exists 0, k, []. rewrite (bind_Ok _ _ _ _ _ _ _ Ha). split; [done|]. split; [done|]. left. cbn. split; [done|lia]. }
  destruct Ha as (fl & Ha & Hrest). rewrite (bind_Ok _ _ _ _ _ _ _ Ha).
  pose proof (free_kpages _ _ Hf) as Hkf. apply Forall_cons in Hkf as [Hkd Hkr].
  assert (d =? 0 = false) as -> by (apply Z.eqb_neq; destruct Hkd; unfold KERNBASE in *; lia).
  unfold mem_set. rewrite modify_eq. change (DEVSPACE <? p2v PHYSTOP) with false. cbv iota. rewrite gets_eq.
  change (set_k_mem _ (set_k_freelist fl k)) with (zero_page d (set_k_freelist fl k)).
  destruct (empty_dir data k d rest fl Har Hrest) as [Hr1 Ht1]. set (k1 := zero_page d (set_k_freelist fl k)) in *.
  destruct (map_segs data (kmap (k_link k)) 524288 d k1 e rest (kmap_ok _ Hlink) Hr1) as
    (r & k2 & free2 & E & Hr2 & Hg2 & Hk2 & Hw2 & Hcase).
  { intros x _. unfold translation. by rewrite Ht1 by apply PDX_range. }
  change (k_link k1) with (k_link k). rewrite (bind_Ok _ _ _ _ _ _ _ E).
  unfold kept in Hk2. rewrite (tables_none _ _ Ht1), app_nil_r in Hk2.
  assert (data_kept data k k2) as Hdk.
  { transitivity k1; [by eapply zero_kept|by eapply grows_kept]. }
  destruct Hcase as [[-> ->]|[-> Htr]].
  - exists 0, k2, []. split; [done|]. split; [done|]. left. split; [done|]. cbn.
    rewrite Hk2. cbn. pose proof (length_tables (k_mem k2) d). lia.
  - exists d, k2, free2. split; [done|]. split; [done|]. right. split; [done|]. split; [by rewrite Hk2|].
    split; [intros i Hi; rewrite Hw2, Ht1 by (change (524288 / 1024) with 512; lia); done|].
    intros x. rewrite Htr. destruct (entry_of _ x); [done|]. unfold translation. by rewrite Ht1 by apply PDX_range.
Qed.

(** ** Copying an address space *)

(** The directory, the tables and the first [n] pages of an address space are among
    [data]. *)
Record space (data : list Z) (m : memory) (pgdir n : Z) : Prop := {
  sp_dir : pgdir ∈ data;
  sp_tab : forall i t, 0 <= i < 1024 -> table m pgdir i = Some t -> t ∈ data;
  sp_page : forall x, vpn x < n -> exists v, translation m pgdir x = Some v /\ p2v (PTE_ADDR v) ∈ data
}.

(** The translations of a space depend on its own pages only. *)
Lemma space_same data k k' pgdir n :
  data_kept data k k' -> space data (k_mem k) pgdir n ->
  (forall i, 0 <= i < 1024 -> table (k_mem k') pgdir i = table (k_mem k) pgdir i) /\
  (forall x, translation (k_mem k') pgdir x = translation (k_mem k) pgdir x).
Proof.
  intros [_ Hm] [Hd Ht _].
  assert (forall i, 0 <= i < 1024 -> table (k_mem k') pgdir i = table (k_mem k) pgdir i) as Htab.
  { intros i Hi. apply table_ext; [done|]. intros x Hx. replace x with (pgdir + (x - pgdir)) by lia. apply Hm; [done|lia]. }
  split; [done|]. intros x. unfold translation. rewrite Htab by apply PDX_range.
  destruct (table (k_mem k) pgdir (PDX x)) as [t|] eqn:E; [|done]. cbn [mbind option_bind]. cbv zeta.
  pose proof (PTX_range x). rewrite (load32_ext (k_mem k') (k_mem k)); [done|]. intros i Hi.
  rewrite <- Z.add_assoc. apply Hm; [|lia]. eapply Ht; [apply (PDX_range x)|done].
Qed.

Lemma space_kept data data' k k' pgdir n :
  data_kept data k k' -> (forall q, q ∈ data -> q ∈ data') -> space data (k_mem k) pgdir n ->
  space data' (k_mem k') pgdir n.
Proof.
  intros Hk Hin Hs. destruct (space_same _ _ _ _ _ Hk Hs) as [Ht Htr]. destruct Hs as [Hd Htab Hp]. split.
  - by apply Hin.
  - intros i t Hi. rewrite Ht by done. intros Hit. by eapply Hin, Htab.
  - intros x Hx. rewrite Htr. destruct (Hp x Hx) as (v & Hv & Hin'). exists v. auto.
Qed.

Lemma translation_present m pgdir x v : translation m pgdir x = Some v -> Z.odd v = true.
Proof.
  unfold translation. destruct (table m pgdir (PDX x)) as [t|]; [|done]. cbn [mbind option_bind]. cbv zeta.
  rewrite present_odd. destruct (Z.odd _) eqn:E; [|done]. by intros [= <-].
Qed.

Lemma flags_kept v : Z.odd v = true -> 0 <= PTE_FLAGS v < 4096 /\ Z.lor (PTE_FLAGS v) PTE_P = PTE_FLAGS v.
Proof.
  intros Ho. rewrite PTE_FLAGS_eq. split; [apply Z.mod_pos_bound; lia|].
  apply Z.bits_inj'. intros n Hn. rewrite Z.lor_spec. unfold PTE_P, u32. destruct (decide (n = 0)) as [->|Hne].
  - change 4294967296 with (2 ^ 32). change 4096 with (2 ^ 12).
    rewrite !Z.mod_pow2_bits_low, Z.bit0_odd, Ho by lia. done.
  - change 1 with (2 ^ 0). rewrite Z.pow2_bits_false by lia. by rewrite orb_false_r.
Qed.

Lemma moved_page m p src :
  (forall x, x < p \/ p + 4096 <= x -> memmove m p src (Z.to_nat PGSIZE) x = m x) /\
  (forall b, 0 <= b < 4096 -> memmove m p src (Z.to_nat PGSIZE) (p + b) = m (src + b)).
Proof.
  split; intros x Hx; rewrite memmove_spec, Z2Nat.id by done; unfold PGSIZE.
  - destruct (Z.leb_spec p x), (Z.ltb_spec x (p + 4096)); cbn [andb]; done || lia.
  - rewrite (proj2 (Z.leb_le _ _)), (proj2 (Z.ltb_lt _ _)) by lia. cbn [andb]. f_equal. lia.
Qed.

Lemma translation_vpn m pgdir x y : vpn x = vpn y -> translation m pgdir x = translation m pgdir y.
Proof. intros E. unfold translation. by rewrite !PDX_eq, !PTX_eq, E. Qed.

(** The walk to an entry that is there. *)
Lemma walk_finds pgdir x v e k :
  translation (k_mem k) pgdir x = Some v ->
  exists t, table (k_mem k) pgdir (PDX x) = Some t /\
    walkpgdir pgdir x false e k = Ok (t + 4 * PTX x) e k /\ load32 (k_mem k) (t + 4 * PTX x) = v /\
    nz (Z.land v PTE_P) = true.
Proof.
  unfold translation. rewrite walkpgdir_eq. destruct (table (k_mem k) pgdir (PDX x)) as [t|]; [|done].
  cbn [mbind option_bind]. cbv zeta. unfold present. destruct (nz _) eqn:E; [|done]. intros [= <-]. by exists t.
Qed.

(** One page of the copy. *)
Lemma copy_page data k e pgdir d n j p rest v :
  vm_ready data k d (p :: rest) -> space data (k_mem k) pgdir n -> 0 <= j < n -> n <= 524288 ->
  translation (k_mem k) pgdir (4096 * j) = Some v ->
  (forall x, vpn x = j -> translation (k_mem k) d x = None) ->
  (1025 <= length rest + length (tables (k_mem k) d))%nat ->
  exists fl k' free',
    kalloc e k = Ok p e (set_k_freelist fl k) /\ p <> 0 /\
    mappages d (4096 * j) PGSIZE (v2p p) (PTE_FLAGS v) e
      (set_k_mem (memmove (k_mem k) p (p2v (PTE_ADDR v)) (Z.to_nat PGSIZE)) (set_k_freelist fl k)) = Ok 0 e k' /\
    vm_ready (p :: data) k' d free' /\ data_kept data k k' /\
    rest ++ tables (k_mem k) d ≡ₚ free' ++ tables (k_mem k') d /\ within d j j k k' /\
    (forall b, 0 <= b < 4096 -> k_mem k' (p + b) = k_mem k (p2v (PTE_ADDR v) + b)) /\
    (forall x, translation (k_mem k') d x =
       if decide (vpn x = j) then Some (v2p p + PTE_FLAGS v) else translation (k_mem k) d x).
Proof.
  intros Hr Hs Hj Hn Hv Hun Hlen.
  destruct (moved_page (k_mem k) p (p2v (PTE_ADDR v))) as [Hm Hmv].
  remember (memmove (k_mem k) p (p2v (PTE_ADDR v)) (Z.to_nat PGSIZE)) as m eqn:Em. clear Em.
  destruct (use_page data k e d p rest m Hr Hm) as (fl & Ha & Hkp & Hr1 & Htab1 & Htr1).
  set (k1 := set_k_mem m (set_k_freelist fl k)) in *. destruct (kpage_v2p p Hkp) as [Hv2p Hv2p'].
  pose proof (translation_present _ _ _ _ Hv) as Hodd. destruct (flags_kept v Hodd) as [Hfl Hlor].
  assert (vpn (4096 * j) = j) as Hvj by (apply vpn_page; lia).
  assert (vpn (4096 * j + PGSIZE - 1) = j) as Hvj'.
  { unfold vpn, PGSIZE. rewrite u32_small by lia. symmetry. apply (Z.div_unique _ _ _ 4095); lia. }
  assert (forall q i, q ∈ data -> 0 <= i < 4096 -> q + i < p \/ p + 4096 <= q + i) as Hdata.
  { intros q i Hq Hi. destruct Hr as [_ _ Hp Hnd]. destruct (pt_free _ _ _ Hp q) as (Hkq & _); [apply elem_of_app; by right|].
    apply kpages_unequal; try done. intros ->. apply (NoDup_cons_1_1 _ _ Hnd), elem_of_app. by right. }
  destruct (mappages_ok (p :: data) d (4096 * j) PGSIZE (v2p p) (PTE_FLAGS v) k1 e rest) as
    (r & k2 & free2 & c & E2 & Hc & Hr2 & _ & Hg2 & Hk2 & Hw2 & Htr2);
    rewrite ?Hvj', ?Hvj; unfold PGSIZE; try lia; try done.
  { intros x Hx. unfold k1. cbn. rewrite Htr1. apply Hun. lia. }
  rewrite Hvj', Hvj in *. unfold kept in Hk2. cbn [k_mem set_k_mem k1] in Hk2. rewrite (tables_ext _ _ _ Htab1) in Hk2.
  destruct Hc as [[-> ->]|(_ & _ & ->)].
  2:{ apply Permutation_length in Hk2. rewrite !length_app, length_nil in Hk2. pose proof (length_tables (k_mem k2) d). lia. }
  exists fl, k2, free2. split; [exact Ha|]. split; [destruct Hkp; unfold KERNBASE in *; lia|]. split; [exact E2|].
  split; [done|]. pose proof (grows_kept _ _ _ _ _ Hr2 Hg2) as [Hfr Hmem2]. split; [|split; [done|split; [|split]]].
  - split; [rewrite Hfr; by destruct k|]. intros q i Hq Hi. rewrite Hmem2 by (by right || done). cbn. apply Hm. by apply Hdata.
  - intros i Hi Ho. rewrite Hw2 by done. cbn. by apply Htab1.
  - intros b Hb. rewrite Hmem2 by (by left || done). by apply Hmv.
  - intros x. rewrite Htr2. unfold k1 at 1. cbn [k_mem set_k_mem]. rewrite Htr1. destruct (decide (vpn x = j)) as [Hx|Hx].
    + rewrite decide_True by lia. unfold map_entry. rewrite Hlor. f_equal. lia.
    + by rewrite decide_False by lia.
Qed.

(** From [k] to [k'], the pages of [pgdir] from [j] on were copied to [new] and mapped
    in [d]. *)
Record copied (pgdir d j : Z) (new : list Z) (k k' : kernel) : Prop := {
  cp_page : forall x p, j <= vpn x -> new !! Z.to_nat (vpn x - j) = Some p ->
    exists v, translation (k_mem k) pgdir x = Some v /\ translation (k_mem k') d x = Some (v2p p + PTE_FLAGS v) /\
      forall b, 0 <= b < 4096 -> k_mem k' (p + b) = k_mem k (p2v (PTE_ADDR v) + b);
  cp_other : forall x, (vpn x < j \/ j + Z.of_nat (length new) <= vpn x) ->
    translation (k_mem k') d x = translation (k_mem k) d x;
  cp_tables : within d j (j + Z.of_nat (length new) - 1) k k'
}.

(** The loop of [copyuvm] at page [j], with [c] pages to come. *)
Lemma copyuvm_loop c fuel data k e pgdir d sz n j free :
  (c < fuel)%nat -> vm_ready data k d free -> space data (k_mem k) pgdir n ->
  0 <= j -> j + Z.of_nat c <= n -> n <= 524288 -> 4096 * (j + Z.of_nat c - 1) < sz <= 4096 * (j + Z.of_nat c) ->
  (forall x, j <= vpn x < j + Z.of_nat c -> translation (k_mem k) d x = None) ->
  (c + 1025 <= length free + length (tables (k_mem k) d))%nat ->
  exists k' free' new, loop_fuel fuel (fun i =>
      if negb (i <? sz) then ret (inr true) else
      pte <- walkpgdir pgdir i false ;;
      if pte =? 0 then panic "copyuvm: pte should exist" else
      v <- ld32 pte ;;
      if negb (nz (Z.land v PTE_P)) then panic "copyuvm: page not present" else
      let pa := PTE_ADDR v in
      let flags := PTE_FLAGS v in
      mem <- kalloc ;;
      if mem =? 0 then ret (inr false) else
      mem_move mem (p2v pa) (Z.to_nat PGSIZE) ;;
      r <- mappages d i PGSIZE (v2p mem) flags ;;
      if r <? 0 then ret (inr false) else
      ret (inl (i + PGSIZE))) (4096 * j) e k = Ok true e k' /\
    length new = c /\ vm_ready (reverse new ++ data) k' d free' /\ data_kept data k k' /\
    free ++ tables (k_mem k) d ≡ₚ new ++ free' ++ tables (k_mem k') d /\ copied pgdir d j new k k'.
Proof.
  revert fuel data j k free. induction c as [|c IH]; intros fuel data j k free Hfuel Hr Hs Hj Hjn Hn Hsz Hun Hlen;
    (destruct fuel as [|fuel]; [lia|]); cbn [loop_fuel].
  { rewrite (proj2 (Z.ltb_ge _ _)) by lia. cbn [negb]. rewrite ret_eq. exists k, free, [].
    do 4 (split; [done|]). split; [reflexivity|]. by split; [intros x p _; rewrite lookup_nil|..]. }
  rewrite (proj2 (Z.ltb_lt _ _)) by lia. cbn [negb]. assert (vpn (4096 * j) = j) as Hvj by (apply vpn_page; lia).
  destruct (sp_page _ _ _ _ Hs (4096 * j)) as (v & Hv & Hframe); [lia|].
  destruct free as [|p rest]; cbn [length] in Hlen; [pose proof (length_tables (k_mem k) d); lia|].
  destruct (copy_page data k e pgdir d n j p rest v) as
    (fl & k1 & free1 & Ha & Hp0 & E1 & Hr1 & Hdk1 & Hperm1 & Hw1 & Hbytes1 & Htr1); try done; [lia| |lia|].
  { intros x Hx. apply Hun. lia. }
  destruct (walk_finds pgdir (4096 * j) v e k Hv) as (t & Ht & Ew & Hld & Hpr).
  assert (t + 4 * PTX (4096 * j) =? 0 = false) as Hpte.
  { apply Z.eqb_neq. pose proof (PTX_range (4096 * j)). pose proof (sp_tab _ _ _ _ Hs _ _ (PDX_range _) Ht) as Htd.
    destruct (pt_free _ _ _ (vr_pt _ _ _ _ Hr) t) as ((_ & Hk) & _); [apply elem_of_app; by right|]. unfold KERNBASE in Hk. lia. }
  rewrite bind_bind_eq, (bind_Ok _ _ _ _ _ _ _ Ew), Hpte. unfold ld32. rewrite bind_bind_eq, gets_eq, Hld, Hpr. cbn [negb]. cbv zeta.
  rewrite bind_bind_eq, (bind_Ok _ _ _ _ _ _ _ Ha), (proj2 (Z.eqb_neq _ _) Hp0). unfold mem_move.
  rewrite bind_bind_eq, modify_eq, bind_bind_eq. erewrite bind_Ok by exact E1.
  change (0 <? 0) with false. cbv iota. rewrite ret_eq. unfold PGSIZE. replace (4096 * j + 4096) with (4096 * (j + 1)) by lia.
  destruct (IH fuel (p :: data) (j + 1) k1 free1) as (k' & free' & new & E & Hl & Hr' & Hdk' & Hperm' & [Hcp Hother Hwt]);
    try done; try lia.
  { apply (space_kept data _ k); [done|by right|done]. }
  { intros x Hx. rewrite Htr1, decide_False by lia. apply Hun. lia. }
  { apply Permutation_length in Hperm1. rewrite !length_app in Hperm1. lia. }
  assert (data_kept data k1 k') as Hdk2 by (destruct Hdk' as [Hfr Hm]; split; [done|]; intros; apply Hm; [by right|done]).
  exists k', free', (p :: new). split; [exact E|]. split; [cbn; lia|].
  split; [by rewrite reverse_cons, <- app_assoc|]. split; [by etrans|]. split; [cbn; by rewrite Hperm1, Hperm'|].
  destruct (space_same _ _ _ _ _ Hdk1 Hs) as [_ Hsrc]. split.
  - intros x q Hx Hq. destruct (decide (vpn x = j)) as [Hxj|Hxj].
    + rewrite Hxj, Z.sub_diag in Hq. injection Hq as <-. exists v. split_and!.
      * by rewrite (translation_vpn _ _ x (4096 * j)) by lia.
      * rewrite Hother, Htr1, decide_True by lia. done.
      * intros b Hb. rewrite (proj2 Hdk') by (by left || done). by apply Hbytes1.
    + replace (Z.to_nat (vpn x - j)) with (S (Z.to_nat (vpn x - (j + 1)))) in Hq by lia.
      destruct (Hcp x q) as (w & Hw & Htr & Hb); [lia|exact Hq|]. exists w. split; [by rewrite <- Hsrc|]. split; [done|].
      intros b Hbr. rewrite Hb by done. apply (proj2 Hdk1); [|done].
      rewrite Hsrc in Hw. destruct (sp_page _ _ _ _ Hs x) as (w' & Hw' & Hin).
      { apply lookup_lt_Some in Hq. cbn in Hq. lia. }
      congruence.
  - intros x Hx. cbn [length] in Hx. rewrite Hother by lia. by rewrite Htr1, decide_False by lia.
  - cbn [length]. eapply (within_trans _ _ _ _ _ _ _ _ _ _ Hw1 Hwt); lia.
Qed.

(** The pages of a process of [sz] bytes. *)
Definition npages (sz : Z) : Z := vpn (sz + 4095).

Lemma copyuvm_ok data pgdir sz k e free :
  alloc_ready data k free -> link_ok (k_link k) -> 0 <= sz <= KERNBASE ->
  space data (k_mem k) pgdir (npages sz) -> (Z.to_nat (npages sz) + 1026 <= length free)%nat ->
  exists d k' free' new, copyuvm pgdir sz e k = Ok d e k' /\ d <> 0 /\
    length new = Z.to_nat (npages sz) /\ vm_ready (reverse new ++ data) k' d free' /\ data_kept data k k' /\
    free ≡ₚ d :: new ++ free' ++ tables (k_mem k') d /\
    (forall x p, new !! Z.to_nat (vpn x) = Some p ->
       exists v, translation (k_mem k) pgdir x = Some v /\ translation (k_mem k') d x = Some (v2p p + PTE_FLAGS v) /\
         forall b, 0 <= b < 4096 -> k_mem k' (p + b) = k_mem k (p2v (PTE_ADDR v) + b)) /\
    (forall x, npages sz <= vpn x -> translation (k_mem k') d x = entry_of (kmap (k_link k)) x) /\
    (forall i, i < 512 -> npages sz <= 1024 * i -> table (k_mem k') d i = None).
Proof.
  intros Har Hlink Hsz Hs Hlen. unfold KERNBASE in Hsz.
  assert (4096 * (npages sz - 1) < sz <= 4096 * npages sz /\ 0 <= npages sz <= 524288) as [Hnp Hnp'].
  { unfold npages, vpn. rewrite u32_small by lia. Z.div_mod_to_equations. lia. }
  destruct (setupkvm_ok data k e free Har Hlink) as (d & k1 & free1 & E1 & Hdk1 & Hcase).
  destruct Hcase as [[_ Hfew]|(Hr1 & Hperm1 & Hnt1 & Htr1)]; [lia|].
  assert (d <> 0) as Hd0 by (destruct (pt_dir _ _ _ (vr_pt _ _ _ _ Hr1)); unfold KERNBASE in *; lia).
  assert (space data (k_mem k1) pgdir (npages sz)) as Hs1 by (by eapply space_kept).
  destruct (space_same _ _ _ _ _ Hdk1 Hs) as [_ Hsrc].
  destruct (copyuvm_loop (Z.to_nat (npages sz)) (pages_below sz) data k1 e pgdir d sz (npages sz) 0 free1) as
    (k2 & free2 & new & E2 & Hl & Hr2 & Hdk2 & Hperm2 & [Hcp Hother Hwt]); try done; try lia.
  - unfold pages_below, PGSIZE. pose proof (Z.div_mod sz 4096 ltac:(lia)). pose proof (Z.mod_pos_bound sz 4096). lia.
  - intros x Hx. rewrite Htr1. apply (entry_of_below 524288); [by apply kmap_ok|lia].
  - apply Permutation_length in Hperm1. cbn [length] in Hperm1. rewrite length_app in Hperm1. lia.
  - exists d, k2, free2, new. unfold copyuvm. rewrite (bind_Ok _ _ _ _ _ _ _ E1), (proj2 (Z.eqb_neq _ _) Hd0).
    change (4096 * 0) with 0 in E2. rewrite (bind_Ok _ _ _ _ _ _ _ E2). split; [done|]. split; [done|]. split; [done|].
    split; [done|]. split; [by etrans|]. split; [by rewrite Hperm1, Hperm2|]. split; [|split].
    + intros x p Hp. destruct (Hcp x p) as (v & Hv & Htr & Hb); [apply vpn_range|by rewrite Z.sub_0_r|].
      exists v. rewrite Hsrc in Hv. split; [done|]. split; [done|]. intros b Hbr. rewrite Hb by done. apply (proj2 Hdk1); [|done].
      destruct (sp_page _ _ _ _ Hs x) as (w & Hw & Hin); [|congruence].
      apply lookup_lt_Some in Hp. pose proof (vpn_range x). lia.
    + intros x Hx. rewrite Hother by (rewrite Hl; lia). apply Htr1.
    + intros i Hi Hni. rewrite Hwt; [apply Hnt1; lia|lia|]. rewrite Hl, Z2Nat.id by lia.
      right. apply Z.div_lt_upper_bound; lia.
Qed.

(** [copyuvm] gives a child the memory of its parent.  With enough free pages it returns
    a new directory that maps the kernel as [kmap] says and, for every page of
    the parent's memory, a fresh page with the same permissions and the same
    bytes, and nothing else; the parent's directory, its tables and its pages
    keep their contents.  Every page that was taken from the allocator is the
    new directory, one of its tables, or one of the new pages. *)
Theorem copyuvm_copies data pgdir sz k e free :
  alloc_ready data k free -> link_ok (k_link k) -> 0 <= sz <= KERNBASE ->
  space data (k_mem k) pgdir (npages sz) -> (Z.to_nat (npages sz) + 1026 <= length free)%nat ->
  exists d k' free' new, copyuvm pgdir sz e k = Ok d e k' /\ d <> 0 /\
    length new = Z.to_nat (npages sz) /\ vm_ready (reverse new ++ data) k' d free' /\ data_kept data k k' /\
    free ≡ₚ d :: new ++ free' ++ tables (k_mem k') d /\
    (forall x p, new !! Z.to_nat (vpn x) = Some p ->
       exists v, translation (k_mem k) pgdir x = Some v /\ translation (k_mem k') d x = Some (v2p p + PTE_FLAGS v) /\
         forall b, 0 <= b < 4096 -> k_mem k' (p + b) = k_mem k (p2v (PTE_ADDR v) + b)) /\
    (forall x, npages sz <= vpn x -> translation (k_mem k') d x = entry_of (kmap (k_link k)) x).
Proof.
  intros Har Hlink Hsz Hs Hlen.
  destruct (copyuvm_ok data pgdir sz k e free Har Hlink Hsz Hs Hlen) as (d & k' & free' & new & E & H1 & H2 & H3 & H4 & H5 & H6 & H7 & _).
  by exists d, k', free', new.
Qed.

(** ** An example: a process of one page, with its kernel stack, and eleven hundred free
    pages *)

Definition parent_mem : memory :=
  store32 (store32 (fun _ => 0) 0x80300000 0x301007) 0x80301000 0x302007.
Definition parent0 : kernel := set_k_mem parent_mem Demo.machine.
Definition parent : kernel := Demo.final (freerange 0x80400000 (0x80400000 + 4096 * 1100) [] parent0).
Definition parent_pages : list Z := [0x80300000; 0x80301000; 0x80302000; 0x80303000].
Definition parent_free : list Z := rev (range_pages 0x80400000 (Z.to_nat 1100)).

Lemma elem_of_range p n q : q ∈ range_pages p n <-> exists i, (i < n)%nat /\ q = p + 4096 * Z.of_nat i.
Proof.
  unfold range_pages. rewrite list_elem_of_fmap. apply exist_proper. intros i. rewrite elem_of_seq.
  split; intros [? ?]; (split; [lia || done|lia || done]).
Qed.

Lemma parent_made :
  exists fl m, parent = set_k_freelist fl (set_k_mem m Demo.machine) /\ free_pages parent parent_free /\
    forall a, a < 0x80400000 -> m a = parent_mem a.
Proof.
  destruct (freerange_ok parent0 [] 0x80400000 (0x80400000 + 4096 * 1100) (Z.to_nat 1100)) as (fl & m & E & Hf & Hm).
  - split; [intros _; exists "kmem"%string; reflexivity|]. split; [cbn; lia|]. split; [done|cbn; lia].
  - done.
  - lia.
  - change (PGROUNDUP 0x80400000) with 0x80400000. lia.
  - change (PGROUNDUP 0x80400000) with 0x80400000. apply Forall_forall. intros q (i & Hi & ->)%elem_of_range.
    unfold page_ok, PGSIZE, KERNBASE, PHYSTOP. cbn [ld_end k_link parent0 Demo.machine Demo.link0 set_k_mem].
    split; [Z.div_mod_to_equations; lia|lia].
  - change (PGROUNDUP 0x80400000) with 0x80400000 in *. exists fl, m. unfold parent. rewrite E.
    split; [done|]. split; [exact Hf|]. intros a Ha. apply Hm. lia.
Qed.

Lemma parent_freed :
  kmem_ready parent /\ free_pages parent parent_free /\ k_link parent = k_link Demo.machine /\
  forall a, a < 0x80400000 -> k_mem parent a = parent_mem a.
Proof.
  destruct parent_made as (fl & m & E & Hf & Hm). split; [|split; [exact Hf|]]; rewrite E.
  - split; [intros _; exists "kmem"%string; reflexivity|]. split; [cbn; lia|]. split; [done|cbn; lia].
  - split; [done|exact Hm].
Qed.

Lemma parent_table i :
  0 <= i < 1024 -> table (k_mem parent) 0x80300000 i = if decide (i = 0) then Some 0x80301000 else None.
Proof.
  intros Hi. destruct parent_freed as (_ & _ & _ & Hm).
  assert (load32 (k_mem parent) (0x80300000 + 4 * i) = if decide (i = 0) then 0x301007 else 0) as E.
  { rewrite (load32_ext _ parent_mem) by (intros; apply Hm; lia). unfold parent_mem.
    rewrite load32_store32_ne by lia. case_decide as Hz; [subst; reflexivity|]. by rewrite load32_store32_ne by lia. }
  unfold table. rewrite E. by case_decide.
Qed.

Lemma parent_translation x : vpn x = 0 -> translation (k_mem parent) 0x80300000 x = Some 0x302007.
Proof.
  intros Hx. unfold translation. rewrite PDX_eq, PTX_eq, Hx. change (0 / 1024) with 0. change (0 mod 1024) with 0.
  rewrite parent_table, decide_True by lia. cbn [mbind option_bind]. cbv zeta.
  destruct parent_freed as (_ & _ & _ & Hm). rewrite (load32_ext _ parent_mem) by (intros; apply Hm; lia). reflexivity.
Qed.

Lemma parent_ready :
  alloc_ready parent_pages parent parent_free /\ space parent_pages (k_mem parent) 0x80300000 1.
Proof.
  destruct parent_freed as (Hk & Hf & _ & Hm). split; split.
  - done.
  - done.
  - repeat constructor; unfold KERNBASE, PHYSTOP; lia || done.
  - apply NoDup_app. split; [exact (fp_nodup _ _ Hf)|]. split.
    + intros q Hq. unfold parent_free in Hq. rewrite elem_of_rev in Hq. apply elem_of_range in Hq as (i & _ & ->).
      unfold parent_pages. rewrite !elem_of_cons, elem_of_nil. lia.
    + apply (bool_decide_unpack _). vm_compute. exact I.
  - left.
  - intros i t Hi. rewrite parent_table by done. case_decide; [|done]. intros [= <-]. right. left.
  - intros x Hx. pose proof (vpn_range x). exists 0x302007. rewrite parent_translation by lia. split; [done|].
    right. right. left.
Qed.

Lemma parent_link : link_ok (k_link parent).
Proof.
  destruct parent_freed as (_ & _ & -> & _). split; [reflexivity|]. unfold KERNLINK, KERNBASE, EXTMEM, PHYSTOP.
  cbn [ld_data ld_end k_link Demo.machine Demo.link0]. lia.
Qed.

Lemma parent_enough : (Z.to_nat (npages 4096) + 1026 <= length parent_free)%nat.
Proof.
  unfold parent_free. rewrite length_rev. unfold range_pages. rewrite length_fmap, length_seq.
  change (npages 4096) with 1. lia.
Qed.

Lemma copyuvm_copies_witness :
  exists d k' free' new, copyuvm 0x80300000 4096 [] parent = Ok d [] k' /\ d <> 0 /\
    length new = 1%nat /\ vm_ready (reverse new ++ parent_pages) k' d free' /\ data_kept parent_pages parent k' /\
    parent_free ≡ₚ d :: new ++ free' ++ tables (k_mem k') d /\
    (forall x p, new !! Z.to_nat (vpn x) = Some p ->
       exists v, translation (k_mem parent) 0x80300000 x = Some v /\
         translation (k_mem k') d x = Some (v2p p + PTE_FLAGS v) /\
         forall b, 0 <= b < 4096 -> k_mem k' (p + b) = k_mem parent (p2v (PTE_ADDR v) + b)) /\
    (forall x, 1 <= vpn x -> translation (k_mem k') d x = entry_of (kmap (k_link parent)) x).
Proof.
  apply (copyuvm_copies parent_pages 0x80300000 4096 parent [] parent_free).
  - apply parent_ready.
  - apply parent_link.
  - unfold KERNBASE. lia.
  - apply parent_ready.
  - apply parent_enough.
Defined.

End Uvm.
