(* ===== verification/Freevm.v ===== *)
(** Giving address spaces back: [deallocuvm] and [freevm] of vm.c return every page
    of a process to the allocator. *)

From S2P Require Import Prelude Bytes Machine Demo Cstring Spinlock Consout Kalloc Sleep Disk Fs Vm Pagetable Uvm.
Import Cstring Spinlock Consout Kalloc Vm Pagetable Uvm.

Module Freevm.

(** ** The pages of a process *)

(** The page of memory that page [n] of the address space is mapped to. *)
Definition frame (m : memory) (pgdir n : Z) : option Z :=
  (fun v => p2v (PTE_ADDR v)) <$> translation m pgdir (4096 * n).

(** The memory of pages [lo] to [hi - 1]; sealed like [tables]. *)
Definition frames_def (m : memory) (pgdir lo hi : Z) : list Z := omap (frame m pgdir) (seqZ lo (hi - lo)).
Definition frames_aux : seal frames_def.
Proof. by eexists. Qed.
Definition frames : memory -> Z -> Z -> Z -> list Z := frames_aux.(unseal).
Lemma frames_eq m pgdir lo hi : frames m pgdir lo hi = omap (frame m pgdir) (seqZ lo (hi - lo)).
Proof. unfold frames. by rewrite frames_aux.(seal_eq). Qed.

Lemma frames_nil m pgdir lo hi : hi <= lo -> frames m pgdir lo hi = [].
Proof. intros H. by rewrite frames_eq, seqZ_nil by lia. Qed.

Lemma frames_cons m pgdir lo hi :
  lo < hi -> frames m pgdir lo hi =
    match frame m pgdir lo with Some p => p :: frames m pgdir (lo + 1) hi | None => frames m pgdir (lo + 1) hi end.
Proof.
  intros H. rewrite !frames_eq, seqZ_cons by lia. replace (Z.pred (hi - lo)) with (hi - (lo + 1)) by lia.
  rewrite <- Z.add_1_r. cbn. by destruct (frame m pgdir lo).
Qed.

Lemma frames_ext m m' pgdir lo hi :
  (forall n, lo <= n < hi -> frame m' pgdir n = frame m pgdir n) -> frames m' pgdir lo hi = frames m pgdir lo hi.
Proof.
  intros Hf. rewrite !frames_eq. apply omap_ext_in. intros n Hn%elem_of_seqZ. apply Hf. lia.
Qed.

Lemma frames_none m pgdir lo hi : (forall n, lo <= n < hi -> frame m pgdir n = None) -> frames m pgdir lo hi = [].
Proof.
  intros Hf. rewrite frames_eq, (omap_ext_in _ (fun _ => None)).
  - by induction (seqZ lo (hi - lo)).
  - intros n Hn%elem_of_seqZ. apply Hf. lia.
Qed.

(** The tables of a process come without holes. *)
Definition dense (m : memory) (pgdir : Z) : Prop :=
  forall i j, 0 <= i <= j -> j < 512 -> table m pgdir i = None -> table m pgdir j = None.

Lemma frame_table m pgdir n : 0 <= n < 1048576 -> table m pgdir (n / 1024) = None -> frame m pgdir n = None.
Proof. intros Hn Ht. unfold frame, translation. by rewrite PDX_eq, vpn_page, Ht by lia. Qed.

(** ** Pages that are given back *)

Lemma vm_ready_perm data data' k pgdir free : data ≡ₚ data' -> vm_ready data k pgdir free -> vm_ready data' k pgdir free.
Proof.
  intros Hp [Hk Hf Hpt Hnd]. split; [done|done| |by rewrite <- Hp].
  eapply pt_ok_ext; [exact Hpt|done|]. intros q. by rewrite Hp.
Qed.

Lemma free_page data k e pgdir p free :
  vm_ready (p :: data) k pgdir free -> page_ok k p ->
  exists m, kfree p e k = Ok tt e (set_k_freelist p (set_k_mem m k)) /\
    vm_ready data (set_k_freelist p (set_k_mem m k)) pgdir (p :: free) /\
    (forall i, 0 <= i < 1024 -> table m pgdir i = table (k_mem k) pgdir i) /\
    (forall x, translation m pgdir x = translation (k_mem k) pgdir x) /\
    (forall a, a < p \/ p + 4096 <= a -> m a = k_mem k a).
Proof.
  intros [Hk Hf Hp Hnd] Hok. assert (p ∉ free) as Hnf.
  { intros Hin. apply NoDup_app in Hnd as (_ & Hnd & _). apply (Hnd p Hin). left. }
  destruct (kfree_ok k e p free Hk Hf Hok Hnf) as (m & E & Hf' & Hm).
  destruct (page_store _ m _ _ p Hp) as [Htab Htr]; [apply elem_of_app; right; left|done|].
  exists m. split; [exact E|]. split; [|done]. split; [done|exact Hf'| |].
  - eapply pt_ok_ext; [exact Hp|done|]. intros q. by rewrite <- Permutation_middle.
  - cbn [app]. by rewrite Permutation_middle.
Qed.

(** ** Shrinking a process *)

(** The part of [deallocuvm]'s loop for an entry that is present. *)
Lemma unmap_page data k e pgdir j p t v free :
  vm_ready (p :: data) k pgdir free -> 0 <= j < 524288 -> table (k_mem k) pgdir (PDX (4096 * j)) = Some t ->
  load32 (k_mem k) (t + 4 * PTX (4096 * j)) = v -> p = p2v (PTE_ADDR v) -> page_ok k p -> KERNBASE < ld_end (k_link k) ->
  exists k',
    (let pa := PTE_ADDR v in
     if pa =? 0 then panic "kfree" else
     kfree (p2v pa) ;;
     st32 (t + 4 * PTX (4096 * j)) 0) e k = Ok tt e k' /\
    vm_ready data k' pgdir (p :: free) /\ data_kept data k k' /\
    (forall i, 0 <= i < 1024 -> table (k_mem k') pgdir i = table (k_mem k) pgdir i) /\
    (forall x, translation (k_mem k') pgdir x = if decide (vpn x = j) then None else translation (k_mem k) pgdir x).
Proof.
  intros Hr Hj Ht Hl -> Hok Hlink. cbv zeta. set (p := p2v (PTE_ADDR v)) in *.
  assert (PTE_ADDR v =? 0 = false) as ->.
  { apply Z.eqb_neq. intros E. destruct Hok as (_ & Hend & _). unfold p in Hend. rewrite E in Hend.
    change (p2v 0) with KERNBASE in Hend. lia. }
  destruct (free_page data k e pgdir p free Hr Hok) as (m & E & Hr1 & Htab & Htr & Hm).
  rewrite (bind_Ok _ _ _ _ _ _ _ E). set (k1 := set_k_freelist p (set_k_mem m k)) in *.
  assert (table (k_mem k1) pgdir (PDX (4096 * j)) = Some t) as Ht1 by (unfold k1; cbn; by rewrite Htab by apply PDX_range).
  destruct (pte_store data k1 pgdir (p :: free) t (4096 * j) 0 Hr1 Ht1) as (Hr2 & Hg2 & Htab2).
  eexists. split; [reflexivity|]. split; [exact Hr2|]. split; [|split].
  - pose proof (grows_kept _ _ _ _ _ Hr2 Hg2) as Hdk2. etransitivity; [|exact Hdk2]. split; [by destruct k|].
    intros q i Hq Hi. cbn. apply Hm. destruct Hr as [_ _ Hp Hnd].
    destruct (pt_free _ _ _ Hp q) as (Hkq & _); [apply elem_of_app; right; by right|].
    assert (q <> p) as Hne by (intros ->; apply NoDup_app in Hnd as (_ & _ & Hnd); by apply (NoDup_cons_1_1 _ _ Hnd)).
    apply kpages_unequal; try done. by eapply page_ok_kpage.
  - intros i Hi. rewrite Htab2 by done. by apply Htab.
  - intros x. cbn [k_mem set_k_mem]. rewrite (translation_store _ _ _ (vr_pt _ _ _ _ Hr1)) by exact Ht1.
    rewrite vpn_page by lia. destruct (decide (vpn x = j)); [done|]. apply Htr.
Qed.

Lemma walk_no_alloc pgdir va e k :
  walkpgdir pgdir va false e k =
    Ok (match table (k_mem k) pgdir (PDX va) with Some t => t + 4 * PTX va | None => 0 end) e k.
Proof. rewrite walkpgdir_eq. by destruct (table _ _ _). Qed.

Section dealloc.
Context (pgdir oldsz newsz hi : Z) (Hhi : hi <= 524288) (Hsz : 4096 * (hi - 1) < oldsz <= 4096 * hi).

Lemma deallocuvm_loop fuel j k e rest free :
  Z.max 0 (hi - j) < Z.of_nat fuel -> 0 <= j ->
  vm_ready (frames (k_mem k) pgdir j hi ++ rest) k pgdir free -> Forall (page_ok k) (frames (k_mem k) pgdir j hi) ->
  dense (k_mem k) pgdir -> KERNBASE < ld_end (k_link k) ->
  exists k', loop_fuel fuel (fun a =>
      if negb (a <? oldsz) then ret (inr newsz) else
      pte <- walkpgdir pgdir a false ;;
      if pte =? 0 then ret (inl (u32 (u32 (a + (NPTENTRIES - 1) * PGSIZE) + PGSIZE))) else
      v <- ld32 pte ;;
      when (nz (Z.land v PTE_P))
        (let pa := PTE_ADDR v in
         if pa =? 0 then panic "kfree" else
         kfree (p2v pa) ;;
         st32 pte 0) ;;
      ret (inl (u32 (a + PGSIZE)))) (4096 * j) e k = Ok newsz e k' /\
    vm_ready rest k' pgdir (reverse (frames (k_mem k) pgdir j hi) ++ free) /\ data_kept rest k k' /\
    (forall i, 0 <= i < 1024 -> table (k_mem k') pgdir i = table (k_mem k) pgdir i) /\
    (forall x, translation (k_mem k') pgdir x =
       if decide (j <= vpn x < hi) then None else translation (k_mem k) pgdir x).
Proof.
  revert j k rest free. induction fuel as [|fuel IH]; intros j k rest free Hfuel Hj Hr Hok Hdense Hlink; [lia|].
  cbn [loop_fuel]. destruct (Z.ltb_spec (4096 * j) oldsz) as [Hlt|Hge]; cbn [negb]; cycle 1.
  { rewrite (frames_nil _ _ j) in * by lia. rewrite ret_eq. exists k. split; [done|]. split; [done|]. split; [done|].
    split; [done|]. intros x. by rewrite decide_False by lia. }
  assert (vpn (4096 * j) = j) as Hvj by (apply vpn_page; lia). rewrite bind_bind_eq.
  erewrite bind_Ok by apply walk_no_alloc.
  destruct (table (k_mem k) pgdir (PDX (4096 * j))) as [t|] eqn:Et; cycle 1.
  { assert (forall n, j <= n < hi -> frame (k_mem k) pgdir n = None) as Hnone.
    { intros n Hn. apply frame_table; [lia|]. rewrite PDX_eq, Hvj in Et. apply (Hdense (j / 1024)); [|  |exact Et].
      - split; [apply Z.div_pos; lia|apply Z.div_le_mono; lia].
      - apply Z.div_lt_upper_bound; lia. }
    rewrite Z.eqb_refl, ret_eq. unfold NPTENTRIES, PGSIZE.
    rewrite (u32_small (4096 * j + (1024 - 1) * 4096)), u32_small by lia.
    replace (4096 * j + (1024 - 1) * 4096 + 4096) with (4096 * (j + 1024)) by lia.
    rewrite (frames_none _ _ j) in * by done.
    destruct (IH (j + 1024) k rest free) as (k' & E & Hr' & Hdk & Htab & Htr); try done; try lia;
      rewrite (frames_none _ _ (j + 1024)) in * by (intros; apply Hnone; lia); try done.
    exists k'. split; [exact E|]. split; [done|]. split; [done|]. split; [done|]. intros x. rewrite Htr.
    destruct (decide (j + 1024 <= vpn x < hi)); destruct (decide (j <= vpn x < hi)); try done; [lia|].
    pose proof (Hnone (vpn x) ltac:(lia)) as Hf. unfold frame in Hf. pose proof (vpn_range x).
    rewrite (translation_vpn _ _ _ x) in Hf by (by rewrite vpn_page). by destruct (translation (k_mem k) pgdir x). }
  destruct (pt_tab _ _ _ (vr_pt _ _ _ _ Hr) _ _ (PDX_range _) Et) as [[_ Hkt] _].
  pose proof (PTX_range (4096 * j)). unfold KERNBASE in Hkt. rewrite (proj2 (Z.eqb_neq _ _)) by lia.
  unfold ld32. rewrite bind_bind_eq, gets_eq. cbv beta. set (v := load32 (k_mem k) (t + 4 * PTX (4096 * j))).
  assert (frame (k_mem k) pgdir j = if nz (Z.land v PTE_P) then Some (p2v (PTE_ADDR v)) else None) as Hfr.
  { unfold frame, translation. rewrite Et. cbn [mbind option_bind]. cbv zeta. fold v. unfold present. by destruct (nz _). }
  rewrite (frames_cons _ _ j) in * by lia. rewrite Hfr in *. rewrite bind_bind_eq.
  unfold PGSIZE. rewrite u32_small by lia. replace (4096 * j + 4096) with (4096 * (j + 1)) by lia.
  destruct (nz (Z.land v PTE_P)); cbn [when] in *.
  - apply Forall_cons in Hok as [Hokp Hok].
    destruct (unmap_page _ k e pgdir j (p2v (PTE_ADDR v)) t v free Hr ltac:(lia) Et eq_refl eq_refl Hokp Hlink)
      as (k1 & E1 & Hr1 & Hdk1 & Htab1 & Htr1).
    rewrite (bind_Ok _ _ _ _ _ _ _ E1), ret_eq.
    assert (frames (k_mem k1) pgdir (j + 1) hi = frames (k_mem k) pgdir (j + 1) hi) as Hfs.
    { apply frames_ext. intros n Hn. unfold frame. by rewrite Htr1, vpn_page, decide_False by lia. }
    assert (k_link k1 = k_link k) as Hlk by (rewrite (proj1 Hdk1); done).
    rewrite <- Hfs in Hr1, Hok. destruct (IH (j + 1) k1 rest (p2v (PTE_ADDR v) :: free)) as (k' & E & Hr' & Hdk & Htab & Htr);
      try lia; try done.
    { eapply Forall_impl; [exact Hok|]. intros q. unfold page_ok. by rewrite Hlk. }
    { intros i i' Hi Hi'. rewrite !Htab1 by lia. by apply Hdense. }
    { by rewrite Hlk. }
    exists k'. split; [exact E|]. rewrite Hfs in Hr'. rewrite reverse_cons, <- app_assoc. split; [exact Hr'|].
    split; [etransitivity; [|exact Hdk]; destruct Hdk1 as [F M]; split; [exact F|]; intros; apply M; [apply elem_of_app; by right|done]|].
    split; [intros i Hi; by rewrite Htab, Htab1|]. intros x. rewrite Htr, Htr1.
    destruct (decide (j + 1 <= vpn x < hi)), (decide (vpn x = j)), (decide (j <= vpn x < hi)); done || lia.
  - rewrite ret_eq, ret_eq. destruct (IH (j + 1) k rest free) as (k' & E & Hr' & Hdk & Htab & Htr); try lia; try done.
    exists k'. split; [exact E|]. split; [done|]. split; [done|]. split; [done|]. intros x. rewrite Htr.
    destruct (decide (vpn x = j)) as [Hx|Hx].
    + rewrite decide_False, decide_True by lia. unfold frame in Hfr.
      rewrite (translation_vpn _ _ x (4096 * j)) by lia. by destruct (translation _ _ _).
    + destruct (decide (j + 1 <= vpn x < hi)), (decide (j <= vpn x < hi)); done || lia.
Qed.
End dealloc.

Lemma deallocuvm_ok pgdir oldsz newsz k e rest free :
  let lo := vpn (newsz + 4095) in let hi := vpn (oldsz + 4095) in
  0 <= newsz < oldsz -> oldsz <= KERNBASE ->
  vm_ready (frames (k_mem k) pgdir lo hi ++ rest) k pgdir free -> Forall (page_ok k) (frames (k_mem k) pgdir lo hi) ->
  dense (k_mem k) pgdir -> KERNBASE < ld_end (k_link k) ->
  exists k', deallocuvm pgdir oldsz newsz e k = Ok newsz e k' /\
    vm_ready rest k' pgdir (reverse (frames (k_mem k) pgdir lo hi) ++ free) /\ data_kept rest k k' /\
    (forall i, 0 <= i < 1024 -> table (k_mem k') pgdir i = table (k_mem k) pgdir i) /\
    (forall x, translation (k_mem k') pgdir x =
       if decide (lo <= vpn x < hi) then None else translation (k_mem k) pgdir x).
Proof.
  intros lo hi Hsz Hkb Hr Hok Hdense Hlink. unfold KERNBASE in Hkb. unfold deallocuvm.
  rewrite (proj2 (Z.leb_gt _ _)) by lia. rewrite PGROUNDUP_vpn. fold lo.
  assert (4096 * (hi - 1) < oldsz <= 4096 * hi /\ hi <= 524288) as [Hhi Hhi'].
  { unfold hi, vpn. rewrite u32_small by lia. Z.div_mod_to_equations. lia. }
  apply deallocuvm_loop; try done.
  - unfold pages_below, PGSIZE. pose proof (vpn_range (newsz + 4095)). fold lo in H.
    pose proof (Z.div_mod oldsz 4096 ltac:(lia)). pose proof (Z.mod_pos_bound oldsz 4096). lia.
  - apply vpn_range.
Qed.

(** ** Giving a whole address space back *)

Lemma give_page data k e p free :
  alloc_ready (p :: data) k free -> page_ok k p ->
  exists k', kfree p e k = Ok tt e k' /\ alloc_ready data k' (p :: free) /\ data_kept data k k'.
Proof.
  intros [Hk Hf Hd Hnd] Hok. assert (p ∉ free) as Hnf.
  { intros Hin. apply NoDup_app in Hnd as (_ & Hnd & _). apply (Hnd p Hin). left. }
  destruct (kfree_ok k e p free Hk Hf Hok Hnf) as (m & E & Hf' & Hm). apply Forall_cons in Hd as [Hkp Hd].
  eexists. split; [exact E|]. split.
  - split; [done|done|done|]. cbn [app]. by rewrite Permutation_middle.
  - split; [by destruct k|]. intros q i Hq Hi. cbn. apply Hm. rewrite Forall_forall in Hd.
    apply kpages_unequal; try done; [by apply Hd|]. intros ->.
    apply NoDup_app in Hnd as (_ & _ & Hnd). by apply (NoDup_cons_1_1 _ _ Hnd).
Qed.

Lemma alloc_ready_perm data data' k free : data ≡ₚ data' -> alloc_ready data k free -> alloc_ready data' k free.
Proof. intros Hp [Hk Hf Hd Hnd]. split; [done|done|by rewrite <- Hp|by rewrite <- Hp]. Qed.

(** The loop over the directory. *)
Lemma free_tables pgdir (is_ : list nat) k e data free :
  let ts := omap (fun i => table (k_mem k) pgdir (Z.of_nat i)) is_ in
  (forall i, i ∈ is_ -> (i < 1024)%nat) -> pgdir ∈ data ->
  alloc_ready (ts ++ data) k free -> Forall (page_ok k) ts ->
  exists k', for_all is_ (fun i =>
      v <- ld32 (pgdir + 4 * Z.of_nat i) ;;
      when (nz (Z.land v PTE_P)) (kfree (p2v (PTE_ADDR v)))) e k = Ok tt e k' /\
    alloc_ready data k' (reverse ts ++ free) /\ data_kept data k k'.
Proof.
  revert k free. induction is_ as [|i is_ IH]; intros k free ts Hlt Hdir Hr Hok; cbn [for_all].
  { exists k. by split. }
  unfold ld32. rewrite bind_bind_eq, gets_eq. cbv beta. set (v := load32 (k_mem k) (pgdir + 4 * Z.of_nat i)).
  assert (table (k_mem k) pgdir (Z.of_nat i) = if nz (Z.land v PTE_P) then Some (p2v (PTE_ADDR v)) else None) as Ht by done.
  assert (forall k1, data_kept data k k1 -> forall j, (j < 1024)%nat ->
    table (k_mem k1) pgdir (Z.of_nat j) = table (k_mem k) pgdir (Z.of_nat j)) as Hsame.
  { intros k1 [_ Hm] j Hj. apply table_ext; [lia|]. intros x Hx. replace x with (pgdir + (x - pgdir)) by lia. apply Hm; [done|lia]. }
  unfold ts in *. cbn [omap list_omap] in *. rewrite Ht in *. destruct (nz (Z.land v PTE_P)); cbn [when].
  - apply Forall_cons in Hok as [Hokp Hok]. destruct (give_page _ k e _ free Hr Hokp) as (k1 & E1 & Hr1 & Hdk1).
    rewrite (bind_Ok _ _ _ _ _ _ _ E1).
    assert (data_kept data k k1) as Hdk1'
      by (destruct Hdk1 as [F M]; split; [done|]; intros; apply M; [apply elem_of_app; by right|done]).
    assert (omap (fun i => table (k_mem k1) pgdir (Z.of_nat i)) is_ = omap (fun i => table (k_mem k) pgdir (Z.of_nat i)) is_) as Ets.
    { apply omap_ext_in. intros j Hj. apply Hsame; [done|]. apply Hlt. by right. }
    destruct (IH k1 (p2v (PTE_ADDR v) :: free)) as (k' & E & Hr' & Hdk); rewrite ?Ets; try done.
    { intros j Hj. apply Hlt. by right. }
    { eapply Forall_impl; [exact Hok|]. intros q. unfold page_ok. by rewrite (proj1 Hdk1). }
    exists k'. split; [exact E|]. rewrite Ets in Hr'. rewrite reverse_cons, <- app_assoc. split; [exact Hr'|]. by etransitivity.
  - rewrite ret_eq. apply IH; try done. intros j Hj. apply Hlt. by right.
Qed.

Lemma space_pages rest k pgdir free :
  vm_ready rest k pgdir free -> alloc_ready (tables (k_mem k) pgdir ++ pgdir :: rest) k free.
Proof.
  intros [Hk Hf Hp Hnd]. assert (forall t, t ∈ tables (k_mem k) pgdir -> kpage t /\ t <> pgdir /\ t ∉ free ++ rest) as Ht.
  { intros t (i & Hi & Ht)%elem_of_tables. destruct (pt_tab _ _ _ Hp i t Hi Ht) as [Hkt Hne]. split; [done|]. split; [done|].
    intros Hin. by destruct (pt_free _ _ _ Hp t Hin) as (_ & _ & Hno); eapply Hno. }
  split; [done|done| |].
  - apply Forall_app. split; [apply Forall_forall; intros t Hin; by apply Ht|]. constructor; [apply Hp|].
    apply Forall_forall. intros q Hq. apply (pt_free _ _ _ Hp q), elem_of_app. by right.
  - rewrite (Permutation_app_comm (tables _ _)), <- app_comm_cons, <- Permutation_middle, app_assoc.
    constructor.
    + rewrite !elem_of_app. intros [Hin|Hin]; [|by destruct (Ht pgdir Hin) as (_ & ? & _)].
      destruct (pt_free _ _ _ Hp pgdir) as (_ & Hne & _); [by rewrite elem_of_app|done].
    + apply NoDup_app. split; [done|]. split; [intros q Hq Hqt; by destruct (Ht q Hqt) as (_ & _ & ?)|].
      rewrite tables_eq. apply NoDup_omap; [apply NoDup_seqZ|]. intros i j t Hi%elem_of_seqZ Hj%elem_of_seqZ.
      apply (pt_inj _ _ _ Hp); lia.
Qed.

Lemma freevm_ok pgdir k e rest free :
  vm_ready (frames (k_mem k) pgdir 0 524288 ++ rest) k pgdir free ->
  Forall (page_ok k) (pgdir :: tables (k_mem k) pgdir ++ frames (k_mem k) pgdir 0 524288) ->
  dense (k_mem k) pgdir -> KERNBASE < ld_end (k_link k) ->
  exists k' free', freevm pgdir e k = Ok tt e k' /\ alloc_ready rest k' free' /\ data_kept rest k k' /\
    free' ≡ₚ pgdir :: tables (k_mem k) pgdir ++ frames (k_mem k) pgdir 0 524288 ++ free.
Proof.
  intros Hr [Hokd [Hokt Hokf]%Forall_app]%Forall_cons Hdense Hlink. unfold freevm.
  assert (pgdir =? 0 = false) as ->.
  { apply Z.eqb_neq. destruct (page_ok_facts _ _ Hokd). done. }
  destruct (deallocuvm_ok pgdir KERNBASE 0 k e rest free) as (k1 & E1 & Hr1 & Hdk1 & Htab1 & _); try done.
  change (vpn (0 + 4095)) with 0 in Hr1. change (vpn (KERNBASE + 4095)) with 524288 in Hr1.
  rewrite (bind_Ok _ _ _ _ _ _ _ E1). set (free1 := reverse (frames (k_mem k) pgdir 0 524288) ++ free) in *.
  pose proof (space_pages _ _ _ _ Hr1) as Ha1. rewrite (tables_ext _ _ _ Htab1) in Ha1.
  assert (forall l, Forall (page_ok k) l -> Forall (page_ok k1) l) as Hok1
    by (intros l Hl; eapply Forall_impl; [exact Hl|]; intros q; unfold page_ok; by rewrite (proj1 Hdk1)).
  destruct (free_tables pgdir (seq 0 (Z.to_nat 1024)) k1 e (pgdir :: rest) free1) as (k2 & E2 & Ha2 & Hdk2);
    rewrite ?tables_seq, ?(tables_ext _ _ _ Htab1) in *.
  - intros i Hi%elem_of_seq. lia.
  - left.
  - done.
  - by apply Hok1.
  - change (Z.to_nat NPDENTRIES) with (Z.to_nat 1024). rewrite (bind_Ok _ _ _ _ _ _ _ E2).
    destruct (give_page rest k2 e pgdir _ Ha2) as (k3 & E3 & Ha3 & Hdk3).
    { apply Forall_singleton. assert (Forall (page_ok k) [pgdir]) as H1 by by constructor. apply Hok1 in H1.
      eapply Forall_impl; [exact H1|]. intros q. unfold page_ok. by rewrite (proj1 Hdk2). }
    exists k3. eexists. split; [exact E3|]. split; [exact Ha3|]. split.
    + etransitivity; [exact Hdk1|]. etransitivity; [|exact Hdk3]. destruct Hdk2 as [F M]. split; [done|].
      intros. apply M; [by right|done].
    + unfold free1. by rewrite !reverse_Permutation.
Qed.

(** [freevm] leaks nothing.  For an address space whose tables come without holes it
    returns, and afterwards the list of free pages has grown by exactly the
    directory, all of its tables and every page that was mapped below the
    kernel, each of them once; pages that belong to others keep their
    contents. *)
Theorem freevm_frees pgdir k e rest free :
  vm_ready (frames (k_mem k) pgdir 0 524288 ++ rest) k pgdir free ->
  Forall (page_ok k) (pgdir :: tables (k_mem k) pgdir ++ frames (k_mem k) pgdir 0 524288) ->
  dense (k_mem k) pgdir -> KERNBASE < ld_end (k_link k) ->
  exists k' free', freevm pgdir e k = Ok tt e k' /\ alloc_ready rest k' free' /\ data_kept rest k k' /\
    free' ≡ₚ pgdir :: tables (k_mem k) pgdir ++ frames (k_mem k) pgdir 0 524288 ++ free.
Proof. apply freevm_ok. Qed.

(** ** A copy and its end *)

Lemma frames_list m pgdir new j hi :
  (forall i p, new !! i = Some p -> frame m pgdir (j + Z.of_nat i) = Some p) ->
  (forall n, j + Z.of_nat (length new) <= n < hi -> frame m pgdir n = None) -> j + Z.of_nat (length new) <= hi ->
  frames m pgdir j hi = new.
Proof.
  revert j. induction new as [|p new IH]; intros j Hnew Hrest Hhi; cbn [length] in *.
  - apply frames_none. intros n Hn. apply Hrest. lia.
  - rewrite frames_cons by lia. specialize (Hnew 0%nat p eq_refl) as H0. rewrite Z.add_0_r in H0. rewrite H0. f_equal.
    apply IH; [|intros n Hn; apply Hrest; lia|lia]. intros i q Hq. rewrite <- (Hnew (S i) q Hq). f_equal. lia.
Qed.

(** The page of an entry. *)
Lemma entry_page p flags : kpage p -> 0 <= flags < 4096 -> p2v (PTE_ADDR (v2p p + flags)) = p.
Proof.
  intros Hp Hf. destruct (kpage_v2p p Hp) as [Hr Ha]. destruct (entry_fields (v2p p) flags Ha Hr Hf) as (_ & -> & _).
  by apply kpage_p2v.
Qed.

(** The pages of a copy, and its tables. *)
Lemma copy_frames pgdir sz k k' d new free data :
  0 <= sz <= KERNBASE -> link_ok (k_link k) -> length new = Z.to_nat (npages sz) -> vm_ready (reverse new ++ data) k' d free ->
  (forall x p, new !! Z.to_nat (vpn x) = Some p ->
     exists v, translation (k_mem k) pgdir x = Some v /\ translation (k_mem k') d x = Some (v2p p + PTE_FLAGS v)) ->
  (forall x, npages sz <= vpn x -> translation (k_mem k') d x = entry_of (kmap (k_link k)) x) ->
  (forall i, i < 512 -> npages sz <= 1024 * i -> table (k_mem k') d i = None) ->
  frames (k_mem k') d 0 524288 = new /\ dense (k_mem k') d.
Proof.
  intros Hsz Hlink Hl Hr Hcp Hk Hnt. assert (0 <= npages sz <= 524288) as Hnp.
  { unfold npages, vpn, KERNBASE in *. rewrite u32_small by lia. Z.div_mod_to_equations. lia. }
  split; [apply frames_list|].
  - intros i p Hp. pose proof (lookup_lt_Some _ _ _ Hp) as Hlt. rewrite Hl in Hlt. unfold frame.
    destruct (Hcp (4096 * Z.of_nat i) p) as (v & Hv & Htr); [by rewrite vpn_page, Nat2Z.id by lia|].
    rewrite Z.add_0_l, Htr. cbn. f_equal. apply entry_page.
    + apply (pt_free _ _ _ (vr_pt _ _ _ _ Hr) p). rewrite !elem_of_app, elem_of_reverse. right; left.
      by eapply list_elem_of_lookup_2.
    + apply flags_kept. by eapply translation_present.
  - intros n Hn. rewrite Hl in Hn. unfold frame. rewrite Hk by (rewrite vpn_page; lia).
    rewrite (entry_of_below 524288); [done|by apply kmap_ok|rewrite vpn_page; lia].
  - rewrite Hl. lia.
  - intros i j Hij Hj Hnone. apply Hnt; [done|]. destruct (decide (npages sz <= 1024 * i)) as [|Hlt]; [lia|].
    destruct (lookup_lt_is_Some_2 new (Z.to_nat (1024 * i))) as [p Hp]; [lia|].
    destruct (Hcp (4096 * (1024 * i)) p) as (v & _ & Htr); [by rewrite vpn_page by lia|].
    unfold translation in Htr. rewrite PDX_eq, vpn_page in Htr by lia.
    replace (1024 * i / 1024) with i in Htr by (rewrite Z.mul_comm, Z.div_mul; lia). by rewrite Hnone in Htr.
Qed.

(** A copied address space can be given back without a trace.  With enough free pages,
    [copyuvm] of a process and [freevm] of the copy both return, and the
    allocator then has exactly the pages it had before, while the pages of the
    process and of all others keep their contents: a [fork] and the end of the
    child lose no page. *)
Theorem copyuvm_freevm data pgdir sz k e free :
  alloc_ready data k free -> link_ok (k_link k) -> 0 <= sz <= KERNBASE ->
  space data (k_mem k) pgdir (npages sz) -> (Z.to_nat (npages sz) + 1026 <= length free)%nat ->
  exists d k' k'' free'', copyuvm pgdir sz e k = Ok d e k' /\ freevm d e k' = Ok tt e k'' /\
    alloc_ready data k'' free'' /\ free'' ≡ₚ free /\ data_kept data k k''.
Proof.
  intros Har Hlink Hsz Hs Hlen.
  destruct (copyuvm_ok data pgdir sz k e free Har Hlink Hsz Hs Hlen) as
    (d & k1 & free1 & new & E1 & _ & Hl & Hr & Hdk & Hperm & Hcp & Hk & Hnt).
  destruct (copy_frames pgdir sz k k1 d new free1 data) as [Hfr Hdense]; try done.
  { intros x p Hp. destruct (Hcp x p Hp) as (v & Hv & Htr & _). by exists v. }
  assert (Forall (page_ok k1) (d :: new ++ free1 ++ tables (k_mem k1) d)) as Hok.
  { rewrite <- Hperm. eapply Forall_impl; [apply (fp_ok _ _ (ar_free _ _ _ Har))|].
    intros q. unfold page_ok. by rewrite (proj1 Hdk). }
  destruct (freevm_ok d k1 e data free1) as (k2 & free2 & E2 & Ha2 & Hdk2 & Hperm2); [| |done| |].
  - rewrite Hfr. eapply vm_ready_perm; [|exact Hr]. by rewrite reverse_Permutation.
  - rewrite Hfr. revert Hok. rewrite !Forall_cons, !Forall_app. tauto.
  - rewrite (proj1 Hdk). apply Hlink.
  - exists d, k1, k2, free2. split; [done|]. split; [done|]. split; [done|]. split; [|by etransitivity].
    rewrite Hperm2, Hperm, Hfr. f_equiv. rewrite (Permutation_app_comm (tables _ _)), <- app_assoc. done.
Qed.

(** ** The process of [Uvm] *)

Lemma parent_frames : frames (k_mem parent) 0x80300000 0 524288 = [0x80302000].
Proof.
  apply frames_list.
  - intros [|i] p Hp; [injection Hp as <-|done]. unfold frame. by rewrite parent_translation.
  - intros n Hn. cbn [length] in Hn. unfold frame, translation.
    destruct (decide (n < 1024)) as [Hlt|Hge].
    + rewrite PDX_eq, PTX_eq, vpn_page by lia. rewrite (Z.div_small n), (Z.mod_small n) by lia.
      rewrite parent_table, decide_True by lia. cbn [mbind option_bind]. cbv zeta.
      destruct parent_freed as (_ & _ & _ & Hm). rewrite (load32_ext _ parent_mem) by (intros; apply Hm; lia).
      unfold parent_mem. by rewrite !load32_store32_ne by lia.
    + rewrite PDX_eq, vpn_page by lia. rewrite parent_table, decide_False; [done| |].
      * pose proof (Z.div_le_mono 1024 n 1024 ltac:(lia) ltac:(lia)). change (1024 / 1024) with 1 in *. lia.
      * split; [apply Z.div_pos; lia|apply Z.div_lt_upper_bound; lia].
  - cbn. lia.
Qed.

Lemma parent_tables : tables (k_mem parent) 0x80300000 = [0x80301000].
Proof.
  rewrite <- tables_seq. rewrite (omap_ext_in _ (fun i => if (i =? 0)%nat then Some 0x80301000 else None)).
  - vm_compute. reflexivity.
  - intros i Hi%elem_of_seq. rewrite parent_table by lia. by destruct i.
Qed.

Lemma parent_vm : vm_ready [0x80302000; 0x80303000] parent 0x80300000 parent_free.
Proof.
  destruct parent_ready as [[Hk Hf Hd Hnd] Hs]. split; [done|done| |].
  - assert (forall q, q ∈ parent_free ++ [0x80302000; 0x80303000] -> q ∈ parent_free ++ parent_pages /\ q <> 0x80300000 /\ q <> 0x80301000) as Hq.
    { intros q [Hq|Hq]%elem_of_app.
      - split; [apply elem_of_app; by left|]. unfold parent_free in Hq. rewrite elem_of_rev in Hq.
        apply elem_of_range in Hq as (i & _ & ->). lia.
      - split; [apply elem_of_app; right; right; right; exact Hq|].
        apply elem_of_cons in Hq as [Hq|Hq%list_elem_of_singleton]; lia. }
    split.
    + by vm_compute.
    + intros i t Hi. rewrite parent_table by done. case_decide; [|done]. intros [= <-]. split; [by vm_compute|lia].
    + intros i j t Hi Hj. rewrite !parent_table by done. by do 2 case_decide; subst.
    + intros q Hin. destruct (Hq q Hin) as (Hin' & H1 & H2). split; [|split; [done|]].
      * apply elem_of_app in Hin' as [Hin'|Hin']; [|by eapply Forall_forall in Hd].
        pose proof (free_kpages _ _ Hf) as Hkf. by eapply Forall_forall in Hkf.
      * intros i Hi. rewrite parent_table by done. case_decide; congruence.
  - apply NoDup_app in Hnd as (H1 & H2 & H3). apply NoDup_app. split; [done|]. split.
    + intros q Hq Hin. apply (H2 _ Hq). right. right. exact Hin.
    + by do 2 apply NoDup_cons in H3 as [_ H3].
Qed.

Lemma parent_page p : p mod 4096 = 0 -> 0x80120000 <= p < 0x80400000 -> page_ok parent p.
Proof.
  intros Ha Hp. destruct parent_freed as (_ & _ & Hl & _). unfold page_ok. rewrite Hl.
  unfold PGSIZE, KERNBASE, PHYSTOP. cbn [ld_end k_link Demo.machine Demo.link0]. lia.
Qed.

Lemma freevm_frees_witness :
  exists k' free', freevm 0x80300000 [] parent = Ok tt [] k' /\ alloc_ready [0x80303000] k' free' /\
    data_kept [0x80303000] parent k' /\ free' ≡ₚ 0x80300000 :: [0x80301000] ++ [0x80302000] ++ parent_free.
Proof.
  rewrite <- parent_tables, <- parent_frames.
  apply (freevm_frees 0x80300000 parent [] [0x80303000] parent_free).
  - rewrite parent_frames. apply parent_vm.
  - rewrite parent_frames, parent_tables. cbn [app].
    do 3 (apply Forall_cons_2; [apply parent_page; [reflexivity|lia]|]). apply Forall_nil_2.
  - intros i j Hij Hj. rewrite !parent_table by lia. repeat case_decide; done || lia.
  - apply parent_link.
Defined.

Lemma copyuvm_freevm_witness :
  exists d k' k'' free'', copyuvm 0x80300000 4096 [] parent = Ok d [] k' /\ freevm d [] k' = Ok tt [] k'' /\
    alloc_ready parent_pages k'' free'' /\ free'' ≡ₚ parent_free /\ data_kept parent_pages parent k''.
Proof.
  apply (copyuvm_freevm parent_pages 0x80300000 4096 parent [] parent_free).
  - apply parent_ready.
  - apply parent_link.
  - unfold KERNBASE. lia.
  - apply parent_ready.
  - apply parent_enough.
Defined.

End Freevm.
