(* ===== verification/Pipe.v ===== *)
(** pipe.c: pipes.

    A pipe is in a page of its own; [k_pipes] has the pipes by the address of
    the page.  [Pipe] translates the functions, [PipeSpec] relates the circular
    buffer to a queue of bytes. *)

From S2P Require Import Prelude Bytes Machine Demo Cstring Spinlock Kalloc Sleep.
Import Cstring Spinlock Kalloc Sleep.

Module Pipe.

(** ** The operations *)

Definition PIPESIZE : Z := 512.

Definition pipeclose (p : Z) (writable : bool) : K unit :=
  acquire (L_pipe p) ;;
  (if writable then
     upd_pipe p (set_pp_writeopen false) ;;
     wakeup (Ch_nread p)
   else
     upd_pipe p (set_pp_readopen false) ;;
     wakeup (Ch_nwrite p)) ;;
  pp <- get_pipe p ;;
  if negb (pp_readopen pp) && negb (pp_writeopen pp) then
    release (L_pipe p) ;;
    kfree p ;;
    modify (fun k => set_k_pipes (delete p (k_pipes k)) k)
  else release (L_pipe p).

(** The process has been killed. *)
Definition cur_killed : K bool :=
  me <- curproc ;;
  pr <- get_proc me ;;
  ret (nz (p_killed pr)).

(** [p->data[p->nwrite++ % PIPESIZE] = c;] *)
Definition put_char (p : Z) (c : Z) : K unit :=
  pp <- get_pipe p ;;
  upd_pipe p (set_pp_data (<[Z.to_nat (pp_nwrite pp mod PIPESIZE) := c]> (pp_data pp))) ;;
  upd_pipe p (set_pp_nwrite (u32 (pp_nwrite pp + 1))).

(** One iteration of [pipewrite]: [Some (-1)] is the return inside of the
    wait. *)
Definition pipewrite_char (p : Z) (c : Z) : K (option Z) :=
  r <- loop_sched (fun _ : unit =>
    pp <- get_pipe p ;;
    if negb (pp_nwrite pp =? u32 (pp_nread pp + PIPESIZE)) then ret (inr None) else
    killed <- (if negb (pp_readopen pp) then ret true else cur_killed) ;;
    if killed : bool then
      release (L_pipe p) ;;
      ret (inr (Some (-1)))
    else
      wakeup (Ch_nread p) ;;
      sleep (Ch_nwrite p) (Some (L_pipe p)) ;;
      ret (inl tt)) tt ;;
  match r with
  | Some v => ret (Some v)
  | None => put_char p c ;; ret None
  end.

Definition pipewrite (p : Z) (addr : list Z) (n : Z) : K Z :=
  acquire (L_pipe p) ;;
  r <- for_each (take (Z.to_nat n) addr) (pipewrite_char p) ;;
  match r with
  | Some v => ret v
  | None =>
      wakeup (Ch_nread p) ;;
      release (L_pipe p) ;;
      ret n
  end.

(** The copy loop of [piperead]: the bytes read. *)
Fixpoint piperead_copy (p : Z) (n : nat) : K (list Z) :=
  match n with
  | O => ret []
  | S n' =>
      pp <- get_pipe p ;;
      if pp_nread pp =? pp_nwrite pp then ret [] else
      let c := nth (Z.to_nat (pp_nread pp mod PIPESIZE)) (pp_data pp) 0 in
      upd_pipe p (set_pp_nread (u32 (pp_nread pp + 1))) ;;
      l <- piperead_copy p n' ;;
      ret (c :: l)
  end.

Definition piperead (p : Z) (n : Z) : K (list Z * Z) :=
  acquire (L_pipe p) ;;
  r <- loop_sched (fun _ : unit =>
    pp <- get_pipe p ;;
    if negb ((pp_nread pp =? pp_nwrite pp) && pp_writeopen pp) then ret (inr None) else
    killed <- cur_killed ;;
    if killed : bool then
      release (L_pipe p) ;;
      ret (inr (Some (-1)))
    else
      sleep (Ch_nread p) (Some (L_pipe p)) ;;
      ret (inl tt)) tt ;;
  match r with
  | Some v => ret ([], v)
  | None =>
      l <- piperead_copy p (Z.to_nat n) ;;
      wakeup (Ch_nwrite p) ;;
      release (L_pipe p) ;;
      ret (l, Z.of_nat (length l))
  end.

End Pipe.

(** ** The circular buffer as a queue *)

Module PipeSpec.
Import Pipe.

(** The buffer of [pp] holds the bytes [q], oldest first.  The counters are
    32-bit numbers that wrap around. *)
Record pipe_is (pp : pipe) (q : list Z) : Prop := {
  pi_data : length (pp_data pp) = 512%nat;
  pi_nread : 0 <= pp_nread pp < 4294967296;
  pi_nwrite : pp_nwrite pp = u32 (pp_nread pp + Z.of_nat (length q));
  pi_room : (length q <= 512)%nat;
  pi_bytes : forall i, (i < length q)%nat ->
    nth (Z.to_nat ((pp_nread pp + Z.of_nat i) mod PIPESIZE)) (pp_data pp) 0 = nth i q 0
}.

(** The assignments of one iteration of the two copy loops. *)
Definition put (c : Z) (pp : pipe) : pipe :=
  set_pp_nwrite (u32 (pp_nwrite pp + 1))
    (set_pp_data (<[Z.to_nat (pp_nwrite pp mod PIPESIZE) := c]> (pp_data pp)) pp).
Definition next_char (pp : pipe) : Z :=
  nth (Z.to_nat (pp_nread pp mod PIPESIZE)) (pp_data pp) 0.
Definition get (pp : pipe) : pipe := set_pp_nread (u32 (pp_nread pp + 1)) pp.

(** The tests of the two functions. *)
Definition full (pp : pipe) : bool := pp_nwrite pp =? u32 (pp_nread pp + PIPESIZE).
Definition empty (pp : pipe) : bool := pp_nread pp =? pp_nwrite pp.

Lemma u32_mod_pipesize z : u32 z mod PIPESIZE = z mod PIPESIZE.
Proof.
  unfold u32, PIPESIZE. rewrite (Z.div_mod z 4294967296) at 2 by lia.
  replace (4294967296 * (z / 4294967296)) with (8388608 * (z / 4294967296) * 512) by lia.
  rewrite Z.add_comm, Z.mod_add by lia. done.
Qed.

Lemma u32_add_inj a m n : 0 <= m < 4294967296 -> 0 <= n < 4294967296 -> u32 (a + m) = u32 (a + n) -> m = n.
Proof.
  unfold u32. intros Hm Hn H.
  assert (((a + m) - (a + n)) mod 4294967296 = 0) as Hz.
  { rewrite Zminus_mod, H, Z.sub_diag. done. }
  replace (a + m - (a + n)) with (m - n) in Hz by lia.
  apply Z.mod_divide in Hz as [x Hx]; [|lia]. nia.
Qed.

Lemma full_spec pp q : pipe_is pp q -> full pp = (length q =? 512)%nat.
Proof.
  intros [_ _ Hw Hr _]. unfold full. rewrite Hw. unfold PIPESIZE.
  destruct (Nat.eqb_spec (length q) 512) as [->|Hne].
  - by rewrite Z.eqb_refl.
  - apply Z.eqb_neq. intros E. apply u32_add_inj in E; lia.
Qed.

Lemma empty_spec pp q : pipe_is pp q -> empty pp = (length q =? 0)%nat.
Proof.
  intros [_ Hn Hw Hr _]. unfold empty. rewrite Hw.
  destruct (Nat.eqb_spec (length q) 0) as [->|Hne].
  - rewrite Z.add_0_r, u32_small by lia. by rewrite Z.eqb_refl.
  - apply Z.eqb_neq. rewrite <- (u32_small (pp_nread pp)) at 1 by lia.
    rewrite <- (Z.add_0_r (pp_nread pp)) at 1. intros E. apply u32_add_inj in E; lia.
Qed.

Lemma slots_differ a i j : 0 <= i < 512 -> 0 <= j < 512 -> (a + i) mod 512 = (a + j) mod 512 -> i = j.
Proof.
  intros Hi Hj H. assert (((a + i) - (a + j)) mod 512 = 0) as Hz by (rewrite Zminus_mod, H, Z.sub_diag; done).
  replace (a + i - (a + j)) with (i - j) in Hz by lia.
  apply Z.mod_divide in Hz as [x Hx]; [|lia]. nia.
Qed.

Lemma pipe_put pp q c : pipe_is pp q -> (length q < 512)%nat -> pipe_is (put c pp) (q ++ [c]).
Proof.
  intros [Hd Hn Hw Hr Hb] Hl. unfold put.
  split; cbn [pp_data pp_nread pp_nwrite set_pp_nwrite set_pp_data].
  - by rewrite length_insert.
  - done.
  - rewrite Hw, length_app. cbn [length]. unfold u32. rewrite Zplus_mod_idemp_l. f_equal. lia.
  - rewrite length_app. cbn. lia.
  - rewrite Hw, u32_mod_pipesize. unfold PIPESIZE in *. intros i Hi. rewrite length_app in Hi. cbn in Hi.
    pose proof (Z.mod_pos_bound (pp_nread pp + Z.of_nat i) 512 ltac:(lia)).
    pose proof (Z.mod_pos_bound (pp_nread pp + Z.of_nat (length q)) 512 ltac:(lia)).
    rewrite nth_lookup. destruct (decide (i = length q)) as [->|Hne].
    + rewrite list_lookup_insert_eq by lia. by rewrite nth_middle.
    + rewrite list_lookup_insert_ne.
      * rewrite <- nth_lookup, Hb by lia. by rewrite app_nth1 by lia.
      * intros E. apply Z2Nat.inj in E; [|lia|lia]. symmetry in E. apply slots_differ in E; lia.
Qed.

Lemma pipe_get pp c q : pipe_is pp (c :: q) -> next_char pp = c /\ pipe_is (get pp) q.
Proof.
  intros [Hd Hn Hw Hr Hb]. cbn [length] in *. split.
  - specialize (Hb 0%nat ltac:(lia)). rewrite Z.add_0_r in Hb. exact Hb.
  - unfold get. split; cbn [pp_data pp_nread pp_nwrite set_pp_nread].
    + done.
    + apply u32_range.
    + rewrite Hw. unfold u32. rewrite Zplus_mod_idemp_l. f_equal. lia.
    + lia.
    + intros i Hi. specialize (Hb (S i) ltac:(lia)). cbn [nth] in Hb. rewrite <- Hb.
      rewrite <- u32_mod_pipesize. unfold u32 at 1 2. rewrite Zplus_mod_idemp_l.
      fold (u32 (pp_nread pp + 1 + Z.of_nat i)). rewrite u32_mod_pipesize. do 3 f_equal. lia.
Qed.

(** Any interleaving of the two loops' iterations on a pipe whose counters start
    at [n]; [w] and [r] are the bytes written and read so far. *)
Inductive pipe_run (n : Z) : pipe -> list Z -> list Z -> Prop :=
| run_start pp :
    length (pp_data pp) = 512%nat -> pp_nread pp = n -> pp_nwrite pp = n -> pipe_run n pp [] []
| run_write pp w r c :
    pipe_run n pp w r -> full pp = false -> pipe_run n (put c pp) (w ++ [c]) r
| run_read pp w r :
    pipe_run n pp w r -> empty pp = false -> pipe_run n (get pp) w (r ++ [next_char pp]).



(** ** The system calls' functions *)

Lemma upd_pipe_ok {B} p f pp (g : unit -> K B) e k :
  k_pipes k !! p = Some pp ->
  bind (upd_pipe p f) g e k = g tt e (set_k_pipes (<[p := f pp]> (k_pipes k)) k).
Proof.
  intros H. rewrite upd_pipe_eq. do 2 f_equal.
  rewrite <- (insert_id (k_pipes k) p pp H) at 1. by rewrite alter_insert_eq.
Qed.

Lemma get_pipe_ok {B} p pp (g : pipe -> K B) e k :
  k_pipes k !! p = Some pp -> bind (get_pipe p) g e k = g pp e k.
Proof. intros H. rewrite get_pipe_eq. unfold pipe_at. by rewrite H. Qed.

(** State [k] with pipe [p] replaced. *)
Definition with_pipe (p : Z) (pp : pipe) (k : kernel) : kernel :=
  set_k_pipes (<[p := pp]> (k_pipes k)) k.

Lemma with_pipe_twice p pp pp' k : with_pipe p pp' (with_pipe p pp k) = with_pipe p pp' k.
Proof. unfold with_pipe. cbn. by rewrite insert_insert_eq, set_set_k_pipes. Qed.

Lemma with_pipe_id p pp k : k_pipes k !! p = Some pp -> with_pipe p pp k = k.
Proof. intros H. unfold with_pipe. rewrite insert_id by done. by destruct k. Qed.

Lemma put_char_ok p c pp e k :
  k_pipes k !! p = Some pp -> put_char p c e k = Ok tt e (with_pipe p (put c pp) k).
Proof.
  intros H. unfold put_char. rewrite (get_pipe_ok p pp) by done.
  rewrite (upd_pipe_ok p _ pp) by done.
  rewrite <- (bind_ret_r (upd_pipe p _) e _).
  erewrite upd_pipe_ok by (cbn; apply lookup_insert_eq).
  cbn. rewrite insert_insert_eq. done.
Qed.

Lemma pipewrite_char_ok p c pp e k :
  k_pipes k !! p = Some pp -> full pp = false ->
  pipewrite_char p c e k = Ok None e (with_pipe p (put c pp) k).
Proof.
  intros H Hf. unfold pipewrite_char.
  assert (loop_sched (fun _ : unit =>
    pp <- get_pipe p ;;
    if negb (pp_nwrite pp =? u32 (pp_nread pp + PIPESIZE)) then ret (inr None) else
    killed <- (if negb (pp_readopen pp) then ret true else cur_killed) ;;
    if killed : bool then
      release (L_pipe p) ;;
      ret (inr (Some (-1)))
    else
      wakeup (Ch_nread p) ;;
      sleep (Ch_nwrite p) (Some (L_pipe p)) ;;
      ret (inl tt)) tt e k = Ok None e k) as Hloop.
  { unfold loop_sched. cbn [loop_fuel]. rewrite bind_bind_eq, (get_pipe_ok p pp) by done.
    unfold full in Hf. by rewrite Hf. }
  rewrite (bind_Ok _ _ _ _ _ _ _ Hloop). rewrite (bind_Ok _ _ _ _ _ _ _ (put_char_ok p c pp e k H)).
  done.
Qed.

Lemma write_loop_ok p l pp q e k :
  k_pipes k !! p = Some pp -> pipe_is pp q -> (length q + length l <= 512)%nat ->
  exists pp', for_each l (pipewrite_char p) e k = Ok None e (with_pipe p pp' k) /\
    pipe_is pp' (q ++ l) /\ pp_readopen pp' = pp_readopen pp /\ pp_writeopen pp' = pp_writeopen pp.
Proof.
  revert pp q k. induction l as [|c l IH]; intros pp q k Hp Hq Hl.
  - exists pp. rewrite app_nil_r. by rewrite with_pipe_id.
  - cbn [length] in Hl. cbn [for_each]. assert (full pp = false) as Hf.
    { rewrite (full_spec _ _ Hq). apply Nat.eqb_neq. lia. }
    rewrite (bind_Ok _ _ _ _ _ _ _ (pipewrite_char_ok p c pp e k Hp Hf)).
    destruct (IH (put c pp) (q ++ [c]) (with_pipe p (put c pp) k)) as (pp' & E & Hi & H1 & H2).
    + apply lookup_insert_eq.
    + apply pipe_put; [done|lia].
    + rewrite length_app. cbn. lia.
    + exists pp'. rewrite E, with_pipe_twice. rewrite <- app_assoc in Hi. done.
Qed.

(** The locks [pipewrite] and [piperead] take are free, and the table of
    processes is whole. *)
Definition pipe_ready (p : Z) (k : kernel) : Prop :=
  lock_free (L_pipe p) k /\ lock_free L_ptable k /\ cpu_ok k /\ length (k_ptable k) = NPROC.

(** The state after the pipe changed to [pp] and the sleepers on [ch] were woken. *)
Definition pipe_done (p : Z) (pp : pipe) (ch : chan) (k : kernel) : kernel :=
  set_k_ptable (wake ch <$> k_ptable k) (with_pipe p pp k).

Lemma pipe_finish {A} p pp ch (a : A) e k :
  pipe_ready p k ->
  (wakeup ch ;; release (L_pipe p) ;; ret a) e (with_pipe p pp (lock_taken (L_pipe p) k)) =
  Ok a e (pipe_done p pp ch k).
Proof.
  intros (Hl & Hpt & Hc & Hn).
  erewrite bind_Ok.
  2:{ apply wakeup_ok; [done| |by apply (lock_taken_cpu_ok (L_pipe p))].
      apply (lock_free_other L_ptable (L_pipe p) k); done. }
  erewrite bind_Ok by (apply (release_ok (L_pipe p) e k); done).
  by destruct k.
Qed.

Lemma piperead_copy_ok p n pp q e k :
  k_pipes k !! p = Some pp -> pipe_is pp q ->
  exists pp', piperead_copy p n e k = Ok (take n q) e (with_pipe p pp' k) /\
    pipe_is pp' (drop n q) /\ pp_readopen pp' = pp_readopen pp /\ pp_writeopen pp' = pp_writeopen pp.
Proof.
  revert pp q k. induction n as [|n IH]; intros pp q k Hp Hq.
  - exists pp. rewrite with_pipe_id by done. by rewrite drop_0.
  - cbn [piperead_copy]. rewrite (get_pipe_ok p pp) by done.
    pose proof (empty_spec _ _ Hq) as He. unfold empty in He. rewrite He.
    destruct q as [|c q]; cbn [length Nat.eqb].
    + exists pp. by rewrite with_pipe_id.
    + rewrite (upd_pipe_ok p _ pp) by done.
      destruct (pipe_get _ _ _ Hq) as [Hc Hg].
      destruct (IH (get pp) q (with_pipe p (get pp) k)) as (pp' & E & Hi & H1 & H2);
        [apply lookup_insert_eq|done|].
      erewrite bind_Ok by exact E.
      exists pp'. unfold ret. rewrite with_pipe_twice. unfold next_char in Hc. rewrite Hc. done.
Qed.

(** C23: Writing to a pipe with room for the bytes never blocks: [pipewrite] returns the
    number of bytes, they are at the end of the queue, and the readers are
    woken.  Reading from a pipe that has bytes, or whose write end is closed,
    never blocks either: [piperead] takes up to [n] bytes from the front of the
    queue, returns how many (0 at the end of the file), and wakes the writers. *)
Theorem pipe_write_read p pp q e k :
  pipe_ready p k -> k_pipes k !! p = Some pp -> pipe_is pp q ->
  (forall addr n, 0 <= n -> Z.of_nat (length addr) = n -> Z.of_nat (length q) + n <= 512 ->
     exists pp', pipewrite p addr n e k = Ok n e (pipe_done p pp' (Ch_nread p) k) /\
       pipe_is pp' (q ++ addr)) /\
  (forall n, q <> [] \/ pp_writeopen pp = false ->
     exists pp', piperead p n e k =
         Ok (take (Z.to_nat n) q, Z.of_nat (length (take (Z.to_nat n) q))) e
           (pipe_done p pp' (Ch_nwrite p) k) /\
       pipe_is pp' (drop (Z.to_nat n) q)).
Proof.
  intros Hr Hp Hq. pose proof Hr as (Hl & _ & Hc & _). split.
  - intros addr n Hn Hlen Hroom. unfold pipewrite. erewrite bind_Ok by (by apply acquire_ok).
    destruct (write_loop_ok p (take (Z.to_nat n) addr) pp q e (lock_taken (L_pipe p) k) Hp Hq)
      as (pp' & E & Hi & _); [rewrite length_take; lia|].
    erewrite bind_Ok by exact E. exists pp'. split; [by apply pipe_finish|].
    by rewrite take_ge in Hi by lia.
  - intros n Hnb. unfold piperead. erewrite bind_Ok by (by apply acquire_ok).
    match goal with |- context [loop_sched ?b tt] => 
      assert (loop_sched b tt e (lock_taken (L_pipe p) k) = Ok None e (lock_taken (L_pipe p) k)) as Hloop end.
    { unfold loop_sched. cbn [loop_fuel]. rewrite bind_bind_eq, (get_pipe_ok p pp) by done.
      pose proof (empty_spec _ _ Hq) as He. unfold empty in He. rewrite He.
      destruct Hnb as [Hne|Hw].
      - destruct q; [done|]. reflexivity.
      - rewrite Hw, andb_false_r. reflexivity. }
    erewrite bind_Ok by exact Hloop. cbv beta iota.
    destruct (piperead_copy_ok p (Z.to_nat n) pp q e (lock_taken (L_pipe p) k) Hp Hq)
      as (pp' & E & Hi & _).
    erewrite bind_Ok by exact E. exists pp'. split; [by apply pipe_finish|done].
Qed.

(** A pipe at address 0x80200000 that holds one byte. *)
Definition example_pipe : pipe := put 65 (mkPipe (replicate 512 0) 0 0 true true).
Definition example_kernel : kernel :=
  set_k_locks (<[L_pipe 0x80200000 := mkSpinlock 0 "pipe" None]> (k_locks Demo.machine))
    (set_k_pipes {[ 0x80200000 := example_pipe ]} Demo.machine).

Lemma pipe_write_read_witness :
  (forall addr n, 0 <= n -> Z.of_nat (length addr) = n -> Z.of_nat (length [65]) + n <= 512 ->
     exists pp', pipewrite 0x80200000 addr n [] example_kernel =
         Ok n [] (pipe_done 0x80200000 pp' (Ch_nread 0x80200000) example_kernel) /\
       pipe_is pp' ([65] ++ addr)) /\
  (forall n, [65] <> [] \/ pp_writeopen example_pipe = false ->
     exists pp', piperead 0x80200000 n [] example_kernel =
         Ok (take (Z.to_nat n) [65], Z.of_nat (length (take (Z.to_nat n) [65]))) []
           (pipe_done 0x80200000 pp' (Ch_nwrite 0x80200000) example_kernel) /\
       pipe_is pp' (drop (Z.to_nat n) [65])).
Proof.
  apply (pipe_write_read 0x80200000 example_pipe [65] [] example_kernel).
  - split; [exists "pipe"%string; reflexivity|]. split; [exists "ptable"%string; reflexivity|].
    split; [|reflexivity]. split; [cbn; lia|]. split; [done|cbn; lia].
  - reflexivity.
  - apply (pipe_put _ [] 65); [|cbn; lia]. split; cbn; try done; lia.
Defined.

End PipeSpec.
