(* ===== verification/File.v ===== *)
(** file.c and [pipealloc] of pipe.c: the table of open files. *)

From S2P Require Import Prelude Bytes Machine Demo Cstring Spinlock Kalloc Sleep Disk Bio Log Fs Pipe.
Import Spinlock Kalloc Sleep Log Fs Pipe.

Module File.

(** ** The operations *)

Definition fileinit : K unit := initlock L_ftable "ftable".

Definition filealloc : K (option nat) :=
  acquire L_ftable ;;
  r <- for_each (seq 0 NFILE) (fun f =>
    fl <- get_file f ;;
    if f_ref fl =? 0 then
      upd_file f (set_f_ref 1) ;;
      release L_ftable ;;
      ret (Some f)
    else ret None) ;;
  match r with
  | Some f => ret (Some f)
  | None => release L_ftable ;; ret None
  end.

Definition filedup (f : nat) : K nat :=
  acquire L_ftable ;;
  fl <- get_file f ;;
  if f_ref fl <? 1 then panic "filedup" else
  upd_file f (set_f_ref (f_ref fl + 1)) ;;
  release L_ftable ;;
  ret f.

Section fs.
Context `{DiskDriver} `{Devsw}.

Definition fileclose (f : nat) : K unit :=
  acquire L_ftable ;;
  fl <- get_file f ;;
  if f_ref fl <? 1 then panic "fileclose" else
  upd_file f (set_f_ref (f_ref fl - 1)) ;;
  if 0 <? f_ref fl - 1 then release L_ftable else
  ff <- get_file f ;;
  upd_file f (set_f_ref 0) ;;
  upd_file f (set_f_type FD_NONE) ;;
  release L_ftable ;;
  match f_type ff with
  | FD_PIPE => pipeclose (f_pipe ff) (f_writable ff)
  | FD_INODE =>
      begin_op ;;
      match f_ip ff with
      | Some ip => iput ip
      | None => undefined
      end ;;
      end_op
  | FD_NONE => ret tt
  end.

Definition filestat (f : nat) : K (option stat) :=
  fl <- get_file f ;;
  if bool_decide (f_type fl = FD_INODE) then
    ilock (f_ip fl) ;;
    st <- match f_ip fl with Some ip => stati ip | None => undefined end ;;
    iunlock (f_ip fl) ;;
    ret (Some st)
  else ret None.

Definition fileread (f : nat) (n : Z) : K (list Z * Z) :=
  fl <- get_file f ;;
  if negb (f_readable fl) then ret ([], -1) else
  match f_type fl with
  | FD_PIPE => piperead (f_pipe fl) n
  | FD_INODE =>
      ilock (f_ip fl) ;;
      fl <- get_file f ;;
      ' (bytes, r) <-
        match f_ip fl with
        | Some ip => readi ip (f_off fl) (u32 n)
        | None => undefined
        end ;;
      when (0 <? r) (upd_file f (set_f_off (u32 (f_off fl + r)))) ;;
      iunlock (f_ip fl) ;;
      ret (bytes, r)
  | FD_NONE => panic "fileread"
  end.

(** The largest write of one transaction. *)
Definition max_write : Z := (LOGSIZE - 1 - 1 - 2) / 2 * 512.

Definition filewrite (f : nat) (addr : list Z) (n : Z) : K Z :=
  fl <- get_file f ;;
  if negb (f_writable fl) then ret (-1) else
  match f_type fl with
  | FD_PIPE => pipewrite (f_pipe fl) addr n
  | FD_INODE =>
      i <- loop_fuel (S (S (Z.to_nat n))) (fun i =>
        if negb (i <? n) then ret (inr i) else
        let n1 := if max_write <? n - i then max_write else n - i in
        begin_op ;;
        fl <- get_file f ;;
        ilock (f_ip fl) ;;
        fl <- get_file f ;;
        r <- match f_ip fl with
             | Some ip => writei ip (slice (Z.to_nat i) (Z.to_nat n1) addr) (f_off fl) n1
             | None => undefined
             end ;;
        when (0 <? r) (upd_file f (set_f_off (u32 (f_off fl + r)))) ;;
        iunlock (f_ip fl) ;;
        end_op ;;
        if r <? 0 then ret (inr i) else
        if negb (r =? n1) then panic "short filewrite" else
        ret (inl (i + r))) 0 ;;
      ret (if i =? n then n else -1)
  | FD_NONE => panic "filewrite"
  end.

(** The contents of a new pipe's buffer are what the page has there. *)
Definition page_data (m : Z -> Z) (p : Z) : list Z :=
  (fun i => m (p + 52 + Z.of_nat i)) <$> seq 0 512.

(** The two ends, or [None] on failure. *)
Definition pipealloc : K (option (nat * nat)) :=
  r0 <- filealloc ;;
  match r0 with
  | None => ret None
  | Some f0 =>
      r1 <- filealloc ;;
      match r1 with
      | None => fileclose f0 ;; ret None
      | Some f1 =>
          p <- kalloc ;;
          if p =? 0 then fileclose f0 ;; fileclose f1 ;; ret None else
          modify (fun k =>
            set_k_pipes (<[p := mkPipe (page_data (k_mem k) p) 0 0 true true]> (k_pipes k)) k) ;;
          initlock (L_pipe p) "pipe" ;;
          upd_file f0 (set_f_type FD_PIPE) ;;
          upd_file f0 (set_f_readable true) ;;
          upd_file f0 (set_f_writable false) ;;
          upd_file f0 (set_f_pipe p) ;;
          upd_file f1 (set_f_type FD_PIPE) ;;
          upd_file f1 (set_f_readable false) ;;
          upd_file f1 (set_f_writable true) ;;
          upd_file f1 (set_f_pipe p) ;;
          ret (Some (f0, f1))
      end
  end.

End fs.

(** ** Reference counts *)

Lemma filealloc_ok e k :
  length (k_ftable k) = NFILE -> lock_free L_ftable k -> cpu_ok k ->
  filealloc e k =
    match list_find (fun f => f_ref f = 0) (k_ftable k) with
    | Some (i, f) => Ok (Some i) e (set_k_ftable (<[i := set_f_ref 1 f]> (k_ftable k)) k)
    | None => Ok None e k
    end.
Proof.
  intros Hn Hl Hc. unfold filealloc. erewrite bind_Ok by (by apply acquire_ok).
  set (k1 := lock_taken L_ftable k). rewrite <- Hn.
  rewrite (for_each_find (k_ftable k) (fun f => f_ref f = 0)).
  2:{ intros i f Hi Hf. rewrite get_file_eq. change (file_at k1 i) with (file_at k i).
      rewrite (file_at_lookup _ _ _ Hi), (proj2 (Z.eqb_neq _ _) Hf). done. }
  destruct (list_find _ _) as [[i f]|] eqn:E.
  - apply list_find_Some in E as (Hi & Hf & _).
    rewrite bind_bind_eq, get_file_eq. change (file_at k1 i) with (file_at k i).
    rewrite (file_at_lookup _ _ _ Hi), (proj2 (Z.eqb_eq _ _) Hf), bind_bind_eq, upd_file_eq, bind_bind_eq.
    rewrite (alter_as_insert _ _ _ _ Hi).
    erewrite bind_Ok by (apply (release_ok L_ftable e k); done). by destruct k.
  - erewrite bind_Ok by (apply (release_ok L_ftable e k); by apply inside_taken). by destruct k.
Qed.

Lemma filedup_ok i f e k :
  k_ftable k !! i = Some f -> lock_free L_ftable k -> cpu_ok k -> 1 <= f_ref f ->
  filedup i e k = Ok i e (set_k_ftable (<[i := set_f_ref (f_ref f + 1) f]> (k_ftable k)) k).
Proof.
  intros Hi Hl Hc Hr. unfold filedup. erewrite bind_Ok by (by apply acquire_ok).
  rewrite get_file_eq. change (file_at (lock_taken L_ftable k) i) with (file_at k i).
  rewrite (file_at_lookup _ _ _ Hi), (proj2 (Z.ltb_ge _ _)) by lia.
  rewrite upd_file_eq. change (k_ftable (lock_taken L_ftable k)) with (k_ftable k).
  rewrite (alter_as_insert _ _ _ _ Hi).
  erewrite bind_Ok by (apply (release_ok L_ftable e k); done). by destruct k.
Qed.

Lemma fileclose_shared `{DiskDriver} `{Devsw} i f e k :
  k_ftable k !! i = Some f -> lock_free L_ftable k -> cpu_ok k -> 2 <= f_ref f ->
  fileclose i e k = Ok tt e (set_k_ftable (<[i := set_f_ref (f_ref f - 1) f]> (k_ftable k)) k).
Proof.
  intros Hi Hl Hc Hr. unfold fileclose. erewrite bind_Ok by (by apply acquire_ok).
  rewrite get_file_eq. change (file_at (lock_taken L_ftable k) i) with (file_at k i).
  rewrite (file_at_lookup _ _ _ Hi), (proj2 (Z.ltb_ge _ _)) by lia.
  rewrite upd_file_eq. change (k_ftable (lock_taken L_ftable k)) with (k_ftable k).
  rewrite (alter_as_insert _ _ _ _ Hi), (proj2 (Z.ltb_lt _ _)) by lia.
  rewrite (release_ok L_ftable e k) by done. by destruct k.
Qed.

(** A reference to file [i] that is not counted makes the kernel panic. *)
Lemma file_unreferenced `{DiskDriver} `{Devsw} i f e k :
  k_ftable k !! i = Some f -> lock_free L_ftable k -> cpu_ok k -> f_ref f < 1 ->
  filedup i e k = Panic "filedup" (lock_taken L_ftable k) /\
  fileclose i e k = Panic "fileclose" (lock_taken L_ftable k).
Proof.
  intros Hi Hl Hc Hr. unfold filedup, fileclose. split.
  all: erewrite bind_Ok by (by apply acquire_ok).
  all: rewrite get_file_eq; change (file_at (lock_taken L_ftable k) i) with (file_at k i).
  all: rewrite (file_at_lookup _ _ _ Hi), (proj2 (Z.ltb_lt _ _)) by lia; done.
Qed.

(** C29: The table of open files counts references.  [filealloc] returns the first entry
    without references, now with one, or 0 and no change when all are in use;
    [filedup] adds a reference, and closing it again restores the table;
    closing a file with other references only takes one away; and using an
    entry without references panics. *)
Theorem file_refcount `{DiskDriver} `{Devsw} e k :
  length (k_ftable k) = NFILE -> lock_free L_ftable k -> cpu_ok k ->
  match list_find (fun f => f_ref f = 0) (k_ftable k) with
  | Some (i, f) => filealloc e k = Ok (Some i) e (set_k_ftable (<[i := set_f_ref 1 f]> (k_ftable k)) k)
  | None => filealloc e k = Ok None e k
  end /\
  forall i f, k_ftable k !! i = Some f ->
    if decide (1 <= f_ref f) then
      (exists k', filedup i e k = Ok i e k' /\ f_ref (file_at k' i) = f_ref f + 1 /\
         fileclose i e k' = Ok tt e k) /\
      (2 <= f_ref f -> exists k', fileclose i e k = Ok tt e k' /\ f_ref (file_at k' i) = f_ref f - 1)
    else
      filedup i e k = Panic "filedup" (lock_taken L_ftable k) /\
      fileclose i e k = Panic "fileclose" (lock_taken L_ftable k).
Proof.
  intros Hn Hl Hc. split.
  - pose proof (filealloc_ok e k Hn Hl Hc) as Ha. by destruct (list_find _ _) as [[i f]|].
  - intros i f Hi. pose proof (lookup_lt_Some _ _ _ Hi) as Hlt. case_decide as Hr.
    + split.
      * eexists. split; [by apply filedup_ok|]. split.
        { unfold file_at. cbn. by rewrite list_lookup_insert_eq. }
        rewrite (fileclose_shared i (set_f_ref (f_ref f + 1) f));
          [|by apply list_lookup_insert_eq|done|done|cbn; lia].
        f_equal. cbn. rewrite set_set_k_ftable, list_insert_insert_eq.
        replace (set_f_ref (f_ref f + 1 - 1) (set_f_ref (f_ref f + 1) f)) with f.
        -- rewrite list_insert_id by done. by destruct k.
        -- replace (f_ref f + 1 - 1) with (f_ref f) by lia. by destruct f.
      * intros H2. eexists. split; [by apply fileclose_shared|].
        unfold file_at. cbn. by rewrite list_lookup_insert_eq.
    + apply (file_unreferenced i f); try done. lia.
Qed.

(** The demo machine with an open file at entry 0. *)
Definition one_file : kernel :=
  set_k_ftable (<[0%nat := set_f_ref 1 file0]> (k_ftable Demo.machine)) Demo.machine.

Section witness.
#[local] Existing Instance Memide.memide_driver.
#[local] Instance no_devices : Devsw := { dev_read := fun _ => None; dev_write := fun _ => None }.

Lemma file_refcount_witness :
  match list_find (fun f => f_ref f = 0) (k_ftable one_file) with
  | Some (i, f) => filealloc [] one_file =
      Ok (Some i) [] (set_k_ftable (<[i := set_f_ref 1 f]> (k_ftable one_file)) one_file)
  | None => filealloc [] one_file = Ok None [] one_file
  end /\
  forall i f, k_ftable one_file !! i = Some f ->
    if decide (1 <= f_ref f) then
      (exists k', filedup i [] one_file = Ok i [] k' /\ f_ref (file_at k' i) = f_ref f + 1 /\
         fileclose i [] k' = Ok tt [] one_file) /\
      (2 <= f_ref f -> exists k', fileclose i [] one_file = Ok tt [] k' /\ f_ref (file_at k' i) = f_ref f - 1)
    else
      filedup i [] one_file = Panic "filedup" (lock_taken L_ftable one_file) /\
      fileclose i [] one_file = Panic "fileclose" (lock_taken L_ftable one_file).
Proof.
  apply (@file_refcount Memide.memide_driver no_devices [] one_file).
  - reflexivity.
  - exists "ftable"%string. reflexivity.
  - split; [cbn; lia|]. split; [done|cbn; lia].
Defined.
End witness.

(** ** The size of a write *)

(** The blocks one transaction of [filewrite] can write: the data blocks of a
    write of [n] bytes that is not aligned, one bitmap block per block allocated
    (all in the same one here), the indirect block and the inode. *)
Definition write_blocks (off n : Z) : Z :=
  (off + n - 1) / BSIZE - off / BSIZE + 1.

(** One transaction of [filewrite] may write more blocks than the MAXOPBLOCKS that
    [begin_op] reserves for it: [max] is computed from the size of the whole
    log, so a single write of 6656 bytes has at least 13 data blocks, where the
    reservation is 10. *)
Theorem filewrite_exceeds_reservation off :
  0 <= off -> MAXOPBLOCKS < write_blocks off max_write /\ max_write = 6656.
Proof.
  intros Ho. unfold write_blocks, max_write, MAXOPBLOCKS, LOGSIZE, BSIZE. split; [|reflexivity].
  change ((MAXOPBLOCKS * 3 - 1 - 1 - 2) / 2 * 512) with 6656.
  pose proof (Z.div_mod off 512 ltac:(lia)). pose proof (Z.mod_pos_bound off 512 ltac:(lia)).
  assert (off / 512 + 12 <= (off + 6656 - 1) / 512); [|lia].
  apply Z.div_le_lower_bound; lia.
Qed.

Lemma filewrite_exceeds_reservation_witness : MAXOPBLOCKS < write_blocks 100 max_write /\ max_write = 6656.
Proof. apply (filewrite_exceeds_reservation 100). lia. Defined.

End File.
