(* ===== verification/Proc.v ===== *)
(** proc.c: processes and the lottery scheduler.  ([sched], [yield], [sleep],
    [wakeup] and [kill] are in Sleep.v.) *)

From S2P Require Import Prelude Bytes Machine Demo Cstring Spinlock Consout Kalloc Sleep Disk.
From S2P Require Import Bio Log Fs Vm Pipe File.
Import Cstring Spinlock Consout Kalloc Sleep Log Fs Vm File.

Module Proc.

(** ** Trap frames and contexts

    [struct trapframe] of x86.h and [struct context] of proc.h are on the
    process's kernel stack; these are the offsets of their fields. *)

Definition sizeof_trapframe : Z := 76.
Definition tf_ebx : Z := 16.
Definition tf_eax : Z := 28.
Definition tf_es : Z := 40.
Definition tf_ds : Z := 44.
Definition tf_trapno : Z := 48.
Definition tf_err : Z := 52.
Definition tf_eip : Z := 56.
Definition tf_cs : Z := 60.
Definition tf_eflags : Z := 64.
Definition tf_esp : Z := 68.
Definition tf_ss : Z := 72.
Definition sizeof_context : Z := 20.
Definition ctx_ebp : Z := 12.
Definition ctx_eip : Z := 16.

(** A 16-bit store. *)
Definition st16 (a v : Z) : K unit :=
  modify (fun k => set_k_mem (store (store (k_mem k) a (u8 v)) (a + 1) (u8 (Z.shiftr v 8))) k).
Definition ld16 (a : Z) : K Z := gets (fun k => le_val [k_mem k a; k_mem k (a + 1)]).

(** ** Random numbers and names *)

(** A division by zero traps. *)
Definition rand (max : Z) : K Z :=
  rs <- gets k_randstate ;;
  let rs := u32 (rs * 1664525 + 1013904223) in
  modify (set_k_randstate rs) ;;
  if max =? 0 then undefined else ret (u32 (rs mod max + 1)).

(** A name of proc.c, in its array of 16 bytes. *)
Definition name16 (s : string) : list Z := take 16 (chars s ++ replicate 16 0).
Definition lot_child : list Z := name16 "lot_child".
Definition lot_parent : list Z := name16 "lot_parent".

(** The loop over the 16 bytes; [sizeof] of the two pointers is the same. *)
Fixpoint compare_bytes (n : nat) (first second : list Z) : bool :=
  match n with
  | O => true
  | S n' =>
      match first, second with
      | a :: first', b :: second' => if a =? b then compare_bytes n' first' second' else false
      | _, _ => false
      end
  end.
Definition compare_string (first second : list Z) : bool := compare_bytes 16 first second.

(** ** Processes *)

Definition pinit : K unit := initlock L_ptable "ptable".

Definition allocproc : K (option nat) :=
  acquire L_ptable ;;
  r <- for_each all_procs (fun i =>
    p <- get_proc i ;;
    ret (if bool_decide (p_state p = UNUSED) then Some i else None)) ;;
  match r with
  | None => release L_ptable ;; ret None
  | Some p =>
      upd_proc p (set_p_state EMBRYO) ;;
      pid <- gets k_nextpid ;;
      upd_proc p (set_p_pid pid) ;;
      modify (set_k_nextpid (s32 (pid + 1))) ;;
      release L_ptable ;;
      kstack <- kalloc ;;
      upd_proc p (set_p_kstack kstack) ;;
      if kstack =? 0 then
        upd_proc p (set_p_state UNUSED) ;;
        ret None
      else
        let sp := kstack + KSTACKSIZE in
        let sp := sp - sizeof_trapframe in
        upd_proc p (set_p_tf sp) ;;
        let sp := sp - 4 in
        l <- gets k_link ;;
        st32 sp (ld_trapret l) ;;
        let sp := sp - sizeof_context in
        upd_proc p (set_p_context sp) ;;
        mem_set sp 0 (Z.to_nat sizeof_context) ;;
        st32 (sp + ctx_eip) (ld_forkret l) ;;
        ret (Some p)
  end.

Section proc.
Context `{DiskDriver} `{Devsw}.

Definition userinit : K unit :=
  r <- allocproc ;;
  modify (set_k_initproc r) ;;
  match r with
  | None => undefined
  | Some p =>
      pgdir <- setupkvm ;;
      upd_proc p (set_p_pgdir pgdir) ;;
      if pgdir =? 0 then panic "userinit: out of memory?" else
      code <- gets (fun k => ld_initcode (k_link k)) ;;
      inituvm pgdir code (Z.of_nat (length code)) ;;
      upd_proc p (set_p_sz PGSIZE) ;;
      pr <- get_proc p ;;
      let tf := p_tf pr in
      mem_set tf 0 (Z.to_nat sizeof_trapframe) ;;
      st16 (tf + tf_cs) (Z.lor (Z.shiftl SEG_UCODE 3) DPL_USER) ;;
      st16 (tf + tf_ds) (Z.lor (Z.shiftl SEG_UDATA 3) DPL_USER) ;;
      ds <- ld16 (tf + tf_ds) ;;
      st16 (tf + tf_es) ds ;;
      st16 (tf + tf_ss) ds ;;
      st32 (tf + tf_eflags) FL_IF ;;
      st32 (tf + tf_esp) PGSIZE ;;
      st32 (tf + tf_eip) 0 ;;
      upd_proc p (set_p_name (safestrcpy (p_name pr) (chars "initcode") 16)) ;;
      cwd <- namei (chars "/") ;;
      upd_proc p (set_p_cwd cwd) ;;
      upd_proc p (set_p_state RUNNABLE)
  end.

Definition growproc (n : Z) : K Z :=
  me <- curproc ;;
  p <- get_proc me ;;
  sz <-
    (if 0 <? n then allocuvm (p_pgdir p) (p_sz p) (u32 (p_sz p + n))
     else if n <? 0 then deallocuvm (p_pgdir p) (p_sz p) (u32 (p_sz p + n))
     else ret (p_sz p)) ;;
  if negb (n =? 0) && (sz =? 0) then ret (-1) else
  upd_proc me (set_p_sz sz) ;;
  switchuvm me ;;
  ret 0.

Definition fork : K Z :=
  r <- allocproc ;;
  match r with
  | None => ret (-1)
  | Some np =>
      me <- curproc ;;
      p <- get_proc me ;;
      pgdir <- copyuvm (p_pgdir p) (p_sz p) ;;
      upd_proc np (set_p_pgdir pgdir) ;;
      if pgdir =? 0 then
        n <- get_proc np ;;
        kfree (p_kstack n) ;;
        upd_proc np (set_p_kstack 0) ;;
        upd_proc np (set_p_state UNUSED) ;;
        ret (-1)
      else
        upd_proc np (set_p_sz (p_sz p)) ;;
        upd_proc np (set_p_parent (Some me)) ;;
        n <- get_proc np ;;
        mem_move (p_tf n) (p_tf p) (Z.to_nat sizeof_trapframe) ;;
        st32 (p_tf n + tf_eax) 0 ;;
        for_all (seq 0 NOFILE) (fun i =>
          p <- get_proc me ;;
          match mjoin (p_ofile p !! i) with
          | None => ret tt
          | Some f =>
              f <- filedup f ;;
              n <- get_proc np ;;
              upd_proc np (set_p_ofile (<[i := Some f]> (p_ofile n)))
          end) ;;
        p <- get_proc me ;;
        cwd <- match p_cwd p with Some ip => idup ip | None => undefined end ;;
        upd_proc np (set_p_cwd (Some cwd)) ;;
        n <- get_proc np ;;
        upd_proc np (set_p_name (safestrcpy (p_name n) (p_name p) 16)) ;;
        n <- get_proc np ;;
        acquire L_ptable ;;
        upd_proc np (set_p_state RUNNABLE) ;;
        release L_ptable ;;
        ret (p_pid n)
  end.

(** [wakeup1(p)] for a pointer to a process; no process sleeps on the null
    pointer. *)
Definition wakeup1_proc (p : option nat) : K unit :=
  match p with
  | Some i => wakeup1 (Ch_proc i)
  | None => ret tt
  end.

Definition exit : K unit :=
  me <- curproc ;;
  ip <- gets k_initproc ;;
  if bool_decide (ip = Some me) then panic "init exiting" else
  for_all (seq 0 NOFILE) (fun fd =>
    p <- get_proc me ;;
    match mjoin (p_ofile p !! fd) with
    | None => ret tt
    | Some f =>
        fileclose f ;;
        p <- get_proc me ;;
        upd_proc me (set_p_ofile (<[fd := None]> (p_ofile p)))
    end) ;;
  begin_op ;;
  p <- get_proc me ;;
  match p_cwd p with Some ip => iput ip | None => undefined end ;;
  end_op ;;
  upd_proc me (set_p_cwd None) ;;
  acquire L_ptable ;;
  p <- get_proc me ;;
  wakeup1_proc (p_parent p) ;;
  for_all all_procs (fun i =>
    p <- get_proc i ;;
    ip <- gets k_initproc ;;
    when (bool_decide (p_parent p = Some me))
      (upd_proc i (set_p_parent ip) ;;
       when (bool_decide (p_state p = ZOMBIE)) (wakeup1_proc ip))) ;;
  upd_proc me (set_p_state ZOMBIE) ;;
  sched ;;
  panic "zombie exit".

(** One scan of [wait]'s loop: the zombie child it reaped, or whether there
    are children. *)
Fixpoint wait_scan (l : list nat) (me : nat) (havekids : bool) : K (Z + bool) :=
  match l with
  | [] => ret (inr havekids)
  | i :: l' =>
      p <- get_proc i ;;
      if negb (bool_decide (p_parent p = Some me)) then wait_scan l' me havekids else
      if bool_decide (p_state p = ZOMBIE) then
        kfree (p_kstack p) ;;
        upd_proc i (set_p_kstack 0) ;;
        freevm (p_pgdir p) ;;
        upd_proc i (set_p_state UNUSED) ;;
        upd_proc i (set_p_pid 0) ;;
        upd_proc i (set_p_parent None) ;;
        upd_proc i (set_p_name (<[0%nat := 0]> (p_name p))) ;;
        upd_proc i (set_p_killed 0) ;;
        release L_ptable ;;
        ret (inl (p_pid p))
      else wait_scan l' me true
  end.

Definition wait : K Z :=
  acquire L_ptable ;;
  loop_sched (fun _ : unit =>
    me <- curproc ;;
    r <- wait_scan all_procs me false ;;
    match r with
    | inl pid => ret (inr pid)
    | inr havekids =>
        p <- get_proc me ;;
        if negb havekids || nz (p_killed p) then
          release L_ptable ;;
          ret (inr (-1))
        else
          sleep (Ch_proc me) (Some L_ptable) ;;
          ret (inl tt)
    end) tt.

Definition forkret : K unit :=
  release L_ptable ;;
  first <- gets k_first ;;
  when first
    (modify (set_k_first false) ;;
     iinit ROOTDEV ;;
     initlog ROOTDEV).

End proc.

(** ** The scheduler *)

(** [run_p], the array of the processes that take part in the lottery. *)
Notation runlist := (list (option nat)).

(** The loop that hands out the tickets and collects the runnable processes,
    from index [i] of [run_p] on. *)
Fixpoint collect (l : list nat) (i : nat) (run_p : runlist) : K (nat * runlist) :=
  match l with
  | [] => ret (i, run_p)
  | j :: l' =>
      p <- get_proc j ;;
      (if compare_string (p_name p) lot_child then
         upd_proc j (set_p_ticket 50) ;;
         modify (set_k_tickets_base 10)
       else upd_proc j (set_p_ticket 10)) ;;
      if bool_decide (p_state p = RUNNABLE)
      then collect l' (S i) (<[i := Some j]> run_p)
      else collect l' i run_p
  end.

(** [while(run_p[i] != 0)]: the processes are printed; past the end of the
    array the behaviour is undefined. *)
Fixpoint print_runnable (run_p : runlist) : K unit :=
  match run_p with
  | [] => undefined
  | None :: _ => ret tt
  | Some j :: rest =>
      p <- get_proc j ;;
      (if compare_string (p_name p) lot_child || compare_string (p_name p) lot_parent then
         cprintf "---proc %d, %s runnable---
" [AInt (p_pid p); AStr (Some (cstr (p_name p)))]
       else cprintf "## proc %s ##
" [AStr (Some (cstr (p_name p)))]) ;;
      print_runnable rest
  end.

(** [run_p[i]->pid] *)
Definition pid_at (run_p : runlist) (i : nat) : K Z :=
  match mjoin (run_p !! i) with
  | Some j => p <- get_proc j ;; ret (p_pid p)
  | None => undefined
  end.

(** The two loops that remove duplicates among the first [run_num] entries. *)
Fixpoint dedup_inner (js : list nat) (i : nat) (run_p : runlist) : K runlist :=
  match js with
  | [] => ret run_p
  | j :: js' =>
      pi <- pid_at run_p i ;;
      pj <- pid_at run_p j ;;
      dedup_inner js' i (if pi =? pj then <[j := None]> run_p else run_p)
  end.
Fixpoint dedup_outer (is_ : list nat) (run_num : nat) (run_p : runlist) : K runlist :=
  match is_ with
  | [] => ret run_p
  | i :: is' =>
      run_p <- dedup_inner (seq (S i) (run_num - S i)) i run_p ;;
      dedup_outer is' run_num run_p
  end.

(** The entries up to the first null one, at most NPROC. *)
Fixpoint entries (run_p : runlist) : list nat :=
  match run_p with
  | Some j :: rest => j :: entries rest
  | _ => []
  end.

(** [for(i=0;i<NPROC && run_p[i] != 0;i++) max += run_p[i]->ticket;] *)
Definition sum_tickets (tick : nat -> Z) (l : list nat) : Z :=
  fold_left (fun max j => u32 (max + tick j)) l 0.

(** [while(rd > range && i < NPROC && run_p[i] != 0){ range += ...; i++; }]: the
    final [i]. *)
Fixpoint draw (tick : nat -> Z) (rd range : Z) (i : nat) (l : list nat) : nat :=
  match l with
  | [] => i
  | j :: l' => if range <? rd then draw tick rd (u32 (range + tick j)) (S i) l' else i
  end.

(** The choice of a process when there is more than one. *)
Definition lottery (run_num : nat) (run_p : runlist) : K (nat * runlist) :=
  print_runnable run_p ;;
  run_p <- dedup_outer (seq 0 run_num) run_num run_p ;;
  tick <- gets (fun k j => p_ticket (proc_at k j)) ;;
  let max := sum_tickets tick (entries run_p) in
  rd <- rand max ;;
  let i := draw tick rd 0 0 (entries run_p) in
  match mjoin (run_p !! (i - 1)%nat) with
  | None => undefined
  | Some j =>
      p <- get_proc j ;;
      (if compare_string (p_name p) lot_child then
         c <- gets k_c_win ;;
         modify (set_k_c_win (u32 (c + 1))) ;;
         cprintf "max= %d, t_num = %d, %s win %d time lottery
" [AInt max; AInt rd; AStr (Some (cstr (p_name p))); AInt (u32 (c + 1))]
       else if compare_string (p_name p) lot_parent then
         c <- gets k_p_win ;;
         modify (set_k_p_win (u32 (c + 1))) ;;
         cprintf "max= %d, t_num = %d, %s win %d time lottery
" [AInt max; AInt rd; AStr (Some (cstr (p_name p))); AInt (u32 (c + 1))]
       else ret tt) ;;
      ret (j, run_p)
  end.

(** One iteration of the scheduler's loop.  While interrupts are on, and while
    the process runs, the rest of the machine changes the state. *)
Definition scheduler_round (run_p : runlist) : K runlist :=
  sti ;;
  interfere ;;
  modify (set_k_tickets_base 10) ;;
  acquire L_ptable ;;
  ' (run_num, run_p) <- collect all_procs 0 run_p ;;
  run_p <-
    (if (run_num =? 0)%nat then ret run_p else
     ' (p, run_p) <-
       (if negb (run_num =? 1)%nat then lottery run_num run_p
        else match mjoin (run_p !! 0%nat) with
             | Some p => ret (p, run_p)
             | None => undefined
             end) ;;
     upd_cpu (set_c_proc (Some p)) ;;
     switchuvm p ;;
     upd_proc p (set_p_state RUNNING) ;;
     swtch ;;
     switchkvm ;;
     upd_cpu (set_c_proc None) ;;
     ret run_p) ;;
  release L_ptable ;;
  ret run_p.

Definition scheduler : K Empty_set :=
  loop_sched (fun run_p => r <- scheduler_round run_p ;; ret (inl r)) (replicate NPROC None).

(** ** The process listing *)

Definition state_name (s : procstate) : string :=
  match s with
  | UNUSED => "unused" | EMBRYO => "embryo" | SLEEPING => "sleep "
  | RUNNABLE => "runble" | RUNNING => "run   " | ZOMBIE => "zombie"
  end.

Definition procdump : K unit :=
  for_all all_procs (fun i =>
    p <- get_proc i ;;
    if bool_decide (p_state p = UNUSED) then ret tt else
    cprintf "%d %s %s"
      [AInt (p_pid p); AStr (Some (chars (state_name (p_state p)))); AStr (Some (cstr (p_name p)))] ;;
    when (bool_decide (p_state p = SLEEPING))
      (ebp <- ld32 (p_context p + ctx_ebp) ;;
       pcs <- gets (fun k => getcallerpcs (load32 (k_mem k)) (ebp + 8)) ;;
       for_each pcs (fun pc =>
         if pc =? 0 then ret (Some tt)
         else cprintf " %p" [AInt pc] ;; ret None) ;;
       ret tt) ;;
    cprintf "
" []).

(** ** The lottery *)

(** The sum of the tickets, without wrap-around. *)
Definition total (tick : nat -> Z) (l : list nat) : Z := foldr (fun j s => tick j + s) 0 l.

(** The process the lottery picks for the number [rd]. *)
Definition winner (tick : nat -> Z) (rd : Z) (l : list nat) : option nat :=
  l !! (draw tick rd 0 0 l - 1)%nat.

Section tickets.
Context (tick : nat -> Z) (tick_pos : forall j, 0 <= tick j).

Lemma total_pos l : 0 <= total tick l.
Proof. unfold total. induction l as [|j l IH]; cbn [foldr]; [lia|]. specialize (tick_pos j). lia. Qed.

Lemma total_app l1 l2 : total tick (l1 ++ l2) = total tick l1 + total tick l2.
Proof. unfold total. induction l1 as [|j l1 IH]; cbn [app foldr]; lia. Qed.

Lemma total_take_S l n p :
  l !! n = Some p -> total tick (take (S n) l) = total tick (take n l) + tick p.
Proof. intros H. rewrite (take_S_r _ _ _ H), total_app. cbn. lia. Qed.

Lemma total_take_le l n m : (n <= m)%nat -> total tick (take n l) <= total tick (take m l).
Proof.
  intros H. replace (take n l) with (take n (take m l)) by (rewrite take_take; f_equal; lia).
  rewrite <- (take_drop n (take m l)) at 2. rewrite total_app.
  pose proof (total_pos (drop n (take m l))). lia.
Qed.

Lemma total_take_total l n : total tick (take n l) <= total tick l.
Proof.
  destruct (decide (n <= length l)%nat) as [H|H].
  - rewrite <- (firstn_all l) at 2. by apply total_take_le.
  - by rewrite take_ge by lia.
Qed.

Lemma total_cons j l : total tick (j :: l) = tick j + total tick l.
Proof. done. Qed.

Lemma sum_tickets_from l s :
  0 <= s -> s + total tick l < 2 ^ 32 ->
  fold_left (fun max j => u32 (max + tick j)) l s = s + total tick l.
Proof.
  revert s. induction l as [|j l IH]; intros s Hs Hb; [cbn; lia|].
  rewrite total_cons in *. cbn [fold_left]. pose proof (total_pos l). pose proof (tick_pos j).
  rewrite u32_small by lia. rewrite IH by lia. lia.
Qed.

Lemma sum_tickets_total l : total tick l < 2 ^ 32 -> sum_tickets tick l = total tick l.
Proof. intros H. unfold sum_tickets. rewrite sum_tickets_from; lia. Qed.

(** The winner is the process whose range of tickets has the number drawn. *)
Lemma draw_spec l rd range i :
  0 <= range -> range + total tick l < 2 ^ 32 -> range < rd <= range + total tick l ->
  exists n p, draw tick rd range i l = (i + S n)%nat /\ l !! n = Some p /\
    range + total tick (take n l) < rd <= range + total tick (take (S n) l).
Proof.
  revert range i. induction l as [|j l IH]; intros range i Hr Hb Hrd; [cbn in *; lia|].
  rewrite total_cons in *.
  pose proof (total_pos l). pose proof (tick_pos j).
  cbn [draw]. rewrite (proj2 (Z.ltb_lt _ _)), u32_small by lia.
  destruct (decide (rd <= range + tick j)) as [Hj|Hj].
  - exists 0%nat, j. split; [|split; [done|]].
    + destruct l as [|j' l]; cbn [draw]; [lia|]. rewrite (proj2 (Z.ltb_ge _ _)) by lia. lia.
    + rewrite firstn_cons, !take_0, total_cons. change (total tick []) with 0. lia.
  - destruct (IH (range + tick j) (S i)) as (n & p & E & Hn & Hp); [lia|lia|lia|].
    exists (S n), p. split; [rewrite E; lia|]. split; [done|].
    rewrite !firstn_cons, !total_cons. lia.
Qed.

Lemma draw_iff l rd n p :
  total tick l < 2 ^ 32 -> 1 <= rd <= total tick l -> l !! n = Some p ->
  (draw tick rd 0 0 l - 1)%nat = n <-> total tick (take n l) < rd <= total tick (take n l) + tick p.
Proof.
  intros Hb Hrd Hn. rewrite <- (total_take_S _ _ _ Hn).
  destruct (draw_spec l rd 0 0) as (m & q & E & Hm & Hq); [lia|lia|lia|]. rewrite E.
  split.
  - intros Heq. replace n with m by lia. lia.
  - intros Hr. destruct (decide (n < m)%nat) as [Hlt|Hlt].
    { pose proof (total_take_le l (S n) m). lia. }
    destruct (decide (m < n)%nat) as [Hgt|Hgt]; [|lia].
    pose proof (total_take_le l (S m) n). lia.
Qed.

Lemma winner_iff l rd n p :
  NoDup l -> total tick l < 2 ^ 32 -> 1 <= rd <= total tick l -> l !! n = Some p ->
  winner tick rd l = Some p <-> total tick (take n l) < rd <= total tick (take n l) + tick p.
Proof.
  intros Hnd Hb Hrd Hn. rewrite <- (draw_iff l rd n p) by done. unfold winner. split.
  - intros H. by eapply NoDup_lookup.
  - by intros ->.
Qed.

End tickets.

(** C17: The lottery is fair: of the numbers [1..max] that [rand] draws from, exactly as
    many make a process win as the process has tickets. *)
Theorem lottery_fair tick l p :
  NoDup l -> p ∈ l -> (forall j, 0 <= tick j) -> total tick l < 2 ^ 32 ->
  length (filter (fun rd => winner tick rd l = Some p) (seqZ 1 (sum_tickets tick l))) = Z.to_nat (tick p).
Proof.
  intros Hnd Hp Ht Hb. apply list_elem_of_lookup in Hp as [n Hn].
  rewrite sum_tickets_total by done.
  pose proof (total_pos tick Ht (take n l)). pose proof (total_take_total tick Ht l (S n)).
  rewrite (total_take_S tick l n p Hn) in *. specialize (Ht p) as Htp.
  rewrite (length_filter_seqZ _ _ (total tick (take n l)) (total tick (take n l) + tick p)).
  - f_equal. lia.
  - done.
  - lia.
  - done.
  - intros x Hx. by apply winner_iff.
Qed.

(** A child with 50 tickets among three processes. *)
Lemma lottery_fair_witness :
  length (filter (fun rd => winner (fun j => if (j =? 4)%nat then 50 else 10) rd [2; 4; 7]%nat = Some 4%nat)
            (seqZ 1 (sum_tickets (fun j => if (j =? 4)%nat then 50 else 10) [2; 4; 7]%nat))) = 50%nat.
Proof.
  apply (lottery_fair (fun j => if (j =? 4)%nat then 50 else 10) [2; 4; 7]%nat 4%nat).
  - apply (bool_decide_unpack _). vm_compute. exact I.
  - apply (bool_decide_unpack _). vm_compute. exact I.
  - intros j. destruct (j =? 4)%nat; lia.
  - vm_compute. reflexivity.
Defined.

(** The tickets a process gets in every round. *)
Definition assign (p : proc) : proc :=
  set_p_ticket (if compare_string (p_name p) lot_child then 50 else 10) p.

(** The indices of the runnable processes of a table that starts at [i]. *)
Fixpoint runnable (i : nat) (t : list proc) : list nat :=
  match t with
  | [] => []
  | p :: t' => if bool_decide (p_state p = RUNNABLE) then i :: runnable (S i) t' else runnable (S i) t'
  end.

Lemma runnable_spec i t j :
  j ∈ runnable i t <-> exists p, (i <= j)%nat /\ t !! (j - i)%nat = Some p /\ p_state p = RUNNABLE.
Proof.
  revert i. induction t as [|q t IH]; intros i; cbn [runnable].
  { split; [by intros ?%not_elem_of_nil|intros (p & _ & Hp & _); by rewrite lookup_nil in Hp]. }
  assert (j ∈ runnable (S i) t <-> exists p, (S i <= j)%nat /\ (q :: t) !! (j - i)%nat = Some p /\ p_state p = RUNNABLE) as IH'.
  { rewrite IH. apply exist_proper. intros p. split; intros (Hj & Hp & Hs); (split; [lia|split; [|done]]).
    - by replace (j - i)%nat with (S (j - S i)) by lia.
    - by replace (j - i)%nat with (S (j - S i)) in Hp by lia. }
  destruct (bool_decide_reflect (p_state q = RUNNABLE)) as [Hq|Hq].
  - rewrite elem_of_cons, IH'. split.
    + intros [->|(p & Hj & Hp & Hs)]; [exists q; by rewrite Nat.sub_diag|exists p; split; [lia|done]].
    + intros (p & Hj & Hp & Hs). destruct (decide (j = i)) as [->|]; [by left|].
      right. exists p. split; [lia|done].
  - rewrite IH'. apply exist_proper. intros p. split; intros (Hj & Hp & Hs); (split; [|done]); [lia|].
    destruct (decide (j = i)) as [->|]; [|lia]. rewrite Nat.sub_diag in Hp. by injection Hp as <-.
Qed.

Lemma length_runnable i t : (length (runnable i t) <= length t)%nat.
Proof. revert i. induction t as [|p t IH]; intros i; cbn; [lia|]. specialize (IH (S i)). case_bool_decide; cbn; lia. Qed.

(** One iteration: the ticket, and the entry of a runnable process. *)
Lemma collect_cons j js i (run_p : list (option nat)) p e k :
  k_ptable k !! j = Some p -> k_tickets_base k = 10 ->
  collect (j :: js) i run_p e k =
    (if bool_decide (p_state p = RUNNABLE) then collect js (S i) (<[i := Some j]> run_p)
     else collect js i run_p) e (set_k_ptable (<[j := assign p]> (k_ptable k)) k).
Proof.
  intros Hp Hb. cbn [collect]. rewrite get_proc_eq, (proc_at_lookup _ _ _ Hp). unfold assign.
  destruct (compare_string (p_name p) lot_child).
  - rewrite bind_bind_eq, upd_proc_eq, (alter_as_insert _ _ _ _ Hp).
    unfold bind, modify at 1. replace (set_k_tickets_base 10 _) with
      (set_k_ptable (<[j := set_p_ticket 50 p]> (k_ptable k)) k).
    + by destruct (bool_decide _).
    + destruct k; cbn in *. by subst.
  - rewrite upd_proc_eq, (alter_as_insert _ _ _ _ Hp). by destruct (bool_decide _).
Qed.

Lemma collect_from t d i (run_p : list (option nat)) e k :
  k_ptable k = d ++ t -> k_tickets_base k = 10 -> (i + length t <= length run_p)%nat ->
  collect (seq (length d) (length t)) i run_p e k =
    Ok ((i + length (runnable (length d) t))%nat,
        take i run_p ++ (Some <$> runnable (length d) t) ++ drop (i + length (runnable (length d) t)) run_p)
      e (set_k_ptable (d ++ (assign <$> t)) k).
Proof.
  revert d i run_p k. induction t as [|p t IH]; intros d i run_p k Hk Hb Hi.
  { cbn. rewrite Nat.add_0_r, take_drop, <- Hk. by destruct k. }
  cbn [length] in *. rewrite <- cons_seq, (collect_cons _ _ _ _ p);
    [|by rewrite Hk; apply list_lookup_middle|done].
  set (k1 := set_k_ptable _ k).
  assert (k_ptable k1 = (d ++ [assign p]) ++ t) as Hk1.
  { unfold k1. cbn. rewrite Hk, insert_app_r_alt, Nat.sub_diag by lia. cbn. by rewrite <- app_assoc. }
  assert (S (length d) = length (d ++ [assign p])) as Hd by (rewrite length_app; cbn; lia).
  cbn [runnable]. rewrite Hd.
  assert (forall r, set_k_ptable ((d ++ [assign p]) ++ r) k1 = set_k_ptable (d ++ assign p :: r) k) as Hset
    by (intros r; rewrite <- app_assoc; by destruct k).
  destruct (bool_decide _).
  - rewrite IH; [|done|done|rewrite length_insert; lia]. rewrite Hset. cbn [length fmap list_fmap].
    f_equal; f_equal; [lia|].
    rewrite (take_S_r _ _ (Some (length d))) by (apply list_lookup_insert_eq; lia).
    rewrite take_insert_ge, drop_insert_lt, <- app_assoc by lia. cbn. do 3 f_equal. f_equal. lia.
  - rewrite IH by (done || lia). by rewrite Hset.
Qed.

(** A round collects the runnable processes at the start of [run_p], and leaves
    the rest of the array as the rounds before left it. *)
Lemma collect_ok (run_p : list (option nat)) e k :
  length (k_ptable k) = NPROC -> length run_p = NPROC -> k_tickets_base k = 10 ->
  collect all_procs 0 run_p e k =
    Ok (length (runnable 0 (k_ptable k)),
        (Some <$> runnable 0 (k_ptable k)) ++ drop (length (runnable 0 (k_ptable k))) run_p)
      e (set_k_ptable (assign <$> k_ptable k) k).
Proof.
  intros Hn Hr Hb. unfold all_procs. rewrite <- Hn at 1.
  rewrite (collect_from (k_ptable k) []) by (done || cbn; lia). done.
Qed.

(** ** The choice *)

Definition names_ok (k : kernel) : Prop := forall j, is_text (p_name (proc_at k j)).

Lemma cstr_text s : is_text s -> is_text (cstr s).
Proof. induction 1 as [|c s Hc Hs IH]; [constructor|]. cbn. destruct (nz c); by constructor. Qed.

Lemma cons_ready_after k cs' :
  cons_ready k -> screen_ok cs' -> cons_frame (k_cons k) cs' -> cons_ready (set_k_cons cs' k).
Proof.
  intros (_ & Hp & Hl & Hc) Hs F. split; [done|].
  split; [cbn; by rewrite (cf_panicked _ _ F)|]. split; [|done]. cbn. rewrite (cf_locking _ _ F). done.
Qed.

(** A computation that only writes on the console. *)
Definition console_only {A} (m : K A) (a : A) (k : kernel) : Prop :=
  forall e, exists cs', m e k = Ok a e (set_k_cons cs' k) /\ cons_ready (set_k_cons cs' k).

Lemma cprintf_console fmt args k : cons_ready k -> args_ok args -> console_only (cprintf fmt args) tt k.
Proof.
  intros Hk Ha e. destruct (cprintf_ok fmt args e k Hk Ha) as (cs' & E & S & F & _).
  exists cs'. split; [done|]. by apply cons_ready_after.
Qed.

Lemma print_runnable_ok l (rest : list (option nat)) k :
  cons_ready k -> names_ok k -> console_only (print_runnable ((Some <$> l) ++ None :: rest)) tt k.
Proof.
  revert k. induction l as [|j l IH]; intros k Hk Hn e.
  { exists (k_cons k). by destruct k. }
  cbn [fmap list_fmap app print_runnable]. rewrite get_proc_eq.
  match goal with |- context [bind ?m _ e k] => assert (console_only m tt k) as Hpr end.
  { destruct (_ || _); apply cprintf_console; try done;
      repeat constructor; apply cstr_text, Hn. }
  destruct (Hpr e) as (cs1 & E1 & H1). rewrite (bind_Ok _ _ _ _ _ _ _ E1).
  destruct (IH (set_k_cons cs1 k) H1 Hn e) as (cs2 & E2 & H2).
  exists cs2. rewrite E2. by destruct k.
Qed.

Lemma pid_at_ok l (rest : list (option nat)) i j e k :
  l !! i = Some j -> pid_at ((Some <$> l) ++ rest) i e k = Ok (p_pid (proc_at k j)) e k.
Proof.
  intros H. unfold pid_at. rewrite lookup_app_l by (rewrite length_fmap; by eapply lookup_lt_Some).
  by rewrite list_lookup_fmap, H.
Qed.

(** There is nothing to remove when the identifiers differ. *)
Lemma dedup_ok l (rest : list (option nat)) e k :
  NoDup ((fun j => p_pid (proc_at k j)) <$> l) ->
  dedup_outer (seq 0 (length l)) (length l) ((Some <$> l) ++ rest) e k = Ok ((Some <$> l) ++ rest) e k.
Proof.
  intros Hnd. assert (forall is_, Forall (fun i => (i < length l)%nat) is_ ->
    dedup_outer is_ (length l) ((Some <$> l) ++ rest) e k = Ok ((Some <$> l) ++ rest) e k) as Ho.
  2:{ apply Ho, Forall_seq. intros; lia. }
  induction 1 as [|i is_ Hi _ IH]; [done|]. cbn [dedup_outer].
  assert (forall js, Forall (fun j => (i < j < length l)%nat) js ->
    dedup_inner js i ((Some <$> l) ++ rest) e k = Ok ((Some <$> l) ++ rest) e k) as Hin.
  { induction 1 as [|j js Hj _ IHj]; [done|]. cbn [dedup_inner].
    destruct (lookup_lt_is_Some_2 l i) as [a Ha]; [lia|].
    destruct (lookup_lt_is_Some_2 l j) as [b Hb]; [lia|].
    rewrite (bind_Ok _ _ _ _ _ _ _ (pid_at_ok l rest i a e k Ha)).
    rewrite (bind_Ok _ _ _ _ _ _ _ (pid_at_ok l rest j b e k Hb)).
    destruct (Z.eqb_spec (p_pid (proc_at k a)) (p_pid (proc_at k b))) as [Heq|]; [|done].
    exfalso. assert (i = j); [|lia].
    eapply (NoDup_lookup _ _ _ _ Hnd); rewrite list_lookup_fmap; [by rewrite Ha|by rewrite Hb; cbn; rewrite Heq]. }
  erewrite bind_Ok by (apply Hin, Forall_seq; intros; lia). done.
Qed.

Lemma entries_app l rest : entries ((Some <$> l) ++ None :: rest) = l.
Proof. induction l as [|j l IH]; cbn; [done|]. by rewrite IH. Qed.

Definition next_rand (k : kernel) : Z := u32 (k_randstate k * 1664525 + 1013904223).
Definition tick_of (k : kernel) (j : nat) : Z := p_ticket (proc_at k j).

(** A computation that leaves the processes and the locks as they are. *)
Definition quiet (m : K unit) (k : kernel) : Prop :=
  forall e, exists k', m e k = Ok tt e k' /\
    k_ptable k' = k_ptable k /\ k_cpu k' = k_cpu k /\ k_locks k' = k_locks k.

Lemma quiet_count f c args k :
  cons_ready (f k) -> args_ok args ->
  k_ptable (f k) = k_ptable k -> k_cpu (f k) = k_cpu k -> k_locks (f k) = k_locks k ->
  quiet (modify f ;; cprintf c args) k.
Proof.
  intros Hr Ha Hp Hc Hl e. destruct (cprintf_console c args (f k) Hr Ha e) as (cs' & E & _).
  rewrite modify_eq, E. by eexists.
Qed.

Lemma lottery_ok l (rest : list (option nat)) e k :
  cons_ready k -> names_ok k -> NoDup ((fun j => p_pid (proc_at k j)) <$> l) ->
  (forall j, 0 <= tick_of k j) -> 0 < total (tick_of k) l < 2 ^ 32 ->
  let rd := next_rand k mod total (tick_of k) l + 1 in
  exists j k', lottery (length l) ((Some <$> l) ++ None :: rest) e k =
      Ok (j, (Some <$> l) ++ None :: rest) e k' /\
    1 <= rd <= total (tick_of k) l /\ winner (tick_of k) rd l = Some j /\
    k_ptable k' = k_ptable k /\ k_cpu k' = k_cpu k /\ k_locks k' = k_locks k.
Proof.
  intros Hk Hn Hnd Ht Hb rd. unfold lottery.
  destruct (print_runnable_ok l rest k Hk Hn e) as (cs1 & E1 & H1). rewrite (bind_Ok _ _ _ _ _ _ _ E1).
  set (k1 := set_k_cons cs1 k).
  rewrite (bind_Ok _ _ _ _ _ _ _ (dedup_ok l (None :: rest) e k1 Hnd)), gets_eq, entries_app.
  change (fun j => p_ticket (proc_at k1 j)) with (tick_of k). cbv zeta.
  rewrite sum_tickets_total by (done || lia).
  unfold rand. rewrite bind_bind_eq, gets_eq, bind_bind_eq, modify_eq. change (u32 (k_randstate k1 * _ + _)) with (next_rand k).
  rewrite (proj2 (Z.eqb_neq _ _)) by lia.
  assert (1 <= rd <= total (tick_of k) l) as Hrd
    by (unfold rd; pose proof (Z.mod_pos_bound (next_rand k) (total (tick_of k) l)); lia).
  rewrite ret_eq, u32_small by (unfold rd in Hrd; lia). fold rd.
  destruct (draw_spec (tick_of k) Ht l rd 0 0) as (n & p & En & Hp & _); [lia|lia|lia|].
  unfold winner. rewrite En. replace (0 + S n - 1)%nat with n by lia.
  rewrite lookup_app_l by (rewrite length_fmap; by eapply lookup_lt_Some).
  rewrite list_lookup_fmap, Hp. cbn [fmap option_fmap option_map mjoin option_join].
  rewrite get_proc_eq. set (k2 := set_k_randstate (next_rand k) k1).
  match goal with |- context [bind ?m _ e k2] => assert (quiet m k2) as Hm end.
  { assert (is_text (cstr (p_name (proc_at k2 p)))) as Hname by (apply cstr_text, Hn).
    destruct (compare_string _ lot_child); [|destruct (compare_string _ lot_parent)].
    - intros e'. rewrite gets_eq. apply quiet_count; try done. by repeat constructor.
    - intros e'. rewrite gets_eq. apply quiet_count; try done. by repeat constructor.
    - intros e'. by eexists. }
  destruct (Hm e) as (k' & E & E'). exists p, k'. by rewrite (bind_Ok _ _ _ _ _ _ _ E).
Qed.

Lemma assign_tick k j :
  (j < length (k_ptable k))%nat -> tick_of (set_k_ptable (assign <$> k_ptable k) k) j = 10 \/
  tick_of (set_k_ptable (assign <$> k_ptable k) k) j = 50.
Proof.
  intros Hj. destruct (lookup_lt_is_Some_2 _ _ Hj) as [p Hp].
  unfold tick_of. rewrite (proc_at_lookup _ _ (assign p)) by (cbn; by rewrite list_lookup_fmap, Hp).
  unfold assign. cbn [p_ticket set_p_ticket]. destruct (compare_string _ _); tauto.
Qed.

Lemma proc_at_beyond k j : (length (k_ptable k) <= j)%nat -> proc_at k j = proc0.
Proof. intros H. unfold proc_at. by rewrite lookup_ge_None_2. Qed.

Lemma total_bounds tick l :
  (forall j, j ∈ l -> 10 <= tick j <= 50) ->
  10 * Z.of_nat (length l) <= total tick l <= 50 * Z.of_nat (length l).
Proof.
  induction l as [|j l IH]; intros H; [cbn; lia|]. rewrite total_cons. cbn [length].
  assert (forall i, i ∈ l -> 10 <= tick i <= 50) as Hl by (intros i Hi; apply H; by right).
  specialize (IH Hl). pose proof (H j (list_elem_of_here _ _)). lia.
Qed.

(** A round with two or more runnable processes and a clean array of candidates: the
    winner is the process that the next random number belongs to. *)
Definition round_ready (run_p : list (option nat)) (k : kernel) : Prop :=
  length (k_ptable k) = NPROC /\ length run_p = NPROC /\ k_tickets_base k = 10 /\
  cons_ready k /\ names_ok k /\
  NoDup ((fun j => p_pid (proc_at k j)) <$> runnable 0 (k_ptable k)) /\
  (2 <= length (runnable 0 (k_ptable k)))%nat /\
  run_p !! length (runnable 0 (k_ptable k)) = Some None.

(** The tickets in a round. *)
Definition round_tick (k : kernel) : nat -> Z := tick_of (set_k_ptable (assign <$> k_ptable k) k).

Lemma round_tick_bounds k j : j ∈ runnable 0 (k_ptable k) -> 10 <= round_tick k j <= 50.
Proof.
  intros Hj. apply runnable_spec in Hj as (p & _ & Hp & _). rewrite Nat.sub_0_r in Hp.
  destruct (assign_tick k j) as [E|E]; [by eapply lookup_lt_Some|unfold round_tick; lia|unfold round_tick; lia].
Qed.

Lemma round_proc k j :
  let k1 := set_k_ptable (assign <$> k_ptable k) k in
  proc_at k1 j = assign (proc_at k j) \/ (proc_at k1 j = proc0 /\ proc_at k j = proc0).
Proof.
  intros k1. destruct (decide (j < length (k_ptable k))%nat) as [Hj|Hj].
  - left. destruct (lookup_lt_is_Some_2 _ _ Hj) as [p Hp]. rewrite (proc_at_lookup _ _ _ Hp).
    apply proc_at_lookup. cbn. by rewrite list_lookup_fmap, Hp.
  - right. split; apply proc_at_beyond; [cbn; rewrite length_fmap|]; lia.
Qed.

Lemma round_tick_pos k j : 0 <= round_tick k j.
Proof.
  unfold round_tick, tick_of. destruct (round_proc k j) as [->|[-> _]]; [|done].
  unfold assign. cbn [p_ticket set_p_ticket]. destruct (compare_string _ _); lia.
Qed.

Lemma round_total run_p k : round_ready run_p k -> 0 < total (round_tick k) (runnable 0 (k_ptable k)) < 2 ^ 32.
Proof.
  intros (Hn & _ & _ & _ & _ & _ & H2 & _). pose proof (total_bounds _ _ (round_tick_bounds k)) as Htot.
  pose proof (length_runnable 0 (k_ptable k)) as HR. rewrite Hn in HR. unfold NPROC in HR. lia.
Qed.

Lemma round_ok run_p e k :
  round_ready run_p k ->
  let R := runnable 0 (k_ptable k) in
  let rd := next_rand k mod total (round_tick k) R + 1 in
  exists j run_p' k', (' (n, r) <- collect all_procs 0 run_p ;; lottery n r) e k = Ok (j, run_p') e k' /\
    1 <= rd <= total (round_tick k) R /\ winner (round_tick k) rd R = Some j /\
    k_ptable k' = assign <$> k_ptable k /\ k_cpu k' = k_cpu k /\ k_locks k' = k_locks k.
Proof.
  intros Hready R rd. pose proof (round_total _ _ Hready) as Htot. fold R in Htot.
  destruct Hready as (Hn & Hr & Hb & Hc & Hnames & Hnd & H2 & Hrest). fold R in Hnd, H2, Hrest.
  rewrite (bind_Ok _ _ _ _ _ _ _ (collect_ok run_p e k Hn Hr Hb)). fold R. rewrite (drop_S _ _ _ Hrest).
  destruct (lottery_ok R (drop (S (length R)) run_p) e (set_k_ptable (assign <$> k_ptable k) k))
    as (j & k' & E & Hrd & Hw & Hk').
  - done.
  - intros j. destruct (round_proc k j) as [->|[-> Hj]]; [apply (Hnames j)|rewrite <- Hj; apply (Hnames j)].
  - erewrite list_fmap_ext; [exact Hnd|]. intros i j _. cbn. by destruct (round_proc k j) as [->|[-> ->]].
  - apply round_tick_pos.
  - done.
  - eexists j, _, k'. split; [exact E|]. done.
Qed.


(** ** Examples *)

Definition ready_proc (pid : Z) : proc :=
  set_p_state RUNNABLE (set_p_pid pid (set_p_pgdir 0x80200000 proc0)).

(** Three runnable processes, after three draws. *)
Definition three_procs : kernel :=
  set_k_randstate 2165703038
    (set_k_ptable ([ready_proc 1; ready_proc 2; ready_proc 3] ++ replicate 61 proc0)
      (set_k_tickets_base 10 (set_k_cpu (set_c_proc None Demo.cpu0) Demo.machine))).

Lemma three_procs_ready : round_ready (replicate NPROC None) three_procs.
Proof.
  unfold round_ready. split_and!; try reflexivity.
  - split; [|split; [done|split; [by exists "console"%string|]]].
    + split; [cbn; lia|reflexivity].
    + split; [cbn; lia|]. split; [done|cbn; lia].
  - intros j. unfold proc_at. destruct (k_ptable three_procs !! j) as [p|] eqn:E.
    + assert (Forall (fun p => p_name p = replicate 16 0) (k_ptable three_procs)) as HF by (repeat constructor).
      rewrite Forall_lookup in HF. change (is_text (p_name p)). rewrite (HF _ _ E). apply Forall_replicate. lia.
    + apply Forall_replicate. lia.
  - apply (bool_decide_unpack _). vm_compute. exact I.
  - apply (bool_decide_unpack _). vm_compute. exact I.
Qed.


(** The running process went to sleep, as [sleep] does. *)
Definition goes_to_sleep (i : nat) (k : kernel) : kernel :=
  set_k_ptable (alter (fun p => set_p_state SLEEPING (set_p_chan (Some Ch_log) p)) i (k_ptable k)) k.


Lemma compare_bytes_spec n a b :
  (n <= length a)%nat -> (n <= length b)%nat -> compare_bytes n a b = true <-> take n a = take n b.
Proof.
  revert a b. induction n as [|n IH]; intros a b Ha Hb; [by rewrite !take_0|].
  destruct a as [|x a], b as [|y b]; cbn [length] in *; [lia|lia|lia|].
  cbn [compare_bytes]. rewrite !firstn_cons. destruct (Z.eqb_spec x y) as [->|Hne].
  - rewrite IH by lia. split; [by intros ->|by intros [= ->]].
  - split; [done|congruence].
Qed.

(** [compare_string] compares all sixteen bytes of a name, also those behind its end.
    A process that [exec] or [fork] names lot_child gets its 50 tickets only if
    the last five bytes of its slot are zero from before. *)
Theorem lot_child_recognised old :
  length old = 16%nat ->
  compare_string (safestrcpy old (chars "lot_child") 16) lot_child = true <-> drop 11 old = replicate 5 0.
Proof.
  intros Hl. unfold compare_string.
  assert (safestrcpy old (chars "lot_child") 16 = chars "lot_child" ++ 0 :: 0 :: drop 11 old) as ->.
  { do 16 (destruct old as [|? old]; [discriminate|]). destruct old; [reflexivity|discriminate]. }
  rewrite compare_bytes_spec by (rewrite ?length_app; cbn [length]; rewrite ?length_drop; cbn; lia).
  rewrite take_ge by (rewrite length_app; cbn [length]; rewrite length_drop; cbn; lia).
  change (take 16 lot_child) with (chars "lot_child" ++ 0 :: 0 :: replicate 5 0).
  split; [|by intros ->]. intros H. by apply app_inj_1 in H as [_ [= H]].
Qed.

(** A slot whose last process had a longer name. *)
Lemma lot_child_recognised_witness :
  compare_string (safestrcpy (name16 "a_longer_name") (chars "lot_child") 16) lot_child = true <->
  drop 11 (name16 "a_longer_name") = replicate 5 0.
Proof. apply (lot_child_recognised (name16 "a_longer_name")). reflexivity. Defined.

(** ** New processes *)

(** The slot under the lock: the first unused one becomes an embryo with the next
    number. *)
Definition claimed (pid : Z) (p : proc) : proc := set_p_pid pid (set_p_state EMBRYO p).

(** A process with its stack at [page]: a trap frame at the top, below it the
    address that [forkret] returns to, below it the context. *)
Definition with_stack (page : Z) (p : proc) : proc :=
  set_p_context (page + KSTACKSIZE - sizeof_trapframe - 4 - sizeof_context)
    (set_p_tf (page + KSTACKSIZE - sizeof_trapframe) (set_p_kstack page p)).

Definition stack_mem (l : linkmap) (page : Z) (m : memory) : memory :=
  let sp := page + KSTACKSIZE - sizeof_trapframe - 4 in
  store32 (memset (store32 m sp (ld_trapret l)) (sp - sizeof_context) 0 (Z.to_nat sizeof_context))
    (sp - sizeof_context + ctx_eip) (ld_forkret l).

Lemma stack_mem_ok l page m :
  let ctx := page + KSTACKSIZE - sizeof_trapframe - 4 - sizeof_context in
  load32 (stack_mem l page m) (ctx + ctx_eip) = u32 (ld_forkret l) /\
  load32 (stack_mem l page m) (ctx + sizeof_context) = u32 (ld_trapret l) /\
  forall a, a < page \/ page + 4096 <= a -> stack_mem l page m a = m a.
Proof.
  unfold stack_mem, KSTACKSIZE, sizeof_trapframe, sizeof_context, ctx_eip. cbv zeta. split; [apply load32_store32|]. split.
  - rewrite load32_store32_ne by lia.
    rewrite (load32_ext _ (store32 m (page + 4096 - 76 - 4) (ld_trapret l))).
    + replace (page + 4096 - 76 - 4 - 20 + 20) with (page + 4096 - 76 - 4) by lia. apply load32_store32.
    + intros i Hi. apply memset_ne. lia.
  - intros a Ha. rewrite store32_ne, memset_ne, store32_ne by lia. done.
Qed.

(** The search of [allocproc], and what it does under the lock. *)
Lemma allocproc_eq e k :
  length (k_ptable k) = NPROC -> lock_free L_ptable k -> cpu_ok k ->
  allocproc e k =
    match list_find (fun p => p_state p = UNUSED) (k_ptable k) with
    | None => Ok None e k
    | Some (i, p) =>
        (kstack <- kalloc ;;
         upd_proc i (set_p_kstack kstack) ;;
         if kstack =? 0 then upd_proc i (set_p_state UNUSED) ;; ret None else
         let sp := kstack + KSTACKSIZE in
         let sp := sp - sizeof_trapframe in
         upd_proc i (set_p_tf sp) ;;
         let sp := sp - 4 in
         l <- gets k_link ;;
         st32 sp (ld_trapret l) ;;
         let sp := sp - sizeof_context in
         upd_proc i (set_p_context sp) ;;
         mem_set sp 0 (Z.to_nat sizeof_context) ;;
         st32 (sp + ctx_eip) (ld_forkret l) ;;
         ret (Some i)) e
          (set_k_nextpid (s32 (k_nextpid k + 1)) (set_k_ptable (<[i := claimed (k_nextpid k) p]> (k_ptable k)) k))
    end.
Proof.
  intros Hn Hl Hc. unfold allocproc. erewrite bind_Ok by (by apply acquire_ok).
  set (k1 := lock_taken L_ptable k). unfold all_procs. rewrite <- Hn.
  rewrite (for_each_find (k_ptable k) (fun p => p_state p = UNUSED)).
  2:{ intros i p Hi Hp. rewrite get_proc_eq. change (proc_at k1 i) with (proc_at k i).
      by rewrite (proc_at_lookup _ _ _ Hi), bool_decide_eq_false_2. }
  destruct (list_find _ _) as [[i p]|] eqn:E.
  - apply list_find_Some in E as (Hi & Hp & _).
    rewrite bind_bind_eq, get_proc_eq. change (proc_at k1 i) with (proc_at k i).
    rewrite (proc_at_lookup _ _ _ Hi), bool_decide_eq_true_2 by done. erewrite bind_Ok by reflexivity. cbv iota.
    rewrite upd_proc_eq, gets_eq, upd_proc_eq. cbn [k_ptable k_nextpid set_k_ptable].
    rewrite alter_alter, set_set_k_ptable. change (k_ptable k1) with (k_ptable k). rewrite (alter_as_insert _ _ _ _ Hi).
    rewrite modify_eq. erewrite bind_Ok by (apply (release_ok L_ptable e k); done). by destruct k.
  - erewrite bind_Ok by (apply (release_ok L_ptable e k); by apply inside_taken). by destruct k.
Qed.

(** Process [p] of slot [i] as an embryo with its stack at [page]. *)
Definition embryo_state (fl page : Z) (i : nat) (p : proc) (k : kernel) : kernel :=
  set_k_ptable (<[i := with_stack page (claimed (k_nextpid k) p)]> (k_ptable k))
    (set_k_mem (stack_mem (k_link k) page (k_mem k))
      (set_k_freelist fl (set_k_nextpid (s32 (k_nextpid k + 1)) k))).

Lemma allocproc_page e k i p page rest :
  length (k_ptable k) = NPROC -> lock_free L_ptable k -> kmem_ready k -> free_pages k (page :: rest) ->
  list_find (fun p => p_state p = UNUSED) (k_ptable k) = Some (i, p) ->
  exists fl, allocproc e k = Ok (Some i) e (embryo_state fl page i p k) /\ free_pages (embryo_state fl page i p k) rest.
Proof.
  intros Hn Hl Hk Hfree E. rewrite (allocproc_eq e k Hn Hl (proj2 Hk)), E. apply list_find_Some in E as (Hi & _ & _).
  pose proof (lookup_lt_Some _ _ _ Hi) as Hlt. set (k1 := set_k_nextpid _ _).
  assert (kmem_ready k1) as Hk1 by done. assert (free_pages k1 (page :: rest)) as Hf1 by (by destruct Hfree; split).
  destruct (kalloc_ok k1 e _ Hk1 Hf1) as (fl & Ha & Hrest). destruct Hfree as [_ Hok Hnd]. inversion_clear Hok as [|? ? Hp Hps].
  apply NoDup_cons in Hnd as [Hnotin _]. destruct (page_ok_facts _ _ Hp) as [Hnz _].
  erewrite bind_Ok by exact Ha. rewrite upd_proc_eq, (proj2 (Z.eqb_neq _ _) Hnz).
  destruct (stack_mem_ok (k_link k) page (k_mem k)) as (_ & _ & Hout). exists fl. split.
  - cbv zeta. rewrite upd_proc_eq, gets_eq. unfold st32, mem_set. rewrite modify_eq, upd_proc_eq, !modify_eq.
    unfold k1. cbn. rewrite !alter_alter.
    rewrite (alter_as_insert _ _ _ (claimed (k_nextpid k) p)) by by apply list_lookup_insert_eq.
    rewrite list_insert_insert_eq. by destruct k.
  - enough (free_pages (set_k_mem (stack_mem (k_link k) page (k_mem k)) (set_k_freelist fl k1)) rest) as [] by done.
    apply free_pages_mem; [|done]. intros q Hq. apply load32_ext. intros j Hj. apply Hout.
    rewrite Forall_forall in Hps. destruct (pages_disjoint k page q Hp (Hps q Hq)); [by intros ->|lia..].
Qed.

Lemma allocproc_no_page e k i p :
  length (k_ptable k) = NPROC -> lock_free L_ptable k -> kmem_ready k -> free_pages k [] ->
  list_find (fun p => p_state p = UNUSED) (k_ptable k) = Some (i, p) ->
  allocproc e k = Ok None e (set_k_nextpid (s32 (k_nextpid k + 1))
    (set_k_ptable (<[i := set_p_state UNUSED (set_p_kstack 0 (claimed (k_nextpid k) p))]> (k_ptable k)) k)).
Proof.
  intros Hn Hl Hk Hfree E. rewrite (allocproc_eq e k Hn Hl (proj2 Hk)), E. apply list_find_Some in E as (Hi & _ & _).
  pose proof (lookup_lt_Some _ _ _ Hi) as Hlt. set (k1 := set_k_nextpid _ _).
  assert (free_pages k1 []) as Hf1 by (by destruct Hfree; split). pose proof (kalloc_ok k1 e [] Hk Hf1) as Ha.
  erewrite bind_Ok by exact Ha. rewrite upd_proc_eq. rewrite Z.eqb_refl. rewrite upd_proc_eq.
  unfold k1. cbn [k_ptable set_k_ptable set_k_nextpid]. rewrite alter_alter.
  rewrite (alter_as_insert _ _ _ (claimed (k_nextpid k) p)) by by apply list_lookup_insert_eq.
  rewrite list_insert_insert_eq. by destruct k.
Qed.


(** A machine whose first unused slot belonged to a process with seven calls. *)
Definition used_slot : kernel :=
  set_k_ptable (<[1%nat := set_p_scount 7 proc0]> (<[0%nat := set_p_state RUNNING proc0]> (k_ptable one_page))) one_page.


End Proc.
