(* ===== verification/Lottery.v ===== *)
(** The random numbers of proc.c and the liveness of the lottery: the generator
    goes through all numbers of 32 bits, so no runnable process is passed over
    for ever. *)

From S2P Require Import Prelude Bytes Machine Demo Cstring Spinlock Consout Kalloc Sleep Disk.
From S2P Require Import Bio Log Fs Vm Pipe File Proc.
Import Cstring Spinlock Consout Kalloc Sleep Proc.

Module Lottery.

(** ** The generator *)

(** One step of [rand], before the reduction to 32 bits. *)
Definition lcg (x : Z) : Z := x * 1664525 + 1013904223.

(** The state of the generator after [n] calls. *)
Definition drawn (n : nat) (rs : Z) : Z := Nat.iter n (fun rs => u32 (lcg rs)) rs.

(** [n] steps are an affine map. *)
Fixpoint mult (n : nat) : Z := match n with O => 1 | S n => 1664525 * mult n end.
Fixpoint incr (n : nat) : Z := match n with O => 0 | S n => incr n * 1664525 + 1013904223 end.

Lemma iter_lcg n x : Nat.iter n lcg x = mult n * x + incr n.
Proof.
  induction n as [|n IH]; [cbn; lia|]. rewrite Nat.iter_succ, IH. unfold lcg. cbn [mult incr]. lia.
Qed.

Lemma iter_add n m x : Nat.iter (n + m) lcg x = Nat.iter n lcg (Nat.iter m lcg x).
Proof. apply Nat.iter_add. Qed.

(** Twice as many steps. *)
Lemma affine_double n : mult (n + n) = mult n * mult n /\ incr (n + n) = incr n * (mult n + 1).
Proof.
  assert (forall x, mult (n + n) * x + incr (n + n) = mult n * (mult n * x + incr n) + incr n) as H.
  { intros x. by rewrite <- !iter_lcg, iter_add. }
  pose proof (H 0). pose proof (H 1). split; lia.
Qed.

(** After [2 ^ j] steps the number has moved by an odd multiple of [2 ^ j], up to
    [2 ^ (j + 2)]: the multiplier is 1 modulo 4 and the increment is odd. *)
Lemma affine_pow2 (j : nat) :
  exists u v, mult (2 ^ j) = 1 + 2 ^ (Z.of_nat j + 2) * u /\ incr (2 ^ j) = 2 ^ Z.of_nat j * (2 * v + 1).
Proof.
  induction j as [|j (u & v & Hm & Hi)].
  { exists 416131, 506952111. split; reflexivity. }
  destruct (affine_double (2 ^ j)) as [Hm2 Hi2].
  replace (2 ^ S j)%nat with (2 ^ j + 2 ^ j)%nat by (cbn; lia).
  rewrite Hm2, Hi2, Hm, Hi, Nat2Z.inj_succ. clear.
  set (p := 2 ^ Z.of_nat j). assert (2 ^ (Z.of_nat j + 2) = 4 * p) as -> by (unfold p; rewrite Z.pow_add_r by lia; lia).
  replace (Z.succ (Z.of_nat j) + 2) with (Z.of_nat j + 3) by lia.
  assert (2 ^ (Z.of_nat j + 3) = 8 * p) as -> by (unfold p; rewrite Z.pow_add_r by lia; lia).
  rewrite Z.pow_succ_r by lia. fold p.
  exists (u + 2 * p * u * u), (v + 2 * p * u * v + p * u). split; ring.
Qed.

(** From every number every residue is reached. *)
Lemma lcg_reaches (j : nat) x y :
  exists n q, (n < 2 ^ j)%nat /\ Nat.iter n lcg x = y + 2 ^ Z.of_nat j * q.
Proof.
  induction j as [|j (n & q & Hn & E)].
  { exists 0%nat, (x - y). cbn. split; lia. }
  rewrite Nat2Z.inj_succ, Z.pow_succ_r by lia. set (p := 2 ^ Z.of_nat j) in *.
  destruct (Z.even q) eqn:Hq.
  - apply Z.even_spec in Hq as [r ->]. exists n, r. rewrite E. cbn. split; [lia|ring].
  - assert (Z.odd q = true) as Hodd by (by rewrite <- Z.negb_even, Hq). apply Z.odd_spec in Hodd as [r ->].
    destruct (affine_pow2 j) as (u & v & Hm & Hi). fold p in Hi.
    assert (2 ^ (Z.of_nat j + 2) = 4 * p) as Hp by (unfold p; rewrite Z.pow_add_r by lia; lia). rewrite Hp in Hm.
    exists (2 ^ j + n)%nat, (r + 1 + v + 2 * u * (y + p * (2 * r + 1))). rewrite iter_add, iter_lcg, Hm, Hi, E.
    cbn [Nat.pow]. split; [lia|ring].
Qed.

Lemma drawn_lcg n rs : 0 <= rs < 2 ^ 32 -> drawn n rs = u32 (Nat.iter n lcg rs).
Proof.
  intros Hrs. unfold drawn. induction n as [|n IH]; [cbn; by rewrite u32_small|].
  rewrite !Nat.iter_succ, IH. unfold lcg, u32. rewrite Z.add_mod, Z.mul_mod_idemp_l, <- Z.add_mod by done. done.
Qed.

(** The generator has the full period. *)
Lemma drawn_reaches rs y :
  0 <= rs < 2 ^ 32 -> 0 <= y < 2 ^ 32 ->
  exists n, Z.of_nat n < 2 ^ 32 /\ u32 (lcg (drawn n rs)) = y.
Proof.
  intros Hrs Hy. destruct (lcg_reaches 32 (lcg rs) y) as (n & q & Hn & E). exists n. split.
  - apply Nat2Z.inj_lt in Hn. rewrite Nat2Z.inj_pow in Hn. exact Hn.
  - rewrite <- Nat.iter_succ_r in E. change (u32 (lcg (drawn n rs))) with (drawn (S n) rs).
    rewrite drawn_lcg, E by done. unfold u32. change (2 ^ Z.of_nat 32) with 4294967296.
    rewrite Z.mul_comm, Z.mod_add by done. by apply Z.mod_small.
Qed.

(** What the calls of [rand] do, whatever they are asked for. *)
Lemma rands_ok (maxs : list Z) e k :
  Forall (fun max => max <> 0) maxs ->
  for_all maxs (fun max => rand max ;; ret tt) e k =
    Ok tt e (set_k_randstate (drawn (length maxs) (k_randstate k)) k).
Proof.
  revert k. induction maxs as [|max maxs IH]; intros k Hm; cbn [for_all length].
  { by destruct k. }
  inversion_clear Hm as [|? ? H0 Hms]. rewrite bind_bind_eq. unfold rand at 1.
  rewrite bind_bind_eq, gets_eq, bind_bind_eq, modify_eq, (proj2 (Z.eqb_neq _ _) H0).
  rewrite ret_eq, ret_eq, IH by done. cbn [k_randstate set_k_randstate]. unfold drawn.
  rewrite Nat.iter_succ_r. by destruct k.
Qed.

Lemma round_ready_rand run_p k rs : round_ready run_p k -> round_ready run_p (set_k_randstate rs k).
Proof. intros H. exact H. Qed.



End Lottery.
