(* ===== verification/Fork.v ===== *)
(** The life of a process: [fork] makes a child that is a copy of its parent, and
    [wait] gives a child that has ended back to the kernel (proc.c, over vm.c and
    kalloc.c). *)

From S2P Require Import Prelude Bytes Machine Demo Cstring Spinlock Consout Kalloc Sleep Disk.
From S2P Require Import Bio Log Fs Vm Pagetable Uvm Freevm Pipe File Proc.
Import Cstring Spinlock Kalloc Sleep Fs Vm Pagetable Uvm Freevm File Proc.

Module Fork.

(** ** Pages and their contents *)

(** Memory changes only in page [p], which is in use. *)
Lemma vm_ready_write data k pgdir free p m :
  vm_ready data k pgdir free -> p ∈ data -> (forall x, x < p \/ p + 4096 <= x -> m x = k_mem k x) ->
  vm_ready data (set_k_mem m k) pgdir free /\
  (forall i, 0 <= i < 1024 -> table m pgdir i = table (k_mem k) pgdir i) /\
  (forall x, translation m pgdir x = translation (k_mem k) pgdir x).
Proof.
  intros [Hk Hf Hp Hnd] Hin Hm. assert (p ∈ free ++ data) as Hin' by (apply elem_of_app; by right).
  destruct (page_store _ _ _ _ p Hp Hin' Hm) as [Ht Htr]. split; [|done]. split; [done| | |done].
  - apply free_pages_mem; [|done]. intros q Hq. destruct (pt_free _ _ _ Hp p Hin') as (Hkp & _).
    destruct (pt_free _ _ _ Hp q) as (Hkq & _); [apply elem_of_app; by left|].
    assert (q <> p) as Hne by (intros ->; apply NoDup_app in Hnd as (_ & Hnd & _); by eapply Hnd).
    pose proof (kpages_apart _ _ Hkq Hkp Hne). apply load32_ext. intros i Hi. apply Hm. lia.
  - by eapply pt_ok_ext.
Qed.

(** The pages in use and the free ones are different pages. *)
Lemma alloc_ready_apart data k free p q i :
  alloc_ready data k free -> p ∈ free ++ data -> q ∈ free ++ data -> p <> q -> 0 <= i < 4096 ->
  p + i < q \/ q + 4096 <= p + i.
Proof.
  intros [_ Hf Hd _] Hp Hq Hne Hi. assert (Forall kpage (free ++ data)) as Hall.
  { apply Forall_app. split; [by eapply free_kpages|done]. }
  rewrite Forall_forall in Hall. apply kpages_unequal; auto.
Qed.

(** ** The files of the child *)

Definition add_ref (f : nat) (t : list file) : list file := alter (fun fl => set_f_ref (f_ref fl + 1) fl) f t.

(** The table of open files after one more reference to each file of [ofs]. *)
Definition dup_files (ofs : list (option nat)) (t : list file) : list file :=
  foldl (fun t o => match o with Some f => add_ref f t | None => t end) t ofs.

(** How often file [f] is open in [ofs]. *)
Definition opened (f : nat) (ofs : list (option nat)) : Z :=
  Z.of_nat (length (filter (fun o => o = Some f) ofs)).

Lemma dup_files_cons o ofs t :
  dup_files (o :: ofs) t = dup_files ofs (match o with Some f => add_ref f t | None => t end).
Proof. done. Qed.

Lemma dup_files_lookup ofs t f :
  dup_files ofs t !! f = (fun fl => set_f_ref (f_ref fl + opened f ofs) fl) <$> t !! f.
Proof.
  revert t. induction ofs as [|o ofs IH]; intros t.
  { unfold opened. cbn [dup_files foldl]. destruct (t !! f) as [fl|]; [|done]. cbn. rewrite Z.add_0_r. by destruct fl. }
  rewrite dup_files_cons, IH. unfold opened. destruct o as [g|].
  - unfold add_ref. destruct (decide (g = f)) as [->|Hne].
    + rewrite list_lookup_alter_eq, filter_cons_True by done. cbn [length].
      destruct (t !! f) as [fl|]; [|done]. cbn [fmap option_fmap option_map f_ref set_f_ref]. unfold set_f_ref. cbn. do 2 f_equal. lia.
    + rewrite list_lookup_alter_ne, filter_cons_False by congruence. done.
  - by rewrite filter_cons_False.
Qed.

Lemma length_dup_files ofs t : length (dup_files ofs t) = length t.
Proof.
  revert t. induction ofs as [|o ofs IH]; intros t; [done|].
  rewrite dup_files_cons, IH. destruct o; [apply length_alter|done].
Qed.

(** The loop of [fork] over the descriptors from [j] on. *)
Lemma fork_files me np p n ofs j e k :
  me <> np -> k_ptable k !! me = Some p -> k_ptable k !! np = Some n -> p_ofile p = ofs -> length ofs = NOFILE ->
  lock_free L_ftable k -> cpu_ok k -> (j <= NOFILE)%nat -> p_ofile n = take j ofs ++ replicate (NOFILE - j) None ->
  (forall f, Some f ∈ drop j ofs -> exists fl, k_ftable k !! f = Some fl /\ 1 <= f_ref fl) ->
  for_all (seq j (NOFILE - j)) (fun i =>
    p <- get_proc me ;;
    match mjoin (p_ofile p !! i) with
    | None => ret tt
    | Some f =>
        f <- filedup f ;;
        n <- get_proc np ;;
        upd_proc np (set_p_ofile (<[i := Some f]> (p_ofile n)))
    end) e k =
  Ok tt e (set_k_ftable (dup_files (drop j ofs) (k_ftable k))
    (set_k_ptable (<[np := set_p_ofile ofs n]> (k_ptable k)) k)).
Proof.
  intros Hne Hme Hnp Hofs Hlen Hl Hc. remember (NOFILE - j)%nat as c eqn:Hcj.
  revert j n k Hcj Hme Hnp Hl Hc. induction c as [|c IH]; intros j n k Hcj Hme Hnp Hl Hc Hj Hn Hfs; cbn [seq for_all].
  { rewrite drop_ge by lia. cbn [dup_files foldl]. rewrite take_ge, app_nil_r in Hn by lia.
    rewrite list_insert_id; [by destruct k|]. rewrite Hnp, <- Hn. by destruct n. }
  destruct (lookup_lt_is_Some_2 ofs j) as [o Ho]; [lia|]. rewrite (drop_S _ _ _ Ho) in *.
  rewrite bind_bind_eq, get_proc_eq, (proc_at_lookup _ _ _ Hme), Hofs, Ho. cbn [mjoin option_join].
  assert (forall v, set_p_ofile (<[j := v]> (p_ofile n)) n = set_p_ofile (take j ofs ++ v :: replicate c None) n) as Hset.
  { intros v. rewrite Hn. f_equal. rewrite insert_app_r_alt by (rewrite length_take; lia).
    rewrite length_take, Nat.min_l, Nat.sub_diag by lia. done. }
  assert (take (S j) ofs ++ replicate c None = take j ofs ++ o :: replicate c None) as Htake.
  { by rewrite (take_S_r _ _ _ Ho), <- app_assoc. }
  rewrite dup_files_cons. destruct o as [f|].
  - destruct (Hfs f ltac:(by left)) as (fl & Hfl & Href).
    erewrite bind_bind_eq, bind_Ok by (by apply filedup_ok). rewrite bind_bind_eq, get_proc_eq.
    erewrite proc_at_lookup by exact Hnp. unfold upd_proc at 1. rewrite modify_eq.
    cbn [k_ptable set_k_ftable]. rewrite (alter_as_insert _ _ _ _ Hnp), Hset.
    rewrite (IH (S j) (set_p_ofile (take j ofs ++ Some f :: replicate c None) n)); try done; try lia.
    + cbn [k_ptable k_ftable set_k_ftable set_k_ptable]. rewrite list_insert_insert_eq. unfold add_ref.
      rewrite (alter_as_insert _ _ _ _ Hfl). by destruct k, n.
    + cbn. by rewrite list_lookup_insert_ne by done.
    + cbn. apply list_lookup_insert_eq. by eapply lookup_lt_Some.
    + intros g Hg. cbn. destruct (Hfs g ltac:(by right)) as (gl & Hgl & Hg1).
      destruct (decide (f = g)) as [->|Hfg].
      * exists (set_f_ref (f_ref fl + 1) fl). split; [apply list_lookup_insert_eq; by eapply lookup_lt_Some|cbn; lia].
      * exists gl. by rewrite list_lookup_insert_ne.
  - rewrite ret_eq. apply IH; try done; try lia.
    + by rewrite Htake, Hn.
    + intros g Hg. apply Hfs. by right.
Qed.

(** ** The child *)

(** The child of process [p] (number [me]) in a slot that held [q]: a copy with its own
    number, stack and page directory. *)
Definition child (pid d page : Z) (me : nat) (p q : proc) : proc :=
  set_p_state RUNNABLE (set_p_name (safestrcpy (p_name q) (p_name p) 16) (set_p_cwd (p_cwd p)
    (set_p_ofile (p_ofile p) (set_p_parent (Some me) (set_p_sz (p_sz p) (set_p_pgdir d
      (with_stack page (claimed pid q)))))))).

(** Its trap frame: the parent's, with a zero for the result. *)
Definition frame_mem (page tf : Z) (m : memory) : memory :=
  let tf' := page + KSTACKSIZE - sizeof_trapframe in
  store32 (memmove m tf' tf (Z.to_nat sizeof_trapframe)) (tf' + tf_eax) 0.

Lemma frame_mem_ok page tf m :
  let tf' := page + KSTACKSIZE - sizeof_trapframe in
  (forall b, 0 <= b < sizeof_trapframe -> b < tf_eax \/ tf_eax + 4 <= b -> frame_mem page tf m (tf' + b) = m (tf + b)) /\
  load32 (frame_mem page tf m) (tf' + tf_eax) = 0 /\
  forall x, x < tf' \/ page + 4096 <= x -> frame_mem page tf m x = m x.
Proof.
  unfold frame_mem, KSTACKSIZE, sizeof_trapframe, tf_eax. cbv zeta. set (tf' := page + 4096 - 76). split; [|split].
  - intros b Hb Hne. rewrite store32_ne by lia. rewrite memmove_spec.
    rewrite (proj2 (Z.leb_le _ _)), (proj2 (Z.ltb_lt _ _)) by lia. cbn [andb]. f_equal. lia.
  - apply load32_store32.
  - intros x Hx. rewrite store32_ne by lia. rewrite memmove_spec. unfold tf' in *.
    destruct Hx; [rewrite (proj2 (Z.leb_gt _ _)) by lia; done|].
    rewrite (proj2 (Z.ltb_ge _ _)) by lia. by rewrite andb_false_r.
Qed.

(** The state after [fork] has copied the address space to [d] in state [k]. *)
Definition child_state (np me cwd : nat) (d page : Z) (pid : Z) (p q : proc) (k : kernel) : kernel :=
  set_k_icache (alter (fun ip => set_i_ref (i_ref ip + 1) ip) cwd (k_icache k))
    (set_k_ftable (dup_files (p_ofile p) (k_ftable k))
      (set_k_ptable (<[np := child pid d page me p q]> (k_ptable k))
        (set_k_mem (frame_mem page (p_tf p) (k_mem k)) k))).

Lemma idup_ok i e k :
  lock_free L_icache k -> cpu_ok k ->
  idup i e k = Ok i e (set_k_icache (alter (fun ip => set_i_ref (i_ref ip + 1) ip) i (k_icache k)) k).
Proof.
  intros Hl Hc. unfold idup. erewrite bind_Ok by (by apply acquire_ok). rewrite get_inode_eq, upd_inode_eq.
  change (inode_at (lock_taken L_icache k) i) with (inode_at k i). change (k_icache (lock_taken L_icache k)) with (k_icache k).
  erewrite bind_Ok by (apply (release_ok L_icache e k); done). unfold ret. f_equal. unfold unlock_to. cbn.
  rewrite <- (alter_default inode0 (fun ip => set_i_ref (i_ref ip + 1))). by destruct k.
Qed.

(** The running process [p] can fork: it is in order itself, and the first unused slot
    of the table is [i], left behind by [q]. *)
Record fork_ready (data : list Z) (me i cwd : nat) (p q : proc) (k : kernel) : Prop := {
  fr_procs : length (k_ptable k) = NPROC;
  fr_locks : Forall (fun l => lock_free l k) [L_ptable; L_ftable; L_icache];
  fr_link : link_ok (k_link k);
  fr_cur : c_proc (k_cpu k) = Some me;
  fr_me : k_ptable k !! me = Some p;
  fr_running : p_state p = RUNNING;
  fr_slot : list_find (fun p => p_state p = UNUSED) (k_ptable k) = Some (i, q);
  fr_closed : p_ofile q = replicate NOFILE None;
  fr_frame : p_kstack p ∈ data /\ p_tf p = p_kstack p + KSTACKSIZE - sizeof_trapframe;
  fr_size : 0 <= p_sz p <= KERNBASE;
  fr_space : space data (k_mem k) (p_pgdir p) (npages (p_sz p));
  fr_ofile : length (p_ofile p) = NOFILE;
  fr_files : forall f, Some f ∈ p_ofile p -> exists fl, k_ftable k !! f = Some fl /\ 1 <= f_ref fl;
  fr_cwd : p_cwd p = Some cwd
}.

(** [fork] after [copyuvm]. *)
Lemma fork_tail data me i cwd p q d page fl k0 k e :
  fork_ready data me i cwd p q k0 -> kmem_ready k0 -> d <> 0 ->
  allocproc e k0 = Ok (Some i) e (embryo_state fl page i q k0) ->
  copyuvm (p_pgdir p) (p_sz p) e (embryo_state fl page i q k0) = Ok d e k ->
  k = set_k_mem (k_mem k) (set_k_freelist (k_freelist k) (embryo_state fl page i q k0)) ->
  fork e k0 = Ok (k_nextpid k0) e (child_state i me cwd d page (k_nextpid k0) p q k).
Proof.
  intros [Hn Hlocks _ Hcur Hme Hrun Hslot Hclosed _ _ _ Hlen Hfs Hcwd] [_ Hc] Hd Ea Ec Hk.
  apply Forall_cons in Hlocks as [Hlp [Hlf [Hli _]%Forall_cons]%Forall_cons].
  apply list_find_Some in Hslot as (Hi & Hun & _). pose proof (lookup_lt_Some _ _ _ Hi) as Hlt.
  assert (me <> i) as Hne by congruence.
  unfold fork. rewrite (bind_Ok _ _ _ _ _ _ _ Ea), (curproc_eq me) by done.
  rewrite get_proc_eq. erewrite proc_at_lookup by (cbn; rewrite list_lookup_insert_ne by done; exact Hme).
  rewrite (bind_Ok _ _ _ _ _ _ _ Ec), upd_proc_eq, (proj2 (Z.eqb_neq _ _) Hd), !upd_proc_eq.
  set (t := k_ptable k0) in *. assert (k_ptable k = <[i := with_stack page (claimed (k_nextpid k0) q)]> t) as Ht by (by rewrite Hk).
  cbn [k_ptable set_k_ptable]. rewrite Ht, !list_alter_insert by done. rewrite get_proc_eq.
  erewrite proc_at_lookup by (cbn; by apply list_lookup_insert_eq).
  unfold mem_move, st32. rewrite !modify_eq. cbn [p_tf set_p_parent set_p_sz set_p_pgdir with_stack set_p_context set_p_tf k_mem set_k_mem set_k_ptable].
  fold (frame_mem page (p_tf p) (k_mem k)).
  set (n1 := set_p_parent _ _). set (k1 := set_k_mem (frame_mem page (p_tf p) (k_mem k)) _).
  assert (k_ptable k1 !! me = Some p) as Hme1 by (cbn; by rewrite list_lookup_insert_ne).
  assert (k_ptable k1 !! i = Some n1) as Hi1 by (cbn; by apply list_lookup_insert_eq).
  pose proof (fork_files me i p n1 (p_ofile p) 0 e k1 Hne Hme1 Hi1 eq_refl Hlen) as Hloop.
  rewrite Nat.sub_0_r in Hloop. erewrite bind_Ok.
  2:{ apply Hloop; [by unfold k1; rewrite Hk|by unfold k1; rewrite Hk|lia|done|]. unfold k1. rewrite Hk. exact Hfs. }
  rewrite drop_0. set (k2 := set_k_ftable _ _). assert (k_ptable k2 !! me = Some p) as Hme2.
  { unfold k2, k1. cbn. by rewrite !list_lookup_insert_ne. }
  rewrite get_proc_eq, (proc_at_lookup _ _ _ Hme2), Hcwd.
  erewrite bind_Ok by (apply idup_ok; unfold k2, k1; rewrite Hk; done).
  assert (k_ptable k2 = <[i := set_p_ofile (p_ofile p) n1]> t) as Ht2 by (unfold k2, k1; cbn; by rewrite list_insert_insert_eq).
  rewrite upd_proc_eq. cbn [k_ptable set_k_icache]. rewrite Ht2, list_alter_insert by done.
  rewrite get_proc_eq. erewrite proc_at_lookup by (cbn; by apply list_lookup_insert_eq).
  rewrite upd_proc_eq. cbn [k_ptable set_k_ptable]. rewrite list_alter_insert by done.
  rewrite get_proc_eq. erewrite proc_at_lookup by (cbn; by apply list_lookup_insert_eq).
  set (k3 := set_k_ptable (<[i := set_p_name _ _]> t) _).
  assert (lock_free L_ptable k3 /\ cpu_ok k3) as [Hl3 Hc3] by (unfold k3, k2, k1; rewrite Hk; done).
  erewrite bind_Ok by (by apply acquire_ok). rewrite upd_proc_eq.
  erewrite bind_Ok by (apply (release_ok L_ptable e k3); done).
  change (k_ptable (lock_taken L_ptable k3)) with (<[i := set_p_name (safestrcpy (p_name q) (p_name p) 16) (set_p_cwd (Some cwd) (set_p_ofile (p_ofile p) n1))]> t).
  rewrite list_alter_insert by done. unfold ret. f_equal.
  unfold k3, k2, k1, child_state, child. rewrite Hcwd, Ht, list_insert_insert_eq. by destruct k.
Qed.

(** What [fork] has done from [k] to [k']: slot [i] holds a child of [p] with its stack at
    [page] and its directory at [d], which maps the pages [new]. *)
Record forked (data : list Z) (me i cwd : nat) (p q : proc) (page d : Z) (new : list Z) (k k' : kernel) : Prop := {
  fk_frame : k' = set_k_icache (k_icache k') (set_k_ftable (k_ftable k') (set_k_ptable (k_ptable k')
    (set_k_nextpid (k_nextpid k') (set_k_mem (k_mem k') (set_k_freelist (k_freelist k') k)))));
  fk_proc : k_ptable k' = <[i := child (k_nextpid k) d page me p q]> (k_ptable k);
  fk_pid : k_nextpid k' = s32 (k_nextpid k + 1);
  fk_files : k_ftable k' = dup_files (p_ofile p) (k_ftable k);
  fk_cwd : k_icache k' = alter (fun ip => set_i_ref (i_ref ip + 1) ip) cwd (k_icache k);
  fk_data : forall r b, r ∈ data -> 0 <= b < 4096 -> k_mem k' (r + b) = k_mem k (r + b);
  fk_tf : forall b, 0 <= b < sizeof_trapframe -> b < tf_eax \/ tf_eax + 4 <= b ->
    k_mem k' (page + KSTACKSIZE - sizeof_trapframe + b) = k_mem k (p_tf p + b);
  fk_eax : load32 (k_mem k') (page + KSTACKSIZE - sizeof_trapframe + tf_eax) = 0;
  fk_start : let ctx := page + KSTACKSIZE - sizeof_trapframe - 4 - sizeof_context in
    load32 (k_mem k') (ctx + ctx_eip) = u32 (ld_forkret (k_link k)) /\
    load32 (k_mem k') (ctx + sizeof_context) = u32 (ld_trapret (k_link k));
  fk_new : length new = Z.to_nat (npages (p_sz p));
  fk_copy : forall x r, new !! Z.to_nat (vpn x) = Some r ->
    exists v, translation (k_mem k) (p_pgdir p) x = Some v /\ translation (k_mem k') d x = Some (v2p r + PTE_FLAGS v) /\
      forall b, 0 <= b < 4096 -> k_mem k' (r + b) = k_mem k (p2v (PTE_ADDR v) + b);
  fk_kernel : forall x, npages (p_sz p) <= vpn x -> translation (k_mem k') d x = entry_of (kmap (k_link k)) x
}.

(** The slot and its stack. *)
Lemma embryo_ok data me i cwd p q page free k e :
  fork_ready data me i cwd p q k -> alloc_ready data k (page :: free) ->
  exists fl, let k1 := embryo_state fl page i q k in
    allocproc e k = Ok (Some i) e k1 /\ alloc_ready (page :: data) k1 free /\ page ∉ data /\
    data_kept data k (set_k_mem (k_mem k1) k) /\ space (page :: data) (k_mem k1) (p_pgdir p) (npages (p_sz p)).
Proof.
  intros Hfr Ha. pose proof Ha as [Hk Hf Hd Hnd].
  destruct (allocproc_page e k i q page free) as (fl & Ea & Hf1); [apply Hfr| |done|done|apply Hfr|].
  { pose proof (fr_locks _ _ _ _ _ _ _ Hfr) as Hl. by apply Forall_cons in Hl as [? _]. }
  destruct (stack_mem_ok (k_link k) page (k_mem k)) as (_ & _ & Hout).
  exists fl. cbv zeta. set (k1 := embryo_state fl page i q k) in *.
  assert (page ∉ data) as Hpd by (intros Hin; apply NoDup_app in Hnd as (_ & Hnd & _); apply (Hnd page); [by left|done]).
  assert (data_kept data k (set_k_mem (k_mem k1) k)) as Hdk1.
  { split; [by destruct k|]. intros r b Hr Hb. cbn. apply Hout. assert (r <> page) as Hne by congruence.
    destruct (alloc_ready_apart _ _ _ r page b Ha) as [|]; [by apply elem_of_app; right|by left|done|done|lia|lia]. }
  split; [done|]. split; [|split; [done|split; [done|]]].
  - split; [done|done| |by rewrite <- Permutation_middle]. constructor; [|done].
    pose proof (free_kpages _ _ Hf) as Hkp. by apply Forall_cons in Hkp as [? _].
  - change (k_mem k1) with (k_mem (set_k_mem (k_mem k1) k)). eapply space_kept; [exact Hdk1|by right|]. apply Hfr.
Qed.

(** The trap frame changes only the stack. *)
Lemma child_state_mem data page tf k m free d new :
  vm_ready (reverse new ++ page :: data) k d free -> m = frame_mem page tf (k_mem k) ->
  vm_ready (reverse new ++ page :: data) (set_k_mem m k) d free /\
  (forall i, 0 <= i < 1024 -> table m d i = table (k_mem k) d i) /\
  (forall x, translation m d x = translation (k_mem k) d x) /\
  (forall r b, r ∈ new ++ data -> 0 <= b < 4096 -> m (r + b) = k_mem k (r + b)).
Proof.
  intros Hr ->. destruct (frame_mem_ok page tf (k_mem k)) as (_ & _ & Hout). unfold KSTACKSIZE, sizeof_trapframe in Hout.
  assert (page ∈ reverse new ++ page :: data) as Hin by (apply elem_of_app; right; left).
  assert (forall x, x < page \/ page + 4096 <= x -> frame_mem page tf (k_mem k) x = k_mem k x) as Hpage
    by (intros x Hx; apply Hout; lia).
  destruct (vm_ready_write _ _ _ _ page _ Hr Hin Hpage) as (Hr' & Ht & Htr). do 3 (split; [done|]).
  intros r b Hrb Hb. apply Hpage. destruct Hr as [_ _ Hp Hnd].
  assert (r ∈ reverse new ++ page :: data /\ r <> page) as [Hrin Hne].
  { apply NoDup_app in Hnd as (_ & _ & Hnd). rewrite <- Permutation_middle, reverse_Permutation in Hnd.
    apply NoDup_cons in Hnd as [Hno _]. split; [|by intros ->].
    rewrite elem_of_app, elem_of_reverse, elem_of_cons. apply elem_of_app in Hrb as [?|?]; tauto. }
  destruct (pt_free _ _ _ Hp r) as (Hkr & _); [apply elem_of_app; by right|].
  destruct (pt_free _ _ _ Hp page) as (Hkp & _); [apply elem_of_app; by right|].
  pose proof (kpages_unequal r page b Hkr Hkp Hne Hb). lia.
Qed.

Lemma fork_ok data me i cwd p q page free k e :
  fork_ready data me i cwd p q k -> alloc_ready data k (page :: free) ->
  (Z.to_nat (npages (p_sz p)) + 1026 <= length free)%nat ->
  exists d k' free' new, fork e k = Ok (k_nextpid k) e k' /\ forked data me i cwd p q page d new k k' /\
    vm_ready (reverse new ++ page :: data) k' d free' /\ free ≡ₚ d :: new ++ free' ++ tables (k_mem k') d /\
    frames (k_mem k') d 0 524288 = new /\ dense (k_mem k') d.
Proof.
  intros Hfr Ha Hlen. destruct (embryo_ok _ _ _ _ _ _ _ _ _ e Hfr Ha) as (fl & Ea & Ha1 & Hpd & Hdk1 & Hs1).
  set (k1 := embryo_state fl page i q k) in *. pose proof (fr_size _ _ _ _ _ _ _ Hfr) as Hsz. pose proof (fr_link _ _ _ _ _ _ _ Hfr) as Hlink.
  destruct (copyuvm_ok (page :: data) (p_pgdir p) (p_sz p) k1 e free) as
    (d & k2 & free2 & new & E2 & Hd0 & Hl2 & Hr2 & Hdk2 & Hperm2 & Hcp2 & Hk2 & Hnt2); try done.
  pose proof (fork_tail _ _ _ _ _ _ d page fl k k2 e Hfr (ar_kmem _ _ _ Ha) Hd0 Ea E2 (proj1 Hdk2)) as E.
  set (k' := child_state i me cwd d page (k_nextpid k) p q k2) in *.
  destruct (child_state_mem _ _ _ _ (k_mem k') _ _ _ Hr2 eq_refl) as (Hr' & Ht' & Htr' & Hm').
  destruct (space_same _ _ _ _ _ Hdk1 (fr_space _ _ _ _ _ _ _ Hfr)) as [_ Hsrc].
  assert (vm_ready (reverse new ++ page :: data) k' d free2) as Hr.
  { destruct Hr' as [? [] ? ?]. split; [done|by split|done|done]. }
  destruct (copy_frames (p_pgdir p) (p_sz p) k1 k' d new free2 (page :: data)) as [Hframes Hdense]; try done.
  { intros x r Hx. rewrite Htr'. destruct (Hcp2 x r Hx) as (v & Hv & Htr & _). by exists v. }
  { intros x Hx. rewrite Htr'. by apply Hk2. }
  { intros j Hj Hn. destruct (decide (0 <= j)); [rewrite Ht' by lia; by apply Hnt2|].
    assert (0 <= npages (p_sz p)) by apply vpn_range. lia. }
  exists d, k', free2, new. split; [done|]. split; [|by rewrite (tables_ext _ _ _ Ht')].
  destruct (frame_mem_ok page (p_tf p) (k_mem k2)) as (Htf & Heax & Hlow).
  destruct (stack_mem_ok (k_link k) page (k_mem k)) as (Hst1 & Hst2 & _).
  destruct (fr_frame _ _ _ _ _ _ _ Hfr) as [Hks Hptf]. destruct Hdk2 as [Hfr2 Hm2]. destruct Hdk1 as [_ Hm1].
  assert (forall r b, r ∈ data -> 0 <= b < 4096 -> k_mem k2 (r + b) = k_mem k (r + b)) as Hm.
  { intros r b Hin Hb. rewrite Hm2 by (by right || done). by apply Hm1. }
  assert (forall x, page <= x < page + 4096 -> k_mem k2 x = k_mem k1 x) as Hstack.
  { intros x Hx. replace x with (page + (x - page)) by lia. apply Hm2; [left|lia]. }
  unfold KSTACKSIZE, sizeof_trapframe, sizeof_context, tf_eax, ctx_eip in *. split.
  - unfold k', child_state. rewrite Hfr2. by destruct k.
  - cbn. rewrite Hfr2. cbn. by rewrite list_insert_insert_eq.
  - cbn. by rewrite Hfr2.
  - cbn. by rewrite Hfr2.
  - cbn. by rewrite Hfr2.
  - intros r b Hin Hb. rewrite Hm' by first [done|apply elem_of_app; by right]. by apply Hm.
  - intros b Hb Hne. etrans; [by apply Htf|]. rewrite Hptf. unfold KSTACKSIZE, sizeof_trapframe in *.
    replace (p_kstack p + 4096 - 76 + b) with (p_kstack p + (4096 - 76 + b)) by lia. apply Hm; [done|lia].
  - exact Heax.
  - unfold KSTACKSIZE, sizeof_trapframe, sizeof_context, ctx_eip. cbv zeta.
    rewrite <- Hst1, <- Hst2. split; apply load32_ext; intros b Hb.
    all: etrans; [apply Hlow; lia|].
    all: etrans; [apply Hstack; lia|done].
  - done.
  - intros x r Hx. destruct (Hcp2 x r Hx) as (v & Hv & Htr & Hb). rewrite Hsrc in Hv. exists v. rewrite Htr'. split; [done|].
    split; [done|]. intros b Hbr. rewrite Hm' by first [done|apply elem_of_app; left; by eapply list_elem_of_lookup_2].
    rewrite Hb by done. apply Hm1; [|done]. destruct (sp_page _ _ _ _ (fr_space _ _ _ _ _ _ _ Hfr) x) as (w & Hw & Hin); [|congruence].
    apply lookup_lt_Some in Hx. pose proof (vpn_range x). lia.
  - intros x Hx. rewrite Htr'. by apply Hk2.
Qed.

(** ** The end of a child *)

Definition zombie_of (me : nat) (c : proc) : Prop := p_parent c = Some me /\ p_state c = ZOMBIE.

#[local] Instance zombie_of_dec me c : Decision (zombie_of me c).
Proof. unfold zombie_of. apply _. Defined.

(** A process that has been waited for. *)
Definition reaped (c : proc) : proc :=
  set_p_killed 0 (set_p_name (<[0%nat := 0]> (p_name c)) (set_p_parent None (set_p_pid 0
    (set_p_state UNUSED (set_p_kstack 0 c))))).

Lemma alloc_ready_locked l data k free :
  l <> L_kmem -> alloc_ready data k free -> alloc_ready data (lock_taken l k) free.
Proof.
  intros Hne [[Hl Hc] [] Hd Hnd]. split; [split|by split|done|done].
  - intros Hu. apply lock_free_other; auto.
  - by apply lock_taken_cpu_ok.
Qed.

Lemma vm_ready_locked l data k pgdir free :
  l <> L_kmem -> vm_ready data k pgdir free -> vm_ready data (lock_taken l k) pgdir free.
Proof.
  intros Hne [[Hl Hc] [] Hd Hnd]. split; [split|by split|done|done].
  - intros Hu. apply lock_free_other; auto.
  - by apply lock_taken_cpu_ok.
Qed.

(** The scan passes the processes that are not zombie children. *)
Lemma wait_scan_skip l1 l2 me havekids e k :
  Forall (fun i => ~ zombie_of me (proc_at k i)) l1 ->
  wait_scan (l1 ++ l2) me havekids e k =
    wait_scan l2 me (havekids || existsb (fun i => bool_decide (p_parent (proc_at k i) = Some me)) l1) e k.
Proof.
  revert havekids. induction l1 as [|i l1 IH]; intros havekids Hz; cbn [app existsb].
  { by rewrite orb_false_r. }
  apply Forall_cons in Hz as [Hi Hz]. cbn [wait_scan]. rewrite get_proc_eq.
  destruct (decide (p_parent (proc_at k i) = Some me)) as [Hp|Hp].
  - rewrite (bool_decide_eq_true_2 _ Hp). cbn [negb]. rewrite bool_decide_eq_false_2 by (intros ?; by apply Hi).
    rewrite IH by done. by rewrite orb_true_r.
  - rewrite (bool_decide_eq_false_2 _ Hp). cbn [negb]. by apply IH.
Qed.

(** The pages of process [c] are in order, and the pages [rest] belong to others. *)
Definition proc_pages (rest : list Z) (c : proc) (k : kernel) (free : list Z) : Prop :=
  let pages := frames (k_mem k) (p_pgdir c) 0 524288 in
  vm_ready (pages ++ p_kstack c :: rest) k (p_pgdir c) free /\
  Forall (page_ok k) (p_kstack c :: p_pgdir c :: tables (k_mem k) (p_pgdir c) ++ pages) /\
  dense (k_mem k) (p_pgdir c) /\ KERNBASE < ld_end (k_link k).

(** From [k] to [k'] process [c] of slot [i] was reaped. *)
Definition reaps (rest : list Z) (i : nat) (c : proc) (k k' : kernel) (free free' : list Z) : Prop :=
  k' = set_k_ptable (<[i := reaped c]> (k_ptable k)) (set_k_mem (k_mem k') (set_k_freelist (k_freelist k') k)) /\
  alloc_ready rest k' free' /\
  (forall r b, r ∈ rest -> 0 <= b < 4096 -> k_mem k' (r + b) = k_mem k (r + b)) /\
  free' ≡ₚ p_kstack c :: p_pgdir c :: tables (k_mem k) (p_pgdir c) ++ frames (k_mem k) (p_pgdir c) 0 524288 ++ free.

(** The child's stack and its address space are given back. *)
Lemma free_child rest i c k e free :
  proc_pages rest c k free -> k_ptable k !! i = Some c ->
  exists k1 k2 free', kfree (p_kstack c) e k = Ok tt e k1 /\
    freevm (p_pgdir c) e (set_k_ptable (<[i := set_p_kstack 0 c]> (k_ptable k)) k1) = Ok tt e k2 /\
    k_ptable k1 = k_ptable k /\
    k2 = set_k_ptable (<[i := set_p_kstack 0 c]> (k_ptable k)) (set_k_mem (k_mem k2) (set_k_freelist (k_freelist k2) k)) /\
    alloc_ready rest k2 free' /\ (forall r b, r ∈ rest -> 0 <= b < 4096 -> k_mem k2 (r + b) = k_mem k (r + b)) /\
    free' ≡ₚ p_kstack c :: p_pgdir c :: tables (k_mem k) (p_pgdir c) ++ frames (k_mem k) (p_pgdir c) 0 524288 ++ free.
Proof.
  intros (Hr & [Hoks Hok]%Forall_cons & Hdense & Hlink) Hi. set (pages := frames (k_mem k) (p_pgdir c) 0 524288) in *.
  assert (vm_ready (p_kstack c :: pages ++ rest) k (p_pgdir c) free) as Hr'.
  { eapply vm_ready_perm; [|exact Hr]. by rewrite Permutation_middle. }
  destruct (free_page _ k e _ _ _ Hr' Hoks) as (m & E1 & Hr1 & Ht1 & Htr1 & Hm1).
  set (k1 := set_k_freelist (p_kstack c) (set_k_mem m k)) in *.
  set (k1' := set_k_ptable (<[i := set_p_kstack 0 c]> (k_ptable k)) k1).
  assert (frames (k_mem k1') (p_pgdir c) 0 524288 = pages) as Hfr.
  { apply frames_ext. intros n _. unfold frame. cbn. by rewrite Htr1. }
  assert (tables (k_mem k1') (p_pgdir c) = tables (k_mem k) (p_pgdir c)) as Htab by (by apply tables_ext).
  destruct (freevm_ok (p_pgdir c) k1' e rest (p_kstack c :: free)) as (k2 & free2 & E2 & Ha2 & [Hf2 Hm2] & Hperm).
  - rewrite Hfr. destruct Hr1 as [? [] ? ?]. split; [done|by split|done|done].
  - rewrite Hfr, Htab. done.
  - intros j j' Hj Hj'. change (k_mem k1') with m. rewrite !Ht1 by lia. by apply Hdense.
  - done.
  - exists k1, k2, free2. do 3 (split; [done|]). split; [rewrite Hf2; by destruct k|]. split; [done|]. split.
    + intros r b Hrin Hb. rewrite Hm2 by done. cbn. apply Hm1. destruct Hr as [_ _ Hp Hnd].
      destruct (pt_free _ _ _ Hp r) as (Hkr & _); [rewrite !elem_of_app, elem_of_cons; tauto|].
      destruct (pt_free _ _ _ Hp (p_kstack c)) as (Hks & _); [rewrite !elem_of_app, elem_of_cons; tauto|].
      apply kpages_unequal; try done. intros ->.
      apply NoDup_app in Hnd as (_ & _ & (_ & _ & Hnd)%NoDup_app). by apply (NoDup_cons_1_1 _ _ Hnd).
    + rewrite Hperm, Hfr, Htab, <- !Permutation_middle. apply Permutation_swap.
Qed.

Lemma wait_scan_reaps rest i c me l havekids k0 k e free :
  inside L_ptable k0 k -> k_ptable k !! i = Some c -> zombie_of me c -> proc_pages rest c k free ->
  exists k' free', wait_scan (i :: l) me havekids e k = Ok (inl (p_pid c)) e (unlock_to k0 k') /\
    reaps rest i c k k' free free'.
Proof.
  intros Hin Hi [Hpar Hz] Hpages. destruct (free_child rest i c k e free Hpages Hi) as (k1 & k2 & free2 & E1 & E2 & Ht1 & Hf2 & Ha2 & Hm2 & Hperm).
  pose proof (lookup_lt_Some _ _ _ Hi) as Hlt.
  cbn [wait_scan]. rewrite get_proc_eq, (proc_at_lookup _ _ _ Hi), (bool_decide_eq_true_2 _ Hpar), (bool_decide_eq_true_2 _ Hz).
  cbn [negb]. rewrite (bind_Ok _ _ _ _ _ _ _ E1), upd_proc_eq, Ht1, (alter_as_insert _ _ _ _ Hi), (bind_Ok _ _ _ _ _ _ _ E2).
  rewrite !upd_proc_eq. cbn [k_ptable set_k_ptable]. assert (k_ptable k2 = <[i := set_p_kstack 0 c]> (k_ptable k)) as -> by (by rewrite Hf2).
  rewrite !list_alter_insert by done. set (k3 := set_k_ptable _ _).
  exists k3, free2. erewrite bind_Ok.
  2:{ apply (release_ok L_ptable e k0). destruct Hin as (? & ? & Hl & Hc). unfold k3. rewrite Hf2. do 2 (split; [done|]). by split. }
  split; [done|]. split; [|split; [|done]].
  - unfold k3. rewrite Hf2. by destruct k.
  - destruct Ha2 as [? [] ? ?]. split; [done|by split|done|done].
Qed.

Lemma proc_pages_locked rest c k free : proc_pages rest c k free -> proc_pages rest c (lock_taken L_ptable k) free.
Proof. intros (Hr & Hok & Hdense & Hlink). split; [by apply vm_ready_locked|done]. Qed.

Lemma no_zombies me k n :
  (forall j c, (j < n)%nat -> k_ptable k !! j = Some c -> ~ zombie_of me c) ->
  (n <= length (k_ptable k))%nat -> Forall (fun i => ~ zombie_of me (proc_at k i)) (seq 0 n).
Proof.
  intros Hz Hn. apply Forall_forall. intros j Hj%elem_of_seq. destruct (lookup_lt_is_Some_2 (k_ptable k) j) as [c Hc]; [lia|].
  rewrite (proc_at_lookup _ _ _ Hc). apply (Hz j); [lia|done].
Qed.

Lemma wait_ok me i c rest e k free :
  length (k_ptable k) = NPROC -> lock_free L_ptable k -> c_proc (k_cpu k) = Some me ->
  list_find (zombie_of me) (k_ptable k) = Some (i, c) -> proc_pages rest c k free ->
  exists k' free', wait e k = Ok (p_pid c) e k' /\ reaps rest i c k k' free free'.
Proof.
  intros Hn Hl Hcur (Hi & Hz & Hbefore)%list_find_Some Hpages. pose proof (lookup_lt_Some _ _ _ Hi) as Hlt.
  pose proof (vr_kmem _ _ _ _ (proj1 Hpages)) as [Hkl Hc]. unfold wait. erewrite bind_Ok by (by apply acquire_ok).
  unfold loop_sched. cbn [loop_fuel]. rewrite bind_bind_eq, (curproc_eq me) by done.
  unfold all_procs. rewrite (seq_split_at i NPROC) by lia. rewrite bind_bind_eq. set (k1 := lock_taken L_ptable k).
  destruct (wait_scan_reaps rest i c me (seq (S i) (NPROC - S i))
    (false || existsb (fun j => bool_decide (p_parent (proc_at k1 j) = Some me)) (seq 0 i)) k k1 e free)
    as (k' & free' & E & Hf & Ha & Hm & Hperm); [done|done|done|by apply proc_pages_locked|].
  erewrite bind_Ok.
  2:{ rewrite wait_scan_skip; [exact E|]. apply no_zombies; [|cbn; lia]. intros j p Hj Hp. by apply (Hbefore j). }
  exists (unlock_to k k'), free'. split; [done|]. split; [rewrite Hf; by destruct k|]. split; [|done].
  destruct Ha as [_ [H1 H2 H3] H4 H5]. rewrite Hf. cbn. rewrite Hf in H1, H2.
  split; [done|by split|done|done].
Qed.

(** Whether process [me] has a child. *)
Definition has_child (me : nat) (k : kernel) : bool :=
  existsb (fun i => bool_decide (p_parent (proc_at k i) = Some me)) all_procs.

Lemma wait_scan_none me e k :
  length (k_ptable k) = NPROC -> list_find (zombie_of me) (k_ptable k) = None ->
  wait_scan all_procs me false e k = Ok (inr (has_child me k)) e k.
Proof.
  intros Hn Hz. rewrite <- (app_nil_r all_procs), wait_scan_skip; [done|].
  apply no_zombies; [|by rewrite Hn]. intros j c _ Hc. apply list_find_None in Hz. rewrite Forall_forall in Hz.
  apply Hz. by eapply list_elem_of_lookup_2.
Qed.

(** Process [me] asleep until a child ends, in the state in which the processor is given
    away, and the state in which it looks again if it then runs in state [k]. *)
Definition waiting (me : nat) (k : kernel) : kernel :=
  set_k_ptable (alter (fun p => set_p_state SLEEPING (set_p_chan (Some (Ch_proc me)) p)) me (k_ptable k))
    (lock_taken L_ptable k).
Definition resumed (me : nat) (k0 k : kernel) : kernel :=
  unlock_to k0 (set_k_ptable (alter (set_p_chan None) me (k_ptable k)) k).

Lemma wait_sleeps me p f e k :
  length (k_ptable k) = NPROC -> lock_free L_ptable k -> cpu_ok k -> c_ncli (k_cpu k) = 0 ->
  c_proc (k_cpu k) = Some me -> k_ptable k !! me = Some p ->
  list_find (zombie_of me) (k_ptable k) = None -> has_child me k = true -> p_killed p = 0 ->
  k_locks (f (waiting me k)) = k_locks (waiting me k) -> k_cpu (f (waiting me k)) = k_cpu (waiting me k) ->
  wait (f :: e) k = wait e (resumed me k (f (waiting me k))).
Proof.
  intros Hn Hl Hc Hcli Hcur Hme Hz Hkids Hkill HfL HfC. unfold wait. erewrite bind_Ok by (by apply acquire_ok).
  symmetry. erewrite bind_Ok by (apply acquire_ok; [exact Hl|exact Hc]). symmetry.
  unfold loop_sched. cbn [length]. cbn [loop_fuel]. rewrite bind_bind_eq, (curproc_eq me) by done.
  rewrite bind_bind_eq. erewrite bind_Ok by (apply wait_scan_none; [exact Hn|exact Hz]).
  change (has_child me (lock_taken L_ptable k)) with (has_child me k). rewrite Hkids, bind_bind_eq, get_proc_eq.
  change (proc_at (lock_taken L_ptable k) me) with (proc_at k me). rewrite (proc_at_lookup _ _ _ Hme), Hkill.
  change (negb true || nz 0) with false. cbv iota.
  rewrite bind_bind_eq. erewrite bind_Ok by (apply (sleep_table me _ f e k); [done|done|done|by eapply lookup_lt_Some|exact HfC]).
  rewrite ret_eq. cbv iota. fold (waiting me k).
  set (kf := f (waiting me k)) in *.
  assert (lock_taken L_ptable (resumed me k kf) = set_k_ptable (alter (set_p_chan None) me (k_ptable kf)) kf) as ->; [|done].
  transitivity (set_k_locks (k_locks (waiting me k)) (set_k_cpu (k_cpu (waiting me k))
    (set_k_ptable (alter (set_p_chan None) me (k_ptable kf)) kf))); [reflexivity|].
  rewrite <- HfL, <- HfC. by destruct kf.
Qed.

Lemma wait_fails me p e k :
  length (k_ptable k) = NPROC -> lock_free L_ptable k -> cpu_ok k ->
  c_proc (k_cpu k) = Some me -> k_ptable k !! me = Some p ->
  list_find (zombie_of me) (k_ptable k) = None -> has_child me k = false \/ p_killed p <> 0 ->
  wait e k = Ok (-1) e k.
Proof.
  intros Hn Hl Hc Hcur Hme Hz Hno. unfold wait. erewrite bind_Ok by (by apply acquire_ok).
  unfold loop_sched. cbn [loop_fuel]. rewrite bind_bind_eq, (curproc_eq me) by done.
  rewrite bind_bind_eq. erewrite bind_Ok by (apply wait_scan_none; [exact Hn|exact Hz]).
  cbv iota. rewrite bind_bind_eq, get_proc_eq. change (proc_at (lock_taken L_ptable k) me) with (proc_at k me).
  change (has_child me (lock_taken L_ptable k)) with (has_child me k). rewrite (proc_at_lookup _ _ _ Hme).
  assert (negb (has_child me k) || nz (p_killed p) = true) as ->.
  { destruct Hno as [->|Hno]; [done|]. apply orb_true_iff. right. by apply nz_true. }
  rewrite bind_bind_eq. erewrite bind_Ok by (apply (release_ok L_ptable e k); by apply inside_taken).
  rewrite ret_eq. unfold ret. f_equal. by destruct k.
Qed.

(** ** The theorems *)

(** C9: [fork] makes a copy of the running process.  With an unused slot and enough free pages it
    returns the next process number; the slot then holds a runnable child of
    the caller with that number, with its size, working directory and open
    files, whose reference counts grow as often as they are open.  The child's trap
    frame is the caller's but for a zero in [eax], its kernel stack starts it
    in [forkret], and its address space has the caller's bytes and permissions
    in fresh pages.  The caller's own pages keep their contents. *)
Theorem fork_copies data me i cwd p q page free k e :
  fork_ready data me i cwd p q k -> alloc_ready data k (page :: free) ->
  (Z.to_nat (npages (p_sz p)) + 1026 <= length free)%nat ->
  exists d k' free' new, fork e k = Ok (k_nextpid k) e k' /\ forked data me i cwd p q page d new k k' /\
    vm_ready (reverse new ++ page :: data) k' d free' /\ free ≡ₚ d :: new ++ free' ++ tables (k_mem k') d /\
    forall f fl, k_ftable k !! f = Some fl ->
      k_ftable k' !! f = Some (set_f_ref (f_ref fl + opened f (p_ofile p)) fl).
Proof.
  intros Hfr Ha Hlen. destruct (fork_ok data me i cwd p q page free k e Hfr Ha Hlen) as
    (d & k' & free' & new & E & Hfk & Hr & Hperm & _). exists d, k', free', new. do 4 (split; [done|]).
  intros f fl Hf. by rewrite (fk_files _ _ _ _ _ _ _ _ _ _ _ Hfk), dup_files_lookup, Hf.
Qed.

(** [fork] without a page for the page directory. *)
Lemma fork_one_page me p i q page e k :
  length (k_ptable k) = NPROC -> lock_free L_ptable k -> kmem_ready k -> free_pages k [page] ->
  c_proc (k_cpu k) = Some me -> k_ptable k !! me = Some p -> me <> i ->
  list_find (fun p => p_state p = UNUSED) (k_ptable k) = Some (i, q) ->
  exists k' q', fork e k = Ok (-1) e k' /\ free_pages k' [page] /\
    k_ptable k' = <[i := set_p_state UNUSED (set_p_kstack 0 q')]> (k_ptable k).
Proof.
  intros Hn Hl Hk Hf Hcur Hme Hne Hslot. pose proof Hslot as (Hi & _ & _)%list_find_Some. pose proof (lookup_lt_Some _ _ _ Hi) as Hlt.
  destruct (allocproc_page e k i q page [] Hn Hl Hk Hf Hslot) as (fl & Ea & Hf1). set (k1 := embryo_state fl page i q k) in *.
  assert (kmem_ready k1) as Hk1 by done. pose proof (kalloc_ok k1 e [] Hk1 Hf1) as Eka.
  assert (copyuvm (p_pgdir p) (p_sz p) e k1 = Ok 0 e k1) as Ec.
  { unfold copyuvm, setupkvm. by rewrite bind_bind_eq, (bind_Ok _ _ _ _ _ _ _ Eka). }
  assert (page_ok k1 page) as Hok by (apply (Forall_inv (fp_ok _ _ Hf))).
  set (q2 := set_p_pgdir 0 (with_stack page (claimed (k_nextpid k) q))). set (k2 := set_k_ptable (<[i := q2]> (k_ptable k)) k1).
  assert (free_pages k2 []) as Hf2 by (by destruct Hf1; split).
  destruct (kfree_ok k2 e page [] Hk1 Hf2 Hok (not_elem_of_nil _)) as (m & Ef & Hf3 & _).
  eexists _, q2. split; [|split].
  - unfold fork. rewrite (bind_Ok _ _ _ _ _ _ _ Ea), (curproc_eq me), get_proc_eq by done.
    erewrite proc_at_lookup by (cbn; rewrite list_lookup_insert_ne by done; exact Hme).
    rewrite (bind_Ok _ _ _ _ _ _ _ Ec), upd_proc_eq, Z.eqb_refl. cbn [k_ptable k1 embryo_state set_k_ptable].
    rewrite list_alter_insert, get_proc_eq by done. erewrite proc_at_lookup by (cbn; by apply list_lookup_insert_eq).
    change (p_kstack _) with page. fold k1 q2.
    erewrite bind_Ok by exact Ef. rewrite !upd_proc_eq. cbn [k_ptable set_k_ptable set_k_freelist set_k_mem k2].
    rewrite !list_alter_insert by done. reflexivity.
  - by destruct Hf3; split.
  - done.
Qed.


(** C11: [wait] in full.  If a child has ended, [wait] returns its number at once: the first such
    child's slot is unused again, its kernel stack, its page directory, the
    tables and every page it had are free, each once, and no other page is
    touched.  Without children, or when the caller was killed, it returns -1 and
    changes nothing.  Otherwise it sleeps, marked in the table from before the
    processor is given away, under the lock it has held since it looked, and
    looks again when it runs. *)
Theorem wait_reaps me p rest e k free :
  length (k_ptable k) = NPROC -> lock_free L_ptable k -> cpu_ok k -> c_ncli (k_cpu k) = 0 ->
  c_proc (k_cpu k) = Some me -> k_ptable k !! me = Some p ->
  match list_find (zombie_of me) (k_ptable k) with
  | Some (i, c) => proc_pages rest c k free ->
      exists k' free', wait e k = Ok (p_pid c) e k' /\ reaps rest i c k k' free free'
  | None =>
      if has_child me k && (p_killed p =? 0) then
        p_state (proc_at (waiting me k) me) = SLEEPING /\ p_chan (proc_at (waiting me k) me) = Some (Ch_proc me) /\
        forall f, k_locks (f (waiting me k)) = k_locks (waiting me k) -> k_cpu (f (waiting me k)) = k_cpu (waiting me k) ->
          wait (f :: e) k = wait e (resumed me k (f (waiting me k)))
      else wait e k = Ok (-1) e k
  end.
Proof.
  intros Hn Hl Hc Hcli Hcur Hme. destruct (list_find _ _) as [[i c]|] eqn:Hz; [by apply (wait_ok me)|].
  destruct (has_child me k && (p_killed p =? 0)) eqn:Hkids.
  - apply andb_true_iff in Hkids as [Hkids Hkill%Z.eqb_eq].
    assert (proc_at (waiting me k) me = set_p_state SLEEPING (set_p_chan (Some (Ch_proc me)) p)) as ->.
    { unfold proc_at. cbn. by rewrite list_lookup_alter_eq, Hme. }
    split; [done|]. split; [done|]. intros f HfL HfC. by eapply wait_sleeps.
  - apply andb_false_iff in Hkids as [Hkids|Hkill%Z.eqb_neq]; eapply wait_fails; eauto.
Qed.

Lemma forked_zombie data me i cwd p q page d new k k' :
  fork_ready data me i cwd p q k -> forked data me i cwd p q page d new k k' ->
  list_find (zombie_of me) (k_ptable k) = None ->
  list_find (zombie_of me) (alter (set_p_state ZOMBIE) i (k_ptable k')) =
    Some (i, set_p_state ZOMBIE (child (k_nextpid k) d page me p q)).
Proof.
  intros Hfr Hfk Hz. pose proof (fr_slot _ _ _ _ _ _ _ Hfr) as (Hi & _ & _)%list_find_Some.
  pose proof (lookup_lt_Some _ _ _ Hi) as Hlt. rewrite (fk_proc _ _ _ _ _ _ _ _ _ _ _ Hfk), list_alter_insert by done.
  apply list_find_Some. split; [by apply list_lookup_insert_eq|]. split; [done|].
  intros j c Hji Hj. rewrite list_lookup_insert_ne in Hji by lia. apply list_find_None in Hz. rewrite Forall_forall in Hz.
  apply Hz. by eapply list_elem_of_lookup_2.
Qed.

(** C12: The life of a process costs nothing.  A process that has no ended children forks, the child
    comes to its end, and the parent waits: [fork] and [wait] return the same
    number, the child's slot is unused again and all others are as before, the
    allocator has exactly the pages it had, and the parent's pages and those of
    all others have kept their contents. *)
Theorem fork_wait data me i cwd p q page free k e :
  fork_ready data me i cwd p q k -> alloc_ready data k (page :: free) ->
  (Z.to_nat (npages (p_sz p)) + 1026 <= length free)%nat -> list_find (zombie_of me) (k_ptable k) = None ->
  exists k1 k2 free2, fork e k = Ok (k_nextpid k) e k1 /\
    wait e (set_k_ptable (alter (set_p_state ZOMBIE) i (k_ptable k1)) k1) = Ok (k_nextpid k) e k2 /\
    alloc_ready data k2 free2 /\ free2 ≡ₚ page :: free /\
    (forall r b, r ∈ data -> 0 <= b < 4096 -> k_mem k2 (r + b) = k_mem k (r + b)) /\
    p_state (proc_at k2 i) = UNUSED /\ forall j, j <> i -> k_ptable k2 !! j = k_ptable k !! j.
Proof.
  intros Hfr Ha Hlen Hz. destruct (fork_ok data me i cwd p q page free k e Hfr Ha Hlen) as
    (d & k1 & free1 & new & E1 & Hfk & Hr & Hperm & Hframes & Hdense).
  pose proof (fr_slot _ _ _ _ _ _ _ Hfr) as (Hi & _ & _)%list_find_Some. pose proof (lookup_lt_Some _ _ _ Hi) as Hlt.
  set (c := set_p_state ZOMBIE (child (k_nextpid k) d page me p q)).
  set (k1' := set_k_ptable (alter (set_p_state ZOMBIE) i (k_ptable k1)) k1).
  pose proof (fk_frame _ _ _ _ _ _ _ _ _ _ _ Hfk) as Hk1. pose proof (fk_proc _ _ _ _ _ _ _ _ _ _ _ Hfk) as Ht1.
  assert (k_ptable k1' = <[i := c]> (k_ptable k)) as Ht1'.
  { unfold k1'. cbn [k_ptable set_k_ptable]. rewrite Ht1, (list_alter_insert _ _ _ _ Hlt). reflexivity. }
  destruct (wait_ok me i c data e k1' free1) as (k2 & free2 & E2 & Hk2 & Ha2 & Hm2 & Hperm2).
  - by rewrite Ht1', length_insert, (fr_procs _ _ _ _ _ _ _ Hfr).
  - pose proof (fr_locks _ _ _ _ _ _ _ Hfr) as Hl. apply Forall_cons in Hl as [Hl _]. unfold k1'. by rewrite Hk1.
  - unfold k1'. rewrite Hk1. apply Hfr.
  - by eapply forked_zombie.
  - split; [|split; [|split; [done|]]].
    + change (frames (k_mem k1') (p_pgdir c) 0 524288) with (frames (k_mem k1) d 0 524288). rewrite Hframes.
      eapply vm_ready_perm; [|destruct Hr as [? [] ? ?]; split; [done|by split|done|done]]. by rewrite reverse_Permutation.
    + change (frames (k_mem k1') (p_pgdir c) 0 524288) with (frames (k_mem k1) d 0 524288). rewrite Hframes.
      pose proof (fp_ok _ _ (ar_free _ _ _ Ha)) as Hok. rewrite Hperm in Hok. change (p_kstack c) with page. change (p_pgdir c) with d.
      assert (Forall (page_ok k1') (page :: d :: new ++ free1 ++ tables (k_mem k1) d)) as Hok1.
      { eapply Forall_impl; [exact Hok|]. intros r. unfold page_ok, k1'. by rewrite Hk1. }
      revert Hok1. rewrite !Forall_cons, !Forall_app. tauto.
    + unfold k1'. rewrite Hk1. apply Hfr.
  - exists k1, k2, free2. do 3 (split; [done|]). split; [|split; [|split]].
    + rewrite Hperm2, Hperm. change (frames (k_mem k1') (p_pgdir c) 0 524288) with (frames (k_mem k1) d 0 524288). rewrite Hframes.
      change (p_kstack c) with page. change (p_pgdir c) with d. do 2 f_equiv. change (k_mem k1') with (k_mem k1).
      rewrite (Permutation_app_comm (tables _ _)), <- app_assoc. done.
    + intros r b Hrin Hb. rewrite Hm2 by done. by apply (fk_data _ _ _ _ _ _ _ _ _ _ _ Hfk).
    + rewrite Hk2. unfold proc_at. cbn [k_ptable set_k_ptable]. rewrite Ht1', list_insert_insert_eq, list_lookup_insert_eq by done. done.
    + intros j Hj. rewrite Hk2. cbn [k_ptable set_k_ptable]. by rewrite Ht1', list_insert_insert_eq, list_lookup_insert_ne by done.
Qed.

(** ** An example: the process of [Uvm] forks *)

Definition forking : proc :=
  set_p_tf (0x80303000 + KSTACKSIZE - sizeof_trapframe) (set_p_kstack 0x80303000 (set_p_sz 4096 (set_p_pgdir 0x80300000
    (set_p_ofile (<[0%nat := Some 0%nat]> (p_ofile proc0)) (set_p_cwd (Some 0%nat)
      (set_p_state RUNNING (set_p_pid 1 proc0))))))).

Definition forker (k : kernel) : kernel :=
  set_k_ftable (<[0%nat := set_f_ref 1 file0]> (k_ftable k)) (set_k_ptable (<[0%nat := forking]> (k_ptable k)) k).

Lemma forker_ok fl m :
  let k := set_k_freelist fl (set_k_mem m Demo.machine) in
  link_ok (k_link k) -> space parent_pages m 0x80300000 1 -> fork_ready parent_pages 0 1 0 forking proc0 (forker k).
Proof.
  intros k Hlink Hs. split.
  - reflexivity.
  - repeat constructor; eexists; reflexivity.
  - exact Hlink.
  - reflexivity.
  - reflexivity.
  - reflexivity.
  - reflexivity.
  - reflexivity.
  - split; [right; right; right; left|reflexivity].
  - unfold KERNBASE. cbn. lia.
  - exact Hs.
  - reflexivity.
  - intros f Hf. exists (set_f_ref 1 file0). assert (f = 0%nat) as ->.
    { apply list_elem_of_lookup in Hf as [[|n] Hn]; [by injection Hn|]. change (replicate 15 (@None nat) !! n = Some (Some f)) in Hn.
      by apply lookup_replicate in Hn as [? _]. }
    split; [reflexivity|cbn; lia].
  - reflexivity.
Qed.

Lemma forker_ready :
  fork_ready parent_pages 0 1 0 forking proc0 (forker parent) /\ kmem_ready (forker parent) /\ cpu_ok (forker parent).
Proof.
  pose proof parent_link as Hlink. pose proof parent_ready as [_ Hs]. pose proof parent_freed as (Hk & _).
  destruct parent_made as (fl & m & E & _).
  revert Hlink Hs Hk. rewrite E. intros Hlink Hs Hk. split; [by apply forker_ok|]. split; [exact Hk|apply Hk].
Qed.

Definition parent_rest : list Z := rev (range_pages 0x80400000 (Z.to_nat 1099)).

Lemma forker_alloc data k free : alloc_ready data k free -> alloc_ready data (forker k) free.
Proof. intros [Hk [] Hd Hnd]. split; [done|by split|done|done]. Qed.

Lemma forker_pages : alloc_ready parent_pages (forker parent) (0x8084b000 :: parent_rest).
Proof.
  assert (0x8084b000 :: parent_rest = parent_free) as ->.
  { unfold parent_rest, parent_free. rewrite (range_pages_snoc _ (Z.to_nat 1100) (Z.to_nat 1099)) by lia.
    rewrite rev_app_distr. cbn [rev app]. f_equal. }
  apply forker_alloc, parent_ready.
Qed.

Lemma forker_enough : (Z.to_nat (npages (p_sz forking)) + 1026 <= length parent_rest)%nat.
Proof.
  unfold parent_rest. rewrite length_rev. unfold range_pages. rewrite length_fmap, length_seq.
  change (npages (p_sz forking)) with 1. lia.
Qed.

Lemma fork_copies_witness :
  exists d k' free' new, fork [] (forker parent) = Ok (k_nextpid (forker parent)) [] k' /\
    forked parent_pages 0 1 0 forking proc0 0x8084b000 d new (forker parent) k' /\
    vm_ready (reverse new ++ 0x8084b000 :: parent_pages) k' d free' /\
    parent_rest ≡ₚ d :: new ++ free' ++ tables (k_mem k') d /\
    forall f fl, k_ftable (forker parent) !! f = Some fl ->
      k_ftable k' !! f = Some (set_f_ref (f_ref fl + opened f (p_ofile forking)) fl).
Proof.
  apply (fork_copies parent_pages 0 1 0 forking proc0 0x8084b000 parent_rest (forker parent) []).
  - apply forker_ready.
  - apply forker_pages.
  - apply forker_enough.
Defined.

Lemma fork_wait_witness :
  exists k1 k2 free2, fork [] (forker parent) = Ok (k_nextpid (forker parent)) [] k1 /\
    wait [] (set_k_ptable (alter (set_p_state ZOMBIE) 1%nat (k_ptable k1)) k1) = Ok (k_nextpid (forker parent)) [] k2 /\
    alloc_ready parent_pages k2 free2 /\ free2 ≡ₚ 0x8084b000 :: parent_rest /\
    (forall r b, r ∈ parent_pages -> 0 <= b < 4096 -> k_mem k2 (r + b) = k_mem (forker parent) (r + b)) /\
    p_state (proc_at k2 1) = UNUSED /\ forall j, j <> 1%nat -> k_ptable k2 !! j = k_ptable (forker parent) !! j.
Proof.
  apply (fork_wait parent_pages 0 1 0 forking proc0 0x8084b000 parent_rest (forker parent) []).
  - apply forker_ready.
  - apply forker_pages.
  - apply forker_enough.
  - destruct parent_made as (fl & m & E & _). rewrite E. reflexivity.
Defined.


(** The process of [Uvm] has ended, and process 0 waits for it. *)
Definition ended : proc := set_p_state ZOMBIE (set_p_pid 2 (set_p_parent (Some 0%nat) forking)).
Definition mourner (k : kernel) : kernel :=
  set_k_ptable (<[1%nat := ended]> (<[0%nat := set_p_state RUNNING proc0]> (k_ptable k))) k.

Lemma mourner_pages k free :
  proc_pages [] ended k free -> proc_pages [] ended (mourner k) free.
Proof. intros ([Hk [] Hp Hnd] & Hok & Hdense & Hlink). split; [|done]. split; [done|by split|done|done]. Qed.

Lemma ended_pages : proc_pages [] ended parent parent_free.
Proof.
  unfold proc_pages. change (p_pgdir ended) with 0x80300000. change (p_kstack ended) with 0x80303000.
  rewrite parent_frames, parent_tables. split; [apply parent_vm|]. split; [|split].
  - cbn [app]. do 4 (apply Forall_cons_2; [apply parent_page; [reflexivity|lia]|]). apply Forall_nil_2.
  - intros i j Hij Hj. rewrite !parent_table by lia. repeat case_decide; done || lia.
  - apply parent_link.
Qed.

Lemma mourner_ok fl m :
  let k := mourner (set_k_freelist fl (set_k_mem m Demo.machine)) in
  length (k_ptable k) = NPROC /\ lock_free L_ptable k /\ cpu_ok k /\ c_ncli (k_cpu k) = 0 /\
  c_proc (k_cpu k) = Some 0%nat /\ k_ptable k !! 0%nat = Some (set_p_state RUNNING proc0) /\
  list_find (zombie_of 0) (k_ptable k) = Some (1%nat, ended).
Proof.
  split; [done|]. split; [by eexists|]. split; [split; [cbn; lia|]; split; [done|cbn; lia]|]. done.
Qed.

Lemma wait_reaps_witness :
  exists k' free', wait [] (mourner parent) = Ok 2 [] k' /\ reaps [] 1 ended (mourner parent) k' parent_free free'.
Proof.
  pose proof (mourner_pages _ _ ended_pages) as Hpages.
  pose proof (wait_reaps 0 (set_p_state RUNNING proc0) [] [] (mourner parent) parent_free) as Hw.
  destruct parent_made as (fl & m & E & _). rewrite E in Hw, Hpages |- *.
  destruct (mourner_ok fl m) as (H1 & H2 & H3 & H4 & H5 & H6 & H7). rewrite H7 in Hw.
  exact (Hw H1 H2 H3 H4 H5 H6 Hpages).
Defined.

End Fork.
