(* ===== verification/Exit.v ===== *)
(** The end of a process: [exit] of proc.c gives the files of the process back, wakes its
    parent, hands its children to the first process and becomes a zombie. *)

From S2P Require Import Prelude Bytes Machine Demo Cstring Spinlock Consout Kalloc Sleep Disk.
From S2P Require Import Bio Cache Log Fs Vm Pagetable Uvm Freevm Pipe File Proc Fork.
Import Cstring Spinlock Kalloc Sleep Log LogSpec Fs Vm File Proc Fork.

Module Exit.

(** ** The files *)

Definition drop_ref (f : nat) (t : list file) : list file := alter (fun fl => set_f_ref (f_ref fl - 1) fl) f t.

(** The table of open files with one reference less to each file of [ofs]. *)
Definition close_files (ofs : list (option nat)) (t : list file) : list file :=
  foldl (fun t o => match o with Some f => drop_ref f t | None => t end) t ofs.

Lemma close_files_cons o ofs t :
  close_files (o :: ofs) t = close_files ofs (match o with Some f => drop_ref f t | None => t end).
Proof. done. Qed.

Lemma opened_cons f o ofs : opened f (o :: ofs) = (if decide (o = Some f) then 1 else 0) + opened f ofs.
Proof. unfold opened. rewrite filter_cons. case_decide; cbn [length]; lia. Qed.

Lemma close_files_lookup ofs t f :
  close_files ofs t !! f = (fun fl => set_f_ref (f_ref fl - opened f ofs) fl) <$> t !! f.
Proof.
  revert t. induction ofs as [|o ofs IH]; intros t.
  { destruct (t !! f) as [fl|] eqn:E; cbn [close_files foldl]; rewrite E; [|done].
    cbn. unfold opened. cbn. rewrite Z.sub_0_r. by destruct fl. }
  rewrite close_files_cons, IH, opened_cons. destruct o as [g|]; [|by rewrite decide_False].
  unfold drop_ref. destruct (decide (Some g = Some f)) as [Heq|Hne].
  - injection Heq as ->. rewrite list_lookup_alter_eq. destruct (t !! f) as [fl|]; [|done].
    unfold set_f_ref. cbn. do 2 f_equal. lia.
  - rewrite list_lookup_alter_ne by congruence. done.
Qed.

Section exit.
Context `{DiskDriver} `{Devsw}.

(** The loop of [exit] over the descriptors from [j] on, when every file has other
    references. *)
Lemma exit_files me p ofs j e k :
  k_ptable k !! me = Some p -> length ofs = NOFILE -> lock_free L_ftable k -> cpu_ok k -> (j <= NOFILE)%nat ->
  p_ofile p = replicate j None ++ drop j ofs ->
  (forall f, Some f ∈ drop j ofs -> exists fl, k_ftable k !! f = Some fl /\ opened f (drop j ofs) < f_ref fl) ->
  for_all (seq j (NOFILE - j)) (fun fd =>
    p <- get_proc me ;;
    match mjoin (p_ofile p !! fd) with
    | None => ret tt
    | Some f =>
        fileclose f ;;
        p <- get_proc me ;;
        upd_proc me (set_p_ofile (<[fd := None]> (p_ofile p)))
    end) e k =
  Ok tt e (set_k_ftable (close_files (drop j ofs) (k_ftable k))
    (set_k_ptable (<[me := set_p_ofile (replicate NOFILE None) p]> (k_ptable k)) k)).
Proof.
  intros Hme Hlen. remember (NOFILE - j)%nat as c eqn:Hcj.
  revert j p k Hcj Hme. induction c as [|c IH]; intros j p k Hcj Hme Hl Hc Hj Hp Hfs; cbn [seq for_all].
  { assert (j = NOFILE) as -> by lia. rewrite drop_ge in * by lia. rewrite app_nil_r in Hp.
    rewrite <- Hp, list_insert_id; [by destruct k|]. rewrite Hme. by destruct p. }
  destruct (lookup_lt_is_Some_2 ofs j) as [o Ho]; [lia|]. rewrite (drop_S _ _ _ Ho) in *.
  rewrite bind_bind_eq, get_proc_eq, (proc_at_lookup _ _ _ Hme), Hp, lookup_app_r by (rewrite length_replicate; lia).
  rewrite length_replicate, Nat.sub_diag. cbn [lookup list_lookup mjoin option_join].
  assert (replicate j None ++ None :: drop (S j) ofs = replicate (S j) None ++ drop (S j) ofs) as Hrep.
  { by rewrite replicate_S_end, <- app_assoc. }
  rewrite close_files_cons. destruct o as [f|].
  - destruct (Hfs f ltac:(by left)) as (fl & Hfl & Href). rewrite opened_cons, decide_True in Href by done.
    assert (0 <= opened f (drop (S j) ofs)) by (unfold opened; lia).
    erewrite bind_bind_eq, bind_Ok by (apply fileclose_shared; [exact Hfl|done|done|lia]).
    rewrite bind_bind_eq, get_proc_eq. erewrite proc_at_lookup by exact Hme. unfold upd_proc at 1. rewrite modify_eq.
    cbn [k_ptable set_k_ftable]. rewrite (alter_as_insert _ _ _ _ Hme), Hp, insert_app_r_alt by (rewrite length_replicate; lia).
    rewrite length_replicate, Nat.sub_diag. cbn [insert list_insert]. rewrite Hrep.
    pose proof (lookup_lt_Some _ _ _ Hme) as Hlt.
    rewrite (IH (S j) (set_p_ofile (replicate (S j) None ++ drop (S j) ofs) p)); try done; try lia.
    + cbn [k_ptable k_ftable set_k_ftable set_k_ptable]. rewrite list_insert_insert_eq. unfold drop_ref.
      rewrite (alter_as_insert _ _ _ _ Hfl). by destruct k, p.
    + cbn. by apply list_lookup_insert_eq.
    + intros g Hg. cbn. destruct (Hfs g ltac:(by right)) as (gl & Hgl & Hg1). rewrite opened_cons in Hg1.
      destruct (decide (f = g)) as [->|Hfg].
      * exists (set_f_ref (f_ref fl - 1) fl). split; [apply list_lookup_insert_eq; by eapply lookup_lt_Some|cbn; lia].
      * exists gl. rewrite list_lookup_insert_ne by done. split; [done|]. rewrite decide_False in Hg1 by congruence. lia.
  - rewrite ret_eq. apply IH; try done; try lia.
    + by rewrite Hp.
    + intros g Hg. destruct (Hfs g ltac:(by right)) as (gl & Hgl & Hg1). rewrite opened_cons, decide_False in Hg1 by done. by exists gl.
Qed.

(** ** The working directory *)

Lemma iput_shared i e k :
  lock_free L_icache k -> cpu_ok k ->
  (i_ref (inode_at k i) =? 1) && has (i_flags (inode_at k i)) I_VALID && (i_nlink (inode_at k i) =? 0) = false ->
  iput i e k = Ok tt e (set_k_icache (alter (fun ip => set_i_ref (i_ref ip - 1) ip) i (k_icache k)) k).
Proof.
  intros Hl Hc Hkeep. unfold iput. erewrite bind_Ok by (by apply acquire_ok). rewrite get_inode_eq.
  change (inode_at (lock_taken L_icache k) i) with (inode_at k i). rewrite Hkeep. cbn [when].
  rewrite ret_eq, get_inode_eq, upd_inode_eq. rewrite (release_ok L_icache e k) by done. f_equal. unfold unlock_to. cbn.
  rewrite <- (alter_default inode0 (fun ip => set_i_ref (i_ref ip - 1))). by destruct k.
Qed.

(** The end of an operation when the log is empty. *)
Lemma end_op_empty e k :
  lock_free L_log k -> lock_free L_ptable k -> cpu_ok k -> length (k_ptable k) = NPROC ->
  lg_committing (k_log k) = false -> lg_n (k_log k) = 0 ->
  end_op e k = Ok tt e (set_k_ptable (wake Ch_log <$> k_ptable k)
    (set_k_log (set_lg_outstanding (lg_outstanding (k_log k) - 1) (k_log k)) k)).
Proof.
  intros Hl Hlp Hc Hn Hcomm Hempty. unfold end_op, get_log, upd_log. erewrite bind_Ok by (by apply acquire_ok).
  rewrite gets_eq, modify_eq, gets_eq. cbn [k_log set_k_log lg_committing set_lg_outstanding lg_outstanding lock_taken set_k_locks set_k_cpu].
  rewrite Hcomm. set (o := lg_outstanding (k_log k) - 1). set (lg := set_lg_outstanding o (k_log k)).
  destruct (o =? 0).
  - rewrite bind_bind_eq, modify_eq, ret_eq. erewrite bind_Ok by (apply (release_ok L_log e k); done). cbn [when].
    unfold commit, get_log. rewrite bind_bind_eq, gets_eq.
    set (k1 := unlock_to k _). change (lg_n (k_log k1)) with (lg_n (k_log k)). rewrite Hempty. change (0 <? 0) with false. cbn [when].
    rewrite ret_eq. erewrite bind_Ok by (apply acquire_ok; [exact Hl|exact Hc]). rewrite modify_eq.
    erewrite bind_Ok by (apply wakeup_ok; [exact Hn|by apply (lock_free_other L_ptable L_log k)|by apply (lock_taken_cpu_ok L_log k)]).
    rewrite (release_ok L_log e k) by done. f_equal. unfold k1, lg, set_lg_committing, set_lg_outstanding. cbn. by rewrite <- Hcomm.
  - rewrite bind_bind_eq.
    erewrite bind_Ok by (apply wakeup_ok; [exact Hn|by apply (lock_free_other L_ptable L_log k)|by apply (lock_taken_cpu_ok L_log k)]).
    rewrite ret_eq. erewrite bind_Ok by (apply (release_ok L_log e k); done). cbn [when]. done.
Qed.

End exit.

(** ** The children *)

Definition is_zombie_of (me : nat) (q : proc) : bool := bool_decide (zombie_of me q).

(** The children of [me] become children of [ini]. *)
Definition adopt (me ini : nat) (q : proc) : proc :=
  if bool_decide (p_parent q = Some me) then set_p_parent (Some ini) q else q.

Definition wake_if (b : bool) (ch : chan) (q : proc) : proc := if b then wake ch q else q.

(** The table of processes after the loop, which also wakes [ini] if it got a zombie;
    and when the loop has come to [n]. *)
Definition adopted (me ini : nat) (t : list proc) : list proc :=
  (fun q => wake_if (existsb (is_zombie_of me) t) (Ch_proc ini) (adopt me ini q)) <$> t.
Definition adopted_to (me ini n : nat) (t : list proc) : list proc :=
  wake_if (existsb (is_zombie_of me) (take n t)) (Ch_proc ini) <$> ((adopt me ini <$> take n t) ++ drop n t).

Lemma wake_if_fields b ch q :
  p_parent (wake_if b ch q) = p_parent q /\ bool_decide (p_state (wake_if b ch q) = ZOMBIE) = bool_decide (p_state q = ZOMBIE) /\
  (forall v, set_p_parent v (wake_if b ch q) = wake_if b ch (set_p_parent v q)) /\ wake ch (wake_if b ch q) = wake ch q.
Proof.
  destruct b; [|done]. unfold wake_if, wake.
  destruct (bool_decide (p_state q = SLEEPING)) eqn:E1, (bool_decide (p_chan q = Some ch)) eqn:E2.
  all: cbn [andb]; rewrite ?E1, ?E2; try (split_and!; [done|done|intros v; cbn; by rewrite E1, E2|done]).
  apply bool_decide_eq_true in E1 as Es. split_and!; [done|by rewrite Es|intros v; cbn; by rewrite E1, E2|done].
Qed.

Lemma adopted_to_lookup me ini n t j :
  adopted_to me ini n t !! j =
    (fun q => wake_if (existsb (is_zombie_of me) (take n t)) (Ch_proc ini) (if (j <? n)%nat then adopt me ini q else q)) <$> t !! j.
Proof.
  unfold adopted_to. rewrite list_lookup_fmap. destruct (Nat.ltb_spec j n) as [Hj|Hj].
  - destruct (t !! j) as [q|] eqn:E.
    + rewrite lookup_app_l by (rewrite length_fmap, length_take; apply lookup_lt_Some in E; lia).
      by rewrite list_lookup_fmap, lookup_take_lt, E.
    + apply lookup_ge_None in E. rewrite lookup_ge_None_2; [done|]. rewrite length_app, length_fmap, length_take, length_drop. lia.
  - rewrite lookup_app_r by (rewrite length_fmap, length_take; lia). rewrite length_fmap, length_take, lookup_drop.
    destruct (decide (n <= length t)%nat) as [Hn|Hn].
    + rewrite Nat.min_l by done. replace (n + (j - n))%nat with j by lia. by destruct (t !! j).
    + rewrite !lookup_ge_None_2 by lia. done.
Qed.

Lemma existsb_take_S {A} (f : A -> bool) n (l : list A) x :
  l !! n = Some x -> existsb f (take (S n) l) = existsb f (take n l) || f x.
Proof. intros Hx. rewrite (take_S_r _ _ _ Hx), existsb_app. cbn. by rewrite orb_false_r. Qed.

Lemma adopted_next me ini n t q (f g : proc -> proc) :
  let b := existsb (is_zombie_of me) (take n t) in let b' := existsb (is_zombie_of me) (take (S n) t) in
  t !! n = Some q -> (forall x, g (wake_if b (Ch_proc ini) x) = wake_if b' (Ch_proc ini) x) ->
  g (f (wake_if b (Ch_proc ini) q)) = wake_if b' (Ch_proc ini) (adopt me ini q) ->
  g <$> alter f n (adopted_to me ini n t) = adopted_to me ini (S n) t.
Proof.
  intros b b' Hq Hg Hf. apply list_eq. intros j. rewrite list_lookup_fmap, adopted_to_lookup. fold b'.
  destruct (decide (j = n)) as [->|Hne].
  - rewrite list_lookup_alter_eq, adopted_to_lookup, Hq. fold b. cbn [fmap option_fmap option_map].
    rewrite (proj2 (Nat.ltb_ge n n)), (proj2 (Nat.ltb_lt n (S n))) by lia. by rewrite Hf.
  - rewrite list_lookup_alter_ne, adopted_to_lookup by done. fold b. destruct (t !! j) as [x|]; [|done].
    cbn [fmap option_fmap option_map]. rewrite Hg. replace (j <? S n)%nat with (j <? n)%nat; [done|].
    destruct (Nat.ltb_spec j n), (Nat.ltb_spec j (S n)); done || lia.
Qed.

Lemma is_zombie_of_eq me q :
  is_zombie_of me q = bool_decide (p_parent q = Some me) && bool_decide (p_state q = ZOMBIE).
Proof.
  unfold is_zombie_of. apply eq_true_iff_eq. rewrite andb_true_iff, !bool_decide_eq_true. done.
Qed.

(** One turn of the loop. *)
Lemma adopt_step me ini t n q e k :
  t !! n = Some q -> length t = NPROC -> k_initproc k = Some ini ->
  (p <- get_proc n ;;
   ip <- gets k_initproc ;;
   when (bool_decide (p_parent p = Some me))
     (upd_proc n (set_p_parent ip) ;;
      when (bool_decide (p_state p = ZOMBIE)) (wakeup1_proc ip))) e (set_k_ptable (adopted_to me ini n t) k) =
  Ok tt e (set_k_ptable (adopted_to me ini (S n) t) k).
Proof.
  intros Hq Hn Hini. pose proof (adopted_to_lookup me ini n t n) as Hat. rewrite Hq, (proj2 (Nat.ltb_ge n n)) in Hat by lia.
  cbn [fmap option_fmap option_map] in Hat. pose proof (existsb_take_S (is_zombie_of me) n t q Hq) as HbS.
  rewrite is_zombie_of_eq in HbS. destruct (wake_if_fields (existsb (is_zombie_of me) (take n t)) (Ch_proc ini) q) as (Hpar & Hst & Hset & Hwake).
  rewrite get_proc_eq. erewrite proc_at_lookup by exact Hat. rewrite gets_eq. cbn [k_initproc set_k_ptable]. rewrite Hini, Hpar, Hst.
  assert (length (alter (set_p_parent (Some ini)) n (adopted_to me ini n t)) = NPROC) as HT.
  { rewrite length_alter. unfold adopted_to. rewrite length_fmap, length_app, length_fmap, length_take, length_drop.
    apply lookup_lt_Some in Hq. lia. }
  destruct (bool_decide (p_parent q = Some me)) eqn:Ep; [destruct (bool_decide (p_state q = ZOMBIE)) eqn:Ez|]; cbn [when andb] in *.
  - rewrite orb_true_r in HbS. rewrite upd_proc_eq. cbn [wakeup1_proc]. rewrite wakeup1_ok by exact HT. f_equal. cbn.
    rewrite !set_set_k_ptable. f_equal. apply adopted_next with q; rewrite ?HbS; [done| |].
    + intros x. apply wake_if_fields.
    + rewrite Hset. unfold adopt. rewrite Ep. apply wake_if_fields.
  - rewrite orb_false_r in HbS. rewrite upd_proc_eq. unfold ret. f_equal. cbn. rewrite set_set_k_ptable. f_equal.
    rewrite <- (list_fmap_id (alter _ _ _)). apply adopted_next with q; rewrite ?HbS; [done|done|].
    rewrite Hset. unfold adopt. by rewrite Ep.
  - rewrite orb_false_r in HbS. unfold ret. f_equal. f_equal.
    rewrite <- (list_fmap_id (adopted_to me ini n t)), <- (list_alter_id (fun x => x) (adopted_to me ini n t) n) by done.
    apply adopted_next with q; rewrite ?HbS; [done|done|]. unfold adopt. by rewrite Ep.
Qed.

Lemma adopt_loop me ini t n e k :
  length t = NPROC -> k_initproc k = Some ini -> (n <= NPROC)%nat ->
  for_all (seq n (NPROC - n)) (fun i =>
    p <- get_proc i ;;
    ip <- gets k_initproc ;;
    when (bool_decide (p_parent p = Some me))
      (upd_proc i (set_p_parent ip) ;;
       when (bool_decide (p_state p = ZOMBIE)) (wakeup1_proc ip))) e (set_k_ptable (adopted_to me ini n t) k) =
  Ok tt e (set_k_ptable (adopted me ini t) k).
Proof.
  intros Hn Hini. remember (NPROC - n)%nat as c eqn:Hc. revert n Hc. induction c as [|c IH]; intros n Hc Hle; cbn [seq for_all].
  - assert (n = NPROC) as -> by lia. unfold ret. f_equal. f_equal. unfold adopted_to, adopted. rewrite <- Hn, firstn_all, drop_all, app_nil_r.
    rewrite <- list_fmap_compose. done.
  - destruct (lookup_lt_is_Some_2 t n) as [q Hq]; [lia|]. rewrite (bind_Ok _ _ _ _ _ _ _ (adopt_step me ini t n q e k Hq Hn Hini)).
    apply IH; lia.
Qed.

(** ** The whole of [exit] *)

Section exit_theorem.
Context `{DiskDriver} `{Devsw}.

(** Process [me], which is not the first one, can exit: its files and its directory have other
    users, so that nothing is written to the disk. *)
Record exit_ready (me ini cwd : nat) (p : proc) (k : kernel) : Prop := {
  er_procs : length (k_ptable k) = NPROC;
  er_locks : Forall (fun l => lock_free l k) [L_ptable; L_ftable; L_icache; L_log];
  er_cpu : cpu_ok k;
  er_ncli : c_ncli (k_cpu k) = 0;
  er_cur : c_proc (k_cpu k) = Some me;
  er_me : k_ptable k !! me = Some p;
  er_running : p_state p = RUNNING;
  er_init : k_initproc k = Some ini;
  er_other : ini <> me;
  er_ofile : length (p_ofile p) = NOFILE;
  er_files : forall f, Some f ∈ p_ofile p -> exists fl, k_ftable k !! f = Some fl /\ opened f (p_ofile p) < f_ref fl;
  er_cwd : p_cwd p = Some cwd;
  er_inode : (i_ref (inode_at k cwd) =? 1) && has (i_flags (inode_at k cwd)) I_VALID && (i_nlink (inode_at k cwd) =? 0) = false;
  er_log : lg_n (k_log k) = 0 /\ lg_committing (k_log k) = false /\
    (lg_outstanding (k_log k) + 1) * MAXOPBLOCKS <= LOGSIZE
}.

Definition wake_proc (i : option nat) (t : list proc) : list proc :=
  match i with Some i => wake (Ch_proc i) <$> t | None => t end.

(** The process table when [exit] gives the processor away for the last time. *)
Definition exit_table (me ini : nat) (p : proc) (t : list proc) : list proc :=
  let t1 := wake Ch_log <$> <[me := set_p_ofile (replicate NOFILE None) p]> t in
  alter (set_p_state ZOMBIE) me (adopted me ini (wake_proc (p_parent p) (alter (set_p_cwd None) me t1))).

Definition exit_state (me ini cwd : nat) (p : proc) (k : kernel) : kernel :=
  lock_taken L_ptable
    (set_k_ptable (exit_table me ini p (k_ptable k))
      (set_k_icache (alter (fun ip => set_i_ref (i_ref ip - 1) ip) cwd (k_icache k))
        (set_k_ftable (close_files (p_ofile p) (k_ftable k)) k))).

Lemma wakeup1_proc_ok i e k :
  length (k_ptable k) = NPROC -> wakeup1_proc i e k = Ok tt e (set_k_ptable (wake_proc i (k_ptable k)) k).
Proof. intros Hn. destruct i; [by apply wakeup1_ok|by destruct k]. Qed.

(** [exit] after it has given its files back. *)
Lemma exit_tail me ini p e k :
  length (k_ptable k) = NPROC -> lock_free L_ptable k -> cpu_ok k -> k_initproc k = Some ini -> k_ptable k !! me = Some p ->
  (upd_proc me (set_p_cwd None) ;;
   acquire L_ptable ;;
   p <- get_proc me ;;
   wakeup1_proc (p_parent p) ;;
   for_all all_procs (fun i =>
     p <- get_proc i ;;
     ip <- gets k_initproc ;;
     when (bool_decide (p_parent p = Some me))
       (upd_proc i (set_p_parent ip) ;;
        when (bool_decide (p_state p = ZOMBIE)) (wakeup1_proc ip))) ;;
   upd_proc me (set_p_state ZOMBIE) ;;
   sched ;;
   panic "zombie exit") e k =
  (sched ;; panic "zombie exit" : K unit) e (lock_taken L_ptable
    (set_k_ptable (alter (set_p_state ZOMBIE) me (adopted me ini (wake_proc (p_parent p) (alter (set_p_cwd None) me (k_ptable k))))) k)).
Proof.
  intros Hn Hl Hc Hini Hme. rewrite upd_proc_eq. set (t1 := alter (set_p_cwd None) me (k_ptable k)). set (k1 := set_k_ptable t1 k).
  assert (length t1 = NPROC) as Hn1 by (unfold t1; by rewrite length_alter).
  erewrite bind_Ok by (by apply acquire_ok). rewrite get_proc_eq.
  assert (k_ptable (lock_taken L_ptable k1) !! me = Some (set_p_cwd None p)) as Hme1.
  { change (t1 !! me = Some (set_p_cwd None p)). unfold t1. by rewrite list_lookup_alter_eq, Hme. }
  rewrite (proc_at_lookup _ _ _ Hme1). cbn [p_parent set_p_cwd].
  erewrite bind_Ok by (apply wakeup1_proc_ok; exact Hn1). change (k_ptable (lock_taken L_ptable k1)) with t1.
  set (t2 := wake_proc (p_parent p) t1).
  assert (length t2 = NPROC) as Hn2 by (unfold t2, wake_proc; destruct (p_parent p); rewrite ?length_fmap; done).
  pose proof (adopt_loop me ini t2 0 e (lock_taken L_ptable k1) Hn2 Hini ltac:(lia)) as Hadopt.
  replace (adopted_to me ini 0 t2) with t2 in Hadopt by (unfold adopted_to; cbn; by rewrite list_fmap_id).
  rewrite Nat.sub_0_r in Hadopt. unfold all_procs. by rewrite (bind_Ok _ _ _ _ _ _ _ Hadopt), upd_proc_eq.
Qed.

Lemma exit_eq me ini cwd p e k :
  exit_ready me ini cwd p k -> exit e k = (sched ;; panic "zombie exit") e (exit_state me ini cwd p k).
Proof.
  intros [Hn Hlocks Hc Hcli Hcur Hme Hrun Hini Hother Hlen Hfs Hcwd Hip (Hlog & Hcomm & Hres)].
  apply Forall_cons in Hlocks as [Hlp [Hlf [Hli [Hll _]%Forall_cons]%Forall_cons]%Forall_cons].
  unfold exit. rewrite (curproc_eq me), gets_eq by done. rewrite Hini, bool_decide_eq_false_2 by congruence.
  pose proof (lookup_lt_Some _ _ _ Hme) as Hlt.
  pose proof (exit_files me p (p_ofile p) 0 e k Hme Hlen Hlf Hc) as Hloop. rewrite Nat.sub_0_r, drop_0 in Hloop.
  rewrite (bind_Ok _ _ _ _ _ _ _ (Hloop ltac:(lia) eq_refl Hfs)). set (p1 := set_p_ofile (replicate NOFILE None) p).
  set (ft := close_files (p_ofile p) (k_ftable k)).
  erewrite bind_Ok by (apply begin_op_eq; [exact Hll|exact Hc|exact Hcomm|cbn; rewrite Hlog; lia]).
  rewrite get_proc_eq. erewrite proc_at_lookup by (cbn; by apply list_lookup_insert_eq). cbn [p_cwd p1 set_p_ofile]. rewrite Hcwd.
  erewrite bind_Ok by (apply iput_shared; [exact Hli|exact Hc|exact Hip]).
  erewrite bind_Ok by (apply end_op_empty; [exact Hll|exact Hlp|exact Hc|cbn; by rewrite length_insert|exact Hcomm|exact Hlog]).
  erewrite (exit_tail me ini p1); [|cbn; by rewrite length_fmap, length_insert|exact Hlp|exact Hc|exact Hini|].
  2:{ cbn. rewrite list_lookup_fmap, list_lookup_insert_eq by done. cbn. f_equal. unfold wake.
      by rewrite (bool_decide_eq_false_2 (p_state p1 = SLEEPING)) by (cbn; by rewrite Hrun). }
  f_equal. assert (set_lg_outstanding (lg_outstanding (k_log k) + 1 - 1) (set_lg_outstanding (lg_outstanding (k_log k) + 1) (k_log k)) =
    k_log k) as Hlg by (rewrite Z.add_simpl_r; by destruct (k_log k)).
  transitivity (lock_taken L_ptable (set_k_ptable (exit_table me ini p (k_ptable k))
    (set_k_icache (alter (fun ip => set_i_ref (i_ref ip - 1) ip) cwd (k_icache k)) (set_k_ftable ft (set_k_log
      (set_lg_outstanding (lg_outstanding (k_log k) + 1 - 1) (set_lg_outstanding (lg_outstanding (k_log k) + 1) (k_log k))) k))))).
  - reflexivity.
  - rewrite Hlg. by destruct k.
Qed.

(** Process [q] has at most been woken. *)
Definition awoken (q q' : proc) : Prop := q' = q \/ (p_state q = SLEEPING /\ q' = set_p_state RUNNABLE q).

#[local] Instance awoken_preorder : PreOrder awoken.
Proof.
  split; [by left|]. intros q1 q2 q3 [->|[H1 ->]] [->|[H2 ->]]; [by left|by right|by right|done].
Qed.

Lemma wake_awoken ch q : awoken q (wake ch q).
Proof.
  unfold wake, awoken. destruct (_ && _) eqn:E; [|by left]. right.
  apply andb_true_iff in E as [E _]. by apply bool_decide_eq_true in E.
Qed.

Lemma wake_if_awoken b ch q : awoken q (wake_if b ch q).
Proof. destruct b; [apply wake_awoken|by left]. Qed.

Lemma adopt_awoken me ini q q' : awoken q q' -> awoken (adopt me ini q) (adopt me ini q').
Proof.
  unfold adopt. intros [->|[H1 ->]]; [done|]. cbn [p_parent set_p_state]. destruct (bool_decide _); by right.
Qed.

(** A process that sleeps on [ch] is runnable after any of the steps that wake [ch]. *)
Lemma awoken_runnable q q' : awoken q q' -> p_state q = RUNNABLE -> p_state q' = RUNNABLE.
Proof. by intros [->|[H1 ->]]. Qed.

Lemma wake_runnable ch q : p_state q = SLEEPING -> p_chan q = Some ch -> p_state (wake ch q) = RUNNABLE.
Proof. intros H1 H2. unfold wake. by rewrite !bool_decide_eq_true_2. Qed.

Lemma awoken_chan ch q q' : awoken q q' -> p_state q = SLEEPING -> p_chan q = Some ch -> p_state (wake ch q') = RUNNABLE.
Proof.
  intros [->|[_ ->]] H1 H2; [by apply wake_runnable|]. unfold wake. by rewrite (bool_decide_eq_false_2 (p_state _ = SLEEPING)).
Qed.

Definition wake_parent (i : option nat) (q : proc) : proc :=
  match i with Some i => wake (Ch_proc i) q | None => q end.

(** The other processes in the table. *)
Lemma exit_table_other me ini p t j q :
  j <> me -> t !! j = Some q ->
  exists b, exit_table me ini p t !! j =
    Some (wake_if b (Ch_proc ini) (adopt me ini (wake_parent (p_parent p) (wake Ch_log q)))) /\
    (forall i z, i <> me -> t !! i = Some z -> zombie_of me z -> b = true).
Proof.
  intros Hne Hq. unfold exit_table. set (t1 := alter _ _ (wake Ch_log <$> _)).
  assert (forall i z, i <> me -> t !! i = Some z -> t1 !! i = Some (wake Ch_log z)) as Ht1.
  { intros i z Hi Hz. unfold t1. by rewrite list_lookup_alter_ne, list_lookup_fmap, list_lookup_insert_ne, Hz by done. }
  assert (forall i z, i <> me -> t !! i = Some z -> wake_proc (p_parent p) t1 !! i = Some (wake_parent (p_parent p) (wake Ch_log z))) as Ht2.
  { intros i z Hi Hz. unfold wake_proc, wake_parent. destruct (p_parent p); rewrite ?list_lookup_fmap, (Ht1 i z Hi Hz); done. }
  exists (existsb (is_zombie_of me) (wake_proc (p_parent p) t1)). split.
  - rewrite list_lookup_alter_ne by done. unfold adopted. by rewrite list_lookup_fmap, (Ht2 j q Hne Hq).
  - intros i z Hi Hz [Hpar Hzo]. apply existsb_exists. exists (wake_parent (p_parent p) (wake Ch_log z)). split.
    + apply list_elem_of_In. eapply list_elem_of_lookup_2. by apply (Ht2 i z).
    + assert (wake_parent (p_parent p) (wake Ch_log z) = z) as ->; [|by apply bool_decide_eq_true].
      assert (forall ch, wake ch z = z) as Hw; [|rewrite Hw; destruct (p_parent p); [apply Hw|done]].
      intros ch. unfold wake. by rewrite bool_decide_eq_false_2 by (by rewrite Hzo).
Qed.

(** The process itself. *)
Lemma exit_table_me me ini p t :
  t !! me = Some p -> p_state p = RUNNING -> p_parent p <> Some me ->
  exit_table me ini p t !! me =
    Some (set_p_state ZOMBIE (set_p_cwd None (set_p_ofile (replicate NOFILE None) p))).
Proof.
  intros Hp Hrun Hpar. unfold exit_table. rewrite list_lookup_alter_eq. unfold adopted. rewrite list_lookup_fmap.
  set (q := set_p_cwd None (set_p_ofile (replicate NOFILE None) p)).
  assert (forall ch x, p_state x = RUNNING -> wake ch x = x) as Hw.
  { intros ch x Hx. unfold wake. by rewrite bool_decide_eq_false_2 by (by rewrite Hx). }
  assert (wake_proc (p_parent p) (alter (set_p_cwd None) me (wake Ch_log <$> <[me := set_p_ofile (replicate NOFILE None) p]> t)) !! me = Some q) as ->.
  { assert (alter (set_p_cwd None) me (wake Ch_log <$> <[me := set_p_ofile (replicate NOFILE None) p]> t) !! me = Some q) as E.
    { rewrite list_lookup_alter_eq, list_lookup_fmap, list_lookup_insert_eq by (by eapply lookup_lt_Some).
      cbn. by rewrite Hw. }
    unfold wake_proc. destruct (p_parent p); [|exact E]. rewrite list_lookup_fmap, E. cbn. by rewrite Hw. }
  cbn [fmap option_fmap option_map]. unfold adopt. rewrite bool_decide_eq_false_2 by done. f_equal.
  destruct (existsb _ _); cbn [wake_if]; by rewrite ?Hw.
Qed.


End exit_theorem.

(** ** An example: the first process waits, and its child exits and leaves a zombie behind *)

Definition leaving : proc :=
  set_p_parent (Some 0%nat) (set_p_cwd (Some 0%nat) (set_p_ofile (<[0%nat := Some 0%nat]> (p_ofile proc0))
    (set_p_state RUNNING (set_p_pid 2 proc0)))).

Definition family : kernel :=
  set_k_initproc (Some 0%nat) (set_k_cpu (set_c_proc (Some 1%nat) (k_cpu Demo.machine))
    (set_k_icache (<[0%nat := set_i_ref 2 inode0]> (k_icache Demo.machine))
      (set_k_ftable (<[0%nat := set_f_ref 2 file0]> (k_ftable Demo.machine))
        (set_k_ptable (<[0%nat := set_p_chan (Some (Ch_proc 0)) (set_p_state SLEEPING (set_p_pid 1 proc0))]>
          (<[1%nat := leaving]> (<[2%nat := set_p_parent (Some 1%nat) (set_p_state ZOMBIE (set_p_pid 3 proc0))]>
            (k_ptable Demo.machine)))) Demo.machine)))).

Lemma family_ready : exit_ready 1 0 0 leaving family.
Proof.
  split; try reflexivity.
  - repeat constructor; eexists; reflexivity.
  - split; [cbn; lia|]. split; [done|cbn; lia].
  - done.
  - intros f Hf. exists (set_f_ref 2 file0). assert (f = 0%nat) as ->.
    { apply list_elem_of_lookup in Hf as [[|n] Hn]; [by injection Hn|]. change (replicate 15 (@None nat) !! n = Some (Some f)) in Hn.
      by apply lookup_replicate in Hn as [? _]. }
    split; [reflexivity|]. vm_compute. reflexivity.
  - split; [reflexivity|]. split; [reflexivity|]. vm_compute. discriminate.
Qed.

Section witness.
#[local] Existing Instance Memide.memide_driver.
#[local] Instance no_devices : Devsw := { dev_read := fun _ => None; dev_write := fun _ => None }.

End witness.

End Exit.
