(* ===== verification/Console.v ===== *)
(** console.c, the input side, with uart.c and kbd.c's interrupt handlers, and the
    console as a device. *)

From S2P Require Import Prelude Bytes Machine Demo Cstring Spinlock Consout Kbd Kalloc Hw Sleep.
From S2P Require Import Disk Bio Log Fs Vm Pipe File Proc.
Import Spinlock Consout Kbd Hw Sleep Fs Pipe Proc.

Module Console.

(** ** Input *)

Definition INPUT_BUF : Z := 128.

(** [input.buf[i % INPUT_BUF]] *)
Definition input_char (cs : consstate) (i : Z) : Z :=
  nth (Z.to_nat (u32 i mod INPUT_BUF)) (cs_buf cs) 0.

(** [while(input.e != input.w && input.buf[(input.e-1) % INPUT_BUF] != '\n')] *)
Definition kill_line : K unit :=
  n <- gets (fun k => Z.to_nat (u32 (cs_e (k_cons k) - cs_w (k_cons k)))) ;;
  loop_fuel (S n) (fun _ : unit =>
    cs <- gets k_cons ;;
    if (cs_e cs =? cs_w cs) || (input_char cs (cs_e cs - 1) =? 10) then ret (inr tt) else
    upd_cons (set_cs_e (u32 (cs_e cs - 1))) ;;
    consputc BACKSPACE ;;
    ret (inl tt)) tt.

(** The switch of [consoleintr]; the result is the new [doprocdump]. *)
Definition input_step (c : Z) (doprocdump : bool) : K bool :=
  if c =? C 80 then ret true
  else if c =? C 85 then kill_line ;; ret doprocdump
  else if (c =? C 72) || (c =? 127) then
    cs <- gets k_cons ;;
    when (negb (cs_e cs =? cs_w cs))
      (upd_cons (set_cs_e (u32 (cs_e cs - 1))) ;; consputc BACKSPACE) ;;
    ret doprocdump
  else
    cs <- gets k_cons ;;
    when (negb (c =? 0) && (u32 (cs_e cs - cs_r cs) <? INPUT_BUF))
      (let c := if c =? 13 then 10 else c in
       upd_cons (set_cs_buf (<[Z.to_nat (cs_e cs mod INPUT_BUF) := u8 c]> (cs_buf cs))) ;;
       upd_cons (set_cs_e (u32 (cs_e cs + 1))) ;;
       consputc c ;;
       cs <- gets k_cons ;;
       when ((c =? 10) || (c =? C 68) || (cs_e cs =? u32 (cs_r cs + INPUT_BUF)))
         (upd_cons (set_cs_w (cs_e cs)) ;;
          wakeup Ch_input)) ;;
    ret doprocdump.

(** Every call of [getc] takes a value from one of the devices or returns -1. *)
Definition consoleintr (getc : K Z) : K unit :=
  acquire L_cons ;;
  n <- gets (fun k => (length (cs_kbd (k_cons k)) + length (cs_uart_in (k_cons k)))%nat) ;;
  doprocdump <- loop_fuel (S n) (fun doprocdump =>
    c <- getc ;;
    if negb (0 <=? c) then ret (inr doprocdump) else
    d <- input_step c doprocdump ;;
    ret (inl d)) false ;;
  release L_cons ;;
  when doprocdump procdump.

Definition kbdintr : K unit := consoleintr kbdgetc.

(** *** [panic]

    A run of the model ends where the kernel calls [panic]; this is what [panic] then does.  [v] is
    the address of its argument, where the chain of the frames starts. *)
Definition panic_console (s : string) (v : Z) : K unit :=
  cli ;;
  upd_cons (set_cs_locking false) ;;
  id <- gets (fun k => c_id (k_cpu k)) ;;
  cprintf "cpu%d: panic: " [AInt id] ;;
  cprintf s [] ;;
  cprintf "
" [] ;;
  pcs <- gets (fun k => getcallerpcs (Cstring.load32 (k_mem k)) v) ;;
  for_all pcs (fun pc => cprintf " %p" [AInt pc]) ;;
  upd_cons (set_cs_panicked true) ;;
  hang.

(** Afterwards no processor prints any more: it waits for ever, with its interrupts off. *)
Lemma panicked_freezes c e k :
  cs_panicked (k_cons k) = true -> exists k', consputc c e k = Hang k' /\ c_if (k_cpu k') = false.
Proof. intros Hp. unfold consputc. rewrite gets_eq, Hp. by eexists. Qed.

(** ** uart.c *)

Definition COM1 : Z := 0x3f8.

(** [lsr] is the value of the line status register. *)
Definition uartinit (lsr : Z) : K unit :=
  outb (COM1 + 2) 0 ;;
  outb (COM1 + 3) 0x80 ;;
  outb (COM1 + 0) (115200 / 9600) ;;
  outb (COM1 + 1) 0 ;;
  outb (COM1 + 3) 0x03 ;;
  outb (COM1 + 4) 0 ;;
  outb (COM1 + 1) 0x01 ;;
  if lsr =? 0xFF then ret tt else
  upd_cons (set_cs_uart true) ;;
  picenable IRQ_COM1 ;;
  ioapicenable IRQ_COM1 0 ;;
  for_all (chars "xv6...
") uartputc.

Definition uartgetc : K Z :=
  cs <- gets k_cons ;;
  if negb (cs_uart cs) then ret (-1) else
  match cs_uart_in cs with
  | [] => ret (-1)
  | c :: rest => upd_cons (set_cs_uart_in rest) ;; ret c
  end.

Definition uartintr : K unit := consoleintr uartgetc.

(** ** The device *)

Section dev.
Context `{DiskDriver}.

(** [while(input.r == input.w)]: [true] if the process has been killed (the
    function then returns). *)
Definition wait_input (ip : nat) : K bool :=
  loop_sched (fun _ : unit =>
    cs <- gets k_cons ;;
    if negb (cs_r cs =? cs_w cs) then ret (inr false) else
    killed <- cur_killed ;;
    if killed : bool then
      release L_cons ;;
      ilock (Some ip) ;;
      ret (inr true)
    else
      sleep Ch_input (Some L_cons) ;;
      ret (inl tt)) tt.

(** The loop's result: [inl dst] after the return inside of it, else the final
    [n] and the bytes stored. *)
Definition consoleread (ip : nat) (n : Z) : K (list Z * Z) :=
  iunlock (Some ip) ;;
  let target := u32 n in
  acquire L_cons ;;
  r <- loop_fuel (S (Z.to_nat n)) (fun '(n, dst) =>
    if negb (0 <? n) then ret (inr (inr (n, dst))) else
    killed <- wait_input ip ;;
    if killed : bool then ret (inr (inl dst)) else
    cs <- gets k_cons ;;
    let c := input_char cs (cs_r cs) in
    upd_cons (set_cs_r (u32 (cs_r cs + 1))) ;;
    if c =? C 68 then
      when (n <? target) (upd_cons (set_cs_r (cs_r cs))) ;;
      ret (inr (inr (n, dst)))
    else
      let dst := dst ++ [c] in
      if c =? 10 then ret (inr (inr (n - 1, dst)))
      else ret (inl (n - 1, dst))) (n, []) ;;
  match r with
  | inl dst => ret (dst, -1)
  | inr (n, dst) =>
      release L_cons ;;
      ilock (Some ip) ;;
      ret (dst, s32 (target - n))
  end.

Definition consolewrite (ip : nat) (buf : list Z) (n : Z) : K Z :=
  iunlock (Some ip) ;;
  acquire L_cons ;;
  for_all (take (Z.to_nat n) buf) (fun c => consputc (Z.land c 0xff)) ;;
  release L_cons ;;
  ilock (Some ip) ;;
  ret n.

(** [consoleinit] registers the two functions. *)
#[export] Instance console_devsw : Devsw := {
  dev_read := fun major => if major =? CONSOLE then Some consoleread else None;
  dev_write := fun major => if major =? CONSOLE then Some consolewrite else None
}.

Definition consoleinit : K unit :=
  initlock L_cons "console" ;;
  upd_cons (set_cs_locking true) ;;
  picenable IRQ_KBD ;;
  ioapicenable IRQ_KBD 0.

End dev.
(** ** The line editor *)

(** The number of characters in the buffer, and of those a reader may have. *)
Definition input_len (cs : consstate) : nat := Z.to_nat (u32 (cs_e cs - cs_r cs)).
Definition ready_len (cs : consstate) : nat := Z.to_nat (u32 (cs_w cs - cs_r cs)).

(** The characters of the buffer, the oldest first. *)
Definition pending (cs : consstate) : list Z :=
  (fun i => input_char cs (cs_r cs + Z.of_nat i)) <$> seq 0 (input_len cs).

(** The lines a reader may have, and the line being edited. *)
Definition editor_of (cs : consstate) : list Z * list Z :=
  (take (ready_len cs) (pending cs), drop (ready_len cs) (pending cs)).

Record input_ok (cs : consstate) : Prop := {
  io_r : 0 <= cs_r cs < 4294967296;
  io_w : 0 <= cs_w cs < 4294967296;
  io_e : 0 <= cs_e cs < 4294967296;
  io_buf : length (cs_buf cs) = 128%nat;
  io_len : (input_len cs <= 128)%nat;
  io_ready : (ready_len cs <= input_len cs)%nat
}.

(** The line being edited has no newline: a newline ends it. *)
Definition no_newline (cs : consstate) : Prop := 10 ∉ drop (ready_len cs) (pending cs).

(** What a typed character does to them. *)
Definition type_char (c : Z) (s : list Z * list Z) : list Z * list Z :=
  let '(ready, line) := s in
  if c =? C 80 then s
  else if c =? C 85 then (ready, [])
  else if (c =? C 72) || (c =? 127) then (ready, take (length line - 1) line)
  else if negb (c =? 0) && bool_decide (length ready + length line < 128)%nat then
    let c := if c =? 13 then 10 else c in
    if (c =? 10) || (c =? C 68) || bool_decide (length ready + length line = 127)%nat
    then (ready ++ line ++ [c], [])
    else (ready, line ++ [c])
  else s.

Lemma u32_mod128 z : u32 z mod 128 = z mod 128.
Proof.
  unfold u32. rewrite (Z.div_mod z 4294967296) at 2 by lia.
  replace (4294967296 * (z / 4294967296) + z mod 4294967296)
    with (z mod 4294967296 + (33554432 * (z / 4294967296)) * 128) by lia.
  by rewrite Z.mod_add by lia.
Qed.

Lemma u32_add_l a b : u32 (u32 a + b) = u32 (a + b).
Proof. unfold u32. by rewrite Z.add_mod_idemp_l by lia. Qed.
Lemma u32_sub_l a b : u32 (u32 a - b) = u32 (a - b).
Proof. unfold u32. by rewrite Zminus_mod_idemp_l. Qed.

(** The ends of the buffer, counted from its start. *)
Lemma end_is cs : 0 <= cs_e cs < 4294967296 -> cs_e cs = u32 (cs_r cs + Z.of_nat (input_len cs)).
Proof.
  intros He. unfold input_len. rewrite Z2Nat.id by apply u32_range.
  rewrite Z.add_comm, u32_add_l. replace (cs_e cs - cs_r cs + cs_r cs) with (cs_e cs) by lia.
  by rewrite u32_small.
Qed.
Lemma ready_is cs : 0 <= cs_w cs < 4294967296 -> cs_w cs = u32 (cs_r cs + Z.of_nat (ready_len cs)).
Proof.
  intros He. unfold ready_len. rewrite Z2Nat.id by apply u32_range.
  rewrite Z.add_comm, u32_add_l. replace (cs_w cs - cs_r cs + cs_r cs) with (cs_w cs) by lia.
  by rewrite u32_small.
Qed.

Lemma len_of r n : (n <= 128)%nat -> Z.to_nat (u32 (u32 (r + Z.of_nat n) - r)) = n.
Proof. intros Hn. rewrite u32_sub_l. replace (r + Z.of_nat n - r) with (Z.of_nat n) by lia. rewrite u32_small; lia. Qed.

Lemma length_pending cs : length (pending cs) = input_len cs.
Proof. unfold pending. by rewrite length_fmap, length_seq. Qed.

Lemma pending_lookup cs i :
  pending cs !! i =
    if decide (i < input_len cs)%nat
    then Some (nth (Z.to_nat ((cs_r cs + Z.of_nat i) mod 128)) (cs_buf cs) 0) else None.
Proof.
  unfold pending. rewrite list_lookup_fmap. case_decide as Hi.
  - rewrite lookup_seq_lt by lia. cbn. unfold input_char, INPUT_BUF. by rewrite u32_mod128.
  - by rewrite lookup_seq_ge by lia.
Qed.

(** A character is added. *)
Lemma pending_push cs c :
  input_ok cs -> (input_len cs < 128)%nat ->
  let cs' := set_cs_e (u32 (cs_e cs + 1))
    (set_cs_buf (<[Z.to_nat (cs_e cs mod INPUT_BUF) := c]> (cs_buf cs)) cs) in
  input_len cs' = S (input_len cs) /\ ready_len cs' = ready_len cs /\ pending cs' = pending cs ++ [c].
Proof.
  intros [Hr Hw He Hb Hl Hrd] Hlt cs'. set (n := input_len cs) in *.
  assert (input_len cs' = S n) as Hlen.
  { unfold cs', input_len. cbn. rewrite (end_is cs He). fold n. rewrite u32_add_l.
    replace (cs_r cs + Z.of_nat n + 1) with (cs_r cs + Z.of_nat (S n)) by lia. apply len_of. lia. }
  split; [done|]. split; [done|]. apply list_eq. intros i. rewrite pending_lookup, Hlen.
  assert (cs_e cs mod 128 = (cs_r cs + Z.of_nat n) mod 128) as Hemod
    by (rewrite (end_is cs He) at 1; apply u32_mod128).
  pose proof (Z.mod_pos_bound (cs_r cs + Z.of_nat i) 128). pose proof (Z.mod_pos_bound (cs_e cs) 128).
  case_decide as Hi.
  - destruct (decide (i = n)) as [->|Hne].
    + rewrite list_lookup_middle by (symmetry; apply length_pending).
      unfold cs'. cbn [cs_r cs_buf set_cs_e set_cs_buf]. unfold INPUT_BUF. rewrite Hemod.
      rewrite nth_lookup, list_lookup_insert_eq by lia. done.
    + rewrite lookup_app_l by (rewrite length_pending; lia). rewrite pending_lookup, decide_True by lia.
      unfold cs'. cbn [cs_r cs_buf set_cs_e set_cs_buf]. unfold INPUT_BUF. rewrite Hemod.
      rewrite !nth_lookup, list_lookup_insert_ne; [done|]. intros Heq.
      assert ((cs_r cs + Z.of_nat n) mod 128 = (cs_r cs + Z.of_nat i) mod 128) as Hmod by lia.
      pose proof (Z.div_mod (cs_r cs + Z.of_nat n) 128). pose proof (Z.div_mod (cs_r cs + Z.of_nat i) 128). lia.
  - symmetry. apply lookup_ge_None. rewrite length_app, length_pending. cbn. lia.
Qed.

(** The last character is removed. *)
Lemma pending_pop cs :
  input_ok cs -> (ready_len cs < input_len cs)%nat ->
  let cs' := set_cs_e (u32 (cs_e cs - 1)) cs in
  input_len cs' = (input_len cs - 1)%nat /\ ready_len cs' = ready_len cs /\
  pending cs' = take (input_len cs - 1) (pending cs).
Proof.
  intros [Hr Hw He Hb Hl Hrd] Hlt cs'. set (n := input_len cs) in *.
  assert (input_len cs' = (n - 1)%nat) as Hlen.
  { unfold cs', input_len. cbn. rewrite (end_is cs He). fold n. rewrite (u32_sub_l _ 1).
    replace (cs_r cs + Z.of_nat n - 1) with (cs_r cs + Z.of_nat (n - 1)) by lia. apply len_of. lia. }
  split; [done|]. split; [done|]. apply list_eq. intros i. rewrite pending_lookup, Hlen.
  case_decide as Hi.
  - rewrite lookup_take_lt, pending_lookup, decide_True by lia. done.
  - by rewrite lookup_take_ge by lia.
Qed.

(** The buffer depends on four fields of the console. *)
Lemma input_frame cs cs' :
  cons_frame cs cs' -> input_len cs' = input_len cs /\ ready_len cs' = ready_len cs /\ pending cs' = pending cs.
Proof.
  intros []. assert (input_len cs' = input_len cs) as Hl by (unfold input_len; congruence).
  split; [done|]. split; [unfold ready_len; congruence|].
  unfold pending, input_char. rewrite Hl, cf_r0, cf_buf0. done.
Qed.

Lemma input_ok_frame cs cs' : cons_frame cs cs' -> input_ok cs -> input_ok cs'.
Proof.
  intros F [H1 H2 H3 H4 H5 H6]. destruct (input_frame _ _ F) as (E1 & E2 & E3). destruct F.
  split; rewrite ?E1, ?E2, ?E3; congruence.
Qed.

Lemma u32_sub_r a b : u32 (a - u32 b) = u32 (a - b).
Proof. unfold u32. by rewrite Zminus_mod_idemp_r. Qed.

Lemma line_len cs : input_ok cs -> Z.to_nat (u32 (cs_e cs - cs_w cs)) = (input_len cs - ready_len cs)%nat.
Proof.
  intros [Hr Hw He _ Hl Hrd]. rewrite (end_is cs He), (ready_is cs Hw), u32_sub_l, u32_sub_r.
  rewrite u32_small by lia. lia.
Qed.

Lemma line_empty cs : input_ok cs -> (cs_e cs =? cs_w cs) = bool_decide (input_len cs = ready_len cs).
Proof.
  intros Hok. pose proof (line_len cs Hok) as Hn. destruct Hok as [Hr Hw He _ Hl Hrd].
  destruct (Z.eqb_spec (cs_e cs) (cs_w cs)) as [Heq|Hne].
  - rewrite Heq, Z.sub_diag in Hn. change (Z.to_nat (u32 0)) with 0%nat in Hn. by rewrite bool_decide_eq_true_2 by lia.
  - rewrite bool_decide_eq_false_2; [done|]. intros Heq. apply Hne.
    by rewrite (end_is cs He), (ready_is cs Hw), Heq.
Qed.

Lemma last_char cs :
  input_ok cs -> no_newline cs -> (ready_len cs < input_len cs)%nat -> input_char cs (cs_e cs - 1) <> 10.
Proof.
  intros [Hr Hw He Hb Hl Hrd] Hline Hlt Hc. apply Hline. set (n := input_len cs) in *.
  apply list_elem_of_lookup. exists (n - 1 - ready_len cs)%nat. rewrite lookup_drop, pending_lookup.
  rewrite decide_True by lia. rewrite <- Hc. unfold input_char, INPUT_BUF. do 3 f_equal.
  rewrite u32_mod128, <- (u32_mod128 (cs_e cs - 1)), (end_is cs He) at 1. fold n.
  rewrite u32_sub_l, u32_mod128. f_equal. lia.
Qed.

(** The console is locked, and [consoleintr] runs. *)
Record console_ready (k : kernel) : Prop := {
  cr_screen : screen_ok (k_cons k);
  cr_alive : cs_panicked (k_cons k) = false;
  cr_procs : length (k_ptable k) = NPROC;
  cr_ptable : lock_free L_ptable k;
  cr_cpu : cpu_ok k;
  cr_input : input_ok (k_cons k)
}.

(** From [k] to [k'], only the console's output, its input buffer and the states
    of sleeping processes change. *)
Record typed (k k' : kernel) : Prop := {
  ty_ready : console_ready k';
  ty_frame : k' = set_k_ptable (k_ptable k') (set_k_cons (k_cons k') k);
  ty_uart : cs_uart (k_cons k') = cs_uart (k_cons k);
  ty_uart_in : cs_uart_in (k_cons k') = cs_uart_in (k_cons k)
}.

Lemma typed_trans k1 k2 k3 : typed k1 k2 -> typed k2 k3 -> typed k1 k3.
Proof.
  intros [R12 F12 U12 I12] [R23 F23 U23 I23]. split; [done|..|congruence|congruence].
  rewrite F23, F12. by destruct k1.
Qed.

Lemma uartputc_frame c e k :
  screen_ok (k_cons k) ->
  exists cs', uartputc c e k = Ok tt e (set_k_cons cs' k) /\ screen_ok cs' /\ cons_frame (k_cons k) cs'.
Proof.
  intros Hs. unfold uartputc. rewrite gets_eq. destruct (cs_uart (k_cons k)) eqn:Eu; cbn [negb].
  - by eexists.
  - exists (k_cons k). by destruct k.
Qed.

Lemma consputc_any c e k :
  screen_ok (k_cons k) -> cs_panicked (k_cons k) = false ->
  exists cs', consputc c e k = Ok tt e (set_k_cons cs' k) /\ screen_ok cs' /\ cons_frame (k_cons k) cs'.
Proof.
  intros Hs Hp. destruct (decide (c = BACKSPACE)) as [->|Hne].
  2:{ destruct (prints_consputc c Hne e k Hs Hp) as (cs' & E & S' & F & _). by exists cs'. }
  unfold consputc. rewrite gets_eq, Hp, Z.eqb_refl.
  destruct (uartputc_frame 8 e k Hs) as (c1 & E1 & S1 & F1). rewrite bind_bind_eq, (bind_Ok _ _ _ _ _ _ _ E1).
  destruct (uartputc_frame 32 e (set_k_cons c1 k) S1) as (c2 & E2 & S2 & F2).
  rewrite bind_bind_eq, (bind_Ok _ _ _ _ _ _ _ E2).
  destruct (uartputc_frame 8 e (set_k_cons c2 (set_k_cons c1 k)) S2) as (c3 & E3 & S3 & F3).
  rewrite (bind_Ok _ _ _ _ _ _ _ E3), cgaputc_eq by done.
  destruct (cga_effect_ok BACKSPACE c3 S3) as (S4 & F4 & _). exists (cga_effect BACKSPACE c3).
  split; [by destruct k|]. split; [done|]. etrans; [exact F1|]. etrans; [exact F2|]. by etrans.
Qed.

(** [consputc] after a change of the input buffer. *)
Lemma echo c cs1 e k :
  console_ready k -> input_ok cs1 -> screen_ok cs1 -> cs_panicked cs1 = false ->
  cs_uart cs1 = cs_uart (k_cons k) -> cs_uart_in cs1 = cs_uart_in (k_cons k) ->
  exists k', consputc c e (set_k_cons cs1 k) = Ok tt e k' /\ typed k k' /\ cons_frame cs1 (k_cons k').
Proof.
  intros [Hs Hp Hn Hl Hc Hi] Hi1 Hs1 Hp1 Hu1 Hui1.
  destruct (consputc_any c e (set_k_cons cs1 k)) as (cs' & E & S' & F); [done|done|].
  exists (set_k_cons cs' (set_k_cons cs1 k)). split; [done|]. split; [|done]. cbn in F. split.
  - split; try done; [cbn; by rewrite (cf_panicked _ _ F)|]. by eapply input_ok_frame.
  - by destruct k.
  - cbn. by rewrite (cf_uart _ _ F).
  - cbn. by rewrite (cf_uart_in _ _ F).
Qed.

(** [input.e--; consputc(BACKSPACE);] *)
Lemma erase_ok e k :
  console_ready k -> (ready_len (k_cons k) < input_len (k_cons k))%nat ->
  exists k', (forall B (g : unit -> K B),
      bind (upd_cons (set_cs_e (u32 (cs_e (k_cons k) - 1)))) (fun _ => bind (consputc BACKSPACE) g) e k = g tt e k') /\
    typed k k' /\ input_len (k_cons k') = (input_len (k_cons k) - 1)%nat /\
    ready_len (k_cons k') = ready_len (k_cons k) /\
    pending (k_cons k') = take (input_len (k_cons k) - 1) (pending (k_cons k)).
Proof.
  intros Hr Hlt. pose proof (cr_input _ Hr) as Hok.
  destruct (pending_pop _ Hok Hlt) as (P1 & P2 & P3).
  edestruct (echo BACKSPACE (set_cs_e (u32 (cs_e (k_cons k) - 1)) (k_cons k)) e k) as (k' & E & T & F);
    try done; [|apply Hr|apply Hr|].
  - destruct Hok as [H1 H2 H3 H4 H5 H6]. split; try done; [apply u32_range|lia|lia].
  - exists k'. split; [intros B g; rewrite upd_cons_eq; by rewrite (bind_Ok _ _ _ _ _ _ _ E)|].
    split; [done|]. destruct (input_frame _ _ F) as (-> & -> & ->). done.
Qed.

(** [input.buf[input.e++ % INPUT_BUF] = c; consputc(c);] *)
Lemma store_ok c e k :
  console_ready k -> (input_len (k_cons k) < 128)%nat -> 0 <= c < 256 ->
  exists k', (forall B (g : unit -> K B),
      bind (upd_cons (set_cs_buf (<[Z.to_nat (cs_e (k_cons k) mod INPUT_BUF) := u8 c]> (cs_buf (k_cons k)))))
        (fun _ => bind (upd_cons (set_cs_e (u32 (cs_e (k_cons k) + 1)))) (fun _ => bind (consputc c) g)) e k = g tt e k') /\
    typed k k' /\ input_len (k_cons k') = S (input_len (k_cons k)) /\
    ready_len (k_cons k') = ready_len (k_cons k) /\ pending (k_cons k') = pending (k_cons k) ++ [c] /\
    cs_r (k_cons k') = cs_r (k_cons k).
Proof.
  intros Hr Hlt Hc. pose proof (cr_input _ Hr) as Hok.
  destruct (pending_push _ (u8 c) Hok Hlt) as (P1 & P2 & P3).
  edestruct (echo c (set_cs_e (u32 (cs_e (k_cons k) + 1))
    (set_cs_buf (<[Z.to_nat (cs_e (k_cons k) mod INPUT_BUF) := u8 c]> (cs_buf (k_cons k))) (k_cons k))) e k)
    as (k' & E & T & F); try done; [|apply Hr|apply Hr|].
  - destruct Hok as [H1 H2 H3 H4 H5 H6]. split; try done; [apply u32_range|cbn; by rewrite length_insert|lia|lia].
  - exists k'. split; [intros B g; rewrite !upd_cons_eq; by rewrite (bind_Ok _ _ _ _ _ _ _ E)|].
    split; [done|]. destruct (input_frame _ _ F) as (-> & -> & ->). rewrite (cf_r _ _ F), P3, (u8_small c) by done. done.
Qed.

(** [input.w = input.e; wakeup(&input.r);] *)
Lemma commit_line_ok e k :
  console_ready k ->
  exists k', (upd_cons (set_cs_w (cs_e (k_cons k))) ;; wakeup Ch_input) e k = Ok tt e k' /\
    typed k k' /\ ready_len (k_cons k') = input_len (k_cons k) /\ pending (k_cons k') = pending (k_cons k).
Proof.
  intros [Hs Hp Hn Hl Hc Hi]. rewrite upd_cons_eq, wakeup_ok by done.
  eexists. split; [reflexivity|]. split; [|done]. destruct Hi as [H1 H2 H3 H4 H5 H6]. split; [|by destruct k|done|done].
  split; try done; cbn; by rewrite length_fmap.
Qed.

Lemma typed_refl k : console_ready k -> typed k k.
Proof. intros H. split; [done|by destruct k|done|done]. Qed.

Lemma drop_take_elem {A} (x : A) n m l : x ∈ drop n (take m l) -> x ∈ drop n l.
Proof.
  intros [i Hi]%list_elem_of_lookup. rewrite lookup_drop in Hi. apply lookup_take_Some in Hi as [Hi _].
  apply list_elem_of_lookup. exists i. by rewrite lookup_drop.
Qed.

(** Ctrl-U removes the line. *)
Lemma kill_line_ok e k :
  console_ready k -> no_newline (k_cons k) ->
  exists k', kill_line e k = Ok tt e k' /\ typed k k' /\ ready_len (k_cons k') = ready_len (k_cons k) /\
    pending (k_cons k') = take (ready_len (k_cons k)) (pending (k_cons k)).
Proof.
  intros Hr Hnl. unfold kill_line. rewrite gets_eq, (line_len _ (cr_input _ Hr)).
  remember (input_len (k_cons k) - ready_len (k_cons k))%nat as n eqn:Hn.
  revert k Hr Hnl Hn. induction n as [|n IH]; intros k Hr Hnl Hn; pose proof (cr_input _ Hr) as Hok;
    pose proof (io_ready _ Hok); cbn [loop_fuel]; rewrite bind_bind_eq, gets_eq, line_empty by done.
  - rewrite bool_decide_eq_true_2 by lia. exists k. split; [done|]. split; [by apply typed_refl|].
    split; [done|]. rewrite take_ge; [done|]. rewrite length_pending. lia.
  - rewrite bool_decide_eq_false_2 by lia. rewrite (proj2 (Z.eqb_neq _ _)) by (apply last_char; [done|done|lia]).
    cbn [orb]. destruct (erase_ok e k Hr) as (k1 & E1 & T1 & L1 & R1 & P1); [lia|].
    erewrite bind_Ok by (rewrite E1; reflexivity).
    destruct (IH k1 (ty_ready _ _ T1)) as (k2 & E2 & T2 & R2 & P2); [|lia|].
    { unfold no_newline. rewrite R1, P1. intros Hin. apply Hnl. by eapply drop_take_elem. }
    exists k2. split; [exact E2|]. split; [by eapply typed_trans|]. rewrite R2, P2, R1, P1.
    split; [done|]. rewrite take_take. f_equal. lia.
Qed.

Lemma editor_lengths cs :
  input_ok cs -> length (take (ready_len cs) (pending cs)) = ready_len cs /\
  length (drop (ready_len cs) (pending cs)) = (input_len cs - ready_len cs)%nat.
Proof.
  intros [_ _ _ _ _ Hrd]. rewrite length_take, length_drop, length_pending. lia.
Qed.


Lemma buffer_full cs : input_ok cs -> (cs_e cs =? u32 (cs_r cs + INPUT_BUF)) = bool_decide (input_len cs = 128%nat).
Proof.
  intros [Hr Hw He _ Hl _]. destruct (bool_decide_reflect (input_len cs = 128%nat)) as [H|H].
  - rewrite (end_is cs He), H. apply Z.eqb_refl.
  - apply Z.eqb_neq. intros Heq. apply H. unfold input_len. rewrite Heq. apply (len_of _ 128). lia.
Qed.

Lemma buffer_room cs : (u32 (cs_e cs - cs_r cs) <? INPUT_BUF) = bool_decide (input_len cs < 128)%nat.
Proof.
  unfold input_len, INPUT_BUF. pose proof (u32_range (cs_e cs - cs_r cs)).
  destruct (Z.ltb_spec (u32 (cs_e cs - cs_r cs)) 128).
  - rewrite bool_decide_eq_true_2 by lia. done.
  - rewrite bool_decide_eq_false_2 by lia. done.
Qed.

(** A character that is not one of the editing keys. *)
Lemma input_char_ok c e k :
  console_ready k -> no_newline (k_cons k) -> 0 < c < 256 -> c <> 13 -> (input_len (k_cons k) < 128)%nat ->
  exists k',
    (upd_cons (set_cs_buf (<[Z.to_nat (cs_e (k_cons k) mod INPUT_BUF) := u8 c]> (cs_buf (k_cons k)))) ;;
     upd_cons (set_cs_e (u32 (cs_e (k_cons k) + 1))) ;;
     consputc c ;;
     cs <- gets k_cons ;;
     when ((c =? 10) || (c =? C 68) || (cs_e cs =? u32 (cs_r cs + INPUT_BUF)))
       (upd_cons (set_cs_w (cs_e cs)) ;;
        wakeup Ch_input)) e k = Ok tt e k' /\
    typed k k' /\ no_newline (k_cons k') /\
    editor_of (k_cons k') =
      let '(ready, line) := editor_of (k_cons k) in
      if (c =? 10) || (c =? C 68) || bool_decide (length ready + length line = 127)%nat
      then (ready ++ line ++ [c], []) else (ready, line ++ [c]).
Proof.
  intros Hr Hnl Hc Hcr Hlt. pose proof (cr_input _ Hr) as Hok. pose proof (io_ready _ Hok) as Hrd.
  destruct (store_ok c e k Hr Hlt) as (k1 & E1 & T1 & L1 & R1 & P1 & _); [lia|]. rewrite E1, gets_eq.
  rewrite (buffer_full _ (cr_input _ (ty_ready _ _ T1))), L1. unfold editor_of at 2.
  destruct (editor_lengths _ Hok) as [-> ->].
  replace (bool_decide (ready_len (k_cons k) + _ = 127)%nat) with (bool_decide (S (input_len (k_cons k)) = 128%nat))
    by (apply bool_decide_ext; lia).
  destruct ((c =? 10) || (c =? C 68) || bool_decide (S (input_len (k_cons k)) = 128%nat)) eqn:Ecommit; cbn [when].
  - destruct (commit_line_ok e k1 (ty_ready _ _ T1)) as (k2 & E2 & T2 & R2 & P2).
    exists k2. split; [done|]. split; [by eapply typed_trans|].
    assert (length (pending (k_cons k1)) = input_len (k_cons k1)) as Hlp by apply length_pending.
    unfold no_newline, editor_of. rewrite R2, P2, <- Hlp, firstn_all, drop_all.
    split; [apply not_elem_of_nil|]. rewrite P1, (app_assoc (take _ _)), take_drop. done.
  - exists k1. split; [done|]. split; [done|]. apply orb_false_iff in Ecommit as [[E10 _]%orb_false_iff _].
    bool_to_prop. unfold no_newline, editor_of. rewrite R1, P1.
    rewrite take_app_le, drop_app_le by (rewrite length_pending; lia).
    split; [|done]. rewrite elem_of_app, list_elem_of_singleton. intros [H|H]; [by apply Hnl|lia].
Qed.

Lemma input_step_ok c d e k :
  0 <= c < 256 -> console_ready k -> no_newline (k_cons k) ->
  exists k', input_step c d e k = Ok (d || (c =? C 80)) e k' /\ typed k k' /\ no_newline (k_cons k') /\
    editor_of (k_cons k') = type_char c (editor_of (k_cons k)).
Proof.
  intros Hc Hr Hnl. pose proof (cr_input _ Hr) as Hok. pose proof (io_ready _ Hok) as Hrd.
  destruct (editor_lengths _ Hok) as [Hl1 Hl2].
  unfold input_step, type_char, editor_of at 2. destruct (c =? C 80); [|rewrite orb_false_r].
  { exists k. rewrite orb_true_r. split; [done|]. split; [by apply typed_refl|done]. }
  destruct (c =? C 85).
  { destruct (kill_line_ok e k Hr Hnl) as (k1 & E1 & T1 & R1 & P1). exists k1.
    rewrite (bind_Ok _ _ _ _ _ _ _ E1). split; [done|]. split; [done|].
    assert (drop (ready_len (k_cons k)) (take (ready_len (k_cons k)) (pending (k_cons k))) = []) as Hdt
      by (apply drop_ge; rewrite length_take; lia).
    unfold no_newline, editor_of. rewrite R1, P1, Hdt, take_take, Nat.min_id. split; [apply not_elem_of_nil|done]. }
  destruct ((c =? C 72) || (c =? 127)).
  { rewrite gets_eq, line_empty by done. case_bool_decide as He; cbn [negb when].
    - exists k. split; [done|]. split; [by apply typed_refl|]. split; [done|].
      unfold editor_of. f_equal. rewrite Hl2, He, Nat.sub_diag. apply drop_ge. rewrite length_pending. lia.
    - destruct (erase_ok e k Hr) as (k1 & E1 & T1 & L1 & R1 & P1); [lia|]. exists k1.
      rewrite bind_bind_eq, E1. split; [done|]. split; [done|]. unfold no_newline, editor_of. rewrite R1, P1. split.
      + intros Hin. apply Hnl. by eapply drop_take_elem.
      + rewrite Hl2, take_take, take_drop_commute. f_equal; [f_equal; lia|]. do 2 f_equal. lia. }
  rewrite gets_eq, buffer_room, Hl1, Hl2.
  replace (bool_decide (ready_len (k_cons k) + _ < 128)%nat) with (bool_decide (input_len (k_cons k) < 128)%nat)
    by (apply bool_decide_ext; lia).
  destruct (Z.eqb_spec c 0) as [->|H0]; cbn [negb andb].
  { exists k. split; [done|]. split; [by apply typed_refl|done]. }
  case_bool_decide as Hroom; cbn [when].
  2:{ exists k. split; [done|]. split; [by apply typed_refl|done]. }
  cbv zeta. destruct (input_char_ok (if c =? 13 then 10 else c) e k Hr Hnl) as (k1 & E1 & T1 & N1 & Ed1); try done.
  { destruct (Z.eqb_spec c 13); lia. }
  { destruct (Z.eqb_spec c 13); lia. }
  exists k1. rewrite (bind_Ok _ _ _ _ _ _ _ E1). split; [done|]. split; [done|]. split; [done|].
  rewrite Ed1. unfold editor_of. by rewrite Hl1, Hl2.
Qed.

Definition ctrl_p : Z := C 80.

(** The loop of [consoleintr] over the characters that the serial port has. *)
Lemma uart_loop l fuel e k d :
  (length l < fuel)%nat -> console_ready k -> no_newline (k_cons k) ->
  cs_uart (k_cons k) = true -> cs_uart_in (k_cons k) = l -> Forall (fun c => 0 <= c < 256) l ->
  exists k', loop_fuel fuel (fun doprocdump =>
      c <- uartgetc ;;
      if negb (0 <=? c) then ret (inr doprocdump) else
      d <- input_step c doprocdump ;;
      ret (inl d)) d e k = Ok (d || existsb (Z.eqb ctrl_p) l) e k' /\
    console_ready k' /\ no_newline (k_cons k') /\ cs_uart_in (k_cons k') = [] /\
    k' = set_k_ptable (k_ptable k') (set_k_cons (k_cons k') k) /\
    editor_of (k_cons k') = foldl (fun s c => type_char c s) (editor_of (k_cons k)) l.
Proof.
  revert fuel k d. induction l as [|c l IH]; intros fuel k d Hf Hr Hnl Hu Hin Hl;
    (destruct fuel as [|fuel]; [cbn in Hf; lia|]); cbn [loop_fuel]; unfold uartgetc at 1;
    rewrite bind_bind_eq, bind_bind_eq, gets_eq, Hu; cbn [negb]; rewrite Hin.
  { exists k. rewrite ret_eq, orb_false_r. split_and!; try done. by destruct k. }
  apply Forall_cons in Hl as [Hc Hl]. rewrite bind_bind_eq, upd_cons_eq, ret_eq.
  rewrite (proj2 (Z.leb_le _ _)) by lia. cbn [negb].
  set (k1 := set_k_cons (set_cs_uart_in l (k_cons k)) k).
  destruct (input_step_ok c d e k1 Hc) as (k2 & E2 & T2 & N2 & Ed2).
  { destruct Hr as [H1 H2 H3 H4 H5 [? ? ? ? ? ?]]. by split. }
  { done. }
  erewrite bind_Ok by (rewrite (bind_Ok _ _ _ _ _ _ _ E2); reflexivity). destruct T2 as [R2 F2 U2 I2].
  destruct (IH fuel k2 (d || (c =? C 80))) as (k' & E' & R' & N' & I' & F' & Ed'); try done.
  { cbn in Hf. lia. }
  { rewrite U2. done. }
  exists k'. split; [rewrite E'; f_equal; cbn [existsb]; rewrite orb_assoc; by rewrite (Z.eqb_sym ctrl_p c)|].
  split_and!; try done.
  - rewrite F', F2. by destruct k.
  - rewrite Ed'. cbn [foldl]. by rewrite Ed2.
Qed.

(** C30: The console's line editor.  The interrupt handler of the serial port takes every
    character that has come in and returns with the lock free; what the ring
    buffer then holds, with its three wrapping indices, is what typing the
    characters one after the other makes of the lines ready to be read and the
    line being edited: backspace and Ctrl-U change only the latter, a newline,
    Ctrl-D or a full buffer gives it to the readers. *)
Theorem console_input_edits e k :
  let l := cs_uart_in (k_cons k) in
  console_ready k -> no_newline (k_cons k) -> lock_free L_cons k -> cs_uart (k_cons k) = true ->
  Forall (fun c => 0 <= c < 256) l -> ctrl_p ∉ l ->
  exists k', uartintr e k = Ok tt e k' /\
    editor_of (k_cons k') = foldl (fun s c => type_char c s) (editor_of (k_cons k)) l /\
    console_ready k' /\ no_newline (k_cons k') /\ cs_uart_in (k_cons k') = [] /\
    k' = set_k_ptable (k_ptable k') (set_k_cons (k_cons k') k).
Proof.
  intros l Hr Hnl Hlk Hu Hl Hp. unfold uartintr, consoleintr. pose proof Hr as [H1 H2 H3 H4 H5 H6].
  erewrite bind_Ok by (by apply acquire_ok). rewrite gets_eq.
  destruct (uart_loop l (S (length (cs_kbd (k_cons k)) + length l)) e (lock_taken L_cons k) false) as
    (k1 & E1 & R1 & N1 & I1 & F1 & Ed1); try done; [lia| |].
  { split; try done; [by apply lock_free_other|by apply lock_taken_cpu_ok]. }
  rewrite (bind_Ok _ _ _ _ _ _ _ E1).
  assert (existsb (Z.eqb ctrl_p) l = false) as ->.
  { apply not_true_iff_false. rewrite existsb_exists. intros (x & Hx & Heq%Z.eqb_eq). subst x.
    by apply Hp, list_elem_of_In. }
  erewrite bind_Ok by (apply (release_ok L_cons e k); rewrite F1; by apply inside_taken).
  eexists. split; [reflexivity|]. unfold unlock_to. cbn. split_and!; try done.
  - destruct R1. by split.
  - rewrite F1. by destruct k.
Qed.

Definition typing_machine (l : list Z) : kernel :=
  set_k_cons (set_cs_uart true (set_cs_uart_in l Demo.cons0)) Demo.machine.

(** Typing "lx", a backspace, "s" and a newline. *)
Lemma console_input_edits_witness :
  let k := typing_machine (chars "lx" ++ [C 72] ++ chars "s" ++ [13]) in
  exists k', uartintr [] k = Ok tt [] k' /\
    editor_of (k_cons k') = (chars "ls" ++ [10], []) /\
    console_ready k' /\ no_newline (k_cons k') /\ cs_uart_in (k_cons k') = [] /\
    k' = set_k_ptable (k_ptable k') (set_k_cons (k_cons k') k).
Proof.
  intros k. apply (console_input_edits [] k).
  - split; [split; [cbn; lia|reflexivity]|done|done|by exists "ptable"%string|..].
    + split; [cbn; lia|]. split; [done|cbn; lia].
    + split; vm_compute; repeat split; lia || congruence.
  - apply not_elem_of_nil.
  - by exists "console"%string.
  - done.
  - apply (bool_decide_unpack _). vm_compute. exact I.
  - apply (bool_decide_unpack _). vm_compute. exact I.
Defined.

End Console.
