(* ===== verification/Syscall.v ===== *)
(** syscall.c: the arguments of system calls.

    A user address is translated by the processor through the page table whose
    address is in %cr3; an address without a mapping faults, and [trap] panics
    because the fault happens in the kernel. *)

From S2P Require Import Prelude Bytes Machine Demo Cstring Spinlock Consout Kalloc Sleep Disk.
From S2P Require Import Bio Log Fs Vm Pipe File Proc.
Import Cstring Spinlock Kalloc Sleep Vm Proc.

Module Syscall.

(** ** User memory *)

(** The kernel's address of the byte at [va]; [write] says whether the access
    is a store. *)
Definition translate (write : bool) (va : Z) : K Z :=
  cr3 <- gets (fun k => c_cr3 (k_cpu k)) ;;
  pde <- ld32 (p2v (PTE_ADDR cr3) + 4 * PDX va) ;;
  if negb (has pde PTE_P) || (write && negb (has pde PTE_W)) then panic "trap" else
  pte <- ld32 (p2v (PTE_ADDR pde) + 4 * PTX va) ;;
  if negb (has pte PTE_P) || (write && negb (has pte PTE_W)) then panic "trap" else
  ret (p2v (PTE_ADDR pte) + u32 va mod PGSIZE).

Definition load_byte (va : Z) : K Z :=
  a <- translate false va ;;
  gets (fun k => k_mem k a).

Fixpoint load_user (va : Z) (n : nat) : K (list Z) :=
  match n with
  | O => ret []
  | S n' =>
      b <- load_byte va ;;
      l <- load_user (va + 1) n' ;;
      ret (b :: l)
  end.

Fixpoint store_user (va : Z) (l : list Z) : K unit :=
  match l with
  | [] => ret tt
  | b :: l' =>
      a <- translate true va ;;
      modify (fun k => set_k_mem (store (k_mem k) a b) k) ;;
      store_user (va + 1) l'
  end.

(** ** The arguments *)

(** The process's size. *)
Definition cur_sz : K Z :=
  me <- curproc ;;
  p <- get_proc me ;;
  ret (p_sz p).

(** [None] is the result -1. *)
Definition fetchint (addr : Z) : K (option Z) :=
  sz <- cur_sz ;;
  if (sz <=? addr) || (sz <? u32 (addr + 4)) then ret None else
  l <- load_user addr 4 ;;
  ret (Some (s32 (le_val l))).

(** The string's bytes, without the NUL; the loop looks at [n] addresses. *)
Fixpoint scan_str (n : nat) (s : Z) : K (option (list Z)) :=
  match n with
  | O => ret None
  | S n' =>
      c <- load_byte s ;;
      if c =? 0 then ret (Some []) else
      r <- scan_str n' (s + 1) ;;
      match r with
      | Some l => ret (Some (c :: l))
      | None => ret None
      end
  end.

Definition fetchstr (addr : Z) : K (option (list Z)) :=
  sz <- cur_sz ;;
  if sz <=? addr then ret None else
  scan_str (Z.to_nat (sz - addr)) addr.

(** [proc->tf->esp + 4 + 4*n] *)
Definition arg_addr (n : Z) : K Z :=
  me <- curproc ;;
  p <- get_proc me ;;
  esp <- ld32 (p_tf p + tf_esp) ;;
  ret (u32 (esp + 4 + 4 * n)).

Definition argint (n : Z) : K (option Z) :=
  a <- arg_addr n ;;
  fetchint a.

Definition argptr (n size : Z) : K (option Z) :=
  r <- argint n ;;
  match r with
  | None => ret None
  | Some i =>
      sz <- cur_sz ;;
      if (sz <=? u32 i) || (sz <? u32 (u32 i + size)) then ret None
      else ret (Some (u32 i))
  end.

Definition argstr (n : Z) : K (option (list Z)) :=
  r <- argint n ;;
  match r with
  | None => ret None
  | Some addr => fetchstr (u32 addr)
  end.

(** [proc->scount++] *)
Definition add_scount : K unit :=
  me <- curproc ;;
  p <- get_proc me ;;
  upd_proc me (set_p_scount (s32 (p_scount p + 1))).

(** ** Safety of the arguments *)

(** The byte at a user address, when the address is mapped. *)
Definition user_byte (k : kernel) (va : Z) : option Z :=
  match load_byte va [] k with
  | Ok b _ _ => Some b
  | _ => None
  end.

(** Every address of the process is mapped, as [growproc] and [exec] leave it. *)
Definition space_mapped (k : kernel) (sz : Z) : Prop :=
  forall va, 0 <= va < sz -> is_Some (user_byte k va).

Lemma load_byte_ok k va b e : user_byte k va = Some b -> load_byte va e k = Ok b e k.
Proof.
  unfold user_byte, load_byte, translate, ld32. rewrite !bind_bind_eq, !gets_eq, !bind_bind_eq, !gets_eq.
  destruct (_ || _); [done|]. rewrite !bind_bind_eq, !gets_eq. destruct (_ || _); [done|].
  rewrite !ret_eq. unfold gets. by intros [= <-].
Qed.

Definition user_bytes (k : kernel) (va : Z) (n : nat) : option (list Z) :=
  mapM (fun i => user_byte k (va + Z.of_nat i)) (seq 0 n).

Lemma user_bytes_S k va n :
  user_bytes k va (S n) = b ← user_byte k va; l ← user_bytes k (va + 1) n; Some (b :: l).
Proof.
  unfold user_bytes. cbn [seq mapM]. rewrite Z.add_0_r. destruct (user_byte k va) as [b|]; [|done].
  cbn. rewrite <- fmap_S_seq. generalize (seq 0 n) as l. intros l. f_equal.
  enough (mapM (fun i => user_byte k (va + Z.of_nat i)) (S <$> l) =
          mapM (fun i => user_byte k (va + 1 + Z.of_nat i)) l) as -> by done.
  induction l as [|i l IH]; [done|]. cbn. rewrite IH.
  by replace (va + Z.of_nat (S i)) with (va + 1 + Z.of_nat i) by lia.
Qed.

Lemma user_bytes_mapped k sz va n :
  space_mapped k sz -> 0 <= va -> va + Z.of_nat n <= sz -> is_Some (user_bytes k va n).
Proof.
  intros Hm Hva Hn. apply mapM_is_Some, Forall_forall. intros i Hi%elem_of_seq. apply Hm. lia.
Qed.

Lemma load_user_ok k va n l e : user_bytes k va n = Some l -> load_user va n e k = Ok l e k.
Proof.
  revert va l. induction n as [|n IH]; intros va l H; [by injection H as <-|].
  rewrite user_bytes_S in H. destruct (user_byte k va) as [b|] eqn:Eb; [|done].
  destruct (user_bytes k (va + 1) n) as [l'|] eqn:El; [|done]. injection H as <-.
  cbn [load_user]. rewrite (bind_Ok _ _ _ _ _ _ _ (load_byte_ok _ _ _ _ Eb)).
  by rewrite (bind_Ok _ _ _ _ _ _ _ (IH _ _ El)).
Qed.

Lemma user_bytes_take k va n l m :
  user_bytes k va n = Some l -> (m <= n)%nat -> user_bytes k va m = Some (take m l).
Proof.
  unfold user_bytes. rewrite !mapM_Some. intros H Hm.
  replace (seq 0 m) with (take m (seq 0 n)) by (rewrite take_seq; f_equal; lia).
  by apply Forall2_take.
Qed.

Lemma user_bytes_lookup k va n l i b :
  user_bytes k va n = Some l -> l !! i = Some b -> user_byte k (va + Z.of_nat i) = Some b.
Proof.
  unfold user_bytes. rewrite mapM_Some. intros H Hb.
  destruct (Forall2_lookup_r _ _ _ _ _ H Hb) as (j & Hj & E). apply lookup_seq in Hj as [-> _]. done.
Qed.

Lemma user_bytes_length k va n l : user_bytes k va n = Some l -> length l = n.
Proof.
  unfold user_bytes. rewrite mapM_Some. intros H. apply Forall2_length in H. by rewrite length_seq in H.
Qed.

Lemma cstr_split l :
  0 ∈ l -> exists rest, l = cstr l ++ 0 :: rest /\ Forall (fun c => c <> 0) (cstr l).
Proof.
  induction l as [|c l IH]; intros H; [by apply not_elem_of_nil in H|].
  rewrite cstr_cons. destruct (Z.eqb_spec c 0) as [->|Hc]; [by exists l|].
  apply elem_of_cons in H as [H|H]; [done|]. destruct (IH H) as (rest & E & F).
  exists rest. cbn. rewrite <- E. split; [done|by constructor].
Qed.

Section current.
Context (k : kernel) (me : nat) (p : proc).
Context (me_runs : c_proc (k_cpu k) = Some me) (me_is : k_ptable k !! me = Some p).
Context (sz_ok : 0 <= p_sz p <= KERNBASE) (sz_mapped : space_mapped k (p_sz p)).

Lemma cur_sz_ok e : cur_sz e k = Ok (p_sz p) e k.
Proof.
  unfold cur_sz. rewrite (curproc_eq me) by done. rewrite get_proc_eq.
  by rewrite (proc_at_lookup _ _ _ me_is).
Qed.

(** [fetchint] never faults, and it returns the integer at [addr] when the four
    bytes are the process's. *)
Lemma fetchint_ok addr e :
  0 <= addr < 2 ^ 32 ->
  fetchint addr e k =
    if bool_decide (addr + 4 <= p_sz p)
    then Ok (s32 ∘ le_val <$> user_bytes k addr 4) e k
    else Ok None e k.
Proof.
  intros Ha. unfold fetchint. rewrite (bind_Ok _ _ _ _ _ _ _ (cur_sz_ok e)).
  unfold KERNBASE in *. case_bool_decide as Hb.
  - rewrite (proj2 (Z.leb_gt _ _)), (proj2 (Z.ltb_ge _ _)) by (rewrite ?u32_small; lia). cbn [orb].
    destruct (user_bytes_mapped k (p_sz p) addr 4) as [l Hl]; [done|lia|lia|].
    rewrite Hl, (bind_Ok _ _ _ _ _ _ _ (load_user_ok _ _ _ _ _ Hl)). done.
  - destruct (Z.leb_spec (p_sz p) addr); [done|]. cbn [orb].
    rewrite (proj2 (Z.ltb_lt _ _)) by (rewrite u32_small; lia). done.
Qed.

(** The [n]th argument of the system call. *)
Definition arg_word (n : Z) : option Z :=
  let a := u32 (load32 (k_mem k) (p_tf p + tf_esp) + 4 + 4 * n) in
  if bool_decide (a + 4 <= p_sz p) then s32 ∘ le_val <$> user_bytes k a 4 else None.

Lemma argint_ok n e : argint n e k = Ok (arg_word n) e k.
Proof.
  unfold argint, arg_addr. rewrite bind_bind_eq, (curproc_eq me) by done.
  rewrite bind_bind_eq, get_proc_eq, (proc_at_lookup _ _ _ me_is).
  unfold ld32. rewrite bind_bind_eq, gets_eq, ret_eq. unfold arg_word.
  rewrite fetchint_ok by apply u32_range. by case_bool_decide.
Qed.

Lemma argptr_ok n size e :
  argptr n size e k =
    Ok (i ← arg_word n;
        if bool_decide (u32 i < p_sz p /\ u32 (u32 i + size) <= p_sz p) then Some (u32 i) else None) e k.
Proof.
  unfold argptr. rewrite (bind_Ok _ _ _ _ _ _ _ (argint_ok n e)).
  destruct (arg_word n) as [i|]; [|done]. cbn. rewrite (bind_Ok _ _ _ _ _ _ _ (cur_sz_ok e)).
  destruct (Z.leb_spec (p_sz p) (u32 i)), (Z.ltb_spec (p_sz p) (u32 (u32 i + size))); cbn;
    (rewrite bool_decide_eq_true_2 by lia; done) || (rewrite bool_decide_eq_false_2 by lia; done).
Qed.

(** The bytes from [s] on, up to the end of the process. *)
Lemma scan_str_ok n s l e :
  user_bytes k s n = Some l ->
  scan_str n s e k = Ok (if bool_decide (0 ∈ l) then Some (cstr l) else None) e k.
Proof.
  revert s l. induction n as [|n IH]; intros s l H; [by injection H as <-|].
  rewrite user_bytes_S in H. destruct (user_byte k s) as [b|] eqn:Eb; [|done].
  destruct (user_bytes k (s + 1) n) as [l'|] eqn:El; [|done]. injection H as <-.
  cbn [scan_str]. rewrite (bind_Ok _ _ _ _ _ _ _ (load_byte_ok _ _ _ _ Eb)), cstr_cons.
  destruct (Z.eqb_spec b 0) as [->|Hb].
  - by rewrite bool_decide_eq_true_2 by left.
  - rewrite (bind_Ok _ _ _ _ _ _ _ (IH _ _ El)).
    rewrite (bool_decide_ext (0 ∈ b :: l') (0 ∈ l')) by (rewrite elem_of_cons; naive_solver).
    by case_bool_decide.
Qed.

Lemma fetchstr_ok addr e :
  0 <= addr ->
  fetchstr addr e k =
    if bool_decide (addr < p_sz p)
    then Ok (l ← user_bytes k addr (Z.to_nat (p_sz p - addr)); if bool_decide (0 ∈ l) then Some (cstr l) else None) e k
    else Ok None e k.
Proof.
  intros Ha. unfold fetchstr. rewrite (bind_Ok _ _ _ _ _ _ _ (cur_sz_ok e)). case_bool_decide as Hb.
  - rewrite (proj2 (Z.leb_gt _ _)) by lia.
    destruct (user_bytes_mapped k (p_sz p) addr (Z.to_nat (p_sz p - addr))) as [l Hl]; [done|lia|lia|].
    by rewrite (scan_str_ok _ _ _ _ Hl), Hl.
  - by rewrite (proj2 (Z.leb_le _ _)) by lia.
Qed.

End current.

(** A running process whose pages are mapped. *)
Record user_context (k : kernel) (me : nat) (p : proc) : Prop := {
  uc_runs : c_proc (k_cpu k) = Some me;
  uc_is : k_ptable k !! me = Some p;
  uc_sz : 0 <= p_sz p <= KERNBASE;
  uc_mapped : space_mapped k (p_sz p)
}.

(** C33: A system call's block argument is checked before the kernel touches it: for a
    size that is not negative, [argptr] returns without a fault, and a block it
    accepts is inside of the process, every byte of it mapped. *)
Theorem argptr_block k me p n size e :
  user_context k me p -> 0 <= size < 2 ^ 31 ->
  exists r, argptr n size e k = Ok r e k /\
    forall a, r = Some a -> 0 <= a < p_sz p /\ a + size <= p_sz p /\ is_Some (user_bytes k a (Z.to_nat size)).
Proof.
  intros [Hr Hi Hs Hm] Hsize. eexists. split; [by apply (argptr_ok k me p)|].
  intros a Ha. destruct (arg_word k p n) as [i|]; [|done]. cbn in Ha.
  case_bool_decide as Hb; [|done]. injection Ha as <-. unfold KERNBASE in *.
  pose proof (u32_range i). rewrite (u32_small (u32 i + size)) in Hb by lia.
  split; [lia|]. split; [lia|]. apply (user_bytes_mapped k (p_sz p)); [done|lia|lia].
Qed.

(** [argptr] takes its size as a signed integer and does not look at its sign.  Every
    argument inside of the process is accepted with the size [-m] when it is at
    least [m], although a block of that size, read as the unsigned number the
    file layer makes of it, leaves the process. *)
Theorem argptr_negative_size k me p n i m e :
  user_context k me p -> arg_word k p n = Some i -> 0 < m <= u32 i -> u32 i < p_sz p ->
  argptr n (- m) e k = Ok (Some (u32 i)) e k /\ p_sz p < u32 i + u32 (- m).
Proof.
  intros [Hr Hi Hs Hm] Hw Hmi Hlt. unfold KERNBASE in *. split.
  - rewrite (argptr_ok k me p) by done. rewrite Hw. cbn.
    by rewrite bool_decide_eq_true_2 by (rewrite (u32_small (u32 i + - m)); lia).
  - replace (u32 (- m)) with (2 ^ 32 - m); [lia|]. unfold u32.
    apply (Z.mod_unique_pos _ _ (-1)); lia.
Qed.

(** C34: A string argument is checked before it is used: [fetchstr] returns without a
    fault; the string it returns is the bytes at the address up to a NUL inside
    of the process, and it returns -1 only if there is no such NUL. *)
Theorem fetchstr_string k me p addr e :
  user_context k me p -> 0 <= addr ->
  exists r, fetchstr addr e k = Ok r e k /\
    match r with
    | Some s => addr + Z.of_nat (length s) < p_sz p /\ Forall (fun c => c <> 0) s /\
        user_bytes k addr (S (length s)) = Some (s ++ [0])
    | None => forall va, addr <= va < p_sz p -> user_byte k va <> Some 0
    end.
Proof.
  intros [Hr Hi Hs Hm] Ha. rewrite (fetchstr_ok k me p) by done.
  case_bool_decide as Hb; [|exists None; split; [done|]; intros va Hva; lia].
  destruct (user_bytes_mapped k (p_sz p) addr (Z.to_nat (p_sz p - addr))) as [l Hl]; [done|lia|lia|].
  rewrite Hl. eexists. split; [done|]. cbn [mbind option_bind]. case_bool_decide as H0.
  - destruct (cstr_split l H0) as (rest & Hsp & Hnz).
    pose proof (user_bytes_length _ _ _ _ Hl) as Hlen.
    assert (length l = length (cstr l) + S (length rest))%nat by (rewrite Hsp at 1; by rewrite length_app).
    split; [lia|]. split; [done|].
    rewrite (user_bytes_take _ _ _ _ (S (length (cstr l))) Hl) by lia. f_equal.
    generalize dependent (cstr l). intros c -> _ _. rewrite (cons_middle 0), app_assoc. apply take_app_length'.
    rewrite length_app. cbn. lia.
  - intros va Hva E. apply H0. pose proof (user_bytes_length _ _ _ _ Hl) as Hlen.
    destruct (lookup_lt_is_Some_2 l (Z.to_nat (va - addr))) as [b Hb']; [lia|].
    pose proof (user_bytes_lookup _ _ _ _ _ _ Hl Hb') as E'.
    replace (addr + Z.of_nat (Z.to_nat (va - addr))) with va in E' by lia.
    rewrite E in E'. injection E' as <-. by eapply list_elem_of_lookup_2.
Qed.

(** ** An example: a process of sixteen bytes, its stack at 0 with the argument
    8, and a string at 8 *)

Definition user_proc : proc :=
  set_p_state RUNNING (set_p_sz 16 (set_p_tf 0x80203000 (set_p_pgdir 0x80200000 proc0))).

Definition user_machine : kernel :=
  set_k_cpu (set_c_cr3 0x200000 Demo.cpu0)
    (set_k_mem
      (store_bytes
        (store32 (store32 (store32 (store32 (fun _ => 1)
          0x80200000 0x201007) 0x80201000 0x202007) (0x80203000 + tf_esp) 0) 0x80202004 8)
        0x80202008 (chars "hi" ++ [0]))
      (set_k_ptable (<[0%nat := user_proc]> (k_ptable Demo.machine)) Demo.machine)).

Lemma user_machine_ok : user_context user_machine 0 user_proc.
Proof.
  split; [done|done|cbn; unfold KERNBASE; lia|].
  assert (Forall (fun va => is_Some (user_byte user_machine va)) (seqZ 0 16)) as H
    by (apply (bool_decide_unpack _); vm_compute; exact I).
  rewrite Forall_forall in H. intros va Hva. apply H, elem_of_seqZ. cbn in Hva. lia.
Qed.

Lemma argptr_block_witness :
  exists r, argptr 0 4 [] user_machine = Ok r [] user_machine /\
    forall a, r = Some a -> 0 <= a < 16 /\ a + 4 <= 16 /\ is_Some (user_bytes user_machine a 4).
Proof. apply (argptr_block user_machine 0 user_proc 0 4 []); [apply user_machine_ok|lia]. Defined.

(** The call read(fd, 8, -1). *)
Lemma argptr_negative_size_witness :
  argptr 0 (-1) [] user_machine = Ok (Some 8) [] user_machine /\ 16 < 8 + u32 (-1).
Proof.
  apply (argptr_negative_size user_machine 0 user_proc 0 8 1 []);
    [apply user_machine_ok|vm_compute; reflexivity|vm_compute; split; [reflexivity|discriminate]|reflexivity].
Defined.

Lemma fetchstr_string_witness :
  exists r, fetchstr 8 [] user_machine = Ok r [] user_machine /\
    match r with
    | Some s => 8 + Z.of_nat (length s) < 16 /\ Forall (fun c => c <> 0) s /\
        user_bytes user_machine 8 (S (length s)) = Some (s ++ [0])
    | None => forall va, 8 <= va < 16 -> user_byte user_machine va <> Some 0
    end.
Proof. apply (fetchstr_string user_machine 0 user_proc 8 []); [apply user_machine_ok|lia]. Defined.

End Syscall.
