(* ===== verification/Sysproc.v ===== *)
(** sysproc.c: the system calls about processes. *)

From S2P Require Import Prelude Bytes Machine Demo Cstring Spinlock Consout Kalloc Sleep Disk.
From S2P Require Import Bio Log Fs Vm Pipe File Proc Syscall.
Import Spinlock Sleep Vm Pipe Proc Syscall.

Module Sysproc.

Section sysproc.
Context `{DiskDriver} `{Devsw}.

Definition sys_fork : K Z :=
  pidfork <- fork ;;
  me <- curproc ;;
  (if pidfork =? 0 then
     upd_proc me (set_p_scount 0) ;;
     upd_proc me (set_p_ticket 10)
   else add_scount) ;;
  ret pidfork.

Definition sys_exit : K Z :=
  add_scount ;;
  exit ;;
  ret 0.

Definition sys_wait : K Z :=
  add_scount ;;
  wait.

Definition sys_kill : K Z :=
  add_scount ;;
  r <- argint 0 ;;
  match r with
  | None => ret (-1)
  | Some pid => kill pid
  end.

Definition sys_getpid : K Z :=
  add_scount ;;
  me <- curproc ;;
  p <- get_proc me ;;
  ret (p_pid p).

Definition sys_sbrk : K Z :=
  add_scount ;;
  r <- argint 0 ;;
  match r with
  | None => ret (-1)
  | Some n =>
      sz <- cur_sz ;;
      let addr := s32 sz in
      g <- growproc n ;;
      if g <? 0 then ret (-1) else ret addr
  end.

(** [ticks - ticks0 < n] compares unsigned numbers. *)
Definition sys_sleep : K Z :=
  add_scount ;;
  r <- argint 0 ;;
  match r with
  | None => ret (-1)
  | Some n =>
      acquire L_ticks ;;
      ticks0 <- gets k_ticks ;;
      loop_sched (fun _ : unit =>
        ticks <- gets k_ticks ;;
        if negb (u32 (ticks - ticks0) <? u32 n) then
          release L_ticks ;;
          ret (inr 0)
        else
        killed <- cur_killed ;;
        if killed : bool then
          release L_ticks ;;
          ret (inr (-1))
        else
          sleep Ch_ticks (Some L_ticks) ;;
          ret (inl tt)) tt
  end.

Definition sys_uptime : K Z :=
  add_scount ;;
  acquire L_ticks ;;
  xticks <- gets k_ticks ;;
  release L_ticks ;;
  ret (s32 xticks).

Definition sys_count : K Z :=
  add_scount ;;
  me <- curproc ;;
  p <- get_proc me ;;
  ret (p_scount p).

End sysproc.
End Sysproc.
