(* ===== verification/Exec.v ===== *)
(** exec.c: loading a program. *)

From S2P Require Import Prelude Bytes Machine Demo Cstring Spinlock Consout Kalloc Sleep Disk.
From S2P Require Import Bio Log Fs Vm Pipe File Proc.
Import Cstring Spinlock Kalloc Log Fs Vm Proc.

Module Exec.

(** ** elf.h *)

Definition ELF_MAGIC : Z := 0x464C457F.
Definition ELF_PROG_LOAD : Z := 1.
Definition sizeof_elfhdr : Z := 52.
Definition sizeof_proghdr : Z := 32.

(** The fields of the headers that are used, in the bytes read from the file. *)
Definition elf_magic (h : list Z) : Z := get32 0 h.
Definition elf_entry (h : list Z) : Z := get32 24 h.
Definition elf_phoff (h : list Z) : Z := get32 28 h.
Definition elf_phnum (h : list Z) : Z := get16 44 h.
Definition ph_type (h : list Z) : Z := get32 0 h.
Definition ph_off (h : list Z) : Z := get32 4 h.
Definition ph_vaddr (h : list Z) : Z := get32 8 h.
Definition ph_filesz (h : list Z) : Z := get32 16 h.
Definition ph_memsz (h : list Z) : Z := get32 20 h.

Section exec.
Context `{DiskDriver} `{Devsw}.

(** The label [bad]. *)
Definition bad (pgdir : Z) (ip : option nat) : K Z :=
  when (nz pgdir) (freevm pgdir) ;;
  match ip with
  | Some i => iunlockput i ;; end_op
  | None => ret tt
  end ;;
  ret (-1).

(** The loop over the [n] program headers from offset [off] on: the final size,
    [None] for [goto bad]. *)
Fixpoint load_segments (n : nat) (ip : nat) (pgdir off sz : Z) : K (option Z) :=
  match n with
  | O => ret (Some sz)
  | S n' =>
      let next := load_segments n' ip pgdir (s32 (off + sizeof_proghdr)) in
      ' (ph, r) <- readi ip (u32 off) sizeof_proghdr ;;
      if negb (r =? sizeof_proghdr) then ret None else
      if negb (ph_type ph =? ELF_PROG_LOAD) then next sz else
      if ph_memsz ph <? ph_filesz ph then ret None else
      sz <- allocuvm pgdir sz (u32 (ph_vaddr ph + ph_memsz ph)) ;;
      if sz =? 0 then ret None else
      r <- loaduvm pgdir (ph_vaddr ph) ip (ph_off ph) (ph_filesz ph) ;;
      if r <? 0 then ret None else next sz
  end.

(** The loop that pushes the argument strings: the final stack pointer and
    [ustack[3..]], [None] for [goto bad]. *)
Fixpoint push_args (argv : list (list Z)) (argc : Z) (pgdir sp : Z) (ustack : list Z)
  : K (option (Z * list Z)) :=
  match argv with
  | [] => ret (Some (sp, ustack))
  | s :: argv' =>
      if MAXARG <=? argc then ret None else
      let len := Z.of_nat (length s) + 1 in
      let sp := Z.land (u32 (sp - len)) (Z.lxor 0xFFFFFFFF 3) in
      r <- copyout pgdir sp (s ++ [0]) len ;;
      if r <? 0 then ret None else
      push_args argv' (argc + 1) pgdir sp (ustack ++ [sp])
  end.

(** [for(last=s=path; *s; s++) if( *s == '/') last = s+1;] *)
Fixpoint last_elem (s last : list Z) : list Z :=
  match s with
  | [] => last
  | c :: s' => last_elem s' (if c =? slash then s' else last)
  end.

(** The end of [exec]: the new image takes the place of the old one. *)
Definition exec_commit (path elf : list Z) (pgdir sz sp : Z) : K Z :=
  me <- curproc ;;
  p <- get_proc me ;;
  upd_proc me (set_p_name (safestrcpy (p_name p) (last_elem path path) 16)) ;;
  let oldpgdir := p_pgdir p in
  upd_proc me (set_p_pgdir pgdir) ;;
  upd_proc me (set_p_sz sz) ;;
  st32 (p_tf p + tf_eip) (elf_entry elf) ;;
  st32 (p_tf p + tf_esp) sp ;;
  switchuvm me ;;
  freevm oldpgdir ;;
  ret 0.

(** The part of [exec] after the program has been loaded. *)
Definition exec_stack (path : list Z) (argv : list (list Z)) (elf : list Z) (pgdir sz : Z) : K Z :=
  let sz := PGROUNDUP sz in
  sz <- allocuvm pgdir sz (u32 (sz + 2 * PGSIZE)) ;;
  if sz =? 0 then bad pgdir None else
  clearpteu pgdir (u32 (sz - 2 * PGSIZE)) ;;
  r <- push_args argv 0 pgdir sz [] ;;
  match r with
  | None => bad pgdir None
  | Some (sp, args) =>
      let argc := Z.of_nat (length argv) in
      let ustack := [0xffffffff; argc; u32 (sp - (argc + 1) * 4)] ++ args ++ [0] in
      let sp := u32 (sp - (3 + argc + 1) * 4) in
      r <- copyout pgdir sp (concat (le_bytes 4 <$> ustack)) ((3 + argc + 1) * 4) ;;
      if r <? 0 then bad pgdir None else
      exec_commit path elf pgdir sz sp
  end.

(** The result of [readi] is compared with [sizeof(elf)] as an unsigned number. *)
Definition exec (path : list Z) (argv : list (list Z)) : K Z :=
  begin_op ;;
  r <- namei path ;;
  match r with
  | None => end_op ;; ret (-1)
  | Some ip =>
      ilock (Some ip) ;;
      ' (elf, r) <- readi ip 0 sizeof_elfhdr ;;
      if u32 r <? sizeof_elfhdr then bad 0 (Some ip) else
      if negb (elf_magic elf =? ELF_MAGIC) then bad 0 (Some ip) else
      pgdir <- setupkvm ;;
      if pgdir =? 0 then bad 0 (Some ip) else
      r <- load_segments (Z.to_nat (elf_phnum elf)) ip pgdir (s32 (elf_phoff elf)) 0 ;;
      match r with
      | None => bad pgdir (Some ip)
      | Some sz =>
          iunlockput ip ;;
          end_op ;;
          exec_stack path argv elf pgdir sz
      end
  end.

End exec.
End Exec.
