(* ===== verification/Sysfile.v ===== *)
(** sysfile.c: the system calls about files. *)

From S2P Require Import Prelude Bytes Machine Demo Cstring Spinlock Consout Kalloc Sleep Disk.
From S2P Require Import Bio Log Fs Vm Pipe File Proc Syscall Exec.
Import Cstring Spinlock Consout Kalloc Log Fs Vm Pipe File Proc Syscall Exec.

Module Sysfile.

(** ** File descriptors *)

(** The descriptor and the file. *)
Definition argfd (n : Z) : K (option (Z * nat)) :=
  r <- argint n ;;
  match r with
  | None => ret None
  | Some fd =>
      if (fd <? 0) || (Z.of_nat NOFILE <=? fd) then ret None else
      me <- curproc ;;
      p <- get_proc me ;;
      match mjoin (p_ofile p !! Z.to_nat fd) with
      | None => ret None
      | Some f => ret (Some (fd, f))
      end
  end.

Definition set_ofile (fd : nat) (f : option nat) : K unit :=
  me <- curproc ;;
  p <- get_proc me ;;
  upd_proc me (set_p_ofile (<[fd := f]> (p_ofile p))).

Definition fdalloc (f : nat) : K Z :=
  r <- for_each (seq 0 NOFILE) (fun fd =>
    me <- curproc ;;
    p <- get_proc me ;;
    match mjoin (p_ofile p !! fd) with
    | None => set_ofile fd (Some f) ;; ret (Some (Z.of_nat fd))
    | Some _ => ret None
    end) ;;
  ret (default (-1) r).

Section sysfile.
Context `{DiskDriver} `{Devsw}.

Definition sys_dup : K Z :=
  r <- argfd 0 ;;
  match r with
  | None => ret (-1)
  | Some (_, f) =>
      fd <- fdalloc f ;;
      if fd <? 0 then ret (-1) else
      filedup f ;;
      ret fd
  end.

(** The arguments of [sys_read] and [sys_write], fetched in the order in which
    the condition evaluates them: the file, the buffer, the count. *)
Definition rw_args : K (option (nat * Z * Z)) :=
  r <- argfd 0 ;;
  match r with
  | None => ret None
  | Some (_, f) =>
      r <- argint 2 ;;
      match r with
      | None => ret None
      | Some n =>
          r <- argptr 1 n ;;
          match r with
          | None => ret None
          | Some p => ret (Some (f, p, n))
          end
      end
  end.

Definition sys_read : K Z :=
  add_scount ;;
  r <- rw_args ;;
  match r with
  | None => ret (-1)
  | Some (f, p, n) =>
      ' (bytes, r) <- fileread f n ;;
      store_user p bytes ;;
      ret r
  end.

(** No one else can change the user's memory while the call runs, so the bytes
    are the same whenever they are read. *)
Definition sys_write : K Z :=
  add_scount ;;
  r <- rw_args ;;
  match r with
  | None => ret (-1)
  | Some (f, p, n) =>
      l <- load_user p (Z.to_nat n) ;;
      filewrite f l n
  end.

Definition sys_close : K Z :=
  add_scount ;;
  r <- argfd 0 ;;
  match r with
  | None => ret (-1)
  | Some (fd, f) =>
      set_ofile (Z.to_nat fd) None ;;
      fileclose f ;;
      ret 0
  end.

Definition sizeof_stat : Z := 20.

(** The assignments of [stati], to the structure at user address [st]. *)
Definition store_stat (a : Z) (st : stat) : K unit :=
  store_user a (le_bytes 2 (st_type st)) ;;
  store_user (a + 4) (le_bytes 4 (st_dev st)) ;;
  store_user (a + 8) (le_bytes 4 (st_ino st)) ;;
  store_user (a + 12) (le_bytes 2 (st_nlink st)) ;;
  store_user (a + 16) (le_bytes 4 (st_size st)).

Definition sys_fstat : K Z :=
  add_scount ;;
  r <- argfd 0 ;;
  match r with
  | None => ret (-1)
  | Some (_, f) =>
      r <- argptr 1 sizeof_stat ;;
      match r with
      | None => ret (-1)
      | Some a =>
          r <- filestat f ;;
          match r with
          | None => ret (-1)
          | Some st => store_stat a st ;; ret 0
          end
      end
  end.

(** ** Names *)

Definition name0 : list Z := replicate 14 0.

(** [ip->nlink += d] *)
Definition add_nlink (ip : nat) (d : Z) : K unit :=
  i <- get_inode ip ;;
  upd_inode ip (set_i_nlink (s16 (i_nlink i + d))).

Definition sys_link : K Z :=
  add_scount ;;
  r0 <- argstr 0 ;;
  match r0 with
  | None => ret (-1)
  | Some old =>
  r1 <- argstr 1 ;;
  match r1 with
  | None => ret (-1)
  | Some new =>
      begin_op ;;
      r <- namei old ;;
      match r with
      | None => end_op ;; ret (-1)
      | Some ip =>
          ilock (Some ip) ;;
          i <- get_inode ip ;;
          if i_type i =? T_DIR then iunlockput ip ;; end_op ;; ret (-1) else
          add_nlink ip 1 ;;
          iupdate ip ;;
          iunlock (Some ip) ;;
          let bad :=
            ilock (Some ip) ;;
            add_nlink ip (-1) ;;
            iupdate ip ;;
            iunlockput ip ;;
            end_op ;;
            ret (-1) in
          ' (r, name) <- nameiparent new name0 ;;
          match r with
          | None => bad
          | Some dp =>
              ilock (Some dp) ;;
              d <- get_inode dp ;;
              i <- get_inode ip ;;
              r <- (if negb (i_dev d =? i_dev i) then ret (-1)
                    else dirlink dp name (i_inum i)) ;;
              if r <? 0 then iunlockput dp ;; bad else
              iunlockput dp ;;
              iput ip ;;
              end_op ;;
              ret 0
          end
      end
  end
  end.

Definition isdirempty (dp : nat) : K bool :=
  d <- get_inode dp ;;
  loop_fuel (S (S (Z.to_nat (i_size d / sizeof_dirent)))) (fun off =>
    d <- get_inode dp ;;
    if negb (off <? i_size d) then ret (inr true) else
    ' (de, r) <- readi dp off sizeof_dirent ;;
    if negb (r =? sizeof_dirent) then panic "isdirempty: readi" else
    if negb (de_inum de =? 0) then ret (inr false)
    else ret (inl (off + sizeof_dirent))) (2 * sizeof_dirent).

Definition dot : list Z := [46; 0].
Definition dotdot : list Z := [46; 46; 0].

Definition sys_unlink : K Z :=
  add_scount ;;
  r <- argstr 0 ;;
  match r with
  | None => ret (-1)
  | Some path =>
      begin_op ;;
      ' (r, name) <- nameiparent path name0 ;;
      match r with
      | None => end_op ;; ret (-1)
      | Some dp =>
          ilock (Some dp) ;;
          let bad := iunlockput dp ;; end_op ;; ret (-1) in
          if (namecmp name dot =? 0) || (namecmp name dotdot =? 0) then bad else
          r <- dirlookup dp name ;;
          match r with
          | None => bad
          | Some (ip, off) =>
              ilock (Some ip) ;;
              i <- get_inode ip ;;
              if i_nlink i <? 1 then panic "unlink: nlink < 1" else
              empty <- (if i_type i =? T_DIR then isdirempty ip else ret true) ;;
              if negb empty then iunlockput ip ;; bad else
              r <- writei dp (replicate 16 0) off sizeof_dirent ;;
              if negb (r =? sizeof_dirent) then panic "unlink: writei" else
              i <- get_inode ip ;;
              when (i_type i =? T_DIR) (add_nlink dp (-1) ;; iupdate dp) ;;
              iunlockput dp ;;
              add_nlink ip (-1) ;;
              iupdate ip ;;
              iunlockput ip ;;
              end_op ;;
              ret 0
          end
      end
  end.

Definition create (path : list Z) (type major minor : Z) : K (option nat) :=
  ' (r, name) <- nameiparent path name0 ;;
  match r with
  | None => ret None
  | Some dp =>
      ilock (Some dp) ;;
      r <- dirlookup dp name ;;
      match r with
      | Some (ip, _) =>
          iunlockput dp ;;
          ilock (Some ip) ;;
          i <- get_inode ip ;;
          if (type =? T_FILE) && (i_type i =? T_FILE) then ret (Some ip) else
          iunlockput ip ;;
          ret None
      | None =>
          d <- get_inode dp ;;
          ip <- ialloc (i_dev d) type ;;
          ilock (Some ip) ;;
          upd_inode ip (set_i_major (s16 major)) ;;
          upd_inode ip (set_i_minor (s16 minor)) ;;
          upd_inode ip (set_i_nlink 1) ;;
          iupdate ip ;;
          when (type =? T_DIR)
            (add_nlink dp 1 ;;
             iupdate dp ;;
             i <- get_inode ip ;;
             r <- dirlink ip dot (i_inum i) ;;
             if r <? 0 then panic "create dots" else
             d <- get_inode dp ;;
             r <- dirlink ip dotdot (i_inum d) ;;
             if r <? 0 then panic "create dots" else ret tt) ;;
          i <- get_inode ip ;;
          r <- dirlink dp name (i_inum i) ;;
          if r <? 0 then panic "create: dirlink" else
          iunlockput dp ;;
          ret (Some ip)
      end
  end.

(** The inode that [sys_open] opens, locked; [None] after it ended the
    operation. *)
Definition open_inode (path : list Z) (omode : Z) : K (option nat) :=
  if has omode O_CREATE then
    r <- create path T_FILE 0 0 ;;
    match r with
    | None => end_op ;; ret None
    | Some ip => ret (Some ip)
    end
  else
    r <- namei path ;;
    match r with
    | None => end_op ;; ret None
    | Some ip =>
        ilock (Some ip) ;;
        i <- get_inode ip ;;
        if (i_type i =? T_DIR) && negb (omode =? O_RDONLY) then
          iunlockput ip ;; end_op ;; ret None
        else ret (Some ip)
    end.

Definition sys_open : K Z :=
  add_scount ;;
  r0 <- argstr 0 ;;
  match r0 with
  | None => ret (-1)
  | Some path =>
  r1 <- argint 1 ;;
  match r1 with
  | None => ret (-1)
  | Some omode =>
      begin_op ;;
      r <- open_inode path omode ;;
      match r with
      | None => ret (-1)
      | Some ip =>
          rf <- filealloc ;;
          match rf with
          | None => iunlockput ip ;; end_op ;; ret (-1)
          | Some f =>
              fd <- fdalloc f ;;
              if fd <? 0 then
                fileclose f ;; iunlockput ip ;; end_op ;; ret (-1)
              else
              iunlock (Some ip) ;;
              end_op ;;
              upd_file f (set_f_type FD_INODE) ;;
              upd_file f (set_f_ip (Some ip)) ;;
              upd_file f (set_f_off 0) ;;
              upd_file f (set_f_readable (negb (has omode O_WRONLY))) ;;
              upd_file f (set_f_writable (has omode O_WRONLY || has omode O_RDWR)) ;;
              ret fd
          end
      end
  end
  end.

(** [iunlockput(ip); end_op(); return 0;], or the failure. *)
Definition finish_create (r : option nat) : K Z :=
  match r with
  | None => end_op ;; ret (-1)
  | Some ip => iunlockput ip ;; end_op ;; ret 0
  end.

Definition sys_mkdir : K Z :=
  add_scount ;;
  begin_op ;;
  r <- argstr 0 ;;
  match r with
  | None => finish_create None
  | Some path => ip <- create path T_DIR 0 0 ;; finish_create ip
  end.

Definition sys_mknod : K Z :=
  add_scount ;;
  begin_op ;;
  r <- argstr 0 ;;
  r1 <- match r with None => ret None | Some _ => argint 1 end ;;
  r2 <- match r1 with None => ret None | Some _ => argint 2 end ;;
  match r, r1, r2 with
  | Some path, Some major, Some minor =>
      ip <- create path T_DEV (s16 major) (s16 minor) ;; finish_create ip
  | _, _, _ => finish_create None
  end.

Definition sys_chdir : K Z :=
  add_scount ;;
  begin_op ;;
  r <- argstr 0 ;;
  ip <- match r with None => ret None | Some path => namei path end ;;
  match ip with
  | None => end_op ;; ret (-1)
  | Some ip =>
      ilock (Some ip) ;;
      i <- get_inode ip ;;
      if negb (i_type i =? T_DIR) then iunlockput ip ;; end_op ;; ret (-1) else
      iunlock (Some ip) ;;
      me <- curproc ;;
      p <- get_proc me ;;
      match p_cwd p with Some c => iput c | None => undefined end ;;
      end_op ;;
      upd_proc me (set_p_cwd (Some ip)) ;;
      ret 0
  end.

(** The loop of [sys_exec] from index [i] on, [n] more slots of [argv] left:
    the strings, [None] for a failure. *)
Fixpoint fetch_argv (n : nat) (uargv i : Z) : K (option (list (list Z))) :=
  match n with
  | O => ret None
  | S n' =>
      r <- fetchint (u32 (uargv + 4 * i)) ;;
      match r with
      | None => ret None
      | Some uarg =>
          if uarg =? 0 then ret (Some []) else
          s <- fetchstr (u32 uarg) ;;
          match s with
          | None => ret None
          | Some s =>
              rest <- fetch_argv n' uargv (i + 1) ;;
              match rest with
              | None => ret None
              | Some l => ret (Some (s :: l))
              end
          end
      end
  end.

Definition sys_exec : K Z :=
  add_scount ;;
  r0 <- argstr 0 ;;
  match r0 with
  | None => ret (-1)
  | Some path =>
  r1 <- argint 1 ;;
  match r1 with
  | None => ret (-1)
  | Some uargv =>
      r <- fetch_argv (Z.to_nat MAXARG) (u32 uargv) 0 ;;
      match r with
      | None => ret (-1)
      | Some argv => exec path argv
      end
  end
  end.

Definition sys_pipe : K Z :=
  add_scount ;;
  r <- argptr 0 8 ;;
  match r with
  | None => ret (-1)
  | Some a =>
      r <- pipealloc ;;
      match r with
      | None => ret (-1)
      | Some (rf, wf) =>
          fd0 <- fdalloc rf ;;
          fd1 <- (if fd0 <? 0 then ret (-1) else fdalloc wf) ;;
          if (fd0 <? 0) || (fd1 <? 0) then
            when (0 <=? fd0) (set_ofile (Z.to_nat fd0) None) ;;
            fileclose rf ;;
            fileclose wf ;;
            ret (-1)
          else
          store_user a (le_bytes 4 fd0) ;;
          store_user (a + 4) (le_bytes 4 fd1) ;;
          ret 0
      end
  end.

End sysfile.
End Sysfile.
