(* ===== verification/Trap.v ===== *)
(** The table of system calls and [syscall] of syscall.c, and trap.c. *)

From S2P Require Import Prelude Bytes Machine Demo Cstring Spinlock Consout Kbd Kalloc Hw Sleep.
From S2P Require Import Disk Bio Log Fs Vm Pipe File Proc Console Syscall Sysproc Exec Sysfile.
Import Cstring Spinlock Consout Kalloc Hw Sleep Pipe Proc Console Syscall Sysproc Sysfile.

Module Trap.

Section trap.
Context `{DiskDriver} `{Devsw}.

(** [syscalls], with the numbers of syscall.h. *)
Definition syscalls (num : Z) : option (K Z) :=
  match num with
  | 1 => Some sys_fork
  | 2 => Some sys_exit
  | 3 => Some sys_wait
  | 4 => Some sys_pipe
  | 5 => Some sys_read
  | 6 => Some sys_kill
  | 7 => Some sys_exec
  | 8 => Some sys_fstat
  | 9 => Some sys_chdir
  | 10 => Some sys_dup
  | 11 => Some sys_getpid
  | 12 => Some sys_sbrk
  | 13 => Some sys_sleep
  | 14 => Some sys_uptime
  | 15 => Some sys_open
  | 16 => Some sys_write
  | 17 => Some sys_mknod
  | 18 => Some sys_unlink
  | 19 => Some sys_link
  | 20 => Some sys_mkdir
  | 21 => Some sys_close
  | 22 => Some sys_count
  | _ => None
  end.

(** [proc->tf->eax = v] *)
Definition set_eax (v : Z) : K unit :=
  me <- curproc ;;
  p <- get_proc me ;;
  st32 (p_tf p + tf_eax) (u32 v).

Definition syscall : K unit :=
  me <- curproc ;;
  p <- get_proc me ;;
  eax <- ld32 (p_tf p + tf_eax) ;;
  let num := s32 eax in
  match (if 0 <? num then syscalls num else None) with
  | Some call => r <- call ;; set_eax r
  | None =>
      cprintf "%d %s: unknown sys call %d
" [AInt (p_pid p); AStr (Some (cstr (p_name p))); AInt num] ;;
      set_eax (-1)
  end.

(** ** trap.c *)

Definition STS_IG32 : Z := 14.
Definition STS_TG32 : Z := 15.

(** mmu.h, [SETGATE] *)
Definition SETGATE (istrap : bool) (sel off d : Z) : gatedesc :=
  mkGate (Z.land (u32 off) 0xffff) sel 0 0 (if istrap then STS_TG32 else STS_IG32) 0 d 1
    (Z.shiftr (u32 off) 16).

Definition vector (k : kernel) (i : nat) : Z := nth i (ld_vectors (k_link k)) 0.

Definition tvinit : K unit :=
  for_all (seq 0 256) (fun i =>
    modify (fun k => set_k_idt
      (<[i := SETGATE false (Z.shiftl SEG_KCODE 3) (vector k i) 0]> (k_idt k)) k)) ;;
  modify (fun k => set_k_idt
    (<[Z.to_nat T_SYSCALL := SETGATE true (Z.shiftl SEG_KCODE 3)
        (vector k (Z.to_nat T_SYSCALL)) DPL_USER]> (k_idt k)) k) ;;
  initlock L_ticks "time".

Definition idtinit : K unit := upd_cpu (set_c_idt_loaded true).

(** [if(proc->killed) exit();] *)
Definition exit_if_killed : K unit :=
  killed <- cur_killed ;;
  when killed exit.

(** [ideintr] is the interrupt handler of the disk driver the kernel is built
    with. *)
Variable ideintr : K unit.

(** The switch of [trap]. *)
Definition handle_trap (tf trapno : Z) : K unit :=
  cpu <- gets k_cpu ;;
  if trapno =? T_IRQ0 + IRQ_TIMER then
    when (c_id cpu =? 0)
      (acquire L_ticks ;;
       modify (fun k => set_k_ticks (u32 (k_ticks k + 1)) k) ;;
       wakeup Ch_ticks ;;
       release L_ticks) ;;
    lapiceoi
  else if trapno =? T_IRQ0 + IRQ_IDE then ideintr ;; lapiceoi
  else if trapno =? T_IRQ0 + IRQ_IDE + 1 then ret tt
  else if trapno =? T_IRQ0 + IRQ_KBD then kbdintr ;; lapiceoi
  else if trapno =? T_IRQ0 + IRQ_COM1 then uartintr ;; lapiceoi
  else if (trapno =? T_IRQ0 + 7) || (trapno =? T_IRQ0 + IRQ_SPURIOUS) then
    cs <- ld16 (tf + tf_cs) ;;
    eip <- ld32 (tf + tf_eip) ;;
    cprintf "cpu%d: spurious interrupt at %x:%x
" [AInt (c_id cpu); AInt cs; AInt eip] ;;
    lapiceoi
  else
    cs <- ld16 (tf + tf_cs) ;;
    eip <- ld32 (tf + tf_eip) ;;
    err <- ld32 (tf + tf_err) ;;
    match c_proc cpu with
    | Some me =>
        if Z.land cs 3 =? 0 then
          cprintf "unexpected trap %d from cpu %d eip %x (cr2=0x%x)
" [AInt trapno; AInt (c_id cpu); AInt eip; AInt (c_cr2 cpu)] ;;
          panic "trap"
        else
          p <- get_proc me ;;
          cprintf "pid %d %s: trap %d err %d on cpu %d eip 0x%x addr 0x%x--kill proc
" [AInt (p_pid p); AStr (Some (cstr (p_name p))); AInt trapno; AInt err;
               AInt (c_id cpu); AInt eip; AInt (c_cr2 cpu)] ;;
          upd_proc me (set_p_killed 1)
    | None =>
        cprintf "unexpected trap %d from cpu %d eip %x (cr2=0x%x)
" [AInt trapno; AInt (c_id cpu); AInt eip; AInt (c_cr2 cpu)] ;;
        panic "trap"
    end.

(** [if(proc && proc->killed && (tf->cs&3) == DPL_USER) exit();] *)
Definition exit_killed_user (tf : Z) : K unit :=
  cur <- gets (fun k => c_proc (k_cpu k)) ;;
  match cur with
  | None => ret tt
  | Some me =>
      p <- get_proc me ;;
      cs <- ld16 (tf + tf_cs) ;;
      when (nz (p_killed p) && (Z.land cs 3 =? DPL_USER)) exit
  end.

Definition trap (tf : Z) : K unit :=
  trapno <- ld32 (tf + tf_trapno) ;;
  if trapno =? T_SYSCALL then
    exit_if_killed ;;
    me <- curproc ;;
    upd_proc me (set_p_tf tf) ;;
    syscall ;;
    exit_if_killed
  else
    handle_trap tf trapno ;;
    exit_killed_user tf ;;
    cur <- gets (fun k => c_proc (k_cpu k)) ;;
    match cur with
    | None => ret tt
    | Some me =>
        p <- get_proc me ;;
        when (bool_decide (p_state p = RUNNING) && (trapno =? T_IRQ0 + IRQ_TIMER)) yield
    end ;;
    exit_killed_user tf.

End trap.

(** ** The clock *)

(** The processor is given away for a while: the process is runnable, and the table locked. *)
Definition yielded (me : nat) (k : kernel) : kernel :=
  set_k_ptable (alter (set_p_state RUNNABLE) me (k_ptable k)) (lock_taken L_ptable k).

Lemma yield_ok me f e k :
  lock_free L_ptable k -> cpu_ok k -> c_ncli (k_cpu k) = 0 -> c_proc (k_cpu k) = Some me -> (me < length (k_ptable k))%nat ->
  k_locks (f (yielded me k)) = k_locks (yielded me k) -> k_cpu (f (yielded me k)) = k_cpu (yielded me k) ->
  yield (f :: e) k = Ok tt e (unlock_to k (f (yielded me k))).
Proof.
  intros Hl Hc Hn Hcur Hlt HfL HfC. unfold yield. erewrite bind_Ok by (by apply acquire_ok).
  rewrite (curproc_eq me), upd_proc_eq by done. fold (yielded me k).
  destruct (lookup_lt_is_Some_2 _ _ Hlt) as [p Hp].
  erewrite bind_Ok.
  2:{ apply (sched_ok f e k (yielded me k) me); [done|done|done|]. unfold proc_at. cbn. by rewrite list_lookup_alter_eq, Hp. }
  assert (set_k_cpu (set_c_intena (c_intena (k_cpu (yielded me k))) (k_cpu (f (yielded me k)))) (f (yielded me k)) = f (yielded me k)) as ->.
  { rewrite <- HfC. assert (forall c, set_c_intena (c_intena c) c = c) as -> by (by intros []). by destruct (f (yielded me k)). }
  apply release_ok. split; [done|]. split; [done|]. split; [exact HfL|exact HfC].
Qed.

(** One tick: the clock goes on, and those that sleep on it are woken. *)
Definition ticked (k : kernel) : kernel :=
  set_k_ptable (wake Ch_ticks <$> k_ptable k) (set_k_ticks (u32 (k_ticks k + 1)) k).

Lemma tick_ok e k :
  length (k_ptable k) = NPROC -> lock_free L_ticks k -> lock_free L_ptable k -> cpu_ok k ->
  (acquire L_ticks ;;
   modify (fun k => set_k_ticks (u32 (k_ticks k + 1)) k) ;;
   wakeup Ch_ticks ;;
   release L_ticks) e k = Ok tt e (ticked k).
Proof.
  intros Hn Hl Hlp Hc. erewrite bind_Ok by (by apply acquire_ok). rewrite modify_eq.
  erewrite bind_Ok by (apply wakeup_ok; [exact Hn|by apply (lock_free_other L_ptable L_ticks k)|by apply (lock_taken_cpu_ok L_ticks k)]).
  by rewrite (release_ok L_ticks e k).
Qed.

(** The interrupt is acknowledged. *)
Definition acknowledged (k : kernel) : kernel :=
  set_k_hw (if hw_lapic (k_hw k) =? 0 then k_hw k
    else set_hw_lapicreg (<[LAPIC_EOI := u32 0]> (hw_lapicreg (k_hw k))) (k_hw k)) k.

Lemma lapiceoi_ok e k : lapiceoi e k = Ok tt e (acknowledged k).
Proof. unfold lapiceoi, acknowledged. rewrite gets_eq. destruct (_ =? 0); [by destruct k|done]. Qed.

(** What the handler does on a tick. *)
Definition after_tick (k : kernel) : kernel := acknowledged (if c_id (k_cpu k) =? 0 then ticked k else k).

Section clock.
Context `{DiskDriver} `{Devsw} (ideintr : K unit).

Lemma after_tick_ok me p k :
  k_ptable k !! me = Some p -> p_state p = RUNNING ->
  k_ptable (after_tick k) !! me = Some p /\ k_locks (after_tick k) = k_locks k /\ k_cpu (after_tick k) = k_cpu k /\
  k_ticks (after_tick k) = if c_id (k_cpu k) =? 0 then u32 (k_ticks k + 1) else k_ticks k.
Proof.
  intros Hme Hrun. unfold after_tick. destruct (c_id _ =? 0); [|done]. split; [|done].
  cbn [k_ptable acknowledged set_k_hw ticked set_k_ptable]. rewrite list_lookup_fmap, Hme. cbn. f_equal. unfold wake.
  by rewrite bool_decide_eq_false_2 by (by rewrite Hrun).
Qed.

Lemma timer_trap me p tf k f e :
  load32 (k_mem k) (tf + tf_trapno) = T_IRQ0 + IRQ_TIMER -> length (k_ptable k) = NPROC ->
  lock_free L_ticks k -> lock_free L_ptable k -> cpu_ok k -> c_ncli (k_cpu k) = 0 -> c_proc (k_cpu k) = Some me ->
  k_ptable k !! me = Some p -> p_state p = RUNNING -> p_killed p = 0 ->
  let ks := yielded me (after_tick k) in
  k_locks (f ks) = k_locks ks -> k_cpu (f ks) = k_cpu ks -> p_killed (proc_at (f ks) me) = 0 ->
  trap ideintr tf (f :: e) k = Ok tt e (unlock_to (after_tick k) (f ks)).
Proof.
  intros Htrap Hn Hlt Hlp Hc Hcli Hcur Hme Hrun Hkill ks HfL HfC Hfk.
  destruct (after_tick_ok me p k Hme Hrun) as (Hme1 & Hlk & Hcpu & _). unfold ks in *. set (k1 := after_tick k) in *.
  unfold trap, ld32. rewrite gets_eq, Htrap. change (T_IRQ0 + IRQ_TIMER =? T_SYSCALL) with false. cbv iota.
  assert (handle_trap ideintr tf (T_IRQ0 + IRQ_TIMER) (f :: e) k = Ok tt (f :: e) k1) as Ehandle.
  { unfold handle_trap. rewrite gets_eq, Z.eqb_refl. unfold k1, after_tick. destruct (c_id (k_cpu k) =? 0); cbn [when].
    - by rewrite (bind_Ok _ _ _ _ _ _ _ (tick_ok (f :: e) k Hn Hlt Hlp Hc)), lapiceoi_ok.
    - by rewrite ret_eq, lapiceoi_ok. }
  assert (forall e k, c_proc (k_cpu k) = Some me -> p_killed (proc_at k me) = 0 -> exit_killed_user tf e k = Ok tt e k) as Ealive.
  { intros e' k' Hp' Hk'. unfold exit_killed_user. rewrite gets_eq, Hp', get_proc_eq, Hk'. unfold ld16. by rewrite gets_eq. }
  rewrite (bind_Ok _ _ _ _ _ _ _ Ehandle).
  rewrite (bind_Ok _ _ _ _ _ _ _ (Ealive (f :: e) k1 ltac:(by rewrite Hcpu) ltac:(by rewrite (proc_at_lookup _ _ _ Hme1)))).
  rewrite gets_eq, Hcpu, Hcur, bind_bind_eq, get_proc_eq, (proc_at_lookup _ _ _ Hme1), Hrun. rewrite bool_decide_eq_true_2 by done.
  change (true && (T_IRQ0 + IRQ_TIMER =? T_IRQ0 + IRQ_TIMER)) with true. cbn [when].
  erewrite bind_Ok.
  2:{ apply (yield_ok me f e k1); try done; try (by rewrite Hcpu).
      - unfold lock_free. by rewrite Hlk.
      - unfold cpu_ok. by rewrite Hcpu.
      - by eapply lookup_lt_Some. }
  apply Ealive; [change (c_proc (k_cpu k1) = Some me); by rewrite Hcpu|exact Hfk].
Qed.

(** C19: The clock takes the processor away from a process.  On a timer interrupt the first
    processor counts a tick and wakes those that sleep on the clock; the process
    that was running is runnable, with the process table locked, when it gives
    the processor away, and [trap] returns to it when it runs again, unless it
    was killed. *)
Theorem timer_preempts me p tf k :
  load32 (k_mem k) (tf + tf_trapno) = T_IRQ0 + IRQ_TIMER -> length (k_ptable k) = NPROC ->
  lock_free L_ticks k -> lock_free L_ptable k -> cpu_ok k -> c_ncli (k_cpu k) = 0 -> c_proc (k_cpu k) = Some me ->
  k_ptable k !! me = Some p -> p_state p = RUNNING -> p_killed p = 0 ->
  let k1 := after_tick k in let ks := yielded me k1 in
  p_state (proc_at ks me) = RUNNABLE /\ ~ lock_free L_ptable ks /\
  k_ticks ks = (if c_id (k_cpu k) =? 0 then u32 (k_ticks k + 1) else k_ticks k) /\
  (c_id (k_cpu k) = 0 -> forall j q, k_ptable k !! j = Some q -> p_state q = SLEEPING -> p_chan q = Some Ch_ticks ->
     p_state (proc_at ks j) = RUNNABLE) /\
  forall f e, k_locks (f ks) = k_locks ks -> k_cpu (f ks) = k_cpu ks -> p_killed (proc_at (f ks) me) = 0 ->
    trap ideintr tf (f :: e) k = Ok tt e (unlock_to k1 (f ks)).
Proof.
  intros Htrap Hn Hlt Hlp Hc Hcli Hcur Hme Hrun Hkill k1 ks.
  destruct (after_tick_ok me p k Hme Hrun) as (Hme1 & Hlk & Hcpu & Htk). fold k1 in Hme1, Hlk, Hcpu, Htk. split_and!.
  - unfold proc_at, ks, yielded. cbn [k_ptable set_k_ptable]. by rewrite list_lookup_alter_eq, Hme1.
  - intros [name Hf]. cbn in Hf. by rewrite lookup_insert_eq in Hf.
  - exact Htk.
  - intros Hid j q Hq Hs Hch. assert (me <> j) as Hne by congruence.
    assert (k_ptable k1 = wake Ch_ticks <$> k_ptable k) as Ht by (unfold k1, after_tick; by rewrite Hid).
    unfold proc_at, ks, yielded. cbn [k_ptable set_k_ptable]. rewrite list_lookup_alter_ne, Ht, list_lookup_fmap, Hq by done.
    cbn. unfold wake. by rewrite !bool_decide_eq_true_2.
  - intros f e HfL HfC Hfk. by apply (timer_trap me p).
Qed.

End clock.

(** Process 0 of [two_procs] is interrupted by the clock while process 2 sleeps on it. *)
Definition clock_state : kernel :=
  set_k_mem (store32 (fun _ => 0) (0x80303000 + tf_trapno) 32)
    (set_k_ptable (<[2%nat := set_p_state SLEEPING (set_p_chan (Some Ch_ticks) proc0)]> (k_ptable two_procs)) two_procs).

Section witness.
#[local] Existing Instance Memide.memide_driver.

Lemma timer_preempts_witness :
  let k1 := after_tick clock_state in let ks := yielded 0 k1 in
  p_state (proc_at ks 0) = RUNNABLE /\ ~ lock_free L_ptable ks /\
  k_ticks ks = (if c_id (k_cpu clock_state) =? 0 then u32 (k_ticks clock_state + 1) else k_ticks clock_state) /\
  (c_id (k_cpu clock_state) = 0 -> forall j q, k_ptable clock_state !! j = Some q -> p_state q = SLEEPING ->
     p_chan q = Some Ch_ticks -> p_state (proc_at ks j) = RUNNABLE) /\
  forall f e, k_locks (f ks) = k_locks ks -> k_cpu (f ks) = k_cpu ks -> p_killed (proc_at (f ks) 0) = 0 ->
    trap Memide.ideintr 0x80303000 (f :: e) clock_state = Ok tt e (unlock_to k1 (f ks)).
Proof.
  apply (timer_preempts Memide.ideintr 0 (set_p_state RUNNING (set_p_pid 1 proc0)) 0x80303000 clock_state).
  - vm_compute. reflexivity.
  - reflexivity.
  - exists "time"%string. reflexivity.
  - apply two_procs_ok.
  - apply two_procs_ok.
  - reflexivity.
  - reflexivity.
  - reflexivity.
  - reflexivity.
  - reflexivity.
Defined.
End witness.

End Trap.
