(* ===== verification/Keeps.v ===== *)
(** Computations that keep a part of the state.  [Keeps sig m] says that [m] does not change what [sig]
    sees of the kernel; the class [Frame] lists the assignments that [sig] does not see, and
    every function of the kernel below proc.c keeps each such [sig] (all of the
    kernel's files but those of the process table). *)

From S2P Require Import Prelude Bytes Machine Demo Cstring Spinlock Consout Kalloc Sleep Disk Ide.
From S2P Require Import Bio Log Fs Vm Pipe File Proc Console Syscall Exec.
Import Cstring Spinlock Consout Kalloc Sleep Bio Log Fs Vm Pipe File Proc Console Syscall Exec.

Module Keeps.

(** ** Computations that keep a part of the state *)

Section keeps.
Context {T : Type} (sig : kernel -> T).

(** What the rest of the machine does while the processor is given away. *)
Definition quiet_schedule (e : schedule kernel) : Prop := Forall (fun f => forall k, sig (f k) = sig k) e.

Class Keeps {A} (m : K A) : Prop :=
  keeps_run e k : quiet_schedule e ->
    match m e k with
    | Ok _ e' k' => sig k' = sig k /\ quiet_schedule e'
    | Panic _ k' | Hang k' => sig k' = sig k
    end.

#[export] Instance keeps_ret {A} (a : A) : Keeps (ret a).
Proof. by intros e k He. Qed.
#[export] Instance keeps_gets {A} (f : kernel -> A) : Keeps (gets f).
Proof. by intros e k He. Qed.
#[export] Instance keeps_panic {A} msg : Keeps (@panic _ A msg).
Proof. by intros e k He. Qed.
#[export] Instance keeps_undefined {A} : Keeps (@undefined _ A).
Proof. by intros e k He. Qed.
#[export] Instance keeps_hang {A} : Keeps (@hang _ A).
Proof. by intros e k He. Qed.
Lemma keeps_modify f : (forall k, sig (f k) = sig k) -> Keeps (modify f).
Proof. intros Hf e k He. by split. Qed.
#[export] Instance keeps_interfere : Keeps interfere.
Proof. intros [|f e] k He; [done|]. apply Forall_cons in He as [Hf He]. by split. Qed.

Lemma keeps_bind {A B} (m : K A) (g : A -> K B) : Keeps m -> (forall a, Keeps (g a)) -> Keeps (bind m g).
Proof.
  intros Hm Hg e k He. unfold bind. specialize (Hm e k He). destruct (m e k) as [a e' k'| |]; [|done|done].
  destruct Hm as [Hk He']. specialize (Hg a e' k' He'). destruct (g a e' k') as [b e2 k2| |]; [|by etransitivity..].
  destruct Hg as [Hk2 He2]. by rewrite Hk2.
Qed.

Lemma keeps_when b m : Keeps m -> Keeps (when b m).
Proof. intros Hm. destruct b; [done|apply keeps_ret]. Qed.

Lemma keeps_for_each {I R} (l : list I) (body : I -> K (option R)) : (forall i, Keeps (body i)) -> Keeps (for_each l body).
Proof.
  intros Hb. induction l as [|i l IH]; cbn [for_each]; [apply keeps_ret|].
  apply keeps_bind; [done|]. intros [r|]; [apply keeps_ret|done].
Qed.

Lemma keeps_for_all {I} (l : list I) (body : I -> K unit) : (forall i, Keeps (body i)) -> Keeps (for_all l body).
Proof. intros Hb. induction l as [|i l IH]; cbn [for_all]; [apply keeps_ret|]. by apply keeps_bind. Qed.

Lemma keeps_for_while n i (cond : nat -> K bool) (body : nat -> K unit) :
  (forall i, Keeps (cond i)) -> (forall i, Keeps (body i)) -> Keeps (for_while n i cond body).
Proof.
  intros Hc Hb. revert i. induction n as [|n IH]; intros i; cbn [for_while]; [apply keeps_hang|].
  apply keeps_bind; [done|]. intros []; [|apply keeps_ret]. by apply keeps_bind.
Qed.

Lemma keeps_loop_fuel {A R} n (body : A -> K (A + R)) a : (forall a, Keeps (body a)) -> Keeps (loop_fuel n body a).
Proof.
  intros Hb. revert a. induction n as [|n IH]; intros a; cbn [loop_fuel]; [apply keeps_hang|].
  apply keeps_bind; [done|]. intros [a'|r]; [done|apply keeps_ret].
Qed.

Lemma keeps_loop_sched {A R} (body : A -> K (A + R)) a : (forall a, Keeps (body a)) -> Keeps (loop_sched body a).
Proof. intros Hb e k He. by apply keeps_loop_fuel. Qed.

(** What comes after a part that keeps [sig] sees [sig] as it was. *)
Lemma keeps_then {A B} s (m : K A) (f : A -> K B) e k (post : outcome kernel B -> Prop) :
  Keeps m -> quiet_schedule e -> sig k = s ->
  (forall a e1 k1, quiet_schedule e1 -> sig k1 = s -> post (f a e1 k1)) ->
  (forall msg k1, sig k1 = s -> post (Panic msg k1)) -> (forall k1, sig k1 = s -> post (Hang k1)) ->
  post (bind m f e k).
Proof.
  intros Hm He Hs Hf Hp Hh. specialize (Hm e k He). unfold bind.
  destruct (m e k) as [a e1 k1|msg k1|k1]; [destruct Hm as [Hm He1]|..]; rewrite Hs in Hm; auto.
Qed.

End keeps.


(** ** What a part of the state may leave out *)

(** A process but for what others change while it sleeps. *)
Definition awake (p : proc) : proc := set_p_killed 0 (set_p_chan None (set_p_state UNUSED p)).

Class Frame {T} (sig : kernel -> T) : Prop := {
  fr_locks v k : sig (set_k_locks v k) = sig k;
  fr_mem v k : sig (set_k_mem v k) = sig k;
  fr_freelist v k : sig (set_k_freelist v k) = sig k;
  fr_cons v k : sig (set_k_cons v k) = sig k;
  fr_disk v k : sig (set_k_disk v k) = sig k;
  fr_writes v k : sig (set_k_writes v k) = sig k;
  fr_ide v k : sig (set_k_ide v k) = sig k;
  fr_hw v k : sig (set_k_hw v k) = sig k;
  fr_log v k : sig (set_k_log v k) = sig k;
  fr_sb v k : sig (set_k_sb v k) = sig k;
  fr_pipes v k : sig (set_k_pipes v k) = sig k;
  fr_bcache v k : length v = length (k_bcache k) -> sig (set_k_bcache v k) = sig k;
  fr_icache v k : length v = length (k_icache k) -> sig (set_k_icache v k) = sig k;
  fr_ftable v k : length v = length (k_ftable k) -> sig (set_k_ftable v k) = sig k;
  fr_cpu c k : c_proc c = c_proc (k_cpu k) -> c_cr3 c = c_cr3 (k_cpu k) -> sig (set_k_cpu c k) = sig k;
  fr_proc i f k : (forall p, awake (f p) = awake p) -> sig (set_k_ptable (alter f i (k_ptable k)) k) = sig k
}.

Section assignments.
Context {T : Type} (sig : kernel -> T) `{!Frame sig}.

#[export] Instance kept_upd_buf i f : Keeps sig (upd_buf i f).
Proof. apply keeps_modify. intros k. apply fr_bcache, length_alter. Qed.
#[export] Instance kept_upd_inode i f : Keeps sig (upd_inode i f).
Proof. apply keeps_modify. intros k. apply fr_icache, length_alter. Qed.
#[export] Instance kept_upd_file i f : Keeps sig (upd_file i f).
Proof. apply keeps_modify. intros k. apply fr_ftable, length_alter. Qed.
#[export] Instance kept_upd_pipe p f : Keeps sig (upd_pipe p f).
Proof. apply keeps_modify. intros k. apply fr_pipes. Qed.
#[export] Instance kept_upd_log f : Keeps sig (upd_log f).
Proof. apply keeps_modify. intros k. apply fr_log. Qed.
#[export] Instance kept_upd_ide f : Keeps sig (upd_ide f).
Proof. apply keeps_modify. intros k. apply fr_ide. Qed.
#[export] Instance kept_upd_hw f : Keeps sig (upd_hw f).
Proof. apply keeps_modify. intros k. apply fr_hw. Qed.
#[export] Instance kept_upd_cons f : Keeps sig (upd_cons f).
Proof. apply keeps_modify. intros k. apply fr_cons. Qed.
Lemma kept_upd_cpu f :
  (forall c, c_proc (f c) = c_proc c) -> (forall c, c_cr3 (f c) = c_cr3 c) -> Keeps sig (upd_cpu f).
Proof. intros Hf Hg. apply keeps_modify. intros k. by apply fr_cpu. Qed.
Lemma kept_upd_proc i f : (forall p, awake (f p) = awake p) -> Keeps sig (upd_proc i f).
Proof. intros Hf. apply keeps_modify. intros k. by apply fr_proc. Qed.

End assignments.

(** Takes a computation apart until only calls of functions with an instance are left. *)
Ltac keeps_step :=
  first
    [ progress cbv beta zeta
    | match goal with
      | |- Keeps _ (bind _ _) => apply keeps_bind; [|intros]
      | |- Keeps _ (when _ _) => apply keeps_when
      | |- Keeps _ (for_each _ _) => apply keeps_for_each; intros
      | |- Keeps _ (for_all _ _) => apply keeps_for_all; intros
      | |- Keeps _ (for_lh _) => unfold for_lh
      | |- Keeps _ (for_while _ _ _ _) => apply keeps_for_while; intros
      | |- Keeps _ (loop_fuel _ _ _) => apply keeps_loop_fuel; intros
      | |- Keeps _ (loop_sched _ _) => apply keeps_loop_sched; intros
      | |- Keeps _ (modify _) =>
          apply keeps_modify; intros;
          rewrite ?fr_disk, ?fr_locks, ?fr_mem, ?fr_freelist, ?fr_writes, ?fr_sb, ?fr_pipes; reflexivity
      | |- Keeps _ (upd_cpu _) => apply (kept_upd_cpu _); intros; reflexivity
      | |- Keeps _ (upd_proc _ _) => apply (kept_upd_proc _); intros; reflexivity
      | |- Keeps _ (match (if ?b then _ else _) with _ => _ end) => destruct b
      | |- Keeps _ (match dev_read ?m with _ => _ end) => destruct (dev_read m) eqn:?
      | |- Keeps _ (match dev_write ?m with _ => _ end) => destruct (dev_write m) eqn:?
      | |- Keeps _ (match ?x with _ => _ end) => destruct x
      end ].
Ltac keeps := repeat first [keeps_step | solve [apply _] | solve [eauto]].

(** ** The functions *)

#[local] Hint Constants Opaque : typeclass_instances.

Section low.
Context {T : Type} (sig : kernel -> T) `{!Frame sig}.
Notation kept := (Keeps sig).

(** *** Reading *)

#[export] Instance kept_get_proc i : kept (get_proc i).
Proof. apply keeps_gets. Qed.
#[export] Instance kept_get_buf i : kept (get_buf i).
Proof. apply keeps_gets. Qed.
#[export] Instance kept_get_inode i : kept (get_inode i).
Proof. apply keeps_gets. Qed.
#[export] Instance kept_get_file i : kept (get_file i).
Proof. apply keeps_gets. Qed.
#[export] Instance kept_get_pipe p : kept (get_pipe p).
Proof. apply keeps_gets. Qed.
#[export] Instance kept_curproc : kept curproc.
Proof. unfold curproc. keeps. Qed.

(** *** spinlock.c *)

#[export] Instance kept_initlock l name : kept (initlock l name).
Proof. unfold initlock. keeps. Qed.
#[export] Instance kept_holding l : kept (holding l).
Proof. unfold holding. keeps. Qed.
#[export] Instance kept_readeflags_if : kept readeflags_if.
Proof. unfold readeflags_if. keeps. Qed.
#[export] Instance kept_cli : kept cli.
Proof. unfold cli. keeps. Qed.
#[export] Instance kept_sti : kept sti.
Proof. unfold sti. keeps. Qed.
#[export] Instance kept_pushcli : kept pushcli.
Proof. unfold pushcli. keeps. Qed.
#[export] Instance kept_popcli : kept popcli.
Proof. unfold popcli. keeps. Qed.
#[export] Instance kept_xchg_locked l v : kept (xchg_locked l v).
Proof. unfold xchg_locked. keeps. Qed.
#[export] Instance kept_set_lock_cpu l c : kept (set_lock_cpu l c).
Proof. unfold set_lock_cpu. keeps. Qed.
#[export] Instance kept_acquire l : kept (acquire l).
Proof. unfold acquire. keeps. Qed.
#[export] Instance kept_release l : kept (release l).
Proof. unfold release. keeps. Qed.

(** *** console.c, output *)

#[export] Instance kept_uartputc c : kept (uartputc c).
Proof. unfold uartputc. keeps. Qed.
#[export] Instance kept_cgaputc c : kept (cgaputc c).
Proof. unfold cgaputc. keeps. Qed.
#[export] Instance kept_consputc c : kept (consputc c).
Proof. unfold consputc. keeps. Qed.
#[export] Instance kept_printint xx base sign : kept (printint xx base sign).
Proof. unfold printint. keeps. Qed.
#[export] Instance kept_format fmt args : kept (format fmt args).
Proof.
  remember (length fmt) as n eqn:Hn. assert (length fmt <= n)%nat as Hle by lia. clear Hn. revert fmt args Hle.
  induction n as [|n IH]; intros [|c [|c2 fmt]] args Hle; cbn [length] in Hle; cbn [format]; try lia; keeps.
  all: apply IH; cbn [length] in *; lia.
Qed.
#[export] Instance kept_cprintf fmt args : kept (cprintf fmt args).
Proof. unfold cprintf. keeps. Qed.

(** *** kalloc.c *)

#[export] Instance kept_ld32 a : kept (ld32 a).
Proof. unfold ld32. keeps. Qed.
#[export] Instance kept_st32 a v : kept (st32 a v).
Proof. unfold st32. keeps. Qed.
#[export] Instance kept_mem_set a c n : kept (mem_set a c n).
Proof. unfold mem_set. keeps. Qed.
#[export] Instance kept_kfree v : kept (kfree v).
Proof. unfold kfree. keeps. Qed.
#[export] Instance kept_kalloc : kept kalloc.
Proof. unfold kalloc. keeps. Qed.

(** *** proc.c, sleeping *)

#[export] Instance kept_swtch : kept swtch.
Proof. unfold swtch. keeps. Qed.
#[export] Instance kept_sched : kept sched.
Proof. unfold sched. keeps. Qed.
#[export] Instance kept_yield : kept yield.
Proof. unfold yield. keeps. Qed.
#[export] Instance kept_sleep ch lk : kept (sleep ch lk).
Proof. unfold sleep. keeps. Qed.
#[export] Instance kept_wakeup1 ch : kept (wakeup1 ch).
Proof. unfold wakeup1. keeps. Qed.
#[export] Instance kept_wakeup ch : kept (wakeup ch).
Proof. unfold wakeup. keeps. Qed.
#[export] Instance kept_kill pid : kept (kill pid).
Proof. unfold kill. keeps. Qed.

(** *** ide.c and memide.c *)

#[export] Instance kept_status : kept Ide.status.
Proof. unfold Ide.status. keeps. Qed.
#[export] Instance kept_ide_outb port data : kept (Ide.ide_outb port data).
Proof. unfold Ide.ide_outb. keeps. Qed.
#[export] Instance kept_outsl data : kept (Ide.outsl data).
Proof. unfold Ide.outsl. keeps. Qed.
#[export] Instance kept_idewait checkerr : kept (Ide.idewait checkerr).
Proof. unfold Ide.idewait. keeps. Qed.
#[export] Instance kept_idestart b : kept (Ide.idestart b).
Proof. unfold Ide.idestart. keeps. Qed.
#[export] Instance kept_enqueue b : kept (Ide.enqueue b).
Proof. unfold Ide.enqueue. keeps. Qed.
#[export] Instance kept_ide_rw b : kept (Ide.ide_rw b).
Proof. unfold Ide.ide_rw. keeps. Qed.
#[export] Instance kept_memide_rw b : kept (Memide.memide_rw b).
Proof. unfold Memide.memide_rw. keeps. Qed.

End low.

(** What the disk driver and the devices promise. *)
Class FramedDriver `{DiskDriver} : Prop :=
  iderw_keeps : forall {T} (sig : kernel -> T), Frame sig -> forall b, Keeps sig (iderw b).
Class FramedDevices `{Devsw} : Prop := {
  dev_read_keeps T (sig : kernel -> T) major f ip n : Frame sig -> dev_read major = Some f -> Keeps sig (f ip n);
  dev_write_keeps T (sig : kernel -> T) major f ip buf n :
    Frame sig -> dev_write major = Some f -> Keeps sig (f ip buf n)
}.
#[export] Existing Instance iderw_keeps.

Section high.
Context {T : Type} (sig : kernel -> T) `{!Frame sig}.
Notation kept := (Keeps sig).

Section driver.
Context `{FramedDriver}.

(** *** bio.c and log.c *)

#[export] Instance kept_scan_next test : kept (scan_next test).
Proof. unfold scan_next. keeps. Qed.
#[export] Instance kept_scan_prev test : kept (scan_prev test).
Proof. unfold scan_prev. keeps. Qed.
#[export] Instance kept_bget dev blockno : kept (bget dev blockno).
Proof. unfold bget. keeps. Qed.
#[export] Instance kept_brelse b : kept (brelse b).
Proof. unfold brelse. keeps. Qed.
#[export] Instance kept_bread dev blockno : kept (bread dev blockno).
Proof. unfold bread. keeps. Qed.
#[export] Instance kept_bwrite b : kept (bwrite b).
Proof. unfold bwrite. keeps. Qed.
#[export] Instance kept_readsb dev : kept (readsb dev).
Proof. unfold readsb. keeps. Qed.
#[export] Instance kept_get_log : kept get_log.
Proof. unfold get_log. keeps. Qed.
#[export] Instance kept_get_block i : kept (get_block i).
Proof. unfold get_block. keeps. Qed.
#[export] Instance kept_put_block i b : kept (put_block i b).
Proof. unfold put_block. keeps. Qed.
#[export] Instance kept_install_trans : kept install_trans.
Proof. unfold install_trans. keeps. Qed.
#[export] Instance kept_write_head : kept write_head.
Proof. unfold write_head. keeps. Qed.
#[export] Instance kept_write_log : kept write_log.
Proof. unfold write_log. keeps. Qed.
#[export] Instance kept_commit : kept commit.
Proof. unfold commit. keeps. Qed.
#[export] Instance kept_begin_op : kept begin_op.
Proof. unfold begin_op. keeps. Qed.
#[export] Instance kept_end_op : kept end_op.
Proof. unfold end_op. keeps. Qed.
#[export] Instance kept_log_write b : kept (log_write b).
Proof. unfold log_write. keeps. Qed.

(** *** fs.c *)

#[export] Instance kept_bzero dev bno : kept (bzero dev bno).
Proof. unfold bzero. keeps. Qed.
#[export] Instance kept_balloc dev : kept (balloc dev).
Proof. unfold balloc. keeps. Qed.
#[export] Instance kept_bfree dev b : kept (bfree dev b).
Proof. unfold bfree. keeps. Qed.
#[export] Instance kept_iget dev inum : kept (iget dev inum).
Proof. unfold iget. keeps. Qed.
#[export] Instance kept_ialloc dev type : kept (ialloc dev type).
Proof. unfold ialloc. keeps. Qed.
#[export] Instance kept_iupdate i : kept (iupdate i).
Proof. unfold iupdate. keeps. Qed.
#[export] Instance kept_idup i : kept (idup i).
Proof. unfold idup. keeps. Qed.
#[export] Instance kept_ilock p : kept (ilock p).
Proof. unfold ilock. keeps. Qed.
#[export] Instance kept_iunlock p : kept (iunlock p).
Proof. unfold iunlock. keeps. Qed.
#[export] Instance kept_addr_of i n : kept (addr_of i n).
Proof. unfold addr_of. keeps. Qed.
#[export] Instance kept_set_addr i n a : kept (set_addr i n a).
Proof. unfold set_addr. keeps. Qed.
#[export] Instance kept_bmap i bn : kept (bmap i bn).
Proof. unfold bmap. keeps. Qed.
#[export] Instance kept_itrunc i : kept (itrunc i).
Proof. unfold itrunc. keeps. Qed.
#[export] Instance kept_iput i : kept (iput i).
Proof. unfold iput. keeps. Qed.
#[export] Instance kept_iunlockput i : kept (iunlockput i).
Proof. unfold iunlockput. keeps. Qed.
#[export] Instance kept_stati i : kept (stati i).
Proof. unfold stati. keeps. Qed.
(** *** console.c, the device *)

#[export] Instance kept_cur_killed : kept cur_killed.
Proof. unfold cur_killed. keeps. Qed.
#[export] Instance kept_wait_input ip : kept (wait_input ip).
Proof. unfold wait_input. keeps. Qed.
#[export] Instance kept_consoleread ip n : kept (consoleread ip n).
Proof. unfold consoleread. keeps. Qed.
#[export] Instance kept_consolewrite ip buf n : kept (consolewrite ip buf n).
Proof. unfold consolewrite. keeps. Qed.

Section devices.
Context `{FramedDevices}.
#[local] Hint Resolve dev_read_keeps dev_write_keeps : core.

(** *** fs.c, files and directories *)

#[export] Instance kept_readi i off n : kept (readi i off n).
Proof. unfold readi. keeps. Qed.
#[export] Instance kept_writei i src off n : kept (writei i src off n).
Proof. unfold writei. keeps. Qed.
#[export] Instance kept_dirlookup dp name : kept (dirlookup dp name).
Proof. unfold dirlookup. keeps. Qed.
#[export] Instance kept_dirlink dp name inum : kept (dirlink dp name inum).
Proof. unfold dirlink. keeps. Qed.
#[export] Instance kept_namex path par name : kept (namex path par name).
Proof. unfold namex. keeps. Qed.
#[export] Instance kept_namei path : kept (namei path).
Proof. unfold namei. keeps. Qed.
#[export] Instance kept_nameiparent path name : kept (nameiparent path name).
Proof. unfold nameiparent. keeps. Qed.

(** *** vm.c *)

#[export] Instance kept_walkpgdir pgdir va alloc : kept (walkpgdir pgdir va alloc).
Proof. unfold walkpgdir. keeps. Qed.
#[export] Instance kept_mappages pgdir va size pa perm : kept (mappages pgdir va size pa perm).
Proof. unfold mappages. keeps. Qed.
#[export] Instance kept_setupkvm : kept setupkvm.
Proof. unfold setupkvm. keeps. Qed.
#[export] Instance kept_set_gdt n d : kept (set_gdt n d).
Proof. unfold set_gdt. keeps. Qed.
#[export] Instance kept_put_bytes a l : kept (put_bytes a l).
Proof. unfold put_bytes. keeps. Qed.
#[export] Instance kept_mem_move dst src n : kept (mem_move dst src n).
Proof. unfold mem_move. keeps. Qed.
#[export] Instance kept_loaduvm pgdir addr ip offset sz : kept (loaduvm pgdir addr ip offset sz).
Proof. unfold loaduvm. keeps. Qed.
#[export] Instance kept_deallocuvm pgdir oldsz newsz : kept (deallocuvm pgdir oldsz newsz).
Proof. unfold deallocuvm. keeps. Qed.
#[export] Instance kept_allocuvm pgdir oldsz newsz : kept (allocuvm pgdir oldsz newsz).
Proof. unfold allocuvm. keeps. Qed.
#[export] Instance kept_freevm pgdir : kept (freevm pgdir).
Proof. unfold freevm. keeps. Qed.
#[export] Instance kept_clearpteu pgdir uva : kept (clearpteu pgdir uva).
Proof. unfold clearpteu. keeps. Qed.
#[export] Instance kept_copyuvm pgdir sz : kept (copyuvm pgdir sz).
Proof. unfold copyuvm. keeps. Qed.
#[export] Instance kept_uva2ka pgdir uva : kept (uva2ka pgdir uva).
Proof. unfold uva2ka. keeps. Qed.
#[export] Instance kept_copyout pgdir va p len : kept (copyout pgdir va p len).
Proof. unfold copyout. keeps. Qed.

(** *** pipe.c and file.c *)

#[export] Instance kept_pipeclose p writable : kept (pipeclose p writable).
Proof. unfold pipeclose. keeps. Qed.
#[export] Instance kept_put_char p c : kept (put_char p c).
Proof. unfold put_char. keeps. Qed.
#[export] Instance kept_pipewrite_char p c : kept (pipewrite_char p c).
Proof. unfold pipewrite_char. keeps. Qed.
#[export] Instance kept_pipewrite p addr n : kept (pipewrite p addr n).
Proof. unfold pipewrite. keeps. Qed.
#[export] Instance kept_piperead_copy p n : kept (piperead_copy p n).
Proof. induction n as [|n IH]; intros; cbn [piperead_copy]; keeps. Qed.
#[export] Instance kept_piperead p n : kept (piperead p n).
Proof. unfold piperead. keeps. Qed.
#[export] Instance kept_filealloc : kept filealloc.
Proof. unfold filealloc. keeps. Qed.
#[export] Instance kept_filedup f : kept (filedup f).
Proof. unfold filedup. keeps. Qed.
#[export] Instance kept_fileclose f : kept (fileclose f).
Proof. unfold fileclose. keeps. Qed.
#[export] Instance kept_filestat f : kept (filestat f).
Proof. unfold filestat. keeps. Qed.
#[export] Instance kept_fileread f n : kept (fileread f n).
Proof. unfold fileread. keeps. Qed.
#[export] Instance kept_filewrite f addr n : kept (filewrite f addr n).
Proof. unfold filewrite. keeps. Qed.
#[export] Instance kept_pipealloc : kept pipealloc.
Proof. unfold pipealloc. keeps. Qed.
(** *** syscall.c *)

#[export] Instance kept_translate write va : kept (translate write va).
Proof. unfold translate. keeps. Qed.
#[export] Instance kept_load_byte va : kept (load_byte va).
Proof. unfold load_byte. keeps. Qed.
#[export] Instance kept_load_user va n : kept (load_user va n).
Proof. revert va. induction n as [|n IH]; intros; cbn [load_user]; keeps. Qed.
#[export] Instance kept_store_user va l : kept (store_user va l).
Proof. revert va. induction l as [|? l IH]; intros; cbn [store_user]; keeps. Qed.
#[export] Instance kept_cur_sz : kept cur_sz.
Proof. unfold cur_sz. keeps. Qed.
#[export] Instance kept_fetchint addr : kept (fetchint addr).
Proof. unfold fetchint. keeps. Qed.
#[export] Instance kept_scan_str n s : kept (scan_str n s).
Proof. revert s. induction n as [|n IH]; intros; cbn [scan_str]; keeps. Qed.
#[export] Instance kept_fetchstr addr : kept (fetchstr addr).
Proof. unfold fetchstr. keeps. Qed.
#[export] Instance kept_arg_addr n : kept (arg_addr n).
Proof. unfold arg_addr. keeps. Qed.
#[export] Instance kept_argint n : kept (argint n).
Proof. unfold argint. keeps. Qed.
#[export] Instance kept_argptr n size : kept (argptr n size).
Proof. unfold argptr. keeps. Qed.
#[export] Instance kept_argstr n : kept (argstr n).
Proof. unfold argstr. keeps. Qed.
(** *** exec.c *)

#[export] Instance kept_bad pgdir ip : kept (bad pgdir ip).
Proof. unfold bad. keeps. Qed.
#[export] Instance kept_load_segments n ip pgdir off sz : kept (load_segments n ip pgdir off sz).
Proof. revert off sz. induction n as [|n IH]; intros; cbn [load_segments]; keeps. Qed.
#[export] Instance kept_push_args argv argc pgdir sp ustack : kept (push_args argv argc pgdir sp ustack).
Proof. revert argc sp ustack. induction argv as [|? argv IH]; intros; cbn [push_args]; keeps. Qed.

End devices.
End driver.
End high.

(** ** memide.c and the console *)

#[export] Instance memide_framed : @FramedDriver Memide.memide_driver := fun T sig _ b => kept_memide_rw sig b.

#[export] Instance console_framed `{FramedDriver} : FramedDevices.
Proof.
  split.
  - intros T sig major f ip n Hf. cbn. destruct (major =? CONSOLE); [|done]. intros [= <-]. apply _.
  - intros T sig major f ip buf n Hf. cbn. destruct (major =? CONSOLE); [|done]. intros [= <-]. apply _.
Qed.

End Keeps.
