(* ===== verification/Stable.v ===== *)
(** What every system call leaves alone.  A system call keeps the shape of the kernel: who
    runs, the sizes of the tables, the link map, and the numbers of system calls that
    the processes have made, apart from the caller's own, which each system
    call but [sys_dup] raises by one (syscall.c, sysproc.c and sysfile.c, over
    the whole kernel). *)

From S2P Require Import Prelude Bytes Machine Demo Cstring Spinlock Consout Kalloc Sleep Disk Ide.
From S2P Require Import Bio Log Fs Vm Pipe File Proc Console Syscall Sysproc Exec Sysfile Trap Keeps.
Import Cstring Spinlock Consout Kalloc Sleep Bio Log Fs Vm Pipe File Proc Console Syscall Sysproc Exec Sysfile Trap Keeps.

Module Stable.

(** ** The shape of the kernel *)

Record shape : Type := mkShape {
  sh_link : linkmap;
  sh_proc : option nat;
  sh_initproc : option nat;
  sh_kpgdir : Z;
  sh_idt : list gatedesc;
  sh_sizes : nat * nat * nat * nat;
  sh_counts : list Z
}.

(** With the counts of the processes [js]. *)
Definition shape_of (js : list nat) (k : kernel) : shape :=
  mkShape (k_link k) (c_proc (k_cpu k)) (k_initproc k) (k_kpgdir k) (k_idt k)
    (length (k_ptable k), length (k_bcache k), length (k_icache k), length (k_ftable k))
    ((fun j => p_scount (proc_at k j)) <$> js).

Section shape.
Context (js : list nat).
Notation stable := (Keeps (shape_of js)).

(** *** Assignments to the tables *)

Lemma shape_alter i f k :
  (forall p, p_scount (f p) = p_scount p) -> shape_of js (set_k_ptable (alter f i (k_ptable k)) k) = shape_of js k.
Proof.
  intros Hf. unfold shape_of. cbn. rewrite length_alter. f_equal.
  apply list_fmap_ext. intros _ j _. unfold proc_at. cbn. destruct (decide (i = j)) as [->|Hne].
  - rewrite list_lookup_alter_eq. destruct (k_ptable k !! j); [apply Hf|done].
  - by rewrite list_lookup_alter_ne.
Qed.

Lemma stable_upd_proc i f : (forall p, p_scount (f p) = p_scount p) -> stable (upd_proc i f).
Proof. intros Hf. apply keeps_modify. intros k. by apply shape_alter. Qed.

#[export] Instance shape_frame : Frame (shape_of js).
Proof.
  split; try reflexivity; try (intros v k Hv; intros; unfold shape_of; cbn; rewrite Hv; reflexivity).
  intros i f k Hf. apply (shape_alter i f k). intros p. exact (f_equal p_scount (Hf p)).
Qed.

(** *** The count of system calls *)

(** The caller has made one more system call. *)
Definition one_more (me : nat) (k : kernel) : kernel :=
  set_k_ptable (alter (fun p => set_p_scount (s32 (p_scount p + 1)) p) me (k_ptable k)) k.

Lemma add_scount_eq me e k : c_proc (k_cpu k) = Some me -> add_scount e k = Ok tt e (one_more me k).
Proof.
  intros Hme. unfold add_scount. rewrite (curproc_eq me) by done. rewrite get_proc_eq. unfold upd_proc, modify, one_more.
  do 2 f_equal. apply (alter_default proc0 (fun q => set_p_scount (s32 (p_scount q + 1)))).
Qed.

Lemma one_more_count me k j :
  p_scount (proc_at (one_more me k) j) =
    if (j =? me)%nat && (me <? length (k_ptable k))%nat then s32 (p_scount (proc_at k j) + 1) else p_scount (proc_at k j).
Proof.
  unfold proc_at, one_more. cbn [k_ptable set_k_ptable]. destruct (Nat.eqb_spec j me) as [->|Hne]; cbn [andb].
  - rewrite list_lookup_alter_eq. destruct (k_ptable k !! me) as [p|] eqn:E.
    + by rewrite (proj2 (Nat.ltb_lt _ _) (lookup_lt_Some _ _ _ E)).
    + by rewrite (proj2 (Nat.ltb_ge _ _) (proj1 (lookup_ge_None _ _) E)).
  - by rewrite list_lookup_alter_ne.
Qed.

Lemma shape_eq k k' :
  shape_of js k' = shape_of js k <->
  k_link k' = k_link k /\ c_proc (k_cpu k') = c_proc (k_cpu k) /\ k_initproc k' = k_initproc k /\
  k_kpgdir k' = k_kpgdir k /\ k_idt k' = k_idt k /\ length (k_ptable k') = length (k_ptable k) /\
  length (k_bcache k') = length (k_bcache k) /\ length (k_icache k') = length (k_icache k) /\
  length (k_ftable k') = length (k_ftable k) /\
  forall j, j ∈ js -> p_scount (proc_at k' j) = p_scount (proc_at k j).
Proof.
  unfold shape_of. split.
  - intros [= H1 H2 H3 H4 H5 H6 H7 H8 H9 Hj]. split_and!; try done. intros j. by apply (fmap_eq_inv _ _ _ _ Hj).
  - intros (-> & -> & -> & -> & -> & -> & -> & -> & -> & Hj). f_equal. apply list_fmap_ext. intros i j Hi.
    apply Hj. by eapply list_elem_of_lookup_2.
Qed.

Lemma one_more_shape me k k' : shape_of js k' = shape_of js k -> shape_of js (one_more me k') = shape_of js (one_more me k).
Proof.
  rewrite !shape_eq. intros (H1 & H2 & H3 & H4 & H5 & H6 & H7 & H8 & H9 & Hj). cbn. rewrite !length_alter.
  split_and!; try done. intros j Hin. by rewrite !one_more_count, H6, Hj.
Qed.

(** *** The functions of the kernel *)

#[local] Hint Constants Opaque : typeclass_instances.

Ltac stable_step :=
  match goal with
  | |- Keeps _ (upd_proc _ _) => apply stable_upd_proc; intros; reflexivity
  | |- Keeps _ (upd_cpu _) => apply keeps_modify; intros; reflexivity
  end.
Ltac stable := repeat first [stable_step | keeps_step | solve [apply _]].

Context `{FramedDriver} `{FramedDevices}.

(** *** vm.c *)

#[local] Instance stable_lcr3 v : stable (lcr3 v).
Proof. unfold lcr3. stable. Qed.
#[local] Instance stable_switchuvm p : stable (switchuvm p).
Proof. unfold switchuvm. stable. Qed.

(** *** proc.c *)

#[local] Instance stable_allocproc : stable allocproc.
Proof. unfold allocproc. stable. Qed.
#[local] Instance stable_growproc n : stable (growproc n).
Proof. unfold growproc. stable. Qed.
#[local] Instance stable_fork : stable fork.
Proof. unfold fork. stable. Qed.
#[local] Instance stable_wakeup1_proc p : stable (wakeup1_proc p).
Proof. unfold wakeup1_proc. stable. Qed.
#[local] Instance stable_exit : stable exit.
Proof. unfold exit. stable. Qed.
#[local] Instance stable_wait_scan l me havekids : stable (wait_scan l me havekids).
Proof. revert havekids. induction l as [|? l IH]; intros; cbn [wait_scan]; stable. Qed.
#[local] Instance stable_wait : stable wait.
Proof. unfold wait. stable. Qed.

(** *** exec.c *)

#[local] Instance stable_exec_stack path argv elf pgdir sz : stable (exec_stack path argv elf pgdir sz).
Proof. unfold exec_stack, exec_commit. stable. Qed.
#[local] Instance stable_exec path argv : stable (exec path argv).
Proof. unfold exec. stable. Qed.

(** *** sysfile.c *)

#[local] Instance stable_argfd n : stable (argfd n).
Proof. unfold argfd. stable. Qed.
#[local] Instance stable_set_ofile fd f : stable (set_ofile fd f).
Proof. unfold set_ofile. stable. Qed.
#[local] Instance stable_fdalloc f : stable (fdalloc f).
Proof. unfold fdalloc. stable. Qed.
#[local] Instance stable_sys_dup : stable sys_dup.
Proof. unfold sys_dup. stable. Qed.
#[local] Instance stable_rw_args : stable rw_args.
Proof. unfold rw_args. stable. Qed.
#[local] Instance stable_store_stat a st : stable (store_stat a st).
Proof. unfold store_stat. stable. Qed.
#[local] Instance stable_add_nlink ip d : stable (add_nlink ip d).
Proof. unfold add_nlink. stable. Qed.
#[local] Instance stable_isdirempty dp : stable (isdirempty dp).
Proof. unfold isdirempty. stable. Qed.
#[local] Instance stable_create path type major minor : stable (create path type major minor).
Proof. unfold create. stable. Qed.
#[local] Instance stable_open_inode path omode : stable (open_inode path omode).
Proof. unfold open_inode. stable. Qed.
#[local] Instance stable_finish_create r : stable (finish_create r).
Proof. unfold finish_create. stable. Qed.
#[local] Instance stable_fetch_argv n uargv i : stable (fetch_argv n uargv i).
Proof. revert i. induction n as [|n IH]; intros; cbn [fetch_argv]; stable. Qed.

(** *** The system calls *)

(** A system call that counts itself first. *)
Lemma counted {A} (m : K A) me e k :
  stable m -> c_proc (k_cpu k) = Some me -> quiet_schedule (shape_of js) e ->
  shape_of js (Demo.final (bind add_scount (fun _ => m) e k)) = shape_of js (one_more me k).
Proof.
  intros Hm Hme He. rewrite (bind_Ok _ _ _ _ _ _ _ (add_scount_eq me e k Hme)).
  specialize (Hm e (one_more me k) He). by destruct (m e (one_more me k)) as [a e' k'| |]; [destruct Hm|..].
Qed.

Lemma fork_counted me r e e' k k' :
  c_proc (k_cpu k) = Some me -> quiet_schedule (shape_of js) e -> sys_fork e k = Ok r e' k' -> r <> 0 ->
  shape_of js k' = shape_of js (one_more me k).
Proof.
  intros Hme He Hr Hr0. unfold sys_fork, bind at 1 in Hr. pose proof (stable_fork e k He) as Hf.
  destruct (fork e k) as [pid e1 k1| |]; [|done|done]. destruct Hf as [Hf He1].
  assert (c_proc (k_cpu k1) = Some me) as Hme1 by (by injection Hf; congruence).
  rewrite (curproc_eq me) in Hr by done. destruct (pid =? 0) eqn:E0.
  - apply Z.eqb_eq in E0 as ->. rewrite bind_bind_eq in Hr. unfold upd_proc in Hr. rewrite !modify_eq in Hr. unfold ret in Hr. congruence.
  - rewrite (bind_Ok _ _ _ _ _ _ _ (add_scount_eq me e1 k1 Hme1)) in Hr. injection Hr as <- <- <-.
    by apply one_more_shape.
Qed.

(** The number of the system call that does not count itself. *)
Definition SYS_dup : Z := 10.
Definition SYS_fork : Z := 1.

Lemma syscall_shape num call me e k :
  syscalls num = Some call -> c_proc (k_cpu k) = Some me -> quiet_schedule (shape_of js) e ->
  (num = SYS_fork -> exists r e' k', call e k = Ok r e' k' /\ r <> 0) ->
  shape_of js (Demo.final (call e k)) = shape_of js (if num =? SYS_dup then k else one_more me k).
Proof.
  intros Hcall Hme He Hfork.
  destruct (decide (num = SYS_fork)) as [->|Hnf].
  { injection Hcall as <-. destruct (Hfork eq_refl) as (r & e' & k' & E & Hr). rewrite E. by eapply fork_counted. }
  destruct (decide (num = SYS_dup)) as [->|Hnd].
  { injection Hcall as <-. pose proof (stable_sys_dup e k He) as Hd. by destruct (sys_dup e k); [destruct Hd|..]. }
  rewrite (proj2 (Z.eqb_neq _ _) Hnd). unfold syscalls, SYS_fork, SYS_dup in *.
  repeat match type of Hcall with
  | (match ?n with _ => _ end) = _ => destruct n; try done
  end; try lia; injection Hcall as <-; apply counted; try done; stable.
Qed.

End shape.

(** ** The theorems *)

Section calls.
Context `{FramedDriver} `{FramedDevices}.

(** C14: Every system call but [sys_dup] adds one to the caller's count of system calls, whatever
    its arguments and whether it succeeds, panics or waits for ever; it changes
    no other count and no table's size, moves no one to the processor, and
    leaves the link map, [initproc], the kernel's page directory and the
    interrupt table alone.  [js] are the processes that the rest of the machine
    does not let make system calls in the meantime.  ([sys_fork] counts when it
    returns, and when the new process has a number other than zero.) *)
Theorem syscall_counts js num call me e k :
  syscalls num = Some call -> c_proc (k_cpu k) = Some me -> (me < length (k_ptable k))%nat ->
  quiet_schedule (shape_of js) e -> (num = SYS_fork -> exists r e' k', call e k = Ok r e' k' /\ r <> 0) ->
  let k' := Demo.final (call e k) in
  c_proc (k_cpu k') = Some me /\ k_link k' = k_link k /\ k_initproc k' = k_initproc k /\
  k_kpgdir k' = k_kpgdir k /\ k_idt k' = k_idt k /\ length (k_ptable k') = length (k_ptable k) /\
  length (k_bcache k') = length (k_bcache k) /\ length (k_icache k') = length (k_icache k) /\
  length (k_ftable k') = length (k_ftable k) /\
  forall j, j ∈ js -> p_scount (proc_at k' j) =
    if (j =? me)%nat && negb (num =? SYS_dup) then s32 (p_scount (proc_at k j) + 1) else p_scount (proc_at k j).
Proof.
  intros Hcall Hme Hlt He Hfork k'. pose proof (syscall_shape js num call me e k Hcall Hme He Hfork) as Hs.
  apply Nat.ltb_lt in Hlt. fold k' in Hs. destruct (num =? SYS_dup).
  - apply shape_eq in Hs as (-> & -> & -> & -> & -> & -> & -> & -> & -> & Hj). split_and!; try done.
    intros j Hin. rewrite andb_false_r. by apply Hj.
  - apply shape_eq in Hs as (-> & -> & -> & -> & -> & -> & -> & -> & -> & Hj). cbn. rewrite length_alter. split_and!; try done.
    intros j Hin. by rewrite andb_true_r, Hj, one_more_count, Hlt, andb_true_r.
Qed.

(** A time in the life of process [me]: it makes the system calls [nums], one after the
    other, and other processes run between them. *)
Inductive history (me : nat) : kernel -> list Z -> kernel -> Prop :=
| history_start k : history me k [] k
| history_call k nums k1 num call e r e' k2 :
    history me k nums k1 -> syscalls num = Some call -> quiet_schedule (shape_of [me]) e ->
    call e k1 = Ok r e' k2 -> (num = SYS_fork -> r <> 0) -> history me k (nums ++ [num]) k2
| history_others k nums k1 f :
    history me k nums k1 -> shape_of [me] (f k1) = shape_of [me] k1 -> history me k nums (f k1).

(** The calls that are counted. *)
Definition counting (nums : list Z) : Z := Z.of_nat (length (filter (fun num => num <> SYS_dup) nums)).

Lemma history_count me k nums k' :
  history me k nums k' -> c_proc (k_cpu k) = Some me -> (me < length (k_ptable k))%nat ->
  c_proc (k_cpu k') = Some me /\ (me < length (k_ptable k'))%nat /\
  forall z, s32 (p_scount (proc_at k' me) + z) = s32 (p_scount (proc_at k me) + counting nums + z).
Proof.
  intros Hh Hme Hlt. induction Hh as [k|k nums k1 num call e r e' k2 Hh IH Hcall He E Hr|k nums k1 f Hh IH Hf].
  - split; [done|]. split; [done|]. intros z. change (counting []) with 0. by rewrite Z.add_0_r.
  - destruct (IH Hme Hlt) as (Hme1 & Hlt1 & Hc). clear IH.
    pose proof (syscall_shape [me] num call me e k1 Hcall Hme1 He) as Hs. rewrite E in Hs. cbn [Demo.final] in Hs.
    assert (counting (nums ++ [num]) = counting nums + if num =? SYS_dup then 0 else 1) as ->.
    { unfold counting. rewrite filter_app, length_app. destruct (Z.eqb_spec num SYS_dup) as [->|Hne].
      - rewrite filter_cons_False by tauto. cbn. lia.
      - rewrite filter_cons_True by done. cbn. lia. }
    specialize (Hs (fun E1 => ex_intro _ r (ex_intro _ e' (ex_intro _ k2 (conj eq_refl (Hr E1)))))). apply shape_eq in Hs as (_ & Hp & _ & _ & _ & Hl & _ & _ & _ & Hj).
    rewrite Hp, Hl, Hj by left. destruct (num =? SYS_dup).
    + split; [done|]. split; [done|]. intros z. by rewrite Hc, Z.add_0_r.
    + cbn [k_cpu k_ptable one_more set_k_ptable]. rewrite length_alter, one_more_count, Nat.eqb_refl.
      rewrite (proj2 (Nat.ltb_lt _ _) Hlt1). split; [done|]. split; [done|]. intros z. cbn [andb].
      rewrite s32_add_s32, <- Z.add_assoc, Hc. f_equal. lia.
  - destruct (IH Hme Hlt) as (Hme1 & Hlt1 & Hc). apply shape_eq in Hf as (_ & Hp & _ & _ & _ & Hl & _ & _ & _ & Hj).
    rewrite Hp, Hl, Hj by left. done.
Qed.

(** C15: The system call [count] returns the number of system calls that the process has made,
    this one included and those to [dup] left out, on top of what its slot of
    the process table held when it began: the counter is an [int], which starts
    again at its smallest value after its largest. *)
Theorem count_counts me k nums k' e :
  history me k nums k' -> c_proc (k_cpu k) = Some me -> (me < length (k_ptable k))%nat ->
  exists k'', sys_count e k' = Ok (s32 (p_scount (proc_at k me) + counting nums + 1)) e k''.
Proof.
  intros Hh Hme Hlt. destruct (history_count me k nums k' Hh Hme Hlt) as (Hme' & Hlt' & Hc).
  exists (one_more me k'). unfold sys_count. rewrite (bind_Ok _ _ _ _ _ _ _ (add_scount_eq me e k' Hme')).
  rewrite (curproc_eq me), get_proc_eq by done. unfold ret. f_equal.
  by rewrite one_more_count, Nat.eqb_refl, (proj2 (Nat.ltb_lt _ _) Hlt'), Hc.
Qed.

End calls.

(** ** Examples: process 0 of [two_procs] *)

#[local] Existing Instance Memide.memide_driver.

Lemma syscall_counts_witness :
  let k' := Demo.final (sys_getpid [] two_procs) in
  c_proc (k_cpu k') = Some 0%nat /\ k_link k' = k_link two_procs /\ k_initproc k' = k_initproc two_procs /\
  k_kpgdir k' = k_kpgdir two_procs /\ k_idt k' = k_idt two_procs /\ length (k_ptable k') = length (k_ptable two_procs) /\
  length (k_bcache k') = length (k_bcache two_procs) /\ length (k_icache k') = length (k_icache two_procs) /\
  length (k_ftable k') = length (k_ftable two_procs) /\
  forall j, j ∈ [0%nat; 1%nat] -> p_scount (proc_at k' j) =
    if (j =? 0)%nat && negb (11 =? SYS_dup) then s32 (p_scount (proc_at two_procs j) + 1)
    else p_scount (proc_at two_procs j).
Proof.
  apply (syscall_counts [0%nat; 1%nat] 11 sys_getpid 0 [] two_procs).
  - reflexivity.
  - reflexivity.
  - cbn. lia.
  - constructor.
  - done.
Defined.

(** [getpid], a tick of the clock, and [uptime]. *)
Definition after_getpid : kernel := Demo.final (sys_getpid [] two_procs).
Definition after_uptime : kernel := Demo.final (sys_uptime [] (set_k_ticks 1 after_getpid)).

Lemma two_calls : history 0 two_procs [11; 14] after_uptime.
Proof.
  apply (history_call 0 two_procs [11] (set_k_ticks 1 after_getpid) 14 sys_uptime [] 1 []).
  - apply (history_others 0 two_procs [11] after_getpid (set_k_ticks 1)); [|vm_compute; reflexivity].
    apply (history_call 0 two_procs [] two_procs 11 sys_getpid [] 1 []); [constructor|reflexivity|constructor| |done].
    vm_compute. reflexivity.
  - reflexivity.
  - constructor.
  - vm_compute. reflexivity.
  - done.
Qed.

Lemma count_counts_witness : exists k'', sys_count [] after_uptime = Ok 3 [] k''.
Proof. apply (count_counts 0 two_procs [11; 14] after_uptime []); [apply two_calls|reflexivity|cbn; lia]. Defined.

End Stable.
