(* ===== verification/Locks.v ===== *)
(** Locks over the whole kernel: a trap that returns has given back every lock that it took, and has
    undone every [pushcli] (spinlock.c, over all of the kernel's files). *)

From S2P Require Import Prelude Bytes Machine Demo Cstring Spinlock Consout Kbd Kalloc Hw Sleep Disk Ide.
From S2P Require Import Bio Log Fs Vm Pipe File Proc Console Syscall Sysproc Exec Sysfile Trap.
Import Cstring Spinlock Consout Kbd Kalloc Hw Sleep Bio Log Fs Vm Pipe File Proc Console Syscall Sysproc Exec Sysfile Trap.

Module Locks.

(** ** The locks that the processor holds *)

(** [holding(l)] *)
Definition held (k : kernel) (l : lockid) : bool :=
  nz (lk_locked (lock_at k l)) && bool_decide (lk_cpu (lock_at k l) = Some (c_id (k_cpu k))).

(** What is known of a state: the locks held, the calls of [pushcli] apart from theirs, and
    whether the page allocator has a lock. *)
Record hold : Type := mkHold { h_use : bool; h_ncli : Z; h_locks : list lockid }.

Record holds (s : hold) (k : kernel) : Prop := {
  ho_use : k_use_lock k = h_use s;
  ho_ncli : c_ncli (k_cpu k) = h_ncli s + Z.of_nat (length (h_locks s));
  ho_held l : held k l = true <-> l ∈ h_locks s;
  ho_nodup : NoDup (h_locks s)
}.

(** While the processor is given away, or spins, the others leave alone what it holds. *)
Definition calm (e : schedule kernel) : Prop :=
  Forall (fun f => forall k, k_use_lock (f k) = k_use_lock k /\ c_ncli (k_cpu (f k)) = c_ncli (k_cpu k) /\
    forall l, held (f k) l = held k l) e.

(** [m], called with [s], returns [a] with [Q a]. *)
Definition locks {A} (s : hold) (m : K A) (Q : A -> hold) : Prop :=
  forall e k, calm e -> holds s k ->
    match m e k with
    | Ok a e' k' => calm e' /\ holds (Q a) k'
    | Panic _ _ | Hang _ => True
    end.

(** Lock [l] is added. *)
Definition plus (l : lockid) (s : hold) : hold := mkHold (h_use s) (h_ncli s) (l :: h_locks s).

Lemma locks_eq {A} s (m : K A) Q R : locks s m Q -> (forall a, Q a = R a) -> locks s m R.
Proof. intros Hm HQ e k He Hk. specialize (Hm e k He Hk). destruct (m e k); [|done|done]. by rewrite <- HQ. Qed.

Lemma locks_ret {A} s (a : A) (Q : A -> hold) : Q a = s -> locks s (ret a) Q.
Proof. intros Ha e k He Hk. cbn. by rewrite Ha. Qed.
Lemma locks_gets {A} s (f : kernel -> A) : locks s (gets f) (fun _ => s).
Proof. by intros e k He Hk. Qed.
Lemma locks_panic {A} s msg (Q : A -> hold) : locks s (panic msg) Q.
Proof. by intros e k He Hk. Qed.
Lemma locks_undefined {A} s (Q : A -> hold) : locks s undefined Q.
Proof. apply locks_panic. Qed.
Lemma locks_hang {A} s (Q : A -> hold) : locks s hang Q.
Proof. by intros e k He Hk. Qed.
Lemma locks_modify s f : (forall k, holds s k -> holds s (f k)) -> locks s (modify f) (fun _ => s).
Proof. intros Hf e k He Hk. split; [done|by apply Hf]. Qed.
Lemma locks_interfere s : locks s interfere (fun _ => s).
Proof.
  intros [|f e] k He Hk; [done|]. apply Forall_cons in He as [Hf He]. destruct (Hf k) as (Hu & Hn & Hh). cbn. split; [done|].
  destruct Hk. split; [by rewrite Hu|by rewrite Hn|intros l; by rewrite Hh|done].
Qed.

Lemma locks_bind {A B} s (m : K A) (g : A -> K B) Q R : locks s m Q -> (forall a, locks (Q a) (g a) R) -> locks s (bind m g) R.
Proof.
  intros Hm Hg e k He Hk. unfold bind. specialize (Hm e k He Hk). destruct (m e k) as [a e' k'| |]; [|done|done].
  destruct Hm as [He' Hk']. by apply Hg.
Qed.
Lemma locks_bind_ret {A B} s (a : A) (g : A -> K B) R : locks s (g a) R -> locks s (bind (ret a) g) R.
Proof. done. Qed.
(** Whether the allocator has a lock does not change. *)
Lemma locks_bind_use {B} s (g : bool -> K B) R : locks s (g (h_use s)) R -> locks s (bind (gets k_use_lock) g) R.
Proof. intros Hg e k He Hk. rewrite gets_eq, (ho_use _ _ Hk). by apply Hg. Qed.

Lemma locks_when s b m : locks s m (fun _ => s) -> locks s (when b m) (fun _ => s).
Proof. intros Hm. destruct b; [done|by apply locks_ret]. Qed.

Lemma locks_for_each {I R} s s' (l : list I) (body : I -> K (option R)) :
  (forall i, locks s (body i) (fun r => if r is Some _ then s' else s)) ->
  locks s (for_each l body) (fun r => if r is Some _ then s' else s).
Proof.
  intros Hb. induction l as [|i l IH]; cbn [for_each]; [by apply locks_ret|].
  eapply locks_bind; [apply Hb|]. intros [r|]; [by apply locks_ret|done].
Qed.

Lemma locks_for_all {I} s (l : list I) (body : I -> K unit) :
  (forall i, locks s (body i) (fun _ => s)) -> locks s (for_all l body) (fun _ => s).
Proof.
  intros Hb. induction l as [|i l IH]; cbn [for_all]; [by apply locks_ret|]. eapply locks_bind; [apply Hb|]. intros ?. apply IH.
Qed.

Lemma locks_for_while s n i (cond : nat -> K bool) (body : nat -> K unit) :
  (forall i, locks s (cond i) (fun _ => s)) -> (forall i, locks s (body i) (fun _ => s)) ->
  locks s (for_while n i cond body) (fun _ => s).
Proof.
  intros Hc Hb. revert i. induction n as [|n IH]; intros i; cbn [for_while]; [apply locks_hang|].
  eapply locks_bind; [apply Hc|]. intros []; [|by apply locks_ret]. eapply locks_bind; [apply Hb|]. intros ?. apply IH.
Qed.

(** A loop that goes on with [s] and ends with [Q]. *)
Lemma locks_loop_fuel {A R} s (Q : R -> hold) n (body : A -> K (A + R)) a :
  (forall a, locks s (body a) (fun r => match r with inl _ => s | inr r => Q r end)) -> locks s (loop_fuel n body a) Q.
Proof.
  intros Hb. revert a. induction n as [|n IH]; intros a; cbn [loop_fuel]; [apply locks_hang|].
  eapply locks_bind; [apply Hb|]. intros [a'|r]; [apply IH|by apply locks_ret].
Qed.
Lemma locks_loop_sched {A R} s (Q : R -> hold) (body : A -> K (A + R)) a :
  (forall a, locks s (body a) (fun r => match r with inl _ => s | inr r => Q r end)) -> locks s (loop_sched body a) Q.
Proof. intros Hb e k He Hk. exact (locks_loop_fuel s Q _ body a Hb e k He Hk). Qed.

(** ** spinlock.c *)

Lemma holds_perm u c H H' k : H ≡ₚ H' -> holds (mkHold u c H) k -> holds (mkHold u c H') k.
Proof.
  intros Hp [Hu Hn Hh Hd]. split; cbn in *; [done|by rewrite <- Hp|intros l; by rewrite <- Hp|by rewrite <- Hp].
Qed.

Lemma locks_perm_both {A} u c H H' (m : K A) :
  H ≡ₚ H' -> locks (mkHold u c H') m (fun _ => mkHold u c H') -> locks (mkHold u c H) m (fun _ => mkHold u c H).
Proof.
  intros Hp Hm e k He Hk. specialize (Hm e k He (holds_perm u c H H' k Hp Hk)). destruct (m e k); [|done|done].
  destruct Hm as [He' Hk']. split; [done|]. by eapply holds_perm.
Qed.

(** A lock's fields after an assignment to one of them. *)
Lemma lock_at_set l x k l' :
  lock_at (set_k_locks (<[l := x]> (k_locks k)) k) l' = if decide (l' = l) then x else lock_at k l'.
Proof.
  unfold lock_at. cbn. destruct (decide (l' = l)) as [->|Hne]; [by rewrite lookup_insert_eq|by rewrite lookup_insert_ne].
Qed.

Lemma held_set l x k l' :
  held (set_k_locks (<[l := x]> (k_locks k)) k) l' =
    if decide (l' = l) then nz (lk_locked x) && bool_decide (lk_cpu x = Some (c_id (k_cpu k))) else held k l'.
Proof. unfold held. rewrite lock_at_set. by destruct (decide (l' = l)). Qed.

Definition plus_cli (s : hold) : hold := mkHold (h_use s) (h_ncli s + 1) (h_locks s).

Lemma locks_pushcli s : locks s pushcli (fun _ => plus_cli s).
Proof.
  intros e k He [Hu Hn Hh Hd]. unfold pushcli, readeflags_if, cli, upd_cpu, when.
  rewrite gets_eq, modify_eq, gets_eq, modify_eq.
  destruct (_ =? 0); (split; [done|]); (split; [done|cbn in *; lia|done|done]).
Qed.

(** [popcli], with any locks. *)
Lemma popcli_holds s e k :
  holds (plus_cli s) k -> match popcli e k with Ok _ e' k' => e' = e /\ holds s k' | Panic _ _ | Hang _ => True end.
Proof.
  intros [Hu Hn Hh Hd]. unfold popcli, readeflags_if, sti, upd_cpu, when. rewrite gets_eq. destruct (c_if _); [done|].
  rewrite gets_eq, modify_eq. destruct (_ <? 0); [done|]. rewrite gets_eq.
  destruct (_ && _); (split; [done|]); (split; [done|cbn in *; lia|done|done]).
Qed.
Lemma locks_popcli s : locks (plus_cli s) popcli (fun _ => s).
Proof.
  intros e k He Hk. pose proof (popcli_holds s e k Hk) as Hp.
  destruct (popcli e k) as [a e' k'| |]; [|done|done]. by destruct Hp as [-> ?].
Qed.

(** [l] is locked, but not yet by this processor. *)
Record grabbed (l : lockid) (s : hold) (k : kernel) : Prop := {
  gr_use : k_use_lock k = h_use s;
  gr_ncli : c_ncli (k_cpu k) = h_ncli s + Z.of_nat (length (h_locks s));
  gr_held l' : l' <> l -> held k l' = true <-> l' ∈ h_locks s;
  gr_locked : nz (lk_locked (lock_at k l)) = true
}.

(** The loop of [acquire]. *)
Lemma spin_grabs l s n e k :
  calm e -> holds s k -> held k l = false ->
  match loop_fuel n (fun _ : unit =>
    old <- xchg_locked l 1 ;;
    if nz old then interfere ;; ret (inl tt) else ret (inr tt)) tt e k with
  | Ok _ e' k' => calm e' /\ grabbed l s k'
  | Panic _ _ | Hang _ => True
  end.
Proof.
  revert e k. induction n as [|n IH]; intros e k He Hk Hl; cbn [loop_fuel]; [done|].
  unfold xchg_locked. rewrite !bind_bind_eq, gets_eq, bind_bind_eq, modify_eq, ret_eq.
  set (k1 := set_k_locks _ k). assert (forall l', l' <> l -> held k1 l' = held k l') as Hother.
  { intros l' Hne. unfold k1. by rewrite held_set, decide_False. }
  destruct (nz (lk_locked (lock_at k l))) eqn:Eold.
  - assert (forall l', held k1 l' = held k l') as Hsame.
    { intros l'. destruct (decide (l' = l)) as [->|Hne]; [|by apply Hother].
      unfold k1, held. rewrite lock_at_set, decide_True by done. by rewrite Eold. }
    destruct e as [|f e]; [done|]. apply Forall_cons in He as [Hf He]. destruct (Hf k1) as (Hu & Hn & Hh).
    apply IH; [done| |by rewrite Hh, Hsame]. destruct Hk as [Hku Hkn Hkh Hkd].
    split; [by rewrite Hu|by rewrite Hn|intros l'; by rewrite Hh, Hsame|done].
  - split; [done|]. destruct Hk as [Hku Hkn Hkh Hkd]. split; [done|done| |].
    + intros l' Hne. by rewrite Hother.
    + unfold k1. by rewrite lock_at_set, decide_True.
Qed.

Lemma locks_acquire l s : locks s (acquire l) (fun _ => plus l s).
Proof.
  intros e k He Hk. unfold acquire. pose proof (locks_pushcli s e k He Hk) as Hp. unfold bind at 1.
  destruct (pushcli e k) as [[] e1 k1| |]; [|done|done]. destruct Hp as [He1 Hk1].
  unfold holding. rewrite gets_eq. fold (held k1 l).
  destruct (held k1 l) eqn:El; [done|]. unfold bind at 1.
  pose proof (spin_grabs l (plus_cli s) (S (length e1)) e1 k1 He1 Hk1 El) as Hspin.
  unfold loop_sched. destruct (loop_fuel _ _ _ e1 k1) as [[] e2 k2| |]; [|done|done]. destruct Hspin as [He2 [Hu Hn Hh Hgl]].
  rewrite gets_eq. split; [done|]. assert (l ∉ h_locks s) as Hnl.
  { intros Hin. apply (ho_held _ _ Hk1) in Hin. congruence. }
  split; [done|cbn in *; lia| |constructor; [done|apply Hk]].
  intros l'. rewrite held_set. cbn [h_locks plus]. destruct (decide (l' = l)) as [->|Hne].
  - cbn. rewrite Hgl. rewrite bool_decide_true by done. split; [left|done].
  - rewrite Hh by done. cbn. set_solver.
Qed.

Lemma release_locks l s e k :
  holds (plus l s) k -> match release l e k with Ok _ e' k' => e' = e /\ holds s k' | Panic _ _ | Hang _ => True end.
Proof.
  intros [Hu Hn Hh Hd]. unfold release, holding. rewrite gets_eq. destruct (negb _); [done|].
  unfold set_lock_cpu, xchg_locked. rewrite modify_eq, bind_bind_eq, gets_eq, bind_bind_eq, modify_eq, ret_eq.
  apply popcli_holds. cbn [h_locks plus] in Hd, Hh. apply NoDup_cons in Hd as [Hnl Hd].
  split; [done|cbn in *; lia| |done]. intros l'. rewrite held_set, lock_at_set, (decide_True (P := l = l)) by done.
  destruct (decide (l' = l)) as [->|Hne]; [done|].
  rewrite held_set, decide_False by done. rewrite Hh. cbn. set_solver.
Qed.

Lemma locks_release l s : locks (plus l s) (release l) (fun _ => s).
Proof.
  intros e k He Hk. pose proof (release_locks l s e k Hk) as Hr.
  destruct (release l e k) as [a e' k'| |]; [|done|done]. by destruct Hr as [-> ?].
Qed.

(** ** Automation

    The database [locks] has what every function does to the locks. *)

Create HintDb locks discriminated.
#[export] Hint Constants Opaque : locks.
#[export] Hint Variables Opaque : locks.

Lemma locks_upd_cpu s f : (forall c, c_ncli (f c) = c_ncli c /\ c_id (f c) = c_id c) -> locks s (upd_cpu f) (fun _ => s).
Proof.
  intros Hf. apply locks_modify. intros k [Hu Hn Hh Hd]. destruct (Hf (k_cpu k)) as [Hn' Hi].
  split; [done|cbn; by rewrite Hn'|intros l; unfold held; cbn; rewrite Hi; apply Hh|done].
Qed.
#[export] Hint Resolve locks_gets locks_interfere locks_acquire locks_release locks_pushcli locks_popcli : locks.

Ltac locks_call := solve [eauto 4 with locks nocore].
Ltac locks_step :=
  first
    [ progress cbv beta zeta
    | progress cbn [when]
    | match goal with
      | |- context [h_use (plus ?l ?s)] => change (h_use (plus l s)) with (h_use s)
      | H : h_use ?s = _ |- context [h_use ?s] => rewrite H
      | |- locks _ (bind (ret _) _) _ => apply locks_bind_ret
      | |- locks _ (bind (gets k_use_lock) _) _ => apply locks_bind_use
      | |- locks _ (bind (when ?b _) _) _ =>
          first [ eapply locks_bind; [apply locks_when; solve [locks]|intros ?] | destruct b eqn:? ]
      | |- locks _ (bind _ _) _ =>
          first [ eapply locks_bind; [locks_call|intros ?] | locks_branch ]
      | |- locks _ (when ?b _) _ => destruct b
      | |- locks ?s (for_all _ _) _ => apply locks_eq with (fun _ => s); [apply locks_for_all; intros|done]
      | |- locks _ (for_lh _) _ => unfold for_lh
      | |- locks ?s (for_while _ _ _ _) _ => apply locks_eq with (fun _ => s); [apply locks_for_while; intros|done]
      | |- locks ?s (for_each _ _) (fun _ => ?s) =>
          apply locks_eq with (fun r => if r is Some _ then s else s); [apply locks_for_each; intros|by intros []]
      | |- locks _ (loop_fuel _ _ _) _ => apply locks_loop_fuel; intros
      | |- locks _ (loop_sched _ _) _ => apply locks_loop_sched; intros
      | |- locks _ (ret _) _ => apply locks_ret; first [reflexivity | by repeat case_match]
      | |- locks _ (panic _) _ => apply locks_panic
      | |- locks _ undefined _ => apply locks_undefined
      | |- locks _ hang _ => apply locks_hang
      | |- locks ?s (modify _) _ =>
          apply locks_eq with (fun _ => s); [apply locks_modify; intros ? []; split; done|done]
      | |- locks ?s (upd_cpu _) _ => apply locks_eq with (fun _ => s); [apply locks_upd_cpu; done|done]
      | |- locks _ (match (if ?b then _ else _) with _ => _ end) _ => destruct b eqn:?
      | |- locks _ (match ?x with _ => _ end) _ => destruct x eqn:?
      | |- locks _ _ _ => eapply locks_eq; [locks_call|intros; reflexivity]
      end ]
with locks_branch :=
  match goal with
  | |- locks ?s (bind ?m _) _ => apply (locks_bind s m _ (fun _ => s)); [solve [locks]|intros ?]
  | |- locks (plus ?l ?s) (bind (for_each _ _) _) _ =>
      eapply locks_bind; [apply (locks_for_each (plus l s) s); solve [intros; locks]|intros ?]
  | |- locks (plus ?l ?s) (@bind _ (option _) _ ?m _) _ =>
      apply (locks_bind (plus l s) m _ (fun r => if r is Some _ then s else plus l s)); [solve [locks]|intros ?]
  | |- locks (plus ?l ?s) (bind ?m _) _ => apply (locks_bind (plus l s) m _ (fun _ => s)); [solve [locks]|intros ?]
  end
with locks := repeat locks_step.

(** ** The functions of the kernel *)

(** *** Access to the state *)

Lemma locks_get_proc s i : locks s (get_proc i) (fun _ => s).
Proof. unfold get_proc. locks. Qed.
Lemma locks_get_buf s i : locks s (get_buf i) (fun _ => s).
Proof. unfold get_buf. locks. Qed.
Lemma locks_get_inode s i : locks s (get_inode i) (fun _ => s).
Proof. unfold get_inode. locks. Qed.
Lemma locks_get_file s i : locks s (get_file i) (fun _ => s).
Proof. unfold get_file. locks. Qed.
Lemma locks_get_pipe s i : locks s (get_pipe i) (fun _ => s).
Proof. unfold get_pipe. locks. Qed.
Lemma locks_get_log s : locks s get_log (fun _ => s).
Proof. unfold get_log. locks. Qed.
Lemma locks_upd_proc s i f : locks s (upd_proc i f) (fun _ => s).
Proof. unfold upd_proc. locks. Qed.
Lemma locks_upd_buf s i f : locks s (upd_buf i f) (fun _ => s).
Proof. unfold upd_buf. locks. Qed.
Lemma locks_upd_inode s i f : locks s (upd_inode i f) (fun _ => s).
Proof. unfold upd_inode. locks. Qed.
Lemma locks_upd_file s i f : locks s (upd_file i f) (fun _ => s).
Proof. unfold upd_file. locks. Qed.
Lemma locks_upd_pipe s i f : locks s (upd_pipe i f) (fun _ => s).
Proof. unfold upd_pipe. locks. Qed.
Lemma locks_upd_log s f : locks s (upd_log f) (fun _ => s).
Proof. unfold upd_log. locks. Qed.
Lemma locks_upd_ide s f : locks s (upd_ide f) (fun _ => s).
Proof. unfold upd_ide. locks. Qed.
Lemma locks_upd_hw s f : locks s (upd_hw f) (fun _ => s).
Proof. unfold upd_hw. locks. Qed.
Lemma locks_upd_cons s f : locks s (upd_cons f) (fun _ => s).
Proof. unfold upd_cons. locks. Qed.
#[local] Hint Resolve locks_get_proc locks_get_buf locks_get_inode locks_get_file locks_get_pipe locks_get_log
  locks_upd_proc locks_upd_buf locks_upd_inode locks_upd_file locks_upd_pipe locks_upd_log locks_upd_ide
  locks_upd_hw locks_upd_cons : locks.
Lemma locks_curproc s : locks s curproc (fun _ => s).
Proof. unfold curproc. locks. Qed.
Lemma locks_holding s l : locks s (holding l) (fun _ => s).
Proof. unfold holding. locks. Qed.
Lemma locks_readeflags_if s : locks s readeflags_if (fun _ => s).
Proof. unfold readeflags_if. locks. Qed.
Lemma locks_cli s : locks s cli (fun _ => s).
Proof. unfold cli. locks. Qed.
Lemma locks_sti s : locks s sti (fun _ => s).
Proof. unfold sti. locks. Qed.
#[local] Hint Resolve locks_curproc locks_holding locks_readeflags_if locks_cli locks_sti : locks.

(** *** console.c, output *)

Lemma locks_uartputc s c : locks s (uartputc c) (fun _ => s).
Proof. unfold uartputc. locks. Qed.
Lemma locks_cgaputc s c : locks s (cgaputc c) (fun _ => s).
Proof. unfold cgaputc. locks. Qed.
#[local] Hint Resolve locks_uartputc locks_cgaputc : locks.
Lemma locks_consputc s c : locks s (consputc c) (fun _ => s).
Proof. unfold consputc. locks. Qed.
#[local] Hint Resolve locks_consputc : locks.
Lemma locks_printint s xx base sign : locks s (printint xx base sign) (fun _ => s).
Proof. unfold printint. locks. Qed.
#[local] Hint Resolve locks_printint : locks.
Lemma locks_format s fmt args : locks s (format fmt args) (fun _ => s).
Proof.
  remember (length fmt) as n eqn:Hn. assert (length fmt <= n)%nat as Hle by lia. clear Hn. revert fmt args Hle.
  induction n as [|n IH]; intros [|c [|c2 fmt]] args Hle; cbn [length] in Hle; cbn [format]; try lia; locks.
  all: apply IH; cbn [length] in *; lia.
Qed.
#[local] Hint Resolve locks_format : locks.
Lemma locks_cprintf s fmt args : locks s (cprintf fmt args) (fun _ => s).
Proof. unfold cprintf. locks. Qed.
#[local] Hint Resolve locks_cprintf : locks.

(** *** kalloc.c *)

Lemma locks_ld32 s a : locks s (ld32 a) (fun _ => s).
Proof. unfold ld32. locks. Qed.
Lemma locks_st32 s a v : locks s (st32 a v) (fun _ => s).
Proof. unfold st32. locks. Qed.
Lemma locks_mem_set s a c n : locks s (mem_set a c n) (fun _ => s).
Proof. unfold mem_set. locks. Qed.
#[local] Hint Resolve locks_ld32 locks_st32 locks_mem_set : locks.
Lemma locks_kfree s v : locks s (kfree v) (fun _ => s).
Proof. unfold kfree. locks. Qed.
Lemma locks_kalloc s : locks s kalloc (fun _ => s).
Proof. unfold kalloc. locks. Qed.
#[local] Hint Resolve locks_kfree locks_kalloc : locks.

(** *** proc.c, sleeping *)

Lemma locks_swtch s : locks s swtch (fun _ => s).
Proof. unfold swtch. locks. Qed.
#[local] Hint Resolve locks_swtch : locks.
Lemma locks_sched s : locks s sched (fun _ => s).
Proof. unfold sched. locks. Qed.
#[local] Hint Resolve locks_sched : locks.
Lemma locks_yield s : locks s Sleep.yield (fun _ => s).
Proof. unfold Sleep.yield. locks. Qed.
#[local] Hint Resolve locks_yield : locks.

(** A lock that is not held. *)
Lemma release_absent l s Q : l ∉ h_locks s -> locks s (release l) Q.
Proof.
  intros Hl e k He Hk. unfold release, holding. rewrite gets_eq. fold (held k l).
  destruct (held k l) eqn:E; [|done]. by apply (ho_held _ _ Hk) in E.
Qed.
(** A lock is not taken twice. *)
Lemma twice_absurd {A} l s (m : K A) Q : locks (plus l (plus l s)) m Q.
Proof. intros e k He Hk. destruct (NoDup_cons_1_1 _ _ (ho_nodup _ _ Hk)). left. Qed.
(** A lock below another one. *)
Lemma release_below l l' s : locks (plus l' (plus l s)) (release l) (fun _ => plus l' s).
Proof.
  intros e k He Hk. apply (locks_release l (plus l' s) e k He). destruct s as [u c H].
  revert Hk. apply holds_perm. apply Permutation_swap.
Qed.

Lemma locks_sleep s ch lk : locks s (sleep ch lk) (fun _ => s).
Proof.
  unfold sleep. eapply locks_bind; [locks_call|]. intros [me|]; [|locks]. destruct lk as [lk|]; [|locks].
  destruct (bool_decide_reflect (lk = L_ptable)) as [->|Hne]; cbn [negb]; [locks|]. cbn [when].
  destruct (decide (lk ∈ h_locks s)) as [Hin|Hout].
  - apply elem_of_Permutation in Hin as [H HP]. destruct s as [u c H0]. cbn in HP.
    apply (locks_perm_both u c H0 (lk :: H)); [done|].
    change (mkHold u c (lk :: H)) with (plus lk (mkHold u c H)). set (s := mkHold u c H).
    apply (locks_bind _ _ _ (fun _ => plus L_ptable s)); [|intros ?; locks].
    eapply locks_bind; [locks_call|]. intros ?. apply release_below.
  - apply (locks_bind _ _ _ (fun _ => plus L_ptable (plus L_ptable s))).
    + eapply locks_bind; [locks_call|]. intros ?. apply release_absent. cbn. set_solver.
    + intros ?. apply twice_absurd.
Qed.
Lemma locks_wakeup1 s ch : locks s (wakeup1 ch) (fun _ => s).
Proof. unfold wakeup1. locks. Qed.
#[local] Hint Resolve locks_sleep locks_wakeup1 : locks.
Lemma locks_wakeup s ch : locks s (wakeup ch) (fun _ => s).
Proof. unfold wakeup. locks. Qed.
Lemma locks_kill s pid : locks s (kill pid) (fun _ => s).
Proof. unfold kill. locks. Qed.
#[local] Hint Resolve locks_wakeup locks_kill : locks.

(** *** ide.c and memide.c *)

Lemma locks_status s : locks s Ide.status (fun _ => s).
Proof. unfold Ide.status. locks. Qed.
Lemma locks_ide_outb s port data : locks s (Ide.ide_outb port data) (fun _ => s).
Proof. unfold Ide.ide_outb. locks. Qed.
Lemma locks_outsl s data : locks s (Ide.outsl data) (fun _ => s).
Proof. unfold Ide.outsl. locks. Qed.
Lemma locks_insl s n : locks s (Ide.insl n) (fun _ => s).
Proof. unfold Ide.insl. locks. Qed.
#[local] Hint Resolve locks_status locks_ide_outb locks_outsl locks_insl : locks.
Lemma locks_idewait s checkerr : locks s (Ide.idewait checkerr) (fun _ => s).
Proof. unfold Ide.idewait. locks. Qed.
#[local] Hint Resolve locks_idewait : locks.
Lemma locks_idestart s b : locks s (Ide.idestart b) (fun _ => s).
Proof. unfold Ide.idestart. locks. Qed.
#[local] Hint Resolve locks_idestart : locks.
Lemma locks_enqueue s b : locks s (Ide.enqueue b) (fun _ => s).
Proof. unfold Ide.enqueue. locks. Qed.
Lemma locks_ideintr s : locks s Ide.ideintr (fun _ => s).
Proof. unfold Ide.ideintr. locks. Qed.
#[local] Hint Resolve locks_enqueue locks_ideintr : locks.
Lemma locks_ide_rw s b : locks s (Ide.ide_rw b) (fun _ => s).
Proof. unfold Ide.ide_rw. locks. Qed.
Lemma locks_memide_rw s b : locks s (Memide.memide_rw b) (fun _ => s).
Proof. unfold Memide.memide_rw. locks. Qed.
#[local] Hint Resolve locks_ide_rw locks_memide_rw : locks.

(** What the disk driver and the devices promise. *)
Class BalancedDriver `{DiskDriver} : Prop :=
  iderw_locks s b : locks s (iderw b) (fun _ => s).
Class BalancedDevices `{Devsw} : Prop := {
  dev_read_locks s major f ip n : dev_read major = Some f -> locks s (f ip n) (fun _ => s);
  dev_write_locks s major f ip buf n : dev_write major = Some f -> locks s (f ip buf n) (fun _ => s)
}.

Section driver.
Context `{BalancedDriver}.
#[local] Hint Resolve iderw_locks : locks.

(** *** bio.c and log.c *)

Lemma locks_scan_next s test : locks s (scan_next test) (fun _ => s).
Proof. unfold scan_next. locks. Qed.
Lemma locks_scan_prev s test : locks s (scan_prev test) (fun _ => s).
Proof. unfold scan_prev. locks. Qed.
#[local] Hint Resolve locks_scan_next locks_scan_prev : locks.
Lemma locks_bget s dev blockno : locks s (bget dev blockno) (fun _ => s).
Proof. unfold bget. locks. Qed.
Lemma locks_brelse s b : locks s (brelse b) (fun _ => s).
Proof. unfold brelse. locks. Qed.
#[local] Hint Resolve locks_bget locks_brelse : locks.
Lemma locks_bread s dev blockno : locks s (bread dev blockno) (fun _ => s).
Proof. unfold bread. locks. Qed.
Lemma locks_bwrite s b : locks s (bwrite b) (fun _ => s).
Proof. unfold bwrite. locks. Qed.
#[local] Hint Resolve locks_bread locks_bwrite : locks.
Lemma locks_readsb s dev : locks s (readsb dev) (fun _ => s).
Proof. unfold readsb. locks. Qed.
Lemma locks_get_block s i : locks s (get_block i) (fun _ => s).
Proof. unfold get_block. locks. Qed.
Lemma locks_put_block s i b : locks s (put_block i b) (fun _ => s).
Proof. unfold put_block. locks. Qed.
#[local] Hint Resolve locks_readsb locks_get_block locks_put_block : locks.
Lemma locks_install_trans s : locks s install_trans (fun _ => s).
Proof. unfold install_trans. locks. Qed.
Lemma locks_read_head s : locks s read_head (fun _ => s).
Proof. unfold read_head. locks. Qed.
Lemma locks_write_head s : locks s write_head (fun _ => s).
Proof. unfold write_head. locks. Qed.
Lemma locks_write_log s : locks s write_log (fun _ => s).
Proof. unfold write_log. locks. Qed.
Lemma locks_begin_op s : locks s begin_op (fun _ => s).
Proof. unfold begin_op. locks. Qed.
#[local] Hint Resolve locks_install_trans locks_read_head locks_write_head locks_write_log locks_begin_op : locks.
Lemma locks_commit s : locks s commit (fun _ => s).
Proof. unfold commit. locks. Qed.
#[local] Hint Resolve locks_commit : locks.
Lemma locks_end_op s : locks s end_op (fun _ => s).
Proof. unfold end_op. locks. Qed.
Lemma locks_log_write s b : locks s (log_write b) (fun _ => s).
Proof. unfold log_write. locks. Qed.
#[local] Hint Resolve locks_end_op locks_log_write : locks.

(** *** fs.c, blocks and inodes *)

Lemma locks_bzero s dev bno : locks s (bzero dev bno) (fun _ => s).
Proof. unfold bzero. locks. Qed.
#[local] Hint Resolve locks_bzero : locks.
Lemma locks_balloc s dev : locks s (balloc dev) (fun _ => s).
Proof. unfold balloc. locks. Qed.
Lemma locks_bfree s dev b : locks s (bfree dev b) (fun _ => s).
Proof. unfold bfree. locks. Qed.
Lemma locks_iget s dev inum : locks s (iget dev inum) (fun _ => s).
Proof. unfold iget. locks. Qed.
#[local] Hint Resolve locks_balloc locks_bfree locks_iget : locks.
Lemma locks_ialloc s dev type : locks s (ialloc dev type) (fun _ => s).
Proof. unfold ialloc. locks. Qed.
Lemma locks_iupdate s i : locks s (iupdate i) (fun _ => s).
Proof. unfold iupdate. locks. Qed.
Lemma locks_idup s i : locks s (idup i) (fun _ => s).
Proof. unfold idup. locks. Qed.
Lemma locks_ilock s p : locks s (ilock p) (fun _ => s).
Proof. unfold ilock. locks. Qed.
Lemma locks_iunlock s p : locks s (iunlock p) (fun _ => s).
Proof. unfold iunlock. locks. Qed.
Lemma locks_addr_of s i n : locks s (addr_of i n) (fun _ => s).
Proof. unfold addr_of. locks. Qed.
Lemma locks_set_addr s i n a : locks s (set_addr i n a) (fun _ => s).
Proof. unfold set_addr. locks. Qed.
#[local] Hint Resolve locks_ialloc locks_iupdate locks_idup locks_ilock locks_iunlock locks_addr_of locks_set_addr :
  locks.
Lemma locks_bmap s i bn : locks s (bmap i bn) (fun _ => s).
Proof. unfold bmap. locks. Qed.
Lemma locks_itrunc s i : locks s (itrunc i) (fun _ => s).
Proof. unfold itrunc. locks. Qed.
#[local] Hint Resolve locks_bmap locks_itrunc : locks.
Lemma locks_iput s i : locks s (iput i) (fun _ => s).
Proof. unfold iput. locks. Qed.
#[local] Hint Resolve locks_iput : locks.
Lemma locks_iunlockput s i : locks s (iunlockput i) (fun _ => s).
Proof. unfold iunlockput. locks. Qed.
Lemma locks_stati s i : locks s (stati i) (fun _ => s).
Proof. unfold stati. locks. Qed.
#[local] Hint Resolve locks_iunlockput locks_stati : locks.

(** *** console.c, the device *)

Lemma locks_cur_killed s : locks s cur_killed (fun _ => s).
Proof. unfold cur_killed. locks. Qed.
#[local] Hint Resolve locks_cur_killed : locks.
Lemma locks_wait_input s ip :
  locks (plus L_cons s) (wait_input ip) (fun killed : bool => if killed then s else plus L_cons s).
Proof. unfold wait_input. locks. Qed.
#[local] Hint Resolve locks_wait_input : locks.
Lemma locks_consoleread s ip n : locks s (consoleread ip n) (fun _ => s).
Proof.
  unfold consoleread. cbv zeta. do 2 (eapply locks_bind; [locks_call|intros ?]).
  apply (locks_bind _ _ _ (fun r => if r is inl _ then s else plus L_cons s)); [locks|]. intros [dst|[m dst]]; locks.
Qed.
Lemma locks_consolewrite s ip buf n : locks s (consolewrite ip buf n) (fun _ => s).
Proof. unfold consolewrite. locks. Qed.
#[local] Hint Resolve locks_consoleread locks_consolewrite : locks.

Section devices.
Context `{BalancedDevices}.
#[local] Hint Resolve dev_read_locks dev_write_locks : locks.

(** *** fs.c, files and directories *)

Lemma locks_readi s i off n : locks s (readi i off n) (fun _ => s).
Proof. unfold readi. locks. Qed.
Lemma locks_writei s i src off n : locks s (writei i src off n) (fun _ => s).
Proof. unfold writei. locks. Qed.
#[local] Hint Resolve locks_readi locks_writei : locks.
Lemma locks_dirlookup s dp name : locks s (dirlookup dp name) (fun _ => s).
Proof. unfold dirlookup. locks. Qed.
#[local] Hint Resolve locks_dirlookup : locks.
Lemma locks_dirlink s dp name inum : locks s (dirlink dp name inum) (fun _ => s).
Proof. unfold dirlink. locks. Qed.
#[local] Hint Resolve locks_dirlink : locks.
Lemma locks_namex s path par name : locks s (namex path par name) (fun _ => s).
Proof. unfold namex. locks. Qed.
#[local] Hint Resolve locks_namex : locks.
Lemma locks_namei s path : locks s (namei path) (fun _ => s).
Proof. unfold namei. locks. Qed.
Lemma locks_nameiparent s path name : locks s (nameiparent path name) (fun _ => s).
Proof. unfold nameiparent. locks. Qed.
#[local] Hint Resolve locks_namei locks_nameiparent : locks.

(** *** vm.c *)

Lemma locks_walkpgdir s pgdir va alloc : locks s (walkpgdir pgdir va alloc) (fun _ => s).
Proof. unfold walkpgdir. locks. Qed.
#[local] Hint Resolve locks_walkpgdir : locks.
Lemma locks_mappages s pgdir va size pa perm : locks s (mappages pgdir va size pa perm) (fun _ => s).
Proof. unfold mappages. locks. Qed.
#[local] Hint Resolve locks_mappages : locks.
Lemma locks_setupkvm s : locks s setupkvm (fun _ => s).
Proof. unfold setupkvm. locks. Qed.
Lemma locks_lcr3 s v : locks s (lcr3 v) (fun _ => s).
Proof. unfold lcr3. locks. Qed.
Lemma locks_set_gdt s n d : locks s (set_gdt n d) (fun _ => s).
Proof. unfold set_gdt. locks. Qed.
#[local] Hint Resolve locks_setupkvm locks_lcr3 locks_set_gdt : locks.
Lemma locks_switchkvm s : locks s switchkvm (fun _ => s).
Proof. unfold switchkvm. locks. Qed.
Lemma locks_switchuvm s p : locks s (switchuvm p) (fun _ => s).
Proof. unfold switchuvm. locks. Qed.
Lemma locks_put_bytes s a l : locks s (put_bytes a l) (fun _ => s).
Proof. unfold put_bytes. locks. Qed.
Lemma locks_mem_move s dst src n : locks s (mem_move dst src n) (fun _ => s).
Proof. unfold mem_move. locks. Qed.
#[local] Hint Resolve locks_switchkvm locks_switchuvm locks_put_bytes locks_mem_move : locks.
Lemma locks_loaduvm s pgdir addr ip offset sz : locks s (loaduvm pgdir addr ip offset sz) (fun _ => s).
Proof. unfold loaduvm. locks. Qed.
Lemma locks_deallocuvm s pgdir oldsz newsz : locks s (deallocuvm pgdir oldsz newsz) (fun _ => s).
Proof. unfold deallocuvm. locks. Qed.
#[local] Hint Resolve locks_loaduvm locks_deallocuvm : locks.
Lemma locks_allocuvm s pgdir oldsz newsz : locks s (allocuvm pgdir oldsz newsz) (fun _ => s).
Proof. unfold allocuvm. locks. Qed.
Lemma locks_freevm s pgdir : locks s (freevm pgdir) (fun _ => s).
Proof. unfold freevm. locks. Qed.
Lemma locks_clearpteu s pgdir uva : locks s (clearpteu pgdir uva) (fun _ => s).
Proof. unfold clearpteu. locks. Qed.
#[local] Hint Resolve locks_allocuvm locks_freevm locks_clearpteu : locks.
Lemma locks_copyuvm s pgdir sz : locks s (copyuvm pgdir sz) (fun _ => s).
Proof. unfold copyuvm. locks. Qed.
Lemma locks_uva2ka s pgdir uva : locks s (uva2ka pgdir uva) (fun _ => s).
Proof. unfold uva2ka. locks. Qed.
#[local] Hint Resolve locks_copyuvm locks_uva2ka : locks.
Lemma locks_copyout s pgdir va p len : locks s (copyout pgdir va p len) (fun _ => s).
Proof. unfold copyout. locks. Qed.
#[local] Hint Resolve locks_copyout : locks.

(** *** pipe.c *)

Lemma locks_pipeclose s p writable : locks s (pipeclose p writable) (fun _ => s).
Proof. unfold pipeclose. locks. Qed.
Lemma locks_put_char s p c : locks s (put_char p c) (fun _ => s).
Proof. unfold put_char. locks. Qed.
#[local] Hint Resolve locks_pipeclose locks_put_char : locks.
Lemma locks_pipewrite_char s p c :
  locks (plus (L_pipe p) s) (pipewrite_char p c) (fun r => if r is Some _ then s else plus (L_pipe p) s).
Proof. unfold pipewrite_char. locks. Qed.
#[local] Hint Resolve locks_pipewrite_char : locks.
Lemma locks_pipewrite s p addr n : locks s (pipewrite p addr n) (fun _ => s).
Proof. unfold pipewrite. locks. Qed.
Lemma locks_piperead_copy s p n : locks s (piperead_copy p n) (fun _ => s).
Proof. induction n as [|n IH]; cbn [piperead_copy]; locks. Qed.
#[local] Hint Resolve locks_pipewrite locks_piperead_copy : locks.
Lemma locks_piperead s p n : locks s (piperead p n) (fun _ => s).
Proof. unfold piperead. locks. Qed.
#[local] Hint Resolve locks_piperead : locks.

(** *** file.c *)

Lemma locks_filealloc s : locks s filealloc (fun _ => s).
Proof. unfold filealloc. locks. Qed.
Lemma locks_filedup s f : locks s (filedup f) (fun _ => s).
Proof. unfold filedup. locks. Qed.
Lemma locks_fileclose s f : locks s (fileclose f) (fun _ => s).
Proof. unfold fileclose. locks. Qed.
Lemma locks_filestat s f : locks s (filestat f) (fun _ => s).
Proof. unfold filestat. locks. Qed.
Lemma locks_fileread s f n : locks s (fileread f n) (fun _ => s).
Proof. unfold fileread. locks. Qed.
Lemma locks_filewrite s f addr n : locks s (filewrite f addr n) (fun _ => s).
Proof. unfold filewrite. locks. Qed.
#[local] Hint Resolve locks_filealloc locks_filedup locks_fileclose locks_filestat locks_fileread locks_filewrite :
  locks.

(** A new pipe's lock is not one that is held. *)
Definition no_pipe (s : hold) : Prop := forall p, L_pipe p ∉ h_locks s.

Lemma locks_initlock s p name : no_pipe s -> locks s (initlock (L_pipe p) name) (fun _ => s).
Proof.
  intros Hp. apply locks_modify. intros k [Hu Hn Hh Hd]. split; [done|done| |done]. intros l. rewrite held_set.
  destruct (decide (l = L_pipe p)) as [->|Hne]; [|apply Hh]. split; [done|]. intros Hl. by apply Hp in Hl.
Qed.
#[local] Hint Resolve locks_initlock : locks.
Lemma locks_pipealloc s : no_pipe s -> locks s pipealloc (fun _ => s).
Proof. intros Hp. unfold pipealloc. locks. Qed.
#[local] Hint Resolve locks_pipealloc : locks.

(** *** proc.c *)

Lemma locks_allocproc s : locks s allocproc (fun _ => s).
Proof. unfold allocproc. locks. Qed.
#[local] Hint Resolve locks_allocproc : locks.
Lemma locks_growproc s n : locks s (growproc n) (fun _ => s).
Proof. unfold growproc. locks. Qed.
Lemma locks_fork s : locks s fork (fun _ => s).
Proof. unfold fork. locks. Qed.
Lemma locks_wakeup1_proc s p : locks s (wakeup1_proc p) (fun _ => s).
Proof. unfold wakeup1_proc. locks. Qed.
#[local] Hint Resolve locks_growproc locks_fork locks_wakeup1_proc : locks.
Lemma locks_exit s : locks s exit (fun _ => s).
Proof. unfold exit. locks. Qed.
Lemma locks_wait_scan s l me havekids :
  locks (plus L_ptable s) (wait_scan l me havekids) (fun r => if r is inl _ then s else plus L_ptable s).
Proof. revert havekids. induction l as [|i l IH]; intros; cbn [wait_scan]; locks. Qed.
#[local] Hint Resolve locks_exit locks_wait_scan : locks.
Lemma locks_wait s : locks s wait (fun _ => s).
Proof. unfold wait. locks. Qed.
Lemma locks_procdump s : locks s procdump (fun _ => s).
Proof. unfold procdump. locks. Qed.
Lemma locks_ld16 s a : locks s (ld16 a) (fun _ => s).
Proof. unfold ld16. locks. Qed.
#[local] Hint Resolve locks_wait locks_procdump locks_ld16 : locks.

(** *** syscall.c and exec.c *)

Lemma locks_translate s write va : locks s (translate write va) (fun _ => s).
Proof. unfold translate. locks. Qed.
#[local] Hint Resolve locks_translate : locks.
Lemma locks_load_byte s va : locks s (load_byte va) (fun _ => s).
Proof. unfold load_byte. locks. Qed.
#[local] Hint Resolve locks_load_byte : locks.
Lemma locks_load_user s va n : locks s (load_user va n) (fun _ => s).
Proof. revert va. induction n as [|n IH]; intros; cbn [load_user]; locks. Qed.
Lemma locks_store_user s va l : locks s (store_user va l) (fun _ => s).
Proof. revert va. induction l as [|b l IH]; intros; cbn [store_user]; locks. Qed.
Lemma locks_cur_sz s : locks s cur_sz (fun _ => s).
Proof. unfold cur_sz. locks. Qed.
#[local] Hint Resolve locks_load_user locks_store_user locks_cur_sz : locks.
Lemma locks_fetchint s addr : locks s (fetchint addr) (fun _ => s).
Proof. unfold fetchint. locks. Qed.
Lemma locks_scan_str s n a : locks s (scan_str n a) (fun _ => s).
Proof. revert a. induction n as [|n IH]; intros; cbn [scan_str]; locks. Qed.
#[local] Hint Resolve locks_fetchint locks_scan_str : locks.
Lemma locks_fetchstr s addr : locks s (fetchstr addr) (fun _ => s).
Proof. unfold fetchstr. locks. Qed.
Lemma locks_arg_addr s n : locks s (arg_addr n) (fun _ => s).
Proof. unfold arg_addr. locks. Qed.
#[local] Hint Resolve locks_fetchstr locks_arg_addr : locks.
Lemma locks_argint s n : locks s (argint n) (fun _ => s).
Proof. unfold argint. locks. Qed.
#[local] Hint Resolve locks_argint : locks.
Lemma locks_argptr s n size : locks s (argptr n size) (fun _ => s).
Proof. unfold argptr. locks. Qed.
Lemma locks_argstr s n : locks s (argstr n) (fun _ => s).
Proof. unfold argstr. locks. Qed.
Lemma locks_add_scount s : locks s add_scount (fun _ => s).
Proof. unfold add_scount. locks. Qed.
Lemma locks_bad s pgdir ip : locks s (bad pgdir ip) (fun _ => s).
Proof. unfold bad. locks. Qed.
Lemma locks_load_segments s n ip pgdir off sz : locks s (load_segments n ip pgdir off sz) (fun _ => s).
Proof. revert off sz. induction n as [|n IH]; intros; cbn [load_segments]; locks. Qed.
Lemma locks_push_args s argv argc pgdir sp ustack : locks s (push_args argv argc pgdir sp ustack) (fun _ => s).
Proof. revert argc sp ustack. induction argv as [|a argv IH]; intros; cbn [push_args]; locks. Qed.
#[local] Hint Resolve locks_argptr locks_argstr locks_add_scount locks_bad locks_load_segments locks_push_args :
  locks.
Lemma locks_exec_stack s path argv elf pgdir sz : locks s (exec_stack path argv elf pgdir sz) (fun _ => s).
Proof. unfold exec_stack, exec_commit. locks. Qed.
#[local] Hint Resolve locks_exec_stack : locks.
Lemma locks_exec s path argv : locks s (exec path argv) (fun _ => s).
Proof. unfold exec. locks. Qed.
#[local] Hint Resolve locks_exec : locks.

(** *** sysfile.c *)

Lemma locks_argfd s n : locks s (argfd n) (fun _ => s).
Proof. unfold argfd. locks. Qed.
Lemma locks_set_ofile s fd f : locks s (set_ofile fd f) (fun _ => s).
Proof. unfold set_ofile. locks. Qed.
#[local] Hint Resolve locks_argfd locks_set_ofile : locks.
Lemma locks_fdalloc s f : locks s (fdalloc f) (fun _ => s).
Proof. unfold fdalloc. locks. Qed.
#[local] Hint Resolve locks_fdalloc : locks.
Lemma locks_rw_args s : locks s rw_args (fun _ => s).
Proof. unfold rw_args. locks. Qed.
Lemma locks_store_stat s a st : locks s (store_stat a st) (fun _ => s).
Proof. unfold store_stat. locks. Qed.
Lemma locks_add_nlink s ip d : locks s (add_nlink ip d) (fun _ => s).
Proof. unfold add_nlink. locks. Qed.
Lemma locks_isdirempty s dp : locks s (isdirempty dp) (fun _ => s).
Proof. unfold isdirempty. locks. Qed.
#[local] Hint Resolve locks_rw_args locks_store_stat locks_add_nlink locks_isdirempty : locks.
Lemma locks_create s path type major minor : locks s (create path type major minor) (fun _ => s).
Proof. unfold create. locks. Qed.
#[local] Hint Resolve locks_create : locks.
Lemma locks_open_inode s path omode : locks s (open_inode path omode) (fun _ => s).
Proof. unfold open_inode. locks. Qed.
Lemma locks_finish_create s r : locks s (finish_create r) (fun _ => s).
Proof. unfold finish_create. locks. Qed.
Lemma locks_fetch_argv s n uargv i : locks s (fetch_argv n uargv i) (fun _ => s).
Proof. revert i. induction n as [|n IH]; intros; cbn [fetch_argv]; locks. Qed.
#[local] Hint Resolve locks_open_inode locks_finish_create locks_fetch_argv : locks.

(** *** The system calls *)

Lemma locks_sys_fork s : locks s sys_fork (fun _ => s).
Proof. unfold sys_fork. locks. Qed.
Lemma locks_sys_exit s : locks s sys_exit (fun _ => s).
Proof. unfold sys_exit. locks. Qed.
Lemma locks_sys_wait s : locks s sys_wait (fun _ => s).
Proof. unfold sys_wait. locks. Qed.
Lemma locks_sys_kill s : locks s sys_kill (fun _ => s).
Proof. unfold sys_kill. locks. Qed.
Lemma locks_sys_getpid s : locks s sys_getpid (fun _ => s).
Proof. unfold sys_getpid. locks. Qed.
Lemma locks_sys_sbrk s : locks s sys_sbrk (fun _ => s).
Proof. unfold sys_sbrk. locks. Qed.
Lemma locks_sys_sleep s : locks s sys_sleep (fun _ => s).
Proof. unfold sys_sleep. locks. Qed.
Lemma locks_sys_uptime s : locks s sys_uptime (fun _ => s).
Proof. unfold sys_uptime. locks. Qed.
Lemma locks_sys_count s : locks s sys_count (fun _ => s).
Proof. unfold sys_count. locks. Qed.
Lemma locks_sys_dup s : locks s sys_dup (fun _ => s).
Proof. unfold sys_dup. locks. Qed.
Lemma locks_sys_read s : locks s sys_read (fun _ => s).
Proof. unfold sys_read. locks. Qed.
Lemma locks_sys_write s : locks s sys_write (fun _ => s).
Proof. unfold sys_write. locks. Qed.
Lemma locks_sys_close s : locks s sys_close (fun _ => s).
Proof. unfold sys_close. locks. Qed.
Lemma locks_sys_fstat s : locks s sys_fstat (fun _ => s).
Proof. unfold sys_fstat. locks. Qed.
Lemma locks_sys_link s : locks s sys_link (fun _ => s).
Proof. unfold sys_link. locks. Qed.
Lemma locks_sys_unlink s : locks s sys_unlink (fun _ => s).
Proof. unfold sys_unlink. locks. Qed.
Lemma locks_sys_open s : locks s sys_open (fun _ => s).
Proof. unfold sys_open. locks. Qed.
Lemma locks_sys_mkdir s : locks s sys_mkdir (fun _ => s).
Proof. unfold sys_mkdir. locks. Qed.
Lemma locks_sys_mknod s : locks s sys_mknod (fun _ => s).
Proof. unfold sys_mknod. locks. Qed.
Lemma locks_sys_chdir s : locks s sys_chdir (fun _ => s).
Proof. unfold sys_chdir. locks. Qed.
Lemma locks_sys_exec s : locks s sys_exec (fun _ => s).
Proof. unfold sys_exec. locks. Qed.
Lemma locks_sys_pipe s : no_pipe s -> locks s sys_pipe (fun _ => s).
Proof. intros Hp. unfold sys_pipe. locks. Qed.
#[local] Hint Resolve locks_sys_fork locks_sys_exit locks_sys_wait locks_sys_kill locks_sys_getpid locks_sys_sbrk
  locks_sys_sleep locks_sys_uptime locks_sys_count locks_sys_dup locks_sys_read locks_sys_write locks_sys_close
  locks_sys_fstat locks_sys_link locks_sys_unlink locks_sys_open locks_sys_mkdir locks_sys_mknod locks_sys_chdir
  locks_sys_exec locks_sys_pipe : locks.

(** *** The interrupts and trap.c *)

Lemma locks_lapicr s index : locks s (lapicr index) (fun _ => s).
Proof. unfold lapicr. locks. Qed.
Lemma locks_lapicw s index value : locks s (lapicw index value) (fun _ => s).
Proof. unfold lapicw. locks. Qed.
#[local] Hint Resolve locks_lapicr locks_lapicw : locks.
Lemma locks_lapiceoi s : locks s lapiceoi (fun _ => s).
Proof. unfold lapiceoi. locks. Qed.
Lemma locks_kill_line s : locks s kill_line (fun _ => s).
Proof. unfold kill_line. locks. Qed.
#[local] Hint Resolve locks_lapiceoi locks_kill_line : locks.
Lemma locks_input_step s c doprocdump : locks s (input_step c doprocdump) (fun _ => s).
Proof. unfold input_step. locks. Qed.
Lemma locks_kbdgetc s : locks s kbdgetc (fun _ => s).
Proof. unfold kbdgetc. locks. Qed.
Lemma locks_uartgetc s : locks s uartgetc (fun _ => s).
Proof. unfold uartgetc. locks. Qed.
#[local] Hint Resolve locks_input_step locks_kbdgetc locks_uartgetc : locks.
Lemma locks_consoleintr s getc : (forall s, locks s getc (fun _ => s)) -> locks s (consoleintr getc) (fun _ => s).
Proof. intros Hgetc. unfold consoleintr. locks. Qed.
#[local] Hint Resolve locks_consoleintr : locks.
Lemma locks_kbdintr s : locks s kbdintr (fun _ => s).
Proof. unfold kbdintr. locks. Qed.
Lemma locks_uartintr s : locks s uartintr (fun _ => s).
Proof. unfold uartintr. locks. Qed.
#[local] Hint Resolve locks_kbdintr locks_uartintr : locks.
Lemma locks_syscalls s num call : no_pipe s -> syscalls num = Some call -> locks s call (fun _ => s).
Proof.
  intros Hs Hcall. unfold syscalls in Hcall.
  repeat match type of Hcall with
  | (match ?n with _ => _ end) = _ => destruct n; try done
  end; injection Hcall as <-; locks.
Qed.
Lemma locks_set_eax s v : locks s (set_eax v) (fun _ => s).
Proof. unfold set_eax. locks. Qed.
#[local] Hint Resolve locks_set_eax : locks.
Lemma locks_syscall s : no_pipe s -> locks s syscall (fun _ => s).
Proof.
  intros Hs. unfold syscall. do 3 (eapply locks_bind; [locks_call|intros ?]). cbv zeta. destruct (_ <? _); [|locks].
  destruct (syscalls _) as [call|] eqn:E; [|locks].
  apply (locks_bind _ _ _ (fun _ => s)); [by eapply locks_syscalls|]. intros ?. locks.
Qed.
Lemma locks_exit_if_killed s : locks s exit_if_killed (fun _ => s).
Proof. unfold exit_if_killed. locks. Qed.
Lemma locks_exit_killed_user s tf : locks s (exit_killed_user tf) (fun _ => s).
Proof. unfold exit_killed_user. locks. Qed.
#[local] Hint Resolve locks_syscall locks_exit_if_killed locks_exit_killed_user : locks.

Section interrupts.
Context (ideintr : K unit) (Hideintr : forall s, locks s ideintr (fun _ => s)).
#[local] Hint Resolve Hideintr : locks.
Lemma locks_handle_trap s tf trapno : locks s (handle_trap ideintr tf trapno) (fun _ => s).
Proof. unfold handle_trap. locks. Qed.
#[local] Hint Resolve locks_handle_trap : locks.
Lemma locks_trap s tf : no_pipe s -> locks s (trap ideintr tf) (fun _ => s).
Proof. intros Hs. unfold trap. locks. Qed.
#[local] Hint Resolve locks_trap : locks.

End interrupts.

(** *** The scheduler *)

Lemma locks_rand s max : locks s (rand max) (fun _ => s).
Proof. unfold rand. locks. Qed.
Lemma locks_collect s l i run_p : locks s (collect l i run_p) (fun _ => s).
Proof. revert i run_p. induction l as [|j l IH]; intros; cbn [collect]; locks. Qed.
Lemma locks_print_runnable s run_p : locks s (print_runnable run_p) (fun _ => s).
Proof. induction run_p as [|[j|] run_p IH]; cbn [print_runnable]; locks. Qed.
Lemma locks_pid_at s run_p i : locks s (pid_at run_p i) (fun _ => s).
Proof. unfold pid_at. locks. Qed.
#[local] Hint Resolve locks_rand locks_collect locks_print_runnable locks_pid_at : locks.
Lemma locks_dedup_inner s js i run_p : locks s (dedup_inner js i run_p) (fun _ => s).
Proof. revert run_p. induction js as [|j js IH]; intros; cbn [dedup_inner]; locks. Qed.
#[local] Hint Resolve locks_dedup_inner : locks.
Lemma locks_dedup_outer s is_ run_num run_p : locks s (dedup_outer is_ run_num run_p) (fun _ => s).
Proof. revert run_p. induction is_ as [|i is_ IH]; intros; cbn [dedup_outer]; locks. Qed.
#[local] Hint Resolve locks_dedup_outer : locks.
Lemma locks_lottery s run_num run_p : locks s (lottery run_num run_p) (fun _ => s).
Proof. unfold lottery. locks. Qed.
#[local] Hint Resolve locks_lottery : locks.
Lemma locks_scheduler_round s run_p : locks s (scheduler_round run_p) (fun _ => s).
Proof. unfold scheduler_round. locks. Qed.
#[local] Hint Resolve locks_scheduler_round : locks.

(** ** The theorem *)

Lemma holds_none k : (forall l, held k l = false) -> c_ncli (k_cpu k) = 0 -> holds (mkHold (k_use_lock k) 0 []) k.
Proof.
  intros Hh Hn. split; [done|done| |constructor]. intros l. rewrite Hh. split; [done|]. intros Hl. by apply elem_of_nil in Hl.
Qed.

Lemma none_holds u k : holds (mkHold u 0 []) k -> (forall l, held k l = false) /\ c_ncli (k_cpu k) = 0.
Proof.
  intros [_ Hn Hh _]. split; [|done]. intros l. destruct (held k l) eqn:E; [|done]. apply Hh in E. by apply elem_of_nil in E.
Qed.

(** C4: A trap leaves no lock behind.  When a system call, an interrupt or a fault that came while the
    processor held no lock returns, the processor holds no lock again, and every [pushcli] has
    had its [popcli], whatever way the call took through the kernel and however often it
    waited; the same is true of a round of the scheduler.  While it waits, the rest of the machine
    leaves alone what the processor holds ([calm]).  [ideintr] is the disk driver's. *)
Theorem trap_unlocks (ideintr : K unit) e k :
  (forall s, locks s ideintr (fun _ => s)) -> calm e -> (forall l, held k l = false) -> c_ncli (k_cpu k) = 0 ->
  (forall tf e' k', trap ideintr tf e k = Ok tt e' k' -> (forall l, held k' l = false) /\ c_ncli (k_cpu k') = 0) /\
  (forall run_p r e' k', scheduler_round run_p e k = Ok r e' k' -> (forall l, held k' l = false) /\ c_ncli (k_cpu k') = 0).
Proof.
  intros Hintr He Hh Hn. pose proof (holds_none k Hh Hn) as Hk. split.
  - intros tf e' k' E.
    pose proof (locks_trap ideintr Hintr (mkHold (k_use_lock k) 0 []) tf (fun p => not_elem_of_nil _) e k He Hk) as Ht.
    rewrite E in Ht. by eapply none_holds, Ht.
  - intros run_p r e' k' E. pose proof (locks_scheduler_round _ run_p e k He Hk) as Hs.
    rewrite E in Hs. by eapply none_holds, Hs.
Qed.


End devices.

End driver.

(** ** memide.c and the console *)

#[export] Instance memide_balanced : @BalancedDriver Memide.memide_driver := fun s b => locks_memide_rw s b.

#[export] Instance console_balanced `{BalancedDriver} : BalancedDevices.
Proof.
  split.
  - intros s major f ip n. cbn. destruct (major =? CONSOLE); [|done]. intros [= <-]. by apply locks_consoleread.
  - intros s major f ip buf n. cbn. destruct (major =? CONSOLE); [|done]. intros [= <-]. by apply locks_consolewrite.
Qed.

(** ** Example: the system call [uptime], which takes the lock of the clock *)

#[local] Existing Instance Memide.memide_driver.

Definition frame : Z := 0x80300000.
Definition asking : kernel :=
  set_k_mem (store32 (store32 (fun _ => 0) (frame + tf_trapno) T_SYSCALL) (frame + tf_eax) 14) Demo.machine.

Lemma asking_returns : exists e' k', trap Memide.ideintr frame [] asking = Ok tt e' k'.
Proof. vm_compute. eauto. Qed.

Lemma asking_unlocked l : held asking l = false.
Proof.
  destruct l as [| | | | | | | | |p]; try reflexivity. unfold held, lock_at. change (k_locks asking) with Demo.locks0.
  unfold Demo.locks0. rewrite not_elem_of_list_to_map_1; [done|]. cbn. set_solver.
Qed.

Lemma trap_unlocks_witness :
  exists e' k', trap Memide.ideintr frame [] asking = Ok tt e' k' /\ (forall l, held k' l = false) /\ c_ncli (k_cpu k') = 0.
Proof.
  destruct asking_returns as (e' & k' & E). exists e', k'. split; [exact E|].
  refine (proj1 (trap_unlocks Memide.ideintr [] asking _ _ asking_unlocked eq_refl) frame e' k' E).
  - intros s. by apply locks_ret.
  - constructor.
Defined.


End Locks.
