(* ===== verification/Main.v ===== *)
(** main.c: the start of the kernel. *)

From S2P Require Import Prelude Bytes Machine Demo Cstring Spinlock Consout Kbd Kalloc Hw Sleep.
From S2P Require Import Disk Bio Log Fs Vm Pipe File Proc Console Syscall Sysproc Exec Sysfile.
From S2P Require Import Trap.
Import Cstring Spinlock Consout Kalloc Hw Bio Vm File Proc Console Trap.

Module Main.

Section main.
Context `{DiskDriver}.

(** The scheduler never returns. *)
Definition mpmain : K Empty_set :=
  id <- gets (fun k => c_id (k_cpu k)) ;;
  cprintf "cpu%d: starting
" [AInt id] ;;
  idtinit ;;
  upd_cpu (set_c_started 1) ;;
  scheduler.

Definition mpenter : K Empty_set :=
  switchkvm ;;
  seginit ;;
  lapicinit ;;
  mpmain.

(** [cpunum] of lapic.c (its warning about enabled interrupts is not
    modelled). *)
Definition cpunum : K Z :=
  lapic <- gets (fun k => hw_lapic (k_hw k)) ;;
  if lapic =? 0 then ret 0 else
  v <- lapicr LAPIC_ID ;;
  ret (Z.shiftr v 24).

Definition startothers : K unit :=
  let code := p2v 0x7000 in
  l <- gets k_link ;;
  put_bytes code (ld_entryother l) ;;
  ncpu <- gets (fun k => hw_ncpu (k_hw k)) ;;
  for_all (seq 0 (Z.to_nat ncpu)) (fun c =>
    self <- cpunum ;;
    if Z.of_nat c =? self then ret tt else
    stack <- kalloc ;;
    st32 (code - 4) (u32 (stack + KSTACKSIZE)) ;;
    st32 (code - 8) (ld_mpenter l) ;;
    st32 (code - 12) (v2p (ld_entrypgdir l)) ;;
    id <- gets (fun k => nth c (hw_cpu_ids (k_hw k)) 0) ;;
    lapicstartap id (v2p code) ;;
    loop_sched (fun _ : unit =>
      started <- gets (fun k => nth c (hw_started (k_hw k)) false) ;;
      if started : bool then ret (inr tt) else interfere ;; ret (inl tt)) tt).

(** [ideinit] is the driver's; [lsr] the line status the serial port reports. *)
Definition main (ideinit : K unit) (lsr : Z) : K Empty_set :=
  l <- gets k_link ;;
  kinit1 (ld_end l) (p2v (4 * 1024 * 1024)) ;;
  kvmalloc ;;
  mpinit ;;
  lapicinit ;;
  seginit ;;
  id <- gets (fun k => c_id (k_cpu k)) ;;
  cprintf "
cpu%d: starting xv6

" [AInt id] ;;
  picinit ;;
  ioapicinit ;;
  consoleinit ;;
  uartinit lsr ;;
  pinit ;;
  tvinit ;;
  binit ;;
  fileinit ;;
  ideinit ;;
  ismp <- gets (fun k => hw_ismp (k_hw k)) ;;
  when (negb ismp) timerinit ;;
  startothers ;;
  kinit2 (p2v (4 * 1024 * 1024)) (p2v PHYSTOP) ;;
  userinit ;;
  mpmain.

End main.
End Main.
