(* ===== verification/Types.v ===== *)
(** Types for the kernel's state.  [kernel_ok] says that the model's lists and numbers have the sizes
    and the ranges of the arrays, the integers and the pointers of the C code; [typed] says that
    a computation keeps them, and what it returns.  The tactic [typed] takes a computation apart
    (used by Typed.v, for the structures of all of the kernel's files). *)

From S2P Require Import Prelude Bytes Machine Cstring Spinlock Consout Kalloc Sleep Disk Bio Log Fs Vm Pipe.
Import Cstring Sleep Log Fs Vm.

Module Types.


(** ** Well-formed data *)

Notation uint v := (0 <= v < 4294967296).
Notation sint v := (-2147483648 <= v < 2147483648).

Definition opt_ok {A} (P : A -> Prop) (o : option A) : Prop := match o with Some a => P a | None => True end.

(** A pointer into a table of [n] entries. *)
Notation ptr_ok n := (opt_ok (fun i : nat => (i < n)%nat)).

(** A [char] array of [n] bytes. *)
Definition array_ok (n : nat) (l : list Z) : Prop := length l = n /\ bytes_ok l.

Record proc_ok (p : proc) : Prop := {
  po_sz : uint (p_sz p);
  po_pid : sint (p_pid p);
  po_parent : ptr_ok NPROC (p_parent p);
  po_ofile : length (p_ofile p) = NOFILE /\ Forall (ptr_ok NFILE) (p_ofile p);
  po_cwd : ptr_ok NINODE (p_cwd p);
  po_name : array_ok 16 (p_name p);
  po_scount : sint (p_scount p)
}.

Record buf_ok (b : buf) : Prop := {
  bo_blockno : uint (b_blockno b);
  bo_prev : (b_prev b < S NBUF)%nat;
  bo_next : (b_next b < S NBUF)%nat;
  bo_qnext : ptr_ok (S NBUF) (b_qnext b);
  bo_data : array_ok 512 (b_data b)
}.

Record file_ok (f : file) : Prop := {
  fo_ip : ptr_ok NINODE (f_ip f);
  fo_off : uint (f_off f)
}.

Record pipe_ok (p : pipe) : Prop := {
  pi_data : array_ok 512 (pp_data p);
  pi_nread : uint (pp_nread p);
  pi_nwrite : uint (pp_nwrite p)
}.

Definition log_ok (l : logstate) : Prop :=
  length (lg_block l) = Z.to_nat LOGSIZE /\ Forall (fun b => sint b) (lg_block l).

Record cons_ok (c : consstate) : Prop := {
  co_buf : array_ok 128 (cs_buf c);
  co_crt : length (cs_crt c) = 2000%nat;
  co_pos : 0 <= cs_pos c < 65536;
  co_r : uint (cs_r c);
  co_w : uint (cs_w c);
  co_e : uint (cs_e c)
}.

Definition sb_ok (s : superblock) : Prop :=
  Forall (fun v => uint v) [sb_size s; sb_nblocks s; sb_ninodes s; sb_nlog s; sb_logstart s; sb_inodestart s; sb_bmapstart s].

Definition mem_ok (m : memory) : Prop := forall a, 0 <= m a < 256.

(** The arrays that the linker puts into the kernel. *)
Definition link_ok (l : linkmap) : Prop := Forall bytes_ok [ld_initcode l; ld_entryother l; ld_fs_img l].

(** The state of the kernel has its types ([dinode_ok] is Fs.v's). *)
Record kernel_ok (k : kernel) : Prop := {
  ok_link : link_ok (k_link k);
  ok_proc : ptr_ok NPROC (c_proc (k_cpu k));
  ok_idt : length (k_idt k) = 256%nat;
  ok_mem : mem_ok (k_mem k);
  ok_ptable : length (k_ptable k) = NPROC /\ Forall proc_ok (k_ptable k);
  ok_initproc : ptr_ok NPROC (k_initproc k);
  ok_nextpid : sint (k_nextpid k);
  ok_randstate : uint (k_randstate k);
  ok_ticks : uint (k_ticks k);
  ok_cons : cons_ok (k_cons k);
  ok_bcache : length (k_bcache k) = S NBUF /\ Forall buf_ok (k_bcache k);
  ok_disk : disk_ok k /\ map_Forall (fun _ => array_ok 512) (k_disk k);
  ok_queue : ptr_ok (S NBUF) (id_queue (k_ide k));
  ok_log : log_ok (k_log k);
  ok_sb : sb_ok (k_sb k);
  ok_icache : length (k_icache k) = NINODE /\ Forall dinode_ok (k_icache k);
  ok_ftable : length (k_ftable k) = NFILE /\ Forall file_ok (k_ftable k);
  ok_pipes : map_Forall (fun _ => pipe_ok) (k_pipes k)
}.

(** What the rest of the machine does keeps the types. *)
Definition ok_schedule (e : schedule kernel) : Prop := Forall (fun f => forall k, kernel_ok k -> kernel_ok (f k)) e.

(** ** Typed computations *)

(** Run on a well-formed state, [m] leaves one, however it ends, and what it returns satisfies
    [P]. *)
Definition typed {A} (m : K A) (P : A -> Prop) : Prop :=
  forall e k, ok_schedule e -> kernel_ok k ->
    match m e k with
    | Ok a e' k' => P a /\ ok_schedule e' /\ kernel_ok k'
    | Panic _ k' | Hang k' => kernel_ok k'
    end.

Definition any {A} (a : A) : Prop := True.

Lemma typed_weaken {A} (m : K A) P Q : typed m P -> (forall a, P a -> Q a) -> typed m Q.
Proof. intros Hm HPQ e k He Hk. specialize (Hm e k He Hk). destruct (m e k); [|done|done]. naive_solver. Qed.

Lemma typed_ret {A} (a : A) (P : A -> Prop) : P a -> typed (ret a) P.
Proof. by intros Ha e k He Hk. Qed.
Lemma typed_gets {A} (f : kernel -> A) (P : A -> Prop) : (forall k, kernel_ok k -> P (f k)) -> typed (gets f) P.
Proof. intros Hf e k He Hk. split; [by apply Hf|done]. Qed.
Lemma typed_panic {A} msg (P : A -> Prop) : typed (panic msg) P.
Proof. by intros e k He Hk. Qed.
Lemma typed_undefined {A} (P : A -> Prop) : typed undefined P.
Proof. apply typed_panic. Qed.
Lemma typed_hang {A} (P : A -> Prop) : typed hang P.
Proof. by intros e k He Hk. Qed.
Lemma typed_modify f (P : unit -> Prop) : (forall k, kernel_ok k -> kernel_ok (f k)) -> P tt -> typed (modify f) P.
Proof. intros Hf HP e k He Hk. split; [done|]. split; [done|by apply Hf]. Qed.
Lemma typed_interfere : typed interfere any.
Proof. intros [|f e] k He Hk; [done|]. apply Forall_cons in He as [Hf He]. split; [done|]. split; [done|by apply Hf]. Qed.

Lemma typed_bind {A B} (m : K A) (g : A -> K B) P Q : typed m P -> (forall a, P a -> typed (g a) Q) -> typed (bind m g) Q.
Proof.
  intros Hm Hg e k He Hk. unfold bind. specialize (Hm e k He Hk). destruct (m e k) as [a e' k'| |]; [|done|done].
  destruct Hm as (Ha & He' & Hk'). by apply Hg.
Qed.

Lemma typed_bind_ret {A B} (a : A) (g : A -> K B) Q : typed (g a) Q -> typed (bind (ret a) g) Q.
Proof. done. Qed.

Lemma typed_when b m : typed m any -> typed (when b m) any.
Proof. intros Hm. destruct b; [done|by apply typed_ret]. Qed.

Lemma typed_for_each {I R} (l : list I) (body : I -> K (option R)) (P : R -> Prop) :
  (forall i, i ∈ l -> typed (body i) (opt_ok P)) ->
  typed (for_each l body) (opt_ok P).
Proof.
  intros Hb. induction l as [|i l IH]; cbn [for_each]; [by apply typed_ret|].
  eapply typed_bind; [apply Hb; left|]. intros [r|] Hr; [by apply typed_ret|]. apply IH. intros j Hj. apply Hb. by right.
Qed.

Lemma typed_for_all {I} (l : list I) (body : I -> K unit) : (forall i, i ∈ l -> typed (body i) any) -> typed (for_all l body) any.
Proof.
  intros Hb. induction l as [|i l IH]; cbn [for_all]; [by apply typed_ret|].
  eapply typed_bind; [apply Hb; left|]. intros _ _. apply IH. intros j Hj. apply Hb. by right.
Qed.

Lemma typed_for_while n i (cond : nat -> K bool) (body : nat -> K unit) :
  (forall i, typed (cond i) any) -> (forall i, typed (body i) any) -> typed (for_while n i cond body) any.
Proof.
  intros Hc Hb. revert i. induction n as [|n IH]; intros i; cbn [for_while]; [apply typed_hang|].
  eapply typed_bind; [apply Hc|]. intros [] _; [|by apply typed_ret]. eapply typed_bind; [apply Hb|]. intros _ _. apply IH.
Qed.

(** A loop with the invariant [I]. *)
Definition sum_ok {A R} (I : A -> Prop) (P : R -> Prop) (s : A + R) : Prop :=
  match s with inl a => I a | inr r => P r end.

Lemma typed_loop_fuel {A R} (I : A -> Prop) (P : R -> Prop) n (body : A -> K (A + R)) a :
  I a -> (forall a, I a -> typed (body a) (sum_ok I P)) -> typed (loop_fuel n body a) P.
Proof.
  intros Ha Hb. revert a Ha. induction n as [|n IH]; intros a Ha; cbn [loop_fuel]; [apply typed_hang|].
  eapply typed_bind; [by apply Hb|]. intros [a'|r] Hr; [by apply IH|by apply typed_ret].
Qed.

Lemma typed_loop_sched {A R} (I : A -> Prop) (P : R -> Prop) (body : A -> K (A + R)) a :
  I a -> (forall a, I a -> typed (body a) (sum_ok I P)) -> typed (loop_sched body a) P.
Proof. intros Ha Hb e k He Hk. by apply (typed_loop_fuel I P). Qed.

(** ** Assignments and reads *)

Lemma alter_ok {A} (P : A -> Prop) f i (l : list A) n :
  (forall x, P x -> P (f x)) -> length l = n /\ Forall P l -> length (alter f i l) = n /\ Forall P (alter f i l).
Proof.
  intros Hf [Hn Hl]. split; [by rewrite length_alter|]. apply Forall_lookup. intros j x Hx.
  destruct (decide (i = j)) as [->|Hne].
  - rewrite list_lookup_alter_eq in Hx. destruct (l !! j) as [y|] eqn:E; [|done]. injection Hx as <-.
    by apply Hf, (Forall_lookup_1 _ _ _ _ Hl E).
  - rewrite list_lookup_alter_ne in Hx by done. by eapply Forall_lookup_1.
Qed.

Lemma typed_upd_proc i f : (forall p, proc_ok p -> proc_ok (f p)) -> typed (upd_proc i f) any.
Proof. intros Hf. apply typed_modify; [|done]. intros k []. split; try done. by apply alter_ok. Qed.
Lemma typed_upd_buf i f : (forall b, buf_ok b -> buf_ok (f b)) -> typed (upd_buf i f) any.
Proof. intros Hf. apply typed_modify; [|done]. intros k []. split; try done. by apply alter_ok. Qed.
Lemma typed_upd_inode i f : (forall b, dinode_ok b -> dinode_ok (f b)) -> typed (upd_inode i f) any.
Proof. intros Hf. apply typed_modify; [|done]. intros k []. split; try done. by apply alter_ok. Qed.
Lemma typed_upd_file i f : (forall b, file_ok b -> file_ok (f b)) -> typed (upd_file i f) any.
Proof. intros Hf. apply typed_modify; [|done]. intros k []. split; try done. by apply alter_ok. Qed.
Lemma typed_upd_pipe p f : (forall b, pipe_ok b -> pipe_ok (f b)) -> typed (upd_pipe p f) any.
Proof.
  intros Hf. apply typed_modify; [|done]. intros k []. split; try done. cbn. intros q pp.
  rewrite lookup_alter_Some. intros [(<- & pp' & Hp & ->)|[_ Hp]]; [apply Hf|]; by eapply ok_pipes0.
Qed.
Lemma typed_upd_log f : (forall l, log_ok l -> log_ok (f l)) -> typed (upd_log f) any.
Proof. intros Hf. apply typed_modify; [|done]. intros k []. split; try done. by apply Hf. Qed.
Lemma typed_upd_cons f : (forall l, cons_ok l -> cons_ok (f l)) -> typed (upd_cons f) any.
Proof. intros Hf. apply typed_modify; [|done]. intros k []. split; try done. by apply Hf. Qed.
Lemma typed_upd_cpu f : (forall c, ptr_ok NPROC (c_proc c) -> ptr_ok NPROC (c_proc (f c))) -> typed (upd_cpu f) any.
Proof. intros Hf. apply typed_modify; [|done]. intros k []. split; try done. by apply Hf. Qed.
Lemma typed_upd_ide f :
  (forall c, ptr_ok (S NBUF) (id_queue c) -> ptr_ok (S NBUF) (id_queue (f c))) -> typed (upd_ide f) any.
Proof. intros Hf. apply typed_modify; [|done]. intros k []. split; try done. by apply Hf. Qed.
Lemma typed_upd_hw f : typed (upd_hw f) any.
Proof. apply typed_modify; [|done]. intros k []. by split. Qed.
Lemma typed_set_mem f : (forall m, mem_ok m -> mem_ok (f m)) -> typed (modify (fun k => set_k_mem (f (k_mem k)) k)) any.
Proof. intros Hf. apply typed_modify; [|done]. intros k []. split; try done. by apply Hf. Qed.

Lemma default_ok {A} (P : A -> Prop) (d : A) i (l : list A) : P d -> Forall P l -> P (default d (l !! i)).
Proof. intros Hd Hl. destruct (l !! i) eqn:E; [by eapply Forall_lookup_1|done]. Qed.

Lemma replicate_array n : array_ok n (replicate n 0).
Proof. split; [apply length_replicate|apply replicate_bytes]. Qed.

Lemma proc0_ok : proc_ok proc0.
Proof.
  split; cbn -[replicate NOFILE]; try done; try lia; [|apply (replicate_array 16)].
  split; [apply length_replicate|by apply Forall_replicate].
Qed.
Lemma buf0_ok : buf_ok buf0.
Proof. split; cbn -[replicate NBUF]; try done; try lia. apply replicate_array. Qed.
Lemma inode0_ok : dinode_ok inode0.
Proof. split; [by rewrite !Forall_cons|]. split; [done|]. split; [done|]. apply (Forall_replicate _ 13 0). lia. Qed.
Lemma file0_ok : file_ok file0.
Proof. by split. Qed.
Lemma pipe0_ok : pipe_ok pipe0.
Proof. split; [apply (replicate_array 512)|done..]. Qed.

Lemma typed_get_proc i : typed (get_proc i) proc_ok.
Proof. apply typed_gets. intros k Hk. unfold proc_at. apply default_ok; [apply proc0_ok|apply Hk]. Qed.
Lemma typed_get_buf i : typed (get_buf i) buf_ok.
Proof. apply typed_gets. intros k Hk. unfold buf_at. apply default_ok; [apply buf0_ok|apply Hk]. Qed.
Lemma typed_get_inode i : typed (get_inode i) dinode_ok.
Proof. apply typed_gets. intros k Hk. unfold inode_at. apply default_ok; [apply inode0_ok|apply Hk]. Qed.
Lemma typed_get_file i : typed (get_file i) file_ok.
Proof. apply typed_gets. intros k Hk. unfold file_at. apply default_ok; [apply file0_ok|apply Hk]. Qed.
Lemma typed_get_pipe p : typed (get_pipe p) pipe_ok.
Proof.
  apply typed_gets. intros k Hk. unfold pipe_at. destruct (k_pipes k !! p) eqn:E; [|apply pipe0_ok]. by eapply (ok_pipes k Hk).
Qed.
Lemma typed_get_log : typed get_log log_ok.
Proof. apply typed_gets. apply ok_log. Qed.
Lemma typed_gets_cons : typed (gets k_cons) cons_ok.
Proof. apply typed_gets. apply ok_cons. Qed.
Lemma typed_gets_sb : typed (gets k_sb) sb_ok.
Proof. apply typed_gets. apply ok_sb. Qed.
Lemma typed_gets_link : typed (gets k_link) link_ok.
Proof. apply typed_gets. apply ok_link. Qed.
Lemma typed_gets_mem : typed (gets k_mem) mem_ok.
Proof. apply typed_gets. apply ok_mem. Qed.
Lemma typed_gets_initproc : typed (gets k_initproc) (ptr_ok NPROC).
Proof. apply typed_gets. apply ok_initproc. Qed.
Lemma typed_gets_nextpid : typed (gets k_nextpid) (fun v => sint v).
Proof. apply typed_gets. apply ok_nextpid. Qed.
Lemma typed_gets_proc : typed (gets (fun k => c_proc (k_cpu k))) (ptr_ok NPROC).
Proof. apply typed_gets. apply ok_proc. Qed.
Lemma typed_gets_cpu : typed (gets k_cpu) (fun c => ptr_ok NPROC (c_proc c)).
Proof. apply typed_gets. apply ok_proc. Qed.
Lemma typed_gets_queue : typed (gets (fun k => id_queue (k_ide k))) (ptr_ok (S NBUF)).
Proof. apply typed_gets. apply ok_queue. Qed.
Lemma typed_gets_any {A} (f : kernel -> A) : typed (gets f) any.
Proof. by apply typed_gets. Qed.
Lemma typed_curproc : typed curproc (fun i => (i < NPROC)%nat).
Proof. eapply typed_bind; [apply typed_gets_proc|]. intros [p|] Hp; [by apply typed_ret|apply typed_panic]. Qed.

(** ** Automation

    The database [typed] has the type of every function; [ok_side] proves what is to be shown of
    numbers, arrays and records. *)

Lemma array_bytes n l : array_ok n l -> bytes_ok l.
Proof. by intros []. Qed.
Lemma off_nonneg f : file_ok f -> 0 <= f_off f.
Proof. intros Hf. apply (fo_off _ Hf). Qed.
Lemma insert_array n l i c : array_ok n l -> 0 <= c < 256 -> array_ok n (<[i := c]> l).
Proof. intros [Hn Hl] Hc. split; [by rewrite length_insert|by apply Forall_insert]. Qed.
Lemma splice_array n off new l :
  array_ok n l -> bytes_ok new -> (off + length new <= n)%nat -> array_ok n (splice off new l).
Proof. intros [Hn Hl] Hnew Hle. split; [by rewrite length_splice; lia|by apply splice_bytes_ok]. Qed.
Lemma put32_array n off v l : array_ok n l -> (off + 4 <= n)%nat -> array_ok n (put32 off v l).
Proof. intros Hl Hle. apply splice_array; [done|apply le_bytes_ok|by rewrite length_le_bytes]. Qed.
Lemma put16_array n off v l : array_ok n l -> (off + 2 <= n)%nat -> array_ok n (put16 off v l).
Proof. intros Hl Hle. apply splice_array; [done|apply le_bytes_ok|by rewrite length_le_bytes]. Qed.
Lemma insert_length {A} n (l : list A) i x : length l = n -> length (<[i := x]> l) = n.
Proof. by rewrite length_insert. Qed.
Lemma splice_length {A} n off (new l : list A) :
  length l = n -> (off + length new <= n)%nat -> length (splice off new l) = n.
Proof. intros <- Hle. by apply length_splice. Qed.
Lemma opt_any {A} (o : option A) : opt_ok any o.
Proof. by destruct o. Qed.
Lemma opt_none {A} (P : A -> Prop) : opt_ok P None.
Proof. done. Qed.
Lemma nth_byte i l : bytes_ok l -> 0 <= nth i l 0 < 256.
Proof. intros Hl. rewrite nth_lookup. apply (default_ok (fun b => 0 <= b < 256)); [lia|done]. Qed.
Lemma insert_ptrs n l i o :
  length l = n /\ Forall (ptr_ok NFILE) l -> ptr_ok NFILE o -> length (<[i := o]> l) = n /\ Forall (ptr_ok NFILE) (<[i := o]> l).
Proof. intros [Hn Hl] Ho. split; [by rewrite length_insert|by apply Forall_insert]. Qed.
Lemma lookup_ptr l i f : length l = NOFILE /\ Forall (ptr_ok NFILE) l -> mjoin (l !! i) = Some f -> (f < NFILE)%nat.
Proof.
  intros [_ Hl] Hf. destruct (l !! i) as [o|] eqn:E; [|done]. cbn in Hf. subst o. exact (Forall_lookup_1 _ _ _ _ Hl E).
Qed.
Lemma cwd_lt p n : proc_ok p -> p_cwd p = Some n -> (n < NINODE)%nat.
Proof. intros Hp E. pose proof (po_cwd _ Hp) as Hc. by rewrite E in Hc. Qed.
Lemma ip_lt f n : file_ok f -> f_ip f = Some n -> (n < NINODE)%nat.
Proof. intros Hf E. pose proof (fo_ip _ Hf) as Hc. by rewrite E in Hc. Qed.
Lemma seq_lt i n : i ∈ seq 0 n -> (i < n)%nat.
Proof. rewrite elem_of_seq. lia. Qed.
Lemma all_procs_lt i : i ∈ all_procs -> (i < NPROC)%nat.
Proof. apply seq_lt. Qed.
Lemma safestrcpy_array n s t : array_ok (S n) s -> bytes_ok t -> array_ok (S n) (safestrcpy s t (S n)).
Proof.
  intros Hs Ht. apply splice_array; [done| |apply safestrcpy_bytes_spec].
  clear s Hs. revert t Ht. induction n as [|n IH]; intros t Ht; [by repeat constructor|].
  assert (0 <= hd 0 t < 256) as Hc by (destruct Ht; cbn; lia).
  change (bytes_ok (if nz (hd 0 t) then hd 0 t :: safestrcpy_bytes (tl t) (S n) else [hd 0 t; 0])).
  destruct (nz _); repeat constructor; try lia. apply IH. destruct Ht; [constructor|done].
Qed.

Create HintDb typed discriminated.
Create HintDb ok discriminated.
#[export] Hint Constants Opaque : typed ok.
#[export] Hint Variables Opaque : typed ok.

#[export] Hint Resolve array_bytes le_bytes_ok splice_bytes_ok slice_bytes_ok take_bytes drop_bytes app_bytes
  replicate_bytes nil_bytes cons_bytes replicate_array insert_array splice_array insert_length splice_length
  put32_array put16_array opt_any opt_none elem_byte nth_byte insert_ptrs lookup_ptr cwd_lt ip_lt seq_lt
  all_procs_lt safestrcpy_array get32_range u32_range u32_nonneg off_nonneg s32_range s16_range u8_range u16_range
  po_sz po_pid po_parent po_ofile po_cwd po_name po_scount bo_blockno bo_prev bo_next bo_qnext bo_data fo_ip fo_off
  pi_data pi_nread pi_nwrite co_buf co_crt co_pos co_r co_w co_e : ok.

#[export] Hint Extern 5 (_ <= _)%nat => lia : ok.
#[export] Hint Extern 5 (_ < _)%nat => lia : ok.
#[export] Hint Extern 5 (_ <= _ < _) => lia : ok.
#[export] Hint Extern 5 (_ <= _) => lia : ok.

Ltac red_fields :=
  cbn [
    p_sz p_pgdir p_kstack p_state p_pid p_parent p_tf p_context p_chan p_killed p_ofile p_cwd p_name p_scount
    p_ticket b_flags b_dev b_blockno b_prev b_next b_qnext b_data i_dev i_inum i_ref i_flags i_type i_major
    i_minor i_nlink i_size i_addrs f_type f_ref f_readable f_writable f_pipe f_ip f_off pp_data pp_nread
    pp_nwrite pp_readopen pp_writeopen cs_locking cs_panicked cs_pos cs_crt cs_uart cs_uart_out cs_uart_in
    cs_shift cs_kbd cs_buf cs_r cs_w cs_e set_p_sz set_p_pgdir set_p_kstack set_p_state set_p_pid set_p_parent
    set_p_tf set_p_context set_p_chan set_p_killed set_p_ofile set_p_cwd set_p_name set_p_scount set_p_ticket
    set_b_flags set_b_dev set_b_blockno set_b_prev set_b_next set_b_qnext set_b_data set_i_dev set_i_inum
    set_i_ref set_i_flags set_i_type set_i_major set_i_minor set_i_nlink set_i_size set_i_addrs set_f_type
    set_f_ref set_f_readable set_f_writable set_f_pipe set_f_ip set_f_off set_pp_data set_pp_nread set_pp_nwrite
    set_pp_readopen set_pp_writeopen set_cs_locking set_cs_panicked set_cs_pos set_cs_crt set_cs_uart
    set_cs_uart_out set_cs_uart_in set_cs_shift set_cs_kbd set_cs_buf set_cs_r set_cs_w set_cs_e].
Ltac split_hyps :=
  cbn [fst snd opt_ok sum_ok] in *;
  repeat match goal with
  | H : _ /\ _ |- _ => destruct H
  | H : any _ |- _ => clear H
  end.
Ltac ok_side :=
  intros; cbv beta; bool_to_prop; split_hyps;
  first
    [ exact I | assumption | lia
    | solve [eauto 5 with ok nocore]
    | match goal with
      | |- opt_ok _ (if ?b then _ else _) => destruct b; cbn [opt_ok]; solve [exact I | eauto 5 with ok nocore]
      | |- proc_ok (_ ?p) => split; red_fields; solve [eauto 5 with ok nocore | lia | done]
      | |- buf_ok _ => split; red_fields; solve [eauto 5 with ok nocore | lia | done]
      | |- dinode_ok _ =>
          unfold dinode_ok in *; red_fields; rewrite ?Forall_cons in *; split_hyps; split_and!;
          solve [assumption | lia | apply s16_range | eauto 5 with ok nocore | constructor]
      | |- file_ok _ => split; red_fields; solve [eauto 5 with ok nocore | lia | done]
      | |- pipe_ok _ => split; red_fields; solve [eauto 5 with ok nocore | lia | done]
      | |- cons_ok _ => split; red_fields; solve [eauto 5 with ok nocore | lia | done]
      | H : kernel_ok _ |- kernel_ok _ =>
          destruct H; split; solve [done | cbn; eauto 5 with ok nocore | cbn; lia]
      end
    | solve [split_and!; eauto 5 with ok nocore; lia]
    | done ].

#[export] Hint Extern 9 (bytes_ok _) => solve [ok_side] : typed.
#[export] Hint Extern 9 (array_ok _ _) => solve [ok_side] : typed.
#[export] Hint Extern 9 (opt_ok _ _) => solve [ok_side] : typed.
#[export] Hint Extern 9 (_ <= _) => solve [ok_side] : typed.
#[export] Hint Extern 9 (_ < _) => solve [ok_side] : typed.
#[export] Hint Extern 9 (_ <= _ < _) => solve [ok_side] : typed.
#[export] Hint Extern 9 (_ < _)%nat => solve [ok_side] : typed.
#[export] Hint Extern 9 (_ <= _)%nat => solve [ok_side] : typed.
#[export] Hint Extern 9 (proc_ok _) => solve [ok_side] : typed.
#[export] Hint Extern 9 (buf_ok _) => solve [ok_side] : typed.
#[export] Hint Extern 9 (dinode_ok _) => solve [ok_side] : typed.
#[export] Hint Extern 9 (file_ok _) => solve [ok_side] : typed.
#[export] Hint Extern 9 (pipe_ok _) => solve [ok_side] : typed.
#[export] Hint Extern 9 (log_ok _) => solve [ok_side] : typed.
#[export] Hint Extern 9 (cons_ok _) => solve [ok_side] : typed.

#[export] Hint Resolve typed_interfere typed_upd_proc typed_upd_buf typed_upd_inode typed_upd_file typed_upd_pipe
  typed_upd_log typed_upd_cons typed_upd_cpu typed_upd_ide typed_upd_hw typed_get_proc typed_get_buf typed_get_inode
  typed_get_file typed_get_pipe typed_get_log typed_gets_cons typed_gets_sb typed_gets_link typed_gets_mem
  typed_gets_initproc typed_gets_nextpid typed_gets_proc typed_gets_cpu typed_gets_queue typed_curproc : typed.
#[export] Hint Resolve typed_gets_any | 100 : typed.

Ltac typed_call := solve [eauto 4 with typed nocore].
Ltac typed_step :=
  first
    [ progress cbv beta zeta
    | match goal with
      | |- typed (bind (ret _) _) _ => apply typed_bind_ret
      | |- typed (bind _ _) _ =>
          first [ eapply typed_bind; [typed_call|intros ? ?; split_hyps] | typed_branch
                | apply (typed_bind _ _ any); [|intros ? _] ]
      | |- typed (when _ _) _ => apply typed_weaken with any; [apply typed_when|solve [ok_side]]
      | |- typed (for_all _ _) _ => apply typed_weaken with any; [apply typed_for_all; intros|solve [ok_side]]
      | |- typed (for_lh _) _ => unfold for_lh
      | |- typed (for_while _ _ _ _) _ => apply typed_weaken with any; [apply typed_for_while; intros|solve [ok_side]]
      | |- typed (for_each _ _) (opt_ok _) => apply typed_for_each; intros
      | |- typed (for_each _ _) any => apply typed_weaken with (opt_ok any); [apply typed_for_each; intros|done]
      | |- typed (loop_fuel _ _ _) _ => apply (typed_loop_fuel any); [exact I|intros ? _]
      | |- typed (loop_sched _ _) _ => apply (typed_loop_sched any); [exact I|intros ? _]
      | |- typed (ret _) _ => apply typed_ret; solve [ok_side]
      | |- typed (panic _) _ => apply typed_panic
      | |- typed undefined _ => apply typed_undefined
      | |- typed hang _ => apply typed_hang
      | |- typed (modify _) _ => apply typed_modify; solve [ok_side]
      | |- typed (match (if ?b then _ else _) with _ => _ end) _ => destruct b eqn:?
      | |- typed (match ?x with _ => _ end) _ => destruct x eqn:?; split_hyps
      | |- typed _ _ => eapply typed_weaken; [typed_call|solve [ok_side]]
      end ]
with typed_branch :=
  match goal with
  | |- typed (@bind _ Z _ (match _ with _ => _ end) _) _ =>
      apply (typed_bind _ _ (fun v => uint v)); [solve [typed]|intros ? ?; split_hyps]
  | |- typed (@bind _ nat _ (match _ with _ => _ end) _) _ =>
      apply (typed_bind _ _ (fun i => (i < NINODE)%nat)); [solve [typed]|intros ? ?; split_hyps]
  | |- typed (@bind _ (option nat) _ (match _ with _ => _ end) _) _ =>
      apply (typed_bind _ _ (ptr_ok NINODE)); [solve [typed]|intros ? ?; split_hyps]
  | |- typed (@bind _ (list Z * Z) _ (match _ with _ => _ end) _) _ =>
      apply (typed_bind _ _ (fun r => bytes_ok r.1)); [solve [typed]|intros ? ?; split_hyps]
  | |- typed (@bind _ (option nat) _ (for_each _ _) _) _ =>
      first [ apply (typed_bind _ _ (ptr_ok NFILE)); [solve [typed]|intros ? ?; split_hyps]
            | apply (typed_bind _ _ (ptr_ok NPROC)); [solve [typed]|intros ? ?; split_hyps] ]
  end
with typed := repeat typed_step.

(** The first call of a computation. *)
Ltac call := cbv zeta beta; eapply typed_bind; [typed_call|intros ? ?; split_hyps].

(** From the run of a computation in a state back to its type. *)
Ltac as_typed :=
  match goal with
  | He : ok_schedule ?e, Hk : kernel_ok ?k |- match ?m ?e ?k with Ok a _ _ => ?P a /\ _ | Panic _ _ | Hang _ => _ end =>
      cut (typed m any); [let H := fresh in intros H; exact (H e k He Hk)|]
  end.

(** *** Memory *)

Lemma store_mem_ok m a v : mem_ok m -> 0 <= v < 256 -> mem_ok (store m a v).
Proof. intros Hm Hv x. unfold store. destruct (x =? a); [done|apply Hm]. Qed.
Lemma store32_ok m a v : mem_ok m -> mem_ok (store32 m a v).
Proof. intros Hm. unfold store32. repeat apply store_mem_ok; try apply u8_range. done. Qed.
Lemma memset_ok m a c n : mem_ok m -> mem_ok (memset m a c n).
Proof.
  intros Hm. unfold memset. destruct (_ && _).
  - generalize (n / 4)%nat. cbv zeta. intros i. revert m a Hm. induction i as [|i IH]; intros m a Hm; [done|].
    apply IH. by apply store32_ok.
  - revert m a Hm. induction n as [|n IH]; intros m a Hm; [done|]. apply IH, store_mem_ok; [done|apply u8_range].
Qed.
Lemma memmove_ok m dst src n : mem_ok m -> mem_ok (memmove m dst src n).
Proof. intros Hm a. rewrite memmove_spec. destruct (_ && _); apply Hm. Qed.
Lemma store_bytes_ok m a l : mem_ok m -> bytes_ok l -> mem_ok (store_bytes m a l).
Proof. intros Hm Hl. revert m a Hm. induction Hl; intros m a Hm; [done|]. apply IHHl. by apply store_mem_ok. Qed.
Lemma load32_range m a : mem_ok m -> uint (load32 m a).
Proof.
  intros Hm. unfold load32. apply (le_val_range [m a; m (a + 1); m (a + 2); m (a + 3)]).
  repeat (apply Forall_cons; split; [apply Hm|]). constructor.
Qed.
#[export] Hint Resolve store_mem_ok store32_ok memset_ok memmove_ok store_bytes_ok : ok.

End Types.
