(* ===== verification/Typed.v ===== *)
(** The kernel is well typed: every function of it keeps the types of the state (Types.v), so that they
    hold in every state of a machine that runs it, from [main] on (all of the kernel's files). *)

From S2P Require Import Prelude Bytes Machine Demo Cstring Spinlock Consout Kbd Kalloc Hw Sleep Disk Ide.
From S2P Require Import Bio Log Fs Vm Pipe File Proc Console Syscall Sysproc Exec Sysfile Trap Main Types.
Import Cstring Spinlock Consout Kbd Kalloc Hw Sleep Bio Log Fs Vm Pipe File Proc Console Syscall Sysproc Exec Sysfile Trap Main.
Import Types.

Module Typed.

(** ** The functions of the kernel *)

(** *** spinlock.c *)

Lemma typed_initlock l name : typed (initlock l name) any.
Proof. unfold initlock. typed. Qed.
Lemma typed_holding l : typed (holding l) any.
Proof. unfold holding. typed. Qed.
Lemma typed_readeflags_if : typed readeflags_if any.
Proof. unfold readeflags_if. typed. Qed.
Lemma typed_cli : typed cli any.
Proof. unfold cli. typed. Qed.
Lemma typed_sti : typed sti any.
Proof. unfold sti. typed. Qed.
#[local] Hint Resolve typed_initlock typed_holding typed_readeflags_if typed_cli typed_sti : typed.
Lemma typed_pushcli : typed pushcli any.
Proof. unfold pushcli. typed. Qed.
Lemma typed_popcli : typed popcli any.
Proof. unfold popcli. typed. Qed.
Lemma typed_xchg_locked l v : typed (xchg_locked l v) any.
Proof. unfold xchg_locked. typed. Qed.
Lemma typed_set_lock_cpu l c : typed (set_lock_cpu l c) any.
Proof. unfold set_lock_cpu. typed. Qed.
#[local] Hint Resolve typed_pushcli typed_popcli typed_xchg_locked typed_set_lock_cpu : typed.
Lemma typed_acquire l : typed (acquire l) any.
Proof. unfold acquire. typed. Qed.
Lemma typed_release l : typed (release l) any.
Proof. unfold release. typed. Qed.
#[local] Hint Resolve typed_acquire typed_release : typed.

(** *** console.c, output *)

Lemma typed_uartputc c : typed (uartputc c) any.
Proof. unfold uartputc. typed. Qed.
Lemma typed_cgaputc c : typed (cgaputc c) any.
Proof.
  unfold cgaputc. typed; bool_to_prop; apply typed_upd_cons; intros q Hq; split; cbn -[replicate]; try apply Hq;
    apply splice_length; try ok_side.
  - unfold slice. rewrite length_take. lia.
  - rewrite length_replicate. lia.
Qed.
#[local] Hint Resolve typed_uartputc typed_cgaputc : typed.
Lemma typed_consputc c : typed (consputc c) any.
Proof. unfold consputc. typed. Qed.
#[local] Hint Resolve typed_consputc : typed.
Lemma typed_printint xx base sign : typed (printint xx base sign) any.
Proof. unfold printint. typed. Qed.
#[local] Hint Resolve typed_printint : typed.
Lemma typed_format fmt args : typed (format fmt args) any.
Proof.
  remember (length fmt) as n eqn:Hn. assert (length fmt <= n)%nat as Hle by lia. clear Hn. revert fmt args Hle.
  induction n as [|n IH]; intros [|c [|c2 fmt]] args Hle; cbn [length] in Hle; cbn [format]; try lia; typed.
  all: apply IH; cbn [length] in *; lia.
Qed.
#[local] Hint Resolve typed_format : typed.
Lemma typed_cprintf fmt args : typed (cprintf fmt args) any.
Proof. unfold cprintf. typed. Qed.
#[local] Hint Resolve typed_cprintf : typed.

(** *** kalloc.c *)

Lemma typed_ld32 a : typed (ld32 a) (fun v => uint v).
Proof. apply typed_gets. intros k Hk. apply load32_range, Hk. Qed.
Lemma typed_st32 a v : typed (st32 a v) any.
Proof. apply (typed_set_mem (fun m => store32 m a v)). intros m Hm. by apply store32_ok. Qed.
Lemma typed_mem_set a c n : typed (mem_set a c n) any.
Proof. apply (typed_set_mem (fun m => memset m a c n)). intros m Hm. by apply memset_ok. Qed.
#[local] Hint Resolve typed_ld32 typed_st32 typed_mem_set : typed.
Lemma typed_kfree v : typed (kfree v) any.
Proof. unfold kfree. typed. Qed.
Lemma typed_kalloc : typed kalloc any.
Proof. unfold kalloc. typed. Qed.
#[local] Hint Resolve typed_kfree typed_kalloc : typed.

(** *** proc.c, sleeping *)

Lemma typed_swtch : typed swtch any.
Proof. unfold swtch. typed. Qed.
#[local] Hint Resolve typed_swtch : typed.
Lemma typed_sched : typed sched any.
Proof. unfold sched. typed. Qed.
#[local] Hint Resolve typed_sched : typed.
Lemma typed_yield : typed Sleep.yield any.
Proof. unfold Sleep.yield. typed. Qed.
Lemma typed_sleep ch lk : typed (sleep ch lk) any.
Proof. unfold sleep. typed. Qed.
Lemma typed_wakeup1 ch : typed (wakeup1 ch) any.
Proof. unfold wakeup1. typed. Qed.
#[local] Hint Resolve typed_yield typed_sleep typed_wakeup1 : typed.
Lemma typed_wakeup ch : typed (wakeup ch) any.
Proof. unfold wakeup. typed. Qed.
Lemma typed_kill pid : typed (kill pid) any.
Proof. unfold kill. typed. Qed.
#[local] Hint Resolve typed_wakeup typed_kill : typed.

(** *** ide.c and memide.c *)

Lemma typed_status : typed Ide.status any.
Proof. unfold Ide.status. typed. Qed.
Lemma typed_ide_outb port data : typed (Ide.ide_outb port data) any.
Proof. unfold Ide.ide_outb. typed. Qed.
Lemma typed_outsl data : typed (Ide.outsl data) any.
Proof. unfold Ide.outsl. typed. Qed.
#[local] Hint Resolve typed_status typed_ide_outb typed_outsl : typed.
Lemma typed_idewait checkerr : typed (Ide.idewait checkerr) any.
Proof. unfold Ide.idewait. typed. Qed.
#[local] Hint Resolve typed_idewait : typed.
Lemma typed_idestart b : typed (Ide.idestart b) any.
Proof. unfold Ide.idestart. typed. Qed.
#[local] Hint Resolve typed_idestart : typed.
Lemma typed_enqueue b : (b < S NBUF)%nat -> typed (Ide.enqueue b) any.
Proof. intros. unfold Ide.enqueue. typed. Qed.
#[local] Hint Resolve typed_enqueue : typed.
Lemma typed_ide_rw b : (b < S NBUF)%nat -> typed (Ide.ide_rw b) any.
Proof. intros. unfold Ide.ide_rw. typed. Qed.
#[local] Hint Resolve typed_ide_rw : typed.

(** A read of a block that the disk has. *)
Lemma disk_block_ok k bno : kernel_ok k -> 0 <= bno < k_disksize k -> array_ok 512 (disk_block k 1 bno).
Proof.
  intros Hk Hb. destruct (ok_disk k Hk) as [Hd Hall]. destruct (Hd bno Hb) as (d & E & _). unfold disk_block. rewrite E.
  by eapply Hall.
Qed.

Lemma put_disk_ok k bno d :
  kernel_ok k -> array_ok 512 d ->
  kernel_ok (set_k_disk (<[(1, bno) := d]> (k_disk k)) (set_k_writes ((1, bno, d) :: k_writes k) k)).
Proof.
  intros [] Hd. split; try done. cbn. destruct ok_disk0 as [Hdisk Hall]. split; [|by apply map_Forall_insert_2].
  intros b Hb. cbn. destruct (decide (b = bno)) as [->|Hne].
  - exists d. rewrite lookup_insert_eq. split; [done|apply Hd].
  - rewrite lookup_insert_ne by congruence. by apply Hdisk.
Qed.

Lemma typed_memide_rw b : typed (Memide.memide_rw b) any.
Proof.
  intros e k He Hk. unfold Memide.memide_rw. unfold get_buf at 1. rewrite gets_eq. pose proof (typed_get_buf b e k He Hk) as [Hbf _].
  set (bf := buf_at k b) in *. destruct (negb _); [done|]. destruct (_ =? _); [done|]. destruct (negb _); [done|].
  rewrite gets_eq. destruct (_ <=? _) eqn:Hsz; [done|]. bool_to_prop. pose proof (bo_blockno _ Hbf) as Hbno. destruct (has _ _).
  - as_typed. typed. bool_to_prop. apply typed_modify; [|done]. intros. apply put_disk_ok; [done|]. ok_side.
  - rewrite bind_bind_eq, gets_eq. pose proof (disk_block_ok k (b_blockno bf) Hk ltac:(lia)) as Hd. as_typed. typed.
Qed.
#[local] Hint Resolve typed_memide_rw : typed.

(** What the disk driver and the devices promise. *)
Class TypedDriver `{DiskDriver} : Prop :=
  iderw_typed b : (b < S NBUF)%nat -> typed (iderw b) any.
Class TypedDevices `{Devsw} : Prop := {
  dev_read_typed major f ip n : dev_read major = Some f -> typed (f ip n) (fun r => bytes_ok r.1);
  dev_write_typed major f ip buf n : dev_write major = Some f -> bytes_ok buf -> typed (f ip buf n) any
}.

Section driver.
Context `{TypedDriver}.
#[local] Hint Resolve iderw_typed : typed.

(** *** bio.c *)

Lemma head_lt : (head < S NBUF)%nat.
Proof. unfold head. lia. Qed.
#[local] Hint Resolve head_lt : ok.
Lemma typed_scan_next test : typed (scan_next test) (ptr_ok (S NBUF)).
Proof.
  unfold scan_next. call. apply (typed_loop_fuel (fun b => (b < S NBUF)%nat)); [ok_side|]. intros b Hb. typed.
Qed.
Lemma typed_scan_prev test : typed (scan_prev test) (ptr_ok (S NBUF)).
Proof.
  unfold scan_prev. call. apply (typed_loop_fuel (fun b => (b < S NBUF)%nat)); [ok_side|]. intros b Hb. typed.
Qed.
#[local] Hint Resolve typed_scan_next typed_scan_prev : typed.
Lemma typed_bget dev blockno : uint blockno -> typed (bget dev blockno) (fun b => (b < S NBUF)%nat).
Proof. intros. unfold bget. typed. Qed.
Lemma typed_brelse b : (b < S NBUF)%nat -> typed (brelse b) any.
Proof. intros. unfold brelse. typed. Qed.
#[local] Hint Resolve typed_bget typed_brelse : typed.
Lemma typed_bread dev blockno : uint blockno -> typed (bread dev blockno) (fun b => (b < S NBUF)%nat).
Proof. intros. unfold bread. typed. Qed.
Lemma typed_bwrite b : (b < S NBUF)%nat -> typed (bwrite b) any.
Proof. intros. unfold bwrite. typed. Qed.
#[local] Hint Resolve typed_bread typed_bwrite : typed.

(** *** log.c *)

Lemma sb_of_ok d : bytes_ok d -> sb_ok (sb_of d).
Proof. intros Hd. repeat (apply Forall_cons; split; [by apply get32_range|]). constructor. Qed.
#[local] Hint Resolve sb_of_ok : ok.
Lemma typed_readsb dev : typed (readsb dev) sb_ok.
Proof. unfold readsb. typed. Qed.
#[local] Hint Resolve typed_readsb : typed.
Lemma typed_get_block i : typed (get_block i) (fun v => sint v /\ (i < 30)%nat).
Proof.
  unfold get_block. eapply typed_bind; [typed_call|intros lg [Hlen Hl]]. destruct (lg_block lg !! i) eqn:E; [|apply typed_undefined].
  apply typed_ret. split; [exact (Forall_lookup_1 _ _ _ _ Hl E)|]. apply lookup_lt_Some in E. rewrite Hlen in E. exact E.
Qed.
Lemma typed_put_block i b : sint b -> typed (put_block i b) any.
Proof.
  intros Hb. unfold put_block. eapply typed_bind; [typed_call|intros lg [Hlen Hl]]. destruct (_ <? _)%nat; [|apply typed_undefined].
  apply typed_upd_log. intros lg' _. split; cbn; [by rewrite length_insert|by apply Forall_insert].
Qed.
#[local] Hint Resolve typed_get_block typed_put_block : typed.
Lemma typed_install_trans : typed install_trans any.
Proof. unfold install_trans. typed. Qed.
Lemma typed_read_head : typed read_head any.
Proof. unfold read_head. typed. Qed.
Lemma typed_write_head : typed write_head any.
Proof. unfold write_head. typed. Qed.
Lemma typed_write_log : typed write_log any.
Proof. unfold write_log. typed. Qed.
Lemma typed_begin_op : typed begin_op any.
Proof. unfold begin_op. typed. Qed.
#[local] Hint Resolve typed_install_trans typed_read_head typed_write_head typed_write_log typed_begin_op : typed.
Lemma typed_commit : typed commit any.
Proof. unfold commit. typed. Qed.
Lemma typed_recover_from_log : typed recover_from_log any.
Proof. unfold recover_from_log. typed. Qed.
#[local] Hint Resolve typed_commit typed_recover_from_log : typed.
Lemma typed_initlog dev : typed (initlog dev) any.
Proof. unfold initlog. typed. Qed.
Lemma typed_end_op : typed end_op any.
Proof. unfold end_op. typed. Qed.
Lemma typed_log_write b : typed (log_write b) any.
Proof. unfold log_write. typed. Qed.
#[local] Hint Resolve typed_initlog typed_end_op typed_log_write : typed.

(** *** fs.c, blocks and inodes *)

Lemma mark_used_ok d bi : array_ok 512 d -> array_ok 512 (mark_used d bi).
Proof.
  intros Hd. apply insert_array; [done|]. apply lor_byte; [apply nth_byte, Hd|]. unfold bit_mask.
  pose proof (Z.mod_pos_bound bi 8 ltac:(lia)) as Hm. rewrite Z.shiftl_1_l. split; [apply Z.pow_nonneg; lia|].
  apply (Z.pow_lt_mono_r 2 _ 8); lia.
Qed.
Lemma mark_free_ok d bi : array_ok 512 d -> array_ok 512 (mark_free d bi).
Proof. intros Hd. apply insert_array; [done|]. apply land_byte, nth_byte, Hd. Qed.

Lemma di_off_le inum : (di_off inum + 64 <= 512)%nat.
Proof. unfold di_off. change IPB with 8. change sizeof_dinode with 64. pose proof (Z.mod_pos_bound inum 8 ltac:(lia)). lia. Qed.
Lemma di_off_le2 inum : (di_off inum + 2 <= 512)%nat.
Proof. pose proof (di_off_le inum). lia. Qed.
Lemma di_off_zero inum : (di_off inum + length (replicate 64 0%Z) <= 512)%nat.
Proof. rewrite length_replicate. apply di_off_le. Qed.
Lemma concat_bytes n l : bytes_ok (concat (le_bytes n <$> l)).
Proof. induction l as [|v l IH]; [constructor|]. cbn [fmap list_fmap concat]. apply app_bytes; [apply le_bytes_ok|done]. Qed.
Lemma store_dinode_ok off ip d :
  array_ok 512 d -> length (i_addrs ip) = 13%nat -> (off + 64 <= 512)%nat -> array_ok 512 (store_dinode off ip d).
Proof.
  intros Hd Ha Hoff. unfold store_dinode. cbv zeta. apply splice_array; [|apply concat_bytes|rewrite length_concat_le; lia].
  apply put32_array; [|lia]. repeat (apply put16_array; [|lia]). done.
Qed.
Lemma load_dinode_ok off d ip : bytes_ok d -> dinode_ok (load_dinode off d ip).
Proof.
  intros Hd. unfold dinode_ok, load_dinode. cbn [i_type i_major i_minor i_nlink i_size i_addrs].
  split; [repeat (apply Forall_cons; split; [apply s16_range|]); constructor|]. split; [by apply get32_range|].
  split; [done|]. apply Forall_fmap, Forall_forall. intros i _. by apply get32_range.
Qed.
Lemma addrs_length ip : dinode_ok ip -> length (i_addrs ip) = 13%nat.
Proof. by intros (_ & _ & ? & _). Qed.
Lemma insert_addrs l i a : Forall (fun a => uint a) l -> uint a -> Forall (fun a => uint a) (<[i := a]> l).
Proof. intros. by apply Forall_insert. Qed.
Lemma BBLOCK_range b sb : uint (BBLOCK b sb).
Proof. apply u32_range. Qed.
Lemma IBLOCK_range b sb : uint (IBLOCK b sb).
Proof. apply u32_range. Qed.
#[local] Hint Resolve BBLOCK_range IBLOCK_range mark_used_ok mark_free_ok di_off_le di_off_le2 di_off_zero
  concat_bytes store_dinode_ok load_dinode_ok addrs_length insert_addrs : ok.

Lemma typed_bzero dev bno : typed (bzero dev bno) any.
Proof. unfold bzero. typed. Qed.
#[local] Hint Resolve typed_bzero : typed.
Lemma scan_bits_range n bi b size d r : scan_bits n bi b size d = Some r -> bi <= r /\ b + r < size.
Proof.
  revert bi. induction n as [|n IH]; intros bi; cbn [scan_bits]; [done|]. destruct (b + bi <? size) eqn:E; cbn [negb]; [|done].
  bool_to_prop. destruct (negb _); [intros [= <-]; lia|]. intros Hr. apply IH in Hr. lia.
Qed.
Lemma sb_size_range sb : sb_ok sb -> uint (sb_size sb).
Proof. unfold sb_ok. rewrite Forall_cons. tauto. Qed.

Lemma typed_balloc dev : typed (balloc dev) (fun b => uint b).
Proof.
  unfold balloc. eapply typed_bind; [typed_call|intros ? _]. apply (typed_loop_fuel (fun b => 0 <= b)); [lia|].
  intros b Hb. typed; bool_to_prop.
  - apply scan_bits_range in Heqo. pose proof (sb_size_range _ H1). typed.
  - apply typed_ret. change (0 <= b + 4096). lia.
Qed.
Lemma typed_bfree dev b : typed (bfree dev b) any.
Proof. unfold bfree. typed. Qed.
#[local] Hint Resolve typed_balloc typed_bfree : typed.
Lemma iget_scan_ok l dev inum empty k :
  Forall (fun i => (i < NINODE)%nat) l -> ptr_ok NINODE empty ->
  sum_ok (fun i => (i < NINODE)%nat) (ptr_ok NINODE) (iget_scan l dev inum empty k).
Proof.
  intros Hl. revert empty. induction Hl as [|i l Hi Hl IH]; intros empty He; cbn [iget_scan]; [done|].
  destruct (_ && _); [done|]. apply IH. destruct empty; [done|]. by destruct (_ =? _).
Qed.
Lemma typed_iget_scan dev inum :
  typed (gets (iget_scan (seq 0 NINODE) dev inum None)) (sum_ok (fun i => (i < NINODE)%nat) (ptr_ok NINODE)).
Proof. apply typed_gets. intros k _. apply iget_scan_ok; [|done]. apply Forall_forall. intros i Hi. by apply seq_lt. Qed.
#[local] Hint Resolve typed_iget_scan : typed.
Lemma typed_iget dev inum : typed (iget dev inum) (fun i => (i < NINODE)%nat).
Proof. unfold iget. typed. Qed.
#[local] Hint Resolve typed_iget : typed.
Lemma typed_ialloc dev type : typed (ialloc dev type) (fun i => (i < NINODE)%nat).
Proof. unfold ialloc. typed. Qed.
Lemma typed_iupdate i : typed (iupdate i) any.
Proof. unfold iupdate. typed. Qed.
Lemma typed_idup i : (i < NINODE)%nat -> typed (idup i) (fun i => (i < NINODE)%nat).
Proof. intros. unfold idup. typed. Qed.
Lemma typed_ilock p : typed (ilock p) any.
Proof. unfold ilock. typed. Qed.
Lemma typed_iunlock p : typed (iunlock p) any.
Proof. unfold iunlock. typed. Qed.
Lemma typed_addr_of i n : typed (addr_of i n) (fun a => uint a).
Proof.
  unfold addr_of. eapply typed_bind; [typed_call|intros ip (_ & _ & _ & Ha)].
  destruct (i_addrs ip !! n) eqn:E; [|apply typed_undefined].
  apply typed_ret. exact (Forall_lookup_1 _ _ _ _ Ha E).
Qed.
Lemma typed_set_addr i n a : uint a -> typed (set_addr i n a) any.
Proof. intros. unfold set_addr. typed. Qed.
#[local] Hint Resolve typed_ialloc typed_iupdate typed_idup typed_ilock typed_iunlock typed_addr_of typed_set_addr :
  typed.
Lemma typed_bmap i bn : 0 <= bn -> typed (bmap i bn) (fun a => uint a).
Proof. intros. unfold bmap. change NDIRECT with 12. change NINDIRECT with 128. typed. Qed.
Lemma typed_itrunc i : typed (itrunc i) any.
Proof. unfold itrunc. typed. Qed.
#[local] Hint Resolve typed_bmap typed_itrunc : typed.
Lemma typed_iput i : typed (iput i) any.
Proof. unfold iput. typed. Qed.
#[local] Hint Resolve typed_iput : typed.
Lemma typed_iunlockput i : typed (iunlockput i) any.
Proof. unfold iunlockput. typed. Qed.
Lemma typed_stati i : typed (stati i) any.
Proof. unfold stati. typed. Qed.
#[local] Hint Resolve typed_iunlockput typed_stati : typed.

(** *** console.c, the device *)

Lemma typed_cur_killed : typed cur_killed any.
Proof. unfold cur_killed. typed. Qed.
#[local] Hint Resolve typed_cur_killed : typed.
Lemma typed_wait_input ip : typed (wait_input ip) any.
Proof. unfold wait_input. typed. Qed.
#[local] Hint Resolve typed_wait_input : typed.
Lemma input_char_byte cs i : cons_ok cs -> 0 <= input_char cs i < 256.
Proof. intros Hc. apply nth_byte, (co_buf _ Hc). Qed.
Lemma typed_consoleread ip n : typed (consoleread ip n) (fun r => bytes_ok r.1).
Proof.
  unfold consoleread. do 2 call. apply (typed_bind _ _ (fun r => bytes_ok (match r with inl dst => dst | inr (_, dst) => dst end))).
  - apply (typed_loop_fuel (fun p => bytes_ok p.2)); [constructor|]. intros [m dst] Hdst. cbn [snd] in Hdst. typed.
    all: apply typed_ret; cbn; apply app_bytes; [done|]; repeat constructor; by apply input_char_byte.
  - intros [dst|[m dst]] Hdst; typed.
Qed.
Lemma typed_consolewrite ip buf n : typed (consolewrite ip buf n) any.
Proof. unfold consolewrite. typed. Qed.
#[local] Hint Resolve typed_consoleread typed_consolewrite : typed.

Section devices.
Context `{TypedDevices}.
#[local] Hint Resolve dev_read_typed dev_write_typed : typed.

(** *** fs.c, files and directories *)

Lemma div_nonneg o : 0 <= o -> 0 <= o / BSIZE.
Proof. intros. by apply Z.div_pos. Qed.
#[local] Hint Resolve div_nonneg : ok.
(** The bytes that one iteration of [readi] or [writei] copies. *)
Lemma chunk_range o r : 0 < r -> 0 < Z.min r (BSIZE - o mod BSIZE) <= r /\ 0 <= o mod BSIZE.
Proof. intros Hr. change BSIZE with 512. pose proof (Z.mod_pos_bound o 512). lia. Qed.
Lemma typed_readi i off n : 0 <= off -> typed (readi i off n) (fun r => bytes_ok r.1).
Proof.
  intros Hoff. unfold readi. call. destruct (_ =? _); [typed|]. destruct (_ || _); [typed|]. cbv zeta.
  generalize (if i_size a <? u32 (off + n) then i_size a - off else n). intros n'.
  apply (typed_loop_fuel (fun p => 0 <= p.1.2 /\ bytes_ok p.2)); [ok_side|].
  intros [[tot o] dst] [Ho Hdst]. cbn [fst snd] in *. typed. bool_to_prop. destruct (chunk_range o (n' - tot)); [lia|].
  apply typed_ret. ok_side.
Qed.
Lemma typed_writei i src off n : bytes_ok src -> 0 <= off -> uint n -> typed (writei i src off n) any.
Proof.
  intros Hsrc Hoff Hn. unfold writei. call. destruct (_ =? _); [typed|]. destruct (_ || _) eqn:Hsz; [typed|].
  destruct (MAXFILE * BSIZE <? _); [typed|].
  assert (off + n < 4294967296) as Hno.
  { bool_to_prop. destruct (Z.lt_ge_cases (off + n) 4294967296); [done|]. pose proof (u32_range (off + n)).
    assert (u32 (off + n) = off + n - 4294967296); [|lia]. unfold u32. symmetry. apply (Z.mod_unique_pos _ _ 1); lia. }
  apply (typed_bind _ _ (fun v => uint v)); [|intros o Ho; typed].
  apply (typed_loop_fuel (fun p => 0 <= p.1.1 <= n /\ p.1.2 = off + p.1.1 /\ bytes_ok p.2)); [cbn; split_and!; [lia..|done]|].
  intros [[tot o] src'] (Ht & Ho & Hs). cbn [fst snd] in *. subst o. typed.
  all: bool_to_prop; destruct (chunk_range (off + tot) (n - tot)); [lia|].
  - apply typed_upd_buf. intros q Hq. split; red_fields; try apply Hq. apply splice_array; [ok_side|ok_side|].
    rewrite length_take. change BSIZE with 512 in *. lia.
  - apply typed_ret. ok_side.
Qed.
#[local] Hint Resolve typed_readi typed_writei : typed.
Lemma typed_dirlookup dp name : typed (dirlookup dp name) (opt_ok (fun r => (r.1 < NINODE)%nat /\ 0 <= r.2)).
Proof.
  unfold dirlookup. call. destruct (negb _); [typed|]. change sizeof_dirent with 16.
  apply (typed_loop_fuel (fun off => 0 <= off)); [lia|]. intros off Hoff. typed.
Qed.
#[local] Hint Resolve typed_dirlookup : typed.
Lemma cstr_bytes l : bytes_ok l -> bytes_ok (cstr l).
Proof. induction 1 as [|c l Hc Hl IH]; [constructor|]. rewrite cstr_cons. destruct (_ =? _); by constructor. Qed.
Lemma strncpy_bytes_ok l n : bytes_ok l -> bytes_ok (strncpy_bytes l n).
Proof. intros Hl. rewrite strncpy_bytes_spec. apply app_bytes; [by apply take_bytes, cstr_bytes|apply replicate_bytes]. Qed.
#[local] Hint Resolve cstr_bytes strncpy_bytes_ok : ok.
Lemma typed_dirlink dp name inum : bytes_ok name -> typed (dirlink dp name inum) any.
Proof.
  intros Hname. unfold dirlink. call. destruct a as [[i o]|]; split_hyps; [typed|]. call. change sizeof_dirent with 16.
  apply (typed_bind _ _ (fun off => 0 <= off)); [|intros off Hoff; typed].
  apply (typed_loop_fuel (fun off => 0 <= off)); [lia|]. intros off Hoff. typed.
Qed.
#[local] Hint Resolve typed_dirlink : typed.
Lemma skip_slashes_bytes l : bytes_ok l -> bytes_ok (skip_slashes l).
Proof. induction 1 as [|c l Hc Hl IH]; [constructor|]. cbn. destruct (_ =? _); [done|by constructor]. Qed.
Lemma take_elem_bytes l : bytes_ok l -> bytes_ok (take_elem l).1 /\ bytes_ok (take_elem l).2.
Proof.
  induction 1 as [|c l Hc Hl IH]; [split; constructor|]. cbn. destruct (_ || _); [split; [constructor|by constructor]|].
  destruct (take_elem l). cbn in *. split; [constructor; tauto|tauto].
Qed.
Lemma skipelem_bytes path name path' name' :
  skipelem path name = Some (path', name') -> bytes_ok path -> bytes_ok name -> bytes_ok path' /\ bytes_ok name'.
Proof.
  intros Hs Hp Hn. unfold skipelem in Hs. apply skip_slashes_bytes in Hp. set (p := skip_slashes path) in *.
  destruct (at_end p); [done|]. apply take_elem_bytes in Hp. destruct (take_elem p) as [s r]. cbn [fst snd] in Hp.
  injection Hs as <- <-. split; [apply skip_slashes_bytes, Hp|]. destruct Hp as [Hp _].
  destruct (_ <=? _); apply splice_bytes_ok; try done; [by apply take_bytes|].
  apply app_bytes; [done|]. apply cons_bytes; [lia|constructor].
Qed.
Lemma typed_namex path par name :
  bytes_ok path -> bytes_ok name -> typed (namex path par name) (fun r => ptr_ok NINODE r.1 /\ bytes_ok r.2).
Proof.
  intros Hp Hn. unfold namex. apply (typed_bind _ _ (fun i => (i < NINODE)%nat)); [typed|]. intros i Hi.
  apply (typed_loop_fuel (fun p => (p.1.1 < NINODE)%nat /\ bytes_ok p.1.2 /\ bytes_ok p.2)); [done|].
  intros [[ip rest] nm] (Hip & Hr & Hnm). cbn [fst snd] in *. destruct (skipelem rest nm) as [[rest' nm']|] eqn:E; [|typed].
  destruct (skipelem_bytes _ _ _ _ E Hr Hnm). typed.
Qed.
#[local] Hint Resolve typed_namex : typed.
Lemma typed_namei path : bytes_ok path -> typed (namei path) (ptr_ok NINODE).
Proof. intros. unfold namei. typed. Qed.
Lemma typed_nameiparent path name :
  bytes_ok path -> bytes_ok name -> typed (nameiparent path name) (fun r => ptr_ok NINODE r.1 /\ bytes_ok r.2).
Proof. intros. unfold nameiparent. typed. Qed.
#[local] Hint Resolve typed_namei typed_nameiparent : typed.

(** *** vm.c *)

Lemma PGROUNDUP_range sz : uint (PGROUNDUP sz).
Proof.
  unfold PGROUNDUP. pose proof (u32_range (sz + PGSIZE - 1)) as Hr.
  change (Z.lxor 0xFFFFFFFF (PGSIZE - 1)) with (Z.lxor 0xFFFFFFFF 0xFFF).
  rewrite land_page_mask by done. pose proof (Z.mod_pos_bound (u32 (sz + PGSIZE - 1)) 4096).
  pose proof (Z.mod_le (u32 (sz + PGSIZE - 1)) 4096). lia.
Qed.
#[local] Hint Resolve PGROUNDUP_range : ok.
Lemma typed_walkpgdir pgdir va alloc : typed (walkpgdir pgdir va alloc) any.
Proof. unfold walkpgdir. typed. Qed.
#[local] Hint Resolve typed_walkpgdir : typed.
Lemma typed_mappages pgdir va size pa perm : typed (mappages pgdir va size pa perm) any.
Proof. unfold mappages. typed. Qed.
#[local] Hint Resolve typed_mappages : typed.
Lemma typed_setupkvm : typed setupkvm any.
Proof. unfold setupkvm. typed. Qed.
Lemma typed_lcr3 v : typed (lcr3 v) any.
Proof. unfold lcr3. typed. Qed.
Lemma typed_set_gdt n d : typed (set_gdt n d) any.
Proof. unfold set_gdt. typed. Qed.
#[local] Hint Resolve typed_setupkvm typed_lcr3 typed_set_gdt : typed.
Lemma typed_switchkvm : typed switchkvm any.
Proof. unfold switchkvm. typed. Qed.
Lemma typed_switchuvm p : typed (switchuvm p) any.
Proof. unfold switchuvm. typed. Qed.
Lemma typed_put_bytes a l : bytes_ok l -> typed (put_bytes a l) any.
Proof.
  intros Hl. apply (typed_set_mem (fun m => store_bytes m a l)). intros m Hm. by apply store_bytes_ok.
Qed.
Lemma typed_mem_move dst src n : typed (mem_move dst src n) any.
Proof. apply (typed_set_mem (fun m => memmove m dst src n)). intros m Hm. by apply memmove_ok. Qed.
#[local] Hint Resolve typed_switchkvm typed_switchuvm typed_put_bytes typed_mem_move : typed.
Lemma typed_inituvm pgdir init sz : bytes_ok init -> typed (inituvm pgdir init sz) any.
Proof. intros. unfold inituvm. typed. Qed.
Lemma typed_loaduvm pgdir addr ip offset sz : typed (loaduvm pgdir addr ip offset sz) any.
Proof. unfold loaduvm. typed. Qed.
Lemma typed_deallocuvm pgdir oldsz newsz :
  uint oldsz -> uint newsz -> typed (deallocuvm pgdir oldsz newsz) (fun v => uint v).
Proof. intros. unfold deallocuvm. typed. Qed.
#[local] Hint Resolve typed_inituvm typed_loaduvm typed_deallocuvm : typed.
Lemma typed_allocuvm pgdir oldsz newsz :
  uint oldsz -> uint newsz -> typed (allocuvm pgdir oldsz newsz) (fun v => uint v).
Proof. intros. unfold allocuvm. typed. Qed.
Lemma typed_freevm pgdir : typed (freevm pgdir) any.
Proof. unfold freevm. typed. Qed.
Lemma typed_clearpteu pgdir uva : typed (clearpteu pgdir uva) any.
Proof. unfold clearpteu. typed. Qed.
#[local] Hint Resolve typed_allocuvm typed_freevm typed_clearpteu : typed.
Lemma typed_copyuvm pgdir sz : typed (copyuvm pgdir sz) any.
Proof. unfold copyuvm. typed. Qed.
Lemma typed_uva2ka pgdir uva : typed (uva2ka pgdir uva) any.
Proof. unfold uva2ka. typed. Qed.
#[local] Hint Resolve typed_copyuvm typed_uva2ka : typed.
Lemma typed_copyout pgdir va p len : bytes_ok p -> typed (copyout pgdir va p len) any.
Proof.
  intros Hp. unfold copyout. apply (typed_loop_fuel (fun s => bytes_ok s.1.2)); [done|].
  intros [[va' buf] len'] Hb. cbn [fst snd] in Hb. typed.
Qed.
#[local] Hint Resolve typed_copyout : typed.

(** *** pipe.c *)

Lemma typed_pipeclose p writable : typed (pipeclose p writable) any.
Proof.
  unfold pipeclose. typed. apply typed_modify; [|done]. intros k []. split; try done. by apply map_Forall_delete.
Qed.
Lemma typed_put_char p c : 0 <= c < 256 -> typed (put_char p c) any.
Proof. intros. unfold put_char. typed. Qed.
#[local] Hint Resolve typed_pipeclose typed_put_char : typed.
Lemma typed_pipewrite_char p c : 0 <= c < 256 -> typed (pipewrite_char p c) any.
Proof. intros. unfold pipewrite_char. typed. Qed.
#[local] Hint Resolve typed_pipewrite_char : typed.
Lemma typed_pipewrite p addr n : bytes_ok addr -> typed (pipewrite p addr n) any.
Proof. intros. unfold pipewrite. typed. Qed.
Lemma typed_piperead_copy p n : typed (piperead_copy p n) bytes_ok.
Proof. induction n as [|n IH]; cbn [piperead_copy]; typed. Qed.
#[local] Hint Resolve typed_pipewrite typed_piperead_copy : typed.
Lemma typed_piperead p n : typed (piperead p n) (fun r => bytes_ok r.1).
Proof. unfold piperead. typed. Qed.
#[local] Hint Resolve typed_piperead : typed.

(** *** file.c *)

Lemma typed_filealloc : typed filealloc (ptr_ok NFILE).
Proof. unfold filealloc. typed. Qed.
Lemma typed_filedup f : (f < NFILE)%nat -> typed (filedup f) (fun f => (f < NFILE)%nat).
Proof. intros. unfold filedup. typed. Qed.
Lemma typed_fileclose f : typed (fileclose f) any.
Proof. unfold fileclose. typed. Qed.
Lemma typed_filestat f : typed (filestat f) any.
Proof. unfold filestat. typed. Qed.
Lemma typed_fileread f n : typed (fileread f n) (fun r => bytes_ok r.1).
Proof. unfold fileread. typed. Qed.
Lemma typed_filewrite f addr n : bytes_ok addr -> sint n -> typed (filewrite f addr n) any.
Proof.
  intros Ha Hn. unfold filewrite. call. destruct (negb _); [typed|]. destruct (f_type _); [typed|typed|].
  change max_write with 6656. apply (typed_bind _ _ any); [|intros; typed]. apply (typed_loop_fuel (fun i => 0 <= i)); [lia|].
  intros i Hi. destruct (negb (i <? n)) eqn:Hin; [typed|]. cbv zeta. set (n1 := if _ <? n - i then _ else _).
  assert (0 < n1 < 4294967296) as Hn1 by (bool_to_prop; unfold n1; destruct (6656 <? n - i) eqn:?; bool_to_prop; lia).
  clearbody n1. do 4 call. apply (typed_bind _ _ any); [typed|]. intros r _. typed.
Qed.
#[local] Hint Resolve typed_filealloc typed_filedup typed_fileclose typed_filestat typed_fileread typed_filewrite :
  typed.
Lemma page_data_ok m p : mem_ok m -> array_ok 512 (page_data m p).
Proof. intros Hm. split; [done|]. apply Forall_fmap, Forall_forall. intros i _. apply Hm. Qed.
Lemma typed_pipealloc : typed pipealloc (opt_ok (fun r => (r.1 < NFILE)%nat /\ (r.2 < NFILE)%nat)).
Proof.
  unfold pipealloc. typed. apply typed_modify; [|done]. intros k Hk.
  pose proof (page_data_ok (k_mem k) a1 (ok_mem k Hk)). destruct Hk. split; try done.
  cbn. apply map_Forall_insert_2; [|done]. by split.
Qed.
#[local] Hint Resolve typed_pipealloc : typed.

(** *** proc.c *)

Lemma typed_allocproc : typed allocproc (ptr_ok NPROC).
Proof. unfold allocproc. typed. Qed.
#[local] Hint Resolve typed_allocproc : typed.
Lemma typed_st16 a v : typed (st16 a v) any.
Proof.
  apply (typed_set_mem (fun m => store (store m a (u8 v)) (a + 1) (u8 (Z.shiftr v 8)))).
  intros m Hm. repeat apply store_mem_ok; try done; apply u8_range.
Qed.
Lemma typed_ld16 a : typed (ld16 a) any.
Proof. unfold ld16. typed. Qed.
#[local] Hint Resolve typed_st16 typed_ld16 : typed.
Lemma chars_bytes s : bytes_ok (chars s).
Proof.
  induction s as [|c s IH]; cbn [chars]; constructor; [|done]. pose proof (Strings.Ascii.N_ascii_bounded c). lia.
Qed.
Lemma typed_gets_initcode : typed (gets (fun k => ld_initcode (k_link k))) bytes_ok.
Proof. apply typed_gets. intros k Hk. by apply (Forall_inv (ok_link k Hk)). Qed.
#[local] Hint Resolve chars_bytes : ok.
#[local] Hint Resolve typed_gets_initcode : typed.
Lemma typed_userinit : typed userinit any.
Proof. unfold userinit. typed. Qed.
Lemma typed_growproc n : typed (growproc n) any.
Proof. unfold growproc. typed. Qed.
Lemma typed_fork : typed fork any.
Proof. unfold fork. typed. Qed.
Lemma typed_wakeup1_proc p : typed (wakeup1_proc p) any.
Proof. unfold wakeup1_proc. typed. Qed.
#[local] Hint Resolve typed_userinit typed_growproc typed_fork typed_wakeup1_proc : typed.
Lemma typed_exit : typed exit any.
Proof. unfold exit. typed. Qed.
Lemma typed_wait_scan l me havekids : typed (wait_scan l me havekids) any.
Proof. revert havekids. induction l as [|i l IH]; intros; cbn [wait_scan]; typed. Qed.
#[local] Hint Resolve typed_exit typed_wait_scan : typed.
Lemma typed_wait : typed wait any.
Proof. unfold wait. typed. Qed.
Lemma typed_iinit dev : typed (iinit dev) any.
Proof. unfold iinit. typed. Qed.
#[local] Hint Resolve typed_wait typed_iinit : typed.
Lemma typed_forkret : typed forkret any.
Proof. unfold forkret. typed. Qed.
Lemma typed_procdump : typed procdump any.
Proof. unfold procdump. typed. Qed.
#[local] Hint Resolve typed_forkret typed_procdump : typed.

(** *** syscall.c *)

Lemma typed_translate write va : typed (translate write va) any.
Proof. unfold translate. typed. Qed.
#[local] Hint Resolve typed_translate : typed.
Lemma typed_gets_byte a : typed (gets (fun k => k_mem k a)) (fun b => 0 <= b < 256).
Proof. apply typed_gets. intros k Hk. apply (ok_mem k Hk). Qed.
#[local] Hint Resolve typed_gets_byte : typed.
Lemma typed_load_byte va : typed (load_byte va) (fun b => 0 <= b < 256).
Proof. unfold load_byte. typed. Qed.
#[local] Hint Resolve typed_load_byte : typed.
Lemma typed_load_user va n : typed (load_user va n) bytes_ok.
Proof. revert va. induction n as [|n IH]; intros; cbn [load_user]; typed. Qed.
Lemma typed_store_user va l : bytes_ok l -> typed (store_user va l) any.
Proof. intros Hl. revert va. induction Hl as [|b l Hb Hl IH]; intros; cbn [store_user]; typed. Qed.
Lemma typed_cur_sz : typed cur_sz (fun v => uint v).
Proof. unfold cur_sz. typed. Qed.
#[local] Hint Resolve typed_load_user typed_store_user typed_cur_sz : typed.
Lemma typed_fetchint addr : typed (fetchint addr) (opt_ok (fun v => sint v)).
Proof. unfold fetchint. typed. Qed.
Lemma typed_scan_str n s : typed (scan_str n s) (opt_ok bytes_ok).
Proof. revert s. induction n as [|n IH]; intros; cbn [scan_str]; typed. Qed.
#[local] Hint Resolve typed_fetchint typed_scan_str : typed.
Lemma typed_fetchstr addr : typed (fetchstr addr) (opt_ok bytes_ok).
Proof. unfold fetchstr. typed. Qed.
Lemma typed_arg_addr n : typed (arg_addr n) any.
Proof. unfold arg_addr. typed. Qed.
#[local] Hint Resolve typed_fetchstr typed_arg_addr : typed.
Lemma typed_argint n : typed (argint n) (opt_ok (fun v => sint v)).
Proof. unfold argint. typed. Qed.
#[local] Hint Resolve typed_argint : typed.
Lemma typed_argptr n size : typed (argptr n size) any.
Proof. unfold argptr. typed. Qed.
Lemma typed_argstr n : typed (argstr n) (opt_ok bytes_ok).
Proof. unfold argstr. typed. Qed.
Lemma typed_add_scount : typed add_scount any.
Proof. unfold add_scount. typed. Qed.
#[local] Hint Resolve typed_argptr typed_argstr typed_add_scount : typed.

(** *** exec.c *)

Lemma typed_bad pgdir ip : typed (bad pgdir ip) any.
Proof. unfold bad. typed. Qed.
Lemma typed_load_segments n ip pgdir off sz :
  uint sz -> typed (load_segments n ip pgdir off sz) (opt_ok (fun v => uint v)).
Proof. intros Hsz. revert off sz Hsz. induction n as [|n IH]; intros; cbn [load_segments]; typed. Qed.
Lemma typed_push_args argv argc pgdir sp ustack :
  Forall bytes_ok argv -> typed (push_args argv argc pgdir sp ustack) any.
Proof.
  intros Ha. revert argc sp ustack. induction Ha as [|s argv Hs Ha IH]; intros; cbn [push_args]; typed.
Qed.
#[local] Hint Resolve typed_bad typed_load_segments typed_push_args : typed.
Lemma last_elem_bytes s l : bytes_ok s -> bytes_ok l -> bytes_ok (last_elem s l).
Proof.
  intros Hs. revert l. induction Hs as [|c s Hc Hs IH]; intros l Hl; cbn [last_elem]; [done|].
  apply IH. by destruct (_ =? _).
Qed.
#[local] Hint Resolve last_elem_bytes : ok.
Lemma typed_exec_stack path argv elf pgdir sz :
  bytes_ok path -> Forall bytes_ok argv -> bytes_ok elf -> uint sz -> typed (exec_stack path argv elf pgdir sz) any.
Proof. intros. unfold exec_stack, exec_commit. typed. Qed.
#[local] Hint Resolve typed_exec_stack : typed.
Lemma typed_exec path argv : bytes_ok path -> Forall bytes_ok argv -> typed (exec path argv) any.
Proof. intros. unfold exec. typed. Qed.
#[local] Hint Resolve typed_exec : typed.

(** *** sysfile.c *)

Lemma typed_argfd n : typed (argfd n) (opt_ok (fun r => (r.2 < NFILE)%nat)).
Proof. unfold argfd. typed. Qed.
Lemma typed_set_ofile fd f : ptr_ok NFILE f -> typed (set_ofile fd f) any.
Proof. intros. unfold set_ofile. typed. Qed.
#[local] Hint Resolve typed_argfd typed_set_ofile : typed.
Lemma typed_fdalloc f : (f < NFILE)%nat -> typed (fdalloc f) any.
Proof. intros. unfold fdalloc. typed. Qed.
#[local] Hint Resolve typed_fdalloc : typed.
Lemma typed_rw_args : typed rw_args (opt_ok (fun r => (r.1.1 < NFILE)%nat /\ sint r.2)).
Proof. unfold rw_args. typed. Qed.
Lemma typed_store_stat a st : typed (store_stat a st) any.
Proof. unfold store_stat. typed. Qed.
Lemma typed_add_nlink ip d : typed (add_nlink ip d) any.
Proof. unfold add_nlink. typed. Qed.
Lemma typed_isdirempty dp : typed (isdirempty dp) any.
Proof.
  unfold isdirempty. call. change sizeof_dirent with 16. apply (typed_loop_fuel (fun off => 0 <= off)); [lia|].
  intros off Hoff. typed.
Qed.
#[local] Hint Resolve typed_rw_args typed_store_stat typed_add_nlink typed_isdirempty : typed.
Lemma name0_bytes : bytes_ok name0.
Proof. apply replicate_bytes. Qed.
Lemma dot_bytes : bytes_ok dot /\ bytes_ok dotdot.
Proof. split; repeat (apply cons_bytes; [lia|]); constructor. Qed.
Lemma dot_ok : bytes_ok dot.
Proof. apply dot_bytes. Qed.
Lemma dotdot_ok : bytes_ok dotdot.
Proof. apply dot_bytes. Qed.
#[local] Hint Resolve name0_bytes dot_ok dotdot_ok : ok.
Lemma typed_create path type major minor : bytes_ok path -> typed (create path type major minor) (ptr_ok NINODE).
Proof. intros. unfold create. typed. Qed.
#[local] Hint Resolve typed_create : typed.
Lemma typed_open_inode path omode : bytes_ok path -> typed (open_inode path omode) (ptr_ok NINODE).
Proof. intros. unfold open_inode. typed. Qed.
Lemma typed_finish_create r : typed (finish_create r) any.
Proof. unfold finish_create. typed. Qed.
#[local] Hint Resolve typed_open_inode typed_finish_create : typed.
Lemma argv_nil : Forall bytes_ok [].
Proof. constructor. Qed.
Lemma argv_cons s l : bytes_ok s -> Forall bytes_ok l -> Forall bytes_ok (s :: l).
Proof. by constructor. Qed.
#[local] Hint Resolve argv_nil argv_cons : ok.
Lemma typed_fetch_argv n uargv i : typed (fetch_argv n uargv i) (opt_ok (Forall bytes_ok)).
Proof. revert i. induction n as [|n IH]; intros; cbn [fetch_argv]; typed. Qed.
#[local] Hint Resolve typed_fetch_argv : typed.

(** *** The system calls *)

Lemma typed_sys_fork : typed sys_fork any.
Proof. unfold sys_fork. typed. Qed.
Lemma typed_sys_exit : typed sys_exit any.
Proof. unfold sys_exit. typed. Qed.
Lemma typed_sys_wait : typed sys_wait any.
Proof. unfold sys_wait. typed. Qed.
Lemma typed_sys_kill : typed sys_kill any.
Proof. unfold sys_kill. typed. Qed.
Lemma typed_sys_getpid : typed sys_getpid any.
Proof. unfold sys_getpid. typed. Qed.
Lemma typed_sys_sbrk : typed sys_sbrk any.
Proof. unfold sys_sbrk. typed. Qed.
Lemma typed_sys_sleep : typed sys_sleep any.
Proof. unfold sys_sleep. typed. Qed.
Lemma typed_sys_uptime : typed sys_uptime any.
Proof. unfold sys_uptime. typed. Qed.
Lemma typed_sys_count : typed sys_count any.
Proof. unfold sys_count. typed. Qed.
Lemma typed_sys_dup : typed sys_dup any.
Proof. unfold sys_dup. typed. Qed.
Lemma typed_sys_read : typed sys_read any.
Proof. unfold sys_read. typed. Qed.
Lemma typed_sys_write : typed sys_write any.
Proof. unfold sys_write. typed. Qed.
Lemma typed_sys_close : typed sys_close any.
Proof. unfold sys_close. typed. Qed.
Lemma typed_sys_fstat : typed sys_fstat any.
Proof. unfold sys_fstat. typed. Qed.
Lemma typed_sys_link : typed sys_link any.
Proof. unfold sys_link. typed. Qed.
Lemma typed_sys_unlink : typed sys_unlink any.
Proof. unfold sys_unlink. typed. Qed.
Lemma typed_sys_open : typed sys_open any.
Proof. unfold sys_open. typed. Qed.
Lemma typed_sys_mkdir : typed sys_mkdir any.
Proof. unfold sys_mkdir. typed. Qed.
Lemma typed_sys_mknod : typed sys_mknod any.
Proof. unfold sys_mknod. typed. Qed.
Lemma typed_sys_chdir : typed sys_chdir any.
Proof. unfold sys_chdir. typed. Qed.
Lemma typed_sys_exec : typed sys_exec any.
Proof. unfold sys_exec. typed. Qed.
Lemma typed_sys_pipe : typed sys_pipe any.
Proof. unfold sys_pipe. typed. Qed.
#[local] Hint Resolve typed_sys_fork typed_sys_exit typed_sys_wait typed_sys_kill typed_sys_getpid typed_sys_sbrk
  typed_sys_sleep typed_sys_uptime typed_sys_count typed_sys_dup typed_sys_read typed_sys_write typed_sys_close
  typed_sys_fstat typed_sys_link typed_sys_unlink typed_sys_open typed_sys_mkdir typed_sys_mknod typed_sys_chdir
  typed_sys_exec typed_sys_pipe : typed.

(** *** The devices and the interrupts *)

Lemma typed_outb port data : typed (outb port data) any.
Proof. unfold outb. typed. Qed.
Lemma typed_lapicr index : typed (lapicr index) any.
Proof. unfold lapicr. typed. Qed.
Lemma typed_lapicw index value : typed (lapicw index value) any.
Proof. unfold lapicw. typed. Qed.
Lemma typed_ioapicread reg : typed (ioapicread reg) any.
Proof. unfold ioapicread. typed. Qed.
Lemma typed_ioapicwrite reg data : typed (ioapicwrite reg data) any.
Proof. unfold ioapicwrite. typed. Qed.
#[local] Hint Resolve typed_outb typed_lapicr typed_lapicw typed_ioapicread typed_ioapicwrite : typed.
Lemma typed_picsetmask mask : typed (picsetmask mask) any.
Proof. unfold picsetmask. typed. Qed.
#[local] Hint Resolve typed_picsetmask : typed.
Lemma typed_picenable irq : typed (picenable irq) any.
Proof. unfold picenable. typed. Qed.
Lemma typed_picinit : typed picinit any.
Proof. unfold picinit. typed. Qed.
Lemma typed_ioapicinit : typed ioapicinit any.
Proof. unfold ioapicinit. typed. Qed.
Lemma typed_ioapicenable irq cpunum : typed (ioapicenable irq cpunum) any.
Proof. unfold ioapicenable. typed. Qed.
#[local] Hint Resolve typed_picenable typed_picinit typed_ioapicinit typed_ioapicenable : typed.
Lemma typed_timerinit : typed timerinit any.
Proof. unfold timerinit. typed. Qed.
Lemma typed_lapicinit : typed lapicinit any.
Proof. unfold lapicinit. typed. Qed.
Lemma typed_lapiceoi : typed lapiceoi any.
Proof. unfold lapiceoi. typed. Qed.
Lemma typed_lapicstartap apicid addr : typed (lapicstartap apicid addr) any.
Proof. unfold lapicstartap. typed. Qed.
Lemma typed_mp_entry p : typed (mp_entry p) any.
Proof. unfold mp_entry. typed. Qed.
#[local] Hint Resolve typed_timerinit typed_lapicinit typed_lapiceoi typed_lapicstartap typed_mp_entry : typed.
Lemma typed_mpinit : typed mpinit any.
Proof. unfold mpinit. typed. Qed.
Lemma typed_kill_line : typed kill_line any.
Proof. unfold kill_line. typed. Qed.
#[local] Hint Resolve typed_mpinit typed_kill_line : typed.
Lemma typed_input_step c doprocdump : typed (input_step c doprocdump) any.
Proof. unfold input_step. typed. Qed.
#[local] Hint Resolve typed_input_step : typed.
Lemma typed_consoleintr getc : typed getc any -> typed (consoleintr getc) any.
Proof. intros. unfold consoleintr. typed. Qed.
Lemma typed_kbdgetc : typed kbdgetc any.
Proof. unfold kbdgetc. typed. Qed.
Lemma typed_uartgetc : typed uartgetc any.
Proof. unfold uartgetc. typed. Qed.
#[local] Hint Resolve typed_consoleintr typed_kbdgetc typed_uartgetc : typed.
Lemma typed_kbdintr : typed kbdintr any.
Proof. unfold kbdintr. typed. Qed.
Lemma typed_uartintr : typed uartintr any.
Proof. unfold uartintr. typed. Qed.
#[local] Hint Resolve typed_kbdintr typed_uartintr : typed.

(** *** trap.c *)

Lemma typed_syscalls num call : syscalls num = Some call -> typed call any.
Proof.
  intros Hcall. unfold syscalls in Hcall.
  repeat match type of Hcall with
  | (match ?n with _ => _ end) = _ => destruct n; try done
  end; injection Hcall as <-; typed.
Qed.
Lemma typed_set_eax v : typed (set_eax v) any.
Proof. unfold set_eax. typed. Qed.
#[local] Hint Resolve typed_set_eax : typed.
Lemma typed_syscall : typed syscall any.
Proof.
  unfold syscall. do 3 call. cbv zeta. destruct (_ <? _); [|typed]. destruct (syscalls _) as [c|] eqn:E; [|typed].
  apply (typed_bind _ _ any); [by eapply typed_syscalls|]. intros r _. typed.
Qed.
Lemma typed_exit_if_killed : typed exit_if_killed any.
Proof. unfold exit_if_killed. typed. Qed.
Lemma typed_exit_killed_user tf : typed (exit_killed_user tf) any.
Proof. unfold exit_killed_user. typed. Qed.
#[local] Hint Resolve typed_syscall typed_exit_if_killed typed_exit_killed_user : typed.

Section interrupts.
Context (ideintr : K unit) (Hideintr : typed ideintr any).
#[local] Hint Resolve Hideintr : typed.
Lemma typed_handle_trap tf trapno : typed (handle_trap ideintr tf trapno) any.
Proof. unfold handle_trap. typed. Qed.
#[local] Hint Resolve typed_handle_trap : typed.
Lemma typed_trap tf : typed (trap ideintr tf) any.
Proof. unfold trap. typed. Qed.
#[local] Hint Resolve typed_trap : typed.

End interrupts.

(** *** The scheduler *)

Lemma typed_rand max : typed (rand max) any.
Proof. unfold rand. typed. Qed.
#[local] Hint Resolve typed_rand : typed.
Notation runlist_ok := (Forall (ptr_ok NPROC)).

Lemma run_insert (run_p : list (option nat)) i o : runlist_ok run_p -> ptr_ok NPROC o -> runlist_ok (<[i := o]> run_p).
Proof. intros. by apply Forall_insert. Qed.
Lemma run_lookup run_p i j : runlist_ok run_p -> mjoin (run_p !! i) = Some j -> (j < NPROC)%nat.
Proof. intros Hr E. destruct (run_p !! i) as [o|] eqn:Eo; [|done]. cbn in E. subst o. exact (Forall_lookup_1 _ _ _ _ Hr Eo). Qed.
#[local] Hint Resolve run_insert run_lookup : ok.
#[local] Hint Extern 9 (Forall (opt_ok _) _) => solve [ok_side] : typed.

Lemma typed_collect l i run_p :
  Forall (fun j => (j < NPROC)%nat) l -> runlist_ok run_p -> typed (collect l i run_p) (fun r => runlist_ok r.2).
Proof.
  intros Hl. revert i run_p. induction Hl as [|j l Hj Hl IH]; intros i run_p Hr; cbn [collect]; typed; apply IH; ok_side.
Qed.
Lemma typed_print_runnable run_p : typed (print_runnable run_p) any.
Proof. induction run_p as [|[j|] run_p IH]; cbn [print_runnable]; typed. Qed.
Lemma typed_pid_at run_p i : typed (pid_at run_p i) any.
Proof. unfold pid_at. typed. Qed.
#[local] Hint Resolve typed_collect typed_print_runnable typed_pid_at : typed.
Lemma typed_dedup_inner js i run_p : runlist_ok run_p -> typed (dedup_inner js i run_p) runlist_ok.
Proof.
  revert run_p. induction js as [|j js IH]; intros run_p Hr; cbn [dedup_inner]; typed. apply IH. destruct (_ =? _); ok_side.
Qed.
#[local] Hint Resolve typed_dedup_inner : typed.
Lemma typed_dedup_outer is_ run_num run_p : runlist_ok run_p -> typed (dedup_outer is_ run_num run_p) runlist_ok.
Proof. revert run_p. induction is_ as [|i is_ IH]; intros run_p Hr; cbn [dedup_outer]; typed. Qed.
#[local] Hint Resolve typed_dedup_outer : typed.
Lemma typed_lottery run_num run_p :
  runlist_ok run_p -> typed (lottery run_num run_p) (fun r => (r.1 < NPROC)%nat /\ runlist_ok r.2).
Proof. intros. unfold lottery. typed. Qed.
#[local] Hint Resolve typed_lottery : typed.
Lemma typed_scheduler_round run_p : runlist_ok run_p -> typed (scheduler_round run_p) runlist_ok.
Proof.
  intros Hr. unfold scheduler_round. do 2 call. apply (typed_bind _ _ any); [typed|intros _ _]. call.
  eapply typed_bind; [apply typed_collect; [apply Forall_forall, all_procs_lt|done]|]. intros [n r] Hr1. cbn [snd] in Hr1.
  apply (typed_bind _ _ (fun r => runlist_ok r)); [|intros r2 Hr2; typed]. destruct (n =? 0)%nat; [typed|].
  apply (typed_bind _ _ (fun x => (x.1 < NPROC)%nat /\ runlist_ok x.2)); [typed|]. intros [p r2] [Hp Hr2]. cbn [fst snd] in *. typed.
Qed.
#[local] Hint Resolve typed_scheduler_round : typed.
Lemma typed_scheduler : typed scheduler any.
Proof.
  unfold scheduler. apply (typed_loop_sched (fun r => runlist_ok r)); [by apply Forall_replicate|]. intros run_p Hr. typed.
Qed.
#[local] Hint Resolve typed_scheduler : typed.

(** *** main.c *)

Lemma seq_lt_S i n : i ∈ seq 0 n -> (i < S n)%nat.
Proof. intros Hi. apply seq_lt in Hi. lia. Qed.
Lemma entryother_bytes l : link_ok l -> bytes_ok (ld_entryother l).
Proof. intros Hl. exact (Forall_inv (Forall_inv_tail Hl)). Qed.
#[local] Hint Resolve seq_lt_S entryother_bytes : ok.
Lemma typed_idtinit : typed idtinit any.
Proof. unfold idtinit. typed. Qed.
Lemma typed_kvmalloc : typed kvmalloc any.
Proof. unfold kvmalloc. typed. Qed.
Lemma typed_seginit : typed seginit any.
Proof. unfold seginit. typed. Qed.
Lemma typed_freerange vstart vend : typed (freerange vstart vend) any.
Proof. unfold freerange. typed. Qed.
Lemma typed_tvinit : typed tvinit any.
Proof. unfold tvinit. typed. Qed.
Lemma typed_binit : typed binit any.
Proof. unfold binit. typed. Qed.
Lemma typed_fileinit : typed fileinit any.
Proof. unfold fileinit. typed. Qed.
Lemma typed_pinit : typed pinit any.
Proof. unfold pinit. typed. Qed.
Lemma typed_consoleinit : typed consoleinit any.
Proof. unfold consoleinit. typed. Qed.
Lemma typed_uartinit lsr : typed (uartinit lsr) any.
Proof. unfold uartinit. typed. Qed.
Lemma typed_cpunum : typed cpunum any.
Proof. unfold cpunum. typed. Qed.
#[local] Hint Resolve typed_idtinit typed_kvmalloc typed_seginit typed_freerange typed_tvinit typed_binit
  typed_fileinit typed_pinit typed_consoleinit typed_uartinit typed_cpunum : typed.
Lemma typed_kinit1 vstart vend : typed (kinit1 vstart vend) any.
Proof. unfold kinit1. typed. Qed.
Lemma typed_kinit2 vstart vend : typed (kinit2 vstart vend) any.
Proof. unfold kinit2. typed. Qed.
Lemma typed_mpmain : typed mpmain any.
Proof. unfold mpmain. typed. Qed.
Lemma typed_startothers : typed startothers any.
Proof. unfold startothers. typed. Qed.
#[local] Hint Resolve typed_kinit1 typed_kinit2 typed_mpmain typed_startothers : typed.
Lemma typed_mpenter : typed mpenter any.
Proof. unfold mpenter. typed. Qed.
#[local] Hint Resolve typed_mpenter : typed.

End devices.

(** ** The console, and the start of the kernel *)

#[export] Instance console_typed : TypedDevices.
Proof.
  split.
  - intros major f ip n. cbn. destruct (major =? CONSOLE); [|done]. intros [= <-]. apply typed_consoleread.
  - intros major f ip buf n. cbn. destruct (major =? CONSOLE); [|done]. intros [= <-] _. apply typed_consolewrite.
Qed.

#[local] Hint Resolve typed_kinit1 typed_kinit2 typed_kvmalloc typed_mpinit typed_lapicinit typed_seginit
  typed_picinit typed_ioapicinit typed_consoleinit typed_uartinit typed_pinit typed_tvinit typed_binit
  typed_fileinit typed_timerinit typed_startothers typed_userinit typed_mpmain : typed.
Lemma typed_main ideinit lsr : typed ideinit any -> typed (main ideinit lsr) any.
Proof. intros Hinit. pose proof typed_userinit as Huserinit. unfold main. typed. Qed.
#[local] Hint Resolve typed_main : typed.

End driver.

(** ** memide.c *)

#[export] Instance memide_typed : @TypedDriver Memide.memide_driver := fun b _ => typed_memide_rw b.

Lemma blocks_of_lookup n bno img b :
  0 <= b < Z.of_nat n -> (512 * n <= length img)%nat -> bytes_ok img ->
  exists d, (list_to_map (Memide.blocks_of n bno img) : gmap (Z * Z) (list Z)) !! (1, bno + b) = Some d /\ array_ok 512 d.
Proof.
  revert bno img b. induction n as [|n IH]; intros bno img b Hb Hlen Himg; [lia|]. cbn [Memide.blocks_of list_to_map foldr fst snd].
  destruct (Z.eq_dec b 0) as [->|Hne].
  - exists (take 512 img). rewrite Z.add_0_r, lookup_insert_eq. split; [done|]. split; [rewrite length_take; lia|by apply take_bytes].
  - rewrite lookup_insert_ne by (intros [=]; lia).
    destruct (IH (bno + 1) (drop 512 img) (b - 1)) as (d & Hd & Hok); [lia| |by apply drop_bytes|].
    + rewrite length_drop. lia.
    + exists d. split; [|done]. rewrite <- Hd. do 2 f_equal. lia.
Qed.

Lemma blocks_of_ok n bno img :
  (512 * n <= length img)%nat -> bytes_ok img ->
  map_Forall (fun _ => array_ok 512) (list_to_map (Memide.blocks_of n bno img) : gmap (Z * Z) (list Z)).
Proof.
  revert bno img. induction n as [|n IH]; intros bno img Hlen Himg; [apply map_Forall_empty|].
  cbn [Memide.blocks_of list_to_map foldr fst snd]. apply map_Forall_insert_2.
  - split; [rewrite length_take; lia|by apply take_bytes].
  - apply IH; [rewrite length_drop; lia|by apply drop_bytes].
Qed.

Lemma typed_memide_ideinit : typed Memide.ideinit any.
Proof.
  apply typed_modify; [|done]. intros k [Hlink]. split; try done. cbn.
  pose proof (Forall_inv (Forall_inv_tail (Forall_inv_tail Hlink))) as Himg. cbv beta in Himg.
  pose proof (Nat.Div0.mul_div_le (length (ld_fs_img (k_link k))) 512) as Hlen. split; [|by apply blocks_of_ok].
  intros b Hb. cbn in *. destruct (blocks_of_lookup _ 0 _ b Hb Hlen Himg) as (d & Hd & [Hok _]). by exists d.
Qed.
Lemma typed_memide_ideintr : typed Memide.ideintr any.
Proof. by apply typed_ret. Qed.

(** ** The whole machine *)

Section machine.
Context `{TypedDriver} (ideinit ideintr : K unit) (Hinit : typed ideinit any) (Hintr : typed ideintr any).

(** What can happen to the state: [main] or [mpenter] starts a processor, a trap enters the kernel,
    and while one of them waits other things happen, in the order of its schedule; a program
    stores a byte; the processor is given to a process; the devices change their registers and
    put characters into the input. *)
Inductive step : (kernel -> kernel) -> Prop :=
| step_main lsr e : (forall f, f ∈ e -> step f) -> step (fun k => Demo.final (main ideinit lsr e k))
| step_mpenter e : (forall f, f ∈ e -> step f) -> step (fun k => Demo.final (mpenter e k))
| step_trap tf e : (forall f, f ∈ e -> step f) -> step (fun k => Demo.final (trap ideintr tf e k))
| step_store a v : step (fun k => set_k_mem (store (k_mem k) a (u8 v)) k)
| step_cpu c : ptr_ok NPROC (c_proc c) -> step (set_k_cpu c)
| step_ide fifo status : step (fun k => set_k_ide (set_id_fifo fifo (set_id_status status (k_ide k))) k)
| step_hw hw : step (set_k_hw hw)
| step_input kbd uart : step (fun k => set_k_cons (set_cs_kbd kbd (set_cs_uart_in uart (k_cons k))) k).

(** The kernel when the boot loader jumps to it: the memory has bytes, the rest of the data is
    zero. *)
Record booted (k : kernel) : Prop := {
  bt_link : link_ok (k_link k);
  bt_cpu : c_proc (k_cpu k) = None;
  bt_idt : k_idt k = replicate 256 gate0;
  bt_mem : mem_ok (k_mem k);
  bt_ptable : k_ptable k = replicate NPROC proc0 /\ k_initproc k = None /\ k_nextpid k = 1;
  bt_rest : k_randstate k = 1 /\ k_ticks k = 0;
  bt_cons : k_cons k = mkCons false false (cs_pos (k_cons k)) (cs_crt (k_cons k)) false [] [] 0 [] (replicate 128 0) 0 0 0;
  bt_screen : length (cs_crt (k_cons k)) = 2000%nat /\ 0 <= cs_pos (k_cons k) < 65536;
  bt_bcache : k_bcache k = replicate (S NBUF) buf0 /\ id_queue (k_ide k) = None;
  bt_disk : k_disk k = ∅ /\ k_disksize k = 0;
  bt_log : k_log k = mkLog 0 0 0 false 0 0 (replicate (Z.to_nat LOGSIZE) 0) /\ k_sb k = mkSuperblock 0 0 0 0 0 0 0;
  bt_files : k_icache k = replicate NINODE inode0 /\ k_ftable k = replicate NFILE file0 /\ k_pipes k = ∅
}.

Inductive life : kernel -> Prop :=
| life_boot k : booted k -> life k
| life_step k f : life k -> step f -> life (f k).

Lemma replicate_ok {A} (P : A -> Prop) n x : P x -> length (replicate n x) = n /\ Forall P (replicate n x).
Proof. intros Hx. split; [apply length_replicate|by apply Forall_replicate]. Qed.

Lemma booted_ok k : booted k -> kernel_ok k.
Proof.
  intros [Hl Hc Hi Hm (Hp & Hip & Hpid) (Hr & Ht) Hcons (Hcrt & Hpos) (Hb & Hq) (Hd & Hds) (Hlog & Hsb) (Hic & Hf & Hpp)].
  split; rewrite ?Hc, ?Hi, ?Hp, ?Hip, ?Hpid, ?Hr, ?Ht, ?Hb, ?Hd, ?Hq, ?Hlog, ?Hsb, ?Hic, ?Hf, ?Hpp;
    try done; try (apply length_replicate).
  - apply replicate_ok, proc0_ok.
  - rewrite Hcons. split; try done. apply (replicate_array 128).
  - apply replicate_ok, buf0_ok.
  - split; [|apply map_Forall_empty]. intros b Hb'. lia.
  - apply (replicate_ok (fun b => sint b)). lia.
  - repeat (apply Forall_cons; split; [cbn; lia|]). constructor.
  - apply replicate_ok, inode0_ok.
  - apply replicate_ok, file0_ok.
Qed.

Lemma typed_final {A} (m : K A) P e k : typed m P -> ok_schedule e -> kernel_ok k -> kernel_ok (Demo.final (m e k)).
Proof. intros Hm He Hk. specialize (Hm e k He Hk). destruct (m e k); [apply Hm|done|done]. Qed.

Lemma step_ok f : step f -> forall k, kernel_ok k -> kernel_ok (f k).
Proof.
  induction 1 as [lsr e _ IH|e _ IH|tf e _ IH|a v|c Hc|fifo status|hw|kbd uart]; intros k Hk.
  1-3: assert (ok_schedule e) as He by (by apply Forall_forall).
  - eapply typed_final; [by apply typed_main|done|done].
  - eapply typed_final; [apply typed_mpenter|done|done].
  - eapply typed_final; [by apply typed_trap|done|done].
  - destruct Hk. split; try done. apply store_mem_ok; [done|apply u8_range].
  - destruct Hk. by split.
  - destruct Hk. by split.
  - destruct Hk. by split.
  - destruct Hk as []. split; try done. destruct ok_cons0. by split.
Qed.


End machine.

(** ** Example: the kernel starts, and a trap comes *)

Definition boot_state : kernel :=
  mkKernel Demo.link0 (set_c_proc None Demo.cpu0) (replicate 256 gate0) ∅ (fun _ => 0) false 0 0 (replicate NPROC proc0)
    None 1 1 0 0 0 true 0 (mkCons false false 0 (replicate 2000 0) false [] [] 0 [] (replicate 128 0) 0 0 0)
    (replicate (S NBUF) buf0) ∅ [] 0 Demo.ide0 Demo.hw0
    (mkLog 0 0 0 false 0 0 (replicate (Z.to_nat LOGSIZE) 0)) (mkSuperblock 0 0 0 0 0 0 0)
    (replicate NINODE inode0) (replicate NFILE file0) ∅.

Lemma boot_state_booted : booted boot_state.
Proof.
  split; try done. by repeat constructor.
Qed.

#[local] Existing Instance Memide.memide_driver.


End Typed.
