(* ===== verification/Image.v ===== *)
(** exec.c: [exec] is all or nothing.  However it ends, the process has the image that it had
    or the new one whole, and [exec] returns -1 or 0 accordingly; the number, the parent, the
    open files, the directory, the tickets and the count of system calls stay, and so
    do the other processes. *)

From S2P Require Import Prelude Bytes Machine Demo Cstring Spinlock Consout Kalloc Sleep Disk Ide.
From S2P Require Import Bio Log Fs Vm Pipe File Proc Console Syscall Exec Keeps.
Import Cstring Spinlock Kalloc Sleep Log Fs Vm Proc Console Exec Keeps.

Module Image.

(** ** What [exec] replaces *)

(** The processes [js], but for what others change while they sleep. *)
Definition images (js : list nat) (k : kernel) : option nat * nat * list proc :=
  (c_proc (k_cpu k), length (k_ptable k), (fun j => awake (proc_at k j)) <$> js).

(** With the address space that is in use. *)
Definition space (js : list nat) (k : kernel) : Z * (option nat * nat * list proc) :=
  (c_cr3 (k_cpu k), images js k).

(** The process that runs the program [path] in the new address space. *)
Definition renewed (path : list Z) (pgdir sz : Z) (p : proc) : proc :=
  set_p_sz sz (set_p_pgdir pgdir (set_p_name (safestrcpy (p_name p) (last_elem path path) 16) p)).

Definition new_image (me : nat) (path : list Z) (pgdir sz : Z) (k : kernel) : kernel :=
  set_k_cpu (set_c_cr3 (v2p pgdir) (k_cpu k)) (set_k_ptable (alter (renewed path pgdir sz) me (k_ptable k)) k).

(** The image as it was before [k], or a new one. *)
Definition all_or_nothing (js : list nat) (me : nat) (path : list Z) (k : kernel) (o : outcome kernel Z) : Prop :=
  match o with
  | Ok r _ k' =>
      (r = -1 /\ space js k' = space js k) \/
      (r = 0 /\ exists pgdir sz, pgdir <> 0 /\ sz <> 0 /\ space js k' = space js (new_image me path pgdir sz k))
  | Panic _ k' | Hang k' =>
      space js k' = space js k \/
      exists pgdir sz, pgdir <> 0 /\ sz <> 0 /\ images js k' = images js (new_image me path pgdir sz k)
  end.

Section images.
Context (js : list nat).

Lemma images_alter i f k :
  (forall p, awake (f p) = awake p) -> images js (set_k_ptable (alter f i (k_ptable k)) k) = images js k.
Proof.
  intros Hf. unfold images. cbn. rewrite length_alter. f_equal.
  apply list_fmap_ext. intros _ j _. unfold proc_at. cbn. destruct (decide (i = j)) as [->|Hne].
  - rewrite list_lookup_alter_eq. destruct (k_ptable k !! j); [apply Hf|done].
  - by rewrite list_lookup_alter_ne.
Qed.

#[export] Instance images_frame : Frame (images js).
Proof.
  split; try reflexivity; [|intros; by apply images_alter].
  intros c k Hc _. unfold images. cbn. by rewrite Hc.
Qed.

#[export] Instance space_frame : Frame (space js).
Proof.
  split; try reflexivity; [|intros; unfold space; by rewrite images_alter].
  intros c k Hc Hd. unfold space, images. cbn. by rewrite Hc, Hd.
Qed.

Lemma quiet_images e : quiet_schedule (space js) e -> quiet_schedule (images js) e.
Proof. intros He. apply (Forall_impl _ _ _ He). intros f Hf k. exact (f_equal snd (Hf k)). Qed.

Lemma images_eq k k' :
  images js k' = images js k <->
  c_proc (k_cpu k') = c_proc (k_cpu k) /\ length (k_ptable k') = length (k_ptable k) /\
  forall j, j ∈ js -> awake (proc_at k' j) = awake (proc_at k j).
Proof.
  unfold images. split.
  - intros [= H1 H2 Hj]. split_and!; try done. intros j. by apply (fmap_eq_inv _ _ _ _ Hj).
  - intros (-> & -> & Hj). f_equal. apply list_fmap_ext. intros i j Hi. apply Hj. by eapply list_elem_of_lookup_2.
Qed.

(** ** The new image *)

Lemma awake_renewed path pgdir sz p : awake (renewed path pgdir sz p) = renewed path pgdir sz (awake p).
Proof. done. Qed.

Lemma proc_at_new_image me path pgdir sz k j :
  proc_at (new_image me path pgdir sz k) j =
    if (j =? me)%nat && (me <? length (k_ptable k))%nat then renewed path pgdir sz (proc_at k j) else proc_at k j.
Proof.
  unfold proc_at, new_image. cbn [k_ptable set_k_ptable set_k_cpu]. destruct (Nat.eqb_spec j me) as [->|Hne]; cbn [andb].
  - rewrite list_lookup_alter_eq. destruct (k_ptable k !! me) as [p|] eqn:E.
    + by rewrite (proj2 (Nat.ltb_lt _ _) (lookup_lt_Some _ _ _ E)).
    + by rewrite (proj2 (Nat.ltb_ge _ _) (proj1 (lookup_ge_None _ _) E)).
  - by rewrite list_lookup_alter_ne.
Qed.

Lemma new_image_images me path pgdir sz k k' :
  images js k' = images js k -> images js (new_image me path pgdir sz k') = images js (new_image me path pgdir sz k).
Proof.
  rewrite !images_eq. intros (H1 & H2 & Hj). cbn. rewrite !length_alter. split_and!; try done. intros j Hin.
  rewrite !proc_at_new_image, H2. destruct (_ && _); [|by apply Hj]. by rewrite !awake_renewed, Hj.
Qed.

Lemma new_image_space me path pgdir sz k k' :
  space js k' = space js k -> space js (new_image me path pgdir sz k') = space js (new_image me path pgdir sz k).
Proof. intros H. unfold space. f_equal. apply new_image_images, (f_equal snd H). Qed.

(** ** [exec] *)

#[local] Hint Constants Opaque : typeclass_instances.

Context (me : nat) (path : list Z).
Notation aon := (all_or_nothing js me path).

Lemma aon_space k k' o : space js k' = space js k -> aon k' o -> aon k o.
Proof.
  intros Hk. assert (forall pgdir sz, space js (new_image me path pgdir sz k') = space js (new_image me path pgdir sz k)) as Hn
    by (intros; by apply new_image_space).
  destruct o as [r e' k2|msg k2|k2]; cbn; rewrite Hk.
  1: intros [H|(-> & pgdir & sz & H1 & H2 & H)]; [by left|right].
  2,3: intros [H|(pgdir & sz & H1 & H2 & H)]; [by left|right].
  - split; [done|]. exists pgdir, sz. by rewrite <- Hn.
  - exists pgdir, sz. rewrite H. split_and!; try done. exact (f_equal snd (Hn pgdir sz)).
  - exists pgdir, sz. rewrite H. split_and!; try done. exact (f_equal snd (Hn pgdir sz)).
Qed.

Definition runs (k : kernel) : Prop := c_proc (k_cpu k) = Some me /\ (me < length (k_ptable k))%nat.

(** A part that keeps the image. *)
Lemma aon_bind {A} (m : K A) (f : A -> K Z) e k :
  Keeps (space js) m -> quiet_schedule (space js) e -> runs k ->
  (forall a e1 k1, quiet_schedule (space js) e1 -> runs k1 -> aon k1 (f a e1 k1)) ->
  aon k (bind m f e k).
Proof.
  intros Hm He Hme Hf. apply (keeps_then (space js) (space js k) m f e k (aon k)); try done; [|by left|by left].
  intros a e1 k1 He1 Hk1. apply (aon_space k k1); [done|]. apply Hf; [done|].
  apply (f_equal snd), images_eq in Hk1 as (Hc & Hl & _). unfold runs. by rewrite Hc, Hl.
Qed.

Lemma aon_fails e k : aon k (ret (-1) e k).
Proof. by left. Qed.

(** [switchuvm] loads the page directory of the process. *)
Definition loaded (k : kernel) (o : outcome kernel unit) : Prop :=
  match o with
  | Ok _ e' k' =>
      quiet_schedule (space js) e' /\ images js k' = images js k /\ c_cr3 (k_cpu k') = v2p (p_pgdir (proc_at k me))
  | Panic _ k' | Hang k' => images js k' = images js k
  end.

Lemma images_proc k k' : me ∈ js -> images js k' = images js k -> awake (proc_at k' me) = awake (proc_at k me).
Proof. intros Hin (_ & _ & Hj)%images_eq. by apply Hj. Qed.

Lemma loaded_bind {A} k (m : K A) f e k1 :
  Keeps (space js) m -> quiet_schedule (space js) e -> space js k1 = space js k ->
  (forall a e1 k2, quiet_schedule (space js) e1 -> space js k2 = space js k -> loaded k (f a e1 k2)) ->
  loaded k (bind m f e k1).
Proof.
  intros Hm He Hk1 Hf. apply (keeps_then (space js) (space js k) m f e k1 (loaded k)); try done.
  - intros msg k2 Hk2. exact (f_equal snd Hk2).
  - intros k2 Hk2. exact (f_equal snd Hk2).
Qed.

Lemma switchuvm_loads_from k e k1 :
  me ∈ js -> quiet_schedule (space js) e -> space js k1 = space js k -> loaded k (switchuvm me e k1).
Proof.
  intros Hin He Hk1. unfold switchuvm.
  do 11 (apply loaded_bind; [first [apply _|apply (kept_upd_cpu _); reflexivity]|done|done|];
    clear e k1 He Hk1; intros ? e k1 He Hk1).
  rewrite get_proc_eq. pose proof (f_equal snd Hk1) as Hi. cbn in Hi.
  pose proof (f_equal p_pgdir (images_proc k k1 Hin Hi)) as Hd. cbn in Hd. rewrite Hd.
  destruct (p_pgdir (proc_at k me) =? 0); [exact Hi|]. unfold lcr3, upd_cpu. rewrite modify_eq.
  set (k2 := set_k_cpu _ k1).
  assert (Keeps (space js) popcli) as Hp by apply _. specialize (Hp e k2 He).
  destruct (popcli e k2) as [[] e3 k3|msg k3|k3]; cbn.
  - destruct Hp as [Hp He3]. split; [done|]. split; [exact (eq_trans (f_equal snd Hp) Hi)|exact (f_equal fst Hp)].
  - exact (eq_trans (f_equal snd Hp) Hi).
  - exact (eq_trans (f_equal snd Hp) Hi).
Qed.

Lemma switchuvm_loads e k : me ∈ js -> quiet_schedule (space js) e -> loaded k (switchuvm me e k).
Proof. intros. by apply switchuvm_loads_from. Qed.

(** The assignments to the fields of the process. *)
Lemma renewed_alter pgdir sz k :
  alter (set_p_sz sz) me (alter (set_p_pgdir pgdir) me
    (alter (set_p_name (safestrcpy (p_name (proc_at k me)) (last_elem path path) 16)) me (k_ptable k))) =
  alter (renewed path pgdir sz) me (k_ptable k).
Proof.
  unfold proc_at. rewrite (alter_default proc0 (fun p => set_p_name (safestrcpy (p_name p) (last_elem path path) 16))).
  apply list_eq. intros j. destruct (decide (me = j)) as [->|Hne].
  - rewrite !list_lookup_alter_eq. by destruct (k_ptable k !! j).
  - by rewrite !list_lookup_alter_ne.
Qed.

(** The new image takes the place of the old one. *)
Lemma aon_exec_commit elf pgdir sz sp e k :
  me ∈ js -> runs k -> quiet_schedule (space js) e -> pgdir <> 0 -> sz <> 0 ->
  aon k (exec_commit path elf pgdir sz sp e k).
Proof.
  intros Hin [Hme Hlt] He Hd Hs. unfold exec_commit. rewrite (curproc_eq me), get_proc_eq, !upd_proc_eq by done.
  unfold st32. cbv zeta. rewrite !modify_eq.
  match goal with |- aon k (bind _ _ _ ?x) => set (k1 := x) end.
  assert (images js k1 = images js (new_image me path pgdir sz k)) as Hi.
  { unfold images, proc_at, k1, new_image. cbn [set_k_mem set_k_ptable set_k_cpu set_c_cr3 k_ptable k_cpu c_proc].
    by rewrite renewed_alter. }
  pose proof (images_proc _ _ Hin Hi) as Hp. rewrite proc_at_new_image, Nat.eqb_refl in Hp.
  rewrite (proj2 (Nat.ltb_lt _ _) Hlt) in Hp. apply (f_equal p_pgdir) in Hp. cbn in Hp.
  pose proof (switchuvm_loads e k1 Hin He) as Hl. unfold bind at 1.
  destruct (switchuvm me e k1) as [[] e2 k2|msg k2|k2]; cbn in Hl.
  2,3: right; exists pgdir, sz; split_and!; try done; congruence.
  destruct Hl as (He2 & Hi2 & Hc2). rewrite Hp in Hc2.
  assert (space js k2 = space js (new_image me path pgdir sz k)) as Hk2 by (unfold space; rewrite Hc2, Hi2, Hi; done).
  apply (keeps_then (space js) _ _ _ e2 k2 (aon k) _ He2 Hk2).
  - intros _ e3 k3 _ Hk3. right. split; [done|]. by exists pgdir, sz.
  - intros msg k3 Hk3. right. exists pgdir, sz. split_and!; try done. exact (f_equal snd Hk3).
  - intros k3 Hk3. right. exists pgdir, sz. split_and!; try done. exact (f_equal snd Hk3).
Qed.

(** What the two cases say of the processes. *)
Lemma kept_cases k k' :
  me ∈ js -> images js k' = images js k ->
  (forall j, j ∈ js -> j <> me -> awake (proc_at k' j) = awake (proc_at k j)) /\
  awake (proc_at k' me) = awake (proc_at k me).
Proof. intros Hin (_ & _ & Hj)%images_eq. split; auto. Qed.

Lemma new_cases pgdir sz k k' :
  me ∈ js -> runs k -> images js k' = images js (new_image me path pgdir sz k) ->
  (forall j, j ∈ js -> j <> me -> awake (proc_at k' j) = awake (proc_at k j)) /\
  awake (proc_at k' me) = renewed path pgdir sz (awake (proc_at k me)).
Proof.
  intros Hin [_ Hlt%Nat.ltb_lt] (_ & _ & Hj)%images_eq. split.
  - intros j Hjs Hne. by rewrite Hj, proc_at_new_image, (proj2 (Nat.eqb_neq _ _) Hne).
  - by rewrite Hj, proc_at_new_image, Nat.eqb_refl, Hlt.
Qed.

Context `{FramedDriver} `{FramedDevices}.

Ltac aon_step := apply aon_bind; [keeps|done|done|intros ? ? ? ? ?].

Lemma aon_bad pgdir ip e k : quiet_schedule (space js) e -> runs k -> aon k (bad pgdir ip e k).
Proof. intros He Hk. unfold bad. do 2 aon_step. apply aon_fails. Qed.

Lemma aon_exec_stack argv elf pgdir sz e k :
  me ∈ js -> quiet_schedule (space js) e -> runs k -> pgdir <> 0 -> aon k (exec_stack path argv elf pgdir sz e k).
Proof.
  intros Hin He Hk Hd. unfold exec_stack. cbv zeta. apply aon_bind; [apply _|done|done|]. intros sz1 e11 k11 He11 Hk11.
  destruct (Z.eqb_spec sz1 0) as [_|Hs]; [by apply aon_bad|]. aon_step.
  apply aon_bind; [apply _|done|done|]. intros [[sp args]|] e12 k12 He12 Hk12; [|by apply aon_bad].
  apply aon_bind; [apply _|done|done|]. intros r e13 k13 He13 Hk13. destruct (r <? 0); [by apply aon_bad|].
  by apply aon_exec_commit.
Qed.

Lemma aon_exec argv e k : me ∈ js -> quiet_schedule (space js) e -> runs k -> aon k (exec path argv e k).
Proof.
  intros Hin He Hk. unfold exec. aon_step.
  apply aon_bind; [apply _|done|done|]. intros [ip|] e11 k11 He11 Hk11; [|aon_step; apply aon_fails].
  aon_step. apply aon_bind; [apply _|done|done|]. intros [elf r] e12 k12 He12 Hk12.
  destruct (u32 r <? sizeof_elfhdr); [by apply aon_bad|]. destruct (negb _); [by apply aon_bad|].
  apply aon_bind; [apply _|done|done|]. intros pgdir e13 k13 He13 Hk13.
  destruct (Z.eqb_spec pgdir 0) as [_|Hd]; [by apply aon_bad|].
  apply aon_bind; [apply _|done|done|]. intros [sz|] e14 k14 He14 Hk14; [|by apply aon_bad].
  aon_step. aon_step. by apply aon_exec_stack.
Qed.

End images.

(** ** The theorem *)


(** ** Example: the empty path names the current directory, which is no program *)

#[local] Existing Instance Memide.memide_driver.

(** Process 0 of the machine, in an empty directory. *)
Definition in_dir : kernel :=
  let dir := set_i_type T_DIR (set_i_flags I_VALID (set_i_ref 1 (set_i_inum 1 (set_i_dev 1 inode0)))) in
  set_k_icache (alter (fun _ => dir) 0%nat (k_icache Demo.machine))
    (set_k_ptable (alter (fun p => set_p_cwd (Some 0%nat) (set_p_state RUNNING p)) 0%nat (k_ptable Demo.machine)) Demo.machine).


(** It returns -1. *)
Lemma exec_directory_fails :
  match exec [] [] [] in_dir with Ok r _ k' => r = -1 /\ i_ref (inode_at k' 0) = 1 | _ => False end.
Proof. vm_compute. done. Qed.

End Image.
