(* ===== verification/User.v ===== *)
(** The user side: the system calls as the programs see them (user.h, usys.S),
    the library ulib.c, and printf.c.

    A program is a computation over the state of whatever runs it, which is a
    parameter: the class [OS] has one operation per system call.  Buffers are
    values: [read] returns the bytes it stores, [write] takes the bytes to
    write.  A process that calls [exit] does not go on; the outcome of the
    program is then [Panic "exit"]. *)

From S2P Require Import Prelude Bytes Machine Cstring Consout Spinlock Sleep Disk Bio Log Fs.
Import Cstring.

Module User.

Class OS (S : Type) : Type := {
  fork : M S Z;
  wait : M S Z;
  pipe : M S (Z * Z * Z);
  write : Z -> list Z -> M S Z;
  read : Z -> Z -> M S (list Z * Z);
  close : Z -> M S Z;
  kill : Z -> M S Z;
  exec : list Z -> list (list Z) -> M S Z;
  open : list Z -> Z -> M S Z;
  mknod : list Z -> Z -> Z -> M S Z;
  unlink : list Z -> M S Z;
  fstat : Z -> M S (Fs.stat * Z);
  link : list Z -> list Z -> M S Z;
  mkdir : list Z -> M S Z;
  chdir : list Z -> M S Z;
  dup : Z -> M S Z;
  getpid : M S Z;
  sbrk : Z -> M S Z;
  sleep : Z -> M S Z;
  uptime : M S Z;
  count : M S Z
}.

(** ** ulib.c *)

(** The bytes at [s] after the copy. *)
Definition strcpy (s t : list Z) : list Z := splice 0 (cstr t ++ [0]) s.

Fixpoint strcmp (p q : list Z) : Z :=
  let a := hd 0 p in
  let b := hd 0 q in
  match p with
  | [] => a - b
  | _ :: p' => if nz a && (a =? b) then strcmp p' (tl q) else a - b
  end.

(** [None] is the null pointer, [Some i] a pointer to byte [i]. *)
Fixpoint strchr (s : list Z) (c : Z) : option nat :=
  match s with
  | [] => None
  | x :: s' =>
      if x =? 0 then None else
      if x =? c then Some 0%nat else S <$> strchr s' c
  end.

Fixpoint atoi_from (n : Z) (s : list Z) : Z :=
  match s with
  | c :: s' => if (48 <=? c) && (c <=? 57) then atoi_from (s32 (n * 10 + c - 48)) s' else n
  | [] => n
  end.
Definition atoi (s : list Z) : Z := atoi_from 0 s.

(** [memmove] of ulib.c copies from the first byte on: the byte at [d] is the one
    at [s] at that time. *)
Fixpoint memmove (l : list Z) (d s n : nat) : list Z :=
  match n with
  | O => l
  | S n' => memmove (<[d := nth s l 0]> l) (S d) (S s) n'
  end.

Section programs.
Context {S : Type} `{OS S}.

Definition exit {A} : M S A := panic "exit".

(** [for(i=0; i+1 < max; )]: the characters stored, without the NUL. *)
Fixpoint gets_loop (n : nat) : M S (list Z) :=
  match n with
  | O => ret []
  | Datatypes.S n' =>
      ' (b, cc) <- read 0 1 ;;
      if cc <? 1 then ret [] else
      let c := hd 0 b in
      if (c =? 10) || (c =? 13) then ret [c] else
      l <- gets_loop n' ;;
      ret (c :: l)
  end.
Definition gets (max : Z) : M S (list Z) := gets_loop (Z.to_nat (max - 1)).

(** [None] is the result -1 of [open]. *)
Definition stat (n : list Z) : M S (option Fs.stat * Z) :=
  fd <- open n O_RDONLY ;;
  if fd <? 0 then ret (None, -1) else
  ' (st, r) <- fstat fd ;;
  close fd ;;
  ret (Some st, r).

(** ** printf.c *)

Definition putc (fd c : Z) : M S unit := write fd [u8 c] ;; ret tt.

Definition digit (d : Z) : Z := nth (Z.to_nat d) (chars "0123456789ABCDEF") 0.

(** The do-while loop of [printint], the last digit first. *)
Fixpoint int_digits (fuel : nat) (x base : Z) : list Z :=
  match fuel with
  | O => []
  | Datatypes.S fuel' =>
      digit (x mod base) ::
      (if x / base =? 0 then [] else int_digits fuel' (x / base) base)
  end.

(** The characters [printint] prints.  A number of 32 bits has at most ten digits
    in the two bases used, so [buf] has room. *)
Definition printint_chars (xx base : Z) (sgn : bool) : list Z :=
  let neg := sgn && (xx <? 0) in
  let x := if neg then u32 (- xx) else u32 xx in
  rev (int_digits 16 x base ++ if neg then [45] else []).

Definition printint (fd xx base : Z) (sgn : bool) : M S unit :=
  for_all (printint_chars xx base sgn) (putc fd).

(** An argument: an integer or a string (a null pointer is [None]). *)
Inductive uarg := UInt (x : Z) | UStr (s : option (list Z)).

Definition next_int (args : list uarg) : Z :=
  match args with UInt x :: _ => x | _ => 0 end.
Definition next_str (args : list uarg) : list Z :=
  match args with UStr (Some s) :: _ => cstr s | _ => chars "(null)" end.

(** The loop over the format; [state] says that the last character was a
    percent sign. *)
Fixpoint printf_loop (fd : Z) (state : bool) (fmt : list Z) (ap : list uarg) : M S unit :=
  match fmt with
  | [] => ret tt
  | c :: fmt' =>
      if c =? 0 then ret tt else
      let c := Z.land c 0xff in
      if negb state then
        if c =? 37 then printf_loop fd true fmt' ap
        else putc fd c ;; printf_loop fd false fmt' ap
      else if c =? 100 then
        printint fd (s32 (next_int ap)) 10 true ;; printf_loop fd false fmt' (tail ap)
      else if (c =? 120) || (c =? 112) then
        printint fd (s32 (next_int ap)) 16 false ;; printf_loop fd false fmt' (tail ap)
      else if c =? 115 then
        for_all (next_str ap) (putc fd) ;; printf_loop fd false fmt' (tail ap)
      else if c =? 99 then
        putc fd (next_int ap) ;; printf_loop fd false fmt' (tail ap)
      else if c =? 37 then putc fd c ;; printf_loop fd false fmt' ap
      else putc fd 37 ;; putc fd c ;; printf_loop fd false fmt' ap
  end.
Definition printf (fd : Z) (fmt : string) (args : list uarg) : M S unit :=
  printf_loop fd false (chars fmt) args.

End programs.

(** ** Descriptors as streams

    What the programs rely on: [write] appends all the bytes; [read] takes a
    part of what is left, nothing only at the end. *)
Class Streams (S : Type) `{OS S} : Type := {
  input : Z -> S -> list Z;
  written : Z -> S -> list Z;
  write_ok : forall fd l e s, exists s', write fd l e s = Ok (Z.of_nat (length l)) e s' /\
    written fd s' = written fd s ++ l /\
    (forall fd', fd' <> fd -> written fd' s' = written fd' s) /\
    (forall fd', input fd' s' = input fd' s);
  read_ok : forall fd n e s, 0 < n -> exists l s', read fd n e s = Ok (l, Z.of_nat (length l)) e s' /\
    Z.of_nat (length l) <= n /\ input fd s = l ++ input fd s' /\ (l = [] -> input fd s = []) /\
    (forall fd', written fd' s' = written fd' s)
}.

(** ** What is printed *)

Section streams.
Context {S : Type} `{Streams S}.

(** [m] writes [l] to the descriptor and does nothing else. *)
Definition writes {A} (m : M S A) (fd : Z) (l : list Z) (a : A) : Prop :=
  forall e s, exists s', m e s = Ok a e s' /\ written fd s' = written fd s ++ l /\
    (forall fd', fd' <> fd -> written fd' s' = written fd' s) /\
    (forall fd', input fd' s' = input fd' s).

Lemma writes_ret {A} fd (a : A) : writes (ret a) fd [] a.
Proof. intros e s. exists s. by rewrite app_nil_r. Qed.

Lemma writes_bind {A B} (m : M S A) (f : A -> M S B) fd l1 l2 a b :
  writes m fd l1 a -> writes (f a) fd l2 b -> writes (bind m f) fd (l1 ++ l2) b.
Proof.
  intros H1 H2 e s. destruct (H1 e s) as (s1 & E1 & W1 & O1 & I1).
  destruct (H2 e s1) as (s2 & E2 & W2 & O2 & I2).
  exists s2. unfold bind. rewrite E1. split; [done|]. split; [by rewrite W2, W1, app_assoc|].
  split; intros fd'; [intros Hne; by rewrite O2, O1|by rewrite I2].
Qed.

Lemma writes_write fd l : writes (write fd l) fd l (Z.of_nat (length l)).
Proof. intros e s. apply write_ok. Qed.

Lemma writes_putc fd c : writes (putc fd c) fd [u8 c] tt.
Proof. unfold putc. rewrite <- (app_nil_r [u8 c]). eapply writes_bind; [apply writes_write|apply writes_ret]. Qed.

Lemma writes_puts fd l : writes (for_all l (putc fd)) fd (u8 <$> l) tt.
Proof.
  induction l as [|c l IH]; [apply writes_ret|]. cbn [for_all fmap list_fmap].
  change (u8 c :: (u8 <$> l)) with ([u8 c] ++ (u8 <$> l)). eapply writes_bind; [apply writes_putc|done].
Qed.

(** The text of a format and its arguments. *)
Fixpoint text (state : bool) (fmt : list Z) (ap : list uarg) : list Z :=
  match fmt with
  | [] => []
  | c :: fmt' =>
      if c =? 0 then [] else
      let c := Z.land c 0xff in
      if negb state then
        if c =? 37 then text true fmt' ap else u8 c :: text false fmt' ap
      else if c =? 100 then (u8 <$> printint_chars (s32 (next_int ap)) 10 true) ++ text false fmt' (tail ap)
      else if (c =? 120) || (c =? 112) then
        (u8 <$> printint_chars (s32 (next_int ap)) 16 false) ++ text false fmt' (tail ap)
      else if c =? 115 then (u8 <$> next_str ap) ++ text false fmt' (tail ap)
      else if c =? 99 then u8 (next_int ap) :: text false fmt' (tail ap)
      else if c =? 37 then u8 c :: text false fmt' ap
      else u8 37 :: u8 c :: text false fmt' ap
  end.

Lemma writes_printf_loop fd state fmt ap : writes (printf_loop fd state fmt ap) fd (text state fmt ap) tt.
Proof.
  assert (forall c (m : M S unit) l, writes m fd l tt -> writes (putc fd c ;; m) fd (u8 c :: l) tt) as Hc.
  { intros c m l Hm. change (u8 c :: l) with ([u8 c] ++ l). eapply writes_bind; [apply writes_putc|done]. }
  revert state ap. induction fmt as [|c fmt IH]; intros state ap; [apply writes_ret|].
  cbn [printf_loop text]. destruct (c =? 0); [apply writes_ret|]. cbv zeta.
  destruct state; cbn [negb].
  - repeat case_match; first [eapply writes_bind; [apply writes_puts|apply IH] | by repeat apply Hc].
  - case_match; [apply IH|by apply Hc].
Qed.

(** Every call of [printf] writes the text. *)
Lemma writes_printf fd fmt args : writes (printf fd fmt args) fd (text false (chars fmt) args) tt.
Proof. apply writes_printf_loop. Qed.

End streams.

(** ** System calls in a larger state

    The globals of a program and the state of the system make up the state [T] of
    the program; a system call works on the system's part. *)

Section zoom.
Context {S T : Type} (sys : T -> S) (set_sys : S -> T -> T).

Definition zoom {A} (m : M S A) : M T A := fun e t =>
  match m [] (sys t) with
  | Ok a _ s => Ok a e (set_sys s t)
  | Panic msg s => Panic msg (set_sys s t)
  | Hang s => Hang (set_sys s t)
  end.

Definition zoom_os `{OS S} : OS T := {|
  fork := zoom fork; wait := zoom wait; pipe := zoom pipe; write fd l := zoom (write fd l);
  read fd n := zoom (read fd n); close fd := zoom (close fd); kill pid := zoom (kill pid);
  exec p argv := zoom (exec p argv); open p mode := zoom (open p mode);
  mknod p major minor := zoom (mknod p major minor); unlink p := zoom (unlink p);
  fstat fd := zoom (fstat fd); link p q := zoom (link p q); mkdir p := zoom (mkdir p);
  chdir p := zoom (chdir p); dup fd := zoom (dup fd); getpid := zoom getpid; sbrk n := zoom (sbrk n);
  sleep n := zoom (sleep n); uptime := zoom uptime; count := zoom count
|}.
End zoom.

(** ** An example: a process whose descriptors all read the same input, in chunks
    of at most [tp_chunk + 1] bytes *)

Record tape : Type := mkTape { tp_in : list Z; tp_chunk : nat; tp_out : Z -> list Z }.

Definition tape_write (fd : Z) (l : list Z) : M tape Z := fun e s =>
  Ok (Z.of_nat (length l)) e (mkTape (tp_in s) (tp_chunk s) (fun fd' => if fd' =? fd then tp_out s fd ++ l else tp_out s fd')).
Definition tape_read (fd n : Z) : M tape (list Z * Z) := fun e s =>
  let l := take (Z.to_nat n `min` Datatypes.S (tp_chunk s)) (tp_in s) in
  Ok (l, Z.of_nat (length l)) e (mkTape (drop (length l) (tp_in s)) (tp_chunk s) (tp_out s)).

(** Its other system calls fail. *)
#[export] Instance tape_os : OS tape := {
  fork := ret (-1); wait := ret (-1); pipe := ret (0, 0, -1); write := tape_write; read := tape_read;
  close _ := ret 0; kill _ := ret (-1); exec _ _ := ret (-1); open _ _ := ret 3; mknod _ _ _ := ret (-1);
  unlink _ := ret (-1); fstat _ := ret (Fs.mkStat 0 0 0 0 0, -1); link _ _ := ret (-1); mkdir _ := ret (-1);
  chdir _ := ret (-1); dup _ := ret (-1); getpid := ret 1; sbrk _ := ret (-1); sleep _ := ret 0;
  uptime := ret 0; count := ret 0
}.

#[export] Instance tape_streams : Streams tape.
Proof.
  refine {| input _ s := tp_in s; written fd s := tp_out s fd |}.
  - intros fd l e s. eexists. split; [reflexivity|]. cbn. split; [by rewrite Z.eqb_refl|].
    split; [|done]. intros fd' Hne. by rewrite (proj2 (Z.eqb_neq _ _)).
  - intros fd n e s Hn. eexists _, _. split; [reflexivity|]. cbn. rewrite length_take.
    split; [lia|]. split; [|split; [|done]].
    + rewrite <- (take_drop (Z.to_nat n `min` Datatypes.S (tp_chunk s)) (tp_in s)) at 1. f_equal.
      destruct (decide (Z.to_nat n `min` Datatypes.S (tp_chunk s) <= length (tp_in s))%nat).
      * f_equal. lia.
      * rewrite !drop_ge by lia. done.
    + intros Hl. destruct (tp_in s); [done|]. exfalso.
      destruct (Z.to_nat n `min` Datatypes.S (tp_chunk s))%nat eqn:Em; [lia|]. done.
Defined.

End User.
