(* ===== verification/Umalloc.v ===== *)
(** The user programs' memory allocator, umalloc.c: the storage allocator of
    Kernighan and Ritchie, with its circular list of free blocks in the order of
    their addresses.

    Memory is words at addresses; a header is two words, [s.ptr] at its address
    and [s.size], in units of one header, behind it.  [sbrk] is the system call of
    the class [OS], and the class [Break] states what the allocator relies on.
    The two loops take a bound; the theorems hold for every bound larger than
    the number of free blocks. *)

From S2P Require Import Prelude Bytes Machine Cstring Consout Fs User.
Import User.

Module Umalloc.

Record heap {S : Type} : Type := mkHeap { um_mem : Z -> Z; um_freep : Z; um_os : S }.
Arguments heap : clear implicits.

(** [sizeof(Header)] *)
Definition sizeof_Header : Z := 8.

(** What the allocator relies on: [sbrk] fails, or moves the break up by what it is
    asked for and returns where it was. *)
Class Break (S : Type) `{OS S} : Type := {
  brk : S -> Z;
  sbrk_ok : forall n s, 0 < n < 2 ^ 31 -> exists r s', sbrk n [] s = Ok r [] s' /\
    (r = -1 /\ brk s' = brk s \/ r = brk s /\ brk s' = brk s + n /\ brk s' < 2 ^ 32)
}.

Section umalloc.
Context {S : Type} `{OS S}.

(** The address of the static variable [base]. *)
Variable base : Z.

Definition put (m : Z -> Z) (a v : Z) : Z -> Z := fun x => if x =? a then v else m x.

Definition s_ptr (p : Z) : M (heap S) Z := Prelude.gets (fun h => um_mem h p).
Definition s_size (p : Z) : M (heap S) Z := Prelude.gets (fun h => um_mem h (p + 4)).
Definition set_ptr (p v : Z) : M (heap S) unit := modify (fun h => mkHeap S (put (um_mem h) p v) (um_freep h) (um_os h)).
Definition set_size (p v : Z) : M (heap S) unit := modify (fun h => mkHeap S (put (um_mem h) (p + 4) v) (um_freep h) (um_os h)).
Definition set_freep (p : Z) : M (heap S) unit := modify (fun h => mkHeap S (um_mem h) p (um_os h)).

(** A system call, which leaves the allocator's memory alone. *)
#[export] Instance heap_os : OS (heap S) :=
  zoom_os um_os (fun s h => mkHeap S (um_mem h) (um_freep h) s).

(** [p + n] for a pointer to headers *)
Definition plus (p n : Z) : Z := u32 (p + sizeof_Header * n).

(** The loop of [free]: the block that [bp] comes behind. *)
Definition free_place (fuel : nat) (bp p : Z) : M (heap S) Z :=
  loop_fuel fuel (fun p =>
    next <- s_ptr p ;;
    if (p <? bp) && (bp <? next) then ret (inr p) else
    if (next <=? p) && ((p <? bp) || (bp <? next)) then ret (inr p) else
    ret (inl next)) p.

Definition free (fuel : nat) (ap : Z) : M (heap S) unit :=
  let bp := plus ap (-1) in
  freep <- Prelude.gets um_freep ;;
  p <- free_place fuel bp freep ;;
  bsize <- s_size bp ;;
  next <- s_ptr p ;;
  (if plus bp bsize =? next then
     nsize <- s_size next ;;
     set_size bp (u32 (bsize + nsize)) ;;
     nnext <- s_ptr next ;;
     set_ptr bp nnext
   else set_ptr bp next) ;;
  psize <- s_size p ;;
  (if plus p psize =? bp then
     bsize <- s_size bp ;;
     set_size p (u32 (psize + bsize)) ;;
     bnext <- s_ptr bp ;;
     set_ptr p bnext
   else set_ptr p bp) ;;
  set_freep p.

Definition morecore (fuel : nat) (nu : Z) : M (heap S) Z :=
  let nu := if nu <? 4096 then 4096 else nu in
  p <- sbrk (s32 (nu * sizeof_Header)) ;;
  if p =? -1 then ret 0 else
  set_size p nu ;;
  free fuel (plus p 1) ;;
  Prelude.gets um_freep.

(** What [malloc] does with a block [p] that is large enough, behind [prevp]. *)
Definition carve (nunits prevp p size : Z) : M (heap S) Z :=
  p <- (if size =? nunits then
          next <- s_ptr p ;;
          set_ptr prevp next ;;
          ret p
        else
          set_size p (size - nunits) ;;
          let p := plus p (size - nunits) in
          set_size p nunits ;;
          ret p) ;;
  set_freep prevp ;;
  ret (plus p 1).

Definition malloc_loop (fuel ffuel : nat) (nunits : Z) : Z * Z -> M (heap S) Z :=
  loop_fuel fuel (fun '(prevp, p) =>
    size <- s_size p ;;
    if nunits <=? size then
      r <- carve nunits prevp p size ;;
      ret (inr r)
    else
      freep <- Prelude.gets um_freep ;;
      if p =? freep then
        p <- morecore ffuel nunits ;;
        if p =? 0 then ret (inr 0) else
        next <- s_ptr p ;;
        ret (inl (p, next))
      else
        next <- s_ptr p ;;
        ret (inl (p, next))).

Definition malloc (fuel : nat) (nbytes : Z) : M (heap S) Z :=
  let nunits := u32 (u32 (nbytes + sizeof_Header - 1) / sizeof_Header + 1) in
  freep <- Prelude.gets um_freep ;;
  prevp <- (if freep =? 0 then
              set_freep base ;;
              set_ptr base base ;;
              set_size base 0 ;;
              ret base
            else ret freep) ;;
  p <- s_ptr prevp ;;
  malloc_loop fuel fuel nunits (prevp, p).

(** ** The list of free blocks

    [seg m a l z lo hi]: following the pointers from [a] gives the blocks [l] (an
    address and a size each) and then [z]; they lie between [lo] and [hi], in the
    order of their addresses, without overlap. *)

Fixpoint seg (m : Z -> Z) (a : Z) (l : list (Z * Z)) (z lo hi : Z) : Prop :=
  match l with
  | [] => a = z /\ lo <= hi
  | (b, n) :: l' => a = b /\ m (b + 4) = n /\ 0 <= n /\ lo <= b /\ seg m (m b) l' z (b + 8 * Z.max 1 n) hi
  end.

(** The bytes of the blocks. *)
Definition owns (l : list (Z * Z)) (x : Z) : Prop := Exists (fun '(a, n) => a <= x < a + 8 * n) l.

Lemma seg_cons m a b n l z lo hi :
  seg m a ((b, n) :: l) z lo hi <->
  a = b /\ m (b + 4) = n /\ 0 <= n /\ lo <= b /\ seg m (m b) l z (b + 8 * Z.max 1 n) hi.
Proof. done. Qed.

Lemma seg_le m a l z lo hi : seg m a l z lo hi -> lo <= hi.
Proof.
  revert a lo. induction l as [|[b n] l IH]; intros a lo; cbn [seg]; [lia|].
  intros (_ & _ & ? & ? & Hs). apply IH in Hs. lia.
Qed.

Lemma seg_start m a l z lo hi : seg m a l z lo hi -> hi <= z -> lo <= a <= z.
Proof.
  intros Hs Hz. pose proof (seg_le _ _ _ _ _ _ Hs). destruct l as [|[b n] l]; cbn [seg] in Hs; [lia|].
  destruct Hs as (-> & _ & _ & ? & Hs). apply seg_le in Hs. lia.
Qed.

(** Only the words of the blocks matter. *)
Lemma seg_frame m m' a l z lo hi :
  (forall x, lo <= x < hi -> m' x = m x) -> seg m a l z lo hi -> seg m' a l z lo hi.
Proof.
  revert a lo. induction l as [|[b n] l IH]; intros a lo Hm; cbn [seg]; [done|].
  intros (-> & Hn & ? & ? & Hs). pose proof (seg_le _ _ _ _ _ _ Hs).
  rewrite !Hm by lia. repeat (split; [done|]). apply IH; [|done]. intros x Hx. apply Hm. lia.
Qed.

Lemma seg_weaken m a l z lo hi lo' hi' : lo' <= lo -> hi <= hi' -> seg m a l z lo hi -> seg m a l z lo' hi'.
Proof.
  revert a lo lo'. induction l as [|[b n] l IH]; intros a lo lo' Hl Hh; cbn [seg]; [intuition lia|].
  intros (-> & Hn & ? & ? & Hs). repeat (split; [done || lia|]). eapply IH; [|done|exact Hs]. lia.
Qed.

Lemma seg_app m a l1 l2 z lo hi :
  seg m a (l1 ++ l2) z lo hi <-> exists b mid, seg m a l1 b lo mid /\ seg m b l2 z mid hi.
Proof.
  revert a lo. induction l1 as [|[b n] l1 IH]; intros a lo; cbn [seg app].
  - split; [intros Hs; exists a, lo; split; [lia|done]|]. intros (b & mid & [-> ?] & Hs).
    by eapply seg_weaken; [| |exact Hs].
  - rewrite IH. split.
    + intros (-> & Hn & ? & ? & c & mid & Ha & Hb2). exists c, mid. by repeat split.
    + intros (c & mid & (-> & Hn & ? & ? & Ha) & Hb2). repeat (split; [done|]). by exists c, mid.
Qed.

(** A block that overlaps none of the list has a place in it. *)
Lemma seg_split m a l z lo hi b n :
  seg m a l z lo hi -> Forall (fun '(_, k) => 0 < k) l -> 0 < n -> lo <= b -> b + 8 * n <= hi ->
  (forall x, b <= x < b + 8 * n -> ~ owns l x) ->
  exists l1 l2 c, l = l1 ++ l2 /\ seg m a l1 c lo b /\ seg m c l2 z (b + 8 * n) hi.
Proof.
  intros Hs Hpos Hn. revert a lo Hs. induction Hpos as [|[d k] l Hk Hpos IH]; intros a lo; cbn [seg].
  { intros [-> ?] Hb Hh _. exists [], [], z. cbn [seg]. intuition lia. }
  intros (-> & Hdn & _ & Hd & Hs) Hb Hh Hdis. rewrite Z.max_r in Hs by lia.
  destruct (decide (d < b + 8 * n)) as [Hlt|Hge].
  - assert (d + 8 * k <= b) as Hle.
    { apply Z.nlt_ge. intros Hlt'. apply (Hdis (Z.max d b)); [lia|]. left. lia. }
    destruct (IH _ _ Hs Hle Hh) as (l1 & l2 & c & -> & Ha & Hb2).
    { intros x Hx Ho. apply (Hdis x Hx). by right. }
    exists ((d, k) :: l1), l2, c. split; [done|]. split; [|done]. cbn [seg].
    rewrite Z.max_r by lia. by repeat split; try lia.
  - exists [], ((d, k) :: l), d. cbn [seg]. rewrite Z.max_r by lia. by repeat split; try lia.
Qed.

(** The free list starts with [base], whose size is 0; [brk] is the program's
    break. *)
Definition ring (brk : Z) (h : heap S) (l : list (Z * Z)) : Prop :=
  seg (um_mem h) base ((base, 0) :: l) base base brk /\ Forall (fun '(_, k) => 0 < k) l /\
  um_freep h ∈ base :: l.*1.

(** ** [free] *)

Lemma put_eq m a v : put m a v a = v.
Proof. unfold put. by rewrite Z.eqb_refl. Qed.

Lemma put_ne m a v x : x <> a -> put m a v x = m x.
Proof. intros ?. unfold put. by rewrite (proj2 (Z.eqb_neq _ _)). Qed.

(** The loop passes the blocks before its place, and those behind it. *)
Lemma place_before m h bp e f a l z lo hi :
  um_mem h = m -> seg m a l z lo hi -> hi <= z < bp ->
  free_place (length l + f) bp a e h = free_place f bp z e h.
Proof.
  intros Hm. revert a lo. induction l as [|[b n] l IH]; intros a lo; cbn [seg]; [by intros [-> _]|].
  intros (-> & _ & _ & _ & Hs) Hz. pose proof (seg_start _ _ _ _ _ _ Hs).
  cbn [length Nat.add]. unfold free_place at 1. cbn [loop_fuel]. unfold s_ptr, Prelude.gets, bind at 1 2.
  rewrite Hm, (proj2 (Z.ltb_ge bp (m b))), andb_false_r by lia.
  rewrite (proj2 (Z.leb_gt (m b) b)) by lia. cbn [andb ret]. by eapply IH.
Qed.

Lemma place_behind m h bp e f a l z lo hi :
  um_mem h = m -> seg m a l z lo hi -> bp < lo -> z < bp ->
  free_place (length l + f) bp a e h = free_place f bp z e h.
Proof.
  intros Hm. revert a lo. induction l as [|[b n] l IH]; intros a lo; cbn [seg]; [by intros [-> _]|].
  intros (-> & _ & ? & ? & Hs) Hlo Hz.
  cbn [length Nat.add]. unfold free_place at 1. cbn [loop_fuel]. unfold s_ptr, Prelude.gets, bind at 1 2.
  rewrite Hm, (proj2 (Z.ltb_ge b bp)) by lia. cbn [andb orb].
  replace ((m b <=? b) && (bp <? m b)) with false.
  - cbn [ret]. eapply IH; [exact Hs|lia|done].
  - destruct l as [|[c k] l]; cbn [seg] in Hs; symmetry; apply andb_false_iff.
    + right. apply Z.ltb_ge. lia.
    + left. apply Z.leb_gt. lia.
Qed.

Lemma place_here m h bp e f p b :
  um_mem h = m -> m p = b -> p < bp -> bp < b \/ b <= p ->
  free_place (Datatypes.S f) bp p e h = Ok p e h.
Proof.
  intros Hm Hb Hp Hn. unfold free_place. cbn [loop_fuel]. unfold s_ptr, Prelude.gets, bind.
  rewrite Hm, Hb, (proj2 (Z.ltb_lt p bp)) by lia. cbn [andb orb].
  destruct (Z.ltb_spec bp b); [done|]. by rewrite (proj2 (Z.leb_le b p)) by lia.
Qed.

(** From any block of the list, the loop finds the place. *)
Lemma place_found h bp e fuel l1 p sp l2 c mid hi :
  seg (um_mem h) base l1 p base mid -> mid <= p < bp -> um_mem h p = c ->
  seg (um_mem h) c l2 base (bp + 8) hi -> base < bp ->
  um_freep h ∈ (l1 ++ (p, sp) :: l2).*1 -> (length (l1 ++ (p, sp) :: l2) < fuel)%nat ->
  free_place fuel bp (um_freep h) e h = Ok p e h.
Proof.
  intros Hl1 Hp Hc Hl2 Hb Hin Hf. rewrite length_app in Hf. cbn [length] in Hf.
  assert (forall f, (0 < f)%nat -> free_place f bp p e h = Ok p e h) as Hhere.
  { intros [|f] ?; [lia|]. eapply place_here; [done|exact Hc|lia|].
    destruct l2 as [|[d k] l2]; cbn [seg] in Hl2; [right; pose proof (seg_le _ _ _ _ _ _ Hl1); lia|lia]. }
  rewrite fmap_app, elem_of_app, fmap_cons, elem_of_cons in Hin. destruct Hin as [Hin|[Heq|Hin]].
  - apply list_elem_of_fmap in Hin as ([fr k] & Hfr & Hin). cbn in Hfr. rewrite Hfr.
    apply list_elem_of_split in Hin as (A & B & ->). apply seg_app in Hl1 as (b & mid' & HA & HB).
    pose proof HB as [-> _]. rewrite length_app in Hf.
    replace fuel with (length ((fr, k) :: B) + (fuel - length ((fr, k) :: B)))%nat by lia.
    erewrite place_before; [apply Hhere; lia|done|exact HB|lia].
  - cbn in Heq. rewrite Heq. apply Hhere. lia.
  - apply list_elem_of_fmap in Hin as ([fr k] & Hfr & Hin). cbn in Hfr. rewrite Hfr.
    apply list_elem_of_split in Hin as (A & B & ->). apply seg_app in Hl2 as (b & mid' & HA & HB).
    pose proof HB as [-> _]. pose proof (seg_le _ _ _ _ _ _ HA). rewrite length_app in Hf.
    replace fuel with (length ((fr, k) :: B) + (length l1 + (fuel - length ((fr, k) :: B) - length l1)))%nat by lia.
    erewrite place_behind; [|done|exact HB|lia|lia].
    erewrite place_before; [|done|exact Hl1|lia]. apply Hhere. lia.
Qed.

(** The two halves of [free] on the memory: joining the block to the one behind
    it, and to the one before it. *)
Definition join_upper (m : Z -> Z) (bp next : Z) : Z -> Z :=
  if plus bp (m (bp + 4)) =? next then
    let m1 := put m (bp + 4) (u32 (m (bp + 4) + m (next + 4))) in put m1 bp (m1 next)
  else put m bp next.

Definition join_lower (m : Z -> Z) (p bp : Z) : Z -> Z :=
  if plus p (m (p + 4)) =? bp then
    let m1 := put m (p + 4) (u32 (m (p + 4) + m (bp + 4))) in put m1 p (m1 bp)
  else put m p bp.

Lemma free_eq fuel bp p e h :
  0 <= bp < 2 ^ 32 -> free_place fuel bp (um_freep h) e h = Ok p e h ->
  free fuel (bp + 8) e h =
    Ok tt e (mkHeap S (join_lower (join_upper (um_mem h) bp (um_mem h p)) p bp) p (um_os h)).
Proof.
  intros Hbp E. unfold free. replace (plus (bp + 8) (-1)) with bp
    by (unfold plus, u32, sizeof_Header; rewrite Z.mod_small; lia).
  unfold bind, Prelude.gets at 1. rewrite E.
  unfold s_ptr, s_size, set_ptr, set_size, set_freep, Prelude.gets, modify, join_upper.
  destruct (plus bp (um_mem h (bp + 4)) =? um_mem h p); cbn [um_mem um_freep um_os];
    unfold join_lower; by destruct (_ =? bp).
Qed.

Lemma plus_small p n : 0 <= p + 8 * n < 2 ^ 32 -> plus p n = p + 8 * n.
Proof. intros ?. unfold plus, u32, sizeof_Header. by rewrite Z.mod_small by lia. Qed.

Lemma owns_nil x : owns [] x <-> False.
Proof. apply Exists_nil. Qed.

Lemma owns_cons a n l x : owns ((a, n) :: l) x <-> a <= x < a + 8 * n \/ owns l x.
Proof. apply Exists_cons. Qed.

Lemma owns_app l1 l2 x : owns (l1 ++ l2) x <-> owns l1 x \/ owns l2 x.
Proof. apply Exists_app. Qed.

Lemma join_upper_ok m bp n c l brk :
  seg m c l base (bp + 8 * n) brk -> m (bp + 4) = n -> 0 < n -> 0 < base -> base + 8 <= bp -> brk < 2 ^ 32 ->
  Forall (fun '(_, k) => 0 < k) l ->
  exists n' rest, seg (join_upper m bp c) bp ((bp, n') :: rest) base bp brk /\ n <= n' /\
    Forall (fun '(_, k) => 0 < k) rest /\ (length rest <= length l)%nat /\
    (forall x, owns ((bp, n') :: rest) x <-> bp <= x < bp + 8 * n \/ owns l x) /\
    (forall x, x <> bp -> x <> bp + 4 -> join_upper m bp c x = m x).
Proof.
  intros Hs Hm Hn Hb0 Hb Hbrk Hpos. pose proof (seg_le _ _ _ _ _ _ Hs). unfold join_upper. cbv zeta.
  rewrite Hm, plus_small by lia. destruct (Z.eqb_spec (bp + 8 * n) c) as [<-|Hne].
  - destruct l as [|[d k] l]; cbn [seg] in Hs; [lia|]. destruct Hs as (<- & Hk & _ & _ & Hs).
    apply Forall_cons in Hpos as [Hk0 Hpos].
    rewrite Z.max_r in Hs by lia. pose proof (seg_le _ _ _ _ _ _ Hs).
    rewrite Hk, (put_ne m) by lia. unfold u32. rewrite Z.mod_small by lia.
    exists (n + k), l. cbn [seg length]. rewrite put_eq, put_ne, put_eq by lia.
    split; [|repeat split; try done; try lia].
    + repeat (split; [done || lia|]). eapply (seg_frame m); [intros x Hx; by rewrite !put_ne by lia|].
      eapply seg_weaken; [| |exact Hs]; lia.
    + rewrite !owns_cons. intros [?|?]; [|by auto]. destruct (decide (x < bp + 8 * n)); [left|right; left]; lia.
    + rewrite !owns_cons. intros [?|[?|?]]; [left; lia|left; lia|by auto].
    + intros x ? ?. by rewrite !put_ne.
  - exists n, l. cbn [seg]. rewrite put_eq, put_ne, Z.max_r by lia.
    split; [|repeat split; try done; try lia].
    + repeat (split; [done || lia|]). eapply seg_frame; [|exact Hs]. intros x Hx. by rewrite put_ne by lia.
    + by rewrite owns_cons.
    + by rewrite owns_cons.
    + intros x ? ?. by rewrite put_ne.
Qed.

Lemma join_lower_ok m l1 p sp mid bp n rest brk :
  seg m base l1 p base mid -> mid <= p -> 0 < base -> m (p + 4) = sp -> 0 <= sp -> p + 8 * Z.max 1 sp <= bp ->
  seg m bp ((bp, n) :: rest) base bp brk -> 0 < n -> brk < 2 ^ 32 ->
  exists sp' l2, seg (join_lower m p bp) base (l1 ++ (p, sp') :: l2) base base brk /\
    (l2 = (bp, n) :: rest /\ sp' = sp \/ l2 = rest /\ sp' = sp + n /\ 0 < sp) /\
    (forall x, owns ((p, sp') :: l2) x <-> owns ((p, sp) :: (bp, n) :: rest) x) /\
    (forall x, x <> p -> x <> p + 4 -> join_lower m p bp x = m x).
Proof.
  intros Hl1 Hp Hb0 Hsp Hsp0 Hbp Hs Hn Hbrk. pose proof Hs as (_ & Hn' & _ & _ & Hr).
  pose proof (seg_le _ _ _ _ _ _ Hr). pose proof (seg_le _ _ _ _ _ _ Hl1). rewrite Z.max_r in Hr by lia.
  unfold join_lower. cbv zeta. rewrite Hsp, plus_small by lia.
  destruct (Z.eqb_spec (p + 8 * sp) bp) as [Heq|Hne].
  - rewrite Hn', (put_ne m) by lia. unfold u32. rewrite Z.mod_small by lia.
    exists (sp + n), rest. split; [|split; [right; split; [done|lia]|split]].
    + apply seg_app. exists p, p. split.
      { eapply seg_weaken; [| |eapply (seg_frame m); [|exact Hl1]]; [lia..|]. intros x Hx. by rewrite !put_ne by lia. }
      cbn [seg]. rewrite put_eq, put_ne, put_eq, Z.max_r by lia. repeat (split; [done || lia|]).
      eapply (seg_frame m); [|eapply seg_weaken; [| |exact Hr]; lia]. intros x Hx. by rewrite !put_ne by lia.
    + intros x. rewrite !owns_cons. split; [intros [?|?]|intros [?|[?|?]]]; try by auto.
      * destruct (decide (x < bp)); [left|right; left]; lia.
      * left. lia.
      * left. lia.
    + intros x ? ?. by rewrite !put_ne.
  - exists sp, ((bp, n) :: rest). split; [|split; [by left|split; [done|]]].
    + apply seg_app. exists p, p. split.
      { eapply seg_weaken; [| |eapply (seg_frame m); [|exact Hl1]]; [lia..|]. intros x Hx. by rewrite put_ne by lia. }
      rewrite seg_cons, put_eq, put_ne by lia. do 4 (split; [done || lia|]).
      eapply (seg_frame m); [|eapply seg_weaken; [| |exact Hs]; lia]. intros x Hx. by rewrite put_ne by lia.
    + intros x ? ?. by rewrite put_ne.
Qed.

Lemma list_snoc_cases {A} (l : list A) : l = [] \/ exists l' x, l = l' ++ [x].
Proof. destruct l as [|x l _] using rev_ind; [by left|right; by exists l, x]. Qed.

(** The last block of a segment. *)
Lemma seg_last m a b n l z lo hi :
  seg m a ((b, n) :: l) z lo hi ->
  exists l' p sp mid, (b, n) :: l = l' ++ [(p, sp)] /\ seg m a l' p lo mid /\
    mid <= p /\ m (p + 4) = sp /\ 0 <= sp /\ p + 8 * Z.max 1 sp <= hi /\ m p = z.
Proof.
  intros Hall. destruct (list_snoc_cases ((b, n) :: l)) as [?|(l' & [p sp] & E)]; [done|]. rewrite E in Hall.
  apply seg_app in Hall as (c & mid & Ha & Hb2). cbn [seg] in Hb2. destruct Hb2 as (-> & ? & ? & ? & ? & ?).
  by exists l', p, sp, mid.
Qed.

(** What becomes of the list when its last block before the place grows and
    [l2] follows it. *)
Lemma splice_ok l1 l1' p sp sp' l2 :
  (base, 0) :: l1 = l1' ++ [(p, sp)] -> sp <= sp' -> (sp = 0 -> sp' = 0) ->
  Forall (fun '(_, k) => 0 < k) l1 -> Forall (fun '(_, k) => 0 < k) l2 ->
  exists l', l1' ++ (p, sp') :: l2 = (base, 0) :: l' /\ Forall (fun '(_, k) => 0 < k) l' /\
    length l' = (length l1 + length l2)%nat /\ (forall x, owns l' x <-> owns (l1' ++ (p, sp') :: l2) x) /\
    (forall n, 0 < n -> Exists (fun '(_, k) => n <= k) (l1' ++ (p, sp') :: l2) -> Exists (fun '(_, k) => n <= k) l').
Proof.
  intros Hl Hsp Hz Hp1 Hp2.
  assert (exists l', l1' ++ (p, sp') :: l2 = (base, 0) :: l' /\ Forall (fun '(_, k) => 0 < k) l' /\
    length l' = (length l1 + length l2)%nat) as (l' & E & Hpos & Hlen).
  { destruct l1' as [|[b0 k0] l1']; cbn [app] in Hl; simplify_eq.
    - exists l2. by rewrite (Hz eq_refl).
    - exists (l1' ++ (p, sp') :: l2). split; [done|]. rewrite !length_app. cbn [length].
      apply Forall_app in Hp1 as [? Hp]. apply Forall_cons in Hp as [? _].
      split; [|lia]. apply Forall_app. split; [done|]. apply Forall_cons. split; [lia|done]. }
  exists l'. rewrite E. repeat (split; [done|]). split.
  - intros x. rewrite owns_cons. intuition lia.
  - intros n Hn Hex. apply Exists_cons in Hex as [?|?]; [lia|done].
Qed.

Lemma free_ok brk h l bp n e fuel :
  ring brk h l -> 0 < base -> brk < 2 ^ 32 ->
  um_mem h (bp + 4) = n -> 0 < n -> base + 8 <= bp -> bp + 8 * n <= brk ->
  (forall x, bp <= x < bp + 8 * n -> ~ owns l x) -> (Datatypes.S (length l) < fuel)%nat ->
  exists h' l', free fuel (bp + 8) e h = Ok tt e h' /\ ring brk h' l' /\
    (length l' <= Datatypes.S (length l))%nat /\ Exists (fun '(_, k) => n <= k) l' /\
    (forall x, owns l' x <-> owns l x \/ bp <= x < bp + 8 * n) /\
    (forall x, ~ owns l x -> ~ (bp <= x < bp + 8 * n) -> ~ (base <= x < base + 8) -> um_mem h' x = um_mem h x) /\
    um_os h' = um_os h.
Proof.
  intros (Hs & Hpos & Hfr) Hb0 Hbrk Hn Hn0 Hlo Hhi Hdis Hf.
  destruct Hs as (_ & Hb4 & _ & _ & Hs). cbn in Hs.
  destruct (seg_split _ _ _ _ _ _ bp n Hs Hpos) as (l1 & l2 & c & -> & Hl1 & Hl2); [lia..|done|].
  apply Forall_app in Hpos as [Hpos1 Hpos2].
  destruct (join_upper_ok _ _ _ _ _ _ Hl2 Hn) as (n' & rest & Hu & Hn' & Hposr & Hlen & Hown & Hfu); [done..|].
  destruct (seg_last (um_mem h) base base 0 l1 c base bp)
    as (l1' & p & sp & mid & Hl & Hl1' & Hmid & Hsp & Hsp0 & Hp & Hpc); [cbn [seg]; auto with lia|].
  pose proof (seg_le _ _ _ _ _ _ Hl1').
  rewrite (free_eq fuel bp p) by first [lia | eapply (place_found h bp e fuel l1' p sp l2 c mid brk); try done; try lia;
    [eapply seg_weaken; [| |exact Hl2]; lia|..]; change ((base, 0) :: l1) with ([(base, 0)] ++ l1) in Hl;
    rewrite cons_middle, app_assoc, <- Hl; [exact Hfr|cbn; lia]].
  rewrite Hpc.
  destruct (join_lower_ok (join_upper (um_mem h) bp c) l1' p sp mid bp n' rest brk)
    as (sp' & l2' & Hseg & Hcase & Hown' & Hfl); try done.
  { eapply seg_frame; [|exact Hl1']. intros x Hx. apply Hfu; lia. }
  { rewrite Hfu by lia. done. }
  { lia. }
  assert (Forall (fun '(_, k) => 0 < k) l2') as Hpos'.
  { destruct Hcase as [[-> _]|[-> _]]; [apply Forall_cons; split; [lia|]|]; done. }
  destruct (splice_ok l1 l1' p sp sp' l2' Hl) as (l' & E & Hposl & Hlenl & Hownl & Hexl); [intuition lia..|done|done|].
  rewrite E in Hseg. eexists _, l'. split; [reflexivity|]. split; [|split; [|split; [|split; [|split; [|done]]]]].
  - split; [exact Hseg|]. split; [done|]. cbn [um_freep]. change (base :: l'.*1) with ((base, 0) :: l').*1.
    rewrite <- E, fmap_app, fmap_cons. set_solver.
  - rewrite length_app, Hlenl. destruct Hcase as [[-> _]|[-> _]]; cbn [length]; lia.
  - apply Hexl; [done|]. apply Exists_app. right. apply Exists_cons.
    destruct Hcase as [[-> ->]|[-> [-> ?]]]; [right; apply Exists_cons; left|left]; lia.
  - intros x. rewrite Hownl, owns_app, Hown', owns_cons, Hown, owns_app.
    assert (owns l1 x <-> owns l1' x \/ p <= x < p + 8 * sp) as ->; [|tauto].
    transitivity (owns ((base, 0) :: l1) x); [rewrite owns_cons; intuition lia|].
    rewrite Hl, owns_app, owns_cons. rewrite owns_nil. tauto.
  - intros x Hx Hxb Hxbase. cbn [um_mem].
    assert (~ (p <= x < p + 8)).
    { intros Hxp. assert ((p, sp) ∈ (base, 0) :: l1) as Hin by (rewrite Hl; set_solver).
      apply elem_of_cons in Hin as [Heq|Hin]; [by simplify_eq|]. rewrite Forall_forall in Hpos1.
      specialize (Hpos1 _ Hin). cbn in Hpos1. apply Hx, owns_app. left. apply Exists_exists.
      exists (p, sp). split; [done|]. lia. }
    rewrite Hfl, Hfu by lia. done.
Qed.

(** ** [malloc] *)

Section search.
Context (ff : nat) (n : Z) (e : schedule (heap S)).

Lemma carve_eq q p s h :
  carve n q p s e h =
    if s =? n then Ok (plus p 1) e (mkHeap S (put (um_mem h) q (um_mem h p)) q (um_os h))
    else Ok (plus (plus p (s - n)) 1) e
      (mkHeap S (put (put (um_mem h) (p + 4) (s - n)) (plus p (s - n) + 4) n) q (um_os h)).
Proof. unfold carve, bind. by destruct (s =? n). Qed.

Lemma malloc_hit f prev p h :
  n <= um_mem h (p + 4) -> malloc_loop (Datatypes.S f) ff n (prev, p) e h = carve n prev p (um_mem h (p + 4)) e h.
Proof.
  intros Hn. unfold malloc_loop. cbn [loop_fuel]. unfold s_size, Prelude.gets, bind at 1 2.
  rewrite (proj2 (Z.leb_le _ _)) by lia. unfold bind. rewrite carve_eq. by destruct (_ =? n).
Qed.

Lemma malloc_pass f prev p h :
  um_mem h (p + 4) < n -> p <> um_freep h ->
  malloc_loop (Datatypes.S f) ff n (prev, p) e h = malloc_loop f ff n (p, um_mem h p) e h.
Proof.
  intros Hn Hp. unfold malloc_loop. cbn [loop_fuel]. unfold s_size, s_ptr, Prelude.gets, bind.
  rewrite (proj2 (Z.leb_gt _ _)) by lia. by rewrite (proj2 (Z.eqb_neq _ _)).
Qed.

Definition again (f : nat) : M (heap S) Z :=
  p <- morecore ff n ;;
  if p =? 0 then ret 0 else
  next <- s_ptr p ;;
  malloc_loop f ff n (p, next).

Lemma malloc_round f prev p h :
  um_mem h (p + 4) < n -> p = um_freep h -> malloc_loop (Datatypes.S f) ff n (prev, p) e h = again f e h.
Proof.
  intros Hn ->. unfold malloc_loop, again. cbn [loop_fuel]. unfold s_size, s_ptr, Prelude.gets, bind.
  rewrite (proj2 (Z.leb_gt _ _)) by lia. rewrite Z.eqb_refl.
  destruct (morecore ff n e h) as [p e' h'| |]; [|done..]. by destruct (p =? 0).
Qed.

(** Blocks [q] and [p], one behind the other in [l], with [p] large enough. *)
Definition fits (l : list (Z * Z)) (q p s : Z) : Prop :=
  exists l1 sq l2, l = l1 ++ (q, sq) :: (p, s) :: l2 /\ n <= s.

Lemma fits_app l l' l'' q p s : fits l q p s -> fits (l' ++ l ++ l'') q p s.
Proof.
  intros (l1 & sq & l2 & -> & ?). exists (l' ++ l1), sq, (l2 ++ l''). split; [|done].
  by rewrite <- !app_assoc.
Qed.

(** The loop runs along a segment, and either takes a block of it or leaves it
    behind. *)
Lemma sweep h x sx l z lo hi :
  seg (um_mem h) x ((x, sx) :: l) z lo hi -> um_freep h ∉ l.*1 ->
  (exists q p s, fits ((x, sx) :: l) q p s /\
     forall f, malloc_loop (length l + f) ff n (x, um_mem h x) e h = carve n q p s e h) \/
  (Forall (fun '(_, k) => k < n) l /\ exists y sy l', (x, sx) :: l = l' ++ [(y, sy)] /\
     forall f, malloc_loop (length l + f) ff n (x, um_mem h x) e h = malloc_loop f ff n (y, z) e h).
Proof.
  revert x sx lo. induction l as [|[b k] l IH]; intros x sx lo Hs Hfr; pose proof Hs as (_ & _ & _ & _ & Hs').
  { right. split; [done|]. destruct Hs' as [-> _]. by exists x, sx, []. }
  pose proof Hs' as (Hxb & Hk & _). rewrite Hxb in Hs' |- *. rewrite fmap_cons in Hfr.
  destruct (decide (n <= k)) as [Hle|Hgt].
  - left. exists x, b, k. split; [by exists [], sx, l|]. intros f. cbn [length Nat.add].
    rewrite malloc_hit; by rewrite Hk.
  - assert (forall f, malloc_loop (length ((b, k) :: l) + f) ff n (x, b) e h =
      malloc_loop (length l + f) ff n (b, um_mem h b) e h) as Hstep.
    { intros f. cbn [length Nat.add]. apply malloc_pass; [lia|set_solver]. }
    destruct (IH b k _ Hs') as [(q & p & s & Hfit & Hl)|(Hall & y & sy & l' & E & Hl)]; [set_solver|left|right].
    + exists q, p, s. split; [|by intros f; rewrite Hstep].
      apply (fits_app _ [(x, sx)] []) in Hfit. by rewrite app_nil_r in Hfit.
    + split; [apply Forall_cons; split; [lia|done]|]. exists y, sy, ((x, sx) :: l').
      split; [by rewrite E|]. intros f. by rewrite Hstep.
Qed.

Lemma seg_range m a l z lo hi b k : seg m a l z lo hi -> (b, k) ∈ l -> lo <= b < hi.
Proof.
  intros Hs Hin. apply list_elem_of_split in Hin as (l1 & l2 & ->).
  apply seg_app in Hs as (c & mid & Ha & Hb2). pose proof (seg_le _ _ _ _ _ _ Ha).
  destruct Hb2 as (_ & _ & _ & ? & Hb2). apply seg_le in Hb2. lia.
Qed.

(** From [base] to [freep], when they are not the same. *)
Lemma search_lower h A y mid :
  seg (um_mem h) base ((base, 0) :: A) (um_freep h) base mid -> mid <= um_freep h -> 0 < n ->
  let s0 := um_mem h (um_freep h + 4) in
  (exists q p s, fits ((base, 0) :: A ++ [(um_freep h, s0)]) q p s /\
     forall f, malloc_loop (Datatypes.S (Datatypes.S (length A)) + f) ff n (y, base) e h = carve n q p s e h) \/
  (Forall (fun '(_, k) => k < n) (A ++ [(um_freep h, s0)]) /\
     forall f, malloc_loop (Datatypes.S (Datatypes.S (length A)) + f) ff n (y, base) e h = again f e h).
Proof.
  intros HA Hmid Hn s0. pose proof HA as (_ & Hb4 & _ & _ & HA'). pose proof (seg_le _ _ _ _ _ _ HA').
  assert (forall f, malloc_loop (Datatypes.S (Datatypes.S (length A)) + f) ff n (y, base) e h =
    malloc_loop (length A + Datatypes.S f) ff n (base, um_mem h base) e h) as Hstep.
  { intros f. cbn [Nat.add]. rewrite malloc_pass by lia. f_equal. lia. }
  destruct (sweep h base 0 A _ _ _ HA) as [(q & p & s & Hfit & Hl)|(Hall & z & sz & l' & E & Hl)].
  { intros ([b k] & Hb & Hin)%list_elem_of_fmap. cbn in Hb. pose proof (seg_range _ _ _ _ _ _ _ _ HA' Hin). lia. }
  { left. exists q, p, s. split; [|intros f; by rewrite Hstep]. by apply (fits_app ((base, 0) :: A) [] [(um_freep h, s0)]). }
  destruct (decide (n <= s0)) as [Hle|Hgt].
  - left. exists z, (um_freep h), s0. split; [|intros f; rewrite Hstep, Hl; by apply malloc_hit].
    exists l', sz, []. split; [|done]. change ((base, 0) :: A ++ [(um_freep h, s0)])
      with (((base, 0) :: A) ++ [(um_freep h, s0)]). by rewrite E, <- app_assoc.
  - right. split; [apply Forall_app; split; [done|]; apply Forall_cons; split; [lia|done]|].
    intros f. rewrite Hstep, Hl. apply malloc_round; [|done]. subst s0. lia.
Qed.

(** Round the ring from [freep]: a block that is large enough, or none and the
    turn to [morecore]. *)
Lemma search brk h l :
  ring brk h l -> 0 < n ->
  (exists q p s, fits ((base, 0) :: l) q p s /\
     forall f, malloc_loop (Datatypes.S (length l) + f) ff n (um_freep h, um_mem h (um_freep h)) e h = carve n q p s e h) \/
  (Forall (fun '(_, k) => k < n) l /\
     forall f, malloc_loop (Datatypes.S (length l) + f) ff n (um_freep h, um_mem h (um_freep h)) e h = again f e h).
Proof.
  intros (Hs & _ & Hfr) Hn. change (base :: l.*1) with ((base, 0) :: l).*1 in Hfr.
  apply list_elem_of_fmap in Hfr as ([fr s0] & Hfr & Hin). cbn in Hfr. subst fr.
  apply list_elem_of_split in Hin as (A & B & E). pose proof Hs as (_ & Hb4 & _).
  rewrite E in Hs. apply seg_app in Hs as (c & mid & HA & HB). pose proof HB as (-> & Hs0 & _ & Hmid & HB').
  assert (length l = (length A + length B)%nat) as Hlen.
  { apply (f_equal length) in E. rewrite length_app in E. cbn [length] in E. lia. }
  destruct (sweep h (um_freep h) s0 B base mid brk HB) as [(q & p & s & Hfit & Hl)|(HallB & y & sy & l' & El & Hl)].
  { intros ([b k] & Hb & Hin)%list_elem_of_fmap. cbn in Hb. pose proof (seg_range _ _ _ _ _ _ _ _ HB' Hin). lia. }
  { left. exists q, p, s. split.
    - rewrite E. apply (fits_app _ A []) in Hfit. by rewrite app_nil_r in Hfit.
    - intros f. rewrite <- (Hl (Datatypes.S (length A) + f)%nat), Hlen. f_equal. lia. }
  assert (forall f, malloc_loop (Datatypes.S (length l) + f) ff n (um_freep h, um_mem h (um_freep h)) e h =
    malloc_loop (Datatypes.S (length A) + f) ff n (y, base) e h) as Hstart.
  { intros f. rewrite <- Hl, Hlen. f_equal. lia. }
  destruct A as [|[b0 k0] A].
  { cbn [app] in E. injection E as Eb Es ->. right. split; [done|]. intros f. rewrite Hstart.
    apply malloc_round; [lia|done]. }
  cbn [app] in E. injection E as <- <- ->.
  destruct (search_lower h A y mid HA Hmid Hn) as [(q & p & s & Hfit & Hm)|[Hall Hm]]; rewrite Hs0 in *.
  - left. exists q, p, s. split; [|intros f; by rewrite Hstart].
    apply (fits_app _ [] B) in Hfit. cbn [app] in Hfit. by rewrite <- app_assoc in Hfit.
  - right. split; [|intros f; by rewrite Hstart].
    rewrite cons_middle, app_assoc. apply Forall_app. by split.
Qed.
End search.

(** What [malloc] promises of the block at [b] of [n] units that it takes from
    the free blocks [l], leaving [l']. *)
Definition taken (l l' : list (Z * Z)) (b n : Z) : Prop :=
  (forall x, owns l x <-> owns l' x \/ b <= x < b + 8 * n) /\ (forall x, b <= x < b + 8 * n -> ~ owns l' x).

Lemma seg_owns m a l z lo hi x : seg m a l z lo hi -> owns l x -> lo <= x < hi.
Proof.
  intros Hs Ho. apply Exists_exists in Ho as ([b k] & Hin & Hx).
  apply list_elem_of_split in Hin as (l1 & l2 & ->).
  apply seg_app in Hs as (c & mid & Ha & Hb2). pose proof (seg_le _ _ _ _ _ _ Ha).
  destruct Hb2 as (_ & _ & _ & ? & Hb2). apply seg_le in Hb2. lia.
Qed.

(** The ring after [p] is unlinked, and after its tail is cut off. *)
Lemma unlink_seg m l1 q sq p s l2 brk :
  seg m base (l1 ++ (q, sq) :: (p, s) :: l2) base base brk ->
  seg (put m q (m p)) base (l1 ++ (q, sq) :: l2) base base brk.
Proof.
  rewrite !seg_app. intros (c & mid & Hl1 & -> & Hsq & ? & ? & Hp & Hs & ? & ? & Hl2).
  exists q, mid. split; [eapply seg_frame; [|exact Hl1]; intros x Hx; by rewrite put_ne by lia|].
  rewrite seg_cons, put_eq, put_ne by lia. do 4 (split; [done || lia|]).
  eapply seg_frame; [|eapply seg_weaken; [| |exact Hl2]; lia]. intros x Hx. by rewrite put_ne by lia.
Qed.

Lemma cut_seg m l1 q sq p s l2 brk n :
  seg m base (l1 ++ (q, sq) :: (p, s) :: l2) base base brk -> 0 < n < s ->
  seg (put (put m (p + 4) (s - n)) (p + 8 * (s - n) + 4) n) base (l1 ++ (q, sq) :: (p, s - n) :: l2) base base brk.
Proof.
  rewrite !seg_app. intros (c & mid & Hl1 & -> & Hsq & ? & ? & Hp & Hs & ? & ? & Hl2) Hn.
  exists q, mid. split; [eapply seg_frame; [|exact Hl1]; intros x Hx; by rewrite !put_ne by lia|].
  rewrite seg_cons, !put_ne by lia. do 4 (split; [done || lia|]).
  rewrite seg_cons, put_ne, put_eq, !put_ne by lia. do 4 (split; [done || lia|]).
  eapply seg_weaken; [| |eapply seg_frame; [|exact Hl2]]; [lia..|]. intros x Hx. by rewrite !put_ne by lia.
Qed.

Lemma seg_next m l1 q sq p s l2 brk :
  seg m base (l1 ++ (q, sq) :: (p, s) :: l2) base base brk -> q + 8 <= p /\ m (p + 4) = s.
Proof. rewrite seg_app. intros (c & mid & Hl1 & -> & Hsq & ? & ? & Hp & Hs & ? & ? & Hl2). split; [lia|done]. Qed.

(** The list without its first block, [base]. *)
Lemma list_behind l l1 q sq p s (l2 : list (Z * Z)) :
  (base, 0) :: l = l1 ++ (q, sq) :: (p, s) :: l2 ->
  exists pre, l = pre ++ (p, s) :: l2 /\ (forall l', l1 ++ (q, sq) :: l' = (base, 0) :: pre ++ l') /\
    ((q, sq) = (base, 0) \/ (q, sq) ∈ pre).
Proof.
  destruct l1 as [|[b k] l1]; cbn [app]; intros E; injection E as <- <- ->; [by exists []; auto|].
  exists (l1 ++ [(q, sq)]). split; [by rewrite <- app_assoc|]. split; [intros l'; by rewrite <- app_assoc|].
  set_solver.
Qed.

Lemma carve_ok brk h l n q p s e :
  ring brk h l -> 0 < base -> brk < 2 ^ 32 -> 0 < n -> fits n ((base, 0) :: l) q p s ->
  exists b h' l', carve n q p s e h = Ok (b + 8) e h' /\ ring brk h' l' /\ taken l l' b n /\
    um_mem h' (b + 4) = n /\ base + 8 <= b /\ b + 8 * n <= brk /\
    (forall x, ~ owns l x -> ~ (base <= x < base + 8) -> um_mem h' x = um_mem h x) /\ um_os h' = um_os h.
Proof.
  intros (Hs & Hpos & _) Hb0 Hbrk Hn (l1 & sq & l2 & E & Hle). rewrite E in Hs.
  destruct (list_behind _ _ _ _ _ _ _ E) as (pre & -> & Hpre & Hq).
  apply Forall_app in Hpos as [Hpos1 Hpos2]. apply Forall_cons in Hpos2 as [_ Hpos2].
  pose proof Hs as Hs'. rewrite Hpre in Hs'. change ((base, 0) :: pre ++ (p, s) :: l2)
    with (((base, 0) :: pre) ++ (p, s) :: l2) in Hs'.
  apply seg_app in Hs' as (c & mid & Hlow & -> & Hps & _ & Hmid & Hl2). rewrite Z.max_r in Hl2 by lia.
  pose proof (seg_le _ _ _ _ _ _ Hl2). assert (base + 8 <= mid) by (destruct Hlow as (_ & _ & _ & _ & Hlow);
    apply seg_le in Hlow; lia).
  assert (forall x, owns pre x -> x < p) as Hlt.
  { intros x Hx. destruct (seg_owns _ _ _ _ _ _ x Hlow); [by right|lia]. }
  assert (forall x, owns l2 x -> p + 8 * s <= x) as Hgt by (intros x Hx; by apply (seg_owns _ _ _ _ _ _ x Hl2)).
  assert (forall X, q ∈ base :: (pre ++ X).*1) as Hqin.
  { intros X. rewrite fmap_app. destruct Hq as [Hq|Hq]; [simplify_eq; left|].
    right. apply elem_of_app. left. by apply (list_elem_of_fmap_2 fst _ (q, sq)). }
  assert (forall x, ~ owns (pre ++ (p, s) :: l2) x -> ~ (base <= x < base + 8) -> x <> q /\ ~ (p <= x < p + 8 * s)) as Hout.
  { setoid_rewrite owns_app. setoid_rewrite owns_cons. intros x Hx Hxb. split; [|tauto]. intros ->.
    destruct Hq as [?|Hq]; [simplify_eq; lia|]. apply Hx. left. apply Exists_exists. exists (q, sq).
    split; [done|]. rewrite Forall_forall in Hpos1. specialize (Hpos1 _ Hq). cbn in Hpos1. lia. }
  pose proof (seg_next _ _ _ _ _ _ _ _ Hs) as [Hqp Hps']. rewrite carve_eq. destruct (Z.eqb_spec s n) as [->|Hne].
  - exists p. eexists _, (pre ++ l2). rewrite plus_small by lia. split; [reflexivity|]. cbn [um_mem um_os].
    apply unlink_seg in Hs. rewrite Hpre in Hs. split; [split; [exact Hs|split; [by apply Forall_app|apply Hqin]]|].
    rewrite put_ne by lia. split; [|repeat split; try lia; intros x ? ?; apply put_ne; by apply Hout].
    unfold taken. setoid_rewrite owns_app. setoid_rewrite owns_cons. split; [tauto|].
    intros x Hx [Hx'|Hx']; [apply Hlt in Hx'|apply Hgt in Hx']; lia.
  - exists (p + 8 * (s - n)). eexists _, (pre ++ (p, s - n) :: l2). rewrite !plus_small by (try rewrite plus_small; lia).
    split; [reflexivity|]. cbn [um_mem um_os]. apply (cut_seg _ _ _ _ _ _ _ _ n) in Hs; [|lia]. rewrite Hpre in Hs.
    split; [split; [exact Hs|split; [|apply Hqin]]|].
    { apply Forall_app. split; [done|]. apply Forall_cons. split; [lia|done]. }
    rewrite put_eq. split; [|repeat split; try lia; intros x Hx Hxb; destruct (Hout x Hx Hxb); rewrite !put_ne; lia].
    unfold taken. setoid_rewrite owns_app. setoid_rewrite owns_cons. split; [intros x; intuition lia|].
    intros x Hx [Hx'|[Hx'|Hx']]; [apply Hlt in Hx'| |apply Hgt in Hx']; lia.
Qed.

Lemma ring_freep brk h l : ring brk h l -> base <= um_freep h.
Proof.
  intros (Hs & _ & Hfr). change (base :: l.*1) with ((base, 0) :: l).*1 in Hfr.
  apply list_elem_of_fmap in Hfr as ([fr k] & -> & Hin). apply (seg_range _ _ _ _ _ _ _ _ Hs Hin).
Qed.

Lemma ring_grow brk brk' m' os' h l :
  ring brk h l -> brk <= brk' -> (forall x, base <= x < brk -> m' x = um_mem h x) ->
  ring brk' (mkHeap S m' (um_freep h) os') l.
Proof.
  intros (Hs & Hpos & Hfr) Hle Hm. split; [|by split].
  eapply seg_weaken; [| |eapply seg_frame; [|exact Hs]]; [done..|]. exact Hm.
Qed.

Section break.
Context `{!Break S}.

(** Before the first call, or with a list of free blocks. *)
Definition heap_ok (h : heap S) (l : list (Z * Z)) : Prop :=
  0 < base /\ brk (um_os h) < 2 ^ 32 /\
  (um_freep h = 0 /\ l = [] /\ base + 8 <= brk (um_os h) \/ ring (brk (um_os h)) h l).

(** Words that are neither free nor the allocator's own. *)
Definition kept (l : list (Z * Z)) (h h' : heap S) : Prop :=
  forall x, x < brk (um_os h) -> ~ owns l x -> ~ (base <= x < base + 8) -> um_mem h' x = um_mem h x.

Lemma morecore_ok ff n e h l :
  0 < base -> brk (um_os h) < 2 ^ 32 -> ring (brk (um_os h)) h l -> 0 < n < 2 ^ 28 ->
  (Datatypes.S (length l) < ff)%nat ->
  exists r h', morecore ff n e h = Ok r e h' /\ brk (um_os h') < 2 ^ 32 /\
    (r = 0 /\ um_mem h' = um_mem h /\ um_freep h' = um_freep h /\ brk (um_os h') = brk (um_os h) \/
     r = um_freep h' /\ r <> 0 /\ brk (um_os h) <= brk (um_os h') /\
       exists l', ring (brk (um_os h')) h' l' /\ (length l' <= Datatypes.S (length l))%nat /\
         Exists (fun '(_, k) => n <= k) l' /\ kept l h h' /\
         forall x, owns l' x <-> owns l x \/ brk (um_os h) <= x < brk (um_os h')).
Proof.
  intros Hb0 Hlim Hr Hn Hf. unfold morecore.
  set (nu := if n <? 4096 then 4096 else n). assert (n <= nu /\ 4096 <= nu < 2 ^ 28) as [Hnu1 Hnu2].
  { subst nu. destruct (Z.ltb_spec n 4096); lia. }
  assert (s32 (nu * sizeof_Header) = 8 * nu) as ->.
  { unfold s32, u32, sizeof_Header. cbv zeta. rewrite Z.mod_small, (proj2 (Z.ltb_lt _ _)) by lia. lia. }
  destruct (sbrk_ok (8 * nu) (um_os h)) as (r & s' & E & Hcase); [lia|].
  erewrite bind_Ok by (cbn [sbrk heap_os zoom_os]; unfold zoom; rewrite E; reflexivity).
  destruct Hcase as [[-> Hbrk]|(-> & Hbrk & Hlim')].
  { rewrite Z.eqb_refl. eexists _, _. split; [reflexivity|]. cbn [um_os um_mem um_freep].
    rewrite Hbrk. split; [done|]. by left. }
  pose proof Hr as ((_ & _ & _ & _ & Hs) & _). apply seg_le in Hs.
  rewrite (proj2 (Z.eqb_neq _ _)) by lia. unfold set_size. erewrite bind_Ok by reflexivity. rewrite plus_small by lia.
  set (p := brk (um_os h)) in *. change (p + 8 * 1) with (p + 8).
  destruct (free_ok (brk s') (mkHeap S (put (um_mem h) (p + 4) nu) (um_freep h) s') l p nu e ff)
    as (h' & l' & Ef & Hring & Hlen & Hex & Hown & Hkept & Hos); cbn [um_mem]; try lia.
  { eapply ring_grow; [exact Hr|lia|]. intros x Hx. apply put_ne. lia. }
  { apply put_eq. }
  { intros x Hx Ho. destruct Hr as ((_ & _ & _ & _ & Hs') & _). eapply seg_owns in Ho; [|exact Hs']. lia. }
  erewrite bind_Ok by exact Ef. unfold Prelude.gets. eexists _, _. split; [reflexivity|].
  rewrite Hos. cbn [um_os um_mem] in *. split; [lia|]. right. pose proof (ring_freep _ _ _ Hring).
  split; [done|]. split; [lia|]. split; [lia|]. exists l'. split; [done|]. split; [done|]. split.
  { eapply Exists_impl; [exact Hex|]. intros [a k]. lia. }
  split; [|intros x; rewrite Hown; f_equiv; lia].
  intros x Hx ? ?. rewrite Hkept, put_ne by (done || lia). done.
Qed.

(** The block at [b] of [n] units comes from the free blocks and from above the
    break, and is free no more. *)
Definition given (b n : Z) (h h' : heap S) (l l' : list (Z * Z)) : Prop :=
  um_mem h' (b + 4) = n /\ base + 8 <= b /\ b + 8 * n <= brk (um_os h') /\
  (forall x, owns l x \/ brk (um_os h) <= x < brk (um_os h') <-> owns l' x \/ b <= x < b + 8 * n) /\
  (forall x, b <= x < b + 8 * n -> ~ owns l' x).

(** The second round finds the new block. *)
Lemma again_ok ff n e h l f :
  0 < base -> brk (um_os h) < 2 ^ 32 -> ring (brk (um_os h)) h l -> 0 < n < 2 ^ 28 ->
  (Datatypes.S (length l) < ff)%nat -> (Datatypes.S (length l) < f)%nat ->
  exists r h' l', again ff n f e h = Ok r e h' /\ heap_ok h' l' /\ kept l h h' /\
    (r = 0 /\ l' = l /\ brk (um_os h') = brk (um_os h) \/ exists b, r = b + 8 /\ given b n h h' l l').
Proof.
  intros Hb0 Hlim Hr Hn Hf Hf'. unfold again.
  destruct (morecore_ok ff n e h l) as (r & h1 & E & Hlim1 & Hcase); [done..|]. erewrite bind_Ok by exact E.
  destruct Hcase as [(-> & Hm & Hfr & Hbrk)|(-> & Hr0 & Hbrk & l1 & Hr1 & Hlen & Hex & Hkept & Hown)].
  { cbn [Z.eqb]. exists 0, h1, l. split; [done|]. split; [|split; [intros x _ _ _; by rewrite Hm|by left]].
    split; [done|]. split; [done|]. right. destruct h1. cbn in Hm, Hfr, Hbrk |- *. subst. rewrite Hbrk.
    eapply ring_grow; [exact Hr|done|done]. }
  rewrite (proj2 (Z.eqb_neq _ _)) by done. unfold s_ptr at 1. erewrite bind_Ok by reflexivity.
  destruct (search ff n e _ _ _ Hr1) as [(q & p & s & Hfit & Hl)|[Hall _]]; [lia| |].
  - replace f with (Datatypes.S (length l1) + (f - Datatypes.S (length l1)))%nat by lia. rewrite Hl.
    destruct (carve_ok (brk (um_os h1)) h1 l1 n q p s e) as (b & h2 & l2 & Ec & Hr2 & [Htk Hdis] & Hbn & Hblo & Hbhi & Hk2 & Hos);
      [done..|lia|done|].
    exists (b + 8), h2, l2. rewrite Ec. split; [done|]. rewrite Hos.
    split; [split; [done|]; rewrite Hos; split; [done|by right]|]. split; [|right; exists b; split; [done|]; unfold given; rewrite Hos; do 3 (split; [done|]); split; [|done]].
    + intros x Hx Hnl Hnb. rewrite Hk2, (Hkept x); [done..| |done]. rewrite Hown. intros [?|?]; [done|lia].
    + intros x. by rewrite <- Htk, Hown.
  - exfalso. apply Exists_exists in Hex as ([a k] & Hin & Hk). rewrite Forall_forall in Hall.
    specialize (Hall _ Hin). cbn in Hall, Hk. lia.
Qed.

Lemma malloc_ring f ff n e h l :
  0 < base -> brk (um_os h) < 2 ^ 32 -> ring (brk (um_os h)) h l -> 0 < n < 2 ^ 28 ->
  (2 * length l + 4 <= f)%nat -> (2 * length l + 4 <= ff)%nat ->
  exists r h' l', malloc_loop f ff n (um_freep h, um_mem h (um_freep h)) e h = Ok r e h' /\
    heap_ok h' l' /\ kept l h h' /\
    (r = 0 /\ l' = l /\ brk (um_os h') = brk (um_os h) \/ exists b, r = b + 8 /\ given b n h h' l l').
Proof.
  intros Hb0 Hlim Hr Hn Hf Hff.
  replace f with (Datatypes.S (length l) + (f - Datatypes.S (length l)))%nat by lia.
  destruct (search ff n e _ _ _ Hr) as [(q & p & s & Hfit & Hl)|[Hall Hl]]; [lia| |].
  - rewrite Hl. destruct (carve_ok (brk (um_os h)) h l n q p s e)
      as (b & h2 & l2 & Ec & Hr2 & [Htk Hdis] & Hbn & Hblo & Hbhi & Hk2 & Hos); [done..|lia|done|].
    exists (b + 8), h2, l2. split; [done|]. unfold heap_ok, kept, given. rewrite Hos.
    split; [by auto|]. split; [by auto|]. right. exists b. repeat split; try done.
    + intros [?|?]; [by apply Htk|lia].
    + intros ?. left. by apply Htk.
  - rewrite Hl. apply again_ok; done || lia.
Qed.

(** C25: [malloc]: whenever the heap is well formed and the size does not overflow, the call
    returns, for every bound on its loops beyond twice the number of free
    blocks.  It returns 0 only when [sbrk] failed, and nothing is lost then;
    otherwise a block with room for the bytes asked for, whose bytes were free or
    above the break, no longer are free, and lie below the new break; no word
    outside the free blocks has changed; the heap is well formed again. *)
Theorem malloc_takes fuel nbytes e h l :
  heap_ok h l -> 0 <= nbytes <= 2 ^ 31 - 16 -> (2 * length l + 4 <= fuel)%nat ->
  exists r h' l', malloc fuel nbytes e h = Ok r e h' /\ heap_ok h' l' /\ kept l h h' /\
    (r = 0 /\ l' = l /\ brk (um_os h') = brk (um_os h) \/
     exists b n, r = b + 8 /\ nbytes <= 8 * (n - 1) < nbytes + 8 /\ given b n h h' l l').
Proof.
  intros (Hb0 & Hlim & Hor) Hnb Hf. unfold malloc.
  pose proof (Z.div_mod (nbytes + 7) 8 ltac:(lia)). pose proof (Z.mod_pos_bound (nbytes + 7) 8 ltac:(lia)).
  set (n := (nbytes + 7) / 8 + 1). assert (nbytes <= 8 * (n - 1) < nbytes + 8 /\ 0 < n < 2 ^ 28) as [Hn Hn'] by lia.
  replace (u32 (u32 (nbytes + sizeof_Header - 1) / sizeof_Header + 1)) with n.
  2:{ unfold u32, sizeof_Header. rewrite (Z.mod_small (_ - 1)) by lia.
      replace (nbytes + 8 - 1) with (nbytes + 7) by lia. fold n. rewrite Z.mod_small; lia. }
  cbv zeta. erewrite bind_Ok by reflexivity. destruct Hor as [(Hfr & -> & Hbase)|Hr].
  - rewrite Hfr. cbn [Z.eqb]. erewrite bind_Ok by reflexivity. erewrite bind_Ok by reflexivity.
    set (h1 := mkHeap S (put (put (um_mem h) base base) (base + 4) 0) base (um_os h)).
    destruct (malloc_ring fuel fuel n e h1 []) as (r & h' & l' & E & Hok & Hk & Hres); [done|done| |done|done|done|].
    { split; [|split; [done|left]]. cbn. rewrite put_eq, put_ne, put_eq by lia. auto with lia. }
    exists r, h', l'. split; [exact E|]. split; [done|]. split.
    { intros x Hx Ho Hb. rewrite (Hk x) by done. cbn. rewrite !put_ne by lia. done. }
    destruct Hres as [?|(b & -> & Hg)]; [by left|right]. by exists b, n.
  - pose proof (ring_freep _ _ _ Hr). rewrite (proj2 (Z.eqb_neq _ _)) by lia.
    erewrite bind_Ok by reflexivity. erewrite bind_Ok by reflexivity.
    destruct (malloc_ring fuel fuel n e h l) as (r & h' & l' & E & Hok & Hk & Hres); [done..|].
    exists r, h', l'. split; [exact E|]. split; [done|]. split; [done|].
    destruct Hres as [?|(b & -> & Hg)]; [by left|right]. by exists b, n.
Qed.

(** C26: [free] of a block that is not free returns, whichever block [freep] points to: the block's
    bytes are free afterwards, with those that were free before and no others;
    no word outside them has changed; the list of free blocks is well formed. *)
Theorem free_gives fuel bp n e h l :
  heap_ok h l -> um_freep h <> 0 -> um_mem h (bp + 4) = n -> 0 < n ->
  base + 8 <= bp -> bp + 8 * n <= brk (um_os h) -> (forall x, bp <= x < bp + 8 * n -> ~ owns l x) ->
  (Datatypes.S (length l) < fuel)%nat ->
  exists h' l', free fuel (bp + 8) e h = Ok tt e h' /\ heap_ok h' l' /\
    (forall x, owns l' x <-> owns l x \/ bp <= x < bp + 8 * n) /\
    (forall x, ~ owns l x -> ~ (bp <= x < bp + 8 * n) -> ~ (base <= x < base + 8) -> um_mem h' x = um_mem h x) /\
    um_os h' = um_os h.
Proof.
  intros (Hb0 & Hlim & [[? _]|Hr]) Hfr Hn Hn0 Hlo Hhi Hdis Hf; [done|].
  destruct (free_ok _ h l bp n e fuel Hr) as (h' & l' & E & Hr' & _ & _ & Hown & Hk & Hos); [done..|].
  exists h', l'. split; [done|]. split; [|done]. unfold heap_ok. rewrite Hos. auto.
Qed.
End break.

End umalloc.

(** ** An example: a process whose state is its break *)

Definition break_sbrk (n : Z) : M Z Z := fun e s =>
  if s + n <? 2 ^ 31 then Ok s e (s + n) else Ok (-1) e s.

#[export] Instance break_os : OS Z := {
  fork := ret (-1); wait := ret (-1); pipe := ret (0, 0, -1); write _ _ := ret (-1); read _ _ := ret ([], -1);
  close _ := ret (-1); kill _ := ret (-1); exec _ _ := ret (-1); open _ _ := ret (-1); mknod _ _ _ := ret (-1);
  unlink _ := ret (-1); fstat _ := ret (Fs.mkStat 0 0 0 0 0, -1); link _ _ := ret (-1); mkdir _ := ret (-1);
  chdir _ := ret (-1); dup _ := ret (-1); getpid := ret 1; sbrk := break_sbrk; sleep _ := ret 0;
  uptime := ret 0; count := ret 0
}.

#[export] Instance break_break : Break Z.
Proof.
  refine {| brk s := s |}. intros n s Hn. unfold sbrk, break_os, break_sbrk.
  destruct (Z.ltb_spec (s + n) (2 ^ 31)); eexists _, _; (split; [reflexivity|]); [right|left]; lia.
Defined.

(** A program at its start, with [base] at 0x1000 and its break at 0x4000. *)
Definition fresh : heap Z := mkHeap Z (fun _ => 0) 0 0x4000.

Lemma fresh_ok : heap_ok 0x1000 fresh [].
Proof. split; [lia|]. split; [cbn; lia|]. left. do 2 (split; [done|]). cbn. lia. Qed.

(** The first call, for 100 bytes. *)
Lemma malloc_takes_witness :
  exists r h' l', malloc 0x1000 4 100 [] fresh = Ok r [] h' /\ heap_ok 0x1000 h' l' /\ kept 0x1000 [] fresh h' /\
    (r = 0 /\ l' = [] /\ brk (um_os h') = brk (um_os fresh) \/
     exists b n, r = b + 8 /\ 100 <= 8 * (n - 1) < 100 + 8 /\ given 0x1000 b n fresh h' [] l').
Proof. apply (malloc_takes 0x1000 4 100 [] fresh []); [exact fresh_ok|lia|cbn; lia]. Defined.

(** After a first call the list is [base] alone, and a block at 0x2000 is freed. *)
Definition one_block : heap Z :=
  mkHeap Z (put (put (fun _ => 0) 0x1000 0x1000) (0x2000 + 4) 16) 0x1000 0x4000.

Lemma free_gives_witness :
  exists h' l', free 3 0x2008 [] one_block = Ok tt [] h' /\ heap_ok 0x1000 h' l' /\
    (forall x, owns l' x <-> owns [] x \/ 0x2000 <= x < 0x2000 + 8 * 16) /\
    (forall x, ~ owns [] x -> ~ (0x2000 <= x < 0x2000 + 8 * 16) -> ~ (0x1000 <= x < 0x1000 + 8) ->
       um_mem h' x = um_mem one_block x) /\
    um_os h' = um_os one_block.
Proof.
  apply (free_gives 0x1000 3 0x2000 16 [] one_block []).
  - split; [lia|]. split; [cbn; lia|]. right. split; [vm_compute; intuition congruence|]. split; [done|left].
  - discriminate.
  - reflexivity.
  - lia.
  - lia.
  - cbn. lia.
  - intros x _ Ho. inversion Ho.
  - cbn. lia.
Defined.

(** A request close to 4 gigabytes overflows: [morecore] asks [sbrk] for 0 bytes, which succeeds, and
    [malloc] returns an address above the break although the break has not moved,
    instead of 0. *)
Theorem malloc_overflow :
  exists h', malloc 0x1000 4 0xFFFFFFF8 [] fresh = Ok 0x4008 [] h' /\ brk (um_os h') = 0x4000.
Proof. eexists. split; vm_compute; reflexivity. Qed.

End Umalloc.
