(* ===== verification/Tools.v ===== *)
(** The small user programs: cat.c, wc.c, echo.c, kill.c, ln.c, mkdir.c, rm.c,
    ls.c, init.c, zombie.c, forktest.c, stressfs.c, counttest.c, lottery.c,
    lot_child.c and lot_parent.c.

    [main] takes its argument vector as a list of strings, the name of the
    program first.  A loop without a bound of its own takes one as its first
    argument and hangs when it is reached. *)

From S2P Require Import Prelude Bytes Machine Cstring Consout Fs User.
Import Cstring User.

Module Tools.

Section tools.
Context {S : Type} `{OS S}.

(** [argv[i]] *)
Definition arg (argv : list (list Z)) (i : nat) : list Z := nth i argv [].

(** [for(i = first; i < argc; i++)], the loop variable bound to [argv[i]] *)
Definition args_from (first : nat) (argv : list (list Z)) : list (list Z) := drop first argv.

(** ** cat.c *)

Definition cat (fuel : nat) (fd : Z) : M S unit :=
  n <- loop_fuel fuel (fun _ : unit =>
    ' (buf, n) <- read fd 512 ;;
    if 0 <? n then
      write 1 (take (Z.to_nat n) buf) ;;
      ret (inl tt)
    else ret (inr n)) tt ;;
  when (n <? 0)
    (printf 1 "cat: read error
" [] ;;
     exit).

Definition cat_main (fuel : nat) (argv : list (list Z)) : M S unit :=
  if (length argv <=? 1)%nat then cat fuel 0 ;; exit else
  for_all (args_from 1 argv) (fun a =>
    fd <- open a 0 ;;
    if fd <? 0 then
      printf 1 "cat: cannot open %s
" [UStr (Some a)] ;;
      exit
    else
      cat fuel fd ;;
      close fd ;;
      ret tt) ;;
  exit.

(** ** wc.c *)

Definition wc_char (b : Z) (st : Z * Z * Z * bool) : Z * Z * Z * bool :=
  let '(l, w, c, inword) := st in
  let c := s32 (c + 1) in
  let l := if b =? 10 then s32 (l + 1) else l in
  match strchr [32; 13; 9; 10; 11] b with
  | Some _ => (l, w, c, false)
  | None => if negb inword then (l, s32 (w + 1), c, true) else (l, w, c, inword)
  end.

Definition wc (fuel : nat) (fd : Z) (name : list Z) : M S unit :=
  ' (n, l, w, c) <- loop_fuel fuel (fun st =>
    ' (buf, n) <- read fd 512 ;;
    if 0 <? n then ret (inl (foldl (fun st b => wc_char b st) st (take (Z.to_nat n) buf)))
    else let '(l, w, c, _) := st in ret (inr (n, l, w, c))) (0, 0, 0, false) ;;
  if n <? 0 then
    printf 1 "wc: read error
" [] ;;
    exit
  else
    printf 1 "%d %d %d %s
" [UInt l; UInt w; UInt c; UStr (Some name)].

Definition wc_main (fuel : nat) (argv : list (list Z)) : M S unit :=
  if (length argv <=? 1)%nat then wc fuel 0 [] ;; exit else
  for_all (args_from 1 argv) (fun a =>
    fd <- open a 0 ;;
    if fd <? 0 then
      printf 1 "wc: cannot open %s
" [UStr (Some a)] ;;
      exit
    else
      wc fuel fd a ;;
      close fd ;;
      ret tt) ;;
  exit.

(** ** echo.c, kill.c, ln.c, mkdir.c, rm.c *)

Definition newline : list Z := [10].

Definition echo_main (argv : list (list Z)) : M S unit :=
  for_all (seq 1 (length argv - 1)) (fun i =>
    printf 1 "%s%s"
      [UStr (Some (arg argv i)); UStr (Some (if (i + 1 <? length argv)%nat then chars " " else newline))]) ;;
  exit.

Definition kill_main (argv : list (list Z)) : M S unit :=
  if (length argv <? 2)%nat then
    printf 2 "usage: kill pid...
" [] ;;
    exit
  else
    for_all (args_from 1 argv) (fun a => kill (atoi a) ;; ret tt) ;;
    exit.

Definition ln_main (argv : list (list Z)) : M S unit :=
  if negb (length argv =? 3)%nat then
    printf 2 "Usage: ln old new
" [] ;;
    exit
  else
    r <- link (arg argv 1) (arg argv 2) ;;
    when (r <? 0)
      (printf 2 "link %s %s: failed
" [UStr (Some (arg argv 1)); UStr (Some (arg argv 2))]) ;;
    exit.

Definition mkdir_main (argv : list (list Z)) : M S unit :=
  if (length argv <? 2)%nat then
    printf 2 "Usage: mkdir files...
" [] ;;
    exit
  else
    for_each (args_from 1 argv) (fun a =>
      r <- mkdir a ;;
      if r <? 0 then
        printf 2 "mkdir: %s failed to create
" [UStr (Some a)] ;;
        ret (Some tt)
      else ret None) ;;
    exit.

Definition rm_main (argv : list (list Z)) : M S unit :=
  if (length argv <? 2)%nat then
    printf 2 "Usage: rm files...
" [] ;;
    exit
  else
    for_each (args_from 1 argv) (fun a =>
      r <- unlink a ;;
      if r <? 0 then
        printf 2 "rm: %s failed to delete
" [UStr (Some a)] ;;
        ret (Some tt)
      else ret None) ;;
    exit.

(** ** ls.c *)

(** The part of a path after its last slash. *)
Fixpoint after_slash (path : list Z) : list Z :=
  match path with
  | [] => []
  | c :: rest => if bool_decide (47 ∈ path) then after_slash rest else path
  end.

Definition fmtname (path : list Z) : list Z :=
  let p := after_slash (cstr path) in
  if DIRSIZ <=? Z.of_nat (length p) then p
  else p ++ replicate (Z.to_nat DIRSIZ - length p) 32.

Definition print_entry (name : list Z) (st : Fs.stat) : M S unit :=
  printf 1 "%s %d %d %d
" [UStr (Some (fmtname name)); UInt (Fs.st_type st); UInt (Fs.st_ino st); UInt (Fs.st_size st)].

Definition ls (fuel : nat) (path : list Z) : M S unit :=
  fd <- open path 0 ;;
  if fd <? 0 then
    printf 2 "ls: cannot open %s
" [UStr (Some path)]
  else
  ' (st, r) <- fstat fd ;;
  if r <? 0 then
    printf 2 "ls: cannot stat %s
" [UStr (Some path)] ;;
    close fd ;;
    ret tt
  else
    (if Fs.st_type st =? T_FILE then print_entry path st
     else if Fs.st_type st =? T_DIR then
       if 512 <? strlen path + 1 + DIRSIZ + 1 then
         printf 1 "ls: path too long
" []
       else
         loop_fuel fuel (fun _ : unit =>
           ' (de, n) <- read fd 16 ;;
           if negb (n =? 16) then ret (inr tt) else
           if le_val (take 2 de) =? 0 then ret (inl tt) else
           let buf := cstr path ++ 47 :: slice 2 (Z.to_nat DIRSIZ) de in
           ' (st, r) <- stat buf ;;
           match (if r <? 0 then None else st) with
           | None =>
               printf 1 "ls: cannot stat %s
" [UStr (Some buf)] ;;
               ret (inl tt)
           | Some st => print_entry buf st ;; ret (inl tt)
           end) tt
     else ret tt) ;;
    close fd ;;
    ret tt.

Definition ls_main (fuel : nat) (argv : list (list Z)) : M S unit :=
  if (length argv <? 2)%nat then ls fuel (chars ".") ;; exit else
  for_all (args_from 1 argv) (ls fuel) ;;
  exit.

(** ** init.c and the programs that test [fork] *)

Definition init_main (fuel : nat) : M S unit :=
  fd <- open (chars "console") O_RDWR ;;
  when (fd <? 0)
    (mknod (chars "console") 1 1 ;;
     open (chars "console") O_RDWR ;;
     ret tt) ;;
  dup 0 ;;
  dup 0 ;;
  loop_fuel fuel (fun _ : unit =>
    printf 1 "init: starting sh
" [] ;;
    pid <- fork ;;
    if pid <? 0 then
      printf 1 "init: fork failed
" [] ;;
      exit
    else if pid =? 0 then
      exec (chars "sh") [chars "sh"] ;;
      printf 1 "init: exec sh failed
" [] ;;
      exit
    else
      loop_fuel fuel (fun _ : unit =>
        wpid <- wait ;;
        if (0 <=? wpid) && negb (wpid =? pid) then
          printf 1 "zombie!
" [] ;;
          ret (inl tt)
        else ret (inr tt)) tt ;;
      ret (inl tt)) tt.

Definition zombie_main : M S unit :=
  pid <- fork ;;
  when (0 <? pid) (sleep 5 ;; ret tt) ;;
  exit.

(** forktest.c has a [printf] of its own, without formats. *)
Definition forktest_printf (fd : Z) (s : string) : M S unit :=
  write fd (cstr (chars s)) ;;
  ret tt.

Definition forktest : M S unit :=
  forktest_printf 1 "fork test
" ;;
  r <- for_each (seq 0 1000) (fun n =>
    pid <- fork ;;
    if pid <? 0 then ret (Some n) else
    if pid =? 0 then exit else ret None) ;;
  match r with
  | None =>
      forktest_printf 1 "fork claimed to work N times!
" ;;
      exit
  | Some n =>
      for_all (seq 0 n) (fun _ =>
        r <- wait ;;
        when (r <? 0)
          (forktest_printf 1 "wait stopped early
" ;;
           exit)) ;;
      r <- wait ;;
      if negb (r =? -1) then
        forktest_printf 1 "wait got too many
" ;;
        exit
      else
        forktest_printf 1 "fork test OK
"
  end.

Definition forktest_main : M S unit := forktest ;; exit.

Definition stressfs_main : M S unit :=
  printf 1 "stressfs starting
" [] ;;
  let data := replicate 512 97 in
  r <- for_each (seq 0 4) (fun i =>
    pid <- fork ;;
    if 0 <? pid then ret (Some i) else ret None) ;;
  let i := default 4%nat r in
  printf 1 "write %d
" [UInt (Z.of_nat i)] ;;
  let path := chars "stressfs" ++ [48 + Z.of_nat i] in
  fd <- open path (Z.lor O_CREATE O_RDWR) ;;
  for_all (seq 0 20) (fun _ => write fd data ;; ret tt) ;;
  close fd ;;
  printf 1 "read
" [] ;;
  fd <- open path O_RDONLY ;;
  for_all (seq 0 20) (fun _ => read fd 512 ;; ret tt) ;;
  close fd ;;
  wait ;;
  exit.

(** ** The programs for the additions to the kernel *)

Definition counttest : M S unit :=
  printf 1 "testing count
" [] ;;
  c <- count ;;
  printf 1 "init, count = %d
" [UInt c] ;;
  r <- mkdir (chars "dir0") ;;
  (if r <? 0 then
     printf 1 "mkdir failed
" [] ;;
     exit
   else ret tt) ;;
  c <- count ;;
  printf 1 "mkdir, syscall count = %d
" [UInt c] ;;
  r <- chdir (chars "dir0") ;;
  (if r <? 0 then
     printf 1 "chdir dir0 failed
" [] ;;
     exit
   else ret tt) ;;
  c <- count ;;
  printf 1 "chdir, syscall count = %d
" [UInt c] ;;
  r <- chdir (chars "..") ;;
  (if r <? 0 then
     printf 1 "chdir .. failed
" [] ;;
     exit
   else ret tt) ;;
  r <- unlink (chars "dir0") ;;
  (if r <? 0 then
     printf 1 "unlink dir0 failed
" [] ;;
     exit
   else ret tt) ;;
  c <- count ;;
  printf 1 "unlink, syscall count = %d
" [UInt c] ;;
  num <- count ;;
  printf 1 "total syscall count = %d
" [UInt num].

Definition counttest_main : M S unit := counttest ;; exit.

Definition lottery_main : M S unit :=
  pid_c <- fork ;;
  (if pid_c <? 0 then printf 1 "lottery fork fail" [] ;; exit
   else if pid_c =? 0 then
     exec (chars "./lot_parent") [chars "./lot_parent"] ;;
     printf 1 "lottery exec fails" [] ;;
     exit
   else ret tt) ;;
  pid_p <- fork ;;
  (if pid_p <? 0 then printf 1 "lottery fork fail" [] ;; exit
   else if pid_p =? 0 then
     exec (chars "./lot_child") [chars "./lot_child"] ;;
     printf 1 "lottery exec fails" [] ;;
     exit
   else ret tt) ;;
  wait ;;
  exit.

(** The busy loops of lot_child.c and lot_parent.c; [m] is not used. *)
Definition fibonacci (n : nat) : M S Z :=
  for_all (seq 0 n) (fun i => when (i mod 10 =? 0)%nat (sleep 1 ;; ret tt)) ;;
  ret 0.

Definition lot_child_main : M S unit :=
  printf 1 "

I am Child

" [] ;;
  fibonacci 1000 ;;
  printf 1 "

finishing child.....

" [] ;;
  exit.

Definition lot_parent_main : M S unit :=
  printf 1 "
I am Parent
" [] ;;
  fibonacci 1000 ;;
  printf 1 "

finishing parent ..... 

" [] ;;
  exit.

End tools.

(** ** What they do *)

Section streams.
Context {S : Type} `{Streams S}.

Lemma cat_loop_ok fuel fd e (s : S) :
  (length (input fd s) < fuel)%nat ->
  exists s', loop_fuel fuel (fun _ : unit =>
      ' (buf, n) <- read fd 512 ;;
      if 0 <? n then
        write 1 (take (Z.to_nat n) buf) ;;
        ret (inl tt)
      else ret (inr n)) tt e s = Ok 0 e s' /\
    written 1 s' = written 1 s ++ input fd s /\ input fd s' = [].
Proof.
  revert s. induction fuel as [|fuel IH]; intros s Hf; [lia|]. cbn [loop_fuel].
  destruct (read_ok fd 512 e s) as (l & s1 & E1 & Hn & Hin & He & Hw1); [lia|].
  unfold bind at 1 2. rewrite E1. destruct l as [|c l].
  - cbn. exists s1. rewrite He, Hw1, app_nil_r by done. rewrite (He eq_refl) in Hin. by split_and!.
  - rewrite (proj2 (Z.ltb_lt _ _)) by (cbn; lia). rewrite Nat2Z.id, firstn_all.
    destruct (write_ok 1 (c :: l) e s1) as (s2 & E2 & Hw2 & _ & Hi2).
    unfold bind at 1. rewrite E2. cbn [ret].
    destruct (IH s2) as (s' & E' & Hw' & Hi').
    { rewrite Hi2. rewrite Hin, length_app in Hf. cbn in Hf. lia. }
    exists s'. split; [exact E'|]. split; [|done]. by rewrite Hw', Hw2, Hw1, Hi2, Hin, <- app_assoc.
Qed.

(** [cat] copies its input: whatever the sizes of the pieces [read] returns, it ends
    with everything up to the end of the file on its standard output, in
    order. *)
Theorem cat_copies fuel fd e (s : S) :
  (length (input fd s) < fuel)%nat ->
  exists s', cat fuel fd e s = Ok tt e s' /\ written 1 s' = written 1 s ++ input fd s /\ input fd s' = [].
Proof.
  intros Hf. destruct (cat_loop_ok fuel fd e s Hf) as (s' & E & Hw & Hi).
  exists s'. unfold cat. unfold bind at 1. by rewrite E.
Qed.

(** ** wc *)

Definition is_space (b : Z) : bool := bool_decide (b ∈ [32; 13; 9; 10; 11]).

(** Words: the characters that are no space and have a space, or nothing, in front
    of them. *)
Fixpoint words (inword : bool) (l : list Z) : Z :=
  match l with
  | [] => 0
  | b :: l' => (if negb (is_space b) && negb inword then 1 else 0) + words (negb (is_space b)) l'
  end.
Definition lines (l : list Z) : Z := Z.of_nat (length (filter (fun b => b = 10) l)).

Lemma strchr_space b : (match strchr [32; 13; 9; 10; 11] b with Some _ => true | None => false end) = is_space b.
Proof.
  unfold is_space. cbn [strchr].
  destruct (Z.eqb_spec 32 b) as [<-|]; [done|]. destruct (Z.eqb_spec 13 b) as [<-|]; [done|].
  destruct (Z.eqb_spec 9 b) as [<-|]; [done|]. destruct (Z.eqb_spec 10 b) as [<-|]; [done|].
  destruct (Z.eqb_spec 11 b) as [<-|]; [done|]. cbn. symmetry. apply bool_decide_eq_false.
  rewrite !elem_of_cons. intros [?|[?|[?|[?|[?|?%elem_of_nil]]]]]; congruence || done.
Qed.
Lemma words_le iw l : 0 <= words iw l <= Z.of_nat (length l).
Proof.
  revert iw. induction l as [|b l IH]; intros iw; cbn [words length]; [lia|].
  specialize (IH (negb (is_space b))). destruct (_ && _); lia.
Qed.

Lemma wc_fold st l a w c iw :
  st = (a, w, c, iw) -> 0 <= a <= c -> 0 <= w <= c -> c + Z.of_nat (length l) < 2147483648 ->
  exists iw', foldl (fun st b => wc_char b st) st l =
    (a + lines l, w + words iw l, c + Z.of_nat (length l), iw').
Proof.
  intros ->. revert a w c iw. induction l as [|b l IH]; intros a w c iw Ha Hw Hc.
  { exists iw. cbn. unfold lines. cbn. by rewrite !Z.add_0_r. }
  cbn [foldl length words] in *. unfold wc_char at 2.
  pose proof (strchr_space b) as Hs. rewrite !s32_small by lia.
  assert (lines (b :: l) = (if b =? 10 then 1 else 0) + lines l) as Hlines.
  { unfold lines. rewrite filter_cons. destruct (Z.eqb_spec b 10); case_decide; cbn [length]; lia || done. }
  assert (forall a' w' iw1, a' = a + (if b =? 10 then 1 else 0) -> w <= w' <= w + 1 ->
    w' = w + (if negb (is_space b) && negb iw then 1 else 0) -> iw1 = negb (is_space b) ->
    exists iw', foldl (fun st b => wc_char b st) (a', w', c + 1, iw1) l =
      (a + lines (b :: l), w + ((if negb (is_space b) && negb iw then 1 else 0) + words (negb (is_space b)) l),
       c + Z.of_nat (Datatypes.S (length l)), iw')) as Hgo.
  { intros a' w' iw1 Ea Hw' Ew ->. destruct (IH a' w' (c + 1) (negb (is_space b))) as [iw' E];
      [destruct (b =? 10); lia|lia|lia|].
    exists iw'. rewrite E. f_equal. f_equal; [f_equal; [rewrite Hlines; lia|]|lia].
    rewrite Ew. lia. }
  destruct (strchr _ b); destruct (is_space b); try done; cbn [negb andb] in *.
  - apply Hgo; destruct (b =? 10); lia || done.
  - destruct iw; cbn [negb] in *; apply Hgo; destruct (b =? 10); lia || done.
Qed.

Lemma wc_loop_ok fuel fd e (s : S) st :
  (length (input fd s) < fuel)%nat ->
  exists s', loop_fuel fuel (fun st =>
      ' (buf, n) <- read fd 512 ;;
      if 0 <? n then ret (inl (foldl (fun st b => wc_char b st) st (take (Z.to_nat n) buf)))
      else let '(l, w, c, _) := st in ret (inr (n, l, w, c))) st e s =
        Ok (let '(l, w, c, _) := foldl (fun st b => wc_char b st) st (input fd s) in (0, l, w, c)) e s' /\
    (forall fd', written fd' s' = written fd' s) /\ input fd s' = [].
Proof.
  revert s st. induction fuel as [|fuel IH]; intros s st Hf; [lia|]. cbn [loop_fuel].
  destruct (read_ok fd 512 e s) as (l & s1 & E1 & Hn & Hin & He & Hw1); [lia|].
  unfold bind at 1 2. rewrite E1. destruct l as [|c l].
  - cbn. exists s1. rewrite (He eq_refl) in *. destruct st as [[[a w] c] iw]. by split_and!.
  - rewrite (proj2 (Z.ltb_lt _ _)) by (cbn; lia). rewrite Nat2Z.id, firstn_all. cbn [ret].
    destruct (IH s1 (foldl (fun st b => wc_char b st) st (c :: l))) as (s' & E' & Hw' & Hi').
    { rewrite Hin, length_app in Hf. cbn in Hf. lia. }
    exists s'. split; [etrans; [exact E'|]; by rewrite Hin, foldl_app|].
    split; [|done]. intros fd'. by rewrite Hw', Hw1.
Qed.

(** [wc] counts: for an input of less than 2^31 bytes it prints the numbers of its
    newlines, of its words and of its characters, and the name. *)
Theorem wc_counts fuel fd name e (s : S) :
  (length (input fd s) < fuel)%nat -> Z.of_nat (length (input fd s)) < 2 ^ 31 ->
  exists s', wc fuel fd name e s = Ok tt e s' /\
    written 1 s' = written 1 s ++
      text false (chars "%d %d %d %s
") [UInt (lines (input fd s)); UInt (words false (input fd s)); UInt (Z.of_nat (length (input fd s))); UStr (Some name)].
Proof.
  intros Hf Hlen. destruct (wc_loop_ok fuel fd e s (0, 0, 0, false) Hf) as (s1 & E & Hw & Hi).
  destruct (wc_fold _ (input fd s) 0 0 0 false eq_refl) as [iw' Ef]; [lia|lia|lia|]. rewrite Ef in E.
  unfold wc. unfold bind at 1. rewrite E. change (0 <? 0) with false. cbn iota beta.
  destruct (writes_printf 1 "%d %d %d %s
" [UInt (0 + lines (input fd s)); UInt (0 + words false (input fd s));
    UInt (0 + Z.of_nat (length (input fd s))); UStr (Some name)] e s1) as (s' & E' & Hw' & _).
  exists s'. rewrite !Z.add_0_l in *. split; [exact E'|]. by rewrite Hw', Hw.
Qed.

End streams.

(** Six bytes, two at a time. *)
Definition six_bytes : tape := mkTape (chars "a b cd") 1 (fun _ => []).

Lemma cat_copies_witness :
  exists s', cat 10 0 [] six_bytes = Ok tt [] s' /\ written 1 s' = chars "a b cd" /\ input 0 s' = [].
Proof.
  destruct (cat_copies 10 0 [] six_bytes) as (s' & E & W & I); [vm_compute; lia|].
  exists s'. split; [exact E|]. split; [|exact I]. rewrite W. vm_compute. reflexivity.
Defined.

Lemma wc_counts_witness :
  exists s', wc 10 0 (chars "f") [] six_bytes = Ok tt [] s' /\
    written 1 s' = chars "0 3 6 f
".
Proof.
  destruct (wc_counts 10 0 (chars "f") [] six_bytes) as (s' & E & W); [vm_compute; lia|vm_compute; reflexivity|].
  exists s'. split; [exact E|]. rewrite W. vm_compute. reflexivity.
Defined.

End Tools.
