(* ===== verification/Usertests.v ===== *)
(** usertests.c: the tests of the system calls.

    Each test is a program over the system calls.  The state has the test
    program's global buffer beside the state of the system.  Where a test loops
    until a system call says so, the bound is an argument.  ([main] of this
    repository calls none of the tests.) *)

From S2P Require Import Prelude Bytes Machine Cstring Consout Fs User Umalloc.
Import Cstring User Umalloc.

Module Usertests.

Record tests {S : Type} : Type := mkTests { ut_buf : list Z; ut_os : S }.
Arguments tests : clear implicits.

(** The line end of the messages. *)
Definition nl : string := String (Ascii.Ascii false true false true false false false false) EmptyString.

Section usertests.
Context {S : Type} `{OS S}.

#[local] Instance tests_os : OS (tests S) := zoom_os ut_os (fun s t => mkTests S (ut_buf t) s).

Definition T (A : Type) : Type := M (tests S) A.

Definition stdout : Z := 1.

(** [printf] of a line. *)
Definition sayf {R} `{OS R} (fmt : string) (args : list uarg) : M R unit := printf stdout (fmt ++ nl) args.
Definition say {R} `{OS R} (msg : string) : M R unit := sayf msg [].

(** [if(bad){ printf(...); exit(); }] *)
Definition exit_if {R} `{OS R} (bad : bool) (msg : string) : M R unit := when bad (say msg ;; exit).

(** [buf], of 8192 bytes *)
Definition sizeof_buf : Z := 8192.
Definition get_buf : T (list Z) := Prelude.gets ut_buf.
Definition put_buf (l : list Z) : T unit := modify (fun t => mkTests S (splice 0 l (ut_buf t)) (ut_os t)).
Definition read_buf (fd n : Z) : T Z :=
  ' (l, r) <- read fd n ;;
  put_buf l ;;
  ret r.
Definition write_buf (fd n : Z) : T Z :=
  b <- get_buf ;;
  write fd (take (Z.to_nat n) b).
Definition memset_buf (c n : Z) : T unit := put_buf (replicate (Z.to_nat n) (u8 c)).

Definition RDWR_CREATE : Z := Z.lor O_CREATE O_RDWR.

(** [close(open(path, mode))] *)
Definition close_open {R} `{OS R} (path : list Z) (mode : Z) : M R unit :=
  fd <- open path mode ;; close fd ;; ret tt.

Definition iputtest : T unit :=
  say "iput test" ;;
  r <- mkdir (chars "iputdir") ;;
  exit_if (r <? 0) "mkdir failed" ;;
  r <- chdir (chars "iputdir") ;;
  exit_if (r <? 0) "chdir iputdir failed" ;;
  r <- unlink (chars "../iputdir") ;;
  exit_if (r <? 0) "unlink ../iputdir failed" ;;
  r <- chdir (chars "/") ;;
  exit_if (r <? 0) "chdir / failed" ;;
  say "iput test ok".

Definition exitiputtest : T unit :=
  say "exitiput test" ;;
  pid <- fork ;;
  exit_if (pid <? 0) "fork failed" ;;
  when (pid =? 0)
    (r <- mkdir (chars "iputdir") ;;
     exit_if (r <? 0) "mkdir failed" ;;
     r <- chdir (chars "iputdir") ;;
     exit_if (r <? 0) "child chdir failed" ;;
     r <- unlink (chars "../iputdir") ;;
     exit_if (r <? 0) "unlink ../iputdir failed" ;;
     exit) ;;
  wait ;;
  say "exitiput test ok".

Definition openiputtest : T unit :=
  say "openiput test" ;;
  r <- mkdir (chars "oidir") ;;
  exit_if (r <? 0) "mkdir oidir failed" ;;
  pid <- fork ;;
  exit_if (pid <? 0) "fork failed" ;;
  when (pid =? 0)
    (fd <- open (chars "oidir") O_RDWR ;;
     exit_if (0 <=? fd) "open directory for write succeeded" ;;
     exit) ;;
  sleep 1 ;;
  r <- unlink (chars "oidir") ;;
  exit_if (negb (r =? 0)) "unlink failed" ;;
  wait ;;
  say "openiput test ok".

Definition opentest : T unit :=
  say "open test" ;;
  fd <- open (chars "echo") 0 ;;
  exit_if (fd <? 0) "open echo failed!" ;;
  close fd ;;
  fd <- open (chars "doesnotexist") 0 ;;
  exit_if (0 <=? fd) "open doesnotexist succeeded!" ;;
  say "open test ok".

Definition writetest : T unit :=
  say "small file test" ;;
  fd <- open (chars "small") RDWR_CREATE ;;
  (if 0 <=? fd then say "creat small succeeded; ok"
   else say "error: creat small failed!" ;; exit) ;;
  for_all (seq 0 100) (fun i =>
    r <- write fd (chars "aaaaaaaaaa") ;;
    when (negb (r =? 10)) (sayf "error: write aa %d new file failed" [UInt (Z.of_nat i)] ;; exit) ;;
    r <- write fd (chars "bbbbbbbbbb") ;;
    when (negb (r =? 10)) (sayf "error: write bb %d new file failed" [UInt (Z.of_nat i)] ;; exit)) ;;
  say "writes ok" ;;
  close fd ;;
  fd <- open (chars "small") O_RDONLY ;;
  (if 0 <=? fd then say "open small succeeded ok"
   else say "error: open small failed!" ;; exit) ;;
  i <- read_buf fd 2000 ;;
  (if i =? 2000 then say "read succeeded ok"
   else say "read failed" ;; exit) ;;
  close fd ;;
  r <- unlink (chars "small") ;;
  exit_if (r <? 0) "unlink small failed" ;;
  say "small file test ok".

(** The first integer of [buf]. *)
Definition buf_int : T Z := b <- get_buf ;; ret (s32 (get32 0 b)).

Definition writetest1 (fuel : nat) : T unit :=
  say "big files test" ;;
  fd <- open (chars "big") RDWR_CREATE ;;
  exit_if (fd <? 0) "error: creat big failed!" ;;
  for_all (seqZ 0 MAXFILE) (fun i =>
    put_buf (le_bytes 4 i) ;;
    r <- write_buf fd 512 ;;
    when (negb (r =? 512)) (sayf "error: write big file failed" [UInt i] ;; exit)) ;;
  close fd ;;
  fd <- open (chars "big") O_RDONLY ;;
  exit_if (fd <? 0) "error: open big failed!" ;;
  loop_fuel fuel (fun n =>
    i <- read_buf fd 512 ;;
    if i =? 0 then
      when (n =? MAXFILE - 1) (printf stdout "read only %d blocks from big" [UInt n] ;; exit) ;;
      ret (inr tt)
    else
      when (negb (i =? 512)) (sayf "read failed %d" [UInt i] ;; exit) ;;
      b0 <- buf_int ;;
      when (negb (b0 =? n)) (sayf "read content of block %d is %d" [UInt n; UInt b0] ;; exit) ;;
      ret (inl (n + 1))) 0 ;;
  close fd ;;
  r <- unlink (chars "big") ;;
  exit_if (r <? 0) "unlink big failed" ;;
  say "big files ok".

(** The name of file [i]: a letter and the character ['0' + i]. *)
Definition file_name (c : Z) (i : nat) : list Z := [c; u8 (48 + Z.of_nat i)].

Definition createtest : T unit :=
  say "many creates, followed by unlink test" ;;
  for_all (seq 0 52) (fun i => close_open (file_name 97 i) RDWR_CREATE) ;;
  for_all (seq 0 52) (fun i => unlink (file_name 97 i) ;; ret tt) ;;
  say "many creates, followed by unlink; ok".

Definition dirtest : T unit :=
  say "mkdir test" ;;
  r <- mkdir (chars "dir0") ;;
  exit_if (r <? 0) "mkdir failed" ;;
  r <- chdir (chars "dir0") ;;
  exit_if (r <? 0) "chdir dir0 failed" ;;
  r <- chdir (chars "..") ;;
  exit_if (r <? 0) "chdir .. failed" ;;
  r <- unlink (chars "dir0") ;;
  exit_if (r <? 0) "unlink dir0 failed" ;;
  say "mkdir test ok".

Definition echoargv : list (list Z) := [chars "echo"; chars "ALL"; chars "TESTS"; chars "PASSED"].

Definition exectest : T unit :=
  say "exec test" ;;
  r <- exec (chars "echo") echoargv ;;
  exit_if (r <? 0) "exec echo failed".

(** The bytes [seq], [seq + 1], ... *)
Definition bytes_from (sq : Z) (n : nat) : list Z := (fun i => u8 (sq + Z.of_nat i)) <$> seq 0 n.

Definition pipe1 (fuel : nat) : T unit :=
  ' (rfd, wfd, r) <- pipe ;;
  exit_if (negb (r =? 0)) "pipe() failed" ;;
  pid <- fork ;;
  if pid =? 0 then
    close rfd ;;
    for_all (seq 0 5) (fun n =>
      put_buf (bytes_from (Z.of_nat n * 1033) 1033) ;;
      r <- write_buf wfd 1033 ;;
      exit_if (negb (r =? 1033)) "pipe1 oops 1") ;;
    exit
  else if 0 <? pid then
    close wfd ;;
    r <- loop_fuel fuel (fun '(sq, total, cc) =>
      n <- read_buf rfd cc ;;
      if negb (0 <? n) then ret (inr (Some total)) else
      b <- get_buf ;;
      if negb (bool_decide (take (Z.to_nat n) b = bytes_from sq (Z.to_nat n))) then
        say "pipe1 oops 2" ;;
        ret (inr None)
      else
        let cc := cc * 2 in
        ret (inl (sq + n, total + n, if sizeof_buf <? cc then sizeof_buf else cc))) (0, 0, 1) ;;
    match r with
    | None => ret tt
    | Some total =>
        when (negb (total =? 5 * 1033)) (sayf "pipe1 oops 3 total %d" [UInt total] ;; exit) ;;
        close rfd ;;
        wait ;;
        say "pipe1 ok"
    end
  else
    say "fork() failed" ;;
    exit.

Definition preempt : T unit :=
  printf 1 "preempt: " [] ;;
  pid1 <- fork ;;
  when (pid1 =? 0) hang ;;
  pid2 <- fork ;;
  when (pid2 =? 0) hang ;;
  ' (rfd, wfd, _) <- pipe ;;
  pid3 <- fork ;;
  when (pid3 =? 0)
    (close rfd ;;
     r <- write wfd (chars "x") ;;
     when (negb (r =? 1)) (printf 1 "preempt write error" []) ;;
     close wfd ;;
     hang) ;;
  close wfd ;;
  r <- read_buf rfd sizeof_buf ;;
  if negb (r =? 1) then printf 1 "preempt read error" [] else
  close rfd ;;
  printf 1 "kill... " [] ;;
  kill pid1 ;;
  kill pid2 ;;
  kill pid3 ;;
  printf 1 "wait... " [] ;;
  wait ;;
  wait ;;
  wait ;;
  say "preempt ok".

Definition exitwait : T unit :=
  r <- for_each (seq 0 100) (fun _ =>
    pid <- fork ;;
    if pid <? 0 then say "fork failed" ;; ret (Some tt) else
    if nz pid then
      w <- wait ;;
      if negb (w =? pid) then say "wait wrong pid" ;; ret (Some tt) else ret None
    else exit) ;;
  match r with
  | Some _ => ret tt
  | None => say "exitwait ok"
  end.

(** [mem], on the heap of the allocator: [m1] heads a list of blocks, each of
    which has the address of the next one in its first word. *)
Definition mem (base : Z) (fuel ffuel : nat) : M (heap S) unit :=
  say "mem test" ;;
  ppid <- getpid ;;
  pid <- fork ;;
  if pid =? 0 then
    m1 <- loop_fuel fuel (fun m1 =>
      m2 <- malloc base ffuel 10001 ;;
      if negb (nz m2) then ret (inr m1) else
      set_ptr m2 m1 ;;
      ret (inl m2)) 0 ;;
    loop_fuel fuel (fun m1 =>
      if negb (nz m1) then ret (inr tt) else
      m2 <- s_ptr m1 ;;
      free ffuel m1 ;;
      ret (inl m2)) m1 ;;
    m1 <- malloc base ffuel (1024 * 20) ;;
    (if m1 =? 0 then
       say "couldn't allocate mem?!!" ;;
       kill ppid ;;
       exit
     else ret tt) ;;
    free ffuel m1 ;;
    say "mem ok" ;;
    exit
  else
    wait ;;
    ret tt.

Definition sharedfd (fuel : nat) : T unit :=
  say "sharedfd test" ;;
  unlink (chars "sharedfd") ;;
  fd <- open (chars "sharedfd") RDWR_CREATE ;;
  if fd <? 0 then printf 1 "fstests: cannot open sharedfd for writing" [] else
  pid <- fork ;;
  let buf := replicate 10 (if pid =? 0 then 99 else 112) in
  for_each (seq 0 1000) (fun _ =>
    r <- write fd buf ;;
    if negb (r =? 10) then say "fstests: write sharedfd failed" ;; ret (Some tt) else ret None) ;;
  (if pid =? 0 then exit else wait ;; ret tt) ;;
  close fd ;;
  fd <- open (chars "sharedfd") 0 ;;
  if fd <? 0 then say "fstests: cannot open sharedfd for reading" else
  ' (nc, np) <- loop_fuel fuel (fun '(buf, nc, np) =>
    ' (l, n) <- read fd 10 ;;
    let buf := splice 0 l buf in
    if negb (0 <? n) then ret (inr (nc, np)) else
    ret (inl (buf, nc + Z.of_nat (length (filter (fun c => c = 99) buf)),
              np + Z.of_nat (length (filter (fun c => c = 112) buf))))) (buf, 0, 0) ;;
  close fd ;;
  unlink (chars "sharedfd") ;;
  if (nc =? 10000) && (np =? 10000) then say "sharedfd ok" else
  sayf "sharedfd oops %d %d" [UInt nc; UInt np] ;;
  exit.

Definition fourfiles (fuel : nat) : T unit :=
  say "fourfiles test" ;;
  for_all (seq 0 4) (fun pi =>
    let fname := file_name 102 pi in
    unlink fname ;;
    pid <- fork ;;
    exit_if (pid <? 0) "fork failed" ;;
    when (pid =? 0)
      (fd <- open fname RDWR_CREATE ;;
       exit_if (fd <? 0) "create failed" ;;
       memset_buf (48 + Z.of_nat pi) 512 ;;
       for_all (seq 0 12) (fun _ =>
         n <- write_buf fd 500 ;;
         when (negb (n =? 500)) (sayf "write failed %d" [UInt n] ;; exit)) ;;
       exit)) ;;
  for_all (seq 0 4) (fun _ => wait ;; ret tt) ;;
  for_all (seq 0 2) (fun i =>
    let fname := file_name 102 i in
    fd <- open fname 0 ;;
    total <- loop_fuel fuel (fun total =>
      n <- read_buf fd sizeof_buf ;;
      if negb (0 <? n) then ret (inr total) else
      b <- get_buf ;;
      exit_if (negb (forallb (fun c => c =? 48 + Z.of_nat i) (take (Z.to_nat n) b))) "wrong char" ;;
      ret (inl (total + n))) 0 ;;
    close fd ;;
    when (negb (total =? 12 * 500)) (sayf "wrong length %d" [UInt total] ;; exit) ;;
    unlink fname ;;
    ret tt) ;;
  say "fourfiles ok".

Definition createdelete : T unit :=
  say "createdelete test" ;;
  for_all (seq 0 4) (fun pi =>
    let c := 112 + Z.of_nat pi in
    pid <- fork ;;
    exit_if (pid <? 0) "fork failed" ;;
    when (pid =? 0)
      (for_all (seq 0 20) (fun i =>
         fd <- open (file_name c i) RDWR_CREATE ;;
         exit_if (fd <? 0) "create failed" ;;
         close fd ;;
         when ((0 <? i)%nat && (i mod 2 =? 0)%nat)
           (r <- unlink (file_name c (i / 2)) ;;
            exit_if (r <? 0) "unlink failed")) ;;
       exit)) ;;
  for_all (seq 0 4) (fun _ => wait ;; ret tt) ;;
  for_all (seq 0 20) (fun i =>
    for_all (seq 0 4) (fun pi =>
      let name := file_name (112 + Z.of_nat pi) i in
      fd <- open name 0 ;;
      (if ((i =? 0)%nat || (10 <=? i)%nat) && (fd <? 0) then
         sayf "oops createdelete %s didn't exist" [UStr (Some name)] ;; exit
       else if ((1 <=? i)%nat && (i <? 10)%nat) && (0 <=? fd) then
         sayf "oops createdelete %s did exist" [UStr (Some name)] ;; exit
       else ret tt) ;;
      when (0 <=? fd) (close fd ;; ret tt))) ;;
  for_all (seq 0 20) (fun i =>
    for_all (seq 0 4) (fun _ => unlink (file_name (u8 (112 + Z.of_nat i)) i) ;; ret tt)) ;;
  say "createdelete ok".

Definition unlinkread : T unit :=
  say "unlinkread test" ;;
  fd <- open (chars "unlinkread") RDWR_CREATE ;;
  exit_if (fd <? 0) "create unlinkread failed" ;;
  write fd (chars "hello") ;;
  close fd ;;
  fd <- open (chars "unlinkread") O_RDWR ;;
  exit_if (fd <? 0) "open unlinkread failed" ;;
  r <- unlink (chars "unlinkread") ;;
  exit_if (negb (r =? 0)) "unlink unlinkread failed" ;;
  fd1 <- open (chars "unlinkread") RDWR_CREATE ;;
  write fd1 (chars "yyy") ;;
  close fd1 ;;
  r <- read_buf fd sizeof_buf ;;
  when (negb (r =? 5)) (printf 1 "unlinkread read failed" [] ;; exit) ;;
  b <- get_buf ;;
  exit_if (negb (nth 0 b 0 =? 104)) "unlinkread wrong data" ;;
  r <- write_buf fd 10 ;;
  exit_if (negb (r =? 10)) "unlinkread write failed" ;;
  close fd ;;
  unlink (chars "unlinkread") ;;
  say "unlinkread ok".

Definition linktest : T unit :=
  say "linktest" ;;
  unlink (chars "lf1") ;;
  unlink (chars "lf2") ;;
  fd <- open (chars "lf1") RDWR_CREATE ;;
  exit_if (fd <? 0) "create lf1 failed" ;;
  r <- write fd (chars "hello") ;;
  exit_if (negb (r =? 5)) "write lf1 failed" ;;
  close fd ;;
  r <- link (chars "lf1") (chars "lf2") ;;
  exit_if (r <? 0) "link lf1 lf2 failed" ;;
  unlink (chars "lf1") ;;
  r <- open (chars "lf1") 0 ;;
  exit_if (0 <=? r) "unlinked lf1 but it is still there!" ;;
  fd <- open (chars "lf2") 0 ;;
  exit_if (fd <? 0) "open lf2 failed" ;;
  r <- read_buf fd sizeof_buf ;;
  exit_if (negb (r =? 5)) "read lf2 failed" ;;
  close fd ;;
  r <- link (chars "lf2") (chars "lf2") ;;
  exit_if (0 <=? r) "link lf2 lf2 succeeded! oops" ;;
  unlink (chars "lf2") ;;
  r <- link (chars "lf2") (chars "lf1") ;;
  exit_if (0 <=? r) "link non-existant succeeded! oops" ;;
  r <- link (chars ".") (chars "lf1") ;;
  exit_if (0 <=? r) "link . lf1 succeeded! oops" ;;
  say "linktest ok".

(** The directory's entries that [concreate] counts: [fa] has the files seen. *)
Definition concreate_entries (fuel : nat) (fd : Z) : T Z :=
  loop_fuel fuel (fun '(de, fa, n) =>
    ' (l, r) <- read fd 16 ;;
    let de := splice 0 l de in
    if negb (0 <? r) then ret (inr n) else
    let name := drop 2 de in
    if get16 0 de =? 0 then ret (inl (de, fa, n)) else
    if (nth 0 name 0 =? 67) && (nth 2 name 0 =? 0) then
      let i := s8 (nth 1 name 0) - 48 in
      when ((i <? 0) || (40 <=? i)) (sayf "concreate weird file %s" [UStr (Some name)] ;; exit) ;;
      when (nz (nth (Z.to_nat i) fa 0)) (sayf "concreate duplicate file %s" [UStr (Some name)] ;; exit) ;;
      ret (inl (de, <[Z.to_nat i := 1]> fa, n + 1))
    else ret (inl (de, fa, n))) (replicate 16 0, replicate 40 0, 0).

Definition concreate (fuel : nat) : T unit :=
  say "concreate test" ;;
  for_all (seq 0 40) (fun i =>
    let file := file_name 67 i in
    unlink file ;;
    pid <- fork ;;
    (if nz pid && (i mod 3 =? 1)%nat then link (chars "C0") file ;; ret tt
     else if (pid =? 0) && (i mod 5 =? 1)%nat then link (chars "C0") file ;; ret tt
     else
       fd <- open file RDWR_CREATE ;;
       when (fd <? 0) (sayf "concreate create %s failed" [UStr (Some file)] ;; exit) ;;
       close fd ;;
       ret tt) ;;
    if pid =? 0 then exit else wait ;; ret tt) ;;
  fd <- open (chars ".") 0 ;;
  n <- concreate_entries fuel fd ;;
  close fd ;;
  exit_if (negb (n =? 40)) "concreate not enough files in directory listing" ;;
  for_all (seq 0 40) (fun i =>
    let file := file_name 67 i in
    pid <- fork ;;
    exit_if (pid <? 0) "fork failed" ;;
    (if ((i mod 3 =? 0)%nat && (pid =? 0)) || ((i mod 3 =? 1)%nat && nz pid)
     then for_all (seq 0 4) (fun _ => close_open file 0)
     else for_all (seq 0 4) (fun _ => unlink file ;; ret tt)) ;;
    if pid =? 0 then exit else wait ;; ret tt) ;;
  say "concreate ok".

Definition linkunlink : T unit :=
  say "linkunlink test" ;;
  unlink (chars "x") ;;
  pid <- fork ;;
  exit_if (pid <? 0) "fork failed" ;;
  loop_fuel 101 (fun '(i, x) =>
    if negb (i <? 100) then ret (inr tt) else
    let x := u32 (x * 1103515245 + 12345) in
    (if x mod 3 =? 0 then close_open (chars "x") (Z.lor O_RDWR O_CREATE)
     else if x mod 3 =? 1 then link (chars "cat") (chars "x") ;; ret tt
     else unlink (chars "x") ;; ret tt) ;;
    ret (inl (i + 1, x))) (0, if nz pid then 1 else 97) ;;
  (if nz pid then wait ;; ret tt else exit) ;;
  say "linkunlink ok".

Definition bigdir_name (i : nat) : list Z := [120; 48 + Z.of_nat (i / 64); 48 + Z.of_nat (i mod 64)].

Definition bigdir : T unit :=
  say "bigdir test" ;;
  unlink (chars "bd") ;;
  fd <- open (chars "bd") O_CREATE ;;
  exit_if (fd <? 0) "bigdir create failed" ;;
  close fd ;;
  for_all (seq 0 500) (fun i =>
    r <- link (chars "bd") (bigdir_name i) ;;
    exit_if (negb (r =? 0)) "bigdir link failed") ;;
  unlink (chars "bd") ;;
  for_all (seq 0 500) (fun i =>
    r <- unlink (bigdir_name i) ;;
    when (negb (r =? 0)) (printf 1 "bigdir unlink failed" [] ;; exit)) ;;
  say "bigdir ok".

(** [subdir] from the second test of the removed file on: what must fail, and the end. *)
Definition subdir_rest : T unit :=
  r <- open (chars "dd/dd/ff") O_RDONLY ;;
  exit_if (0 <=? r) "open (unlinked) dd/dd/ff succeeded!" ;;
  r <- open (chars "dd/ff/ff") RDWR_CREATE ;;
  exit_if (0 <=? r) "create dd/ff/ff succeeded!" ;;
  r <- open (chars "dd/xx/ff") RDWR_CREATE ;;
  exit_if (0 <=? r) "create dd/xx/ff succeeded!" ;;
  r <- open (chars "dd") O_CREATE ;;
  exit_if (0 <=? r) "create dd succeeded!" ;;
  r <- open (chars "dd") O_RDWR ;;
  exit_if (0 <=? r) "open dd rdwr succeeded!" ;;
  r <- open (chars "dd") O_WRONLY ;;
  exit_if (0 <=? r) "open dd wronly succeeded!" ;;
  r <- link (chars "dd/ff/ff") (chars "dd/dd/xx") ;;
  exit_if (r =? 0) "link dd/ff/ff dd/dd/xx succeeded!" ;;
  r <- link (chars "dd/xx/ff") (chars "dd/dd/xx") ;;
  exit_if (r =? 0) "link dd/xx/ff dd/dd/xx succeeded!" ;;
  r <- link (chars "dd/ff") (chars "dd/dd/ffff") ;;
  exit_if (r =? 0) "link dd/ff dd/dd/ffff succeeded!" ;;
  r <- mkdir (chars "dd/ff/ff") ;;
  exit_if (r =? 0) "mkdir dd/ff/ff succeeded!" ;;
  r <- mkdir (chars "dd/xx/ff") ;;
  exit_if (r =? 0) "mkdir dd/xx/ff succeeded!" ;;
  r <- mkdir (chars "dd/dd/ffff") ;;
  exit_if (r =? 0) "mkdir dd/dd/ffff succeeded!" ;;
  r <- unlink (chars "dd/xx/ff") ;;
  exit_if (r =? 0) "unlink dd/xx/ff succeeded!" ;;
  r <- unlink (chars "dd/ff/ff") ;;
  exit_if (r =? 0) "unlink dd/ff/ff succeeded!" ;;
  r <- chdir (chars "dd/ff") ;;
  exit_if (r =? 0) "chdir dd/ff succeeded!" ;;
  r <- chdir (chars "dd/xx") ;;
  exit_if (r =? 0) "chdir dd/xx succeeded!" ;;
  r <- unlink (chars "dd/dd/ffff") ;;
  exit_if (negb (r =? 0)) "unlink dd/dd/ff failed" ;;
  r <- unlink (chars "dd/ff") ;;
  exit_if (negb (r =? 0)) "unlink dd/ff failed" ;;
  r <- unlink (chars "dd") ;;
  exit_if (r =? 0) "unlink non-empty dd succeeded!" ;;
  r <- unlink (chars "dd/dd") ;;
  exit_if (r <? 0) "unlink dd/dd failed" ;;
  r <- unlink (chars "dd") ;;
  exit_if (r <? 0) "unlink dd failed" ;;
  say "subdir ok".

Definition subdir : T unit :=
  say "subdir test" ;;
  unlink (chars "ff") ;;
  r <- mkdir (chars "dd") ;;
  exit_if (negb (r =? 0)) "subdir mkdir dd failed" ;;
  fd <- open (chars "dd/ff") RDWR_CREATE ;;
  exit_if (fd <? 0) "create dd/ff failed" ;;
  write fd (chars "ff") ;;
  close fd ;;
  r <- unlink (chars "dd") ;;
  exit_if (0 <=? r) "unlink dd (non-empty dir) succeeded!" ;;
  r <- mkdir (chars "/dd/dd") ;;
  exit_if (negb (r =? 0)) "subdir mkdir dd/dd failed" ;;
  fd <- open (chars "dd/dd/ff") RDWR_CREATE ;;
  exit_if (fd <? 0) "create dd/dd/ff failed" ;;
  write fd (chars "FF") ;;
  close fd ;;
  fd <- open (chars "dd/dd/../ff") 0 ;;
  exit_if (fd <? 0) "open dd/dd/../ff failed" ;;
  cc <- read_buf fd sizeof_buf ;;
  b <- get_buf ;;
  exit_if (negb (cc =? 2) || negb (nth 0 b 0 =? 102)) "dd/dd/../ff wrong content" ;;
  close fd ;;
  r <- link (chars "dd/dd/ff") (chars "dd/dd/ffff") ;;
  exit_if (negb (r =? 0)) "link dd/dd/ff dd/dd/ffff failed" ;;
  r <- unlink (chars "dd/dd/ff") ;;
  exit_if (negb (r =? 0)) "unlink dd/dd/ff failed" ;;
  r <- open (chars "dd/dd/ff") O_RDONLY ;;
  exit_if (0 <=? r) "open (unlinked) dd/dd/ff succeeded" ;;
  r <- chdir (chars "dd") ;;
  exit_if (negb (r =? 0)) "chdir dd failed" ;;
  r <- chdir (chars "dd/../../dd") ;;
  exit_if (negb (r =? 0)) "chdir dd/../../dd failed" ;;
  r <- chdir (chars "dd/../../../dd") ;;
  exit_if (negb (r =? 0)) "chdir dd/../../dd failed" ;;
  r <- chdir (chars "./..") ;;
  exit_if (negb (r =? 0)) "chdir ./.. failed" ;;
  fd <- open (chars "dd/dd/ffff") 0 ;;
  exit_if (fd <? 0) "open dd/dd/ffff failed" ;;
  r <- read_buf fd sizeof_buf ;;
  exit_if (negb (r =? 2)) "read dd/dd/ffff wrong len" ;;
  close fd ;;
  subdir_rest.

(** The sizes 499, 970, ... below twelve blocks. *)
Definition bigwrite : T unit :=
  say "bigwrite test" ;;
  unlink (chars "bigwrite") ;;
  for_all ((fun i => 499 + 471 * Z.of_nat i) <$> seq 0 12) (fun sz =>
    fd <- open (chars "bigwrite") RDWR_CREATE ;;
    exit_if (fd <? 0) "cannot create bigwrite" ;;
    for_all (seq 0 2) (fun _ =>
      cc <- write_buf fd sz ;;
      when (negb (cc =? sz)) (sayf "write(%d) ret %d" [UInt sz; UInt cc] ;; exit)) ;;
    close fd ;;
    unlink (chars "bigwrite") ;;
    ret tt) ;;
  say "bigwrite ok".

Definition bigfile (fuel : nat) : T unit :=
  say "bigfile test" ;;
  unlink (chars "bigfile") ;;
  fd <- open (chars "bigfile") RDWR_CREATE ;;
  when (fd <? 0) (printf 1 "cannot create bigfile" [] ;; exit) ;;
  for_all (seq 0 20) (fun i =>
    memset_buf (Z.of_nat i) 600 ;;
    r <- write_buf fd 600 ;;
    exit_if (negb (r =? 600)) "write bigfile failed") ;;
  close fd ;;
  fd <- open (chars "bigfile") 0 ;;
  exit_if (fd <? 0) "cannot open bigfile" ;;
  total <- loop_fuel fuel (fun '(i, total) =>
    cc <- read_buf fd 300 ;;
    exit_if (cc <? 0) "read bigfile failed" ;;
    if cc =? 0 then ret (inr total) else
    exit_if (negb (cc =? 300)) "short read bigfile" ;;
    b <- get_buf ;;
    exit_if (negb (nth 0 b 0 =? i / 2) || negb (nth 299 b 0 =? i / 2)) "read bigfile wrong data" ;;
    ret (inl (i + 1, total + cc))) (0, 0) ;;
  close fd ;;
  exit_if (negb (total =? 20 * 600)) "read bigfile wrong total" ;;
  unlink (chars "bigfile") ;;
  say "bigfile test ok".

Definition fourteen : T unit :=
  say "fourteen test" ;;
  r <- mkdir (chars "12345678901234") ;;
  exit_if (negb (r =? 0)) "mkdir 12345678901234 failed" ;;
  r <- mkdir (chars "12345678901234/123456789012345") ;;
  exit_if (negb (r =? 0)) "mkdir 12345678901234/123456789012345 failed" ;;
  fd <- open (chars "123456789012345/123456789012345/123456789012345") O_CREATE ;;
  exit_if (fd <? 0) "create 123456789012345/123456789012345/123456789012345 failed" ;;
  close fd ;;
  fd <- open (chars "12345678901234/12345678901234/12345678901234") 0 ;;
  exit_if (fd <? 0) "open 12345678901234/12345678901234/12345678901234 failed" ;;
  close fd ;;
  r <- mkdir (chars "12345678901234/12345678901234") ;;
  exit_if (r =? 0) "mkdir 12345678901234/12345678901234 succeeded!" ;;
  r <- mkdir (chars "123456789012345/12345678901234") ;;
  exit_if (r =? 0) "mkdir 12345678901234/123456789012345 succeeded!" ;;
  say "fourteen ok".

Definition rmdot : T unit :=
  say "rmdot test" ;;
  r <- mkdir (chars "dots") ;;
  exit_if (negb (r =? 0)) "mkdir dots failed" ;;
  r <- chdir (chars "dots") ;;
  exit_if (negb (r =? 0)) "chdir dots failed" ;;
  r <- unlink (chars ".") ;;
  exit_if (r =? 0) "rm . worked!" ;;
  r <- unlink (chars "..") ;;
  exit_if (r =? 0) "rm .. worked!" ;;
  r <- chdir (chars "/") ;;
  exit_if (negb (r =? 0)) "chdir / failed" ;;
  r <- unlink (chars "dots/.") ;;
  exit_if (r =? 0) "unlink dots/. worked!" ;;
  r <- unlink (chars "dots/..") ;;
  exit_if (r =? 0) "unlink dots/.. worked!" ;;
  r <- unlink (chars "dots") ;;
  exit_if (negb (r =? 0)) "unlink dots failed!" ;;
  say "rmdot ok".

Definition dirfile : T unit :=
  say "dir vs file" ;;
  fd <- open (chars "dirfile") O_CREATE ;;
  exit_if (fd <? 0) "create dirfile failed" ;;
  close fd ;;
  r <- chdir (chars "dirfile") ;;
  exit_if (r =? 0) "chdir dirfile succeeded!" ;;
  fd <- open (chars "dirfile/xx") 0 ;;
  exit_if (0 <=? fd) "create dirfile/xx succeeded!" ;;
  fd <- open (chars "dirfile/xx") O_CREATE ;;
  exit_if (0 <=? fd) "create dirfile/xx succeeded!" ;;
  r <- mkdir (chars "dirfile/xx") ;;
  exit_if (r =? 0) "mkdir dirfile/xx succeeded!" ;;
  r <- unlink (chars "dirfile/xx") ;;
  exit_if (r =? 0) "unlink dirfile/xx succeeded!" ;;
  r <- link (chars "README") (chars "dirfile/xx") ;;
  exit_if (r =? 0) "link to dirfile/xx succeeded!" ;;
  r <- unlink (chars "dirfile") ;;
  exit_if (negb (r =? 0)) "unlink dirfile failed!" ;;
  fd <- open (chars ".") O_RDWR ;;
  exit_if (0 <=? fd) "open . for writing succeeded!" ;;
  fd <- open (chars ".") 0 ;;
  r <- write fd (chars "x") ;;
  exit_if (0 <? r) "write . succeeded!" ;;
  close fd ;;
  say "dir vs file OK".

Definition iref : T unit :=
  say "empty file name" ;;
  for_all (seq 0 (50 + 1)) (fun _ =>
    r <- mkdir (chars "irefd") ;;
    exit_if (negb (r =? 0)) "mkdir irefd failed" ;;
    r <- chdir (chars "irefd") ;;
    exit_if (negb (r =? 0)) "chdir irefd failed" ;;
    mkdir [] ;;
    link (chars "README") [] ;;
    fd <- open [] O_CREATE ;;
    when (0 <=? fd) (close fd ;; ret tt) ;;
    fd <- open (chars "xx") O_CREATE ;;
    when (0 <=? fd) (close fd ;; ret tt) ;;
    unlink (chars "xx") ;;
    ret tt) ;;
  chdir (chars "/") ;;
  say "empty file name OK".

Definition forktest : T unit :=
  say "fork test" ;;
  r <- for_each (seq 0 1000) (fun n =>
    pid <- fork ;;
    if pid <? 0 then ret (Some n) else
    if pid =? 0 then exit else ret None) ;;
  let n := default 1000%nat r in
  exit_if (n =? 1000)%nat "fork claimed to work 1000 times!" ;;
  for_all (seq 0 n) (fun _ =>
    r <- wait ;;
    exit_if (r <? 0) "wait stopped early") ;;
  r <- wait ;;
  exit_if (negb (r =? -1)) "wait got too many" ;;
  say "fork test OK".

(** *** [sbrktest] and [validatetest]

    The program's loads and stores at an address, the system call of [validateint], which is
    assembly, and [link] with a bad pointer are parameters. *)

Section memory.
Context (load : Z -> T Z) (store : Z -> Z -> T unit).

Definition BIG : Z := 100 * 1024 * 1024.

(** [sbrk], which returns a pointer. *)
Definition sbrk_ptr (n : Z) : T Z :=
  r <- sbrk (s32 n) ;;
  ret (u32 r).

(** [if(bad){ printf(fmt, a, c); exit(); }] *)
Definition exit_if2 (bad : bool) (fmt : string) (a c : Z) : T unit :=
  when bad (sayf fmt [UInt a; UInt c] ;; exit).

(** The ten children that take a lot of memory: the numbers that [fork] returned. *)
Definition sbrk_children (rfd wfd : Z) : T (list Z) :=
  loop_fuel 11 (fun pids =>
    if (10 <=? length pids)%nat then ret (inr pids) else
    pid <- fork ;;
    when (pid =? 0)
      (b <- sbrk_ptr 0 ;;
       sbrk_ptr (u32 (BIG - b)) ;;
       write wfd (chars "x") ;;
       loop_sched (fun _ : unit => sleep 1000 ;; ret (inl tt)) tt) ;;
    when (negb (pid =? -1)) (read rfd 1 ;; ret tt) ;;
    ret (inl (pids ++ [pid]))) [].

Definition sbrktest : T unit :=
  say "sbrk test" ;;
  oldbrk <- sbrk_ptr 0 ;;
  a <- sbrk_ptr 0 ;;
  a <- loop_fuel 5001 (fun '(i, a) =>
    if negb (i <? 5000) then ret (inr a) else
    b <- sbrk_ptr 1 ;;
    when (negb (b =? a)) (sayf "sbrk test failed %d %x %x" [UInt i; UInt a; UInt b] ;; exit) ;;
    store b 1 ;;
    ret (inl (i + 1, u32 (b + 1)))) (0, a) ;;
  pid <- fork ;;
  exit_if (pid <? 0) "sbrk test fork failed" ;;
  sbrk_ptr 1 ;;
  c <- sbrk_ptr 1 ;;
  exit_if (negb (c =? u32 (a + 1))) "sbrk test failed post-fork" ;;
  when (pid =? 0) exit ;;
  wait ;;
  a <- sbrk_ptr 0 ;;
  p <- sbrk_ptr (u32 (BIG - a)) ;;
  exit_if (negb (p =? a)) "sbrk test failed to grow big address space; enough phys mem?" ;;
  let lastaddr := BIG - 1 in
  store lastaddr 99 ;;
  a <- sbrk_ptr 0 ;;
  c <- sbrk_ptr (-4096) ;;
  exit_if (c =? 0xffffffff) "sbrk could not deallocate" ;;
  c <- sbrk_ptr 0 ;;
  exit_if2 (negb (c =? u32 (a - 4096))) "sbrk deallocation produced wrong address, a %x c %x" a c ;;
  a <- sbrk_ptr 0 ;;
  c <- sbrk_ptr 4096 ;;
  wrong <- (if negb (c =? a) then ret true else b <- sbrk_ptr 0 ;; ret (negb (b =? u32 (a + 4096)))) ;;
  exit_if2 wrong "sbrk re-allocation failed, a %x c %x" a c ;;
  v <- load lastaddr ;;
  exit_if (v =? 99) "sbrk de-allocation didn't really deallocate" ;;
  a <- sbrk_ptr 0 ;;
  b <- sbrk_ptr 0 ;;
  c <- sbrk_ptr (- (b - oldbrk)) ;;
  exit_if2 (negb (c =? a)) "sbrk downsize failed, a %x c %x" a c ;;
  for_all (seq 0 40) (fun i =>
    let a := KERNBASE + 50000 * Z.of_nat i in
    ppid <- getpid ;;
    pid <- fork ;;
    exit_if (pid <? 0) "fork failed" ;;
    when (pid =? 0)
      (v <- load a ;;
       sayf "oops could read %x = %x" [UInt a; UInt (s8 v)] ;;
       kill ppid ;;
       exit) ;;
    wait ;;
    ret tt) ;;
  ' (rfd, wfd, r) <- pipe ;;
  exit_if (negb (r =? 0)) "pipe() failed" ;;
  pids <- sbrk_children rfd wfd ;;
  c <- sbrk_ptr 4096 ;;
  for_all pids (fun pid => if pid =? -1 then ret tt else kill pid ;; wait ;; ret tt) ;;
  exit_if (c =? 0xffffffff) "failed sbrk leaked memory" ;;
  b <- sbrk_ptr 0 ;;
  when (oldbrk <? b) (b <- sbrk_ptr 0 ;; sbrk_ptr (- (b - oldbrk)) ;; ret tt) ;;
  say "sbrk test OK".

Context (validateint : Z -> T unit) (link_ptr : list Z -> Z -> T Z).

(** The loop runs over the pages up to [hi], 1100 times 1024. *)
Definition validatetest : T unit :=
  say "validate test" ;;
  for_all (seq 0 276) (fun i =>
    let p := 4096 * Z.of_nat i in
    pid <- fork ;;
    when (pid =? 0) (validateint p ;; exit) ;;
    sleep 0 ;;
    sleep 0 ;;
    kill pid ;;
    wait ;;
    r <- link_ptr (chars "nosuchfile") p ;;
    exit_if (negb (r =? -1)) "link should not succeed") ;;
  say "validate ok".

End memory.

Definition uninit : list Z := replicate 10000 0.

Definition bsstest : T unit :=
  say "bss test" ;;
  for_all uninit (fun c => exit_if (negb (c =? 0)) "bss test failed") ;;
  say "bss test ok".

(** The argument that [bigargtest] gives MAXARG - 1 times. *)
Definition big_arg : list Z := chars "bigargs test: failed" ++ [10] ++ replicate 199 32.

Definition bigargtest : T unit :=
  unlink (chars "bigarg-ok") ;;
  pid <- fork ;;
  (if pid =? 0 then
     let args := replicate (Z.to_nat (MAXARG - 1)) big_arg in
     say "bigarg test" ;;
     exec (chars "echo") args ;;
     say "bigarg test ok" ;;
     close_open (chars "bigarg-ok") O_CREATE ;;
     exit
   else exit_if (pid <? 0) "bigargtest: fork failed") ;;
  wait ;;
  fd <- open (chars "bigarg-ok") 0 ;;
  exit_if (fd <? 0) "bigarg test failed!" ;;
  close fd ;;
  unlink (chars "bigarg-ok") ;;
  ret tt.

Definition fsfull_name (nfiles : Z) : list Z :=
  [102; u8 (48 + nfiles / 1000); u8 (48 + nfiles mod 1000 / 100); u8 (48 + nfiles mod 100 / 10); u8 (48 + nfiles mod 10)].

Definition fsfull (fuel : nat) : T unit :=
  say "fsfull test" ;;
  nfiles <- loop_fuel fuel (fun nfiles =>
    let name := fsfull_name nfiles in
    sayf "writing %s" [UStr (Some name)] ;;
    fd <- open name RDWR_CREATE ;;
    if fd <? 0 then
      sayf "open %s failed" [UStr (Some name)] ;;
      ret (inr nfiles)
    else
      total <- loop_fuel fuel (fun total =>
        cc <- write_buf fd 512 ;;
        if cc <? 512 then ret (inr total) else ret (inl (total + cc))) 0 ;;
      sayf "wrote %d bytes" [UInt total] ;;
      close fd ;;
      if total =? 0 then ret (inr nfiles) else ret (inl (nfiles + 1))) 0 ;;
  for_all (rev (seqZ 0 (nfiles + 1))) (fun n => unlink (fsfull_name n) ;; ret tt) ;;
  say "fsfull test finished".

(** [rand], with its state. *)
Definition rand (randstate : Z) : Z := u32 (randstate * 1664525 + 1013904223).

Definition counttest : T unit :=
  say "testing count" ;;
  c <- count ;;
  printf 1 "init, count = %d" [UInt c] ;;
  r <- mkdir (chars "dir0") ;;
  exit_if (r <? 0) "mkdir failed" ;;
  c <- count ;;
  printf 1 "mkdir, count = %d" [UInt c] ;;
  r <- chdir (chars "dir0") ;;
  exit_if (r <? 0) "chdir dir0 failed" ;;
  c <- count ;;
  printf 1 "chdir, count = %d" [UInt c] ;;
  r <- chdir (chars "..") ;;
  exit_if (r <? 0) "chdir .. failed" ;;
  r <- unlink (chars "dir0") ;;
  exit_if (r <? 0) "unlink dir0 failed" ;;
  say "mkdir test ok" ;;
  c <- count ;;
  printf 1 "unlink, count = %d" [UInt c] ;;
  num <- count ;;
  printf 1 "count = %d" [UInt num].

Definition main : T unit :=
  say "usertests starting" ;;
  r <- open (chars "usertests.ran") 0 ;;
  exit_if (0 <=? r) "already ran user tests -- rebuild fs.img" ;;
  close_open (chars "usertests.ran") O_CREATE ;;
  exit.

End usertests.

End Usertests.
