(* ===== verification/Grep.v ===== *)
(** grep.c: the pattern matcher and the loop over the lines.  Strings are the lists of
    their characters, without the NUL. *)

From S2P Require Import Prelude Bytes Machine Cstring Consout Fs User.
Import Cstring User.

Module Grep.

(** ** The matcher *)

(** [matchstar(c, re, text)], with [matchhere(re, _)] as its first argument. *)
Fixpoint matchstar (matchhere_re : list Z -> bool) (c : Z) (text : list Z) : bool :=
  if matchhere_re text then true else
  match text with
  | [] => false
  | x :: text' => if (x =? c) || (c =? 46) then matchstar matchhere_re c text' else false
  end.

Fixpoint matchhere (re text : list Z) : bool :=
  match re with
  | [] => true
  | c :: re1 =>
      let next :=
        match text with
        | [] => false
        | x :: text' => if (c =? 46) || (c =? x) then matchhere re1 text' else false
        end in
      match re1 with
      | [] => if c =? 36 then match text with [] => true | _ => false end else next
      | s :: re2 => if s =? 42 then matchstar (matchhere re2) c text else next
      end
  end.

(** The do-while loop of [match]. *)
Fixpoint match_from (re text : list Z) : bool :=
  if matchhere re text then true else
  match text with
  | [] => false
  | _ :: text' => match_from re text'
  end.

Definition match_ (re text : list Z) : bool :=
  match re with
  | c :: re' => if c =? 94 then matchhere re' text else match_from re text
  | [] => match_from re text
  end.

(** ** The lines *)

Section grep.
Context {S : Type} `{OS S}.

(** The loop over the complete lines of the buffer; the result is what is left
    behind the last newline. *)
Fixpoint grep_lines (n : nat) (pattern p : list Z) : M S (list Z) :=
  match n with
  | O => ret p
  | Datatypes.S n' =>
      match strchr p 10 with
      | None => ret p
      | Some q =>
          when (match_ pattern (take q p)) (write 1 (take (q + 1) p) ;; ret tt) ;;
          grep_lines n' pattern (drop (q + 1) p)
      end
  end.

(** The loop's state is the part of the buffer in use. *)
Definition grep (fuel : nat) (pattern : list Z) (fd : Z) : M S unit :=
  loop_fuel fuel (fun buf =>
    ' (b, n) <- read fd (1024 - Z.of_nat (length buf) - 1) ;;
    if negb (0 <? n) then ret (inr tt) else
    let buf := buf ++ take (Z.to_nat n) b in
    p <- grep_lines (length buf) pattern buf ;;
    ret (inl (if (length p =? length buf)%nat then [] else p))) [].

Definition grep_main (fuel : nat) (argv : list (list Z)) : M S unit :=
  match argv with
  | _ :: pattern :: files =>
      match files with
      | [] => grep fuel pattern 0 ;; exit
      | _ =>
          for_all files (fun a =>
            fd <- open a 0 ;;
            if fd <? 0 then
              printf 1 "grep: cannot open %s
" [UStr (Some a)] ;;
              exit
            else
              grep fuel pattern fd ;;
              close fd ;;
              ret tt) ;;
          exit
      end
  | _ =>
      printf 2 "usage: grep pattern [file ...]
" [] ;;
      exit
  end.

End grep.

(** ** What a pattern means *)

(** A symbol of a pattern stands for a character: a dot for any. *)
Definition sym (c x : Z) : Prop := c = 46 \/ c = x.

(** The pattern describes a prefix of the text. *)
Inductive here : list Z -> list Z -> Prop :=
| here_nil t : here [] t
| here_star c re s t : Forall (sym c) s -> here re t -> here (c :: 42 :: re) (s ++ t)
| here_end : here [36] []
| here_sym c re x t :
    head re <> Some 42 -> ~ (c = 36 /\ re = []) -> sym c x -> here re t -> here (c :: re) (x :: t).

(** The pattern describes a part of the text: its start after a [^]. *)
Definition describes (re text : list Z) : Prop :=
  if decide (head re = Some 94) then here (tail re) text
  else exists s t, text = s ++ t /\ here re t.

Lemma matchstar_spec f c text :
  matchstar f c text = true <-> exists s t, text = s ++ t /\ Forall (sym c) s /\ f t = true.
Proof.
  induction text as [|x text IH]; cbn [matchstar].
  - destruct (f []) eqn:E; split; try done.
    + intros _. by exists [], [].
    + intros (s & t & Hst & _ & Hf). symmetry in Hst. apply app_nil in Hst as [-> ->]. congruence.
  - destruct (f (x :: text)) eqn:E.
    { split; [|done]. intros _. by exists [], (x :: text). }
    destruct ((x =? c) || (c =? 46)) eqn:Es.
    + rewrite IH. split.
      * intros (s & t & -> & Hs & Hf). exists (x :: s), t. split; [done|]. split; [|done].
        constructor; [|done]. unfold sym. apply orb_true_iff in Es. bool_to_prop. destruct Es; bool_to_prop; lia.
      * intros (s & t & Hst & Hs & Hf). destruct s as [|y s]; cbn in Hst; [congruence|].
        injection Hst as <- ->. exists s, t. split; [done|]. by apply Forall_cons in Hs as [_ Hs].
    + split; [done|]. intros (s & t & Hst & Hs & Hf). destruct s as [|y s]; cbn in Hst; [congruence|].
      injection Hst as <- ->. apply Forall_cons in Hs as [Hy _]. apply orb_false_iff in Es as [? ?].
      bool_to_prop. destruct Hy; congruence.
Qed.

Lemma here_inv c re text :
  here (c :: re) text ->
  (exists re' s t, re = 42 :: re' /\ text = s ++ t /\ Forall (sym c) s /\ here re' t) \/
  (c = 36 /\ re = [] /\ text = []) \/
  (head re <> Some 42 /\ ~ (c = 36 /\ re = []) /\ exists x t, text = x :: t /\ sym c x /\ here re t).
Proof. inversion 1; subst; [left; naive_solver|naive_solver|right; right; naive_solver]. Qed.

(** A pattern that starts with a plain symbol. *)
Lemma next_spec c re text (IH : forall text, matchhere re text = true <-> here re text) :
  head re <> Some 42 -> ~ (c = 36 /\ re = []) ->
  match text with
  | [] => false
  | x :: text' => if (c =? 46) || (c =? x) then matchhere re text' else false
  end = true <-> here (c :: re) text.
Proof.
  intros H42 H36. split.
  - destruct text as [|x text]; [done|]. destruct ((c =? 46) || (c =? x)) eqn:E; [|done].
    rewrite IH. apply here_sym; [done|done|]. unfold sym. apply orb_true_iff in E as [E|E]; bool_to_prop; lia.
  - intros [(re' & s & t & -> & _)|[(-> & -> & _)|(_ & _ & x & t & -> & Hs & Ht)]]%here_inv;
      [done|by destruct H36|]. rewrite <- IH in Ht.
    assert ((c =? 46) || (c =? x) = true) as ->; [|done].
    apply orb_true_iff. destruct Hs as [->| ->]; [left; done|right; apply Z.eqb_refl].
Qed.

Lemma matchhere_spec re text : matchhere re text = true <-> here re text.
Proof.
  remember (length re) as n eqn:Hn. revert re text Hn. induction n as [n IH] using lt_wf_ind.
  intros re text Hn. destruct re as [|c [|s re]]; cbn [matchhere].
  - split; [intros _; constructor|done].
  - destruct (Z.eqb_spec c 36) as [->|Hc].
    + split; [destruct text; [intros _; constructor|done]|].
      intros [(re' & s & t & ? & _)|[(_ & _ & ->)|(_ & H & _)]]%here_inv; [done|done|tauto].
    + apply (next_spec c []); [|done|intros [? _]; done].
      intros t. split; [intros _; constructor|done].
  - destruct (Z.eqb_spec s 42) as [->|Hs].
    + rewrite matchstar_spec. split.
      * intros (s & t & -> & Hs & Ht). apply here_star; [done|]. eapply IH; [|done|done]. cbn in Hn. lia.
      * intros [(re' & s & t & [= <-] & -> & Hs & Ht)|[(_ & ? & _)|(H & _)]]%here_inv; [|done|done].
        exists s, t. split; [done|]. split; [done|]. eapply IH; [|done|done]. cbn in Hn. lia.
    + apply (next_spec c (s :: re)); [|intros [= ->]; done|intros [_ ?]; done].
      intros t. eapply IH; [|done]. cbn in *. lia.
Qed.

Lemma match_from_spec re text : match_from re text = true <-> exists s t, text = s ++ t /\ here re t.
Proof.
  induction text as [|x text IH]; cbn [match_from].
  - destruct (matchhere re []) eqn:E.
    + split; [|done]. intros _. exists [], []. split; [done|]. by apply matchhere_spec.
    + split; [done|]. intros (s & t & Hst & Ht). symmetry in Hst. apply app_nil in Hst as [-> ->].
      apply matchhere_spec in Ht. congruence.
  - destruct (matchhere re (x :: text)) eqn:E.
    + split; [|done]. intros _. exists [], (x :: text). split; [done|]. by apply matchhere_spec.
    + rewrite IH. split.
      * intros (s & t & -> & Ht). by exists (x :: s), t.
      * intros (s & t & Hst & Ht). destruct s as [|y s]; cbn in Hst.
        { subst t. apply matchhere_spec in Ht. congruence. }
        injection Hst as <- ->. by exists s, t.
Qed.

(** C32: The matcher of grep decides what its patterns mean: [match] returns 1 exactly when
    the pattern, with [.] for any character, [*] for any number of the symbol in
    front of it, [$] for the end and [^] for the start, describes a part of the
    text. *)
Theorem match_spec re text : match_ re text = true <-> describes re text.
Proof.
  unfold describes. destruct re as [|c re]; cbn [match_ head tail].
  - rewrite decide_False by done. apply match_from_spec.
  - destruct (Z.eqb_spec c 94) as [->|Hc].
    + rewrite decide_True by done. apply matchhere_spec.
    + rewrite decide_False by congruence. apply match_from_spec.
Qed.

(** [grep] loses the start of a line that comes in two pieces: when a [read] returns
    no newline, it empties the buffer.  Of the line "hello", read in pieces of
    three bytes, it sees "lo" and prints that for a pattern that only "lo"
    matches. *)
Theorem grep_loses_partial_line :
  exists s', grep 10 (chars "^lo") 0 [] (mkTape (chars "hello" ++ [10]) 2 (fun _ => [])) = Ok tt [] s' /\
    tp_out s' 1 = chars "lo" ++ [10] /\ match_ (chars "^lo") (chars "hello") = false.
Proof. eexists. split; [vm_compute; reflexivity|]. vm_compute. done. Qed.

End Grep.
