(* ===== verification/Shell.v ===== *)
(** sh.c: the shell.

    The parser works on the line it has read, the list of its characters; a
    pointer into it is an index, and the parser's state is the pointer [*ps].
    [es] is the end of the list, where the NUL is. *)

From S2P Require Import Prelude Bytes Machine Cstring Consout Fs User.
Import Cstring User.

Module Shell.

(** ** Commands *)

Definition MAXARGS : nat := 10.

(** A word of the line: where it starts and where it ends. *)
Definition word : Type := (nat * nat)%type.

Inductive cmd : Type :=
| EXEC (argv : list word)
| REDIR (c : cmd) (file : word) (mode fd : Z)
| PIPE (l r : cmd)
| LIST (l r : cmd)
| BACK (c : cmd).

(** The constructors; [malloc] is taken to succeed. *)
Definition execcmd (argv : list word) : cmd := EXEC argv.
Definition redircmd (subcmd : cmd) (file : word) (mode fd : Z) : cmd := REDIR subcmd file mode fd.
Definition pipecmd (l r : cmd) : cmd := PIPE l r.
Definition listcmd (l r : cmd) : cmd := LIST l r.
Definition backcmd (subcmd : cmd) : cmd := BACK subcmd.

(** ** Tokens *)

Definition whitespace : list Z := [32; 9; 13; 10; 11].
Definition symbols : list Z := chars "<|>&;()".

Section parser.
Context (buf : list Z).

(** [*s] *)
Definition char_at (s : nat) : Z := nth s buf 0.

(** The loop that moves [s] on, up to [es], while the character satisfies [cond]. *)
Fixpoint skip_while (cond : Z -> bool) (s : nat) (l : list Z) : nat :=
  match l with
  | [] => s
  | c :: l' => if cond c then skip_while cond (S s) l' else s
  end.

Definition is_ws (c : Z) : bool := match strchr whitespace c with Some _ => true | None => false end.
Definition is_symbol (c : Z) : bool := match strchr symbols c with Some _ => true | None => false end.

Definition skip_ws (s : nat) : nat := skip_while is_ws s (drop s buf).

(** The token's kind (0, the character of a symbol, 43 for [>>] or 97 for a
    word), and its first and last place. *)
Definition gettoken : M nat (Z * word) :=
  s <- Prelude.gets skip_ws ;;
  let q := s in
  let c := char_at s in
  let '(tok, s) :=
    if c =? 0 then (c, s)
    else if bool_decide (c ∈ chars "|();&<") then (c, S s)
    else if c =? 62 then
      if char_at (S s) =? 62 then (43, S (S s)) else (c, S s)
    else (97, skip_while (fun c => negb (is_ws c) && negb (is_symbol c)) s (drop s buf)) in
  let eq := s in
  modify (fun _ => skip_ws s) ;;
  ret (tok, (q, eq)).

Definition peek (toks : string) : M nat bool :=
  s <- Prelude.gets skip_ws ;;
  modify (fun _ => s) ;;
  let c := char_at s in
  ret (negb (c =? 0) && match strchr (chars toks) c with Some _ => true | None => false end).

(** ** The parser *)

(** [fuel] bounds the depth of the recursion and the number of iterations. *)
Definition loop_bound : nat := S (length buf).

(** The redirections, the first one first. *)
Definition parseredirs : M nat (list (word * Z * Z)) :=
  loop_fuel loop_bound (fun rs =>
    more <- peek "<>" ;;
    if negb more then ret (inr rs) else
    ' (tok, _) <- gettoken ;;
    ' (t, w) <- gettoken ;;
    if negb (t =? 97) then panic "missing file for redirection" else
    if tok =? 60 then ret (inl (rs ++ [(w, O_RDONLY, 0)]))
    else if (tok =? 62) || (tok =? 43) then ret (inl (rs ++ [(w, Z.lor O_WRONLY O_CREATE, 1)]))
    else ret (inl rs)) [].

(** [cmd = redircmd(cmd, ...)], for each of them. *)
Definition redirs (c : cmd) (rs : list (word * Z * Z)) : cmd :=
  foldl (fun c '(w, mode, fd) => redircmd c w mode fd) c rs.

(** The loop of [parseexec]: the arguments, which are added to the command that
    the redirections point to, and the redirections. *)
Definition parseargs (rs : list (word * Z * Z)) : M nat (list word * list (word * Z * Z)) :=
  loop_fuel loop_bound (fun '(argv, rs) =>
    stop <- peek "|)&;" ;;
    if stop : bool then ret (inr (argv, rs)) else
    ' (tok, w) <- gettoken ;;
    if tok =? 0 then ret (inr (argv, rs)) else
    if negb (tok =? 97) then panic "syntax" else
    let argv := argv ++ [w] in
    if (MAXARGS <=? length argv)%nat then panic "too many args" else
    rs' <- parseredirs ;;
    ret (inl (argv, rs ++ rs'))) ([], rs).

(** The four rules call one another; [line] is the call of [parseline] inside of
    a block. *)
Definition parseblock (line : M nat cmd) : M nat cmd :=
  block <- peek "(" ;;
  if negb block then panic "parseblock" else
  gettoken ;;
  c <- line ;;
  close <- peek ")" ;;
  if negb close then panic "syntax - missing )" else
  gettoken ;;
  rs <- parseredirs ;;
  ret (redirs c rs).

Definition parseexec (line : M nat cmd) : M nat cmd :=
  block <- peek "(" ;;
  if block : bool then parseblock line else
  rs <- parseredirs ;;
  ' (argv, rs) <- parseargs rs ;;
  ret (redirs (execcmd argv) rs).

Fixpoint parsepipe (line : M nat cmd) (fuel : nat) : M nat cmd :=
  match fuel with
  | O => hang
  | S fuel =>
      c <- parseexec line ;;
      bar <- peek "|" ;;
      if bar : bool then
        gettoken ;;
        r <- parsepipe line fuel ;;
        ret (pipecmd c r)
      else ret c
  end.

Fixpoint parseline (fuel : nat) : M nat cmd :=
  match fuel with
  | O => hang
  | S fuel =>
      c <- parsepipe (parseline fuel) fuel ;;
      c <- loop_fuel loop_bound (fun c =>
        back <- peek "&" ;;
        if back : bool then gettoken ;; ret (inl (backcmd c)) else ret (inr c)) c ;;
      list <- peek ";" ;;
      if list : bool then
        gettoken ;;
        r <- parseline fuel ;;
        ret (listcmd c r)
      else ret c
  end.

(** The depth that is always enough. *)
Definition depth : nat := (length buf + 2)%nat.

End parser.

(** [*eargv[i] = 0;]; the NUL behind the line is there already. *)
Definition nul_at (buf : list Z) (w : word) : list Z := <[w.2 := 0]> buf.

(** The line after [nulterminate]. *)
Fixpoint nulterminate (c : cmd) (buf : list Z) : list Z :=
  match c with
  | EXEC argv => foldl nul_at buf argv
  | REDIR c file _ _ => nul_at (nulterminate c buf) file
  | PIPE l r | LIST l r => nulterminate r (nulterminate l buf)
  | BACK c => nulterminate c buf
  end.

(** The string a word points to. *)
Definition string_at (buf : list Z) (w : word) : list Z := cstr (drop w.1 buf).

Section shell.
Context {S : Type} `{OS S}.

Definition sh_panic {A} (s : string) : M S A :=
  printf 2 "%s
" [UStr (Some (chars s))] ;;
  exit.

Definition fork1 : M S Z :=
  pid <- fork ;;
  if pid =? -1 then sh_panic "fork" else ret pid.

(** The command and the line it points into. *)
Definition parsecmd (s : list Z) : M S (cmd * list Z) :=
  let s := cstr s in
  match (c <- parseline s (depth s) ;; peek s "" ;; ret c) [] 0%nat with
  | Ok c _ p =>
      if negb (p =? length s)%nat then
        printf 2 "leftovers: %s
" [UStr (Some (drop p s))] ;;
        sh_panic "syntax"
      else ret (c, nulterminate c s)
  | Panic msg _ => sh_panic msg
  | Hang _ => hang
  end.

(** It never returns. *)
Fixpoint runcmd (buf : list Z) (c : cmd) : M S unit :=
  match c with
  | EXEC argv =>
      match argv with
      | [] => exit
      | w :: _ =>
          exec (string_at buf w) (string_at buf <$> argv) ;;
          printf 2 "exec %s failed
" [UStr (Some (string_at buf w))] ;;
          exit
      end
  | REDIR c file mode fd =>
      close fd ;;
      r <- open (string_at buf file) mode ;;
      if r <? 0 then
        printf 2 "open %s failed
" [UStr (Some (string_at buf file))] ;;
        exit
      else
        runcmd buf c ;;
        exit
  | LIST lc rc =>
      pid <- fork1 ;;
      when (pid =? 0) (runcmd buf lc) ;;
      wait ;;
      runcmd buf rc ;;
      exit
  | PIPE lc rc =>
      ' (p0, p1, r) <- pipe ;;
      if r <? 0 then sh_panic "pipe" else
      pid <- fork1 ;;
      when (pid =? 0)
        (close 1 ;; dup p1 ;; close p0 ;; close p1 ;;
         runcmd buf lc) ;;
      pid <- fork1 ;;
      when (pid =? 0)
        (close 0 ;; dup p0 ;; close p0 ;; close p1 ;;
         runcmd buf rc) ;;
      close p0 ;;
      close p1 ;;
      wait ;;
      wait ;;
      exit
  | BACK c =>
      pid <- fork1 ;;
      when (pid =? 0) (runcmd buf c) ;;
      exit
  end.

(** [None] is the result -1. *)
Definition getcmd (nbuf : Z) : M S (option (list Z)) :=
  printf 2 "$ " [] ;;
  buf <- gets nbuf ;;
  if hd 0 buf =? 0 then ret None else ret (Some buf).

Definition sh_main (fuel : nat) : M S unit :=
  loop_fuel fuel (fun _ : unit =>
    fd <- open (chars "console") O_RDWR ;;
    if negb (0 <=? fd) then ret (inr tt) else
    if 3 <=? fd then close fd ;; ret (inr tt) else ret (inl tt)) tt ;;
  loop_fuel fuel (fun _ : unit =>
    r <- getcmd 100 ;;
    match r with
    | None => ret (inr tt)
    | Some buf =>
        if bool_decide (take 3 buf = chars "cd ") then
          let buf := take (length (cstr buf) - 1) (cstr buf) in
          r <- chdir (drop 3 buf) ;;
          when (r <? 0)
            (printf 2 "cannot cd %s
" [UStr (Some (drop 3 buf))]) ;;
          ret (inl tt)
        else
          pid <- fork1 ;;
          when (pid =? 0)
            (' (c, buf) <- parsecmd buf ;;
             runcmd buf c) ;;
          wait ;;
          ret (inl tt)
    end) tt ;;
  exit.

End shell.

(** ** The parser is right *)

Definition plain (c : Z) : bool := negb (is_ws c) && negb (is_symbol c).

Section correct.
Context (buf : list Z) (buf_ok : Forall (fun c => c <> 0) buf).

Notation len := (length buf).

(** The word is a longest run of plain characters. *)
Definition word_ok (w : word) : Prop :=
  (w.1 < w.2 <= len)%nat /\
  (forall i, (w.1 <= i < w.2)%nat -> plain (char_at buf i) = true) /\
  (w.2 = len \/ plain (char_at buf w.2) = false).

Fixpoint cmd_ok (c : cmd) : Prop :=
  match c with
  | EXEC argv => Forall word_ok argv
  | REDIR c file _ _ => cmd_ok c /\ word_ok file
  | PIPE l r | LIST l r => cmd_ok l /\ cmd_ok r
  | BACK c => cmd_ok c
  end.

(** From position [s], [m] panics or returns with [Q]. *)
Definition fine {A} (m : M nat A) (s : nat) (Q : A -> nat -> Prop) : Prop :=
  forall e, match m e s with
  | Ok a _ s' => Q a s'
  | Panic _ _ => True
  | Hang _ => False
  end.

Lemma fine_ret {A} (a : A) s (Q : A -> nat -> Prop) : Q a s -> fine (ret a) s Q.
Proof. by intros H e. Qed.
Lemma fine_panic {A} msg s (Q : A -> nat -> Prop) : fine (panic msg) s Q.
Proof. by intros e. Qed.
Lemma fine_bind {A B} (m : M nat A) (f : A -> M nat B) s Q :
  fine m s (fun a s' => fine (f a) s' Q) -> fine (bind m f) s Q.
Proof. intros H e. specialize (H e). unfold bind. destruct (m e s); [apply H|done|done]. Qed.
Lemma fine_mono {A} (m : M nat A) s (Q Q' : A -> nat -> Prop) :
  fine m s Q -> (forall a s', Q a s' -> Q' a s') -> fine m s Q'.
Proof. intros H HQ e. specialize (H e). destruct (m e s); auto. Qed.

(** A loop that moves on in every iteration. *)
Lemma fine_loop {A R} (body : A -> M nat (A + R)) (I : A -> nat -> Prop) (Q : R -> nat -> Prop) fuel a s :
  (len - s < fuel)%nat -> I a s ->
  (forall a s, I a s -> fine (body a) s (fun r s' =>
     match r with
     | inl a' => I a' s' /\ (s < s' <= len)%nat
     | inr x => Q x s'
     end)) ->
  fine (loop_fuel fuel body a) s Q.
Proof.
  intros Hf HI Hbody. revert a s Hf HI. induction fuel as [|fuel IH]; intros a s Hf HI; [lia|].
  cbn [loop_fuel]. apply fine_bind. eapply fine_mono; [by apply Hbody|].
  intros [a'|x] s' H; [|by apply fine_ret]. destruct H as [HI' Hs']. apply IH; [lia|done].
Qed.

Lemma skip_while_spec cond s l :
  exists n, skip_while cond s l = (s + n)%nat /\ (n <= length l)%nat /\
    (forall i c, (i < n)%nat -> l !! i = Some c -> cond c = true) /\ (forall c, l !! n = Some c -> cond c = false).
Proof.
  revert s. induction l as [|c l IH]; intros s; cbn [skip_while].
  - exists 0%nat. split_and!; [lia|cbn; lia|lia|done].
  - destruct (cond c) eqn:Ec.
    + destruct (IH (S s)) as (n & E & Hn & H1 & H2). exists (S n). split_and!; [lia|cbn; lia| |done].
      intros [|i] c' Hi Hc'; [by injection Hc' as <-|]. eapply H1; [|exact Hc']. lia.
    + exists 0%nat. split_and!; [lia|cbn; lia|lia|]. intros c' [= <-]. done.
Qed.

Lemma char_at_lookup i : (i < len)%nat -> exists c, buf !! i = Some c /\ char_at buf i = c /\ c <> 0.
Proof.
  intros Hi. destruct (lookup_lt_is_Some_2 _ _ Hi) as [c Hc]. exists c. split; [done|].
  unfold char_at. rewrite nth_lookup, Hc. split; [done|]. rewrite Forall_lookup in buf_ok. by eapply buf_ok.
Qed.

Lemma char_at_end : char_at buf len = 0.
Proof. unfold char_at. apply nth_overflow. lia. Qed.

(** The loop from [s] on stops between [s] and the end. *)
Lemma skip_spec cond s :
  (s <= len)%nat ->
  let s' := skip_while cond s (drop s buf) in
  (s <= s' <= len)%nat /\ (forall i, (s <= i < s')%nat -> cond (char_at buf i) = true) /\
  (s' = len \/ cond (char_at buf s') = false).
Proof.
  intros Hs. destruct (skip_while_spec cond s (drop s buf)) as (n & -> & Hn & H1 & H2).
  rewrite length_drop in Hn. cbn. split; [lia|]. split.
  - intros i Hi. destruct (char_at_lookup i) as (c & Hc & -> & _); [lia|].
    apply (H1 (i - s)%nat); [lia|]. rewrite lookup_drop. by replace (s + (i - s))%nat with i by lia.
  - destruct (decide (s + n = len)%nat) as [|Hne]; [by left|right].
    destruct (char_at_lookup (s + n)) as (c & Hc & -> & _); [lia|]. apply H2. by rewrite lookup_drop.
Qed.

Lemma skip_ws_spec s : (s <= len)%nat -> (s <= skip_ws buf s <= len)%nat.
Proof. intros Hs. by apply (skip_spec is_ws s Hs). Qed.

Lemma strchr_elem l c : is_Some (strchr l c) -> c ∈ l.
Proof.
  induction l as [|x l IH]; cbn [strchr]; [by intros []|].
  destruct (x =? 0); [by intros []|]. destruct (Z.eqb_spec x c) as [->|]; [intros _; by left|].
  intros [i Hi]. right. apply IH. destruct (strchr l c); [done|discriminate].
Qed.

Lemma is_symbol_cases c : is_symbol c = true -> c ∈ chars "|();&<" \/ c = 62.
Proof.
  unfold is_symbol. destruct (strchr symbols c) as [i|] eqn:E; [|done]. intros _.
  assert (c ∈ symbols) as Hc by (apply strchr_elem; by rewrite E).
  assert (Forall (fun c => c ∈ chars "|();&<" \/ c = 62) symbols) as HF
    by (apply (bool_decide_unpack _); vm_compute; exact I).
  rewrite Forall_forall in HF. by apply HF.
Qed.

Lemma peek_ok toks s Q :
  (s <= len)%nat ->
  (forall b s', (s <= s' <= len)%nat -> (b = true -> (s' < len)%nat) -> Q b s') ->
  fine (peek buf toks) s Q.
Proof.
  intros Hs HQ e. unfold peek, bind, Prelude.gets, modify, ret. pose proof (skip_ws_spec s Hs).
  apply HQ; [done|]. intros Hb. apply andb_true_iff in Hb as [Hb _]. bool_to_prop.
  destruct (decide (skip_ws buf s = len)) as [He|]; [|lia]. rewrite He, char_at_end in Hb. done.
Qed.

Lemma gettoken_ok s Q :
  (s <= len)%nat ->
  (forall tok w s', (s <= s' <= len)%nat -> ((s < len)%nat -> (s < s')%nat) -> (s = len -> tok = 0) ->
     (tok = 97 -> word_ok w) -> Q (tok, w) s') ->
  fine (gettoken buf) s Q.
Proof.
  intros Hs HQ e. unfold gettoken, bind, Prelude.gets, modify, ret. pose proof (skip_ws_spec s Hs) as Hq.
  set (q := skip_ws buf s) in *.
  assert (s = len -> char_at buf q = 0) as Hend
    by (intros He; replace q with len by lia; apply char_at_end).
  assert (forall tok s1, (q <= s1 <= len)%nat -> ((q < len)%nat -> (q < s1)%nat) -> (s = len -> tok = 0) ->
    (tok = 97 -> word_ok (q, s1)) -> Q (tok, (q, s1)) (skip_ws buf s1)) as Hgo.
  { intros tok s1 H1 H2 H3 H4. pose proof (skip_ws_spec s1 ltac:(lia)).
    apply HQ; [lia| |done|done]. destruct (decide (q < len)%nat); lia. }
  destruct (Z.eqb_spec (char_at buf q) 0) as [H0|H0].
  { apply Hgo; [lia| |done|intros H'; rewrite H0 in H'; done].
    intros Hlt. destruct (char_at_lookup q Hlt) as (c & _ & Hc & Hc0). congruence. }
  assert (q < len)%nat as Hlt.
  { destruct (decide (q = len)) as [->|]; [|lia]. by rewrite char_at_end in H0. }
  assert (s <> len) as Hne by (intros He; by apply H0, Hend).
  case_bool_decide as Hsym.
  { apply Hgo; [lia|lia|done|]. intros H97. rewrite H97 in Hsym.
    assert (97 ∉ chars "|();&<") as Hno by (apply (bool_decide_unpack _); vm_compute; exact I). done. }
  destruct (Z.eqb_spec (char_at buf q) 62) as [H62|H62].
  { destruct (Z.eqb_spec (char_at buf (S q)) 62) as [H62'|H62'].
    - destruct (decide (S q = len)) as [He|]; [rewrite He, char_at_end in H62'; done|].
      apply Hgo; [lia|lia|done|done].
    - apply Hgo; [lia|lia|done|congruence]. }
  destruct (skip_spec (fun c => negb (is_ws c) && negb (is_symbol c)) q) as (Hr & Hpl & Hstop); [lia|].
  set (s1 := skip_while _ q _) in *.
  assert (plain (char_at buf q) = true) as Hplain.
  { unfold plain. destruct (skip_spec is_ws s Hs) as (_ & _ & [He|Hws]).
    { change (q = len) in He. lia. }
    change (is_ws (char_at buf q) = false) in Hws. rewrite Hws. destruct (is_symbol (char_at buf q)) eqn:Es; [|done].
    apply is_symbol_cases in Es as [Es|Es]; done. }
  assert (q < s1)%nat as Hlt1.
  { destruct (decide (q = s1)) as [He|]; [|lia]. rewrite <- He in Hstop. destruct Hstop as [|Hstop]; [lia|].
    unfold plain in Hplain. congruence. }
  apply Hgo; [lia|done|done|]. intros _. split; [cbn; lia|]. by split.
Qed.

(** ** The rules of the grammar *)

Lemma parseredirs_ok s Q :
  (s <= len)%nat ->
  (forall rs s', (s <= s' <= len)%nat -> Forall (fun r => word_ok r.1.1) rs -> Q rs s') ->
  fine (parseredirs buf) s Q.
Proof.
  intros Hs HQ.
  apply (fine_loop _ (fun rs s' => (s <= s' <= len)%nat /\ Forall (fun r => word_ok r.1.1) rs));
    [unfold loop_bound; lia|split; [lia|constructor]|].
  intros rs s1 [Hs1 Hrs]. apply fine_bind, peek_ok; [lia|]. intros b s2 Hs2 Hb.
  destruct b; cbn [negb]; [|apply fine_ret, HQ; [lia|done]]. specialize (Hb eq_refl).
  apply fine_bind, gettoken_ok; [lia|]. intros tok w0 s3 Hs3 Hp3 _ _. specialize (Hp3 Hb).
  apply fine_bind, gettoken_ok; [lia|]. intros t w s4 Hs4 _ _ Hw.
  destruct (Z.eqb_spec t 97) as [->|]; cbn [negb]; [|apply fine_panic]. specialize (Hw eq_refl).
  destruct (tok =? 60); [|destruct (_ || _)]; apply fine_ret; (split; [split; [lia|]|lia]);
    rewrite ?Forall_app, ?Forall_singleton; done.
Qed.

Lemma redirs_ok c rs : cmd_ok c -> Forall (fun r => word_ok r.1.1) rs -> cmd_ok (redirs c rs).
Proof.
  intros Hc Hrs. unfold redirs. revert c Hc. induction Hrs as [|[[w mode] fd] rs Hw Hrs IH]; intros c Hc; [done|].
  cbn [foldl]. apply IH. done.
Qed.

Lemma parseargs_ok rs s Q :
  (s <= len)%nat -> Forall (fun r => word_ok r.1.1) rs ->
  (forall argv rs s', (s <= s' <= len)%nat -> Forall word_ok argv -> Forall (fun r => word_ok r.1.1) rs ->
     Q (argv, rs) s') ->
  fine (parseargs buf rs) s Q.
Proof.
  intros Hs Hrs HQ.
  apply (fine_loop _ (fun '(argv, rs) s' => (s <= s' <= len)%nat /\ Forall word_ok argv /\
    Forall (fun r => word_ok r.1.1) rs)); [unfold loop_bound; lia|by split_and!; [lia|lia|constructor|]|].
  intros [argv rs1] s1 (Hs1 & Hargv & Hrs1). apply fine_bind, peek_ok; [lia|]. intros b s2 Hs2 _.
  destruct b; [apply fine_ret, HQ; [lia|done|done]|].
  apply fine_bind, gettoken_ok; [lia|]. intros tok w s3 Hs3 Hp3 Hend Hw.
  destruct (Z.eqb_spec tok 0) as [->|H0]; [apply fine_ret, HQ; [lia|done|done]|].
  assert (s2 < s3)%nat as Hlt by (apply Hp3; destruct (decide (s2 = len)); [by destruct (H0 (Hend e))|lia]).
  destruct (Z.eqb_spec tok 97) as [->|]; cbn [negb]; [|apply fine_panic]. specialize (Hw eq_refl).
  destruct (_ <=? _)%nat; [apply fine_panic|].
  apply fine_bind, parseredirs_ok; [lia|]. intros rs' s4 Hs4 Hrs'. apply fine_ret.
  split; [|lia]. split; [lia|]. rewrite !Forall_app, Forall_singleton. done.
Qed.

Definition parses (m : M nat cmd) (s : nat) : Prop :=
  fine m s (fun c s' => (s <= s' <= len)%nat /\ cmd_ok c).

Lemma parseblock_ok line s :
  (s < len)%nat -> (forall s', (s < s' <= len)%nat -> parses line s') -> parses (parseblock buf line) s.
Proof.
  intros Hlt Hline. apply fine_bind, peek_ok; [lia|]. intros b s1 Hs1 Hb.
  destruct b; cbn [negb]; [|apply fine_panic]. specialize (Hb eq_refl).
  apply fine_bind, gettoken_ok; [lia|]. intros tok w s2 Hs2 Hp2 _ _. specialize (Hp2 Hb).
  apply fine_bind. eapply fine_mono; [apply Hline; lia|]. intros c s3 [Hs3 Hc].
  apply fine_bind, peek_ok; [lia|]. intros b s4 Hs4 Hb4. destruct b; cbn [negb]; [|apply fine_panic].
  apply fine_bind, gettoken_ok; [lia|]. intros tok' w' s5 Hs5 _ _ _.
  apply fine_bind, parseredirs_ok; [lia|]. intros rs s6 Hs6 Hrs.
  apply fine_ret. split; [lia|by apply redirs_ok].
Qed.

Lemma parseexec_ok line s :
  (s <= len)%nat -> (forall s', (s < s' <= len)%nat -> parses line s') -> parses (parseexec buf line) s.
Proof.
  intros Hs Hline. apply fine_bind, peek_ok; [lia|]. intros b s1 Hs1 Hb. destruct b.
  - specialize (Hb eq_refl). eapply fine_mono; [apply parseblock_ok; [lia|intros; apply Hline; lia]|].
    intros c s2 [Hs2 Hc]. split; [lia|done].
  - apply fine_bind, parseredirs_ok; [lia|]. intros rs s2 Hs2 Hrs.
    apply fine_bind, parseargs_ok; [lia|done|]. intros argv rs1 s3 Hs3 Hargv Hrs1.
    apply fine_ret. split; [lia|by apply redirs_ok].
Qed.

Lemma parsepipe_ok line n s :
  (s <= len)%nat -> (len - s < n)%nat -> (forall s', (s < s' <= len)%nat -> parses line s') ->
  parses (parsepipe buf line n) s.
Proof.
  revert s. induction n as [|n IH]; intros s Hs Hn Hline; [lia|]. cbn [parsepipe].
  apply fine_bind. eapply fine_mono; [by apply parseexec_ok|].
  intros c s1 [Hs1 Hc]. apply fine_bind, peek_ok; [lia|]. intros b s2 Hs2 Hb. destruct b; [|by apply fine_ret; split; [lia|]].
  specialize (Hb eq_refl). apply fine_bind, gettoken_ok; [lia|]. intros tok w s3 Hs3 Hp3 _ _. specialize (Hp3 Hb).
  apply fine_bind. eapply fine_mono; [apply IH; [lia|lia|intros; apply Hline; lia]|].
  intros c2 s4 [Hs4 Hc2]. apply fine_ret. split; [lia|done].
Qed.

(** Enough depth for what is left of the line. *)
Lemma parseline_ok n s : (s <= len)%nat -> (len - s + 2 <= n)%nat -> parses (parseline buf n) s.
Proof.
  revert s. induction n as [|n IH]; intros s Hs Hn; [lia|]. cbn [parseline].
  apply fine_bind. eapply fine_mono; [apply parsepipe_ok; [done|lia|intros; apply IH; lia]|].
  intros c s1 [Hs1 Hc]. apply fine_bind.
  apply (fine_loop _ (fun c s' => (s <= s' <= len)%nat /\ cmd_ok c)); [unfold loop_bound; lia|done|].
  intros c1 s2 [Hs2 Hc1]. apply fine_bind, peek_ok; [lia|]. intros b s3 Hs3 Hb. destruct b.
  - specialize (Hb eq_refl). apply fine_bind, gettoken_ok; [lia|]. intros tok w s4 Hs4 Hp4 _ _.
    specialize (Hp4 Hb). apply fine_ret. split; [split; [lia|done]|lia].
  - apply fine_ret. apply fine_bind, peek_ok; [lia|]. intros b s4 Hs4 Hb4. destruct b; [|by apply fine_ret; split; [lia|]].
    specialize (Hb4 eq_refl). apply fine_bind, gettoken_ok; [lia|]. intros tok w s5 Hs5 Hp5 _ _.
    specialize (Hp5 Hb4). apply fine_bind. eapply fine_mono; [apply IH; lia|].
    intros c2 s6 [Hs6 Hc2]. apply fine_ret. split; [lia|done].
Qed.

End correct.

(** ** The words of a command *)

Fixpoint words_of (c : cmd) : list word :=
  match c with
  | EXEC argv => argv
  | REDIR c file _ _ => words_of c ++ [file]
  | PIPE l r | LIST l r => words_of l ++ words_of r
  | BACK c => words_of c
  end.

Lemma cmd_ok_words buf c : cmd_ok buf c -> Forall (word_ok buf) (words_of c).
Proof.
  induction c; cbn; rewrite ?Forall_app, ?Forall_singleton; tauto.
Qed.

Lemma nulterminate_words c buf : nulterminate c buf = foldl nul_at buf (words_of c).
Proof.
  revert buf. induction c as [argv|c IH w mode fd|l IHl r IHr|l IHl r IHr|c IH]; intros buf; cbn [nulterminate words_of].
  - done.
  - by rewrite foldl_app, IH.
  - by rewrite foldl_app, IHl, IHr.
  - by rewrite foldl_app, IHl, IHr.
  - apply IH.
Qed.

(** The characters that are no word's end stay, the ends become NULs. *)
Lemma nul_at_all ws buf :
  length (foldl nul_at buf ws) = length buf /\
  (forall i, i ∉ ws.*2 -> foldl nul_at buf ws !! i = buf !! i) /\
  (forall i, i ∈ ws.*2 -> (i < length buf)%nat -> foldl nul_at buf ws !! i = Some 0).
Proof.
  revert buf. induction ws as [|w ws IH]; intros buf; cbn [foldl fmap list_fmap].
  { split_and!; [done|done|by intros i ?%elem_of_nil]. }
  assert (length (nul_at buf w) = length buf) as Hn by apply length_insert.
  destruct (IH (nul_at buf w)) as (Hl & Hk & Hz). split_and!; [congruence|..].
  - intros i [Hne Hi]%not_elem_of_cons. rewrite Hk by done. by apply list_lookup_insert_ne.
  - intros i Hi Hlt. destruct (decide (i ∈ ws.*2)) as [Hin|Hin].
    { apply Hz; [done|]. by rewrite Hn. }
    apply elem_of_cons in Hi as [->|]; [|done]. rewrite Hk by done. by apply list_lookup_insert_eq.
Qed.

Lemma cstr_prefix l n :
  (n <= length l)%nat -> (forall i c, (i < n)%nat -> l !! i = Some c -> c <> 0) ->
  (forall c, l !! n = Some c -> c = 0) -> cstr l = take n l.
Proof.
  revert n. induction l as [|c l IH]; intros n Hn Hnz Hz; [by destruct n|].
  rewrite cstr_cons. destruct n as [|n].
  - by rewrite (Hz c eq_refl).
  - rewrite (proj2 (Z.eqb_neq _ _)) by (apply (Hnz 0%nat); [lia|done]). rewrite firstn_cons. f_equal.
    apply IH; [cbn in Hn; lia| |done]. intros i c' Hi. apply (Hnz (S i)). lia.
Qed.

Lemma word_string buf c w :
  Forall (fun c => c <> 0) buf -> cmd_ok buf c -> w ∈ words_of c ->
  string_at (nulterminate c buf) w = slice w.1 (w.2 - w.1) buf.
Proof.
  intros Hb Hc Hw. rewrite nulterminate_words. destruct (nul_at_all (words_of c) buf) as (Hl & Hk & Hz).
  pose proof (cmd_ok_words _ _ Hc) as Hok. rewrite Forall_forall in Hok.
  destruct (Hok w Hw) as (Hr & Hpl & _).
  assert (forall i, (w.1 <= i < w.2)%nat -> foldl nul_at buf (words_of c) !! i = buf !! i) as Hkeep.
  { intros i Hi. apply Hk. intros (w' & -> & Hw')%list_elem_of_fmap.
    destruct (Hok w' Hw') as (_ & _ & [He|He]); [lia|]. rewrite Hpl in He by done. done. }
  unfold string_at, slice. rewrite (cstr_prefix _ (w.2 - w.1)).
  - apply list_eq. intros i. destruct (decide (i < w.2 - w.1)%nat).
    + rewrite !lookup_take_lt, !lookup_drop by done. apply Hkeep. lia.
    + by rewrite !lookup_take_ge by lia.
  - rewrite length_drop. lia.
  - intros i x Hi. rewrite lookup_drop, Hkeep by lia. rewrite Forall_lookup in Hb. apply Hb.
  - intros x. rewrite lookup_drop. replace (w.1 + (w.2 - w.1))%nat with w.2 by lia. intros Hx.
    rewrite Hz in Hx; [congruence| |].
    + apply list_elem_of_fmap. by exists w.
    + rewrite <- Hl. by eapply lookup_lt_Some.
Qed.

(** C31: The shell understands every line: its parser returns for each of them (its recursion
    and its loops end), and either it ends the process with a message, or all
    that is left is a command; every word of the command is a longest run of
    plain characters of the line, and after [nulterminate] has overwritten the
    ends of the words, each argument and file name is exactly that word. *)
Theorem parsecmd_words {S} `{Streams S} (line : list Z) e (s : S) :
  (exists c buf, parsecmd line e s = Ok (c, buf) e s /\
     Forall (fun w => word_ok (cstr line) w /\ string_at buf w = slice w.1 (w.2 - w.1) (cstr line)) (words_of c)) \/
  (exists s', parsecmd line e s = Panic "exit" s').
Proof.
  assert (forall msg e (s : S), exists s', @sh_panic S _ (cmd * list Z) msg e s = Panic "exit" s') as Hpanic.
  { intros msg e1 s1. unfold sh_panic. destruct (writes_printf 2 "%s
" [UStr (Some (chars msg))] e1 s1) as (s' & E & _). exists s'. unfold bind. by rewrite E. }
  unfold parsecmd. cbv zeta. set (l := cstr line).
  assert (Forall (fun c => c <> 0) l) as Hl by apply cstr_no_nul.
  assert (fine (c <- parseline l (depth l) ;; peek l "" ;; ret c) 0 (fun c _ => cmd_ok l c)) as Hp.
  { apply fine_bind. eapply fine_mono; [apply (parseline_ok l Hl (depth l) 0); unfold depth; lia|].
    intros c p [Hp Hc]. apply fine_bind, peek_ok; [done|lia|]. intros _ p' _ _. by apply fine_ret. }
  specialize (Hp []). destruct ((c <- parseline l (depth l) ;; peek l "" ;; ret c) [] 0%nat) as [c e1 p|msg p|p];
    [|right; apply Hpanic|done].
  destruct (p =? length l)%nat; cbn [negb].
  - left. exists c, (nulterminate c l). split; [done|]. apply Forall_forall. intros w Hw. split.
    + pose proof (cmd_ok_words _ _ Hp) as Hok. rewrite Forall_forall in Hok. by apply Hok.
    + by apply word_string.
  - right. destruct (writes_printf 2 "leftovers: %s
" [UStr (Some (drop p l))] e s) as (s1 & E1 & _).
    unfold bind. rewrite E1. apply Hpanic.
Qed.

(** ** An example *)

(** The line "ls>f|wc" and its words. *)
Example parse_example :
  exists buf, parsecmd (chars "ls >f|wc
") [] (mkTape [] 0 (fun _ => [])) =
    Ok (PIPE (REDIR (EXEC [(0, 2)]%nat) (4, 5)%nat (Z.lor O_WRONLY O_CREATE) 1) (EXEC [(6, 8)]%nat), buf)
      [] (mkTape [] 0 (fun _ => [])).
Proof. eexists. vm_compute. reflexivity. Qed.

Lemma parsecmd_words_witness :
  let line := chars "ls >f|wc
" in
  (exists c buf, parsecmd line [] (mkTape [] 0 (fun _ => [])) = Ok (c, buf) [] (mkTape [] 0 (fun _ => [])) /\
     Forall (fun w => word_ok (cstr line) w /\ string_at buf w = slice w.1 (w.2 - w.1) (cstr line)) (words_of c)) \/
  (exists s', parsecmd line [] (mkTape [] 0 (fun _ => [])) = Panic "exit" s').
Proof. intros line. exact (parsecmd_words line [] (mkTape [] 0 (fun _ => []))). Defined.

End Shell.
