(* ===== verification/Mkfs.v ===== *)
(** mkfs.c: the program that makes the file system's image.

    It runs on the host; the state is the image file, sector by sector, and the
    two counters.  The calls of the host's library on the image succeed, except
    that reading a sector that was never written fails.  An input file is a
    name and the pieces that [read] returns.  A [struct dinode] is an [inode]
    of which only the fields that are on the disk are used. *)

From S2P Require Import Prelude Bytes Machine Demo Cstring Spinlock Consout Sleep Disk Bio Log Fs.
Import Cstring Log Fs.

Module Mkfs.

Definition NINODES : Z := 200.
Definition nbitmap : Z := FSSIZE / (BSIZE * 8) + 1.
Definition ninodeblocks : Z := NINODES / IPB + 1.
Definition nlog : Z := LOGSIZE.
Definition nmeta : Z := 2 + nlog + ninodeblocks + nbitmap.
Definition nblocks : Z := FSSIZE - nmeta.

(** The number whose bytes in memory are those of [x] in Intel order. *)
Definition xshort (x : Z) : Z := le_val (le_bytes 2 x).
Definition xint (x : Z) : Z := le_val (le_bytes 4 x).

Definition sb : superblock :=
  mkSuperblock (xint FSSIZE) (xint nblocks) (xint NINODES) (xint nlog) (xint 2) (xint (2 + nlog))
    (xint (2 + nlog + ninodeblocks)).

(** The bytes of [sb]. *)
Definition sb_bytes : list Z :=
  concat (le_bytes 4 <$> [sb_size sb; sb_nblocks sb; sb_ninodes sb; sb_nlog sb; sb_logstart sb;
                          sb_inodestart sb; sb_bmapstart sb]).

Record image : Type := mkImage {
  im_sect : gmap Z (list Z);
  im_freeinode : Z;
  im_freeblock : Z
}.

Definition I (A : Type) : Type := M image A.

Definition zeroes : list Z := replicate (Z.to_nat BSIZE) 0.

Definition wsect (sec : Z) (buf : list Z) : I unit :=
  modify (fun im => mkImage (<[sec := buf]> (im_sect im)) (im_freeinode im) (im_freeblock im)).

Definition rsect (sec : Z) : I (list Z) :=
  r <- gets (fun im => im_sect im !! sec) ;;
  match r with
  | Some buf => ret buf
  | None => panic "read"
  end.

Definition winode (inum : Z) (ip : inode) : I unit :=
  let bn := IBLOCK inum sb in
  buf <- rsect bn ;;
  wsect bn (splice (di_off inum) (dinode_bytes ip) buf).

Definition rinode (inum : Z) : I inode :=
  let bn := IBLOCK inum sb in
  buf <- rsect bn ;;
  ret (load_dinode (di_off inum) buf inode0).

Definition next_inode : I Z :=
  n <- gets im_freeinode ;;
  modify (fun im => mkImage (im_sect im) (u32 (n + 1)) (im_freeblock im)) ;;
  ret n.

(** [freeblock++] *)
Definition next_block : I Z :=
  n <- gets im_freeblock ;;
  modify (fun im => mkImage (im_sect im) (im_freeinode im) (u32 (n + 1))) ;;
  ret n.

Definition ialloc (type : Z) : I Z :=
  inum <- next_inode ;;
  let din := inode0 in
  let din := set_i_type (s16 (xshort type)) din in
  let din := set_i_nlink (s16 (xshort 1)) din in
  let din := set_i_size (xint 0) din in
  winode inum din ;;
  ret inum.

(** The block of the free map with the first [used] bits set. *)
Definition bitmap (used : Z) : list Z :=
  foldl (fun buf i => mark_used buf (Z.of_nat i)) zeroes (seq 0 (Z.to_nat used)).

Definition balloc (used : Z) : I unit :=
  if negb (used <? BSIZE * 8) then panic "assert" else
  wsect (sb_bmapstart sb) (bitmap used).

(** The block of the file that holds byte [off], allocated if need be. *)
Definition file_block (din : inode) (fbn : Z) : I (inode * Z) :=
  if fbn <? NDIRECT then
    let a := nth (Z.to_nat fbn) (i_addrs din) 0 in
    din <-
      (if xint a =? 0 then
         b <- next_block ;;
         ret (set_i_addrs (<[Z.to_nat fbn := xint b]> (i_addrs din)) din)
       else ret din) ;;
    ret (din, xint (nth (Z.to_nat fbn) (i_addrs din) 0))
  else
    din <-
      (if xint (nth (Z.to_nat NDIRECT) (i_addrs din) 0) =? 0 then
         b <- next_block ;;
         ret (set_i_addrs (<[Z.to_nat NDIRECT := xint b]> (i_addrs din)) din)
       else ret din) ;;
    let ind := xint (nth (Z.to_nat NDIRECT) (i_addrs din) 0) in
    indirect <- rsect ind ;;
    let off := Z.to_nat (4 * (fbn - NDIRECT)) in
    indirect <-
      (if get32 off indirect =? 0 then
         b <- next_block ;;
         let indirect := put32 off (xint b) indirect in
         wsect ind indirect ;;
         ret indirect
       else ret indirect) ;;
    ret (din, xint (get32 off indirect)).

(** The loop of [iappend]; every iteration writes at least a byte. *)
Definition iappend (inum : Z) (p : list Z) : I unit :=
  din <- rinode inum ;;
  ' (din, off) <- loop_fuel (S (length p)) (fun '(din, off, p) =>
    if (length p =? 0)%nat then ret (inr (din, off)) else
    let fbn := off / BSIZE in
    if negb (fbn <? MAXFILE) then panic "assert" else
    ' (din, x) <- file_block din fbn ;;
    let n1 := Z.min (Z.of_nat (length p)) ((fbn + 1) * BSIZE - off) in
    buf <- rsect x ;;
    wsect x (splice (Z.to_nat (off - fbn * BSIZE)) (take (Z.to_nat n1) p) buf) ;;
    ret (inl (din, off + n1, drop (Z.to_nat n1) p))) (din, xint (i_size din), p) ;;
  winode inum (set_i_size (xint off) din).

(** A [struct dirent]. *)
Definition dirent_bytes (inum : Z) (name : list Z) : list Z :=
  le_bytes 2 (xshort inum) ++ strncpy_bytes name (Z.to_nat DIRSIZ).

(** The loop over the input files. *)
Definition add_file (rootino : Z) (file : list Z * list (list Z)) : I unit :=
  let '(name, pieces) := file in
  if bool_decide (47 ∈ name) then panic "assert" else
  let name := if hd 0 name =? 95 then tl name else name in
  inum <- ialloc T_FILE ;;
  iappend rootino (dirent_bytes inum name) ;;
  for_all pieces (iappend inum).

Definition main (files : list (list Z * list (list Z))) : I unit :=
  modify (fun im => mkImage (im_sect im) (im_freeinode im) nmeta) ;;
  for_all (seq 0 (Z.to_nat FSSIZE)) (fun i => wsect (Z.of_nat i) zeroes) ;;
  wsect 1 (splice 0 sb_bytes zeroes) ;;
  rootino <- ialloc T_DIR ;;
  if negb (rootino =? ROOTINO) then panic "assert" else
  iappend rootino (dirent_bytes rootino (chars ".")) ;;
  iappend rootino (dirent_bytes rootino (chars "..")) ;;
  for_all files (add_file rootino) ;;
  din <- rinode rootino ;;
  let off := xint (i_size din) in
  let off := (off / BSIZE + 1) * BSIZE in
  winode rootino (set_i_size (xint off) din) ;;
  used <- gets im_freeblock ;;
  balloc (s32 used).

(** The image file before the program runs. *)
Definition empty_image : image := mkImage ∅ 1 0.

(** ** The image and the kernel *)

Lemma zeroes_unused b : 0 <= b -> bit_used zeroes b = false.
Proof.
  intros Hb. unfold bit_used, bit_byte, zeroes. rewrite nth_lookup.
  destruct (replicate _ 0 !! _) as [x|] eqn:E; cbn; [|by rewrite Z.land_0_l].
  apply lookup_replicate in E as [-> _]. by rewrite Z.land_0_l.
Qed.

Lemma bitmap_spec n b :
  (n <= 4096)%nat -> 0 <= b < BPB ->
  let buf := foldl (fun buf i => mark_used buf (Z.of_nat i)) zeroes (seq 0 n) in
  length buf = 512%nat /\ bit_used buf b = (b <? Z.of_nat n).
Proof.
  intros Hn Hb. induction n as [|n IH]; cbv zeta in *.
  - cbn [seq foldl]. split; [done|]. rewrite zeroes_unused by lia. symmetry. apply Z.ltb_ge. lia.
  - destruct IH as [IHl IHb]; [lia|]. rewrite seq_S, foldl_app. cbn [foldl Nat.add].
    split; [by rewrite length_mark_used|]. unfold BPB, BSIZE in *.
    rewrite (proj1 (bitmap_update _ (Z.of_nat n) b IHl ltac:(unfold BPB, BSIZE; lia) ltac:(unfold BPB, BSIZE; lia))), IHb.
    destruct (Z.eqb_spec b (Z.of_nat n)), (Z.ltb_spec b (Z.of_nat n)), (Z.ltb_spec b (Z.of_nat (S n))); cbn; lia || done.
Qed.



End Mkfs.
