(* ===== verification/Boot.v ===== *)
(** bootmain.c: the boot loader's second part.  It runs alone on the machine: the
    state is the memory, the registers of the disk controller, and the disk. *)

From S2P Require Import Prelude Bytes Machine Demo Cstring Spinlock Consout Kalloc Sleep Disk.
From S2P Require Import Bio Log Fs Vm Pipe File Proc Exec.
Import Cstring.

Module Boot.

Definition SECTSIZE : Z := 512.

Record bootstate : Type := mkBoot {
  bs_mem : memory;
  bs_regs : gmap Z Z;
  bs_disk : Z -> list Z
}.

Definition B (A : Type) : Type := M bootstate A.

Definition outb (port v : Z) : B unit :=
  modify (fun s => mkBoot (bs_mem s) (<[port := u8 v]> (bs_regs s)) (bs_disk s)).

Definition reg (s : bootstate) (port : Z) : Z := default 0 (bs_regs s !! port).

(** The sector that the registers of the controller name. *)
Definition selected (s : bootstate) : Z :=
  reg s 0x1F3 + 256 * reg s 0x1F4 + 65536 * reg s 0x1F5 + 16777216 * Z.land (reg s 0x1F6) 0xF.

(** The bytes of the list, one after the other. *)
Fixpoint store_list (m : memory) (a : Z) (l : list Z) : memory :=
  match l with
  | [] => m
  | b :: l' => store_list (store m a b) (a + 1) l'
  end.

(** The disk is always ready. *)
Definition waitdisk : B unit := ret tt.

(** The data register, after the command to read. *)
Definition insl (addr cnt : Z) : B unit :=
  modify (fun s => mkBoot (store_list (bs_mem s) addr (take (Z.to_nat (4 * cnt)) (bs_disk s (selected s))))
    (bs_regs s) (bs_disk s)).

Definition readsect (dst offset : Z) : B unit :=
  waitdisk ;;
  outb 0x1F2 1 ;;
  outb 0x1F3 offset ;;
  outb 0x1F4 (Z.shiftr offset 8) ;;
  outb 0x1F5 (Z.shiftr offset 16) ;;
  outb 0x1F6 (Z.lor (Z.shiftr offset 24) 0xE0) ;;
  outb 0x1F7 0x20 ;;
  waitdisk ;;
  insl dst (SECTSIZE / 4).

(** The loop's bound is the number of sectors between the addresses. *)
Definition readseg (pa count offset : Z) : B unit :=
  let epa := pa + count in
  let pa := pa - offset mod SECTSIZE in
  let offset := offset / SECTSIZE + 1 in
  loop_fuel (S (S (Z.to_nat ((epa - pa) / SECTSIZE)))) (fun '(pa, offset) =>
    if negb (pa <? epa) then ret (inr tt) else
    readsect pa offset ;;
    ret (inl (pa + SECTSIZE, offset + 1))) (pa, offset).

Definition load_bytes (m : memory) (a : Z) (n : nat) : list Z :=
  (fun i => m (a + Z.of_nat i)) <$> seq 0 n.

(** [ph->paddr] *)
Definition ph_paddr (h : list Z) : Z := get32 12 h.

(** The program headers from address [ph] on. *)
Fixpoint load_kernel (n : nat) (ph : Z) : B unit :=
  match n with
  | O => ret tt
  | S n' =>
      h <- gets (fun s => load_bytes (bs_mem s) ph (Z.to_nat Exec.sizeof_proghdr)) ;;
      let pa := ph_paddr h in
      readseg pa (Exec.ph_filesz h) (Exec.ph_off h) ;;
      when (Exec.ph_filesz h <? Exec.ph_memsz h)
        (modify (fun s => mkBoot
          (stosb (bs_mem s) (pa + Exec.ph_filesz h) 0 (Z.to_nat (Exec.ph_memsz h - Exec.ph_filesz h)))
          (bs_regs s) (bs_disk s))) ;;
      load_kernel n' (ph + Exec.sizeof_proghdr)
  end.

(** The address of the kernel that is called; [None] when the loader returns
    because there is no kernel. *)
Definition bootmain : B (option Z) :=
  let elf := 0x10000 in
  readseg elf 4096 0 ;;
  h <- gets (fun s => load_bytes (bs_mem s) elf (Z.to_nat Exec.sizeof_elfhdr)) ;;
  if negb (Exec.elf_magic h =? Exec.ELF_MAGIC) then ret None else
  load_kernel (Z.to_nat (Exec.elf_phnum h)) (elf + Exec.elf_phoff h) ;;
  h <- gets (fun s => load_bytes (bs_mem s) elf (Z.to_nat Exec.sizeof_elfhdr)) ;;
  ret (Some (Exec.elf_entry h)).

(** ** Reading the kernel *)

(** The bytes of the kernel's image, which starts at sector 1. *)
Definition image_byte (disk : Z -> list Z) (i : Z) : Z := nth (Z.to_nat (i mod 512)) (disk (i / 512 + 1)) 0.

Lemma store_list_spec l m a x :
  store_list m a l x = if decide (a <= x < a + Z.of_nat (length l)) then nth (Z.to_nat (x - a)) l 0 else m x.
Proof.
  revert m a. induction l as [|b l IH]; intros m a; cbn [store_list length].
  { rewrite decide_False by lia. done. }
  rewrite IH. unfold store. destruct (decide (a + 1 <= x < a + 1 + Z.of_nat (length l))).
  - rewrite decide_True by lia. replace (Z.to_nat (x - a)) with (S (Z.to_nat (x - (a + 1)))) by lia. done.
  - destruct (Z.eqb_spec x a) as [->|Hne].
    + rewrite decide_True by lia. by rewrite Z.sub_diag.
    + rewrite decide_False by lia. done.
Qed.

Lemma drive_bits x : 0 <= x < 16 -> Z.land (u8 (Z.lor x 0xE0)) 0xF = x.
Proof.
  intros Hx. assert (Forall (fun x => Z.land (u8 (Z.lor x 0xE0)) 0xF = x) (seqZ 0 16)) as H
    by (apply (bool_decide_unpack _); vm_compute; exact I).
  rewrite Forall_forall in H. apply H, elem_of_seqZ. lia.
Qed.

(** A sector's number from its bytes. *)
Lemma sector_bytes sec :
  0 <= sec < 2 ^ 28 ->
  u8 sec + 256 * u8 (Z.shiftr sec 8) + 65536 * u8 (Z.shiftr sec 16) +
    16777216 * Z.land (u8 (Z.lor (Z.shiftr sec 24) 0xE0)) 0xF = sec.
Proof.
  intros Hs. rewrite !Z.shiftr_div_pow2 by lia. change (2 ^ 8) with 256.
  change (2 ^ 16) with (256 * 256). change (2 ^ 24) with (256 * 256 * 256).
  rewrite <- !Z.div_div by lia. set (a := sec / 256). set (b := a / 256). set (c := b / 256).
  pose proof (Z.div_mod sec 256 ltac:(lia)). pose proof (Z.div_mod a 256 ltac:(lia)).
  pose proof (Z.div_mod b 256 ltac:(lia)).
  assert (0 <= a < 2 ^ 20) by (split; [apply Z.div_pos; lia|apply Z.div_lt_upper_bound; lia]).
  assert (0 <= b < 2 ^ 12) by (split; [apply Z.div_pos; lia|apply Z.div_lt_upper_bound; lia]).
  assert (0 <= c < 2 ^ 4) by (split; [apply Z.div_pos; lia|apply Z.div_lt_upper_bound; lia]).
  rewrite drive_bits by lia. unfold u8. lia.
Qed.

Lemma readsect_ok dst sec e s :
  0 <= sec < 2 ^ 28 -> length (bs_disk s sec) = 512%nat ->
  exists regs, readsect dst sec e s = Ok tt e (mkBoot (store_list (bs_mem s) dst (bs_disk s sec)) regs (bs_disk s)).
Proof.
  intros Hs Hl. eexists. unfold readsect, waitdisk, outb, insl, bind, ret, modify.
  cbn [bs_mem bs_disk bs_regs]. do 2 f_equal. f_equal.
  replace (selected _) with sec; [rewrite take_ge; [done|]; rewrite Hl; vm_compute; lia|].
  symmetry. etrans; [|by apply sector_bytes]. unfold selected, reg. cbn [bs_regs].
  by repeat first [rewrite lookup_insert_eq | rewrite lookup_insert_ne by done].
Qed.

Section readseg.
Context (disk : Z -> list Z) (sectors : forall n, length (disk n) = 512%nat).

(** The loop of [readseg] with [n] sectors to come. *)
Lemma readseg_loop n fuel pa sec epa e s :
  (n < fuel)%nat -> bs_disk s = disk -> 0 <= sec -> sec + Z.of_nat n < 2 ^ 28 ->
  pa + 512 * (Z.of_nat n - 1) < epa <= pa + 512 * Z.of_nat n ->
  exists s', loop_fuel fuel (fun '(pa, offset) =>
      if negb (pa <? epa) then ret (inr tt) else
      readsect pa offset ;;
      ret (inl (pa + SECTSIZE, offset + 1))) (pa, sec) e s = Ok tt e s' /\
    bs_disk s' = disk /\
    forall x, bs_mem s' x =
      if decide (pa <= x < pa + 512 * Z.of_nat n) then image_byte disk (512 * (sec - 1) + (x - pa)) else bs_mem s x.
Proof.
  revert fuel pa sec s. induction n as [|n IH]; intros fuel pa sec s Hf Hd Hs Hsn Hp;
    (destruct fuel as [|fuel]; [lia|]); cbn [loop_fuel].
  { rewrite (proj2 (Z.ltb_ge _ _)) by lia. exists s. split; [done|]. split; [done|].
    intros x. by rewrite decide_False by lia. }
  rewrite (proj2 (Z.ltb_lt _ _)) by lia. cbn [negb].
  destruct (readsect_ok pa sec e s) as [regs E]; [lia|by rewrite Hd|].
  unfold bind at 1 2. rewrite E. cbn [ret]. unfold SECTSIZE.
  destruct (IH fuel (pa + 512) (sec + 1) (mkBoot (store_list (bs_mem s) pa (bs_disk s sec)) regs (bs_disk s)))
    as (s' & E' & Hd' & Hm'); [lia|done|lia|lia|lia|].
  exists s'. split; [exact E'|]. split; [done|]. intros x. rewrite Hm'. cbn [bs_mem].
  rewrite store_list_spec, Hd, sectors. destruct (decide (pa + 512 <= x < pa + 512 + 512 * Z.of_nat n)).
  - rewrite decide_True by lia. f_equal. lia.
  - destruct (decide (pa <= x < pa + 512)) as [Hx|Hx].
    + rewrite !decide_True by lia. unfold image_byte.
      rewrite <- (Z.div_unique (512 * (sec - 1) + (x - pa)) 512 (sec - 1) (x - pa)) by lia.
      rewrite <- (Z.mod_unique (512 * (sec - 1) + (x - pa)) 512 (sec - 1) (x - pa)) by lia.
      by replace (sec - 1 + 1) with sec by lia.
    + rewrite !decide_False by lia. done.
Qed.
End readseg.



End Boot.
